(* ===== verification/_CoqProject ===== *)
-Q . S2P
Prelude.v
PyStr.v
PyVal.v
PyFloat.v
Json.v
Errors.v
CommandPolicy.v
Validate.v
Paths.v
Models.v
Database.v
Session.v
Preserve.v
Rows.v
Collaboration.v
Coordination.v
Autonomy.v
Controls.v
Assignments.v
Approvals.v
Permits.v
Recovery.v
ChatContext.v
McpChatContext.v
PyUrl.v
Auth.v
OAuth.v
ThinEnrolment.v
Roots.v
FederationPolicy.v
Federation.v
ThinClient.v
ThinRuntime.v
ApprovalPreview.v
McpUpstream.v
FederationBroker.v
Outbox.v
Broker.v
Realtime.v
Footprint.v
System.v
Evolution.v
Demo.v
LeaseProofs.v
CommandProofs.v
ApprovalProofs.v
PermitProofs.v
Authority.v
AuthorityProofs.v
Atomicity.v
RecoveryProofs.v
PolicyProofs.v
KillSwitch.v
Snapshots.v
CanonicalJson.v
Freshness.v
Publishing.v
DeliveryDemo.v
OutboxProofs.v
ClaimProofs.v
PublishingProofs.v
RealtimeProofs.v
NotifyingProofs.v
ChatSteps.v
ChatSpecs.v
ChatProofs.v
ChatDemo.v
FederationSpecs.v
ActionProofs.v
PreparedArguments.v
ActionAuthority.v
FederationDemo.v
OAuthProofs.v
OAuthDemo.v
ConsentProofs.v
RuntimeProofs.v
ThinRuntimeDemo.v
ThinClientSteps.v
ThinClientProofs.v
