(* ===== verification/Prelude.v ===== *)
(** * The gateway's agent control plane: a verification development

    The gateway (src/services/gateway-api/gateway_api) lets agents of several owners
    work together under the control of people: they register, share rooms, exchange
    messages, commands and work items (agent_collaboration.py), reserve paths of a
    repository (agent_coordination.py), and act under policies, approvals, single-use
    permits and kill switches (agent_autonomy.py).  Every change is reported to an
    audit log and an outbox in the same transaction (events.py); publishers deliver
    the outbox through a broker (outbox.py, broker.py), and every replica turns broker
    events into notifications for the agents connected to it (realtime.py).  Chat
    conversations are known by short codes that are leased, quarantined and rotated
    (chat_context.py, mcp_chat_context.py).  Tools of upstream MCP servers are recorded,
    classified and exposed in a registry (mcp_federation.py, mcp_federation_policy.py);
    reading ones are called directly and the others as guarded actions, which are
    prepared, approved, permitted and executed (mcp_federation_broker.py,
    mcp_upstream.py, affine_approval_projection.py); those of servers on a person's own
    machine are called over the web sockets of thin clients (thin_client_control.py),
    which people enrol (routers/thin_clients.py) and which report their runtimes and
    propose filesystem roots (thin_client_mcp.py, mcp_root_federation.py).  Users sign in
    and authorize clients to act for them (auth.py, routers/auth.py, routers/oauth.py).

    ** How the program is modelled

    A request runs in one SQLAlchemy session.  Session.v models it as a monad over a
    [world]: the committed database, the session's working copy, whether a pending row
    breaks a unique constraint, and two counters that index the clock and the random
    sources.  Handlers are written in this monad, call by call, as the Python code
    runs them; an exception is a value of [result] (Errors.v).  [run] opens a session,
    runs a handler and drops what was not committed.  System.v lists the operations
    ([op]), runs them one after the other ([exec], [exec_all]) and defines [reachable]
    stores: those that any sequence of operations, with any arguments, leads to from
    the empty database.  Sessions are interleaved as wholes: a handler sees no other
    session's commit while it runs, except where the program itself splits its work
    into several sessions (run_once, _on_broker_event), which the model splits too, and
    at the call of an upstream server, where execute_action and call_read wait: what
    precedes the call ([BeginAction], [StartRead]) and what follows its answer
    ([CompleteCall], [FailCall], [FinishAction]) are operations of their own.  The
    connections of thin clients live in memory: ThinClient.v models them as a machine
    of its own with one step for each stretch of code between two awaits.

    Files, in the order of the layers:
    - Prelude, PyStr, PyVal, PyFloat, Json, Errors: record update, sorting and lists;
      Python strings (Latin-1), values, [str], [json.dumps], [json.loads], binary64;
    - CommandPolicy, Validate, Paths: the pure checks of agent_command_policy.py, the
      field normalisers and the path reservations with their overlap test;
    - Models, Database, Session: the rows of models.py as records, the tables with
      their unique constraints, sessions and emit_event;
    - Preserve, Rows: preservation of database properties by handlers ([pres],
      [Stable], [Emits]), the laws of tables, and symbolic execution ([wp_step]);
    - Collaboration, Coordination, Autonomy, Controls, Assignments, Approvals,
      Permits, Recovery: one definition per handler of the three agent services;
    - ChatContext, McpChatContext: the codes of conversations and the admission of calls;
    - Auth, OAuth, ThinEnrolment: users and the tokens that stand for them, the
      authorization server, device codes and the enrolment of thin clients;
    - Roots, ThinRuntime: the grants of filesystem roots, and what the database records
      of the runtimes of thin clients, their reports and the loss of their sockets;
    - PyUrl, FederationPolicy, Federation, ApprovalPreview, McpUpstream,
      FederationBroker: URLs, the policy decision, the registry, what a reviewer is
      shown, the record of a call (over HTTP or to a thin client), and reads and guarded
      actions;
    - Outbox, Broker, Realtime, Publishing: delivery of events, from the claim of a batch
      to the notification of an agent;
    - ThinClient, ThinClientSteps, ThinClientProofs: the connections of thin clients and
      the requests that wait on them, the steps and runs of this machine, its theorems;
    - Footprint, System, Evolution: which tables each operation writes, the operations
      as one transition system, rows related to their later versions by a preorder
      ([evolved], [exec_all_kept]), and the operation that brought a fact about ([history]);
    - Demo, DeliveryDemo, ChatDemo, FederationDemo, OAuthDemo, ThinRuntimeDemo: concrete
      runs on which the witnesses are stated;
    - the Proofs files and Authority, Atomicity, KillSwitch, Snapshots, CanonicalJson,
      Freshness, ChatSteps, ChatSpecs, FederationSpecs, PreparedArguments,
      ActionAuthority: the theorems.

    ** What the theorems show

    - Authority (Authority, AuthorityProofs): a privileged command that was accepted,
      executed or finished has the whole chain of an approved request, a permit and a
      receipt behind it, over the digest of its envelope; ApprovalProofs and
      PermitProofs give the verdict of a request and the single use of a permit;
      CanonicalJson that the digest identifies the command.
    - Control (KillSwitch, Snapshots, PolicyProofs, RecoveryProofs): what a stop
      revokes, that nothing starts while stopped, versions of policies, bounds on
      recovery attempts.
    - Coordination (Paths, LeaseProofs): overlapping exclusive leases are excluded, up
      to the pairs the overlap test misses, and fencing tokens are unique.
    - Commands and transactions (CommandProofs, Atomicity): life cycle of a command;
      a refused operation changes nothing.
    - Delivery (OutboxProofs, ClaimProofs, PublishingProofs, Broker, Json,
      RealtimeProofs, NotifyingProofs): life cycle of an event, stale claims, gapless attempts, liveness of a run, retry delays in
      binary64, message ids, the wire, and what an agent is notified of.
    - Conversations (ChatProofs, on the steps of ChatSteps and ChatSpecs):
      codes are exclusive and keep their context, a bound conversation resolves, and
      which calls are admitted under which context.
    - Federation (FederationSpecs, ActionProofs, PreparedArguments, ActionAuthority):
      the policy decision is exact; a guarded call has its preparation, approval and
      permit behind it, is sent at most once, and sends the arguments that were
      prepared.
    - Tokens (OAuthProofs): an access token rests on an authorization by its user, a code
      is exchanged once, and a signed token stands for its subject.
    - Consent (ConsentProofs): an agent token rests on an activation by its user, and an
      approved root on a review by its owner that is still good.
    - Thin clients (ThinClientProofs, RuntimeProofs): answers are matched to the exact
      request, no call waits in vain, every call ends, and an interrupted call is
      reported honestly; a server has at most one active connection, and the loss of a
      socket settles exactly the calls that ran over it.

    ** Oracles, bounds and fuel

    The clock, [uuid4], [uuid5], the sources of random texts, SHA-256, HMAC, Fernet, the
    JWT library, the validation of JSON schemas and the settings are the fields of the
    class [Env]; theorems hold for all of them, and the few that need distinct identifiers
    or a library that undoes its own encoding say so.  What Keycloak answers to a sign-in
    is an argument of the operation.  Recursions over Python values are structural; the JSON scanner takes the
    length of its input as fuel, and every call consumes a character.  Integers are
    unbounded, as in Python; times are microseconds since the epoch, without the range
    limits of [datetime].

    ** Not modelled

    FastAPI wiring, request models and the pages they answer with; foreign keys; the asyncio loops
    that call the workers' cycles; the NATS client; the projection of approvals to
    AFFiNE; cold history; planner estimates of PostgreSQL; floats in JSON and
    characters beyond Latin-1; the connections to upstream MCP servers, the
    normalisation of their tool descriptors, the limits on their answers (an answer is
    given to the model as [_limit_result] leaves it), search and description of the
    catalogue, resources and prompts; usage accounting; the catalogues
    that local servers send, and the command sessions of thin clients; the local tool
    server.  Two sessions that interleave between a read and a commit are not modelled, so
    what only a row lock would exclude (two exchanges of one code at once) is out of reach.
    Queries without an order return their rows in the order of the table's keys.  A
    [TypeError] stands for any conversion error that the program does not handle. *)

From stdpp Require Export base tactics list list_numbers gmap strings sorting pretty.
From Stdlib Require Export ZArith Lia.

#[global] Open Scope string_scope.
#[global] Open Scope Z_scope.
#[global] Open Scope list_scope.

(** ** Record update

    [Settable R] gives the eta expansion of a record; [set f g r] applies [g]
    to the field read by the projection [f].  The update function of a field is
    synthesised by abstracting the projection in the eta expansion. *)
Class Settable (R : Type) : Type := eta_of : R → R.
Class Setter {R E : Type} (get : R → E) : Type := set_with : (E → E) → R → R.
Arguments set_with {R E} get {_} _ _.

Ltac solve_setter :=
  lazymatch goal with
  | |- @Setter ?R ?E ?get =>
      let e := eval hnf in (@eta_of R _) in
      let p := eval pattern get in e in
      lazymatch p with
      | ?F _ =>
          let t := eval cbv beta in
            (fun (f : E → E) (r : R) => F (fun x => f (get x)) r) in
          exact t
      end
  end.

#[export] Hint Extern 0 (Setter _) => solve_setter : typeclass_instances.

Declare Scope record_scope.
Delimit Scope record_scope with record.
#[global] Open Scope record_scope.
Notation "r <| f := v |>" := (set_with f (fun _ => v) r)
  (at level 1, f at next level, left associativity) : record_scope.
Notation "r <| f ::= g |>" := (set_with f g r)
  (at level 1, f at next level, left associativity) : record_scope.

#[global] Arguments set_with : simpl never.

(** Reduce the projections of updated records, one update at a time. *)
Ltac set_step :=
  match goal with
  | |- context [?p (@set_with ?R ?E ?f ?S ?g ?r)] =>
      let H := fresh in
      first
        [ unify p f;
          assert (forall (g' : E → E) (r' : R), f (@set_with R E f S g' r') = g' (f r')) as H
            by (intros; reflexivity)
        | assert (forall (g' : E → E) (r' : R), p (@set_with R E f S g' r') = p r') as H
            by (intros; reflexivity) ];
      rewrite (H g r); clear H
  end.
Ltac set_simpl := repeat (set_step; cbv beta).

(** ** Boolean tests *)
Declare Scope test_scope.
#[global] Open Scope test_scope.
Notation "x ==? y" := (bool_decide (x = y)) (at level 70) : test_scope.
Notation "x =/? y" := (negb (bool_decide (x = y))) (at level 70) : test_scope.
Notation "x ∈? l" := (bool_decide (x ∈ l)) (at level 70) : test_scope.

Definition is_none {A} (o : option A) : bool :=
  match o with None => true | Some _ => false end.

(** Truthiness of a list. *)
Definition nonempty {A} (l : list A) : bool := match l with [] => false | _ => true end.

(** [timedelta(seconds=n)] in microseconds, the unit of every time. *)
Definition seconds (n : Z) : Z := n * 1000000.

(** ** Sorting by a key order *)
Section sort_by.
Context {A : Type} (leb : A → A → bool).
Definition by_leb (x y : A) : Prop := leb x y = true.
#[local] Instance by_leb_dec (x y : A) : Decision (by_leb x y) :=
  decide (leb x y = true).
Definition sort_by (l : list A) : list A := merge_sort by_leb l.

Lemma sort_by_perm l : sort_by l ≡ₚ l.
Proof. apply merge_sort_Permutation. Qed.

Lemma sort_by_elem x l : x ∈ sort_by l ↔ x ∈ l.
Proof. by rewrite sort_by_perm. Qed.

Lemma sort_by_length l : length (sort_by l) = length l.
Proof. by rewrite sort_by_perm. Qed.
End sort_by.

(** The order of [ORDER BY k1, k2, ...], from the comparisons of the keys. *)
Fixpoint lex_leb (keys : list comparison) : bool :=
  match keys with
  | [] => true
  | Eq :: keys => lex_leb keys
  | Lt :: _ => true
  | Gt :: _ => false
  end.

(** ** Lists *)

(** Keep the first occurrence of every element, in order. *)
Fixpoint dedup `{EqDecision A} (l : list A) : list A :=
  match l with
  | [] => []
  | x :: l => x :: filter (λ y, y ≠ x) (dedup l)
  end.

Lemma dedup_elem `{EqDecision A} (x : A) l : x ∈ dedup l ↔ x ∈ l.
Proof.
  induction l as [|y l IH]; simpl; [done|].
  rewrite !elem_of_cons, list_elem_of_filter, IH.
  destruct (decide (x = y)); naive_solver.
Qed.

Lemma dedup_NoDup `{EqDecision A} (l : list A) : NoDup (dedup l).
Proof.
  induction l as [|y l IH]; simpl; constructor.
  - rewrite list_elem_of_filter. naive_solver.
  - by apply NoDup_filter.
Qed.

Definition max_Z (l : list Z) : Z := foldr Z.max 0 l.

Lemma max_Z_ub l x : x ∈ l → x ≤ max_Z l.
Proof.
  induction l as [|y l IH]; intros H; [by apply not_elem_of_nil in H|].
  apply elem_of_cons in H as [->|H]; simpl; [lia|].
  specialize (IH H). lia.
Qed.

Lemma max_Z_nonneg l : 0 ≤ max_Z l.
Proof. induction l; simpl; lia. Qed.
