(* ===== verification/PyStr.v ===== *)
(** * Python strings

    A Python [str] is modelled as a sequence of 8-bit code points (Latin-1), so
    the character classes used by [str.strip], [str.lower] and [str.isalnum] are
    those of the code points 0-255. *)

From S2P Require Import Prelude.
From Stdlib Require Import Ascii.

(** ** Characters *)
Definition code (c : ascii) : Z := Z.of_N (N_of_ascii c).
Definition chr (z : Z) : ascii := ascii_of_N (Z.to_N z).
Definition between (lo hi c : Z) : bool := (lo <=? c) && (c <=? hi).

(** [str.isspace] on Latin-1. *)
Definition is_space (c : ascii) : bool :=
  let n := code c in
  between 9 13 n || between 28 32 n || (n =? 133) || (n =? 160).

Definition is_upper (c : ascii) : bool :=
  let n := code c in between 65 90 n || (between 192 222 n && negb (n =? 215)).

Definition lower_char (c : ascii) : ascii :=
  if is_upper c then chr (code c + 32) else c.

Definition is_digit (c : ascii) : bool := between 48 57 (code c).

(** [str.isalnum] on Latin-1: letters, decimal digits, superscripts, fractions. *)
Definition is_alnum (c : ascii) : bool :=
  let n := code c in
  between 48 57 n || between 65 90 n || between 97 122 n
  || (n =? 170) || (n =? 178) || (n =? 179) || (n =? 181) || (n =? 185) || (n =? 186)
  || between 188 190 n
  || (between 192 255 n && negb (n =? 215) && negb (n =? 247)).

(** ** Whole strings *)
Fixpoint chars (s : string) : list ascii :=
  match s with EmptyString => [] | String c s => c :: chars s end.

Fixpoint of_chars (l : list ascii) : string :=
  match l with [] => EmptyString | c :: l => String c (of_chars l) end.

Definition len (s : string) : Z := Z.of_nat (String.length s).

Fixpoint lstrip_by (p : ascii → bool) (l : list ascii) : list ascii :=
  match l with
  | [] => []
  | c :: l' => if p c then lstrip_by p l' else l
  end.

Definition rstrip_by (p : ascii → bool) (l : list ascii) : list ascii :=
  rev (lstrip_by p (rev l)).

Definition strip (s : string) : string :=
  of_chars (rstrip_by is_space (lstrip_by is_space (chars s))).

Definition rstrip_char (c : ascii) (s : string) : string :=
  of_chars (rstrip_by (λ x, bool_decide (x = c)) (chars s)).

Definition lower (s : string) : string := of_chars (map lower_char (chars s)).

Definition replace_char (a b : ascii) (s : string) : string :=
  of_chars (map (λ c, if bool_decide (c = a) then b else c) (chars s)).

(** [s[:n]] for [0 <= n]. *)
Definition truncate (n : nat) (s : string) : string := of_chars (take n (chars s)).

(** [s[n:]] for [0 <= n]. *)
Definition suffix_from (n : nat) (s : string) : string := of_chars (drop n (chars s)).

Fixpoint list_prefix (l k : list ascii) : bool :=
  match l, k with
  | [], _ => true
  | _ :: _, [] => false
  | x :: l, y :: k => bool_decide (x = y) && list_prefix l k
  end.

Definition startswith (s pre : string) : bool := list_prefix (chars pre) (chars s).
Definition endswith (s suf : string) : bool :=
  list_prefix (rev (chars suf)) (rev (chars s)).

Definition contains_char (c : ascii) (s : string) : bool := c ∈? chars s.

(** [s.split(c)]: the pieces between the separators, at least one. *)
Fixpoint split_on (c : ascii) (l : list ascii) : list (list ascii) :=
  match l with
  | [] => [[]]
  | x :: l =>
      if bool_decide (x = c) then [] :: split_on c l
      else match split_on c l with
           | [] => [[x]]
           | p :: ps => (x :: p) :: ps
           end
  end.

(** [s.split()] *)
Fixpoint split_words (word : list ascii) (l : list ascii) : list string :=
  let close := match word with [] => [] | _ => [of_chars (rev word)] end in
  match l with
  | [] => close
  | c :: l => if is_space c then close ++ split_words [] l else split_words (c :: word) l
  end.

(** [s.replace(",", " ").split()] *)
Definition comma_words (s : string) : list string := split_words [] (chars (replace_char "," " " s)).

Fixpoint join (sep : string) (l : list string) : string :=
  match l with
  | [] => ""
  | [x] => x
  | x :: l => x +:+ sep +:+ join sep l
  end.

Definition str_leb (a b : string) : bool :=
  match String.compare a b with Gt => false | _ => true end.
Definition str_ltb (a b : string) : bool :=
  match String.compare a b with Lt => true | _ => false end.

Definition sort_strings (l : list string) : list string := sort_by str_leb l.

(** ** [int(str)] *)
Fixpoint digits_value (acc : Z) (l : list ascii) : option Z :=
  match l with
  | [] => Some acc
  | c :: l =>
      if is_digit c then digits_value (10 * acc + (code c - 48)) l
      else if bool_decide (c = "_"%char) then
        match l with
        | d :: _ => if is_digit d then digits_value acc l else None
        | [] => None
        end
      else None
  end.

(** The first character of the digits must be a digit. *)
Definition unsigned_value (l : list ascii) : option Z :=
  match l with
  | c :: _ => if is_digit c then digits_value 0 l else None
  | [] => None
  end.

Definition int_of_str (s : string) : option Z :=
  match chars (strip s) with
  | c :: l =>
      if bool_decide (c = "-"%char) then Z.opp <$> unsigned_value l
      else if bool_decide (c = "+"%char) then unsigned_value l
      else unsigned_value (c :: l)
  | [] => None
  end.

(** ** UTF-8 *)
Definition utf8_char (c : ascii) : list ascii :=
  let n := code c in
  if n <? 128 then [c] else [chr (192 + n / 64); chr (128 + n mod 64)].
Definition utf8_encode (s : string) : string := of_chars (flat_map utf8_char (chars s)).

(** ** Lemmas *)
Lemma chars_of_chars l : chars (of_chars l) = l.
Proof. induction l; simpl; congruence. Qed.

Lemma of_chars_chars s : of_chars (chars s) = s.
Proof. induction s as [|c s IH]; simpl; [done|by rewrite IH]. Qed.

Lemma chars_inj s t : chars s = chars t → s = t.
Proof.
  intros H. apply (f_equal of_chars) in H. by rewrite !of_chars_chars in H.
Qed.

Lemma chars_app (s t : string) : chars (s +:+ t) = chars s ++ chars t.
Proof. induction s as [|c s IH]; simpl; [done|by rewrite IH]. Qed.

Lemma length_chars s : length (chars s) = String.length s.
Proof. induction s as [|c s IH]; simpl; [done|by rewrite IH]. Qed.

Lemma list_prefix_spec l k : list_prefix l k = true ↔ ∃ r, k = l ++ r.
Proof.
  revert k; induction l as [|x l IH]; intros k; simpl.
  - split; [by exists k|done].
  - destruct k as [|y k]; [split; [done|by intros [? ?]]|].
    rewrite andb_true_iff, bool_decide_eq_true, IH.
    split; [intros [-> [r ->]]; by exists r|intros [r [= -> ->]]; eauto].
Qed.

Lemma startswith_spec s pre : startswith s pre = true ↔ ∃ r, s = pre +:+ r.
Proof.
  unfold startswith. rewrite list_prefix_spec. split.
  - intros [r Hr]. exists (of_chars r). apply chars_inj.
    by rewrite chars_app, chars_of_chars.
  - intros [r ->]. exists (chars r). apply chars_app.
Qed.

Lemma lstrip_by_incl p l c : c ∈ lstrip_by p l → c ∈ l.
Proof.
  induction l as [|x l IH]; simpl; [done|].
  destruct (p x); [intros H; right; by apply IH|done].
Qed.

Lemma rstrip_by_incl p l c : c ∈ rstrip_by p l → c ∈ l.
Proof.
  unfold rstrip_by. rewrite !list_elem_of_In. intros H.
  apply in_rev, list_elem_of_In, lstrip_by_incl, list_elem_of_In, in_rev in H.
  done.
Qed.

Example strip_ex : strip "  a b	 " = "a b".
Proof. reflexivity. Qed.
Example int_ex :
  (int_of_str " -1_000 ", int_of_str "1__0", int_of_str "+7", int_of_str "_1", int_of_str "")
  = (Some (-1000), None, Some 7, None, None).
Proof. reflexivity. Qed.

Lemma replace_char_no a b s : contains_char a s = false → replace_char a b s = s.
Proof.
  unfold replace_char, contains_char. intros H%bool_decide_eq_false.
  rewrite <-(of_chars_chars s) at 2. f_equal. induction (chars s) as [|c l IH]; [done|].
  apply not_elem_of_cons in H as [Hc H]. simpl.
  rewrite bool_decide_eq_false_2 by congruence. by rewrite IH.
Qed.

Lemma replace_char_gone a b s : a ≠ b → a ∉ chars (replace_char a b s).
Proof.
  intros Hab. unfold replace_char. rewrite chars_of_chars.
  intros (c & Hc & _)%list_elem_of_fmap. case_bool_decide; congruence.
Qed.

Lemma strip_incl c s : c ∈ chars (strip s) → c ∈ chars s.
Proof.
  unfold strip. rewrite chars_of_chars. intros H. eapply lstrip_by_incl, rstrip_by_incl, H.
Qed.

(** Stripping what is stripped changes nothing. *)
Lemma lstrip_by_head p l : ∀ c k, lstrip_by p l = c :: k → p c = false.
Proof.
  induction l as [|x l IH]; simpl; [done|]. destruct (p x) eqn:E; [exact IH|].
  by intros c k [= -> ->].
Qed.

Lemma lstrip_by_fixed p l : (∀ c k, l = c :: k → p c = false) → lstrip_by p l = l.
Proof. destruct l as [|c l]; [done|]. intros H. simpl. by rewrite (H c l). Qed.

Lemma lstrip_by_suffix p l : ∃ k, l = k ++ lstrip_by p l.
Proof.
  induction l as [|x l [k IH]]; simpl; [by exists []|].
  destruct (p x); [|by exists []]. exists (x :: k). simpl. by rewrite <-IH.
Qed.

Lemma rstrip_by_prefix p l : ∃ k, l = rstrip_by p l ++ k.
Proof.
  unfold rstrip_by. destruct (lstrip_by_suffix p (rev l)) as [k Hk]. exists (rev k).
  by rewrite <-rev_app_distr, <-Hk, rev_involutive.
Qed.

Lemma strip_idemp s : strip (strip s) = strip s.
Proof.
  unfold strip. rewrite chars_of_chars. f_equal.
  set (l := lstrip_by _ (chars s)).
  assert (lstrip_by is_space (rstrip_by is_space l) = rstrip_by is_space l) as ->.
  { apply lstrip_by_fixed. intros c k E. destruct (rstrip_by_prefix is_space l) as [k' Hk].
    rewrite E in Hk. by apply (lstrip_by_head is_space (chars s) c (k ++ k')). }
  unfold rstrip_by. rewrite rev_involutive. f_equal. apply lstrip_by_fixed.
  intros c k. apply lstrip_by_head.
Qed.
