(* ===== verification/PyVal.v ===== *)
(** * Python values

    The dynamically typed values the services pass around in their [data]
    dictionaries and JSON columns, with the Python operations they apply to
    them: truthiness, [str], [int], [dict.get], [==], [list], [dict] and the
    canonical [json.dumps].  A [datetime] is an aware UTC instant in
    microseconds since the epoch.  Dictionaries keep insertion order and have
    string keys.  Floats are not represented. *)

From S2P Require Import Prelude PyStr.
From Stdlib Require Import Ascii.

Inductive pyval : Type :=
  | PNone
  | PBool (b : bool)
  | PInt (z : Z)
  | PStr (s : string)
  | PTime (us : Z)
  | PList (l : list pyval)
  | PDict (d : list (string * pyval)).

Definition pydict : Type := list (string * pyval).

(** Induction with the hypotheses for the elements of lists and dictionaries. *)
Section pyval_ind.
Context (P : pyval → Prop).
Context (HNone : P PNone) (HBool : ∀ b, P (PBool b)) (HInt : ∀ z, P (PInt z))
  (HStr : ∀ s, P (PStr s)) (HTime : ∀ t, P (PTime t))
  (HList : ∀ l, Forall P l → P (PList l))
  (HDict : ∀ d, Forall (λ kv, P kv.2) d → P (PDict d)).
Fixpoint pyval_nested_ind (v : pyval) : P v :=
  match v with
  | PNone => HNone | PBool b => HBool b | PInt z => HInt z
  | PStr s => HStr s | PTime t => HTime t
  | PList l => HList l
      ((fix go l : Forall P l :=
          match l with
          | [] => Forall_nil_2 P
          | v :: l => Forall_cons_2 P v l (pyval_nested_ind v) (go l)
          end) l)
  | PDict d => HDict d
      ((fix go d : Forall (λ kv, P kv.2) d :=
          match d with
          | [] => Forall_nil_2 _
          | kv :: d => Forall_cons_2 (λ kv, P kv.2) kv d (pyval_nested_ind kv.2) (go d)
          end) d)
  end.
End pyval_ind.

(** ** Truthiness and [or] *)
Definition truthy (v : pyval) : bool :=
  match v with
  | PNone => false
  | PBool b => b
  | PInt z => negb (z =? 0)
  | PStr s => s =/? ""
  | PTime _ => true
  | PList l => match l with [] => false | _ => true end
  | PDict d => match d with [] => false | _ => true end
  end.

Definition py_or (v w : pyval) : pyval := if truthy v then v else w.

(** Truthiness of a nullable string ([str | None]). *)
Definition opt_truthy (s : option string) : bool :=
  match s with Some s => s =/? "" | None => false end.

(** ** Datetimes: proleptic Gregorian calendar *)
Section civil.
(** Days since 1970-01-01 to (year, month, day). *)
Definition civil_from_days (z0 : Z) : Z * Z * Z :=
  let z := z0 + 719468 in
  let era := z / 146097 in
  let doe := z - era * 146097 in
  let yoe := (doe - doe / 1460 + doe / 36524 - doe / 146096) / 365 in
  let doy := doe - (365 * yoe + yoe / 4 - yoe / 100) in
  let mp := (5 * doy + 2) / 153 in
  let d := doy - (153 * mp + 2) / 5 + 1 in
  let m := if mp <? 10 then mp + 3 else mp - 9 in
  (yoe + era * 400 + (if m <=? 2 then 1 else 0), m, d).

Definition pad (n : nat) (z : Z) : string :=
  let s := pretty z in
  of_chars (replicate (n - String.length s) "0"%char) +:+ s.

Definition time_fields (us : Z) : (Z * Z * Z) * (Z * Z * Z) * Z :=
  let secs := us / 1000000 in
  let s := secs mod 86400 in
  (civil_from_days (secs / 86400), (s / 3600, s mod 3600 / 60, s mod 60), us mod 1000000).

Definition format_time (sep : string) (us : Z) : string :=
  let '((y, mo, d), (h, mi, s), u) := time_fields us in
  pad 4 y +:+ "-" +:+ pad 2 mo +:+ "-" +:+ pad 2 d +:+ sep
  +:+ pad 2 h +:+ ":" +:+ pad 2 mi +:+ ":" +:+ pad 2 s
  +:+ (if u =? 0 then "" else "." +:+ pad 6 u) +:+ "+00:00".

Definition isoformat (us : Z) : string := format_time "T" us.

Definition repr_time (us : Z) : string :=
  let '((y, mo, d), (h, mi, s), u) := time_fields us in
  "datetime.datetime(" +:+ join ", "
    ([pretty y; pretty mo; pretty d; pretty h; pretty mi]
     ++ (if (s =? 0) && (u =? 0) then [] else [pretty s])
     ++ (if u =? 0 then [] else [pretty u])
     ++ ["tzinfo=datetime.timezone.utc"]) +:+ ")".
End civil.

(** ** [str] and [repr] *)
Definition hex_digit (z : Z) : ascii := chr (if z <? 10 then 48 + z else 87 + z).

Definition repr_char (quote c : ascii) : list ascii :=
  let n := code c in
  if bool_decide (c = quote) || (n =? 92) then [chr 92; c]
  else if n =? 10 then [chr 92; "n"%char]
  else if n =? 13 then [chr 92; "r"%char]
  else if n =? 9 then [chr 92; "t"%char]
  else if (n <? 32) || between 127 160 n || (n =? 173)
  then [chr 92; "x"%char; hex_digit (n / 16); hex_digit (n mod 16)]
  else [c].

Definition repr_str (s : string) : string :=
  let quote := if contains_char (chr 39) s && negb (contains_char (chr 34) s)
               then chr 34 else chr 39 in
  of_chars (quote :: flat_map (repr_char quote) (chars s) ++ [quote]).

Fixpoint py_repr (v : pyval) : string :=
  match v with
  | PNone => "None"
  | PBool b => if b then "True" else "False"
  | PInt z => pretty z
  | PStr s => repr_str s
  | PTime t => repr_time t
  | PList l => "[" +:+ join ", " (map py_repr l) +:+ "]"
  | PDict d => "{" +:+ join ", " (map (λ kv, repr_str kv.1 +:+ ": " +:+ py_repr kv.2) d) +:+ "}"
  end.

Definition py_str (v : pyval) : string :=
  match v with
  | PStr s => s
  | PTime t => format_time " " t
  | _ => py_repr v
  end.

(** [str(value or "")]. *)
Definition str_or_empty (v : pyval) : string := py_str (py_or v (PStr "")).

(** ** [int]: [None] when Python raises [TypeError] or [ValueError]. *)
Definition py_int (v : pyval) : option Z :=
  match v with
  | PInt z => Some z
  | PBool b => Some (if b then 1 else 0)
  | PStr s => int_of_str s
  | _ => None
  end.

(** ** Dictionaries *)
Fixpoint dict_lookup (k : string) (d : pydict) : option pyval :=
  match d with
  | [] => None
  | (k', v) :: d => if bool_decide (k = k') then Some v else dict_lookup k d
  end.

(** [d.get(k, v)] and [d.get(k)]. *)
Definition dict_get_or (d : pydict) (k : string) (v : pyval) : pyval :=
  from_option id v (dict_lookup k d).
Definition dict_get (d : pydict) (k : string) : pyval := dict_get_or d k PNone.
Definition dict_has (d : pydict) (k : string) : bool := negb (is_none (dict_lookup k d)).

(** [d[k] = v]. *)
Fixpoint dict_set (k : string) (v : pyval) (d : pydict) : pydict :=
  match d with
  | [] => [(k, v)]
  | (k', v') :: d => if bool_decide (k = k') then (k, v) :: d else (k', v') :: dict_set k v d
  end.

(** [{**d, **e}] and [d.update(e)]. *)
Definition dict_update (d e : pydict) : pydict :=
  foldl (λ d kv, dict_set kv.1 kv.2 d) d e.

(** [dict(value or {})]; [None] when [value] is truthy and not a mapping. *)
Definition dict_or_empty (v : pyval) : option pydict :=
  if truthy v then match v with PDict d => Some d | _ => None end else Some [].

(** [list(value or [])]; [None] when [value] is truthy and not iterable. *)
Definition list_or_empty (v : pyval) : option (list pyval) :=
  if truthy v then
    match v with
    | PList l => Some l
    | PDict d => Some (map (λ kv, PStr kv.1) d)
    | PStr s => Some (map (λ c, PStr (of_chars [c])) (chars s))
    | _ => None
    end
  else Some [].

(** ** [==]: booleans are integers and dictionaries are unordered. *)
Fixpoint py_eqb (v w : pyval) : bool :=
  match v, w with
  | PNone, PNone => true
  | (PBool _ | PInt _), (PBool _ | PInt _) => bool_decide (py_int v = py_int w)
  | PStr s, PStr t => bool_decide (s = t)
  | PTime s, PTime t => bool_decide (s = t)
  | PList l, PList k =>
      (fix go l k := match l, k with
        | [], [] => true
        | x :: l, y :: k => py_eqb x y && go l k
        | _, _ => false
        end) l k
  | PDict d, PDict e =>
      bool_decide (length d = length e)
      && forallb (λ kv, match dict_lookup kv.1 e with
                        | Some y => py_eqb kv.2 y
                        | None => false
                        end) d
  | _, _ => false
  end.

(** ** [json.dumps(value, ensure_ascii=False, sort_keys=True,
       separators=(",", ":"), default=str)] *)
Definition json_char (c : ascii) : list ascii :=
  let n := code c in
  if (n =? 34) || (n =? 92) then [chr 92; c]
  else if n =? 10 then [chr 92; "n"%char]
  else if n =? 13 then [chr 92; "r"%char]
  else if n =? 9 then [chr 92; "t"%char]
  else if n =? 8 then [chr 92; "b"%char]
  else if n =? 12 then [chr 92; "f"%char]
  else if n <? 32 then chr 92 :: chars "u00" ++ [hex_digit (n / 16); hex_digit (n mod 16)]
  else [c].

Definition json_string (s : string) : string :=
  of_chars (chr 34 :: flat_map json_char (chars s) ++ [chr 34]).

Definition key_leb {A} (x y : string * A) : bool := str_leb x.1 y.1.

Fixpoint json_dumps (v : pyval) : string :=
  match v with
  | PNone => "null"
  | PBool b => if b then "true" else "false"
  | PInt z => pretty z
  | PStr s => json_string s
  | PTime t => json_string (format_time " " t)
  | PList l => "[" +:+ join "," (map json_dumps l) +:+ "]"
  | PDict d =>
      "{" +:+ join ","
        (map (λ kv, json_string kv.1 +:+ ":" +:+ kv.2)
           (sort_by key_leb (map (λ kv, (kv.1, json_dumps kv.2)) d)))
      +:+ "}"
  end.

(** ** Injections *)
Definition opt_str (o : option string) : pyval := from_option PStr PNone o.
Definition opt_time (o : option Z) : pyval := from_option (λ t, PStr (isoformat t)) PNone o.
Definition str_list (l : list string) : pyval := PList (map PStr l).

(** ** Lemmas *)
Example isoformat_ex :
  isoformat 1709210096000000 = "2024-02-29T12:34:56+00:00"
  ∧ isoformat 951827696123456 = "2000-02-29T12:34:56.123456+00:00"
  ∧ isoformat (-1) = "1969-12-31T23:59:59.999999+00:00".
Proof. vm_compute. auto. Qed.

Example json_ex :
  json_dumps (PDict [("b", PList [PInt 1; PBool true]); ("a", PStr "x
y")]) = "{" +:+ json_string "a" +:+ ":" +:+ json_string "x
y" +:+ "," +:+ json_string "b" +:+ ":[1,true]}".
Proof. vm_compute. reflexivity. Qed.

Lemma dict_lookup_set k k' v d :
  dict_lookup k (dict_set k' v d) = if bool_decide (k = k') then Some v else dict_lookup k d.
Proof.
  induction d as [|[k1 v1] d IH]; simpl.
  - by destruct (bool_decide_reflect (k = k')).
  - repeat (case_bool_decide; simplify_eq; simpl); try done.
Qed.
