(* ===== verification/PyFloat.v ===== *)
(** * Python floats

    A Python [float] is an IEEE 754 binary64 number, represented by the Standard
    Library's [spec_float]; the operations round to nearest even as the hardware
    does.  Only what the sources compute with floats is here: the product with an
    integer, [min], [max] and [timedelta(seconds=...)]. *)

From S2P Require Import Prelude.
From Stdlib Require Import SpecFloat.

Definition pyfloat : Type := spec_float.

Definition prec : Z := 53.
Definition emax : Z := 1024.

Definition float_mul (x y : pyfloat) : pyfloat := SFmul prec emax x y.
Definition float_ltb (x y : pyfloat) : bool := SFltb x y.

(** The float nearest to [m * 2 ^ e]. *)
Definition float_scale (m e : Z) : pyfloat := binary_normalize prec emax m e false.

(** [float(n)] of an integer; [None] for Python's [OverflowError]. *)
Definition float_of_int (n : Z) : option pyfloat :=
  match float_scale n 0 with
  | S754_infinity _ => None
  | f => Some f
  end.

(** [min(x, y)] and [max(x, y)]: the first argument unless the second beats it. *)
Definition py_min (x y : pyfloat) : pyfloat := if float_ltb y x then y else x.
Definition py_max (x y : pyfloat) : pyfloat := if float_ltb x y then y else x.

(** The literal [0.01]. *)
Definition one_hundredth : pyfloat := S754_finite false 5764607523034235 (-59).

(** [math.modf], as an integer and a fraction [m / 2 ^ k]; [None] when the float is
    infinite or not a number, which [timedelta] refuses. *)
Definition modf (x : pyfloat) : option (Z * (Z * Z)) :=
  match x with
  | S754_zero _ => Some (0, (0, 0))
  | S754_finite s m e =>
      let signed z := if s then - z else z in
      if 0 <=? e then Some (signed (Zpos m * 2 ^ e), (0, 0))
      else Some (signed (Zpos m / 2 ^ (- e)), (signed (Zpos m mod 2 ^ (- e)), - e))
  | _ => None
  end.

(** [x + m / 2 ^ k] rounded to the nearest integer, ties to even. *)
Definition round_half_even (x m k : Z) : Z :=
  let den := 2 ^ k in
  let twice := 2 * Z.abs m in
  if twice <? den then x
  else if den <? twice then x + Z.sgn m
  else if Z.even x then x else x + Z.sgn m.

(** [timedelta(seconds=x)] in microseconds: the whole seconds exactly, the fraction
    times [1e6] rounded to a float, its fraction rounded half to even. *)
Definition timedelta_seconds (x : pyfloat) : option Z :=
  match modf x with
  | Some (whole, (m, k)) =>
      if m =? 0 then Some (whole * 1000000)
      else
        match modf (float_mul (float_scale 1000000 0) (float_scale m (- k))) with
        | Some (us, (m', k')) => Some (round_half_even (whole * 1000000 + us) m' k')
        | None => None
        end
  | None => None
  end.

(** Values computed with CPython. *)
Example timedelta_ex :
  timedelta_seconds one_hundredth = Some 10000
  ∧ timedelta_seconds (float_scale 5 (-1)) = Some 2500000
  ∧ timedelta_seconds (float_scale 1 (-7)) = Some 7812
  ∧ timedelta_seconds (float_scale 3 (-7)) = Some 23438
  ∧ timedelta_seconds (float_scale (-5) (-1)) = Some (-2500000).
Proof. vm_compute. auto. Qed.

(** ** Sign *)
Definition nonnegative (x : pyfloat) : Prop :=
  match x with
  | S754_infinity true | S754_finite true _ _ => False
  | _ => True
  end.

Lemma round_half_even_nonneg x m k : 0 ≤ x → 0 ≤ m → 0 ≤ round_half_even x m k.
Proof.
  intros Hx Hm. unfold round_half_even. pose proof (Z.sgn_nonneg m).
  repeat case_match; lia.
Qed.

Lemma modf_nonneg x i m k : nonnegative x → modf x = Some (i, (m, k)) → 0 ≤ i ∧ 0 ≤ m.
Proof.
  destruct x as [s|[]| |[] p e]; simpl; try done; [by intros _ [= <- <- <-]|].
  intros _. case_match eqn:E; intros [= <- <- <-]; [lia|].
  assert (0 < 2 ^ (- e)) by (apply Z.pow_pos_nonneg; lia). split.
  - by apply Z.div_pos.
  - by apply Z.mod_pos_bound.
Qed.

Lemma binary_round_aux_nonneg m e l : nonnegative (binary_round_aux prec emax false m e l).
Proof.
  unfold binary_round_aux. destruct (shr_fexp _ _ m e l) as [r1 e1].
  destruct (shr_fexp _ _ _ e1 _) as [r2 e2]. by repeat case_match.
Qed.

Lemma float_scale_nonneg m e : 0 ≤ m → nonnegative (float_scale m e).
Proof.
  destruct m as [|p|p]; [done| |lia]. intros _. simpl. unfold binary_round.
  case_match. apply binary_round_aux_nonneg.
Qed.

Lemma float_mul_nonneg x y : nonnegative x → nonnegative y → nonnegative (float_mul x y).
Proof.
  destruct x as [s|[]| |[] p e], y as [s'|[]| |[] p' e']; try done.
  intros _ _. apply binary_round_aux_nonneg.
Qed.

Lemma py_max_nonneg x y : nonnegative x → nonnegative y → nonnegative (py_max x y).
Proof. unfold py_max. by destruct (float_ltb x y). Qed.

Lemma timedelta_seconds_nonneg x us :
  nonnegative x → timedelta_seconds x = Some us → 0 ≤ us.
Proof.
  intros Hx. unfold timedelta_seconds. destruct (modf x) as [[i [m k]]|] eqn:E; [|done].
  apply modf_nonneg in E as [Hi Hm]; [|done]. destruct (m =? 0); [intros [= <-]; lia|].
  destruct (modf (float_mul _ _)) as [[i' [m' k']]|] eqn:E; [|done]. intros [= <-].
  apply modf_nonneg in E as [Hi' Hm'].
  - apply round_half_even_nonneg; lia.
  - apply float_mul_nonneg; by apply float_scale_nonneg.
Qed.
