(* ===== verification/Json.v ===== *)
(** * JSON texts

    The JSON texts that the services write for the broker and read back from it:
    [json.dumps] without sorted keys, [json.loads] and UTF-8, and the round trip
    between them.  Numbers are integers: a text with a fraction or an exponent has
    no value here, and neither has one with a character beyond Latin-1. *)

From S2P Require Import Prelude PyStr PyVal.
From Stdlib Require Import Ascii.

(** ** [json.dumps(value, ensure_ascii=False, separators=(",", ":"), default=str)] *)
Definition quote : ascii := chr 34.
Definition comma : ascii := chr 44.

Fixpoint separated (l : list (list ascii)) : list ascii :=
  match l with
  | [] => []
  | [x] => x
  | x :: l => x ++ comma :: separated l
  end.

Definition string_text (s : string) : list ascii :=
  quote :: flat_map json_char (chars s) ++ [quote].

Fixpoint json_text (v : pyval) : list ascii :=
  match v with
  | PNone => chars "null"
  | PBool b => chars (if b then "true" else "false")
  | PInt z => chars (pretty z)
  | PStr s => string_text s
  | PTime t => string_text (format_time " " t)
  | PList l => chr 91 :: separated (map json_text l) ++ [chr 93]
  | PDict d =>
      chr 123 :: separated (map (λ kv, string_text kv.1 ++ chr 58 :: json_text kv.2) d)
      ++ [chr 125]
  end.

(** The bytes of a message. *)
Definition wire_bytes (v : pyval) : string := utf8_encode (of_chars (json_text v)).

(** ** [payload.decode("utf-8")] *)
Fixpoint utf8_decode (l : list ascii) : option (list ascii) :=
  match l with
  | [] => Some []
  | c :: l =>
      if code c <? 128 then cons c <$> utf8_decode l
      else match l with
           | d :: l =>
               if between 194 195 (code c) && between 128 191 (code d)
               then cons (chr ((code c - 192) * 64 + (code d - 128))) <$> utf8_decode l
               else None
           | [] => None
           end
  end.

(** ** [json.loads] *)
Definition is_json_space (c : ascii) : bool := code c ∈? [32; 9; 10; 13].

Definition skip_space (l : list ascii) : list ascii := lstrip_by is_json_space l.

Definition hex_value (c : ascii) : option Z :=
  let n := code c in
  if between 48 57 n then Some (n - 48)
  else if between 97 102 n then Some (n - 87)
  else if between 65 70 n then Some (n - 55)
  else None.

(** One character of a string literal; [None] at its end and where it is invalid. *)
Definition scan_char (l : list ascii) : option (ascii * list ascii) :=
  match l with
  | c :: l =>
      if bool_decide (c = quote) || (code c <? 32) then None
      else if bool_decide (c = chr 92) then
        match l with
        | d :: l =>
            if bool_decide (d ∈ [quote; chr 92; chr 47]) then Some (d, l)
            else if bool_decide (d = "n"%char) then Some (chr 10, l)
            else if bool_decide (d = "r"%char) then Some (chr 13, l)
            else if bool_decide (d = "t"%char) then Some (chr 9, l)
            else if bool_decide (d = "b"%char) then Some (chr 8, l)
            else if bool_decide (d = "f"%char) then Some (chr 12, l)
            else if bool_decide (d = "u"%char) then
              match l with
              | a :: b :: h :: k :: l =>
                  match hex_value a, hex_value b, hex_value h, hex_value k with
                  | Some 0, Some 0, Some x, Some y => Some (chr (16 * x + y), l)
                  | _, _, _, _ => None
                  end
              | _ => None
              end
            else None
        | [] => None
        end
      else Some (c, l)
  | [] => None
  end.

(** The rest of a string literal, after its opening quote. *)
Fixpoint scan_string (fuel : nat) (l : list ascii) : option (list ascii * list ascii) :=
  match fuel with
  | O => None
  | S fuel =>
      match scan_char l with
      | Some (c, l) => p ← scan_string fuel l; Some (c :: p.1, p.2)
      | None =>
          match l with
          | c :: l => if bool_decide (c = quote) then Some ([], l) else None
          | [] => None
          end
      end
  end.

Fixpoint span_digits (l : list ascii) : list ascii * list ascii :=
  match l with
  | c :: l' => if is_digit c then let p := span_digits l' in (c :: p.1, p.2) else ([], l)
  | [] => ([], [])
  end.

(** [0|[1-9][0-9]*], not followed by a fraction or an exponent. *)
Definition scan_natural (l : list ascii) : option (Z * list ascii) :=
  let '(ds, rest) := match l with
    | c :: l' => if bool_decide (c = "0"%char) then ([c], l') else span_digits l
    | [] => ([], [])
    end in
  let goes_on := match rest with c :: _ => c ∈? ["."; "e"; "E"]%char | [] => false end in
  match ds with
  | [] => None
  | _ => if goes_on then None else n ← digits_value 0 ds; Some (n, rest)
  end.

Definition scan_number (l : list ascii) : option (Z * list ascii) :=
  match l with
  | c :: l' =>
      if bool_decide (c = "-"%char)
      then p ← scan_natural l'; Some (- p.1, p.2)
      else scan_natural l
  | [] => None
  end.

Definition expect (c : ascii) (l : list ascii) : option (list ascii) :=
  match l with
  | d :: l => if bool_decide (d = c) then Some l else None
  | [] => None
  end.

Definition literal (s : string) (l : list ascii) : option (list ascii) :=
  if list_prefix (chars s) l then Some (drop (String.length s) l) else None.

(** The key of a member, its colon, and the spaces after it. *)
Definition scan_key (l : list ascii) : option (string * list ascii) :=
  l ← expect quote l;
  k ← scan_string (length l) l;
  l ← expect (chr 58) (skip_space k.2);
  Some (of_chars k.1, skip_space l).

(** A value that starts here, the elements of an array and the members of an object
    up to the closing bracket.  A repeated key keeps its last value. *)
Fixpoint scan_value (fuel : nat) (l : list ascii) : option (pyval * list ascii) :=
  match fuel, l with
  | S fuel, c :: l' =>
      if bool_decide (c = quote) then
        p ← scan_string (length l') l'; Some (PStr (of_chars p.1), p.2)
      else if bool_decide (c = chr 91) then
        match expect (chr 93) (skip_space l') with
        | Some l => Some (PList [], l)
        | None => p ← scan_elements fuel (skip_space l'); Some (PList p.1, p.2)
        end
      else if bool_decide (c = chr 123) then
        match expect (chr 125) (skip_space l') with
        | Some l => Some (PDict [], l)
        | None => p ← scan_members fuel [] (skip_space l'); Some (PDict p.1, p.2)
        end
      else match literal "null" l, literal "true" l, literal "false" l with
           | Some l, _, _ => Some (PNone, l)
           | _, Some l, _ => Some (PBool true, l)
           | _, _, Some l => Some (PBool false, l)
           | _, _, _ => p ← scan_number l; Some (PInt p.1, p.2)
           end
  | _, _ => None
  end
with scan_elements (fuel : nat) (l : list ascii) : option (list pyval * list ascii) :=
  match fuel with
  | O => None
  | S fuel =>
      p ← scan_value fuel l;
      let l := skip_space p.2 in
      match expect (chr 93) l with
      | Some l => Some ([p.1], l)
      | None =>
          l ← expect comma l;
          q ← scan_elements fuel (skip_space l);
          Some (p.1 :: q.1, q.2)
      end
  end
with scan_members (fuel : nat) (seen : pydict) (l : list ascii)
    : option (pydict * list ascii) :=
  match fuel with
  | O => None
  | S fuel =>
      k ← scan_key l;
      p ← scan_value fuel k.2;
      let seen := dict_set k.1 p.1 seen in
      let l := skip_space p.2 in
      match expect (chr 125) l with
      | Some l => Some (seen, l)
      | None => l ← expect comma l; scan_members fuel seen (skip_space l)
      end
  end.

(** [None] for [JSONDecodeError]: an invalid text, or more text after the value. *)
Definition json_loads (l : list ascii) : option pyval :=
  p ← scan_value (length l) (skip_space l);
  match skip_space p.2 with [] => Some p.1 | _ => None end.

(** [json.loads(payload.decode("utf-8"))] *)
Definition wire_value (bytes : string) : option pyval :=
  utf8_decode (chars bytes) ≫= json_loads.

Example json_loads_ex :
  let v := PDict [("a", PList [PInt (-12); PStr "x
'é"; PDict []]); ("b", PBool false); ("c", PNone)] in
  wire_value (wire_bytes v) = Some v
  ∧ json_loads (chars " [ 0 , {} ,[] ] ") = Some (PList [PInt 0; PDict []; PList []])
  ∧ json_loads (chars "[01]") = None ∧ json_loads (chars "[1,]") = None
  ∧ json_loads (chars "{} x") = None.
Proof. vm_compute. auto. Qed.

(** ** Strings *)
Lemma string_text_head s : ∃ l, string_text s = quote :: l.
Proof. by eexists. Qed.

Lemma json_string_text s : chars (json_string s) = string_text s.
Proof. apply chars_of_chars. Qed.
Lemma scan_char_text c l : scan_char (json_char c ++ l) = Some (c, l).
Proof. destruct c as [[] [] [] [] [] [] [] []]; reflexivity. Qed.

Lemma scan_string_text n l s :
  (length l < n)%nat → scan_string n (flat_map json_char l ++ quote :: s) = Some (l, s).
Proof.
  revert n. induction l as [|c l IH]; intros [|n] Hn; simpl in Hn; try lia; [done|].
  cbn [flat_map scan_string]. rewrite <-app_assoc, scan_char_text, IH by lia. done.
Qed.

Lemma json_char_length c : (1 ≤ length (json_char c))%nat.
Proof. destruct c as [[] [] [] [] [] [] [] []]; simpl; lia. Qed.

Lemma escaped_length l : (length l ≤ length (flat_map json_char l))%nat.
Proof.
  induction l as [|c l IH]; simpl; [lia|]. rewrite length_app. pose proof (json_char_length c).
  lia.
Qed.

(** ** Integers *)
Definition digits (l : list ascii) : Prop := Forall (λ c, is_digit c = true) l.

Lemma pretty_N_go_digits n s : digits (chars s) → digits (chars (pretty_N_go n s)).
Proof.
  revert s. induction (N.lt_wf_0 n) as [n _ IH]; intros s Hs.
  destruct (decide (n = 0)%N) as [->|Hn]; [done|].
  rewrite pretty_N_go_step by lia. apply IH; [apply N.div_lt; lia|].
  constructor; [|done]. unfold pretty_N_char. by repeat case_match.
Qed.

Lemma pretty_N_go_nonempty n s : chars s ≠ [] → chars (pretty_N_go n s) ≠ [].
Proof.
  revert s. induction (N.lt_wf_0 n) as [n _ IH]; intros s Hs.
  destruct (decide (n = 0)%N) as [->|Hn]; [done|].
  rewrite pretty_N_go_step by lia. by apply IH; [apply N.div_lt; lia|].
Qed.

(** The text of a natural number: a digit, then digits. *)
Lemma pretty_N_text (n : N) : ∃ c l, chars (pretty n) = c :: l ∧ is_digit c = true ∧ digits l.
Proof.
  assert (digits (chars (pretty n)) ∧ chars (pretty n) ≠ []) as [Hd Hne].
  { unfold pretty, pretty_N. case_decide as Hn; [by split; [repeat constructor|]|].
    split; [by apply pretty_N_go_digits; constructor|].
    rewrite pretty_N_go_step by lia. by apply pretty_N_go_nonempty. }
  destruct Hd as [|c l Hc Hl]; [done|]. eauto.
Qed.

(** The text of an integer: a sign or none, then digits. *)
Lemma pretty_Z_text (z : Z) :
  ∃ c l, chars (pretty z) = c :: l ∧ digits l ∧ (is_digit c = true ∨ c = "-"%char ∧ l ≠ []).
Proof.
  destruct z as [|p|p].
  - exists "0"%char, []. split; [done|]. by split; [constructor|left].
  - destruct (pretty_N_text (Npos p)) as (c & l & E & Hc & Hl). exists c, l. auto.
  - destruct (pretty_N_text (Npos p)) as (c & l & E & Hc & Hl).
    exists "-"%char, (c :: l). split.
    + change (pretty (Zneg p)) with ("-" +:+ pretty (Npos p)). by rewrite chars_app, E.
    + split; [by constructor|]. by right.
Qed.

Lemma span_digits_text l s :
  digits l → match s with c :: _ => is_digit c = false | [] => True end →
  span_digits (l ++ s) = (l, s).
Proof.
  intros Hl Hs. induction Hl as [|c l Hc Hl IH]; simpl.
  - destruct s as [|c s]; [done|]. simpl. by rewrite Hs.
  - by rewrite Hc, IH.
Qed.

Lemma digit_value n : (n < 10)%N →
  is_digit (pretty_N_char n) = true ∧ code (pretty_N_char n) - 48 = Z.of_N n.
Proof.
  intros Hn. assert (n ∈ [0; 1; 2; 3; 4; 5; 6; 7; 8; 9]%N) as Hin.
  { rewrite !elem_of_cons. lia. }
  repeat (apply elem_of_cons in Hin as [->|Hin]; [done|]). by apply not_elem_of_nil in Hin.
Qed.

Lemma digits_value_text n s :
  digits_value 0 (chars (pretty_N_go n s)) = digits_value (Z.of_N n) (chars s).
Proof.
  revert s. induction (N.lt_wf_0 n) as [n _ IH]; intros s.
  destruct (decide (n = 0)%N) as [->|Hn]; [done|].
  rewrite pretty_N_go_step by lia. rewrite IH by (apply N.div_lt; lia). simpl.
  destruct (digit_value (n `mod` 10)) as [-> ->]; [by apply N.mod_lt|].
  f_equal. rewrite (N.div_mod n 10) at 3 by done. lia.
Qed.

Lemma pretty_N_go_head n s :
  (0 < n)%N → ∃ c l, chars (pretty_N_go n s) = c :: l ∧ c ≠ "0"%char.
Proof.
  revert s. induction (N.lt_wf_0 n) as [n _ IH]; intros s Hn.
  rewrite pretty_N_go_step by done. destruct (decide (n < 10)%N) as [Hs|Hs].
  - rewrite N.div_small, N.mod_small by done. rewrite pretty_N_go_0.
    eexists _, _. split; [done|]. destruct (digit_value n Hs) as [_ Hv]. intros E.
    rewrite E in Hv. change (code "0") with 48 in Hv. lia.
  - apply IH; [by apply N.div_lt|]. apply N.div_str_pos. lia.
Qed.

(** What may follow a value. *)
Definition ends (l : list ascii) : Prop :=
  match l with c :: _ => c = comma ∨ c = chr 93 ∨ c = chr 125 | [] => True end.

Lemma scan_natural_text (n : N) s :
  ends s → scan_natural (chars (pretty n) ++ s) = Some (Z.of_N n, s).
Proof.
  intros Hs.
  assert (match s with c :: _ => is_digit c = false | [] => True end) as Hd
    by (destruct s as [|c s]; [done|]; by destruct Hs as [->|[->| ->]]).
  assert ((match s with c :: _ => c ∈? ["."; "e"; "E"]%char | [] => false end) = false)
    as Hf by (destruct s as [|c s]; [done|]; by destruct Hs as [->|[->| ->]]).
  unfold scan_natural. destruct (decide (n = 0)%N) as [->|Hn]; [simpl; by rewrite Hf|].
  destruct (pretty_N_text n) as (c & l & E & Hc & Hl).
  assert (pretty n = pretty_N_go n "") as Ep
    by (unfold pretty, pretty_N; by rewrite decide_False).
  destruct (pretty_N_go_head n "") as (c' & l' & E' & Hc'); [lia|].
  rewrite <-Ep, E in E'. injection E' as <- <-. rewrite E. cbn [app].
  rewrite bool_decide_eq_false_2 by done.
  change (c :: l ++ s) with ((c :: l) ++ s).
  rewrite span_digits_text by (done || by constructor). rewrite Hf.
  rewrite <-E, Ep, digits_value_text. done.
Qed.

Lemma scan_number_text (z : Z) s :
  ends s → scan_number (chars (pretty z) ++ s) = Some (z, s).
Proof.
  intros Hs. destruct z as [|p|p].
  - by apply (scan_natural_text 0).
  - destruct (pretty_N_text (Npos p)) as (c & l & E & Hc & Hl).
    pose proof (scan_natural_text (Npos p) s Hs) as Hn. unfold scan_number.
    change (pretty (Zpos p)) with (pretty (Npos p)). rewrite E in *. cbn [app] in *.
    rewrite bool_decide_eq_false_2 by (intros ->; done). done.
  - change (pretty (Zneg p)) with ("-" +:+ pretty (Npos p)). rewrite chars_app. cbn [chars app].
    unfold scan_number. rewrite bool_decide_eq_true_2 by done.
    by rewrite scan_natural_text.
Qed.

(** ** The round trip *)

(** What the wire keeps of a value: times become strings. *)
Fixpoint wire_of (v : pyval) : pyval :=
  match v with
  | PTime t => PStr (format_time " " t)
  | PList l => PList (map wire_of l)
  | PDict d => PDict (map (λ kv, (kv.1, wire_of kv.2)) d)
  | v => v
  end.

(** The keys of every dictionary are distinct, as they are in Python. *)
Fixpoint well_keyed (v : pyval) : Prop :=
  match v with
  | PList l => foldr (λ v P, well_keyed v ∧ P) True l
  | PDict d => NoDup (map fst d) ∧ foldr (λ kv P, well_keyed kv.2 ∧ P) True d
  | _ => True
  end.

(** A text that starts neither with a space nor with a closing bracket. *)
Definition proper (l : list ascii) : Prop :=
  match l with
  | c :: _ => is_json_space c = false ∧ c ≠ chr 93 ∧ c ≠ chr 125
  | [] => False
  end.

Lemma proper_app l k : proper l → proper (l ++ k).
Proof. by destruct l. Qed.

Lemma skip_proper l : proper l → skip_space l = l.
Proof. destruct l as [|c l]; [done|]. intros [Hc _]. unfold skip_space. simpl. by rewrite Hc. Qed.

Lemma expect_proper c l : proper l → c = chr 93 ∨ c = chr 125 → expect c l = None.
Proof.
  destruct l as [|d l]; [done|]. intros (_ & H1 & H2) Hc. simpl.
  rewrite bool_decide_eq_false_2; [done|]. intros ->. by destruct Hc.
Qed.

Lemma proper_digit c l : is_digit c = true → proper (c :: l).
Proof.
  intros Hc. unfold is_digit, between in Hc. apply andb_true_iff in Hc as [H1 H2].
  apply Z.leb_le in H1, H2. split_and!; [|by intros ->..].
  apply bool_decide_eq_false. rewrite !elem_of_cons, elem_of_nil. lia.
Qed.

Lemma json_text_proper v : proper (json_text v).
Proof.
  destruct v as [|[]|z|s|t|l|d]; cbn [json_text];
    try (split_and!; [reflexivity|discriminate|discriminate]).
  destruct (pretty_Z_text z) as (c & l & -> & _ & [Hc|[-> _]]); [by apply proper_digit|done].
Qed.

Lemma separated_proper x l : proper x → proper (separated (x :: l)).
Proof. intros Hx. destruct l; simpl; [done|]. by apply proper_app. Qed.

Definition punctuation : list ascii := [quote; comma; chr 58; chr 93; chr 125].

Lemma skip_punctuation c l : c ∈ punctuation → skip_space (c :: l) = c :: l.
Proof.
  unfold punctuation. rewrite !elem_of_cons, elem_of_nil. intros H.
  by destruct_or?; subst.
Qed.

Lemma expect_same c l : expect c (c :: l) = Some l.
Proof. simpl. by rewrite bool_decide_eq_true_2. Qed.

Lemma expect_other c d l : d ≠ c → expect c (d :: l) = None.
Proof. intros H. simpl. by rewrite bool_decide_eq_false_2. Qed.

Definition scans (v : pyval) : Prop := ∀ n s,
  ends s → (length (json_text v) ≤ n)%nat →
  scan_value n (json_text v ++ s) = Some (wire_of v, s).

Ltac punct := (by repeat constructor) || done || (compute; congruence).

Lemma scan_elements_text l n s :
  Forall scans l → l ≠ [] → (length (separated (map json_text l)) < n)%nat →
  scan_elements n (separated (map json_text l) ++ chr 93 :: s) = Some (map wire_of l, s).
Proof.
  intros Hl. revert n. induction Hl as [|v l Hv Hl IH]; intros [|n] Hne Hn; try (done || lia).
  cbn [scan_elements map]. destruct l as [|v' l].
  - cbn [separated map] in *. rewrite Hv; [|by right; left|lia]. cbn [fst snd mbind option_bind].
    rewrite skip_punctuation by (do 3 right; left). by rewrite expect_same.
  - change (separated (map json_text (v :: v' :: l))) with
      (json_text v ++ comma :: separated (map json_text (v' :: l))) in *.
    change (separated (json_text v :: map json_text (v' :: l))) with
      (json_text v ++ comma :: separated (map json_text (v' :: l))).
    rewrite length_app in Hn. cbn [length] in Hn.
    rewrite <-app_assoc. rewrite Hv; [|by left|lia]. cbn [fst snd mbind option_bind].
    cbn [app]. rewrite skip_punctuation by (right; left).
    rewrite expect_other, expect_same by punct. cbn [mbind option_bind].
    rewrite skip_proper by (apply proper_app, separated_proper, json_text_proper).
    by rewrite IH by (done || lia).
Qed.

Definition member_text (kv : string * pyval) : list ascii :=
  string_text kv.1 ++ chr 58 :: json_text kv.2.

Lemma dict_set_new k v d : k ∉ map fst d → dict_set k v d = d ++ [(k, v)].
Proof.
  induction d as [|[k' v'] d IH]; simpl; [done|]. rewrite not_elem_of_cons. intros [Hk Hd].
  rewrite bool_decide_eq_false_2 by done. by rewrite IH.
Qed.

Lemma scan_key_text k v s :
  scan_key (member_text (k, v) ++ s) = Some (k, json_text v ++ s).
Proof.
  unfold scan_key, member_text, string_text. cbn [fst snd app].
  rewrite expect_same. cbn [mbind option_bind]. rewrite <-!app_assoc. cbn [app].
  rewrite scan_string_text.
  2:{ rewrite length_app. pose proof (escaped_length (chars k)). simpl. lia. }
  cbn [mbind option_bind fst snd]. rewrite skip_punctuation by (do 2 right; left).
  rewrite expect_same. cbn [mbind option_bind].
  by rewrite skip_proper, of_chars_chars by apply proper_app, json_text_proper.
Qed.

Lemma scan_members_text d n seen s :
  Forall (λ kv, scans kv.2) d → d ≠ [] → NoDup (map fst (seen ++ d)) →
  (length (separated (map member_text d)) < n)%nat →
  scan_members n seen (separated (map member_text d) ++ chr 125 :: s)
  = Some (seen ++ map (λ kv, (kv.1, wire_of kv.2)) d, s).
Proof.
  intros Hd. revert n seen. induction Hd as [|[k v] d Hv Hd IH]; intros [|n] seen Hne HN Hn;
    try (done || lia).
  assert (k ∉ map fst seen) as Hk.
  { rewrite map_app in HN. apply NoDup_app in HN as (_ & HN & _). intros Hk.
    apply (HN k Hk). by left. }
  assert (length (json_text v) ≤ length (member_text (k, v)))%nat as Hlen
    by (unfold member_text; rewrite length_app; simpl; lia).
  cbn [snd] in Hv. cbn [scan_members]. destruct d as [|kv d].
  - cbn [separated map] in *. rewrite scan_key_text. cbn [mbind option_bind fst snd].
    rewrite Hv; [|by right; right|lia]. cbn [mbind option_bind fst snd].
    rewrite skip_punctuation by (do 4 right; left). by rewrite expect_same, dict_set_new.
  - change (separated (map member_text ((k, v) :: kv :: d))) with
      (member_text (k, v) ++ comma :: separated (map member_text (kv :: d))) in *.
    rewrite length_app in Hn. cbn [length] in Hn. rewrite <-app_assoc.
    rewrite scan_key_text. cbn [mbind option_bind fst snd].
    rewrite Hv; [|by left|lia]. cbn [mbind option_bind fst snd app].
    rewrite skip_punctuation by (right; left).
    rewrite expect_other, expect_same by punct. cbn [mbind option_bind].
    rewrite skip_proper by (apply proper_app, separated_proper; by split_and!).
    rewrite dict_set_new by done. rewrite IH; [by rewrite <-app_assoc|done| |lia].
    by rewrite !map_app, <-app_assoc in *.
Qed.

Lemma json_text_length v : (1 ≤ length (json_text v))%nat.
Proof. pose proof (json_text_proper v). destruct (json_text v); simpl in *; [done|lia]. Qed.

Lemma scan_number_value n (z : Z) s :
  ends s → scan_value (S n) (chars (pretty z) ++ s) = Some (PInt z, s).
Proof.
  intros Hs. pose proof (scan_number_text z s Hs) as E.
  destruct (pretty_Z_text z) as (c & l & Ez & _ & Hc). rewrite Ez in *. cbn [app] in *.
  assert (c ∉ [quote; chr 91; chr 123; "n"; "t"; "f"]%char) as Hne.
  { rewrite !elem_of_cons, elem_of_nil. intros H.
    destruct Hc as [Hc|[-> _]]; destruct_or?; subst; done. }
  cbn [scan_value]. rewrite !not_elem_of_cons in Hne. destruct Hne as (? & ? & ? & ? & ? & ? & _).
  rewrite !bool_decide_eq_false_2 by done.
  unfold literal. cbn [list_prefix chars]. rewrite !bool_decide_eq_false_2 by congruence.
  cbn [andb]. by rewrite E.
Qed.

Lemma scan_string_value n str s :
  scan_value (S n) (string_text str ++ s) = Some (PStr str, s).
Proof.
  unfold string_text. cbn [app scan_value]. rewrite bool_decide_eq_true_2 by done.
  rewrite <-app_assoc. cbn [app]. rewrite scan_string_text.
  - cbn [mbind option_bind fst snd]. by rewrite of_chars_chars.
  - rewrite length_app. pose proof (escaped_length (chars str)). simpl. lia.
Qed.

Lemma well_keyed_list l : well_keyed (PList l) → Forall well_keyed l.
Proof. simpl. induction l; simpl; intros H; constructor; tauto. Qed.

Lemma well_keyed_dict d :
  well_keyed (PDict d) → NoDup (map fst d) ∧ Forall (λ kv, well_keyed kv.2) d.
Proof.
  simpl. intros [HN H]. split; [done|]. clear HN.
  induction d; simpl in H; constructor; tauto.
Qed.

Lemma scans_values v : well_keyed v → scans v.
Proof.
  induction v as [|b|z|str|t|l IH|d IH] using pyval_nested_ind; intros Hv n s Hs Hn;
    (destruct n as [|n]; [match type of Hn with (length (json_text ?v) ≤ _)%nat =>
       pose proof (json_text_length v); lia end|]).
  - done.
  - by destruct b.
  - by apply scan_number_value.
  - apply scan_string_value.
  - apply scan_string_value.
  - apply well_keyed_list in Hv. cbn [json_text length] in Hn |- *.
    rewrite length_app in Hn. cbn [length] in Hn. cbn [app]. rewrite <-app_assoc.
    cbn [scan_value app]. rewrite bool_decide_eq_false_2 by done.
    rewrite bool_decide_eq_true_2 by done.
    destruct l as [|v l]; [done|].
    rewrite skip_proper by (apply proper_app, separated_proper, json_text_proper).
    rewrite expect_proper by (auto || by apply proper_app, separated_proper, json_text_proper).
    rewrite scan_elements_text; [done| |done|lia].
    rewrite Forall_forall in *. auto.
  - apply well_keyed_dict in Hv as [HN Hv]. cbn [json_text length] in Hn |- *.
    rewrite length_app in Hn. cbn [length] in Hn. cbn [app]. rewrite <-app_assoc.
    change (λ kv, string_text kv.1 ++ chr 58 :: json_text kv.2) with member_text in *.
    cbn [scan_value app]. do 2 rewrite bool_decide_eq_false_2 by done.
    rewrite bool_decide_eq_true_2 by done.
    destruct d as [|kv d]; [done|].
    rewrite skip_proper by (apply proper_app, separated_proper; by split_and!).
    rewrite expect_proper by (auto || by apply proper_app, separated_proper; by split_and!).
    rewrite scan_members_text; [done| |done|done|lia].
    rewrite Forall_forall in *. auto.
Qed.

Lemma utf8_decode_char c l : utf8_decode (utf8_char c ++ l) = cons c <$> utf8_decode l.
Proof. destruct c as [[] [] [] [] [] [] [] []]; reflexivity. Qed.

Lemma utf8_decode_encode s : utf8_decode (chars (utf8_encode s)) = Some (chars s).
Proof.
  unfold utf8_encode. rewrite chars_of_chars.
  induction (chars s) as [|c l IH]; [done|]. simpl. by rewrite utf8_decode_char, IH.
Qed.

Lemma utf8_encode_inj s t : utf8_encode s = utf8_encode t → s = t.
Proof.
  intros E%(f_equal (λ s, utf8_decode (chars s))). rewrite !utf8_decode_encode in E.
  injection E as E. by apply chars_inj.
Qed.

Lemma wire_reads v : well_keyed v → wire_value (wire_bytes v) = Some (wire_of v).
Proof.
  intros Hv. unfold wire_value, wire_bytes.
  rewrite utf8_decode_encode, chars_of_chars. cbn [mbind option_bind].
  unfold json_loads. rewrite skip_proper by apply json_text_proper.
  pose proof (scans_values v Hv (length (json_text v)) [] I (le_n _)) as E.
  rewrite app_nil_r in E. by rewrite E.
Qed.

Lemma json_text_wire_of v : json_text (wire_of v) = json_text v.
Proof.
  induction v as [| | | | |l IH|d IH] using pyval_nested_ind; try done; cbn [wire_of json_text].
  - assert (map json_text (map wire_of l) = map json_text l) as ->; [|done].
    rewrite map_map. apply map_ext_Forall, IH.
  - do 3 f_equal. rewrite map_map. apply map_ext_Forall.
    eapply Forall_impl; [exact IH|]. intros kv E. simpl. by rewrite E.
Qed.

(** A subscriber reads back from the wire the value that was published, with
    times spelled as strings; two values have the same bytes exactly when they stand
    for the same value on the wire. *)
Theorem wire_roundtrip v w :
  well_keyed v → well_keyed w →
  wire_value (wire_bytes v) = Some (wire_of v)
  ∧ (wire_bytes v = wire_bytes w ↔ wire_of v = wire_of w).
Proof.
  intros Hv Hw. split; [by apply wire_reads|]. split; intros E.
  - apply (f_equal wire_value) in E. rewrite !wire_reads in E by done. by injection E.
  - unfold wire_bytes. by rewrite <-(json_text_wire_of v), <-(json_text_wire_of w), E.
Qed.

Lemma wire_roundtrip_witness :
  let v := PDict [("event_id", PStr "id"); ("at", PTime 0); ("n", PList [PInt (-7); PNone])] in
  wire_value (wire_bytes v) = Some (PDict [("event_id", PStr "id");
    ("at", PStr "1970-01-01 00:00:00+00:00"); ("n", PList [PInt (-7); PNone])]).
Proof.
  intros v. apply (wire_roundtrip v PNone); [|exact I]. split; [|done].
  apply (bool_decide_unpack _). vm_compute. exact I.
Defined.
