(* ===== verification/Errors.v ===== *)
(** * Exceptions and fallible pure code

    Python functions that only compute and raise return a [result].  The
    exceptions are the ones the control plane raises or lets through. *)

From S2P Require Import Prelude PyStr PyVal.

(** The subclasses of [ChatContextError]. *)
Inductive chat_error : Type :=
  | Disabled | ValidationError | NotFound | Expired | Closed
  | BindingConflict | AllocationExhausted.

Inductive exn : Type :=
  | HTTPException (status_code : Z) (detail : string)
  | AgentCommandPolicyError (message : string)
  | ChatContextError (kind : chat_error) (message : string)
  | McpChatContextAdmissionError (error_code message recovery_tool : string)
      (retry_original_call : bool)
  | McpChatContextReservedArgumentCollision (message : string)
  | McpPolicyViolation (message : string)
  | IntegrityError
  | MultipleResultsFound
  | NoResultFound
  | RuntimeError (message : string)
  | McpRootFederationError (code message : string) (http_status : Z)
  | ThinMcpError (code message : string) (retryable : bool) (http_status : Z)
  | McpCapabilitySnapshotConflict (message : string)
  | LookupError (message : string)
  | ValueError (message : string)
  | OverflowError
  | TypeError  (** or another unhandled error of a conversion, such as [ValueError] *).

Inductive result (A : Type) : Type :=
  | Ok (a : A)
  | Raise (e : exn).
Arguments Ok {A} a.
Arguments Raise {A} e.

#[global] Instance result_ret : MRet result := @Ok.
#[global] Instance result_bind : MBind result := λ A B f m,
  match m with Ok a => f a | Raise e => Raise e end.

Definition http {A} (status : Z) (detail : string) : result A :=
  Raise (HTTPException status detail).

(** [if c: raise e]. *)
Definition raise_if (c : bool) (e : exn) : result unit := if c then Raise e else Ok tt.

(** [some_call(...)] that raises [TypeError] when it has no value. *)
Definition or_type_error {A} (o : option A) : result A :=
  match o with Some a => Ok a | None => Raise TypeError end.

Definition is_ok {A} (r : result A) : bool := match r with Ok _ => true | _ => false end.

(** [for x in l: f(x)]. *)
Fixpoint for_each {A} (f : A → result unit) (l : list A) : result unit :=
  match l with [] => Ok tt | x :: l => f x;; for_each f l end.

Fixpoint map_result {A B} (f : A → result B) (l : list A) : result (list B) :=
  match l with
  | [] => Ok []
  | x :: l => y ← f x; ys ← map_result f l; Ok (y :: ys)
  end.

(** ** Inversion *)
Lemma bind_ok {A B} (m : result A) (f : A → result B) b :
  (m ≫= f) = Ok b ↔ ∃ a, m = Ok a ∧ f a = Ok b.
Proof. destruct m; simpl; naive_solver. Qed.

Lemma raise_if_ok c e : raise_if c e = Ok tt ↔ c = false.
Proof. destruct c; simpl; naive_solver. Qed.

Lemma for_each_ok {A} (f : A → result unit) l :
  for_each f l = Ok tt ↔ Forall (λ x, f x = Ok tt) l.
Proof.
  induction l as [|x l IH]; simpl; [by split|].
  rewrite Forall_cons, <-IH, bind_ok. split; [|naive_solver].
  intros [[] ?]. naive_solver.
Qed.

(** Decompose a successful computation into its steps. *)
Ltac invert_ok :=
  repeat match goal with
  | H : Ok _ = Ok _ |- _ => injection H as H; subst
  | H : Raise _ = Ok _ |- _ => discriminate H
  | H : Ok _ = Raise _ |- _ => discriminate H
  | H : mbind _ _ = Ok _ |- _ => apply bind_ok in H as (? & ? & H)
  | H : raise_if _ _ = Ok ?u |- _ => destruct u; apply raise_if_ok in H
  | H : (if ?b then _ else _) = Ok _ |- _ => destruct b eqn:?
  end.
