(* ===== verification/CommandPolicy.v ===== *)
(** * Command policy ([agent_command_policy.py])

    Which agent commands may be executed or delivered, and the screen that
    keeps secret-like keys out of stored structures. *)

From S2P Require Import Prelude PyStr PyVal Errors.

Definition SHELL_CAPABLE_TOOLS : list string :=
  ["docker_workspace_exec"; "run_cli_command"; "ssh_device_run_command";
   "thin_client_run_command"].
Definition RAW_SHELL_ARGUMENT_KEYS : list string :=
  ["args"; "argv"; "command"; "script"; "shell"].

Record AgentToolExecution := mkAgentToolExecution {
  exec_tool : string;
  exec_arguments : pydict;
  exec_command_profile : option string;
}.

Definition enforce_agent_tenant_scope (actor_subject owner_subject : string) : result unit :=
  raise_if (bool_decide (actor_subject = "") || (actor_subject =/? owner_subject))
    (AgentCommandPolicyError
       "Agent resource is outside the authenticated tenant scope").

Definition mapping (value : pyval) (field : string) : result pydict :=
  match value with
  | PDict d => Ok d
  | _ => Raise (AgentCommandPolicyError (field +:+ " must be an object"))
  end.

Definition normalized_allowlist (values : list string) : list string :=
  filter (λ v, v ≠ "") (map strip values).

Definition policy_error {A} (message : string) : result A :=
  Raise (AgentCommandPolicyError message).

(** The sorted names of [RAW_SHELL_ARGUMENT_KEYS.intersection(arguments)]. *)
Definition forbidden_keys (arguments : pydict) : list string :=
  filter (λ k, dict_has arguments k = true) RAW_SHELL_ARGUMENT_KEYS.

Definition shell_profile (arguments : pydict) : result string :=
  raise_if (forbidden_keys arguments =/? [])
    (AgentCommandPolicyError
       ("Raw shell arguments are forbidden: " +:+ join ", " (forbidden_keys arguments)));;
  let command_profile := strip (str_or_empty (dict_get arguments "command_profile")) in
  raise_if (command_profile ==? "")
    (AgentCommandPolicyError "Shell-capable tools require command_profile");;
  Ok command_profile.

Definition resolve_agent_command_execution (command : pydict)
    (allowed_tools allowed_command_profiles : list string) : result AgentToolExecution :=
  let kind := strip (str_or_empty (dict_get command "kind")) in
  raise_if (kind =/? "run_tool")
    (AgentCommandPolicyError "Text instructions are not executable; kind must be run_tool");;
  payload ← mapping (dict_get command "structured_payload") "structured_payload";
  let tool := strip (str_or_empty (dict_get payload "tool")) in
  raise_if (tool ==? "") (AgentCommandPolicyError "structured_payload.tool is required");;
  raise_if (negb (tool ∈? normalized_allowlist allowed_tools))
    (AgentCommandPolicyError "Tool is not allowed by the agent execution policy");;
  arguments ← mapping (py_or (dict_get payload "arguments") (PDict []))
                "structured_payload.arguments";
  if tool ∈? SHELL_CAPABLE_TOOLS then
    command_profile ← shell_profile arguments;
    raise_if (negb (command_profile ∈? normalized_allowlist allowed_command_profiles))
      (AgentCommandPolicyError
         "Command profile is not allowed by the agent execution policy");;
    Ok (mkAgentToolExecution tool arguments (Some command_profile))
  else Ok (mkAgentToolExecution tool arguments None).

Definition DELIVERABLE_COMMAND_KINDS : list string :=
  ["handoff"; "instruction"; "pause"; "resume"; "review_request"; "run_tool"].

Definition validate_agent_command_for_delivery (command : pydict) : result unit :=
  let kind := strip (str_or_empty (dict_get command "kind")) in
  raise_if (negb (kind ∈? DELIVERABLE_COMMAND_KINDS))
    (AgentCommandPolicyError "Unsupported agent command kind");;
  let instruction := strip (str_or_empty (dict_get command "instruction")) in
  raise_if (instruction ==? "")
    (AgentCommandPolicyError "Agent command instruction is required");;
  if kind =/? "run_tool" then Ok tt else
  payload ← mapping (dict_get command "structured_payload") "structured_payload";
  let tool := strip (str_or_empty (dict_get payload "tool")) in
  raise_if (tool ==? "") (AgentCommandPolicyError "structured_payload.tool is required");;
  arguments ← mapping (py_or (dict_get payload "arguments") (PDict []))
                "structured_payload.arguments";
  if tool ∈? SHELL_CAPABLE_TOOLS then shell_profile arguments;; Ok tt else Ok tt.

Definition SECRET_LIKE_ARGUMENT_NAMES : list string :=
  ["access_token"; "access_tokens"; "api_key"; "auth_token"; "authorization"; "bearer";
   "client_secret"; "credential"; "credentials"; "github_token"; "gitlab_token";
   "password"; "passphrase"; "private_key"; "refresh_token"; "secret"; "token"].
Definition SECRET_LIKE_ARGUMENT_SUFFIXES : list string :=
  ["apikey"; "credential"; "credentials"; "password"; "passphrase"; "privatekey";
   "secret"; "token"].

Definition normalized_secret_name (value : string) : string :=
  of_chars (filter (λ c, is_alnum c = true) (chars (lower value))).

Definition is_secret_like_name (value : string) : bool :=
  let normalized := normalized_secret_name value in
  (normalized ∈? map normalized_secret_name SECRET_LIKE_ARGUMENT_NAMES)
  || existsb (endswith normalized) SECRET_LIKE_ARGUMENT_SUFFIXES.

(** The recursion stops at the first offending key, in iteration order. *)
Fixpoint assert_no_secret_like_keys (field : string) (value : pyval) : result unit :=
  match value with
  | PDict d =>
      (fix go d := match d with
        | [] => Ok tt
        | (key, item) :: d =>
            raise_if (is_secret_like_name key)
              (AgentCommandPolicyError
                 ("Secret-like key is not accepted in " +:+ field +:+ ": " +:+ key));;
            assert_no_secret_like_keys field item;;
            go d
        end) d
  | PList l =>
      (fix go l := match l with
        | [] => Ok tt
        | item :: l => assert_no_secret_like_keys field item;; go l
        end) l
  | _ => Ok tt
  end.

(** ** Specifications *)

(** Every key of [v], at any depth, satisfies [P]. *)
Inductive all_keys (P : string → Prop) : pyval → Prop :=
  | ak_leaf v : (∀ l, v ≠ PList l) → (∀ d, v ≠ PDict d) → all_keys P v
  | ak_list l : Forall (all_keys P) l → all_keys P (PList l)
  | ak_dict d : Forall (λ kv, P kv.1 ∧ all_keys P kv.2) d → all_keys P (PDict d).

Lemma secret_free_iff field v :
  assert_no_secret_like_keys field v = Ok tt
  ↔ all_keys (λ k, is_secret_like_name k = false) v.
Proof.
  induction v as [| | | | |l IH|d IH] using pyval_nested_ind;
    try (simpl; split; [intros _; by constructor|done]).
  - transitivity (Forall (all_keys (λ k, is_secret_like_name k = false)) l).
    + simpl. induction IH as [|v l Hv IH IHl]; [by split|].
      rewrite Forall_cons, <-IHl, <-Hv, bind_ok. split; [by intros ([] & ? & ?)|intros [??]; by exists tt].
    + split; [apply ak_list|]. inversion 1 as [? Hl| |]; [by destruct (Hl l)|done].
  - transitivity (Forall (λ kv, is_secret_like_name kv.1 = false
        ∧ all_keys (λ k, is_secret_like_name k = false) kv.2) d).
    + simpl. induction IH as [|[k v] d Hv IH IHd]; [by split|].
      rewrite Forall_cons, <-IHd; simpl in *. rewrite <-Hv, bind_ok. split.
      * intros ([] & Hk%raise_if_ok & ([] & ? & ?)%bind_ok). done.
      * intros [[? ?] ?]. exists tt. split; [by apply raise_if_ok|].
        apply bind_ok. by exists tt.
    + split; [apply (ak_dict (λ k, is_secret_like_name k = false))|]. inversion 1 as [? ? Hd| |]; [by destruct (Hd d)|done].
Qed.

Lemma forbidden_keys_nil arguments :
  forbidden_keys arguments = []
  ↔ ∀ k, k ∈ RAW_SHELL_ARGUMENT_KEYS → dict_has arguments k = false.
Proof.
  unfold forbidden_keys. split.
  - intros H k Hk. destruct (dict_has arguments k) eqn:E; [|done].
    assert (k ∈ (filter (λ k, dict_has arguments k = true) RAW_SHELL_ARGUMENT_KEYS)) as Hin
      by by apply list_elem_of_filter.
    rewrite H in Hin. by apply not_elem_of_nil in Hin.
  - intros H. destruct (filter _ _) as [|k l] eqn:E; [done|].
    assert (k ∈ filter (λ k, dict_has arguments k = true) RAW_SHELL_ARGUMENT_KEYS) as Hin
      by (rewrite E; left).
    apply list_elem_of_filter in Hin as [Hk Hin]. by rewrite (H k Hin) in Hk.
Qed.

Lemma shell_profile_ok arguments p :
  shell_profile arguments = Ok p →
  (∀ k, k ∈ RAW_SHELL_ARGUMENT_KEYS → dict_has arguments k = false)
  ∧ p = strip (str_or_empty (dict_get arguments "command_profile")) ∧ p ≠ "".
Proof.
  unfold shell_profile. intros H. invert_ok.
  apply negb_false_iff, bool_decide_eq_true in H0.
  case_bool_decide; [done|]. by rewrite <-forbidden_keys_nil.
Qed.
