(* ===== verification/Validate.v ===== *)
(** * Argument validation shared by the agent services

    The helpers of the same name in [agent_collaboration.py],
    [agent_coordination.py] and [agent_autonomy.py] have the same text. *)

From S2P Require Import Prelude PyStr PyVal Errors CommandPolicy.

Definition _required_text (value : pyval) (field : string) (maximum : Z) : result string :=
  let text := strip (str_or_empty value) in
  raise_if (text ==? "") (HTTPException 400 (field +:+ " is required"));;
  raise_if (maximum <? len text) (HTTPException 400 (field +:+ " exceeds length limit"));;
  Ok text.

Definition _optional_text (value : pyval) (maximum : Z) : result (option string) :=
  match value with
  | PNone => Ok None
  | _ =>
      let text := strip (py_str value) in
      if text ==? "" then Ok None else
      raise_if (maximum <? len text) (HTTPException 400 "value exceeds length limit");;
      Ok (Some text)
  end.

Definition _safe_structured (value : pyval) (field : string) : result pyval :=
  match assert_no_secret_like_keys field value with
  | Raise (AgentCommandPolicyError m) => http 400 m
  | Raise e => Raise e
  | Ok _ => Ok value
  end.

(** [dict(_safe_structured(dict(value or {}), field=field))] *)
Definition safe_dict (value : pyval) (field : string) : result pydict :=
  d ← or_type_error (dict_or_empty value);
  _safe_structured (PDict d) field;;
  Ok d.

(** [list(_safe_structured(list(value or []), field=field))] *)
Definition safe_list (value : pyval) (field : string) : result (list pyval) :=
  l ← or_type_error (list_or_empty value);
  _safe_structured (PList l) field;;
  Ok l.

(** [[str(v) for v in list(value or [])]] *)
Definition str_values (value : pyval) : result (list string) :=
  l ← or_type_error (list_or_empty value);
  Ok (map py_str l).

(** [[str(v) for v in list(value or []) if str(v)]] *)
Definition nonempty_str_values (value : pyval) : result (list string) :=
  l ← str_values value;
  Ok (filter (λ s, s ≠ "") l).

(** [[str(v).strip() for v in list(value or []) if str(v).strip()]] *)
Definition stripped_values (value : pyval) : result (list string) :=
  l ← str_values value;
  Ok (filter (λ s, s ≠ "") (map strip l)).

(** ** Specifications *)
Lemma _required_text_ok v f n s :
  _required_text v f n = Ok s ↔
  s = strip (str_or_empty v) ∧ s ≠ "" ∧ len s <= n.
Proof.
  unfold _required_text. rewrite bind_ok. split.
  - intros ([] & H1%raise_if_ok & ([] & H2%raise_if_ok & [= <-])%bind_ok).
    apply bool_decide_eq_false in H1. split_and!; [done|done|lia].
  - intros (-> & H1 & H2). exists tt. split.
    + by apply raise_if_ok, bool_decide_eq_false.
    + apply bind_ok. exists tt. split; [apply raise_if_ok; lia|done].
Qed.

Lemma _optional_text_ok v n s :
  _optional_text v n = Ok (Some s) → s = strip (py_str v) ∧ s ≠ "" ∧ len s <= n.
Proof.
  destruct v; [done|..]; cbn [_optional_text];
    (case_bool_decide as Hs; [done|]; rewrite bind_ok;
     intros ([] & H%raise_if_ok & [= <-]); split_and!; [done|done|by apply Z.ltb_ge]).
Qed.

Lemma safe_dict_ok v f d :
  safe_dict v f = Ok d → all_keys (λ k, is_secret_like_name k = false) (PDict d).
Proof.
  unfold safe_dict, _safe_structured. intros H. invert_ok.
  apply (secret_free_iff f).
  destruct (assert_no_secret_like_keys f (PDict d)) as [[]|[]]; done.
Qed.
