(* ===== verification/Paths.v ===== *)
(** * Paths, globs and reservations ([agent_coordination.py])

    Relative paths as [PurePosixPath] normalises them, [fnmatch.fnmatchcase],
    and the coverage and overlap tests on lease reservations. *)

From S2P Require Import Prelude PyStr PyVal Errors.
From Stdlib Require Import Ascii.

(** ** Normalisation *)
Definition slash : ascii := "/"%char.

(** [PurePosixPath(text).parts] of a relative path. *)
Definition posix_parts (text : list ascii) : list (list ascii) :=
  filter (λ p, p ≠ [] ∧ p ≠ ["."%char]) (split_on slash text).

Fixpoint join_parts (parts : list (list ascii)) : list ascii :=
  match parts with
  | [] => []
  | [p] => p
  | p :: ps => p ++ slash :: join_parts ps
  end.

Definition posix_str (parts : list (list ascii)) : string :=
  match parts with [] => "." | _ => of_chars (join_parts parts) end.

Definition normalize_relative_path (value : pyval) (field : string) : result string :=
  let text := strip (replace_char (chr 92) slash (str_or_empty value)) in
  if bool_decide (text = "") || bool_decide (text = ".") then Ok "." else
  raise_if (contains_char (chr 0) text)
    (HTTPException 400 (field +:+ " contains a NUL byte"));;
  let parts := posix_parts (chars text) in
  raise_if (startswith text "/" || (["."%char; "."%char] ∈? parts))
    (HTTPException 400 (field +:+ " must be a safe relative path"));;
  let normalized := posix_str parts in
  let normalized := if startswith normalized "./" then suffix_from 2 normalized
                    else normalized in
  Ok (if normalized ==? "" then "." else normalized).

(** ** [fnmatch.fnmatchcase] *)
Inductive glob_tok : Type :=
  | GAny
  | GOne
  | GLit (c : ascii)
  | GSet (negated : bool) (items : list (ascii * ascii)).

(** The members of a bracket expression: single characters and ranges. *)
Fixpoint set_items (l : list ascii) : list (ascii * ascii) :=
  match l with
  | [] => []
  | a :: l' =>
      match l' with
      | d :: b :: l2 =>
          if bool_decide (d = "-"%char) then (a, b) :: set_items l2
          else (a, a) :: set_items l'
      | _ => (a, a) :: set_items l'
      end
  end.

(** The text up to the first closing bracket, and what follows it. *)
Fixpoint until_bracket (l : list ascii) : option (list ascii * list ascii) :=
  match l with
  | [] => None
  | c :: l =>
      if bool_decide (c = "]"%char) then Some ([], l)
      else match until_bracket l with
           | Some (b, r) => Some (c :: b, r)
           | None => None
           end
  end.

(** What follows an opening bracket; [None] when it is never closed. *)
Definition parse_set (l : list ascii) : option (glob_tok * list ascii) :=
  let '(negated, l) := match l with
    | c :: l' => if bool_decide (c = "!"%char) then (true, l') else (false, l)
    | [] => (false, l)
    end in
  match l with
  | c :: l' =>
      if bool_decide (c = "]"%char) then
        match until_bracket l' with
        | Some (b, r) => Some (GSet negated (set_items (c :: b)), r)
        | None => None
        end
      else
        match until_bracket l with
        | Some (b, r) => Some (GSet negated (set_items b), r)
        | None => None
        end
  | [] => None
  end.

(** Each step consumes at least one character: the length is enough fuel. *)
Fixpoint glob_tokens (fuel : nat) (l : list ascii) : list glob_tok :=
  match fuel, l with
  | S fuel, c :: l =>
      if bool_decide (c = "*"%char) then GAny :: glob_tokens fuel l
      else if bool_decide (c = "?"%char) then GOne :: glob_tokens fuel l
      else if bool_decide (c = "["%char) then
        match parse_set l with
        | Some (t, l) => t :: glob_tokens fuel l
        | None => GLit c :: glob_tokens fuel l
        end
      else GLit c :: glob_tokens fuel l
  | _, _ => []
  end.

Definition in_items (c : ascii) (items : list (ascii * ascii)) : bool :=
  existsb (λ lh, (code lh.1 <=? code c) && (code c <=? code lh.2)) items.

Fixpoint tokens_match (ts : list glob_tok) (s : list ascii) : bool :=
  match ts with
  | [] => match s with [] => true | _ => false end
  | GAny :: ts =>
      (fix star s := tokens_match ts s || match s with [] => false | _ :: s => star s end) s
  | GOne :: ts => match s with [] => false | _ :: s => tokens_match ts s end
  | GLit c :: ts =>
      match s with [] => false | x :: s => bool_decide (x = c) && tokens_match ts s end
  | GSet negated items :: ts =>
      match s with
      | [] => false
      | x :: s => xorb negated (in_items x items) && tokens_match ts s
      end
  end.

Definition fnmatchcase (name pat : string) : bool :=
  tokens_match (glob_tokens (String.length pat) (chars pat)) (chars name).

(** ** Reservations *)
Definition is_wildcard (c : ascii) : bool :=
  bool_decide (c = "*"%char) || bool_decide (c = "["%char) || bool_decide (c = "?"%char).

Fixpoint before_wildcard (l : list ascii) : list ascii :=
  match l with
  | [] => []
  | c :: l => if is_wildcard c then [] else c :: before_wildcard l
  end.

(** [s.rsplit("/", 1)[0]] when [s] has a slash. *)
Fixpoint before_last_slash (l : list ascii) : list ascii :=
  match l with
  | [] => []
  | c :: l => if slash ∈? l then c :: before_last_slash l
              else if bool_decide (c = slash) then [] else c :: l
  end.

Definition has_wildcard (s : string) : bool := existsb is_wildcard (chars s).

Definition _glob_fixed_prefix (pattern : string) : string :=
  if negb (has_wildcard pattern) then pattern else
  let prefix := before_wildcard (chars pattern) in
  if slash ∈? prefix then of_chars (before_last_slash prefix) else "".

Definition reservation (kind pattern : string) (recursive : bool) : pydict :=
  [("kind", PStr kind); ("pattern", PStr pattern); ("recursive", PBool recursive)].

(** One iteration of the loop of [normalize_reservations]. *)
Definition normalize_reservation (item : pyval) : result (string * string * bool) :=
  d ← match item with PDict d => Ok d | _ => http 400 "reservation must be an object" end;
  let kind := strip (py_str (py_or (dict_get d "kind") (PStr "path"))) in
  raise_if (negb (kind ∈? ["path"; "glob"]))
    (HTTPException 400 "reservation kind must be path or glob");;
  pattern ← normalize_relative_path (dict_get d "pattern") "reservation.pattern";
  let kind := if (kind ==? "glob") && negb (has_wildcard pattern) then "path" else kind in
  let recursive := truthy (dict_get_or d "recursive" (PBool (kind ==? "path"))) in
  Ok (kind, pattern, recursive).

Definition normalize_reservations (raw : pyval) : result (list pydict) :=
  match raw with
  | PList ((_ :: _) as items) =>
      keys ← map_result normalize_reservation items;
      let result := map (λ '(kind, pattern, recursive), reservation kind pattern recursive)
                      (dedup keys) in
      raise_if (200 <? Z.of_nat (length result)) (HTTPException 400 "too many reservations");;
      Ok result
  | _ => http 400 "reservations must be a non-empty array"
  end.

Definition res_pattern (r : pydict) : string := py_str (py_or (dict_get r "pattern") (PStr ".")).
Definition res_kind (r : pydict) : string := py_str (py_or (dict_get r "kind") (PStr "path")).
Definition res_recursive (r : pydict) : bool := truthy (dict_get_or r "recursive" (PBool true)).

Definition under (pattern path : string) : bool :=
  startswith path (rstrip_char slash pattern +:+ "/").

Definition reservation_covers_path (r : pydict) (path : string) : bool :=
  let pattern := res_pattern r in
  if res_kind r ==? "glob" then fnmatchcase path pattern else
  if path ==? pattern then true else
  res_recursive r && ((pattern ==? ".") || under pattern path).

(** A path reservation [p] against a glob [g]. *)
Definition path_glob_overlap (p g : string) : bool :=
  fnmatchcase p g
  || let prefix := _glob_fixed_prefix g in
     (prefix =/? "") && (startswith p prefix || startswith prefix (rstrip_char slash p +:+ "/")).

Definition reservations_overlap (left right : pydict) : bool :=
  let left_pattern := res_pattern left in
  let right_pattern := res_pattern right in
  match res_kind left ==? "path", res_kind right ==? "path" with
  | true, true =>
      reservation_covers_path left right_pattern || reservation_covers_path right left_pattern
  | true, false => path_glob_overlap left_pattern right_pattern
  | false, true => path_glob_overlap right_pattern left_pattern
  | false, false =>
      let left_prefix := _glob_fixed_prefix left_pattern in
      let right_prefix := _glob_fixed_prefix right_pattern in
      if (left_prefix ==? "") || (right_prefix ==? "") then true
      else startswith left_prefix right_prefix || startswith right_prefix left_prefix
  end.

Definition reservation_sets_overlap (left right : list pydict) : bool :=
  existsb (λ a, existsb (reservations_overlap a) right) left.

Example fnmatch_ex :
  map (λ np, fnmatchcase np.1 np.2)
    [("src/a.py", "*.py"); ("a.py", "?.p[x-z]"); ("a]", "a[]]"); ("b", "[!a]");
     ("ab", "a"); ("[a", "[a"); ("-", "[a-]"); ("b", "[c-a]")]
  = [true; true; true; true; false; true; true; false].
Proof. vm_compute. reflexivity. Qed.

Example normalize_ex :
  (normalize_relative_path (PStr " ./a\\b//c/./d/ ") "p",
   normalize_relative_path (PStr "a/../b") "p",
   normalize_relative_path (PStr "/etc") "p",
   normalize_relative_path PNone "p")
  = (Ok "a/b/c/d", http 400 "p must be a safe relative path",
     http 400 "p must be a safe relative path", Ok ".").
Proof. vm_compute. reflexivity. Qed.

(** ** Normal paths *)

(** A component: not empty, not [.] or [..], without a slash or a NUL byte. *)
Definition good_part (q : list ascii) : Prop :=
  q ≠ [] ∧ q ≠ ["."%char] ∧ q ≠ ["."%char; "."%char] ∧ slash ∉ q ∧ chr 0 ∉ q.

(** The current directory, or components joined by single slashes. *)
Definition normal_path (p : string) : Prop :=
  p = "." ∨ ∃ parts, parts ≠ [] ∧ Forall good_part parts ∧ p = of_chars (join_parts parts).

Lemma split_on_no_sep c l p : p ∈ split_on c l → c ∉ p.
Proof.
  revert p; induction l as [|x l IH]; intros p; simpl.
  - intros ->%list_elem_of_singleton. apply not_elem_of_nil.
  - case_bool_decide as Hx.
    + intros [->|H]%elem_of_cons; [apply not_elem_of_nil|by apply IH].
    + destruct (split_on c l) as [|q qs]; intros [->|H]%elem_of_cons.
      * intros [->|Hc]%elem_of_cons; [done|by apply not_elem_of_nil in Hc].
      * by apply not_elem_of_nil in H.
      * intros [->|Hc]%elem_of_cons; [done|]. by apply (IH q); [left|].
      * apply IH. by right.
Qed.

Lemma split_on_incl c l p x : p ∈ split_on c l → x ∈ p → x ∈ l.
Proof.
  revert p; induction l as [|y l IH]; intros p; simpl.
  - intros ->%list_elem_of_singleton. done.
  - case_bool_decide as Hy.
    + intros [->|H]%elem_of_cons Hx; [by apply not_elem_of_nil in Hx|right; eauto].
    + destruct (split_on c l) as [|q qs]; intros [->|H]%elem_of_cons Hx.
      * apply list_elem_of_singleton in Hx as ->. left.
      * by apply not_elem_of_nil in H.
      * apply elem_of_cons in Hx as [->|Hx]; [left|right; apply (IH q); [left|done]].
      * right. apply (IH p); [by right|done].
Qed.

Lemma posix_parts_good text :
  chr 0 ∉ text → ["."%char; "."%char] ∉ posix_parts text →
  Forall good_part (posix_parts text).
Proof.
  intros H0 Hdd. apply Forall_forall. intros q Hq.
  pose proof Hq as [[? ?] Hin]%list_elem_of_filter.
  split_and!; [done|done|by intros ->|by eapply split_on_no_sep|].
  intros Hc. by eapply H0, split_on_incl.
Qed.

Lemma join_parts_head q ps c l :
  join_parts (q :: ps) = c :: l → q ≠ [] → head q = Some c.
Proof. destruct q as [|c' q]; [done|]. destruct ps; simpl; intros [=]; by simplify_eq/=. Qed.

(** The first two characters of a normal path are not a dot and a slash. *)
Lemma join_parts_not_dot_slash parts l :
  Forall good_part parts → join_parts parts ≠ "."%char :: slash :: l.
Proof.
  intros HF H. destruct parts as [|q ps]; [done|].
  apply Forall_cons in HF as [(Hq & Hdot & _ & Hsl & _) _].
  destruct q as [|c q]; [done|]. cbn [join_parts app] in H.
  destruct ps as [|p ps]; cbn [join_parts app] in H.
  - injection H as -> ->. destruct Hsl. right. left.
  - injection H as -> H. destruct q as [|c q]; [done|]. injection H as -> H. destruct Hsl. right. left.
Qed.

Lemma startswith_chars s pre : startswith s pre = true ↔ ∃ r, chars s = chars pre ++ r.
Proof. apply list_prefix_spec. Qed.

Lemma normalize_normal v f p :
  normalize_relative_path v f = Ok p → normal_path p.
Proof.
  unfold normalize_relative_path. intros H. invert_ok; [by left|].
  clear Heqb. match goal with
  | H : contains_char _ _ = false, H' : _ || _ = false |- _ =>
      apply bool_decide_eq_false in H;
      apply orb_false_iff in H' as [_ H'%bool_decide_eq_false];
      pose proof (posix_parts_good _ H H') as HF
  end.
  set (parts := posix_parts _) in *. clearbody parts.
  destruct parts as [|q ps]; [by left|]. right. exists (q :: ps). split_and!; [done|done|].
  assert (startswith (posix_str (q :: ps)) "./" = false) as ->.
  { apply not_true_iff_false. intros [r Hr]%startswith_chars.
    cbn [posix_str] in Hr. rewrite chars_of_chars in Hr.
    by apply (join_parts_not_dot_slash (q :: ps) r). }
  cbn [posix_str]. rewrite bool_decide_eq_false_2; [done|].
  intros Hnil. apply (f_equal chars) in Hnil. rewrite chars_of_chars in Hnil.
  apply Forall_cons in HF as [(Hq & _) _].
  destruct q as [|c q]; [done|]. by destruct ps.
Qed.

Lemma join_parts_last parts :
  parts ≠ [] → Forall good_part parts →
  ∃ l c, join_parts parts = l ++ [c] ∧ c ≠ slash.
Proof.
  intros Hne HF. induction HF as [|q ps Hq HF IH]; [done|].
  destruct ps as [|p ps].
  - destruct Hq as (Hq & _ & _ & Hsl & _).
    destruct (exists_last Hq) as [l [c ->]]. exists l, c. split; [done|].
    intros ->. apply Hsl, elem_of_app. right. left.
  - destruct IH as (l & c & E & Hc); [done|]. exists (q ++ slash :: l), c.
    cbn [join_parts] in *. rewrite E. by rewrite <-app_assoc.
Qed.

Lemma rstrip_normal p : normal_path p → rstrip_char slash p = p.
Proof.
  intros [->|(parts & Hne & HF & ->)]; [done|].
  destruct (join_parts_last parts Hne HF) as (l & c & -> & Hc).
  unfold rstrip_char, rstrip_by. rewrite chars_of_chars, rev_app_distr. simpl.
  rewrite bool_decide_eq_false_2 by done. simpl. by rewrite rev_involutive.
Qed.

Lemma normal_path_ne p : normal_path p → p ≠ "".
Proof.
  intros [->|(parts & Hne & HF & ->)]; [done|].
  destruct (join_parts_last parts Hne HF) as (l & c & -> & Hc).
  by destruct l.
Qed.

(** Splitting a joined path gives its components back. *)
Lemma split_on_no c q : c ∉ q → split_on c q = [q].
Proof.
  induction q as [|x q IH]; intros H; [done|]. simpl.
  apply not_elem_of_cons in H as [Hx H].
  rewrite bool_decide_eq_false_2 by congruence. by rewrite IH.
Qed.

Lemma split_on_app c q l : c ∉ q → split_on c (q ++ c :: l) = q :: split_on c l.
Proof.
  induction q as [|x q IH]; intros H; simpl.
  - by rewrite bool_decide_eq_true_2.
  - apply not_elem_of_cons in H as [Hx H].
    rewrite bool_decide_eq_false_2 by congruence. by rewrite IH.
Qed.

Lemma split_join parts :
  parts ≠ [] → Forall good_part parts → split_on slash (join_parts parts) = parts.
Proof.
  intros Hne HF. induction HF as [|q ps Hq HF IH]; [done|].
  destruct Hq as (_ & _ & _ & Hsl & _).
  destruct ps as [|p ps]; [by apply split_on_no|].
  change (join_parts (q :: p :: ps)) with (q ++ slash :: join_parts (p :: ps)).
  by rewrite split_on_app, IH.
Qed.

Lemma posix_parts_join parts :
  parts ≠ [] → Forall good_part parts → posix_parts (join_parts parts) = parts.
Proof.
  intros Hne HF. unfold posix_parts. rewrite split_join by done.
  clear Hne. induction HF as [|q ps (? & ? & _) HF IH]; [done|].
  rewrite filter_cons_True by done. by rewrite IH.
Qed.

Lemma join_parts_no_nul parts : Forall good_part parts → chr 0 ∉ join_parts parts.
Proof.
  induction 1 as [|q ps (_ & _ & _ & _ & H0) HF IH]; [apply not_elem_of_nil|].
  destruct ps as [|p ps]; [done|].
  change (join_parts (q :: p :: ps)) with (q ++ slash :: join_parts (p :: ps)).
  rewrite elem_of_app, elem_of_cons. by intros [?|[?|?]].
Qed.

(** Every well-formed path that the normalisation returns is a fixed point of it,
    white space at its ends aside. *)
Lemma normalize_fixed p f :
  normal_path p → strip p = p → contains_char (chr 92) p = false →
  normalize_relative_path (PStr p) f = Ok p.
Proof.
  intros HN Hstrip Hbs. unfold normalize_relative_path.
  assert (Hne := normal_path_ne p HN).
  assert (str_or_empty (PStr p) = p) as ->.
  { unfold str_or_empty, py_or. simpl. by rewrite bool_decide_eq_false_2. }
  rewrite replace_char_no by done. rewrite Hstrip.
  destruct HN as [->|(parts & Hn & HF & ->)]; [done|].
  destruct (bool_decide _ || _) eqn:Hd.
  { apply orb_true_iff in Hd as [H%bool_decide_eq_true|H%bool_decide_eq_true]; [done|].
    exfalso. apply (f_equal (posix_parts ∘ chars)) in H. simpl in H.
    rewrite chars_of_chars, posix_parts_join in H by done. by subst. }
  rewrite !chars_of_chars, posix_parts_join by done.
  assert (contains_char (chr 0) (of_chars (join_parts parts)) = false) as ->.
  { apply bool_decide_eq_false. rewrite chars_of_chars. by apply join_parts_no_nul. }
  assert (startswith (of_chars (join_parts parts)) "/" = false) as ->.
  { apply not_true_iff_false. intros [r Hr]%startswith_chars.
    rewrite chars_of_chars in Hr. destruct parts as [|q ps]; [done|].
    apply Forall_cons in HF as [(Hq & _ & _ & Hsl & _) _].
    destruct q as [|c q]; [done|]. destruct ps; simpl in Hr; injection Hr as -> _;
      apply Hsl; left. }
  rewrite (bool_decide_eq_false_2 (["."%char; "."%char] ∈ parts)).
  2:{ intros Hin. eapply Forall_forall in HF; [|exact Hin].
      by destruct HF as (_ & _ & HF & _). }
  assert (posix_str parts = of_chars (join_parts parts)) as -> by by destruct parts.
  assert (startswith (of_chars (join_parts parts)) "./" = false) as ->.
  { apply not_true_iff_false. intros [r Hr]%startswith_chars. rewrite chars_of_chars in Hr.
    by apply (join_parts_not_dot_slash parts r). }
  simpl. by rewrite bool_decide_eq_false_2.
Qed.

Lemma join_parts_incl parts c :
  c ∈ join_parts parts → c = slash ∨ ∃ q, q ∈ parts ∧ c ∈ q.
Proof.
  induction parts as [|q ps IH]; [by intros ?%not_elem_of_nil|].
  destruct ps as [|p ps]; [right; exists q; split; [left|done]|].
  change (join_parts (q :: p :: ps)) with (q ++ slash :: join_parts (p :: ps)).
  rewrite elem_of_app, elem_of_cons. intros [Hc|[->|Hc]]; [right|by left|].
  - exists q. split; [left|done].
  - destruct (IH Hc) as [->|(q' & Hq & ?)]; [by left|right; exists q'; split; [by right|done]].
Qed.

Lemma normalize_no_backslash v f p :
  normalize_relative_path v f = Ok p → contains_char (chr 92) p = false.
Proof.
  unfold normalize_relative_path. intros H.
  set (text := strip _) in *.
  assert (chr 92 ∉ chars text) as Hno.
  { intros Hc%strip_incl. by apply (replace_char_gone (chr 92) slash _ ltac:(discriminate)) in Hc. }
  clearbody text. invert_ok; [done|]. apply bool_decide_eq_false.
  assert (Hp : chr 92 ∉ chars (posix_str (posix_parts (chars text)))).
  { destruct (posix_parts (chars text)) as [|q ps] eqn:E.
    - intros Hc%list_elem_of_In. by destruct Hc as [Hc|[]].
    - cbn [posix_str]. rewrite chars_of_chars. intros [Hc|(q' & Hq & Hc)]%join_parts_incl; [done|].
      rewrite <-E in Hq. apply list_elem_of_filter in Hq as [_ Hq].
      by eapply Hno, split_on_incl. }
  assert (Hs : ∀ n, chr 92 ∉ chars (suffix_from n (posix_str (posix_parts (chars text))))).
  { intros n. unfold suffix_from. rewrite chars_of_chars. intros Hc. apply Hp.
    eapply subseteq_drop, Hc. }
  assert (Hdot : chr 92 ∉ chars ".") by (intros Hc%list_elem_of_In; by destruct Hc as [Hc|[]]).
  repeat case_match; auto.
Qed.

(** ** Overlap *)

(** Two prefixes of one string are comparable. *)
Lemma prefixes_comparable s p q :
  startswith s p = true → startswith s q = true →
  startswith p q = true ∨ startswith q p = true.
Proof.
  rewrite !startswith_chars. intros [r Hr] [r' Hr']. rewrite Hr in Hr'.
  destruct (app_eq_inv _ _ _ _ Hr') as [(k & E & _)|(k & E & _)]; eauto.
Qed.

Lemma fixed_literals n l s :
  (length l <= n)%nat → tokens_match (glob_tokens n l) s = true →
  ∃ r, s = before_wildcard l ++ r.
Proof.
  revert n s; induction l as [|c l IH]; intros n s Hn H; [by exists s|].
  destruct n as [|n]; simpl in Hn; [lia|]. simpl in *. unfold is_wildcard.
  case_bool_decide; [by exists s|]. case_bool_decide; simpl.
  { case_bool_decide; [by exists s|]. by exists s. }
  case_bool_decide; [by exists s|]. simpl in H.
  destruct s as [|x s]; [done|]. apply andb_true_iff in H as [->%bool_decide_eq_true H].
  destruct (IH n s) as [r ->]; [lia|done|]. by exists r.
Qed.

Lemma before_last_slash_prefix l : slash ∈ l → ∃ r, l = before_last_slash l ++ slash :: r.
Proof.
  induction l as [|c l IH]; intros H; [by apply not_elem_of_nil in H|]. simpl.
  case_bool_decide as Hl.
  - destruct (IH Hl) as [r Hr]. exists r. simpl. by rewrite <-Hr.
  - apply elem_of_cons in H as [<-|H]; [|done].
    rewrite bool_decide_eq_true_2 by done. by exists l.
Qed.

(** Whatever a glob matches starts with the fixed prefix of the glob. *)
Lemma glob_fixed_prefix_sound x g :
  fnmatchcase x g = true → startswith x (_glob_fixed_prefix g) = true.
Proof.
  intros H. apply startswith_chars.
  destruct (fixed_literals (String.length g) (chars g) (chars x)) as [r Hr];
    [by rewrite length_chars|done|].
  unfold _glob_fixed_prefix. destruct (has_wildcard g) eqn:Hw; simpl.
  - case_bool_decide as Hs; [|by exists (chars x)].
    rewrite chars_of_chars. destruct (before_last_slash_prefix _ Hs) as [r' Hr'].
    exists (slash :: r' ++ r). rewrite Hr, Hr' at 1. by rewrite <-app_assoc.
  - exists r. rewrite Hr. f_equal. unfold has_wildcard in Hw. clear -Hw.
    induction (chars g) as [|c l IH]; [done|]. simpl in *.
    apply orb_false_iff in Hw as [-> Hw]. by rewrite IH.
Qed.

(** What the reservations of [normalize_reservations] look like. *)
Definition wf_reservation (r : pydict) : Prop :=
  ∃ kind pattern recursive, r = reservation kind pattern recursive
    ∧ (kind = "path" ∨ kind = "glob") ∧ normal_path pattern.

(** The pairs that [reservations_overlap] compares incompletely: a recursive
    path against a glob whose fixed prefix is empty, or the whole tree. *)
Definition blind_spot (path glob : pydict) : Prop :=
  res_kind path = "path" ∧ res_kind glob = "glob" ∧ res_recursive path = true
  ∧ (res_pattern path = "." ∨ _glob_fixed_prefix (res_pattern glob) = "").

Lemma wf_reservation_fields k p b :
  (k = "path" ∨ k = "glob") → normal_path p →
  res_kind (reservation k p b) = k ∧ res_pattern (reservation k p b) = p
  ∧ res_recursive (reservation k p b) = b.
Proof.
  intros Hk Hp%normal_path_ne. unfold res_kind, res_pattern, res_recursive.
  unfold dict_get, dict_get_or, py_or. simpl.
  rewrite (bool_decide_eq_false_2 (p = "")) by done.
  by destruct Hk as [-> | ->].
Qed.

Lemma under_spec p x : normal_path p → under p x = startswith x (p +:+ "/").
Proof. intros H. unfold under. by rewrite rstrip_normal. Qed.

Lemma chars_slash p : chars (p +:+ "/") = chars p ++ [slash].
Proof. apply chars_app. Qed.

Lemma under_both p q x :
  startswith x (p +:+ "/") = true → startswith x (q +:+ "/") = true →
  p = q ∨ startswith p (q +:+ "/") = true ∨ startswith q (p +:+ "/") = true.
Proof.
  rewrite !startswith_chars, !chars_slash. intros [r Hr] [r' Hr']. rewrite Hr in Hr'.
  rewrite <-!app_assoc in Hr'. simpl in Hr'.
  destruct (app_eq_inv _ _ _ _ Hr') as [(k & E & Hk)|(k & E & Hk)].
  - destruct k as [|c k]; simpl in Hk; [left; apply chars_inj; by rewrite E, app_nil_r|].
    injection Hk as <- _. right; left. exists k. by rewrite E, <-app_assoc.
  - destruct k as [|c k]; simpl in Hk; [left; apply chars_inj; by rewrite E, app_nil_r|].
    injection Hk as <- _. right; right. exists k. by rewrite E, <-app_assoc.
Qed.

Lemma path_glob_sound p g b x :
  normal_path p → p ≠ "." → _glob_fixed_prefix g ≠ "" →
  (x = p ∨ b = true ∧ startswith x (p +:+ "/") = true) → fnmatchcase x g = true →
  path_glob_overlap p g = true.
Proof.
  intros HN Hp Hg Hx Hm. unfold path_glob_overlap.
  destruct Hx as [-> |[_ Hx]]; [by rewrite Hm|].
  apply orb_true_iff. right. rewrite bool_decide_eq_false_2 by done.
  simpl. rewrite rstrip_normal by done.
  destruct (prefixes_comparable x (p +:+ "/") (_glob_fixed_prefix g)) as [H|H];
    [done|by apply glob_fixed_prefix_sound| |by rewrite H, orb_true_r].
  apply startswith_chars in H as [r Hr]. rewrite chars_slash in Hr.
  destruct (decide (r = [])) as [->|Hne].
  - apply orb_true_iff. right. apply startswith_chars. exists [].
    by rewrite chars_slash, Hr, !app_nil_r.
  - destruct (exists_last Hne) as [r' [c ->]]. rewrite app_assoc in Hr.
    apply app_inj_tail in Hr as [Hr _]. apply orb_true_iff. left.
    apply startswith_chars. eauto.
Qed.

Lemma map_result_elem {A B} (f : A → result B) l ys y :
  map_result f l = Ok ys → y ∈ ys → ∃ x, x ∈ l ∧ f x = Ok y.
Proof.
  revert ys; induction l as [|x l IH]; intros ys H Hy; simpl in H.
  - injection H as <-. by apply not_elem_of_nil in Hy.
  - apply bind_ok in H as (y' & Hf & (ys' & Hm & [= <-])%bind_ok).
    apply elem_of_cons in Hy as [->|Hy]; [exists x; split; [left|done]|].
    destruct (IH _ Hm Hy) as (x' & ? & ?). exists x'. split; [by right|done].
Qed.

Lemma normalize_reservation_wf item k p b :
  normalize_reservation item = Ok (k, p, b) →
  (k = "path" ∨ k = "glob" ∧ has_wildcard p = true) ∧ normal_path p.
Proof.
  unfold normalize_reservation. intros (d & Hd & H)%bind_ok. cbv zeta in H.
  apply bind_ok in H as ([] & Hk%raise_if_ok & (p' & Hp & [= <- <- <-])%bind_ok).
  split; [|by eapply normalize_normal].
  apply negb_false_iff, bool_decide_eq_true in Hk.
  rewrite !elem_of_cons in Hk. destruct Hk as [-> |[-> |H%not_elem_of_nil]]; [by left| |done].
  destruct (has_wildcard p'); simpl; auto.
Qed.

Lemma reservations_overlap_comm l r :
  reservations_overlap l r = reservations_overlap r l.
Proof.
  unfold reservations_overlap.
  destruct (res_kind l ==? "path"), (res_kind r ==? "path"); [apply orb_comm|done|done|].
  rewrite (orb_comm (_ ==? "")). case_match; [done|apply orb_comm].
Qed.

Lemma reservation_sets_overlap_spec l r :
  reservation_sets_overlap l r = true
  ↔ ∃ a b, a ∈ l ∧ b ∈ r ∧ reservations_overlap a b = true.
Proof.
  unfold reservation_sets_overlap. rewrite existsb_exists. split.
  - intros (a & Ha & (b & Hb & H)%existsb_exists). exists a, b.
    by rewrite !list_elem_of_In.
  - intros (a & b & Ha & Hb & H). exists a. rewrite <-list_elem_of_In. split; [done|].
    apply existsb_exists. exists b. by rewrite <-list_elem_of_In.
Qed.

Lemma reservation_sets_overlap_comm l r :
  reservation_sets_overlap l r = reservation_sets_overlap r l.
Proof.
  apply eq_true_iff_eq. rewrite !reservation_sets_overlap_spec.
  split; intros (a & b & ? & ? & ?); exists b, a; by rewrite reservations_overlap_comm.
Qed.

Lemma covers_path_spec p b x :
  normal_path p →
  reservation_covers_path (reservation "path" p b) x = true →
  x = p ∨ b = true ∧ (p = "." ∨ startswith x (p +:+ "/") = true).
Proof.
  intros HN. destruct (wf_reservation_fields "path" p b (or_introl eq_refl) HN) as (Ek & Ep & Eb).
  unfold reservation_covers_path. rewrite Ek, Ep, Eb, under_spec by done. simpl.
  case_bool_decide as Hxp; [by left|]. intros [-> H]%andb_true_iff. right. split; [done|].
  apply orb_true_iff in H as [H%bool_decide_eq_true|H]; auto.
Qed.

Lemma path_path_sound p q b c x :
  normal_path p → normal_path q →
  reservation_covers_path (reservation "path" p b) x = true →
  reservation_covers_path (reservation "path" q c) x = true →
  reservation_covers_path (reservation "path" p b) q
  || reservation_covers_path (reservation "path" q c) p = true.
Proof.
  intros Hp Hq Hpx Hqx. pose proof (covers_path_spec p b x Hp Hpx) as [-> |[-> Hx]];
    [by rewrite Hqx, orb_true_r|].
  pose proof (covers_path_spec q c x Hq Hqx) as [-> |[-> Hy]]; [by rewrite Hpx|].
  destruct (wf_reservation_fields "path" p true (or_introl eq_refl) Hp) as (Ek & Ep & Eb).
  destruct (wf_reservation_fields "path" q true (or_introl eq_refl) Hq) as (Fk & Fp & Fb).
  unfold reservation_covers_path. rewrite Ek, Ep, Eb, Fk, Fp, Fb, !under_spec by done. simpl.
  destruct Hx as [-> |Hx]; [by destruct (q ==? ".")|].
  destruct Hy as [-> |Hy]; [rewrite orb_true_iff; right; by case_match|].
  destruct (under_both p q x Hx Hy) as [-> |[H|H]].
  - by rewrite bool_decide_eq_true_2.
  - rewrite orb_true_iff. right. case_match; [done|]. by rewrite H, orb_true_r.
  - rewrite orb_true_iff. left. case_match; [done|]. by rewrite H, orb_true_r.
Qed.

Lemma path_glob_reservations_sound p q b c x :
  normal_path p → normal_path q →
  ¬ blind_spot (reservation "path" p b) (reservation "glob" q c) →
  reservation_covers_path (reservation "path" p b) x = true →
  reservation_covers_path (reservation "glob" q c) x = true →
  path_glob_overlap p q = true.
Proof.
  intros Hp Hq Hblind Hx Hg.
  apply covers_path_spec in Hx; [|done].
  destruct (wf_reservation_fields "path" p b (or_introl eq_refl) Hp) as (Ek & Ep & Eb).
  destruct (wf_reservation_fields "glob" q c (or_intror eq_refl) Hq) as (Fk & Fp & Fb).
  unfold reservation_covers_path in Hg. rewrite Fk, Fp in Hg. simpl in Hg.
  destruct Hx as [-> |[-> Hx]]; [unfold path_glob_overlap; by rewrite Hg|].
  unfold blind_spot in Hblind. rewrite Ek, Ep, Eb, Fk, Fp in Hblind.
  destruct Hx as [-> |Hx]; [by destruct Hblind; auto|].
  apply (path_glob_sound p q true x); [done| | |by right|done];
    intros E; apply Hblind; auto.
Qed.

Lemma reservations_overlap_sound l r x :
  wf_reservation l → wf_reservation r → ¬ blind_spot l r → ¬ blind_spot r l →
  reservation_covers_path l x = true → reservation_covers_path r x = true →
  reservations_overlap l r = true.
Proof.
  intros (k & p & b & -> & Hk & Hp) (k' & q & c & -> & Hk' & Hq) Hlr Hrl Hl Hr.
  destruct (wf_reservation_fields k p b Hk Hp) as (Ek & Ep & Eb).
  destruct (wf_reservation_fields k' q c Hk' Hq) as (Fk & Fp & Fb).
  unfold reservations_overlap. rewrite Ek, Ep, Fk, Fp.
  destruct Hk as [-> | ->], Hk' as [-> | ->]; simpl.
  - by eapply path_path_sound.
  - by eapply path_glob_reservations_sound.
  - by eapply path_glob_reservations_sound.
  - unfold reservation_covers_path in Hl, Hr. rewrite Ek, Ep in Hl. rewrite Fk, Fp in Hr.
    simpl in Hl, Hr. case_match; [done|]. apply orb_true_iff.
    eapply prefixes_comparable; by apply glob_fixed_prefix_sound.
Qed.

(** C38 Two sets of reservations that both cover some path overlap, so that a second
    lease on the path is refused, outside the pairs of [blind_spot]. *)
Theorem reservation_sets_overlap_sound ls rs l r x :
  Forall wf_reservation ls → Forall wf_reservation rs → l ∈ ls → r ∈ rs →
  ¬ blind_spot l r → ¬ blind_spot r l →
  reservation_covers_path l x = true → reservation_covers_path r x = true →
  reservation_sets_overlap ls rs = true ∧ reservation_sets_overlap rs ls = true.
Proof.
  rewrite !Forall_forall. intros Hl Hr ????? ?.
  rewrite (reservation_sets_overlap_comm rs ls).
  split; apply reservation_sets_overlap_spec; exists l, r;
    (split_and!; [done|done|]); eapply reservations_overlap_sound; eauto.
Qed.

Lemma reservation_sets_overlap_sound_witness :
  let l := reservation "path" "src/api" true in
  let r := reservation "glob" "src/api/*.py" false in
  reservation_covers_path l "src/api/a.py" = true
  ∧ reservation_covers_path r "src/api/a.py" = true
  ∧ reservation_sets_overlap [l] [r] = true ∧ reservation_sets_overlap [r] [l] = true.
Proof.
  assert (normal_path "src/api" ∧ normal_path "src/api/*.py") as [Hl Hr].
  { split; [apply (normalize_normal (PStr "src/api") "p")
           |apply (normalize_normal (PStr "src/api/*.py") "p")]; vm_compute; reflexivity. }
  intros l r. split; [reflexivity|]. split; [reflexivity|].
  apply (reservation_sets_overlap_sound [l] [r] l r "src/api/a.py").
  - constructor; [|constructor]. exists "path", "src/api", true. auto.
  - constructor; [|constructor]. exists "glob", "src/api/*.py", false. auto.
  - left.
  - left.
  - intros (_ & _ & _ & [H|H]); vm_compute in H; discriminate H.
  - intros (H & _). vm_compute in H. discriminate H.
  - reflexivity.
  - reflexivity.
Defined.


Lemma normalize_reservations_forall raw rs :
  normalize_reservations raw = Ok rs → Forall wf_reservation rs.
Proof.
  unfold normalize_reservations. destruct raw as [| | | | |[|item items]|]; try done.
  intros (keys & Hm & H)%bind_ok. cbv zeta in H. invert_ok.
  apply Forall_map, Forall_forall. intros [[k p] b] Hkey; simpl.
  rewrite dedup_elem in Hkey. destruct (map_result_elem _ _ _ _ Hm Hkey) as (it & _ & Hit).
  destruct (normalize_reservation_wf _ _ _ _ Hit) as [Hk Hp]. exists k, p, b. naive_solver.
Qed.

(** What [normalize_reservations] accepts is a non-empty list of at most 200
    distinct well-formed reservations; a glob among them has a wildcard. *)
Theorem normalize_reservations_wf raw rs :
  normalize_reservations raw = Ok rs →
  Forall wf_reservation rs ∧ rs ≠ [] ∧ (length rs <= 200)%nat
  ∧ Forall (λ r, res_kind r = "glob" → has_wildcard (res_pattern r) = true) rs.
Proof.
  intros Hok. split; [by eapply normalize_reservations_forall|]. revert Hok.
  unfold normalize_reservations. destruct raw as [| | | | |[|item items]|]; try done.
  intros (keys & Hm & H)%bind_ok. cbv zeta in H. invert_ok.
  assert (Hall : ∀ key, key ∈ dedup keys → ∃ it, normalize_reservation it = Ok key).
  { intros key Hkey. rewrite dedup_elem in Hkey.
    destruct (map_result_elem _ _ _ _ Hm Hkey) as (it & _ & ?).
    by exists it. }
  rewrite length_map in *.
  split_and!; [|lia|].
  - simpl in Hm. destruct (normalize_reservation item) as [key|]; [|done]. simpl in Hm.
    apply bind_ok in Hm as (ys & _ & [= <-]). done.
  - apply Forall_map, Forall_forall. intros [[k p] b] [it Hit]%Hall; simpl.
    destruct (normalize_reservation_wf _ _ _ _ Hit) as [Hk Hp].
    destruct (wf_reservation_fields k p b) as (-> & -> & _); [naive_solver|done|].
    destruct Hk as [-> |[_ ?]]; [done|auto].
Qed.

Lemma normalize_reservations_wf_witness :
  let raw := PList [PDict [("pattern", PStr "src\api/")];
                    PDict [("kind", PStr "glob"); ("pattern", PStr "docs/*.md")];
                    PDict [("pattern", PStr "src/api")]] in
  let rs := [reservation "path" "src/api" true; reservation "glob" "docs/*.md" false] in
  normalize_reservations raw = Ok rs ∧ Forall wf_reservation rs.
Proof. intros raw rs. split; [vm_compute; reflexivity|]. eapply (normalize_reservations_wf raw). vm_compute. reflexivity. Defined.

(** A path that passes the normalisation is safe: [.] or good components joined
    by single slashes, relative, with no [..], NUL or backslash, and unless it
    has white space at an end the normalisation maps it to itself. *)
Theorem normalize_relative_path_safe v f p :
  normalize_relative_path v f = Ok p →
  normal_path p ∧ contains_char (chr 92) p = false
  ∧ (strip p = p → ∀ f', normalize_relative_path (PStr p) f' = Ok p).
Proof.
  intros H. pose proof (normalize_normal _ _ _ H) as HN.
  pose proof (normalize_no_backslash _ _ _ H) as Hb.
  split_and!; [done|done|]. intros Hs f'. by apply normalize_fixed.
Qed.

Lemma normalize_relative_path_safe_witness :
  normalize_relative_path (PStr " ./src\api//main.py ") "path" = Ok "src/api/main.py"
  ∧ normal_path "src/api/main.py".
Proof.
  split; [vm_compute; reflexivity|].
  eapply (normalize_relative_path_safe (PStr " ./src\api//main.py ") "path").
  vm_compute; reflexivity.
Defined.
