(* ===== verification/Models.v ===== *)
(** * Rows of the database ([models.py])

    One record per ORM class, with its columns in order; a nullable column is an
    [option], a JSON object a [pydict], a [DateTime(timezone=True)] an instant
    in microseconds.  Each record has its eta expansion, from which the field
    updates are synthesised. *)

From S2P Require Import Prelude PyVal.

Record User := mkUser {
  usr_id : Z;
  usr_subject : string;
  usr_username : string;
  usr_email : option string;
  usr_roles : list string;
  usr_preferences : pydict;
  usr_provider : string;
  usr_created_at : Z;
  usr_last_seen_at : Z;
}.
#[export] Instance eta_User : Settable User := λ r, mkUser
  (usr_id r) (usr_subject r) (usr_username r) (usr_email r) (usr_roles r)
  (usr_preferences r) (usr_provider r) (usr_created_at r) (usr_last_seen_at r).

Record FileChangeSet := mkFileChangeSet {
  chg_id : string;
  chg_owner_subject : string;
  chg_chat_context_id : option string;
  chg_origin : string;
  chg_resource_id : option string;
  chg_tool_call_id : option string;
  chg_room_id : option string;
  chg_agent_id : option string;
  chg_lease_id : option string;
  chg_fencing_token : option Z;
  chg_path : string;
  chg_operation : string;
  chg_before_sha256 : option string;
  chg_after_sha256 : option string;
  chg_base_commit : option string;
  chg_branch_name : option string;
  chg_worktree_path : option string;
  chg_added_lines : Z;
  chg_removed_lines : Z;
  chg_bytes_before : Z;
  chg_bytes_after : Z;
  chg_replacements : Z;
  chg_diff_json : pydict;
  chg_truncated : bool;
  chg_suppressed : bool;
  chg_created_at : Z;
}.
#[export] Instance eta_FileChangeSet : Settable FileChangeSet := λ r, mkFileChangeSet
  (chg_id r) (chg_owner_subject r) (chg_chat_context_id r) (chg_origin r)
  (chg_resource_id r) (chg_tool_call_id r) (chg_room_id r) (chg_agent_id r)
  (chg_lease_id r) (chg_fencing_token r) (chg_path r) (chg_operation r)
  (chg_before_sha256 r) (chg_after_sha256 r) (chg_base_commit r) (chg_branch_name r)
  (chg_worktree_path r) (chg_added_lines r) (chg_removed_lines r) (chg_bytes_before r)
  (chg_bytes_after r) (chg_replacements r) (chg_diff_json r) (chg_truncated r)
  (chg_suppressed r) (chg_created_at r).

Record AccessGrant := mkAccessGrant {
  grant_id : string;
  grant_owner_subject : string;
  grant_grantee_subject : string;
  grant_resource_type : string;
  grant_resource_id : string;
  grant_scopes : list string;
  grant_status : string;
  grant_created_at : Z;
}.
#[export] Instance eta_AccessGrant : Settable AccessGrant := λ r, mkAccessGrant
  (grant_id r) (grant_owner_subject r) (grant_grantee_subject r) (grant_resource_type r)
  (grant_resource_id r) (grant_scopes r) (grant_status r) (grant_created_at r).

Record AuditEvent := mkAuditEvent {
  aud_id : string;
  aud_event_type : string;
  aud_actor_subject : string;
  aud_action : string;
  aud_resource_type : string;
  aud_resource_id : option string;
  aud_status : string;
  aud_payload : pydict;
  aud_created_at : Z;
}.
#[export] Instance eta_AuditEvent : Settable AuditEvent := λ r, mkAuditEvent
  (aud_id r) (aud_event_type r) (aud_actor_subject r) (aud_action r)
  (aud_resource_type r) (aud_resource_id r) (aud_status r) (aud_payload r)
  (aud_created_at r).

Record AgentInstance := mkAgentInstance {
  ag_id : string;
  ag_owner_subject : string;
  ag_logical_agent_id : string;
  ag_instance_id : string;
  ag_display_name : string;
  ag_status : string;
  ag_capabilities : list string;
  ag_labels : pydict;
  ag_current_room_id : option string;
  ag_current_work_item_id : option string;
  ag_last_heartbeat_at : Z;
  ag_expires_at : option Z;
  ag_created_at : Z;
  ag_updated_at : Z;
}.
#[export] Instance eta_AgentInstance : Settable AgentInstance := λ r, mkAgentInstance
  (ag_id r) (ag_owner_subject r) (ag_logical_agent_id r) (ag_instance_id r)
  (ag_display_name r) (ag_status r) (ag_capabilities r) (ag_labels r)
  (ag_current_room_id r) (ag_current_work_item_id r) (ag_last_heartbeat_at r)
  (ag_expires_at r) (ag_created_at r) (ag_updated_at r).

Record CollaborationRoom := mkCollaborationRoom {
  room_id : string;
  room_owner_subject : string;
  room_title : string;
  room_project_path : option string;
  room_repository_identity : option string;
  room_base_commit : option string;
  room_status : string;
  room_policy : pydict;
  room_created_by_agent_id : option string;
  room_idempotency_key : option string;
  room_created_at : Z;
  room_updated_at : Z;
}.
#[export] Instance eta_CollaborationRoom : Settable CollaborationRoom := λ r, mkCollaborationRoom
  (room_id r) (room_owner_subject r) (room_title r) (room_project_path r)
  (room_repository_identity r) (room_base_commit r) (room_status r) (room_policy r)
  (room_created_by_agent_id r) (room_idempotency_key r) (room_created_at r)
  (room_updated_at r).

Record AgentMessage := mkAgentMessage {
  msg_id : string;
  msg_owner_subject : string;
  msg_room_id : string;
  msg_sender_agent_id : string;
  msg_recipient_agent_id : option string;
  msg_recipient_selector : option string;
  msg_kind : string;
  msg_body : string;
  msg_payload : pydict;
  msg_priority : Z;
  msg_correlation_id : option string;
  msg_causation_id : option string;
  msg_sequence_number : Z;
  msg_idempotency_key : option string;
  msg_expires_at : option Z;
  msg_created_at : Z;
}.
#[export] Instance eta_AgentMessage : Settable AgentMessage := λ r, mkAgentMessage
  (msg_id r) (msg_owner_subject r) (msg_room_id r) (msg_sender_agent_id r)
  (msg_recipient_agent_id r) (msg_recipient_selector r) (msg_kind r) (msg_body r)
  (msg_payload r) (msg_priority r) (msg_correlation_id r) (msg_causation_id r)
  (msg_sequence_number r) (msg_idempotency_key r) (msg_expires_at r) (msg_created_at r).

Record AgentMessageDelivery := mkAgentMessageDelivery {
  dlv_id : string;
  dlv_owner_subject : string;
  dlv_message_id : string;
  dlv_recipient_agent_id : string;
  dlv_status : string;
  dlv_attempt_count : Z;
  dlv_delivered_at : option Z;
  dlv_acknowledged_at : option Z;
  dlv_visibility_deadline : option Z;
  dlv_created_at : Z;
  dlv_updated_at : Z;
}.
#[export] Instance eta_AgentMessageDelivery : Settable AgentMessageDelivery := λ r, mkAgentMessageDelivery
  (dlv_id r) (dlv_owner_subject r) (dlv_message_id r) (dlv_recipient_agent_id r)
  (dlv_status r) (dlv_attempt_count r) (dlv_delivered_at r) (dlv_acknowledged_at r)
  (dlv_visibility_deadline r) (dlv_created_at r) (dlv_updated_at r).

Record AgentCommand := mkAgentCommand {
  cmd_id : string;
  cmd_owner_subject : string;
  cmd_room_id : string;
  cmd_issuer_agent_id : string;
  cmd_target_agent_id : string;
  cmd_kind : string;
  cmd_instruction : string;
  cmd_structured_payload : pydict;
  cmd_constraints : pydict;
  cmd_priority : Z;
  cmd_status : string;
  cmd_requires_approval : bool;
  cmd_approved_by_subject : option string;
  cmd_correlation_id : option string;
  cmd_causation_id : option string;
  cmd_idempotency_key : option string;
  cmd_delivery_attempts : Z;
  cmd_delivered_at : option Z;
  cmd_acknowledged_at : option Z;
  cmd_accepted_at : option Z;
  cmd_completed_at : option Z;
  cmd_expires_at : option Z;
  cmd_result : pydict;
  cmd_error : option string;
  cmd_created_at : Z;
  cmd_updated_at : Z;
}.
#[export] Instance eta_AgentCommand : Settable AgentCommand := λ r, mkAgentCommand
  (cmd_id r) (cmd_owner_subject r) (cmd_room_id r) (cmd_issuer_agent_id r)
  (cmd_target_agent_id r) (cmd_kind r) (cmd_instruction r) (cmd_structured_payload r)
  (cmd_constraints r) (cmd_priority r) (cmd_status r) (cmd_requires_approval r)
  (cmd_approved_by_subject r) (cmd_correlation_id r) (cmd_causation_id r)
  (cmd_idempotency_key r) (cmd_delivery_attempts r) (cmd_delivered_at r)
  (cmd_acknowledged_at r) (cmd_accepted_at r) (cmd_completed_at r) (cmd_expires_at r)
  (cmd_result r) (cmd_error r) (cmd_created_at r) (cmd_updated_at r).

Record AgentWorkItem := mkAgentWorkItem {
  wi_id : string;
  wi_owner_subject : string;
  wi_room_id : string;
  wi_parent_id : option string;
  wi_title : string;
  wi_description : string;
  wi_status : string;
  wi_priority : Z;
  wi_assigned_agent_id : option string;
  wi_version : Z;
  wi_base_commit : option string;
  wi_dependencies : list string;
  wi_acceptance_criteria : list string;
  wi_required_capabilities : list string;
  wi_assignment_constraints : pydict;
  wi_result : pydict;
  wi_idempotency_key : option string;
  wi_created_at : Z;
  wi_updated_at : Z;
}.
#[export] Instance eta_AgentWorkItem : Settable AgentWorkItem := λ r, mkAgentWorkItem
  (wi_id r) (wi_owner_subject r) (wi_room_id r) (wi_parent_id r) (wi_title r)
  (wi_description r) (wi_status r) (wi_priority r) (wi_assigned_agent_id r)
  (wi_version r) (wi_base_commit r) (wi_dependencies r) (wi_acceptance_criteria r)
  (wi_required_capabilities r) (wi_assignment_constraints r) (wi_result r)
  (wi_idempotency_key r) (wi_created_at r) (wi_updated_at r).

Record ResourceLease := mkResourceLease {
  ls_id : string;
  ls_owner_subject : string;
  ls_room_id : string;
  ls_holder_agent_id : string;
  ls_work_item_id : option string;
  ls_origin : string;
  ls_resource_id : option string;
  ls_mode : string;
  ls_reservations : list pydict;
  ls_fencing_token : Z;
  ls_status : string;
  ls_branch_name : option string;
  ls_worktree_path : option string;
  ls_base_commit : option string;
  ls_expected_head : option string;
  ls_idempotency_key : option string;
  ls_meta : pydict;
  ls_acquired_at : Z;
  ls_renewed_at : Z;
  ls_expires_at : Z;
  ls_released_at : option Z;
  ls_created_at : Z;
  ls_updated_at : Z;
}.
#[export] Instance eta_ResourceLease : Settable ResourceLease := λ r, mkResourceLease
  (ls_id r) (ls_owner_subject r) (ls_room_id r) (ls_holder_agent_id r)
  (ls_work_item_id r) (ls_origin r) (ls_resource_id r) (ls_mode r) (ls_reservations r)
  (ls_fencing_token r) (ls_status r) (ls_branch_name r) (ls_worktree_path r)
  (ls_base_commit r) (ls_expected_head r) (ls_idempotency_key r) (ls_meta r)
  (ls_acquired_at r) (ls_renewed_at r) (ls_expires_at r) (ls_released_at r)
  (ls_created_at r) (ls_updated_at r).

Record AgentHandoffBarrier := mkAgentHandoffBarrier {
  hb_id : string;
  hb_owner_subject : string;
  hb_room_id : string;
  hb_source_agent_id : string;
  hb_target_agent_id : string;
  hb_lease_id : string;
  hb_expected_fencing_token : Z;
  hb_required_change_ids : list string;
  hb_summary : string;
  hb_payload : pydict;
  hb_status : string;
  hb_conflict_report : pydict;
  hb_idempotency_key : option string;
  hb_ready_at : option Z;
  hb_accepted_at : option Z;
  hb_cancelled_at : option Z;
  hb_created_at : Z;
  hb_updated_at : Z;
}.
#[export] Instance eta_AgentHandoffBarrier : Settable AgentHandoffBarrier := λ r, mkAgentHandoffBarrier
  (hb_id r) (hb_owner_subject r) (hb_room_id r) (hb_source_agent_id r)
  (hb_target_agent_id r) (hb_lease_id r) (hb_expected_fencing_token r)
  (hb_required_change_ids r) (hb_summary r) (hb_payload r) (hb_status r)
  (hb_conflict_report r) (hb_idempotency_key r) (hb_ready_at r) (hb_accepted_at r)
  (hb_cancelled_at r) (hb_created_at r) (hb_updated_at r).

Record AgentIntegrationRecord := mkAgentIntegrationRecord {
  ir_id : string;
  ir_owner_subject : string;
  ir_room_id : string;
  ir_coordinator_agent_id : string;
  ir_target_branch : string;
  ir_expected_target_head : string;
  ir_candidate_change_ids : list string;
  ir_comparison_change_ids : list string;
  ir_source_lease_ids : list string;
  ir_status : string;
  ir_conflict_report : pydict;
  ir_decision : pydict;
  ir_integrated_commit : option string;
  ir_idempotency_key : option string;
  ir_version : Z;
  ir_created_at : Z;
  ir_updated_at : Z;
  ir_completed_at : option Z;
}.
#[export] Instance eta_AgentIntegrationRecord : Settable AgentIntegrationRecord := λ r, mkAgentIntegrationRecord
  (ir_id r) (ir_owner_subject r) (ir_room_id r) (ir_coordinator_agent_id r)
  (ir_target_branch r) (ir_expected_target_head r) (ir_candidate_change_ids r)
  (ir_comparison_change_ids r) (ir_source_lease_ids r) (ir_status r)
  (ir_conflict_report r) (ir_decision r) (ir_integrated_commit r) (ir_idempotency_key r)
  (ir_version r) (ir_created_at r) (ir_updated_at r) (ir_completed_at r).

Record AutonomyPolicy := mkAutonomyPolicy {
  pol_id : string;
  pol_owner_subject : string;
  pol_room_id : string;
  pol_name : string;
  pol_status : string;
  pol_assignment_mode : string;
  pol_coordinator_agent_id : option string;
  pol_allowed_action_classes : list string;
  pol_allowed_tools : list string;
  pol_allowed_command_profiles : list string;
  pol_max_parallel_assignments : Z;
  pol_approval_rules : pydict;
  pol_recovery_policy : pydict;
  pol_generation : Z;
  pol_version : Z;
  pol_idempotency_key : option string;
  pol_created_by_subject : string;
  pol_created_at : Z;
  pol_updated_at : Z;
}.
#[export] Instance eta_AutonomyPolicy : Settable AutonomyPolicy := λ r, mkAutonomyPolicy
  (pol_id r) (pol_owner_subject r) (pol_room_id r) (pol_name r) (pol_status r)
  (pol_assignment_mode r) (pol_coordinator_agent_id r) (pol_allowed_action_classes r)
  (pol_allowed_tools r) (pol_allowed_command_profiles r)
  (pol_max_parallel_assignments r) (pol_approval_rules r) (pol_recovery_policy r)
  (pol_generation r) (pol_version r) (pol_idempotency_key r) (pol_created_by_subject r)
  (pol_created_at r) (pol_updated_at r).

Record AutonomyControlState := mkAutonomyControlState {
  ctl_id : string;
  ctl_owner_subject : string;
  ctl_scope_type : string;
  ctl_scope_id : string;
  ctl_state : string;
  ctl_generation : Z;
  ctl_reason : option string;
  ctl_changed_by_subject : string;
  ctl_expires_at : option Z;
  ctl_created_at : Z;
  ctl_updated_at : Z;
}.
#[export] Instance eta_AutonomyControlState : Settable AutonomyControlState := λ r, mkAutonomyControlState
  (ctl_id r) (ctl_owner_subject r) (ctl_scope_type r) (ctl_scope_id r) (ctl_state r)
  (ctl_generation r) (ctl_reason r) (ctl_changed_by_subject r) (ctl_expires_at r)
  (ctl_created_at r) (ctl_updated_at r).

Record AutonomyOverride := mkAutonomyOverride {
  ovr_id : string;
  ovr_owner_subject : string;
  ovr_scope_type : string;
  ovr_scope_id : string;
  ovr_action : string;
  ovr_previous_state : option string;
  ovr_new_state : option string;
  ovr_reason : string;
  ovr_actor_subject : string;
  ovr_evidence : pydict;
  ovr_created_at : Z;
}.
#[export] Instance eta_AutonomyOverride : Settable AutonomyOverride := λ r, mkAutonomyOverride
  (ovr_id r) (ovr_owner_subject r) (ovr_scope_type r) (ovr_scope_id r) (ovr_action r)
  (ovr_previous_state r) (ovr_new_state r) (ovr_reason r) (ovr_actor_subject r)
  (ovr_evidence r) (ovr_created_at r).

Record AutonomyAssignment := mkAutonomyAssignment {
  asg_id : string;
  asg_owner_subject : string;
  asg_room_id : string;
  asg_policy_id : string;
  asg_work_item_id : string;
  asg_selected_agent_id : string;
  asg_status : string;
  asg_score : Z;
  asg_rationale : pydict;
  asg_policy_generation : Z;
  asg_work_item_version : Z;
  asg_idempotency_key : option string;
  asg_created_by_subject : string;
  asg_applied_at : option Z;
  asg_revoked_at : option Z;
  asg_created_at : Z;
  asg_updated_at : Z;
}.
#[export] Instance eta_AutonomyAssignment : Settable AutonomyAssignment := λ r, mkAutonomyAssignment
  (asg_id r) (asg_owner_subject r) (asg_room_id r) (asg_policy_id r)
  (asg_work_item_id r) (asg_selected_agent_id r) (asg_status r) (asg_score r)
  (asg_rationale r) (asg_policy_generation r) (asg_work_item_version r)
  (asg_idempotency_key r) (asg_created_by_subject r) (asg_applied_at r)
  (asg_revoked_at r) (asg_created_at r) (asg_updated_at r).

Record ApprovalRequest := mkApprovalRequest {
  apr_id : string;
  apr_owner_subject : string;
  apr_room_id : string;
  apr_policy_id : string;
  apr_command_id : option string;
  apr_work_item_id : option string;
  apr_integration_id : option string;
  apr_proposer_agent_id : option string;
  apr_executor_agent_id : string;
  apr_action_kind : string;
  apr_action_class : string;
  apr_tool : string;
  apr_command_profile : option string;
  apr_payload_hash : string;
  apr_payload_summary : pydict;
  apr_quorum_required : Z;
  apr_require_admin_approval : bool;
  apr_disallow_proposer_vote : bool;
  apr_status : string;
  apr_policy_generation : Z;
  apr_version : Z;
  apr_idempotency_key : option string;
  apr_created_by_subject : string;
  apr_expires_at : Z;
  apr_approved_at : option Z;
  apr_rejected_at : option Z;
  apr_revoked_at : option Z;
  apr_created_at : Z;
  apr_updated_at : Z;
}.
#[export] Instance eta_ApprovalRequest : Settable ApprovalRequest := λ r, mkApprovalRequest
  (apr_id r) (apr_owner_subject r) (apr_room_id r) (apr_policy_id r) (apr_command_id r)
  (apr_work_item_id r) (apr_integration_id r) (apr_proposer_agent_id r)
  (apr_executor_agent_id r) (apr_action_kind r) (apr_action_class r) (apr_tool r)
  (apr_command_profile r) (apr_payload_hash r) (apr_payload_summary r)
  (apr_quorum_required r) (apr_require_admin_approval r) (apr_disallow_proposer_vote r)
  (apr_status r) (apr_policy_generation r) (apr_version r) (apr_idempotency_key r)
  (apr_created_by_subject r) (apr_expires_at r) (apr_approved_at r) (apr_rejected_at r)
  (apr_revoked_at r) (apr_created_at r) (apr_updated_at r).

Record ApprovalVote := mkApprovalVote {
  vote_id : string;
  vote_owner_subject : string;
  vote_request_id : string;
  vote_voter_subject : string;
  vote_voter_roles : list string;
  vote_decision : string;
  vote_reason : option string;
  vote_created_at : Z;
}.
#[export] Instance eta_ApprovalVote : Settable ApprovalVote := λ r, mkApprovalVote
  (vote_id r) (vote_owner_subject r) (vote_request_id r) (vote_voter_subject r)
  (vote_voter_roles r) (vote_decision r) (vote_reason r) (vote_created_at r).

Record ExecutionPermit := mkExecutionPermit {
  pmt_id : string;
  pmt_owner_subject : string;
  pmt_approval_request_id : string;
  pmt_policy_id : string;
  pmt_command_id : option string;
  pmt_executor_agent_id : string;
  pmt_action_class : string;
  pmt_tool : string;
  pmt_command_profile : option string;
  pmt_payload_hash : string;
  pmt_status : string;
  pmt_policy_generation : Z;
  pmt_control_snapshot : pydict;
  pmt_fencing_token : Z;
  pmt_max_uses : Z;
  pmt_use_count : Z;
  pmt_issued_by_subject : string;
  pmt_issued_at : Z;
  pmt_expires_at : Z;
  pmt_claimed_at : option Z;
  pmt_consumed_at : option Z;
  pmt_revoked_at : option Z;
  pmt_revocation_reason : option string;
  pmt_created_at : Z;
  pmt_updated_at : Z;
}.
#[export] Instance eta_ExecutionPermit : Settable ExecutionPermit := λ r, mkExecutionPermit
  (pmt_id r) (pmt_owner_subject r) (pmt_approval_request_id r) (pmt_policy_id r)
  (pmt_command_id r) (pmt_executor_agent_id r) (pmt_action_class r) (pmt_tool r)
  (pmt_command_profile r) (pmt_payload_hash r) (pmt_status r) (pmt_policy_generation r)
  (pmt_control_snapshot r) (pmt_fencing_token r) (pmt_max_uses r) (pmt_use_count r)
  (pmt_issued_by_subject r) (pmt_issued_at r) (pmt_expires_at r) (pmt_claimed_at r)
  (pmt_consumed_at r) (pmt_revoked_at r) (pmt_revocation_reason r) (pmt_created_at r)
  (pmt_updated_at r).

Record ActionReceipt := mkActionReceipt {
  rcpt_id : string;
  rcpt_owner_subject : string;
  rcpt_permit_id : string;
  rcpt_approval_request_id : string;
  rcpt_command_id : option string;
  rcpt_executor_agent_id : string;
  rcpt_action_class : string;
  rcpt_tool : string;
  rcpt_command_profile : option string;
  rcpt_status : string;
  rcpt_input_hash : string;
  rcpt_output_hash : option string;
  rcpt_result_summary : pydict;
  rcpt_error : option string;
  rcpt_external_references : list pyval;
  rcpt_idempotency_key : option string;
  rcpt_started_at : Z;
  rcpt_completed_at : Z;
  rcpt_created_at : Z;
}.
#[export] Instance eta_ActionReceipt : Settable ActionReceipt := λ r, mkActionReceipt
  (rcpt_id r) (rcpt_owner_subject r) (rcpt_permit_id r) (rcpt_approval_request_id r)
  (rcpt_command_id r) (rcpt_executor_agent_id r) (rcpt_action_class r) (rcpt_tool r)
  (rcpt_command_profile r) (rcpt_status r) (rcpt_input_hash r) (rcpt_output_hash r)
  (rcpt_result_summary r) (rcpt_error r) (rcpt_external_references r)
  (rcpt_idempotency_key r) (rcpt_started_at r) (rcpt_completed_at r) (rcpt_created_at r).

Record RecoveryLoop := mkRecoveryLoop {
  rec_id : string;
  rec_owner_subject : string;
  rec_room_id : string;
  rec_policy_id : string;
  rec_source_type : string;
  rec_source_id : string;
  rec_target_agent_id : string;
  rec_strategy : pydict;
  rec_status : string;
  rec_attempt_count : Z;
  rec_max_attempts : Z;
  rec_base_backoff_seconds : Z;
  rec_next_attempt_at : Z;
  rec_last_command_id : option string;
  rec_last_error : option string;
  rec_policy_generation : Z;
  rec_generation : Z;
  rec_idempotency_key : option string;
  rec_created_by_subject : string;
  rec_created_at : Z;
  rec_updated_at : Z;
  rec_completed_at : option Z;
}.
#[export] Instance eta_RecoveryLoop : Settable RecoveryLoop := λ r, mkRecoveryLoop
  (rec_id r) (rec_owner_subject r) (rec_room_id r) (rec_policy_id r) (rec_source_type r)
  (rec_source_id r) (rec_target_agent_id r) (rec_strategy r) (rec_status r)
  (rec_attempt_count r) (rec_max_attempts r) (rec_base_backoff_seconds r)
  (rec_next_attempt_at r) (rec_last_command_id r) (rec_last_error r)
  (rec_policy_generation r) (rec_generation r) (rec_idempotency_key r)
  (rec_created_by_subject r) (rec_created_at r) (rec_updated_at r) (rec_completed_at r).

Record OutboxEvent := mkOutboxEvent {
  ob_id : string;
  ob_audit_event_id : string;
  ob_owner_subject : string;
  ob_event_type : string;
  ob_subject : string;
  ob_payload : pydict;
  ob_headers : pydict;
  ob_status : string;
  ob_attempt_count : Z;
  ob_max_attempts : Z;
  ob_available_at : Z;
  ob_locked_by : option string;
  ob_lock_token : option string;
  ob_locked_at : option Z;
  ob_published_at : option Z;
  ob_broker_stream : option string;
  ob_broker_sequence : option Z;
  ob_last_error : option string;
  ob_replay_count : Z;
  ob_replayed_from_id : option string;
  ob_created_at : Z;
  ob_updated_at : Z;
}.
#[export] Instance eta_OutboxEvent : Settable OutboxEvent := λ r, mkOutboxEvent
  (ob_id r) (ob_audit_event_id r) (ob_owner_subject r) (ob_event_type r) (ob_subject r)
  (ob_payload r) (ob_headers r) (ob_status r) (ob_attempt_count r) (ob_max_attempts r)
  (ob_available_at r) (ob_locked_by r) (ob_lock_token r) (ob_locked_at r)
  (ob_published_at r) (ob_broker_stream r) (ob_broker_sequence r) (ob_last_error r)
  (ob_replay_count r) (ob_replayed_from_id r) (ob_created_at r) (ob_updated_at r).

Record GatewayReplica := mkGatewayReplica {
  gr_id : string;
  gr_hostname : string;
  gr_process_id : Z;
  gr_status : string;
  gr_meta : pydict;
  gr_started_at : Z;
  gr_last_heartbeat_at : Z;
  gr_expires_at : Z;
  gr_stopped_at : option Z;
}.
#[export] Instance eta_GatewayReplica : Settable GatewayReplica := λ r, mkGatewayReplica
  (gr_id r) (gr_hostname r) (gr_process_id r) (gr_status r) (gr_meta r) (gr_started_at r)
  (gr_last_heartbeat_at r) (gr_expires_at r) (gr_stopped_at r).

Record OutboxDeliveryAttempt := mkOutboxDeliveryAttempt {
  oda_id : string;
  oda_outbox_event_id : string;
  oda_attempt_number : Z;
  oda_replica_id : string;
  oda_status : string;
  oda_error : option string;
  oda_broker_stream : option string;
  oda_broker_sequence : option Z;
  oda_started_at : Z;
  oda_completed_at : option Z;
}.
#[export] Instance eta_OutboxDeliveryAttempt : Settable OutboxDeliveryAttempt := λ r, mkOutboxDeliveryAttempt
  (oda_id r) (oda_outbox_event_id r) (oda_attempt_number r) (oda_replica_id r)
  (oda_status r) (oda_error r) (oda_broker_stream r) (oda_broker_sequence r)
  (oda_started_at r) (oda_completed_at r).

Record ProcessedBrokerMessage := mkProcessedBrokerMessage {
  pbm_message_id : string;
  pbm_stream : option string;
  pbm_consumer : option string;
  pbm_subject : string;
  pbm_payload_sha256 : string;
  pbm_processed_at : Z;
}.
#[export] Instance eta_ProcessedBrokerMessage : Settable ProcessedBrokerMessage := λ r, mkProcessedBrokerMessage
  (pbm_message_id r) (pbm_stream r) (pbm_consumer r) (pbm_subject r)
  (pbm_payload_sha256 r) (pbm_processed_at r).

Record RealtimeRoute := mkRealtimeRoute {
  rr_id : string;
  rr_owner_subject : string;
  rr_target_kind : string;
  rr_target_id : string;
  rr_connection_id : string;
  rr_replica_id : string;
  rr_status : string;
  rr_meta : pydict;
  rr_connected_at : Z;
  rr_last_seen_at : Z;
  rr_expires_at : Z;
  rr_disconnected_at : option Z;
}.
#[export] Instance eta_RealtimeRoute : Settable RealtimeRoute := λ r, mkRealtimeRoute
  (rr_id r) (rr_owner_subject r) (rr_target_kind r) (rr_target_id r) (rr_connection_id r)
  (rr_replica_id r) (rr_status r) (rr_meta r) (rr_connected_at r) (rr_last_seen_at r)
  (rr_expires_at r) (rr_disconnected_at r).

Record RealtimeNotification := mkRealtimeNotification {
  rn_id : string;
  rn_owner_subject : string;
  rn_target_kind : string;
  rn_target_id : string;
  rn_event_type : string;
  rn_payload : pydict;
  rn_status : string;
  rn_replica_id : option string;
  rn_outbox_event_id : option string;
  rn_attempt_count : Z;
  rn_delivered_at : option Z;
  rn_acknowledged_at : option Z;
  rn_expires_at : option Z;
  rn_created_at : Z;
  rn_updated_at : Z;
}.
#[export] Instance eta_RealtimeNotification : Settable RealtimeNotification := λ r, mkRealtimeNotification
  (rn_id r) (rn_owner_subject r) (rn_target_kind r) (rn_target_id r) (rn_event_type r)
  (rn_payload r) (rn_status r) (rn_replica_id r) (rn_outbox_event_id r)
  (rn_attempt_count r) (rn_delivered_at r) (rn_acknowledged_at r) (rn_expires_at r)
  (rn_created_at r) (rn_updated_at r).

Record ChatContext := mkChatContext {
  cc_id : string;
  cc_owner_subject : string;
  cc_host_kind : string;
  cc_state : string;
  cc_project_ref : option string;
  cc_client_nonce : option string;
  cc_conversation_ref_hmac : option string;
  cc_conversation_key_version : option Z;
  cc_generation : Z;
  cc_created_at : Z;
  cc_last_seen_at : Z;
  cc_updated_at : Z;
  cc_closed_at : option Z;
}.
#[export] Instance eta_ChatContext : Settable ChatContext := λ r, mkChatContext
  (cc_id r) (cc_owner_subject r) (cc_host_kind r) (cc_state r) (cc_project_ref r)
  (cc_client_nonce r) (cc_conversation_ref_hmac r) (cc_conversation_key_version r)
  (cc_generation r) (cc_created_at r) (cc_last_seen_at r) (cc_updated_at r)
  (cc_closed_at r).

Record ChatContextAlias := mkChatContextAlias {
  ca_id : string;
  ca_context_id : string;
  ca_owner_subject : string;
  ca_code : string;
  ca_generation : Z;
  ca_status : string;
  ca_issued_at : Z;
  ca_last_seen_at : Z;
  ca_expires_at : Z;
  ca_quarantine_until : option Z;
  ca_replaced_by_alias_id : option string;
  ca_created_at : Z;
  ca_updated_at : Z;
}.
#[export] Instance eta_ChatContextAlias : Settable ChatContextAlias := λ r, mkChatContextAlias
  (ca_id r) (ca_context_id r) (ca_owner_subject r) (ca_code r) (ca_generation r)
  (ca_status r) (ca_issued_at r) (ca_last_seen_at r) (ca_expires_at r)
  (ca_quarantine_until r) (ca_replaced_by_alias_id r) (ca_created_at r) (ca_updated_at r).

Record ChatContextEvent := mkChatContextEvent {
  ce_id : string;
  ce_context_id : string;
  ce_owner_subject : string;
  ce_action : string;
  ce_alias_generation : option Z;
  ce_actor_kind : string;
  ce_event_metadata : pydict;
  ce_created_at : Z;
}.
#[export] Instance eta_ChatContextEvent : Settable ChatContextEvent := λ r, mkChatContextEvent
  (ce_id r) (ce_context_id r) (ce_owner_subject r) (ce_action r) (ce_alias_generation r)
  (ce_actor_kind r) (ce_event_metadata r) (ce_created_at r).

Record SecretBlob := mkSecretBlob {
  sb_id : string;
  sb_owner_subject : string;
  sb_kind : string;
  sb_ciphertext : string;
  sb_created_at : Z;
}.
#[export] Instance eta_SecretBlob : Settable SecretBlob := λ r, mkSecretBlob
  (sb_id r) (sb_owner_subject r) (sb_kind r) (sb_ciphertext r) (sb_created_at r).

Record DeviceCode := mkDeviceCode {
  dvc_device_code : string;
  dvc_user_code : string;
  dvc_subject : string;
  dvc_scope : string;
  dvc_status : string;
  dvc_expires_at : Z;
  dvc_created_at : Z;
}.
#[export] Instance eta_DeviceCode : Settable DeviceCode := λ r, mkDeviceCode
  (dvc_device_code r) (dvc_user_code r) (dvc_subject r) (dvc_scope r) (dvc_status r)
  (dvc_expires_at r) (dvc_created_at r).

Record ThinClient := mkThinClient {
  tcl_id : string;
  tcl_owner_subject : string;
  tcl_hostname : string;
  tcl_directory : string;
  tcl_agent_token_hash : string;
  tcl_status : string;
  tcl_meta : pydict;
  tcl_created_at : Z;
  tcl_last_seen_at : Z;
}.
#[export] Instance eta_ThinClient : Settable ThinClient := λ r, mkThinClient
  (tcl_id r) (tcl_owner_subject r) (tcl_hostname r) (tcl_directory r) (tcl_agent_token_hash r)
  (tcl_status r) (tcl_meta r) (tcl_created_at r) (tcl_last_seen_at r).

Record McpCredentialBinding := mkMcpCredentialBinding {
  mcb_id : string;
  mcb_owner_subject : string;
  mcb_binding_type : string;
  mcb_provider : option string;
  mcb_secret_blob_id : option string;
  mcb_audience : option string;
  mcb_scopes : list pyval;
  mcb_status : string;
  mcb_version : Z;
  mcb_idempotency_key : option string;
  mcb_meta : pydict;
  mcb_created_at : Z;
  mcb_updated_at : Z;
  mcb_rotated_at : option Z;
  mcb_revoked_at : option Z;
}.
#[export] Instance eta_McpCredentialBinding : Settable McpCredentialBinding := λ r, mkMcpCredentialBinding
  (mcb_id r) (mcb_owner_subject r) (mcb_binding_type r) (mcb_provider r) (mcb_secret_blob_id r)
  (mcb_audience r) (mcb_scopes r) (mcb_status r) (mcb_version r) (mcb_idempotency_key r)
  (mcb_meta r) (mcb_created_at r) (mcb_updated_at r) (mcb_rotated_at r) (mcb_revoked_at r).

Record McpServer := mkMcpServer {
  srv_id : string;
  srv_owner_subject : string;
  srv_origin : string;
  srv_thin_client_id : option string;
  srv_runtime_id : option string;
  srv_local_server_id : option string;
  srv_display_name : string;
  srv_normalized_slug : string;
  srv_transport : string;
  srv_endpoint_url : option string;
  srv_credential_binding_id : option string;
  srv_status : string;
  srv_trust_level : string;
  srv_quarantine_reason : option string;
  srv_negotiated_protocol_version : option string;
  srv_capabilities : pydict;
  srv_sanitized_instructions : string;
  srv_instructions_sha256 : option string;
  srv_catalog_generation : Z;
  srv_policy_generation : Z;
  srv_version : Z;
  srv_idempotency_key : option string;
  srv_last_connected_at : option Z;
  srv_last_catalog_refreshed_at : option Z;
  srv_disabled_at : option Z;
  srv_created_at : Z;
  srv_updated_at : Z;
}.
#[export] Instance eta_McpServer : Settable McpServer := λ r, mkMcpServer
  (srv_id r) (srv_owner_subject r) (srv_origin r) (srv_thin_client_id r) (srv_runtime_id r)
  (srv_local_server_id r) (srv_display_name r) (srv_normalized_slug r) (srv_transport r)
  (srv_endpoint_url r) (srv_credential_binding_id r) (srv_status r) (srv_trust_level r)
  (srv_quarantine_reason r) (srv_negotiated_protocol_version r) (srv_capabilities r)
  (srv_sanitized_instructions r) (srv_instructions_sha256 r) (srv_catalog_generation r)
  (srv_policy_generation r) (srv_version r) (srv_idempotency_key r) (srv_last_connected_at r)
  (srv_last_catalog_refreshed_at r) (srv_disabled_at r) (srv_created_at r) (srv_updated_at r).

Record McpTool := mkMcpTool {
  mtl_id : string;
  mtl_owner_subject : string;
  mtl_server_id : string;
  mtl_upstream_name : string;
  mtl_normalized_name : string;
  mtl_lifecycle_state : string;
  mtl_current_revision_id : option string;
  mtl_version : Z;
  mtl_first_observed_at : Z;
  mtl_last_observed_at : Z;
  mtl_created_at : Z;
  mtl_updated_at : Z;
}.
#[export] Instance eta_McpTool : Settable McpTool := λ r, mkMcpTool
  (mtl_id r) (mtl_owner_subject r) (mtl_server_id r) (mtl_upstream_name r)
  (mtl_normalized_name r) (mtl_lifecycle_state r) (mtl_current_revision_id r) (mtl_version r)
  (mtl_first_observed_at r) (mtl_last_observed_at r) (mtl_created_at r) (mtl_updated_at r).

Record McpToolRevision := mkMcpToolRevision {
  rvn_id : string;
  rvn_owner_subject : string;
  rvn_server_id : string;
  rvn_tool_id : string;
  rvn_revision_number : Z;
  rvn_input_schema : pydict;
  rvn_output_schema : option pydict;
  rvn_sanitized_title : option string;
  rvn_sanitized_description : string;
  rvn_search_text : string;
  rvn_annotations : pydict;
  rvn_icons : list pyval;
  rvn_execution : pydict;
  rvn_component_meta : pydict;
  rvn_schema_hash : string;
  rvn_protocol_version : option string;
  rvn_catalog_generation : Z;
  rvn_action_class : string;
  rvn_read_only_status : string;
  rvn_risk_evidence : pydict;
  rvn_version : Z;
  rvn_classified_by_subject : option string;
  rvn_classified_at : option Z;
  rvn_superseded_by_revision_id : option string;
  rvn_discovered_at : Z;
  rvn_created_at : Z;
}.
#[export] Instance eta_McpToolRevision : Settable McpToolRevision := λ r, mkMcpToolRevision
  (rvn_id r) (rvn_owner_subject r) (rvn_server_id r) (rvn_tool_id r) (rvn_revision_number r)
  (rvn_input_schema r) (rvn_output_schema r) (rvn_sanitized_title r)
  (rvn_sanitized_description r) (rvn_search_text r) (rvn_annotations r) (rvn_icons r)
  (rvn_execution r) (rvn_component_meta r) (rvn_schema_hash r) (rvn_protocol_version r)
  (rvn_catalog_generation r) (rvn_action_class r) (rvn_read_only_status r)
  (rvn_risk_evidence r) (rvn_version r) (rvn_classified_by_subject r) (rvn_classified_at r)
  (rvn_superseded_by_revision_id r) (rvn_discovered_at r) (rvn_created_at r).

Record McpToolExposure := mkMcpToolExposure {
  xps_id : string;
  xps_owner_subject : string;
  xps_server_id : string;
  xps_tool_id : string;
  xps_revision_id : string;
  xps_mode : string;
  xps_projected_name : option string;
  xps_enabled : bool;
  xps_required_role : option string;
  xps_required_scope : option string;
  xps_approval_class : string;
  xps_projection_generation : Z;
  xps_policy_generation : Z;
  xps_version : Z;
  xps_reviewed_by_subject : option string;
  xps_reviewed_at : option Z;
  xps_created_at : Z;
  xps_updated_at : Z;
}.
#[export] Instance eta_McpToolExposure : Settable McpToolExposure := λ r, mkMcpToolExposure
  (xps_id r) (xps_owner_subject r) (xps_server_id r) (xps_tool_id r) (xps_revision_id r)
  (xps_mode r) (xps_projected_name r) (xps_enabled r) (xps_required_role r)
  (xps_required_scope r) (xps_approval_class r) (xps_projection_generation r)
  (xps_policy_generation r) (xps_version r) (xps_reviewed_by_subject r) (xps_reviewed_at r)
  (xps_created_at r) (xps_updated_at r).

Record McpFederationPolicy := mkMcpFederationPolicy {
  fpl_id : string;
  fpl_owner_subject : string;
  fpl_server_id : option string;
  fpl_trust_level : string;
  fpl_allowed_action_classes : list pyval;
  fpl_required_roles : list pyval;
  fpl_required_scopes : list pyval;
  fpl_approval_mapping : pydict;
  fpl_tool_allowlist : list pyval;
  fpl_tool_denylist : list pyval;
  fpl_status : string;
  fpl_generation : Z;
  fpl_version : Z;
  fpl_idempotency_key : option string;
  fpl_created_by_subject : string;
  fpl_updated_by_subject : string;
  fpl_created_at : Z;
  fpl_updated_at : Z;
}.
#[export] Instance eta_McpFederationPolicy : Settable McpFederationPolicy := λ r, mkMcpFederationPolicy
  (fpl_id r) (fpl_owner_subject r) (fpl_server_id r) (fpl_trust_level r)
  (fpl_allowed_action_classes r) (fpl_required_roles r) (fpl_required_scopes r)
  (fpl_approval_mapping r) (fpl_tool_allowlist r) (fpl_tool_denylist r) (fpl_status r)
  (fpl_generation r) (fpl_version r) (fpl_idempotency_key r) (fpl_created_by_subject r)
  (fpl_updated_by_subject r) (fpl_created_at r) (fpl_updated_at r).

Record McpMutationReceipt := mkMcpMutationReceipt {
  mmr_id : string;
  mmr_owner_subject : string;
  mmr_operation : string;
  mmr_idempotency_key : string;
  mmr_request_hash : string;
  mmr_resource_type : string;
  mmr_resource_id : string;
  mmr_response_version : option Z;
  mmr_created_at : Z;
}.
#[export] Instance eta_McpMutationReceipt : Settable McpMutationReceipt := λ r, mkMcpMutationReceipt
  (mmr_id r) (mmr_owner_subject r) (mmr_operation r) (mmr_idempotency_key r)
  (mmr_request_hash r) (mmr_resource_type r) (mmr_resource_id r) (mmr_response_version r)
  (mmr_created_at r).

Record McpActionPreparation := mkMcpActionPreparation {
  prp_id : string;
  prp_owner_subject : string;
  prp_actor_subject : string;
  prp_server_id : string;
  prp_tool_id : string;
  prp_revision_id : string;
  prp_schema_hash : string;
  prp_action_class : string;
  prp_arguments_secret_id : string;
  prp_arguments_redacted : pydict;
  prp_arguments_sha256 : string;
  prp_justification : string;
  prp_preview : pydict;
  prp_approval_class : string;
  prp_exposure_id : string;
  prp_exposure_version : Z;
  prp_federation_policy_id : string;
  prp_federation_policy_generation : Z;
  prp_autonomy_policy_id : string;
  prp_autonomy_policy_generation : Z;
  prp_command_id : string;
  prp_executor_agent_id : string;
  prp_approval_request_id : string;
  prp_status : string;
  prp_idempotency_key : string;
  prp_expires_at : Z;
  prp_executed_at : option Z;
  prp_created_at : Z;
  prp_updated_at : Z;
}.
#[export] Instance eta_McpActionPreparation : Settable McpActionPreparation := λ r, mkMcpActionPreparation
  (prp_id r) (prp_owner_subject r) (prp_actor_subject r) (prp_server_id r) (prp_tool_id r)
  (prp_revision_id r) (prp_schema_hash r) (prp_action_class r) (prp_arguments_secret_id r)
  (prp_arguments_redacted r) (prp_arguments_sha256 r) (prp_justification r) (prp_preview r)
  (prp_approval_class r) (prp_exposure_id r) (prp_exposure_version r)
  (prp_federation_policy_id r) (prp_federation_policy_generation r) (prp_autonomy_policy_id r)
  (prp_autonomy_policy_generation r) (prp_command_id r) (prp_executor_agent_id r)
  (prp_approval_request_id r) (prp_status r) (prp_idempotency_key r) (prp_expires_at r)
  (prp_executed_at r) (prp_created_at r) (prp_updated_at r).

Record McpInvocation := mkMcpInvocation {
  inv_id : string;
  inv_owner_subject : string;
  inv_actor_subject : string;
  inv_gateway_tool_call_id : option string;
  inv_correlation_id : option string;
  inv_server_id : string;
  inv_tool_id : string;
  inv_revision_id : string;
  inv_schema_hash : string;
  inv_action_class : string;
  inv_arguments_redacted : pydict;
  inv_arguments_sha256 : string;
  inv_preparation_id : option string;
  inv_approval_request_id : option string;
  inv_execution_permit_id : option string;
  inv_runtime_connection_id : option string;
  inv_connection_instance_id : option string;
  inv_thin_client_request_id : option string;
  inv_outcome : string;
  inv_unknown_outcome : bool;
  inv_normalized_error_code : option string;
  inv_normalized_error_detail : option string;
  inv_response_metadata : pydict;
  inv_response_sha256 : option string;
  inv_idempotency_key : option string;
  inv_started_at : Z;
  inv_completed_at : option Z;
  inv_created_at : Z;
}.
#[export] Instance eta_McpInvocation : Settable McpInvocation := λ r, mkMcpInvocation
  (inv_id r) (inv_owner_subject r) (inv_actor_subject r) (inv_gateway_tool_call_id r)
  (inv_correlation_id r) (inv_server_id r) (inv_tool_id r) (inv_revision_id r)
  (inv_schema_hash r) (inv_action_class r) (inv_arguments_redacted r) (inv_arguments_sha256 r)
  (inv_preparation_id r) (inv_approval_request_id r) (inv_execution_permit_id r)
  (inv_runtime_connection_id r) (inv_connection_instance_id r) (inv_thin_client_request_id r)
  (inv_outcome r) (inv_unknown_outcome r) (inv_normalized_error_code r)
  (inv_normalized_error_detail r) (inv_response_metadata r) (inv_response_sha256 r)
  (inv_idempotency_key r) (inv_started_at r) (inv_completed_at r) (inv_created_at r).

Record OAuthClient := mkOAuthClient {
  oc_client_id : string;
  oc_client_name : string;
  oc_redirect_uris : list string;
  oc_scope : string;
  oc_presentation_profile : string;
  oc_presentation_policy_generation : Z;
  oc_presentation_mode : string;
  oc_chat_context_mode : string;
  oc_presentation_capabilities : list string;
  oc_workspace_plan : string;
  oc_allowed_tool_names : list string;
  oc_created_at : Z;
  oc_updated_at : Z;
}.
#[export] Instance eta_OAuthClient : Settable OAuthClient := λ r, mkOAuthClient
  (oc_client_id r) (oc_client_name r) (oc_redirect_uris r) (oc_scope r)
  (oc_presentation_profile r) (oc_presentation_policy_generation r) (oc_presentation_mode r)
  (oc_chat_context_mode r) (oc_presentation_capabilities r) (oc_workspace_plan r)
  (oc_allowed_tool_names r) (oc_created_at r) (oc_updated_at r).

Record OAuthCode := mkOAuthCode {
  ocd_code : string;
  ocd_client_id : string;
  ocd_redirect_uri : string;
  ocd_code_challenge : string;
  ocd_scope : string;
  ocd_subject : string;
  ocd_expires_at : Z;
  ocd_consumed : bool;
  ocd_created_at : Z;
}.
#[export] Instance eta_OAuthCode : Settable OAuthCode := λ r, mkOAuthCode
  (ocd_code r) (ocd_client_id r) (ocd_redirect_uri r) (ocd_code_challenge r) (ocd_scope r)
  (ocd_subject r) (ocd_expires_at r) (ocd_consumed r) (ocd_created_at r).

Record McpRuntimeConnection := mkMcpRuntimeConnection {
  rtm_id : string;
  rtm_owner_subject : string;
  rtm_server_id : string;
  rtm_thin_client_id : option string;
  rtm_runtime_id : option string;
  rtm_connection_instance_id : string;
  rtm_supported_transports : list string;
  rtm_supported_protocol_versions : list string;
  rtm_state : string;
  rtm_acknowledged_catalog_generation : Z;
  rtm_meta : pydict;
  rtm_connected_at : Z;
  rtm_last_seen_at : Z;
  rtm_disconnected_at : option Z;
}.
#[export] Instance eta_McpRuntimeConnection : Settable McpRuntimeConnection := λ r, mkMcpRuntimeConnection
  (rtm_id r) (rtm_owner_subject r) (rtm_server_id r) (rtm_thin_client_id r) (rtm_runtime_id r)
  (rtm_connection_instance_id r) (rtm_supported_transports r)
  (rtm_supported_protocol_versions r) (rtm_state r) (rtm_acknowledged_catalog_generation r)
  (rtm_meta r) (rtm_connected_at r) (rtm_last_seen_at r) (rtm_disconnected_at r).

Record McpCapabilitySnapshot := mkMcpCapabilitySnapshot {
  csn_id : string;
  csn_owner_subject : string;
  csn_server_id : string;
  csn_runtime_connection_id : string;
  csn_source : string;
  csn_protocol_version : string;
  csn_catalog_generation : Z;
  csn_server_capabilities : pydict;
  csn_client_capabilities : pydict;
  csn_negotiated_features : pydict;
  csn_capability_hash : string;
  csn_created_at : Z;
}.
#[export] Instance eta_McpCapabilitySnapshot : Settable McpCapabilitySnapshot := λ r, mkMcpCapabilitySnapshot
  (csn_id r) (csn_owner_subject r) (csn_server_id r) (csn_runtime_connection_id r)
  (csn_source r) (csn_protocol_version r) (csn_catalog_generation r)
  (csn_server_capabilities r) (csn_client_capabilities r) (csn_negotiated_features r)
  (csn_capability_hash r) (csn_created_at r).

Record McpRootGrant := mkMcpRootGrant {
  rgt_id : string;
  rgt_owner_subject : string;
  rgt_server_id : string;
  rgt_runtime_connection_id : option string;
  rgt_root_uri_sha256 : string;
  rgt_root_uri_hint : option string;
  rgt_root_name : option string;
  rgt_grant_scope : string;
  rgt_status : string;
  rgt_policy_generation : Z;
  rgt_version : Z;
  rgt_granted_by_subject : option string;
  rgt_granted_at : option Z;
  rgt_expires_at : option Z;
  rgt_created_at : Z;
  rgt_updated_at : Z;
}.
#[export] Instance eta_McpRootGrant : Settable McpRootGrant := λ r, mkMcpRootGrant
  (rgt_id r) (rgt_owner_subject r) (rgt_server_id r) (rgt_runtime_connection_id r)
  (rgt_root_uri_sha256 r) (rgt_root_uri_hint r) (rgt_root_name r) (rgt_grant_scope r)
  (rgt_status r) (rgt_policy_generation r) (rgt_version r) (rgt_granted_by_subject r)
  (rgt_granted_at r) (rgt_expires_at r) (rgt_created_at r) (rgt_updated_at r).
