(* ===== verification/Database.v ===== *)
(** * The database: tables and unique constraints ([models.py])

    A table maps primary keys to rows.  [tbl_clash] is the disjunction of the
    table's [UniqueConstraint]s on two rows; as in SQL a NULL key never clashes.
    Foreign keys are not enforced by the model. *)

From S2P Require Import Prelude PyVal Models.

Record db := mkdb {
  file_changes : gmap string FileChangeSet;
  grants : gmap string AccessGrant;
  audit_events : gmap string AuditEvent;
  agents : gmap string AgentInstance;
  rooms : gmap string CollaborationRoom;
  messages : gmap string AgentMessage;
  deliveries : gmap string AgentMessageDelivery;
  commands : gmap string AgentCommand;
  work_items : gmap string AgentWorkItem;
  leases : gmap string ResourceLease;
  handoffs : gmap string AgentHandoffBarrier;
  integrations : gmap string AgentIntegrationRecord;
  policies : gmap string AutonomyPolicy;
  controls : gmap string AutonomyControlState;
  overrides : gmap string AutonomyOverride;
  assignments : gmap string AutonomyAssignment;
  approvals : gmap string ApprovalRequest;
  votes : gmap string ApprovalVote;
  permits : gmap string ExecutionPermit;
  receipts : gmap string ActionReceipt;
  recoveries : gmap string RecoveryLoop;
  outbox : gmap string OutboxEvent;
  gateway_replicas : gmap string GatewayReplica;
  outbox_delivery_attempts : gmap string OutboxDeliveryAttempt;
  processed_messages : gmap string ProcessedBrokerMessage;
  realtime_routes : gmap string RealtimeRoute;
  realtime_notifications : gmap string RealtimeNotification;
  chat_contexts : gmap string ChatContext;
  chat_aliases : gmap string ChatContextAlias;
  chat_events : gmap string ChatContextEvent;
  secret_blobs : gmap string SecretBlob;
  thin_clients : gmap string ThinClient;
  mcp_bindings : gmap string McpCredentialBinding;
  mcp_servers : gmap string McpServer;
  mcp_tools : gmap string McpTool;
  mcp_revisions : gmap string McpToolRevision;
  mcp_exposures : gmap string McpToolExposure;
  mcp_policies : gmap string McpFederationPolicy;
  mcp_receipts : gmap string McpMutationReceipt;
  mcp_preparations : gmap string McpActionPreparation;
  mcp_invocations : gmap string McpInvocation;
  users : gmap string User;
  oauth_clients : gmap string OAuthClient;
  oauth_codes : gmap string OAuthCode;
  runtime_connections : gmap string McpRuntimeConnection;
  capability_snapshots : gmap string McpCapabilitySnapshot;
  root_grants : gmap string McpRootGrant;
  device_codes : gmap string DeviceCode;
}.
#[export] Instance eta_db : Settable db := λ r, mkdb
  (file_changes r) (grants r) (audit_events r) (agents r) (rooms r) (messages r)
  (deliveries r) (commands r) (work_items r) (leases r) (handoffs r) (integrations r)
  (policies r) (controls r) (overrides r) (assignments r) (approvals r) (votes r)
  (permits r) (receipts r) (recoveries r) (outbox r) (gateway_replicas r)
  (outbox_delivery_attempts r) (processed_messages r) (realtime_routes r)
  (realtime_notifications r) (chat_contexts r) (chat_aliases r) (chat_events r)
  (secret_blobs r) (thin_clients r) (mcp_bindings r) (mcp_servers r) (mcp_tools r)
  (mcp_revisions r) (mcp_exposures r) (mcp_policies r) (mcp_receipts r)
  (mcp_preparations r) (mcp_invocations r) (users r) (oauth_clients r) (oauth_codes r)
  (runtime_connections r) (capability_snapshots r) (root_grants r) (device_codes r).

Definition empty_db : db := mkdb
  ∅ ∅ ∅ ∅ ∅ ∅ ∅ ∅ ∅ ∅ ∅ ∅ ∅ ∅ ∅ ∅ ∅ ∅ ∅ ∅ ∅ ∅ ∅ ∅ ∅ ∅ ∅ ∅ ∅ ∅ ∅ ∅ ∅ ∅ ∅ ∅ ∅ ∅ ∅ ∅ ∅
  ∅ ∅ ∅ ∅ ∅ ∅ ∅.

Class Table (R : Type) : Type := {
  tbl : db → gmap string R;
  tbl_upd : (gmap string R → gmap string R) → db → db;
  row_id : R → string;
  row_clash : R → R → bool;
}.

(** Two rows with the same owner and the same non-NULL key. *)
Definition same_key {R} (owner : R → string) (key : R → option string) (a b : R) : bool :=
  negb (is_none (key a)) && (key a ==? key b) && (owner a ==? owner b).

Definition clash_agents (a b : AgentInstance) : bool :=
  (ag_owner_subject a ==? ag_owner_subject b) && (ag_instance_id a ==? ag_instance_id b).
Definition clash_rooms (a b : CollaborationRoom) : bool :=
  same_key room_owner_subject room_idempotency_key a b.
Definition clash_messages (a b : AgentMessage) : bool :=
  same_key msg_owner_subject msg_idempotency_key a b
  || ((msg_owner_subject a ==? msg_owner_subject b) && (msg_room_id a ==? msg_room_id b)
      && (msg_sequence_number a ==? msg_sequence_number b)).
Definition clash_deliveries (a b : AgentMessageDelivery) : bool :=
  (dlv_message_id a ==? dlv_message_id b)
  && (dlv_recipient_agent_id a ==? dlv_recipient_agent_id b).
Definition clash_commands (a b : AgentCommand) : bool :=
  same_key cmd_owner_subject cmd_idempotency_key a b.
Definition clash_work_items (a b : AgentWorkItem) : bool :=
  same_key wi_owner_subject wi_idempotency_key a b.
Definition clash_leases (a b : ResourceLease) : bool :=
  same_key ls_owner_subject ls_idempotency_key a b
  || ((ls_owner_subject a ==? ls_owner_subject b) && (ls_room_id a ==? ls_room_id b)
      && (ls_fencing_token a ==? ls_fencing_token b)).
Definition clash_handoffs (a b : AgentHandoffBarrier) : bool :=
  same_key hb_owner_subject hb_idempotency_key a b.
Definition clash_integrations (a b : AgentIntegrationRecord) : bool :=
  same_key ir_owner_subject ir_idempotency_key a b.
Definition clash_policies (a b : AutonomyPolicy) : bool :=
  same_key pol_owner_subject pol_idempotency_key a b.
Definition clash_controls (a b : AutonomyControlState) : bool :=
  (ctl_owner_subject a ==? ctl_owner_subject b)
  && (ctl_scope_type a ==? ctl_scope_type b) && (ctl_scope_id a ==? ctl_scope_id b).
Definition clash_assignments (a b : AutonomyAssignment) : bool :=
  same_key asg_owner_subject asg_idempotency_key a b.
Definition clash_approvals (a b : ApprovalRequest) : bool :=
  same_key apr_owner_subject apr_idempotency_key a b.
Definition clash_votes (a b : ApprovalVote) : bool :=
  (vote_request_id a ==? vote_request_id b) && (vote_voter_subject a ==? vote_voter_subject b).
Definition clash_permits (a b : ExecutionPermit) : bool :=
  pmt_approval_request_id a ==? pmt_approval_request_id b.
Definition clash_receipts (a b : ActionReceipt) : bool :=
  (rcpt_permit_id a ==? rcpt_permit_id b)
  || same_key rcpt_owner_subject rcpt_idempotency_key a b.
Definition clash_recoveries (a b : RecoveryLoop) : bool :=
  same_key rec_owner_subject rec_idempotency_key a b.
Definition clash_outbox (a b : OutboxEvent) : bool :=
  ob_audit_event_id a ==? ob_audit_event_id b.
Definition clash_outbox_delivery_attempts (a b : OutboxDeliveryAttempt) : bool :=
  (oda_outbox_event_id a ==? oda_outbox_event_id b)
  && (oda_attempt_number a ==? oda_attempt_number b).
Definition clash_realtime_routes (a b : RealtimeRoute) : bool :=
  (rr_owner_subject a ==? rr_owner_subject b) && (rr_target_kind a ==? rr_target_kind b)
  && (rr_target_id a ==? rr_target_id b) && (rr_connection_id a ==? rr_connection_id b).

(** The unique indices of the chat contexts; the last two of the aliases are partial. *)
Definition clash_chat_contexts (a b : ChatContext) : bool :=
  same_key cc_owner_subject cc_client_nonce a b
  || (cc_host_kind a ==? cc_host_kind b)
     && same_key cc_owner_subject cc_conversation_ref_hmac a b.
Definition live_alias (a : ChatContextAlias) : bool := ca_status a ∈? ["active"; "quarantined"].
Definition clash_chat_aliases (a b : ChatContextAlias) : bool :=
  (ca_owner_subject a ==? ca_owner_subject b) && (ca_code a ==? ca_code b)
  || (ca_context_id a ==? ca_context_id b) && (ca_generation a =? ca_generation b)
  || live_alias a && live_alias b && (ca_code a ==? ca_code b)
  || (ca_status a ==? "active") && (ca_status b ==? "active")
     && (ca_context_id a ==? ca_context_id b).

(** The unique constraints of MCP federation. *)
Definition clash_mcp_bindings (a b : McpCredentialBinding) : bool :=
  same_key mcb_owner_subject mcb_idempotency_key a b.
Definition clash_mcp_servers (a b : McpServer) : bool :=
  (srv_owner_subject a ==? srv_owner_subject b)
    && (srv_normalized_slug a ==? srv_normalized_slug b)
  || same_key srv_owner_subject srv_idempotency_key a b.
Definition clash_mcp_tools (a b : McpTool) : bool :=
  (mtl_server_id a ==? mtl_server_id b) && (mtl_upstream_name a ==? mtl_upstream_name b).
Definition clash_mcp_revisions (a b : McpToolRevision) : bool :=
  (rvn_tool_id a ==? rvn_tool_id b)
  && ((rvn_revision_number a =? rvn_revision_number b)
      || (rvn_schema_hash a ==? rvn_schema_hash b)).
Definition clash_mcp_exposures (a b : McpToolExposure) : bool :=
  (xps_revision_id a ==? xps_revision_id b)
  && (xps_projection_generation a =? xps_projection_generation b).
Definition clash_mcp_policies (a b : McpFederationPolicy) : bool :=
  same_key fpl_owner_subject fpl_server_id a b
  || same_key fpl_owner_subject fpl_idempotency_key a b.
Definition clash_mcp_receipts (a b : McpMutationReceipt) : bool :=
  (mmr_owner_subject a ==? mmr_owner_subject b) && (mmr_operation a ==? mmr_operation b)
  && (mmr_idempotency_key a ==? mmr_idempotency_key b).
Definition clash_mcp_preparations (a b : McpActionPreparation) : bool :=
  (prp_owner_subject a ==? prp_owner_subject b)
    && (prp_idempotency_key a ==? prp_idempotency_key b)
  || (prp_approval_request_id a ==? prp_approval_request_id b).
Definition clash_mcp_invocations (a b : McpInvocation) : bool :=
  same_key inv_owner_subject inv_idempotency_key a b.

Definition clash_runtime_connections (a b : McpRuntimeConnection) : bool :=
  (rtm_owner_subject a ==? rtm_owner_subject b) && (rtm_server_id a ==? rtm_server_id b)
  && (rtm_connection_instance_id a ==? rtm_connection_instance_id b).
Definition clash_capability_snapshots (a b : McpCapabilitySnapshot) : bool :=
  (csn_server_id a ==? csn_server_id b)
  && (csn_runtime_connection_id a ==? csn_runtime_connection_id b).
Definition clash_root_grants (a b : McpRootGrant) : bool :=
  (rgt_owner_subject a ==? rgt_owner_subject b) && (rgt_server_id a ==? rgt_server_id b)
  && (rgt_root_uri_sha256 a ==? rgt_root_uri_sha256 b).

#[export] Instance table_file_changes : Table FileChangeSet :=
  {| tbl := file_changes; tbl_upd := set_with file_changes; row_id := chg_id;
     row_clash := λ _ _, false |}.
#[export] Instance table_grants : Table AccessGrant :=
  {| tbl := grants; tbl_upd := set_with grants; row_id := grant_id;
     row_clash := λ _ _, false |}.
#[export] Instance table_audit_events : Table AuditEvent :=
  {| tbl := audit_events; tbl_upd := set_with audit_events; row_id := aud_id;
     row_clash := λ _ _, false |}.
#[export] Instance table_agents : Table AgentInstance :=
  {| tbl := agents; tbl_upd := set_with agents; row_id := ag_id;
     row_clash := clash_agents |}.
#[export] Instance table_rooms : Table CollaborationRoom :=
  {| tbl := rooms; tbl_upd := set_with rooms; row_id := room_id;
     row_clash := clash_rooms |}.
#[export] Instance table_messages : Table AgentMessage :=
  {| tbl := messages; tbl_upd := set_with messages; row_id := msg_id;
     row_clash := clash_messages |}.
#[export] Instance table_deliveries : Table AgentMessageDelivery :=
  {| tbl := deliveries; tbl_upd := set_with deliveries; row_id := dlv_id;
     row_clash := clash_deliveries |}.
#[export] Instance table_commands : Table AgentCommand :=
  {| tbl := commands; tbl_upd := set_with commands; row_id := cmd_id;
     row_clash := clash_commands |}.
#[export] Instance table_work_items : Table AgentWorkItem :=
  {| tbl := work_items; tbl_upd := set_with work_items; row_id := wi_id;
     row_clash := clash_work_items |}.
#[export] Instance table_leases : Table ResourceLease :=
  {| tbl := leases; tbl_upd := set_with leases; row_id := ls_id;
     row_clash := clash_leases |}.
#[export] Instance table_handoffs : Table AgentHandoffBarrier :=
  {| tbl := handoffs; tbl_upd := set_with handoffs; row_id := hb_id;
     row_clash := clash_handoffs |}.
#[export] Instance table_integrations : Table AgentIntegrationRecord :=
  {| tbl := integrations; tbl_upd := set_with integrations; row_id := ir_id;
     row_clash := clash_integrations |}.
#[export] Instance table_policies : Table AutonomyPolicy :=
  {| tbl := policies; tbl_upd := set_with policies; row_id := pol_id;
     row_clash := clash_policies |}.
#[export] Instance table_controls : Table AutonomyControlState :=
  {| tbl := controls; tbl_upd := set_with controls; row_id := ctl_id;
     row_clash := clash_controls |}.
#[export] Instance table_overrides : Table AutonomyOverride :=
  {| tbl := overrides; tbl_upd := set_with overrides; row_id := ovr_id;
     row_clash := λ _ _, false |}.
#[export] Instance table_assignments : Table AutonomyAssignment :=
  {| tbl := assignments; tbl_upd := set_with assignments; row_id := asg_id;
     row_clash := clash_assignments |}.
#[export] Instance table_approvals : Table ApprovalRequest :=
  {| tbl := approvals; tbl_upd := set_with approvals; row_id := apr_id;
     row_clash := clash_approvals |}.
#[export] Instance table_votes : Table ApprovalVote :=
  {| tbl := votes; tbl_upd := set_with votes; row_id := vote_id;
     row_clash := clash_votes |}.
#[export] Instance table_permits : Table ExecutionPermit :=
  {| tbl := permits; tbl_upd := set_with permits; row_id := pmt_id;
     row_clash := clash_permits |}.
#[export] Instance table_receipts : Table ActionReceipt :=
  {| tbl := receipts; tbl_upd := set_with receipts; row_id := rcpt_id;
     row_clash := clash_receipts |}.
#[export] Instance table_recoveries : Table RecoveryLoop :=
  {| tbl := recoveries; tbl_upd := set_with recoveries; row_id := rec_id;
     row_clash := clash_recoveries |}.
#[export] Instance table_outbox : Table OutboxEvent :=
  {| tbl := outbox; tbl_upd := set_with outbox; row_id := ob_id;
     row_clash := clash_outbox |}.
#[export] Instance table_gateway_replicas : Table GatewayReplica :=
  {| tbl := gateway_replicas; tbl_upd := set_with gateway_replicas; row_id := gr_id;
     row_clash := λ _ _, false |}.
#[export] Instance table_outbox_delivery_attempts : Table OutboxDeliveryAttempt :=
  {| tbl := outbox_delivery_attempts; tbl_upd := set_with outbox_delivery_attempts; row_id := oda_id;
     row_clash := clash_outbox_delivery_attempts |}.
#[export] Instance table_processed_messages : Table ProcessedBrokerMessage :=
  {| tbl := processed_messages; tbl_upd := set_with processed_messages; row_id := pbm_message_id;
     row_clash := λ _ _, false |}.
#[export] Instance table_realtime_routes : Table RealtimeRoute :=
  {| tbl := realtime_routes; tbl_upd := set_with realtime_routes; row_id := rr_id;
     row_clash := clash_realtime_routes |}.
#[export] Instance table_realtime_notifications : Table RealtimeNotification :=
  {| tbl := realtime_notifications; tbl_upd := set_with realtime_notifications; row_id := rn_id;
     row_clash := λ _ _, false |}.
#[export] Instance table_chat_contexts : Table ChatContext :=
  {| tbl := chat_contexts; tbl_upd := set_with chat_contexts; row_id := cc_id;
     row_clash := clash_chat_contexts |}.
#[export] Instance table_chat_aliases : Table ChatContextAlias :=
  {| tbl := chat_aliases; tbl_upd := set_with chat_aliases; row_id := ca_id;
     row_clash := clash_chat_aliases |}.
#[export] Instance table_chat_events : Table ChatContextEvent :=
  {| tbl := chat_events; tbl_upd := set_with chat_events; row_id := ce_id;
     row_clash := λ _ _, false |}.
#[export] Instance table_secret_blobs : Table SecretBlob :=
  {| tbl := secret_blobs; tbl_upd := set_with secret_blobs; row_id := sb_id;
     row_clash := λ _ _, false |}.
#[export] Instance table_thin_clients : Table ThinClient :=
  {| tbl := thin_clients; tbl_upd := set_with thin_clients; row_id := tcl_id;
     row_clash := λ _ _, false |}.
#[export] Instance table_mcp_bindings : Table McpCredentialBinding :=
  {| tbl := mcp_bindings; tbl_upd := set_with mcp_bindings; row_id := mcb_id;
     row_clash := clash_mcp_bindings |}.
#[export] Instance table_mcp_servers : Table McpServer :=
  {| tbl := mcp_servers; tbl_upd := set_with mcp_servers; row_id := srv_id;
     row_clash := clash_mcp_servers |}.
#[export] Instance table_mcp_tools : Table McpTool :=
  {| tbl := mcp_tools; tbl_upd := set_with mcp_tools; row_id := mtl_id;
     row_clash := clash_mcp_tools |}.
#[export] Instance table_mcp_revisions : Table McpToolRevision :=
  {| tbl := mcp_revisions; tbl_upd := set_with mcp_revisions; row_id := rvn_id;
     row_clash := clash_mcp_revisions |}.
#[export] Instance table_mcp_exposures : Table McpToolExposure :=
  {| tbl := mcp_exposures; tbl_upd := set_with mcp_exposures; row_id := xps_id;
     row_clash := clash_mcp_exposures |}.
#[export] Instance table_mcp_policies : Table McpFederationPolicy :=
  {| tbl := mcp_policies; tbl_upd := set_with mcp_policies; row_id := fpl_id;
     row_clash := clash_mcp_policies |}.
#[export] Instance table_mcp_receipts : Table McpMutationReceipt :=
  {| tbl := mcp_receipts; tbl_upd := set_with mcp_receipts; row_id := mmr_id;
     row_clash := clash_mcp_receipts |}.
#[export] Instance table_mcp_preparations : Table McpActionPreparation :=
  {| tbl := mcp_preparations; tbl_upd := set_with mcp_preparations; row_id := prp_id;
     row_clash := clash_mcp_preparations |}.
#[export] Instance table_mcp_invocations : Table McpInvocation :=
  {| tbl := mcp_invocations; tbl_upd := set_with mcp_invocations; row_id := inv_id;
     row_clash := clash_mcp_invocations |}.
(** The users are keyed by their unique subject. *)
#[export] Instance table_users : Table User :=
  {| tbl := users; tbl_upd := set_with users; row_id := usr_subject;
     row_clash := λ _ _, false |}.
#[export] Instance table_oauth_clients : Table OAuthClient :=
  {| tbl := oauth_clients; tbl_upd := set_with oauth_clients; row_id := oc_client_id;
     row_clash := λ _ _, false |}.
#[export] Instance table_oauth_codes : Table OAuthCode :=
  {| tbl := oauth_codes; tbl_upd := set_with oauth_codes; row_id := ocd_code;
     row_clash := λ _ _, false |}.
#[export] Instance table_runtime_connections : Table McpRuntimeConnection :=
  {| tbl := runtime_connections; tbl_upd := set_with runtime_connections; row_id := rtm_id;
     row_clash := clash_runtime_connections |}.
#[export] Instance table_capability_snapshots : Table McpCapabilitySnapshot :=
  {| tbl := capability_snapshots; tbl_upd := set_with capability_snapshots; row_id := csn_id;
     row_clash := clash_capability_snapshots |}.
#[export] Instance table_root_grants : Table McpRootGrant :=
  {| tbl := root_grants; tbl_upd := set_with root_grants; row_id := rgt_id;
     row_clash := clash_root_grants |}.
#[export] Instance table_device_codes : Table DeviceCode :=
  {| tbl := device_codes; tbl_upd := set_with device_codes; row_id := dvc_device_code;
     row_clash := λ a b, dvc_user_code a ==? dvc_user_code b |}.

Section tables.
Context {R : Type} `{!Table R}.

(** All the rows of a table, in an unspecified order. *)
Definition rows (d : db) : list R := (map_to_list (tbl d)).*2.

Definition lookup_row (id : string) (d : db) : option R := tbl d !! id.

(** [db.query(R).filter(p).all()] *)
Definition select (p : R → bool) (d : db) : list R := filter (λ r, p r = true) (rows d).

(** A new row can be inserted. *)
Definition insertable (r : R) (d : db) : bool :=
  is_none (lookup_row (row_id r) d) && forallb (λ r', negb (row_clash r r')) (rows d).

Definition put_row (r : R) (d : db) : db := tbl_upd <[row_id r := r]> d.
Definition erase_row (r : R) (d : db) : db := tbl_upd (delete (row_id r)) d.

(** A row can be written in the place of its previous version. *)
Definition updatable (r : R) (d : db) : bool :=
  forallb (λ r', (row_id r' ==? row_id r) || negb (row_clash r r')) (rows d).

Lemma elem_of_rows r d : r ∈ rows d ↔ ∃ id, tbl d !! id = Some r.
Proof.
  unfold rows. rewrite list_elem_of_fmap. split.
  - intros ([id r'] & -> & H%elem_of_map_to_list). by exists id.
  - intros [id H%elem_of_map_to_list]. by exists (id, r).
Qed.

Lemma elem_of_select p r d : r ∈ select p d ↔ p r = true ∧ ∃ id, tbl d !! id = Some r.
Proof. unfold select. by rewrite list_elem_of_filter, elem_of_rows. Qed.

Lemma insertable_spec r d :
  insertable r d = true ↔
  tbl d !! row_id r = None ∧ ∀ id r', tbl d !! id = Some r' → row_clash r r' = false.
Proof.
  unfold insertable, lookup_row.
  rewrite andb_true_iff, forallb_forall.
  split; intros [H1 H2]; (split; [by destruct (tbl d !! row_id r)|]).
  - intros id r' H. apply negb_true_iff, H2, list_elem_of_In, elem_of_rows. eauto.
  - intros r' [id H]%list_elem_of_In%elem_of_rows. rewrite (H2 id); done.
Qed.

Lemma updatable_spec r d :
  updatable r d = true ↔
  ∀ id r', tbl d !! id = Some r' → row_id r' ≠ row_id r → row_clash r r' = false.
Proof.
  unfold updatable. rewrite forallb_forall. split; intros H.
  - intros id r' Hr Hne. specialize (H r'). rewrite bool_decide_eq_false_2 in H by done.
    apply negb_true_iff, H, list_elem_of_In, elem_of_rows. eauto.
  - intros r' [id Hr]%list_elem_of_In%elem_of_rows. case_bool_decide; [done|]. simpl.
    by rewrite (H id r').
Qed.
End tables.

#[global] Arguments updatable : simpl never.
#[global] Arguments put_row : simpl never.
#[global] Arguments erase_row : simpl never.
#[global] Arguments select : simpl never.
#[global] Arguments rows : simpl never.
#[global] Arguments lookup_row : simpl never.
#[global] Arguments insertable : simpl never.
