(* ===== verification/Session.v ===== *)
(** * Sessions: transactions, clock, identifiers and events
      ([database.py], [events.py])

    A request runs in one SQLAlchemy session.  [working] is what the session's
    queries see, [committed] what other sessions see; [commit] publishes the
    working state, [rollback] and the closing of the session discard it.  A row
    that breaks a unique constraint is noticed by the next flush, which raises
    [IntegrityError].  The session factory is built with [autoflush=False] and
    [expire_on_commit=False]: no operation modelled here queries a table between
    adding a row to it and the flush, and rows are passed as values. *)

From S2P Require Import Prelude PyStr PyVal PyFloat Errors Models Database.

Record Settings := mkSettings {
  gateway_autonomy_enabled : bool;
  gateway_autonomy_emergency_stop : bool;
  gateway_autonomy_assignment_batch_size : Z;
  gateway_autonomy_approval_ttl_seconds : Z;
  gateway_autonomy_permit_ttl_seconds : Z;
  gateway_outbox_enabled : bool;
  gateway_outbox_max_attempts : Z;
  gateway_nats_subject_prefix : string;
  gateway_outbox_batch_size : Z;
  gateway_outbox_retry_base_seconds : pyfloat;
  gateway_outbox_retry_max_seconds : pyfloat;
  gateway_outbox_lock_ttl_seconds : Z;
  gateway_broker_backend : string;
  gateway_replica_ttl_seconds : Z;
  gateway_realtime_route_ttl_seconds : Z;
  gateway_realtime_notification_ttl_seconds : Z;
  gateway_nats_stream : string;
  gateway_chat_context_enabled : bool;
  gateway_chat_context_ttl_seconds : Z;
  gateway_chat_context_renew_threshold_seconds : Z;
  gateway_chat_context_quarantine_seconds : Z;
  gateway_chat_context_allocation_attempts : Z;
  gateway_chat_context_hmac_key : string;
  gateway_chat_context_hmac_key_version : Z;
  gateway_affine_approval_server_endpoint : string;
  gateway_affine_approval_preview_max_chars : Z;
  gateway_affine_approval_preview_max_items : Z;
  gateway_mcp_federation_writes_paused : bool;
  public_base_url : string;
  gateway_dev_auth : bool;
  gateway_dev_subject : string;
  gateway_dev_username : string;
  gateway_dev_email : option string;
  gateway_dev_roles : string;
  gateway_session_cookie : string;
  keycloak_issuer : string;
  keycloak_client_id : string;
  gateway_access_token_ttl_seconds : Z;
  gateway_auth_code_ttl_seconds : Z;
  oauth_audience : string;
  oauth_supported_scopes : string;
  gateway_browser_extension_client_id : string;
  gateway_browser_extension_redirect_uri : string;
  gateway_browser_extension_oauth_scopes : string;
  gateway_browser_extension_access_token_ttl_seconds : Z;
  gateway_device_code_ttl_seconds : Z;
  gateway_thin_client_token_ttl_seconds : Z;
}.

(** What an operation draws from outside: the clock, [uuid.uuid4], the random codes
    of chat contexts, SHA-256, HMAC-SHA-256 (key, message, raw digest), the symmetric
    encryption of secrets (with its own randomness), [jsonschema] (the path of the first
    violation), Unicode NFKC, the textual forms of IP addresses, [secrets.token_urlsafe],
    [secrets.token_hex],
    [uuid.uuid5] (namespace and name), the signing and the verification of JSON web tokens (at a time) and the settings. *)
Class Env : Type := {
  clock : nat → Z;
  uuid_source : nat → string;
  code_source : nat → string;
  sha256_hexdigest : string → string;
  hmac_sha256 : string → string → string;
  fernet_encrypt : nat → string → string;
  fernet_decrypt : string → option string;
  schema_violation : pydict → pyval → option (list pyval);
  nfkc : string → string;
  ip_literal : string → bool;
  urlsafe_source : nat → string;
  hex_source : nat → string;
  uuid5 : string → string → string;
  jwt_encode : pydict → string;
  jwt_decode : Z → string → option pydict;
  settings : Settings;
}.

Record world := mkWorld {
  committed : db;
  working : db;
  violated : bool;
  ticks : nat;
  draws : nat;
}.
(** Its updates. *)
Definition on_working (f : db → db) (w : world) : world :=
  mkWorld (committed w) (f (working w)) (violated w) (ticks w) (draws w).
Definition violate (w : world) : world :=
  mkWorld (committed w) (working w) true (ticks w) (draws w).
Definition restore (w : world) : world :=
  mkWorld (committed w) (committed w) false (ticks w) (draws w).
Definition published (w : world) : world :=
  mkWorld (working w) (working w) (violated w) (ticks w) (draws w).
Definition tick (w : world) : world :=
  mkWorld (committed w) (working w) (violated w) (S (ticks w)) (draws w).
Definition draw (w : world) : world :=
  mkWorld (committed w) (working w) (violated w) (ticks w) (S (draws w)).

Definition M (A : Type) : Type := world → result A * world.
#[export] Instance M_ret : MRet M := λ A a w, (Ok a, w).
#[export] Instance M_bind : MBind M := λ A B f m w,
  match m w with
  | (Ok a, w') => f a w'
  | (Raise e, w') => (Raise e, w')
  end.

Definition lift {A} (r : result A) : M A := λ w, (r, w).
Definition throw {A} (e : exn) : M A := λ w, (Raise e, w).
Definition fail {A} (status : Z) (detail : string) : M A := throw (HTTPException status detail).
Definition fail_if (c : bool) (status : Z) (detail : string) : M unit :=
  if c then fail status detail else mret tt.

(** ** Reading *)
Definition reads {A} (f : db → A) : M A := λ w, (Ok (f (working w)), w).
Definition query {R} `{!Table R} (p : R → bool) : M (list R) := reads (select p).
Definition get_row {R} `{!Table R} (id : string) : M (option R) := reads (lookup_row id).

(** [.one_or_none()] *)
Definition one_or_none {R} (l : list R) : M (option R) :=
  match l with
  | [] => mret None
  | [r] => mret (Some r)
  | _ => throw MultipleResultsFound
  end.
Definition query_one {R} `{!Table R} (p : R → bool) : M (option R) := query p ≫= one_or_none.

(** A row with a given primary key that satisfies the rest of the filter. *)
Definition find_row {R} `{!Table R} (id : string) (p : R → bool) : M (option R) :=
  r ← get_row id;
  mret (match r with Some r => if p r then Some r else None | None => None end).

(** The row, or the 404 of the helper that looks it up. *)
Definition require {R} (o : option R) (status : Z) (detail : string) : M R :=
  match o with Some r => mret r | None => fail status detail end.

(** ** Writing *)
Definition put {R} `{!Table R} (r : R) : M unit := λ w,
  (Ok tt, on_working (put_row r) w).

Definition add {R} `{!Table R} (r : R) : M unit := λ w,
  (Ok tt, if insertable r (working w) then on_working (put_row r) w
          else violate w).

(** [db.delete(r)] *)
Definition erase {R} `{!Table R} (r : R) : M unit := λ w,
  (Ok tt, on_working (erase_row r) w).

Definition flush : M unit := λ w,
  if violated w then (Raise IntegrityError, w) else (Ok tt, w).
Definition rollback : M unit := λ w,
  (Ok tt, restore w).
Definition publish : M unit := λ w, (Ok tt, published w).
Definition commit : M unit := flush;; publish.

(** The row just written satisfies the CHECK constraints of its table. *)
Definition check_row (valid : bool) : M unit := λ w,
  (Ok tt, if valid then w else violate w).

(** Assign to attributes that take part in a unique constraint. *)
Definition modify {R} `{!Table R} (r : R) : M unit := λ w,
  (Ok tt, if updatable r (working w) then on_working (put_row r) w else violate w).

(** The session's current version of a row that the code holds on to. *)
Definition current_state {R} `{!Table R} (r : R) : M R :=
  reads (λ d, default r (lookup_row (row_id r) d)).

(** The first row of a query, if any. *)
Definition scalar {R} `{!Table R} (p : R → bool) : M (option R) :=
  l ← query p; mret (head l).

(** [try: m  except IntegrityError: handler] *)
Definition try_integrity {A} (m handler : M A) : M A := λ w,
  match m w with
  | (Raise IntegrityError, w') => handler w'
  | r => r
  end.

(** [try: m  except Exception: handler] *)
Definition try_any {A} (m handler : M A) : M A := λ w,
  match m w with
  | (Raise _, w') => handler w'
  | r => r
  end.

(** [try: m  except ... as exc: raise f(exc)] *)
Definition map_error {A} (f : exn → exn) (m : M A) : M A := λ w,
  match m w with
  | (Raise e, w') => (Raise (f e), w')
  | r => r
  end.

(** [try: with db.begin_nested(): m  except IntegrityError: handler]: the block is
    flushed before and after; when it raises, the session is back at the savepoint.
    A flush that fails before the savepoint rolls the whole transaction back. *)
Definition savepoint {A} (m handler : M A) : M A := λ w,
  if violated w then handler (restore w) else
  match (a ← m; flush;; mret a) w with
  | (Ok a, w') => (Ok a, w')
  | (Raise e, w') =>
      let back := mkWorld (committed w') (working w) false (ticks w') (draws w') in
      match e with IntegrityError => handler back | _ => (Raise e, back) end
  end.

Section with_env.
Context `{!Env}.

Definition utcnow : M Z := λ w, (Ok (clock (ticks w)), tick w).
Definition uuid4 : M string := λ w, (Ok (uuid_source (draws w)), draw w).
Definition token_urlsafe : M string := λ w, (Ok (urlsafe_source (draws w)), draw w).
Definition token_hex : M string := λ w, (Ok (hex_source (draws w)), draw w).
Definition code_factory : M string := λ w, (Ok (code_source (draws w)), draw w).

(** ** Events *)
Definition strip_dots (s : string) : string :=
  let dot := λ c, code c =? 46 in
  of_chars (rstrip_by dot (lstrip_by dot (chars s))).

Definition event_subject (event_type : string) : string :=
  let prefix := strip_dots (gateway_nats_subject_prefix settings) in
  if prefix ==? "" then event_type else prefix +:+ "." +:+ event_type.

Definition or_else (o : option string) (s : string) : string :=
  match o with Some t => if t ==? "" then s else t | None => s end.

Definition outbox_row (event : AuditEvent) (id : string) (owner_subject : option string)
    (now : Z) : OutboxEvent := {|
  ob_id := id;
  ob_audit_event_id := aud_id event;
  ob_owner_subject := or_else owner_subject (aud_actor_subject event);
  ob_event_type := aud_event_type event;
  ob_subject := event_subject (aud_event_type event);
  ob_payload := dict_update (aud_payload event)
    [("event_id", PStr (aud_id event)); ("occurred_at", PStr (isoformat now))];
  ob_headers := [
    ("Content-Type", PStr "application/json");
    ("Nats-Msg-Id", PStr (aud_id event));
    ("X-Gateway-Event-Id", PStr (aud_id event));
    ("X-Gateway-Event-Type", PStr (aud_event_type event));
    ("X-Gateway-Actor-Subject", PStr (aud_actor_subject event));
    ("X-Gateway-Owner-Subject", PStr (or_else owner_subject (aud_actor_subject event)));
    ("X-Gateway-Action", PStr (aud_action event));
    ("X-Gateway-Resource-Type", PStr (aud_resource_type event));
    ("X-Gateway-Resource-Id", PStr (or_else (aud_resource_id event) ""));
    ("X-Gateway-Status", PStr (aud_status event))];
  ob_status := "pending";
  ob_attempt_count := 0;
  ob_max_attempts := Z.max 1 (gateway_outbox_max_attempts settings);
  ob_available_at := now;
  ob_locked_by := None; ob_lock_token := None; ob_locked_at := None;
  ob_published_at := None; ob_broker_stream := None; ob_broker_sequence := None;
  ob_last_error := None; ob_replay_count := 0; ob_replayed_from_id := None;
  ob_created_at := now;
  ob_updated_at := now;
|}.

Definition emit_event (event_type actor_subject action resource_type : string)
    (resource_id : option string) (payload : pydict) (owner_subject : option string)
    (status : string) (commit_now enqueue_outbox : bool) : M AuditEvent :=
  now ← utcnow;
  event_id ← uuid4;
  let event := {|
    aud_id := event_id;
    aud_event_type := event_type;
    aud_actor_subject := actor_subject;
    aud_action := action;
    aud_resource_type := resource_type;
    aud_resource_id := resource_id;
    aud_status := status;
    aud_payload := payload;
    aud_created_at := now;
  |} in
  add event;;
  (if enqueue_outbox && gateway_outbox_enabled settings then
     outbox_id ← uuid4;
     add (outbox_row event outbox_id owner_subject now)
   else mret tt);;
  (if commit_now then commit else flush);;
  mret event.

(** The form all the services below use: [commit=False], default owner. *)
Definition emit (event_type actor_subject action resource_type resource_id status : string)
    (payload : pydict) : M unit :=
  emit_event event_type actor_subject action resource_type (Some resource_id)
    payload None status false true;;
  mret tt.

(** With [owner_subject] given. *)
Definition emit_for (owner_subject event_type actor_subject action resource_type
    resource_id status : string) (payload : pydict) : M unit :=
  emit_event event_type actor_subject action resource_type (Some resource_id)
    payload (Some owner_subject) status false true;;
  mret tt.

(** [crypto.encrypt_text] and [decrypt_text]. *)
Definition encrypt_text (value : string) : M string := λ w,
  (Ok (fernet_encrypt (draws w) value), draw w).
Definition decrypt_text (value : string) : option string := fernet_decrypt value.
End with_env.

(** ** Loops *)
Fixpoint foreach {A} (f : A → M unit) (l : list A) : M unit :=
  match l with [] => mret tt | x :: l => f x;; foreach f l end.

Fixpoint traverse {A B} (f : A → M B) (l : list A) : M (list B) :=
  match l with
  | [] => mret []
  | x :: l => y ← f x; ys ← traverse f l; mret (y :: ys)
  end.

(** ** Conditional updates and idempotent creation *)

(** [query(R).filter(R.id == id, p).update(f)]: the number of rows changed. *)
Definition update_row {R} `{!Table R} (id : string) (p : R → bool) (f : R → R) : M Z :=
  row ← find_row id p;
  match row with
  | Some r => put (f r);; mret 1
  | None => mret 0
  end.

(** The row the owner created under an idempotency key, if a key is given. *)
Definition find_by_key {R} `{!Table R} (owner : R → string) (key : R → option string)
    (owner_subject : string) (k : option string) : M (option R) :=
  match k with
  | Some k => query_one (λ r, (owner r ==? owner_subject) && (key r ==? Some k))
  | None => mret None
  end.

(** [try: emit_event(...); commit  except IntegrityError: rollback], and then
    the row another session created under the same key, or a 409. *)
Definition create_or_existing {A} (events : M unit) (result : A) (existing : M (option A))
    (detail : string) : M A :=
  try_integrity
    (events;; commit;; mret result)
    (rollback;;
     found ← existing;
     match found with
     | Some a => mret a
     | None => fail 409 detail
     end).

(** [except AgentCommandPolicyError as exc: raise HTTPException(400, str(exc))] *)
Definition policy_400 {A} (r : result A) : M A :=
  match r with
  | Raise (AgentCommandPolicyError m) => fail 400 m
  | _ => lift r
  end.

(** ** Running a request: open a session on the database, run, close it. *)
Record store := mkStore { st_db : db; st_ticks : nat; st_draws : nat }.
Definition open_session (s : store) : world :=
  mkWorld (st_db s) (st_db s) false (st_ticks s) (st_draws s).
Definition close_session (w : world) : store :=
  mkStore (committed w) (ticks w) (draws w).
Definition run {A} (m : M A) (s : store) : result A * store :=
  let '(r, w) := m (open_session s) in (r, close_session w).

(** ** Weakest preconditions

    [wp m Q w]: running [m] in [w] ends in a result and a world that satisfy
    [Q].  The lemmas below are applied syntactically by [wp_go]. *)
Definition wp {A} (m : M A) (Q : result A → world → Prop) (w : world) : Prop :=
  Q (m w).1 (m w).2.

Section wp.
Context `{!Env}.
Implicit Types w : world.

Lemma run_wp {A} (m : M A) (Q : result A → db → Prop) s :
  wp m (λ r w, Q r (committed w)) (open_session s) → Q (run m s).1 (st_db (run m s).2).
Proof. unfold wp, run. by destruct (m (open_session s)). Qed.

Lemma wp_and {A} (m : M A) (Q Q' : result A → world → Prop) w :
  wp m Q w → wp m Q' w → wp m (λ r w', Q r w' ∧ Q' r w') w.
Proof. unfold wp. by destruct (m w). Qed.

Lemma wp_mono {A} (m : M A) (Q Q' : result A → world → Prop) w :
  wp m Q w → (∀ r w', Q r w' → Q' r w') → wp m Q' w.
Proof. unfold wp. eauto. Qed.

Lemma wp_any {A} (m : M A) (Q : result A → world → Prop) w : (∀ r w', Q r w') → wp m Q w.
Proof. unfold wp. auto. Qed.

Lemma wp_ret {A} (a : A) Q w : Q (Ok a) w → wp (mret a) Q w.
Proof. done. Qed.

Lemma wp_throw {A} e (Q : result A → world → Prop) w : Q (Raise e) w → wp (throw e) Q w.
Proof. done. Qed.

Lemma wp_fail {A} n d (Q : result A → world → Prop) w :
  Q (Raise (HTTPException n d)) w → wp (fail n d) Q w.
Proof. done. Qed.

Lemma wp_bind {A B} (m : M A) (f : A → M B) Q w :
  wp m (λ r w', match r with Ok a => wp (f a) Q w' | Raise e => Q (Raise e) w' end) w →
  wp (m ≫= f) Q w.
Proof. unfold wp, mbind, M_bind. by destruct (m w) as [[a|e] w']. Qed.

Lemma wp_lift {A} (r : result A) Q w :
  (∀ a, r = Ok a → Q (Ok a) w) → (∀ e, r = Raise e → Q (Raise e) w) → wp (lift r) Q w.
Proof. unfold wp, lift. destruct r; simpl; eauto. Qed.

Lemma wp_fail_if c n d Q w :
  (c = true → Q (Raise (HTTPException n d)) w) → (c = false → Q (Ok tt) w) →
  wp (fail_if c n d) Q w.
Proof. unfold wp, fail_if. destruct c; simpl; eauto. Qed.

Lemma wp_if {A} (c : bool) (m1 m2 : M A) Q w :
  (c = true → wp m1 Q w) → (c = false → wp m2 Q w) → wp (if c then m1 else m2) Q w.
Proof. destruct c; eauto. Qed.

Lemma wp_reads {A} (f : db → A) Q w : Q (Ok (f (working w))) w → wp (reads f) Q w.
Proof. done. Qed.

Lemma wp_query {R} `{!Table R} (p : R → bool) Q w :
  Q (Ok (select p (working w))) w → wp (query p) Q w.
Proof. done. Qed.

Lemma wp_get_row {R} `{!Table R} id Q w :
  Q (Ok (lookup_row (R:=R) id (working w))) w → wp (get_row id) Q w.
Proof. done. Qed.

Lemma wp_query_one {R} `{!Table R} (p : R → bool) Q w :
  (select p (working w) = [] → Q (Ok None) w) →
  (∀ r, r ∈ select p (working w) → Q (Ok (Some r)) w) →
  Q (Raise MultipleResultsFound) w →
  wp (query_one p) Q w.
Proof.
  intros H0 H1 H2. apply wp_bind, wp_query.
  destruct (select p (working w)) as [|r [|r' l]] eqn:E; simpl.
  - by apply wp_ret, H0.
  - apply wp_ret, H1. by left.
  - done.
Qed.

Lemma wp_find_row {R} `{!Table R} id (p : R → bool) Q w :
  (∀ r, lookup_row id (working w) = Some r → p r = true → Q (Ok (Some r)) w) →
  Q (Ok None) w →
  wp (find_row id p) Q w.
Proof.
  intros H1 H2. apply wp_bind, wp_get_row.
  destruct (lookup_row id (working w)) as [r|] eqn:E; simpl; [|done].
  destruct (p r) eqn:Ep; apply wp_ret; auto.
Qed.

Lemma wp_require {R} (o : option R) n d Q w :
  (∀ r, o = Some r → Q (Ok r) w) →
  (o = None → Q (Raise (HTTPException n d)) w) → wp (require o n d) Q w.
Proof. destruct o; simpl; intros HS HN; [by apply wp_ret, HS|by apply HN]. Qed.

Lemma wp_put {R} `{!Table R} (r : R) Q w :
  Q (Ok tt) (on_working (put_row r) w) → wp (put r) Q w.
Proof. done. Qed.

Lemma wp_add {R} `{!Table R} (r : R) Q w :
  (insertable r (working w) = true → Q (Ok tt) (on_working (put_row r) w)) →
  (insertable r (working w) = false → Q (Ok tt) (violate w)) →
  wp (add r) Q w.
Proof. unfold wp, add. simpl. destruct (insertable r (working w)); eauto. Qed.

Lemma wp_flush Q w :
  (violated w = true → Q (Raise IntegrityError) w) → (violated w = false → Q (Ok tt) w) →
  wp flush Q w.
Proof. unfold wp, flush. destruct (violated w); eauto. Qed.

Lemma wp_rollback Q w :
  Q (Ok tt) (restore w) → wp rollback Q w.
Proof. done. Qed.

Lemma wp_commit Q w :
  (violated w = true → Q (Raise IntegrityError) w) →
  (violated w = false → Q (Ok tt) (published w)) →
  wp commit Q w.
Proof.
  intros H1 H2. apply wp_bind, wp_flush; [done|]. intros HV. by apply H2.
Qed.

Lemma wp_utcnow Q w : Q (Ok (clock (ticks w))) (tick w) → wp utcnow Q w.
Proof. done. Qed.

Lemma wp_uuid4 Q w : Q (Ok (uuid_source (draws w))) (draw w) → wp uuid4 Q w.
Proof. done. Qed.

Lemma wp_token_urlsafe Q w : Q (Ok (urlsafe_source (draws w))) (draw w) → wp token_urlsafe Q w.
Proof. done. Qed.

Lemma wp_token_hex Q w : Q (Ok (hex_source (draws w))) (draw w) → wp token_hex Q w.
Proof. done. Qed.

Lemma wp_erase {R} `{!Table R} (r : R) Q w :
  Q (Ok tt) (on_working (erase_row r) w) → wp (erase r) Q w.
Proof. done. Qed.

Lemma wp_try_any {A} (m h : M A) Q w :
  wp m (λ r w', match r with Raise _ => wp h Q w' | Ok a => Q (Ok a) w' end) w →
  wp (try_any m h) Q w.
Proof. unfold wp, try_any. by destruct (m w) as [[a|e] w']. Qed.

Lemma wp_map_error {A} f (m : M A) Q w :
  wp m (λ r w', match r with Raise e => Q (Raise (f e)) w' | Ok a => Q (Ok a) w' end) w →
  wp (map_error f m) Q w.
Proof. unfold wp, map_error. by destruct (m w) as [[a|e] w']. Qed.

Lemma wp_try_integrity {A} (m h : M A) Q w :
  wp m (λ r w', match r with
                | Raise IntegrityError => wp h Q w'
                | _ => Q r w'
                end) w →
  wp (try_integrity m h) Q w.
Proof. unfold wp, try_integrity. by destruct (m w) as [[a|[]] w']. Qed.

Lemma wp_encrypt_text `{!Env} value Q w :
  Q (Ok (fernet_encrypt (draws w) value)) (draw w) → wp (encrypt_text value) Q w.
Proof. done. Qed.

(** Emitting an event changes nothing but the two event tables. *)
Definition events_only (d d' : db) : Prop :=
  d' = d <| audit_events := audit_events d' |> <| outbox := outbox d' |>.

Lemma events_only_refl d : events_only d d.
Proof. by destruct d. Qed.

Lemma events_only_audit d d' (e : AuditEvent) :
  events_only d d' → events_only d (put_row e d').
Proof. intros ->. by destruct d. Qed.

Lemma events_only_outbox d d' (e : OutboxEvent) :
  events_only d d' → events_only d (put_row e d').
Proof. intros ->. by destruct d. Qed.
End wp.

(** One symbolic execution step on a goal [wp m Q w], driven by the head of [m].
    Every exceptional exit becomes a goal of its own. *)
Ltac wp_prim m :=
  lazymatch m with
  | mbind _ _ => apply wp_bind
  | mret _ => apply wp_ret
  | throw _ => apply wp_throw
  | fail _ _ => apply wp_fail
  | fail_if _ _ _ => apply wp_fail_if; intros ?
  | lift _ => apply wp_lift; intros ? ?
  | reads _ => apply wp_reads
  | query _ => apply wp_query
  | get_row _ => apply wp_get_row
  | query_one _ => apply wp_query_one; [intros ?|intros ? ?|]
  | find_row _ _ => apply wp_find_row; [intros ? ? ?|]
  | require _ _ _ => apply wp_require; [intros ? ?|intros ?]
  | put _ => apply wp_put
  | add _ => apply wp_add; intros ?
  | flush => apply wp_flush; intros ?
  | rollback => apply wp_rollback
  | commit => apply wp_commit; intros ?
  | utcnow => apply wp_utcnow
  | uuid4 => apply wp_uuid4
  | encrypt_text _ => apply wp_encrypt_text
  | try_integrity _ _ => apply wp_try_integrity
  | try_any _ _ => apply wp_try_any
  | map_error _ _ => apply wp_map_error
  | token_urlsafe => apply wp_token_urlsafe
  | token_hex => apply wp_token_hex
  | erase _ => apply wp_erase
  end.

Ltac wp_step :=
  cbv beta iota zeta;
  lazymatch goal with
  | |- wp ?m _ _ =>
      first
        [ wp_prim m
        | lazymatch m with
          | if ?c then _ else _ => destruct c eqn:?
          | match ?x with _ => _ end => destruct x eqn:?
          end ]
  end;
  cbv beta iota zeta.

Section emit.
Context `{!Env}.
Implicit Types w : world.
Hint Resolve events_only_refl events_only_audit events_only_outbox : core.

Definition emit_post (w : world) (r : result unit) (w' : world) : Prop :=
  committed w' = committed w ∧
  (r = Ok tt ∧ events_only (working w) (working w') ∧ violated w = false ∧ violated w' = false
   ∨ r = Raise IntegrityError ∧ violated w' = true).

Lemma wp_emit_for_post o et actor action rt rid status payload w :
  wp (emit_for o et actor action rt rid status payload) (emit_post w) w.
Proof.
  unfold emit_for, emit_event.
  repeat wp_step; unfold emit_post; simpl in *; split; try done;
    first [discriminate | by right | by (left; split_and!; auto)].
Qed.

Lemma wp_emit_post et actor action rt rid status payload w :
  wp (emit et actor action rt rid status payload) (emit_post w) w.
Proof.
  unfold emit, emit_event.
  repeat wp_step; unfold emit_post; simpl in *; split; try done;
    first [discriminate | by right | by (left; split_and!; auto)].
Qed.

(** What holds however the event is reported, holds after it. *)
Lemma emit_post_wp m Q w :
  wp m (emit_post w) w →
  (∀ w', committed w' = committed w → events_only (working w) (working w') →
         violated w = false → violated w' = false → Q (Ok tt) w') →
  (∀ w', committed w' = committed w → violated w' = true →
         Q (Raise IntegrityError) w') →
  wp m Q w.
Proof.
  intros Hm HOk HRaise. eapply wp_mono; [exact Hm|].
  intros r w' [? [(-> & ? & ? & ?)|[-> ?]]]; eauto.
Qed.

Lemma wp_emit et actor action rt rid status payload Q w :
  (∀ w', committed w' = committed w → events_only (working w) (working w') →
         violated w = false → violated w' = false → Q (Ok tt) w') →
  (∀ w', committed w' = committed w → violated w' = true →
         Q (Raise IntegrityError) w') →
  wp (emit et actor action rt rid status payload) Q w.
Proof. apply emit_post_wp, wp_emit_post. Qed.

Lemma wp_emit_for o et actor action rt rid status payload Q w :
  (∀ w', committed w' = committed w → events_only (working w) (working w') →
         violated w = false → violated w' = false → Q (Ok tt) w') →
  (∀ w', committed w' = committed w → violated w' = true →
         Q (Raise IntegrityError) w') →
  wp (emit_for o et actor action rt rid status payload) Q w.
Proof. apply emit_post_wp, wp_emit_for_post. Qed.
End emit.
