(* ===== verification/Preserve.v ===== *)
(** * Preservation of a database property by a session

    [pres I m]: if [I] holds of the committed and of the working state, it does
    after [m], however [m] ends.  [Stable I R]: writing any row of type [R] keeps
    [I]; the footprint of a handler is the list of row types it needs stable. *)

From S2P Require Import Prelude PyStr PyVal Errors Models Database Session.

Definition pres {A} (I : db → Prop) (m : M A) : Prop :=
  ∀ w, I (committed w) → I (working w) → I (committed (m w).2) ∧ I (working (m w).2).

Class Stable (I : db → Prop) (R : Type) `{!Table R} : Prop :=
  stable : ∀ (r : R) d, I d → I (put_row r d).

(** Deleting a row of type [R] keeps [I]. *)
Class Erasable (I : db → Prop) (R : Type) `{!Table R} : Prop :=
  erasable : ∀ (r : R) d, I d → I (erase_row r d).

(** [I] reads no table of rows of type [R]. *)
Ltac solve_stable := intros ? ?; first [exact (λ H, H) | intros H; exact H | intros <-; reflexivity].

Section pres.
Context (I : db → Prop).
Implicit Types w : world.

Lemma pres_intro {A} (m : M A) :
  (∀ w, I (committed w) → I (working w) →
        wp m (λ _ w', I (committed w') ∧ I (working w')) w) → pres I m.
Proof. intros H w. apply H. Qed.

Lemma pres_wp {A} (m : M A) w :
  pres I m → I (committed w) → I (working w) →
  wp m (λ _ w', I (committed w') ∧ I (working w')) w.
Proof. intros H. apply H. Qed.

Lemma pres_ret {A} (a : A) : pres I (mret a).
Proof. by intros w. Qed.
Lemma pres_throw {A} e : pres I (throw (A:=A) e).
Proof. by intros w. Qed.
Lemma pres_fail {A} n d : pres I (fail (A:=A) n d).
Proof. by intros w. Qed.
Lemma pres_fail_if c n d : pres I (fail_if c n d).
Proof. by destruct c; intros w. Qed.
Lemma pres_lift {A} (r : result A) : pres I (lift r).
Proof. by intros w. Qed.
Lemma pres_policy_400 {A} (r : result A) : pres I (policy_400 r).
Proof. unfold policy_400. repeat case_match; by intros w. Qed.
Lemma pres_require {R} (o : option R) n d : pres I (require o n d).
Proof. by destruct o; intros w. Qed.
Lemma pres_reads {A} (f : db → A) : pres I (reads f).
Proof. by intros w. Qed.

Lemma pres_bind {A B} (m : M A) (f : A → M B) :
  pres I m → (∀ a, pres I (f a)) → pres I (m ≫= f).
Proof.
  intros Hm Hf w Hc Hw. specialize (Hm w Hc Hw). unfold mbind, M_bind.
  destruct (m w) as [[a|e] w']; [|done]. by apply Hf; destruct Hm.
Qed.

Lemma pres_query {R} `{!Table R} (p : R → bool) : pres I (query p).
Proof. by intros w. Qed.
Lemma pres_get_row {R} `{!Table R} id : pres I (get_row (R:=R) id).
Proof. by intros w. Qed.
Lemma pres_one_or_none {R} (l : list R) : pres I (one_or_none l).
Proof. by destruct l as [|? [|]]; intros w. Qed.
Lemma pres_query_one {R} `{!Table R} (p : R → bool) : pres I (query_one p).
Proof. apply pres_bind; [apply pres_query|intros; apply pres_one_or_none]. Qed.
Lemma pres_find_row {R} `{!Table R} id (p : R → bool) : pres I (find_row id p).
Proof. apply pres_bind; [apply pres_get_row|intros; apply pres_ret]. Qed.
Lemma pres_find_by_key {R} `{!Table R} (owner : R → string) key s k :
  pres I (find_by_key owner key s k).
Proof. destruct k; [apply pres_query_one|apply pres_ret]. Qed.

Lemma pres_put {R} `{!Table R} `{!Stable I R} (r : R) : pres I (put r).
Proof. intros w Hc Hw. split; [done|]. by apply stable. Qed.
Lemma pres_add {R} `{!Table R} `{!Stable I R} (r : R) : pres I (add r).
Proof.
  intros w Hc Hw. unfold add. destruct (insertable r (working w)); [|done].
  split; [done|]. by apply stable.
Qed.
Lemma pres_erase {R} `{!Table R} `{!Erasable I R} (r : R) : pres I (erase r).
Proof. intros w Hc Hw. split; [done|]. by apply erasable. Qed.
Lemma pres_update_row {R} `{!Table R} `{!Stable I R} id p (f : R → R) :
  pres I (update_row id p f).
Proof.
  apply pres_bind; [apply pres_find_row|]. intros [r|]; [|apply pres_ret].
  apply pres_bind; [apply pres_put|intros; apply pres_ret].
Qed.

Lemma pres_flush : pres I flush.
Proof. intros w. unfold flush. by destruct (violated w). Qed.
Lemma pres_rollback : pres I rollback.
Proof. by intros w. Qed.
Lemma pres_commit : pres I commit.
Proof. apply pres_bind; [apply pres_flush|]. intros _. by intros w. Qed.

Lemma pres_check_row b : pres I (check_row b).
Proof. by destruct b; intros w. Qed.

Lemma pres_try_integrity {A} (m h : M A) :
  pres I m → pres I h → pres I (try_integrity m h).
Proof.
  intros Hm Hh w Hc Hw. specialize (Hm w Hc Hw). unfold try_integrity.
  destruct (m w) as [[a|[]] w']; try done. apply Hh; by destruct Hm.
Qed.

Lemma pres_scalar {R} `{!Table R} (p : R → bool) : pres I (scalar p).
Proof. apply pres_bind; [apply pres_query|intros; apply pres_ret]. Qed.
Lemma pres_modify {R} `{!Table R} `{!Stable I R} (r : R) : pres I (modify r).
Proof.
  intros w Hc Hw. unfold modify. destruct (updatable r (working w)); [|done].
  split; [done|]. by apply stable.
Qed.

Lemma pres_savepoint {A} (m h : M A) : pres I m → pres I h → pres I (savepoint m h).
Proof.
  intros Hm Hh w Hc Hw. unfold savepoint.
  destruct (violated w); [by apply Hh|].
  assert (pres I (a ← m; flush;; mret a)) as Hb.
  { apply pres_bind; [done|]. intros. apply pres_bind; [apply pres_flush|]. intros.
    apply pres_ret. }
  specialize (Hb w Hc Hw). destruct ((a ← m; flush;; mret a) w) as [[a|e] w']; [done|].
  destruct Hb as [Hc' _]. destruct e; try done. by apply Hh.
Qed.

Lemma pres_try_any {A} (m h : M A) : pres I m → pres I h → pres I (try_any m h).
Proof.
  intros Hm Hh w Hc Hw. specialize (Hm w Hc Hw). unfold try_any.
  destruct (m w) as [[a|e] w']; [done|]. apply Hh; by destruct Hm.
Qed.

Lemma pres_map_error {A} f (m : M A) : pres I m → pres I (map_error f m).
Proof.
  intros Hm w Hc Hw. specialize (Hm w Hc Hw). unfold map_error.
  by destruct (m w) as [[a|e] w'].
Qed.

Lemma pres_foreach {A} (f : A → M unit) l :
  (∀ a, pres I (f a)) → pres I (foreach f l).
Proof.
  intros Hf. induction l; [apply pres_ret|]. by apply pres_bind.
Qed.

Lemma pres_traverse {A B} (f : A → M B) l :
  (∀ a, pres I (f a)) → pres I (traverse f l).
Proof.
  intros Hf. induction l; [apply pres_ret|]. apply pres_bind; [done|]. intros.
  apply pres_bind; [done|]. intros. apply pres_ret.
Qed.

Lemma pres_create_or_existing {A} events (a : A) existing detail :
  pres I events → pres I existing → pres I (create_or_existing events a existing detail).
Proof.
  intros He Hx. apply pres_try_integrity.
  - apply pres_bind; [done|]. intros _. apply pres_bind; [apply pres_commit|].
    intros _. apply pres_ret.
  - apply pres_bind; [apply pres_rollback|]. intros _. apply pres_bind; [done|].
    intros [b|]; [apply pres_ret|apply pres_fail].
Qed.

Section env.
Context `{!Env}.
Lemma pres_utcnow : pres I utcnow.
Proof. by intros w. Qed.
Lemma pres_uuid4 : pres I uuid4.
Proof. by intros w. Qed.
Lemma pres_encrypt_text v : pres I (encrypt_text v).
Proof. by intros w. Qed.
Lemma pres_token_hex : pres I token_hex.
Proof. by intros w. Qed.
Lemma pres_token_urlsafe : pres I token_urlsafe.
Proof. by intros w. Qed.
Lemma pres_code_factory : pres I code_factory.
Proof. by intros w. Qed.
Lemma pres_emit_event `{!Stable I AuditEvent} et a ac rt rid p o st (enqueue : bool) :
  (enqueue = true → Stable I OutboxEvent) →
  pres I (emit_event et a ac rt rid p o st false enqueue).
Proof.
  intros Ho. unfold emit_event.
  apply pres_bind; [apply pres_utcnow|intros now].
  apply pres_bind; [apply pres_uuid4|intros id].
  apply pres_bind; [apply pres_add|intros _].
  apply pres_bind.
  { destruct enqueue; [|apply pres_ret]. specialize (Ho eq_refl). simpl.
    case_match; [|apply pres_ret]. apply pres_bind; [apply pres_uuid4|intros id'].
    apply pres_add. }
  intros _. apply pres_bind; [apply pres_flush|intros _]. apply pres_ret.
Qed.
End env.
End pres.

(** Reporting an event keeps the property. *)
Class Emits `{!Env} (I : db → Prop) : Prop :=
  emits : ∀ et a ac rt rid p o st, pres I (emit_event et a ac rt rid p o st false true).

Lemma pres_emit `{!Env} I `{!Emits I} et a ac rt rid st p :
  pres I (emit et a ac rt rid st p).
Proof. apply pres_bind; [apply emits|intros; apply pres_ret]. Qed.
Lemma pres_emit_for `{!Env} I `{!Emits I} o et a ac rt rid st p :
  pres I (emit_for o et a ac rt rid st p).
Proof. apply pres_bind; [apply emits|intros; apply pres_ret]. Qed.

#[export] Instance emits_stable `{!Env} I `{!Stable I AuditEvent, !Stable I OutboxEvent} :
  Emits I.
Proof. intros et a ac rt rid p o st. by apply pres_emit_event. Qed.

(** [emit_event] with its default, [commit=True]. *)
Lemma emit_event_commit `{!Env} et a ac rt rid p o st b w :
  emit_event et a ac rt rid p o st true b w
  = (e ← emit_event et a ac rt rid p o st false b; commit;; mret e) w.
Proof.
  unfold emit_event, mbind, M_bind, utcnow, uuid4, commit, flush, mbind, M_bind.
  repeat (case_match; unfold mret, M_ret, publish in *; simplify_eq; try congruence).
Qed.
Lemma pres_emit_commit `{!Env} I `{!Emits I} et a ac rt rid p o st :
  pres I (emit_event et a ac rt rid p o st true true).
Proof.
  intros w Hc Hw. rewrite emit_event_commit. revert w Hc Hw.
  apply (pres_bind I); [apply emits|intros e].
  apply pres_bind; [apply pres_commit|intros; apply pres_ret].
Qed.

(** Sub-handlers have their lemma in [pres_db]. *)
Create HintDb pres_db.

Ltac pres_head m :=
  lazymatch m with
  | ?f _ => pres_head f
  | ?f => f
  end.

(** One step on a goal [pres I m], driven by the head of [m]; a handler is
    unfolded when no lemma about it is known. *)
Ltac pres_step :=
  cbv beta iota zeta;
  lazymatch goal with
  | |- Stable _ _ => typeclasses eauto
  | |- Erasable _ _ => typeclasses eauto
  | |- Emits _ => typeclasses eauto
  | |- pres _ ?m =>
      lazymatch m with
      | mbind _ _ => apply pres_bind; [|intros ?]
      | mret _ => apply pres_ret
      | throw _ => apply pres_throw
      | fail _ _ => apply pres_fail
      | fail_if _ _ _ => apply pres_fail_if
      | lift _ => apply pres_lift
      | policy_400 _ => apply pres_policy_400
      | reads _ => apply pres_reads
      | query _ => apply pres_query
      | get_row _ => apply pres_get_row
      | query_one _ => apply pres_query_one
      | one_or_none _ => apply pres_one_or_none
      | find_row _ _ => apply pres_find_row
      | find_by_key _ _ _ _ => apply pres_find_by_key
      | require _ _ _ => apply pres_require
      | put _ => first [solve [auto with pres_db] | apply pres_put]
      | add _ => first [solve [auto with pres_db] | apply pres_add]
      | update_row _ _ _ => first [solve [auto with pres_db] | apply pres_update_row]
      | flush => apply pres_flush
      | rollback => apply pres_rollback
      | commit => apply pres_commit
      | utcnow => apply pres_utcnow
      | uuid4 => apply pres_uuid4
      | code_factory => apply pres_code_factory
      | token_urlsafe => apply pres_token_urlsafe
      | token_hex => apply pres_token_hex
      | erase _ => apply pres_erase
      | try_any _ _ => apply pres_try_any
      | map_error _ _ => apply pres_map_error
      | emit_event _ _ _ _ _ _ _ _ true true => apply pres_emit_commit
      | scalar _ => apply pres_scalar
      | current_state _ => apply pres_reads
      | modify _ => first [solve [auto with pres_db] | apply pres_modify]
      | savepoint _ _ => apply pres_savepoint
      | emit _ _ _ _ _ _ _ => apply pres_emit
      | emit_for _ _ _ _ _ _ _ _ => apply pres_emit_for
      | check_row _ => apply pres_check_row
      | encrypt_text _ => apply pres_encrypt_text
      | emit_event _ _ _ _ _ _ _ _ false false =>
          apply pres_emit_event; [typeclasses eauto|intros [=]]
      | try_integrity _ _ => apply pres_try_integrity
      | foreach _ _ => apply pres_foreach; intros ?
      | traverse _ _ => apply pres_traverse; intros ?
      | create_or_existing _ _ _ _ => apply pres_create_or_existing
      | if ?c then _ else _ => destruct c
      | match ?x with _ => _ end => destruct x
      | _ => first [solve [auto with pres_db]
                   | let h := pres_head m in unfold h; cbv beta iota zeta
                   | let h := pres_head m in progress unfold h]
      end
  end.
Ltac pres_go := repeat pres_step.

(** ** Running a request *)
Lemma pres_run {A} (I : db → Prop) (m : M A) s :
  pres I m → I (st_db s) → I (st_db (run m s).2).
Proof.
  intros Hm Hs. unfold run. specialize (Hm (open_session s) Hs Hs).
  destruct (m (open_session s)) as [r w]. by destruct Hm.
Qed.
