(* ===== verification/Rows.v ===== *)
(** * Rows: the laws of tables, bulk updates, and more symbolic execution *)

From S2P Require Import Prelude PyStr PyVal Errors Models Database Session Preserve.

(** Updating a table is seen by reading it. *)
Class TableOk (R : Type) `{!Table R} : Prop := {
  tbl_of_upd : ∀ f d, tbl (tbl_upd f d) = f (tbl d);
  tbl_empty : tbl empty_db = ∅;
}.
#[export] Hint Extern 0 (TableOk _) => (split; reflexivity) : typeclass_instances.

(** Every row is stored under its primary key. *)
Definition keyed (R : Type) `{!Table R} (d : db) : Prop :=
  ∀ id (r : R), tbl d !! id = Some r → row_id r = id.

Lemma NoDup_filter_fmap {A B} (f : A → B) (P : A → Prop) `{!∀ x, Decision (P x)} l :
  NoDup (f <$> l) → NoDup (f <$> filter P l).
Proof.
  induction l as [|x l IH]; [done|]. simpl. intros [Hx HN]%NoDup_cons. rewrite filter_cons.
  case_decide; [|auto]. simpl. constructor; [|auto].
  intros (y & E & [_ Hy]%list_elem_of_filter)%list_elem_of_fmap.
  apply Hx, list_elem_of_fmap. eauto.
Qed.

(** A list without repetition under [g] has none under [f], if [f] tells its
    elements apart as [g] does. *)
Lemma NoDup_fmap_finer {A B C} (f : A → B) (g : A → C) l :
  NoDup (g <$> l) → (∀ x y, x ∈ l → y ∈ l → f x = f y → g x = g y) → NoDup (f <$> l).
Proof.
  induction l as [|x l IH]; simpl; [constructor|]. intros [Hx HN]%NoDup_cons Hfg.
  constructor; [|apply IH; [done|]; intros; apply Hfg; by try right].
  intros (y & E & Hy)%list_elem_of_fmap. apply Hx, list_elem_of_fmap.
  exists y. split; [|done]. apply Hfg; [by left|by right|done].
Qed.

Section rows.
Context {R : Type} `{!Table R} `{!TableOk R}.
Implicit Types (r : R) (d : db).

Lemma tbl_put_row r d : tbl (put_row r d) = <[row_id r := r]> (tbl d).
Proof. apply tbl_of_upd. Qed.

Lemma keyed_put r d : keyed R d → keyed R (put_row r d).
Proof.
  intros H id r'. rewrite tbl_put_row, lookup_insert_Some.
  intros [[<- <-]|[_ Hr]]; [done|]. by apply H.
Qed.

Lemma elem_of_select_keyed p r d :
  keyed R d → r ∈ select p d ↔ p r = true ∧ tbl d !! row_id r = Some r.
Proof.
  intros HK. rewrite elem_of_select. split; [|naive_solver].
  intros [? [id Hid]]. by rewrite (HK id r Hid).
Qed.

Lemma NoDup_rows d : keyed R d → NoDup (row_id <$> rows d).
Proof.
  intros HK. unfold rows. rewrite <-list_fmap_compose.
  rewrite (list_fmap_ext _ fst (map_to_list (tbl d))).
  - apply NoDup_fst_map_to_list.
  - intros i [id r] Hi. simpl. apply HK.
    apply elem_of_map_to_list. by eapply list_elem_of_lookup_2.
Qed.

Lemma NoDup_select p d : keyed R d → NoDup (row_id <$> select p d).
Proof.
  intros HK. by apply NoDup_filter_fmap, NoDup_rows.
Qed.

(** A page of a sorted query. *)
Lemma NoDup_page p n leb d :
  keyed R d → NoDup (row_id <$> take n (sort_by leb (select p d))).
Proof.
  intros HK. rewrite fmap_take. eapply sublist_NoDup; [|apply sublist_take].
  rewrite sort_by_perm. by apply NoDup_select.
Qed.

Lemma elem_of_page p n leb r d :
  keyed R d → r ∈ take n (sort_by leb (select p d)) → p r = true ∧ tbl d !! row_id r = Some r.
Proof.
  intros HK Hr. apply elem_of_select_keyed; [done|].
  apply (sort_by_elem leb). by eapply subseteq_take.
Qed.

(** ** Updating the rows of a list *)
Definition put_all (f : R → R) (l : list R) (d : db) : db :=
  foldl (λ d r, put_row (f r) d) d l.

Lemma foreach_put (f : R → R) l w :
  foreach (λ r, put (f r)) l w = (Ok tt, on_working (put_all f l) w).
Proof.
  revert w. induction l as [|r l IH]; intros w; [by destruct w|].
  simpl. unfold mbind, M_bind at 1. unfold put at 1. rewrite IH. by destruct w.
Qed.

Lemma wp_foreach_put (f : R → R) l (Q : result unit → world → Prop) w :
  Q (Ok tt) (on_working (put_all f l) w) → wp (foreach (λ r, put (f r)) l) Q w.
Proof. unfold wp. by rewrite foreach_put. Qed.

Lemma wp_foreach_put_if (p : R → bool) (f : R → R) l (Q : result unit → world → Prop) w :
  Q (Ok tt) (on_working (put_all f (filter (λ r, p r = true) l)) w) →
  wp (foreach (λ r, if p r then put (f r) else mret tt) l) Q w.
Proof.
  unfold wp. enough (foreach (λ r, if p r then put (f r) else mret tt) l w =
    (Ok tt, on_working (put_all f (filter (λ r, p r = true) l)) w)) as -> by done.
  revert w. induction l as [|r l IH]; intros w; [by destruct w|].
  rewrite filter_cons. simpl. unfold mbind, M_bind at 1.
  destruct (p r) eqn:Ep; [rewrite decide_True by done|rewrite decide_False by done].
  - unfold put at 1. rewrite IH. by destruct w.
  - unfold mret, M_ret at 1. apply IH.
Qed.

Lemma lookup_put_all f l d id :
  (∀ r, row_id (f r) = row_id r) → NoDup (row_id <$> l) →
  (∀ r, r ∈ l → tbl d !! row_id r = Some r) →
  tbl (put_all f l d) !! id
  = (λ r, if decide (id ∈ row_id <$> l) then f r else r) <$> (tbl d !! id).
Proof.
  intros Hf. revert d. induction l as [|r l IH]; intros d HN Hl; simpl.
  - destruct (tbl d !! id); [|done]. simpl. f_equal.
  - apply NoDup_cons in HN as [Hr HN]. rewrite IH; [|done|].
    + rewrite tbl_put_row, Hf. destruct (decide (id = row_id r)) as [->|Hne].
      * rewrite lookup_insert_eq, Hl by left. simpl.
        rewrite decide_False by done. rewrite decide_True by left. done.
      * rewrite lookup_insert_ne by done. destruct (tbl d !! id); [|done]. simpl.
        f_equal. repeat case_decide; set_solver.
    + intros r' Hr'. rewrite tbl_put_row, Hf, lookup_insert_ne; [apply Hl; by right|].
      intros E. apply Hr. rewrite E. apply list_elem_of_fmap. eauto.
Qed.

(** Writing the rows of a list, each in place of a row of the table: what every
    single write keeps is kept by all of them. *)
Lemma wp_bulk_put {A} (I : db → Prop) (old new : A → R) (l : list A)
    (Q : result unit → world → Prop) w :
  NoDup (row_id <$> (old <$> l)) →
  (∀ a, a ∈ l → tbl (working w) !! row_id (old a) = Some (old a)) →
  (∀ a, a ∈ l → row_id (new a) = row_id (old a)) →
  (∀ a d, a ∈ l → I d → tbl d !! row_id (old a) = Some (old a) → I (put_row (new a) d)) →
  I (working w) →
  (∀ d', I d' → Q (Ok tt) (on_working (λ _, d') w)) →
  wp (foreach (λ a, put (new a)) l) Q w.
Proof.
  revert w. induction l as [|a l IH]; intros w HN Hold Hid HI Hw HQ; simpl.
  { apply wp_ret. specialize (HQ _ Hw). by destruct w. }
  apply NoDup_cons in HN as [Ha HN]. apply wp_bind, wp_put.
  apply IH; [done| | | |simpl|].
  - intros b Hb. simpl. rewrite tbl_put_row, Hid by by left.
    rewrite lookup_insert_ne; [apply Hold; by right|].
    intros E. apply Ha. rewrite E. by do 2 apply list_elem_of_fmap_2.
  - intros; apply Hid. by right.
  - intros; apply HI; [by right|done|done].
  - apply HI; [by left|done|]. apply Hold. by left.
  - intros d' Hd'. by apply (HQ d').
Qed.

Lemma put_all_keep (I : db → Prop) (f : R → R) l d :
  (∀ r, row_id (f r) = row_id r) → NoDup (row_id <$> l) →
  (∀ r, r ∈ l → tbl d !! row_id r = Some r) →
  (∀ r d, r ∈ l → I d → tbl d !! row_id r = Some r → I (put_row (f r) d)) →
  I d → I (put_all f l d).
Proof.
  intros Hid. revert d. induction l as [|r l IH]; intros d HN Hl HI Hd; [done|].
  apply NoDup_cons in HN as [Hr HN]. simpl. apply IH; [done| | |].
  - intros r' Hr'. rewrite tbl_put_row, Hid, lookup_insert_ne; [apply Hl; by right|].
    intros E. apply Hr. rewrite E. by apply list_elem_of_fmap_2.
  - intros; apply HI; [by right|done|done].
  - apply HI; [by left|done|]. apply Hl. by left.
Qed.

Lemma put_all_stable (I : db → Prop) `{!Stable I R} (f : R → R) l d :
  I d → I (put_all f l d).
Proof. revert d. induction l as [|r l IH]; intros d Hd; [done|]. apply IH. by apply stable. Qed.

Lemma select_insert (p : R → bool) r d :
  tbl d !! row_id r = None →
  select p (put_row r d) ≡ₚ (if p r then [r] else []) ++ select p d.
Proof.
  intros Hr. unfold select, rows. rewrite tbl_put_row, map_to_list_insert by done.
  simpl. rewrite filter_cons. case_decide as Hp; [by rewrite Hp|].
  by destruct (p r).
Qed.

(** [UPDATE ... WHERE p], on a table whose rows are stored under their keys. *)
Lemma lookup_put_all_select f p d id :
  keyed R d → (∀ r, row_id (f r) = row_id r) →
  tbl (put_all f (select p d) d) !! id
  = (λ r, if p r then f r else r) <$> (tbl d !! id).
Proof.
  intros HK Hf. rewrite lookup_put_all; [|done|by apply NoDup_select|].
  2:{ intros r Hr. by apply elem_of_select_keyed in Hr as [_ Hr]. }
  destruct (tbl d !! id) as [r|] eqn:E; [|done]. simpl. f_equal.
  case_decide as Hd; destruct (p r) eqn:Ep; try done.
  - apply list_elem_of_fmap in Hd as (r' & -> & [Ep' Hr']%elem_of_select_keyed); [|done].
    congruence.
  - destruct Hd. apply list_elem_of_fmap. exists r. split; [by rewrite (HK id r E)|].
    apply elem_of_select_keyed; [done|]. by rewrite (HK id r E).
Qed.
End rows.

#[export] Instance keyed_stable_same (R : Type) `{!Table R, !TableOk R} : Stable (keyed R) R.
Proof. intros r d. apply keyed_put. Qed.

Ltac solve_stable_other :=
  lazymatch goal with
  | |- @Stable _ _ _ => intros ? ?; exact (λ H, H)
  end.

(** A property of other tables is kept by writes to the table of [R]. *)
#[export] Hint Extern 5 (Stable _ _) => solve_stable_other : typeclass_instances.
#[export] Hint Extern 5 (Erasable _ _) => intros ? ?; exact (λ H, H) : typeclass_instances.

(** ** More symbolic execution *)
Lemma wp_pres {A} (m : M A) (I : db → Prop) (Q : result A → world → Prop) w :
  pres I m → I (committed w) → I (working w) →
  (∀ r w', I (committed w') → I (working w') → Q r w') → wp m Q w.
Proof. intros Hm Hc Hw HQ. unfold wp. destruct (Hm w Hc Hw). by apply HQ. Qed.

(** The shape of a successful creation: the events and the commit, or the row
    another session has committed, or an error that leaves the session as it was. *)
Lemma wp_create_or_existing {A} `{!Env} et a ac rt rid st p (res : A) existing detail
    (Q : result A → world → Prop) w :
  (∀ w', violated w = false → committed w' = working w' →
         events_only (working w) (working w') → Q (Ok res) w') →
  (∀ w' : world, committed w' = committed w → working w' = committed w →
     wp existing (λ r w', match r with
                          | Ok (Some a) => Q (Ok a) w'
                          | Ok None => Q (Raise (HTTPException 409 detail)) w'
                          | Raise e => Q (Raise e) w'
                          end) w') →
  wp (create_or_existing (emit et a ac rt rid st p) res existing detail) Q w.
Proof.
  intros HOk HEx. unfold create_or_existing. apply wp_try_integrity, wp_bind, wp_emit.
  - intros w' Hc He Hv Hv'. apply wp_bind, wp_commit; [congruence|]. intros _.
    apply wp_ret. by apply HOk.
  - intros w' Hc Hv'. apply wp_bind, wp_rollback, wp_bind.
    eapply wp_mono; [apply HEx; done|].
    intros [[x|]|e] w''; simpl; [intros ?; by apply wp_ret|intros ?; by apply wp_fail|done].
Qed.

(** The end of a handler: the events, the commit and the result, which is only
    returned when no pending row broke a constraint. *)
Lemma wp_settle {A} `{!Env} (P : db → Prop) `{!Stable P AuditEvent, !Stable P OutboxEvent}
    et a ac rt rid st p (res : A) w :
  (violated w = false → P (working w)) →
  wp (emit et a ac rt rid st p;; commit;; mret res)
    (λ r w', ∀ x, r = Ok x → x = res ∧ P (committed w') ∧ committed w' = working w') w.
Proof.
  intros HP. apply wp_bind. unfold emit, emit_event.
  repeat wp_step; simpl in *; try discriminate; intros ? [= <-]; split_and!;
    repeat apply stable; auto.
Qed.

(** ** Handlers that only read *)
Definition stateless {A} (m : M A) : Prop := ∀ w, (m w).2 = w.

Lemma stateless_bind {A B} (m : M A) (f : A → M B) :
  stateless m → (∀ a, stateless (f a)) → stateless (m ≫= f).
Proof.
  intros Hm Hf w. unfold mbind, M_bind. specialize (Hm w).
  destruct (m w) as [[a|e] w']; simpl in *; subst; [apply Hf|done].
Qed.
Lemma stateless_prim {A} (m : M A) : (∀ w, (m w).2 = w) → stateless m.
Proof. done. Qed.
Lemma stateless_query_one {R} `{!Table R} (p : R → bool) : stateless (query_one p).
Proof. apply stateless_bind; [done|]. by intros [|? [|]]. Qed.
Lemma stateless_find_by_key {R} `{!Table R} (owner : R → string) key s k :
  stateless (find_by_key owner key s k).
Proof. destruct k; [apply stateless_query_one|done]. Qed.
Lemma stateless_foreach {A} (f : A → M unit) l :
  (∀ a, stateless (f a)) → stateless (foreach f l).
Proof. intros Hf. induction l; [done|]. by apply stateless_bind. Qed.

Create HintDb stl_db.
Ltac stl_step :=
  cbv beta iota zeta;
  lazymatch goal with
  | |- stateless ?m =>
      lazymatch m with
      | mbind _ _ => apply stateless_bind; [|intros ?]
      | fail_if ?c _ _ => destruct c; intros ?; reflexivity
      | require ?o _ _ => destruct o; intros ?; reflexivity
      | policy_400 ?r => destruct r as [|[]]; intros ?; reflexivity
      | one_or_none ?l => destruct l as [|? [|]]; intros ?; reflexivity
      | mret _ => intros ?; reflexivity
      | throw _ => intros ?; reflexivity
      | fail _ _ => intros ?; reflexivity
      | lift _ => intros ?; reflexivity
      | reads _ => intros ?; reflexivity
      | query _ => intros ?; reflexivity
      | get_row _ => intros ?; reflexivity
      | find_row _ _ => apply stateless_bind; [|intros ?]; intros ?; reflexivity
      | query_one _ => apply stateless_query_one
      | find_by_key _ _ _ _ => apply stateless_find_by_key
      | foreach _ _ => apply stateless_foreach; intros ?
      | if ?c then _ else _ => destruct c
      | match ?x with _ => _ end => destruct x
      | put _ => fail
      | add _ => fail
      | update_row _ _ _ => fail
      | flush => fail
      | commit => fail
      | rollback => fail
      | utcnow => fail
      | uuid4 => fail
      | emit _ _ _ _ _ _ _ => fail
      | emit_for _ _ _ _ _ _ _ _ => fail
      | check_row _ => fail
      | encrypt_text _ => fail
      | try_integrity _ _ => fail
      | create_or_existing _ _ _ _ => fail
      | traverse _ _ => fail
      | _ => first [solve [auto with stl_db] | let h := pres_head m in unfold h]
      end
  end.
Ltac stl_go := repeat stl_step.

Lemma wp_stateless {A} (m : M A) (Q : result A → world → Prop) w :
  stateless m → (∀ a, (m w).1 = Ok a → Q (Ok a) w) → (∀ e, Q (Raise e) w) → wp m Q w.
Proof.
  intros Hm HOk HR. unfold wp. rewrite (Hm w). destruct (m w) as [[a|e] w'] eqn:E; simpl;
    [apply HOk|apply HR]. done.
Qed.

(** What the pending rows keep unless they break a constraint is kept. *)
Lemma wp_create_or_existing_keep {A} `{!Env} (I : db → Prop)
    `{!Stable I AuditEvent, !Stable I OutboxEvent} et a ac rt rid st p (res : A) existing
    detail w :
  stateless existing → I (committed w) → (violated w = false → I (working w)) →
  wp (create_or_existing (emit et a ac rt rid st p) res existing detail)
     (λ _ w', I (committed w') ∧ I (working w')) w.
Proof.
  intros Hex Hc Hw. destruct (violated w) eqn:Hv.
  - apply wp_create_or_existing; [congruence|]. intros w' E1 E2.
    apply wp_stateless; [done| |intros e]; [intros [x|] _|]; by rewrite E1, E2.
  - apply pres_wp; [|done|auto]. apply pres_create_or_existing; [by apply (pres_emit I)|].
    intros w' ??. by rewrite Hex.
Qed.

Lemma foreach_ok {A} (f : A → M unit) l w x :
  (∀ a, stateless (f a)) → (foreach f l w).1 = Ok tt → x ∈ l → (f x w).1 = Ok tt.
Proof.
  intros Hf. induction l as [|y l IH]; [by intros _ ?%not_elem_of_nil|]. simpl.
  unfold mbind, M_bind. specialize (Hf y w). destruct (f y w) as [[[]|e] w'] eqn:E; [|done].
  simpl in Hf; subst. intros H [->|Hx]%elem_of_cons; [by rewrite E|auto].
Qed.

(** ** Sub-handlers that write nothing, but may read the clock *)
Definition readonly {A} (m : M A) : Prop := ∀ w, ∃ t n,
  (m w).2 = mkWorld (committed w) (working w) (violated w) t n.

Lemma readonly_bind {A B} (m : M A) (f : A → M B) :
  readonly m → (∀ a, readonly (f a)) → readonly (m ≫= f).
Proof.
  intros Hm Hf w. unfold mbind, M_bind. specialize (Hm w).
  destruct (m w) as [[a|e] w'], Hm as (t & n & Hw); simpl in Hw; subst; [|by exists t, n].
  apply (Hf a (mkWorld (committed w) (working w) (violated w) t n)).
Qed.
Lemma stateless_readonly {A} (m : M A) : stateless m → readonly m.
Proof. intros Hm w. exists (ticks w), (draws w). rewrite Hm. by destruct w. Qed.
Lemma readonly_utcnow `{!Env} : readonly utcnow.
Proof. intros w. by eexists (S (ticks w)), (draws w). Qed.
Lemma readonly_traverse {A B} (f : A → M B) l :
  (∀ a, readonly (f a)) → readonly (traverse f l).
Proof.
  intros Hf. induction l; [by apply stateless_readonly|].
  apply readonly_bind; [done|]. intros. apply readonly_bind; [done|]. intros.
  by apply stateless_readonly.
Qed.

Lemma wp_readonly {A} (m : M A) (Q : result A → world → Prop) w :
  readonly m →
  (∀ r t n, (m w).1 = r → Q r (mkWorld (committed w) (working w) (violated w) t n)) →
  wp m Q w.
Proof.
  intros Hm HQ. unfold wp. destruct (Hm w) as (t & n & ->). by apply HQ.
Qed.

Lemma wp_traverse_readonly {A B} (f : A → M B) (P : A → B → Prop) l
    (Q : result (list B) → world → Prop) w :
  (∀ a, readonly (f a)) → (∀ a w b, (f a w).1 = Ok b → P a b) →
  (∀ bs t n, Forall2 P l bs →
     Q (Ok bs) (mkWorld (committed w) (working w) (violated w) t n)) →
  (∀ e t n, Q (Raise e) (mkWorld (committed w) (working w) (violated w) t n)) →
  wp (traverse f l) Q w.
Proof.
  intros Hf HP. revert Q w. induction l as [|a l IH]; intros Q w HOk HR; simpl.
  - apply wp_ret. specialize (HOk [] (ticks w) (draws w) ltac:(constructor)). by destruct w.
  - apply wp_bind, wp_readonly; [done|]. intros [b|e] t n Hb; [|apply HR].
    apply wp_bind, IH; simpl; [|apply HR]. intros bs t' n' Hbs. apply wp_ret.
    apply HOk. constructor; [by eapply HP|done].
Qed.

(** A listing that expires the rows it returns: the changed ones are written back. *)
Section expire_page.
Context {R : Type} `{!Table R} `{!TableOk R}.
Context (expire : R → M R) (changes : R * R → bool) (P : R → R → Prop) (I : db → Prop).

Definition expire_page (rs : list R) : M (list R) :=
  updated ← traverse expire rs;
  let changed := filter (λ p, changes p = true) (zip rs updated) in
  foreach (λ p, put p.2) changed;;
  match changed with [] => mret tt | _ => commit end;;
  mret updated.

Lemma wp_expire_page rs w :
  (∀ a, readonly (expire a)) → (∀ a w b, (expire a w).1 = Ok b → P a b) →
  (∀ a b, P a b → row_id b = row_id a) →
  (∀ d a b, P a b → changes (a, b) = true → I d → tbl d !! row_id a = Some a →
            I (put_row b d)) →
  NoDup (row_id <$> rs) → (∀ r, r ∈ rs → tbl (working w) !! row_id r = Some r) →
  I (committed w) → I (working w) →
  wp (expire_page rs) (λ _ w', I (committed w') ∧ I (working w')) w.
Proof.
  intros Hro HP Hid HI HN Hrs Hc Hw. apply wp_bind.
  apply (wp_traverse_readonly _ P); [done|done| |done]. intros ys t n Hys.
  set (changed := filter _ (zip rs ys)).
  assert (∀ p, p ∈ changed → P p.1 p.2 ∧ changes p = true ∧ p.1 ∈ rs) as Hchanged.
  { intros [a b] [Hp Hin]%list_elem_of_filter. split_and!; [|done|].
    - apply elem_of_lookup_zip_with in Hin as (i & x & y & [= <- <-] & Hx & Hy).
      by eapply Forall2_lookup_lr.
    - by eapply elem_of_zip_l. }
  assert (NoDup (row_id <$> (fst <$> changed))) as HNc.
  { eapply sublist_NoDup; [exact HN|]. apply fmap_sublist.
    rewrite <-(fst_zip rs ys); [|by rewrite (Forall2_length _ _ _ Hys)].
    apply fmap_sublist, sublist_filter. }
  apply wp_bind, (wp_bulk_put I fst snd); try done; simpl.
  - intros p Hp. apply Hrs. by apply Hchanged.
  - intros p (? & _ & _)%Hchanged. by apply Hid.
  - intros p d (? & ? & _)%Hchanged ? ?. destruct p. by eapply HI.
  - intros d' Hd'. apply wp_bind. destruct changed; repeat wp_step; by split.
Qed.
End expire_page.

Lemma readonly_map_error {A} f (m : M A) : readonly m → readonly (map_error f m).
Proof.
  intros Hm w. destruct (Hm w) as (t & n & E). exists t, n. unfold map_error.
  destruct (m w) as [[a|e] w']; exact E.
Qed.

Create HintDb ro_db.
Ltac ro_step :=
  cbv beta iota zeta;
  lazymatch goal with
  | |- readonly ?m =>
      first
      [ solve [auto with ro_db]
      | apply stateless_readonly; solve [stl_go]
      | lazymatch m with
        | mbind _ _ => apply readonly_bind; [|intros ?]
        | utcnow => apply readonly_utcnow
        | map_error _ _ => apply readonly_map_error
        | traverse _ _ => apply readonly_traverse; intros ?
        | if ?c then _ else _ => destruct c
        | match ?x with _ => _ end => destruct x
        | put _ => fail
        | add _ => fail
        | update_row _ _ _ => fail
        | flush => fail
        | commit => fail
        | rollback => fail
        | uuid4 => fail
        | emit _ _ _ _ _ _ _ => fail
        | try_integrity _ _ => fail
        | create_or_existing _ _ _ _ => fail
        | foreach _ _ => fail
        | _ => let h := pres_head m in unfold h
        end ]
  end.
Ltac ro_go := repeat ro_step.

(** Steps of a session, with the goals that only repeat the hypotheses closed. *)
Ltac on_result :=
  lazymatch goal with
  | |- match ?r with _ => _ end => destruct r eqn:?
  | |- _ => idtac
  end.
Ltac wp_leaf :=
  cbv beta iota zeta;
  lazymatch goal with
  | |- wp _ _ _ => fail
  | |- _ ∧ _ => solve [split; simpl; assumption]
  | |- _ = _ → _ => fail
  | |- _ => solve [simpl; auto]
  end.
Ltac wp_go := repeat first [wp_leaf | wp_step].

(** A sub-handler that keeps [I], whatever it returns. *)
Ltac wp_keep I :=
  cbv beta iota zeta;
  lazymatch goal with
  | |- wp ?m _ _ =>
      first
      [ apply wp_stateless; [solve [stl_go]|intros ? ?|intros ?]
      | apply wp_readonly; [solve [ro_go]|intros ? ? ? ?; on_result; simplify_eq]
      | apply (wp_pres m I);
      [solve [auto with pres_db | pres_go]|simpl; assumption|simpl; assumption
      |intros ? ? ? ?; on_result] ]
  end.
(** The steps that write no row. *)
Ltac wp_look :=
  cbv beta iota zeta;
  lazymatch goal with
  | |- wp _ _ _ =>
      first
      [ wp_step
      | apply wp_stateless; [solve [stl_go]|intros ? ?|intros ?]
      | apply wp_readonly; [solve [ro_go]|intros ? ? ? ?; on_result; simplify_eq] ]
  end.
Ltac wp_inv I := repeat first [wp_leaf | wp_step | wp_keep I].

(** Reduce the state of the session. *)
Ltac world_simpl :=
  cbn [committed working violated ticks draws on_working violate restore published tick
       draw] in *.

(** At an event: what is left is that the writes before it keep [I]. *)
Ltac wp_event I :=
  eapply (wp_pres _ I);
  [apply pres_emit; typeclasses eauto|simpl; assumption| |intros ? ? ? ?; on_result; wp_inv I];
  world_simpl.

(** At any last step of a handler that keeps [I]. *)
Ltac wp_rest I :=
  eapply (wp_pres _ I);
  [solve [pres_go]|simpl; assumption| |intros ? ? ? ?; on_result; wp_inv I]; world_simpl.

(** ** What a lookup found *)
Section found.
Context {R : Type} `{!Table R} `{!TableOk R}.
Lemma find_row_ok id (p : R → bool) w o :
  (find_row id p w).1 = Ok o →
  o = (r ← tbl (working w) !! id; if p r then Some r else None).
Proof.
  unfold find_row, get_row, reads, lookup_row, mbind, M_bind. simpl.
  destruct (tbl (working w) !! id); simpl; congruence.
Qed.

Lemma find_require_ok id (p : R → bool) n d w r :
  ((find_row id p ≫= λ o, require o n d) w).1 = Ok r →
  tbl (working w) !! id = Some r ∧ p r = true.
Proof.
  unfold find_row, get_row, reads, lookup_row, mbind, M_bind. simpl.
  destruct (tbl (working w) !! id) as [r'|]; simpl; [|done].
  destruct (p r') eqn:E; simpl; [|done]. intros [= ->]. done.
Qed.

Lemma get_require_ok id n d w r :
  ((get_row id ≫= λ o, require o n d) w).1 = Ok r → tbl (working w) !! id = Some r.
Proof.
  unfold get_row, reads, lookup_row, mbind, M_bind. simpl.
  destruct (tbl (working w) !! id) as [r'|]; simpl; [|done]. by intros [= ->].
Qed.

Lemma query_one_ok (p : R → bool) w o :
  (query_one p w).1 = Ok o → o = head (select p (working w))
  ∧ (length (select p (working w)) ≤ 1)%nat.
Proof.
  unfold query_one, query, reads, mbind, M_bind. simpl.
  destruct (select p (working w)) as [|r [|]]; simpl; intros [= <-]; split; done || lia.
Qed.
End found.

(** A row kept up to [E] by the operations. *)
Ltac found H := apply find_require_ok in H as [H ?].
