(* ===== verification/Collaboration.v ===== *)
(** * Agents, rooms, messages, commands and work items
      ([agent_collaboration.py])

    The handlers of [AgentCollaborationService], one definition per method.  The
    rows a handler returns are the ones it leaves in the database. *)

From S2P Require Import Prelude PyStr PyVal Errors CommandPolicy Validate Models.
From S2P Require Import Database Session.

Definition ACTIVE_AGENT_STATUSES : list string := ["active"; "busy"; "idle"].
Definition MESSAGE_KINDS : list string :=
  ["answer"; "artifact_reference"; "barrier"; "blocker"; "conflict_warning"; "handoff";
   "information"; "proposal"; "question"; "review_request"; "review_result";
   "status_update"].
Definition COMMAND_TERMINAL_STATUSES : list string :=
  ["cancelled"; "completed"; "expired"; "failed"; "rejected"].
Definition WORK_ITEM_STATUSES : list string :=
  ["blocked"; "cancelled"; "completed"; "failed"; "in_progress"; "open"; "review"].

Definition int_or_400 (value : pyval) (detail : string) : result Z :=
  match py_int value with Some z => Ok z | None => http 400 detail end.

Definition _bounded_priority (value : pyval) : result Z :=
  parsed ← int_or_400 value "priority must be an integer";
  Ok (Z.max 0 (Z.min parsed 100)).

Definition _bounded_limit (value : pyval) (maximum : Z) : result Z :=
  parsed ← int_or_400 value "limit must be an integer";
  Ok (Z.max 1 (Z.min parsed maximum)).

Definition _bounded_ttl (value : pyval) (default maximum : Z) : result Z :=
  parsed ← int_or_400 (py_or value (PInt default)) "ttl_seconds must be an integer";
  Ok (Z.max 30 (Z.min parsed maximum)).

(** ** Payloads *)
Definition agent_payload (agent : AgentInstance) : pydict := [
  ("id", PStr (ag_id agent));
  ("logical_agent_id", PStr (ag_logical_agent_id agent));
  ("instance_id", PStr (ag_instance_id agent));
  ("display_name", PStr (ag_display_name agent));
  ("status", PStr (ag_status agent));
  ("capabilities", str_list (ag_capabilities agent));
  ("labels", PDict (ag_labels agent));
  ("current_room_id", opt_str (ag_current_room_id agent));
  ("current_work_item_id", opt_str (ag_current_work_item_id agent));
  ("last_heartbeat_at", PStr (isoformat (ag_last_heartbeat_at agent)));
  ("expires_at", opt_time (ag_expires_at agent));
  ("created_at", PStr (isoformat (ag_created_at agent)));
  ("updated_at", PStr (isoformat (ag_updated_at agent)))].

Definition room_payload (room : CollaborationRoom) : pydict := [
  ("id", PStr (room_id room));
  ("title", PStr (room_title room));
  ("project_path", opt_str (room_project_path room));
  ("repository_identity", opt_str (room_repository_identity room));
  ("base_commit", opt_str (room_base_commit room));
  ("status", PStr (room_status room));
  ("policy", PDict (room_policy room));
  ("created_by_agent_id", opt_str (room_created_by_agent_id room));
  ("created_at", PStr (isoformat (room_created_at room)));
  ("updated_at", PStr (isoformat (room_updated_at room)))].

Definition message_payload (message : AgentMessage) (delivery : option AgentMessageDelivery)
    : pydict :=
  let result := [
    ("id", PStr (msg_id message));
    ("room_id", PStr (msg_room_id message));
    ("sender_agent_id", PStr (msg_sender_agent_id message));
    ("recipient_agent_id", opt_str (msg_recipient_agent_id message));
    ("recipient_selector", opt_str (msg_recipient_selector message));
    ("kind", PStr (msg_kind message));
    ("body", PStr (msg_body message));
    ("payload", PDict (msg_payload message));
    ("priority", PInt (msg_priority message));
    ("correlation_id", opt_str (msg_correlation_id message));
    ("causation_id", opt_str (msg_causation_id message));
    ("sequence_number", PInt (msg_sequence_number message));
    ("expires_at", opt_time (msg_expires_at message));
    ("created_at", PStr (isoformat (msg_created_at message)))] in
  match delivery with
  | None => result
  | Some delivery =>
      dict_set "delivery" (PDict [
        ("status", PStr (dlv_status delivery));
        ("attempt_count", PInt (dlv_attempt_count delivery));
        ("delivered_at", opt_time (dlv_delivered_at delivery));
        ("acknowledged_at", opt_time (dlv_acknowledged_at delivery))]) result
  end.

Definition command_payload (command : AgentCommand) : pydict := [
  ("id", PStr (cmd_id command));
  ("room_id", PStr (cmd_room_id command));
  ("issuer_agent_id", PStr (cmd_issuer_agent_id command));
  ("target_agent_id", PStr (cmd_target_agent_id command));
  ("kind", PStr (cmd_kind command));
  ("instruction", PStr (cmd_instruction command));
  ("structured_payload", PDict (cmd_structured_payload command));
  ("constraints", PDict (cmd_constraints command));
  ("priority", PInt (cmd_priority command));
  ("status", PStr (cmd_status command));
  ("requires_approval", PBool (cmd_requires_approval command));
  ("approved_by_subject", opt_str (cmd_approved_by_subject command));
  ("correlation_id", opt_str (cmd_correlation_id command));
  ("causation_id", opt_str (cmd_causation_id command));
  ("delivery_attempts", PInt (cmd_delivery_attempts command));
  ("delivered_at", opt_time (cmd_delivered_at command));
  ("acknowledged_at", opt_time (cmd_acknowledged_at command));
  ("accepted_at", opt_time (cmd_accepted_at command));
  ("completed_at", opt_time (cmd_completed_at command));
  ("expires_at", opt_time (cmd_expires_at command));
  ("result", PDict (cmd_result command));
  ("error", opt_str (cmd_error command));
  ("created_at", PStr (isoformat (cmd_created_at command)));
  ("updated_at", PStr (isoformat (cmd_updated_at command)))].

Definition work_item_payload (item : AgentWorkItem) : pydict := [
  ("id", PStr (wi_id item));
  ("room_id", PStr (wi_room_id item));
  ("parent_id", opt_str (wi_parent_id item));
  ("title", PStr (wi_title item));
  ("description", PStr (wi_description item));
  ("status", PStr (wi_status item));
  ("priority", PInt (wi_priority item));
  ("assigned_agent_id", opt_str (wi_assigned_agent_id item));
  ("version", PInt (wi_version item));
  ("base_commit", opt_str (wi_base_commit item));
  ("dependencies", str_list (wi_dependencies item));
  ("acceptance_criteria", str_list (wi_acceptance_criteria item));
  ("required_capabilities", str_list (wi_required_capabilities item));
  ("assignment_constraints", PDict (wi_assignment_constraints item));
  ("result", PDict (wi_result item));
  ("created_at", PStr (isoformat (wi_created_at item)));
  ("updated_at", PStr (isoformat (wi_updated_at item)))].

(** ** Lookups *)
Definition _agent (owner_subject agent_id : string) : M AgentInstance :=
  agent ← find_row agent_id (λ a, ag_owner_subject a ==? owner_subject);
  require agent 404 "Agent not found".

Definition _room (owner_subject rid : string) : M CollaborationRoom :=
  room ← find_row rid (λ r, room_owner_subject r ==? owner_subject);
  require room 404 "Collaboration room not found".

Definition _require_agent_in_room (agent : AgentInstance) (rid : string) : M unit :=
  fail_if (ag_current_room_id agent =/? Some rid) 409
    "Agent is not joined to the collaboration room".

Definition _work_item (owner_subject work_item_id : string) : M AgentWorkItem :=
  item ← find_row work_item_id (λ i, wi_owner_subject i ==? owner_subject);
  require item 404 "Work item not found".

Section handlers.
Context `{!Env}.

Definition has_expired (now : Z) (expires_at : option Z) : bool :=
  match expires_at with Some t => t <=? now | None => false end.

(** ** Agents *)
Definition _expire_stale_agents (owner_subject : string) : M unit :=
  now ← utcnow;
  stale ← query (λ a, (ag_owner_subject a ==? owner_subject)
                      && (ag_status a ∈? ACTIVE_AGENT_STATUSES));
  foreach (λ agent,
    if has_expired now (ag_expires_at agent)
    then put (agent <| ag_status := "offline" |> <| ag_updated_at := now |>)
    else mret tt) stale;;
  if existsb (λ agent, has_expired now (ag_expires_at agent)) stale then commit else mret tt.

(** [sorted({str(v).strip() for v in list(value or []) if str(v).strip()})] *)
Definition capability_set (value : pyval) : result (list string) :=
  l ← stripped_values value;
  Ok (sort_strings (dedup l)).


Definition register_agent (owner_subject : string) (data : pydict) : M AgentInstance :=
  logical_agent_id ← lift (_required_text (dict_get data "logical_agent_id")
                             "logical_agent_id" 160);
  instance_id ← lift (_required_text (dict_get data "instance_id") "instance_id" 160);
  display_name ← lift (_optional_text (dict_get data "display_name") 160);
  let display_name := default logical_agent_id display_name in
  ttl_seconds ← lift (_bounded_ttl (dict_get data "ttl_seconds") 120 3600);
  current_room_id ← lift (_optional_text (dict_get data "room_id") 36);
  match current_room_id with
  | Some rid => _room owner_subject rid;; mret tt
  | None => mret tt
  end;;
  agent ← query_one (λ a, (ag_owner_subject a ==? owner_subject)
                          && (ag_instance_id a ==? instance_id));
  new_id ← match agent with None => uuid4 | Some a => mret (ag_id a) end;
  capabilities ← lift (capability_set (dict_get data "capabilities"));
  labels ← lift (safe_dict (dict_get data "labels") "agent labels");
  now ← utcnow;
  created_at ← match agent with None => utcnow | Some a => mret (ag_created_at a) end;
  let row := {|
    ag_id := new_id;
    ag_owner_subject := owner_subject;
    ag_logical_agent_id := logical_agent_id;
    ag_instance_id := instance_id;
    ag_display_name := display_name;
    ag_status := "active";
    ag_capabilities := capabilities;
    ag_labels := labels;
    ag_current_room_id := current_room_id;
    ag_current_work_item_id := agent ≫= ag_current_work_item_id;
    ag_last_heartbeat_at := now;
    ag_expires_at := Some (now + seconds ttl_seconds);
    ag_created_at := created_at;
    ag_updated_at := now;
  |} in
  match agent with None => add row | Some _ => put row end;;
  emit "gateway.agent.registered.v1" owner_subject
    (if is_none agent then "registered" else "refreshed") "agent_instance" (ag_id row)
    "success"
    [("agent_id", PStr (ag_id row));
     ("logical_agent_id", PStr (ag_logical_agent_id row));
     ("instance_id", PStr (ag_instance_id row));
     ("status", PStr (ag_status row));
     ("room_id", opt_str (ag_current_room_id row))];;
  commit;;
  mret row.

Definition list_agents (owner_subject : string) (rid : option string)
    : M (list AgentInstance) :=
  _expire_stale_agents owner_subject;;
  if opt_truthy rid then
    let rid := default "" rid in
    _room owner_subject rid;;
    agents ← query (λ a, (ag_owner_subject a ==? owner_subject)
                         && (ag_current_room_id a ==? Some rid));
    mret (sort_by (λ a b, lex_leb
      [String.compare (ag_display_name a) (ag_display_name b);
       String.compare (ag_id a) (ag_id b)]) agents)
  else
    agents ← query (λ a, ag_owner_subject a ==? owner_subject);
    mret (sort_by (λ a b, lex_leb
      [String.compare (ag_display_name a) (ag_display_name b);
       String.compare (ag_id a) (ag_id b)]) agents).

(** The value of a nullable string column. *)
Definition to_column (v : pyval) : option (option string) :=
  match v with PNone => Some None | PStr s => Some (Some s) | _ => None end.

Definition heartbeat_agent (owner_subject agent_id : string) (data : pydict)
    : M AgentInstance :=
  agent ← _agent owner_subject agent_id;
  let raw_room := dict_get_or data "room_id" (opt_str (ag_current_room_id agent)) in
  rid ← (if truthy raw_room then
           _room owner_subject (py_str raw_room);; mret (Some (py_str raw_room))
         else lift (or_type_error (to_column raw_room)));
  ttl_seconds ← lift (_bounded_ttl (dict_get data "ttl_seconds") 120 3600);
  let status := py_str (py_or (dict_get data "status") (PStr "active")) in
  fail_if (negb (status ∈? ACTIVE_AGENT_STATUSES)) 400 "Unsupported active agent status";;
  capabilities ← (if dict_has data "capabilities"
                  then lift (capability_set (dict_get data "capabilities"))
                  else mret (ag_capabilities agent));
  labels ← (if dict_has data "labels"
            then lift (safe_dict (dict_get data "labels") "agent labels")
            else mret (ag_labels agent));
  now ← utcnow;
  let agent := agent
    <| ag_status := status |>
    <| ag_capabilities := capabilities |>
    <| ag_labels := labels |>
    <| ag_current_room_id := rid |>
    <| ag_last_heartbeat_at := now |>
    <| ag_expires_at := Some (now + seconds ttl_seconds) |>
    <| ag_updated_at := now |> in
  put agent;;
  emit "gateway.agent.heartbeat.v1" owner_subject "heartbeat" "agent_instance"
    (ag_id agent) "success"
    [("agent_id", PStr (ag_id agent)); ("status", PStr (ag_status agent));
     ("room_id", opt_str (ag_current_room_id agent))];;
  commit;;
  mret agent.

Definition unregister_agent (owner_subject agent_id : string) : M AgentInstance :=
  agent ← _agent owner_subject agent_id;
  expires_at ← utcnow;
  updated_at ← utcnow;
  let agent := agent <| ag_status := "offline" |> <| ag_expires_at := Some expires_at |>
                     <| ag_updated_at := updated_at |> in
  put agent;;
  emit "gateway.agent.unregistered.v1" owner_subject "unregistered" "agent_instance"
    (ag_id agent) "success" [("agent_id", PStr (ag_id agent))];;
  commit;;
  mret agent.

(** ** Rooms *)
Definition room_by_key (owner_subject : string) (key : option string)
    : M (option CollaborationRoom) :=
  find_by_key room_owner_subject room_idempotency_key owner_subject key.

Definition create_room (owner_subject : string) (data : pydict) : M CollaborationRoom :=
  idempotency_key ← lift (_optional_text (dict_get data "idempotency_key") 160);
  existing ← room_by_key owner_subject idempotency_key;
  match existing with Some room => mret room | None =>
  created_by_agent_id ← lift (_optional_text (dict_get data "created_by_agent_id") 36);
  match created_by_agent_id with
  | Some agent_id => _agent owner_subject agent_id;; mret tt
  | None => mret tt
  end;;
  new_id ← uuid4;
  title ← lift (_required_text (dict_get data "title") "title" 200);
  project_path ← lift (_optional_text (dict_get data "project_path") 4096);
  repository_identity ← lift (_optional_text (dict_get data "repository_identity") 255);
  base_commit ← lift (_optional_text (dict_get data "base_commit") 128);
  policy ← lift (safe_dict (dict_get data "policy") "room policy");
  created_at ← utcnow;
  updated_at ← utcnow;
  let room := {|
    room_id := new_id;
    room_owner_subject := owner_subject;
    room_title := title;
    room_project_path := project_path;
    room_repository_identity := repository_identity;
    room_base_commit := base_commit;
    room_status := "active";
    room_policy := policy;
    room_created_by_agent_id := created_by_agent_id;
    room_idempotency_key := idempotency_key;
    room_created_at := created_at;
    room_updated_at := updated_at;
  |} in
  add room;;
  create_or_existing
    (emit "gateway.collaboration.room.created.v1" owner_subject "created"
       "collaboration_room" (room_id room) "success"
       [("room_id", PStr (room_id room));
        ("repository_identity", opt_str (room_repository_identity room));
        ("base_commit", opt_str (room_base_commit room));
        ("created_by_agent_id", opt_str (room_created_by_agent_id room))])
    room (room_by_key owner_subject idempotency_key)
    "Collaboration room idempotency conflict"
  end.

Definition list_rooms (owner_subject : string) (status : option string)
    : M (list CollaborationRoom) :=
  rooms ← query (λ r, (room_owner_subject r ==? owner_subject)
    && (if opt_truthy status then Some (room_status r) ==? status else true));
  mret (sort_by (λ a b, room_updated_at b <=? room_updated_at a) rooms).

Definition join_room (owner_subject rid agent_id : string) : M AgentInstance :=
  room ← _room owner_subject rid;
  fail_if (room_status room =/? "active") 409 "Collaboration room is not active";;
  agent ← _agent owner_subject agent_id;
  now ← utcnow;
  let agent := agent <| ag_current_room_id := Some (room_id room) |>
                     <| ag_status := "active" |> <| ag_updated_at := now |> in
  put agent;;
  emit "gateway.agent.room_joined.v1" owner_subject "joined" "collaboration_room"
    (room_id room) "success"
    [("room_id", PStr (room_id room)); ("agent_id", PStr (ag_id agent))];;
  commit;;
  mret agent.

(** ** Messages *)
Definition _message_recipients (owner_subject rid sender_agent_id : string)
    (recipient_agent_id recipient_selector : option string) : M (list AgentInstance) :=
  _expire_stale_agents owner_subject;;
  match recipient_agent_id with
  | Some recipient_agent_id =>
      recipient ← _agent owner_subject recipient_agent_id;
      _require_agent_in_room recipient rid;;
      mret [recipient]
  | None =>
      fail_if (negb (recipient_selector ∈? [Some "all"; Some "room"])) 400
        "recipient_agent_id or recipient_selector=room is required";;
      recipients ← query (λ a, (ag_owner_subject a ==? owner_subject)
        && (ag_current_room_id a ==? Some rid)
        && (ag_id a =/? sender_agent_id)
        && (ag_status a ∈? ACTIVE_AGENT_STATUSES));
      fail_if (recipients ==? []) 409 "No active message recipients in the room";;
      mret (sort_by (λ a b, str_leb (ag_id a) (ag_id b)) recipients)
  end.

Definition message_by_key (owner_subject : string) (key : option string)
    : M (option AgentMessage) :=
  find_by_key msg_owner_subject msg_idempotency_key owner_subject key.

(** The last sequence number of a room, 0 when it has no message. *)
Definition last_sequence (owner_subject rid : string) (d : db) : Z :=
  max_Z (map msg_sequence_number
    (select (λ m, (msg_owner_subject m ==? owner_subject) && (msg_room_id m ==? rid)) d)).

Definition new_delivery (owner_subject : string) (message : AgentMessage)
    (recipient : AgentInstance) : M unit :=
  new_id ← uuid4;
  created_at ← utcnow;
  updated_at ← utcnow;
  add {|
    dlv_id := new_id;
    dlv_owner_subject := owner_subject;
    dlv_message_id := msg_id message;
    dlv_recipient_agent_id := ag_id recipient;
    dlv_status := "pending";
    dlv_attempt_count := 0;
    dlv_delivered_at := None;
    dlv_acknowledged_at := None;
    dlv_visibility_deadline := None;
    dlv_created_at := created_at;
    dlv_updated_at := updated_at;
  |}.

Definition send_message (owner_subject : string) (data : pydict) : M (AgentMessage * Z) :=
  rid ← lift (_required_text (dict_get data "room_id") "room_id" 36);
  sender_agent_id ← lift (_required_text (dict_get data "sender_agent_id")
                            "sender_agent_id" 36);
  room ← find_row rid (λ r, room_owner_subject r ==? owner_subject);
  room ← require room 404 "Collaboration room not found";
  fail_if (room_status room =/? "active") 409 "Collaboration room is not active";;
  sender ← _agent owner_subject sender_agent_id;
  _require_agent_in_room sender rid;;
  idempotency_key ← lift (_optional_text (dict_get data "idempotency_key") 160);
  existing ← message_by_key owner_subject idempotency_key;
  match existing with
  | Some existing =>
      deliveries ← query (λ d, (dlv_owner_subject d ==? owner_subject)
                               && (dlv_message_id d ==? msg_id existing));
      mret (existing, Z.of_nat (length deliveries))
  | None =>
  let kind := py_str (py_or (dict_get data "kind") (PStr "information")) in
  fail_if (negb (kind ∈? MESSAGE_KINDS)) 400 "Unsupported message kind";;
  recipient_agent_id ← lift (_optional_text (dict_get data "recipient_agent_id") 36);
  recipient_selector ← lift (_optional_text (dict_get data "recipient_selector") 80);
  recipients ← _message_recipients owner_subject rid sender_agent_id
                 recipient_agent_id recipient_selector;
  last ← reads (last_sequence owner_subject rid);
  new_id ← uuid4;
  body ← lift (_required_text (dict_get data "body") "body" 100000);
  payload ← lift (safe_dict (dict_get data "payload") "message payload");
  priority ← lift (_bounded_priority (dict_get_or data "priority" (PInt 50)));
  correlation_id ← lift (_optional_text (dict_get data "correlation_id") 160);
  causation_id ← lift (_optional_text (dict_get data "causation_id") 160);
  created_at ← utcnow;
  let message := {|
    msg_id := new_id;
    msg_owner_subject := owner_subject;
    msg_room_id := rid;
    msg_sender_agent_id := sender_agent_id;
    msg_recipient_agent_id := recipient_agent_id;
    msg_recipient_selector := recipient_selector;
    msg_kind := kind;
    msg_body := body;
    msg_payload := payload;
    msg_priority := priority;
    msg_correlation_id := correlation_id;
    msg_causation_id := causation_id;
    msg_sequence_number := last + 1;
    msg_idempotency_key := idempotency_key;
    msg_expires_at := None;
    msg_created_at := created_at;
  |} in
  add message;;
  foreach (new_delivery owner_subject message) recipients;;
  create_or_existing
    (emit "gateway.agent.message.sent.v1" owner_subject "sent" "agent_message"
       (msg_id message) "success"
       [("message_id", PStr (msg_id message));
        ("room_id", PStr (msg_room_id message));
        ("sender_agent_id", PStr (msg_sender_agent_id message));
        ("recipient_agent_ids", str_list (map ag_id recipients));
        ("kind", PStr (msg_kind message));
        ("priority", PInt (msg_priority message));
        ("sequence_number", PInt (msg_sequence_number message));
        ("correlation_id", opt_str (msg_correlation_id message));
        ("causation_id", opt_str (msg_causation_id message))])
    (message, Z.of_nat (length recipients))
    (existing ← message_by_key owner_subject idempotency_key;
     match existing with
     | Some existing =>
         deliveries ← query (λ d, dlv_message_id d ==? msg_id existing);
         mret (Some (existing, Z.of_nat (length deliveries)))
     | None => mret None
     end)
    "Message sequence or idempotency conflict"
  end.

(** [row1 JOIN row2 ON ...] of the messages and their deliveries. *)
Definition deliveries_of (p : AgentMessage → AgentMessageDelivery → bool) (d : db)
    : list (AgentMessage * AgentMessageDelivery) :=
  m ← rows d; dl ← rows d;
  if (dlv_message_id dl ==? msg_id m) && p m dl then [(m, dl)] else [].

Definition read_inbox (owner_subject agent_id : string) (limit : Z)
    (after_message_id : option string) : M (list (AgentMessage * AgentMessageDelivery)) :=
  _agent owner_subject agent_id;;
  read_at ← utcnow;
  after ← (if opt_truthy after_message_id then
             after ← find_row (default "" after_message_id)
                       (λ m, msg_owner_subject m ==? owner_subject);
             after ← require after 404 "Inbox cursor message not found";
             mret (Some after)
           else mret None);
  pairs ← reads (deliveries_of (λ m dl,
    (msg_owner_subject m ==? owner_subject)
    && (dlv_owner_subject dl ==? owner_subject)
    && (dlv_recipient_agent_id dl ==? agent_id)
    && (dlv_status dl =/? "acknowledged")
    && match msg_expires_at m with None => true | Some t => read_at <? t end
    && match after with
       | None => true
       | Some after =>
           (msg_created_at after <? msg_created_at m)
           || ((msg_created_at m =? msg_created_at after)
               && str_ltb (msg_id after) (msg_id m))
       end));
  limit ← lift (_bounded_limit (PInt limit) 200);
  let page := take (Z.to_nat limit) (sort_by (λ x y, lex_leb
    [Z.compare (msg_priority y.1) (msg_priority x.1);
     Z.compare (msg_created_at x.1) (msg_created_at y.1);
     String.compare (msg_id x.1) (msg_id y.1)]) pairs) in
  now ← utcnow;
  let page := map (λ x, (x.1, x.2
    <| dlv_status := "delivered" |>
    <| dlv_attempt_count ::= Z.add 1 |>
    <| dlv_delivered_at := Some now |>
    <| dlv_visibility_deadline := Some (now + seconds 300) |>
    <| dlv_updated_at := now |>)) page in
  foreach (λ x, put x.2) page;;
  match page with [] => mret tt | _ => commit end;;
  mret page.

Definition ack_message (owner_subject agent_id message_id : string)
    : M AgentMessageDelivery :=
  _agent owner_subject agent_id;;
  pairs ← reads (deliveries_of (λ m dl,
    (dlv_owner_subject dl ==? owner_subject)
    && (dlv_message_id dl ==? message_id)
    && (dlv_recipient_agent_id dl ==? agent_id)
    && (msg_owner_subject m ==? owner_subject)));
  row ← one_or_none pairs;
  row ← require row 404 "Message delivery not found";
  let '(message, delivery) := row in
  if dlv_status delivery ==? "acknowledged" then mret delivery else
  now ← utcnow;
  let delivery := delivery <| dlv_status := "acknowledged" |>
    <| dlv_acknowledged_at := Some now |> <| dlv_updated_at := now |> in
  put delivery;;
  emit "gateway.agent.message.acknowledged.v1" owner_subject "acknowledged"
    "agent_message" (msg_id message) "success"
    [("message_id", PStr (msg_id message)); ("room_id", PStr (msg_room_id message));
     ("recipient_agent_id", PStr agent_id)];;
  commit;;
  mret delivery.

(** ** Commands *)
Definition command_by_key (owner_subject : string) (key : option string)
    : M (option AgentCommand) :=
  find_by_key cmd_owner_subject cmd_idempotency_key owner_subject key.

Definition issue_command (owner_subject : string) (data : pydict) : M AgentCommand :=
  rid ← lift (_required_text (dict_get data "room_id") "room_id" 36);
  issuer_agent_id ← lift (_required_text (dict_get data "issuer_agent_id")
                            "issuer_agent_id" 36);
  target_agent_id ← lift (_required_text (dict_get data "target_agent_id")
                            "target_agent_id" 36);
  _room owner_subject rid;;
  issuer ← _agent owner_subject issuer_agent_id;
  target ← _agent owner_subject target_agent_id;
  _require_agent_in_room issuer rid;;
  _require_agent_in_room target rid;;
  idempotency_key ← lift (_optional_text (dict_get data "idempotency_key") 160);
  existing ← command_by_key owner_subject idempotency_key;
  match existing with Some command => mret command | None =>
  let kind := py_str (py_or (dict_get data "kind") (PStr "instruction")) in
  structured_payload ← lift (safe_dict (dict_get data "structured_payload")
                               "command structured_payload");
  let envelope := [("kind", PStr kind); ("instruction", dict_get data "instruction");
                   ("structured_payload", PDict structured_payload)] in
  constraints ← lift (safe_dict (dict_get data "constraints") "command constraints");
  policy_400 (validate_agent_command_for_delivery envelope);;
  new_id ← uuid4;
  instruction ← lift (_required_text (dict_get envelope "instruction")
                        "instruction" 100000);
  priority ← lift (_bounded_priority (dict_get_or data "priority" (PInt 50)));
  correlation_id ← lift (_optional_text (dict_get data "correlation_id") 160);
  causation_id ← lift (_optional_text (dict_get data "causation_id") 160);
  created_at ← utcnow;
  updated_at ← utcnow;
  let command := {|
    cmd_id := new_id;
    cmd_owner_subject := owner_subject;
    cmd_room_id := rid;
    cmd_issuer_agent_id := issuer_agent_id;
    cmd_target_agent_id := target_agent_id;
    cmd_kind := kind;
    cmd_instruction := instruction;
    cmd_structured_payload := structured_payload;
    cmd_constraints := constraints;
    cmd_priority := priority;
    cmd_status := "pending";
    cmd_requires_approval := truthy (dict_get_or data "requires_approval" (PBool false));
    cmd_approved_by_subject := None;
    cmd_correlation_id := correlation_id;
    cmd_causation_id := causation_id;
    cmd_idempotency_key := idempotency_key;
    cmd_delivery_attempts := 0;
    cmd_delivered_at := None;
    cmd_acknowledged_at := None;
    cmd_accepted_at := None;
    cmd_completed_at := None;
    cmd_expires_at := None;
    cmd_result := [];
    cmd_error := None;
    cmd_created_at := created_at;
    cmd_updated_at := updated_at;
  |} in
  add command;;
  create_or_existing
    (emit "gateway.agent.command.issued.v1" owner_subject "issued" "agent_command"
       (cmd_id command) "success"
       [("command_id", PStr (cmd_id command));
        ("room_id", PStr (cmd_room_id command));
        ("issuer_agent_id", PStr (cmd_issuer_agent_id command));
        ("target_agent_id", PStr (cmd_target_agent_id command));
        ("kind", PStr (cmd_kind command));
        ("priority", PInt (cmd_priority command));
        ("requires_approval", PBool (cmd_requires_approval command));
        ("correlation_id", opt_str (cmd_correlation_id command));
        ("causation_id", opt_str (cmd_causation_id command))])
    command (command_by_key owner_subject idempotency_key)
    "Agent command idempotency conflict"
  end.

(** One command of the page that [list_commands] delivers. *)
Definition deliver_command (now : Z) (command : AgentCommand) : AgentCommand :=
  if has_expired now (cmd_expires_at command)
     && negb (cmd_status command ∈? COMMAND_TERMINAL_STATUSES)
  then command <| cmd_status := "expired" |> <| cmd_completed_at := Some now |>
               <| cmd_updated_at := now |>
  else if cmd_status command ==? "pending" then
    command <| cmd_status := "delivered" |> <| cmd_delivery_attempts ::= Z.add 1 |>
            <| cmd_delivered_at := Some now |> <| cmd_updated_at := now |>
  else if cmd_status command ==? "delivered" then
    command <| cmd_delivery_attempts ::= Z.add 1 |>
            <| cmd_delivered_at := Some now |> <| cmd_updated_at := now |>
  else command.

Definition delivery_changes (now : Z) (command : AgentCommand) : bool :=
  has_expired now (cmd_expires_at command)
    && negb (cmd_status command ∈? COMMAND_TERMINAL_STATUSES)
  || (cmd_status command ∈? ["pending"; "delivered"]).

Definition list_commands (owner_subject agent_id : string) (status : option string)
    (limit : Z) : M (list AgentCommand) :=
  _agent owner_subject agent_id;;
  commands ← query (λ c,
    (cmd_owner_subject c ==? owner_subject) && (cmd_target_agent_id c ==? agent_id)
    && (if opt_truthy status then Some (cmd_status c) ==? status
        else negb (cmd_status c ∈? COMMAND_TERMINAL_STATUSES)));
  limit ← lift (_bounded_limit (PInt limit) 200);
  let commands := take (Z.to_nat limit) (sort_by (λ x y, lex_leb
    [Z.compare (cmd_priority y) (cmd_priority x);
     Z.compare (cmd_created_at x) (cmd_created_at y);
     String.compare (cmd_id x) (cmd_id y)]) commands) in
  now ← utcnow;
  foreach (λ c, if delivery_changes now c then put (deliver_command now c) else mret tt)
    commands;;
  (if existsb (delivery_changes now) commands then commit else mret tt);;
  mret (map (deliver_command now) commands).

Definition _target_command (owner_subject agent_id command_id : string) : M AgentCommand :=
  command ← find_row command_id (λ c,
    (cmd_owner_subject c ==? owner_subject) && (cmd_target_agent_id c ==? agent_id));
  require command 404 "Agent command not found".

Definition ack_command (owner_subject agent_id command_id : string) : M AgentCommand :=
  command ← _target_command owner_subject agent_id command_id;
  fail_if (cmd_status command ∈? COMMAND_TERMINAL_STATUSES) 409
    "Terminal command cannot be acknowledged";;
  if cmd_status command ∈? ["pending"; "delivered"] then
    now ← utcnow;
    let command := command <| cmd_status := "acknowledged" |>
      <| cmd_acknowledged_at := Some now |> <| cmd_updated_at := now |> in
    put command;;
    emit "gateway.agent.command.acknowledged.v1" owner_subject "acknowledged"
      "agent_command" (cmd_id command) "success"
      [("command_id", PStr (cmd_id command)); ("room_id", PStr (cmd_room_id command));
       ("target_agent_id", PStr agent_id)];;
    commit;;
    mret command
  else mret command.

Definition accept_command (owner_subject agent_id command_id : string) : M AgentCommand :=
  command ← _target_command owner_subject agent_id command_id;
  fail_if (negb (cmd_status command ∈? ["pending"; "delivered"; "acknowledged"])) 409
    "Command cannot be accepted from its current status";;
  fail_if (cmd_requires_approval command
           && negb (opt_truthy (cmd_approved_by_subject command))) 409
    "Command requires approval before acceptance";;
  now ← utcnow;
  let command := command <| cmd_status := "accepted" |>
    <| cmd_accepted_at := Some now |> <| cmd_updated_at := now |> in
  put command;;
  emit "gateway.agent.command.accepted.v1" owner_subject "accepted" "agent_command"
    (cmd_id command) "success"
    [("command_id", PStr (cmd_id command)); ("room_id", PStr (cmd_room_id command));
     ("target_agent_id", PStr agent_id)];;
  commit;;
  mret command.

Definition reject_command (owner_subject agent_id command_id : string)
    (error : option string) : M AgentCommand :=
  command ← _target_command owner_subject agent_id command_id;
  if cmd_status command ∈? COMMAND_TERMINAL_STATUSES then mret command else
  error ← lift (_optional_text (opt_str error) 10000);
  now ← utcnow;
  let command := command <| cmd_status := "rejected" |> <| cmd_error := error |>
    <| cmd_completed_at := Some now |> <| cmd_updated_at := now |> in
  put command;;
  emit "gateway.agent.command.completed.v1" owner_subject "rejected" "agent_command"
    (cmd_id command) "warning"
    [("command_id", PStr (cmd_id command)); ("room_id", PStr (cmd_room_id command));
     ("status", PStr (cmd_status command))];;
  commit;;
  mret command.

(** The check on a privileged command that an agent wants to close. *)
Definition check_action_receipt (owner_subject agent_id status : string)
    (command : AgentCommand) : M unit :=
  if (cmd_kind command ==? "run_tool") && cmd_requires_approval command then
    receipt ← query_one (λ r, (rcpt_owner_subject r ==? owner_subject)
      && (rcpt_command_id r ==? Some (cmd_id command))
      && (rcpt_executor_agent_id r ==? agent_id));
    receipt ← require receipt 409
      "Privileged command requires an action receipt before completion";
    let expected_status :=
      if rcpt_status receipt ==? "succeeded" then "completed" else "failed" in
    fail_if (status =/? expected_status) 409
      "Command completion status does not match action receipt"
  else mret tt.

Definition complete_command (owner_subject agent_id command_id status : string)
    (result : option pydict) (error : option string) : M AgentCommand :=
  command ← _target_command owner_subject agent_id command_id;
  fail_if (negb (cmd_status command ∈? ["accepted"; "running"])) 409
    "Command must be accepted before completion";;
  fail_if (negb (status ∈? ["completed"; "failed"])) 400
    "Command completion status must be completed or failed";;
  check_action_receipt owner_subject agent_id status command;;
  result ← lift (safe_dict (from_option PDict PNone result) "command result");
  error ← lift (_optional_text (opt_str error) 10000);
  now ← utcnow;
  let command := command <| cmd_status := status |> <| cmd_result := result |>
    <| cmd_error := error |> <| cmd_completed_at := Some now |>
    <| cmd_updated_at := now |> in
  put command;;
  emit "gateway.agent.command.completed.v1" owner_subject status "agent_command"
    (cmd_id command) (if status ==? "completed" then "success" else "warning")
    [("command_id", PStr (cmd_id command)); ("room_id", PStr (cmd_room_id command));
     ("status", PStr (cmd_status command))];;
  commit;;
  mret command.

Definition cancel_command (owner_subject issuer_agent_id command_id : string)
    : M AgentCommand :=
  issuer ← _agent owner_subject issuer_agent_id;
  command ← find_row command_id (λ c, (cmd_owner_subject c ==? owner_subject)
                                      && (cmd_issuer_agent_id c ==? ag_id issuer));
  command ← require command 404 "Agent command not found";
  if cmd_status command ∈? COMMAND_TERMINAL_STATUSES then mret command else
  now ← utcnow;
  let command := command <| cmd_status := "cancelled" |>
    <| cmd_completed_at := Some now |> <| cmd_updated_at := now |> in
  put command;;
  emit "gateway.agent.command.cancelled.v1" owner_subject "cancelled" "agent_command"
    (cmd_id command) "success"
    [("command_id", PStr (cmd_id command)); ("room_id", PStr (cmd_room_id command));
     ("issuer_agent_id", PStr (ag_id issuer))];;
  commit;;
  mret command.

(** ** Work items *)
Definition work_item_by_key (owner_subject : string) (key : option string)
    : M (option AgentWorkItem) :=
  find_by_key wi_owner_subject wi_idempotency_key owner_subject key.

Definition work_item_in_room (owner_subject rid work_item_id detail : string) : M unit :=
  item ← find_row work_item_id (λ i,
    (wi_owner_subject i ==? owner_subject) && (wi_room_id i ==? rid));
  require item 404 detail;;
  mret tt.

Definition create_work_item (owner_subject : string) (data : pydict) : M AgentWorkItem :=
  rid ← lift (_required_text (dict_get data "room_id") "room_id" 36);
  _room owner_subject rid;;
  idempotency_key ← lift (_optional_text (dict_get data "idempotency_key") 160);
  existing ← work_item_by_key owner_subject idempotency_key;
  match existing with Some item => mret item | None =>
  parent_id ← lift (_optional_text (dict_get data "parent_id") 36);
  match parent_id with
  | Some parent_id =>
      work_item_in_room owner_subject rid parent_id "Parent work item not found"
  | None => mret tt
  end;;
  dependencies ← lift (str_values (dict_get data "dependencies"));
  foreach (λ dependency_id,
    work_item_in_room owner_subject rid dependency_id "Work item dependency not found")
    dependencies;;
  new_id ← uuid4;
  title ← lift (_required_text (dict_get data "title") "title" 240);
  priority ← lift (_bounded_priority (dict_get_or data "priority" (PInt 50)));
  base_commit ← lift (_optional_text (dict_get data "base_commit") 128);
  acceptance_criteria ← lift (str_values (dict_get data "acceptance_criteria"));
  required_capabilities ← lift (stripped_values (dict_get data "required_capabilities"));
  assignment_constraints ← lift (safe_dict (dict_get data "assignment_constraints")
                                   "work item assignment constraints");
  created_at ← utcnow;
  updated_at ← utcnow;
  let item := {|
    wi_id := new_id;
    wi_owner_subject := owner_subject;
    wi_room_id := rid;
    wi_parent_id := parent_id;
    wi_title := title;
    wi_description := str_or_empty (dict_get data "description");
    wi_status := "open";
    wi_priority := priority;
    wi_assigned_agent_id := None;
    wi_version := 1;
    wi_base_commit := base_commit;
    wi_dependencies := dependencies;
    wi_acceptance_criteria := acceptance_criteria;
    wi_required_capabilities := required_capabilities;
    wi_assignment_constraints := assignment_constraints;
    wi_result := [];
    wi_idempotency_key := idempotency_key;
    wi_created_at := created_at;
    wi_updated_at := updated_at;
  |} in
  add item;;
  create_or_existing
    (emit "gateway.work_item.created.v1" owner_subject "created" "agent_work_item"
       (wi_id item) "success"
       [("work_item_id", PStr (wi_id item)); ("room_id", PStr (wi_room_id item));
        ("priority", PInt (wi_priority item)); ("version", PInt (wi_version item))])
    item (work_item_by_key owner_subject idempotency_key)
    "Work item idempotency conflict"
  end.

Definition list_work_items (owner_subject rid : string) (status : option string)
    (limit : Z) : M (list AgentWorkItem) :=
  _room owner_subject rid;;
  items ← query (λ i, (wi_owner_subject i ==? owner_subject) && (wi_room_id i ==? rid)
    && (if opt_truthy status then Some (wi_status i) ==? status else true));
  limit ← lift (_bounded_limit (PInt limit) 200);
  mret (take (Z.to_nat limit) (sort_by (λ x y, lex_leb
    [Z.compare (wi_priority y) (wi_priority x);
     Z.compare (wi_created_at x) (wi_created_at y)]) items)).

(** The dependencies of [item] that are completed, in its room. *)
Definition completed_dependencies (owner_subject : string) (item : AgentWorkItem) (d : db)
    : list AgentWorkItem :=
  select (λ i, (wi_owner_subject i ==? owner_subject) && (wi_room_id i ==? wi_room_id item)
    && (wi_id i ∈? wi_dependencies item) && (wi_status i ==? "completed")) d.

Definition check_dependencies (owner_subject : string) (item : AgentWorkItem) : M unit :=
  match wi_dependencies item with
  | [] => mret tt
  | dependencies =>
      completed ← reads (completed_dependencies owner_subject item);
      fail_if (length completed =/? length (dedup dependencies)) 409
        "Work item dependencies are not completed"
  end.

(** The values of the conditional update of a claim. *)
Definition claimed_item (agent_id : string) (now : Z) (item : AgentWorkItem)
    : AgentWorkItem :=
  item <| wi_status := "in_progress" |> <| wi_assigned_agent_id := Some agent_id |>
       <| wi_version ::= λ v, v + 1 |> <| wi_updated_at := now |>.

Definition claim_guard (owner_subject : string) (expected_version : Z)
    (item : AgentWorkItem) : bool :=
  (wi_owner_subject item ==? owner_subject) && (wi_status item ==? "open")
  && is_none (wi_assigned_agent_id item) && (wi_version item =? expected_version).

Definition claim_work_item (owner_subject agent_id work_item_id : string)
    (expected_version : Z) : M AgentWorkItem :=
  agent ← _agent owner_subject agent_id;
  item ← _work_item owner_subject work_item_id;
  _require_agent_in_room agent (wi_room_id item);;
  check_dependencies owner_subject item;;
  now ← utcnow;
  changed ← update_row work_item_id (claim_guard owner_subject expected_version)
              (claimed_item (ag_id agent) now);
  (if changed =/? 1 then rollback;; fail 409 "Work item claim conflict" else mret tt);;
  now ← utcnow;
  put (agent <| ag_current_work_item_id := Some work_item_id |>
             <| ag_status := "busy" |> <| ag_updated_at := now |>);;
  flush;;
  claimed ← _work_item owner_subject work_item_id;
  emit "gateway.work_item.claimed.v1" owner_subject "claimed" "agent_work_item"
    (wi_id claimed) "success"
    [("work_item_id", PStr (wi_id claimed)); ("room_id", PStr (wi_room_id claimed));
     ("agent_id", PStr (ag_id agent)); ("version", PInt (wi_version claimed))];;
  commit;;
  mret claimed.

Definition update_work_item (owner_subject agent_id work_item_id : string)
    (expected_version : Z) (data : pydict) : M AgentWorkItem :=
  agent ← _agent owner_subject agent_id;
  item ← _work_item owner_subject work_item_id;
  _require_agent_in_room agent (wi_room_id item);;
  fail_if (wi_assigned_agent_id item =/? Some (ag_id agent)) 403
    "Only the assigned agent can update the work item";;
  let status := py_str (py_or (dict_get data "status") (PStr (wi_status item))) in
  fail_if (negb (status ∈? WORK_ITEM_STATUSES) || (status ==? "open")) 400
    "Unsupported work item update status";;
  now ← utcnow;
  result ← (if dict_has data "result"
            then d ← lift (safe_dict (dict_get data "result") "work item result"); mret (Some d)
            else mret None);
  let description := if dict_has data "description"
                     then Some (str_or_empty (dict_get data "description")) else None in
  changed ← update_row work_item_id
    (λ i, (wi_owner_subject i ==? owner_subject)
          && (wi_assigned_agent_id i ==? Some (ag_id agent))
          && (wi_version i =? expected_version))
    (λ i, i <| wi_status := status |> <| wi_version ::= λ v, v + 1 |>
            <| wi_updated_at := now |>
            <| wi_result ::= λ old, default old result |>
            <| wi_description ::= λ old, default old description |>);
  (if changed =/? 1 then rollback;; fail 409 "Work item version conflict" else mret tt);;
  (if status ∈? ["cancelled"; "completed"; "failed"] then
     now ← utcnow;
     put (agent <| ag_current_work_item_id := None |> <| ag_status := "active" |>
                <| ag_updated_at := now |>)
   else mret tt);;
  flush;;
  updated ← _work_item owner_subject work_item_id;
  emit "gateway.work_item.updated.v1" owner_subject status "agent_work_item"
    (wi_id updated) "success"
    [("work_item_id", PStr (wi_id updated)); ("room_id", PStr (wi_room_id updated));
     ("agent_id", PStr (ag_id agent)); ("status", PStr (wi_status updated));
     ("version", PInt (wi_version updated))];;
  commit;;
  mret updated.

(** ** Snapshot of a room *)
Definition room_snapshot (owner_subject rid : string) : M pydict :=
  room ← _room owner_subject rid;
  agents ← list_agents owner_subject (Some rid);
  work_items ← list_work_items owner_subject rid None 100;
  messages ← query (λ m, (msg_owner_subject m ==? owner_subject) && (msg_room_id m ==? rid));
  let messages := take 20 (sort_by (λ x y, msg_created_at y <=? msg_created_at x) messages) in
  commands ← query (λ c, (cmd_owner_subject c ==? owner_subject) && (cmd_room_id c ==? rid));
  let commands := take 20 (sort_by (λ x y, cmd_created_at y <=? cmd_created_at x) commands) in
  mret [
    ("room", PDict (room_payload room));
    ("agents", PList (map (λ a, PDict (agent_payload a)) agents));
    ("work_items", PList (map (λ i, PDict (work_item_payload i)) work_items));
    ("recent_messages", PList (map (λ m, PDict (message_payload m None)) (rev messages)));
    ("recent_commands", PList (map (λ c, PDict (command_payload c)) (rev commands)))].
End handlers.
