(* ===== verification/Coordination.v ===== *)
(** * Leases, conflicts, handoffs and integrations ([agent_coordination.py])

    The handlers of [AgentCoordinationService], one definition per method. *)

From S2P Require Import Prelude PyStr PyVal Errors CommandPolicy Validate Paths.
From S2P Require Import Models Database Session.

Definition LEASE_MODES : list string := ["exclusive_write"; "shared_read"].
Definition HANDOFF_TERMINAL_STATUSES : list string := ["accepted"; "cancelled"; "rejected"].
Definition INTEGRATION_TERMINAL_STATUSES : list string := ["integrated"; "rejected"].

Record WriteLeaseContext := mkWriteLeaseContext {
  wlc_room_id : string;
  wlc_agent_id : string;
  wlc_lease_id : string;
  wlc_fencing_token : Z;
  wlc_base_commit : string;
  wlc_branch_name : string;
  wlc_worktree_path : string;
  wlc_expected_head : option string;
  wlc_expected_sha256 : option string;
  wlc_expected_absent : bool;
}.

Definition _bounded_int (value : pyval) (field : string) (minimum maximum : Z) : result Z :=
  match py_int value with
  | Some parsed => Ok (Z.max minimum (Z.min parsed maximum))
  | None => http 400 (field +:+ " must be an integer")
  end.

(** ** Payloads *)
Definition lease_payload (lease : ResourceLease) : pydict := [
  ("id", PStr (ls_id lease));
  ("room_id", PStr (ls_room_id lease));
  ("holder_agent_id", PStr (ls_holder_agent_id lease));
  ("work_item_id", opt_str (ls_work_item_id lease));
  ("origin", PStr (ls_origin lease));
  ("resource_id", opt_str (ls_resource_id lease));
  ("mode", PStr (ls_mode lease));
  ("reservations", PList (map PDict (ls_reservations lease)));
  ("fencing_token", PInt (ls_fencing_token lease));
  ("status", PStr (ls_status lease));
  ("branch_name", opt_str (ls_branch_name lease));
  ("worktree_path", opt_str (ls_worktree_path lease));
  ("base_commit", opt_str (ls_base_commit lease));
  ("expected_head", opt_str (ls_expected_head lease));
  ("meta", PDict (ls_meta lease));
  ("acquired_at", PStr (isoformat (ls_acquired_at lease)));
  ("renewed_at", PStr (isoformat (ls_renewed_at lease)));
  ("expires_at", PStr (isoformat (ls_expires_at lease)));
  ("released_at", opt_time (ls_released_at lease));
  ("created_at", PStr (isoformat (ls_created_at lease)));
  ("updated_at", PStr (isoformat (ls_updated_at lease)))].

Definition handoff_payload (barrier : AgentHandoffBarrier) : pydict := [
  ("id", PStr (hb_id barrier));
  ("room_id", PStr (hb_room_id barrier));
  ("source_agent_id", PStr (hb_source_agent_id barrier));
  ("target_agent_id", PStr (hb_target_agent_id barrier));
  ("lease_id", PStr (hb_lease_id barrier));
  ("expected_fencing_token", PInt (hb_expected_fencing_token barrier));
  ("required_change_ids", str_list (hb_required_change_ids barrier));
  ("summary", PStr (hb_summary barrier));
  ("payload", PDict (hb_payload barrier));
  ("status", PStr (hb_status barrier));
  ("conflict_report", PDict (hb_conflict_report barrier));
  ("ready_at", opt_time (hb_ready_at barrier));
  ("accepted_at", opt_time (hb_accepted_at barrier));
  ("cancelled_at", opt_time (hb_cancelled_at barrier));
  ("created_at", PStr (isoformat (hb_created_at barrier)));
  ("updated_at", PStr (isoformat (hb_updated_at barrier)))].

Definition integration_payload (record : AgentIntegrationRecord) : pydict := [
  ("id", PStr (ir_id record));
  ("room_id", PStr (ir_room_id record));
  ("coordinator_agent_id", PStr (ir_coordinator_agent_id record));
  ("target_branch", PStr (ir_target_branch record));
  ("expected_target_head", PStr (ir_expected_target_head record));
  ("candidate_change_ids", str_list (ir_candidate_change_ids record));
  ("comparison_change_ids", str_list (ir_comparison_change_ids record));
  ("source_lease_ids", str_list (ir_source_lease_ids record));
  ("status", PStr (ir_status record));
  ("conflict_report", PDict (ir_conflict_report record));
  ("decision", PDict (ir_decision record));
  ("integrated_commit", opt_str (ir_integrated_commit record));
  ("version", PInt (ir_version record));
  ("created_at", PStr (isoformat (ir_created_at record)));
  ("updated_at", PStr (isoformat (ir_updated_at record)));
  ("completed_at", opt_time (ir_completed_at record))].

Definition opt_int (o : option Z) : pyval := from_option PInt PNone o.

Definition file_change_payload (change : FileChangeSet) : pydict := [
  ("id", PStr (chg_id change));
  ("origin", PStr (chg_origin change));
  ("resource_id", opt_str (chg_resource_id change));
  ("tool_call_id", opt_str (chg_tool_call_id change));
  ("room_id", opt_str (chg_room_id change));
  ("agent_id", opt_str (chg_agent_id change));
  ("lease_id", opt_str (chg_lease_id change));
  ("fencing_token", opt_int (chg_fencing_token change));
  ("path", PStr (chg_path change));
  ("operation", PStr (chg_operation change));
  ("before_sha256", opt_str (chg_before_sha256 change));
  ("after_sha256", opt_str (chg_after_sha256 change));
  ("base_commit", opt_str (chg_base_commit change));
  ("branch_name", opt_str (chg_branch_name change));
  ("worktree_path", opt_str (chg_worktree_path change));
  ("added_lines", PInt (chg_added_lines change));
  ("removed_lines", PInt (chg_removed_lines change));
  ("bytes_before", PInt (chg_bytes_before change));
  ("bytes_after", PInt (chg_bytes_after change));
  ("replacements", PInt (chg_replacements change));
  ("truncated", PBool (chg_truncated change));
  ("suppressed", PBool (chg_suppressed change));
  ("diff", PDict (chg_diff_json change));
  ("created_at", PStr (isoformat (chg_created_at change)))].

(** ** Lookups *)
Definition _room (owner_subject rid : string) : M CollaborationRoom :=
  room ← find_row rid (λ r, room_owner_subject r ==? owner_subject);
  require room 404 "Collaboration room not found".

Definition _agent (owner_subject agent_id : string) : M AgentInstance :=
  agent ← find_row agent_id (λ a, ag_owner_subject a ==? owner_subject);
  require agent 404 "Agent not found".

Definition _lease (owner_subject lease_id : string) : M ResourceLease :=
  lease ← find_row lease_id (λ l, ls_owner_subject l ==? owner_subject);
  require lease 404 "Resource lease not found".

Definition _handoff (owner_subject handoff_id : string) : M AgentHandoffBarrier :=
  barrier ← find_row handoff_id (λ h, hb_owner_subject h ==? owner_subject);
  require barrier 404 "Handoff barrier not found".

Definition _integration (owner_subject integration_id : string) : M AgentIntegrationRecord :=
  record ← find_row integration_id (λ r, ir_owner_subject r ==? owner_subject);
  require record 404 "Integration record not found".

Definition _require_agent_in_room (agent : AgentInstance) (rid : string) : M unit :=
  fail_if (ag_current_room_id agent =/? Some rid) 409
    "Agent is not joined to the collaboration room".

Definition _is_coordinator (room : CollaborationRoom) (agent : AgentInstance) : result bool :=
  configured ← str_values (dict_get (room_policy room) "coordinator_agent_ids");
  Ok ((ag_id agent ∈? configured)
      || ("coordination:integrate" ∈? ag_capabilities agent)
      || ("coordinator" ∈? ag_capabilities agent)).

(** ** Conflicts between recorded file changes *)

(** [hunk.get(new, hunk.get(old, 1)) or 1] as an integer. *)
Definition hunk_int (hunk : pydict) (new_key old_key : string) : result Z :=
  or_type_error (py_int (py_or (dict_get_or hunk new_key (dict_get_or hunk old_key (PInt 1)))
                           (PInt 1))).

Fixpoint hunk_ranges (hunks : list pyval) : result (option (list (Z * Z))) :=
  match hunks with
  | [] => Ok (Some [])
  | PDict hunk :: hunks =>
      start ← hunk_int hunk "new_start" "old_start";
      count ← hunk_int hunk "new_count" "old_count";
      ranges ← hunk_ranges hunks;
      Ok (option_map (cons (start, start + Z.max count 1 - 1)) ranges)
  | _ :: _ => Ok None
  end.

(** The changed line ranges; [None] without complete evidence. *)
Definition _changed_ranges (change : FileChangeSet) : result (option (list (Z * Z))) :=
  let diff := chg_diff_json change in
  if chg_suppressed change || chg_truncated change
     || truthy (dict_get diff "suppressed") || truthy (dict_get diff "truncated")
  then Ok None else
  hunks ← or_type_error (list_or_empty (dict_get diff "hunks"));
  match hunks with [] => Ok None | _ => hunk_ranges hunks end.

Definition _ranges_overlap (left right : list (Z * Z)) : bool :=
  existsb (λ a, existsb (λ b, Z.max a.1 b.1 <=? Z.min a.2 b.2) right) left.

Definition _logical_change_path (change : FileChangeSet) : result string :=
  physical ← normalize_relative_path (PStr (chg_path change)) "path";
  if negb (opt_truthy (chg_worktree_path change)) then Ok physical else
  root ← normalize_relative_path (opt_str (chg_worktree_path change)) "change.worktree_path";
  if physical ==? root then Ok "." else
  let prefix := rstrip_char slash root +:+ "/" in
  Ok (if startswith physical prefix then suffix_from (String.length prefix) physical
      else physical).

Definition _changes_share_namespace (left right : FileChangeSet) : bool :=
  (opt_truthy (chg_room_id left) && (chg_room_id left ==? chg_room_id right))
  || ((chg_origin left ==? chg_origin right)
      && (chg_resource_id left ==? chg_resource_id right)).

(** Severity and reason for two changes of the same path. *)
Definition same_path_conflict (candidate other : FileChangeSet) : result (string * string) :=
  left_ranges ← _changed_ranges candidate;
  right_ranges ← _changed_ranges other;
  let verdict := match left_ranges, right_ranges with
    | Some l, Some r =>
        if _ranges_overlap l r then ("hard", "overlapping_diff_hunks")
        else ("potential", "same_path_non_overlapping_hunks")
    | _, _ => ("hard", "same_path_with_incomplete_diff_evidence")
    end in
  Ok (if opt_truthy (chg_before_sha256 candidate) && opt_truthy (chg_after_sha256 other)
         && (chg_before_sha256 candidate =/? chg_after_sha256 other)
      then ("hard", "stale_file_precondition") else verdict).

Definition conflict_entry (candidate other : FileChangeSet) (candidate_path other_path : string)
    (verdict : string * string) : pydict := [
  ("severity", PStr verdict.1);
  ("reason", PStr verdict.2);
  ("candidate_change_id", PStr (chg_id candidate));
  ("comparison_change_id", PStr (chg_id other));
  ("path", PStr candidate_path);
  ("comparison_path", PStr other_path);
  ("candidate_agent_id", opt_str (chg_agent_id candidate));
  ("comparison_agent_id", opt_str (chg_agent_id other));
  ("candidate_lease_id", opt_str (chg_lease_id candidate));
  ("comparison_lease_id", opt_str (chg_lease_id other))].

(** The body of the nested loops of [detect_conflicts], for one pair. *)
Definition pair_conflict (candidate other : FileChangeSet) : result (list pydict) :=
  candidate_path ← _logical_change_path candidate;
  other_path ← _logical_change_path other;
  if negb (_changes_share_namespace candidate other) then Ok [] else
  if candidate_path ==? other_path then
    verdict ← same_path_conflict candidate other;
    Ok [conflict_entry candidate other candidate_path other_path verdict]
  else if startswith candidate_path (rstrip_char slash other_path +:+ "/")
          || startswith other_path (rstrip_char slash candidate_path +:+ "/")
  then Ok [conflict_entry candidate other candidate_path other_path
             ("potential", "parent_child_path_overlap")]
  else Ok [].

(** The pairs that the loops visit, each once, in order. *)
Fixpoint fresh_pairs (seen : list (string * string))
    (pairs : list (FileChangeSet * FileChangeSet)) : list (FileChangeSet * FileChangeSet) :=
  match pairs with
  | [] => []
  | (candidate, other) :: pairs =>
      let pair := (chg_id candidate, chg_id other) in
      if (pair ∈? seen) || (chg_id candidate ==? chg_id other) then fresh_pairs seen pairs
      else (candidate, other) :: fresh_pairs (pair :: seen) pairs
  end.

Definition all_pairs (candidates comparisons : list FileChangeSet)
    : list (FileChangeSet * FileChangeSet) :=
  candidate ← candidates; other ← comparisons; [(candidate, other)].

Definition severity_count (severity : string) (conflicts : list pydict) : Z :=
  Z.of_nat (length (filter (λ c, py_eqb (dict_get c "severity") (PStr severity) = true)
                      conflicts)).

Definition conflict_report (candidates comparisons : list FileChangeSet) : result pydict :=
  found ← map_result (λ p, pair_conflict p.1 p.2)
            (fresh_pairs [] (all_pairs candidates comparisons));
  let conflicts := concat found in
  let hard_count := severity_count "hard" conflicts in
  let potential_count := severity_count "potential" conflicts in
  Ok [("safe", PBool (hard_count =? 0));
      ("hard_conflict_count", PInt hard_count);
      ("potential_conflict_count", PInt potential_count);
      ("conflicts", PList (map PDict conflicts));
      ("candidate_change_ids", str_list (map chg_id candidates));
      ("comparison_change_ids", str_list (map chg_id comparisons))].

Definition by_created_desc {R} (created_at : R → Z) (l : list R) : list R :=
  sort_by (λ a b, created_at b <=? created_at a) l.

Definition in_room (rid : option string) (column : option string) : bool :=
  if opt_truthy rid then column ==? rid else true.

Section handlers.
Context `{!Env}.


(** ** Leases *)
Definition lease_is_stale (now : Z) (lease : ResourceLease) : bool :=
  ls_expires_at lease <=? now.

Definition expired_lease (now : Z) (lease : ResourceLease) : ResourceLease :=
  lease <| ls_status := "expired" |> <| ls_released_at := Some now |>
        <| ls_updated_at := now |>.

Definition expire_stale_leases (owner_subject : string) : M Z :=
  now ← utcnow;
  leases ← query (λ l, (ls_owner_subject l ==? owner_subject) && (ls_status l ==? "active"));
  let stale := filter (λ l, lease_is_stale now l = true) leases in
  foreach (λ lease, put (expired_lease now lease)) stale;;
  let changed := Z.of_nat (length stale) in
  (if changed =? 0 then mret tt else commit);;
  mret changed.

Definition lease_by_key (owner_subject : string) (key : option string)
    : M (option ResourceLease) :=
  find_by_key ls_owner_subject ls_idempotency_key owner_subject key.

(** The work item a lease is taken for is in progress with its holder. *)
Definition check_lease_work_item (owner_subject rid holder_agent_id : string)
    (work_item_id : option string) : M unit :=
  match work_item_id with
  | None => mret tt
  | Some work_item_id =>
      work_item ← find_row work_item_id (λ i,
        (wi_owner_subject i ==? owner_subject) && (wi_room_id i ==? rid));
      work_item ← require work_item 404 "Work item not found";
      fail_if ((wi_assigned_agent_id work_item =/? Some holder_agent_id)
               || (wi_status work_item =/? "in_progress")) 409
        "Work item is not actively assigned to the lease holder"
  end.

(** The tests of one active lease against the requested one. *)
Definition check_lease_conflict (mode : string) (reservations : list pydict)
    (branch_name worktree_path : option string) (lease : ResourceLease) : M unit :=
  if (mode ==? "shared_read") && (ls_mode lease ==? "shared_read") then mret tt else
  fail_if (reservation_sets_overlap reservations (ls_reservations lease)) 409
    ("Reservation conflicts with active lease " +:+ ls_id lease);;
  fail_if (opt_truthy branch_name && (ls_branch_name lease ==? branch_name)) 409
    ("Branch is already owned by active lease " +:+ ls_id lease);;
  fail_if (opt_truthy worktree_path && (ls_worktree_path lease ==? worktree_path)) 409
    ("Worktree is already owned by active lease " +:+ ls_id lease).

Definition room_leases (owner_subject rid : string) (d : db) : list ResourceLease :=
  select (λ l, (ls_owner_subject l ==? owner_subject) && (ls_room_id l ==? rid)) d.

Definition max_fencing_token (owner_subject rid : string) (d : db) : Z :=
  max_Z (map ls_fencing_token (room_leases owner_subject rid d)).

Definition acquire_lease (owner_subject : string) (data : pydict) : M ResourceLease :=
  rid ← lift (_required_text (dict_get data "room_id") "room_id" 36);
  holder_agent_id ← lift (_required_text (dict_get data "holder_agent_id")
                            "holder_agent_id" 36);
  idempotency_key ← lift (_optional_text (dict_get data "idempotency_key") 160);
  existing ← lease_by_key owner_subject idempotency_key;
  match existing with Some lease => mret lease | None =>
  expire_stale_leases owner_subject;;
  room ← _room owner_subject rid;
  fail_if (room_status room =/? "active") 409 "Collaboration room is not active";;
  agent ← _agent owner_subject holder_agent_id;
  _require_agent_in_room agent rid;;
  let mode := strip (py_str (py_or (dict_get data "mode") (PStr "exclusive_write"))) in
  fail_if (negb (mode ∈? LEASE_MODES)) 400 "Unsupported resource lease mode";;
  origin ← lift (_required_text (dict_get data "origin") "origin" 40);
  resource_id ← lift (_optional_text (dict_get data "resource_id") 160);
  fail_if ((origin =/? "server") && is_none resource_id) 400
    "resource_id is required for non-server leases";;
  reservations ← lift (normalize_reservations (dict_get data "reservations"));
  branch_name ← lift (_optional_text (dict_get data "branch_name") 255);
  raw_worktree_path ← lift (_optional_text (dict_get data "worktree_path") 4096);
  worktree_path ← match raw_worktree_path with
    | Some raw => p ← lift (normalize_relative_path (PStr raw) "worktree_path"); mret (Some p)
    | None => mret None
    end;
  base_commit ← lift (_optional_text (dict_get data "base_commit") 128);
  expected_head ← lift (_optional_text (dict_get data "expected_head") 128);
  fail_if ((mode ==? "exclusive_write")
           && negb (opt_truthy branch_name && opt_truthy worktree_path
                    && opt_truthy base_commit)) 400
    "exclusive_write leases require branch_name, worktree_path, and base_commit";;
  fail_if ((mode ==? "exclusive_write") && (worktree_path ==? Some ".")) 400
    "exclusive_write worktree_path must identify an isolated subdirectory";;
  work_item_id ← lift (_optional_text (dict_get data "work_item_id") 36);
  check_lease_work_item owner_subject rid holder_agent_id work_item_id;;
  active ← query (λ l, (ls_owner_subject l ==? owner_subject) && (ls_room_id l ==? rid)
                       && (ls_status l ==? "active"));
  foreach (check_lease_conflict mode reservations branch_name worktree_path) active;;
  max_token ← reads (max_fencing_token owner_subject rid);
  now ← utcnow;
  ttl_seconds ← lift (_bounded_int (dict_get_or data "ttl_seconds" (PInt 300))
                        "ttl_seconds" 30 3600);
  meta ← lift (safe_dict (dict_get data "meta") "lease meta");
  new_id ← uuid4;
  let lease := {|
    ls_id := new_id;
    ls_owner_subject := owner_subject;
    ls_room_id := rid;
    ls_holder_agent_id := holder_agent_id;
    ls_work_item_id := work_item_id;
    ls_origin := origin;
    ls_resource_id := resource_id;
    ls_mode := mode;
    ls_reservations := reservations;
    ls_fencing_token := max_token + 1;
    ls_status := "active";
    ls_branch_name := branch_name;
    ls_worktree_path := worktree_path;
    ls_base_commit := base_commit;
    ls_expected_head := expected_head;
    ls_idempotency_key := idempotency_key;
    ls_meta := meta;
    ls_acquired_at := now;
    ls_renewed_at := now;
    ls_expires_at := now + seconds ttl_seconds;
    ls_released_at := None;
    ls_created_at := now;
    ls_updated_at := now;
  |} in
  add lease;;
  emit "gateway.resource_lease.acquired.v1" owner_subject "acquired" "resource_lease"
    (ls_id lease) "success"
    [("lease_id", PStr (ls_id lease));
     ("room_id", PStr (ls_room_id lease));
     ("holder_agent_id", PStr (ls_holder_agent_id lease));
     ("origin", PStr (ls_origin lease));
     ("resource_id", opt_str (ls_resource_id lease));
     ("mode", PStr (ls_mode lease));
     ("reservations", PList (map PDict (ls_reservations lease)));
     ("fencing_token", PInt (ls_fencing_token lease));
     ("branch_name", opt_str (ls_branch_name lease));
     ("worktree_path", opt_str (ls_worktree_path lease))];;
  commit;;
  mret lease
  end.

Definition list_leases (owner_subject : string) (rid status holder_agent_id : option string)
    : M (list ResourceLease) :=
  expire_stale_leases owner_subject;;
  (if opt_truthy rid then _room owner_subject (default "" rid);; mret tt else mret tt);;
  (if opt_truthy holder_agent_id
   then _agent owner_subject (default "" holder_agent_id);; mret tt else mret tt);;
  leases ← query (λ l, (ls_owner_subject l ==? owner_subject)
    && in_room rid (Some (ls_room_id l))
    && (if opt_truthy status then Some (ls_status l) ==? status else true)
    && (if opt_truthy holder_agent_id
        then Some (ls_holder_agent_id l) ==? holder_agent_id else true));
  mret (take 500 (by_created_desc ls_created_at leases)).

Definition renew_lease (owner_subject lease_id holder_agent_id : string)
    (fencing_token ttl_seconds : Z) : M ResourceLease :=
  expire_stale_leases owner_subject;;
  lease ← _lease owner_subject lease_id;
  fail_if (ls_status lease =/? "active") 409 "Resource lease is not active";;
  fail_if ((ls_holder_agent_id lease =/? holder_agent_id)
           || negb (ls_fencing_token lease =? fencing_token)) 409
    "Lease holder or fencing token is stale";;
  _agent owner_subject holder_agent_id;;
  now ← utcnow;
  ttl ← lift (_bounded_int (PInt ttl_seconds) "ttl_seconds" 30 3600);
  let lease := lease <| ls_renewed_at := now |> <| ls_expires_at := now + seconds ttl |>
                     <| ls_updated_at := now |> in
  put lease;;
  emit "gateway.resource_lease.renewed.v1" owner_subject "renewed" "resource_lease"
    (ls_id lease) "success"
    [("lease_id", PStr (ls_id lease));
     ("room_id", PStr (ls_room_id lease));
     ("holder_agent_id", PStr (ls_holder_agent_id lease));
     ("fencing_token", PInt (ls_fencing_token lease));
     ("expires_at", PStr (isoformat (ls_expires_at lease)))];;
  commit;;
  mret lease.

Definition release_lease (owner_subject lease_id actor_agent_id : string)
    (fencing_token : Z) (force : bool) : M ResourceLease :=
  lease ← _lease owner_subject lease_id;
  room ← _room owner_subject (ls_room_id lease);
  actor ← _agent owner_subject actor_agent_id;
  if ls_status lease =/? "active" then mret lease else
  fail_if (negb (ls_fencing_token lease =? fencing_token)) 409 "Fencing token is stale";;
  allowed ← (if actor_agent_id =/? ls_holder_agent_id lease then
               if force then lift (_is_coordinator room actor) else mret false
             else mret true);
  fail_if (negb allowed) 403 "Only the holder or a coordinator can release this lease";;
  now ← utcnow;
  let lease := lease
    <| ls_status := if force && (actor_agent_id =/? ls_holder_agent_id lease)
                    then "revoked" else "released" |>
    <| ls_released_at := Some now |> <| ls_updated_at := now |> in
  put lease;;
  emit "gateway.resource_lease.released.v1" owner_subject (ls_status lease)
    "resource_lease" (ls_id lease) "success"
    [("lease_id", PStr (ls_id lease));
     ("room_id", PStr (ls_room_id lease));
     ("holder_agent_id", PStr (ls_holder_agent_id lease));
     ("actor_agent_id", PStr actor_agent_id);
     ("fencing_token", PInt (ls_fencing_token lease));
     ("status", PStr (ls_status lease))];;
  commit;;
  mret lease.

(** [normalized] seen from the worktree of [lease], if it is inside it. *)
Definition relative_to_worktree (lease : ResourceLease) (normalized : string)
    : result (option string) :=
  let worktree := if opt_truthy (ls_worktree_path lease)
                  then default "" (ls_worktree_path lease) else "." in
  root ← normalize_relative_path (PStr worktree) "lease.worktree_path";
  let prefix := rstrip_char slash root +:+ "/" in
  Ok (if root ==? "." then Some normalized
      else if normalized ==? root then Some "."
      else if startswith normalized prefix
      then Some (suffix_from (String.length prefix) normalized)
      else None).

Definition lease_covers (normalized : string) (lease : ResourceLease) : result bool :=
  relative ← relative_to_worktree lease normalized;
  Ok match relative with
     | Some relative => existsb (λ r, reservation_covers_path r relative)
                          (ls_reservations lease)
     | None => false
     end.

Definition covering_leases (owner_subject origin : string) (resource_id : option string)
    (path : pyval) : M (list ResourceLease) :=
  expire_stale_leases owner_subject;;
  normalized ← lift (normalize_relative_path path "path");
  leases ← query (λ l, (ls_owner_subject l ==? owner_subject) && (ls_origin l ==? origin)
    && (ls_resource_id l ==? resource_id) && (ls_status l ==? "active")
    && (ls_mode l ==? "exclusive_write"));
  flags ← lift (map_result (lease_covers normalized) leases);
  mret (map fst (filter (λ p, p.2 = true) (zip leases flags))).

(** [value not in {None, empty string}] *)
Definition guard_supplied (value : pyval) : result bool :=
  match value with
  | PNone => Ok false
  | PStr s => Ok (s =/? "")
  | PList _ | PDict _ => Raise TypeError
  | _ => Ok true
  end.

Fixpoint any_guard (data : pydict) (names : list string) : result bool :=
  match names with
  | [] => Ok false
  | name :: names =>
      supplied ← guard_supplied (dict_get data name);
      if (supplied : bool) then Ok true else any_guard data names
  end.

Definition WRITE_GUARDS : list string :=
  ["lease_id"; "agent_id"; "room_id"; "fencing_token"; "branch_name"; "worktree_path";
   "base_commit"].

Definition validate_write_context (owner_subject origin : string)
    (resource_id : option string) (path : pyval) (data : pydict)
    : M (option WriteLeaseContext) :=
  covering ← covering_leases owner_subject origin resource_id path;
  match covering with
  | [] =>
      supplied_guard ← lift (any_guard data WRITE_GUARDS);
      fail_if supplied_guard 409 "No active lease covers the requested write path";;
      mret None
  | _ =>
      lease_id ← lift (_required_text (dict_get data "lease_id") "lease_id" 36);
      agent_id ← lift (_required_text (dict_get data "agent_id") "agent_id" 36);
      rid ← lift (_required_text (dict_get data "room_id") "room_id" 36);
      fencing_token ← lift (_bounded_int (dict_get data "fencing_token")
                              "fencing_token" 1 (2 ^ 63 - 1));
      lease ← require (List.find (λ c, ls_id c ==? lease_id) covering) 409
        "Write path is reserved by another active lease";
      fail_if ((ls_room_id lease =/? rid) || (ls_holder_agent_id lease =/? agent_id)
               || negb (ls_fencing_token lease =? fencing_token)) 409
        "Lease holder, room, or fencing token is stale";;
      branch_name ← lift (_required_text (dict_get data "branch_name") "branch_name" 255);
      worktree_path ← lift (_required_text (dict_get data "worktree_path")
                              "worktree_path" 4096);
      base_commit ← lift (_required_text (dict_get data "base_commit") "base_commit" 128);
      fail_if ((ls_branch_name lease =/? Some branch_name)
               || (ls_worktree_path lease =/? Some worktree_path)
               || (ls_base_commit lease =/? Some base_commit)) 409
        "Branch, worktree, or base commit does not match the active lease";;
      expected_sha256 ← lift (_optional_text (dict_get data "expected_sha256") 64);
      let expected_absent := truthy (dict_get_or data "expected_absent" (PBool false)) in
      fail_if (Bool.eqb (opt_truthy expected_sha256) expected_absent) 400
        "Exactly one of expected_sha256 or expected_absent is required";;
      mret (Some {|
        wlc_room_id := rid;
        wlc_agent_id := agent_id;
        wlc_lease_id := lease_id;
        wlc_fencing_token := fencing_token;
        wlc_base_commit := base_commit;
        wlc_branch_name := branch_name;
        wlc_worktree_path := worktree_path;
        wlc_expected_head := ls_expected_head lease;
        wlc_expected_sha256 := expected_sha256;
        wlc_expected_absent := expected_absent;
      |})
  end.

(** ** Recorded changes and conflict detection *)
Definition _changes (owner_subject : string) (ids : list string) (rid : option string)
    : M (list FileChangeSet) :=
  let unique_ids := dedup (filter (λ i, i ≠ "") ids) in
  match unique_ids with [] => mret [] | _ =>
  changes ← query (λ c, (chg_owner_subject c ==? owner_subject)
                        && (chg_id c ∈? unique_ids) && in_room rid (chg_room_id c));
  match List.find (λ i, negb (i ∈? map chg_id changes)) unique_ids with
  | Some missing => fail 404 ("File change not found: " +:+ missing)
  | None =>
      mret (omap (λ i, List.find (λ c, chg_id c ==? i) changes) unique_ids)
  end
  end.

Definition detect_conflicts (owner_subject : string) (candidate_change_ids : list string)
    (comparison_change_ids : option (list string)) (rid : option string) : M pydict :=
  candidates ← _changes owner_subject candidate_change_ids rid;
  comparisons ← match comparison_change_ids with
    | None =>
        changes ← query (λ c, (chg_owner_subject c ==? owner_subject)
                              && in_room rid (chg_room_id c));
        mret (filter (λ c, negb (chg_id c ∈? map chg_id candidates) = true)
                (take (Z.to_nat 2000) (by_created_desc chg_created_at changes)))
    | Some ids => _changes owner_subject ids rid
    end;
  lift (conflict_report candidates comparisons).

Definition report_safe (report : pydict) : bool :=
  truthy (dict_get_or report "safe" (PBool false)).

Definition list_handoffs (owner_subject : string) (rid status : option string)
    : M (list AgentHandoffBarrier) :=
  (if opt_truthy rid then _room owner_subject (default "" rid);; mret tt else mret tt);;
  barriers ← query (λ h, (hb_owner_subject h ==? owner_subject)
    && in_room rid (Some (hb_room_id h))
    && (if opt_truthy status then Some (hb_status h) ==? status else true));
  mret (take 500 (by_created_desc hb_created_at barriers)).

Definition list_integrations (owner_subject : string) (rid status : option string)
    : M (list AgentIntegrationRecord) :=
  (if opt_truthy rid then _room owner_subject (default "" rid);; mret tt else mret tt);;
  records ← query (λ r, (ir_owner_subject r ==? owner_subject)
    && in_room rid (Some (ir_room_id r))
    && (if opt_truthy status then Some (ir_status r) ==? status else true));
  mret (take 500 (by_created_desc ir_created_at records)).

(** ** Handoffs *)

(** Every change was recorded under the lease and its fence. *)
Definition changes_match_lease (lease : ResourceLease) (changes : list FileChangeSet)
    : bool :=
  forallb (λ c, (chg_lease_id c ==? Some (ls_id lease))
                && (chg_fencing_token c ==? Some (ls_fencing_token lease))) changes.

Definition handoff_by_key (owner_subject : string) (key : option string)
    : M (option AgentHandoffBarrier) :=
  find_by_key hb_owner_subject hb_idempotency_key owner_subject key.

Definition create_handoff (owner_subject : string) (data : pydict)
    : M AgentHandoffBarrier :=
  rid ← lift (_required_text (dict_get data "room_id") "room_id" 36);
  source_agent_id ← lift (_required_text (dict_get data "source_agent_id")
                            "source_agent_id" 36);
  target_agent_id ← lift (_required_text (dict_get data "target_agent_id")
                            "target_agent_id" 36);
  lease_id ← lift (_required_text (dict_get data "lease_id") "lease_id" 36);
  idempotency_key ← lift (_optional_text (dict_get data "idempotency_key") 160);
  existing ← handoff_by_key owner_subject idempotency_key;
  match existing with Some barrier => mret barrier | None =>
  _room owner_subject rid;;
  source ← _agent owner_subject source_agent_id;
  target ← _agent owner_subject target_agent_id;
  _require_agent_in_room source rid;;
  _require_agent_in_room target rid;;
  lease ← _lease owner_subject lease_id;
  expected_token ← lift (_bounded_int (dict_get data "expected_fencing_token")
                           "expected_fencing_token" 1 (2 ^ 63 - 1));
  fail_if ((ls_room_id lease =/? rid) || (ls_holder_agent_id lease =/? source_agent_id)
           || negb (ls_fencing_token lease =? expected_token)) 409
    "Handoff lease context is stale";;
  fail_if (ls_status lease =/? "active") 409 "Handoff requires an active source lease";;
  change_ids ← lift (nonempty_str_values (dict_get data "required_change_ids"));
  changes ← _changes owner_subject change_ids (Some rid);
  fail_if (negb (changes_match_lease lease changes)) 409
    "Handoff changes do not belong to the source lease and fence";;
  new_id ← uuid4;
  payload ← lift (safe_dict (dict_get data "payload") "handoff payload");
  created_at ← utcnow;
  updated_at ← utcnow;
  let barrier := {|
    hb_id := new_id;
    hb_owner_subject := owner_subject;
    hb_room_id := rid;
    hb_source_agent_id := source_agent_id;
    hb_target_agent_id := target_agent_id;
    hb_lease_id := lease_id;
    hb_expected_fencing_token := expected_token;
    hb_required_change_ids := change_ids;
    hb_summary := truncate (Z.to_nat 10000) (str_or_empty (dict_get data "summary"));
    hb_payload := payload;
    hb_status := "open";
    hb_conflict_report := [];
    hb_idempotency_key := idempotency_key;
    hb_ready_at := None;
    hb_accepted_at := None;
    hb_cancelled_at := None;
    hb_created_at := created_at;
    hb_updated_at := updated_at;
  |} in
  add barrier;;
  emit "gateway.agent.handoff.created.v1" owner_subject "created"
    "agent_handoff_barrier" (hb_id barrier) "success"
    [("handoff_id", PStr (hb_id barrier));
     ("room_id", PStr (hb_room_id barrier));
     ("source_agent_id", PStr (hb_source_agent_id barrier));
     ("target_agent_id", PStr (hb_target_agent_id barrier));
     ("lease_id", PStr (hb_lease_id barrier));
     ("expected_fencing_token", PInt (hb_expected_fencing_token barrier));
     ("required_change_ids", str_list (hb_required_change_ids barrier))];;
  commit;;
  mret barrier
  end.

Definition mark_handoff_ready (owner_subject handoff_id source_agent_id : string)
    : M AgentHandoffBarrier :=
  barrier ← _handoff owner_subject handoff_id;
  fail_if (hb_source_agent_id barrier =/? source_agent_id) 403
    "Only the source agent can mark this handoff ready";;
  if hb_status barrier ∈? HANDOFF_TERMINAL_STATUSES then mret barrier else
  lease ← _lease owner_subject (hb_lease_id barrier);
  fail_if (negb (ls_fencing_token lease =? hb_expected_fencing_token barrier)) 409
    "Handoff fencing token is stale";;
  changes ← _changes owner_subject (hb_required_change_ids barrier)
              (Some (hb_room_id barrier));
  fail_if (negb (changes_match_lease lease changes)) 409
    "Handoff evidence no longer matches the source fence";;
  now ← utcnow;
  let barrier := barrier <| hb_status := "ready" |> <| hb_ready_at := Some now |>
                         <| hb_updated_at := now |> in
  put barrier;;
  emit "gateway.agent.handoff.ready.v1" owner_subject "ready" "agent_handoff_barrier"
    (hb_id barrier) "success"
    [("handoff_id", PStr (hb_id barrier));
     ("room_id", PStr (hb_room_id barrier));
     ("source_agent_id", PStr (hb_source_agent_id barrier));
     ("target_agent_id", PStr (hb_target_agent_id barrier));
     ("lease_id", PStr (hb_lease_id barrier));
     ("required_change_ids", str_list (hb_required_change_ids barrier))];;
  commit;;
  mret barrier.

Definition accept_handoff (owner_subject handoff_id target_agent_id : string)
    (comparison_change_ids : option (list string)) : M AgentHandoffBarrier :=
  barrier ← _handoff owner_subject handoff_id;
  fail_if (hb_target_agent_id barrier =/? target_agent_id) 403
    "Only the target agent can accept this handoff";;
  if hb_status barrier ==? "accepted" then mret barrier else
  fail_if (hb_status barrier =/? "ready") 409 "Handoff is not ready";;
  lease ← _lease owner_subject (hb_lease_id barrier);
  fail_if (ls_status lease ==? "active") 409
    "Source lease must be released before handoff acceptance";;
  report ← detect_conflicts owner_subject (hb_required_change_ids barrier)
             comparison_change_ids (Some (hb_room_id barrier));
  now ← utcnow;
  let barrier := barrier <| hb_conflict_report := report |> <| hb_updated_at := now |> in
  if negb (report_safe report) then
    put (barrier <| hb_status := "blocked" |>);;
    commit;;
    fail 409 "Handoff is blocked by hard file conflicts"
  else
  let barrier := barrier <| hb_status := "accepted" |> <| hb_accepted_at := Some now |> in
  put barrier;;
  emit "gateway.agent.handoff.accepted.v1" owner_subject "accepted"
    "agent_handoff_barrier" (hb_id barrier) "success"
    [("handoff_id", PStr (hb_id barrier));
     ("room_id", PStr (hb_room_id barrier));
     ("source_agent_id", PStr (hb_source_agent_id barrier));
     ("target_agent_id", PStr (hb_target_agent_id barrier));
     ("conflict_report", PDict (hb_conflict_report barrier))];;
  commit;;
  mret barrier.

(** ** Integrations *)
Definition integration_by_key (owner_subject : string) (key : option string)
    : M (option AgentIntegrationRecord) :=
  find_by_key ir_owner_subject ir_idempotency_key owner_subject key.

Definition check_source_lease (owner_subject rid lease_id : string) : M unit :=
  lease ← _lease owner_subject lease_id;
  fail_if ((ls_room_id lease =/? rid) || (ls_status lease ==? "active")) 409
    "Integration source leases must belong to the room and be released".

Definition create_integration (owner_subject : string) (data : pydict)
    : M AgentIntegrationRecord :=
  rid ← lift (_required_text (dict_get data "room_id") "room_id" 36);
  coordinator_agent_id ← lift (_required_text (dict_get data "coordinator_agent_id")
                                 "coordinator_agent_id" 36);
  idempotency_key ← lift (_optional_text (dict_get data "idempotency_key") 160);
  existing ← integration_by_key owner_subject idempotency_key;
  match existing with Some record => mret record | None =>
  room ← _room owner_subject rid;
  coordinator ← _agent owner_subject coordinator_agent_id;
  _require_agent_in_room coordinator rid;;
  is_coordinator ← lift (_is_coordinator room coordinator);
  fail_if (negb is_coordinator) 403 "Agent is not a room coordinator";;
  candidate_change_ids ← lift (nonempty_str_values (dict_get data "candidate_change_ids"));
  comparison_change_ids ← lift (nonempty_str_values
                                  (dict_get data "comparison_change_ids"));
  source_lease_ids ← lift (nonempty_str_values (dict_get data "source_lease_ids"));
  foreach (check_source_lease owner_subject rid) source_lease_ids;;
  report ← detect_conflicts owner_subject candidate_change_ids
             (match comparison_change_ids with [] => None | ids => Some ids end) (Some rid);
  new_id ← uuid4;
  target_branch ← lift (_required_text (dict_get data "target_branch")
                          "target_branch" 255);
  expected_target_head ← lift (_required_text (dict_get data "expected_target_head")
                                 "expected_target_head" 128);
  created_at ← utcnow;
  updated_at ← utcnow;
  let record := {|
    ir_id := new_id;
    ir_owner_subject := owner_subject;
    ir_room_id := rid;
    ir_coordinator_agent_id := coordinator_agent_id;
    ir_target_branch := target_branch;
    ir_expected_target_head := expected_target_head;
    ir_candidate_change_ids := candidate_change_ids;
    ir_comparison_change_ids := comparison_change_ids;
    ir_source_lease_ids := source_lease_ids;
    ir_status := if report_safe report then "review" else "blocked";
    ir_conflict_report := report;
    ir_decision := [];
    ir_integrated_commit := None;
    ir_idempotency_key := idempotency_key;
    ir_version := 1;
    ir_created_at := created_at;
    ir_updated_at := updated_at;
    ir_completed_at := None;
  |} in
  add record;;
  emit "gateway.agent.integration.created.v1" owner_subject "created"
    "agent_integration_record" (ir_id record) "success"
    [("integration_id", PStr (ir_id record));
     ("room_id", PStr (ir_room_id record));
     ("coordinator_agent_id", PStr (ir_coordinator_agent_id record));
     ("target_branch", PStr (ir_target_branch record));
     ("expected_target_head", PStr (ir_expected_target_head record));
     ("status", PStr (ir_status record));
     ("conflict_report", PDict (ir_conflict_report record))];;
  commit;;
  mret record
  end.

Definition complete_integration (owner_subject integration_id coordinator_agent_id : string)
    (expected_version : Z) (status : string) (observed_target_head : option string)
    (decision : option pydict) (integrated_commit : option string)
    : M AgentIntegrationRecord :=
  fail_if (negb (status ∈? ["approved"; "integrated"; "rejected"])) 400
    "Unsupported integration status";;
  record ← _integration owner_subject integration_id;
  room ← _room owner_subject (ir_room_id record);
  coordinator ← _agent owner_subject coordinator_agent_id;
  allowed ← (if ir_coordinator_agent_id record =/? coordinator_agent_id then mret false
             else lift (_is_coordinator room coordinator));
  fail_if (negb allowed) 403 "Only the assigned coordinator can update this integration";;
  fail_if (negb (ir_version record =? expected_version)) 409 "Integration version conflict";;
  if ir_status record ∈? INTEGRATION_TERMINAL_STATUSES then mret record else
  let positive := status ∈? ["approved"; "integrated"] in
  fail_if (positive && negb (report_safe (ir_conflict_report record))) 409
    "Integration has unresolved hard conflicts";;
  observed_head ← lift (_optional_text (opt_str observed_target_head) 128);
  fail_if (positive && is_none observed_head) 400 "observed_target_head is required";;
  fail_if (positive && (observed_head =/? Some (ir_expected_target_head record))) 409
    "Integration target head is stale";;
  commit_id ← lift (_optional_text (opt_str integrated_commit) 128);
  fail_if ((status ==? "integrated") && is_none commit_id) 400
    "integrated_commit is required";;
  decision ← lift (safe_dict (from_option PDict PNone decision) "integration decision");
  now ← utcnow;
  let record := record
    <| ir_status := status |>
    <| ir_decision := decision |>
    <| ir_integrated_commit := commit_id |>
    <| ir_version ::= λ v, v + 1 |>
    <| ir_updated_at := now |>
    <| ir_completed_at ::= λ old,
         if status ∈? INTEGRATION_TERMINAL_STATUSES then Some now else old |> in
  put record;;
  emit "gateway.agent.integration.updated.v1" owner_subject status
    "agent_integration_record" (ir_id record) "success"
    [("integration_id", PStr (ir_id record));
     ("room_id", PStr (ir_room_id record));
     ("coordinator_agent_id", PStr (ir_coordinator_agent_id record));
     ("status", PStr (ir_status record));
     ("version", PInt (ir_version record));
     ("observed_target_head", opt_str observed_head);
     ("integrated_commit", opt_str (ir_integrated_commit record))];;
  commit;;
  mret record.
End handlers.
