(* ===== verification/Autonomy.v ===== *)
(** * Autonomy: constants, payloads, lookups and normalisation
      ([agent_autonomy.py])

    What the parts of [AgentAutonomyService] share. *)

From S2P Require Import Prelude PyStr PyVal Errors CommandPolicy Validate Models.
From S2P Require Import Database Session.

Definition ACTION_CLASSES : list string := ["read"; "write"; "destructive"; "production"].
Definition ASSIGNMENT_MODES : list string := ["manual"; "suggest"; "automatic"].
Definition POLICY_STATUSES : list string := ["active"; "paused"; "disabled"].
Definition CONTROL_STATES : list string := ["enabled"; "paused"; "killed"].
Definition CONTROL_SCOPES : list string := ["global"; "tenant"; "room"; "policy"].
Definition APPROVAL_TERMINAL : list string := ["approved"; "rejected"; "expired"; "revoked"].
Definition PERMIT_TERMINAL : list string := ["consumed"; "expired"; "revoked"].
Definition RECOVERY_TERMINAL : list string := ["succeeded"; "exhausted"; "cancelled"].
Definition RECEIPT_STATUSES : list string := ["succeeded"; "failed"; "partial"; "unknown"].

Definition approval_rule (quorum : pyval) (require_admin disallow_proposer : bool) : pydict :=
  [("quorum", quorum); ("require_admin", PBool require_admin);
   ("disallow_proposer", PBool disallow_proposer)].

Definition DEFAULT_APPROVAL_RULES : pydict := [
  ("read", PDict (approval_rule (PInt 0) false false));
  ("write", PDict (approval_rule (PInt 1) false true));
  ("destructive", PDict (approval_rule (PInt 2) true true));
  ("production", PDict (approval_rule (PInt 2) true true))].

Definition DEFAULT_RECOVERY_POLICY : pydict := [
  ("max_attempts", PInt 3);
  ("base_backoff_seconds", PInt 30);
  ("max_backoff_seconds", PInt 900)].

Definition _bounded_int (value : pyval) (field : string) (minimum maximum : Z)
    (default : option Z) : result Z :=
  let value := match value, default with PNone, Some z => PInt z | _, _ => value end in
  match py_int value with
  | None => http 400 (field +:+ " must be an integer")
  | Some parsed =>
      raise_if ((parsed <? minimum) || (maximum <? parsed))
        (HTTPException 400 (field +:+ " must be between " +:+ pretty minimum
                            +:+ " and " +:+ pretty maximum));;
      Ok parsed
  end.

Lemma _bounded_int_ok value field lo hi default n :
  _bounded_int value field lo hi default = Ok n → lo ≤ n ≤ hi.
Proof.
  unfold _bounded_int. destruct (py_int _) as [m|]; [|done]. unfold mbind, raise_if.
  destruct (_ || _) eqn:E; simpl; [done|]. intros [= <-].
  apply orb_false_iff in E as [?%Z.ltb_ge ?%Z.ltb_ge]. lia.
Qed.

Section digest.
Context `{!Env}.
Definition _canonical_json (value : pyval) : string := utf8_encode (json_dumps value).
Definition _sha256 (value : pyval) : string := sha256_hexdigest (_canonical_json value).
End digest.

(** ** Payloads *)
Definition policy_payload (policy : AutonomyPolicy) : pydict := [
  ("id", PStr (pol_id policy));
  ("room_id", PStr (pol_room_id policy));
  ("name", PStr (pol_name policy));
  ("status", PStr (pol_status policy));
  ("assignment_mode", PStr (pol_assignment_mode policy));
  ("coordinator_agent_id", opt_str (pol_coordinator_agent_id policy));
  ("allowed_action_classes", str_list (pol_allowed_action_classes policy));
  ("allowed_tools", str_list (pol_allowed_tools policy));
  ("allowed_command_profiles", str_list (pol_allowed_command_profiles policy));
  ("max_parallel_assignments", PInt (pol_max_parallel_assignments policy));
  ("approval_rules", PDict (pol_approval_rules policy));
  ("recovery_policy", PDict (pol_recovery_policy policy));
  ("generation", PInt (pol_generation policy));
  ("version", PInt (pol_version policy));
  ("created_by_subject", PStr (pol_created_by_subject policy));
  ("created_at", PStr (isoformat (pol_created_at policy)));
  ("updated_at", PStr (isoformat (pol_updated_at policy)))].

Definition control_payload (control : AutonomyControlState) : pydict := [
  ("id", PStr (ctl_id control));
  ("owner_subject", PStr (ctl_owner_subject control));
  ("scope_type", PStr (ctl_scope_type control));
  ("scope_id", PStr (ctl_scope_id control));
  ("state", PStr (ctl_state control));
  ("generation", PInt (ctl_generation control));
  ("reason", opt_str (ctl_reason control));
  ("changed_by_subject", PStr (ctl_changed_by_subject control));
  ("expires_at", opt_time (ctl_expires_at control));
  ("created_at", PStr (isoformat (ctl_created_at control)));
  ("updated_at", PStr (isoformat (ctl_updated_at control)))].

Definition override_payload (record : AutonomyOverride) : pydict := [
  ("id", PStr (ovr_id record));
  ("scope_type", PStr (ovr_scope_type record));
  ("scope_id", PStr (ovr_scope_id record));
  ("action", PStr (ovr_action record));
  ("previous_state", opt_str (ovr_previous_state record));
  ("new_state", opt_str (ovr_new_state record));
  ("reason", PStr (ovr_reason record));
  ("actor_subject", PStr (ovr_actor_subject record));
  ("evidence", PDict (ovr_evidence record));
  ("created_at", PStr (isoformat (ovr_created_at record)))].

Definition assignment_payload (assignment : AutonomyAssignment) : pydict := [
  ("id", PStr (asg_id assignment));
  ("room_id", PStr (asg_room_id assignment));
  ("policy_id", PStr (asg_policy_id assignment));
  ("work_item_id", PStr (asg_work_item_id assignment));
  ("selected_agent_id", PStr (asg_selected_agent_id assignment));
  ("status", PStr (asg_status assignment));
  ("score", PInt (asg_score assignment));
  ("rationale", PDict (asg_rationale assignment));
  ("policy_generation", PInt (asg_policy_generation assignment));
  ("work_item_version", PInt (asg_work_item_version assignment));
  ("created_by_subject", PStr (asg_created_by_subject assignment));
  ("applied_at", opt_time (asg_applied_at assignment));
  ("revoked_at", opt_time (asg_revoked_at assignment));
  ("created_at", PStr (isoformat (asg_created_at assignment)));
  ("updated_at", PStr (isoformat (asg_updated_at assignment)))].

Definition vote_payload (vote : ApprovalVote) : pydict := [
  ("id", PStr (vote_id vote));
  ("request_id", PStr (vote_request_id vote));
  ("voter_subject", PStr (vote_voter_subject vote));
  ("voter_roles", str_list (vote_voter_roles vote));
  ("decision", PStr (vote_decision vote));
  ("reason", opt_str (vote_reason vote));
  ("created_at", PStr (isoformat (vote_created_at vote)))].

Definition approval_payload (request : ApprovalRequest) (votes : option (list ApprovalVote))
    : pydict :=
  let result := [
    ("id", PStr (apr_id request));
    ("room_id", PStr (apr_room_id request));
    ("policy_id", PStr (apr_policy_id request));
    ("command_id", opt_str (apr_command_id request));
    ("work_item_id", opt_str (apr_work_item_id request));
    ("integration_id", opt_str (apr_integration_id request));
    ("proposer_agent_id", opt_str (apr_proposer_agent_id request));
    ("executor_agent_id", PStr (apr_executor_agent_id request));
    ("action_kind", PStr (apr_action_kind request));
    ("action_class", PStr (apr_action_class request));
    ("tool", PStr (apr_tool request));
    ("command_profile", opt_str (apr_command_profile request));
    ("payload_hash", PStr (apr_payload_hash request));
    ("payload_summary", PDict (apr_payload_summary request));
    ("quorum_required", PInt (apr_quorum_required request));
    ("require_admin_approval", PBool (apr_require_admin_approval request));
    ("disallow_proposer_vote", PBool (apr_disallow_proposer_vote request));
    ("status", PStr (apr_status request));
    ("policy_generation", PInt (apr_policy_generation request));
    ("version", PInt (apr_version request));
    ("created_by_subject", PStr (apr_created_by_subject request));
    ("expires_at", PStr (isoformat (apr_expires_at request)));
    ("approved_at", opt_time (apr_approved_at request));
    ("rejected_at", opt_time (apr_rejected_at request));
    ("revoked_at", opt_time (apr_revoked_at request));
    ("created_at", PStr (isoformat (apr_created_at request)));
    ("updated_at", PStr (isoformat (apr_updated_at request)))] in
  match votes with
  | None => result
  | Some votes => dict_set "votes" (PList (map (λ v, PDict (vote_payload v)) votes)) result
  end.

Definition permit_payload (permit : ExecutionPermit) : pydict := [
  ("id", PStr (pmt_id permit));
  ("approval_request_id", PStr (pmt_approval_request_id permit));
  ("policy_id", PStr (pmt_policy_id permit));
  ("command_id", opt_str (pmt_command_id permit));
  ("executor_agent_id", PStr (pmt_executor_agent_id permit));
  ("action_class", PStr (pmt_action_class permit));
  ("tool", PStr (pmt_tool permit));
  ("command_profile", opt_str (pmt_command_profile permit));
  ("payload_hash", PStr (pmt_payload_hash permit));
  ("status", PStr (pmt_status permit));
  ("policy_generation", PInt (pmt_policy_generation permit));
  ("control_snapshot", PDict (pmt_control_snapshot permit));
  ("fencing_token", PInt (pmt_fencing_token permit));
  ("max_uses", PInt (pmt_max_uses permit));
  ("use_count", PInt (pmt_use_count permit));
  ("issued_by_subject", PStr (pmt_issued_by_subject permit));
  ("issued_at", PStr (isoformat (pmt_issued_at permit)));
  ("expires_at", PStr (isoformat (pmt_expires_at permit)));
  ("claimed_at", opt_time (pmt_claimed_at permit));
  ("consumed_at", opt_time (pmt_consumed_at permit));
  ("revoked_at", opt_time (pmt_revoked_at permit));
  ("revocation_reason", opt_str (pmt_revocation_reason permit));
  ("created_at", PStr (isoformat (pmt_created_at permit)));
  ("updated_at", PStr (isoformat (pmt_updated_at permit)))].

Definition receipt_payload (receipt : ActionReceipt) : pydict := [
  ("id", PStr (rcpt_id receipt));
  ("permit_id", PStr (rcpt_permit_id receipt));
  ("approval_request_id", PStr (rcpt_approval_request_id receipt));
  ("command_id", opt_str (rcpt_command_id receipt));
  ("executor_agent_id", PStr (rcpt_executor_agent_id receipt));
  ("action_class", PStr (rcpt_action_class receipt));
  ("tool", PStr (rcpt_tool receipt));
  ("command_profile", opt_str (rcpt_command_profile receipt));
  ("status", PStr (rcpt_status receipt));
  ("input_hash", PStr (rcpt_input_hash receipt));
  ("output_hash", opt_str (rcpt_output_hash receipt));
  ("result_summary", PDict (rcpt_result_summary receipt));
  ("error", opt_str (rcpt_error receipt));
  ("external_references", PList (rcpt_external_references receipt));
  ("started_at", PStr (isoformat (rcpt_started_at receipt)));
  ("completed_at", PStr (isoformat (rcpt_completed_at receipt)));
  ("created_at", PStr (isoformat (rcpt_created_at receipt)))].

Definition recovery_payload (loop : RecoveryLoop) : pydict := [
  ("id", PStr (rec_id loop));
  ("room_id", PStr (rec_room_id loop));
  ("policy_id", PStr (rec_policy_id loop));
  ("source_type", PStr (rec_source_type loop));
  ("source_id", PStr (rec_source_id loop));
  ("target_agent_id", PStr (rec_target_agent_id loop));
  ("strategy", PDict (rec_strategy loop));
  ("status", PStr (rec_status loop));
  ("attempt_count", PInt (rec_attempt_count loop));
  ("max_attempts", PInt (rec_max_attempts loop));
  ("base_backoff_seconds", PInt (rec_base_backoff_seconds loop));
  ("next_attempt_at", PStr (isoformat (rec_next_attempt_at loop)));
  ("last_command_id", opt_str (rec_last_command_id loop));
  ("last_error", opt_str (rec_last_error loop));
  ("policy_generation", PInt (rec_policy_generation loop));
  ("generation", PInt (rec_generation loop));
  ("created_by_subject", PStr (rec_created_by_subject loop));
  ("created_at", PStr (isoformat (rec_created_at loop)));
  ("updated_at", PStr (isoformat (rec_updated_at loop)));
  ("completed_at", opt_time (rec_completed_at loop))].

(** ** Lookups *)
Definition _room (owner_subject rid : string) : M CollaborationRoom :=
  room ← find_row rid (λ r, room_owner_subject r ==? owner_subject);
  require room 404 "Collaboration room not found".

Definition _agent (owner_subject agent_id : string) : M AgentInstance :=
  agent ← find_row agent_id (λ a, ag_owner_subject a ==? owner_subject);
  require agent 404 "Agent instance not found".

Definition _policy (owner_subject policy_id : string) : M AutonomyPolicy :=
  policy ← find_row policy_id (λ p, pol_owner_subject p ==? owner_subject);
  require policy 404 "Autonomy policy not found".

Definition _work_item (owner_subject work_item_id : string) : M AgentWorkItem :=
  item ← find_row work_item_id (λ i, wi_owner_subject i ==? owner_subject);
  require item 404 "Work item not found".

Definition _command (owner_subject command_id : string) : M AgentCommand :=
  command ← find_row command_id (λ c, cmd_owner_subject c ==? owner_subject);
  require command 404 "Agent command not found".

Definition _approval (request_id : string) : M ApprovalRequest :=
  request ← get_row request_id;
  require request 404 "Approval request not found".

Definition _permit (owner_subject permit_id : string) : M ExecutionPermit :=
  permit ← find_row permit_id (λ p, pmt_owner_subject p ==? owner_subject);
  require permit 404 "Execution permit not found".

Definition _assignment (owner_subject assignment_id : string) : M AutonomyAssignment :=
  assignment ← find_row assignment_id (λ a, asg_owner_subject a ==? owner_subject);
  require assignment 404 "Autonomy assignment not found".

Definition _recovery (owner_subject loop_id : string) : M RecoveryLoop :=
  loop ← find_row loop_id (λ l, rec_owner_subject l ==? owner_subject);
  require loop 404 "Recovery loop not found".

(** ** Normalisation of policy values *)
Fixpoint policy_strings (seen : list string) (values : list pyval) : result (list string) :=
  match values with
  | [] => Ok []
  | value :: values =>
      let text := strip (py_str value) in
      if (text ==? "") || (text ∈? seen) then policy_strings seen values else
      raise_if (200 <? len text) (HTTPException 400 "policy value exceeds length limit");;
      rest ← policy_strings (text :: seen) values;
      Ok (text :: rest)
  end.

Definition _normalized_strings (values : pyval) (maximum : Z) : result (list string) :=
  l ← or_type_error (list_or_empty values);
  result ← policy_strings [] l;
  raise_if (maximum <? Z.of_nat (length result))
    (HTTPException 400 "too many policy values");;
  Ok result.

Definition normalize_rule (raw : pydict) (action_class : string) : result (string * pyval) :=
  defaults ← or_type_error (dict_or_empty (dict_get DEFAULT_APPROVAL_RULES action_class));
  rule ← or_type_error (dict_or_empty (dict_get raw action_class));
  quorum ← _bounded_int (dict_get_or rule "quorum" (dict_get defaults "quorum"))
             ("approval_rules." +:+ action_class +:+ ".quorum") 0 20 None;
  Ok (action_class, PDict (approval_rule (PInt quorum)
    (truthy (dict_get_or rule "require_admin" (dict_get defaults "require_admin")))
    (truthy (dict_get_or rule "disallow_proposer" (dict_get defaults "disallow_proposer"))))).

Definition _normalize_approval_rules (value : pyval) : result pydict :=
  raw ← safe_dict value "approval rules";
  map_result (normalize_rule raw) (sort_strings ACTION_CLASSES).

Definition _normalize_recovery_policy (value : pyval) : result pydict :=
  raw ← safe_dict value "recovery policy";
  let entry name maximum :=
    _bounded_int (dict_get_or raw name (dict_get DEFAULT_RECOVERY_POLICY name))
      ("recovery_policy." +:+ name) 1 maximum None in
  max_attempts ← entry "max_attempts" 20;
  base_backoff_seconds ← entry "base_backoff_seconds" 86400;
  max_backoff_seconds ← entry "max_backoff_seconds" 604800;
  Ok [("max_attempts", PInt max_attempts);
      ("base_backoff_seconds", PInt base_backoff_seconds);
      ("max_backoff_seconds", PInt max_backoff_seconds)].

(** [data.get(name) is not None] and the normalised value. *)
Definition when_given {A} (value : pyval) (f : pyval → result A) : result (option A) :=
  match value with
  | PNone => Ok None
  | _ => a ← f value; Ok (Some a)
  end.

(** [str(value)], one of the allowed ones. *)
Definition one_of (allowed : list string) (detail : string) (value : pyval) : result string :=
  let text := py_str value in
  raise_if (negb (text ∈? allowed)) (HTTPException 400 detail);;
  Ok text.

Definition action_classes (value : pyval) : result (list string) :=
  classes ← _normalized_strings value 200;
  raise_if ((classes ==? []) || negb (forallb (λ c, c ∈? ACTION_CLASSES) classes))
    (HTTPException 400 "Unsupported allowed action class");;
  Ok classes.

Example default_rules :
  _normalize_approval_rules (PDict [("write", PDict [("quorum", PStr "3")])])
  = Ok [("destructive", PDict (approval_rule (PInt 2) true true));
        ("production", PDict (approval_rule (PInt 2) true true));
        ("read", PDict (approval_rule (PInt 0) false false));
        ("write", PDict (approval_rule (PInt 3) false true))].
Proof. vm_compute. reflexivity. Qed.
