(* ===== verification/Controls.v ===== *)
(** * Policies and controls ([agent_autonomy.py])

    The policies of a room, the kill switches in their four scopes, and the
    snapshot of them that an approval, a permit and a recovery are tied to. *)

From S2P Require Import Prelude PyStr PyVal Errors CommandPolicy Validate Models.
From S2P Require Import Database Session Autonomy.

Section handlers.
Context `{!Env}.

(** ** Controls in force *)
Definition _control_row (owner_subject scope_type scope_id : string)
    : M (option AutonomyControlState) :=
  query_one (λ c, (ctl_owner_subject c ==? owner_subject)
    && (ctl_scope_type c ==? scope_type) && (ctl_scope_id c ==? scope_id)).

Definition control_state_at (now : Z) (row : AutonomyControlState) : string :=
  match ctl_expires_at row with
  | None => ctl_state row
  | Some t => if now <? t then ctl_state row else "enabled"
  end.

Fixpoint scan_controls (now : Z) (scopes : list (string * string * string))
    (effective : string) (reason : option string) (generations : pydict)
    : M (string * option string * pydict) :=
  match scopes with
  | [] => mret (effective, reason, generations)
  | (control_owner, scope_type, scope_id) :: scopes =>
      row ← _control_row control_owner scope_type scope_id;
      let key := scope_type +:+ ":" +:+ scope_id in
      match row with
      | None =>
          scan_controls now scopes effective reason (dict_set key (PInt 0) generations)
      | Some row =>
          let state := control_state_at now row in
          let generations := dict_set key (PInt (ctl_generation row)) generations in
          if state ==? "killed" then mret ("killed", ctl_reason row, generations)
          else if (state ==? "paused") && (effective ==? "enabled") then
            scan_controls now scopes "paused" (ctl_reason row) generations
          else scan_controls now scopes effective reason generations
      end
  end.

Definition control_scopes (owner_subject : string) (rid policy_id : option string)
    : list (string * string * string) :=
  [("*", "global", ""); (owner_subject, "tenant", "")]
  ++ (if opt_truthy rid then [(owner_subject, "room", default "" rid)] else [])
  ++ (if opt_truthy policy_id then [(owner_subject, "policy", default "" policy_id)]
      else []).

Definition snapshot_dict (effective : string) (reason : option string)
    (generations : pydict) : pydict := [
  ("enabled", PBool (effective ==? "enabled"));
  ("effective_state", PStr effective);
  ("reason", opt_str reason);
  ("generations", PDict generations)].

Definition control_snapshot (owner_subject : string) (rid policy_id : option string)
    : M pydict :=
  if gateway_autonomy_emergency_stop settings then
    mret (snapshot_dict "killed" (Some "GATEWAY_AUTONOMY_EMERGENCY_STOP")
            [("environment", PInt 1)])
  else
    now ← utcnow;
    found ← scan_controls now (control_scopes owner_subject rid policy_id)
              "enabled" None [];
    let '(effective, reason, generations) := found in
    mret (snapshot_dict effective reason generations).

Definition assert_enabled (owner_subject rid : string) (policy : AutonomyPolicy)
    : M pydict :=
  fail_if (pol_status policy =/? "active") 409 "Autonomy policy is not active";;
  snapshot ← control_snapshot owner_subject (Some rid) (Some (pol_id policy));
  fail_if (negb (truthy (dict_get snapshot "enabled"))) 423
    ("Autonomy is " +:+ py_str (dict_get snapshot "effective_state"));;
  mret snapshot.

Definition list_controls (owner_subject : string) (include_global : bool)
    : M (list AutonomyControlState) :=
  controls ← query (λ c, (ctl_owner_subject c ==? owner_subject)
                         || (include_global && (ctl_owner_subject c ==? "*")));
  mret (sort_by (λ a b, lex_leb
    [String.compare (ctl_scope_type a) (ctl_scope_type b);
     String.compare (ctl_scope_id a) (ctl_scope_id b)]) controls).

(** ** What a control or a policy change takes back *)
Definition in_scope (scope : option string) (column : string) : bool :=
  if opt_truthy scope then Some column ==? scope else true.

(** The open permits of an owner in a policy and in the room of their request. *)
Definition revocable_permits (owner_subject : string) (rid policy_id : option string)
    (d : db) : list ExecutionPermit :=
  filter (λ p, match lookup_row (pmt_approval_request_id p) d with
               | Some request => in_scope rid (apr_room_id request)
               | None => false
               end = true)
    (select (λ p, (pmt_owner_subject p ==? owner_subject)
                  && (pmt_status p ∈? ["active"; "claimed"])
                  && in_scope policy_id (pmt_policy_id p)) d).

Definition revoked_permit (now : Z) (reason : string) (permit : ExecutionPermit)
    : ExecutionPermit :=
  permit <| pmt_status := "revoked" |> <| pmt_revoked_at := Some now |>
         <| pmt_revocation_reason := Some (truncate (Z.to_nat 10000) reason) |>
         <| pmt_updated_at := now |>.

Definition _revoke_permits (owner_subject reason : string) (rid policy_id : option string)
    : M Z :=
  permits ← reads (revocable_permits owner_subject rid policy_id);
  now ← utcnow;
  foreach (λ permit, put (revoked_permit now reason permit)) permits;;
  mret (Z.of_nat (length permits)).

Definition open_recoveries (owner_subject : string) (rid policy_id : option string)
    (d : db) : list RecoveryLoop :=
  select (λ l, (rec_owner_subject l ==? owner_subject)
               && negb (rec_status l ∈? RECOVERY_TERMINAL)
               && in_scope rid (rec_room_id l) && in_scope policy_id (rec_policy_id l)) d.

Definition stopped_recovery (now : Z) (state : string) (loop : RecoveryLoop)
    : RecoveryLoop :=
  let loop := loop
    <| rec_status := if state ==? "killed" then "cancelled" else "paused" |>
    <| rec_generation ::= λ g, g + 1 |> <| rec_updated_at := now |> in
  if rec_status loop ==? "cancelled" then loop <| rec_completed_at := Some now |> else loop.

Definition _pause_or_cancel_recoveries (owner_subject state : string)
    (rid policy_id : option string) : M Z :=
  now ← utcnow;
  loops ← reads (open_recoveries owner_subject rid policy_id);
  foreach (λ loop, put (stopped_recovery now state loop)) loops;;
  mret (Z.of_nat (length loops)).

(** ** Setting a control *)

(** The owner, scope id, room and policy of a control. *)
Definition resolve_scope (owner_subject scope_type scope_id : string)
    : M (string * string * option string * option string) :=
  if scope_type ==? "global" then mret ("*", "", None, None)
  else if scope_type ==? "tenant" then mret (owner_subject, "", None, None)
  else if scope_type ==? "room" then
    rid ← lift (_required_text (PStr scope_id) "scope_id" 36);
    _room owner_subject rid;;
    mret (owner_subject, scope_id, Some rid, None)
  else
    policy_id ← lift (_required_text (PStr scope_id) "scope_id" 36);
    policy ← _policy owner_subject policy_id;
    mret (owner_subject, scope_id, Some (pol_room_id policy), Some policy_id).

Definition time_column (v : pyval) : option (option Z) :=
  match v with PNone => Some None | PTime t => Some (Some t) | _ => None end.

(** The owners whose permits and recoveries a control reaches. *)
Definition active_owners (owner_subject scope_type : string) (d : db) : list string :=
  if scope_type ==? "global" then
    dedup (map pmt_owner_subject (rows d) ++ map rec_owner_subject (rows d))
  else [owner_subject].

(** The loop over the owners, with the two counters of the evidence. *)
Fixpoint stop_owners (state reason : string) (rid policy_id : option string)
    (owners : list string) (revoked affected : Z) : M (Z * Z) :=
  match owners with
  | [] => mret (revoked, affected)
  | owner :: owners =>
      r ← _revoke_permits owner ("autonomy " +:+ state +:+ ": " +:+ reason) rid policy_id;
      a ← _pause_or_cancel_recoveries owner state rid policy_id;
      stop_owners state reason rid policy_id owners (revoked + r) (affected + a)
  end.

(** The row of a control, new or changed. *)
Definition write_control (actor_subject control_owner scope_type scope_id state reason : string)
    (expires_at : option Z) (now : Z) (row : option AutonomyControlState)
    : M AutonomyControlState :=
  match row with
  | None =>
      new_id ← uuid4;
      let row := {|
        ctl_id := new_id;
        ctl_owner_subject := control_owner;
        ctl_scope_type := scope_type;
        ctl_scope_id := scope_id;
        ctl_state := state;
        ctl_generation := 1;
        ctl_reason := Some reason;
        ctl_changed_by_subject := actor_subject;
        ctl_expires_at := expires_at;
        ctl_created_at := now;
        ctl_updated_at := now;
      |} in
      add row;; mret row
  | Some row =>
      let row := row <| ctl_state := state |> <| ctl_generation ::= λ g, g + 1 |>
        <| ctl_reason := Some reason |> <| ctl_changed_by_subject := actor_subject |>
        <| ctl_expires_at := expires_at |> <| ctl_updated_at := now |> in
      put row;; mret row
  end.

(** What a control that is not [enabled] stops, with the counters of the evidence. *)
Definition stop_scope (owner_subject scope_type state reason : string)
    (rid policy_id : option string) : M (Z * Z) :=
  if state ∈? ["paused"; "killed"] then
    owners ← reads (active_owners owner_subject scope_type);
    stop_owners state reason rid policy_id owners 0 0
  else mret (0, 0).

Definition control_action (state : string) : string :=
  if state ==? "enabled" then "resume" else if state ==? "paused" then "pause" else "kill".

Definition set_control (owner_subject actor_subject : string) (actor_roles : list string)
    (data : pydict) : M AutonomyControlState :=
  let scope_type := str_or_empty (dict_get data "scope_type") in
  let state := str_or_empty (dict_get data "state") in
  fail_if (negb (scope_type ∈? CONTROL_SCOPES) || negb (state ∈? CONTROL_STATES)) 400
    "Unsupported autonomy control";;
  fail_if (negb ("gateway-admin" ∈? actor_roles)) 403
    "Autonomy control requires gateway-admin";;
  scope ← resolve_scope owner_subject scope_type
            (strip (str_or_empty (dict_get data "scope_id")));
  let '(control_owner, scope_id, rid, policy_id) := scope in
  reason ← lift (_required_text (dict_get data "reason") "reason" 10000);
  row ← _control_row control_owner scope_type scope_id;
  let previous_state := option_map ctl_state row in
  now ← utcnow;
  expires_at ← lift (or_type_error (time_column (dict_get data "expires_at")));
  row ← write_control actor_subject control_owner scope_type scope_id state reason
          expires_at now row;
  counts ← stop_scope owner_subject scope_type state reason rid policy_id;
  new_id ← uuid4;
  let evidence := [("revoked_permits", PInt counts.1);
                   ("affected_recoveries", PInt counts.2)] in
  let override := {|
    ovr_id := new_id;
    ovr_owner_subject := owner_subject;
    ovr_scope_type := scope_type;
    ovr_scope_id := scope_id;
    ovr_action := control_action state;
    ovr_previous_state := previous_state;
    ovr_new_state := Some state;
    ovr_reason := reason;
    ovr_actor_subject := actor_subject;
    ovr_evidence := evidence;
    ovr_created_at := now;
  |} in
  add override;;
  emit "gateway.autonomy.control.changed.v1" actor_subject (ovr_action override)
    "autonomy_control" (ctl_id row) (if state =/? "enabled" then "warning" else "success")
    [("control_id", PStr (ctl_id row));
     ("scope_type", PStr scope_type);
     ("scope_id", PStr scope_id);
     ("state", PStr state);
     ("generation", PInt (ctl_generation row));
     ("revoked_permits", PInt counts.1);
     ("affected_recoveries", PInt counts.2)];;
  commit;;
  mret row.

(** ** Policies *)
Definition policy_by_key (owner_subject : string) (key : option string)
    : M (option AutonomyPolicy) :=
  find_by_key pol_owner_subject pol_idempotency_key owner_subject key.

(** The coordinator of a policy, if any, is in its room. *)
Definition check_coordinator (owner_subject rid : string) (agent_id : option string)
    : M unit :=
  match agent_id with
  | Some agent_id =>
      coordinator ← _agent owner_subject agent_id;
      fail_if (ag_current_room_id coordinator =/? Some rid) 409
        "Coordinator agent is not in the policy room"
  | None => mret tt
  end.

Definition create_policy (owner_subject actor_subject : string) (data : pydict)
    : M AutonomyPolicy :=
  rid ← lift (_required_text (dict_get data "room_id") "room_id" 36);
  _room owner_subject rid;;
  coordinator_agent_id ← lift (_optional_text (dict_get data "coordinator_agent_id") 36);
  check_coordinator owner_subject rid coordinator_agent_id;;
  idempotency_key ← lift (_optional_text (dict_get data "idempotency_key") 160);
  existing ← policy_by_key owner_subject idempotency_key;
  match existing with Some policy => mret policy | None =>
  assignment_mode ← lift (one_of ASSIGNMENT_MODES "Unsupported assignment mode"
                            (py_or (dict_get data "assignment_mode") (PStr "manual")));
  allowed_action_classes ← lift (action_classes
    (py_or (dict_get data "allowed_action_classes") (PList [PStr "read"])));
  new_id ← uuid4;
  name ← lift (_required_text (dict_get data "name") "name" 200);
  allowed_tools ← lift (_normalized_strings (dict_get data "allowed_tools") 200);
  allowed_command_profiles ← lift (_normalized_strings
    (dict_get data "allowed_command_profiles") 200);
  max_parallel_assignments ← lift (_bounded_int
    (dict_get_or data "max_parallel_assignments" (PInt 1))
    "max_parallel_assignments" 1 100 None);
  approval_rules ← lift (_normalize_approval_rules (dict_get data "approval_rules"));
  recovery_policy ← lift (_normalize_recovery_policy (dict_get data "recovery_policy"));
  created_at ← utcnow;
  updated_at ← utcnow;
  let policy := {|
    pol_id := new_id;
    pol_owner_subject := owner_subject;
    pol_room_id := rid;
    pol_name := name;
    pol_status := "active";
    pol_assignment_mode := assignment_mode;
    pol_coordinator_agent_id := coordinator_agent_id;
    pol_allowed_action_classes := allowed_action_classes;
    pol_allowed_tools := allowed_tools;
    pol_allowed_command_profiles := allowed_command_profiles;
    pol_max_parallel_assignments := max_parallel_assignments;
    pol_approval_rules := approval_rules;
    pol_recovery_policy := recovery_policy;
    pol_generation := 1;
    pol_version := 1;
    pol_idempotency_key := idempotency_key;
    pol_created_by_subject := actor_subject;
    pol_created_at := created_at;
    pol_updated_at := updated_at;
  |} in
  add policy;;
  create_or_existing
    (emit "gateway.autonomy.policy.created.v1" actor_subject "created" "autonomy_policy"
       (pol_id policy) "success"
       [("policy_id", PStr (pol_id policy));
        ("room_id", PStr (pol_room_id policy));
        ("assignment_mode", PStr (pol_assignment_mode policy));
        ("generation", PInt (pol_generation policy));
        ("version", PInt (pol_version policy))])
    policy (policy_by_key owner_subject idempotency_key)
    "Autonomy policy idempotency conflict"
  end.

Definition list_policies (owner_subject : string) (rid status : option string)
    : M (list AutonomyPolicy) :=
  policies ← query (λ p, (pol_owner_subject p ==? owner_subject)
    && in_scope rid (pol_room_id p) && in_scope status (pol_status p));
  mret (sort_by (λ a b, lex_leb
    [Z.compare (pol_created_at a) (pol_created_at b);
     String.compare (pol_id a) (pol_id b)]) policies).

(** The [values] of [update_policy]: the fields given in [data]. *)
Definition policy_values (owner_subject : string) (policy : AutonomyPolicy) (data : pydict)
    : M (AutonomyPolicy → AutonomyPolicy) :=
  now ← utcnow;
  name ← lift (when_given (dict_get data "name") (λ v, _required_text v "name" 200));
  status ← lift (when_given (dict_get data "status")
                   (one_of POLICY_STATUSES "Unsupported policy status"));
  mode ← lift (when_given (dict_get data "assignment_mode")
                 (one_of ASSIGNMENT_MODES "Unsupported assignment mode"));
  coordinator ← (if dict_has data "coordinator_agent_id" then
      agent_id ← lift (_optional_text (dict_get data "coordinator_agent_id") 36);
      check_coordinator owner_subject (pol_room_id policy) agent_id;;
      mret (Some agent_id)
    else mret None);
  classes ← lift (when_given (dict_get data "allowed_action_classes") action_classes);
  tools ← lift (when_given (dict_get data "allowed_tools")
                  (λ v, _normalized_strings v 200));
  profiles ← lift (when_given (dict_get data "allowed_command_profiles")
                     (λ v, _normalized_strings v 200));
  parallel ← lift (when_given (dict_get data "max_parallel_assignments")
    (λ v, _bounded_int v "max_parallel_assignments" 1 100 None));
  rules ← lift (when_given (dict_get data "approval_rules") _normalize_approval_rules);
  recovery ← lift (when_given (dict_get data "recovery_policy")
                     _normalize_recovery_policy);
  mret (λ p : AutonomyPolicy, p
    <| pol_version ::= λ v, v + 1 |>
    <| pol_generation ::= λ g, g + 1 |>
    <| pol_updated_at := now |>
    <| pol_name ::= λ old, default old name |>
    <| pol_status ::= λ old, default old status |>
    <| pol_assignment_mode ::= λ old, default old mode |>
    <| pol_coordinator_agent_id ::= λ old, default old coordinator |>
    <| pol_allowed_action_classes ::= λ old, default old classes |>
    <| pol_allowed_tools ::= λ old, default old tools |>
    <| pol_allowed_command_profiles ::= λ old, default old profiles |>
    <| pol_max_parallel_assignments ::= λ old, default old parallel |>
    <| pol_approval_rules ::= λ old, default old rules |>
    <| pol_recovery_policy ::= λ old, default old recovery |>).

Definition update_policy (owner_subject actor_subject policy_id : string)
    (expected_version : Z) (data : pydict) : M AutonomyPolicy :=
  policy ← _policy owner_subject policy_id;
  fail_if (negb (pol_version policy =? expected_version)) 409
    "Autonomy policy version conflict";;
  values ← policy_values owner_subject policy data;
  changed ← update_row (pol_id policy)
    (λ p, (pol_owner_subject p ==? owner_subject) && (pol_version p =? expected_version))
    values;
  (if changed =/? 1 then rollback;; fail 409 "Autonomy policy version conflict"
   else mret tt);;
  flush;;
  updated ← _policy owner_subject (pol_id policy);
  _revoke_permits owner_subject "policy generation changed" None (Some (pol_id policy));;
  emit "gateway.autonomy.policy.updated.v1" actor_subject "updated" "autonomy_policy"
    (pol_id updated) "success"
    [("policy_id", PStr (pol_id updated));
     ("room_id", PStr (pol_room_id updated));
     ("status", PStr (pol_status updated));
     ("assignment_mode", PStr (pol_assignment_mode updated));
     ("generation", PInt (pol_generation updated));
     ("version", PInt (pol_version updated))];;
  commit;;
  mret updated.
End handlers.
