(* ===== verification/Assignments.v ===== *)
(** * Autonomous assignment of work items ([agent_autonomy.py])

    The eligibility of agents for a work item, the conditional update that applies
    an assignment, and the cycle that proposes assignments under a policy. *)

From S2P Require Import Prelude PyStr PyVal Errors CommandPolicy Validate Models.
From S2P Require Import Database Session Autonomy Controls.

Section handlers.
Context `{!Env}.

Definition _dependencies_ready (owner_subject : string) (item : AgentWorkItem) : M bool :=
  match wi_dependencies item with
  | [] => mret true
  | dependencies =>
      completed ← query (λ i, (wi_owner_subject i ==? owner_subject)
        && (wi_room_id i ==? wi_room_id item) && (wi_id i ∈? dependencies)
        && (wi_status i ==? "completed"));
      mret (length completed ==? length (dedup dependencies))
  end.

(** The agent has every required capability and label and is not excluded. *)
Definition agent_fits (excluded required_capabilities : list string)
    (required_labels : pydict) (agent : AgentInstance) : bool :=
  negb (ag_id agent ∈? excluded)
  && forallb (λ c, c ∈? ag_capabilities agent) required_capabilities
  && forallb (λ kv, py_eqb (dict_get (ag_labels agent) kv.1) kv.2) required_labels.

Definition extra_capabilities (required_capabilities : list string)
    (agent : AgentInstance) : Z :=
  Z.of_nat (length (filter (λ c, c ∉ required_capabilities) (dedup (ag_capabilities agent)))).

Definition candidate_score (required_capabilities : list string) (agent : AgentInstance)
    : Z :=
  (if ag_status agent ==? "idle" then 1000 else 900)
  + Z.of_nat (length required_capabilities) * 50
  + extra_capabilities required_capabilities agent.

Definition candidate_rationale (required_capabilities : list string)
    (required_labels : pydict) (agent : AgentInstance) : pydict := [
  ("required_capabilities", str_list (sort_strings required_capabilities));
  ("matched_capabilities", str_list (sort_strings required_capabilities));
  ("extra_capability_count", PInt (extra_capabilities required_capabilities agent));
  ("required_labels", PDict required_labels);
  ("agent_status", PStr (ag_status agent))].

Definition assignable_agent (owner_subject rid : string) (now : Z) (agent : AgentInstance)
    : bool :=
  (ag_owner_subject agent ==? owner_subject)
  && (ag_current_room_id agent ==? Some rid)
  && (ag_status agent ∈? ["active"; "idle"])
  && is_none (ag_current_work_item_id agent)
  && match ag_expires_at agent with None => true | Some t => now <? t end.

Definition _eligible_agents (owner_subject : string) (item : AgentWorkItem)
    : M (list (AgentInstance * Z * pydict)) :=
  now ← utcnow;
  let constraints := wi_assignment_constraints item in
  excluded ← lift (str_values (dict_get constraints "exclude_agent_ids"));
  required_labels ← lift (or_type_error (dict_or_empty (dict_get constraints "labels")));
  let required_capabilities := dedup (wi_required_capabilities item) in
  agents ← query (assignable_agent owner_subject (wi_room_id item) now);
  let agents := sort_by (λ a b, str_leb (ag_id a) (ag_id b)) agents in
  let fitting := filter (λ a, agent_fits excluded required_capabilities
                                required_labels a = true) agents in
  mret (sort_by (λ x y, lex_leb [Z.compare y.1.2 x.1.2;
                                 String.compare (ag_id x.1.1) (ag_id y.1.1)])
    (map (λ a, (a, candidate_score required_capabilities a,
                candidate_rationale required_capabilities required_labels a)) fitting)).

(** The conditional update of a work item by an assignment. *)
Definition assignment_guard (assignment : AutonomyAssignment) (item : AgentWorkItem)
    : bool :=
  (wi_owner_subject item ==? asg_owner_subject assignment) && (wi_status item ==? "open")
  && is_none (wi_assigned_agent_id item)
  && (wi_version item =? asg_work_item_version assignment).

Definition assigned_item (agent_id : string) (now : Z) (item : AgentWorkItem)
    : AgentWorkItem :=
  item <| wi_status := "in_progress" |> <| wi_assigned_agent_id := Some agent_id |>
       <| wi_version ::= λ v, v + 1 |> <| wi_updated_at := now |>.

Definition _apply_assignment_record (assignment : AutonomyAssignment)
    (actor_subject : string) (commit_now : bool) : M AutonomyAssignment :=
  policy ← _policy (asg_owner_subject assignment) (asg_policy_id assignment);
  assert_enabled (asg_owner_subject assignment) (asg_room_id assignment) policy;;
  if asg_status assignment ==? "assigned" then mret assignment else
  fail_if (asg_status assignment =/? "proposed") 409 "Assignment is not applicable";;
  fail_if (negb (asg_policy_generation assignment =? pol_generation policy)) 409
    "Assignment policy generation is stale";;
  item ← _work_item (asg_owner_subject assignment) (asg_work_item_id assignment);
  agent ← _agent (asg_owner_subject assignment) (asg_selected_agent_id assignment);
  ready ← _dependencies_ready (asg_owner_subject assignment) item;
  fail_if (negb ready) 409 "Work item dependencies are not completed";;
  candidates ← _eligible_agents (asg_owner_subject assignment) item;
  fail_if (negb (ag_id agent ∈? map (λ c, ag_id c.1.1) candidates)) 409
    "Selected agent is no longer eligible";;
  updated_at ← utcnow;
  changed ← update_row (wi_id item) (assignment_guard assignment)
              (assigned_item (ag_id agent) updated_at);
  (if changed =/? 1 then rollback;; fail 409 "Automatic assignment conflict"
   else mret tt);;
  now ← utcnow;
  put (agent <| ag_current_work_item_id := Some (wi_id item) |>
             <| ag_status := "busy" |> <| ag_updated_at := now |>);;
  let assignment := assignment <| asg_status := "assigned" |>
    <| asg_applied_at := Some now |> <| asg_updated_at := now |> in
  put assignment;;
  emit "gateway.autonomy.assignment.applied.v1" actor_subject "assigned"
    "autonomy_assignment" (asg_id assignment) "success"
    [("assignment_id", PStr (asg_id assignment));
     ("policy_id", PStr (asg_policy_id assignment));
     ("room_id", PStr (asg_room_id assignment));
     ("work_item_id", PStr (asg_work_item_id assignment));
     ("agent_id", PStr (asg_selected_agent_id assignment));
     ("policy_generation", PInt (asg_policy_generation assignment))];;
  emit "gateway.work_item.claimed.v1" actor_subject "autonomously_assigned"
    "agent_work_item" (wi_id item) "success"
    [("work_item_id", PStr (wi_id item)); ("room_id", PStr (wi_room_id item));
     ("agent_id", PStr (ag_id agent)); ("version", PInt (wi_version item + 1))];;
  (if commit_now then commit else flush);;
  mret assignment.

Definition cycle_result (considered proposed assigned skipped : Z) : pydict := [
  ("considered", PInt considered); ("proposed", PInt proposed);
  ("assigned", PInt assigned); ("skipped", PInt skipped)].

Definition cycle_key (policy : AutonomyPolicy) (item : AgentWorkItem) : string :=
  "cycle:" +:+ pol_id policy +:+ ":" +:+ pretty (pol_generation policy) +:+ ":"
  +:+ wi_id item +:+ ":" +:+ pretty (wi_version item).

(** The proposal of the cycle for one item, committed. *)
Definition propose_assignment (owner_subject : string) (policy : AutonomyPolicy) (actor_subject : string)
    (item : AgentWorkItem) (candidate : AgentInstance * Z * pydict) (candidate_count : Z)
    : M AutonomyAssignment :=
  let '(agent, score, rationale) := candidate in
  new_id ← uuid4;
  created_at ← utcnow;
  updated_at ← utcnow;
  let assignment := {|
    asg_id := new_id;
    asg_owner_subject := owner_subject;
    asg_room_id := pol_room_id policy;
    asg_policy_id := pol_id policy;
    asg_work_item_id := wi_id item;
    asg_selected_agent_id := ag_id agent;
    asg_status := "proposed";
    asg_score := score;
    asg_rationale := dict_update rationale
      [("candidate_count", PInt candidate_count);
       ("assignment_mode", PStr (pol_assignment_mode policy))];
    asg_policy_generation := pol_generation policy;
    asg_work_item_version := wi_version item;
    asg_idempotency_key := Some (cycle_key policy item);
    asg_created_by_subject := actor_subject;
    asg_applied_at := None;
    asg_revoked_at := None;
    asg_created_at := created_at;
    asg_updated_at := updated_at;
  |} in
  add assignment;;
  emit "gateway.autonomy.assignment.proposed.v1" actor_subject "proposed"
    "autonomy_assignment" (asg_id assignment) "success"
    [("assignment_id", PStr (asg_id assignment));
     ("policy_id", PStr (pol_id policy));
     ("room_id", PStr (pol_room_id policy));
     ("work_item_id", PStr (wi_id item));
     ("agent_id", PStr (ag_id agent));
     ("score", PInt score);
     ("policy_generation", PInt (pol_generation policy))];;
  commit;;
  mret assignment.

Fixpoint assignment_loop (owner_subject : string) (policy : AutonomyPolicy) (actor_subject : string)
    (bounded_limit : Z) (items : list AgentWorkItem)
    (considered proposed assigned skipped : Z) : M pydict :=
  match items with
  | [] => mret (cycle_result considered proposed assigned skipped)
  | item :: items =>
      if bounded_limit <=? proposed + assigned
      then mret (cycle_result considered proposed assigned skipped) else
      let skip := assignment_loop owner_subject policy actor_subject bounded_limit items
                    (considered + 1) proposed assigned (skipped + 1) in
      ready ← _dependencies_ready (owner_subject) item;
      if negb ready then skip else
      existing ← query_one (λ a,
        (asg_owner_subject a ==? owner_subject)
        && (asg_policy_id a ==? pol_id policy)
        && (asg_work_item_id a ==? wi_id item)
        && (asg_status a ∈? ["proposed"; "assigned"]));
      if negb (is_none existing) then skip else
      candidates ← _eligible_agents (owner_subject) item;
      match candidates with
      | [] => skip
      | candidate :: _ =>
          assignment ← propose_assignment owner_subject policy actor_subject item candidate
                         (Z.of_nat (length candidates));
          if pol_assignment_mode policy ==? "automatic" then
            _apply_assignment_record assignment actor_subject true;;
            assignment_loop owner_subject policy actor_subject bounded_limit items
              (considered + 1) proposed (assigned + 1) skipped
          else
            assignment_loop owner_subject policy actor_subject bounded_limit items
              (considered + 1) (proposed + 1) assigned skipped
      end
  end.

Definition run_assignment_cycle (owner_subject policy_id actor_subject : string)
    (limit : option Z) : M pydict :=
  policy ← _policy owner_subject policy_id;
  assert_enabled owner_subject (pol_room_id policy) policy;;
  if pol_assignment_mode policy ==? "manual" then mret (cycle_result 0 0 0 0) else
  active ← query (λ i, (wi_owner_subject i ==? owner_subject)
    && (wi_room_id i ==? pol_room_id policy) && (wi_status i ==? "in_progress"));
  let capacity := Z.max 0 (pol_max_parallel_assignments policy - Z.of_nat (length active)) in
  bounded_limit ← lift (_bounded_int (from_option PInt PNone limit) "limit" 1 100
                          (Some (gateway_autonomy_assignment_batch_size settings)));
  let bounded_limit := if pol_assignment_mode policy ==? "automatic"
                       then Z.min bounded_limit capacity else bounded_limit in
  if bounded_limit <=? 0 then mret (cycle_result 0 0 0 0) else
  items ← query (λ i, (wi_owner_subject i ==? owner_subject)
    && (wi_room_id i ==? pol_room_id policy) && (wi_status i ==? "open")
    && is_none (wi_assigned_agent_id i));
  let items := take (Z.to_nat (bounded_limit * 4)) (sort_by (λ a b, lex_leb
    [Z.compare (wi_priority b) (wi_priority a);
     Z.compare (wi_created_at a) (wi_created_at b);
     String.compare (wi_id a) (wi_id b)]) items) in
  assignment_loop owner_subject policy actor_subject bounded_limit items 0 0 0 0.

Definition list_assignments (owner_subject : string) (rid policy_id status : option string)
    : M (list AutonomyAssignment) :=
  assignments ← query (λ a, (asg_owner_subject a ==? owner_subject)
    && in_scope rid (asg_room_id a) && in_scope policy_id (asg_policy_id a)
    && in_scope status (asg_status a));
  mret (sort_by (λ a b, asg_created_at b <=? asg_created_at a) assignments).

Definition apply_assignment (owner_subject assignment_id actor_subject : string)
    : M AutonomyAssignment :=
  assignment ← _assignment owner_subject assignment_id;
  _apply_assignment_record assignment actor_subject true.
End handlers.
