(* ===== verification/Approvals.v ===== *)
(** * Approval requests and votes ([agent_autonomy.py],
      [affine_approval_projection.py])

    The projection of approvals to an external notification service is disabled:
    [emit_affine_approval_projection] returns at once when it is not configured. *)

From S2P Require Import Prelude PyStr PyVal Errors CommandPolicy Validate Models.
From S2P Require Import Database Session Collaboration Autonomy Controls.

Section handlers.
Context `{!Env}.

Definition _command_envelope (command : AgentCommand) : pydict := [
  ("command_id", PStr (cmd_id command));
  ("room_id", PStr (cmd_room_id command));
  ("issuer_agent_id", PStr (cmd_issuer_agent_id command));
  ("target_agent_id", PStr (cmd_target_agent_id command));
  ("kind", PStr (cmd_kind command));
  ("instruction", PStr (cmd_instruction command));
  ("structured_payload", PDict (cmd_structured_payload command));
  ("constraints", PDict (cmd_constraints command))].

(** [rules.get(action_class) or DEFAULT_APPROVAL_RULES[action_class]] *)
Definition rule_of (policy : AutonomyPolicy) (action_class : string) : result pydict :=
  let rules := match pol_approval_rules policy with
               | [] => DEFAULT_APPROVAL_RULES | rules => rules end in
  or_type_error (dict_or_empty (py_or (dict_get rules action_class)
                                      (dict_get DEFAULT_APPROVAL_RULES action_class))).

Definition approval_by_key (owner_subject : string) (key : option string)
    : M (option ApprovalRequest) :=
  find_by_key apr_owner_subject apr_idempotency_key owner_subject key.

Definition sorted_keys (d : pydict) : pyval := str_list (sort_strings (map fst d)).

(** [command.approved_by_subject = approval:<request>] *)
Definition approved_command (request_id : string) (now : Z) (command : AgentCommand)
    : AgentCommand :=
  command <| cmd_approved_by_subject := Some ("approval:" +:+ request_id) |>
          <| cmd_updated_at := now |>.

Definition create_approval_request (owner_subject actor_subject : string) (data : pydict)
    : M ApprovalRequest :=
  policy_id ← lift (_required_text (dict_get data "policy_id") "policy_id" 36);
  policy ← Autonomy._policy owner_subject policy_id;
  assert_enabled owner_subject (pol_room_id policy) policy;;
  command_id ← lift (_required_text (dict_get data "command_id") "command_id" 36);
  command ← Autonomy._command owner_subject command_id;
  executor_agent_id ← lift (_required_text (dict_get data "executor_agent_id")
                              "executor_agent_id" 36);
  executor ← Autonomy._agent owner_subject executor_agent_id;
  fail_if ((cmd_room_id command =/? pol_room_id policy)
           || (ag_current_room_id executor =/? Some (pol_room_id policy))) 409
    "Command, executor, and policy room must match";;
  fail_if (cmd_target_agent_id command =/? ag_id executor) 409
    "Executor is not the command target";;
  fail_if (cmd_status command ∈? COMMAND_TERMINAL_STATUSES) 409
    "Terminal command cannot be approved";;
  let action_class := str_or_empty (dict_get data "action_class") in
  fail_if (negb (action_class ∈? ACTION_CLASSES)
           || negb (action_class ∈? pol_allowed_action_classes policy)) 403
    "Action class is not allowed by policy";;
  execution ← policy_400 (resolve_agent_command_execution
    [("kind", PStr (cmd_kind command));
     ("structured_payload", PDict (cmd_structured_payload command))]
    (pol_allowed_tools policy) (pol_allowed_command_profiles policy));
  idempotency_key ← lift (_optional_text (dict_get data "idempotency_key") 160);
  existing ← approval_by_key owner_subject idempotency_key;
  match existing with Some request => mret request | None =>
  let payload_hash := _sha256 (PDict (_command_envelope command)) in
  rule ← lift (rule_of policy action_class);
  ttl_seconds ← lift (Autonomy._bounded_int (dict_get data "ttl_seconds") "ttl_seconds"
    30 86400 (Some (gateway_autonomy_approval_ttl_seconds settings)));
  now ← utcnow;
  new_id ← uuid4;
  action_kind ← lift (_required_text
    (py_or (dict_get data "action_kind") (PStr "run_tool")) "action_kind" 120);
  quorum_required ← lift (Autonomy._bounded_int (dict_get_or rule "quorum" (PInt 1))
                            "quorum_required" 0 20 None);
  let require_admin := truthy (dict_get_or rule "require_admin" (PBool false)) in
  let immediate := (quorum_required =? 0) && negb require_admin in
  let request := {|
    apr_id := new_id;
    apr_owner_subject := owner_subject;
    apr_room_id := pol_room_id policy;
    apr_policy_id := pol_id policy;
    apr_command_id := Some (cmd_id command);
    apr_work_item_id := None;
    apr_integration_id := None;
    apr_proposer_agent_id := Some (cmd_issuer_agent_id command);
    apr_executor_agent_id := ag_id executor;
    apr_action_kind := action_kind;
    apr_action_class := action_class;
    apr_tool := exec_tool execution;
    apr_command_profile := exec_command_profile execution;
    apr_payload_hash := payload_hash;
    apr_payload_summary := [
      ("command_id", PStr (cmd_id command));
      ("tool", PStr (exec_tool execution));
      ("command_profile", opt_str (exec_command_profile execution));
      ("argument_keys", sorted_keys (exec_arguments execution));
      ("constraint_keys", sorted_keys (cmd_constraints command))];
    apr_quorum_required := quorum_required;
    apr_require_admin_approval := require_admin;
    apr_disallow_proposer_vote :=
      truthy (dict_get_or rule "disallow_proposer" (PBool true));
    apr_status := if immediate then "approved" else "pending";
    apr_policy_generation := pol_generation policy;
    apr_version := 1;
    apr_idempotency_key := idempotency_key;
    apr_created_by_subject := actor_subject;
    apr_expires_at := now + seconds ttl_seconds;
    apr_approved_at := if immediate then Some now else None;
    apr_rejected_at := None;
    apr_revoked_at := None;
    apr_created_at := now;
    apr_updated_at := now;
  |} in
  (if immediate then put (approved_command (apr_id request) now command) else mret tt);;
  add request;;
  create_or_existing
    (emit "gateway.autonomy.approval.requested.v1" actor_subject "requested"
       "approval_request" (apr_id request) "success"
       [("approval_request_id", PStr (apr_id request));
        ("policy_id", PStr (pol_id policy));
        ("room_id", PStr (pol_room_id policy));
        ("command_id", PStr (cmd_id command));
        ("executor_agent_id", PStr (ag_id executor));
        ("action_class", PStr action_class);
        ("tool", PStr (exec_tool execution));
        ("quorum_required", PInt (apr_quorum_required request));
        ("require_admin_approval", PBool (apr_require_admin_approval request));
        ("status", PStr (apr_status request));
        ("policy_generation", PInt (apr_policy_generation request));
        ("payload_hash", PStr payload_hash)])
    request (approval_by_key owner_subject idempotency_key)
    "Approval request conflict"
  end.

(** ** Who may vote and see *)

(** [.first()] on the grants, in the order the database returns them. *)
Definition approval_grant (request : ApprovalRequest) (user : User) (d : db)
    : option AccessGrant :=
  head (select (λ g, (grant_owner_subject g ==? apr_owner_subject request)
    && (grant_grantee_subject g ==? usr_subject user)
    && (grant_resource_type g ==? "autonomy_approval")
    && (grant_resource_id g ∈? [apr_id request; apr_policy_id request;
                                apr_room_id request])
    && (grant_status g ==? "active")) d).

Definition approval_user_can_vote (request : ApprovalRequest) (user : User) : M bool :=
  if (usr_subject user ==? apr_owner_subject request)
     || ("gateway-admin" ∈? usr_roles user)
  then mret true else
  grant ← reads (approval_grant request user);
  mret match grant with Some g => "approve" ∈? grant_scopes g | None => false end.

Definition _can_vote (request : ApprovalRequest) (user : User) : M bool :=
  approval_user_can_vote request user.

(** The filter that a grant adds to the visible requests. *)
Definition grant_shows (grant : AccessGrant) (request : ApprovalRequest) : bool :=
  let resource_id := strip (grant_resource_id grant) in
  ("approve" ∈? grant_scopes grant) && (resource_id =/? "")
  && (apr_owner_subject request ==? grant_owner_subject grant)
  && ((apr_id request ==? resource_id) || (apr_policy_id request ==? resource_id)
      || (apr_room_id request ==? resource_id)).

Definition approval_visibility_query (user : User) (d : db) : ApprovalRequest → bool :=
  if "gateway-admin" ∈? usr_roles user then λ _, true else
  let grants := select (λ g, (grant_grantee_subject g ==? usr_subject user)
    && (grant_resource_type g ==? "autonomy_approval")
    && (grant_status g ==? "active")) d in
  λ request, (apr_owner_subject request ==? usr_subject user)
             || existsb (λ g, grant_shows g request) grants.

Definition is_admin_vote (vote : ApprovalVote) : bool :=
  "gateway-admin" ∈? vote_voter_roles vote.

Definition votes_for (decision : string) (votes : list ApprovalVote) : list ApprovalVote :=
  filter (λ v, (vote_decision v ==? decision) = true) votes.

Definition request_votes (request_id : string) (d : db) : list ApprovalVote :=
  sort_by (λ a b, lex_leb [Z.compare (vote_created_at a) (vote_created_at b);
                           String.compare (vote_id a) (vote_id b)])
    (select (λ v, vote_request_id v ==? request_id) d).

(** The quorum is met: enough approvals, one of them by an admin if required. *)
Definition quorum_met (request : ApprovalRequest) (votes : list ApprovalVote) : bool :=
  let approvals := votes_for "approve" votes in
  (apr_quorum_required request <=? Z.of_nat (length approvals))
  && (negb (apr_require_admin_approval request) || existsb is_admin_vote approvals).

(** [approval_review_projection], from the target of the request on. *)
Definition approval_review_projection (request : ApprovalRequest) (user : User)
    (votes : list ApprovalVote) (target : pydict) : M pydict :=
  let approvals := votes_for "approve" votes in
  let rejects := votes_for "reject" votes in
  let admin_approvals := filter (λ v, is_admin_vote v = true) approvals in
  let current_vote := List.find (λ v, vote_voter_subject v ==? usr_subject user) votes in
  authorized ← _can_vote request user;
  now ← utcnow;
  let expired := apr_expires_at request <=? now in
  let reason :=
    if py_eqb (dict_get target "review_surface") (PStr "affine")
    then Some "AFFiNE-targeted approvals are reviewed in AFFiNE Notifications"
    else if negb authorized then Some "Approval vote is outside granted scope"
    else if (apr_status request =/? "pending") || expired
    then Some "Approval request is not pending"
    else if apr_disallow_proposer_vote request
            && (usr_subject user ==? apr_created_by_subject request)
    then Some "Proposer cannot vote on this request"
    else if negb (is_none current_vote) then Some "Current reviewer already voted"
    else None in
  mret [
    ("surface", dict_get target "review_surface");
    ("authorized", PBool authorized);
    ("can_vote", PBool (is_none reason));
    ("reason", opt_str reason);
    ("current_voter_decision", opt_str (option_map vote_decision current_vote));
    ("approve_count", PInt (Z.of_nat (length approvals)));
    ("reject_count", PInt (Z.of_nat (length rejects)));
    ("quorum_required", PInt (apr_quorum_required request));
    ("quorum_met", PBool (quorum_met request votes));
    ("admin_required", PBool (apr_require_admin_approval request));
    ("admin_approve_count", PInt (Z.of_nat (length admin_approvals)));
    ("expired", PBool expired);
    ("target", PDict target)].

(** ** Expiry *)
Definition _expire_approval (request : ApprovalRequest) : M ApprovalRequest :=
  if apr_status request =/? "pending" then mret request else
  now ← utcnow;
  if now <? apr_expires_at request then mret request else
  updated_at ← utcnow;
  mret (request <| apr_status := "expired" |> <| apr_updated_at := updated_at |>
                <| apr_version ::= λ v, v + 1 |>).

Definition list_approval_requests (owner_subject : option string) (user : option User)
    (rid status : option string) : M (list ApprovalRequest) :=
  visible ← match user, owner_subject with
    | Some user, _ => reads (approval_visibility_query user)
    | None, Some owner => mret (λ r, apr_owner_subject r ==? owner)
    | None, None => throw TypeError
    end;
  requests ← query (λ r, visible r && in_scope rid (apr_room_id r)
                         && in_scope status (apr_status r));
  let requests := sort_by (λ a b, apr_created_at b <=? apr_created_at a) requests in
  updated ← traverse _expire_approval requests;
  let changed := filter (λ p, (apr_status p.1 =/? apr_status p.2) = true)
                   (zip requests updated) in
  foreach (λ p, put p.2) changed;;
  match changed with [] => mret tt | _ => commit end;;
  mret updated.

(** ** Votes *)

(** The request after a vote that left [votes] recorded. *)
Definition decided_request (request : ApprovalRequest) (votes : list ApprovalVote) (now : Z)
    : ApprovalRequest :=
  let request :=
    if existsb (λ v, vote_decision v ==? "reject") votes then
      request <| apr_status := "rejected" |> <| apr_rejected_at := Some now |>
    else if quorum_met request votes then
      request <| apr_status := "approved" |> <| apr_approved_at := Some now |>
    else request in
  request <| apr_version ::= λ v, v + 1 |> <| apr_updated_at := now |>.

(** The command of a request that a vote has just approved. *)
Definition approve_request_command (request : ApprovalRequest) (now : Z) : M unit :=
  if opt_truthy (apr_command_id request) then
    command ← Autonomy._command (apr_owner_subject request)
                (default "" (apr_command_id request));
    put (approved_command (apr_id request) now command)
  else mret tt.

Definition cast_vote (request_id : string) (user : User) (decision : string)
    (reason : option string) : M ApprovalRequest :=
  request ← _approval request_id;
  allowed ← _can_vote request user;
  fail_if (negb allowed) 403 "Approval vote is outside granted scope";;
  request ← _expire_approval request;
  fail_if (apr_status request =/? "pending") 409 "Approval request is not pending";;
  fail_if (negb (decision ∈? ["approve"; "reject"])) 400 "Unsupported approval decision";;
  fail_if (apr_disallow_proposer_vote request
           && (usr_subject user ==? apr_created_by_subject request)) 403
    "Proposer cannot vote on this request";;
  existing ← query_one (λ v, (vote_request_id v ==? apr_id request)
                             && (vote_voter_subject v ==? usr_subject user));
  match existing with
  | Some existing =>
      fail_if (vote_decision existing =/? decision) 409
        "Voter already recorded a different decision";;
      mret request
  | None =>
  new_id ← uuid4;
  reason ← lift (_optional_text (opt_str reason) 10000);
  created_at ← utcnow;
  add {|
    vote_id := new_id;
    vote_owner_subject := apr_owner_subject request;
    vote_request_id := apr_id request;
    vote_voter_subject := usr_subject user;
    vote_voter_roles := sort_strings (dedup (usr_roles user));
    vote_decision := decision;
    vote_reason := reason;
    vote_created_at := created_at;
  |};;
  flush;;
  votes ← reads (request_votes (apr_id request));
  now ← utcnow;
  let request := decided_request request votes now in
  (if apr_status request ==? "approved" then approve_request_command request now
   else mret tt);;
  put request;;
  emit "gateway.autonomy.approval.voted.v1" (usr_subject user) decision
    "approval_request" (apr_id request)
    (if decision ==? "reject" then "warning" else "success")
    [("approval_request_id", PStr (apr_id request));
     ("decision", PStr decision);
     ("voter_subject", PStr (usr_subject user));
     ("status", PStr (apr_status request));
     ("approve_count", PInt (Z.of_nat (length (votes_for "approve" votes))));
     ("quorum_required", PInt (apr_quorum_required request))];;
  commit;;
  mret request
  end.
End handlers.
