(* ===== verification/Permits.v ===== *)
(** * Execution permits and action receipts ([agent_autonomy.py])

    A permit carries one use of an approved command; claiming it re-checks the
    request, the policy and the controls; a receipt closes it. *)

From S2P Require Import Prelude PyStr PyVal Errors CommandPolicy Validate Models.
From S2P Require Import Database Session Autonomy Controls Approvals.

Section handlers.
Context `{!Env}.

Definition _verify_request_integrity (request : ApprovalRequest) : M AgentCommand :=
  policy ← Autonomy._policy (apr_owner_subject request) (apr_policy_id request);
  fail_if (negb (pol_generation policy =? apr_policy_generation request)
           || (pol_status policy =/? "active")) 409
    "Approval policy generation is stale";;
  command_id ← require (apr_command_id request) 409 "Approval request has no command";
  command ← Autonomy._command (apr_owner_subject request) command_id;
  fail_if (_sha256 (PDict (_command_envelope command)) =/? apr_payload_hash request) 409
    "Approved command payload changed";;
  fail_if (cmd_target_agent_id command =/? apr_executor_agent_id request) 409
    "Approved executor changed";;
  mret command.

Definition _expire_permit (permit : ExecutionPermit) : M ExecutionPermit :=
  if negb (pmt_status permit ∈? ["active"; "claimed"]) then mret permit else
  now ← utcnow;
  if now <? pmt_expires_at permit then mret permit else
  updated_at ← utcnow;
  mret (permit <| pmt_status := "expired" |> <| pmt_updated_at := updated_at |>).

Definition issue_permit (owner_subject actor_subject request_id : string)
    (ttl_seconds : option Z) : M ExecutionPermit :=
  request ← _approval request_id;
  fail_if (apr_owner_subject request =/? owner_subject) 404 "Approval request not found";;
  request ← _expire_approval request;
  fail_if (apr_status request =/? "approved") 409 "Approval request is not approved";;
  command ← _verify_request_integrity request;
  policy ← Autonomy._policy owner_subject (apr_policy_id request);
  snapshot ← assert_enabled owner_subject (apr_room_id request) policy;
  existing ← query_one (λ p, pmt_approval_request_id p ==? apr_id request);
  match existing with
  | Some existing =>
      existing ← _expire_permit existing;
      fail_if (negb (pmt_status existing ∈? ["active"; "claimed"])) 409
        "Terminal execution permit requires a new approval request";;
      mret existing
  | None =>
  requested_ttl ← lift (_bounded_int (from_option PInt PNone ttl_seconds) "ttl_seconds"
    30 3600 (Some (gateway_autonomy_permit_ttl_seconds settings)));
  now ← utcnow;
  let expires_at := Z.min (apr_expires_at request) (now + seconds requested_ttl) in
  fail_if (expires_at <=? now) 409 "Approval request has expired";;
  new_id ← uuid4;
  let permit := {|
    pmt_id := new_id;
    pmt_owner_subject := owner_subject;
    pmt_approval_request_id := apr_id request;
    pmt_policy_id := pol_id policy;
    pmt_command_id := Some (cmd_id command);
    pmt_executor_agent_id := apr_executor_agent_id request;
    pmt_action_class := apr_action_class request;
    pmt_tool := apr_tool request;
    pmt_command_profile := apr_command_profile request;
    pmt_payload_hash := apr_payload_hash request;
    pmt_status := "active";
    pmt_policy_generation := pol_generation policy;
    pmt_control_snapshot := snapshot;
    pmt_fencing_token := 1;
    pmt_max_uses := 1;
    pmt_use_count := 0;
    pmt_issued_by_subject := actor_subject;
    pmt_issued_at := now;
    pmt_expires_at := expires_at;
    pmt_claimed_at := None;
    pmt_consumed_at := None;
    pmt_revoked_at := None;
    pmt_revocation_reason := None;
    pmt_created_at := now;
    pmt_updated_at := now;
  |} in
  add permit;;
  emit "gateway.autonomy.permit.issued.v1" actor_subject "issued" "execution_permit"
    (pmt_id permit) "success"
    [("permit_id", PStr (pmt_id permit));
     ("approval_request_id", PStr (apr_id request));
     ("policy_id", PStr (pol_id policy));
     ("command_id", PStr (cmd_id command));
     ("executor_agent_id", PStr (pmt_executor_agent_id permit));
     ("action_class", PStr (pmt_action_class permit));
     ("tool", PStr (pmt_tool permit));
     ("payload_hash", PStr (pmt_payload_hash permit));
     ("policy_generation", PInt (pmt_policy_generation permit));
     ("fencing_token", PInt (pmt_fencing_token permit));
     ("expires_at", PStr (isoformat (pmt_expires_at permit)))];;
  commit;;
  mret permit
  end.

(** The conditional update of a claim. *)
Definition claim_guard (owner_subject : string) (permit row : ExecutionPermit) : bool :=
  (pmt_owner_subject row ==? owner_subject) && (pmt_status row ==? "active")
  && (pmt_fencing_token row =? pmt_fencing_token permit).

Definition claimed_permit (now : Z) (permit : ExecutionPermit) : ExecutionPermit :=
  permit <| pmt_status := "claimed" |> <| pmt_claimed_at := Some now |>
         <| pmt_use_count ::= λ n, n + 1 |> <| pmt_updated_at := now |>.

(** [a != b] on two [dict.get("generations")]. *)
Definition same_generations (snapshot recorded : pydict) : bool :=
  py_eqb (dict_get snapshot "generations") (dict_get recorded "generations").

Definition claim_permit (owner_subject permit_id executor_agent_id : string)
    : M ExecutionPermit :=
  permit ← _permit owner_subject permit_id;
  permit ← _expire_permit permit;
  if (pmt_status permit ==? "claimed")
     && (pmt_executor_agent_id permit ==? executor_agent_id)
  then mret permit else
  fail_if (pmt_status permit =/? "active") 409 "Execution permit is not active";;
  fail_if (pmt_executor_agent_id permit =/? executor_agent_id) 403
    "Execution permit belongs to another agent";;
  request ← _approval (pmt_approval_request_id permit);
  command ← _verify_request_integrity request;
  policy ← Autonomy._policy owner_subject (pmt_policy_id permit);
  snapshot ← assert_enabled owner_subject (apr_room_id request) policy;
  fail_if (negb (pol_generation policy =? pmt_policy_generation permit)) 409
    "Execution permit policy generation is stale";;
  fail_if (negb (same_generations snapshot (pmt_control_snapshot permit))) 409
    "Execution permit control generation is stale";;
  fail_if (cmd_status command =/? "accepted") 409
    "Command must be accepted before permit claim";;
  now ← utcnow;
  changed ← update_row (pmt_id permit) (claim_guard owner_subject permit)
              (claimed_permit now);
  (if changed =/? 1 then rollback;; fail 409 "Execution permit claim conflict"
   else mret tt);;
  flush;;
  claimed ← _permit owner_subject (pmt_id permit);
  emit "gateway.autonomy.permit.claimed.v1" owner_subject "claimed" "execution_permit"
    (pmt_id claimed) "success"
    [("permit_id", PStr (pmt_id claimed));
     ("approval_request_id", PStr (pmt_approval_request_id claimed));
     ("command_id", opt_str (pmt_command_id claimed));
     ("executor_agent_id", PStr (pmt_executor_agent_id claimed));
     ("fencing_token", PInt (pmt_fencing_token claimed));
     ("payload_hash", PStr (pmt_payload_hash claimed))];;
  commit;;
  mret claimed.

Definition receipt_by_key (owner_subject : string) (key : option string)
    : M (option ActionReceipt) :=
  find_by_key rcpt_owner_subject rcpt_idempotency_key owner_subject key.

(** [isinstance(value, datetime)] for both, in order. *)
Definition receipt_times (started_at completed_at : pyval) : result (Z * Z) :=
  match started_at, completed_at with
  | PTime s, PTime c =>
      raise_if (c <? s) (HTTPException 400 "Receipt completion precedes start");;
      Ok (s, c)
  | _, _ => http 400 "Receipt timestamps are required"
  end.

Definition record_receipt (owner_subject : string) (data : pydict) : M ActionReceipt :=
  idempotency_key ← lift (_optional_text (dict_get data "idempotency_key") 160);
  existing ← receipt_by_key owner_subject idempotency_key;
  match existing with Some receipt => mret receipt | None =>
  permit_id ← lift (_required_text (dict_get data "permit_id") "permit_id" 36);
  permit ← _permit owner_subject permit_id;
  executor_agent_id ← lift (_required_text (dict_get data "executor_agent_id")
                              "executor_agent_id" 36);
  fail_if (pmt_executor_agent_id permit =/? executor_agent_id) 403
    "Receipt executor does not match permit";;
  token ← lift (or_type_error (py_int (py_or (dict_get data "fencing_token") (PInt 0))));
  fail_if (negb (pmt_fencing_token permit =? token)) 409
    "Receipt fencing token is stale";;
  fail_if (negb (pmt_status permit ∈? ["claimed"; "revoked"])
           || is_none (pmt_claimed_at permit)) 409
    "Permit was not claimed for execution";;
  let status := str_or_empty (dict_get data "status") in
  fail_if (negb (status ∈? RECEIPT_STATUSES)) 400 "Unsupported receipt status";;
  result_summary ← lift (safe_dict (dict_get data "result_summary")
                           "action receipt result");
  external_references ← lift (safe_list (dict_get data "external_references")
                                "action receipt external references");
  times ← lift (receipt_times (dict_get data "started_at") (dict_get data "completed_at"));
  let output_hash := _sha256 (PDict [
    ("status", PStr status);
    ("result_summary", PDict result_summary);
    ("error", dict_get data "error");
    ("external_references", PList external_references)]) in
  new_id ← uuid4;
  error ← lift (_optional_text (dict_get data "error") 10000);
  created_at ← utcnow;
  let receipt := {|
    rcpt_id := new_id;
    rcpt_owner_subject := owner_subject;
    rcpt_permit_id := pmt_id permit;
    rcpt_approval_request_id := pmt_approval_request_id permit;
    rcpt_command_id := pmt_command_id permit;
    rcpt_executor_agent_id := executor_agent_id;
    rcpt_action_class := pmt_action_class permit;
    rcpt_tool := pmt_tool permit;
    rcpt_command_profile := pmt_command_profile permit;
    rcpt_status := status;
    rcpt_input_hash := pmt_payload_hash permit;
    rcpt_output_hash := Some output_hash;
    rcpt_result_summary := result_summary;
    rcpt_error := error;
    rcpt_external_references := external_references;
    rcpt_idempotency_key := idempotency_key;
    rcpt_started_at := times.1;
    rcpt_completed_at := times.2;
    rcpt_created_at := created_at;
  |} in
  add receipt;;
  now ← utcnow;
  put (permit <| pmt_status := "consumed" |> <| pmt_consumed_at := Some now |>
              <| pmt_updated_at := now |>);;
  create_or_existing
    (emit "gateway.autonomy.action.receipt.recorded.v1" owner_subject status
       "action_receipt" (rcpt_id receipt)
       (if status ==? "succeeded" then "success" else "warning")
       [("receipt_id", PStr (rcpt_id receipt));
        ("permit_id", PStr (pmt_id permit));
        ("approval_request_id", PStr (pmt_approval_request_id permit));
        ("command_id", opt_str (pmt_command_id permit));
        ("executor_agent_id", PStr executor_agent_id);
        ("action_class", PStr (pmt_action_class permit));
        ("tool", PStr (pmt_tool permit));
        ("status", PStr status);
        ("input_hash", PStr (rcpt_input_hash receipt));
        ("output_hash", opt_str (rcpt_output_hash receipt));
        ("fencing_token", PInt (pmt_fencing_token permit))])
    receipt (query_one (λ r, rcpt_permit_id r ==? pmt_id permit))
    "Action receipt conflict"
  end.

Definition list_permits (owner_subject : string) (status : option string)
    : M (list ExecutionPermit) :=
  permits ← query (λ p, (pmt_owner_subject p ==? owner_subject)
                        && in_scope status (pmt_status p));
  let permits := sort_by (λ a b, pmt_created_at b <=? pmt_created_at a) permits in
  updated ← traverse _expire_permit permits;
  let changed := filter (λ p, (pmt_status p.1 =/? pmt_status p.2) = true)
                   (zip permits updated) in
  foreach (λ p, put p.2) changed;;
  match changed with [] => mret tt | _ => commit end;;
  mret updated.

Definition list_receipts (owner_subject : string) (command_id : option string)
    : M (list ActionReceipt) :=
  receipts ← query (λ r, (rcpt_owner_subject r ==? owner_subject)
    && (if opt_truthy command_id then rcpt_command_id r ==? command_id else true));
  mret (sort_by (λ a b, rcpt_created_at b <=? rcpt_created_at a) receipts).
End handlers.
