(* ===== verification/Recovery.v ===== *)
(** * Recovery loops, operator overrides, metrics and the worker
      ([agent_autonomy.py])

    A recovery loop re-issues a command with bounded attempts and exponential
    backoff.  The worker runs one assignment and one recovery cycle per active
    policy, each in a session of its own. *)

From S2P Require Import Prelude PyStr PyVal Errors CommandPolicy Validate Models.
From S2P Require Import Database Session Collaboration Autonomy Controls Assignments.

Section handlers.
Context `{!Env}.

Definition recovery_by_key (owner_subject : string) (key : option string)
    : M (option RecoveryLoop) :=
  find_by_key rec_owner_subject rec_idempotency_key owner_subject key.

(** The source of a recovery exists, in the room. *)
Definition check_recovery_source (owner_subject rid source_type source_id : string)
    : M unit :=
  if source_type ==? "command" then
    source ← Autonomy._command owner_subject source_id;
    fail_if (cmd_room_id source =/? rid) 409 "Recovery command room mismatch"
  else if source_type ==? "work_item" then
    source ← Autonomy._work_item owner_subject source_id;
    fail_if (wi_room_id source =/? rid) 409 "Recovery work item room mismatch"
  else if source_type ==? "action_receipt" then
    source ← find_row source_id (λ r, rcpt_owner_subject r ==? owner_subject);
    require source 404 "Recovery receipt not found";;
    mret tt
  else fail 400 "Unsupported recovery source type".

Definition recovery_policy_of (policy : AutonomyPolicy) : pydict :=
  match pol_recovery_policy policy with [] => DEFAULT_RECOVERY_POLICY | d => d end.

(** [int(recovery_policy.get(name, default))] *)
Definition recovery_int (recovery_policy : pydict) (name : string) (default : Z)
    : result Z :=
  or_type_error (py_int (dict_get_or recovery_policy name (PInt default))).

Definition strategy_kind (strategy : pydict) : string :=
  py_str (py_or (dict_get strategy "kind") (PStr "instruction")).

Definition create_recovery_loop (owner_subject actor_subject : string) (data : pydict)
    : M RecoveryLoop :=
  policy_id ← lift (_required_text (dict_get data "policy_id") "policy_id" 36);
  policy ← _policy owner_subject policy_id;
  rid ← lift (_required_text (dict_get data "room_id") "room_id" 36);
  fail_if (pol_room_id policy =/? rid) 409 "Recovery policy room mismatch";;
  assert_enabled owner_subject rid policy;;
  target_agent_id ← lift (_required_text (dict_get data "target_agent_id")
                            "target_agent_id" 36);
  target_agent ← Autonomy._agent owner_subject target_agent_id;
  fail_if (ag_current_room_id target_agent =/? Some rid) 409
    "Recovery target is not in room";;
  let source_type := str_or_empty (dict_get data "source_type") in
  source_id ← lift (_required_text (dict_get data "source_id") "source_id" 160);
  check_recovery_source owner_subject rid source_type source_id;;
  strategy ← lift (safe_dict (dict_get data "strategy") "recovery strategy");
  structured_payload ← lift (or_type_error
    (dict_or_empty (dict_get strategy "structured_payload")));
  policy_400 (validate_agent_command_for_delivery
    [("kind", PStr (strategy_kind strategy));
     ("instruction", dict_get strategy "instruction");
     ("structured_payload", PDict structured_payload)]);;
  idempotency_key ← lift (_optional_text (dict_get data "idempotency_key") 160);
  existing ← recovery_by_key owner_subject idempotency_key;
  match existing with Some loop => mret loop | None =>
  let recovery_policy := recovery_policy_of policy in
  attempts ← lift (recovery_int recovery_policy "max_attempts" 3);
  max_attempts ← lift (_bounded_int (dict_get data "max_attempts") "max_attempts"
                         1 attempts (Some attempts));
  max_backoff ← lift (recovery_int recovery_policy "max_backoff_seconds" 900);
  default_backoff ← lift (recovery_int recovery_policy "base_backoff_seconds" 30);
  base_backoff ← lift (_bounded_int (dict_get data "base_backoff_seconds")
    "base_backoff_seconds" 1 max_backoff (Some default_backoff));
  now ← utcnow;
  new_id ← uuid4;
  let loop := {|
    rec_id := new_id;
    rec_owner_subject := owner_subject;
    rec_room_id := rid;
    rec_policy_id := pol_id policy;
    rec_source_type := source_type;
    rec_source_id := source_id;
    rec_target_agent_id := ag_id target_agent;
    rec_strategy := strategy;
    rec_status := "planned";
    rec_attempt_count := 0;
    rec_max_attempts := max_attempts;
    rec_base_backoff_seconds := base_backoff;
    rec_next_attempt_at := now;
    rec_last_command_id := None;
    rec_last_error := None;
    rec_policy_generation := pol_generation policy;
    rec_generation := 1;
    rec_idempotency_key := idempotency_key;
    rec_created_by_subject := actor_subject;
    rec_created_at := now;
    rec_updated_at := now;
    rec_completed_at := None;
  |} in
  add loop;;
  create_or_existing
    (emit "gateway.autonomy.recovery.created.v1" actor_subject "created" "recovery_loop"
       (rec_id loop) "success"
       [("recovery_loop_id", PStr (rec_id loop));
        ("policy_id", PStr (pol_id policy));
        ("room_id", PStr rid);
        ("source_type", PStr source_type);
        ("source_id", PStr source_id);
        ("target_agent_id", PStr (ag_id target_agent));
        ("max_attempts", PInt (rec_max_attempts loop));
        ("policy_generation", PInt (rec_policy_generation loop))])
    loop (recovery_by_key owner_subject idempotency_key)
    "Recovery loop conflict"
  end.

(** The command that an attempt of a loop issues. *)
Definition recovery_command (coordinator_id : string) (loop : RecoveryLoop) (attempt : Z)
    : result pydict :=
  let strategy := rec_strategy loop in
  structured_payload ← or_type_error
    (dict_or_empty (dict_get strategy "structured_payload"));
  constraints ← or_type_error (dict_or_empty (dict_get strategy "constraints"));
  priority ← or_type_error (py_int (dict_get_or strategy "priority" (PInt 80)));
  Ok [("room_id", PStr (rec_room_id loop));
      ("issuer_agent_id", PStr coordinator_id);
      ("target_agent_id", PStr (rec_target_agent_id loop));
      ("kind", PStr (strategy_kind strategy));
      ("instruction", PStr (str_or_empty (dict_get strategy "instruction")));
      ("structured_payload", PDict structured_payload);
      ("constraints", PDict (dict_update constraints
         [("recovery_loop_id", PStr (rec_id loop));
          ("recovery_attempt", PInt attempt);
          ("source_type", PStr (rec_source_type loop));
          ("source_id", PStr (rec_source_id loop))]));
      ("priority", PInt priority);
      ("requires_approval", PBool (truthy (dict_get_or strategy "requires_approval"
         (PBool (strategy_kind strategy ==? "run_tool")))));
      ("correlation_id", PStr (rec_id loop));
      ("causation_id", PStr (rec_source_id loop));
      ("idempotency_key",
        PStr ("recovery:" +:+ rec_id loop +:+ ":" +:+ pretty attempt))].

Definition paused_loop (now : Z) (loop : RecoveryLoop) : RecoveryLoop :=
  loop <| rec_status := "paused" |>
       <| rec_last_error := Some "policy generation changed" |>
       <| rec_generation ::= λ g, g + 1 |> <| rec_updated_at := now |>.

Definition exhausted_loop (now : Z) (loop : RecoveryLoop) : RecoveryLoop :=
  loop <| rec_status := "exhausted" |> <| rec_completed_at := Some now |>
       <| rec_updated_at := now |>.

(** One attempt: the command is issued in its own transaction, then the loop
    waits for its outcome. *)
Definition attempt_recovery (owner_subject actor_subject : string)
    (policy : AutonomyPolicy) (coordinator_id : string) (loop : RecoveryLoop) : M unit :=
  let attempt := rec_attempt_count loop + 1 in
  data ← lift (recovery_command coordinator_id loop attempt);
  command ← issue_command owner_subject data;
  updated_at ← utcnow;
  let loop := loop <| rec_attempt_count := attempt |>
    <| rec_last_command_id := Some (cmd_id command) |>
    <| rec_status := "waiting" |> <| rec_updated_at := updated_at |> in
  put loop;;
  emit "gateway.autonomy.recovery.attempted.v1" actor_subject "attempted"
    "recovery_loop" (rec_id loop) "success"
    [("recovery_loop_id", PStr (rec_id loop));
     ("policy_id", PStr (pol_id policy));
     ("room_id", PStr (rec_room_id loop));
     ("attempt", PInt attempt);
     ("max_attempts", PInt (rec_max_attempts loop));
     ("command_id", PStr (cmd_id command));
     ("target_agent_id", PStr (rec_target_agent_id loop))];;
  commit.

Fixpoint recovery_loop (owner_subject actor_subject : string) (policy : AutonomyPolicy)
    (coordinator_id : string) (now : Z) (loops : list RecoveryLoop) (issued paused : Z)
    : M (Z * Z) :=
  match loops with
  | [] => mret (issued, paused)
  | loop :: loops =>
      if negb (rec_policy_generation loop =? pol_generation policy) then
        put (paused_loop now loop);;
        commit;;
        recovery_loop owner_subject actor_subject policy coordinator_id now loops
          issued (paused + 1)
      else if rec_max_attempts loop <=? rec_attempt_count loop then
        put (exhausted_loop now loop);;
        commit;;
        recovery_loop owner_subject actor_subject policy coordinator_id now loops
          issued paused
      else
        attempt_recovery owner_subject actor_subject policy coordinator_id loop;;
        recovery_loop owner_subject actor_subject policy coordinator_id now loops
          (issued + 1) paused
  end.

Definition recovery_result (considered issued paused : Z) : pydict :=
  [("considered", PInt considered); ("issued", PInt issued); ("paused", PInt paused)].

(** The planned loops of a policy that are due. *)
Definition due_loops (owner_subject policy_id : string) (now limit : Z) (d : db)
    : list RecoveryLoop :=
  take (Z.to_nat (Z.max 1 (Z.min limit 100))) (sort_by (λ a b, lex_leb
    [Z.compare (rec_next_attempt_at a) (rec_next_attempt_at b);
     Z.compare (rec_created_at a) (rec_created_at b)])
    (select (λ l, (rec_owner_subject l ==? owner_subject) && (rec_policy_id l ==? policy_id)
      && (rec_status l ==? "planned") && (rec_next_attempt_at l <=? now)) d)).

Definition run_recovery_cycle (owner_subject policy_id actor_subject : string) (limit : Z)
    : M pydict :=
  policy ← _policy owner_subject policy_id;
  assert_enabled owner_subject (pol_room_id policy) policy;;
  if negb (opt_truthy (pol_coordinator_agent_id policy)) then mret (recovery_result 0 0 0)
  else
  coordinator ← Autonomy._agent owner_subject (default "" (pol_coordinator_agent_id policy));
  if ag_current_room_id coordinator =/? Some (pol_room_id policy)
  then mret (recovery_result 0 0 0) else
  now ← utcnow;
  loops ← reads (due_loops owner_subject (pol_id policy) now limit);
  counts ← recovery_loop owner_subject actor_subject policy (ag_id coordinator) now loops
             0 0;
  mret (recovery_result (Z.of_nat (length loops)) counts.1 counts.2).

(** [min(max_backoff, base * 2 ** max(0, attempts - 1))] *)
Definition backoff_delay (max_backoff base_backoff attempt_count : Z) : Z :=
  Z.min max_backoff (base_backoff * 2 ^ Z.max 0 (attempt_count - 1)).

(** The loop after an outcome, before its generation is advanced. *)
Definition outcome_loop (owner_subject status : string) (error : option string) (now : Z)
    (loop : RecoveryLoop) : M RecoveryLoop :=
  if status ==? "succeeded" then
    mret (loop <| rec_status := "succeeded" |> <| rec_completed_at := Some now |>
               <| rec_last_error := None |>)
  else if status ==? "cancelled" then
    error ← lift (_optional_text (opt_str error) 10000);
    mret (loop <| rec_status := "cancelled" |> <| rec_completed_at := Some now |>
               <| rec_last_error := error |>)
  else if status ==? "failed" then
    error ← lift (_optional_text (opt_str error) 10000);
    let loop := loop <| rec_last_error := error |> in
    if rec_max_attempts loop <=? rec_attempt_count loop then
      mret (loop <| rec_status := "exhausted" |> <| rec_completed_at := Some now |>)
    else
      policy ← _policy owner_subject (rec_policy_id loop);
      max_backoff ← lift (recovery_int (recovery_policy_of policy)
                            "max_backoff_seconds" 900);
      let delay := backoff_delay max_backoff (rec_base_backoff_seconds loop)
                     (rec_attempt_count loop) in
      mret (loop <| rec_status := "planned" |>
                 <| rec_next_attempt_at := now + seconds delay |>)
  else fail 400 "Unsupported recovery outcome".

Definition record_recovery_outcome (owner_subject loop_id status : string)
    (command_id error : option string) : M RecoveryLoop :=
  loop ← _recovery owner_subject loop_id;
  if rec_status loop ∈? RECOVERY_TERMINAL then mret loop else
  fail_if (negb (rec_status loop ∈? ["waiting"; "running"; "paused"])) 409
    "Recovery loop has no active attempt";;
  fail_if (opt_truthy command_id && (rec_last_command_id loop =/? command_id)) 409
    "Recovery command does not match latest attempt";;
  now ← utcnow;
  loop ← outcome_loop owner_subject status error now loop;
  let loop := loop <| rec_generation ::= λ g, g + 1 |> <| rec_updated_at := now |> in
  put loop;;
  emit "gateway.autonomy.recovery.completed.v1" owner_subject status "recovery_loop"
    (rec_id loop) (if status ==? "succeeded" then "success" else "warning")
    [("recovery_loop_id", PStr (rec_id loop));
     ("policy_id", PStr (rec_policy_id loop));
     ("room_id", PStr (rec_room_id loop));
     ("attempt_count", PInt (rec_attempt_count loop));
     ("max_attempts", PInt (rec_max_attempts loop));
     ("status", PStr (rec_status loop));
     ("command_id", opt_str (rec_last_command_id loop))];;
  commit;;
  mret loop.

Definition list_recovery_loops (owner_subject : string) (rid status : option string)
    : M (list RecoveryLoop) :=
  loops ← query (λ l, (rec_owner_subject l ==? owner_subject)
    && in_scope rid (rec_room_id l) && in_scope status (rec_status l));
  mret (sort_by (λ a b, rec_created_at b <=? rec_created_at a) loops).

(** ** Operator overrides *)

(** What an override did: the scope, the states and the added evidence. *)
Record override_effect := mkEffect {
  eff_scope_type : string;
  eff_scope_id : string;
  eff_previous_state : option string;
  eff_new_state : option string;
  eff_evidence : pydict;
}.

Definition override_policy (owner_subject rid : string) (policy_id : option string)
    : M AutonomyPolicy :=
  match policy_id with
  | Some policy_id => _policy owner_subject policy_id
  | None =>
      active ← query (λ p, (pol_owner_subject p ==? owner_subject)
        && (pol_room_id p ==? rid) && (pol_status p ==? "active"));
      require (head (sort_by (λ a b, pol_created_at a <=? pol_created_at b) active)) 404
        "No active autonomy policy for work item"
  end.

Definition force_assign (owner_subject actor_subject reason : string) (data : pydict)
    : M override_effect :=
  work_item_id ← lift (_required_text (dict_get data "work_item_id") "work_item_id" 36);
  agent_id ← lift (_required_text (dict_get data "agent_id") "agent_id" 36);
  item ← Autonomy._work_item owner_subject work_item_id;
  policy_id ← lift (_optional_text (dict_get data "policy_id") 36);
  policy ← override_policy owner_subject (wi_room_id item) policy_id;
  Autonomy._agent owner_subject agent_id;;
  new_id ← uuid4;
  key ← uuid4;
  created_at ← utcnow;
  updated_at ← utcnow;
  let assignment := {|
    asg_id := new_id;
    asg_owner_subject := owner_subject;
    asg_room_id := wi_room_id item;
    asg_policy_id := pol_id policy;
    asg_work_item_id := wi_id item;
    asg_selected_agent_id := agent_id;
    asg_status := "proposed";
    asg_score := 1000000;
    asg_rationale := [("forced", PBool true); ("reason", PStr reason)];
    asg_policy_generation := pol_generation policy;
    asg_work_item_version := wi_version item;
    asg_idempotency_key := Some ("override:" +:+ key);
    asg_created_by_subject := actor_subject;
    asg_applied_at := None;
    asg_revoked_at := None;
    asg_created_at := created_at;
    asg_updated_at := updated_at;
  |} in
  add assignment;;
  flush;;
  _apply_assignment_record assignment actor_subject false;;
  mret (mkEffect "room" (wi_room_id item) None None
    [("assignment_id", PStr (asg_id assignment));
     ("work_item_id", PStr (wi_id item));
     ("agent_id", PStr agent_id);
     ("policy_id", PStr (pol_id policy))]).

(** Reopen the work item of a revoked assignment and free its agent. *)
Definition release_assignment (owner_subject : string) (assignment : AutonomyAssignment)
    : M unit :=
  item ← Autonomy._work_item owner_subject (asg_work_item_id assignment);
  agent ← Autonomy._agent owner_subject (asg_selected_agent_id assignment);
  if (wi_assigned_agent_id item ==? Some (ag_id agent))
     && (wi_status item ==? "in_progress")
  then
    now ← utcnow;
    put (item <| wi_status := "open" |> <| wi_assigned_agent_id := None |>
              <| wi_version ::= λ v, v + 1 |> <| wi_updated_at := now |>);;
    if ag_current_work_item_id agent ==? Some (wi_id item) then
      now ← utcnow;
      put (agent <| ag_current_work_item_id := None |> <| ag_status := "active" |>
                 <| ag_updated_at := now |>)
    else mret tt
  else mret tt.

Definition revoke_assignment (owner_subject : string) (data : pydict)
    : M override_effect :=
  assignment_id ← lift (_required_text (dict_get data "assignment_id")
                          "assignment_id" 36);
  assignment ← _assignment owner_subject assignment_id;
  (if asg_status assignment ==? "assigned"
   then release_assignment owner_subject assignment else mret tt);;
  now ← utcnow;
  put (assignment <| asg_status := "revoked" |> <| asg_revoked_at := Some now |>
                  <| asg_updated_at := now |>);;
  mret (mkEffect "room" (asg_room_id assignment) (Some (asg_status assignment))
    (Some "revoked") [("assignment_id", PStr (asg_id assignment))]).

(** The scope that a bulk override records. *)
Definition bulk_scope (rid policy_id : option string) : string * string :=
  match policy_id, rid with
  | Some p, _ => ("policy", p)
  | None, Some r => ("room", r)
  | None, None => ("tenant", "")
  end.

Definition bulk_override (owner_subject reason : string) (revoke : bool) (data : pydict)
    : M override_effect :=
  rid ← lift (_optional_text (dict_get data "room_id") 36);
  policy_id ← lift (_optional_text (dict_get data "policy_id") 36);
  count ← (if revoke then _revoke_permits owner_subject reason rid policy_id
           else _pause_or_cancel_recoveries owner_subject "killed" rid policy_id);
  let '(scope_type, scope_id) := bulk_scope rid policy_id in
  mret (mkEffect scope_type scope_id None None
    [(if revoke then "revoked_permits" else "cancelled_recoveries", PInt count)]).

Definition override_action (owner_subject actor_subject action reason : string)
    (data : pydict) : M override_effect :=
  if action ==? "force_assign" then force_assign owner_subject actor_subject reason data
  else if action ==? "revoke_assignment" then revoke_assignment owner_subject data
  else if action ==? "revoke_permits" then bulk_override owner_subject reason true data
  else if action ==? "cancel_recoveries" then bulk_override owner_subject reason false data
  else fail 400 "Unsupported operator override".

Definition apply_override (owner_subject actor_subject : string)
    (actor_roles : list string) (data : pydict) : M AutonomyOverride :=
  fail_if (negb ("gateway-admin" ∈? actor_roles)) 403
    "Operator override requires gateway-admin";;
  let action := str_or_empty (dict_get data "action") in
  reason ← lift (_required_text (dict_get data "reason") "reason" 10000);
  evidence ← lift (safe_dict (dict_get data "evidence") "override evidence");
  effect ← override_action owner_subject actor_subject action reason data;
  new_id ← uuid4;
  created_at ← utcnow;
  let evidence := dict_update evidence (eff_evidence effect) in
  let record := {|
    ovr_id := new_id;
    ovr_owner_subject := owner_subject;
    ovr_scope_type := eff_scope_type effect;
    ovr_scope_id := eff_scope_id effect;
    ovr_action := action;
    ovr_previous_state := eff_previous_state effect;
    ovr_new_state := eff_new_state effect;
    ovr_reason := reason;
    ovr_actor_subject := actor_subject;
    ovr_evidence := evidence;
    ovr_created_at := created_at;
  |} in
  add record;;
  emit "gateway.autonomy.override.applied.v1" actor_subject action "autonomy_override"
    (ovr_id record) "warning"
    [("override_id", PStr (ovr_id record));
     ("scope_type", PStr (ovr_scope_type record));
     ("scope_id", PStr (ovr_scope_id record));
     ("action", PStr action);
     ("evidence", PDict evidence)];;
  commit;;
  mret record.

Definition list_overrides (owner_subject : string) (limit : Z)
    : M (list AutonomyOverride) :=
  overrides ← query (λ o, ovr_owner_subject o ==? owner_subject);
  mret (take (Z.to_nat (Z.max 1 (Z.min limit 500)))
          (sort_by (λ a b, ovr_created_at b <=? ovr_created_at a) overrides)).

(** ** Metrics *)
Definition count_rows {R} `{!Table R} (p : R → bool) (d : db) : Z :=
  Z.of_nat (length (select p d)).

Definition status_counts {R} `{!Table R} (owner status : R → string)
    (owner_subject : string) (statuses : list string) (d : db) : pyval :=
  PDict (map (λ s, (s, PInt (count_rows (λ r : R,
    (owner r ==? owner_subject) && (status r ==? s)) d))) (sort_strings statuses)).

Definition metrics (owner_subject : string) : M pydict := reads (λ d, [
  ("enabled_by_configuration", PBool (gateway_autonomy_enabled settings));
  ("environment_emergency_stop", PBool (gateway_autonomy_emergency_stop settings));
  ("policies", status_counts pol_owner_subject pol_status owner_subject
                 POLICY_STATUSES d);
  ("approvals", status_counts apr_owner_subject apr_status owner_subject
                  (APPROVAL_TERMINAL ++ ["pending"]) d);
  ("permits", status_counts pmt_owner_subject pmt_status owner_subject
                (PERMIT_TERMINAL ++ ["active"; "claimed"]) d);
  ("recoveries", status_counts rec_owner_subject rec_status owner_subject
                   (RECOVERY_TERMINAL ++ ["planned"; "waiting"; "running"; "paused"]) d);
  ("assignments_total", PInt (count_rows (λ a, asg_owner_subject a ==? owner_subject) d));
  ("receipts_total", PInt (count_rows (λ r, rcpt_owner_subject r ==? owner_subject) d))]).

(** ** The worker *)
Definition worker_subject : string := "system:autonomy-worker".

Definition policy_keys (d : db) : list (string * string) :=
  map (λ p, (pol_owner_subject p, pol_id p))
    (sort_by (λ a b, pol_created_at a <=? pol_created_at b)
       (select (λ p, pol_status p ==? "active") d)).

(** [except HTTPException]: logged or ignored; other exceptions end the pass. *)
Definition pass_continues {A} (r : result A) : bool :=
  match r with Ok _ | Raise (HTTPException _ _) => true | Raise _ => false end.

(** The loop over the policies; [stopping n] is the event before the [n]th. *)
Fixpoint worker_policies (stopping : nat → bool) (n : nat)
    (keys : list (string * string)) (s : store) : store :=
  match keys with
  | [] => s
  | (owner_subject, policy_id) :: keys =>
      if stopping n then s else
      let '(r, s) := run (run_assignment_cycle owner_subject policy_id
                            worker_subject None) s in
      if negb (pass_continues r) then s else
      let '(r, s) := run (run_recovery_cycle owner_subject policy_id
                            worker_subject 10) s in
      if negb (pass_continues r) then s else
      worker_policies stopping (S n) keys s
  end.

(** One turn of the loop of [_run], between two sleeps. *)
Definition worker_pass (stopping : nat → bool) (s : store) : store :=
  worker_policies stopping 0 (policy_keys (st_db s)) s.
End handlers.
