(* ===== verification/ChatContext.v ===== *)
(** * Chat contexts ([chat_context.py], the endpoints of [routers/chat_contexts.py])

    A conversation is known to the gateway by a durable context and to people by a
    code of four characters that is leased to it.  A lease that runs out is
    quarantined, then released; the owner of a code gets it back, or a new one, with
    [refresh_alias].  The telemetry counters are left out.

    Rows are values here and objects of the session's identity map in the code: after
    a call that may write the rows the code holds, [current_state] reads them again.
    Queries run on the flushed rows while a reconciliation is still pending in the
    session; the only ones that could tell filter live aliases, and the code repeats
    the reconciliation, then without effect, on every row they return. *)

From S2P Require Import Prelude PyStr PyVal Errors Models Database Session.
From Stdlib Require Import Ascii.

Definition ACTOR_KINDS : list string := ["browser_extension"; "mcp"; "gateway"; "operator"].

Record ChatContextLease := mkLease {
  context_id : string;
  lease_code : string;
  lease_generation : Z;
  lease_expires_at : Z;
  rotated : bool;
}.

Record ChatContextBinding := mkBinding {
  bound_context_id : string;
  key_version : Z;
  newly_bound : bool;
}.

Definition chat_error_of {A} (kind : chat_error) (message : string) : result A :=
  Raise (ChatContextError kind message).
Definition chat_fail {A} (kind : chat_error) (message : string) : M A :=
  throw (ChatContextError kind message).

(** ** Arguments *)
Definition _bounded_value (value name : string) (maximum : Z) : result string :=
  let bounded := strip value in
  if (bounded ==? "") || (maximum <? len bounded)
  then chat_error_of ValidationError
         (name +:+ " must contain between 1 and " +:+ pretty maximum +:+ " characters")
  else Ok bounded.

Definition _owner (value : string) : result string := _bounded_value value "owner_subject" 255.

Definition _actor (value : string) : result string :=
  if value ∈? ACTOR_KINDS then Ok value
  else chat_error_of ValidationError "actor_kind is not supported".

(** [CHAT_CONTEXT_CODE_PATTERN.fullmatch] *)
Definition is_base62 (c : ascii) : bool :=
  let n := code c in between 48 57 n || between 65 90 n || between 97 122 n.
Definition is_code (value : string) : bool :=
  (len value =? 4) && forallb is_base62 (chars value).

Definition _code (value : string) : result string :=
  if is_code value then Ok value
  else chat_error_of ValidationError
         "chat context code must contain exactly four Base62 characters".

Definition is_control (c : ascii) : bool := (code c <? 32) || (code c =? 127).

(** Every text of Latin-1 characters is in normal form C. *)
Definition _normalize_conversation_reference (value : string) : result string :=
  let normalized := strip value in
  if (normalized ==? "") || (512 <? len normalized)
  then chat_error_of ValidationError
         "conversation_reference must contain between 1 and 512 characters"
  else if existsb is_control (chars normalized)
  then chat_error_of ValidationError "conversation_reference contains a control character"
  else Ok normalized.

Definition _lease (alias : ChatContextAlias) (is_rotated : bool) : ChatContextLease :=
  mkLease (ca_context_id alias) (ca_code alias) (ca_generation alias) (ca_expires_at alias)
    is_rotated.

(** [digest.hex()] *)
Definition hexlify (s : string) : string :=
  of_chars (flat_map (λ c, [hex_digit (code c / 16); hex_digit (code c mod 16)]) (chars s)).

Section handlers.
Context `{!Env}.

Definition _require_enabled : result unit :=
  if negb (gateway_chat_context_enabled settings)
  then chat_error_of Disabled "chat context persistence is disabled"
  else if len (utf8_encode (gateway_chat_context_hmac_key settings)) <? 32
  then chat_error_of ValidationError "chat context HMAC key is not configured"
  else Ok tt.

Definition _conversation_digest (normalized_reference : string) (version : Z) : string :=
  let version_key := hmac_sha256 (utf8_encode (gateway_chat_context_hmac_key settings))
                       ("chat-context-conversation-hmac:v" +:+ pretty version) in
  hexlify (hmac_sha256 version_key (utf8_encode normalized_reference)).

(** ** Contexts and events *)
Definition _lock_context (owner_subject context_id : string) : M ChatContext :=
  context ← find_row context_id (λ c, cc_owner_subject c ==? owner_subject);
  match context with
  | Some context => mret context
  | None => chat_fail NotFound "chat context was not found"
  end.

Definition _event (context : ChatContext) (action : string) (alias_generation : option Z)
    (actor_kind : string) (metadata : pydict) (now : Z) : M unit :=
  id ← uuid4;
  actor ← lift (_actor actor_kind);
  add {|
    ce_id := id;
    ce_context_id := cc_id context;
    ce_owner_subject := cc_owner_subject context;
    ce_action := action;
    ce_alias_generation := alias_generation;
    ce_actor_kind := actor;
    ce_event_metadata := metadata;
    ce_created_at := now;
  |}.

(** ** The clock moves an alias on *)
Definition quarantine_end (alias : ChatContextAlias) : Z :=
  ca_expires_at alias + seconds (gateway_chat_context_quarantine_seconds settings).

Definition quarantined_alias (now : Z) (alias : ChatContextAlias) : ChatContextAlias :=
  alias <| ca_status := "quarantined" |>
        <| ca_quarantine_until := Some (quarantine_end alias) |>
        <| ca_updated_at := now |>.

Definition released_alias (now : Z) (alias : ChatContextAlias) : ChatContextAlias :=
  alias <| ca_status := "released" |> <| ca_updated_at := now |>.

Definition lease_over (now : Z) (alias : ChatContextAlias) : bool :=
  (ca_status alias ==? "active") && (ca_expires_at alias <=? now).
Definition quarantine_over (now : Z) (alias : ChatContextAlias) : bool :=
  (ca_status alias ==? "quarantined")
  && match ca_quarantine_until alias with Some until => until <=? now | None => false end.

(** The alias and its context as they are afterwards. *)
Definition _reconcile_alias (context : ChatContext) (alias : ChatContextAlias) (now : Z)
    (actor_kind : string) : M (ChatContext * ChatContextAlias) :=
  moved ← (if lease_over now alias then
    let alias := quarantined_alias now alias in
    let context := context <| cc_state := "dormant" |> <| cc_updated_at := now |> in
    put alias;;
    put context;;
    _event context "expired" (Some (ca_generation alias)) actor_kind [] now;;
    _event context "quarantined" (Some (ca_generation alias)) actor_kind
      [("until", PStr (isoformat (quarantine_end alias)))] now;;
    mret (context, alias)
  else mret (context, alias));
  let '(context, alias) := moved in
  if quarantine_over now alias then
    let alias := released_alias now alias in
    put alias;;
    _event context "released" (Some (ca_generation alias)) actor_kind [] now;;
    mret (context, alias)
  else mret (context, alias).

Definition _reconcile_code_reservations (code : string) (now : Z) : M unit :=
  reservations ← query (λ a, (ca_code a ==? code) && live_alias a);
  foreach (λ alias,
    context ← _lock_context (ca_owner_subject alias) (ca_context_id alias);
    _reconcile_alias context alias now "gateway";;
    mret tt) reservations;;
  flush.

(** ** Leases *)
Definition lease_end (now : Z) : Z := now + seconds (gateway_chat_context_ttl_seconds settings).

(** The alias as it is afterwards. *)
Definition _renew_alias (context : ChatContext) (alias : ChatContextAlias) (now : Z)
    (actor_kind : string) (force : bool) : M ChatContextAlias :=
  let current_expiry := ca_expires_at alias in
  let alias := alias <| ca_last_seen_at := now |> <| ca_updated_at := now |> in
  let context := context <| cc_last_seen_at := now |> <| cc_updated_at := now |>
                         <| cc_state := "active" |> in
  put alias;;
  put context;;
  let remaining := current_expiry - now in
  if negb force
     && (seconds (gateway_chat_context_renew_threshold_seconds settings) <? remaining)
  then mret alias else
  let target := lease_end now in
  if target <=? current_expiry then mret alias else
  let alias := alias <| ca_expires_at := target |> in
  put alias;;
  _event context "renewed" (Some (ca_generation alias)) actor_kind
    [("reactivated", PBool false)] now;;
  mret alias.

(** A new alias for the context, as [id] and with the given code. *)
Definition new_alias (context : ChatContext) (id code : string) (now : Z) : ChatContextAlias := {|
  ca_id := id;
  ca_context_id := cc_id context;
  ca_owner_subject := cc_owner_subject context;
  ca_code := code;
  ca_generation := cc_generation context + 1;
  ca_status := "active";
  ca_issued_at := now;
  ca_last_seen_at := now;
  ca_expires_at := lease_end now;
  ca_quarantine_until := None;
  ca_replaced_by_alias_id := None;
  ca_created_at := now;
  ca_updated_at := now;
|}.

Definition context_with_alias (context : ChatContext) (generation now : Z) : ChatContext :=
  context <| cc_generation := generation |> <| cc_state := "active" |>
          <| cc_last_seen_at := now |> <| cc_updated_at := now |>.

(** One candidate code: the alias, or [None] to try another one. *)
Definition try_candidate (context : ChatContext) (actor_kind : string) (retries now : Z)
    : M (option ChatContextAlias) :=
  code ← code_factory;
  candidate ← lift (_code code);
  _reconcile_code_reservations candidate now;;
  context ← current_state context;
  owner_history ← scalar (λ a, (ca_owner_subject a ==? cc_owner_subject context)
                               && (ca_code a ==? candidate));
  if negb (is_none owner_history) then mret None else
  live_reservation ← scalar (λ a, (ca_code a ==? candidate) && live_alias a);
  if negb (is_none live_reservation) then mret None else
  id ← uuid4;
  let alias := new_alias context id candidate now in
  inserted ← savepoint (add alias;; flush;; mret true) (mret false);
  if inserted : bool then
    let context := context_with_alias context (ca_generation alias) now in
    put context;;
    _event context "issued" (Some (ca_generation alias)) actor_kind
      [("alias_id", PStr (ca_id alias)); ("allocation_retries", PInt retries)] now;;
    mret (Some alias)
  else mret None.

Fixpoint allocation_loop (attempts : nat) (context : ChatContext) (actor_kind : string)
    (retries now : Z) : M ChatContextAlias :=
  match attempts with
  | O => chat_fail AllocationExhausted
           "chat context alias allocation attempt budget was exhausted"
  | S attempts =>
      alias ← try_candidate context actor_kind retries now;
      match alias with
      | Some alias => mret alias
      | None => allocation_loop attempts context actor_kind (retries + 1) now
      end
  end.

Definition _allocate_alias (context : ChatContext) (actor_kind : string) (now : Z)
    : M ChatContextAlias :=
  context ← _lock_context (cc_owner_subject context) (cc_id context);
  allocation_loop (Z.to_nat (gateway_chat_context_allocation_attempts settings)) context
    actor_kind 0 now.

(** ** Resolving and refreshing a code *)
Definition alias_of_code (owner code : string) (a : ChatContextAlias) : bool :=
  (ca_owner_subject a ==? owner) && (ca_code a ==? code).
Definition active_alias_of (id : string) (a : ChatContextAlias) : bool :=
  (ca_context_id a ==? id) && (ca_status a ==? "active").

Definition not_closed (context : ChatContext) : M unit :=
  if cc_state context ==? "closed" then chat_fail Closed "chat context is closed" else mret tt.

Definition resolve_alias (owner_subject code actor_kind : string) : M ChatContextLease :=
  lift _require_enabled;;
  owner ← lift (_owner owner_subject);
  alias_code ← lift (_code code);
  actor ← lift (_actor actor_kind);
  initial ← scalar (alias_of_code owner alias_code);
  match initial with None => chat_fail NotFound "chat context alias was not found"
  | Some initial =>
  context ← _lock_context owner (ca_context_id initial);
  alias ← get_row (ca_id initial);
  match alias with None => chat_fail NotFound "chat context alias was not found"
  | Some alias =>
  now ← utcnow;
  moved ← _reconcile_alias context alias now "gateway";
  let '(context, alias) := moved in
  not_closed context;;
  if ca_status alias =/? "active" then chat_fail Expired "chat context alias is expired" else
  alias ← _renew_alias context alias now actor false;
  flush;;
  mret (_lease alias false)
  end end.

(** Renew the alias unless its lease has just run out. *)
Definition renew_if_active (context : ChatContext) (alias : ChatContextAlias) (now : Z)
    (actor_kind : string) (force : bool) : M (option ChatContextAlias) :=
  moved ← _reconcile_alias context alias now "gateway";
  let '(context, alias) := moved in
  if ca_status alias ==? "active" then
    alias ← _renew_alias context alias now actor_kind force;
    flush;;
    mret (Some alias)
  else mret None.

Definition reactivated_alias (now : Z) (alias : ChatContextAlias) : ChatContextAlias :=
  alias <| ca_status := "active" |>
        <| ca_last_seen_at := now |>
        <| ca_expires_at := lease_end now |>
        <| ca_quarantine_until := None |>
        <| ca_updated_at := now |>.

(** The code of the latest alias goes back to its context, unless somebody else
    holds it. *)
Definition can_reactivate (context : ChatContext) (previous : ChatContextAlias)
    (conflicting : option ChatContextAlias) : bool :=
  is_none conflicting && (ca_status previous ∈? ["quarantined"; "released"])
  && (ca_generation previous =? cc_generation context)
  && is_none (ca_replaced_by_alias_id previous).

Definition reactivate (context : ChatContext) (previous : ChatContextAlias) (now : Z)
    (actor_kind : string) : M (option ChatContextAlias) :=
  conflicting ← scalar (λ a, (ca_code a ==? ca_code previous)
                             && (ca_id a =/? ca_id previous) && live_alias a);
  if negb (can_reactivate context previous conflicting) then mret None else
  let previous := reactivated_alias now previous in
  done ← savepoint (modify previous;; flush;; mret true) (mret false);
  if done : bool then
    let context := context <| cc_state := "active" |> <| cc_last_seen_at := now |>
                           <| cc_updated_at := now |> in
    put context;;
    _event context "renewed" (Some (ca_generation previous)) actor_kind
      [("reactivated", PBool true)] now;;
    flush;;
    mret (Some previous)
  else mret None.

Definition replace_alias (context : ChatContext) (previous : ChatContextAlias) (now : Z)
    (actor_kind : string) : M ChatContextAlias :=
  replacement ← _allocate_alias context actor_kind now;
  previous ← current_state previous;
  (if is_none (ca_replaced_by_alias_id previous)
   then put (previous <| ca_replaced_by_alias_id := Some (ca_id replacement) |>
                      <| ca_updated_at := now |>)
   else mret tt);;
  _event context "rotated" (Some (ca_generation replacement)) actor_kind
    [("previous_alias_id", PStr (ca_id previous));
     ("replacement_alias_id", PStr (ca_id replacement))] now;;
  flush;;
  mret replacement.

Definition refresh_alias (owner_subject previous_code actor_kind : string)
    : M ChatContextLease :=
  lift _require_enabled;;
  owner ← lift (_owner owner_subject);
  code ← lift (_code previous_code);
  actor ← lift (_actor actor_kind);
  initial ← scalar (alias_of_code owner code);
  match initial with
  | None => chat_fail NotFound "historical chat context alias was not found"
  | Some initial =>
  context ← _lock_context owner (ca_context_id initial);
  not_closed context;;
  previous ← get_row (ca_id initial);
  match previous with
  | None => chat_fail NotFound "historical chat context alias was not found"
  | Some previous =>
  now ← utcnow;
  moved ← _reconcile_alias context previous now "gateway";
  let '(context, previous) := moved in
  current ← scalar (active_alias_of (cc_id context));
  renewed ← match current with
            | Some current => renew_if_active context current now actor true
            | None => mret None
            end;
  match renewed with
  | Some current => mret (_lease current (ca_id current =/? ca_id previous))
  | None =>
  _reconcile_code_reservations (ca_code previous) now;;
  previous ← current_state previous;
  context ← current_state context;
  reactivated ← reactivate context previous now actor;
  match reactivated with
  | Some previous => mret (_lease previous false)
  | None =>
  replacement ← replace_alias context previous now actor;
  mret (_lease replacement true)
  end end end end.

(** ** Creating a context *)
Definition latest_alias (id : string) : M (option ChatContextAlias) :=
  l ← query (λ a, ca_context_id a ==? id);
  mret (head (sort_by (λ a b, ca_generation b <=? ca_generation a) l)).

Definition _ensure_context_alias (context : ChatContext) (actor_kind : string)
    : M ChatContextLease :=
  locked ← _lock_context (cc_owner_subject context) (cc_id context);
  not_closed locked;;
  active ← scalar (active_alias_of (cc_id locked));
  now ← utcnow;
  renewed ← match active with
            | Some active => renew_if_active locked active now actor_kind false
            | None => mret None
            end;
  match renewed with
  | Some active => mret (_lease active false)
  | None =>
  latest ← latest_alias (cc_id locked);
  match latest with
  | Some latest => refresh_alias (cc_owner_subject locked) (ca_code latest) actor_kind
  | None =>
  alias ← _allocate_alias locked actor_kind now;
  flush;;
  mret (_lease alias false)
  end end.

Definition context_of_nonce (owner : string) (nonce : string) : M (option ChatContext) :=
  scalar (λ c, (cc_owner_subject c ==? owner) && (cc_client_nonce c ==? Some nonce)).

Definition new_context (id owner : string) (client_nonce project : option string) (now : Z)
    : ChatContext := {|
  cc_id := id;
  cc_owner_subject := owner;
  cc_host_kind := "chatgpt";
  cc_state := "active";
  cc_project_ref := project;
  cc_client_nonce := client_nonce;
  cc_conversation_ref_hmac := None;
  cc_conversation_key_version := None;
  cc_generation := 0;
  cc_created_at := now;
  cc_last_seen_at := now;
  cc_updated_at := now;
  cc_closed_at := None;
|}.

Definition insert_context (context : ChatContext) (actor_kind : string) (now : Z)
    : M ChatContextAlias :=
  add context;;
  flush;;
  _event context "created" None actor_kind [("host_kind", PStr "chatgpt")] now;;
  alias ← _allocate_alias context actor_kind now;
  flush;;
  mret alias.

Definition _create_context (owner_subject : string) (client_nonce project_ref : option string)
    (actor_kind : string) : M ChatContextLease :=
  lift _require_enabled;;
  owner ← lift (_owner owner_subject);
  actor ← lift (_actor actor_kind);
  project ← lift (match project_ref with
                  | Some project_ref => project ← _bounded_value project_ref "project_ref" 255;
                                        Ok (Some project)
                  | None => Ok None
                  end);
  existing ← match client_nonce with
             | Some nonce => context_of_nonce owner nonce
             | None => mret None
             end;
  match existing with
  | Some existing => _ensure_context_alias existing actor
  | None =>
  now ← utcnow;
  id ← uuid4;
  created ← savepoint
    (alias ← insert_context (new_context id owner client_nonce project now) actor now;
     mret (Some alias))
    (mret None);
  match created with
  | Some alias => mret (_lease alias false)
  | None =>
  existing ← match client_nonce with
             | Some nonce => context_of_nonce owner nonce
             | None => throw IntegrityError
             end;
  match existing with
  | Some existing => _ensure_context_alias existing actor
  | None => throw IntegrityError
  end end end.

Definition start_context (owner_subject : string) (project_ref : option string)
    (actor_kind : string) : M ChatContextLease :=
  _create_context owner_subject None project_ref actor_kind.

Definition create_provisional (owner_subject client_nonce : string)
    (project_ref : option string) (actor_kind : string) : M ChatContextLease :=
  nonce ← lift (_bounded_value client_nonce "client_nonce" 128);
  _create_context owner_subject (Some nonce) project_ref actor_kind.

(** ** Conversations *)

(** [hmac.compare_digest(self._conversation_digest(normalized, version), digest)] *)
Definition is_bound_to (normalized : string) (context : ChatContext) : bool :=
  match cc_conversation_ref_hmac context, cc_conversation_key_version context with
  | Some digest, Some version => _conversation_digest normalized version ==? digest
  | _, _ => false
  end.

Definition bound_contexts (owner host_kind normalized : string) : M (list ChatContext) :=
  query (λ c, (cc_owner_subject c ==? owner) && (cc_host_kind c ==? host_kind)
              && is_bound_to normalized c).

Definition bind_conversation (owner_subject context_id conversation_reference actor_kind : string)
    : M ChatContextBinding :=
  lift _require_enabled;;
  owner ← lift (_owner owner_subject);
  actor ← lift (_actor actor_kind);
  normalized ← lift (_normalize_conversation_reference conversation_reference);
  context ← _lock_context owner context_id;
  not_closed context;;
  bound ← bound_contexts owner (cc_host_kind context) normalized;
  match bound with
  | candidate :: _ =>
      if cc_id candidate =/? cc_id context
      then chat_fail BindingConflict
             "conversation reference is already bound to another chat context"
      else
        now ← utcnow;
        put (context <| cc_last_seen_at := now |> <| cc_updated_at := now |>);;
        flush;;
        mret (mkBinding (cc_id context)
                (default 0 (cc_conversation_key_version candidate)) false)
  | [] =>
  if negb (is_none (cc_conversation_ref_hmac context))
  then chat_fail BindingConflict
         "chat context is already bound to another conversation reference"
  else
  let version := gateway_chat_context_hmac_key_version settings in
  let digest := _conversation_digest normalized version in
  now ← utcnow;
  let context := context <| cc_conversation_ref_hmac := Some digest |>
                         <| cc_conversation_key_version := Some version |>
                         <| cc_last_seen_at := now |>
                         <| cc_updated_at := now |> in
  savepoint (modify context;; flush)
    (chat_fail BindingConflict
       "conversation reference binding conflicted with another chat context");;
  _event context "bound"
    (if cc_generation context =? 0 then None else Some (cc_generation context)) actor
    [("key_version", PInt version)] now;;
  flush;;
  mret (mkBinding (cc_id context) version true)
  end.

Definition resolve_conversation (owner_subject conversation_reference : string) : M string :=
  lift _require_enabled;;
  owner ← lift (_owner owner_subject);
  normalized ← lift (_normalize_conversation_reference conversation_reference);
  matches ← bound_contexts owner "chatgpt" normalized;
  match matches with
  | [] => chat_fail NotFound "conversation binding was not found"
  | [context] =>
      not_closed context;;
      now ← utcnow;
      put (context <| cc_last_seen_at := now |> <| cc_updated_at := now |>);;
      flush;;
      mret (cc_id context)
  | _ => chat_fail BindingConflict "conversation binding is ambiguous"
  end.

Definition resolve_conversation_lease (owner_subject conversation_reference actor_kind : string)
    : M ChatContextLease :=
  context_id ← resolve_conversation owner_subject conversation_reference;
  owner ← lift (_owner owner_subject);
  context ← _lock_context owner context_id;
  actor ← lift (_actor actor_kind);
  _ensure_context_alias context actor.

(** ** The endpoints *)
Definition _raise_chat_context_error (kind : chat_error) (message : string) : exn :=
  match kind with
  | Disabled => HTTPException 503 "Chat context service is unavailable"
  | ValidationError => HTTPException 422 message
  | NotFound => HTTPException 404 "Chat context was not found"
  | BindingConflict | Closed | Expired => HTTPException 409 message
  | AllocationExhausted => HTTPException 503 "Chat context allocation is unavailable"
  end.

(** [try: answer = m; db.commit()  except ChatContextError: db.rollback(); raise] *)
Definition committing {A} (m : M A) : M A := λ w,
  match (answer ← m; commit;; mret answer) w with
  | (Raise (ChatContextError kind message), w') =>
      (rollback;; throw (_raise_chat_context_error kind message)) w'
  | answer => answer
  end.

Definition create_context (subject client_nonce : string) (project_ref : option string)
    : M ChatContextLease :=
  committing (create_provisional subject client_nonce project_ref "browser_extension").

Definition bind_context (subject context_id conversation_ref : string) : M ChatContextBinding :=
  committing (bind_conversation subject context_id conversation_ref "browser_extension").

Definition resolve_context (subject conversation_ref : string) : M ChatContextLease :=
  committing (resolve_conversation_lease subject conversation_ref "browser_extension").
End handlers.
