(* ===== verification/McpChatContext.v ===== *)
(** * Chat contexts of tool calls ([mcp_chat_context.py])

    A presentation asks for the code of a chat context in every tool call ([required]),
    takes it when it is given ([optional]) or ignores it ([off]).  The public tools
    are decorated with the argument accordingly, and a call is admitted, without the
    argument, under the context its code resolves to. *)

From S2P Require Import Prelude PyStr PyVal Errors Models Database Session ChatContext.
From Stdlib Require Import Ascii.

Definition CHAT_CONTEXT_ARGUMENT : string := "chat_context".
Definition CHAT_CONTEXT_MODES : list string := ["off"; "optional"; "required"].
Definition CHAT_CONTEXT_EXEMPT_TOOLS : list string :=
  ["chat_context_start"; "chat_context_refresh"].
Definition CHAT_CONTEXT_PATTERN : string := "^[A-Za-z0-9]{4}$".
Definition CHAT_CONTEXT_ARGUMENT_DESCRIPTION : string :=
  "ATLAS chat context code for the current conversation. " +:+
  "This is not an authentication credential.".

Record McpChatContextAdmission := mkAdmission {
  admission_mode : string;
  admitted_arguments : pydict;
  admitted_context_id : option string;
  admitted_code : option string;
}.

Definition validate_chat_context_mode (mode : pyval) : result string :=
  let normalized := lower (strip (str_or_empty mode)) in
  if normalized ∈? CHAT_CONTEXT_MODES then Ok normalized
  else Raise (ValueError "chat_context_mode must be off, optional, or required").

Definition chat_context_initialize_metadata (mode : pyval) : result pydict :=
  mode ← validate_chat_context_mode mode;
  Ok [("contract_version", PInt 1); ("mode", PStr mode); ("pattern", PStr CHAT_CONTEXT_PATTERN);
      ("bootstrap_tool", PStr "chat_context_start");
      ("refresh_tool", PStr "chat_context_refresh")].

(** ** Decorated tools *)
Definition tool_declares_reserved_chat_context (tool : pydict) : bool :=
  match dict_get tool "inputSchema" with
  | PDict schema =>
      match dict_get schema "properties" with
      | PDict properties => dict_has properties CHAT_CONTEXT_ARGUMENT
      | _ => false
      end
  | _ => false
  end.

Definition argument_schema : pyval := PDict [
  ("type", PStr "string"); ("pattern", PStr CHAT_CONTEXT_PATTERN);
  ("description", PStr CHAT_CONTEXT_ARGUMENT_DESCRIPTION)].

(** [d.pop(k, None)] as a statement. *)
Definition dict_without (k : string) (d : pydict) : pydict := filter (λ kv, kv.1 ≠ k) d.

Definition decorated_schema (schema : pydict) (resolved_mode : string) : result pydict :=
  let properties := match dict_get schema "properties" with PDict p => p | _ => [] end in
  let schema := dict_set "properties"
    (PDict (dict_update [(CHAT_CONTEXT_ARGUMENT, argument_schema)] properties)) schema in
  values ← or_type_error (list_or_empty (dict_get schema "required"));
  let required := filter (λ s, s ≠ CHAT_CONTEXT_ARGUMENT) (map py_str values) in
  let required := if resolved_mode ==? "required" then CHAT_CONTEXT_ARGUMENT :: required
                  else required in
  Ok (match required with
      | [] => dict_without "required" schema
      | _ => dict_set "required" (str_list required) schema
      end).

Definition decorate_public_tool (tool : pydict) (mode : pyval) : result pydict :=
  resolved_mode ← validate_chat_context_mode mode;
  let name := str_or_empty (dict_get tool "name") in
  if (resolved_mode ==? "off") || (name ∈? CHAT_CONTEXT_EXEMPT_TOOLS) then Ok tool else
  if tool_declares_reserved_chat_context tool
  then Raise (McpChatContextReservedArgumentCollision
    ("tool " +:+ repr_str name +:+ " declares reserved top-level argument "
     +:+ repr_str CHAT_CONTEXT_ARGUMENT)) else
  let schema := match dict_get tool "inputSchema" with
                | PDict schema => schema
                | _ => [("type", PStr "object"); ("properties", PDict [])]
                end in
  schema ← decorated_schema schema resolved_mode;
  Ok (dict_set "inputSchema" (PDict schema) tool).

Definition decorate_public_tools (tools : list pydict) (mode : pyval) : result (list pydict) :=
  map_result (λ tool, decorate_public_tool tool mode) tools.

(** ** Admission *)

(** [try: m  except C1: ... except C2: ...]: a handler for some of the errors. *)
Definition except_chat {A} (m : M A) (handlers : chat_error → option (M A)) : M A := λ w,
  match m w with
  | (Raise (ChatContextError kind message), w') =>
      match handlers kind with
      | Some h => h w'
      | None => (Raise (ChatContextError kind message), w')
      end
  | answer => answer
  end.

Definition admission_error {A} (error_code message recovery_tool : string) (retry : bool) : M A :=
  throw (McpChatContextAdmissionError error_code message recovery_tool retry).

(** The code as a string of the right shape. *)
Definition as_code (v : pyval) : option string :=
  match v with PStr s => if is_code s then Some s else None | _ => None end.

Definition dquote : string := of_chars [chr 34].

Definition instruction (code : string) : string :=
  "Pass chat_context=" +:+ dquote +:+ code +:+ dquote +:+
  " to every ATLAS tool call in this conversation.".

Section handlers.
Context `{!Env}.

Definition resolution_errors (kind : chat_error) : option (M ChatContextLease) :=
  match kind with
  | NotFound => Some (rollback;; admission_error "CHAT_CONTEXT_UNKNOWN"
      "ATLAS chat context was not found." "chat_context_start" true)
  | Expired => Some (commit;; admission_error "CHAT_CONTEXT_EXPIRED"
      "ATLAS chat context has expired." "chat_context_refresh" true)
  | Closed => Some (rollback;; admission_error "CHAT_CONTEXT_REVOKED"
      "ATLAS chat context is no longer active." "chat_context_start" true)
  | ValidationError | Disabled => Some (rollback;; admission_error "CHAT_CONTEXT_INVALID"
      "ATLAS chat context cannot be used." "chat_context_start" true)
  | BindingConflict | AllocationExhausted => None
  end.

Definition admit_chat_context (owner_subject tool_name : string) (arguments : pydict)
    (mode : pyval) : M McpChatContextAdmission :=
  resolved_mode ← lift (validate_chat_context_mode mode);
  if (resolved_mode ==? "off") || (tool_name ∈? CHAT_CONTEXT_EXEMPT_TOOLS)
  then mret (mkAdmission resolved_mode arguments None None) else
  let raw_code := dict_get arguments CHAT_CONTEXT_ARGUMENT in
  let copied := dict_without CHAT_CONTEXT_ARGUMENT arguments in
  match raw_code with
  | PNone =>
      if resolved_mode ==? "optional"
      then mret (mkAdmission resolved_mode copied None None)
      else admission_error "CHAT_CONTEXT_REQUIRED" "ATLAS chat context is required."
             "chat_context_start" true
  | _ =>
  match as_code raw_code with
  | None => admission_error "CHAT_CONTEXT_INVALID"
      "ATLAS chat context must contain exactly four Base62 characters."
      "chat_context_start" true
  | Some code =>
  lease ← except_chat (lease ← resolve_alias owner_subject code "mcp"; commit;; mret lease)
            resolution_errors;
  mret (mkAdmission resolved_mode copied (Some (context_id lease)) (Some (lease_code lease)))
  end end.

Definition creation_errors (kind : chat_error) : option (M ChatContextLease) :=
  match kind with
  | AllocationExhausted => Some (rollback;; admission_error "CHAT_CONTEXT_ALLOCATION_EXHAUSTED"
      "ATLAS chat context allocation is temporarily exhausted." "chat_context_start" false)
  | ValidationError | Disabled => Some (rollback;; admission_error "CHAT_CONTEXT_INVALID"
      "ATLAS chat context cannot be created." "chat_context_start" false)
  | _ => None
  end.

Definition start_chat_context (owner_subject : string) : M pydict :=
  lease ← except_chat (lease ← start_context owner_subject None "mcp"; commit;; mret lease)
            creation_errors;
  mret [("chat_context", PStr (lease_code lease));
        ("expires_at", PStr (isoformat (lease_expires_at lease)));
        ("instruction", PStr (instruction (lease_code lease)))].

Definition refresh_errors (kind : chat_error) : option (M ChatContextLease) :=
  match kind with
  | NotFound => Some (rollback;; admission_error "CHAT_CONTEXT_UNKNOWN"
      "Historical ATLAS chat context was not found." "chat_context_start" false)
  | Closed => Some (rollback;; admission_error "CHAT_CONTEXT_REVOKED"
      "ATLAS chat context is no longer active." "chat_context_start" false)
  | AllocationExhausted => Some (rollback;; admission_error "CHAT_CONTEXT_ALLOCATION_EXHAUSTED"
      "ATLAS chat context allocation is temporarily exhausted." "chat_context_refresh" false)
  | ValidationError | Disabled => Some (rollback;; admission_error "CHAT_CONTEXT_INVALID"
      "ATLAS chat context cannot be refreshed." "chat_context_start" false)
  | Expired | BindingConflict => None
  end.

Definition refresh_chat_context (owner_subject previous_chat_context : string) : M pydict :=
  lease ← except_chat
    (lease ← refresh_alias owner_subject previous_chat_context "mcp"; commit;; mret lease)
    refresh_errors;
  mret [("chat_context", PStr (lease_code lease));
        ("expires_at", PStr (isoformat (lease_expires_at lease)));
        ("rotated", PBool (rotated lease));
        ("instruction", PStr (instruction (lease_code lease)))].
End handlers.
