(* ===== verification/PyUrl.v ===== *)
(** * [urllib.parse.urlsplit], as far as the gateway reads its result

    The scheme, the network location with its user information and host, the path, the
    query and the fragment.
    [urlparse] differs only in what it does with the path.  The check
    that a bracketed host is an IPv6 address belongs to [ipaddress]: it is the oracle
    [ip_literal]. *)

From S2P Require Import Prelude PyStr Errors Models Database Session.
From Stdlib Require Import Ascii.

(** [s.partition(c)] and [s.rpartition(c)]: what precedes, whether [c] occurs, what
    follows. *)
Fixpoint partition (c : ascii) (l : list ascii) : list ascii * bool * list ascii :=
  match l with
  | [] => ([], false, [])
  | x :: l =>
      if x ==? c then ([], true, l)
      else let '(before, found, after) := partition c l in (x :: before, found, after)
  end.

Definition rpartition (c : ascii) (l : list ascii) : list ascii * bool * list ascii :=
  match partition c (rev l) with
  | (after, true, before) => (rev before, true, rev after)
  | (_, false, _) => ([], false, l)
  end.

Record url := mkUrl {
  scheme : string;
  netloc : list ascii;
  path : list ascii;
  url_query : list ascii;
  url_fragment : list ascii;
}.

Definition is_alpha (c : ascii) : bool := between 97 122 (code (lower_char c)) && (code c <? 128).
Definition scheme_char (c : ascii) : bool :=
  is_alpha c || is_digit c || (c ∈? ["+"; "-"; "."]%char).

(** A scheme and the rest, or no scheme. *)
Definition split_scheme (l : list ascii) : list ascii * list ascii :=
  match partition ":" l with
  | ((c :: _) as before, true, after) =>
      if is_alpha c && forallb scheme_char before
      then (map lower_char before, after) else ([], l)
  | _ => ([], l)
  end.

(** What precedes the first of the delimiters, and the rest. *)
Fixpoint span_until (delimiters : list ascii) (l : list ascii) : list ascii * list ascii :=
  match l with
  | [] => ([], [])
  | c :: l' => if c ∈? delimiters then ([], l)
               else let '(before, rest) := span_until delimiters l' in (c :: before, rest)
  end.

(** [re.match(r"\Av[a-fA-F0-9]+\..+\z", host)] *)
Definition future_host (l : list ascii) : bool :=
  match partition "." l with
  | (_ :: hex, true, after) =>
      nonempty hex && nonempty after && forallb (λ c, negb (code c =? 10)) after
      && forallb (λ c, is_digit c || between 97 102 (code (lower_char c))) hex
  | _ => false
  end.

Definition userinfo (u : url) : list ascii * bool * list ascii := rpartition "@" (netloc u).

(** The host and what follows it: the port with its separator dropped, or what
    follows the bracket. *)
Definition host_and_port (hostinfo : list ascii) : list ascii * list ascii :=
  match partition "[" hostinfo with
  | (_, true, bracketed) => let '(host, _, port) := partition "]" bracketed in (host, port)
  | _ => let '(host, _, port) := partition ":" hostinfo in (host, port)
  end.
Definition hostname (u : url) : list ascii := (host_and_port (userinfo u).2).1.

Section with_env.
Context `{!Env}.

Definition valid_brackets (u : url) : bool :=
  let opens := "["%char ∈? netloc u in
  let closes := "]"%char ∈? netloc u in
  if opens && closes then
    let hostinfo := (userinfo u).2 in
    let before := (partition "[" hostinfo).1.1 in
    let port := (host_and_port hostinfo).2 in
    let host := hostname u in
    (if "["%char ∈? hostinfo
     then negb (nonempty before) && (negb (nonempty port) || list_prefix [":"%char] port)
     else true)
    && (if list_prefix ["v"%char] host then future_host host else ip_literal (of_chars host))
  else bool_decide (opens = closes).

Definition urlsplit (text : string) : result url :=
  let l := lstrip_by (λ c, code c <=? 32) (chars text) in
  let l := filter (λ c, (negb (code c ∈? [9; 10; 13])) = true) l in
  let '(scheme, rest) := split_scheme l in
  let '(netloc, rest) := if list_prefix ["/"; "/"]%char rest
                         then span_until ["/"; "?"; "#"]%char (drop 2 rest) else ([], rest) in
  let '(rest, _, fragment) := partition "#" rest in
  let '(path, _, query) := partition "?" rest in
  let u := mkUrl (of_chars scheme) netloc path query fragment in
  if valid_brackets u then Ok u else Raise (ValueError "Invalid IPv6 URL").

(** [urlunsplit((scheme, netloc, path, "", ""))] with a scheme and a network location. *)
Definition unsplit_location (u : url) : string :=
  let slash := if nonempty (path u) && negb (list_prefix ["/"]%char (path u))
               then ["/"%char] else [] in
  scheme u +:+ "://" +:+ of_chars (netloc u ++ slash ++ path u).

(** [parsed.username or parsed.password] *)
Definition has_credentials (u : url) : bool :=
  match userinfo u with
  | (info, true, _) =>
      let '(username, _, password) := partition ":" info in
      nonempty username || nonempty password
  | _ => false
  end.

Example urlsplit_ex :
  map (λ s, match urlsplit s with
            | Ok u => (scheme u, of_chars (hostname u), has_credentials u)
            | _ => ("error", "", false)
            end)
    ["HTTPS://me:pw@host:80/x"; "http://@h?q@r"; "//h"; "http:/h"; " http://a@b@c"; "1x://h"]
  = [("https", "host", true); ("http", "h", false); ("", "h", false); ("http", "", false);
     ("http", "c", true); ("", "", false)].
Proof. reflexivity. Qed.
End with_env.
