(* ===== verification/Auth.v ===== *)
(** * Users and tokens ([auth.py], [routers/auth.py])

    Who a request comes from: the claims of the signed tokens the gateway issues, the user
    that a cookie or a bearer token stands for, the signing in through Keycloak.  The JWT
    library is the pair [jwt_encode], [jwt_decode] of the environment; what Keycloak
    answers to the exchange of a code is an argument. *)

From S2P Require Import Prelude PyStr PyVal Errors Models Database Session.
From Stdlib Require Import Ascii.

(** ** Text *)

(** [urllib.parse.quote_plus] *)
Definition url_safe (c : ascii) : bool :=
  between 48 57 (code c) || between 65 90 (code c) || between 97 122 (code c)
  || (c ∈? ["_"; "."; "-"; "~"]%char).
Definition upper_hex (z : Z) : ascii := chr (if z <? 10 then 48 + z else 55 + z).
Definition percent (c : ascii) : list ascii :=
  ["%"%char; upper_hex (code c / 16); upper_hex (code c mod 16)].
Definition quote_plus (s : string) : string :=
  of_chars (flat_map (λ c, if url_safe c then [c] else if code c =? 32 then ["+"%char]
                           else percent c) (chars (utf8_encode s))).

(** [urllib.parse.urlencode] of a dict of strings *)
Definition urlencode (query : list (string * string)) : string :=
  join "&" (map (λ kv, quote_plus kv.1 +:+ "=" +:+ quote_plus kv.2) query).

(** [base64.urlsafe_b64encode(...).rstrip("=")] *)
Definition base64_char (n : Z) : ascii :=
  if n <? 26 then chr (65 + n) else if n <? 52 then chr (71 + n)
  else if n <? 62 then chr (n - 4) else if n =? 62 then "-"%char else "_"%char.
Fixpoint base64 (l : list ascii) : list ascii :=
  match l with
  | a :: b :: c :: l =>
      let n := Z.lor (Z.shiftl (code a) 16) (Z.lor (Z.shiftl (code b) 8) (code c)) in
      map base64_char [Z.shiftr n 18; Z.land (Z.shiftr n 12) 63; Z.land (Z.shiftr n 6) 63;
                       Z.land n 63] ++ base64 l
  | [a; b] =>
      let n := Z.lor (Z.shiftl (code a) 16) (Z.shiftl (code b) 8) in
      map base64_char [Z.shiftr n 18; Z.land (Z.shiftr n 12) 63; Z.land (Z.shiftr n 6) 63]
  | [a] =>
      let n := Z.shiftl (code a) 16 in
      map base64_char [Z.shiftr n 18; Z.land (Z.shiftr n 12) 63]
  | [] => []
  end.

(** The bytes that a hexadecimal digest spells. *)
Definition hex_digit_value (c : ascii) : Z :=
  if is_digit c then code c - 48 else code (lower_char c) - 87.
Fixpoint unhex (l : list ascii) : list ascii :=
  match l with
  | a :: b :: l => chr (hex_digit_value a * 16 + hex_digit_value b) :: unhex l
  | _ => []
  end.

Definition is_ascii (s : string) : bool := forallb (λ c, code c <? 128) (chars s).

Example base64_ex :
  map (λ s, of_chars (base64 (chars s))) ["Man"; "Ma"; "M"; ">>?"; ""]
  = ["TWFu"; "TWE"; "TQ"; "Pj4_"; ""].
Proof. reflexivity. Qed.
Example urlencode_ex :
  urlencode [("next", "/a b?c=1&d"); ("x~", "")] = "next=%2Fa+b%3Fc%3D1%26d&x~=".
Proof. reflexivity. Qed.

(** The seconds of a time, [int(t.timestamp())]. *)
Definition epoch_seconds (t : Z) : Z := t / 1000000.

(** [for x in value] over a value that may not be iterable. *)
Definition py_iter (v : pyval) : result (list pyval) :=
  match v with
  | PList l => Ok l
  | PDict d => Ok (map (λ kv, PStr kv.1) d)
  | PStr s => Ok (map (λ c, PStr (of_chars [c])) (chars s))
  | _ => Raise TypeError
  end.

(** [value.get(key)] of a value that may not be a dict. *)
Definition attribute_get (v : pyval) (key : string) : result pyval :=
  match v with PDict d => Ok (dict_get d key) | _ => Raise TypeError end.

Definition optional_text (v : pyval) : result (option string) :=
  match v with PNone => Ok None | PStr s => Ok (Some s) | _ => Raise TypeError end.

(** The headers and cookies that authenticate a request. *)
Record credentials := mkCredentials {
  session_cookie : option string;
  authorization : string;
}.

Section with_env.
Context `{!Env}.

(** ** Settings derived from others *)
Definition supported_scopes : list string := comma_words (oauth_supported_scopes settings).
Definition dev_roles : list string :=
  filter (λ r, r ≠ "") (map (λ l, strip (of_chars l))
                          (split_on "," (chars (gateway_dev_roles settings)))).
Definition rstrip_slash (s : string) : string := rstrip_char "/" s.
Definition issuer : string := rstrip_slash (public_base_url settings).

(** ** Users *)
Definition next_user_id (d : db) : Z :=
  foldr Z.max 0 (map usr_id (rows d)) + 1.

Definition ensure_user (subject username : string) (email : option string)
    (roles : list string) (provider : string) : M User :=
  user ← query_one (λ u, usr_subject u ==? subject);
  user ← match user with
    | None =>
        id ← reads next_user_id;
        created_at ← utcnow; last_seen_at ← utcnow;
        let user := mkUser id subject username email roles [] provider created_at
                      last_seen_at in
        add user;; mret user
    | Some user =>
        now ← utcnow;
        let user := user <| usr_username := username |> <| usr_email := email |>
                         <| usr_roles := roles |> <| usr_provider := provider |>
                         <| usr_last_seen_at := now |> in
        put user;; mret user
    end;
  commit;;
  mret user.

Definition dev_user : M User :=
  ensure_user (gateway_dev_subject settings) (gateway_dev_username settings)
    (gateway_dev_email settings) dev_roles "dev".

(** ** Tokens *)
Definition jwt_payload (now : Z) (jti subject username : string) (roles scopes : list string)
    (token_type : string) (ttl_seconds : Z) : pydict := [
  ("iss", PStr issuer);
  ("aud", PStr (oauth_audience settings));
  ("sub", PStr subject);
  ("preferred_username", PStr username);
  ("realm_access", PDict [("roles", str_list roles)]);
  ("scope", PStr (join " " scopes));
  ("typ", PStr token_type);
  ("iat", PInt (epoch_seconds now));
  ("exp", PInt (epoch_seconds (now + seconds ttl_seconds)));
  ("jti", PStr jti)].

Definition create_jwt (subject username : string) (roles scopes : list string)
    (token_type : string) (ttl_seconds : Z) (extra : pydict) : M string :=
  now ← utcnow;
  jti ← token_urlsafe;
  mret (jwt_encode (dict_update
    (jwt_payload now jti subject username roles scopes token_type ttl_seconds) extra)).

(** Whatever the library raises, the callers catch it. *)
Definition decode_jwt (token : string) : M pydict :=
  now ← utcnow;
  lift (or_type_error (jwt_decode now token)).

Definition roles_from_claims (claims : pydict) : result (list string) :=
  roles ← attribute_get (py_or (dict_get claims "realm_access") (PDict [])) "roles";
  roles ← py_iter (py_or (py_or roles (dict_get claims "roles")) (PList []));
  mret (map py_str roles).

Definition _user_from_claims (claims : pydict) (provider : string) : M User :=
  let subject := py_str (dict_get claims "sub") in
  let username := py_str (py_or (py_or (dict_get claims "preferred_username")
                                       (dict_get claims "email")) (PStr subject)) in
  roles ← lift (roles_from_claims claims);
  let roles := if (provider ==? "keycloak") && negb ("gateway-user" ∈? roles)
               then roles ++ ["gateway-user"] else roles in
  email ← lift (optional_text (dict_get claims "email"));
  ensure_user subject username email roles provider.

Definition bearer_user (auth_header : string) : M User :=
  if startswith (lower auth_header) "bearer " then
    let token := strip (suffix_from 7 auth_header) in
    try_any (claims ← decode_jwt token; _user_from_claims claims "token")
      (fail 401 "Invalid bearer token")
  else if gateway_dev_auth settings then dev_user
  else fail 401 "Authentication required".

Definition get_current_user (request : credentials) : M User :=
  match session_cookie request with
  | Some cookie =>
      if cookie ==? "" then bearer_user (authorization request) else
      try_any (claims ← decode_jwt cookie; _user_from_claims claims "session")
        (if gateway_dev_auth settings then bearer_user (authorization request)
         else fail 401 "Invalid session")
  | None => bearer_user (authorization request)
  end.

Definition require_role (user : User) (allowed : list string) : result unit :=
  if "gateway-admin" ∈? usr_roles user then Ok tt
  else if existsb (λ r, r ∈? allowed) (usr_roles user) then Ok tt
  else http 403 "Policy denied".

(** [policy.enforce] *)
Definition enforce (user : User) (action : string) (owner_subject : option string)
    : result unit :=
  if "gateway-admin" ∈? usr_roles user then Ok tt
  else if (action ∈? ["read"; "create"; "update"; "delete"])
          && ("gateway-user" ∈? usr_roles user)
          && match owner_subject with Some o => o ==? usr_subject user | None => true end
  then Ok tt
  else if (action ==? "read_audit") && ("gateway-auditor" ∈? usr_roles user) then Ok tt
  else http 403 "Galaxy policy denied".

(** ** Signing in *)
Definition _safe_next_path (value : string) : string :=
  if negb (startswith value "/") || startswith value "//" then "/" else value.

(** A redirect, with the cookie it sets. *)
Record redirect := mkRedirect { location : string; cookie : option (string * string) }.

Definition _oauth_state_cookie : string := gateway_session_cookie settings +:+ "_oauth_state".

Definition _pkce_challenge (verifier : string) : string :=
  of_chars (base64 (unhex (chars (sha256_hexdigest verifier)))).

Definition login (next : string) : M redirect :=
  if gateway_dev_auth settings then
    mret (mkRedirect ("/auth/callback?" +:+
      urlencode [("dev", "1"); ("next", _safe_next_path next)]) None)
  else
    state ← token_urlsafe;
    code_verifier ← token_urlsafe;
    let url := rstrip_slash (keycloak_issuer settings) +:+ "/protocol/openid-connect/auth?" +:+
      urlencode [
        ("client_id", keycloak_client_id settings);
        ("redirect_uri", issuer +:+ "/auth/callback");
        ("response_type", "code");
        ("scope", "openid profile email");
        ("state", state);
        ("code_challenge", _pkce_challenge code_verifier);
        ("code_challenge_method", "S256")] in
    flow_token ← create_jwt "oauth:login" "oauth-login" [] [] "oauth_state"
      (gateway_auth_code_ttl_seconds settings)
      [("oauth_state", PStr state); ("code_verifier", PStr code_verifier);
       ("next", PStr (_safe_next_path next))];
    mret (mkRedirect url (Some (_oauth_state_cookie, flow_token))).

(** What the browser brings back. *)
Record callback_query := mkCallbackQuery {
  cb_code : option string;
  cb_state : option string;
  cb_error : option string;
  cb_error_description : option string;
  cb_dev : option string;
  cb_next : string;
  cb_flow_cookie : option string;
}.

Definition required_claim (claims : pydict) (key : string) : result pyval :=
  match dict_lookup key claims with Some v => Ok v | None => Raise (LookupError key) end.

(** [keycloak code redirect_uri code_verifier] is the outcome of the exchange. *)
Definition keycloak_user (keycloak : string → string → string → result pydict)
    (q : callback_query) : M (string * User) :=
  if opt_truthy (cb_error q)
  then fail 400 (or_else (cb_error_description q) (default "" (cb_error q))) else
  if negb (opt_truthy (cb_code q)) || negb (opt_truthy (cb_state q))
     || negb (opt_truthy (cb_flow_cookie q))
  then fail 400 "Missing OAuth callback state" else
  flow ← try_any (decode_jwt (default "" (cb_flow_cookie q)))
           (fail 400 "Invalid or expired OAuth state");
  let expected_state := str_or_empty (dict_get flow "oauth_state") in
  let code_verifier := str_or_empty (dict_get flow "code_verifier") in
  fail_if (negb (py_eqb (dict_get flow "typ") (PStr "oauth_state"))
           || (expected_state ==? "") || (code_verifier ==? "")) 400
    "Invalid OAuth state payload";;
  (if negb (is_ascii (default "" (cb_state q)) && is_ascii expected_state)
   then throw TypeError else mret tt);;
  fail_if (default "" (cb_state q) =/? expected_state) 400 "OAuth state mismatch";;
  let next_path := _safe_next_path (py_str (py_or (dict_get flow "next") (PStr "/"))) in
  claims ← lift (keycloak (default "" (cb_code q)) (issuer +:+ "/auth/callback") code_verifier);
  sub ← lift (required_claim claims "sub");
  let username := py_str (py_or (py_or (dict_get claims "preferred_username")
                                       (dict_get claims "email")) sub) in
  email ← lift (optional_text (dict_get claims "email"));
  roles ← lift (roles_from_claims claims);
  user ← ensure_user (py_str sub) username email
           (if nonempty roles then roles else ["gateway-user"]) "keycloak";
  mret (next_path, user).

Definition callback (keycloak : string → string → string → result pydict)
    (q : callback_query) : M redirect :=
  '(next_path, user) ←
    (if gateway_dev_auth settings && opt_truthy (cb_dev q) then
       user ← dev_user; mret (_safe_next_path (cb_next q), user)
     else keycloak_user keycloak q);
  token ← create_jwt (usr_subject user) (usr_username user) (usr_roles user) supported_scopes
            "session" (gateway_access_token_ttl_seconds settings) [];
  emit_event "gateway.user.authenticated.v1" (usr_subject user) "authenticated" "user"
    (Some (usr_subject user))
    [("subject", PStr (usr_subject user)); ("username", PStr (usr_username user));
     ("provider", PStr (usr_provider user))] None "success" true true;;
  mret (mkRedirect next_path (Some (gateway_session_cookie settings, token))).
End with_env.
