(* ===== verification/OAuth.v ===== *)
(** * The authorization server ([routers/oauth.py], [oauth_lineage.py])

    Clients register, a signed-in user authorizes one with a code bound to a PKCE
    challenge, and the client exchanges the code for an access token; a new client of the
    same ChatGPT connector takes over the presentation policy of its predecessor. *)

From S2P Require Import Prelude PyStr PyVal Errors Models Database Session Auth.
From Stdlib Require Import Ascii.

Definition CHATGPT_CONNECTOR_REDIRECT_PREFIX : string := "https://chatgpt.com/connector/oauth/".

(** [set(a).issubset(b)] *)
Definition subset (a b : list string) : bool := forallb (λ x, x ∈? b) a.

(** [list(dict.fromkeys(l))] *)
Fixpoint dedupe (l : list string) : list string :=
  match l with
  | [] => []
  | x :: l => x :: filter (λ y, y ≠ x) (dedupe l)
  end.

Definition _split_scope (value : option string) : list string :=
  match value with
  | Some s => if s ==? "" then [] else dedupe (comma_words s)
  | None => []
  end.

Definition _validated_scope (requested : option string) (allowed : list string)
    : result string :=
  let requested_scopes := if nonempty (_split_scope requested) then _split_scope requested
                          else allowed in
  if negb (nonempty requested_scopes) || negb (subset requested_scopes allowed)
  then http 400 "Invalid OAuth scope" else Ok (join " " requested_scopes).

Section with_env.
Context `{!Env}.

Definition extension_redirect : string := gateway_browser_extension_redirect_uri settings.

Definition _extension_scopes : result (list string) :=
  let scopes := _split_scope (Some (gateway_browser_extension_oauth_scopes settings)) in
  if negb (nonempty scopes) || negb (subset scopes supported_scopes)
  then Raise (RuntimeError "Browser extension OAuth scopes must be supported Gateway scopes")
  else Ok scopes.

Definition _is_extension_identity (client_id : string) (redirect_uris : list string)
    : result bool :=
  let id_matches := client_id ==? gateway_browser_extension_client_id settings in
  let redirect_matches := extension_redirect ∈? redirect_uris in
  if id_matches || redirect_matches then
    if negb id_matches || (redirect_uris =/? [extension_redirect])
    then http 400 ("Browser extension OAuth identity must use the pinned "
                   +:+ "client and redirect URI")
    else Ok true
  else Ok false.

Definition _is_allowed_redirect (uri : string) : bool :=
  (uri ==? extension_redirect)
  || startswith uri CHATGPT_CONNECTOR_REDIRECT_PREFIX
  || (uri ==? "https://chatgpt.com/connector_platform_oauth_redirect")
  || startswith uri "http://localhost:"
  || startswith uri "http://127.0.0.1:".

Definition _pkce_s256 (verifier : string) : result string :=
  if is_ascii verifier then Ok (_pkce_challenge verifier)
  else http 400 "Invalid PKCE verifier".

(** ** Registration *)

(** [db.merge] of a client with these attributes: those of a stored client are replaced,
    the others keep their values or take their defaults. *)
Definition merge_client (client_id client_name : string) (redirect_uris : list string)
    (scope : string) : M unit :=
  existing ← get_row client_id;
  match existing with
  | Some client => put (client <| oc_client_name := client_name |>
                               <| oc_redirect_uris := redirect_uris |> <| oc_scope := scope |>)
  | None =>
      created_at ← utcnow; updated_at ← utcnow;
      add (mkOAuthClient client_id client_name redirect_uris scope "chatgpt-stable" 1
             "native_projected" "off" ["native_tools"] "none" [] created_at updated_at)
  end.

Definition client_name_or (v : pyval) (is_extension : bool) (default_name : string) : string :=
  py_str (py_or v (PStr (if is_extension then "ATLAS ChatGPT Browser Extension"
                         else default_name))).

Definition scope_argument (v : pyval) : result (option string) :=
  match v with
  | PNone => Ok None
  | PStr s => Ok (Some s)
  | _ => http 400 "Invalid OAuth scope"
  end.

Definition register_client (payload : pydict) : M pydict :=
  redirect_uris ← match dict_get_or payload "redirect_uris" (PList []) with
    | PList l => mret (map py_str l)
    | _ => fail 400 "Unsupported redirect_uri"
    end;
  fail_if (negb (nonempty redirect_uris)) 400 "Unsupported redirect_uri";;
  client_id ← (if truthy (dict_get payload "client_id")
               then mret (py_str (dict_get payload "client_id"))
               else token ← token_urlsafe; mret ("chatgpt-" +:+ token));
  is_extension ← lift (_is_extension_identity client_id redirect_uris);
  fail_if (negb (forallb _is_allowed_redirect redirect_uris)) 400 "Unsupported redirect_uri";;
  allowed_scopes ← lift (if is_extension then _extension_scopes else Ok supported_scopes);
  requested_scope ← lift (scope_argument (dict_get payload "scope"));
  fail_if (is_extension && negb (is_none requested_scope)
           && (_split_scope requested_scope =/? allowed_scopes)) 400 "Invalid OAuth scope";;
  let client_name := client_name_or (dict_get payload "client_name") is_extension
                       "ChatGPT Connector" in
  scope ← lift (_validated_scope requested_scope allowed_scopes);
  merge_client client_id client_name redirect_uris scope;;
  commit;;
  now ← utcnow;
  mret [("client_id", PStr client_id); ("client_id_issued_at", PInt (epoch_seconds now));
        ("redirect_uris", str_list redirect_uris);
        ("grant_types", str_list ["authorization_code"]);
        ("response_types", str_list ["code"]);
        ("token_endpoint_auth_method", PStr "none"); ("scope", PStr scope)].

(** ** Authorization *)
Record authorize_query := mkAuthorizeQuery {
  az_response_type : string;
  az_client_id : string;
  az_redirect_uri : string;
  az_code_challenge : string;
  az_code_challenge_method : string;
  az_scope : option string;
  az_state : option string;
  az_url_path : string;
  az_url_query : string;
}.

Definition login_redirect (q : authorize_query) : string :=
  let next_path := az_url_path q +:+
    (if az_url_query q ==? "" then "" else "?" +:+ az_url_query q) in
  "/auth/login?" +:+ urlencode [("next", next_path)].

(** The user of the request, or none when they have to sign in. *)
Definition signed_in (request : credentials) : M (option User) := λ w,
  match get_current_user request w with
  | (Ok user, w') => (Ok (Some user), w')
  | (Raise (HTTPException 401 _), w') => (Ok None, w')
  | (Raise e, w') => (Raise e, w')
  end.

(** The stored client, or a new one for an unknown client id. *)
Definition known_client (q : authorize_query) (is_extension : bool) : M OAuthClient :=
  client ← get_row (az_client_id q);
  match client with
  | Some client => mret client
  | None =>
      initial_scopes ← lift (if is_extension then _extension_scopes else Ok supported_scopes);
      created_at ← utcnow; updated_at ← utcnow;
      let client := mkOAuthClient (az_client_id q)
        (if is_extension then "ATLAS ChatGPT Browser Extension"
         else "Auto-registered MCP client") [az_redirect_uri q] (join " " initial_scopes)
        "chatgpt-stable" 1 "native_projected" "off" ["native_tools"] "none" []
        created_at updated_at in
      add client;; commit;; mret client
  end.

(** The scopes of a client that may be used with a redirect. *)
Definition same_set (a b : list string) : bool := subset a b && subset b a.

Definition check_extension_client (client : OAuthClient) (client_scopes : list string)
    : result (list string) :=
  if oc_redirect_uris client =/? [extension_redirect]
  then http 400 "Browser extension OAuth redirect configuration mismatch" else
  extension_scopes ← _extension_scopes;
  if negb (same_set client_scopes extension_scopes)
  then http 400 "Browser extension OAuth client scope configuration mismatch"
  else Ok extension_scopes.

Definition authorized_scope (client : OAuthClient) (q : authorize_query) (is_extension : bool)
    : result string :=
  let client_scopes := _split_scope (Some (oc_scope client)) in
  if negb (az_redirect_uri q ∈? oc_redirect_uris client)
     || negb (_is_allowed_redirect (az_redirect_uri q))
  then http 400 "redirect_uri is not registered" else
  if negb (nonempty client_scopes) || negb (subset client_scopes supported_scopes)
  then http 400 "OAuth client has invalid registered scope" else
  extension_scopes ← (if is_extension then check_extension_client client client_scopes
                      else Ok []);
  scope ← _validated_scope (az_scope q) client_scopes;
  if is_extension && (_split_scope (Some scope) =/? extension_scopes)
  then http 400 "Invalid OAuth scope" else Ok scope.

Definition new_code (code : string) (q : authorize_query) (scope : string) (user : User)
    (now created_at : Z) : OAuthCode :=
  mkOAuthCode code (az_client_id q) (az_redirect_uri q) (az_code_challenge q) scope
    (usr_subject user) (now + seconds (gateway_auth_code_ttl_seconds settings)) false created_at.

Definition code_redirect (q : authorize_query) (code : string) : string :=
  az_redirect_uri q +:+ (if contains_char "?" (az_redirect_uri q) then "&" else "?")
  +:+ urlencode (("code", code) :: match az_state q with
                                   | Some state => [("state", state)]
                                   | None => []
                                   end).

Definition authorize (request : credentials) (q : authorize_query) : M string :=
  fail_if ((az_response_type q =/? "code") || (az_code_challenge_method q =/? "S256")) 400
    "Unsupported OAuth request";;
  fail_if ((az_code_challenge q ==? "") || (255 <? len (az_code_challenge q))) 400
    "Invalid PKCE challenge";;
  is_extension ← lift (_is_extension_identity (az_client_id q) [az_redirect_uri q]);
  fail_if (negb (_is_allowed_redirect (az_redirect_uri q))) 400 "Unsupported redirect_uri";;
  user ← signed_in request;
  match user with
  | None => mret (login_redirect q)
  | Some user =>
      client ← known_client q is_extension;
      scope ← lift (authorized_scope client q is_extension);
      code ← token_urlsafe;
      now ← utcnow;
      created_at ← utcnow;
      add (new_code code q scope user now created_at);;
      commit;;
      mret (code_redirect q code)
  end.

(** ** The policy of a predecessor *)
Definition connector_of (redirect_uri : string) (client : OAuthClient) : bool :=
  oc_redirect_uris client ==? [redirect_uri].

Definition chatgpt_connector_policy_predecessors (oauth_client : OAuthClient)
    (subject redirect_uri : string) : M (list OAuthClient) :=
  if negb (startswith redirect_uri CHATGPT_CONNECTOR_REDIRECT_PREFIX) then mret [] else
  if negb (connector_of redirect_uri oauth_client) then mret [] else
  codes ← query (λ c, (ocd_subject c ==? subject) && ocd_consumed c
                      && (ocd_client_id c =/? oc_client_id oauth_client));
  let predecessor_ids := map ocd_client_id codes in
  if negb (nonempty predecessor_ids) then mret [] else
  candidates ← query (λ c, (oc_client_id c ∈? predecessor_ids)
                           && (oc_chat_context_mode c ∈? ["optional"; "required"]));
  let candidates := sort_by (λ a b, str_leb (oc_client_id a) (oc_client_id b)) candidates in
  mret (filter (λ c, connector_of redirect_uri c = true) candidates).

Definition heir (current predecessor : OAuthClient) (now : Z) : OAuthClient :=
  current <| oc_presentation_profile := oc_presentation_profile predecessor |>
          <| oc_presentation_mode := oc_presentation_mode predecessor |>
          <| oc_presentation_capabilities := oc_presentation_capabilities predecessor |>
          <| oc_workspace_plan := oc_workspace_plan predecessor |>
          <| oc_allowed_tool_names := oc_allowed_tool_names predecessor |>
          <| oc_chat_context_mode := oc_chat_context_mode predecessor |>
          <| oc_presentation_policy_generation ::= λ n, n + 1 |>
          <| oc_updated_at := now |>.
Definition retired (predecessor : OAuthClient) (now : Z) : OAuthClient :=
  predecessor <| oc_chat_context_mode := "off" |>
              <| oc_presentation_policy_generation ::= λ n, n + 1 |>
              <| oc_updated_at := now |>.

Definition _inherit_chatgpt_connector_policy (oauth_client : OAuthClient)
    (subject redirect_uri : string) : M OAuthClient :=
  if negb (startswith redirect_uri CHATGPT_CONNECTOR_REDIRECT_PREFIX) then mret oauth_client else
  if negb (connector_of redirect_uri oauth_client) then mret oauth_client else
  current ← get_row (oc_client_id oauth_client);
  match current with
  | None => throw NoResultFound
  | Some current =>
      if (oc_chat_context_mode current =/? "off")
         || negb (oc_presentation_policy_generation current =? 1)
      then mret current else
      matches ← chatgpt_connector_policy_predecessors current subject redirect_uri;
      match matches with
      | [] => mret current
      | [predecessor] =>
          updated_at ← utcnow;
          let current := heir current predecessor updated_at in
          put current;; put (retired predecessor updated_at);;
          mret current
      | _ => fail 409 "MCP_PRESENTATION_POLICY_LINEAGE_AMBIGUOUS"
      end
  end.

(** ** Tokens *)
Record token_form := mkTokenForm {
  tf_grant_type : string;
  tf_code : string;
  tf_redirect_uri : string;
  tf_client_id : string;
  tf_code_verifier : string;
}.
Record token_response := mkTokenResponse {
  tk_access_token : string;
  tk_expires_in : Z;
  tk_scope : string;
}.

Definition live_code (auth_code : OAuthCode) (form : token_form) : bool :=
  negb (ocd_consumed auth_code) && (ocd_client_id auth_code ==? tf_client_id form)
  && (ocd_redirect_uri auth_code ==? tf_redirect_uri form).

(** The scopes of the code, which the client still has. *)
Definition granted_scopes (auth_code : OAuthCode) (client : OAuthClient) (form : token_form)
    (is_extension : bool) : result (list string) :=
  let client_scopes := _split_scope (Some (oc_scope client)) in
  let code_scopes := _split_scope (Some (ocd_scope auth_code)) in
  if negb (tf_redirect_uri form ∈? oc_redirect_uris client)
     || negb (_is_allowed_redirect (tf_redirect_uri form))
  then http 400 "redirect_uri is not registered" else
  if negb (nonempty client_scopes) || negb (subset client_scopes supported_scopes)
     || negb (nonempty code_scopes) || negb (subset code_scopes client_scopes)
  then http 400 "Invalid OAuth scope" else
  if is_extension then
    extension_scopes ← check_extension_client client client_scopes;
    if code_scopes =/? extension_scopes then http 400 "Invalid OAuth scope" else Ok code_scopes
  else Ok code_scopes.

(** [secrets.compare_digest] of the challenge of a verifier with the one of the code *)
Definition check_verifier (auth_code : OAuthCode) (code_verifier : string) : result unit :=
  expected_challenge ← _pkce_s256 code_verifier;
  if negb (is_ascii (ocd_code_challenge auth_code)) then Raise TypeError else
  if expected_challenge =/? ocd_code_challenge auth_code
  then http 400 "Invalid PKCE verifier" else Ok tt.

Definition client_claims (client : OAuthClient) (client_id : string) : pydict := [
  ("client_id", PStr client_id);
  ("presentation_profile", PStr (oc_presentation_profile client));
  ("presentation_policy_generation", PInt (oc_presentation_policy_generation client));
  ("presentation_mode", PStr (oc_presentation_mode client));
  ("chat_context_mode", PStr (oc_chat_context_mode client));
  ("presentation_capabilities", str_list (oc_presentation_capabilities client));
  ("workspace_plan", PStr (oc_workspace_plan client));
  ("allowed_tool_names", str_list (oc_allowed_tool_names client))].

Definition token_ttl_seconds (is_extension : bool) : Z :=
  if is_extension then gateway_browser_extension_access_token_ttl_seconds settings
  else gateway_access_token_ttl_seconds settings.

Definition token (form : token_form) : M token_response :=
  fail_if (tf_grant_type form =/? "authorization_code") 400 "Unsupported grant_type";;
  is_extension ← lift (_is_extension_identity (tf_client_id form) [tf_redirect_uri form]);
  auth_code ← find_row (tf_code form) (λ c, live_code c form);
  auth_code ← require auth_code 400 "Invalid authorization code";
  now ← utcnow;
  fail_if (ocd_expires_at auth_code <? now) 400 "Authorization code expired";;
  client ← get_row (tf_client_id form);
  client ← require client 400 "OAuth client is not registered";
  code_scopes ← lift (granted_scopes auth_code client form is_extension);
  lift (check_verifier auth_code (tf_code_verifier form));;
  user ← query_one (λ u, usr_subject u ==? ocd_subject auth_code);
  user ← match user with Some user => mret user | None => throw NoResultFound end;
  client ← (if is_extension then mret client
            else _inherit_chatgpt_connector_policy client (ocd_subject auth_code)
                   (tf_redirect_uri form));
  put (auth_code <| ocd_consumed := true |>);;
  commit;;
  let ttl := token_ttl_seconds is_extension in
  access_token ← create_jwt (usr_subject user) (usr_username user) (usr_roles user)
    code_scopes "access" ttl (client_claims client (tf_client_id form));
  mret (mkTokenResponse access_token ttl (join " " code_scopes)).
End with_env.
