(* ===== verification/ThinEnrolment.v ===== *)
(** * Enrolment of thin clients ([routers/thin_clients.py])

    The command line asks for a device code, a signed-in user activates its short user
    code, the command line exchanges the device code for an agent token and registers a
    client with it. *)

From S2P Require Import Prelude PyStr PyVal Errors Models Database Session Auth OAuth.
From Stdlib Require Import Ascii.

Definition _UNBOUND_DEVICE_CODE_SUBJECT_PREFIX : string := "device-code:".

(** [c.upper()]; the capitals of the micro sign and of y with diaeresis are not Latin-1. *)
Definition upper_char (c : ascii) : list ascii :=
  let n := code c in
  if between 97 122 n || (between 224 254 n && negb (n =? 247)) then [chr (n - 32)]
  else if n =? 223 then ["S"; "S"]%char else [c].

Definition _normalize_user_code (value : string) : string :=
  of_chars (flat_map upper_char
    (filter (λ c, negb (c ∈? [" "; "-"]%char) = true) (chars (strip value)))).

Definition _unbound_device_code_subject (device_code : string) : string :=
  _UNBOUND_DEVICE_CODE_SUBJECT_PREFIX +:+ device_code.
Definition _is_unbound_device_code (c : DeviceCode) : bool :=
  startswith (dvc_subject c) _UNBOUND_DEVICE_CODE_SUBJECT_PREFIX.
Definition _expires_at_is_past (now : Z) (c : DeviceCode) : bool := dvc_expires_at c <? now.

Example normalize_user_code_ex : _normalize_user_code " ab-12 f0 " = "AB12F0".
Proof. reflexivity. Qed.

(** [s.rstrip()] *)
Definition strip_right (s : string) : string := of_chars (rstrip_by is_space (chars s)).

(** What the page of an activation shows. *)
Inductive activation : Type :=
  | SignInFirst (user_code : string)
  | ActivationForm (user_code message : string)
  | ActivatedPage (user_code : string).

Record thin_client_input := mkThinClientInput {
  ti_hostname : string;
  ti_directory : string;
  ti_labels : pydict;
}.

Record device_code_response := mkDeviceCodeResponse {
  dr_device_code : string;
  dr_user_code : string;
  dr_verification_uri : string;
  dr_expires_in : Z;
}.

Section with_env.
Context `{!Env}.

(** [crypto.token_hash] *)
Definition token_hash (value : string) : string := sha256_hexdigest (utf8_encode value).

(** ** Device codes *)
Definition new_device_code (device_code user_code : string) (user : option User)
    (expires_at created_at : Z) : DeviceCode := {|
  dvc_device_code := device_code;
  dvc_user_code := user_code;
  dvc_subject := match user with
                 | Some user => usr_subject user
                 | None => _unbound_device_code_subject device_code
                 end;
  dvc_scope := "thin-client:register";
  dvc_status := if gateway_dev_auth settings then "approved" else "pending";
  dvc_expires_at := expires_at;
  dvc_created_at := created_at;
|}.

Definition create_device_code : M device_code_response :=
  device_code ← token_urlsafe;
  user_code ← token_hex;
  let user_code := of_chars (flat_map upper_char (chars user_code)) in
  user ← (if gateway_dev_auth settings then user ← dev_user; mret (Some user)
          else mret None);
  now ← utcnow;
  created_at ← utcnow;
  add (new_device_code device_code user_code user
         (now + seconds (gateway_device_code_ttl_seconds settings)) created_at);;
  commit;;
  mret (mkDeviceCodeResponse device_code user_code
    (strip_right (public_base_url settings) +:+ "/thin-clients/activate")
    (gateway_device_code_ttl_seconds settings)).

Definition approved_code (user : User) (c : DeviceCode) : DeviceCode :=
  (if _is_unbound_device_code c then c <| dvc_subject := usr_subject user |> else c)
    <| dvc_status := "approved" |>.

Definition activate_thin_client (request : credentials) (user_code : string) : M activation :=
  let normalized := _normalize_user_code user_code in
  user ← signed_in request;
  match user with
  | None => mret (SignInFirst normalized)
  | Some user =>
      found ← query_one (λ c, dvc_user_code c ==? normalized);
      match found with
      | None => mret (ActivationForm normalized "Unknown activation code.")
      | Some c =>
          now ← utcnow;
          if _expires_at_is_past now c
          then mret (ActivationForm normalized
            "Activation code expired. Issue a new device code from the Thin Clients page.")
          else
            fail_if (negb (_is_unbound_device_code c) && (dvc_subject c =/? usr_subject user)
                     && negb ("gateway-admin" ∈? usr_roles user)) 403
              "Activation code belongs to another user";;
            put (approved_code user c);;
            commit;;
            mret (ActivatedPage normalized)
      end
  end.

Definition device_token (device_code : string) : M string :=
  found ← get_row device_code;
  match found with
  | None => fail 400 "Invalid device_code"
  | Some c =>
      now ← utcnow;
      fail_if (_expires_at_is_past now c) 400 "Device code expired";;
      fail_if (dvc_status c =/? "approved") 428 "Authorization pending";;
      fail_if (_is_unbound_device_code c) 428 "Authorization pending";;
      user ← query_one (λ u, usr_subject u ==? dvc_subject c);
      match user with
      | None => fail 400 "Device code owner no longer exists"
      | Some user =>
          create_jwt (usr_subject user) (usr_username user) (usr_roles user)
            ["thin-client:register"; "thin-client:control"] "agent"
            (gateway_thin_client_token_ttl_seconds settings) []
      end
  end.

(** ** Clients *)

(** [auth.split(" ", 1)[1].strip()] of a header that begins with the scheme. *)
Definition bearer_token (auth : string) : string := strip (suffix_from 7 auth).

Definition _agent_user_from_request (auth : string) : M User :=
  fail_if (negb (startswith (lower auth) "bearer ")) 401 "Bearer token required";;
  claims ← decode_jwt (bearer_token auth);
  sub ← lift (required_claim claims "sub");
  subject ← lift (match sub with PStr s => Ok s | _ => Raise TypeError end);
  user ← query_one (λ u, usr_subject u ==? subject);
  require user 401 "Unknown token subject".

Definition enrolled_client (token : string) (labels : pydict) (now : Z) (c : ThinClient)
    : ThinClient :=
  c <| tcl_agent_token_hash := token_hash token |> <| tcl_status := "online" |>
    <| tcl_meta := [("labels", PDict labels)] |> <| tcl_last_seen_at := now |>.

Definition register_thin_client (auth : string) (payload : thin_client_input) : M ThinClient :=
  user ← _agent_user_from_request auth;
  let token := bearer_token auth in
  existing ← query (λ c, (tcl_owner_subject c ==? usr_subject user)
    && (tcl_hostname c ==? ti_hostname payload) && (tcl_directory c ==? ti_directory payload));
  let existing_clients := sort_by (λ a b, tcl_created_at b <=? tcl_created_at a) existing in
  client ← match existing_clients with
    | [] =>
        id ← uuid4;
        now ← utcnow;
        created_at ← utcnow;
        let client := enrolled_client token (ti_labels payload) now
              (mkThinClient id (usr_subject user) (ti_hostname payload) (ti_directory payload)
                 "" "online" [] created_at now) in
        add client;; mret client
    | client :: duplicates =>
        foreach erase duplicates;;
        now ← utcnow;
        let client := enrolled_client token (ti_labels payload) now client in
        put client;; mret client
    end;
  flush;;
  emit "gateway.thin_client.enrolled.v1" (usr_subject user)
    (if nonempty existing_clients then "reconnected" else "enrolled")
    "thin_client" (tcl_id client) "success"
    [("client_id", PStr (tcl_id client)); ("hostname", PStr (tcl_hostname client));
     ("directory", PStr (tcl_directory client))];;
  commit;;
  mret client.

Definition list_thin_clients (user : User) : M (list ThinClient) :=
  lift (enforce user "read" None);;
  clients ← query (λ c, ("gateway-admin" ∈? usr_roles user)
                        || (tcl_owner_subject c ==? usr_subject user));
  mret (sort_by (λ a b, tcl_created_at b <=? tcl_created_at a) clients).

(** The sockets of the client are closed afterwards ([ThinClient.v]). *)
Definition delete_thin_client (user : User) (client_id : string) : M unit :=
  found ← get_row client_id;
  client ← require found 404 "Thin client not found";
  lift (enforce user "delete" (Some (tcl_owner_subject client)));;
  erase client;;
  emit "gateway.thin_client.changed.v1" (usr_subject user) "deleted" "thin_client" client_id
    "success"
    [("client_id", PStr client_id); ("hostname", PStr (tcl_hostname client));
     ("directory", PStr (tcl_directory client))];;
  commit.
End with_env.
