(* ===== verification/Roots.v ===== *)
(** * Filesystem roots of federated servers ([mcp_root_federation.py])

    A thin client or an operator names root directories by the digest of their URI; a root
    may be used by a server only while a reviewed grant for it is in force. *)

From S2P Require Import Prelude PyStr PyVal Json Errors Models Database Session PyUrl Auth.
From Stdlib Require Import Ascii.

Definition _MAX_ROOTS : nat := 64.

Definition root_error {A} (code message : string) (http_status : Z) : result A :=
  Raise (McpRootFederationError code message http_status).
Definition invalid_root {A} (message : string) : result A :=
  root_error "MCP_ROOT_DESCRIPTOR_INVALID" message 422.
Definition raise_root {A} (code message : string) (http_status : Z) : M A :=
  throw (McpRootFederationError code message http_status).

Definition is_hex (c : ascii) : bool := is_digit c || between 97 102 (code c).
Definition hex_text (lo hi : nat) (l : list ascii) : bool :=
  (lo <=? length l)%nat && (length l <=? hi)%nat && forallb is_hex l.

(** [_HINT.fullmatch] *)
Definition is_hint (hint : string) : bool :=
  existsb (λ prefix, startswith hint prefix
                     && hex_text 12 64 (drop (String.length prefix) (chars hint)))
    ["local-root:"; "gateway-root:"].

(** [" ".join(text.split())] *)
Definition squeezed (s : string) : string := join " " (split_words [] (chars s)).

Definition _label (value : pyval) (fallback : string) : result string :=
  let text := truncate 240 (squeezed (py_str (py_or value (PStr fallback)))) in
  if text ==? "" then Ok fallback
  else if existsb (λ c, contains_char c text) ["/"; "\"; chr 0]%char
  then invalid_root "Root labels must not contain host path separators"
  else Ok text.

Record root_candidate := mkRootCandidate {
  rc_uri : string;
  rc_sha256 : string;
  rc_hint : string;
  rc_name : string;
}.

(** The keys of a dict are among these. *)
Definition only_keys (allowed : list string) (d : pydict) : bool :=
  forallb (λ kv, kv.1 ∈? allowed) d.

(** The candidate of a thin client has no URI, only its digest. *)
Definition normalize_root_candidate (value : pyval) (hint_prefix : string)
    : result root_candidate :=
  match value with
  | PDict d =>
      if negb (only_keys ["root_uri_sha256"; "root_name"; "root_uri_hint"] d)
      then invalid_root "Root candidate contains unsupported fields" else
      let digest := lower (strip (py_str (dict_get_or d "root_uri_sha256" (PStr "")))) in
      if negb (hex_text 64 64 (chars digest))
      then invalid_root "Root candidate requires a lowercase SHA-256 identity" else
      let expected_hint := hint_prefix +:+ "-root:" +:+ truncate 12 digest in
      let hint := lower (strip (py_str (py_or (dict_get d "root_uri_hint")
                                               (PStr expected_hint)))) in
      if negb (is_hint hint) || (hint =/? expected_hint)
      then invalid_root "Root hint must be the redacted hash-derived identifier" else
      name ← _label (dict_get d "root_name") "root";
      Ok (mkRootCandidate "" digest hint name)
  | _ => invalid_root "Root candidate must be an object"
  end.

(** ** URIs *)

(** [urllib.parse.unquote_to_bytes] of ASCII text *)
Definition is_hex_digit (c : ascii) : bool := (code c <? 128) && is_hex (lower_char c).
Fixpoint unquote_bytes (l : list ascii) : list ascii :=
  match l with
  | c :: ((a :: b :: rest) as tail) =>
      if (c ==? "%"%char) && is_hex_digit a && is_hex_digit b
      then chr (hex_digit_value a * 16 + hex_digit_value b) :: unquote_bytes rest
      else c :: unquote_bytes tail
  | c :: tail => c :: unquote_bytes tail
  | [] => []
  end.

(** The longest prefix of ASCII characters, and the rest. *)
Fixpoint span_ascii (l : list ascii) : list ascii * list ascii :=
  match l with
  | c :: l => if code c <? 128 then let '(a, r) := span_ascii l in (c :: a, r) else ([], c :: l)
  | [] => ([], [])
  end.

(** [urllib.parse.unquote(text, encoding="utf-8", errors="strict")]: runs of ASCII are
    decoded, other characters stay; fuel is the length of the text. *)
Fixpoint unquote (fuel : nat) (l : list ascii) : option (list ascii) :=
  match fuel with
  | O => Some []
  | S fuel =>
      match l with
      | [] => Some []
      | c :: l' =>
          if code c <? 128 then
            let '(run, rest) := span_ascii l in
            decoded ← utf8_decode (unquote_bytes run);
            rest ← unquote fuel rest;
            Some (decoded ++ rest)
          else cons c <$> unquote fuel l'
      end
  end.

(** [urllib.parse.quote(text, safe="/:@-._~!$&'()*+,;=")] *)
Definition path_safe (c : ascii) : bool :=
  url_safe c || (c ∈? chars "/:@-._~!$&'()*+,;=").
Definition quote_path (l : list ascii) : list ascii :=
  flat_map (λ c, if path_safe c then [c] else percent c) (chars (utf8_encode (of_chars l))).

Section with_env.
Context `{!Env}.

(** The decoded path of a local absolute file URI. *)
Definition file_path (raw_uri : string) : result (list ascii) :=
  parsed ← urlsplit (strip raw_uri);
  if (lower (scheme parsed) =/? "file") || nonempty (netloc parsed)
     || nonempty (url_query parsed) || nonempty (url_fragment parsed)
     || negb (list_prefix ["/"%char] (path parsed))
  then invalid_root ("Gateway roots must use local absolute file URIs without authority, "
                     +:+ "query or fragment") else
  match unquote (length (path parsed)) (path parsed) with
  | None => invalid_root "Gateway root URI encoding is invalid"
  | Some decoded_path =>
      if existsb (λ c, c ∈? decoded_path) ["\"; chr 0; "%"]%char
      then invalid_root "Gateway root URI contains an unsafe path encoding"
      else if existsb (λ segment, of_chars segment ∈? ["."; ".."]) (split_on "/" decoded_path)
      then invalid_root "Gateway root URI traversal is not permitted"
      else Ok decoded_path
  end.

Definition normalize_gateway_root_candidate (value : pyval) : result root_candidate :=
  match value with
  | PDict d =>
      if negb (only_keys ["uri"; "name"] d)
      then invalid_root "Gateway root candidate contains unsupported fields" else
      match dict_get d "uri" with
      | PStr raw_uri =>
          if (strip raw_uri ==? "") || (4096 <? len raw_uri)
          then invalid_root "Gateway root URI is invalid" else
          decoded_path ← file_path raw_uri;
          let canonical_uri := "file://" +:+ of_chars (quote_path decoded_path) in
          let digest := sha256_hexdigest canonical_uri in
          name ← _label (dict_get d "name") "root";
          Ok (mkRootCandidate canonical_uri digest ("gateway-root:" +:+ truncate 12 digest) name)
      | _ => invalid_root "Gateway root URI is invalid"
      end
  | _ => invalid_root "Gateway root candidate must be an object"
  end.

(** ** Grants *)

(** A root of a thin client, as the registration passes it on. *)
Definition candidate_value (c : root_candidate) : pyval := PDict [
  ("root_uri_sha256", PStr (rc_sha256 c)); ("root_uri_hint", PStr (rc_hint c));
  ("root_name", PStr (rc_name c))].

Definition in_force : list string := ["pending"; "approved"].

Definition _reject_cross_server_reuse (owner_subject server_id root_uri_sha256 : string)
    : M unit :=
  collision ← scalar (λ g : McpRootGrant, (rgt_owner_subject g ==? owner_subject)
    && (rgt_server_id g =/? server_id) && (rgt_root_uri_sha256 g ==? root_uri_sha256)
    && (rgt_status g ∈? in_force));
  match collision with
  | Some _ => raise_root "MCP_ROOT_REUSE_FORBIDDEN"
                "Root authority is already bound to another MCP server" 409
  | None => mret tt
  end.

Definition bound_runtime (owner_subject : string) (server : McpServer)
    (runtime : McpRuntimeConnection) : bool :=
  (srv_owner_subject server ==? owner_subject) && (srv_origin server ==? "thin_client")
  && (rtm_owner_subject runtime ==? owner_subject) && (rtm_server_id runtime ==? srv_id server)
  && (rtm_thin_client_id runtime ==? srv_thin_client_id server)
  && (rtm_runtime_id runtime ==? srv_runtime_id server) && (rtm_state runtime ==? "online").

Definition _require_thin_runtime (owner_subject : string) (server : McpServer)
    (runtime : McpRuntimeConnection) : result unit :=
  if bound_runtime owner_subject server runtime then Ok tt else
  root_error "MCP_ROOT_RUNTIME_MISMATCH"
    "Root inventory is not bound to the active enrolled runtime" 403.

Definition pending_grant (id owner_subject : string) (server : McpServer)
    (binding : option string) (item : root_candidate) (now : Z) : McpRootGrant := {|
  rgt_id := id;
  rgt_owner_subject := owner_subject;
  rgt_server_id := srv_id server;
  rgt_runtime_connection_id := binding;
  rgt_root_uri_sha256 := rc_sha256 item;
  rgt_root_uri_hint := Some (rc_hint item);
  rgt_root_name := Some (rc_name item);
  rgt_grant_scope := "read";
  rgt_status := "pending";
  rgt_policy_generation := srv_policy_generation server;
  rgt_version := 1;
  rgt_granted_by_subject := None;
  rgt_granted_at := None;
  rgt_expires_at := None;
  rgt_created_at := now;
  rgt_updated_at := now;
|}.

(** A grant whose runtime or policy changed needs a new review. *)
Definition rebound_grant (server : McpServer) (binding : option string) (grant : McpRootGrant)
    : McpRootGrant :=
  if (rgt_runtime_connection_id grant =/? binding)
     || negb (rgt_policy_generation grant =? srv_policy_generation server)
  then grant <| rgt_runtime_connection_id := binding |>
             <| rgt_policy_generation := srv_policy_generation server |>
             <| rgt_status := "pending" |> <| rgt_granted_by_subject := None |>
             <| rgt_granted_at := None |> <| rgt_expires_at := None |>
             <| rgt_version ::= Z.succ |>
  else grant.

Definition relabelled_grant (item : root_candidate) (grant : McpRootGrant) : McpRootGrant :=
  if (rgt_root_uri_hint grant =/? Some (rc_hint item))
     || (rgt_root_name grant =/? Some (rc_name item))
  then grant <| rgt_root_uri_hint := Some (rc_hint item) |>
             <| rgt_root_name := Some (rc_name item) |> <| rgt_version ::= Z.succ |>
  else grant.

Definition reconcile_grant (owner_subject : string) (server : McpServer)
    (binding : option string) (now : Z) (item : root_candidate) : M McpRootGrant :=
  grant ← query_one (λ g, (rgt_owner_subject g ==? owner_subject)
    && (rgt_server_id g ==? srv_id server) && (rgt_root_uri_sha256 g ==? rc_sha256 item));
  match grant with
  | None =>
      id ← uuid4;
      let grant := pending_grant id owner_subject server binding item now in
      add grant;; mret grant
  | Some grant =>
      let grant := relabelled_grant item (rebound_grant server binding grant)
                     <| rgt_updated_at := now |> in
      put grant;; mret grant
  end.

Definition withdrawn_grant (now : Z) (grant : McpRootGrant) : McpRootGrant :=
  grant <| rgt_status := "revoked" |> <| rgt_version ::= Z.succ |> <| rgt_updated_at := now |>.

(** Grants whose root is no longer in the inventory. *)
Definition withdraw_unseen (owner_subject : string) (server : McpServer)
    (binding : option string) (now : Z) (observed : list string) : M unit :=
  stale ← query (λ g, (rgt_owner_subject g ==? owner_subject)
    && (rgt_server_id g ==? srv_id server) && (rgt_runtime_connection_id g ==? binding)
    && (rgt_status g ∈? in_force));
  foreach (λ g, if negb (rgt_root_uri_sha256 g ∈? observed) then put (withdrawn_grant now g)
                else mret tt) stale.

(** The common part of the two reconciliations: [binding] is the runtime connection, or
    nothing for a remote server. *)
Definition reconcile_grants (owner_subject : string) (server : McpServer)
    (binding : option string) (normalized : list root_candidate) : M (list McpRootGrant) :=
  now ← utcnow;
  result ← traverse (reconcile_grant owner_subject server binding now) normalized;
  withdraw_unseen owner_subject server binding now (map rc_sha256 normalized);;
  flush;;
  mret result.

(** A list of at most [_MAX_ROOTS] entries. *)
Definition candidate_list (candidates : pyval) (message : string) : result (list pyval) :=
  match candidates with
  | PList l => if (_MAX_ROOTS <? length l)%nat then invalid_root message else Ok l
  | _ => invalid_root message
  end.

Definition duplicates (normalized : list root_candidate) : bool :=
  negb (bool_decide (NoDup (map rc_sha256 normalized))).

Definition reject_reuse (owner_subject : string) (server : McpServer)
    (normalized : list root_candidate) : M unit :=
  foreach (λ item, _reject_cross_server_reuse owner_subject (srv_id server) (rc_sha256 item))
    normalized.

Definition reconcile_runtime_root_candidates (owner_subject : string) (server : McpServer)
    (runtime : McpRuntimeConnection) (candidates : pyval) : M (list McpRootGrant) :=
  lift (_require_thin_runtime owner_subject server runtime);;
  items ← lift (candidate_list candidates
    "Root candidate inventory must contain at most 64 entries");
  normalized ← lift (map_result (λ item, normalize_root_candidate item "local") items);
  reject_reuse owner_subject server normalized;;
  (if duplicates normalized
   then lift (invalid_root "Root candidate inventory contains duplicate identities")
   else mret tt);;
  reconcile_grants owner_subject server (Some (rtm_id runtime)) normalized.

Definition reconcile_gateway_root_candidates (owner_subject : string) (server : McpServer)
    (candidates : pyval) : M (list McpRootGrant) :=
  (if (srv_owner_subject server =/? owner_subject) || (srv_origin server =/? "gateway")
   then raise_root "MCP_ROOT_SERVER_MISMATCH"
          "Gateway root inventory is not bound to an owned remote server" 403
   else mret tt);;
  items ← lift (candidate_list candidates
    "Gateway root inventory must contain at most 64 entries");
  normalized ← lift (map_result normalize_gateway_root_candidate items);
  (if duplicates normalized
   then lift (invalid_root "Gateway root inventory contains duplicate identities")
   else mret tt);;
  reject_reuse owner_subject server normalized;;
  reconcile_grants owner_subject server None normalized.

(** [query.filter(column == value)] when a value is given. *)
Definition if_given (o : option string) (column : string) : bool :=
  match o with Some v => column ==? v | None => true end.

Definition list_root_grants (owner_subject : string) (server_id status : option string)
    : M (list McpRootGrant) :=
  grants ← query (λ g, (rgt_owner_subject g ==? owner_subject)
    && if_given server_id (rgt_server_id g) && if_given status (rgt_status g));
  mret (sort_by (λ a b, lex_leb [rgt_created_at a ?= rgt_created_at b;
                                 String.compare (rgt_id a) (rgt_id b)]) grants).

(** ** Reviews *)
Definition _current_runtime_for_grant (grant : McpRootGrant) : M McpRuntimeConnection :=
  match rgt_runtime_connection_id grant with
  | None | Some "" => raise_root "MCP_ROOT_RUNTIME_MISMATCH"
              "Thin-client root grant is not bound to a runtime connection" 409
  | Some id =>
      runtime ← find_row id (λ r, rtm_state r ==? "online");
      match runtime with
      | Some runtime => mret runtime
      | None => raise_root "MCP_ROOT_RUNTIME_MISMATCH"
                  "Root grant runtime connection is not active" 409
      end
  end.

Definition reviewed_grant (actor_subject decision : string) (now : Z) (grant : McpRootGrant)
    : McpRootGrant :=
  let grant := grant <| rgt_status := decision |> <| rgt_version ::= Z.succ |>
                     <| rgt_updated_at := now |> in
  if decision ==? "approved"
  then grant <| rgt_granted_by_subject := Some actor_subject |> <| rgt_granted_at := Some now |>
  else grant <| rgt_granted_by_subject := None |> <| rgt_granted_at := None |>
             <| rgt_expires_at := None |>.

(** What an approval requires. *)
Definition require_approvable (owner_subject : string) (server : McpServer)
    (grant : McpRootGrant) : M unit :=
  (if negb (rgt_policy_generation grant =? srv_policy_generation server)
   then raise_root "MCP_ROOT_POLICY_STALE" "Root grant policy generation is stale" 409
   else mret tt);;
  if srv_origin server ==? "thin_client" then
    runtime ← _current_runtime_for_grant grant;
    lift (_require_thin_runtime owner_subject server runtime)
  else mret tt.

Definition review_root_grant (owner_subject actor_subject grant_id : string)
    (expected_version : Z) (decision : string) : M McpRootGrant :=
  (if negb (decision ∈? ["approved"; "revoked"])
   then raise_root "MCP_ROOT_GRANT_INVALID" "Root grant decision must be approved or revoked" 422
   else mret tt);;
  grant ← find_row grant_id (λ g, rgt_owner_subject g ==? owner_subject);
  match grant with
  | None => raise_root "MCP_ROOT_GRANT_NOT_FOUND" "Root grant was not found" 404
  | Some grant =>
      server ← find_row (rgt_server_id grant) (λ s, srv_owner_subject s ==? owner_subject);
      match server with
      | None => raise_root "MCP_ROOT_GRANT_NOT_FOUND" "Root grant server was not found" 404
      | Some server =>
          (if negb (rgt_version grant =? expected_version)
           then raise_root "MCP_ROOT_GRANT_CONFLICT" "Root grant optimistic version conflict" 409
           else mret tt);;
          (if decision ==? "approved" then require_approvable owner_subject server grant
           else mret tt);;
          now ← utcnow;
          let grant := reviewed_grant actor_subject decision now grant in
          put grant;;
          commit;;
          mret grant
      end
  end.

(** ** The roots a server may use *)
Definition unexpired (now : Z) (grant : McpRootGrant) : bool :=
  match rgt_expires_at grant with Some t => now <? t | None => true end.

(** The rows of the query. *)
Definition approved_for (owner_subject : string) (server : McpServer)
    (binding : option string) (g : McpRootGrant) : bool :=
  (rgt_owner_subject g ==? owner_subject) && (rgt_server_id g ==? srv_id server)
  && (rgt_status g ==? "approved") && (rgt_policy_generation g =? srv_policy_generation server)
  && (rgt_runtime_connection_id g ==? binding).

Definition grants_in_force (owner_subject : string) (server : McpServer)
    (binding : option string) : M (list McpRootGrant) :=
  current ← utcnow;
  grants ← query (approved_for owner_subject server binding);
  mret (filter (λ g, unexpired current g = true)
          (sort_by (λ a b, str_leb (rgt_root_uri_sha256 a) (rgt_root_uri_sha256 b)) grants)).

Definition approved_root_grants (owner_subject : string) (server : McpServer)
    (runtime : option McpRuntimeConnection) : M (list McpRootGrant) :=
  if srv_owner_subject server =/? owner_subject then mret [] else
  if srv_origin server ==? "thin_client" then
    match runtime with
    | None => mret []
    | Some runtime =>
        lift (_require_thin_runtime owner_subject server runtime);;
        grants_in_force owner_subject server (Some (rtm_id runtime))
    end
  else grants_in_force owner_subject server None.

(** A root as it is given to a server: its URI, its name and its digest. *)
Record root_value := mkRootValue { rv_uri : string; rv_name : string; rv_sha256 : string }.

Definition approved_gateway_root_values (owner_subject : string) (server : McpServer)
    (candidates : pyval) : M (list root_value) :=
  match candidates with
  | PList items =>
      if (_MAX_ROOTS <? length items)%nat then mret [] else
      match map_result normalize_gateway_root_candidate items with
      | Raise (McpRootFederationError _ _ _) => mret []
      | Raise e => throw e
      | Ok normalized =>
          if duplicates normalized then mret [] else
          grants ← approved_root_grants owner_subject server None;
          mret (omap (λ g,
            configured ← find (λ c, rc_sha256 c ==? rgt_root_uri_sha256 g) normalized;
            Some (mkRootValue (rc_uri configured)
                    (if opt_truthy (rgt_root_name g) then default "" (rgt_root_name g)
                     else rc_name configured)
                    (rgt_root_uri_sha256 g))) grants)
      end
  | _ => mret []
  end.

(** ** Digests of a set of roots *)

(** [json.dumps(value, sort_keys=True, separators=(",", ":"))]: ASCII only. *)
Definition ascii_json (v : pyval) : string :=
  of_chars (flat_map (λ c, if code c <? 127 then [c] else
    chr 92 :: chars "u00" ++ [hex_digit (code c / 16); hex_digit (code c mod 16)])
    (chars (json_dumps v))).

Definition shown_name (grant : McpRootGrant) : string :=
  if opt_truthy (rgt_root_name grant) then default "" (rgt_root_name grant) else "root".

Definition by_sha256 (grants : list McpRootGrant) : list McpRootGrant :=
  sort_by (λ a b, str_leb (rgt_root_uri_sha256 a) (rgt_root_uri_sha256 b)) grants.

Definition root_grant_set_sha256 (grants : list McpRootGrant) : string :=
  sha256_hexdigest (ascii_json (PList (map (λ g, PDict [
    ("root_uri_sha256", PStr (rgt_root_uri_sha256 g)); ("root_name", PStr (shown_name g));
    ("policy_generation", PInt (rgt_policy_generation g)); ("version", PInt (rgt_version g))])
    (by_sha256 grants)))).

(** The entry of a grant in what is sent to a thin client. *)
Definition sync_entry (g : McpRootGrant) : pyval := PDict [
  ("root_uri_sha256", PStr (rgt_root_uri_sha256 g)); ("root_name", PStr (shown_name g));
  ("version", PInt (rgt_version g))].

(** Called with the entries of [grants]. *)
Definition root_sync_set_sha256 (policy_generation : Z) (grants : list McpRootGrant) : string :=
  sha256_hexdigest (ascii_json (PDict [
    ("policy_generation", PInt policy_generation);
    ("roots", PList (map sync_entry (by_sha256 grants)))])).

Definition thin_root_sync_payload (server : McpServer) (runtime : McpRuntimeConnection)
    (grants : list McpRootGrant) : result pydict :=
  _require_thin_runtime (srv_owner_subject server) server runtime;;
  Ok [("type", PStr "mcp_roots_update");
      ("connection_instance_id", PStr (rtm_connection_instance_id runtime));
      ("runtime_id", opt_str (rtm_runtime_id runtime));
      ("local_server_id", opt_str (srv_local_server_id server));
      ("server_id", PStr (srv_id server));
      ("policy_generation", PInt (srv_policy_generation server));
      ("root_set_sha256", PStr (root_sync_set_sha256 (srv_policy_generation server) grants));
      ("roots", PList (map sync_entry grants))].
End with_env.
