(* ===== verification/FederationPolicy.v ===== *)
(** * The policy of MCP federation ([mcp_federation_policy.py])

    Which tool revisions of which upstream servers a caller may use, with which
    approval, and which payloads look like secrets.  The enumerations are those of the
    source; the database holds their values. *)

From S2P Require Import Prelude PyStr PyVal Errors Models Database Session.
From Stdlib Require Import Ascii.

(** ** Enumerations *)
Inductive McpOrigin : Type := GATEWAY | THIN_CLIENT.
Inductive McpTrustLevel : Type := UNREVIEWED | RESTRICTED | APPROVED | QUARANTINED | REVOKED.
Inductive McpActionClass : Type := UNKNOWN | READ | WRITE | DESTRUCTIVE | PRODUCTION.
Inductive McpReadOnlyStatus : Type := UNVERIFIED | VERIFIED | REJECTED.
Inductive McpExposureMode : Type := HIDDEN | CATALOG_ONLY | NATIVE_PROJECTED.
Inductive McpApprovalClass : Type :=
  | NO_APPROVAL | OPERATOR_APPROVAL | QUORUM_APPROVAL | PRODUCTION_APPROVAL.

#[export] Instance McpOrigin_eq_dec : EqDecision McpOrigin.
Proof. solve_decision. Defined.
#[export] Instance McpTrustLevel_eq_dec : EqDecision McpTrustLevel.
Proof. solve_decision. Defined.
#[export] Instance McpActionClass_eq_dec : EqDecision McpActionClass.
Proof. solve_decision. Defined.
#[export] Instance McpReadOnlyStatus_eq_dec : EqDecision McpReadOnlyStatus.
Proof. solve_decision. Defined.
#[export] Instance McpExposureMode_eq_dec : EqDecision McpExposureMode.
Proof. solve_decision. Defined.
#[export] Instance McpApprovalClass_eq_dec : EqDecision McpApprovalClass.
Proof. solve_decision. Defined.

(** A [StrEnum]: its members with their values; [E(s)] finds the member or raises
    [ValueError]. *)
Class StrEnum (E : Type) : Type := {
  members : list E;
  value : E → string;
  enum_name : string;
}.

Definition of_value {E} `{!StrEnum E} (s : string) : result E :=
  match filter (λ e, value e = s) members with
  | e :: _ => Ok e
  | [] => Raise (ValueError (repr_str s +:+ " is not a valid " +:+ enum_name))
  end.

#[export] Instance McpOrigin_values : StrEnum McpOrigin := {|
  members := [GATEWAY; THIN_CLIENT];
  value e := match e with GATEWAY => "gateway" | THIN_CLIENT => "thin_client" end;
  enum_name := "McpOrigin";
|}.
#[export] Instance McpTrustLevel_values : StrEnum McpTrustLevel := {|
  members := [UNREVIEWED; RESTRICTED; APPROVED; QUARANTINED; REVOKED];
  value e := match e with
    | UNREVIEWED => "unreviewed" | RESTRICTED => "restricted" | APPROVED => "approved"
    | QUARANTINED => "quarantined" | REVOKED => "revoked" end;
  enum_name := "McpTrustLevel";
|}.
#[export] Instance McpActionClass_values : StrEnum McpActionClass := {|
  members := [UNKNOWN; READ; WRITE; DESTRUCTIVE; PRODUCTION];
  value e := match e with
    | UNKNOWN => "unknown" | READ => "read" | WRITE => "write"
    | DESTRUCTIVE => "destructive" | PRODUCTION => "production" end;
  enum_name := "McpActionClass";
|}.
#[export] Instance McpReadOnlyStatus_values : StrEnum McpReadOnlyStatus := {|
  members := [UNVERIFIED; VERIFIED; REJECTED];
  value e := match e with
    | UNVERIFIED => "unverified" | VERIFIED => "verified" | REJECTED => "rejected" end;
  enum_name := "McpReadOnlyStatus";
|}.
#[export] Instance McpExposureMode_values : StrEnum McpExposureMode := {|
  members := [HIDDEN; CATALOG_ONLY; NATIVE_PROJECTED];
  value e := match e with
    | HIDDEN => "hidden" | CATALOG_ONLY => "catalog_only"
    | NATIVE_PROJECTED => "native_projected" end;
  enum_name := "McpExposureMode";
|}.
#[export] Instance McpApprovalClass_values : StrEnum McpApprovalClass := {|
  members := [NO_APPROVAL; OPERATOR_APPROVAL; QUORUM_APPROVAL; PRODUCTION_APPROVAL];
  value e := match e with
    | NO_APPROVAL => "none" | OPERATOR_APPROVAL => "operator"
    | QUORUM_APPROVAL => "quorum" | PRODUCTION_APPROVAL => "production" end;
  enum_name := "McpApprovalClass";
|}.

Definition violation {A} (message : string) : result A := Raise (McpPolicyViolation message).

(** ** Word patterns

    [(?:^|[_\-.])(w1|w2|...)(?:$|[_\-.])], ignoring the case, where a word is a list
    of parts with [[_-]?] between them. *)
Definition is_separator (c : ascii) : bool := c ∈? ["_"; "-"; "."]%char.

(** The rests after the parts. *)
Fixpoint after_parts (parts : list string) (l : list ascii) : list (list ascii) :=
  match parts with
  | [] => [l]
  | part :: parts =>
      if list_prefix (chars part) l then
        let rest := drop (length (chars part)) l in
        match parts with
        | [] => [rest]
        | _ => after_parts parts rest
               ++ match rest with
                  | c :: rest => if c ∈? ["_"; "-"]%char then after_parts parts rest else []
                  | [] => []
                  end
        end
      else []
  end.

(** [(?:$|[_\-.])]: [$] also matches before a final newline. *)
Definition word_ends (l : list ascii) : bool :=
  match l with
  | [] => true
  | c :: l => is_separator c || (code c =? 10) && negb (nonempty l)
  end.

(** Where a word may start. *)
Fixpoint after_separators (l : list ascii) : list (list ascii) :=
  match l with
  | [] => []
  | c :: l => (if is_separator c then [l] else []) ++ after_separators l
  end.

Definition search_words (words : list (list string)) (text : string) : bool :=
  let l := chars (lower text) in
  existsb (λ start, existsb (λ word, existsb word_ends (after_parts word start)) words)
    (l :: after_separators l).

Definition _SECRET_KEY_PATTERN : list (list string) := [
  ["password"]; ["passwd"]; ["secret"]; ["token"]; ["api"; "key"]; ["private"; "key"];
  ["client"; "secret"]; ["credential"]; ["authorization"]; ["cookie"]].
Definition _TOOL_NAME_WRITE_PATTERN : list (list string) := map (λ w, [w]) [
  "create"; "update"; "edit"; "write"; "send"; "post"; "publish"; "upload"; "delete";
  "remove"; "destroy"; "replay"; "trigger"; "restart"; "deploy"; "promote"; "rollback";
  "approve"; "execute"; "run"].
Definition _TOOL_NAME_PRODUCTION_PATTERN : list (list string) := map (λ w, [w]) [
  "production"; "prod"; "deploy"; "promote"; "rollback"].
Definition _TOOL_NAME_DESTRUCTIVE_PATTERN : list (list string) := map (λ w, [w]) [
  "delete"; "remove"; "destroy"; "purge"; "drop"; "terminate"].

Example search_words_ex :
  map (search_words _SECRET_KEY_PATTERN)
    ["apiKey"; "x-API_key"; "api--key"; "tokens"; "auth.token"; "my_secret_id"]
  = [true; true; false; false; true; true].
Proof. reflexivity. Qed.

(** ** Canonical JSON, slugs *)

(** A value without an instant: what [json.dumps] accepts without a default. *)
Fixpoint is_json (v : pyval) : bool :=
  match v with
  | PTime _ => false
  | PList l => forallb is_json l
  | PDict d => forallb (λ kv, is_json kv.2) d
  | _ => true
  end.

Definition canonical_json (v : pyval) : result string :=
  if is_json v then Ok (json_dumps v) else Raise TypeError.

(** [re.sub(r"[^a-z0-9]+", "-", s)] *)
Fixpoint dashes (dashed : bool) (l : list ascii) : list ascii :=
  match l with
  | [] => []
  | c :: l =>
      if between 97 122 (code c) || is_digit c then c :: dashes false l
      else if dashed then dashes true l else "-"%char :: dashes true l
  end.

Definition normalize_slug (v : string) : result string :=
  let is_dash := λ c, bool_decide (c = "-"%char) in
  let slug := rstrip_by is_dash (lstrip_by is_dash (dashes false (chars (lower (strip v))))) in
  match slug with
  | [] => violation "MCP server name does not produce a valid slug"
  | _ => Ok (of_chars (take 120 slug))
  end.

(** ** Secrets *)
Fixpoint find_secret_paths (v : pyval) (path : string) {struct v} : list string :=
  match v with
  | PDict d => flat_map (λ kv,
      let nested_path := path +:+ "." +:+ kv.1 in
      (if search_words _SECRET_KEY_PATTERN kv.1 then [nested_path] else [])
      ++ find_secret_paths kv.2 nested_path) d
  | PList l =>
      (fix elements (index : Z) (l : list pyval) : list string :=
         match l with
         | [] => []
         | nested :: l => find_secret_paths nested (path +:+ "[" +:+ pretty index +:+ "]")
                          ++ elements (index + 1) l
         end) 0 l
  | _ => []
  end.

Definition reject_secret_shaped_payload (v : pyval) : result unit :=
  match find_secret_paths v "$" with
  | [] => Ok tt
  | matches => violation ("Secret-shaped fields are forbidden in federation payloads: "
                          +:+ join ", " (take 8 matches))
  end.

(** ** Credentials, evidence, classification *)
Definition validate_credential_binding (origin : McpOrigin)
    (binding_type secret_blob_id : option string) : result unit :=
  match origin with
  | THIN_CLIENT =>
      if negb (binding_type ∈? [None; Some "thin_client_local"])
      then violation "Thin-client MCP servers may use only thin_client_local credentials"
      else if negb (is_none secret_blob_id)
      then violation "Thin-client-local credentials must not be stored in Gateway secret blobs"
      else Ok tt
  | GATEWAY =>
      if binding_type ==? Some "thin_client_local"
      then violation "Gateway-origin MCP servers cannot use thin_client_local credentials"
      else if (binding_type ∈? [Some "oauth"; Some "service_account"])
              && negb (opt_truthy secret_blob_id)
      then violation "Gateway OAuth and service-account bindings require a backend secret reference"
      else Ok tt
  end.

Definition heuristic_action_class (tool_name : string) : McpActionClass :=
  if search_words _TOOL_NAME_PRODUCTION_PATTERN tool_name then PRODUCTION
  else if search_words _TOOL_NAME_DESTRUCTIVE_PATTERN tool_name then DESTRUCTIVE
  else if search_words _TOOL_NAME_WRITE_PATTERN tool_name then WRITE
  else UNKNOWN.

Definition derive_risk_evidence (tool_name : string) (input_schema annotations : pydict)
    : result pydict :=
  reject_secret_shaped_payload (PDict input_schema);;
  Ok [("heuristic_action_class", PStr (value (heuristic_action_class tool_name)));
      ("upstream_read_only_hint", dict_get annotations "readOnlyHint");
      ("upstream_destructive_hint", dict_get annotations "destructiveHint");
      ("authoritative", PBool false)].

Definition validate_operator_classification (action_class : McpActionClass)
    (read_only_status : McpReadOnlyStatus) : result unit :=
  if (action_class ==? READ) && (read_only_status =/? VERIFIED)
  then violation "Read action classification requires independently verified read-only status"
  else if (action_class =/? READ) && (read_only_status ==? VERIFIED)
  then violation "Verified read-only status is valid only for read action classification"
  else Ok tt.

(** ** Authorisation *)
Definition required_approval_for (action_class : McpActionClass) : McpApprovalClass :=
  match action_class with
  | UNKNOWN => QUORUM_APPROVAL
  | READ => NO_APPROVAL
  | WRITE => OPERATOR_APPROVAL
  | DESTRUCTIVE => QUORUM_APPROVAL
  | PRODUCTION => PRODUCTION_APPROVAL
  end.

Record McpAuthorizationDecision := mkDecision {
  allowed : bool;
  reason : string;
  approval_class : McpApprovalClass;
}.

Definition denied (why : string) : McpAuthorizationDecision := mkDecision false why NO_APPROVAL.

(** [required and required not in held] *)
Definition lacks (required : option string) (held : list string) : bool :=
  match required with Some r => (r =/? "") && negb (r ∈? held) | None => false end.

Definition authorize_tool_revision (actor_roles actor_scopes : list string)
    (trust_level : McpTrustLevel) (exposure_mode : McpExposureMode) (exposure_enabled : bool)
    (action_class : McpActionClass) (read_only_status : McpReadOnlyStatus)
    (required_role required_scope : option string) (allowed_action_classes : list string)
    (approval : option McpApprovalClass) : McpAuthorizationDecision :=
  if negb exposure_enabled || (exposure_mode ==? HIDDEN)
  then denied "tool exposure is disabled" else
  if trust_level ∈? [UNREVIEWED; QUARANTINED; REVOKED]
  then denied ("server trust level is " +:+ value trust_level) else
  if action_class ==? UNKNOWN then denied "tool risk classification is unknown" else
  if negb (value action_class ∈? allowed_action_classes)
  then denied "action class is denied by federation policy" else
  if lacks required_role actor_roles then denied "required role is missing" else
  if lacks required_scope actor_scopes then denied "required scope is missing" else
  if (action_class ==? READ) && (read_only_status =/? VERIFIED)
  then denied "read-only status is not independently verified" else
  mkDecision true "authorized" (default (required_approval_for action_class) approval).
