(* ===== verification/Federation.v ===== *)
(** * The registry of federated MCP servers ([mcp_federation.py])

    Credential bindings, servers, their policies, the tools and tool revisions their
    catalogues were found to hold, and which revisions are exposed.  Every mutation
    takes an idempotency key and leaves a receipt.  The normalisation of tool
    descriptors is left out: [store_tool_revision] and [store_catalog_snapshot] start
    where it has been done. *)

From S2P Require Import Prelude PyStr PyVal Errors Models Database Session.
From S2P Require Import PyUrl FederationPolicy.
From Stdlib Require Import Ascii.

(** ** Reading request data *)

(** [data[k]] *)
Definition item (data : pydict) (k : string) : result pyval :=
  or_type_error (dict_lookup k data).

(** A text column is given a string or [None]. *)
Definition text_or_none (v : pyval) : result (option string) :=
  match v with
  | PNone => Ok None
  | PStr s => Ok (Some s)
  | _ => Raise TypeError
  end.

Definition enum_of {E} `{!StrEnum E} (v : pyval) : result E :=
  match v with
  | PStr s => of_value s
  | _ => Raise (ValueError (py_repr v +:+ " is not a valid " +:+ enum_name))
  end.

(** [unicodedata.category(c).startswith("C")] *)
Definition is_control (c : ascii) : bool :=
  let n := code c in (n <=? 31) || between 127 159 n || (n =? 173).

Definition one_of_values {E} `{!StrEnum E} (s : string) : bool := s ∈? map value members.

Section registry.
Context `{!Env}.

Definition _sanitize_catalog_text (v : pyval) (maximum : nat) : string :=
  let text := chars (nfkc (py_str (py_or v (PStr "")))) in
  let text := filter (λ c, negb (is_control c) = true) text in
  truncate maximum (join " " (split_words [] text)).

Definition _schema_argument_names (schema : pydict) : list string :=
  match dict_get schema "properties" with
  | PDict properties =>
      take 200 (sort_strings
        (map (λ kv, _sanitize_catalog_text (PStr kv.1) 120) properties))
  | _ => []
  end.

Definition _revision_search_text (server : McpServer) (upstream_name normalized_name : string)
    (title : option string) (description : string) (input_schema : pydict)
    (action_class read_only_status : string) : string :=
  _sanitize_catalog_text (PStr (join " " [
    srv_display_name server; srv_normalized_slug server; upstream_name; normalized_name;
    default "" title; description; join " " (_schema_argument_names input_schema);
    srv_trust_level server; action_class; read_only_status])) 20000.

Definition sha256_json (v : pyval) : result string :=
  text ← canonical_json v;
  Ok (sha256_hexdigest (utf8_encode text)).

(** [except McpPolicyViolation as exc: raise _policy_error(exc)] *)
Definition policy_error {A} (r : result A) : M A :=
  match r with
  | Raise (McpPolicyViolation message) => fail 422 message
  | _ => lift r
  end.

Definition _check_version (actual expected : Z) : M unit :=
  fail_if (negb (actual =? expected)) 409
    ("Optimistic version conflict: expected " +:+ pretty expected +:+ ", current "
     +:+ pretty actual).

(** ** Receipts *)
Definition _mutation_receipt (owner_subject operation idempotency_key : string)
    (request : pydict) : M (option McpMutationReceipt * string) :=
  request_hash ← lift (sha256_json
    (PDict [("operation", PStr operation); ("request", PDict request)]));
  receipt ← scalar (λ r : McpMutationReceipt,
    (mmr_owner_subject r ==? owner_subject) && (mmr_operation r ==? operation)
    && (mmr_idempotency_key r ==? idempotency_key));
  (match receipt with
   | Some r => fail_if (mmr_request_hash r =/? request_hash) 409
                 "MCP mutation idempotency key was reused with a different request"
   | None => mret tt
   end);;
  mret (receipt, request_hash).

Definition _record_mutation_receipt (owner_subject operation idempotency_key request_hash
    resource_type resource_id : string) (response_version : Z) : M unit :=
  new_id ← uuid4;
  now ← utcnow;
  add {|
    mmr_id := new_id;
    mmr_owner_subject := owner_subject;
    mmr_operation := operation;
    mmr_idempotency_key := idempotency_key;
    mmr_request_hash := request_hash;
    mmr_resource_type := resource_type;
    mmr_resource_id := resource_id;
    mmr_response_version := Some response_version;
    mmr_created_at := now;
  |}.

(** The resource of the receipt if the request was made before, or [body]. *)
Definition idempotent {R} (owner_subject operation idempotency_key : string)
    (request : pydict) (existing : string → M R) (body : string → M R) : M R :=
  found ← _mutation_receipt owner_subject operation idempotency_key request;
  match found.1 with
  | Some receipt => existing (mmr_resource_id receipt)
  | None => body found.2
  end.

(** ** Lookups *)
Definition _policy_by_id (owner_subject policy_id : string) : M McpFederationPolicy :=
  policy ← find_row policy_id (λ p, fpl_owner_subject p ==? owner_subject);
  require policy 404 "MCP federation policy not found".

Definition _exposure_by_id (owner_subject exposure_id : string) : M McpToolExposure :=
  exposure ← find_row exposure_id (λ e, xps_owner_subject e ==? owner_subject);
  require exposure 404 "MCP tool exposure not found".

Definition _owned_binding (owner_subject binding_id : string) : M McpCredentialBinding :=
  binding ← find_row binding_id (λ b, mcb_owner_subject b ==? owner_subject);
  require binding 404 "MCP credential binding not found".

Definition get_server (owner_subject server_id : string) : M McpServer :=
  server ← find_row server_id (λ s, srv_owner_subject s ==? owner_subject);
  require server 404 "MCP server not found".

Definition get_tool (owner_subject tool_id : string) : M McpTool :=
  tool ← find_row tool_id (λ t, mtl_owner_subject t ==? owner_subject);
  require tool 404 "MCP tool not found".

Definition get_revision (owner_subject revision_id : string) : M McpToolRevision :=
  revision ← find_row revision_id (λ r, rvn_owner_subject r ==? owner_subject);
  require revision 404 "MCP tool revision not found".

Definition _validate_http_endpoint (endpoint_url : option string) : M unit :=
  match endpoint_url with
  | None => mret tt
  | Some text =>
      parsed ← lift (urlsplit text);
      fail_if (negb (scheme parsed ∈? ["http"; "https"]) || negb (nonempty (hostname parsed)))
        422 "MCP endpoint must be an absolute http or https URL";;
      fail_if (has_credentials parsed) 422
        "MCP endpoint must not contain embedded credentials"
  end.

(** ** Credential bindings *)
Definition create_credential_binding (owner_subject actor_subject idempotency_key : string)
    (data : pydict) : M McpCredentialBinding :=
  let operation := "credential_binding.create" in
  idempotent owner_subject operation idempotency_key data (_owned_binding owner_subject)
  (λ request_hash,
  lift (reject_secret_shaped_payload (dict_get data "meta"));;
  binding_type ← lift (item data "binding_type");
  let binding_type := py_str binding_type in
  secret_blob_id ← lift (text_or_none (dict_get data "secret_blob_id"));
  policy_error (validate_credential_binding
    (if binding_type ==? "thin_client_local" then THIN_CLIENT else GATEWAY)
    (Some binding_type) secret_blob_id);;
  (match secret_blob_id with
   | Some secret_id =>
       if secret_id ==? "" then mret tt else
       secret ← find_row secret_id (λ s, sb_owner_subject s ==? owner_subject);
       fail_if (is_none secret) 404 "Backend secret reference not found"
   | None => mret tt
   end);;
  new_id ← uuid4;
  provider ← lift (text_or_none (dict_get data "provider"));
  audience ← lift (text_or_none (dict_get data "audience"));
  scopes ← lift (or_type_error (list_or_empty (dict_get data "scopes")));
  meta ← lift (or_type_error (dict_or_empty (dict_get data "meta")));
  created_at ← utcnow;
  updated_at ← utcnow;
  let binding := {|
    mcb_id := new_id;
    mcb_owner_subject := owner_subject;
    mcb_binding_type := binding_type;
    mcb_provider := provider;
    mcb_secret_blob_id := secret_blob_id;
    mcb_audience := audience;
    mcb_scopes := scopes;
    mcb_status := "active";
    mcb_version := 1;
    mcb_idempotency_key := Some idempotency_key;
    mcb_meta := meta;
    mcb_created_at := created_at;
    mcb_updated_at := updated_at;
    mcb_rotated_at := None;
    mcb_revoked_at := None;
  |} in
  add binding;;
  check_row (binding_type ∈? ["oauth"; "service_account"; "thin_client_local"]);;
  _record_mutation_receipt owner_subject operation idempotency_key request_hash
    "mcp_credential_binding" (mcb_id binding) (mcb_version binding);;
  (** the status is still unset here: its default is applied by the flush *)
  emit_for owner_subject "gateway.mcp.credential_binding.created.v1" actor_subject "created"
    "mcp_credential_binding" (mcb_id binding) "success"
    [("binding_id", PStr (mcb_id binding));
     ("binding_type", PStr (mcb_binding_type binding));
     ("provider", opt_str (mcb_provider binding));
     ("status", PNone)];;
  commit;;
  mret binding).

Definition list_credential_bindings (owner_subject : string) : M (list McpCredentialBinding) :=
  bindings ← query (λ b, mcb_owner_subject b ==? owner_subject);
  mret (sort_by (λ a b, mcb_created_at b <=? mcb_created_at a) bindings).

(** ** Servers *)
Definition _SERVER_STATUSES : list string := [
  "draft"; "authorizing"; "discovering"; "online"; "degraded"; "offline"; "auth_required";
  "schema_invalid"; "quarantined"; "disabled"].

Definition transports : list string :=
  ["streamable_http"; "legacy_sse"; "stdio"; "private_http"].

(** The binding a request names, if any. *)
Definition named_binding (owner_subject : string) (binding_id : option string)
    : M (option McpCredentialBinding) :=
  match binding_id with
  | Some id =>
      if id ==? "" then mret None else
      binding ← _owned_binding owner_subject id; mret (Some binding)
  | None => mret None
  end.

Definition create_server (owner_subject actor_subject idempotency_key : string)
    (data : pydict) : M McpServer :=
  let operation := "server.create" in
  idempotent owner_subject operation idempotency_key data (get_server owner_subject)
  (λ request_hash,
  origin_value ← lift (item data "origin");
  origin ← lift (enum_of (E:=McpOrigin) origin_value);
  endpoint_url ← lift (text_or_none (dict_get data "endpoint_url"));
  _validate_http_endpoint endpoint_url;;
  binding_id ← lift (text_or_none (dict_get data "credential_binding_id"));
  binding ← named_binding owner_subject binding_id;
  policy_error (validate_credential_binding origin (mcb_binding_type <$> binding)
    (binding ≫= mcb_secret_blob_id));;
  thin_client_id ← lift (text_or_none (dict_get data "thin_client_id"));
  (if origin ==? THIN_CLIENT then
     thin_client ← match thin_client_id with
                   | Some id => find_row id (λ c, tcl_owner_subject c ==? owner_subject)
                   | None => mret None
                   end;
     fail_if (is_none thin_client) 404 "Thin client not found"
   else mret tt);;
  display_name ← lift (item data "display_name");
  let display_name := strip (py_str display_name) in
  new_id ← uuid4;
  runtime_id ← lift (text_or_none (dict_get data "runtime_id"));
  normalized_slug ← lift (normalize_slug display_name);
  transport ← lift (item data "transport");
  created_at ← utcnow;
  updated_at ← utcnow;
  let server := {|
    srv_id := new_id;
    srv_owner_subject := owner_subject;
    srv_origin := value origin;
    srv_thin_client_id := thin_client_id;
    srv_runtime_id := runtime_id;
    srv_local_server_id := None;
    srv_display_name := display_name;
    srv_normalized_slug := normalized_slug;
    srv_transport := py_str transport;
    srv_endpoint_url := endpoint_url;
    srv_credential_binding_id := binding_id;
    srv_status := "draft";
    srv_trust_level := "unreviewed";
    srv_quarantine_reason := None;
    srv_negotiated_protocol_version := None;
    srv_capabilities := [];
    srv_sanitized_instructions := "";
    srv_instructions_sha256 := None;
    srv_catalog_generation := 0;
    srv_policy_generation := 1;
    srv_version := 1;
    srv_idempotency_key := Some idempotency_key;
    srv_last_connected_at := None;
    srv_last_catalog_refreshed_at := None;
    srv_disabled_at := None;
    srv_created_at := created_at;
    srv_updated_at := updated_at;
  |} in
  add server;;
  check_row (srv_transport server ∈? transports);;
  _record_mutation_receipt owner_subject operation idempotency_key request_hash
    "mcp_server" (srv_id server) (srv_version server);;
  try_integrity flush
    (rollback;; fail 409 "MCP server slug or idempotency key already exists");;
  emit_for owner_subject "gateway.mcp.server.created.v1" actor_subject "created"
    "mcp_server" (srv_id server) "success"
    [("server_id", PStr (srv_id server));
     ("origin", PStr (srv_origin server));
     ("transport", PStr (srv_transport server));
     ("status", PStr (srv_status server));
     ("trust_level", PStr (srv_trust_level server))];;
  commit;;
  mret server).

Definition list_servers (owner_subject : string) (server_status : option string)
    : M (list McpServer) :=
  (if opt_truthy server_status then
     fail_if (negb (default "" server_status ∈? _SERVER_STATUSES)) 422
       "Unsupported MCP server status"
   else mret tt);;
  servers ← query (λ s, (srv_owner_subject s ==? owner_subject)
    && (if opt_truthy server_status then Some (srv_status s) ==? server_status else true));
  mret (sort_by (λ a b, srv_created_at b <=? srv_created_at a) servers).

(** The server after a request, before its version is counted. *)
Definition rebound (owner_subject : string) (data : pydict) (server : McpServer)
    : M McpServer :=
  if dict_has data "credential_binding_id" then
    binding_id ← lift (text_or_none (dict_get data "credential_binding_id"));
    binding ← named_binding owner_subject binding_id;
    origin ← lift (of_value (E:=McpOrigin) (srv_origin server));
    policy_error (validate_credential_binding origin (mcb_binding_type <$> binding)
      (binding ≫= mcb_secret_blob_id));;
    mret (server <| srv_credential_binding_id := binding_id |>)
  else mret server.

Definition enabled_or_disabled (enabled : pyval) (server : McpServer) : M McpServer :=
  match enabled with
  | PBool false =>
      disabled_at ← utcnow;
      mret (server <| srv_status := "disabled" |> <| srv_disabled_at := Some disabled_at |>)
  | PBool true =>
      if srv_status server ==? "disabled"
      then mret (server <| srv_status := "draft" |> <| srv_disabled_at := None |>)
      else mret server
  | _ => mret server
  end.

Definition update_server (owner_subject actor_subject server_id idempotency_key : string)
    (expected_version : Z) (data : pydict) (operation : string) : M McpServer :=
  idempotent owner_subject operation idempotency_key
    [("server_id", PStr server_id); ("expected_version", PInt expected_version);
     ("data", PDict data)] (get_server owner_subject)
  (λ request_hash,
  server ← get_server owner_subject server_id;
  _check_version (srv_version server) expected_version;;
  let server := match dict_get data "display_name" with
                | PNone => server
                | name => server <| srv_display_name := strip (py_str name) |>
                end in
  server ← rebound owner_subject data server;
  server ← enabled_or_disabled (dict_get data "enabled") server;
  updated_at ← utcnow;
  let server := server <| srv_version ::= λ n, n + 1 |> <| srv_updated_at := updated_at |> in
  put server;;
  _record_mutation_receipt owner_subject operation idempotency_key request_hash
    "mcp_server" (srv_id server) (srv_version server);;
  emit_for owner_subject "gateway.mcp.server.updated.v1" actor_subject "updated"
    "mcp_server" (srv_id server) "success"
    [("server_id", PStr (srv_id server));
     ("status", PStr (srv_status server));
     ("version", PInt (srv_version server));
     ("credential_binding_configured",
       PBool (negb (is_none (srv_credential_binding_id server))))];;
  commit;;
  mret server).

Definition disable_server (owner_subject actor_subject server_id idempotency_key : string)
    (expected_version : Z) : M McpServer :=
  update_server owner_subject actor_subject server_id idempotency_key expected_version
    [("enabled", PBool false)] "server.disable".

Definition transition_target (transition : string) : option string :=
  if transition ==? "authorize" then Some "authorizing"
  else if transition ==? "refresh" then Some "discovering" else None.

Definition request_server_transition (owner_subject actor_subject server_id
    idempotency_key : string) (expected_version : Z) (transition : string) : M McpServer :=
  target_status ← require (transition_target transition) 422
    "Unsupported MCP server transition";
  let operation := "server." +:+ transition in
  idempotent owner_subject operation idempotency_key
    [("server_id", PStr server_id); ("expected_version", PInt expected_version);
     ("transition", PStr transition)] (get_server owner_subject)
  (λ request_hash,
  server ← get_server owner_subject server_id;
  _check_version (srv_version server) expected_version;;
  fail_if (srv_status server ==? "disabled") 409
    "Disabled MCP server cannot start a control-plane transition";;
  fail_if ((transition ==? "authorize") && (srv_origin server ==? value GATEWAY)
           && is_none (srv_credential_binding_id server)) 409
    "Gateway-origin MCP server requires a credential binding";;
  let previous := srv_status server in
  updated_at ← utcnow;
  let server := server <| srv_status := target_status |> <| srv_version ::= λ n, n + 1 |>
                       <| srv_updated_at := updated_at |> in
  put server;;
  _record_mutation_receipt owner_subject operation idempotency_key request_hash
    "mcp_server" (srv_id server) (srv_version server);;
  emit_for owner_subject "gateway.mcp.server.status_changed.v1" actor_subject transition
    "mcp_server" (srv_id server) "success"
    [("server_id", PStr (srv_id server));
     ("previous_status", PStr previous);
     ("status", PStr (srv_status server));
     ("version", PInt (srv_version server))];;
  commit;;
  mret server).

Definition server_health (owner_subject server_id : string) : M pydict :=
  server ← get_server owner_subject server_id;
  mret [("server_id", PStr (srv_id server));
        ("status", PStr (srv_status server));
        ("trust_level", PStr (srv_trust_level server));
        ("catalog_generation", PInt (srv_catalog_generation server));
        ("negotiated_protocol_version", opt_str (srv_negotiated_protocol_version server));
        ("last_connected_at", from_option PTime PNone (srv_last_connected_at server));
        ("last_catalog_refreshed_at",
          from_option PTime PNone (srv_last_catalog_refreshed_at server))].

(** ** Policies *)
Definition is_policy_of (owner_subject : string) (server_id : option string)
    (p : McpFederationPolicy) : bool :=
  (fpl_owner_subject p ==? owner_subject) && (fpl_server_id p ==? server_id).

Definition get_policy (owner_subject : string) (server_id : option string)
    : M (option McpFederationPolicy) :=
  scalar (is_policy_of owner_subject server_id).

(** The policy's terms as the request gives them. *)
Definition with_terms (data : pydict) (policy : McpFederationPolicy)
    : result McpFederationPolicy :=
  let list_of k := or_type_error (list_or_empty (dict_get data k)) in
  trust_level ← item data "trust_level";
  allowed_action_classes ← list_of "allowed_action_classes";
  required_roles ← list_of "required_roles";
  required_scopes ← list_of "required_scopes";
  approval_mapping ← or_type_error (dict_or_empty (dict_get data "approval_mapping"));
  tool_allowlist ← list_of "tool_allowlist";
  tool_denylist ← list_of "tool_denylist";
  Ok (policy
    <| fpl_trust_level := py_str trust_level |>
    <| fpl_allowed_action_classes := allowed_action_classes |>
    <| fpl_required_roles := required_roles |>
    <| fpl_required_scopes := required_scopes |>
    <| fpl_approval_mapping := approval_mapping |>
    <| fpl_tool_allowlist := tool_allowlist |>
    <| fpl_tool_denylist := tool_denylist |>
    <| fpl_status := py_str (py_or (dict_get data "status") (PStr "active")) |>).

(** The server follows its policy. *)
Definition governed (policy : McpFederationPolicy) (server : McpServer) : M McpServer :=
  let trust_level := fpl_trust_level policy in
  let server := server <| srv_trust_level := trust_level |>
                       <| srv_policy_generation := fpl_generation policy |> in
  let server := if trust_level ==? value QUARANTINED
                then server <| srv_status := "quarantined" |> else server in
  server ← (if trust_level ==? value REVOKED then
              disabled_at ← utcnow;
              mret (server <| srv_status := "disabled" |>
                           <| srv_disabled_at := Some disabled_at |>)
            else mret server);
  updated_at ← utcnow;
  mret (server <| srv_version ::= λ n, n + 1 |> <| srv_updated_at := updated_at |>).

Definition upsert_policy (owner_subject actor_subject : string) (server_id : option string)
    (idempotency_key : string) (expected_version : Z) (data : pydict)
    : M McpFederationPolicy :=
  let operation := "policy.upsert" in
  idempotent owner_subject operation idempotency_key
    [("server_id", opt_str server_id); ("expected_version", PInt expected_version);
     ("data", PDict data)] (_policy_by_id owner_subject)
  (λ request_hash,
  server ← match server_id with
           | Some id => server ← get_server owner_subject id; mret (Some server)
           | None => mret None
           end;
  found ← scalar (is_policy_of owner_subject server_id);
  policy ← match found with
    | None =>
        fail_if (negb (expected_version =? 0)) 409
          "Federation policy does not exist; expected_version must be 0";;
        new_id ← uuid4;
        created_at ← utcnow;
        updated_at ← utcnow;
        lift (with_terms data {|
          fpl_id := new_id;
          fpl_owner_subject := owner_subject;
          fpl_server_id := server_id;
          fpl_trust_level := "unreviewed";
          fpl_allowed_action_classes := [];
          fpl_required_roles := [];
          fpl_required_scopes := [];
          fpl_approval_mapping := [];
          fpl_tool_allowlist := [];
          fpl_tool_denylist := [];
          fpl_status := "active";
          fpl_generation := 1;
          fpl_version := 1;
          fpl_idempotency_key := Some idempotency_key;
          fpl_created_by_subject := actor_subject;
          fpl_updated_by_subject := actor_subject;
          fpl_created_at := created_at;
          fpl_updated_at := updated_at;
        |})
    | Some policy =>
        _check_version (fpl_version policy) expected_version;;
        updated_at ← utcnow;
        lift (with_terms data (policy
          <| fpl_version ::= λ n, n + 1 |> <| fpl_generation ::= λ n, n + 1 |>
          <| fpl_updated_by_subject := actor_subject |> <| fpl_updated_at := updated_at |>))
    end;
  (if is_none found then add policy else put policy);;
  check_row (one_of_values (E:=McpTrustLevel) (fpl_trust_level policy));;
  (match server with
   | Some server => server ← governed policy server; put server
   | None => mret tt
   end);;
  _record_mutation_receipt owner_subject operation idempotency_key request_hash
    "mcp_federation_policy" (fpl_id policy) (fpl_version policy);;
  emit_for owner_subject
    (if is_none found then "gateway.mcp.policy.created.v1" else "gateway.mcp.policy.updated.v1")
    actor_subject "policy_updated" "mcp_federation_policy" (fpl_id policy) "success"
    [("policy_id", PStr (fpl_id policy));
     ("server_id", opt_str server_id);
     ("trust_level", PStr (fpl_trust_level policy));
     ("generation", PInt (fpl_generation policy));
     ("status", PStr (fpl_status policy))];;
  commit;;
  mret policy).

(** ** Tools and their revisions *)

(** [re.sub(r"[^a-z0-9_]+", "_", name.lower()).strip("_")] *)
Fixpoint underscores (replaced : bool) (l : list ascii) : list ascii :=
  match l with
  | [] => []
  | c :: l =>
      if between 97 122 (code c) || is_digit c || (c ==? "_"%char)
      then c :: underscores false l
      else if replaced then underscores true l else "_"%char :: underscores true l
  end.
Definition normalized_tool_name (upstream_name : string) : string :=
  let is_underscore := λ c, bool_decide (c = "_"%char) in
  of_chars (rstrip_by is_underscore
    (lstrip_by is_underscore (underscores false (chars (lower upstream_name))))).

(** A normalised entry of a server's catalogue. *)
Record descriptor := mkDescriptor {
  d_upstream_name : string;
  d_input_schema : pydict;
  d_output_schema : option pydict;
  d_title : option string;
  d_description : string;
  d_annotations : pydict;
  d_icons : list pyval;
  d_execution : pydict;
  d_component_meta : pydict;
  d_schema_hash : string;
}.

Definition revisions_of (tool : McpTool) (r : McpToolRevision) : bool :=
  rvn_tool_id r ==? mtl_id tool.

(** The tool the entry names, created if it is new; a known one is active again. *)
Definition observed_tool (owner_subject server_id : string) (entry : descriptor) (now : Z)
    : M McpTool :=
  let upstream_name := d_upstream_name entry in
  tool ← scalar (λ t : McpTool,
    (mtl_server_id t ==? server_id) && (mtl_upstream_name t ==? upstream_name));
  match tool with
  | None =>
      new_id ← uuid4;
      let normalized_name := normalized_tool_name upstream_name in
      let tool := {|
        mtl_id := new_id;
        mtl_owner_subject := owner_subject;
        mtl_server_id := server_id;
        mtl_upstream_name := upstream_name;
        mtl_normalized_name := if normalized_name ==? "" then "tool" else normalized_name;
        mtl_lifecycle_state := "active";
        mtl_current_revision_id := None;
        mtl_version := 1;
        mtl_first_observed_at := now;
        mtl_last_observed_at := now;
        mtl_created_at := now;
        mtl_updated_at := now;
      |} in
      add tool;;
      flush;;
      mret tool
  | Some tool =>
      let tool := tool <| mtl_lifecycle_state := "active" |>
                       <| mtl_last_observed_at := now |> <| mtl_updated_at := now |> in
      put tool;;
      mret tool
  end.

Definition store_tool_revision (owner_subject actor_subject server_id : string)
    (entry : descriptor) (protocol_version : option string) (catalog_generation : Z)
    (commit_now emit_revision_event update_server_catalog : bool)
    : M (McpTool * McpToolRevision * bool) :=
  server ← get_server owner_subject server_id;
  now ← utcnow;
  tool ← observed_tool owner_subject server_id entry now;
  let schema_hash := d_schema_hash entry in
  existing ← scalar (λ r, revisions_of tool r && (rvn_schema_hash r ==? schema_hash));
  match existing with
  | Some existing =>
      let tool := tool <| mtl_current_revision_id := Some (rvn_id existing) |>
                       <| mtl_lifecycle_state := "active" |> in
      put tool;;
      (if commit_now then commit else flush);;
      mret (tool, existing, false)
  | None =>
  revisions ← query (revisions_of tool);
  evidence ← lift (derive_risk_evidence (d_upstream_name entry) (d_input_schema entry)
                     (d_annotations entry));
  new_id ← uuid4;
  let revision := {|
    rvn_id := new_id;
    rvn_owner_subject := owner_subject;
    rvn_server_id := server_id;
    rvn_tool_id := mtl_id tool;
    rvn_revision_number := Z.of_nat (length revisions) + 1;
    rvn_input_schema := d_input_schema entry;
    rvn_output_schema := d_output_schema entry;
    rvn_sanitized_title := d_title entry;
    rvn_sanitized_description := d_description entry;
    rvn_search_text := _revision_search_text server (d_upstream_name entry)
      (mtl_normalized_name tool) (d_title entry) (d_description entry)
      (d_input_schema entry) "unknown" "unverified";
    rvn_annotations := d_annotations entry;
    rvn_icons := d_icons entry;
    rvn_execution := d_execution entry;
    rvn_component_meta := d_component_meta entry;
    rvn_schema_hash := schema_hash;
    rvn_protocol_version := protocol_version;
    rvn_catalog_generation := catalog_generation;
    rvn_action_class := "unknown";
    rvn_read_only_status := "unverified";
    rvn_risk_evidence := evidence;
    rvn_version := 1;
    rvn_classified_by_subject := None;
    rvn_classified_at := None;
    rvn_superseded_by_revision_id := None;
    rvn_discovered_at := now;
    rvn_created_at := now;
  |} in
  add revision;;
  flush;;
  (match mtl_current_revision_id tool with
   | Some previous_id =>
       if previous_id ==? "" then mret tt else
       previous ← get_row (R:=McpToolRevision) previous_id;
       match previous with
       | Some previous =>
           if is_none (rvn_superseded_by_revision_id previous)
           then put (previous <| rvn_superseded_by_revision_id := Some (rvn_id revision) |>)
           else mret tt
       | None => mret tt
       end
   | None => mret tt
   end);;
  let tool := tool <| mtl_current_revision_id := Some (rvn_id revision) |>
                   <| mtl_version ::= λ n, n + 1 |> in
  put tool;;
  (if update_server_catalog then
     put (server
       <| srv_catalog_generation := Z.max (srv_catalog_generation server) catalog_generation |>
       <| srv_last_catalog_refreshed_at := Some now |> <| srv_updated_at := now |>)
   else mret tt);;
  (if emit_revision_event then
     emit_for owner_subject "gateway.mcp.tool.revision_created.v1" actor_subject
       "revision_created" "mcp_tool_revision" (rvn_id revision) "success"
       [("server_id", PStr server_id);
        ("tool_id", PStr (mtl_id tool));
        ("revision_id", PStr (rvn_id revision));
        ("schema_hash", PStr schema_hash);
        ("catalog_generation", PInt catalog_generation);
        ("action_class", PStr (rvn_action_class revision))]
   else mret tt);;
  (if commit_now then commit else flush);;
  mret (tool, revision, true)
  end.

(** The entries of a snapshot: the ids of their tools and how many revisions are new. *)
Fixpoint store_entries (owner_subject actor_subject server_id : string)
    (protocol_version : option string) (catalog_generation : Z) (entries : list descriptor)
    (observed : list string) (created : Z) : M (list string * Z) :=
  match entries with
  | [] => mret (observed, created)
  | entry :: entries =>
      stored ← store_tool_revision owner_subject actor_subject server_id entry
                 protocol_version catalog_generation false false false;
      store_entries owner_subject actor_subject server_id protocol_version
        catalog_generation entries (mtl_id stored.1.1 :: observed)
        (created + Z.b2z stored.2)
  end.

Definition missing_tool (now : Z) (tool : McpTool) : McpTool :=
  tool <| mtl_lifecycle_state := "missing" |> <| mtl_version ::= λ n, n + 1 |>
       <| mtl_updated_at := now |>.

(** A new snapshot of a server's catalogue, its entries prepared. *)
Definition store_catalog_snapshot (owner_subject actor_subject server_id : string)
    (catalog_generation : Z) (protocol_version : option string) (prepared : list descriptor)
    (tools_list_changed_seen : bool) : M (McpServer * Z * Z * Z) :=
  server ← get_server owner_subject server_id;
  stored ← store_entries owner_subject actor_subject (srv_id server) protocol_version
             catalog_generation prepared [] 0;
  active ← query (λ t : McpTool, (mtl_owner_subject t ==? owner_subject)
    && (mtl_server_id t ==? srv_id server) && (mtl_lifecycle_state t ==? "active"));
  now ← utcnow;
  let missing := filter (λ t : McpTool, negb (mtl_id t ∈? stored.1) = true) active in
  foreach (λ t, put (missing_tool now t)) missing;;
  let server := server <| srv_catalog_generation := catalog_generation |>
    <| srv_last_catalog_refreshed_at := Some now |> <| srv_status := "online" |>
    <| srv_negotiated_protocol_version := protocol_version |>
    <| srv_last_connected_at := Some now |> <| srv_updated_at := now |> in
  put server;;
  let tool_count := Z.of_nat (length prepared) in
  let missing_count := Z.of_nat (length missing) in
  emit_for owner_subject "gateway.mcp.catalog.refreshed.v1" actor_subject "reconciled"
    "mcp_server" (srv_id server) "success"
    [("server_id", PStr (srv_id server));
     ("catalog_generation", PInt catalog_generation);
     ("tool_count", PInt tool_count);
     ("protocol_version", opt_str protocol_version);
     ("created_revision_count", PInt stored.2);
     ("missing_tool_count", PInt missing_count);
     ("tools_list_changed_seen", PBool tools_list_changed_seen)];;
  commit;;
  mret (server, tool_count, stored.2, missing_count).

(** ** Classification and exposure *)
Definition classify_revision (owner_subject actor_subject revision_id idempotency_key : string)
    (expected_version : Z) (action_class read_only_status : string) : M McpToolRevision :=
  let operation := "revision.classify" in
  idempotent owner_subject operation idempotency_key
    [("revision_id", PStr revision_id); ("expected_version", PInt expected_version);
     ("action_class", PStr action_class); ("read_only_status", PStr read_only_status)]
    (get_revision owner_subject)
  (λ request_hash,
  revision ← get_revision owner_subject revision_id;
  _check_version (rvn_version revision) expected_version;;
  action ← lift (of_value (E:=McpActionClass) action_class);
  read_only ← lift (of_value (E:=McpReadOnlyStatus) read_only_status);
  policy_error (validate_operator_classification action read_only);;
  tool ← get_tool owner_subject (rvn_tool_id revision);
  server ← get_server owner_subject (rvn_server_id revision);
  classified_at ← utcnow;
  let revision := revision
    <| rvn_action_class := action_class |> <| rvn_read_only_status := read_only_status |>
    <| rvn_search_text := _revision_search_text server (mtl_upstream_name tool)
         (mtl_normalized_name tool) (rvn_sanitized_title revision)
         (rvn_sanitized_description revision) (rvn_input_schema revision) action_class
         read_only_status |>
    <| rvn_version ::= λ n, n + 1 |> <| rvn_classified_by_subject := Some actor_subject |>
    <| rvn_classified_at := Some classified_at |> in
  put revision;;
  _record_mutation_receipt owner_subject operation idempotency_key request_hash
    "mcp_tool_revision" (rvn_id revision) (rvn_version revision);;
  emit_for owner_subject "gateway.mcp.tool.classification_changed.v1" actor_subject
    "classified" "mcp_tool_revision" (rvn_id revision) "success"
    [("server_id", PStr (rvn_server_id revision));
     ("tool_id", PStr (rvn_tool_id revision));
     ("revision_id", PStr (rvn_id revision));
     ("schema_hash", PStr (rvn_schema_hash revision));
     ("action_class", PStr (rvn_action_class revision));
     ("read_only_status", PStr (rvn_read_only_status revision))];;
  commit;;
  mret revision).

Definition list_tools (owner_subject server_id : string) : M (list McpTool) :=
  get_server owner_subject server_id;;
  tools ← query (λ t, (mtl_owner_subject t ==? owner_subject)
                      && (mtl_server_id t ==? server_id));
  mret (sort_by (λ a b, str_leb (mtl_upstream_name a) (mtl_upstream_name b)) tools).

Definition list_revisions (owner_subject tool_id : string) : M (list McpToolRevision) :=
  get_tool owner_subject tool_id;;
  revisions ← query (λ r, (rvn_owner_subject r ==? owner_subject)
                          && (rvn_tool_id r ==? tool_id));
  mret (sort_by (λ a b, rvn_revision_number b <=? rvn_revision_number a) revisions).

(** [order_by(projection_generation.desc(), version.desc())] *)
Definition newer_exposure (a b : McpToolExposure) : bool :=
  lex_leb [Z.compare (xps_projection_generation b) (xps_projection_generation a);
           Z.compare (xps_version b) (xps_version a)].

Definition get_current_exposure (owner_subject tool_id : string)
    : M (option McpToolExposure) :=
  get_tool owner_subject tool_id;;
  exposures ← query (λ e, (xps_owner_subject e ==? owner_subject)
                          && (xps_tool_id e ==? tool_id));
  mret (head (sort_by newer_exposure exposures)).

(** A revision may be exposed by a server of this trust level. *)
Definition exposable (mode : McpExposureMode) (enabled : bool) (revision : McpToolRevision)
    (server : McpServer) : M unit :=
  if enabled && (mode =/? HIDDEN) then
    fail_if (rvn_action_class revision ==? value UNKNOWN) 409
      "Unknown-risk MCP tools cannot be enabled";;
    fail_if (negb (srv_trust_level server ∈? [value RESTRICTED; value APPROVED])) 409
      "MCP server trust policy does not allow exposure";;
    fail_if ((mode ==? NATIVE_PROJECTED) && (srv_trust_level server =/? value APPROVED)) 409
      "Native projection requires approved server trust"
  else mret tt.

Definition upsert_exposure (owner_subject actor_subject tool_id idempotency_key : string)
    (expected_version : Z) (data : pydict) : M McpToolExposure :=
  let operation := "exposure.upsert" in
  idempotent owner_subject operation idempotency_key
    [("tool_id", PStr tool_id); ("expected_version", PInt expected_version);
     ("data", PDict data)] (_exposure_by_id owner_subject)
  (λ request_hash,
  tool ← get_tool owner_subject tool_id;
  revision_id ← lift (item data "revision_id");
  revision ← get_revision owner_subject (py_str revision_id);
  fail_if (rvn_tool_id revision =/? mtl_id tool) 409
    "MCP revision does not belong to the selected tool";;
  server ← get_server owner_subject (mtl_server_id tool);
  mode_value ← lift (item data "mode");
  mode ← lift (enum_of (E:=McpExposureMode) mode_value);
  enabled ← lift (item data "enabled");
  let enabled := truthy enabled in
  exposable mode enabled revision server;;
  projection_generation ← lift (or_type_error
    (py_int (py_or (dict_get data "projection_generation") (PInt 0))));
  found ← scalar (λ e : McpToolExposure, (xps_revision_id e ==? rvn_id revision)
    && (xps_projection_generation e =? projection_generation));
  exposure ← match found with
    | None =>
        fail_if (negb (expected_version =? 0)) 409
          "MCP exposure does not exist; expected_version must be 0";;
        new_id ← uuid4;
        created_at ← utcnow;
        updated_at ← utcnow;
        mret {|
          xps_id := new_id;
          xps_owner_subject := owner_subject;
          xps_server_id := srv_id server;
          xps_tool_id := mtl_id tool;
          xps_revision_id := rvn_id revision;
          xps_mode := "hidden";
          xps_projected_name := None;
          xps_enabled := false;
          xps_required_role := None;
          xps_required_scope := None;
          xps_approval_class := "none";
          xps_projection_generation := projection_generation;
          xps_policy_generation := srv_policy_generation server;
          xps_version := 1;
          xps_reviewed_by_subject := None;
          xps_reviewed_at := None;
          xps_created_at := created_at;
          xps_updated_at := updated_at;
        |}
    | Some exposure =>
        _check_version (xps_version exposure) expected_version;;
        mret (exposure <| xps_version ::= λ n, n + 1 |>)
    end;
  projected_name ← lift (text_or_none (dict_get data "projected_name"));
  required_role ← lift (text_or_none (dict_get data "required_role"));
  required_scope ← lift (text_or_none (dict_get data "required_scope"));
  approval_value ← lift (item data "approval_class");
  approval_class ← lift (enum_of (E:=McpApprovalClass) approval_value);
  reviewed_at ← utcnow;
  updated_at ← utcnow;
  let exposure := exposure
    <| xps_mode := value mode |> <| xps_enabled := enabled |>
    <| xps_projected_name := projected_name |> <| xps_required_role := required_role |>
    <| xps_required_scope := required_scope |>
    <| xps_approval_class := value approval_class |>
    <| xps_reviewed_by_subject := Some actor_subject |>
    <| xps_reviewed_at := Some reviewed_at |> <| xps_updated_at := updated_at |> in
  (if is_none found then add exposure else put exposure);;
  _record_mutation_receipt owner_subject operation idempotency_key request_hash
    "mcp_tool_exposure" (xps_id exposure) (xps_version exposure);;
  emit_for owner_subject "gateway.mcp.tool.exposure_changed.v1" actor_subject
    "exposure_changed" "mcp_tool_exposure" (xps_id exposure) "success"
    [("server_id", PStr (srv_id server));
     ("tool_id", PStr (mtl_id tool));
     ("revision_id", PStr (rvn_id revision));
     ("schema_hash", PStr (rvn_schema_hash revision));
     ("mode", PStr (xps_mode exposure));
     ("enabled", PBool (xps_enabled exposure));
     ("approval_class", PStr (xps_approval_class exposure));
     ("policy_generation", PInt (xps_policy_generation exposure));
     ("projection_generation", PInt (xps_projection_generation exposure))];;
  commit;;
  mret exposure).

Definition list_invocations (owner_subject : string) (server_id : option string)
    (limit : nat) : M (list McpInvocation) :=
  invocations ← query (λ i, (inv_owner_subject i ==? owner_subject)
    && (if opt_truthy server_id then Some (inv_server_id i) ==? server_id else true));
  mret (take limit (sort_by (λ a b, inv_started_at b <=? inv_started_at a) invocations)).
End registry.
