(* ===== verification/ThinClient.v ===== *)
(** * The connections of thin clients ([thin_client_control.py])

    [ThinClientConnectionManager] keeps the web sockets of the thin clients and the
    requests that wait for an answer over them.  Its coroutines run on one event loop:
    between two [await]s nothing else runs, so every stretch of code between two is one
    step here ([event], [step]), and the steps of different requests interleave freely.

    Connections and pending requests are objects with an identity: they are numbered.
    A pending request has the number of the call of [request...] that created it, whose
    local state is its [phase].  What the event loop and the sockets decide is given
    from outside by the events: when a send returns and how, and when a deadline
    passes.  The order that [send_lock] gives to sends over one socket is left open. *)

From S2P Require Import Prelude PyStr PyVal.

Definition MCP_THIN_CLIENT_PROTOCOL_VERSION : string := "1.0".
Definition MCP_THIN_CLIENT_CAPABILITIES : list string := [
  "mcp_runtime_v1"; "mcp_catalog_snapshot"; "mcp_catalog_delta"; "mcp_resources_v1";
  "mcp_prompts_v1"; "mcp_completion_v1"; "mcp_roots_v1"; "mcp_call"; "mcp_cancel";
  "mcp_progress"; "mcp_unknown_outcome"].

Record ThinClientMcpError := mkThinError {
  te_code : string;
  te_message : string;
  te_unknown_outcome : bool;
  te_retryable : bool;
  te_http_status : Z;
}.

Definition stale_connection (message : string) (retryable : bool) : ThinClientMcpError :=
  mkThinError "MCP_STALE_CONNECTION" message false retryable 409.
Definition protocol_mismatch (message : string) : ThinClientMcpError :=
  mkThinError "MCP_PROTOCOL_MISMATCH" message false false 422.

(** ** Connections and requests *)
Record ThinClientConnection := mkThinConnection {
  tc_instance_id : string;
  tc_runtime_id : option string;
  tc_protocol_version : option string;
  tc_capabilities : list string;
  tc_local_server_ids : list string;
  tc_stale : bool;
}.
#[export] Instance eta_ThinClientConnection : Settable ThinClientConnection := λ r,
  mkThinConnection (tc_instance_id r) (tc_runtime_id r) (tc_protocol_version r)
    (tc_capabilities r) (tc_local_server_ids r) (tc_stale r).

Inductive future : Type :=
  | Unresolved
  | Result (message : pydict)
  | Failed (error : ThinClientMcpError)
  | Cancelled.

Record PendingThinClientRequest := mkThinRequest {
  tr_client_id : string;
  tr_connection : nat;
  tr_future : future;
  tr_kind : string;
  tr_runtime_id : option string;
  tr_local_server_id : option string;
  tr_action_class : string;
  tr_dispatched : bool;
}.
#[export] Instance eta_PendingThinClientRequest : Settable PendingThinClientRequest := λ r,
  mkThinRequest (tr_client_id r) (tr_connection r) (tr_future r) (tr_kind r)
    (tr_runtime_id r) (tr_local_server_id r) (tr_action_class r) (tr_dispatched r).

Definition effectful (action_class : string) : bool :=
  action_class ∈? ["write"; "destructive"; "production"].

Definition unknown_if_interrupted (p : PendingThinClientRequest) : bool :=
  tr_dispatched p && effectful (tr_action_class p).

(** [future.done()] *)
Definition done (f : future) : bool := match f with Unresolved => false | _ => true end.

(** How a call ends: it returns a message, raises one of the two kinds of errors, lets
    the [WebSocketDisconnect] of a send through, or is cancelled itself. *)
Inductive outcome : Type :=
  | Returned (message : pydict)
  | RaisedMcp (error : ThinClientMcpError)
  | RaisedHttp (code : Z) (detail : string)
  | RaisedDisconnect
  | Aborted.

(** Where a call waits: for its message to be sent, for its answer, or, with the error
    it will raise, for the cancel message to be sent over a connection. *)
Inductive phase : Type :=
  | Sending
  | Waiting
  | Cancelling (error : ThinClientMcpError) (connection : nat)
  | Finished (how : outcome).

Record call := mkCall {
  cl_request_id : string;
  cl_payload : pydict;
  cl_timeout : string * string;
  cl_request : PendingThinClientRequest;
  cl_phase : phase;
}.
#[export] Instance eta_call : Settable call := λ r,
  mkCall (cl_request_id r) (cl_payload r) (cl_timeout r) (cl_request r) (cl_phase r).

(** What was sent over a connection is the last component. *)
Record manager := mkManager {
  connections : gmap string (list nat);
  sockets : gmap nat ThinClientConnection;
  pending : gmap string nat;
  thin_calls : gmap nat call;
  numbers : nat;
  sent : list (nat * pydict);
}.
#[export] Instance eta_manager : Settable manager := λ r,
  mkManager (connections r) (sockets r) (pending r) (thin_calls r) (numbers r) (sent r).

Definition fresh_manager : manager := mkManager ∅ ∅ ∅ ∅ 0 [].

Definition connections_of (client_id : string) (m : manager) : list nat :=
  default [] (connections m !! client_id).

(** A property of the connection of a number. *)
Definition socket_is (test : ThinClientConnection → bool) (m : manager) (c : nat) : bool :=
  match sockets m !! c with Some x => test x | None => false end.
Definition stale (m : manager) (c : nat) : bool := socket_is tc_stale m c.

(** [str(message.get(key, ""))] *)
Definition text_field (message : pydict) (key : string) : string :=
  py_str (default (PStr "") (dict_lookup key message)).

(** ** Failing what waits for a connection *)
Definition interrupted (code message : string) (p : PendingThinClientRequest)
    : PendingThinClientRequest :=
  if done (tr_future p) then p else
  p <| tr_future := Failed (mkThinError code message (unknown_if_interrupted p)
                              (negb (unknown_if_interrupted p)) 409) |>.

Definition waits_on (client_id : string) (connection : nat) (p : PendingThinClientRequest)
    : bool := (tr_client_id p ==? client_id) && (tr_connection p ==? connection).

Definition with_request (f : PendingThinClientRequest → PendingThinClientRequest) (i : nat)
    (m : manager) : manager :=
  m <| thin_calls ::= alter (λ c, c <| cl_request ::= f |>) i |>.

(** The request of an entry of the table. *)
Definition request_of (i : nat) (m : manager) : option PendingThinClientRequest :=
  cl_request <$> thin_calls m !! i.

Definition fail_entry (client_id : string) (connection : nat) (code message : string)
    (entry : string * nat) (m : manager) : manager :=
  match request_of entry.2 m with
  | Some p =>
      if waits_on client_id connection p
      then with_request (interrupted code message) entry.2 m <| pending ::= delete entry.1 |>
      else m
  | None => m
  end.

Definition _fail_pending_for_connection (client_id : string) (connection : nat)
    (code message : string) (m : manager) : manager :=
  foldr (fail_entry client_id connection code message) m (map_to_list (pending m)).

(** ** Connections come and go *)
Definition register (client_id instance_id : string) (m : manager) : nat * manager :=
  let c := numbers m in
  (c, m <| sockets ::= <[c := mkThinConnection instance_id None None [] [] false]> |>
        <| connections ::= <[client_id := connections_of client_id m ++ [c]]> |>
        <| numbers := S c |>).

Definition is_connected (client_id : string) (m : manager) : bool :=
  existsb (λ c, negb (stale m c)) (connections_of client_id m).

(** The loop over the older connections of the runtime. *)
Fixpoint retire (client_id runtime_id : string) (connection : nat) (candidates : list nat)
    (m : manager) : list nat * manager :=
  match candidates with
  | [] => ([], m)
  | candidate :: candidates =>
      if (candidate ==? connection)
         || negb (socket_is (λ x, tc_runtime_id x ==? Some runtime_id) m candidate)
      then retire client_id runtime_id connection candidates m
      else
        let m := m <| sockets ::= alter (λ x, x <| tc_stale := true |>) candidate |> in
        let m := _fail_pending_for_connection client_id candidate "MCP_STALE_CONNECTION"
                   "A newer connection instance replaced this MCP runtime" m in
        let '(l, m) := retire client_id runtime_id connection candidates m in
        (candidate :: l, m)
  end.

Definition register_runtime (client_id : string) (connection : nat)
    (runtime_id protocol_version : string) (capabilities local_server_ids : list string)
    (m : manager) : (list nat + ThinClientMcpError) * manager :=
  if negb (connection ∈? connections_of client_id m)
  then (inr (stale_connection "Thin-client connection is no longer active" false), m) else
  if protocol_version =/? MCP_THIN_CLIENT_PROTOCOL_VERSION
  then (inr (protocol_mismatch "Unsupported thin-client MCP protocol version"), m) else
  let negotiated := filter (λ c, c ∈ MCP_THIN_CLIENT_CAPABILITIES) capabilities in
  if negb ("mcp_runtime_v1" ∈? negotiated)
  then (inr (protocol_mismatch "Thin client did not negotiate mcp_runtime_v1"), m) else
  let '(stale_connections, m) :=
    retire client_id runtime_id connection (connections_of client_id m) m in
  (inl stale_connections,
   m <| sockets ::= alter (λ x, x
     <| tc_runtime_id := Some runtime_id |>
     <| tc_protocol_version := Some protocol_version |>
     <| tc_capabilities := negotiated |>
     <| tc_local_server_ids := local_server_ids |>
     <| tc_stale := false |>) connection |>).

(** The connection is the current one of the runtime for the server. *)
Definition serves (runtime_id local_server_id : string) (x : ThinClientConnection) : bool :=
  negb (tc_stale x) && (tc_runtime_id x ==? Some runtime_id)
  && (local_server_id ∈? tc_local_server_ids x) && ("mcp_runtime_v1" ∈? tc_capabilities x).

Definition active_mcp_connection (client_id runtime_id local_server_id : string)
    (m : manager) : nat + ThinClientMcpError :=
  match List.find (socket_is (serves runtime_id local_server_id) m)
          (rev (connections_of client_id m)) with
  | Some c => inl c
  | None => inr (mkThinError "MCP_SERVER_OFFLINE"
      "The selected local MCP runtime is not connected" false true 409)
  end.

Definition lost_connections (client_id : string) (removed : list nat) (m : manager) : manager :=
  foldl (λ m c, _fail_pending_for_connection client_id c "MCP_CONNECTION_LOST"
                  ("Thin client disconnected: " +:+ client_id) m) m removed.

Definition unregister (client_id : string) (connection : option nat) (m : manager)
    : bool * manager :=
  let registered := connections_of client_id m in
  let '(removed, m) :=
    match connection with
    | None => (registered, m <| connections ::= delete client_id |>)
    | Some c =>
        let removed := filter (λ x, x = c) registered in
        let remaining := filter (λ x, x ≠ c) registered in
        (removed,
         if nonempty remaining then m <| connections ::= <[client_id := remaining]> |>
         else if nonempty removed then m <| connections ::= delete client_id |>
         else m)
    end in
  let m := lost_connections client_id removed m in
  (nonempty removed && negb (is_connected client_id m), m).

(** [disconnect] then closes the sockets. *)
Definition disconnect (client_id : string) (m : manager) : manager :=
  (unregister client_id None m).2.

(** ** Answers *)
Definition resolved (message : pydict) (p : PendingThinClientRequest)
    : PendingThinClientRequest :=
  if done (tr_future p) then p else p <| tr_future := Result message |>.

(** A ["tool_result"] of any client. *)
Definition complete (request_id : string) (message : pydict) (m : manager) : manager :=
  match pending m !! request_id with
  | Some i => with_request (resolved message) i m <| pending ::= delete request_id |>
  | None => m
  end.

Definition expected_types (kind : string) : list string :=
  if kind ==? "mcp" then ["mcp_call_result"; "mcp_call_failed"]
  else if kind ==? "mcp_resource" then ["mcp_resource_read_result"; "mcp_resource_read_failed"]
  else if kind ==? "mcp_prompt" then ["mcp_prompt_get_result"; "mcp_prompt_get_failed"]
  else if kind ==? "mcp_completion" then ["mcp_completion_result"; "mcp_completion_failed"]
  else [].

Definition exact (client_id : string) (connection : nat) (message : pydict)
    (p : PendingThinClientRequest) (m : manager) : bool :=
  (tr_client_id p ==? client_id) && (tr_connection p ==? connection)
  && socket_is (λ x, negb (tc_stale x)
       && (text_field message "connection_instance_id" ==? tc_instance_id x)) m connection
  && (Some (text_field message "runtime_id") ==? tr_runtime_id p)
  && (Some (text_field message "local_server_id") ==? tr_local_server_id p).

Definition complete_mcp (client_id : string) (connection : nat) (message : pydict)
    (m : manager) : bool * manager :=
  let request_id := text_field message "request_id" in
  match pending m !! request_id with
  | None => (false, m)
  | Some i =>
      match request_of i m with
      | None => (false, m)
      | Some p =>
          if negb (text_field message "type" ∈? expected_types (tr_kind p)) then (false, m)
          else if negb (exact client_id connection message p m) then (false, m)
          else (true, with_request (resolved message) i m <| pending ::= delete request_id |>)
      end
  end.

(** ** Requests

    The first step of a request ends in an error or leaves a call that sends its message. *)
Definition started_call (request_id : string) (payload : pydict) (timeout : string * string)
    (p : PendingThinClientRequest) (m : manager) : nat * manager :=
  let i := numbers m in
  (i, m <| thin_calls ::= <[i := mkCall request_id payload timeout p Sending]> |>
        <| pending ::= <[request_id := i]> |> <| numbers := S i |>).

Definition request (client_id tool : string) (arguments : pydict) (request_id : string)
    (m : manager) : (nat + outcome) * manager :=
  match last (connections_of client_id m) with
  | None => (inr (RaisedHttp 409 "Thin client is not connected"), m)
  | Some c =>
      let '(i, m) := started_call request_id
        [("type", PStr "tool_call"); ("request_id", PStr request_id); ("tool", PStr tool);
         ("arguments", PDict arguments)]
        ("", "Thin client tool timed out")
        (mkThinRequest client_id c Unresolved "legacy" None None "read" false) m in
      (inl i, m)
  end.

(** What a request over a runtime names. *)
Record target := mkTarget {
  tg_client_id : string;
  tg_runtime_id : string;
  tg_local_server_id : string;
  tg_connection_instance_id : string;
}.

(** The connection of the target, if it is still the current one. *)
Definition exact_connection (t : target) (m : manager)
    : (nat * ThinClientConnection) + ThinClientMcpError :=
  match active_mcp_connection (tg_client_id t) (tg_runtime_id t) (tg_local_server_id t) m with
  | inr error => inr error
  | inl c =>
      match sockets m !! c with
      | Some x =>
          if tc_instance_id x =/? tg_connection_instance_id t
          then inr (stale_connection "The selected MCP connection instance is stale" true)
          else inl (c, x)
      | None => inr (stale_connection "The selected MCP connection instance is stale" true)
      end
  end.

Definition mcp_payload (type request_id : string) (t : target) (x : ThinClientConnection)
    (rest : pydict) : pydict :=
  [("type", PStr type);
   ("protocol_version", PStr MCP_THIN_CLIENT_PROTOCOL_VERSION);
   ("request_id", PStr request_id);
   ("connection_instance_id", PStr (tc_instance_id x));
   ("runtime_id", PStr (tg_runtime_id t));
   ("local_server_id", PStr (tg_local_server_id t))] ++ rest.

Definition mcp_request (t : target) (c : nat) (kind action_class : string)
    : PendingThinClientRequest :=
  mkThinRequest (tg_client_id t) c Unresolved kind (Some (tg_runtime_id t))
    (Some (tg_local_server_id t)) action_class false.

(** What the four kinds of requests say beyond the target. *)
Record mcp_call := mkMcpCall {
  mc_server_id : string;
  mc_revision_id : string;
  mc_tool_name : string;
  mc_schema_hash : string;
  mc_catalog_generation : Z;
  mc_arguments : pydict;
  mc_action_class : string;
  mc_idempotency_key : option string;
}.
Record resource_read := mkResourceRead {
  rr_server_id : string;
  rr_entity_kind : string;
  rr_entity_id : string;
  rr_revision_id : string;
  rr_schema_hash : string;
  rr_uri_sha256 : string;
  rr_catalog_generation : Z;
  rr_arguments : pydict;
}.

(** What a prompt and a completion have in common. *)
Record entity_request := mkEntityRequest {
  er_server_id : string;
  er_entity_id : string;
  er_revision_id : string;
  er_schema_hash : string;
  er_catalog_generation : Z;
}.

Definition call_fields (r : mcp_call) : pydict :=
  [("server_id", PStr (mc_server_id r)); ("revision_id", PStr (mc_revision_id r));
   ("tool_name", PStr (mc_tool_name r)); ("schema_hash", PStr (mc_schema_hash r));
   ("catalog_generation", PInt (mc_catalog_generation r));
   ("arguments", PDict (mc_arguments r)); ("action_class", PStr (mc_action_class r));
   ("idempotency_key", opt_str (mc_idempotency_key r))].

Definition resource_fields (r : resource_read) : pydict :=
  [("server_id", PStr (rr_server_id r)); ("entity_kind", PStr (rr_entity_kind r));
   ("entity_id", PStr (rr_entity_id r)); ("revision_id", PStr (rr_revision_id r));
   ("schema_hash", PStr (rr_schema_hash r)); ("uri_sha256", PStr (rr_uri_sha256 r));
   ("catalog_generation", PInt (rr_catalog_generation r));
   ("arguments", PDict (rr_arguments r))].

Definition entity_fields (r : entity_request) : pydict :=
  [("server_id", PStr (er_server_id r)); ("entity_id", PStr (er_entity_id r));
   ("revision_id", PStr (er_revision_id r)); ("schema_hash", PStr (er_schema_hash r));
   ("catalog_generation", PInt (er_catalog_generation r))].

Definition request_mcp (t : target) (request_id : string) (r : mcp_call) (m : manager)
    : (nat + outcome) * manager :=
  match exact_connection t m with
  | inr error => (inr (RaisedMcp error), m)
  | inl (c, x) =>
      let '(i, m) := started_call request_id
        (mcp_payload "mcp_call" request_id t x (call_fields r))
        ("MCP_CALL_TIMEOUT", "Local MCP call exceeded the Gateway deadline")
        (mcp_request t c "mcp" (mc_action_class r)) m in
      (inl i, m)
  end.

Definition request_mcp_resource (t : target) (request_id : string) (r : resource_read)
    (m : manager) : (nat + outcome) * manager :=
  match exact_connection t m with
  | inr error => (inr (RaisedMcp error), m)
  | inl (c, x) =>
      if negb ("mcp_resources_v1" ∈? tc_capabilities x)
      then (inr (RaisedMcp
              (protocol_mismatch "Thin client did not negotiate mcp_resources_v1")), m)
      else
        let '(i, m) := started_call request_id
          (mcp_payload "mcp_resource_read" request_id t x (resource_fields r))
          ("MCP_RESOURCE_READ_TIMEOUT", "Local MCP resource read exceeded the Gateway deadline")
          (mcp_request t c "mcp_resource" "read") m in
        (inl i, m)
  end.

Definition _request_mcp_capability (t : target) (request_id : string) (r : entity_request)
    (capability kind message_type : string) (extra_payload : pydict)
    (timeout : string * string) (m : manager) : (nat + outcome) * manager :=
  match exact_connection t m with
  | inr error => (inr (RaisedMcp error), m)
  | inl (c, x) =>
      if negb (capability ∈? tc_capabilities x)
      then (inr (RaisedMcp
              (protocol_mismatch ("Thin client did not negotiate " +:+ capability))), m)
      else if negb (is_none (pending m !! request_id))
      then (inr (RaisedMcp (mkThinError "MCP_REQUEST_CONFLICT"
              "MCP request id is already active" false false 409)), m)
      else
        let '(i, m) := started_call request_id
          (mcp_payload message_type request_id t x (entity_fields r ++ extra_payload))
          timeout (mcp_request t c kind "read") m in
        (inl i, m)
  end.

Definition request_mcp_prompt (t : target) (request_id : string) (r : entity_request)
    (prompt_name_sha256 : string) (arguments : pydict) (m : manager)
    : (nat + outcome) * manager :=
  _request_mcp_capability t request_id r "mcp_prompts_v1" "mcp_prompt" "mcp_prompt_get"
    [("prompt_name_sha256", PStr prompt_name_sha256); ("arguments", PDict arguments)]
    ("MCP_PROMPT_GET_TIMEOUT", "Local MCP prompt retrieval exceeded the Gateway deadline") m.

Definition request_mcp_completion (t : target) (request_id : string) (r : entity_request)
    (ref_kind ref_key_sha256 : string) (argument context_arguments : pydict) (m : manager)
    : (nat + outcome) * manager :=
  _request_mcp_capability t request_id r "mcp_completion_v1" "mcp_completion" "mcp_completion"
    [("ref_kind", PStr ref_kind); ("ref_key_sha256", PStr ref_key_sha256);
     ("argument", PDict argument); ("context_arguments", PDict context_arguments)]
    ("MCP_COMPLETION_TIMEOUT", "Local MCP completion exceeded the Gateway deadline") m.

(** ** How a call goes on *)

(** How a send can fail: with a [RuntimeError] or a [WebSocketDisconnect]. *)
Inductive send_error : Type :=
  | RuntimeFailure (message : string)
  | SocketDisconnect.

Definition at_phase (next : phase) (i : nat) (m : manager) : manager :=
  m <| thin_calls ::= alter (λ c, c <| cl_phase := next |>) i |>.

(** [self._pending.pop(request_id, None)] *)
Definition pop (request_id : string) (m : manager) : manager :=
  m <| pending ::= delete request_id |>.

(** The error when the connection of a call over a runtime is lost. *)
Definition lost_error (p : PendingThinClientRequest) : ThinClientMcpError :=
  if tr_kind p ==? "mcp" then
    mkThinError "MCP_CONNECTION_LOST" "Local MCP connection was lost"
      (unknown_if_interrupted p) (negb (unknown_if_interrupted p)) 409
  else if tr_kind p ==? "mcp_resource" then
    mkThinError "MCP_CONNECTION_LOST" "Local MCP connection was lost during resource read"
      false true 409
  else
    mkThinError "MCP_CONNECTION_LOST" "Local MCP connection was lost during capability execution"
      false true 409.

Definition timeout_error (c : call) : ThinClientMcpError :=
  let p := cl_request c in
  if tr_kind p ==? "mcp"
  then mkThinError (cl_timeout c).1 (cl_timeout c).2 (unknown_if_interrupted p) false 504
  else mkThinError (cl_timeout c).1 (cl_timeout c).2 false true 504.

Definition is_legacy (p : PendingThinClientRequest) : bool := tr_kind p ==? "legacy".

(** The send returned: the message is on its way. *)
Definition message_sent (i : nat) (c : call) (m : manager) : manager :=
  at_phase Waiting i (with_request (λ p, p <| tr_dispatched := true |>) i
    (m <| sent ::= λ l, l ++ [(tr_connection (cl_request c), cl_payload c)] |>)).

Definition send_failed (i : nat) (c : call) (error : send_error) (m : manager) : manager :=
  let p := cl_request c in
  match error with
  | RuntimeFailure message =>
      at_phase (Finished (if is_legacy p then RaisedHttp 409 message
                          else RaisedMcp (lost_error p))) i (pop (cl_request_id c) m)
  | SocketDisconnect =>
      if is_legacy p then
        at_phase (Finished (RaisedHttp 409
          ("Thin client disconnected: " +:+ tr_client_id p))) i (pop (cl_request_id c) m)
      else at_phase (Finished RaisedDisconnect) i m
  end.

(** The future is done and the call goes on. *)
Definition resumed (i : nat) (c : call) (m : manager) : manager :=
  let p := cl_request c in
  match tr_future p with
  | Unresolved => m
  | Result message => at_phase (Finished (Returned message)) i m
  | Failed error =>
      at_phase (Finished (if is_legacy p then RaisedHttp 409 (te_message error)
                          else RaisedMcp error)) i (pop (cl_request_id c) m)
  | Cancelled => at_phase (Finished Aborted) i m
  end.

(** [wait_for] without [shield] cancels the future. *)
Definition cancelled_future (p : PendingThinClientRequest) : PendingThinClientRequest :=
  if is_legacy p && negb (done (tr_future p)) then p <| tr_future := Cancelled |> else p.

Definition cancel_target (c : call) (instance_id : string) : target :=
  let p := cl_request c in
  mkTarget (tr_client_id p) (default "" (tr_runtime_id p)) (default "" (tr_local_server_id p))
    instance_id.

(** The connection that the cancel message of a call goes to, if it is still current. *)
Definition cancel_connection (c : call) (m : manager) : option nat :=
  match sockets m !! tr_connection (cl_request c) with
  | Some x =>
      match exact_connection (cancel_target c (tc_instance_id x)) m with
      | inl (k, _) => Some k
      | inr _ => None
      end
  | None => None
  end.

(** The deadline passed. *)
Definition deadline_passed (i : nat) (c : call) (m : manager) : manager :=
  let p := cl_request c in
  let m := with_request cancelled_future i (pop (cl_request_id c) m) in
  if is_legacy p then at_phase (Finished (RaisedHttp 504 (cl_timeout c).2)) i m
  else if tr_kind p ==? "mcp" then
    match cancel_connection c m with
    | Some k => at_phase (Cancelling (timeout_error c) k) i m
    | None => at_phase (Finished (RaisedMcp (timeout_error c))) i m
    end
  else at_phase (Finished (RaisedMcp (timeout_error c))) i m.

Definition cancel_message (c : call) (x : ThinClientConnection) : pydict :=
  [("protocol_version", PStr MCP_THIN_CLIENT_PROTOCOL_VERSION);
   ("connection_instance_id", PStr (tc_instance_id x));
   ("runtime_id", opt_str (tr_runtime_id (cl_request c)));
   ("local_server_id", opt_str (tr_local_server_id (cl_request c)));
   ("type", PStr "mcp_cancel");
   ("request_id", PStr (cl_request_id c));
   ("reason", PStr "Gateway deadline exceeded")].

(** The cancel message was sent, or its send failed: best effort, but for a
    [WebSocketDisconnect]. *)
Definition cancel_sent (i : nat) (c : call) (error : ThinClientMcpError) (k : nat)
    (failure : option send_error) (m : manager) : manager :=
  match failure with
  | None =>
      match sockets m !! k with
      | Some x => at_phase (Finished (RaisedMcp error)) i
                    (m <| sent ::= λ l, l ++ [(k, cancel_message c x)] |>)
      | None => at_phase (Finished (RaisedMcp error)) i m
      end
  | Some (RuntimeFailure _) => at_phase (Finished (RaisedMcp error)) i m
  | Some SocketDisconnect => at_phase (Finished RaisedDisconnect) i m
  end.

(** The task of the call is cancelled: nothing more of the code runs. *)
Definition call_cancelled (i : nat) (c : call) (m : manager) : manager :=
  at_phase (Finished Aborted) i
    match cl_phase c with Waiting => with_request cancelled_future i m | _ => m end.

(** ** Steps *)
Inductive event : Type :=
  | Register (client_id instance_id : string)
  | RegisterRuntime (client_id : string) (connection : nat)
      (runtime_id protocol_version : string) (capabilities local_server_ids : list string)
  | Unregister (client_id : string) (connection : option nat)
  | Disconnect (client_id : string)
  | ToolResult (request_id : string) (message : pydict)
  | McpAnswer (client_id : string) (connection : nat) (message : pydict)
  | RequestTool (client_id tool : string) (arguments : pydict) (request_id : string)
  | RequestCall (t : target) (request_id : string) (r : mcp_call)
  | RequestResource (t : target) (request_id : string) (r : resource_read)
  | RequestPrompt (t : target) (request_id : string) (r : entity_request)
      (prompt_name_sha256 : string) (arguments : pydict)
  | RequestCompletion (t : target) (request_id : string) (r : entity_request)
      (ref_kind ref_key_sha256 : string) (argument context_arguments : pydict)
  | MessageSent (i : nat)
  | SendFailed (i : nat) (error : send_error)
  | Resume (i : nat)
  | Deadline (i : nat)
  | CancelSent (i : nat) (failure : option send_error)
  | CancelCall (i : nat).

(** The next step of a call, if it is where the event takes place. *)
Definition call_step (e : event) (i : nat) (c : call) (m : manager) : manager :=
  match e, cl_phase c with
  | MessageSent _, Sending => message_sent i c m
  | SendFailed _ error, Sending => send_failed i c error m
  | Resume _, Waiting => resumed i c m
  | Deadline _, Waiting => deadline_passed i c m
  | CancelSent _ failure, Cancelling error k => cancel_sent i c error k failure m
  | CancelCall _, Finished _ => m
  | CancelCall _, _ => call_cancelled i c m
  | _, _ => m
  end.

(** The call that an event is about. *)
Definition call_of (e : event) : option nat :=
  match e with
  | MessageSent i | SendFailed i _ | Resume i | Deadline i | CancelSent i _ | CancelCall i =>
      Some i
  | _ => None
  end.

Definition step (e : event) (m : manager) : manager :=
  match e with
  | Register client_id instance_id => (register client_id instance_id m).2
  | RegisterRuntime client_id c runtime_id protocol capabilities servers =>
      (register_runtime client_id c runtime_id protocol capabilities servers m).2
  | Unregister client_id c => (unregister client_id c m).2
  | Disconnect client_id => disconnect client_id m
  | ToolResult request_id message => complete request_id message m
  | McpAnswer client_id c message => (complete_mcp client_id c message m).2
  | RequestTool client_id tool arguments rid => (request client_id tool arguments rid m).2
  | RequestCall t rid r => (request_mcp t rid r m).2
  | RequestResource t rid r => (request_mcp_resource t rid r m).2
  | RequestPrompt t rid r name arguments => (request_mcp_prompt t rid r name arguments m).2
  | RequestCompletion t rid r kind key argument context =>
      (request_mcp_completion t rid r kind key argument context m).2
  | MessageSent i | SendFailed i _ | Resume i | Deadline i | CancelSent i _ | CancelCall i =>
      match thin_calls m !! i with Some c => call_step e i c m | None => m end
  end.

Definition steps (m : manager) (es : list event) : manager := foldl (λ m e, step e m) m es.
