(* ===== verification/ThinRuntime.v ===== *)
(** * Runtimes of thin clients ([thin_client_mcp.py], [mcp_capability_control_plane.py])

    A thin client announces over its web socket the local MCP servers it runs; the
    gateway keeps a row per server and a row per connection of a server, records the
    capabilities of the connection, and follows what the client reports until the
    connection is lost.  [connection] is the state of the socket ([ThinClient.v]). *)

From S2P Require Import Prelude PyStr PyVal Errors Models Database Session Auth Roots.
From S2P Require Import FederationPolicy Federation ThinClient.
From Stdlib Require Import Ascii.

(** [raise ThinClientMcpError(code, message, http_status=status)] *)
Definition thin_error {A} (code message : string) (status : Z) : result A :=
  Raise (ThinMcpError code message false status).
Definition mismatch {A} (message : string) (status : Z) : result A :=
  thin_error "MCP_PROTOCOL_MISMATCH" message status.

(** [except McpRootFederationError as exc: raise ThinClientMcpError(...)] *)
Definition as_thin_error (e : exn) : exn :=
  match e with
  | McpRootFederationError code message status => ThinMcpError code message false status
  | e => e
  end.

(** [if c: raise e] *)
Definition refuse_if (c : bool) (e : result unit) : M unit := if c then lift e else mret tt.

(** ** Identifiers *)
Definition id_start (c : ascii) : bool := is_alnum c && (code c <? 128).
Definition id_char (c : ascii) : bool := id_start c || (c ∈? chars "._:-").

(** [_LOCAL_ID.fullmatch] *)
Definition is_local_id (s : string) : bool :=
  match chars s with
  | c :: l => id_start c && forallb id_char l && (length l <=? 159)%nat
  | [] => false
  end.

Definition _required_identifier (message : pydict) (name : string) : result string :=
  let value := strip (text_field message name) in
  if is_local_id value then Ok value
  else mismatch ("Invalid or missing " +:+ name) 422.

Definition _RUNTIME_NAMESPACE : string := "ee7273be-70ec-4c98-9dbf-05b0ab4e2df2".
Definition _ALLOWED_TRANSPORTS : list string := ["stdio"; "streamable_http"; "private_http"].
Definition _ALLOWED_SERVER_STATES : list string :=
  ["online"; "degraded"; "offline"; "failed"; "restarting"].
Definition newline : string := of_chars [chr 10].

(** ** What a registration announces *)
Record server_descriptor := mkServerDescriptor {
  sd_local_server_id : string;
  sd_transport : string;
  sd_display_name : string;
  sd_roots : list root_candidate;
}.

Definition announced_capabilities (message : pydict) : list string :=
  match dict_get message "capabilities" with
  | PList l => omap (λ v, match v with PStr s => Some s | _ => None end) l
  | _ => []
  end.

Definition known_capabilities (capabilities : list string) : list string :=
  sort_strings (filter (λ c, c ∈ capabilities) MCP_THIN_CLIENT_CAPABILITIES).

Definition normalized_roots (items : list pyval) : result (list root_candidate) :=
  match map_result (λ item, normalize_root_candidate item "local") items with
  | Raise e => Raise (as_thin_error e)
  | r => r
  end.

Definition server_descriptor_of (capabilities seen : list string) (raw : pyval)
    : result server_descriptor :=
  match raw with
  | PDict raw =>
      local_server_id ← _required_identifier raw "local_server_id";
      if local_server_id ∈? seen then mismatch "Duplicate local MCP server id" 409 else
      let transport := text_field raw "transport" in
      if negb (transport ∈? _ALLOWED_TRANSPORTS)
      then mismatch "Unsupported local MCP transport" 422 else
      let display_name := truncate 180 (squeezed (py_str
            (py_or (dict_get raw "display_name") (PStr local_server_id)))) in
      let raw_roots := dict_get_or raw "roots" (PList []) in
      if truthy raw_roots && negb ("mcp_roots_v1" ∈? capabilities)
      then mismatch "Thin-client root candidates require mcp_roots_v1" 422 else
      match raw_roots with
      | PList items =>
          if (64 <? length items)%nat
          then mismatch "Thin-client root candidates must be a bounded list" 422 else
          roots ← normalized_roots items;
          if (transport ==? "private_http") && nonempty roots
          then mismatch "private_http runtimes cannot register thin-client filesystem roots" 422
          else Ok (mkServerDescriptor local_server_id transport display_name roots)
      | _ => mismatch "Thin-client root candidates must be a bounded list" 422
      end
  | _ => mismatch "Invalid local MCP server descriptor" 409
  end.

Fixpoint server_descriptors (capabilities seen : list string) (raw_servers : list pyval)
    : result (list server_descriptor) :=
  match raw_servers with
  | [] => Ok []
  | raw :: raw_servers =>
      descriptor ← server_descriptor_of capabilities seen raw;
      descriptors ← server_descriptors capabilities
                      (sd_local_server_id descriptor :: seen) raw_servers;
      Ok (descriptor :: descriptors)
  end.

(** A runtime that stands for a server now. *)
Definition active_states : list string := ["connecting"; "online"].

Section with_env.
Context `{!Env}.

Definition _server_identity (owner_subject client_id runtime_id local_server_id : string)
    : string :=
  uuid5 _RUNTIME_NAMESPACE
    (join newline [owner_subject; client_id; runtime_id; local_server_id]).

Definition _runtime_connection (owner_subject server_id client_id runtime_id
    connection_instance_id : string) : M McpRuntimeConnection :=
  runtime ← query_one (λ r, (rtm_owner_subject r ==? owner_subject)
    && (rtm_server_id r ==? server_id) && (rtm_thin_client_id r ==? Some client_id)
    && (rtm_runtime_id r ==? Some runtime_id)
    && (rtm_connection_instance_id r ==? connection_instance_id)
    && (rtm_state r ==? "online"));
  match runtime with
  | Some runtime => mret runtime
  | None => throw (ThinMcpError "MCP_STALE_CONNECTION"
              "The local MCP connection instance is stale or unregistered" true 409)
  end.

Definition _resolve_server (owner_subject client_id runtime_id local_server_id : string)
    : M McpServer :=
  server ← query_one (λ s, (srv_owner_subject s ==? owner_subject)
    && (srv_origin s ==? "thin_client") && (srv_thin_client_id s ==? Some client_id)
    && (srv_runtime_id s ==? Some runtime_id)
    && (srv_local_server_id s ==? Some local_server_id));
  match server with
  | Some server => mret server
  | None => lift (thin_error "MCP_SERVER_OFFLINE" "Local MCP server is not registered" 404)
  end.

(** ** Capabilities of a connection ([mcp_capability_control_plane.py]) *)
Definition capability_snapshot_hash (protocol_version : string)
    (server_capabilities client_capabilities negotiated_features : pydict) : string :=
  sha256_hexdigest (utf8_encode (json_dumps (PDict [
    ("protocol_version", PStr protocol_version);
    ("server_capabilities", PDict server_capabilities);
    ("client_capabilities", PDict client_capabilities);
    ("negotiated_features", PDict negotiated_features)]))).

Definition record_capability_snapshot (owner_subject server_id runtime_connection_id source
    protocol_version : string) (catalog_generation : Z)
    (server_capabilities client_capabilities negotiated_features : pydict)
    : M McpCapabilitySnapshot :=
  let capability_hash := capability_snapshot_hash protocol_version server_capabilities
        client_capabilities negotiated_features in
  existing ← query_one (λ c, (csn_owner_subject c ==? owner_subject)
    && (csn_server_id c ==? server_id)
    && (csn_runtime_connection_id c ==? runtime_connection_id));
  match existing with
  | Some existing =>
      if csn_capability_hash existing =/? capability_hash
      then throw (McpCapabilitySnapshotConflict
             "Runtime capability snapshot changed without a new connection identity")
      else mret existing
  | None =>
      id ← uuid4;
      created_at ← utcnow;
      let snapshot := mkMcpCapabilitySnapshot id owner_subject server_id runtime_connection_id
            source protocol_version catalog_generation server_capabilities client_capabilities
            negotiated_features capability_hash created_at in
      add snapshot;;
      mret snapshot
  end.

(** ** Registration of a runtime *)
Record registration := mkRegistration {
  rg_owner_subject : string;
  rg_client_id : string;
  rg_runtime_id : string;
  rg_protocol_version : string;
  rg_capabilities : list string;
  rg_instance_id : string;
  rg_now : Z;
}.

(** What the gateway understands of the capabilities. *)
Definition runtime_capabilities (g : registration) : pyval :=
  str_list (known_capabilities (rg_capabilities g)).
Definition has_roots (g : registration) : bool := "mcp_roots_v1" ∈? rg_capabilities g.

Definition protocol_facts (g : registration) : pydict := [
  ("thin_client_protocol", PStr (rg_protocol_version g));
  ("runtime_capabilities", runtime_capabilities g)].

Definition new_local_server (g : registration) (id slug : string) (d : server_descriptor)
    : McpServer := {|
  srv_id := id;
  srv_owner_subject := rg_owner_subject g;
  srv_origin := "thin_client";
  srv_thin_client_id := Some (rg_client_id g);
  srv_runtime_id := Some (rg_runtime_id g);
  srv_local_server_id := Some (sd_local_server_id d);
  srv_display_name := sd_display_name d;
  srv_normalized_slug := truncate 105 slug +:+ "-" +:+ truncate 8 id;
  srv_transport := sd_transport d;
  srv_endpoint_url := None;
  srv_credential_binding_id := None;
  srv_status := "discovering";
  srv_trust_level := "unreviewed";
  srv_quarantine_reason := None;
  srv_negotiated_protocol_version := None;
  srv_capabilities := protocol_facts g;
  srv_sanitized_instructions := "";
  srv_instructions_sha256 := None;
  srv_catalog_generation := 0;
  srv_policy_generation := 1;
  srv_version := 1;
  srv_idempotency_key := None;
  srv_last_connected_at := None;
  srv_last_catalog_refreshed_at := None;
  srv_disabled_at := None;
  srv_created_at := rg_now g;
  srv_updated_at := rg_now g;
|}.

Definition reannounced_server (g : registration) (d : server_descriptor) (server : McpServer)
    : McpServer :=
  let server := if srv_transport server =/? sd_transport d
    then server <| srv_trust_level := "unreviewed" |>
                <| srv_quarantine_reason :=
                     Some "Local MCP transport changed and requires review" |>
    else server in
  server <| srv_display_name := sd_display_name d |> <| srv_transport := sd_transport d |>
         <| srv_status := "discovering" |> <| srv_updated_at := rg_now g |>
         <| srv_version ::= Z.succ |>
         <| srv_capabilities := dict_update (srv_capabilities server) (protocol_facts g) |>.

Definition same_identity (g : registration) (d : server_descriptor) (server : McpServer) : bool :=
  (srv_owner_subject server ==? rg_owner_subject g)
  && (srv_thin_client_id server ==? Some (rg_client_id g))
  && (srv_runtime_id server ==? Some (rg_runtime_id g))
  && (srv_local_server_id server ==? Some (sd_local_server_id d)).

Definition announce_server (g : registration) (d : server_descriptor) : M McpServer :=
  let server_id := _server_identity (rg_owner_subject g) (rg_client_id g) (rg_runtime_id g)
                     (sd_local_server_id d) in
  server ← get_row server_id;
  match server with
  | Some server =>
      refuse_if (negb (same_identity g d server))
        (thin_error "MCP_CROSS_TENANT_REFERENCE" "Local MCP server identity collision" 403);;
      let server := reannounced_server g d server in
      put server;;
      mret server
  | None =>
      slug ← lift (normalize_slug (sd_display_name d +:+ "-" +:+ sd_local_server_id d));
      let server := new_local_server g server_id slug d in
      add server;;
      flush;;
      mret server
  end.

Definition stale_runtime (now : Z) (r : McpRuntimeConnection) : McpRuntimeConnection :=
  r <| rtm_state := "stale" |> <| rtm_disconnected_at := Some now |>
    <| rtm_last_seen_at := now |>.

(** The other connections of the server are marked stale. *)
Definition retire_others (g : registration) (server_id : string) : M unit :=
  stale ← query (λ r, (rtm_owner_subject r ==? rg_owner_subject g)
    && (rtm_server_id r ==? server_id) && (rtm_state r ∈? active_states)
    && (rtm_connection_instance_id r =/? rg_instance_id g));
  foreach (λ r, put (stale_runtime (rg_now g) r)) stale.

Definition new_runtime (g : registration) (id : string) (server : McpServer)
    (d : server_descriptor) : McpRuntimeConnection := {|
  rtm_id := id;
  rtm_owner_subject := rg_owner_subject g;
  rtm_server_id := srv_id server;
  rtm_thin_client_id := Some (rg_client_id g);
  rtm_runtime_id := Some (rg_runtime_id g);
  rtm_connection_instance_id := rg_instance_id g;
  rtm_supported_transports := [sd_transport d];
  rtm_supported_protocol_versions := [rg_protocol_version g];
  rtm_state := "online";
  rtm_acknowledged_catalog_generation := srv_catalog_generation server;
  rtm_meta := [("local_server_id", PStr (sd_local_server_id d));
               ("capabilities", runtime_capabilities g)];
  rtm_connected_at := rg_now g;
  rtm_last_seen_at := rg_now g;
  rtm_disconnected_at := None;
|}.

Definition revived_runtime (now : Z) (r : McpRuntimeConnection) : McpRuntimeConnection :=
  r <| rtm_state := "online" |> <| rtm_last_seen_at := now |> <| rtm_disconnected_at := None |>.

Definition connect_runtime (g : registration) (server : McpServer) (d : server_descriptor)
    : M McpRuntimeConnection :=
  runtime ← query_one (λ r, (rtm_owner_subject r ==? rg_owner_subject g)
    && (rtm_server_id r ==? srv_id server)
    && (rtm_connection_instance_id r ==? rg_instance_id g));
  match runtime with
  | None =>
      id ← uuid4;
      let runtime := new_runtime g id server d in
      add runtime;; flush;; mret runtime
  | Some runtime =>
      let runtime := revived_runtime (rg_now g) runtime in
      put runtime;; flush;; mret runtime
  end.

Definition sync_roots (g : registration) (server : McpServer) (runtime : McpRuntimeConnection)
    (d : server_descriptor) : M (option pydict) :=
  reconcile_runtime_root_candidates (rg_owner_subject g) server runtime
    (PList (map candidate_value (sd_roots d)));;
  if has_roots g then
    grants ← approved_root_grants (rg_owner_subject g) server (Some runtime);
    payload ← lift (thin_root_sync_payload server runtime grants);
    mret (Some payload)
  else mret None.

(** One announced server: its entry of the acknowledgement. *)
Definition register_server (g : registration) (d : server_descriptor) : M pydict :=
  server ← announce_server g d;
  retire_others g (srv_id server);;
  runtime ← connect_runtime g server d;
  root_update ← map_error as_thin_error (sync_roots g server runtime d);
  record_capability_snapshot (rg_owner_subject g) (srv_id server) (rtm_id runtime)
    "thin_client_registration" (rg_protocol_version g) (srv_catalog_generation server)
    [("tools", PDict [("catalog", PBool true)])]
    (if has_roots g then [("roots", PDict [("listChanged", PBool true)])] else [])
    [("thin_client_protocol", PStr MCP_THIN_CLIENT_PROTOCOL_VERSION);
     ("runtime_capabilities", runtime_capabilities g);
     ("transport", PStr (sd_transport d))];;
  put (server <| srv_last_connected_at := Some (rg_now g) |>);;
  mret ([("local_server_id", PStr (sd_local_server_id d)); ("server_id", PStr (srv_id server));
         ("gateway_catalog_generation", PInt (srv_catalog_generation server))]
        ++ match root_update with
           | Some payload => [("_root_update", PDict payload)]
           | None => []
           end).

Definition registered_client (g : registration) (count : nat) (client : ThinClient)
    : ThinClient :=
  client <| tcl_status := "online" |> <| tcl_last_seen_at := rg_now g |>
         <| tcl_meta ::= dict_set "mcp_runtime" (PDict [
              ("runtime_id", PStr (rg_runtime_id g));
              ("protocol_version", PStr (rg_protocol_version g));
              ("connection_instance_id", PStr (rg_instance_id g));
              ("capabilities", runtime_capabilities g);
              ("local_server_count", PInt (Z.of_nat count))]) |>.

Definition register_runtime (owner_subject client_id : string)
    (connection : ThinClientConnection) (message : pydict) : M pydict :=
  runtime_id ← lift (_required_identifier message "runtime_id");
  let capabilities := announced_capabilities message in
  raw_servers ← lift (match dict_get message "servers" with
    | PList l => if (100 <? length l)%nat
                 then mismatch "Thin-client runtime servers must be a bounded list" 422
                 else Ok l
    | _ => mismatch "Thin-client runtime servers must be a bounded list" 422
    end);
  client ← find_row client_id (λ c, tcl_owner_subject c ==? owner_subject);
  match client with
  | None => lift (thin_error "MCP_SERVER_OFFLINE" "Thin client not found" 409)
  | Some client =>
      descriptors ← lift (server_descriptors capabilities [] raw_servers);
      refuse_if (tc_runtime_id connection =/? Some runtime_id)
        (thin_error "MCP_STALE_CONNECTION"
           "Runtime registration was not negotiated for this connection" 409);;
      now ← utcnow;
      let g := mkRegistration owner_subject client_id runtime_id
                 (text_field message "protocol_version") capabilities
                 (tc_instance_id connection) now in
      mappings ← traverse (register_server g) descriptors;
      put (registered_client g (length mappings) client);;
      commit;;
      mret [("type", PStr "mcp_runtime_registered_ack");
            ("protocol_version", PStr MCP_THIN_CLIENT_PROTOCOL_VERSION);
            ("connection_instance_id", PStr (tc_instance_id connection));
            ("runtime_id", PStr runtime_id);
            ("servers", PList (map PDict mappings))]
  end.

(** ** Reports of the client *)

(** [set((runtime.meta or {}).get("capabilities") or [])] *)
Definition acknowledges_roots (runtime : McpRuntimeConnection) : result bool :=
  capabilities ← py_iter (py_or (dict_get (rtm_meta runtime) "capabilities") (PList []));
  Ok (existsb (py_eqb (PStr "mcp_roots_v1")) capabilities).

Definition record_roots_update_ack (owner_subject client_id : string)
    (connection : ThinClientConnection) (message : pydict) : M unit :=
  runtime_id ← lift (_required_identifier message "runtime_id");
  local_server_id ← lift (_required_identifier message "local_server_id");
  refuse_if ((tc_runtime_id connection =/? Some runtime_id)
             || (text_field message "connection_instance_id" =/? tc_instance_id connection))
    (thin_error "MCP_STALE_CONNECTION"
       "Root acknowledgement references a stale runtime connection" 409);;
  server ← _resolve_server owner_subject client_id runtime_id local_server_id;
  refuse_if (text_field message "server_id" =/? srv_id server)
    (thin_error "MCP_CROSS_TENANT_REFERENCE"
       "Root acknowledgement server identity mismatch" 403);;
  runtime ← _runtime_connection owner_subject (srv_id server) client_id runtime_id
              (tc_instance_id connection);
  supported ← lift (acknowledges_roots runtime);
  refuse_if (negb supported)
    (mismatch "Root acknowledgement requires negotiated mcp_roots_v1" 422);;
  let generation := dict_get message "policy_generation" in
  refuse_if (match generation with
             | PInt z => negb (z =? srv_policy_generation server)
             | _ => true
             end)
    (thin_error "MCP_POLICY_STALE" "Root acknowledgement policy generation is stale" 409);;
  expected ← map_error as_thin_error (
    grants ← approved_root_grants owner_subject server (Some runtime);
    lift (thin_root_sync_payload server runtime grants));
  let digest := text_field message "root_set_sha256" in
  refuse_if (negb (py_eqb (PStr digest) (dict_get expected "root_set_sha256")))
    (thin_error "MCP_ROOT_SET_MISMATCH"
       "Root acknowledgement does not match the approved exact root set" 409);;
  acked_at ← utcnow;
  last_seen_at ← utcnow;
  put (runtime
         <| rtm_meta ::= dict_set "roots_ack" (PDict [
              ("policy_generation", generation);
              ("root_set_sha256", PStr digest);
              ("acked_at", PStr (isoformat acked_at))]) |>
         <| rtm_last_seen_at := last_seen_at |>);;
  commit.

Definition reported_meta (state : string) (message meta : pydict) : pydict :=
  let meta := dict_set "local_status" (PStr state) meta in
  if truthy (dict_get message "error_code")
  then dict_set "error_code" (PStr (truncate 120 (py_str (dict_get message "error_code")))) meta
  else meta.

Definition record_server_status (owner_subject client_id : string)
    (connection : ThinClientConnection) (message : pydict) : M unit :=
  runtime_id ← lift (_required_identifier message "runtime_id");
  local_server_id ← lift (_required_identifier message "local_server_id");
  let state := text_field message "status" in
  refuse_if (negb (state ∈? _ALLOWED_SERVER_STATES)) (mismatch "Invalid MCP server status" 409);;
  server ← _resolve_server owner_subject client_id runtime_id local_server_id;
  runtime ← _runtime_connection owner_subject (srv_id server) client_id runtime_id
              (tc_instance_id connection);
  last_seen_at ← utcnow;
  updated_at ← utcnow;
  put (runtime
         <| rtm_state := if state ∈? ["online"; "degraded"] then "online" else state |>
         <| rtm_last_seen_at := last_seen_at |>
         <| rtm_meta ::= reported_meta state message |>);;
  put (server
         <| srv_status := if state ∈? ["failed"; "degraded"] then "degraded" else state |>
         <| srv_updated_at := updated_at |>);;
  commit.

(** The running call of a connection. *)
Definition runs_over (owner_subject instance_id : string) (i : McpInvocation) : bool :=
  (inv_owner_subject i ==? owner_subject)
  && (inv_connection_instance_id i ==? Some instance_id) && (inv_outcome i ==? "running").

Definition record_call_progress (owner_subject : string) (connection : ThinClientConnection)
    (message : pydict) : M unit :=
  let request_id := text_field message "request_id" in
  invocation ← query_one (λ i, runs_over owner_subject (tc_instance_id connection) i
                               && (inv_thin_client_request_id i ==? Some request_id));
  match invocation with
  | None => mret tt
  | Some invocation =>
      observed_at ← utcnow;
      put (invocation <| inv_response_metadata ::= dict_set "last_progress" (PDict [
        ("progress", dict_get message "progress");
        ("total", dict_get message "total");
        ("message", PStr (truncate 500 (text_field message "message")));
        ("observed_at", PStr (isoformat observed_at))]) |>);;
      commit
  end.

(** ** The loss of a connection *)
Definition lost_runtime (now : Z) (r : McpRuntimeConnection) : McpRuntimeConnection :=
  r <| rtm_state := "offline" |> <| rtm_disconnected_at := Some now |>
    <| rtm_last_seen_at := now |>.

Definition lost_invocation (now : Z) (i : McpInvocation) : McpInvocation :=
  let is_write := inv_action_class i ∈? ["write"; "destructive"; "production"] in
  i <| inv_outcome := if is_write then "unknown" else "failed" |>
    <| inv_unknown_outcome := is_write |>
    <| inv_normalized_error_code := Some "MCP_CONNECTION_LOST" |>
    <| inv_normalized_error_detail :=
         Some "Thin-client connection was lost after the local MCP call was dispatched" |>
    <| inv_completed_at := Some now |>.

Definition take_offline (instance_id : string) (now : Z) (server_id : string) : M unit :=
  another_online ← scalar (λ r : McpRuntimeConnection, (rtm_server_id r ==? server_id)
    && (rtm_connection_instance_id r =/? instance_id) && (rtm_state r ==? "online"));
  match another_online with
  | Some _ => mret tt
  | None =>
      server ← get_row server_id;
      match server with
      | None => mret tt
      | Some server => put (server <| srv_status := "offline" |> <| srv_updated_at := now |>)
      end
  end.

Definition take_servers_offline (instance_id : string) (now : Z)
    (runtimes : list McpRuntimeConnection) : M unit :=
  foreach (λ r, put (lost_runtime now r)) runtimes;;
  foreach (take_offline instance_id now) (dedup (map rtm_server_id runtimes)).

Definition settle_lost_calls (owner_subject instance_id : string) (now : Z) : M unit :=
  invocations ← query (runs_over owner_subject instance_id);
  foreach (λ i, put (lost_invocation now i)) invocations.

Definition mark_connection_disconnected (owner_subject client_id : string)
    (connection : ThinClientConnection) : M unit :=
  if negb (opt_truthy (tc_runtime_id connection)) then mret tt else
  now ← utcnow;
  runtimes ← query (λ r, (rtm_owner_subject r ==? owner_subject)
    && (rtm_thin_client_id r ==? Some client_id)
    && (rtm_runtime_id r ==? tc_runtime_id connection)
    && (rtm_connection_instance_id r ==? tc_instance_id connection)
    && (rtm_state r ∈? ["connecting"; "online"; "restarting"]));
  take_servers_offline (tc_instance_id connection) now runtimes;;
  settle_lost_calls owner_subject (tc_instance_id connection) now;;
  commit.

(** ** The socket ([routers/thin_clients.py]) *)

(** A socket opens on a client of the user, before the handshake. *)
Definition open_socket (owner_subject client_id : string) : M bool :=
  client ← find_row client_id (λ c, tcl_owner_subject c ==? owner_subject);
  match client with
  | None => mret false
  | Some client =>
      now ← utcnow;
      put (client <| tcl_status := "online" |> <| tcl_last_seen_at := now |>);;
      commit;;
      mret true
  end.

(** [meta["labels"]] after a heartbeat with a version. *)
Definition labelled_meta (version : string) (meta : pydict) : result pydict :=
  labels ← or_type_error (dict_or_empty (dict_get meta "labels"));
  let labels := dict_set "client" (py_or (dict_get labels "client") (PStr "gateway-cli")) labels in
  Ok (dict_set "labels" (PDict (dict_set "version" (PStr version) labels)) meta).

Definition heartbeat (client_id : string) (message : pydict) : M unit :=
  current ← get_row client_id;
  match current with
  | None => mret tt
  | Some current =>
      let version := dict_get message "version" in
      meta ← lift (if truthy version then labelled_meta (py_str version) (tcl_meta current)
                   else Ok (tcl_meta current));
      now ← utcnow;
      put (current <| tcl_meta := meta |> <| tcl_last_seen_at := now |>
                   <| tcl_status := "online" |>);;
      commit
  end.

Definition ensure_exact_connection_message (connection : ThinClientConnection)
    (message : pydict) : result unit :=
  if text_field message "connection_instance_id" =/? tc_instance_id connection
  then thin_error "MCP_STALE_CONNECTION" "Message connection_instance_id is stale" 409
  else if opt_truthy (tc_runtime_id connection)
          && (Some (text_field message "runtime_id") =/? tc_runtime_id connection)
  then thin_error "MCP_STALE_CONNECTION" "Message runtime_id is stale" 409
  else Ok tt.

Definition protocol_error_payload (e : ThinClientMcpError) : pydict := [
  ("type", PStr "mcp_protocol_error");
  ("code", PStr (te_code e));
  ("message", PStr (te_message e));
  ("unknown_outcome", PBool (te_unknown_outcome e));
  ("retryable", PBool (te_retryable e))].

(** A message of the client that the database records. *)
Definition receive (owner_subject client_id : string) (connection : ThinClientConnection)
    (message : pydict) : M unit :=
  let message_type := text_field message "type" in
  if message_type ==? "heartbeat" then heartbeat client_id message else
  if message_type ==? "mcp_runtime_registered" then
    register_runtime owner_subject client_id connection message;; mret tt
  else if message_type ∈? ["mcp_roots_update_ack"; "mcp_server_status"; "mcp_call_progress"]
  then
    lift (ensure_exact_connection_message connection message);;
    (if message_type ==? "mcp_roots_update_ack" then
       record_roots_update_ack owner_subject client_id connection message
     else if message_type ==? "mcp_server_status" then
       record_server_status owner_subject client_id connection message
     else record_call_progress owner_subject connection message)
  else mret tt.

(** ** Roots of remote servers ([mcp_upstream.py], [routers/mcp_federation.py]) *)

(** [candidates] is what the operator configured for the server.  The errors keep their
    code and status when they are turned into those of the upstream manager. *)
Definition reconcile_configured_gateway_roots (server : McpServer) (candidates : pyval)
    : M (list McpRootGrant) :=
  grants ← reconcile_gateway_root_candidates (srv_owner_subject server) server candidates;
  commit;;
  mret grants.

Definition allowed_update (user : User) : result unit :=
  require_role user ["gateway-admin"];;
  enforce user "update" (Some (usr_subject user)).

Definition sync_gateway_roots (user : User) (server_id : string)
    (expected_server_version : Z) (candidates : pyval) : M (list McpRootGrant) :=
  lift (allowed_update user);;
  server ← get_server (usr_subject user) server_id;
  fail_if (srv_origin server =/? "gateway") 422
    "Only Gateway-origin MCP servers use operator root configuration";;
  fail_if (negb (srv_version server =? expected_server_version)) 409
    ("Optimistic version conflict: expected " +:+ pretty expected_server_version
     +:+ ", current " +:+ pretty (srv_version server));;
  reconcile_configured_gateway_roots server candidates.

(** The update that [notify_root_grant_change] sends to the client of a local server. *)
Definition root_notification (server : McpServer) : M (option pydict) :=
  runtimes ← query (λ r, (rtm_owner_subject r ==? srv_owner_subject server)
    && (rtm_server_id r ==? srv_id server) && (rtm_state r ==? "online"));
  match sort_by (λ a b, rtm_connected_at b <=? rtm_connected_at a) runtimes with
  | [] => mret None
  | runtime :: _ =>
      if negb (opt_truthy (srv_thin_client_id server) && opt_truthy (srv_runtime_id server)
               && opt_truthy (srv_local_server_id server))
      then mret None else
      grants ← approved_root_grants (srv_owner_subject server) server (Some runtime);
      payload ← lift (thin_root_sync_payload server runtime grants);
      mret (Some payload)
  end.

Definition review_root_grant_route (user : User) (grant_id : string) (expected_version : Z)
    (decision : string) : M (McpRootGrant * option pydict) :=
  lift (allowed_update user);;
  grant ← review_root_grant (usr_subject user) (usr_subject user) grant_id expected_version
            decision;
  server ← get_server (usr_subject user) (rgt_server_id grant);
  update ← (if srv_origin server ==? "thin_client" then root_notification server
            else mret None);
  mret (grant, update).
End with_env.
