(* ===== verification/ApprovalPreview.v ===== *)
(** * The preview of an action for its reviewers ([affine_approval_projection.py])

    What an approver is shown of the arguments of a document operation on the research
    server: bounded texts and digests.  The configuration is taken to be valid. *)

From S2P Require Import Prelude PyStr PyVal Errors Models Database Session PyUrl.
From Stdlib Require Import Ascii.

Record AffineApprovalPreview := mkPreview {
  kind : string;
  summary : string;
  before_text : option string;
  after_text : option string;
  before_hash : option string;
  after_hash : option string;
  items : list string;
  target_workspace_id : option string;
  target_document_id : option string;
  source_url : option string;
  source_title : option string;
  lifecycle_from : option string;
  lifecycle_to : option string;
  truncated : bool;
}.
#[export] Instance eta_AffineApprovalPreview : Settable AffineApprovalPreview := λ r,
  mkPreview (kind r) (summary r) (before_text r) (after_text r) (before_hash r)
    (after_hash r) (items r) (target_workspace_id r) (target_document_id r) (source_url r)
    (source_title r) (lifecycle_from r) (lifecycle_to r) (truncated r).

(** The defaults of the fields. *)
Definition preview_of (kind summary : string) : AffineApprovalPreview :=
  mkPreview kind summary None None None None [] None None None None None None false.

Definition within (maximum : Z) (text : option string) : bool :=
  match text with Some s => len s <=? maximum | None => true end.

(** The lengths the model admits. *)
Definition valid_preview (p : AffineApprovalPreview) : bool :=
  within 8000 (before_text p) && within 8000 (after_text p) && within 128 (before_hash p)
  && within 128 (after_hash p) && (Z.of_nat (length (items p)) <=? 100)
  && within 160 (target_workspace_id p) && within 160 (target_document_id p)
  && within 2048 (source_url p) && within 8000 (source_title p).

Definition preview_dump (p : AffineApprovalPreview) : pydict := [
  ("kind", PStr (kind p)); ("summary", PStr (summary p));
  ("before_text", opt_str (before_text p)); ("after_text", opt_str (after_text p));
  ("before_hash", opt_str (before_hash p)); ("after_hash", opt_str (after_hash p));
  ("items", str_list (items p));
  ("target_workspace_id", opt_str (target_workspace_id p));
  ("target_document_id", opt_str (target_document_id p));
  ("source_url", opt_str (source_url p)); ("source_title", opt_str (source_title p));
  ("lifecycle_from", opt_str (lifecycle_from p)); ("lifecycle_to", opt_str (lifecycle_to p));
  ("truncated", PBool (truncated p))].

Definition _bounded_text (v : pyval) (maximum : Z) : option string * bool :=
  match v with
  | PNone => (None, false)
  | _ => let text := py_str v in
         if len text <=? maximum then (Some text, false)
         else (Some (truncate (Z.to_nat maximum) text), true)
  end.

(** [str(value or "") or None] *)
Definition text_or_nothing (v : pyval) : option string :=
  let text := str_or_empty v in if text ==? "" then None else Some text.

Section with_env.
Context `{!Env}.

Definition _safe_url (v : pyval) : result (option string) :=
  match v with
  | PStr s =>
      if strip s ==? "" then Ok None else
      parts ← urlsplit (strip s);
      Ok (if negb (scheme parts ∈? ["http"; "https"]) || negb (nonempty (netloc parts))
          then None else Some (unsplit_location parts))
  | _ => Ok None
  end.

Definition _content_hash (v : pyval) : option string :=
  match v with
  | PStr s => Some (sha256_hexdigest (utf8_encode s))
  | _ => None
  end.

(** The change of a document's life cycle: the summary and the state it leads to. *)
Definition lifecycle_change (tool_name : string) : option (string * string) :=
  if tool_name ==? "research_v1_document_trash"
  then Some ("Move document to Trash", "trashed")
  else if tool_name ==? "research_v1_document_restore"
  then Some ("Restore document from Trash", "active")
  else if tool_name ==? "research_v1_document_purge"
  then Some ("Permanently delete document", "purged")
  else None.

Definition build_affine_approval_preview (tool_name : string) (arguments : pydict)
    : result (option AffineApprovalPreview) :=
  let max_chars := gateway_affine_approval_preview_max_chars settings in
  let max_items := gateway_affine_approval_preview_max_items settings in
  let bounded k := _bounded_text (dict_get arguments k) max_chars in
  let text k := text_or_nothing (dict_get arguments k) in
  if tool_name ==? "research_v1_document_create" then
    let (after, cut) := bounded "content" in
    let (title, title_cut) := bounded "title" in
    Ok (Some ((preview_of "create" "Create document")
      <| after_text := after |>
      <| after_hash := _content_hash (dict_get arguments "content") |>
      <| source_title := title |> <| truncated := cut || title_cut |>))
  else if tool_name ==? "research_v1_document_update_content" then
    let (after, cut) := bounded "content" in
    Ok (Some ((preview_of "content_replace" "Replace document content")
      <| before_hash := text "expected_content_hash" |> <| after_text := after |>
      <| after_hash := _content_hash (dict_get arguments "content") |>
      <| truncated := cut |>))
  else if tool_name ==? "research_v1_document_append" then
    let (after, cut) := bounded "content" in
    Ok (Some ((preview_of "content_append" "Append document content")
      <| before_hash := text "expected_content_hash" |> <| after_text := after |>
      <| after_hash := _content_hash (dict_get arguments "content") |>
      <| truncated := cut |>))
  else if tool_name ==? "research_v1_document_set_tags" then
    let tags := match dict_get arguments "tags" with
                | PList raw_tags => map py_str raw_tags
                | _ => []
                end in
    let bounded_tags := take (Z.to_nat max_items) tags in
    Ok (Some ((preview_of "tags_replace" "Replace document tags")
      <| before_hash := text "expected_tags_hash" |> <| items := bounded_tags |>
      <| truncated := negb (length tags <=? length bounded_tags)%nat |>))
  else if tool_name ==? "research_v1_document_link" then
    let (label, cut) := bounded "label" in
    Ok (Some ((preview_of "link_add" "Add document link")
      <| before_hash := text "expected_content_hash" |> <| after_text := label |>
      <| target_workspace_id := text "target_workspace_id" |>
      <| target_document_id := text "target_document_id" |> <| truncated := cut |>))
  else if tool_name ==? "research_v1_document_add_source" then
    let (title, title_cut) := bounded "title" in
    let (locator, locator_cut) := bounded "locator" in
    source ← _safe_url (dict_get arguments "url");
    Ok (Some ((preview_of "source_add" "Add source reference")
      <| before_hash := text "expected_content_hash" |> <| after_text := locator |>
      <| source_url := source |> <| source_title := title |>
      <| truncated := title_cut || locator_cut |>))
  else if tool_name ==? "research_v1_document_update_title" then
    let (before, before_cut) := bounded "expected_title" in
    let (after, after_cut) := bounded "title" in
    Ok (Some ((preview_of "title_update" "Update document title")
      <| before_text := before |> <| after_text := after |>
      <| truncated := before_cut || after_cut |>))
  else match lifecycle_change tool_name with
  | Some (change, state) =>
      Ok (Some ((preview_of "lifecycle" change)
        <| lifecycle_from := Some (match dict_get arguments "expected_trash" with
                                   | PBool true => "trashed" | _ => "active" end) |>
        <| lifecycle_to := Some state |>))
  | None => Ok None
  end.

Definition slash : ascii := "/"%char.

Definition is_affine_research_server (server : McpServer) : bool :=
  (srv_origin server ==? "gateway") && (srv_transport server ==? "streamable_http")
  && (rstrip_char slash (or_else (srv_endpoint_url server) "")
      ==? rstrip_char slash (gateway_affine_approval_server_endpoint settings)).

Definition decorate_preparation_preview (server : McpServer) (tool : McpTool)
    (arguments base_preview : pydict) : result pydict :=
  if negb (is_affine_research_server server) then Ok base_preview else
  affine_preview ← build_affine_approval_preview (mtl_upstream_name tool) arguments;
  match affine_preview with
  | None => Ok base_preview
  | Some preview =>
      raise_if (negb (valid_preview preview)) (ValueError "AffineApprovalPreview");;
      Ok (dict_set "affine_approval" (PDict (preview_dump preview)) base_preview)
  end.
End with_env.
