(* ===== verification/McpUpstream.v ===== *)
(** * Calls of upstream tools ([mcp_upstream.py], [call_exact_revision])

    A call is recorded as an invocation and committed before anything is sent, and
    settled afterwards.  What the upstream server answers, within the limits of
    [_limit_result], is given from outside; so are the trace header and the duration,
    which only the events report.  The sending itself (transport, protocol session,
    circuit breaker, telemetry) is not modelled, and the recorded schemas are taken to
    be valid, as they were checked when they were recorded. *)

From S2P Require Import ThinClient Prelude PyStr PyVal Errors Models Database Session.
From S2P Require Import Auth FederationPolicy Federation ThinRuntime.
From Stdlib Require Import Ascii.

Record UpstreamMcpError := mkUpstreamError {
  ue_code : string;
  ue_message : string;
  ue_retryable : bool;
  ue_http_status : Z;
  ue_unknown_outcome : bool;
  ue_metadata : pydict;
}.

Definition as_detail (e : UpstreamMcpError) : pydict :=
  [("code", PStr (ue_code e)); ("message", PStr (ue_message e));
   ("retryable", PBool (ue_retryable e)); ("unknown_outcome", PBool (ue_unknown_outcome e))]
  ++ match ue_metadata e with [] => [] | metadata => [("metadata", PDict metadata)] end.

Record UpstreamCallResult := mkCallResult {
  cr_payload : pydict;
  cr_truncated : bool;
  cr_serialized_bytes : Z;
  cr_invocation_id : option string;
  cr_is_error : bool;
  cr_client_meta : pydict;
  cr_media_bytes : Z;
  cr_replayed : bool;
}.
#[export] Instance eta_UpstreamCallResult : Settable UpstreamCallResult := λ r,
  mkCallResult (cr_payload r) (cr_truncated r) (cr_serialized_bytes r)
    (cr_invocation_id r) (cr_is_error r) (cr_client_meta r) (cr_media_bytes r)
    (cr_replayed r).

(** What a call returns or raises. *)
Definition reply : Type := UpstreamCallResult + UpstreamMcpError.

Record call_request := mkRequest {
  rq_owner_subject : string;
  rq_actor_subject : string;
  rq_revision_id : string;
  rq_arguments : pydict;
  rq_idempotency_key : option string;
  rq_gateway_tool_call_id : option string;
  rq_correlation_id : option string;
  rq_preparation_id : option string;
  rq_approval_request_id : option string;
  rq_execution_permit_id : option string;
}.

(** The trace header of a call and its duration. *)
Record call_trace := mkTrace { traceparent : string; duration_seconds : pyval }.

(** ** Redaction *)

(** [re.compile("(?:w1|w2|...)", re.IGNORECASE).search(text)] *)
Fixpoint occurs (words : list (list string)) (l : list ascii) : bool :=
  existsb (λ word, nonempty (after_parts word l)) words
  || match l with [] => false | _ :: l => occurs words l end.

Definition _SECRET_KEY_PATTERN : list (list string) := [
  ["token"]; ["secret"]; ["password"]; ["credential"]; ["authorization"]; ["cookie"];
  ["private"; "key"]].

(** U+2026, which is outside Latin-1, stands as its Windows-1252 code. *)
Definition ellipsis : string := of_chars [chr 133].

Fixpoint _redact_structure (v : pyval) : pyval :=
  match v with
  | PDict d => PDict (map (λ kv, (kv.1,
      if occurs _SECRET_KEY_PATTERN (chars (lower kv.1)) then PStr "[REDACTED]"
      else _redact_structure kv.2)) d)
  | PList l =>
      PList ((fix first (n : nat) (l : list pyval) : list pyval :=
        match n, l with
        | S n, v :: l => _redact_structure v :: first n l
        | _, _ => []
        end) 100%nat l)
  | PStr s => if 512 <? len s then PStr (truncate 512 s +:+ ellipsis) else v
  | _ => v
  end.

Definition redact_arguments (arguments : pydict) : pydict :=
  match _redact_structure (PDict arguments) with PDict d => d | _ => [] end.

Example redact_ex :
  redact_arguments [("myTokens", PInt 1); ("a", PList [PDict [("private-key", PNone)]])]
  = [("myTokens", PStr "[REDACTED]"); ("a", PList [PDict [("private-key", PStr "[REDACTED]")]])].
Proof. reflexivity. Qed.

(** ** Replaying *)
Definition replays (existing : McpInvocation) (request : call_request)
    (arguments_sha256 : string) : bool :=
  (inv_actor_subject existing ==? rq_actor_subject request)
  && (inv_revision_id existing ==? rq_revision_id request)
  && (inv_arguments_sha256 existing ==? arguments_sha256)
  && (inv_preparation_id existing ==? rq_preparation_id request)
  && (inv_approval_request_id existing ==? rq_approval_request_id request)
  && (inv_execution_permit_id existing ==? rq_execution_permit_id request).

Definition _replay_existing_invocation (existing : McpInvocation) (request : call_request)
    (arguments_sha256 : string) : reply :=
  let metadata := [("invocation_id", PStr (inv_id existing));
                   ("outcome", PStr (inv_outcome existing))] in
  if negb (replays existing request arguments_sha256)
  then inr (mkUpstreamError "MCP_IDEMPOTENCY_CONFLICT"
    "MCP invocation idempotency key was reused with a different request" false 409 false
    metadata)
  else if is_none (inv_completed_at existing) || (inv_outcome existing ==? "running")
  then inr (mkUpstreamError "MCP_INVOCATION_IN_PROGRESS"
    "An invocation with this idempotency key is still in progress" true 409 false metadata)
  else if opt_truthy (inv_normalized_error_code existing) || inv_unknown_outcome existing
  then inr (mkUpstreamError
    (or_else (inv_normalized_error_code existing) "MCP_INVOCATION_RECORDED_FAILURE")
    (or_else (inv_normalized_error_detail existing)
       "A previous invocation with this idempotency key requires reconciliation")
    false 409 (inv_unknown_outcome existing)
    (metadata ++ [("replayed", PBool true)]
     ++ if opt_truthy (inv_normalized_error_code existing)
        then [("normalized_error_code", opt_str (inv_normalized_error_code existing))]
        else []))
  else
    let original := inv_response_metadata existing in
    let failed := inv_outcome existing =/? "succeeded" in
    let payload := [
      ("content", PList [PDict [
        ("type", PStr "text");
        ("text", PStr ("Gateway replayed prior invocation evidence; "
                       +:+ "the original upstream response body is not retained."))]]);
      ("structuredContent", PDict [("gatewayReplay", PDict [
        ("invocationId", PStr (inv_id existing));
        ("outcome", PStr (inv_outcome existing));
        ("responseSha256", opt_str (inv_response_sha256 existing));
        ("originalSerializedBytes", dict_get original "serialized_bytes");
        ("originalTruncated", PBool (truthy (dict_get original "truncated")))])]);
      ("isError", PBool failed)] in
    inl (mkCallResult payload false (len (utf8_encode (json_dumps (PDict payload))))
      (Some (inv_id existing)) failed [] 0 true).

Section with_env.
Context `{!Env}.

(** A call is answered from the records, or an invocation has been committed and the
    tool of the upstream server is about to be called. *)
Inductive started : Type :=
  | Answered (answer : reply)
  | Running (invocation : McpInvocation).

Definition invocation_by_key (request : call_request) : M (option McpInvocation) :=
  find_by_key inv_owner_subject inv_idempotency_key (rq_owner_subject request)
    (if opt_truthy (rq_idempotency_key request) then rq_idempotency_key request else None).

Definition new_invocation (request : call_request) (arguments_sha256 : string)
    (revision : McpToolRevision) (tool : McpTool) (server : McpServer)
    (id : string) (started_at created_at : Z) : McpInvocation := {|
  inv_id := id;
  inv_owner_subject := rq_owner_subject request;
  inv_actor_subject := rq_actor_subject request;
  inv_gateway_tool_call_id := rq_gateway_tool_call_id request;
  inv_correlation_id := rq_correlation_id request;
  inv_server_id := srv_id server;
  inv_tool_id := mtl_id tool;
  inv_revision_id := rvn_id revision;
  inv_schema_hash := rvn_schema_hash revision;
  inv_action_class := rvn_action_class revision;
  inv_arguments_redacted := redact_arguments (rq_arguments request);
  inv_arguments_sha256 := arguments_sha256;
  inv_preparation_id := rq_preparation_id request;
  inv_approval_request_id := rq_approval_request_id request;
  inv_execution_permit_id := rq_execution_permit_id request;
  inv_runtime_connection_id := None;
  inv_connection_instance_id := None;
  inv_thin_client_request_id := None;
  inv_outcome := "running";
  inv_unknown_outcome := false;
  inv_normalized_error_code := None;
  inv_normalized_error_detail := None;
  inv_response_metadata := [];
  inv_response_sha256 := None;
  inv_idempotency_key := rq_idempotency_key request;
  inv_started_at := started_at;
  inv_completed_at := None;
  inv_created_at := created_at;
|}.

(** What the events of an invocation report, and what follows it. *)
Definition invocation_payload (i : McpInvocation) (rest : pydict) : pydict :=
  [("invocation_id", PStr (inv_id i)); ("server_id", PStr (inv_server_id i));
   ("tool_id", PStr (inv_tool_id i)); ("revision_id", PStr (inv_revision_id i));
   ("schema_hash", PStr (inv_schema_hash i)); ("action_class", PStr (inv_action_class i))]
  ++ rest.

Definition start_invocation (request : call_request) (trace : call_trace) : M started :=
  let owner_subject := rq_owner_subject request in
  revision ← get_revision owner_subject (rq_revision_id request);
  tool ← get_tool owner_subject (rvn_tool_id revision);
  server ← get_server owner_subject (rvn_server_id revision);
  arguments_sha256 ← lift (sha256_json (PDict (rq_arguments request)));
  existing ← invocation_by_key request;
  match existing with
  | Some existing =>
      mret (Answered (_replay_existing_invocation existing request arguments_sha256))
  | None =>
  if gateway_mcp_federation_writes_paused settings
     && (rvn_action_class revision ∈? ["write"; "destructive"; "production"])
  then mret (Answered (inr (mkUpstreamError "MCP_FEDERATION_WRITES_PAUSED"
    "MCP federation write actions are paused by the emergency control" false 503 false [])))
  else
  match schema_violation (rvn_input_schema revision) (PDict (rq_arguments request)) with
  | Some path =>
      mret (Answered (inr (mkUpstreamError "MCP_ARGUMENT_VALIDATION_FAILED"
        ("Arguments do not match the recorded schema at " +:+ py_repr (PList path))
        false 422 false [])))
  | None =>
  new_id ← uuid4;
  started_at ← utcnow;
  created_at ← utcnow;
  let invocation := new_invocation request arguments_sha256 revision tool server new_id
                      started_at created_at in
  add invocation;;
  emit_for owner_subject "gateway.mcp.invocation.started.v1" (rq_actor_subject request)
    "mcp.invocation.started" "mcp_invocation" (inv_id invocation) "success"
    (invocation_payload invocation
      [("traceparent", PStr (traceparent trace));
       ("correlation_id", opt_str (rq_correlation_id request))]);;
  try_integrity (commit;; mret (Running invocation))
    (rollback;;
     existing ← invocation_by_key request;
     match existing with
     | Some existing =>
         mret (Answered (_replay_existing_invocation existing request arguments_sha256))
     | None => throw IntegrityError
     end)
  end
  end.

Definition complete_invocation (invocation : McpInvocation) (limited : UpstreamCallResult)
    (trace : call_trace) : M UpstreamCallResult :=
  client_meta_sha256 ← lift (match cr_client_meta limited with
    | [] => Ok PNone
    | meta => digest ← sha256_json (PDict meta); Ok (PStr digest)
    end);
  response_sha256 ← lift (sha256_json (PDict (cr_payload limited)));
  completed_at ← utcnow;
  invocation ← current_state invocation;
  let is_error := cr_is_error limited in
  let invocation := invocation
    <| inv_outcome := if is_error then "failed" else "succeeded" |>
    <| inv_response_metadata := [
         ("truncated", PBool (cr_truncated limited));
         ("serialized_bytes", PInt (cr_serialized_bytes limited));
         ("upstream_is_error", PBool is_error);
         ("media_bytes", PInt (cr_media_bytes limited));
         ("client_meta_present", PBool (nonempty (cr_client_meta limited)));
         ("client_meta_sha256", client_meta_sha256);
         ("client_only_meta", PDict (cr_client_meta limited))] |>
    <| inv_response_sha256 := Some response_sha256 |>
    <| inv_completed_at := Some completed_at |> in
  put invocation;;
  emit_for (inv_owner_subject invocation)
    (if is_error then "gateway.mcp.invocation.failed.v1"
     else "gateway.mcp.invocation.completed.v1")
    (inv_actor_subject invocation) "mcp.invocation.completed" "mcp_invocation"
    (inv_id invocation) (if is_error then "error" else "success")
    (invocation_payload invocation
      [("outcome", PStr (inv_outcome invocation));
       ("duration_seconds", duration_seconds trace);
       ("serialized_bytes", PInt (cr_serialized_bytes limited));
       ("truncated", PBool (cr_truncated limited));
       ("traceparent", PStr (traceparent trace));
       ("correlation_id", opt_str (inv_correlation_id invocation))]);;
  commit;;
  mret (limited <| cr_invocation_id := Some (inv_id invocation) |>
                <| cr_is_error := is_error |>).

Definition failure_status (code : string) : string :=
  if code ==? "MCP_SERVER_DISABLED" then "disabled"
  else if code ∈? ["MCP_AUTH_REQUIRED"; "MCP_AUTH_SCOPE_UPGRADE_REQUIRED"]
  then "auth_required"
  else if code ==? "MCP_SERVER_QUARANTINED" then "quarantined"
  else if code ∈? ["MCP_PROTOCOL_MISMATCH"; "MCP_TOOL_SCHEMA_CHANGED"]
  then "schema_invalid"
  else if code ==? "MCP_SERVER_OFFLINE" then "offline"
  else "degraded".

Definition _mark_failure (server_id : string) (error : UpstreamMcpError) : M unit :=
  server ← get_row server_id;
  match server with
  | Some server =>
      let status := failure_status (ue_code error) in
      updated_at ← utcnow;
      put (server <| srv_status := status |>
        <| srv_quarantine_reason := if status ==? "quarantined" then Some (ue_code error)
                                    else None |>
        <| srv_version ::= λ n, n + 1 |> <| srv_updated_at := updated_at |>);;
      commit
  | None => mret tt
  end.

Definition fail_invocation (invocation : McpInvocation) (error : UpstreamMcpError)
    (trace : call_trace) : M unit :=
  completed_at ← utcnow;
  invocation ← current_state invocation;
  let invocation := invocation
    <| inv_outcome := if ue_unknown_outcome error then "unknown" else "failed" |>
    <| inv_unknown_outcome := ue_unknown_outcome error |>
    <| inv_normalized_error_code := Some (ue_code error) |>
    <| inv_normalized_error_detail := Some (truncate 1000 (ue_message error)) |>
    <| inv_completed_at := Some completed_at |> in
  put invocation;;
  emit_for (inv_owner_subject invocation) "gateway.mcp.invocation.failed.v1"
    (inv_actor_subject invocation) "mcp.invocation.failed" "mcp_invocation"
    (inv_id invocation) "error"
    (invocation_payload invocation
      [("outcome", PStr (inv_outcome invocation));
       ("error_code", PStr (ue_code error));
       ("retryable", PBool (ue_retryable error));
       ("unknown_outcome", PBool (ue_unknown_outcome error));
       ("duration_seconds", duration_seconds trace);
       ("traceparent", PStr (traceparent trace));
       ("correlation_id", opt_str (inv_correlation_id invocation))]);;
  commit;;
  _mark_failure (inv_server_id invocation) error.

(** The whole call: [send] is what the upstream server answers to it. *)
Definition call_exact_revision (send : call_request → reply) (trace : call_trace)
    (request : call_request) : M reply :=
  start ← start_invocation request trace;
  match start with
  | Answered answer => mret answer
  | Running invocation =>
      match send request with
      | inl limited =>
          result ← complete_invocation invocation limited trace;
          mret (inl result)
      | inr error =>
          fail_invocation invocation error trace;;
          mret (inr error)
      end
  end.
End with_env.

(** * Calls of tools that run at a thin client ([mcp_upstream.py], [_call_thin_client])

    The running invocation is bound to the connection before the request is sent; the
    answer of the client is then read.  [active] is what the connection manager finds
    ([ThinClient.v]), which also sends the request. *)

Definition upstream_error (e : ThinClientMcpError) : UpstreamMcpError :=
  mkUpstreamError (te_code e) (te_message e) (te_retryable e) (te_http_status e)
    (te_unknown_outcome e) [].

Definition bound_invocation (runtime : McpRuntimeConnection) (instance_id request_id : string)
    (i : McpInvocation) : McpInvocation :=
  i <| inv_runtime_connection_id := Some (rtm_id runtime) |>
    <| inv_connection_instance_id := Some instance_id |>
    <| inv_thin_client_request_id := Some request_id |>.

(** The id of the request that is sent, or the error of the call. *)
Definition dispatch_call `{!Env} (server : McpServer)
    (active : ThinClientConnection + ThinClientMcpError) (invocation : McpInvocation)
    : M (string + UpstreamMcpError) :=
  if negb (opt_truthy (srv_thin_client_id server) && opt_truthy (srv_runtime_id server)
           && opt_truthy (srv_local_server_id server))
  then mret (inr (mkUpstreamError "MCP_PROTOCOL_MISMATCH"
                    "Thin-client MCP server identity is incomplete" false 409 false []))
  else match active with
  | inr e => mret (inr (upstream_error e))
  | inl connection =>
      runtime ← query_one (λ r, (rtm_owner_subject r ==? srv_owner_subject server)
        && (rtm_server_id r ==? srv_id server)
        && (rtm_thin_client_id r ==? srv_thin_client_id server)
        && (rtm_runtime_id r ==? srv_runtime_id server)
        && (rtm_connection_instance_id r ==? tc_instance_id connection)
        && (rtm_state r ==? "online"));
      match runtime with
      | None => mret (inr (mkUpstreamError "MCP_STALE_CONNECTION"
                             "Thin-client MCP runtime evidence is stale" true 409 false []))
      | Some runtime =>
          request_id ← uuid4;
          invocation ← current_state invocation;
          put (bound_invocation runtime (tc_instance_id connection) request_id invocation);;
          commit;;
          mret (inl request_id)
      end
  end.

(** The call of an invocation whose server is stored. *)
Definition dispatch `{!Env} (active : ThinClientConnection + ThinClientMcpError)
    (invocation : McpInvocation) : M unit :=
  server ← get_row (inv_server_id invocation);
  match server with
  | Some server => dispatch_call server active invocation;; mret tt
  | None => mret tt
  end.

(** [int(value)] and [str(value)] of a field, with a default. *)
Definition int_field (message : pydict) (key : string) (otherwise : Z) : result Z :=
  or_type_error (py_int (dict_get_or message key (PInt otherwise))).
Definition text_or (message : pydict) (key otherwise : string) : string :=
  py_str (py_or (dict_get message key) (PStr otherwise)).

(** The result that the client returned, before it is validated. *)
Definition call_answer (schema_hash : string) (catalog_generation : Z) (action_class : string)
    (response : pydict) : result (pydict + UpstreamMcpError) :=
  let protocol_mismatch := λ message, inr (mkUpstreamError "MCP_PROTOCOL_MISMATCH" message
        false 502 false []) in
  stale ← (if text_field response "schema_hash" =/? schema_hash then Ok true
           else generation ← int_field response "catalog_generation" (-1);
                Ok (negb (generation =? catalog_generation)));
  if (stale : bool) then Ok (inr (mkUpstreamError "MCP_TOOL_SCHEMA_CHANGED"
    "Local MCP result does not match the selected catalog revision" false 409
    (effectful action_class) []))
  else
  let type := dict_get response "type" in
  if py_eqb type (PStr "mcp_call_failed") then
    http_status ← int_field response "http_status" 502;
    Ok (inr (mkUpstreamError
      (truncate 120 (text_or response "code" "MCP_PROTOCOL_MISMATCH"))
      (truncate 500 (text_or response "message" "Local MCP call failed"))
      (truthy (dict_get_or response "retryable" (PBool false))) http_status
      (truthy (dict_get_or response "unknown_outcome" (PBool false))) []))
  else
  match dict_get response "result" with
  | PDict result =>
      if py_eqb type (PStr "mcp_call_result") then Ok (inl result)
      else Ok (protocol_mismatch "Local MCP runtime returned an invalid call result")
  | _ => Ok (protocol_mismatch "Local MCP runtime returned an invalid call result")
  end.
