(* ===== verification/FederationBroker.v ===== *)
(** * The broker of federated MCP tools ([mcp_federation_broker.py])

    Which revision a caller may use, calls of read-only tools, and guarded actions: a
    write is prepared with its arguments encrypted, approved by reviewers, and executed
    with the permit that was issued for it.  The search of the catalogue and the
    description of a tool are not modelled.

    A call of the upstream server interrupts a session: [begin_action] is what comes
    before it and commits, [finish_action] what comes after.  The projection of approvals
    to AFFiNE is taken to be disabled, as in [Approvals]. *)

From S2P Require Import Prelude PyStr PyVal Errors Models Database Session Json.
From S2P Require Import Autonomy Controls Approvals Permits.
From S2P Require Import FederationPolicy Federation ApprovalPreview McpUpstream.
From Stdlib Require Import Ascii.

(** ** Tool references *)
Definition _tool_ref (server_id tool_id revision_id : string) : string :=
  "mcp-tool://" +:+ server_id +:+ "/" +:+ tool_id +:+ "/" +:+ revision_id.

(** [[0-9a-f-]{36}], ignoring the case *)
Definition ref_part (l : list ascii) : bool :=
  (length l =? 36)%nat
  && forallb (λ c, is_digit c || between 97 102 (code (lower_char c)) || (c ==? "-"%char)) l.

Definition _parse_tool_ref (v : string) : result (string * string * string) :=
  let l := chars (strip v) in
  let scheme := chars "mcp-tool://" in
  match split_on "/" (drop (length scheme) l) with
  | [server; tool; revision] =>
      if list_prefix scheme (map lower_char l)
         && ref_part server && ref_part tool && ref_part revision
      then Ok (of_chars server, of_chars tool, of_chars revision)
      else http 422 "Invalid MCP tool reference"
  | _ => http 422 "Invalid MCP tool reference"
  end.

(** ** What the caller has, and what the policy asks for *)
Definition _actor_scopes (user : User) : list string :=
  match dict_get_or (usr_preferences user) "scopes" (PList []) with
  | PStr s => comma_words s
  | PList l => filter (λ s, s ≠ "") (map (λ v, strip (py_str v)) l)
  | _ => []
  end.

(** [set(l)]: its elements are hashable. *)
Definition py_set (l : list pyval) : result (list pyval) :=
  raise_if (existsb (λ v, match v with PList _ | PDict _ => true | _ => false end) l) TypeError;;
  Ok l.
Definition contains (l : list pyval) (s : string) : bool := existsb (py_eqb (PStr s)) l.

(** [set(required).issubset(set(held))] *)
Definition all_held (required : list pyval) (held : list string) : bool :=
  forallb (λ v, existsb (λ s, py_eqb v (PStr s)) held) required.

Definition approval_order (approval : McpApprovalClass) : Z :=
  match approval with
  | NO_APPROVAL => 0 | OPERATOR_APPROVAL => 1 | QUORUM_APPROVAL => 2
  | PRODUCTION_APPROVAL => 3
  end.

(** [max] returns the first of the greatest. *)
Definition stronger (a b : McpApprovalClass) : McpApprovalClass :=
  if approval_order a <? approval_order b then b else a.
Definition _strongest_approval (action_class : McpActionClass)
    (exposure policy : McpApprovalClass) : McpApprovalClass :=
  stronger (stronger (required_approval_for action_class) exposure) policy.

Record AuthorizedRevision := mkAuthorized {
  au_server : McpServer;
  au_tool : McpTool;
  au_revision : McpToolRevision;
  au_exposure : McpToolExposure;
  au_policy : McpFederationPolicy;
  au_approval_class : McpApprovalClass;
}.

Record FederationExecutionContext := mkExecutionContext {
  fc_room : CollaborationRoom;
  fc_proposer : AgentInstance;
  fc_executor : AgentInstance;
  fc_policy : AutonomyPolicy;
}.

(** [except ValueError: raise HTTPException(409, ...)]; a policy violation is one. *)
Definition value_error_409 {A} (r : result A) : M A :=
  match r with
  | Raise (ValueError _) | Raise (McpPolicyViolation _) => fail 409 "Invalid MCP policy state"
  | _ => lift r
  end.

(** The decision on a revision, from the stored values. *)
Definition decide_revision (user : User) (policy : McpFederationPolicy)
    (exposure : McpToolExposure) (revision : McpToolRevision)
    : result McpAuthorizationDecision :=
  action_class ← of_value (E:=McpActionClass) (rvn_action_class revision);
  exposure_approval ← of_value (E:=McpApprovalClass) (xps_approval_class exposure);
  policy_approval ← enum_of (E:=McpApprovalClass)
    (dict_get_or (fpl_approval_mapping policy) (value action_class)
       (PStr (value NO_APPROVAL)));
  trust_level ← of_value (E:=McpTrustLevel) (fpl_trust_level policy);
  exposure_mode ← of_value (E:=McpExposureMode) (xps_mode exposure);
  read_only_status ← of_value (E:=McpReadOnlyStatus) (rvn_read_only_status revision);
  allowed ← py_set (fpl_allowed_action_classes policy);
  Ok (authorize_tool_revision (usr_roles user) (_actor_scopes user) trust_level exposure_mode
        (xps_enabled exposure) action_class read_only_status (xps_required_role exposure)
        (xps_required_scope exposure)
        (omap (λ v, match v with PStr s => Some s | _ => None end) allowed)
        (Some (_strongest_approval action_class exposure_approval policy_approval))).

Section broker.
Context `{!Env}.

Definition _current_exposure (owner_subject revision_id : string)
    : M (option McpToolExposure) :=
  exposures ← query (λ e, (xps_owner_subject e ==? owner_subject)
    && (xps_revision_id e ==? revision_id) && xps_enabled e
    && (xps_mode e ∈? ["catalog_only"; "native_projected"]));
  mret (head (sort_by newer_exposure exposures)).

Definition _federation_policy (owner_subject server_id : string)
    : M (option McpFederationPolicy) :=
  policy ← get_policy owner_subject (Some server_id);
  match policy with
  | Some policy => mret (Some policy)
  | None => get_policy owner_subject None
  end.

Definition _resolve_authorized (user : User) (tool_ref schema_hash : string)
    (require_available : bool) : M AuthorizedRevision :=
  ids ← lift (_parse_tool_ref tool_ref);
  let owner_subject := usr_subject user in
  server ← get_server owner_subject ids.1.1;
  tool ← get_tool owner_subject ids.1.2;
  revision ← get_revision owner_subject ids.2;
  fail_if ((mtl_server_id tool =/? srv_id server) || (rvn_server_id revision =/? srv_id server)
           || (rvn_tool_id revision =/? mtl_id tool)) 409
    "MCP tool reference components do not match";;
  fail_if (rvn_schema_hash revision =/? schema_hash) 409
    "MCP schema hash does not match the selected revision";;
  fail_if ((mtl_lifecycle_state tool =/? "active")
           || (mtl_current_revision_id tool =/? Some (rvn_id revision))) 409
    "MCP tool revision is not the current active revision";;
  fail_if (require_available && negb (srv_status server ∈? ["online"; "degraded"])) 409
    ("MCP server is not callable: " +:+ srv_status server);;
  exposure ← _current_exposure owner_subject (rvn_id revision);
  exposure ← require exposure 403 "MCP tool revision is not exposed";
  policy ← _federation_policy owner_subject (srv_id server);
  policy ← require policy 403 "No active MCP federation policy permits this tool";
  fail_if (fpl_status policy =/? "active") 403
    "No active MCP federation policy permits this tool";;
  required_roles ← lift (py_set (fpl_required_roles policy));
  fail_if (negb (all_held required_roles (usr_roles user))) 403
    "MCP federation policy roles are missing";;
  required_scopes ← lift (py_set (fpl_required_scopes policy));
  fail_if (negb (all_held required_scopes (_actor_scopes user))) 403
    "MCP federation policy scopes are missing";;
  let identities := [mtl_id tool; mtl_upstream_name tool; mtl_normalized_name tool;
                     rvn_id revision] in
  denylist ← lift (py_set (fpl_tool_denylist policy));
  fail_if (existsb (contains denylist) identities) 403
    "MCP tool is denied by federation policy";;
  allowlist ← lift (py_set (fpl_tool_allowlist policy));
  fail_if (nonempty allowlist && negb (existsb (contains allowlist) identities)) 403
    "MCP tool is not in the federation allowlist";;
  decision ← value_error_409 (decide_revision user policy exposure revision);
  fail_if (negb (allowed decision)) 403 ("MCP policy denied: " +:+ reason decision);;
  mret (mkAuthorized server tool revision exposure policy (approval_class decision)).

Definition _validate_arguments (revision : McpToolRevision) (arguments : pydict) : M unit :=
  lift (reject_secret_shaped_payload (PDict arguments));;
  match schema_violation (rvn_input_schema revision) (PDict arguments) with
  | Some path => fail 422 ("Arguments do not match the selected MCP schema at "
                           +:+ py_repr (PList path))
  | None => mret tt
  end.

(** ** Read-only calls *)
Record read_input := mkReadInput {
  ri_tool_ref : string;
  ri_schema_hash : string;
  ri_arguments : pydict;
}.

(** The call a read makes, if it may be made. *)
Definition authorize_read (user : User) (payload : read_input)
    (gateway_tool_call_id : option string) : M call_request :=
  item ← _resolve_authorized user (ri_tool_ref payload) (ri_schema_hash payload) true;
  fail_if ((rvn_action_class (au_revision item) =/? "read")
           || (rvn_read_only_status (au_revision item) =/? "verified")) 403
    "mcp_call_read requires a verified read-only revision";;
  _validate_arguments (au_revision item) (ri_arguments payload);;
  mret {|
    rq_owner_subject := usr_subject user;
    rq_actor_subject := usr_subject user;
    rq_revision_id := rvn_id (au_revision item);
    rq_arguments := ri_arguments payload;
    rq_idempotency_key := None;
    rq_gateway_tool_call_id := gateway_tool_call_id;
    rq_correlation_id := None;
    rq_preparation_id := None;
    rq_approval_request_id := None;
    rq_execution_permit_id := None;
  |}.

(** [raise HTTPException(status_code=exc.http_status, detail=exc.as_detail())] *)
Definition raise_upstream {A} (error : UpstreamMcpError) : M A :=
  fail (ue_http_status error) (json_dumps (PDict (as_detail error))).

Definition call_read (user : User) (payload : read_input)
    (gateway_tool_call_id : option string) (upstream : call_request → M reply) : M pydict :=
  request ← authorize_read user payload gateway_tool_call_id;
  answer ← upstream request;
  match answer with
  | inr error => raise_upstream error
  | inl result => mret [
      ("tool_ref", PStr (ri_tool_ref payload));
      ("schema_hash", PStr (ri_schema_hash payload));
      ("invocation_id", opt_str (cr_invocation_id result));
      ("result", PDict (cr_payload result));
      ("truncated", PBool (cr_truncated result));
      ("serialized_bytes", PInt (cr_serialized_bytes result));
      ("upstream_is_error", PBool (cr_is_error result))]
  end.

(** ** The system's own room, agents and policy *)
Definition _SYSTEM_ROOM_KEY : string := "mcp-federation-guarded-actions-room".
Definition _SYSTEM_POLICY_KEY : string := "mcp-federation-guarded-actions-policy".
Definition _SYSTEM_PROPOSER_INSTANCE : string := "mcp-federation-proposer".
Definition _SYSTEM_EXECUTOR_INSTANCE : string := "mcp-federation-executor".

Definition days (n : Z) : Z := seconds (n * 86400).

Definition _system_subject (owner_subject : string) : result string :=
  digest ← sha256_json (PStr owner_subject);
  Ok ("mcp-federation-system:" +:+ truncate 24 digest).

Definition system_room (owner_subject id : string) (now : Z) : CollaborationRoom := {|
  room_id := id;
  room_owner_subject := owner_subject;
  room_title := "MCP federation guarded actions";
  room_project_path := None;
  room_repository_identity := None;
  room_base_commit := None;
  room_status := "active";
  room_policy := [("system_managed", PBool true); ("purpose", PStr "mcp_federation")];
  room_created_by_agent_id := None;
  room_idempotency_key := Some _SYSTEM_ROOM_KEY;
  room_created_at := now;
  room_updated_at := now;
|}.

Definition new_system_agent (owner_subject id instance_id display_name room : string)
    (now : Z) : AgentInstance := {|
  ag_id := id;
  ag_owner_subject := owner_subject;
  ag_logical_agent_id := instance_id;
  ag_instance_id := instance_id;
  ag_display_name := display_name;
  ag_status := "active";
  ag_capabilities := ["mcp_federation_guarded_action"];
  ag_labels := [("system_managed", PBool true)];
  ag_current_room_id := Some room;
  ag_current_work_item_id := None;
  ag_last_heartbeat_at := now;
  ag_expires_at := Some (now + days 3650);
  ag_created_at := now;
  ag_updated_at := now;
|}.

Definition system_agent (owner_subject : string) (room : CollaborationRoom) (now : Z)
    (instance_id display_name : string) : M AgentInstance :=
  row ← query_one (λ a, (ag_owner_subject a ==? owner_subject)
                        && (ag_instance_id a ==? instance_id));
  row ← match row with
        | Some row => mret row
        | None =>
            new_id ← uuid4;
            let row := new_system_agent owner_subject new_id instance_id display_name
                         (room_id room) now in
            add row;;
            flush;;
            mret row
        end;
  let row := row <| ag_status := "active" |> <| ag_current_room_id := Some (room_id room) |>
    <| ag_last_heartbeat_at := now |> <| ag_expires_at := Some (now + days 3650) |>
    <| ag_updated_at := now |> in
  put row;;
  mret row.

Definition system_policy (owner_subject id created_by : string) (room : CollaborationRoom)
    (executor : AgentInstance) (now : Z) : AutonomyPolicy := {|
  pol_id := id;
  pol_owner_subject := owner_subject;
  pol_room_id := room_id room;
  pol_name := "MCP federation guarded action policy";
  pol_status := "active";
  pol_assignment_mode := "manual";
  pol_coordinator_agent_id := Some (ag_id executor);
  pol_allowed_action_classes := ["write"; "destructive"; "production"];
  pol_allowed_tools := ["mcp_action_execute"];
  pol_allowed_command_profiles := [];
  pol_max_parallel_assignments := 1;
  pol_approval_rules := DEFAULT_APPROVAL_RULES;
  pol_recovery_policy := [("max_attempts", PInt 1); ("base_backoff_seconds", PInt 30);
                          ("max_backoff_seconds", PInt 30)];
  pol_generation := 1;
  pol_version := 1;
  pol_idempotency_key := Some _SYSTEM_POLICY_KEY;
  pol_created_by_subject := created_by;
  pol_created_at := now;
  pol_updated_at := now;
|}.

Definition _ensure_execution_context (owner_subject : string)
    : M FederationExecutionContext :=
  now ← utcnow;
  room ← query_one (λ r, (room_owner_subject r ==? owner_subject)
                         && (room_idempotency_key r ==? Some _SYSTEM_ROOM_KEY));
  room ← match room with
         | Some room => mret room
         | None =>
             new_id ← uuid4;
             let room := system_room owner_subject new_id now in
             add room;;
             flush;;
             mret room
         end;
  fail_if (room_status room =/? "active") 423 "MCP federation action room is not active";;
  proposer ← system_agent owner_subject room now _SYSTEM_PROPOSER_INSTANCE
               "MCP Federation Proposer";
  executor ← system_agent owner_subject room now _SYSTEM_EXECUTOR_INSTANCE
               "MCP Federation Executor";
  policy ← query_one (λ p, (pol_owner_subject p ==? owner_subject)
                           && (pol_idempotency_key p ==? Some _SYSTEM_POLICY_KEY));
  policy ← match policy with
           | Some policy => mret policy
           | None =>
               new_id ← uuid4;
               created_by ← lift (_system_subject owner_subject);
               let policy := system_policy owner_subject new_id created_by room executor now in
               add policy;;
               flush;;
               mret policy
           end;
  fail_if ((pol_status policy =/? "active") || (pol_room_id policy =/? room_id room)
           || negb ("mcp_action_execute" ∈? pol_allowed_tools policy)) 423
    "MCP federation autonomy policy is not active";;
  assert_enabled owner_subject (room_id room) policy;;
  mret (mkExecutionContext room proposer executor policy).

(** ** Preparing an action *)
Record prepare_input := mkPrepareInput {
  pi_tool_ref : string;
  pi_schema_hash : string;
  pi_arguments : pydict;
  pi_justification : string;
  pi_idempotency_key : string;
}.

(** The quorum, whether an administrator must approve, whether the proposer may not. *)
Definition _approval_rule (approval : McpApprovalClass) : result (Z * bool * bool) :=
  match approval with
  | OPERATOR_APPROVAL => Ok (1, false, true)
  | QUORUM_APPROVAL => Ok (2, true, true)
  | PRODUCTION_APPROVAL => Ok (2, true, true)
  | NO_APPROVAL => http 409 "Write-capable MCP action has no approval requirement"
  end.

(** The digest [agent_autonomy] takes of a command. *)
Definition _command_hash (command : AgentCommand) : result string :=
  sha256_json (PDict (_command_envelope command)).

Definition _preparation_payload (p : McpActionPreparation) : pydict := [
  ("preparation_id", PStr (prp_id p));
  ("tool_ref", PStr (_tool_ref (prp_server_id p) (prp_tool_id p) (prp_revision_id p)));
  ("schema_hash", PStr (prp_schema_hash p));
  ("action_class", PStr (prp_action_class p));
  ("arguments_sha256", PStr (prp_arguments_sha256 p));
  ("preview", PDict (prp_preview p));
  ("approval_class", PStr (prp_approval_class p));
  ("approval_request_id", PStr (prp_approval_request_id p));
  ("executor_agent_id", PStr (prp_executor_agent_id p));
  ("status", PStr (prp_status p));
  ("expires_at", PStr (isoformat (prp_expires_at p)))].

Definition guarded_command (item : AuthorizedRevision) (context : FederationExecutionContext)
    (owner_subject id preparation_id arguments_hash key : string) (now expires_at : Z)
    : AgentCommand := {|
  cmd_id := id;
  cmd_owner_subject := owner_subject;
  cmd_room_id := room_id (fc_room context);
  cmd_issuer_agent_id := ag_id (fc_proposer context);
  cmd_target_agent_id := ag_id (fc_executor context);
  cmd_kind := "run_tool";
  cmd_instruction := "Execute the exact approved MCP federation preparation.";
  cmd_structured_payload := [
    ("tool", PStr "mcp_action_execute");
    ("arguments", PDict [
      ("preparation_id", PStr preparation_id);
      ("expected_schema_hash", PStr (rvn_schema_hash (au_revision item)));
      ("arguments_sha256", PStr arguments_hash)])];
  cmd_constraints := [
    ("server_id", PStr (srv_id (au_server item)));
    ("tool_id", PStr (mtl_id (au_tool item)));
    ("revision_id", PStr (rvn_id (au_revision item)));
    ("exposure_version", PInt (xps_version (au_exposure item)));
    ("federation_policy_generation", PInt (fpl_generation (au_policy item)))];
  cmd_priority := 80;
  cmd_status := "pending";
  cmd_requires_approval := true;
  cmd_approved_by_subject := None;
  cmd_correlation_id := Some preparation_id;
  cmd_causation_id := None;
  cmd_idempotency_key := Some ("mcp-action-command:" +:+ key);
  cmd_delivery_attempts := 0;
  cmd_delivered_at := None;
  cmd_acknowledged_at := None;
  cmd_accepted_at := None;
  cmd_completed_at := None;
  cmd_expires_at := Some expires_at;
  cmd_result := [];
  cmd_error := None;
  cmd_created_at := now;
  cmd_updated_at := now;
|}.

(** The workspace and the document the arguments name, for the reviewers. *)
Definition workspace_of (arguments : pydict) : pyval :=
  PStr (str_or_empty (dict_get arguments "workspace_id")).
Definition document_of (arguments : pydict) : pyval :=
  opt_str (text_or_nothing (dict_get arguments "document_id")).

Definition guarded_approval (item : AuthorizedRevision) (context : FederationExecutionContext)
    (command : AgentCommand) (payload : prepare_input)
    (owner_subject id preparation_id arguments_hash command_hash created_by : string)
    (rule : Z * bool * bool) (now expires_at : Z) : ApprovalRequest := {|
  apr_id := id;
  apr_owner_subject := owner_subject;
  apr_room_id := room_id (fc_room context);
  apr_policy_id := pol_id (fc_policy context);
  apr_command_id := Some (cmd_id command);
  apr_work_item_id := None;
  apr_integration_id := None;
  apr_proposer_agent_id := Some (ag_id (fc_proposer context));
  apr_executor_agent_id := ag_id (fc_executor context);
  apr_action_kind := "mcp_federation_action";
  apr_action_class := rvn_action_class (au_revision item);
  apr_tool := "mcp_action_execute";
  apr_command_profile := None;
  apr_payload_hash := command_hash;
  apr_payload_summary := [
    ("preparation_id", PStr preparation_id);
    ("server_id", PStr (srv_id (au_server item)));
    ("tool_id", PStr (mtl_id (au_tool item)));
    ("revision_id", PStr (rvn_id (au_revision item)));
    ("schema_hash", PStr (rvn_schema_hash (au_revision item)));
    ("arguments_sha256", PStr arguments_hash);
    ("justification", PStr (pi_justification payload));
    ("workspace_id", workspace_of (pi_arguments payload));
    ("document_id", document_of (pi_arguments payload))];
  apr_quorum_required := rule.1.1;
  apr_require_admin_approval := rule.1.2;
  apr_disallow_proposer_vote := rule.2;
  apr_status := "pending";
  apr_policy_generation := pol_generation (fc_policy context);
  apr_version := 1;
  apr_idempotency_key := Some ("mcp-action-approval:" +:+ pi_idempotency_key payload);
  apr_created_by_subject := created_by;
  apr_expires_at := expires_at;
  apr_approved_at := None;
  apr_rejected_at := None;
  apr_revoked_at := None;
  apr_created_at := now;
  apr_updated_at := now;
|}.

Definition new_preparation (item : AuthorizedRevision) (context : FederationExecutionContext)
    (command : AgentCommand) (approval : ApprovalRequest) (payload : prepare_input)
    (preview : pydict) (owner_subject id secret_id arguments_hash : string)
    (now expires_at : Z) : McpActionPreparation := {|
  prp_id := id;
  prp_owner_subject := owner_subject;
  prp_actor_subject := owner_subject;
  prp_server_id := srv_id (au_server item);
  prp_tool_id := mtl_id (au_tool item);
  prp_revision_id := rvn_id (au_revision item);
  prp_schema_hash := rvn_schema_hash (au_revision item);
  prp_action_class := rvn_action_class (au_revision item);
  prp_arguments_secret_id := secret_id;
  prp_arguments_redacted :=
    map (λ key, (key, PStr "[REDACTED]")) (sort_strings (pi_arguments payload).*1);
  prp_arguments_sha256 := arguments_hash;
  prp_justification := pi_justification payload;
  prp_preview := preview;
  prp_approval_class := value (au_approval_class item);
  prp_exposure_id := xps_id (au_exposure item);
  prp_exposure_version := xps_version (au_exposure item);
  prp_federation_policy_id := fpl_id (au_policy item);
  prp_federation_policy_generation := fpl_generation (au_policy item);
  prp_autonomy_policy_id := pol_id (fc_policy context);
  prp_autonomy_policy_generation := pol_generation (fc_policy context);
  prp_command_id := cmd_id command;
  prp_executor_agent_id := ag_id (fc_executor context);
  prp_approval_request_id := apr_id approval;
  prp_status := "pending_approval";
  prp_idempotency_key := pi_idempotency_key payload;
  prp_expires_at := expires_at;
  prp_executed_at := None;
  prp_created_at := now;
  prp_updated_at := now;
|}.

Definition base_preview (item : AuthorizedRevision) (arguments : pydict) : pydict := [
  ("server", PStr (srv_display_name (au_server item)));
  ("tool", PStr (mtl_upstream_name (au_tool item)));
  ("argument_names", str_list (sort_strings arguments.*1));
  ("argument_count", PInt (Z.of_nat (length arguments)));
  ("schema_hash", PStr (rvn_schema_hash (au_revision item)));
  ("workspace_id", workspace_of arguments);
  ("document_id", document_of arguments)].

Definition preparation_by_key (owner_subject key : string)
    : M (option McpActionPreparation) :=
  query_one (λ p, (prp_owner_subject p ==? owner_subject)
                  && (prp_idempotency_key p ==? key)).

Definition prepared_response (preparation : McpActionPreparation) (replayed : bool) : pydict :=
  [("preparation", PDict (_preparation_payload preparation)); ("replayed", PBool replayed)].

(** The secret, the command, its approval request and the preparation of a new action. *)
Definition write_preparation (item : AuthorizedRevision)
    (context : FederationExecutionContext) (owner_subject : string)
    (payload : prepare_input) (arguments_hash : string) (preparation_ttl_seconds : Z)
    : M McpActionPreparation :=
  let arguments := pi_arguments payload in
  now ← utcnow;
  let expires_at := now + seconds (Z.max 60 (Z.min preparation_ttl_seconds 86400)) in
  secret_id ← uuid4;
  text ← lift (canonical_json (PDict arguments));
  ciphertext ← encrypt_text text;
  add (mkSecretBlob secret_id owner_subject "mcp_action_arguments" ciphertext now);;
  flush;;
  preparation_id ← uuid4;
  command_id ← uuid4;
  let command := guarded_command item context owner_subject command_id preparation_id
                   arguments_hash (pi_idempotency_key payload) now expires_at in
  add command;;
  flush;;
  command_hash ← lift (_command_hash command);
  rule ← lift (_approval_rule (au_approval_class item));
  approval_id ← uuid4;
  created_by ← lift (_system_subject owner_subject);
  let approval := guarded_approval item context command payload owner_subject approval_id
                    preparation_id arguments_hash command_hash created_by rule now
                    expires_at in
  add approval;;
  flush;;
  preview ← lift (decorate_preparation_preview (au_server item) (au_tool item) arguments
                    (base_preview item arguments));
  let preparation := new_preparation item context command approval payload preview
                       owner_subject preparation_id secret_id arguments_hash now
                       expires_at in
  add preparation;;
  flush;;
  mret preparation.

Definition prepare_action (user : User) (payload : prepare_input)
    (preparation_ttl_seconds : Z) : M pydict :=
  let owner_subject := usr_subject user in
  item ← _resolve_authorized user (pi_tool_ref payload) (pi_schema_hash payload) true;
  let revision := au_revision item in
  fail_if (negb (rvn_action_class revision ∈? ["write"; "destructive"; "production"])) 403
    "mcp_action_prepare requires a classified write-capable revision";;
  _validate_arguments revision (pi_arguments payload);;
  arguments_hash ← lift (sha256_json (PDict (pi_arguments payload)));
  existing ← preparation_by_key owner_subject (pi_idempotency_key payload);
  match existing with
  | Some existing =>
      fail_if ((prp_revision_id existing =/? rvn_id revision)
               || (prp_schema_hash existing =/? rvn_schema_hash revision)
               || (prp_arguments_sha256 existing =/? arguments_hash)
               || (prp_actor_subject existing =/? owner_subject)) 409
        "MCP action preparation idempotency conflict";;
      mret (prepared_response existing true)
  | None =>
  context ← _ensure_execution_context owner_subject;
  preparation ← write_preparation item context owner_subject payload arguments_hash
                  preparation_ttl_seconds;
  emit "gateway.mcp.action.prepared.v1" owner_subject "prepared" "mcp_action_preparation"
    (prp_id preparation) "success"
    [("preparation_id", PStr (prp_id preparation));
     ("server_id", PStr (prp_server_id preparation));
     ("tool_id", PStr (prp_tool_id preparation));
     ("revision_id", PStr (prp_revision_id preparation));
     ("schema_hash", PStr (prp_schema_hash preparation));
     ("arguments_sha256", PStr (prp_arguments_sha256 preparation));
     ("approval_request_id", PStr (prp_approval_request_id preparation));
     ("approval_class", PStr (prp_approval_class preparation));
     ("action_class", PStr (prp_action_class preparation))];;
  try_integrity (commit;; mret (prepared_response preparation false))
    (rollback;;
     existing ← preparation_by_key owner_subject (pi_idempotency_key payload);
     match existing with
     | Some existing =>
         fail_if (prp_arguments_sha256 existing =/? arguments_hash) 409
           "MCP action preparation conflict";;
         mret (prepared_response existing true)
     | None => fail 409 "MCP action preparation conflict"
     end)
  end.

(** ** Executing it *)
Record execute_input := mkExecuteInput {
  xi_preparation_id : string;
  xi_permit_id : string;
  xi_expected_schema_hash : string;
}.

Definition _load_preparation (owner_subject preparation_id : string)
    : M McpActionPreparation :=
  preparation ← find_row preparation_id (λ p, prp_owner_subject p ==? owner_subject);
  require preparation 404 "MCP action preparation not found".

Definition _existing_receipt (permit_id : string) : M (option ActionReceipt) :=
  query_one (λ r, rcpt_permit_id r ==? permit_id).

(** An execution whose call of the upstream server is due. *)
Record execution := mkExecution {
  ec_preparation : McpActionPreparation;
  ec_claimed : ExecutionPermit;
  ec_approval : ApprovalRequest;
  ec_arguments : pydict;
  ec_started_at : Z;
}.

(** The approval, the command and the permit of a preparation, bound to each other. *)
Definition guarded_evidence (preparation : McpActionPreparation) (permit_id : string)
    : M (ApprovalRequest * AgentCommand * ExecutionPermit) :=
  let incomplete := "MCP guarded action evidence is incomplete" in
  approval ← get_row (prp_approval_request_id preparation);
  command ← get_row (prp_command_id preparation);
  permit ← get_row permit_id;
  approval ← require approval 409 incomplete;
  command ← require command 409 incomplete;
  permit ← require permit 409 incomplete;
  fail_if (apr_status approval =/? "approved") 409
    ("MCP action approval is " +:+ apr_status approval);;
  fail_if ((pmt_approval_request_id permit =/? apr_id approval)
           || (pmt_command_id permit =/? Some (cmd_id command))) 409
    "Execution permit does not belong to the preparation";;
  let mismatch := "MCP guarded action payload hash mismatch" in
  fail_if (pmt_payload_hash permit =/? apr_payload_hash approval) 409 mismatch;;
  command_hash ← lift (_command_hash command);
  fail_if (apr_payload_hash approval =/? command_hash) 409 mismatch;;
  mret (approval, command, permit).

(** The prepared arguments, if they are intact. *)
Definition prepared_arguments (owner_subject : string) (preparation : McpActionPreparation)
    : M pydict :=
  let unavailable := "Prepared MCP arguments are unavailable" in
  secret ← get_row (prp_arguments_secret_id preparation);
  secret ← require secret 409 unavailable;
  fail_if (sb_owner_subject secret =/? owner_subject) 409 unavailable;;
  loaded ← require (text ← decrypt_text (sb_ciphertext secret); json_loads (chars text)) 409
    "Prepared MCP arguments cannot be decrypted";
  let damaged := "Prepared MCP arguments failed integrity validation" in
  match loaded with
  | PDict arguments =>
      digest ← lift (sha256_json (PDict arguments));
      fail_if (digest =/? prp_arguments_sha256 preparation) 409 damaged;;
      mret arguments
  | _ => fail 409 damaged
  end.

Definition accepted_command (subject : string) (now : Z) (command : AgentCommand)
    : AgentCommand :=
  command <| cmd_status := "accepted" |> <| cmd_approved_by_subject := Some subject |>
          <| cmd_accepted_at := Some now |> <| cmd_updated_at := now |>.

(** The receipt of an action already executed, or the execution that is now due. *)
Definition begin_action (user : User) (payload : execute_input)
    : M (ActionReceipt * McpActionPreparation + execution) :=
  let subject := usr_subject user in
  preparation ← _load_preparation subject (xi_preparation_id payload);
  fail_if (prp_actor_subject preparation =/? subject) 403
    "MCP action preparation belongs to another actor";;
  fail_if (prp_schema_hash preparation =/? xi_expected_schema_hash payload) 409
    "MCP action schema hash changed after preparation";;
  receipt ← _existing_receipt (xi_permit_id payload);
  match receipt with Some receipt => mret (inl (receipt, preparation)) | None =>
  now ← utcnow;
  (if prp_expires_at preparation <=? now then
     updated_at ← utcnow;
     put (preparation <| prp_status := "expired" |> <| prp_updated_at := updated_at |>);;
     commit;;
     fail 409 "MCP action preparation expired"
   else mret tt);;
  item ← _resolve_authorized user
    (_tool_ref (prp_server_id preparation) (prp_tool_id preparation)
       (prp_revision_id preparation))
    (prp_schema_hash preparation) true;
  fail_if ((xps_id (au_exposure item) =/? prp_exposure_id preparation)
           || negb (xps_version (au_exposure item) =? prp_exposure_version preparation)
           || (fpl_id (au_policy item) =/? prp_federation_policy_id preparation)
           || negb (fpl_generation (au_policy item)
                    =? prp_federation_policy_generation preparation)) 409
    "MCP exposure or federation policy changed after preparation";;
  autonomy_policy ← get_row (R:=AutonomyPolicy) (prp_autonomy_policy_id preparation);
  let stale := "MCP autonomy policy changed after preparation" in
  autonomy_policy ← require autonomy_policy 409 stale;
  fail_if (negb (pol_generation autonomy_policy =? prp_autonomy_policy_generation preparation))
    409 stale;;
  evidence ← guarded_evidence preparation (xi_permit_id payload);
  let '(approval, command, permit) := evidence in
  (if cmd_status command ∈? ["pending"; "delivered"; "acknowledged"] then
     accepted_at ← utcnow;
     put (accepted_command subject accepted_at command);;
     commit
   else mret tt);;
  claimed ← claim_permit subject (pmt_id permit) (prp_executor_agent_id preparation);
  arguments ← prepared_arguments subject preparation;
  updated_at ← utcnow;
  let preparation := preparation <| prp_status := "executing" |>
                                 <| prp_updated_at := updated_at |> in
  put preparation;;
  commit;;
  started_at ← utcnow;
  mret (inr (mkExecution preparation claimed approval arguments started_at))
  end.

Definition action_request (user : User) (gateway_tool_call_id : option string)
    (e : execution) : call_request := {|
  rq_owner_subject := usr_subject user;
  rq_actor_subject := usr_subject user;
  rq_revision_id := prp_revision_id (ec_preparation e);
  rq_arguments := ec_arguments e;
  rq_idempotency_key := Some ("mcp-action:" +:+ prp_id (ec_preparation e));
  rq_gateway_tool_call_id := gateway_tool_call_id;
  rq_correlation_id := Some (prp_id (ec_preparation e));
  rq_preparation_id := Some (prp_id (ec_preparation e));
  rq_approval_request_id := Some (apr_id (ec_approval e));
  rq_execution_permit_id := Some (pmt_id (ec_claimed e));
|}.

Definition receipt_status (answer : reply) : string :=
  match answer with
  | inr error => if ue_unknown_outcome error then "unknown" else "failed"
  | inl result => if cr_is_error result then "failed" else "succeeded"
  end.

(** What the receipt records of the call. *)
Definition receipt_data (e : execution) (answer : reply) (completed_at : Z) : pydict :=
  let preparation := ec_preparation e in
  let of_result {A} (f : UpstreamCallResult → A) (otherwise : A) :=
    match answer with inl result => f result | inr _ => otherwise end in
  let of_error f := match answer with inr error => PStr (f error) | inl _ => PNone end in
  [("permit_id", PStr (pmt_id (ec_claimed e)));
   ("executor_agent_id", PStr (prp_executor_agent_id preparation));
   ("fencing_token", PInt (pmt_fencing_token (ec_claimed e)));
   ("status", PStr (receipt_status answer));
   ("result_summary", PDict [
     ("preparation_id", PStr (prp_id preparation));
     ("revision_id", PStr (prp_revision_id preparation));
     ("schema_hash", PStr (prp_schema_hash preparation));
     ("invocation_id", of_result (λ r, opt_str (cr_invocation_id r)) PNone);
     ("serialized_bytes", of_result (λ r, PInt (cr_serialized_bytes r)) PNone);
     ("truncated", of_result (λ r, PBool (cr_truncated r)) (PBool false));
     ("normalized_error_code", of_error ue_code)]);
   ("error", of_error ue_message);
   ("external_references", PList (of_result (λ r,
     if opt_truthy (cr_invocation_id r)
     then [PDict [("type", PStr "mcp_invocation"); ("id", opt_str (cr_invocation_id r))]]
     else []) []));
   ("idempotency_key", PStr ("mcp-action-receipt:" +:+ prp_id preparation));
   ("started_at", PTime (ec_started_at e));
   ("completed_at", PTime completed_at)].

Definition executed_response (preparation : McpActionPreparation) (receipt : ActionReceipt)
    (answer : option reply) : pydict :=
  [("preparation", PDict (_preparation_payload preparation));
   ("receipt_id", PStr (rcpt_id receipt));
   ("receipt_status", PStr (rcpt_status receipt))]
  ++ match answer with
     | Some (inl result) => [
         ("invocation_id", opt_str (cr_invocation_id result));
         ("result", PDict (cr_payload result));
         ("truncated", PBool (cr_truncated result));
         ("serialized_bytes", PInt (cr_serialized_bytes result));
         ("upstream_is_error", PBool (cr_is_error result));
         ("replayed", PBool (cr_replayed result))]
     | _ => [("replayed", PBool true)]
     end.

(** The receipt of the call, and the answer to the caller. *)
Definition finish_action (user : User) (e : execution) (answer : reply) : M pydict :=
  let subject := usr_subject user in
  completed_at ← utcnow;
  receipt ← record_receipt subject (receipt_data e answer completed_at);
  let status := receipt_status answer in
  preparation ← current_state (ec_preparation e);
  let preparation := preparation
    <| prp_status := if status ==? "succeeded" then "succeeded" else "failed" |>
    <| prp_executed_at := Some completed_at |> <| prp_updated_at := completed_at |> in
  put preparation;;
  emit "gateway.mcp.action.executed.v1" subject status "mcp_action_preparation"
    (prp_id preparation) (if status ==? "succeeded" then "success" else "warning")
    [("preparation_id", PStr (prp_id preparation));
     ("server_id", PStr (prp_server_id preparation));
     ("tool_id", PStr (prp_tool_id preparation));
     ("revision_id", PStr (prp_revision_id preparation));
     ("schema_hash", PStr (prp_schema_hash preparation));
     ("arguments_sha256", PStr (prp_arguments_sha256 preparation));
     ("approval_request_id", PStr (prp_approval_request_id preparation));
     ("execution_permit_id", PStr (pmt_id (ec_claimed e)));
     ("action_receipt_id", PStr (rcpt_id receipt));
     ("status", PStr status);
     ("invocation_id", match answer with
                       | inl result => opt_str (cr_invocation_id result)
                       | inr _ => PNone
                       end)];;
  commit;;
  match answer with
  | inr error => raise_upstream error
  | inl result => mret (executed_response preparation receipt (Some (inl result)))
  end.

Definition execute_action (user : User) (payload : execute_input)
    (gateway_tool_call_id : option string) (upstream : call_request → M reply) : M pydict :=
  begun ← begin_action user payload;
  match begun with
  | inl (receipt, preparation) => mret (executed_response preparation receipt None)
  | inr e =>
      answer ← upstream (action_request user gateway_tool_call_id e);
      finish_action user e answer
  end.

(** ** Up to the call of the upstream server

    [execute_action] and [call_read] run without interruption until the invocation they
    start is committed and the call is sent. *)
Definition begin_call (user : User) (payload : execute_input)
    (gateway_tool_call_id : option string) (trace : call_trace) : M (option started) :=
  begun ← begin_action user payload;
  match begun with
  | inl _ => mret None
  | inr e =>
      start ← start_invocation (action_request user gateway_tool_call_id e) trace;
      mret (Some start)
  end.

Definition start_read (user : User) (payload : read_input)
    (gateway_tool_call_id : option string) (trace : call_trace) : M started :=
  request ← authorize_read user payload gateway_tool_call_id;
  start_invocation request trace.

(** What follows an answer, for a row that exists. *)
Definition while_recorded {R} `{!Table R} (r : R) (m : M unit) : M unit :=
  row ← get_row (R:=R) (row_id r);
  match row with Some _ => m | None => mret tt end.
End broker.
