(* ===== verification/Outbox.v ===== *)
(** * Outbox delivery ([outbox.py])

    Publishers on several replicas claim batches of due events, publish them and
    settle each one under the lock token of its claim.  Every method of
    [OutboxService] that opens a session is one operation; [run_once], which opens
    several, is in the file on publishing. *)

From S2P Require Import Prelude PyStr PyVal PyFloat Errors Models Database Session.

Definition OUTBOX_STATUSES : list string :=
  ["pending"; "retry"; "processing"; "published"; "dead_letter"; "cancelled"].

(** The fields of the service, and what it asks the operating system for. *)
Record OutboxService := mkOutboxService {
  replica_id : string;
  hostname : string;
  process_id : Z;
}.

Record BrokerPublishAck := mkAck {
  ack_stream : option string;
  ack_sequence : option Z;
  ack_duplicate : bool;
}.

(** [str(error)] and [error.__class__.__name__]. *)
Record error_info := mkError { error_str : string; error_class : string }.

(** [str(error)[:10000] or error.__class__.__name__] *)
Definition error_text (error : error_info) : string :=
  let text := truncate 10000 (error_str error) in
  if text ==? "" then error_class error else text.

Section handlers.
Context `{!Env}.

(** ** Replicas *)
Definition replica_expiry (now : Z) : Z := now + seconds (gateway_replica_ttl_seconds settings).

Definition register_replica (self : OutboxService) : M GatewayReplica :=
  now ← utcnow;
  found ← get_row (replica_id self);
  let replica := match found with
    | None => {|
        gr_id := replica_id self;
        gr_hostname := hostname self;
        gr_process_id := process_id self;
        gr_status := "online";
        gr_meta := [("broker_backend", PStr (gateway_broker_backend settings))];
        gr_started_at := now;
        gr_last_heartbeat_at := now;
        gr_expires_at := replica_expiry now;
        gr_stopped_at := None;
      |}
    | Some replica =>
        replica <| gr_hostname := hostname self |>
                <| gr_process_id := process_id self |>
                <| gr_status := "online" |>
                <| gr_last_heartbeat_at := now |>
                <| gr_expires_at := replica_expiry now |>
                <| gr_stopped_at := None |>
    end in
  (if is_none found then add replica else put replica);;
  commit;;
  mret replica.

Definition stale_replica (now : Z) (replica : GatewayReplica) : bool :=
  (gr_status replica ==? "online") && (gr_expires_at replica <=? now).
Definition expired_replica (now : Z) (replica : GatewayReplica) : GatewayReplica :=
  replica <| gr_status := "expired" |> <| gr_stopped_at := Some now |>.
Definition stale_route (now : Z) (route : RealtimeRoute) : bool :=
  (rr_status route ==? "online") && (rr_expires_at route <=? now).
Definition expired_route (now : Z) (route : RealtimeRoute) : RealtimeRoute :=
  route <| rr_status := "expired" |> <| rr_disconnected_at := Some now |>.

Definition expire_stale_replicas_and_routes : M (Z * Z) :=
  now ← utcnow;
  replicas ← query (stale_replica now);
  foreach (λ replica, put (expired_replica now replica)) replicas;;
  routes ← query (stale_route now);
  foreach (λ route, put (expired_route now route)) routes;;
  (if nonempty replicas || nonempty routes then commit else mret tt);;
  mret (Z.of_nat (length replicas), Z.of_nat (length routes)).

Definition heartbeat_replica (self : OutboxService) : M GatewayReplica :=
  now ← utcnow;
  found ← get_row (replica_id self);
  match found with
  | None => register_replica self
  | Some replica =>
      let replica := replica <| gr_status := "online" |>
                             <| gr_last_heartbeat_at := now |>
                             <| gr_expires_at := replica_expiry now |> in
      put replica;;
      commit;;
      expire_stale_replicas_and_routes;;
      mret replica
  end.

Definition stop_replica (self : OutboxService) : M unit :=
  now ← utcnow;
  found ← get_row (replica_id self);
  (match found with
   | Some replica => put (replica <| gr_status := "offline" |>
                                  <| gr_stopped_at := Some now |>
                                  <| gr_expires_at := now |>)
   | None => mret tt
   end);;
  routes ← query (λ route, (rr_replica_id route ==? replica_id self)
                           && (rr_status route ==? "online"));
  foreach (λ route, put (route <| rr_status := "offline" |>
                               <| rr_disconnected_at := Some now |>
                               <| rr_expires_at := now |>)) routes;;
  commit.

(** ** Claims *)
Definition unlocked (event : OutboxEvent) : OutboxEvent :=
  event <| ob_locked_by := None |> <| ob_lock_token := None |> <| ob_locked_at := None |>.

Definition stale_claim (cutoff : Z) (event : OutboxEvent) : bool :=
  (ob_status event ==? "processing")
  && match ob_locked_at event with Some at_ => at_ <=? cutoff | None => false end.

Definition released_event (now : Z) (event : OutboxEvent) : OutboxEvent :=
  unlocked (event <| ob_status := "retry" |> <| ob_available_at := now |>)
    <| ob_last_error := Some "stale publisher claim released" |>
    <| ob_updated_at := now |>.

Definition release_stale_claims : M Z :=
  started ← utcnow;
  let cutoff := started - seconds (Z.max 1 (gateway_outbox_lock_ttl_seconds settings)) in
  rows ← query (stale_claim cutoff);
  now ← utcnow;
  foreach (λ row, put (released_event now row)) rows;;
  (if nonempty rows then commit else mret tt);;
  mret (Z.of_nat (length rows)).

Definition due_event (now : Z) (event : OutboxEvent) : bool :=
  (ob_status event ∈? ["pending"; "retry"]) && (ob_available_at event <=? now).

(** [order_by(available_at, created_at, id)] *)
Definition delivery_order (a b : OutboxEvent) : bool :=
  lex_leb [ob_available_at a ?= ob_available_at b; ob_created_at a ?= ob_created_at b;
           String.compare (ob_id a) (ob_id b)].

Definition claimed_event (self : OutboxService) (now : Z) (token : string)
    (event : OutboxEvent) : OutboxEvent :=
  event <| ob_status := "processing" |>
        <| ob_locked_by := Some (replica_id self) |>
        <| ob_lock_token := Some token |>
        <| ob_locked_at := Some now |>
        <| ob_updated_at := now |>.

Definition claim_event (self : OutboxService) (now : Z) (event : OutboxEvent)
    : M OutboxEvent :=
  token ← uuid4;
  let event := claimed_event self now token event in
  put event;;
  mret event.

(** [max(1, min(int(limit or batch_size), 1000))] *)
Definition batch_limit (limit : option Z) : Z :=
  let n := match limit with
           | Some n => if n =? 0 then gateway_outbox_batch_size settings else n
           | None => gateway_outbox_batch_size settings
           end in
  Z.max 1 (Z.min n 1000).

Definition claim_batch (self : OutboxService) (limit : option Z) : M (list OutboxEvent) :=
  release_stale_claims;;
  now ← utcnow;
  due ← query (due_event now);
  let rows := take (Z.to_nat (batch_limit limit)) (sort_by delivery_order due) in
  claimed ← traverse (claim_event self now) rows;
  (if nonempty rows then commit else mret tt);;
  mret claimed.

(** ** Settling a claim *)

(** The guard of both settlements. *)
Definition holds_claim (self : OutboxService) (lock_token : string) (event : OutboxEvent)
    : bool :=
  (ob_status event ==? "processing") && (ob_locked_by event ==? Some (replica_id self))
  && (ob_lock_token event ==? Some lock_token).

Definition published_event (now : Z) (ack : BrokerPublishAck) (event : OutboxEvent)
    : OutboxEvent :=
  unlocked (event <| ob_attempt_count ::= Z.succ |>
                  <| ob_status := "published" |>
                  <| ob_published_at := Some now |>
                  <| ob_broker_stream := ack_stream ack |>
                  <| ob_broker_sequence := ack_sequence ack |>
                  <| ob_last_error := None |>)
    <| ob_updated_at := now |>.

Definition delivery_attempt (self : OutboxService) (id : string) (now : Z)
    (before after : OutboxEvent) (status : string) (error stream : option string)
    (sequence : option Z) : OutboxDeliveryAttempt := {|
  oda_id := id;
  oda_outbox_event_id := ob_id after;
  oda_attempt_number := ob_attempt_count after;
  oda_replica_id := replica_id self;
  oda_status := status;
  oda_error := error;
  oda_broker_stream := stream;
  oda_broker_sequence := sequence;
  oda_started_at := default now (ob_locked_at before);
  oda_completed_at := Some now;
|}.

Definition _record_success (self : OutboxService) (event_id lock_token : string)
    (ack : BrokerPublishAck) : M bool :=
  found ← find_row event_id (holds_claim self lock_token);
  match found with
  | None => mret false
  | Some event =>
      now ← utcnow;
      let event' := published_event now ack event in
      put event';;
      attempt_id ← uuid4;
      add (delivery_attempt self attempt_id now event event'
             (if ack_duplicate ack then "duplicate" else "published") None
             (ack_stream ack) (ack_sequence ack));;
      commit;;
      mret true
  end.

(** [min(max_seconds, base_seconds * 2 ** max(0, n - 1))], at least 0.01 s, in
    microseconds.  Converting a power of two from [2 ** 1024] on to a float
    overflows. *)
Definition retry_delay (attempt_count : Z) : result Z :=
  match float_of_int (2 ^ Z.max 0 (attempt_count - 1)) with
  | None => Raise OverflowError
  | Some factor =>
      let delay := py_min (gateway_outbox_retry_max_seconds settings)
                          (float_mul (gateway_outbox_retry_base_seconds settings) factor) in
      match timedelta_seconds (py_max one_hundredth delay) with
      | Some us => Ok us
      | None => Raise OverflowError
      end
  end.

(** [event.attempt_count >= max(1, int(event.max_attempts or 1))], after the count. *)
Definition exhausted_event (event : OutboxEvent) : bool :=
  Z.max 1 (ob_max_attempts event) <=? ob_attempt_count event + 1.

Definition dead_event (now : Z) (text : string) (event : OutboxEvent) : OutboxEvent :=
  unlocked (event <| ob_attempt_count ::= Z.succ |>
                  <| ob_status := "dead_letter" |>
                  <| ob_last_error := Some text |>)
    <| ob_updated_at := now |>.

Definition retried_event (now delay : Z) (text : string) (event : OutboxEvent) : OutboxEvent :=
  unlocked (event <| ob_attempt_count ::= Z.succ |>
                  <| ob_status := "retry" |>
                  <| ob_available_at := now + delay |>
                  <| ob_last_error := Some text |>)
    <| ob_updated_at := now |>.

Definition system_subject (self : OutboxService) : string := "system:" +:+ replica_id self.

Definition _record_failure (self : OutboxService) (event_id lock_token : string)
    (error : error_info) : M string :=
  found ← find_row event_id (holds_claim self lock_token);
  match found with
  | None => mret "stale"
  | Some event =>
      now ← utcnow;
      let text := error_text error in
      let terminal := exhausted_event event in
      event' ← lift (if terminal then Ok (dead_event now text event)
                     else delay ← retry_delay (ob_attempt_count event + 1);
                          Ok (retried_event now delay text event));
      put event';;
      attempt_id ← uuid4;
      add (delivery_attempt self attempt_id now event event' (ob_status event')
             (Some text) None None);;
      (if terminal then
         emit_event "gateway.outbox.dead_lettered.v1" (system_subject self) "dead_lettered"
           "outbox_event" (Some (ob_id event')) [
             ("outbox_event_id", PStr (ob_id event'));
             ("audit_event_id", PStr (ob_audit_event_id event'));
             ("event_type", PStr (ob_event_type event'));
             ("attempt_count", PInt (ob_attempt_count event'));
             ("last_error", PStr text)]
           None "warning" false false;;
         mret tt
       else mret tt);;
      commit;;
      mret (ob_status event')
  end.

(** ** Operators *)

(** The id under which the broker recognises a replay. *)
Definition replay_id (event : OutboxEvent) : string :=
  ob_audit_event_id event +:+ ":replay:" +:+ pretty (ob_replay_count event).

Definition replayed_event (now : Z) (event : OutboxEvent) : OutboxEvent :=
  let event := event <| ob_status := "pending" |>
    <| ob_available_at := now |>
    <| ob_max_attempts := Z.max (ob_max_attempts event)
         (ob_attempt_count event + Z.max 1 (gateway_outbox_max_attempts settings)) |>
    <| ob_replay_count ::= Z.succ |> in
  let headers := dict_set "X-Gateway-Replay-Count" (PStr (pretty (ob_replay_count event)))
    (dict_set "Nats-Msg-Id" (PStr (replay_id event)) (ob_headers event)) in
  unlocked (event <| ob_headers := headers |>
                  <| ob_published_at := None |>
                  <| ob_broker_stream := None |>
                  <| ob_broker_sequence := None |>
                  <| ob_last_error := None |>)
    <| ob_updated_at := now |>.

(** [actor_subject or f"system:{replica_id}"] *)
Definition actor_or_system (self : OutboxService) (actor_subject : option string) : string :=
  or_else actor_subject (system_subject self).

Definition event_or_lookup_error (event_id : string) : M OutboxEvent :=
  found ← get_row event_id;
  match found with
  | Some event => mret event
  | None => throw (LookupError "Outbox event not found")
  end.

Definition replay (self : OutboxService) (event_id : string)
    (actor_subject reason : option string) : M OutboxEvent :=
  event ← event_or_lookup_error event_id;
  (if ob_status event ∈? ["dead_letter"; "cancelled"; "published"] then mret tt
   else throw (ValueError "Only terminal outbox events can be replayed"));;
  now ← utcnow;
  let event := replayed_event now event in
  put event;;
  emit_event "gateway.outbox.replayed.v1" (actor_or_system self actor_subject) "replayed"
    "outbox_event" (Some (ob_id event)) [
      ("outbox_event_id", PStr (ob_id event));
      ("audit_event_id", PStr (ob_audit_event_id event));
      ("event_type", PStr (ob_event_type event));
      ("replay_count", PInt (ob_replay_count event));
      ("delivery_id", dict_get (ob_headers event) "Nats-Msg-Id");
      ("reason", py_or (PStr (truncate 1000 (default "" reason))) PNone)]
    None "success" false false;;
  commit;;
  mret event.

Definition cancelled_event (now : Z) (event : OutboxEvent) : OutboxEvent :=
  unlocked (event <| ob_status := "cancelled" |>) <| ob_updated_at := now |>.

Definition cancel (self : OutboxService) (event_id : string) (actor_subject : option string)
    : M OutboxEvent :=
  event ← event_or_lookup_error event_id;
  (if ob_status event ==? "published"
   then throw (ValueError "Published outbox events cannot be cancelled")
   else mret tt);;
  now ← utcnow;
  let event := cancelled_event now event in
  put event;;
  emit_event "gateway.outbox.cancelled.v1" (actor_or_system self actor_subject) "cancelled"
    "outbox_event" (Some (ob_id event)) [
      ("outbox_event_id", PStr (ob_id event));
      ("audit_event_id", PStr (ob_audit_event_id event));
      ("event_type", PStr (ob_event_type event))]
    None "warning" false false;;
  commit;;
  mret event.

(** ** Consumers *)

(** [payload] is the bytes of the message. *)
Definition mark_processed (message_id subject payload : string) (stream consumer : option string)
    : M bool :=
  found ← get_row (R:=ProcessedBrokerMessage) message_id;
  match found with
  | Some _ => mret false
  | None =>
      processed_at ← utcnow;
      add {|
        pbm_message_id := message_id;
        pbm_stream := stream;
        pbm_consumer := consumer;
        pbm_subject := subject;
        pbm_payload_sha256 := sha256_hexdigest payload;
        pbm_processed_at := processed_at;
      |};;
      try_integrity (commit;; mret true) (rollback;; mret false)
  end.

(** ** Metrics, on a database without a planner estimate *)
Definition _status_counts_for_metrics : M (list (string * Z)) :=
  traverse (λ status,
    rows ← query (λ event : OutboxEvent, ob_status event ==? status);
    mret (status, Z.of_nat (length rows))) OUTBOX_STATUSES.

Definition status_count (counts : list (string * Z)) (status : string) : Z :=
  default 0 (snd <$> head (filter (λ p, p.1 = status) counts)).

(** [pending_total], [dead_letter_total], [online_replicas], [online_realtime_routes]. *)
Definition outbox_totals : M (list Z) :=
  now ← utcnow;
  counts ← _status_counts_for_metrics;
  replicas ← query (λ r : GatewayReplica, (gr_status r ==? "online") && (now <? gr_expires_at r));
  routes ← query (λ r : RealtimeRoute, (rr_status r ==? "online") && (now <? rr_expires_at r));
  mret [status_count counts "pending" + status_count counts "retry"
          + status_count counts "processing";
        status_count counts "dead_letter";
        Z.of_nat (length replicas); Z.of_nat (length routes)].
End handlers.
