(* ===== verification/Broker.v ===== *)
(** * Event brokers ([broker.py])

    The interface the outbox publishes through, and its two implementations that
    need no server.  The NATS client is a library: its broker is any other instance
    of the interface. *)

From S2P Require Import Prelude PyStr PyVal Errors Outbox.
From Stdlib Require Import Ascii.

(** One call of [publish]. *)
Record message := mkMessage {
  m_subject : string;
  m_payload : string;
  m_message_id : string;
  m_headers : list (string * string);
}.

(** [EventBroker]: what publishing answers, or the error it raises. *)
Class EventBroker (B : Type) : Type := {
  healthy : B → bool;
  publish : B → message → (error_info + BrokerPublishAck) * B;
}.

(** ** [DisabledBroker] *)
Inductive DisabledBroker : Type := disabled.

#[export] Instance disabled_broker : EventBroker DisabledBroker := {|
  healthy _ := true;
  publish b _ := (inl (mkError "Event broker is disabled" "RuntimeError"), b);
|}.

(** ** [InMemoryBroker] *)

(** A subscriber's callback: the error it raises, if any. *)
Definition BrokerCallback : Type := message → option error_info.

Record InMemoryBroker := mkInMemoryBroker {
  stream : string;
  connected : bool;
  published : list message;
  _seen : gset string;
  _subscriptions : list (string * BrokerCallback);
}.
#[export] Instance eta_InMemoryBroker : Settable InMemoryBroker := λ r, mkInMemoryBroker
  (stream r) (connected r) (published r) (_seen r) (_subscriptions r).

Definition new_broker (name : string) : InMemoryBroker :=
  mkInMemoryBroker name false [] ∅ [].

Definition connect (b : InMemoryBroker) : InMemoryBroker := b <| connected := true |>.
Definition close (b : InMemoryBroker) : InMemoryBroker :=
  b <| connected := false |> <| _subscriptions := [] |>.
Definition subscribe (subject : string) (callback : BrokerCallback) (b : InMemoryBroker)
    : InMemoryBroker := b <| _subscriptions ::= λ l, l ++ [(subject, callback)] |>.

(** [value.split(".")] *)
Definition tokens (s : string) : list string :=
  map of_chars (split_on (chr 46) (chars s)).

(** The loop over the pattern's parts, with the subject's parts from the same index. *)
Fixpoint match_parts (pattern subject : list string) : bool :=
  match pattern with
  | [] => bool_decide (subject = [])
  | item :: pattern =>
      if item ==? ">" then true
      else match subject with
           | [] => false
           | part :: subject =>
               if item ∈? ["*"; part] then match_parts pattern subject else false
           end
  end.

Definition _matches (pattern subject : string) : bool :=
  match_parts (tokens pattern) (tokens subject).

(** The first error of the callbacks, which [asyncio.gather] raises. *)
Definition first_error (errors : list (option error_info)) : option error_info :=
  head (omap id errors).

Definition publish_in_memory (b : InMemoryBroker) (m : message)
    : (error_info + BrokerPublishAck) * InMemoryBroker :=
  if negb (connected b)
  then (inl (mkError "In-memory broker is not connected" "RuntimeError"), b)
  else
    let duplicate := bool_decide (m_message_id m ∈ _seen b) in
    let b := if duplicate then b
             else b <| _seen ::= λ s, {[m_message_id m]} ∪ s |>
                    <| published ::= λ l, l ++ [m] |> in
    let callbacks := filter (λ sub, _matches sub.1 (m_subject m) = true) (_subscriptions b) in
    match first_error (map (λ sub, sub.2 m) callbacks) with
    | Some error => (inl error, b)
    | None => (inr (mkAck (Some (stream b)) (Some (Z.of_nat (length (published b)))) duplicate), b)
    end.

#[export] Instance in_memory_broker : EventBroker InMemoryBroker := {|
  healthy := connected;
  publish := publish_in_memory;
|}.

(** ** Subject matching *)

(** A token of the pattern stands for itself, [*] for one token, [>] for the rest. *)
Inductive subject_matches : list string → list string → Prop :=
  | matches_end : subject_matches [] []
  | matches_rest pattern subject : subject_matches (">" :: pattern) subject
  | matches_any pattern part subject :
      subject_matches pattern subject → subject_matches ("*" :: pattern) (part :: subject)
  | matches_token part pattern subject :
      subject_matches pattern subject → subject_matches (part :: pattern) (part :: subject).

(** The loop with its early returns decides the subject-matching relation. *)
Theorem matches_spec pattern subject :
  _matches pattern subject = true ↔ subject_matches (tokens pattern) (tokens subject).
Proof.
  unfold _matches. generalize (tokens pattern) (tokens subject). clear pattern subject.
  induction l as [|item pattern IH]; intros subject; simpl.
  - rewrite bool_decide_eq_true. split; [intros ->; constructor|by inversion 1].
  - case_bool_decide as Hi; [subst; split; [intros _; constructor|done]|].
    destruct subject as [|part subject]; [split; [done|inversion 1; congruence]|].
    case_bool_decide as Hp.
    + rewrite IH. split.
      * intros H. rewrite !elem_of_cons, elem_of_nil in Hp.
        destruct_or?; subst; by constructor.
      * by inversion 1.
    + split; [done|]. inversion 1; subst; destruct Hp; [done|by left|by right; left].
Qed.

(** ** Deduplication *)

(** Every message is published once, under the ids that have been seen. *)
Definition deduplicated (b : InMemoryBroker) : Prop :=
  NoDup (map m_message_id (published b))
  ∧ ∀ i, i ∈ map m_message_id (published b) ↔ i ∈ _seen b.

Lemma new_broker_deduplicated name : deduplicated (new_broker name).
Proof. split; [constructor|]. intros i. simpl. set_solver. Qed.

Lemma publish_deduplicated b m : deduplicated b → deduplicated (publish_in_memory b m).2.
Proof.
  intros [HN Hs]. unfold publish_in_memory. destruct (connected b); [|done]. simpl.
  set (b' := if bool_decide (m_message_id m ∈ _seen b) then b else _).
  assert (deduplicated b') as Hb'; [|by case_match].
  subst b'. case_bool_decide as Hm; [done|]. unfold deduplicated. set_simpl.
  rewrite map_app. simpl. split.
  - apply NoDup_app. split_and!; [done| |apply NoDup_singleton].
    intros i Hi. rewrite Hs in Hi. rewrite elem_of_cons, elem_of_nil. intros [->|[]]. done.
  - intros i. rewrite elem_of_app, Hs, elem_of_cons, elem_of_nil, elem_of_union,
      elem_of_singleton. tauto.
Qed.

(** What a client of the broker may do. *)
Inductive broker_call : Type :=
  | Connect
  | Close
  | Subscribe (subject : string) (callback : BrokerCallback)
  | Publish (m : message).

Definition broker_step (b : InMemoryBroker) (c : broker_call) : InMemoryBroker :=
  match c with
  | Connect => connect b
  | Close => close b
  | Subscribe subject callback => subscribe subject callback b
  | Publish m => (publish_in_memory b m).2
  end.

Lemma calls_deduplicated calls b :
  deduplicated b → deduplicated (foldl broker_step b calls).
Proof.
  revert b. induction calls as [|c calls IH]; intros b Hb; [done|]. apply IH.
  destruct c; try done. by apply publish_deduplicated.
Qed.

(** Whatever clients do, the in-memory broker keeps one message per id: an
    acknowledged message is kept, it is reported as a duplicate exactly when its id
    was published before, and then nothing is added. *)
Theorem memory_broker_deduplicates name calls m ack b' :
  let b := foldl broker_step (new_broker name) calls in
  publish b m = (inr ack, b') →
  NoDup (map m_message_id (published b'))
  ∧ m_message_id m ∈ map m_message_id (published b')
  ∧ (ack_duplicate ack = true ↔ m_message_id m ∈ map m_message_id (published b))
  ∧ (ack_duplicate ack = true → published b' = published b).
Proof.
  intros b Hp. assert (deduplicated b) as Hb
    by apply calls_deduplicated, new_broker_deduplicated.
  pose proof (publish_deduplicated b m Hb) as Hb'. simpl in Hp. rewrite Hp in Hb'. simpl in Hb'.
  revert Hp. unfold publish_in_memory. destruct (connected b); [|done]. simpl.
  destruct (first_error _); [done|]. intros [= <- <-]. simpl. split_and!.
  - apply Hb'.
  - apply Hb'. case_bool_decide as Hm; [done|]. simpl. set_solver.
  - rewrite bool_decide_eq_true. symmetry. apply Hb.
  - intros Hm. by rewrite Hm.
Qed.

Lemma memory_broker_deduplicates_witness :
  let m := mkMessage "gateway.x" "{}" "id" [] in
  let b := foldl broker_step (new_broker "MEMORY") [Connect; Publish m] in
  NoDup (map m_message_id (published (publish b m).2))
  ∧ published (publish b m).2 = published b.
Proof.
  intros m b.
  destruct (memory_broker_deduplicates "MEMORY" [Connect; Publish m] m
    (mkAck (Some "MEMORY") (Some 1) true) b eq_refl) as (HN & _ & _ & Hsame).
  split; [exact HN|]. exact (Hsame eq_refl).
Defined.
