(* ===== verification/Realtime.v ===== *)
(** * Realtime routes and notifications ([realtime.py])

    A replica keeps its WebSocket connections in a local hub and registers a route
    for each in the database.  A broker event becomes one notification per addressed
    agent that has a route on the replica, unless the event was processed before. *)

From S2P Require Import Prelude PyStr PyVal Errors Validate Models Database Session.

(** ** The local hub *)
Definition target : Type := string * string * string.

(** A connection stands for its WebSocket. *)
Record LocalRealtimeHub := mkHub {
  _connections : gset string;
  _targets : gmap target (gset string);
}.
#[export] Instance eta_LocalRealtimeHub : Settable LocalRealtimeHub := λ r, mkHub
  (_connections r) (_targets r).

Definition new_hub : LocalRealtimeHub := mkHub ∅ ∅.

Definition register (key : target) (connection_id : string) (hub : LocalRealtimeHub)
    : LocalRealtimeHub :=
  hub <| _connections ::= λ c, {[connection_id]} ∪ c |>
      <| _targets ::= λ t, <[key := {[connection_id]} ∪ default ∅ (t !! key)]> t |>.

(** [discard], and [None] for a set left empty. *)
Definition without (connection_id : string) (ids : gset string) : option (gset string) :=
  let ids := ids ∖ {[connection_id]} in
  if bool_decide (ids = ∅) then None else Some ids.

Definition unregister (connection_id : string) (hub : LocalRealtimeHub) : LocalRealtimeHub :=
  hub <| _connections ::= λ c, c ∖ {[connection_id]} |>
      <| _targets ::= omap (without connection_id) |>.

(** The connections that a payload for the target is sent to. *)
Definition connections_of (key : target) (hub : LocalRealtimeHub) : list string :=
  filter (λ c, c ∈ _connections hub) (elements (default ∅ (_targets hub !! key))).

(** [works c]: [send_json] on the socket of [c] does not raise. *)
Definition send_one (works : string → bool) (acc : Z * LocalRealtimeHub) (c : string)
    : Z * LocalRealtimeHub :=
  let '(delivered, hub) := acc in
  if works c then (delivered + 1, hub) else (delivered, unregister c hub).

Definition send (works : string → bool) (key : target) (hub : LocalRealtimeHub)
    : Z * LocalRealtimeHub :=
  foldl (send_one works) (0, hub) (connections_of key hub).

Section handlers.
Context `{!Env}.

(** ** Routes *)
Definition route_expiry (now : Z) : Z :=
  now + seconds (gateway_realtime_route_ttl_seconds settings).

Definition register_route (replica_id owner_subject target_kind target_id connection_id : string)
    (meta : pydict) : M RealtimeRoute :=
  now ← utcnow;
  found ← query_one (λ route,
    (rr_owner_subject route ==? owner_subject) && (rr_target_kind route ==? target_kind)
    && (rr_target_id route ==? target_id) && (rr_connection_id route ==? connection_id));
  match found with
  | None =>
      id ← uuid4;
      let route := {|
        rr_id := id;
        rr_owner_subject := owner_subject;
        rr_target_kind := target_kind;
        rr_target_id := target_id;
        rr_connection_id := connection_id;
        rr_replica_id := replica_id;
        rr_status := "online";
        rr_meta := meta;
        rr_connected_at := now;
        rr_last_seen_at := now;
        rr_expires_at := route_expiry now;
        rr_disconnected_at := None;
      |} in
      add route;; commit;; mret route
  | Some route =>
      let route := route <| rr_replica_id := replica_id |>
        <| rr_status := "online" |>
        <| rr_meta := match meta with [] => rr_meta route | _ => meta end |>
        <| rr_last_seen_at := now |>
        <| rr_expires_at := route_expiry now |>
        <| rr_disconnected_at := None |> in
      put route;; commit;; mret route
  end.

Definition replica_route (replica_id connection_id : string) : M (option RealtimeRoute) :=
  query_one (λ route, (rr_connection_id route ==? connection_id)
                      && (rr_replica_id route ==? replica_id)).

Definition heartbeat_route (replica_id connection_id : string) : M (option RealtimeRoute) :=
  found ← replica_route replica_id connection_id;
  match found with
  | None => mret None
  | Some route =>
      now ← utcnow;
      let route := route <| rr_status := "online" |> <| rr_last_seen_at := now |>
                         <| rr_expires_at := route_expiry now |> in
      put route;; commit;; mret (Some route)
  end.

Definition unregister_route (replica_id connection_id : string) : M unit :=
  found ← replica_route replica_id connection_id;
  match found with
  | None => mret tt
  | Some route =>
      now ← utcnow;
      put (route <| rr_status := "offline" |> <| rr_expires_at := now |>
                 <| rr_disconnected_at := Some now |>);;
      commit
  end.

(** ** The agents an event is for *)
Definition online_route (owner_subject replica_id : string) (now : Z) (route : RealtimeRoute)
    : bool :=
  (rr_owner_subject route ==? owner_subject) && (rr_replica_id route ==? replica_id)
  && (rr_target_kind route ==? "agent") && (rr_status route ==? "online")
  && (now <? rr_expires_at route).

Definition agents_in_room (owner_subject room_id : string) : M (list string) :=
  agents ← query (λ agent, (ag_owner_subject agent ==? owner_subject)
                           && (ag_current_room_id agent ==? Some room_id));
  mret (map ag_id agents).

Definition presence_events : list string :=
  ["gateway.agent.registered.v1"; "gateway.agent.heartbeat.v1";
   "gateway.agent.unregistered.v1"; "gateway.agent.room_joined.v1"].

Definition direct_targets (owner_subject event_type : string) (payload : pydict)
    (replica_id : string) : M (list string) :=
  let room_id := dict_get payload "room_id" in
  if event_type ==? "gateway.agent.message.sent.v1" then
    values ← lift (or_type_error (list_or_empty (dict_get payload "recipient_agent_ids")));
    mret (map py_str values)
  else if event_type ==? "gateway.agent.command.issued.v1" then
    let target := dict_get payload "target_agent_id" in
    mret (if truthy target then [py_str target] else [])
  else if startswith event_type "gateway.resource_lease." then
    if truthy room_id then agents_in_room owner_subject (py_str room_id) else mret []
  else if startswith event_type "gateway.mcp." then
    now ← utcnow;
    routes ← query (online_route owner_subject replica_id now);
    mret (dedup (map rr_target_id routes))
  else if event_type ∈? presence_events then
    let source_agent_id := str_or_empty (dict_get payload "agent_id") in
    if truthy room_id then
      agents ← agents_in_room owner_subject (py_str room_id);
      mret (filter (λ agent, agent ≠ source_agent_id) agents)
    else mret []
  else mret [].

Definition _target_agent_ids (envelope : pydict) (replica_id : string) : M (list string) :=
  let owner_subject := str_or_empty (py_or (dict_get envelope "owner_subject")
                                           (dict_get envelope "actor_subject")) in
  if owner_subject ==? "" then mret [] else
  let event_type := str_or_empty (dict_get envelope "event_type") in
  payload ← lift (or_type_error (dict_or_empty (dict_get envelope "payload")));
  direct ← direct_targets owner_subject event_type payload replica_id;
  match direct with
  | [] => mret []
  | _ =>
      now ← utcnow;
      routes ← query (λ route, online_route owner_subject replica_id now route
                               && (rr_target_id route ∈? direct));
      mret (dedup (map rr_target_id routes))
  end.

(** ** Broker events *)
Definition header (headers : list (string * string)) (name : string) : pyval :=
  match list_find (λ h, h.1 = name) headers with
  | Some (_, h) => PStr h.2
  | None => PNone
  end.

Record broker_event := mkBrokerEvent {
  be_event_type : string;
  be_envelope : pydict;
  be_dedupe_id : string;
}.

(** The envelope of an event, from the message and its headers; [None] when the event
    names no type or no subject. *)
Definition event_envelope (replica_id : string) (wire_payload : pydict)
    (headers : list (string * string)) : result (option broker_event) :=
  let field name key := py_or (header headers name) (dict_get wire_payload key) in
  let event_type := str_or_empty (field "X-Gateway-Event-Type" "event_type") in
  let actor_subject := str_or_empty (field "X-Gateway-Actor-Subject" "actor_subject") in
  let owner_subject := py_str (py_or (field "X-Gateway-Owner-Subject" "owner_subject")
                                     (PStr actor_subject)) in
  if (event_type ==? "") || (actor_subject ==? "") || (owner_subject ==? "") then Ok None else
  event_payload ←
    (if dict_has wire_payload "payload" && dict_has wire_payload "event_type"
     then or_type_error (dict_or_empty (dict_get wire_payload "payload"))
     else Ok wire_payload);
  let message_id := str_or_empty (py_or (py_or (header headers "Nats-Msg-Id")
                                               (header headers "X-Gateway-Event-Id"))
                                        (dict_get wire_payload "event_id")) in
  Ok (Some {|
    be_event_type := event_type;
    be_envelope := [
      ("event_id", PStr (str_or_empty (dict_get wire_payload "event_id")));
      ("event_type", PStr event_type);
      ("actor_subject", PStr actor_subject);
      ("owner_subject", PStr owner_subject);
      ("action", PStr (str_or_empty (header headers "X-Gateway-Action")));
      ("resource_type", PStr (str_or_empty (header headers "X-Gateway-Resource-Type")));
      ("resource_id", py_or (PStr (str_or_empty (header headers "X-Gateway-Resource-Id")))
                            PNone);
      ("status", PStr (py_str (py_or (header headers "X-Gateway-Status") (PStr "success"))));
      ("payload", PDict event_payload);
      ("wire_payload", PDict wire_payload)];
    be_dedupe_id := if message_id ==? "" then "" else replica_id +:+ ":" +:+ message_id;
  |}).

Definition new_notification (replica_id event_type : string) (envelope : pydict) (now : Z)
    (target_id : string) : M RealtimeNotification :=
  id ← uuid4;
  let notification := {|
    rn_id := id;
    rn_owner_subject := str_or_empty (dict_get envelope "owner_subject");
    rn_target_kind := "agent";
    rn_target_id := target_id;
    rn_event_type := event_type;
    rn_payload := envelope;
    rn_status := "pending";
    rn_replica_id := Some replica_id;
    rn_outbox_event_id := None;
    rn_attempt_count := 0;
    rn_delivered_at := None;
    rn_acknowledged_at := None;
    rn_expires_at := Some (now + seconds (gateway_realtime_notification_ttl_seconds settings));
    rn_created_at := now;
    rn_updated_at := now;
  |} in
  add notification;;
  mret notification.

(** The message was processed by this replica, as far as the database knows. *)
Definition already_processed (dedupe_id : string) : M bool :=
  if dedupe_id ==? "" then mret false else
  found ← get_row (R:=ProcessedBrokerMessage) dedupe_id;
  mret (negb (is_none found)).

Definition _persist_broker_event (replica_id subject payload : string) (event : broker_event)
    : M (list RealtimeNotification) :=
  target_ids ← _target_agent_ids (be_envelope event) replica_id;
  match target_ids with
  | [] => mret []
  | _ =>
      processed ← already_processed (be_dedupe_id event);
      if processed : bool then mret [] else
      now ← utcnow;
      notifications ← traverse
        (new_notification replica_id (be_event_type event) (be_envelope event) now) target_ids;
      (if be_dedupe_id event ==? "" then mret tt
       else
         processed_at ← utcnow;
         add {|
           pbm_message_id := be_dedupe_id event;
           pbm_stream := Some (gateway_nats_stream settings);
           pbm_consumer := Some ("realtime-" +:+ replica_id);
           pbm_subject := subject;
           pbm_payload_sha256 := sha256_hexdigest payload;
           pbm_processed_at := processed_at;
         |});;
      commit;;
      mret notifications
  end.

Definition delivery_result (now : Z) (delivered : bool) (notification : RealtimeNotification)
    : RealtimeNotification :=
  let notification := notification <| rn_attempt_count ::= Z.succ |> in
  (if delivered then notification <| rn_status := "delivered" |>
                                  <| rn_delivered_at := Some now |>
   else notification) <| rn_updated_at := now |>.

(** One step of the loop: a result for a row that is gone is skipped. *)
Definition record_result (now : Z) (result : string * bool) : M unit :=
  found ← get_row result.1;
  match found with
  | None => mret tt
  | Some notification => put (delivery_result now result.2 notification)
  end.

Definition _record_delivery_results (delivery_results : list (string * bool)) : M unit :=
  notifications ← query (λ n : RealtimeNotification, rn_id n ∈? map fst delivery_results);
  now ← utcnow;
  foreach (record_result now) delivery_results;;
  if nonempty notifications then commit else mret tt.

(** ** Reading notifications *)
Definition list_notifications (owner_subject target_kind target_id : string)
    (status : option string) (limit : Z) : M (list RealtimeNotification) :=
  now ← utcnow;
  found ← query (λ n,
    (rn_owner_subject n ==? owner_subject) && (rn_target_kind n ==? target_kind)
    && (rn_target_id n ==? target_id)
    && match rn_expires_at n with Some at_ => now <? at_ | None => false end
    && (negb (opt_truthy status) || (Some (rn_status n) ==? status)));
  mret (take (Z.to_nat (Z.max 1 (Z.min limit 500)))
    (sort_by (λ a b, lex_leb [rn_created_at a ?= rn_created_at b;
                              String.compare (rn_id a) (rn_id b)]) found)).

Definition acknowledge_notification (owner_subject target_kind target_id notification_id : string)
    : M RealtimeNotification :=
  found ← find_row notification_id (λ n,
    (rn_owner_subject n ==? owner_subject) && (rn_target_kind n ==? target_kind)
    && (rn_target_id n ==? target_id));
  match found with
  | None => throw (LookupError "Realtime notification not found")
  | Some notification =>
      now ← utcnow;
      let notification := notification <| rn_status := "acknowledged" |>
        <| rn_acknowledged_at := Some now |> <| rn_updated_at := now |> in
      put notification;;
      commit;;
      mret notification
  end.
End handlers.
