(* ===== verification/Footprint.v ===== *)
(** * Footprints

    Which tables each handler writes, besides the two event tables: a handler
    keeps every property that is stable under writes to those tables. *)

From S2P Require Import ThinClient Prelude PyStr PyVal Errors CommandPolicy Validate Paths.
From S2P Require Import Models Database Session Preserve Rows Collaboration Coordination.
From S2P Require Import Autonomy Controls Assignments Approvals Permits Recovery.
From S2P Require Import ChatContext McpChatContext PyUrl FederationPolicy Federation.
From S2P Require Import McpUpstream FederationBroker Outbox Realtime Auth OAuth.
From S2P Require Import ThinEnrolment Roots ThinRuntime.

(** ** Sub-handlers that only read *)
Section readers.
Context `{!Env}.
Lemma scan_controls_stateless now scopes e r g :
  stateless (scan_controls now scopes e r g).
Proof.
  revert e r g. induction scopes as [|[[o t] i] scopes IH]; intros e r g; simpl; stl_go;
    apply IH.
Qed.
Hint Resolve scan_controls_stateless : stl_db.
Lemma control_snapshot_readonly o r p : readonly (control_snapshot o r p).
Proof. ro_go. Qed.
Hint Resolve control_snapshot_readonly : ro_db.
Lemma assert_enabled_readonly o r p : readonly (assert_enabled o r p).
Proof. ro_go. Qed.
End readers.
#[export] Hint Resolve scan_controls_stateless : stl_db.
#[export] Hint Resolve control_snapshot_readonly assert_enabled_readonly : ro_db.

Section footprints.
Context `{!Env} (I : db → Prop).

(** ** Handlers and sub-handlers that write nothing *)
Lemma scan_controls_pres now scopes e r g : pres I (scan_controls now scopes e r g).
Proof.
  revert e r g. induction scopes as [|[[o t] i] scopes IH]; intros e r g; simpl; pres_go;
    apply IH.
Qed.
Hint Resolve scan_controls_pres : pres_db.
Lemma control_snapshot_pres o r p : pres I (control_snapshot o r p).
Proof. unfold control_snapshot. pres_go. Qed.
Lemma assert_enabled_pres o r p : pres I (assert_enabled o r p).
Proof. pose proof control_snapshot_pres. unfold assert_enabled. pres_step; [pres_go|].
       pres_step; [auto|pres_go]. Qed.
Hint Resolve control_snapshot_pres assert_enabled_pres : pres_db.
Lemma expire_approval_pres r : pres I (_expire_approval r).
Proof. pres_go. Qed.
Lemma expire_permit_pres p : pres I (_expire_permit p).
Proof. pres_go. Qed.
Lemma verify_request_integrity_pres r : pres I (_verify_request_integrity r).
Proof. pres_go. Qed.
Lemma eligible_agents_pres o i : pres I (_eligible_agents o i).
Proof. pres_go. Qed.
Lemma changes_pres o ids r : pres I (_changes o ids r).
Proof. pres_go. Qed.
Hint Resolve expire_approval_pres expire_permit_pres verify_request_integrity_pres
  eligible_agents_pres changes_pres : pres_db.
Lemma detect_conflicts_pres o c k r : pres I (detect_conflicts o c k r).
Proof. pres_go. Qed.
Hint Resolve detect_conflicts_pres : pres_db.
Lemma list_rooms_pres o s : pres I (list_rooms o s).
Proof. pres_go. Qed.
Lemma list_work_items_pres o r s l : pres I (list_work_items o r s l).
Proof. pres_go. Qed.
Hint Resolve list_work_items_pres : pres_db.
Lemma list_handoffs_pres o r s : pres I (list_handoffs o r s).
Proof. pres_go. Qed.
Lemma list_integrations_pres o r s : pres I (list_integrations o r s).
Proof. pres_go. Qed.
Lemma list_controls_pres o b : pres I (list_controls o b).
Proof. pres_go. Qed.
Lemma list_policies_pres o r s : pres I (list_policies o r s).
Proof. pres_go. Qed.
Lemma list_assignments_pres o r p s : pres I (list_assignments o r p s).
Proof. pres_go. Qed.
Lemma approval_review_projection_pres r u v t :
  pres I (approval_review_projection r u v t).
Proof. pres_go. Qed.
Lemma list_receipts_pres o c : pres I (list_receipts o c).
Proof. pres_go. Qed.
Lemma list_recovery_loops_pres o r s : pres I (list_recovery_loops o r s).
Proof. pres_go. Qed.
Lemma list_overrides_pres o l : pres I (list_overrides o l).
Proof. pres_go. Qed.
Lemma metrics_pres o : pres I (metrics o).
Proof. pres_go. Qed.

Context `{!Emits I}.

(** ** Agents, rooms, messages *)
Section agents.
Context `{!Stable I AgentInstance}.
Lemma expire_stale_agents_pres o : pres I (_expire_stale_agents o).
Proof. pres_go. Qed.
Hint Resolve expire_stale_agents_pres : pres_db.
Lemma register_agent_pres o d : pres I (register_agent o d).
Proof. pres_go. Qed.
Lemma list_agents_pres o r : pres I (list_agents o r).
Proof. pres_go. Qed.
Hint Resolve list_agents_pres : pres_db.
Lemma heartbeat_agent_pres o a d : pres I (heartbeat_agent o a d).
Proof. pres_go. Qed.
Lemma unregister_agent_pres o a : pres I (unregister_agent o a).
Proof. pres_go. Qed.
Lemma join_room_pres o r a : pres I (join_room o r a).
Proof. pres_go. Qed.
Lemma room_snapshot_pres o r : pres I (room_snapshot o r).
Proof. pres_go. Qed.
Lemma send_message_pres `{!Stable I AgentMessage, !Stable I AgentMessageDelivery} o d :
  pres I (send_message o d).
Proof. pres_go. Qed.
End agents.

Lemma create_room_pres `{!Stable I CollaborationRoom} o d : pres I (create_room o d).
Proof. pres_go. Qed.
Lemma read_inbox_pres `{!Stable I AgentMessageDelivery} o a l m :
  pres I (read_inbox o a l m).
Proof. pres_go. Qed.
Lemma ack_message_pres `{!Stable I AgentMessageDelivery} o a m :
  pres I (ack_message o a m).
Proof. pres_go. Qed.

(** ** Commands *)
Section commands.
Context `{!Stable I AgentCommand}.
Lemma issue_command_pres o d : pres I (issue_command o d).
Proof. pres_go. Qed.
Lemma list_commands_pres o a s l : pres I (list_commands o a s l).
Proof. pres_go. Qed.
Lemma ack_command_pres o a c : pres I (ack_command o a c).
Proof. pres_go. Qed.
Lemma accept_command_pres o a c : pres I (accept_command o a c).
Proof. pres_go. Qed.
Lemma reject_command_pres o a c e : pres I (reject_command o a c e).
Proof. pres_go. Qed.
Lemma complete_command_pres o a c s r e : pres I (complete_command o a c s r e).
Proof. pres_go. Qed.
Lemma cancel_command_pres o a c : pres I (cancel_command o a c).
Proof. pres_go. Qed.
End commands.

(** ** Work items and assignments *)
Section work_items.
Context `{!Stable I AgentWorkItem}.
Lemma create_work_item_pres o d : pres I (create_work_item o d).
Proof. pres_go. Qed.
Context `{!Stable I AgentInstance}.
Lemma claim_work_item_pres o a i v : pres I (claim_work_item o a i v).
Proof. pres_go. Qed.
Lemma update_work_item_pres o a i v d : pres I (update_work_item o a i v d).
Proof. pres_go. Qed.
Context `{!Stable I AutonomyAssignment}.
Lemma apply_assignment_record_pres a s c : pres I (_apply_assignment_record a s c).
Proof. pres_go. Qed.
Hint Resolve apply_assignment_record_pres : pres_db.
Lemma apply_assignment_pres o a s : pres I (apply_assignment o a s).
Proof. pres_go. Qed.
Lemma propose_assignment_pres o p s i c n : pres I (propose_assignment o p s i c n).
Proof. pres_go. Qed.
Hint Resolve propose_assignment_pres : pres_db.
Lemma assignment_loop_pres o p s b items c1 c2 c3 c4 :
  pres I (assignment_loop o p s b items c1 c2 c3 c4).
Proof.
  revert c1 c2 c3 c4. induction items as [|i items IH]; intros; simpl; pres_go; apply IH.
Qed.
Hint Resolve assignment_loop_pres : pres_db.
Lemma run_assignment_cycle_pres o p s l : pres I (run_assignment_cycle o p s l).
Proof. pres_go. Qed.
End work_items.

(** ** Leases, handoffs, integrations *)
Section leases.
Context `{!Stable I ResourceLease}.
Lemma expire_stale_leases_pres o : pres I (expire_stale_leases o).
Proof. pres_go. Qed.
Hint Resolve expire_stale_leases_pres : pres_db.
Lemma acquire_lease_pres o d : pres I (acquire_lease o d).
Proof. pres_go. Qed.
Lemma list_leases_pres o r s h : pres I (list_leases o r s h).
Proof. pres_go. Qed.
Lemma renew_lease_pres o l h f t : pres I (renew_lease o l h f t).
Proof. pres_go. Qed.
Lemma release_lease_pres o l a f b : pres I (release_lease o l a f b).
Proof. pres_go. Qed.
Lemma covering_leases_pres o g r p : pres I (covering_leases o g r p).
Proof. pres_go. Qed.
Hint Resolve covering_leases_pres : pres_db.
Lemma validate_write_context_pres o g r p d : pres I (validate_write_context o g r p d).
Proof. pres_go. Qed.
End leases.
Section handoffs.
Context `{!Stable I AgentHandoffBarrier}.
Lemma create_handoff_pres o d : pres I (create_handoff o d).
Proof. pres_go. Qed.
Lemma mark_handoff_ready_pres o h a : pres I (mark_handoff_ready o h a).
Proof. pres_go. Qed.
Lemma accept_handoff_pres o h a c : pres I (accept_handoff o h a c).
Proof. pres_go. Qed.
End handoffs.
Section integrations.
Context `{!Stable I AgentIntegrationRecord}.
Lemma create_integration_pres o d : pres I (create_integration o d).
Proof. pres_go. Qed.
Lemma complete_integration_pres o i a v s h d c :
  pres I (complete_integration o i a v s h d c).
Proof. pres_go. Qed.
End integrations.

(** ** Policies and controls *)
Section revoke.
Context `{!Stable I ExecutionPermit}.
Lemma revoke_permits_pres o s r p : pres I (_revoke_permits o s r p).
Proof. pres_go. Qed.
Hint Resolve revoke_permits_pres : pres_db.
Lemma list_permits_pres o s : pres I (list_permits o s).
Proof. pres_go. Qed.
Lemma issue_permit_pres o a r t : pres I (issue_permit o a r t).
Proof. pres_go. Qed.
Lemma claim_permit_pres o p a : pres I (claim_permit o p a).
Proof. pres_go. Qed.
Lemma record_receipt_pres `{!Stable I ActionReceipt} o d : pres I (record_receipt o d).
Proof. pres_go. Qed.
Lemma update_policy_pres `{!Stable I AutonomyPolicy} o a p v d :
  pres I (update_policy o a p v d).
Proof. pres_go. Qed.
Context `{!Stable I RecoveryLoop}.
Lemma pause_or_cancel_recoveries_pres o s r p :
  pres I (_pause_or_cancel_recoveries o s r p).
Proof. pres_go. Qed.
Hint Resolve pause_or_cancel_recoveries_pres : pres_db.
Lemma stop_owners_pres st rs r p owners a b :
  pres I (stop_owners st rs r p owners a b).
Proof. revert a b. induction owners as [|o owners IH]; intros; simpl; pres_go; apply IH. Qed.
Hint Resolve stop_owners_pres : pres_db.
Context `{!Stable I AutonomyOverride}.
Lemma set_control_pres `{!Stable I AutonomyControlState} o a rs d :
  pres I (set_control o a rs d).
Proof. pres_go. Qed.
Lemma apply_override_pres
    `{!Stable I AutonomyAssignment, !Stable I AgentWorkItem, !Stable I AgentInstance}
    o a rs d : pres I (apply_override o a rs d).
Proof. pose proof apply_assignment_record_pres. pres_go; auto. Qed.
End revoke.
Lemma create_policy_pres `{!Stable I AutonomyPolicy} o a d : pres I (create_policy o a d).
Proof. pres_go. Qed.

(** ** Approvals *)
Section approvals.
Context `{!Stable I ApprovalRequest}.
Lemma list_approval_requests_pres o u r s : pres I (list_approval_requests o u r s).
Proof. pres_go. Qed.
Context `{!Stable I AgentCommand}.
Lemma create_approval_request_pres o a d : pres I (create_approval_request o a d).
Proof. pres_go. Qed.
Lemma cast_vote_pres `{!Stable I ApprovalVote} r u d s : pres I (cast_vote r u d s).
Proof. pres_go. Qed.
End approvals.

(** ** Recovery *)
Section recovery.
Context `{!Stable I RecoveryLoop}.
Lemma create_recovery_loop_pres o a d : pres I (create_recovery_loop o a d).
Proof. pres_go. Qed.
Lemma record_recovery_outcome_pres o l s c e :
  pres I (record_recovery_outcome o l s c e).
Proof. pres_go. Qed.
Context `{!Stable I AgentCommand}.
Lemma recovery_loop_pres o a p c now loops x y :
  pres I (recovery_loop o a p c now loops x y).
Proof.
  pose proof issue_command_pres.
  revert x y. induction loops as [|l loops IH]; intros; simpl; pres_go; auto.
Qed.
Hint Resolve recovery_loop_pres : pres_db.
Lemma run_recovery_cycle_pres o p a l : pres I (run_recovery_cycle o p a l).
Proof. pres_go. Qed.
End recovery.
End footprints.

(** ** Replicas, outbox, notifications *)
Section delivery.
Context `{!Env} (I : db → Prop).

Lemma outbox_totals_pres : pres I outbox_totals.
Proof. pres_go. Qed.
Lemma list_notifications_pres o k t s l : pres I (list_notifications o k t s l).
Proof. pres_go. Qed.
Lemma direct_targets_pres o e p r : pres I (direct_targets o e p r).
Proof. pres_go. Qed.
Hint Resolve direct_targets_pres : pres_db.

Section replicas.
Context `{!Stable I GatewayReplica}.
Lemma register_replica_pres self : pres I (register_replica self).
Proof. pres_go. Qed.
Hint Resolve register_replica_pres : pres_db.
Context `{!Stable I RealtimeRoute}.
Lemma expire_stale_replicas_and_routes_pres : pres I expire_stale_replicas_and_routes.
Proof. pres_go. Qed.
Hint Resolve expire_stale_replicas_and_routes_pres : pres_db.
Lemma heartbeat_replica_pres self : pres I (heartbeat_replica self).
Proof. pres_go. Qed.
Lemma stop_replica_pres self : pres I (stop_replica self).
Proof. pres_go. Qed.
End replicas.

Section events.
Context `{!Stable I OutboxEvent}.
Lemma release_stale_claims_pres : pres I release_stale_claims.
Proof. pres_go. Qed.
Hint Resolve release_stale_claims_pres : pres_db.
Lemma claim_batch_pres self n : pres I (claim_batch self n).
Proof. pres_go. Qed.
Context `{!Stable I AuditEvent}.
Lemma replay_pres self e a r : pres I (replay self e a r).
Proof. pres_go. Qed.
Lemma cancel_pres self e a : pres I (cancel self e a).
Proof. pres_go. Qed.
Context `{!Stable I OutboxDeliveryAttempt}.
Lemma record_success_pres self e t a : pres I (_record_success self e t a).
Proof. pres_go. Qed.
Lemma record_failure_pres self e t x : pres I (_record_failure self e t x).
Proof. pres_go. Qed.
End events.

Section routes.
Context `{!Stable I RealtimeRoute}.
Lemma register_route_pres r o k t c m : pres I (register_route r o k t c m).
Proof. pres_go. Qed.
Lemma heartbeat_route_pres r c : pres I (heartbeat_route r c).
Proof. pres_go. Qed.
Lemma unregister_route_pres r c : pres I (unregister_route r c).
Proof. pres_go. Qed.
End routes.

Lemma mark_processed_pres `{!Stable I ProcessedBrokerMessage} m s p st c :
  pres I (mark_processed m s p st c).
Proof. pres_go. Qed.
Lemma persist_broker_event_pres
    `{!Stable I ProcessedBrokerMessage, !Stable I RealtimeNotification} r s p e :
  pres I (_persist_broker_event r s p e).
Proof. pres_go. Qed.
Lemma record_delivery_results_pres `{!Stable I RealtimeNotification} l :
  pres I (_record_delivery_results l).
Proof. pres_go. Qed.
Lemma acknowledge_notification_pres `{!Stable I RealtimeNotification} o k t n :
  pres I (acknowledge_notification o k t n).
Proof. pres_go. Qed.
End delivery.

(** ** Chat contexts *)
Section chat.
Context `{!Env} (I : db → Prop).

Lemma pres_committing {A} (m : M A) : pres I m → pres I (committing m).
Proof.
  intros Hm w Hc Hw. unfold committing.
  assert (pres I (answer ← m; commit;; mret answer)) as Hb.
  { apply pres_bind; [done|]. intros. apply pres_bind; [apply pres_commit|]. intros.
    apply pres_ret. }
  specialize (Hb w Hc Hw).
  destruct ((answer ← m; commit;; mret answer) w) as [[a|[]] w']; try done.
  split; apply Hb.
Qed.

Lemma pres_except_chat {A} (m : M A) handlers :
  pres I m → (∀ k h, handlers k = Some h → pres I h) → pres I (except_chat m handlers).
Proof.
  intros Hm Hh w Hc Hw. specialize (Hm w Hc Hw). unfold except_chat.
  destruct (m w) as [[a|[]] w']; try done.
  destruct (handlers kind) as [h|] eqn:E; [|done]. apply (Hh _ _ E); apply Hm.
Qed.

Ltac handlers := let k := fresh in intros k ?; destruct k; intros [= <-]; pres_go.

Context `{!Stable I ChatContext, !Stable I ChatContextAlias, !Stable I ChatContextEvent}.
Lemma reconcile_alias_pres c a now k : pres I (_reconcile_alias c a now k).
Proof. pres_go. Qed.
Lemma renew_alias_pres c a now k f : pres I (_renew_alias c a now k f).
Proof. pres_go. Qed.
Hint Resolve reconcile_alias_pres renew_alias_pres : pres_db.
Lemma reconcile_code_reservations_pres code now : pres I (_reconcile_code_reservations code now).
Proof. pres_go. Qed.
Hint Resolve reconcile_code_reservations_pres : pres_db.
Lemma try_candidate_pres c k r now : pres I (try_candidate c k r now).
Proof. pres_go. Qed.
Hint Resolve try_candidate_pres : pres_db.
Lemma allocation_loop_pres n c k r now : pres I (allocation_loop n c k r now).
Proof. revert r. induction n as [|n IH]; intros r; simpl; pres_go; apply IH. Qed.
Hint Resolve allocation_loop_pres : pres_db.
Lemma allocate_alias_pres c k now : pres I (_allocate_alias c k now).
Proof. pres_go. Qed.
Hint Resolve allocate_alias_pres : pres_db.
Lemma resolve_alias_pres o c k : pres I (resolve_alias o c k).
Proof. pres_go. Qed.
Lemma refresh_alias_pres o c k : pres I (refresh_alias o c k).
Proof. pres_go. Qed.
Hint Resolve resolve_alias_pres refresh_alias_pres : pres_db.
Lemma ensure_context_alias_pres c k : pres I (_ensure_context_alias c k).
Proof. pres_go. Qed.
Hint Resolve ensure_context_alias_pres : pres_db.
Lemma create_context_service_pres o n p k : pres I (_create_context o n p k).
Proof. pres_go. Qed.
Hint Resolve create_context_service_pres : pres_db.
Lemma create_chat_context_pres o n p : pres I (create_context o n p).
Proof. apply pres_committing. pres_go. Qed.
Lemma bind_chat_context_pres o i r : pres I (bind_context o i r).
Proof. apply pres_committing. pres_go. Qed.
Lemma resolve_chat_context_pres o r : pres I (resolve_context o r).
Proof. apply pres_committing. pres_go. Qed.
Lemma admit_chat_context_pres o t a m : pres I (admit_chat_context o t a m).
Proof.
  pose proof @pres_except_chat as Hx. unfold admit_chat_context.
  repeat first [apply pres_except_chat; [|handlers] | pres_step].
Qed.
Lemma start_chat_context_pres o : pres I (start_chat_context o).
Proof.
  unfold start_chat_context. repeat first [apply pres_except_chat; [|handlers] | pres_step].
Qed.
Lemma refresh_chat_context_pres o c : pres I (refresh_chat_context o c).
Proof.
  unfold refresh_chat_context. repeat first [apply pres_except_chat; [|handlers] | pres_step].
Qed.
End chat.

(** ** MCP federation *)
Section federation.
Context `{!Env} (I : db → Prop) `{!Emits I, !Stable I McpMutationReceipt}.

Lemma pres_policy_error {A} (r : result A) : pres I (policy_error r).
Proof. unfold policy_error. repeat case_match; by intros w. Qed.
Hint Resolve pres_policy_error : pres_db.
Lemma pres_idempotent {R} o p k request existing (body : string → M R) :
  (∀ id, pres I (existing id)) → (∀ h, pres I (body h)) →
  pres I (idempotent o p k request existing body).
Proof. intros. unfold idempotent. pres_go; auto. Qed.
Lemma pres_with_receipt o p k h t i v : pres I (_record_mutation_receipt o p k h t i v).
Proof. pres_go. Qed.
Hint Resolve pres_with_receipt : pres_db.

Ltac mutation := unfold update_server; apply pres_idempotent; intros ?; pres_go.

Lemma create_credential_binding_pres `{!Stable I McpCredentialBinding} o a k d :
  pres I (create_credential_binding o a k d).
Proof. mutation. Qed.
Lemma list_credential_bindings_pres o : pres I (list_credential_bindings o).
Proof. pres_go. Qed.
Lemma list_servers_pres o s : pres I (list_servers o s).
Proof. pres_go. Qed.
Section servers.
Context `{!Stable I McpServer}.
Lemma create_server_pres o a k d : pres I (create_server o a k d).
Proof. mutation. Qed.
Lemma update_server_pres o a s k v d p : pres I (update_server o a s k v d p).
Proof. mutation. Qed.
Lemma disable_server_pres o a s k v : pres I (disable_server o a s k v).
Proof. apply update_server_pres. Qed.
Lemma request_server_transition_pres o a s k v t :
  pres I (request_server_transition o a s k v t).
Proof. unfold request_server_transition. pres_step; [pres_go|]. intros. mutation. Qed.
Lemma upsert_policy_pres `{!Stable I McpFederationPolicy} o a s k v d :
  pres I (upsert_policy o a s k v d).
Proof. mutation. Qed.
Context `{!Stable I McpTool, !Stable I McpToolRevision}.
Lemma store_tool_revision_pres o a s e p g b1 b2 b3 :
  pres I (store_tool_revision o a s e p g b1 b2 b3).
Proof. pres_go. Qed.
Hint Resolve store_tool_revision_pres : pres_db.
Lemma store_entries_pres o a s p g l ids n : pres I (store_entries o a s p g l ids n).
Proof. revert ids n. induction l as [|e l IH]; intros; simpl; pres_go; apply IH. Qed.
Hint Resolve store_entries_pres : pres_db.
Lemma store_catalog_snapshot_pres o a s g p l c :
  pres I (store_catalog_snapshot o a s g p l c).
Proof. pres_go. Qed.
End servers.
Lemma classify_revision_pres `{!Stable I McpToolRevision} o a r k v c s :
  pres I (classify_revision o a r k v c s).
Proof. mutation. Qed.
Lemma upsert_exposure_pres `{!Stable I McpToolExposure} o a t k v d :
  pres I (upsert_exposure o a t k v d).
Proof. mutation. Qed.
End federation.

(** ** Guarded actions and calls of the upstream server *)
Section actions.
Context `{!Env} (I : db → Prop).

Lemma pres_value_error_409 {A} (r : result A) : pres I (value_error_409 r).
Proof. unfold value_error_409. repeat case_match; by intros w. Qed.
Hint Resolve pres_value_error_409 : pres_db.
Lemma resolve_authorized_pres u t h b : pres I (_resolve_authorized u t h b).
Proof. pres_go. Qed.
Hint Resolve resolve_authorized_pres : pres_db.
Lemma authorize_read_pres u p c : pres I (authorize_read u p c).
Proof. pres_go. Qed.
Hint Resolve authorize_read_pres : pres_db.
Lemma guarded_evidence_pres p i : pres I (guarded_evidence p i).
Proof. pres_go. Qed.
Lemma prepared_arguments_pres o p : pres I (prepared_arguments o p).
Proof. pres_go. Qed.
Hint Resolve guarded_evidence_pres prepared_arguments_pres : pres_db.

Context `{!Emits I}.
Section calls.
Context `{!Stable I McpInvocation}.
Lemma start_invocation_pres r t : pres I (start_invocation r t).
Proof. pres_go. Qed.
Hint Resolve start_invocation_pres : pres_db.
Lemma start_read_pres u p c t : pres I (start_read u p c t).
Proof. pres_go. Qed.
Lemma complete_invocation_pres i r t : pres I (complete_invocation i r t).
Proof. pres_go. Qed.
Lemma fail_invocation_pres `{!Stable I McpServer} i e t : pres I (fail_invocation i e t).
Proof. pres_go. Qed.
End calls.

Lemma ensure_execution_context_pres
    `{!Stable I CollaborationRoom, !Stable I AgentInstance, !Stable I AutonomyPolicy} o :
  pres I (_ensure_execution_context o).
Proof. pose proof (assert_enabled_pres I). pres_go; auto. Qed.
Lemma write_preparation_pres `{!Stable I SecretBlob, !Stable I AgentCommand,
    !Stable I ApprovalRequest, !Stable I McpActionPreparation} i c o p h t :
  pres I (write_preparation i c o p h t).
Proof. pres_go. Qed.

(** What the insertion of a new request keeps, the preparation of an action keeps. *)
Definition guarded_request (a : ApprovalRequest) : Prop :=
  apr_status a = "pending" ∧ apr_version a = 1 ∧ 1 ≤ apr_quorum_required a.

Lemma guarded_approval_request i c cmd p o id pid h ch by_ rule now t :
  _approval_rule (au_approval_class i) = Ok rule →
  guarded_request (guarded_approval i c cmd p o id pid h ch by_ rule now t).
Proof.
  intros Hr. split_and!; [done|done|]. simpl. destruct (au_approval_class i); simpl in Hr;
    try discriminate; injection Hr as <-; simpl; lia.
Qed.

Lemma write_preparation_keep `{!Stable I SecretBlob, !Stable I AgentCommand,
    !Stable I McpActionPreparation} i c o p h t :
  (∀ a : ApprovalRequest, guarded_request a → pres I (add a)) →
  pres I (write_preparation i c o p h t).
Proof.
  intros Hadd. unfold write_preparation.
  destruct (_approval_rule (au_approval_class i)) as [rule|e] eqn:Hr.
  all: repeat lazymatch goal with
  | |- pres I (mbind _ (lift (Raise _))) => by intros w
  | |- pres I (mbind ?f (lift (Ok ?x))) =>
      let Hf := fresh in assert (pres I (f x)) as Hf; [cbv beta|intros w ?? ; by apply Hf]
  | |- pres I (add (guarded_approval _ _ _ _ _ _ _ _ _ _ _ _ _)) =>
      by apply Hadd, guarded_approval_request
  | |- _ => pres_step; cbv beta iota zeta
  end.
Qed.

Lemma prepare_action_keep u p t :
  (∀ o, pres I (_ensure_execution_context o)) →
  (∀ i c o h, pres I (write_preparation i c o p h t)) → pres I (prepare_action u p t).
Proof. intros. pres_go; auto. Qed.

(** The same, with what the execution context tells the preparation. *)
Lemma wp_prepare_action (P : string → FederationExecutionContext → db → Prop) u p t w :
  I (committed w) → I (working w) →
  (∀ o w, I (committed w) → I (working w) →
     wp (_ensure_execution_context o) (λ r w', (I (committed w') ∧ I (working w'))
       ∧ ∀ c, r = Ok c → P o c (working w')) w) →
  (∀ i c o h w, I (committed w) → I (working w) → P o c (working w) →
     wp (write_preparation i c o p h t) (λ _ w', I (committed w') ∧ I (working w')) w) →
  wp (prepare_action u p t) (λ _ w', I (committed w') ∧ I (working w')) w.
Proof.
  intros Hc Hw Hctx Hwrite. unfold prepare_action.
  repeat first [wp_leaf | wp_step | apply wp_stateless; [solve [stl_go]|intros ? ?|intros ?]].
  eapply wp_mono; [by apply Hctx|]. intros [c|?] w' [[??] HP]; [|by split].
  apply wp_bind. eapply wp_mono; [by apply Hwrite; auto|]. intros [x|?] w'' [??]; [|by split].
  apply (pres_wp I); [pres_go|done|done].
Qed.

Lemma prepare_action_pres `{!Stable I CollaborationRoom, !Stable I AgentInstance,
    !Stable I AutonomyPolicy, !Stable I SecretBlob, !Stable I AgentCommand,
    !Stable I ApprovalRequest, !Stable I McpActionPreparation} u p t :
  pres I (prepare_action u p t).
Proof. pose proof ensure_execution_context_pres. pose proof write_preparation_pres. pres_go; auto. Qed.
Section execution.
Context `{!Stable I McpActionPreparation, !Stable I ExecutionPermit}.
Lemma begin_action_pres `{!Stable I AgentCommand} u p : pres I (begin_action u p).
Proof. pose proof (claim_permit_pres I). pres_go; auto. Qed.
End execution.
Section execution.
Context `{!Stable I McpActionPreparation}.

(** What the acceptance of a command on its evidence and the claim of a permit keep,
    the beginning of an action keeps. *)
Definition accepted_on_evidence (d : db) (c : AgentCommand) : Prop :=
  cmd_status c ∈ ["pending"; "delivered"; "acknowledged"] ∧ ∃ ia a ip p ic,
    approvals d !! ia = Some a ∧ permits d !! ip = Some p ∧ commands d !! ic = Some c
    ∧ apr_status a = "approved" ∧ pmt_approval_request_id p = apr_id a
    ∧ pmt_command_id p = Some (cmd_id c).

Lemma guarded_evidence_ok preparation i w a c p :
  (guarded_evidence preparation i w).1 = Ok (a, c, p) →
  approvals (working w) !! prp_approval_request_id preparation = Some a
  ∧ commands (working w) !! prp_command_id preparation = Some c
  ∧ permits (working w) !! i = Some p ∧ apr_status a = "approved"
  ∧ pmt_approval_request_id p = apr_id a ∧ pmt_command_id p = Some (cmd_id c)
  ∧ pmt_payload_hash p = apr_payload_hash a
  ∧ Ok (apr_payload_hash a) = _command_hash c.
Proof.
  intros Hok. enough (wp (guarded_evidence preparation i) (λ x _, ∀ a c p,
    x = Ok (a, c, p) → _) w) as Hw by exact (Hw _ _ _ Hok).
  clear Hok. unfold guarded_evidence.
  repeat wp_step; try (intros ? ? ?; discriminate). intros ? ? ? [= -> -> ->].
  repeat match goal with
  | H : _ || _ = false |- _ => apply orb_false_iff in H as [??]
  | H : (_ =/? _) = false |- _ => apply negb_false_iff, bool_decide_eq_true in H
  end. simplify_eq. by split_and!.
Qed.

Lemma wp_begin_action u p w :
  I (committed w) → I (working w) →
  (∀ o i a, pres I (claim_permit o i a)) →
  (∀ c now, accepted_on_evidence (working w) c →
     I (put_row (accepted_command (usr_subject u) now c) (working w))) →
  wp (begin_action u p) (λ _ w', I (committed w') ∧ I (working w')) w.
Proof.
  intros Hc Hw Hclaim Haccept. unfold begin_action.
  repeat first [wp_leaf | wp_step | apply wp_stateless; [solve [stl_go]|intros ? ?|intros ?]].
  all: try match goal with
    H : (guarded_evidence _ _ _).1 = Ok (_, ?c, _) |- context [accepted_command _ ?n ?c] =>
      assert (I (put_row (accepted_command (usr_subject u) n c) (working w))) as Hput
    end.
  all: try by split; simpl; repeat apply stable.
  all: try lazymatch goal with
    | |- I (put_row _ _) => apply Haccept;
        match goal with H : (_ ∈? _) = true |- _ => apply bool_decide_eq_true in H end;
        match goal with H : (guarded_evidence _ _ _).1 = _ |- _ =>
          apply guarded_evidence_ok in H as (?&?&?&?&?&?&_); split; [done|];
          by repeat eexists
        end
    end.
  all: lazymatch goal with
    | |- wp _ _ _ => eapply (wp_pres _ I); [apply Hclaim|done|done|]; intros [?|?] ? ? ?;
        [apply (pres_wp I); [pres_go|done|done]|by split]
    | |- _ => by split
    end.
Qed.

Lemma begin_call_keep `{!Stable I McpInvocation} u p c t w :
  I (committed w) → I (working w) →
  (∀ o i a, pres I (claim_permit o i a)) →
  (∀ c now, accepted_on_evidence (working w) c →
     I (put_row (accepted_command (usr_subject u) now c) (working w))) →
  wp (begin_call u p c t) (λ _ w', I (committed w') ∧ I (working w')) w.
Proof.
  intros. pose proof start_invocation_pres. unfold begin_call. apply wp_bind.
  eapply wp_mono; [by apply wp_begin_action|]. intros [?|?] ? [??]; [|by split].
  apply (pres_wp I); [|done|done]. pres_go; auto.
Qed.

Lemma finish_action_keep u e a :
  (∀ o d, pres I (record_receipt o d)) → pres I (finish_action u e a).
Proof. intros. pres_go; auto. Qed.
End execution.
Section execution.
Context `{!Stable I McpActionPreparation, !Stable I ExecutionPermit}.
Lemma begin_call_pres `{!Stable I AgentCommand, !Stable I McpInvocation} u p c t :
  pres I (begin_call u p c t).
Proof. pose proof begin_action_pres. pose proof start_invocation_pres. pres_go; auto. Qed.
Lemma finish_action_pres `{!Stable I ActionReceipt} u e a : pres I (finish_action u e a).
Proof. pose proof (record_receipt_pres I). pres_go; auto. Qed.
End execution.
Lemma pres_while_recorded {R} `{!Table R} (r : R) m : pres I m → pres I (while_recorded r m).
Proof. intros. unfold while_recorded. pres_go; auto. Qed.
End actions.

(** ** Users, tokens and the authorization server *)
Section accounts.
Context `{!Env} (I : db → Prop).

Lemma login_pres next : pres I (login next).
Proof. pres_go. Qed.

Lemma register_client_pres `{!Stable I OAuthClient} d : pres I (register_client d).
Proof. pres_go. Qed.

Lemma token_pres `{!Stable I OAuthClient, !Stable I OAuthCode} f : pres I (token f).
Proof. pres_go. Qed.

Context `{!Stable I User}.
Lemma get_current_user_pres c : pres I (get_current_user c).
Proof. pres_go. Qed.
Lemma callback_pres `{!Emits I} k q : pres I (callback k q).
Proof. pres_go. Qed.

Lemma signed_in_pres c : pres I (signed_in c).
Proof.
  intros w Hc Hw. pose proof (get_current_user_pres c w Hc Hw) as Hp. unfold signed_in.
  by repeat case_match.
Qed.
Hint Resolve signed_in_pres : pres_db.
Lemma wp_signed_in request w :
  I (committed w) → I (working w) →
  wp (signed_in request) (λ r w', (I (committed w') ∧ I (working w'))
    ∧ ∀ u, r = Ok (Some u) → (get_current_user request w).1 = Ok u) w.
Proof.
  intros Hc Hw. apply wp_and; [by apply pres_wp; [apply signed_in_pres|..]|].
  unfold wp, signed_in. by repeat case_match; intros ? [= <-].
Qed.
Lemma authorize_pres `{!Stable I OAuthClient, !Stable I OAuthCode} c q :
  pres I (authorize c q).
Proof. pres_go. Qed.
End accounts.

(** ** Enrolment of thin clients *)
Section enrolment.
Context `{!Env} (I : db → Prop).

Lemma list_thin_clients_pres u : pres I (list_thin_clients u).
Proof. pres_go. Qed.
Lemma device_token_pres c : pres I (device_token c).
Proof. pres_go. Qed.
Lemma create_device_code_pres `{!Stable I User, !Stable I DeviceCode} :
  pres I create_device_code.
Proof. pres_go. Qed.
Lemma activate_thin_client_pres `{!Stable I User, !Stable I DeviceCode} c u :
  pres I (activate_thin_client c u).
Proof. pose proof (signed_in_pres I). pres_go; auto. Qed.
Context `{!Emits I, !Erasable I ThinClient}.
Lemma register_thin_client_pres `{!Stable I ThinClient} a p :
  pres I (register_thin_client a p).
Proof. pres_go. Qed.
Lemma delete_thin_client_pres u c : pres I (delete_thin_client u c).
Proof. pres_go. Qed.
End enrolment.

(** ** Runtimes of thin clients and roots *)
Section runtimes.
Context `{!Env} (I : db → Prop).

Lemma list_root_grants_pres o s t : pres I (list_root_grants o s t).
Proof. pres_go. Qed.
Lemma open_socket_pres `{!Stable I ThinClient} o c : pres I (open_socket o c).
Proof. pres_go. Qed.
Lemma heartbeat_pres `{!Stable I ThinClient} c m : pres I (heartbeat c m).
Proof. pres_go. Qed.
Lemma record_call_progress_pres `{!Stable I McpInvocation} o s m :
  pres I (record_call_progress o s m).
Proof. pres_go. Qed.

(** What the handlers of the messages keep, the socket keeps. *)
Lemma receive_keep o c s m :
  (∀ m, pres I (heartbeat c m)) → (∀ m, pres I (register_runtime o c s m)) →
  (∀ m, pres I (record_roots_update_ack o c s m)) →
  (∀ m, pres I (record_server_status o c s m)) →
  (∀ m, pres I (record_call_progress o s m)) → pres I (receive o c s m).
Proof.
  intros. unfold receive. cbv zeta. repeat case_match; try apply pres_ret; auto.
  all: apply pres_bind; [auto using pres_lift|intros; auto using pres_ret].
Qed.

Lemma dispatch_pres `{!Stable I McpInvocation} a i : pres I (dispatch a i).
Proof. pres_go. Qed.

Section grants.
Context `{!Stable I McpRootGrant}.
Lemma reconcile_grants_pres o s b l : pres I (reconcile_grants o s b l).
Proof. pres_go. Qed.
Hint Resolve reconcile_grants_pres : pres_db.
Lemma sync_gateway_roots_pres u s v l : pres I (sync_gateway_roots u s v l).
Proof. pres_go. Qed.
Lemma review_root_grant_route_pres u g v d : pres I (review_root_grant_route u g v d).
Proof. pres_go. Qed.
Lemma sync_roots_pres g s r d : pres I (sync_roots g s r d).
Proof. pres_go. Qed.
End grants.

Section servers.
Context `{!Stable I McpServer}.
Lemma announce_server_pres g d : pres I (announce_server g d).
Proof. pres_go. Qed.
Context `{!Stable I McpRuntimeConnection}.
Lemma retire_others_pres g s : pres I (retire_others g s).
Proof. pres_go. Qed.
Lemma connect_runtime_pres g s d : pres I (connect_runtime g s d).
Proof. pres_go. Qed.
Lemma record_server_status_pres o c s m : pres I (record_server_status o c s m).
Proof. pres_go. Qed.
Lemma record_roots_update_ack_pres o c s m : pres I (record_roots_update_ack o c s m).
Proof. pres_go. Qed.
Lemma mark_connection_disconnected_pres `{!Stable I McpInvocation} o c s :
  pres I (mark_connection_disconnected o c s).
Proof. pres_go. Qed.
Context `{!Stable I McpRootGrant, !Stable I McpCapabilitySnapshot}.
Lemma register_server_pres g d : pres I (register_server g d).
Proof.
  pose proof announce_server_pres. pose proof retire_others_pres.
  pose proof connect_runtime_pres. pose proof sync_roots_pres. pres_go; auto.
Qed.
Context `{!Stable I ThinClient}.
Lemma register_runtime_pres o c s m : pres I (register_runtime o c s m).
Proof. pose proof register_server_pres. pres_go; auto. Qed.
Context `{!Stable I McpInvocation}.
Lemma receive_pres o c s m : pres I (receive o c s m).
Proof.
  apply receive_keep; intros; auto using heartbeat_pres, register_runtime_pres,
    record_roots_update_ack_pres, record_server_status_pres, record_call_progress_pres.
Qed.
End servers.
End runtimes.

(** ** Handlers that take back work

    They keep what a revocation of permits and a stop of recoveries keep. *)
Section stops.
Context `{!Env} (I : db → Prop) `{!Emits I}.
Context (Hrevoke : ∀ o reason r p, pres I (_revoke_permits o reason r p)).
Hint Resolve Hrevoke : pres_db.

Lemma update_policy_stops `{!Stable I AutonomyPolicy} o a p v d :
  pres I (update_policy o a p v d).
Proof. pres_go. Qed.

Context (Hstop : ∀ o state r p, pres I (_pause_or_cancel_recoveries o state r p)).
Hint Resolve Hstop : pres_db.

Lemma stop_owners_stops st rs r p owners a b : pres I (stop_owners st rs r p owners a b).
Proof. revert a b. induction owners as [|o owners IH]; intros; simpl; pres_go; apply IH. Qed.
Hint Resolve stop_owners_stops : pres_db.

Context `{!Stable I AutonomyOverride}.
Lemma set_control_stops `{!Stable I AutonomyControlState} o a rs d :
  pres I (set_control o a rs d).
Proof. pres_go. Qed.

Lemma apply_override_stops
    `{!Stable I AutonomyAssignment, !Stable I AgentWorkItem, !Stable I AgentInstance}
    o a rs d : pres I (apply_override o a rs d).
Proof. pose proof (apply_assignment_record_pres I). pres_go; auto. Qed.
End stops.

#[export] Hint Resolve scan_controls_pres control_snapshot_pres assert_enabled_pres
  expire_approval_pres expire_permit_pres verify_request_integrity_pres
  eligible_agents_pres changes_pres detect_conflicts_pres : pres_db.
#[export] Hint Extern 2 (pres _ (signed_in _)) =>
  apply signed_in_pres; typeclasses eauto : pres_db.
#[export] Hint Extern 2 (pres _ (stop_owners _ _ _ _ _ _ _)) =>
  apply stop_owners_pres; typeclasses eauto : pres_db.

Create HintDb footprint.
#[export] Hint Constants Opaque : footprint.
#[export] Hint Resolve
  list_rooms_pres list_work_items_pres list_handoffs_pres list_integrations_pres
  list_controls_pres list_policies_pres list_assignments_pres
  approval_review_projection_pres list_receipts_pres list_recovery_loops_pres
  list_overrides_pres metrics_pres register_agent_pres list_agents_pres
  heartbeat_agent_pres unregister_agent_pres join_room_pres room_snapshot_pres
  send_message_pres create_room_pres read_inbox_pres ack_message_pres issue_command_pres
  list_commands_pres ack_command_pres accept_command_pres reject_command_pres
  complete_command_pres cancel_command_pres create_work_item_pres claim_work_item_pres
  update_work_item_pres apply_assignment_pres run_assignment_cycle_pres
  acquire_lease_pres list_leases_pres renew_lease_pres release_lease_pres
  validate_write_context_pres detect_conflicts_pres create_handoff_pres
  mark_handoff_ready_pres accept_handoff_pres create_integration_pres
  complete_integration_pres list_permits_pres issue_permit_pres claim_permit_pres
  record_receipt_pres update_policy_pres set_control_pres apply_override_pres
  create_policy_pres list_approval_requests_pres create_approval_request_pres
  cast_vote_pres create_recovery_loop_pres record_recovery_outcome_pres
  run_recovery_cycle_pres control_snapshot_pres outbox_totals_pres list_notifications_pres
  register_replica_pres expire_stale_replicas_and_routes_pres heartbeat_replica_pres
  stop_replica_pres release_stale_claims_pres claim_batch_pres replay_pres cancel_pres
  record_success_pres record_failure_pres register_route_pres heartbeat_route_pres
  unregister_route_pres mark_processed_pres persist_broker_event_pres
  record_delivery_results_pres acknowledge_notification_pres create_chat_context_pres
  bind_chat_context_pres resolve_chat_context_pres admit_chat_context_pres
  start_chat_context_pres refresh_chat_context_pres create_credential_binding_pres
  list_credential_bindings_pres create_server_pres list_servers_pres update_server_pres
  disable_server_pres request_server_transition_pres upsert_policy_pres
  store_tool_revision_pres store_catalog_snapshot_pres classify_revision_pres
  upsert_exposure_pres prepare_action_pres begin_call_pres start_read_pres
  complete_invocation_pres fail_invocation_pres finish_action_pres login_pres
  register_client_pres token_pres get_current_user_pres callback_pres authorize_pres
  list_thin_clients_pres device_token_pres create_device_code_pres
  activate_thin_client_pres register_thin_client_pres delete_thin_client_pres
  list_root_grants_pres open_socket_pres sync_gateway_roots_pres review_root_grant_route_pres
  mark_connection_disconnected_pres receive_pres dispatch_pres : footprint.
