(* ===== verification/System.v ===== *)
(** * The control plane as a transition system

    One operation per handler, each run in a session of its own on the database
    the previous one left; the states reachable from an empty control plane. *)

From S2P Require Import ThinClient Prelude PyStr PyVal Errors Models Database Session.
From S2P Require Import Preserve Collaboration Coordination Autonomy Controls.
From S2P Require Import Assignments Approvals Permits Recovery ChatContext.
From S2P Require Import McpChatContext Federation McpUpstream FederationBroker Outbox.
From S2P Require Import Realtime Auth OAuth ThinEnrolment Roots ThinRuntime Footprint.

(** The last two operations are writes of other parts of the gateway: the access
    grants, and the file changes recorded by the file tools. *)
Inductive op : Type :=
  | RegisterAgent (owner : string) (data : pydict)
  | ListAgents (owner : string) (room : option string)
  | HeartbeatAgent (owner agent : string) (data : pydict)
  | UnregisterAgent (owner agent : string)
  | CreateRoom (owner : string) (data : pydict)
  | ListRooms (owner : string) (status : option string)
  | JoinRoom (owner room agent : string)
  | SendMessage (owner : string) (data : pydict)
  | ReadInbox (owner agent : string) (limit : Z) (after : option string)
  | AckMessage (owner agent message : string)
  | IssueCommand (owner : string) (data : pydict)
  | ListCommands (owner agent : string) (status : option string) (limit : Z)
  | AckCommand (owner agent command : string)
  | AcceptCommand (owner agent command : string)
  | RejectCommand (owner agent command : string) (error : option string)
  | CompleteCommand (owner agent command status : string) (result : option pydict)
      (error : option string)
  | CancelCommand (owner issuer command : string)
  | CreateWorkItem (owner : string) (data : pydict)
  | ListWorkItems (owner room : string) (status : option string) (limit : Z)
  | ClaimWorkItem (owner agent item : string) (version : Z)
  | UpdateWorkItem (owner agent item : string) (version : Z) (data : pydict)
  | RoomSnapshot (owner room : string)
  | AcquireLease (owner : string) (data : pydict)
  | ListLeases (owner : string) (room status holder : option string)
  | RenewLease (owner lease holder : string) (fence ttl : Z)
  | ReleaseLease (owner lease actor : string) (fence : Z) (force : bool)
  | ValidateWriteContext (owner origin : string) (resource : option string) (path : pyval)
      (data : pydict)
  | DetectConflicts (owner : string) (candidates : list string)
      (comparisons : option (list string)) (room : option string)
  | ListHandoffs (owner : string) (room status : option string)
  | ListIntegrations (owner : string) (room status : option string)
  | CreateHandoff (owner : string) (data : pydict)
  | MarkHandoffReady (owner handoff source : string)
  | AcceptHandoff (owner handoff target : string) (comparisons : option (list string))
  | CreateIntegration (owner : string) (data : pydict)
  | CompleteIntegration (owner integration coordinator : string) (version : Z)
      (status : string) (head : option string) (decision : option pydict)
      (commit : option string)
  | CreatePolicy (owner actor : string) (data : pydict)
  | ListPolicies (owner : string) (room status : option string)
  | UpdatePolicy (owner actor policy : string) (version : Z) (data : pydict)
  | ControlSnapshot (owner : string) (room policy : option string)
  | ListControls (owner : string) (include_global : bool)
  | SetControl (owner actor : string) (roles : list string) (data : pydict)
  | RunAssignmentCycle (owner policy actor : string) (limit : option Z)
  | ListAssignments (owner : string) (room policy status : option string)
  | ApplyAssignment (owner assignment actor : string)
  | CreateApprovalRequest (owner actor : string) (data : pydict)
  | ListApprovalRequests (owner : option string) (user : option User)
      (room status : option string)
  | ReviewApproval (request : ApprovalRequest) (user : User) (votes : list ApprovalVote)
      (target : pydict)
  | CastVote (request : string) (user : User) (decision : string) (reason : option string)
  | IssuePermit (owner actor request : string) (ttl : option Z)
  | ClaimPermit (owner permit executor : string)
  | RecordReceipt (owner : string) (data : pydict)
  | ListPermits (owner : string) (status : option string)
  | ListReceipts (owner : string) (command : option string)
  | CreateRecoveryLoop (owner actor : string) (data : pydict)
  | RunRecoveryCycle (owner policy actor : string) (limit : Z)
  | RecordRecoveryOutcome (owner loop status : string) (command error : option string)
  | ListRecoveryLoops (owner : string) (room status : option string)
  | ApplyOverride (owner actor : string) (roles : list string) (data : pydict)
  | ListOverrides (owner : string) (limit : Z)
  | Metrics (owner : string)
  | RegisterReplica (self : OutboxService)
  | HeartbeatReplica (self : OutboxService)
  | StopReplica (self : OutboxService)
  | ExpireStaleReplicas
  | ReleaseStaleClaims
  | ClaimBatch (self : OutboxService) (limit : option Z)
  | RecordSuccess (self : OutboxService) (event token : string) (ack : BrokerPublishAck)
  | RecordFailure (self : OutboxService) (event token : string) (error : error_info)
  | Replay (self : OutboxService) (event : string) (actor reason : option string)
  | CancelEvent (self : OutboxService) (event : string) (actor : option string)
  | MarkProcessed (message subject payload : string) (stream consumer : option string)
  | OutboxTotals
  | RegisterRoute (replica owner kind target connection : string) (meta : pydict)
  | HeartbeatRoute (replica connection : string)
  | UnregisterRoute (replica connection : string)
  | PersistBrokerEvent (replica subject payload : string) (event : broker_event)
  | RecordDeliveryResults (results : list (string * bool))
  | ListNotifications (owner kind target : string) (status : option string) (limit : Z)
  | AcknowledgeNotification (owner kind target notification : string)
  | CreateChatContext (subject nonce : string) (project : option string)
  | BindChatContext (subject context reference : string)
  | ResolveChatContext (subject reference : string)
  | AdmitChatContext (subject tool : string) (arguments : pydict) (mode : pyval)
  | StartChatContext (subject : string)
  | RefreshChatContext (subject code : string)
  | CreateCredentialBinding (owner actor key : string) (data : pydict)
  | ListCredentialBindings (owner : string)
  | CreateServer (owner actor key : string) (data : pydict)
  | ListServers (owner : string) (status : option string)
  | UpdateServer (owner actor server key : string) (version : Z) (data : pydict)
  | DisableServer (owner actor server key : string) (version : Z)
  | RequestTransition (owner actor server key : string) (version : Z) (transition : string)
  | UpsertFederationPolicy (owner actor : string) (server : option string) (key : string)
      (version : Z) (data : pydict)
  | StoreToolRevision (owner actor server : string) (entry : descriptor)
      (protocol : option string) (generation : Z)
  | StoreCatalogSnapshot (owner actor server : string) (generation : Z)
      (protocol : option string) (entries : list descriptor) (changed : bool)
  | ClassifyRevision (owner actor revision key : string) (version : Z)
      (action read_only : string)
  | UpsertExposure (owner actor tool key : string) (version : Z) (data : pydict)
  | PrepareAction (user : User) (payload : prepare_input) (ttl : Z)
  | BeginAction (user : User) (payload : execute_input) (call : option string)
      (trace : call_trace)
  | FinishAction (user : User) (execution : execution) (answer : reply)
  | StartRead (user : User) (payload : read_input) (call : option string)
      (trace : call_trace)
  | CompleteCall (invocation : McpInvocation) (limited : UpstreamCallResult)
      (trace : call_trace)
  | FailCall (invocation : McpInvocation) (error : UpstreamMcpError)
      (trace : call_trace)
  | Authenticate (request : credentials)
  | Login (next : string)
  | SignIn (keycloak : string → string → string → result pydict) (query : callback_query)
  | RegisterClient (payload : pydict)
  | Authorize (request : credentials) (query : authorize_query)
  | ExchangeCode (form : token_form)
  | CreateDeviceCode
  | ActivateCode (request : credentials) (user_code : string)
  | ExchangeDeviceCode (device_code : string)
  | EnrolClient (authorization : string) (payload : thin_client_input)
  | ListThinClients (user : User)
  | DeleteThinClient (user : User) (client : string)
  | OpenSocket (owner client : string)
  | Receive (owner client : string) (connection : ThinClientConnection) (message : pydict)
  | DispatchCall (active : ThinClientConnection + ThinClientMcpError)
      (invocation : McpInvocation)
  | LoseConnection (owner client : string) (connection : ThinClientConnection)
  | SyncGatewayRoots (user : User) (server : string) (version : Z) (candidates : pyval)
  | ReviewRootGrant (user : User) (grant : string) (version : Z) (decision : string)
  | ListRootGrants (owner : string) (server status : option string)
  | GrantAccess (grant : AccessGrant)
  | RecordFileChange (change : FileChangeSet).

Definition ignore {A} (m : M A) : M unit := m;; mret tt.

Section system.
Context `{!Env}.

Definition handler (o : op) : M unit :=
  match o with
  | RegisterAgent o d => ignore (register_agent o d)
  | ListAgents o r => ignore (list_agents o r)
  | HeartbeatAgent o a d => ignore (heartbeat_agent o a d)
  | UnregisterAgent o a => ignore (unregister_agent o a)
  | CreateRoom o d => ignore (create_room o d)
  | ListRooms o s => ignore (list_rooms o s)
  | JoinRoom o r a => ignore (join_room o r a)
  | SendMessage o d => ignore (send_message o d)
  | ReadInbox o a l m => ignore (read_inbox o a l m)
  | AckMessage o a m => ignore (ack_message o a m)
  | IssueCommand o d => ignore (issue_command o d)
  | ListCommands o a s l => ignore (list_commands o a s l)
  | AckCommand o a c => ignore (ack_command o a c)
  | AcceptCommand o a c => ignore (accept_command o a c)
  | RejectCommand o a c e => ignore (reject_command o a c e)
  | CompleteCommand o a c s r e => ignore (complete_command o a c s r e)
  | CancelCommand o a c => ignore (cancel_command o a c)
  | CreateWorkItem o d => ignore (create_work_item o d)
  | ListWorkItems o r s l => ignore (list_work_items o r s l)
  | ClaimWorkItem o a i v => ignore (claim_work_item o a i v)
  | UpdateWorkItem o a i v d => ignore (update_work_item o a i v d)
  | RoomSnapshot o r => ignore (room_snapshot o r)
  | AcquireLease o d => ignore (acquire_lease o d)
  | ListLeases o r s h => ignore (list_leases o r s h)
  | RenewLease o l h f t => ignore (renew_lease o l h f t)
  | ReleaseLease o l a f b => ignore (release_lease o l a f b)
  | ValidateWriteContext o g r p d => ignore (validate_write_context o g r p d)
  | DetectConflicts o c k r => ignore (detect_conflicts o c k r)
  | ListHandoffs o r s => ignore (list_handoffs o r s)
  | ListIntegrations o r s => ignore (list_integrations o r s)
  | CreateHandoff o d => ignore (create_handoff o d)
  | MarkHandoffReady o h a => ignore (mark_handoff_ready o h a)
  | AcceptHandoff o h a c => ignore (accept_handoff o h a c)
  | CreateIntegration o d => ignore (create_integration o d)
  | CompleteIntegration o i a v s h d c => ignore (complete_integration o i a v s h d c)
  | CreatePolicy o a d => ignore (create_policy o a d)
  | ListPolicies o r s => ignore (list_policies o r s)
  | UpdatePolicy o a p v d => ignore (update_policy o a p v d)
  | ControlSnapshot o r p => ignore (control_snapshot o r p)
  | ListControls o b => ignore (list_controls o b)
  | SetControl o a rs d => ignore (set_control o a rs d)
  | RunAssignmentCycle o p s l => ignore (run_assignment_cycle o p s l)
  | ListAssignments o r p s => ignore (list_assignments o r p s)
  | ApplyAssignment o a s => ignore (apply_assignment o a s)
  | CreateApprovalRequest o a d => ignore (create_approval_request o a d)
  | ListApprovalRequests o u r s => ignore (list_approval_requests o u r s)
  | ReviewApproval r u v t => ignore (approval_review_projection r u v t)
  | CastVote r u d s => ignore (cast_vote r u d s)
  | IssuePermit o a r t => ignore (issue_permit o a r t)
  | ClaimPermit o p a => ignore (claim_permit o p a)
  | RecordReceipt o d => ignore (record_receipt o d)
  | ListPermits o s => ignore (list_permits o s)
  | ListReceipts o c => ignore (list_receipts o c)
  | CreateRecoveryLoop o a d => ignore (create_recovery_loop o a d)
  | RunRecoveryCycle o p a l => ignore (run_recovery_cycle o p a l)
  | RecordRecoveryOutcome o l s c e => ignore (record_recovery_outcome o l s c e)
  | ListRecoveryLoops o r s => ignore (list_recovery_loops o r s)
  | ApplyOverride o a rs d => ignore (apply_override o a rs d)
  | ListOverrides o l => ignore (list_overrides o l)
  | Metrics o => ignore (metrics o)
  | RegisterReplica self => ignore (register_replica self)
  | HeartbeatReplica self => ignore (heartbeat_replica self)
  | StopReplica self => ignore (stop_replica self)
  | ExpireStaleReplicas => ignore expire_stale_replicas_and_routes
  | ReleaseStaleClaims => ignore release_stale_claims
  | ClaimBatch self l => ignore (claim_batch self l)
  | RecordSuccess self e t a => ignore (_record_success self e t a)
  | RecordFailure self e t x => ignore (_record_failure self e t x)
  | Replay self e a r => ignore (replay self e a r)
  | CancelEvent self e a => ignore (cancel self e a)
  | MarkProcessed m s p st c => ignore (mark_processed m s p st c)
  | OutboxTotals => ignore outbox_totals
  | RegisterRoute r o k t c m => ignore (register_route r o k t c m)
  | HeartbeatRoute r c => ignore (heartbeat_route r c)
  | UnregisterRoute r c => ignore (unregister_route r c)
  | PersistBrokerEvent r s p e => ignore (_persist_broker_event r s p e)
  | RecordDeliveryResults l => ignore (_record_delivery_results l)
  | ListNotifications o k t s l => ignore (list_notifications o k t s l)
  | AcknowledgeNotification o k t n => ignore (acknowledge_notification o k t n)
  | CreateChatContext o n p => ignore (create_context o n p)
  | BindChatContext o c r => ignore (bind_context o c r)
  | ResolveChatContext o r => ignore (resolve_context o r)
  | AdmitChatContext o t a m => ignore (admit_chat_context o t a m)
  | StartChatContext o => ignore (start_chat_context o)
  | RefreshChatContext o c => ignore (refresh_chat_context o c)
  | CreateCredentialBinding o a k d => ignore (create_credential_binding o a k d)
  | ListCredentialBindings o => ignore (list_credential_bindings o)
  | CreateServer o a k d => ignore (create_server o a k d)
  | ListServers o s => ignore (list_servers o s)
  | UpdateServer o a s k v d => ignore (update_server o a s k v d "server.update")
  | DisableServer o a s k v => ignore (disable_server o a s k v)
  | RequestTransition o a s k v t => ignore (request_server_transition o a s k v t)
  | UpsertFederationPolicy o a s k v d => ignore (upsert_policy o a s k v d)
  | StoreToolRevision o a s e p g => ignore (store_tool_revision o a s e p g true true true)
  | StoreCatalogSnapshot o a s g p l c => ignore (store_catalog_snapshot o a s g p l c)
  | ClassifyRevision o a r k v c s => ignore (classify_revision o a r k v c s)
  | UpsertExposure o a t k v d => ignore (upsert_exposure o a t k v d)
  | PrepareAction u p t => ignore (prepare_action u p t)
  | BeginAction u p c t => ignore (begin_call u p c t)
  | FinishAction u e a => while_recorded (ec_preparation e) (ignore (finish_action u e a))
  | StartRead u p c t => ignore (start_read u p c t)
  | CompleteCall i r t => while_recorded i (ignore (complete_invocation i r t))
  | FailCall i e t => while_recorded i (fail_invocation i e t)
  | Authenticate c => ignore (get_current_user c)
  | Login n => ignore (login n)
  | SignIn k q => ignore (callback k q)
  | RegisterClient d => ignore (register_client d)
  | Authorize c q => ignore (authorize c q)
  | ExchangeCode f => ignore (token f)
  | CreateDeviceCode => ignore create_device_code
  | ActivateCode c u => ignore (activate_thin_client c u)
  | ExchangeDeviceCode c => ignore (device_token c)
  | EnrolClient a p => ignore (register_thin_client a p)
  | ListThinClients u => ignore (list_thin_clients u)
  | DeleteThinClient u c => delete_thin_client u c
  | OpenSocket o c => ignore (open_socket o c)
  | Receive o c s m => receive o c s m
  | DispatchCall a i => while_recorded i (dispatch a i)
  | LoseConnection o c s => mark_connection_disconnected o c s
  | SyncGatewayRoots u s v l => ignore (sync_gateway_roots u s v l)
  | ReviewRootGrant u g v d => ignore (review_root_grant_route u g v d)
  | ListRootGrants o s t => ignore (list_root_grants o s t)
  | GrantAccess g => put g;; commit
  | RecordFileChange c => put c;; commit
  end.

Definition exec (s : store) (o : op) : store := (run (handler o) s).2.

(** The stores that a sequence of operations leads to. *)
Inductive reachable : store → Prop :=
  | reachable_init ticks draws : reachable (mkStore empty_db ticks draws)
  | reachable_step s o : reachable s → reachable (exec s o).

Lemma pres_ignore {A} (I : db → Prop) (m : M A) : pres I m → pres I (ignore m).
Proof. intros. apply pres_bind; [done|]. intros. apply pres_ret. Qed.

(** Rule induction: a property of the empty database that every handler keeps
    holds in every reachable store. *)
Lemma reachable_invariant (I : db → Prop) :
  I empty_db → (∀ o, pres I (handler o)) → ∀ s, reachable s → I (st_db s).
Proof.
  intros H0 Hstep s. induction 1 as [|s o _ IH]; [done|].
  unfold exec. by apply pres_run.
Qed.

(** The same, when a step is known to start in a reachable store. *)
Lemma reachable_step_invariant (I : db → Prop) :
  I empty_db → (∀ s o, reachable s → I (st_db s) → I (st_db (exec s o))) →
  ∀ s, reachable s → I (st_db s).
Proof. intros H0 Hstep s. induction 1 as [|s o ? IH]; [done|]. by apply Hstep. Qed.

(** The database an operation leaves. *)
Lemma exec_wp (I : db → Prop) s o :
  wp (handler o) (λ _ w, I (committed w)) (open_session s) → I (st_db (exec s o)).
Proof. unfold exec, run, wp. by destruct (handler o (open_session s)). Qed.

Lemma exec_pres (I : db → Prop) s o :
  pres I (handler o) → I (st_db s) → I (st_db (exec s o)).
Proof. intros. unfold exec. by apply pres_run. Qed.

(** An operation keeps a property: its session starts on what was committed. *)
Definition keeps (I : db → Prop) (o : op) : Prop :=
  ∀ s, I (st_db s) → I (st_db (exec s o)).

Lemma pres_keeps (I : db → Prop) o : pres I (handler o) → keeps I o.
Proof. intros Hp s. by apply exec_pres. Qed.

Lemma wp_keeps (I : db → Prop) o :
  (∀ w, committed w = working w → I (working w) →
        wp (handler o) (λ _ w', I (committed w')) w) → keeps I o.
Proof. intros Hwp s Hs. by apply exec_wp, Hwp. Qed.

Lemma wp_ignore {A} (m : M A) (P : world → Prop) w :
  wp m (λ _ w', P w') w → wp (ignore m) (λ _ w', P w') w.
Proof.
  intros Hm. apply wp_bind. eapply wp_mono; [exact Hm|]. intros [a|e] w' ?; [|done].
  by apply wp_ret.
Qed.

(** A relation that every handler keeps relates a store to those after it. *)
Lemma exec_relation (Rel : db → db → Prop) :
  (∀ d, Rel d d) → (∀ d o, pres (Rel d) (handler o)) →
  ∀ s o, Rel (st_db s) (st_db (exec s o)).
Proof. intros H0 Hstep s o. unfold exec. apply (pres_run (Rel (st_db s))); auto. Qed.

Lemma run_ignore {A} (m : M A) s : (run (ignore m) s).2 = (run m s).2.
Proof.
  unfold run, ignore, mbind, M_bind. by destruct (m (open_session s)) as [[a|e] w].
Qed.

Definition exec_all (s : store) (os : list op) : store := foldl exec s os.

Lemma reachable_exec_all s os : reachable s → reachable (exec_all s os).
Proof.
  revert s. induction os as [|o os IH]; intros s Hs; [done|].
  apply (IH (exec s o)). by constructor.
Qed.
End system.

(** Close [pres I (handler o)] for the operations whose footprint [I] does not read. *)
Ltac frame :=
  unfold handler;
  first
    [ try apply pres_while_recorded; try apply pres_ignore;
      solve [typeclasses eauto with footprint typeclass_instances]
    | apply pres_bind; [apply pres_put|intros ?; apply pres_commit]; typeclasses eauto ].
