(* ===== verification/Evolution.v ===== *)
(** * How the rows of a table evolve

    [evolved E N d0 d]: every row of [d0] is still in [d], changed only as the
    preorder [E] allows, and every other row of [d] comes from one that satisfies
    [N] when it was inserted.  A handler that inserts such rows and rewrites rows it
    has just read keeps [evolved E N d0] for every [d0], which gives the theorems
    about immutable fields, monotone counters and absorbing states. *)

From S2P Require Import Prelude PyStr PyVal Errors Models Database Session Preserve.
From S2P Require Import Rows System.

Section evolution.
Context {R : Type} `{!Table R} `{!TableOk R}.
Context (E : relation R) `{!PreOrder E} (N : R → Prop).
Implicit Types (r : R) (d : db) (w : world).

Definition grows (d0 d : db) : Prop :=
  (∀ id r, tbl d0 !! id = Some r → ∃ r', tbl d !! id = Some r' ∧ E r r')
  ∧ (∀ id r', tbl d !! id = Some r' → tbl d0 !! id = None →
       ∃ r0, N r0 ∧ row_id r0 = id ∧ E r0 r').

Definition evolved (d0 d : db) : Prop := keyed R d ∧ grows d0 d.

Lemma grows_refl d : grows d d.
Proof. split; [intros id r Hr; by exists r|congruence]. Qed.

#[export] Instance grows_preorder : PreOrder grows.
Proof.
  split; [exact grows_refl|]. intros d1 d2 d3 [K1 N1] [K2 N2]. split.
  - intros id r Hr. destruct (K1 _ _ Hr) as (r2 & Hr2 & ?).
    destruct (K2 _ _ Hr2) as (r3 & ? & ?). exists r3. split; [done|]. by transitivity r2.
  - intros id r3 Hr3 Hnone. destruct (tbl d2 !! id) as [r2|] eqn:Hr2; [|eauto].
    destruct (N1 _ _ Hr2 Hnone) as (r0 & ? & ? & ?). destruct (K2 _ _ Hr2) as (r3' & ? & ?).
    simplify_eq. exists r0. split_and!; [done|done|]. by transitivity r2.
Qed.

Lemma evolved_write d0 d id r r' :
  evolved d0 d → tbl d !! id = Some r → row_id r' = row_id r → E r r' →
  evolved d0 (put_row r' d).
Proof.
  intros [HK [HG HN]] Hr Hid HE. pose proof (HK _ _ Hr) as Hkey.
  split; [by apply keyed_put|].
  split; intros i x; rewrite tbl_put_row, Hid, Hkey; destruct (decide (id = i)) as [->|Hne].
  - intros (x' & Hx' & HEx)%HG. rewrite lookup_insert_eq. exists r'. split; [done|].
    simplify_eq. by transitivity r.
  - rewrite lookup_insert_ne by done. apply HG.
  - rewrite lookup_insert_eq. intros [= <-] Hnone.
    destruct (HN _ _ Hr Hnone) as (r0 & ? & ? & ?). exists r0. split_and!; [done|done|].
    by transitivity r.
  - rewrite lookup_insert_ne by done. apply HN.
Qed.

Lemma evolved_insert d0 d r :
  N r → evolved d0 d → insertable r d = true → evolved d0 (put_row r d).
Proof.
  intros Hnew [HK [HG HN]] [Hfree _]%insertable_spec. split; [by apply keyed_put|].
  split; intros i x; rewrite tbl_put_row.
  - intros (x' & Hx' & ?)%HG. exists x'. split; [|done].
    rewrite lookup_insert_ne; [done|]. congruence.
  - intros [[<- <-]|[_ Hx]]%lookup_insert_Some; [|by apply HN].
    intros _. exists r. split_and!; [done|done|reflexivity].
Qed.

Lemma evolved_put_all d0 d f l :
  (∀ r, row_id (f r) = row_id r) → (∀ r, r ∈ l → E r (f r)) → NoDup (row_id <$> l) →
  (∀ r, r ∈ l → tbl d !! row_id r = Some r) → evolved d0 d → evolved d0 (put_all f l d).
Proof.
  intros Hid. revert d. induction l as [|r l IH]; intros d HE HN Hl HI; [done|].
  apply NoDup_cons in HN as [Hr HN].
  change (evolved d0 (put_all f l (put_row (f r) d))). apply IH; [|done| |].
  - intros; apply HE. by right.
  - intros r' Hr'. rewrite tbl_put_row, Hid, lookup_insert_ne; [apply Hl; by right|].
    intros Eq. apply Hr. rewrite Eq. apply list_elem_of_fmap. eauto.
  - eapply evolved_write; [done|apply Hl; left|apply Hid|apply HE; left].
Qed.

Lemma evolved_put_select d0 d f p :
  (∀ r, row_id (f r) = row_id r) → (∀ r, p r = true → E r (f r)) →
  evolved d0 d → evolved d0 (put_all f (select p d) d).
Proof.
  intros Hid HE HI. assert (keyed R d) as HK by apply HI. apply evolved_put_all; [done| | | |done].
  - intros r Hr. apply HE. by apply elem_of_select in Hr as [? _].
  - by apply NoDup_select.
  - intros r Hr. by apply elem_of_select_keyed in Hr as [_ Hr].
Qed.

Lemma pres_add_evolved d0 r : N r → pres (evolved d0) (add r).
Proof.
  intros HN. apply pres_intro. intros w Hc Hw. apply wp_add; intros Hi; split; simpl; try done.
  by apply evolved_insert.
Qed.

Lemma pres_update_row_evolved d0 id (p : R → bool) f :
  (∀ r, row_id (f r) = row_id r) → (∀ r, p r = true → E r (f r)) →
  pres (evolved d0) (update_row id p f).
Proof.
  intros Hid HE. apply pres_intro. intros w Hc Hw. unfold update_row.
  repeat wp_step; simplify_eq; split; simpl; try done. eapply evolved_write; eauto.
Qed.

(** ** Runs *)
Context `{!Env}.

Lemma exec_grows s o :
  (∀ d0, keeps (evolved d0) o) → keyed R (st_db s) →
  grows (st_db s) (st_db (exec s o)).
Proof.
  intros Hp HK. apply (Hp (st_db s)). split; [done|apply grows_refl].
Qed.

Context (Hall : ∀ o d0, keeps (evolved d0) o).

Lemma reachable_evolved s : reachable s → evolved empty_db (st_db s).
Proof.
  apply (reachable_step_invariant (evolved empty_db)); [|intros s' o _; by apply Hall].
  split; [|apply grows_refl]. intros id r. by rewrite tbl_empty.
Qed.

Lemma reachable_keyed s : reachable s → keyed R (st_db s).
Proof. intros Hs. by apply reachable_evolved in Hs as [? _]. Qed.

(** Where a row of a reachable store comes from. *)
Lemma reachable_origin s id r :
  reachable s → tbl (st_db s) !! id = Some r → ∃ r0, N r0 ∧ row_id r0 = id ∧ E r0 r.
Proof.
  intros [_ [_ HN]]%reachable_evolved Hr. apply (HN id r Hr). by rewrite tbl_empty.
Qed.

Lemma exec_all_grows s os : reachable s → grows (st_db s) (st_db (exec_all s os)).
Proof.
  revert s. induction os as [|o os IH]; intros s Hs; [reflexivity|].
  transitivity (st_db (exec s o)).
  - apply exec_grows; [apply Hall|by apply reachable_keyed].
  - apply (IH (exec s o)). by constructor.
Qed.

(** What becomes of a row. *)
Lemma exec_all_kept s os id r :
  reachable s → tbl (st_db s) !! id = Some r →
  ∃ r', tbl (st_db (exec_all s os)) !! id = Some r' ∧ E r r'.
Proof. intros Hs. apply exec_all_grows, Hs. Qed.
End evolution.

(** ** Rows that keep their terms

    A handler may write back a row it read before calling others: nobody changed the
    terms of the row in between. *)
Section holding.
Context {R : Type} `{!Table R} `{!TableOk R} {X : Type} (terms : R → X).

Definition same_terms : relation R := λ r r', terms r' = terms r.
#[export] Instance same_terms_preorder : PreOrder same_terms.
Proof. split; [done|]. unfold same_terms. intros ???; congruence. Qed.

Definition holding (N : R → Prop) (d0 : db) (r : R) (d : db) : Prop :=
  evolved same_terms N d0 d ∧ ∃ r', tbl d !! row_id r = Some r' ∧ terms r' = terms r.

Lemma holding_evolved N d0 r d : holding N d0 r d → evolved same_terms N d0 d.
Proof. by intros [? _]. Qed.

Lemma holding_found N d0 (r : R) id d :
  evolved same_terms N d0 d → tbl d !! id = Some r → holding N d0 r d ∧ row_id r = id.
Proof.
  intros HI Hr. assert (row_id r = id) as Hid by by apply (proj1 HI). split; [|done].
  split; [done|]. exists r. by rewrite Hid.
Qed.

Lemma pres_put_holding N d0 (r r' : R) :
  row_id r' = row_id r → terms r' = terms r → pres (holding N d0 r) (put r').
Proof.
  intros Hid Ht w Hc [HI (c & Hr & Hc')]. split; [done|]. split.
  - eapply evolved_write; [apply _|exact HI|exact Hr| |].
    + pose proof (proj1 HI _ _ Hr) as Hk. congruence.
    + unfold same_terms. congruence.
  - exists r'. unfold on_working. simpl. rewrite tbl_put_row, Hid, lookup_insert_eq. done.
Qed.

(** The session's current version of a row that is held. *)
Lemma wp_current_state_holding N d0 (r x : R) (Q : result R → world → Prop) w :
  holding N d0 r (working w) → row_id x = row_id r →
  (∀ r', row_id r' = row_id r → terms r' = terms r → Q (Ok r') w) →
  wp (current_state x) Q w.
Proof.
  intros [HI (c & Hr & Hc)] Hx HQ. unfold current_state, reads, wp, lookup_row. simpl.
  rewrite Hx, Hr. simpl. apply HQ; [|done]. exact (proj1 HI _ _ Hr).
Qed.
End holding.

#[export] Hint Extern 1 (pres (holding _ _ _ _) (put _)) =>
  apply pres_put_holding; first [reflexivity | eassumption] : pres_db.

(** Rows are inserted as [N] says. *)
#[export] Hint Extern 1 (pres (evolved _ _ _) (add _)) =>
  apply pres_add_evolved; [..|by repeat split]; typeclasses eauto : pres_db.

(** * Histories

    In a sequence of operations that leads to a store with a property, the operation that
    brought the property about, after which it held all the time. *)

Section history.
Context `{!Env}.
Implicit Types (s : store) (os : list op).

Lemma exec_all_app s os1 os2 : exec_all s (os1 ++ os2) = exec_all (exec_all s os1) os2.
Proof. apply foldl_app. Qed.

Context (P : store → Prop) `{!∀ s, Decision (P s)}.

(** [os1] leads to a store without [P], [o] brings [P] about, and it stays. *)
Record brought_about (s : store) (os os1 : list op) (o : op) (os2 : list op) : Prop := {
  ba_split : os = os1 ++ o :: os2;
  ba_before : ¬ P (exec_all s os1);
  ba_after : ∀ os3 os4, os2 = os3 ++ os4 → P (exec_all s (os1 ++ o :: os3));
}.

Lemma history s os :
  ¬ P s → P (exec_all s os) → ∃ os1 o os2, brought_about s os os1 o os2.
Proof.
  induction os as [|o os IH] using rev_ind; intros Hn0 HP; [done|].
  destruct (decide (P (exec_all s os))) as [Hp|Hn].
  - destruct (IH Hn0 Hp) as (os1 & o' & os2 & Hb). exists os1, o', (os2 ++ [o]).
    split; [by rewrite (ba_split _ _ _ _ _ Hb), <-app_assoc|apply Hb|]. intros os3 os4 E.
    destruct os4 as [|x os4 _] using rev_ind.
    + rewrite app_nil_r in E. subst os3.
      by rewrite app_comm_cons, app_assoc, <-(ba_split _ _ _ _ _ Hb).
    + rewrite app_assoc in E. apply app_inj_tail in E as [E _].
      by apply (ba_after _ _ _ _ _ Hb os3 os4).
  - exists os, o, []. split; [done..|]. intros os3 os4 E. symmetry in E.
    apply app_eq_nil in E as [-> ->]. exact HP.
Qed.

Lemma brought_about_step s os os1 o os2 :
  brought_about s os os1 o os2 → P (exec (exec_all s os1) o).
Proof.
  intros Hb. pose proof (ba_after _ _ _ _ _ Hb [] os2 eq_refl) as HP.
  by rewrite exec_all_app in HP.
Qed.
End history.
