(* ===== verification/Demo.v ===== *)
(** * A concrete environment and a run of the control plane

    An environment in which every second is one tick of the clock, identifiers are
    numbered and the digest is the text itself, with short runs of the handlers.
    The witnesses of the theorems are stated on the states of these runs. *)

From S2P Require Import Prelude PyStr PyVal PyFloat Errors Models Database Session Preserve.
From S2P Require Import Rows Collaboration Coordination Autonomy Controls.
From S2P Require Import Assignments Approvals Permits Recovery Footprint System.

#[export] Instance demo_env : Env := {|
  clock n := (1700000000 + Z.of_nat n) * 1000000;
  uuid_source n := "id-" +:+ pretty (Z.of_nat n);
  code_source n := "A" +:+ pad 3 (Z.of_nat n);
  sha256_hexdigest s := s;
  hmac_sha256 key message := key +:+ message;
  fernet_encrypt n v := v;
  fernet_decrypt v := Some v;
  schema_violation schema v := None;
  nfkc s := s;
  ip_literal s := false;
  urlsafe_source n := "token-" +:+ pretty (Z.of_nat n);
  hex_source n := "C0DE0" +:+ pretty (Z.of_nat n);
  uuid5 namespace name := namespace +:+ name;
  jwt_encode claims := json_dumps (PDict claims);
  jwt_decode now token := None;
  settings := {|
    gateway_autonomy_enabled := true;
    gateway_autonomy_emergency_stop := false;
    gateway_autonomy_assignment_batch_size := 10;
    gateway_autonomy_approval_ttl_seconds := 3600;
    gateway_autonomy_permit_ttl_seconds := 600;
    gateway_outbox_enabled := false;
    gateway_outbox_max_attempts := 5;
    gateway_nats_subject_prefix := "gateway";
    gateway_outbox_batch_size := 100;
    gateway_outbox_retry_base_seconds := float_scale 1 0;
    gateway_outbox_retry_max_seconds := float_scale 300 0;
    gateway_outbox_lock_ttl_seconds := 60;
    gateway_broker_backend := "memory";
    gateway_replica_ttl_seconds := 30;
    gateway_realtime_route_ttl_seconds := 90;
    gateway_realtime_notification_ttl_seconds := 86400;
    gateway_nats_stream := "GATEWAY";
    gateway_chat_context_enabled := true;
    gateway_chat_context_ttl_seconds := 300;
    gateway_chat_context_renew_threshold_seconds := 100;
    gateway_chat_context_quarantine_seconds := 600;
    gateway_chat_context_allocation_attempts := 64;
    gateway_chat_context_hmac_key := "0123456789abcdef0123456789abcdef";
    gateway_chat_context_hmac_key_version := 1;
    gateway_affine_approval_server_endpoint := "http://affine:3010/mcp";
    gateway_affine_approval_preview_max_chars := 1200;
    gateway_affine_approval_preview_max_items := 20;
    gateway_mcp_federation_writes_paused := false;
    public_base_url := "http://localhost:8000";
    gateway_dev_auth := false;
    gateway_dev_subject := "dev:local";
    gateway_dev_username := "local";
    gateway_dev_email := None;
    gateway_dev_roles := "gateway-user";
    gateway_session_cookie := "gateway_session";
    keycloak_issuer := "http://localhost:8080/realms/chatgpt-mcp";
    keycloak_client_id := "chatgpt-mcp-gateway";
    gateway_access_token_ttl_seconds := 864000;
    gateway_auth_code_ttl_seconds := 600;
    oauth_audience := "chatgpt-mcp-ssh-gateway";
    oauth_supported_scopes := "workspace:read chat-context:write";
    gateway_browser_extension_client_id := "atlas-chatgpt-browser-extension";
    gateway_browser_extension_redirect_uri := "https://extension.example/oauth2";
    gateway_browser_extension_oauth_scopes := "workspace:read chat-context:write";
    gateway_browser_extension_access_token_ttl_seconds := 3600;
    gateway_device_code_ttl_seconds := 600;
    gateway_thin_client_token_ttl_seconds := 2592000;
  |};
|}.

Definition demo_start : store := mkStore empty_db 0 0.

Definition owner : string := "alice".

(** A room (id-0) with three agents (id-2, id-4, id-6). *)
Definition demo_room : list op := [
  CreateRoom owner [("title", PStr "demo")];
  RegisterAgent owner [("logical_agent_id", PStr "coord"); ("instance_id", PStr "c1");
    ("room_id", PStr "id-0"); ("ttl_seconds", PInt 3600);
    ("capabilities", PList [PStr "coordinator"])];
  RegisterAgent owner [("logical_agent_id", PStr "writer"); ("instance_id", PStr "w1");
    ("room_id", PStr "id-0"); ("ttl_seconds", PInt 3600)];
  RegisterAgent owner [("logical_agent_id", PStr "writer"); ("instance_id", PStr "w2");
    ("room_id", PStr "id-0"); ("ttl_seconds", PInt 3600)]].

Definition lease_data (holder branch path : string) : pydict := [
  ("room_id", PStr "id-0"); ("holder_agent_id", PStr holder); ("origin", PStr "server");
  ("reservations", PList [PDict [("pattern", PStr path)]]);
  ("branch_name", PStr branch); ("worktree_path", PStr ("wt/" +:+ branch));
  ("base_commit", PStr "c0"); ("ttl_seconds", PInt 3600)].

(** Two exclusive leases on disjoint directories (id-8, id-10); the third request
    overlaps the first and is refused. *)
Definition demo_leases : list op := demo_room ++ [
  AcquireLease owner (lease_data "id-4" "b1" "src/api");
  AcquireLease owner (lease_data "id-6" "b2" "docs");
  AcquireLease owner (lease_data "id-6" "b3" "src/api/v1")].

Definition leases_store : store := exec_all demo_start demo_leases.

Lemma leases_store_reachable : reachable leases_store.
Proof. apply reachable_exec_all. constructor. Qed.

Example leases_store_leases :
  (λ l, (ls_id l, ls_fencing_token l, ls_status l)) <$> rows (st_db leases_store)
  = [("id-10", 2, "active"); ("id-8", 1, "active")].
Proof. vm_compute. reflexivity. Qed.

(** ** The chain of authority

    A write with a quorum of one and the proposer excluded: the coordinator (id-2)
    orders a tool run from an agent (id-4), a reviewer approves it, the agent claims
    the permit, reports, and completes the command. *)
Definition reviewer : User := mkUser 1 "carol" "carol" None ["gateway-admin"] [] "oidc" 0 0.

Definition tool_payload : pyval :=
  PDict [("tool", PStr "write_file"); ("arguments", PDict [("path", PStr "a.txt")])].

Definition demo_policy : list op := demo_room ++ [
  CreatePolicy owner owner [("room_id", PStr "id-0"); ("name", PStr "p");
    ("allowed_action_classes", PList [PStr "write"]);
    ("allowed_tools", PList [PStr "write_file"]); ("coordinator_agent_id", PStr "id-2")];
  IssueCommand owner [("room_id", PStr "id-0"); ("issuer_agent_id", PStr "id-2");
    ("target_agent_id", PStr "id-4"); ("kind", PStr "run_tool");
    ("instruction", PStr "write it"); ("structured_payload", tool_payload);
    ("requires_approval", PBool true)]].

Definition policy_store : store := exec_all demo_start demo_policy.

(** A pending request (id-12) for the command (id-10). *)
Definition request_store : store := exec policy_store
  (CreateApprovalRequest owner owner [("policy_id", PStr "id-8"); ("command_id", PStr "id-10");
    ("executor_agent_id", PStr "id-4"); ("action_class", PStr "write")]).

(** The request is approved, the command accepted, and a permit (id-17) issued. *)
Definition demo_permit : list op := [
  CastVote "id-12" reviewer "approve" None;
  AcceptCommand owner "id-4" "id-10";
  IssuePermit owner owner "id-12" None].
Definition permit_store : store := exec_all request_store demo_permit.
Definition claimed_store : store := exec permit_store (ClaimPermit owner "id-17" "id-4").

(** The receipt (id-20) and the completion of the command. *)
Definition demo_report : list op := [
  RecordReceipt owner [("permit_id", PStr "id-17"); ("executor_agent_id", PStr "id-4");
    ("fencing_token", PInt 1); ("status", PStr "succeeded"); ("started_at", PTime 5);
    ("completed_at", PTime 7)];
  CompleteCommand owner "id-4" "id-10" "completed" None None].
Definition finished_store : store := exec_all claimed_store demo_report.

Lemma request_store_reachable : reachable request_store.
Proof. apply (reachable_step policy_store), reachable_exec_all. constructor. Qed.
Lemma permit_store_reachable : reachable permit_store.
Proof. exact (reachable_exec_all _ _ request_store_reachable). Qed.
Lemma claimed_store_reachable : reachable claimed_store.
Proof. exact (reachable_step _ _ permit_store_reachable). Qed.
Lemma finished_store_reachable : reachable finished_store.
Proof. exact (reachable_exec_all _ _ claimed_store_reachable). Qed.

Example finished_store_rows :
  (λ c, (cmd_id c, cmd_status c)) <$> rows (st_db finished_store) = [("id-10", "completed")]
  ∧ (λ a, (apr_id a, apr_status a)) <$> rows (st_db finished_store) = [("id-12", "approved")]
  ∧ (λ p, (pmt_id p, pmt_status p)) <$> rows (st_db finished_store) = [("id-17", "consumed")]
  ∧ (λ r, (rcpt_id r, rcpt_status r)) <$> rows (st_db finished_store)
    = [("id-20", "succeeded")].
Proof. vm_compute. done. Qed.

(** ** A recovery

    A loop (id-12) for the command, attempted once and reported as failed. *)
Definition demo_recovery : list op := [
  CreateRecoveryLoop owner owner [("policy_id", PStr "id-8"); ("room_id", PStr "id-0");
    ("target_agent_id", PStr "id-4"); ("source_type", PStr "command");
    ("source_id", PStr "id-10"); ("strategy", PDict [("kind", PStr "instruction");
    ("instruction", PStr "try again")])];
  RunRecoveryCycle owner "id-8" owner 10].
Definition recovery_store : store := exec_all policy_store demo_recovery.
Definition demo_outcome : list op := [RecordRecoveryOutcome owner "id-12" "failed" None None].

Lemma policy_store_reachable : reachable policy_store.
Proof. apply reachable_exec_all. constructor. Qed.
Lemma recovery_store_reachable : reachable recovery_store.
Proof. exact (reachable_exec_all _ _ policy_store_reachable). Qed.

Example recovery_store_loop :
  (λ l, (rec_id l, rec_status l, rec_attempt_count l, rec_last_command_id l)) <$>
    rows (st_db recovery_store) = [("id-12", "waiting", 1, Some "id-14")]
  ∧ (λ l, (rec_status l, rec_next_attempt_at l - rec_updated_at l)) <$>
    rows (st_db (exec_all recovery_store demo_outcome)) = [("planned", 30000000)].
Proof. vm_compute. auto. Qed.

(** ** A paused room

    The room is paused while the permit (id-17) is open. *)
Definition pause_data : pydict := [("scope_type", PStr "room"); ("scope_id", PStr "id-0");
  ("state", PStr "paused"); ("reason", PStr "incident")].
Definition paused_store : store :=
  exec permit_store (SetControl owner owner ["gateway-admin"] pause_data).

Lemma paused_store_reachable : reachable paused_store.
Proof. exact (reachable_step _ _ permit_store_reachable). Qed.

Example paused_store_permit :
  (λ p, (pmt_id p, pmt_status p)) <$> rows (st_db paused_store) = [("id-17", "revoked")].
Proof. vm_compute. reflexivity. Qed.
