(* ===== verification/LeaseProofs.v ===== *)
(** * Leases: mutual exclusion and fencing

    The invariant on the leases of a room and its preservation by every operation;
    what a validated write context promises. *)

From S2P Require Import Prelude PyStr PyVal Errors Paths Models Database Session.
From S2P Require Import Preserve Rows Coordination Footprint System Demo.

Definition lease_compatible (l l' : ResourceLease) : Prop :=
  ls_mode l = "shared_read" ∧ ls_mode l' = "shared_read"
  ∨ reservation_sets_overlap (ls_reservations l) (ls_reservations l') = false
    ∧ (opt_truthy (ls_branch_name l) = true → ls_branch_name l ≠ ls_branch_name l')
    ∧ (opt_truthy (ls_worktree_path l) = true → ls_worktree_path l ≠ ls_worktree_path l').

(** Two leases of one room have different fencing tokens, and are compatible when
    both are active. *)
Definition leases_agree (l l' : ResourceLease) : Prop :=
  ls_owner_subject l = ls_owner_subject l' → ls_room_id l = ls_room_id l' →
  ls_fencing_token l ≠ ls_fencing_token l'
  ∧ (ls_status l = "active" → ls_status l' = "active" → lease_compatible l l').

Definition lease_inv (d : db) : Prop :=
  keyed ResourceLease d
  ∧ (∀ id l, leases d !! id = Some l →
       1 ≤ ls_fencing_token l ∧ Forall wf_reservation (ls_reservations l))
  ∧ ∀ id l id' l', leases d !! id = Some l → leases d !! id' = Some l' → id ≠ id' →
      leases_agree l l'.

(** What the operations do to an existing lease. *)
Definition lease_evolves (l l' : ResourceLease) : Prop :=
  ls_id l' = ls_id l ∧ ls_owner_subject l' = ls_owner_subject l
  ∧ ls_room_id l' = ls_room_id l ∧ ls_fencing_token l' = ls_fencing_token l
  ∧ ls_holder_agent_id l' = ls_holder_agent_id l ∧ ls_mode l' = ls_mode l
  ∧ ls_reservations l' = ls_reservations l ∧ ls_branch_name l' = ls_branch_name l
  ∧ ls_worktree_path l' = ls_worktree_path l
  ∧ (ls_status l' = "active" → ls_status l = "active").

Lemma lease_evolves_refl l : lease_evolves l l.
Proof. by unfold lease_evolves. Qed.

Lemma lease_evolves_trans l1 l2 l3 :
  lease_evolves l1 l2 → lease_evolves l2 l3 → lease_evolves l1 l3.
Proof. unfold lease_evolves. intuition congruence. Qed.

Lemma leases_agree_sym l l' : leases_agree l l' → leases_agree l' l.
Proof.
  intros H Ho Hr. destruct H as [Hf Hc]; [done|done|]. split; [done|].
  intros Ha Ha'. destruct (Hc Ha' Ha) as [[? ?]|(Hov & Hb & Hw)]; [by left|right].
  rewrite reservation_sets_overlap_comm. split_and!; [done| |].
  - intros Ht E. apply Hb; [by rewrite <-E|done].
  - intros Ht E. apply Hw; [by rewrite <-E|done].
Qed.

Lemma leases_agree_evolves l1 l2 l1' l2' :
  lease_evolves l1 l1' → lease_evolves l2 l2' → leases_agree l1 l2 → leases_agree l1' l2'.
Proof.
  intros (_&Ho1&Hr1&Hf1&_&Hm1&Hv1&Hb1&Hw1&Ha1) (_&Ho2&Hr2&Hf2&_&Hm2&Hv2&Hb2&Hw2&Ha2).
  unfold leases_agree, lease_compatible.
  rewrite Ho1, Ho2, Hr1, Hr2, Hf1, Hf2, Hm1, Hm2, Hv1, Hv2, Hb1, Hb2, Hw1, Hw2.
  intros H Ho Hr. destruct (H Ho Hr) as [Hf Hc]. auto.
Qed.

Lemma leases_put_row (l : ResourceLease) d :
  leases (put_row l d) = <[ls_id l := l]> (leases d).
Proof. done. Qed.

(** ** Updates of existing leases *)
Lemma lease_inv_update l l' d :
  leases d !! ls_id l = Some l → lease_evolves l l' → lease_inv d → lease_inv (put_row l' d).
Proof.
  intros Hl He (HK & Hpos & Hag). pose proof He as (Hid & _ & _ & Hf & _ & _ & Hres & _).
  split_and!.
  - by apply stable.
  - intros id l0. rewrite leases_put_row, lookup_insert_Some.
    intros [[_ <-]|[_ ?]]; [rewrite Hf, Hres|]; eauto.
  - intros id1 l1 id2 l2. rewrite leases_put_row, Hid, !lookup_insert_Some.
    intros [[<- <-]|[? Hl1]] [[<- <-]|[? Hl2]] Hne; [done| | |eauto].
    + eapply leases_agree_evolves; [exact He|apply lease_evolves_refl|eauto].
    + eapply leases_agree_evolves; [apply lease_evolves_refl|exact He|eauto].
Qed.

Lemma lease_inv_put_all f l d :
  (∀ x, lease_evolves x (f x)) → NoDup (row_id <$> l) →
  (∀ x, x ∈ l → tbl d !! row_id x = Some x) → lease_inv d → lease_inv (put_all f l d).
Proof.
  intros Hf. revert d. induction l as [|x l IH]; intros d HN Hl HI; [done|].
  change (lease_inv (put_all f l (put_row (f x) d))).
  apply NoDup_cons in HN as [Hx HN]. apply IH; [done| |].
  - intros y Hy. rewrite tbl_put_row. pose proof (Hf x) as (Hid & _). simpl. rewrite Hid.
    rewrite lookup_insert_ne; [apply Hl; by right|].
    intros E. apply Hx, list_elem_of_fmap. by exists y.
  - eapply lease_inv_update; [apply Hl; left|apply Hf|done].
Qed.

Lemma lease_inv_keyed d : lease_inv d → keyed ResourceLease d.
Proof. by intros [? _]. Qed.

Lemma lease_of_select p l d :
  lease_inv d → l ∈ select p d → p l = true ∧ leases d !! ls_id l = Some l.
Proof. intros HI%lease_inv_keyed H. by apply elem_of_select_keyed in H. Qed.

Section handlers.
Context `{!Env}.

Lemma expired_lease_evolves now l : lease_evolves l (expired_lease now l).
Proof. unfold lease_evolves, expired_lease. set_simpl. split_and!; done. Qed.

Lemma expire_stale_leases_inv o : pres lease_inv (expire_stale_leases o).
Proof.
  apply pres_intro. intros w Hc Hw. unfold expire_stale_leases.
  wp_step. wp_step. wp_step. wp_step. wp_step.
  apply wp_foreach_put.
  assert (lease_inv (put_all (expired_lease (clock (ticks w)))
    (filter (λ l, lease_is_stale (clock (ticks w)) l = true)
       (select (λ l, (ls_owner_subject l ==? o) && (ls_status l ==? "active"))
          (working w))) (working w))) as HI.
  { apply lease_inv_put_all; [apply expired_lease_evolves| | |done].
    - apply NoDup_filter_fmap. by apply NoDup_select, lease_inv_keyed.
    - intros x [_ Hx]%list_elem_of_filter. by eapply lease_of_select in Hx as [_ ?]. }
  repeat wp_step; by split.
Qed.

Lemma find_row_lease o id w Q :
  (∀ l, leases (working w) !! id = Some l → ls_owner_subject l = o → Q (Ok l) w) →
  (∀ e, Q (Raise e) w) → wp (_lease o id) Q w.
Proof.
  intros HOk HR. unfold _lease. repeat wp_step; simplify_eq; [|apply HR].
  apply HOk; [done|]. by eapply bool_decide_eq_true.
Qed.

Hint Resolve expire_stale_leases_inv : pres_db.


Lemma check_lease_conflict_ok l l' w :
  (check_lease_conflict (ls_mode l) (ls_reservations l) (ls_branch_name l)
     (ls_worktree_path l) l' w).1 = Ok tt → lease_compatible l l'.
Proof.
  unfold check_lease_conflict. destruct (_ && _) eqn:Hm.
  - intros _. left. by apply andb_true_iff in Hm as [?%bool_decide_eq_true ?%bool_decide_eq_true].
  - intros H1. right. unfold fail_if, mbind, M_bind in H1.
    destruct (reservation_sets_overlap _ _); [done|].
    destruct (opt_truthy (ls_branch_name l) && _) eqn:Hb; [done|].
    destruct (opt_truthy (ls_worktree_path l) && _) eqn:Hw; [done|].
    apply andb_false_iff in Hb, Hw. split_and!; [done| |].
    + intros Ht E. rewrite Ht in Hb. destruct Hb as [|Hb%bool_decide_eq_false]; congruence.
    + intros Ht E. rewrite Ht in Hw. destruct Hw as [|Hw%bool_decide_eq_false]; congruence.
Qed.

Lemma lease_inv_insert l d :
  lease_inv d → leases d !! ls_id l = None → Forall wf_reservation (ls_reservations l) →
  ls_fencing_token l = max_fencing_token (ls_owner_subject l) (ls_room_id l) d + 1 →
  (∀ l', l' ∈ select (λ l', (ls_owner_subject l' ==? ls_owner_subject l)
                && (ls_room_id l' ==? ls_room_id l) && (ls_status l' ==? "active")) d →
         lease_compatible l l') →
  lease_inv (put_row l d).
Proof.
  intros HI Hnew Hwf Htok Hcomp.
  assert (∀ id l', leases d !! id = Some l' → leases_agree l l') as Hagree.
  { intros id l' Hl' Ho Hr. split.
    - rewrite Htok. assert (ls_fencing_token l' ≤ max_fencing_token
        (ls_owner_subject l) (ls_room_id l) d); [|lia].
      apply max_Z_ub, list_elem_of_In, in_map, list_elem_of_In, elem_of_select.
      split; [|by exists id]. by rewrite !bool_decide_eq_true_2.
    - intros _ Ha. apply Hcomp, elem_of_select. split; [|by exists id].
      by rewrite !bool_decide_eq_true_2. }
  destruct HI as (HK & Hpos & Hag). split_and!.
  - by apply stable.
  - intros id l0. rewrite leases_put_row, lookup_insert_Some.
    intros [[_ <-]|[_ ?]]; [|eauto]. split; [|done].
    rewrite Htok. unfold max_fencing_token. pose proof (max_Z_nonneg
      (map ls_fencing_token (room_leases (ls_owner_subject l) (ls_room_id l) d))). lia.
  - intros id1 l1 id2 l2. rewrite leases_put_row, !lookup_insert_Some.
    intros [[<- <-]|[? Hl1]] [[<- <-]|[? Hl2]] Hne; [done| | |eauto].
    + eauto.
    + apply leases_agree_sym. eauto.
Qed.

Lemma check_lease_conflict_stateless m rs b p l :
  stateless (check_lease_conflict m rs b p l).
Proof. unfold check_lease_conflict. stl_go. Qed.

Lemma acquire_lease_inv o d : pres lease_inv (acquire_lease o d).
Proof.
  apply pres_intro. intros w Hc Hw. unfold acquire_lease. wp_inv lease_inv;
    wp_event lease_inv.
  all: match goal with Hins : insertable _ _ = true |- _ =>
         apply insertable_spec in Hins as [Hnew _] end.
  all: apply lease_inv_insert; [assumption|exact Hnew
    |eapply normalize_reservations_forall; eassumption|reflexivity|].
  all: intros l' Hl'; match goal with Hf : (foreach _ _ _).1 = Ok ?u |- _ =>
      destruct u; eapply foreach_ok in Hf;
      [eapply check_lease_conflict_ok; exact Hf|intros; apply check_lease_conflict_stateless
      |exact Hl'] end.
Qed.

Lemma lease_inv_write o id l l' w :
  lease_inv (working w) → (_lease o id w).1 = Ok l → lease_evolves l l' →
  lease_inv (put_row l' (working w)).
Proof.
  intros HI Hl He. apply find_require_ok in Hl as [Hl _].
  eapply lease_inv_update; [|exact He|done].
  pose proof (lease_inv_keyed _ HI id l Hl) as E. simpl in E. by rewrite E.
Qed.

Lemma renew_lease_inv o l h f t : pres lease_inv (renew_lease o l h f t).
Proof.
  apply pres_intro. intros w Hc Hw. unfold renew_lease. wp_inv lease_inv.
  wp_event lease_inv. eapply lease_inv_write; [done|eassumption|].
  unfold lease_evolves; set_simpl; split_and!; done.
Qed.

Lemma release_lease_inv o l a f b : pres lease_inv (release_lease o l a f b).
Proof.
  apply pres_intro. intros w Hc Hw. unfold release_lease. wp_inv lease_inv;
  wp_event lease_inv; (eapply lease_inv_write; [done|eassumption|]);
  unfold lease_evolves; set_simpl; repeat case_match; split_and!; done.
Qed.

Lemma list_leases_inv o r s h : pres lease_inv (list_leases o r s h).
Proof. pres_go. Qed.

Lemma covering_leases_inv o g r p : pres lease_inv (covering_leases o g r p).
Proof. pres_go. Qed.
Hint Resolve covering_leases_inv : pres_db.

Lemma validate_write_context_inv o g r p d :
  pres lease_inv (validate_write_context o g r p d).
Proof. pres_go. Qed.

Lemma handler_lease_inv op : pres lease_inv (handler op).
Proof.
  destruct op; try solve [frame]; apply pres_ignore.
  - apply acquire_lease_inv.
  - apply list_leases_inv.
  - apply renew_lease_inv.
  - apply release_lease_inv.
  - apply validate_write_context_inv.
Qed.
End handlers.

Lemma lease_inv_empty : lease_inv empty_db.
Proof. split_and!; intros ? ? *; discriminate. Qed.




