(* ===== verification/CommandProofs.v ===== *)
(** * Commands: the state machine, approval before acceptance, receipts

    Every operation moves a command forward or leaves it; what a command says
    never changes; a command that requires approval is only accepted once an
    approval is recorded, and only completed against a receipt. *)

From S2P Require Import Prelude PyStr PyVal Errors Validate Models Database Session.
From S2P Require Import Preserve Rows Collaboration Autonomy Controls Approvals.
From S2P Require Import Permits Recovery FederationBroker Footprint System Evolution Demo.

(** ** The life cycle *)

(** The position of a status in the life cycle; every terminal status is last. *)
Definition stage (status : string) : nat :=
  if status ==? "pending" then 0 else if status ==? "delivered" then 1
  else if status ==? "acknowledged" then 2 else if status ==? "accepted" then 3
  else if status ==? "running" then 4 else 5.

Definition terminal (status : string) : Prop := status ∈ COMMAND_TERMINAL_STATUSES.

(** What a command orders, and from whom to whom. *)
Definition command_order (c : AgentCommand) :=
  (cmd_id c, cmd_owner_subject c, _command_envelope c, cmd_requires_approval c,
   (cmd_priority c, cmd_idempotency_key c, cmd_created_at c)).

Lemma command_order_fields c c' :
  command_order c' = command_order c →
  cmd_id c' = cmd_id c ∧ cmd_owner_subject c' = cmd_owner_subject c
  ∧ _command_envelope c' = _command_envelope c
  ∧ cmd_target_agent_id c' = cmd_target_agent_id c ∧ cmd_kind c' = cmd_kind c
  ∧ cmd_requires_approval c' = cmd_requires_approval c.
Proof.
  intros Ho. assert (_command_envelope c' = _command_envelope c) as He
    by exact (f_equal (λ x, x.1.1.2) Ho).
  split_and!; try done; by injection Ho.
Qed.

(** The status of a command whose target has accepted it. *)
Definition accepted (status : string) : Prop :=
  status ∈ ["accepted"; "running"; "completed"; "failed"].
Definition finished (status : string) : Prop := status ∈ ["completed"; "failed"].

#[export] Instance terminal_dec s : Decision (terminal s) := decide (s ∈ _).
#[export] Instance accepted_dec s : Decision (accepted s) := decide (s ∈ _).
#[export] Instance finished_dec s : Decision (finished s) := decide (s ∈ _).

(** [ap]: approvals may be recorded on the command; [fin]: it may be completed. *)
Record command_evolves (ap fin : bool) (c c' : AgentCommand) : Prop := {
  ce_order : command_order c' = command_order c;
  ce_stage : (stage (cmd_status c) ≤ stage (cmd_status c'))%nat;
  ce_terminal : terminal (cmd_status c) →
    cmd_status c' = cmd_status c ∧ cmd_result c' = cmd_result c
    ∧ cmd_error c' = cmd_error c ∧ cmd_completed_at c' = cmd_completed_at c;
  ce_attempts : cmd_delivery_attempts c ≤ cmd_delivery_attempts c';
  ce_approval : cmd_approved_by_subject c' = cmd_approved_by_subject c
    ∨ ap = true ∧ is_Some (cmd_approved_by_subject c');
  ce_accepted : accepted (cmd_status c') → accepted (cmd_status c)
    ∨ (cmd_requires_approval c = true → is_Some (cmd_approved_by_subject c'));
  ce_finished : finished (cmd_status c') → finished (cmd_status c)
    ∧ cmd_status c' = cmd_status c ∨ fin = true;
}.

(** A new command. *)
Definition command_new (c : AgentCommand) : Prop :=
  cmd_status c = "pending" ∧ cmd_approved_by_subject c = None.

Lemma truthy_some (x : option string) : opt_truthy x = true → is_Some x.
Proof. destruct x; [by eexists|done]. Qed.

#[export] Instance command_evolves_preorder ap fin : PreOrder (command_evolves ap fin).
Proof.
  split.
  - intros c. split; auto; lia.
  - intros c1 c2 c3 [O1 S1 T1 D1 A1 P1 F1] [O2 S2 T2 D2 A2 P2 F2]. split.
    + congruence.
    + lia.
    + intros Ht. destruct (T1 Ht) as (E & ?&?&?). rewrite <-E in Ht.
      destruct (T2 Ht) as (?&?&?&?). split_and!; congruence.
    + lia.
    + destruct A2 as [->|?]; auto.
    + assert (cmd_requires_approval c2 = cmd_requires_approval c1) as Hr by by injection O1.
      rewrite Hr in P2. intros [H2|?]%P2; [|auto]. destruct (P1 H2) as [?|H1]; [auto|].
      right. intros Hreq. destruct A2 as [->|(_ & ?)]; auto.
    + intros [[H3 E3]|?]%F2; [|auto]. destruct (F1 H3) as [[??]|?]; [|auto].
      left. split; [done|congruence].
Qed.

(** A step from a status that is not terminal. *)
Lemma advance_evolves ap fin c c' :
  command_order c' = command_order c →
  cmd_approved_by_subject c' = cmd_approved_by_subject c →
  ¬ terminal (cmd_status c) → (stage (cmd_status c) ≤ stage (cmd_status c'))%nat →
  cmd_delivery_attempts c ≤ cmd_delivery_attempts c' →
  (accepted (cmd_status c') → accepted (cmd_status c)
   ∨ (cmd_requires_approval c = true → is_Some (cmd_approved_by_subject c))) →
  (finished (cmd_status c') → fin = true) →
  command_evolves ap fin c c'.
Proof. intros ? Ha ? ? ? ? ?. split; rewrite ?Ha; auto; done. Qed.

Lemma stage_le s : (stage s ≤ 5)%nat.
Proof. unfold stage. repeat case_match; lia. Qed.

Lemma not_terminal s : (s ∈? COMMAND_TERMINAL_STATUSES) = false → ¬ terminal s.
Proof. apply bool_decide_eq_false_1. Qed.

(** The status of a command from a test on it. *)
Ltac status_cases :=
  repeat match goal with
  | H : (_ =/? _) = false |- _ => apply negb_false_iff, bool_decide_eq_true in H
  | H : (_ ==? _) = true |- _ => apply bool_decide_eq_true in H
  | H : negb (_ ∈? _) = false |- _ => apply negb_false_iff, bool_decide_eq_true in H
  | H : negb (_ ∈? _) = true |- _ => apply negb_true_iff, bool_decide_eq_false in H
  | H : (_ ∈? _) = true |- _ => apply bool_decide_eq_true in H
  | H : _ ∈ [] |- _ => by apply not_elem_of_nil in H
  | H : _ ∈ _ :: _ |- _ => apply elem_of_cons in H as [H|H]
  end.

Ltac known_status :=
  try match goal with H : cmd_status _ = _ |- _ => rewrite H end.
Ltac absurd_status :=
  let H := fresh in
  intros H; apply (bool_decide_eq_true_2 _) in H; vm_compute in H; discriminate H.
Ltac advance :=
  apply advance_evolves; unfold command_order, _command_envelope; set_simpl;
  [ done | done
  | first [ done | known_status; by apply not_terminal ]
  | first [ known_status; vm_compute; lia | apply stage_le ]
  | lia
  | first [ done | known_status; by absurd_status | intros _; left; known_status; by apply (bool_decide_unpack _) | idtac ]
  | first [ done | known_status; by absurd_status | idtac ] ].

Lemma deliver_command_evolves ap fin now c : command_evolves ap fin c (deliver_command now c).
Proof.
  unfold deliver_command.
  destruct (has_expired now (cmd_expires_at c) && _) eqn:He;
    [|destruct (cmd_status c ==? "pending") eqn:Hp;
      [|destruct (cmd_status c ==? "delivered") eqn:Hd; [|reflexivity]]]; status_cases.
  - apply andb_true_iff in He as [_ Hn]. status_cases. advance.
  - advance.
  - advance.
Qed.

Lemma deliver_command_id now c : cmd_id (deliver_command now c) = cmd_id c.
Proof. pose proof (ce_order _ _ _ _ (deliver_command_evolves false false now c)) as H. by injection H. Qed.

Lemma approved_command_evolves fin r now c : command_evolves true fin c (approved_command r now c).
Proof.
  unfold approved_command. split; unfold command_order, _command_envelope; set_simpl; eauto; lia.
Qed.

Section handlers.
Context `{!Env} (ap fin : bool) (d0 : db).
Notation I := (evolved (command_evolves ap fin) command_new d0).

Lemma target_command_write o a i w c c' :
  I (working w) → (_target_command o a i w).1 = Ok c → cmd_id c' = cmd_id c →
  command_evolves ap fin c c' → I (put_row c' (working w)).
Proof.
  intros HI [Hc _]%find_require_ok Hid HE. exact (evolved_write _ _ _ _ _ _ _ HI Hc Hid HE).
Qed.

Lemma command_write o i w d c c' :
  I d → (_command o i w).1 = Ok c → working w = d → command_evolves ap fin c c' →
  I (put_row c' d).
Proof.
  intros HI [Hc _]%find_require_ok <- HE. eapply (evolved_write _ _ _ _ _ _ _ HI Hc); [|done].
  by injection (ce_order _ _ _ _ HE).
Qed.

Ltac run :=
  apply pres_intro; intros w Hc Hw;
  lazymatch goal with |- wp ?m _ _ => let h := pres_head m in unfold h end;
  wp_inv (evolved (command_evolves ap fin) command_new d0).
Ltac event := wp_event (evolved (command_evolves ap fin) command_new d0).
Ltac target := eapply target_command_write; [done|eassumption|done|].

Lemma ack_command_evolved o a c : pres I (ack_command o a c).
Proof. run. event. target. status_cases; advance. Qed.

Lemma accept_command_evolved o a c : pres I (accept_command o a c).
Proof.
  run. event. target. status_cases; advance.
  all: intros _; right; intros Hr; rewrite Hr in *.
  all: apply truthy_some.
  all: by match goal with H : true && negb _ = false |- _ => apply negb_false_iff in H end.
Qed.

Lemma reject_command_evolved o a c e : pres I (reject_command o a c e).
Proof. run. event. target. status_cases; advance. Qed.

Lemma complete_command_evolved o a c s r e : Is_true fin → pres I (complete_command o a c s r e).
Proof.
  intros Hf. run. event. target. status_cases; subst; advance.
  all: by rewrite (Is_true_true_1 _ Hf).
Qed.

Lemma cancel_command_evolved o a c : pres I (cancel_command o a c).
Proof.
  run; event; simplify_eq.
  eapply (evolved_write _ _ _ _ _ _ _ Hw); [eassumption|done|]; status_cases; advance.
Qed.

Lemma list_commands_evolved o a s l : pres I (list_commands o a s l).
Proof.
  run.
  all: apply wp_foreach_put_if; cbv beta iota zeta.
  all: assert (keyed AgentCommand (working w)) as HK by apply Hw.
  all: match goal with |- context [put_all ?f ?l] =>
         assert (I (put_all f l (working w))) end;
    [|wp_inv (evolved (command_evolves ap fin) command_new d0)].
  all: apply evolved_put_all; [apply _|apply deliver_command_id| | | |done].
  - intros; apply deliver_command_evolves.
  - by apply NoDup_filter_fmap, NoDup_page.
  - intros r [_ Hr]%list_elem_of_filter. by eapply elem_of_page in Hr as [_ ?].
Qed.

Lemma issue_command_evolved o d : pres I (issue_command o d).
Proof. pres_go. Qed.
Hint Resolve issue_command_evolved : pres_db.

Lemma create_approval_request_evolved o a d :
  Is_true ap → pres I (create_approval_request o a d).
Proof.
  intros Hap. run.
  all: wp_rest (evolved (command_evolves ap fin) command_new d0).
  1: apply stable.
  all: eapply command_write;
    [done|eassumption|done|rewrite (Is_true_true_1 _ Hap); apply approved_command_evolves].
Qed.

Lemma approve_request_command_evolved r now :
  Is_true ap → pres I (approve_request_command r now).
Proof.
  intros Hap. run. world_simpl. split; [done|].
  eapply command_write; [done|eassumption|done|rewrite (Is_true_true_1 _ Hap); apply approved_command_evolves].
Qed.

Lemma cast_vote_evolved r u d s : Is_true ap → pres I (cast_vote r u d s).
Proof. intros Hap. pose proof approve_request_command_evolved. pres_go. Qed.

Lemma recovery_loop_evolved o a p c now loops x y :
  pres I (recovery_loop o a p c now loops x y).
Proof.
  revert x y. induction loops as [|l loops IH]; intros; simpl; pres_go; auto.
Qed.
Hint Resolve recovery_loop_evolved : pres_db.

Lemma run_recovery_cycle_evolved o p a l : pres I (run_recovery_cycle o p a l).
Proof. pres_go. Qed.

(** The beginning of an approved action accepts its command. *)
Lemma begin_call_evolved u p c t : Is_true ap → pres I (begin_call u p c t).
Proof.
  intros Hap. apply pres_intro. intros w Hc Hw. apply (begin_call_keep I); [done..| |].
  - intros. apply claim_permit_pres; apply _.
  - intros x now (Hs & ia & a & ip & q & ic & _ & _ & Hx & _).
    eapply (evolved_write _ _ _ _ _ _ _ Hw Hx); [done|].
    split; unfold accepted_command, command_order, _command_envelope; set_simpl; eauto; try lia.
    + status_cases; rewrite Hs; vm_compute; lia.
    + status_cases; rewrite Hs; by absurd_status.
    + right. split; [by apply Is_true_true_1|by eexists].
    + by absurd_status.
Qed.

Lemma prepare_action_evolved u p t : pres I (prepare_action u p t).
Proof. pres_go. Qed.

(** Whether an operation can record an approval on a command, or complete one. *)
Definition op_approves (op : op) : bool :=
  match op with
  | CreateApprovalRequest _ _ _ | CastVote _ _ _ _ | BeginAction _ _ _ _ => true
  | _ => false
  end.
Definition op_completes (op : op) : bool :=
  match op with CompleteCommand _ _ _ _ _ _ => true | _ => false end.

Lemma handler_command_evolved op :
  (Is_true (op_approves op) → Is_true ap) → (Is_true (op_completes op) → Is_true fin) →
  pres I (handler op).
Proof.
  destruct op; simpl; intros; try solve [frame]; apply pres_ignore.
  - apply issue_command_evolved.
  - apply list_commands_evolved.
  - apply ack_command_evolved.
  - apply accept_command_evolved.
  - apply reject_command_evolved.
  - apply complete_command_evolved. auto.
  - apply cancel_command_evolved.
  - apply create_approval_request_evolved. auto.
  - apply cast_vote_evolved. auto.
  - apply run_recovery_cycle_evolved.
  - apply prepare_action_evolved.
  - apply begin_call_evolved. auto.
Qed.
End handlers.

(** ** Theorems *)
Section theorems.
Context `{!Env}.

Lemma command_evolution o d0 :
  keeps (evolved (command_evolves true true) command_new d0) o.
Proof. by apply pres_keeps, handler_command_evolved. Qed.

(** C31 The life of a command: whatever operations run, a command keeps what it orders;
    its status only moves forward along pending, delivered, acknowledged, accepted, and
    a terminal status is final with its result, error and completion time; deliveries
    are only counted up. *)
Theorem command_life_cycle s os id c :
  reachable s → commands (st_db s) !! id = Some c →
  ∃ c', commands (st_db (exec_all s os)) !! id = Some c'
    ∧ command_order c' = command_order c
    ∧ (stage (cmd_status c) ≤ stage (cmd_status c'))%nat
    ∧ (terminal (cmd_status c) →
         (cmd_status c', cmd_result c', cmd_error c', cmd_completed_at c')
         = (cmd_status c, cmd_result c, cmd_error c, cmd_completed_at c))
    ∧ cmd_delivery_attempts c ≤ cmd_delivery_attempts c'.
Proof.
  intros Hs Hc. destruct (exec_all_kept (command_evolves true true) command_new
    command_evolution s os id c Hs Hc)
    as (c' & Hc' & HE).
  exists c'. split_and!; [done|apply HE..| |apply HE].
  intros Ht. by destruct (ce_terminal _ _ _ _ HE Ht) as (-> & -> & -> & ->).
Qed.
End theorems.

Lemma command_life_cycle_witness :
  ∃ c c', commands (st_db permit_store) !! "id-10" = Some c
    ∧ commands (st_db (exec_all permit_store demo_report)) !! "id-10" = Some c'
    ∧ command_order c' = command_order c.
Proof.
  eexists.
  destruct (command_life_cycle permit_store demo_report "id-10"
    _ permit_store_reachable ltac:(vm_compute; reflexivity)) as (c' & Hc' & Ho & _).
  exists c'. split; [vm_compute; reflexivity|]. split; [exact Hc'|exact Ho].
Defined.
