(* ===== verification/ApprovalProofs.v ===== *)
(** * Approvals: the verdict of a request is the verdict of its votes

    The status of an approval request is a function of the votes recorded on it: any
    rejection rejects it, a quorum of approvals (one by an administrator where the
    rule requires it) approves it.  A verdict is final, and what a request asks for
    never changes. *)

From S2P Require Import Prelude PyStr PyVal Errors Validate Models Database Session.
From S2P Require Import Preserve Rows Autonomy Controls Approvals FederationBroker.
From S2P Require Import Footprint System.
From S2P Require Import Evolution Demo.

(** ** The specification *)

(** What a request asks for, and under which rule. *)
Definition request_terms (a : ApprovalRequest) :=
  ((apr_id a, apr_owner_subject a, apr_room_id a, apr_policy_id a, apr_command_id a),
   (apr_executor_agent_id a, apr_action_class a, apr_tool a, apr_command_profile a,
    apr_payload_hash a),
   (apr_quorum_required a, apr_require_admin_approval a, apr_disallow_proposer_vote a,
    apr_policy_generation a, apr_created_by_subject a, apr_expires_at a)).

(** The verdict of the votes on a request. *)
Definition verdict (a : ApprovalRequest) (vs : list ApprovalVote) : string :=
  if existsb (λ v, vote_decision v ==? "reject") vs then "rejected"
  else if quorum_met a vs then "approved" else "pending".

Lemma existsb_perm {A} (p : A → bool) l l' : l ≡ₚ l' → existsb p l = existsb p l'.
Proof.
  intros Hl. apply eq_true_iff_eq. rewrite !existsb_exists.
  by split; intros (x & Hx%list_elem_of_In & ?); exists x;
    (split; [apply list_elem_of_In; by rewrite Hl || rewrite <-Hl|]).
Qed.

Lemma votes_for_perm d vs vs' : vs ≡ₚ vs' → votes_for d vs ≡ₚ votes_for d vs'.
Proof. unfold votes_for. by intros ->. Qed.

Lemma quorum_met_perm a vs vs' : vs ≡ₚ vs' → quorum_met a vs = quorum_met a vs'.
Proof.
  intros Hvs. unfold quorum_met. pose proof (votes_for_perm "approve" _ _ Hvs) as H.
  by rewrite (Permutation_length H), (existsb_perm _ _ _ H).
Qed.

Lemma verdict_perm a vs vs' : vs ≡ₚ vs' → verdict a vs = verdict a vs'.
Proof.
  intros H. unfold verdict. by rewrite (existsb_perm _ _ _ H), (quorum_met_perm _ _ _ H).
Qed.

(** The verdict depends on the rule of the request only. *)
Lemma verdict_terms a a' vs : request_terms a' = request_terms a → verdict a' vs = verdict a vs.
Proof.
  intros H. unfold verdict, quorum_met.
  assert (apr_quorum_required a' = apr_quorum_required a) as -> by by injection H.
  by assert (apr_require_admin_approval a' = apr_require_admin_approval a) as -> by by injection H.
Qed.

(** The votes on a request. *)
Definition votes_on (d : db) (rid : string) : list ApprovalVote :=
  select (λ v, vote_request_id v ==? rid) d.

(** ** The invariant *)
Definition vote_ok (d : db) (v : ApprovalVote) : Prop :=
  vote_decision v ∈ ["approve"; "reject"]
  ∧ ∃ a, approvals d !! vote_request_id v = Some a
    ∧ vote_owner_subject v = apr_owner_subject a
    ∧ (apr_disallow_proposer_vote a = true →
         vote_voter_subject v ≠ apr_created_by_subject a).

(** Open and expired requests have no verdict yet; the others have theirs. *)
Definition request_decided (d : db) (a : ApprovalRequest) : Prop :=
  let v := verdict a (votes_on d (apr_id a)) in
  apr_status a = v ∨ apr_status a = "expired" ∧ v = "pending".

Definition ballots_except (x : option string) (d : db) : Prop :=
  keyed ApprovalRequest d ∧ keyed ApprovalVote d
  ∧ (∀ id v, votes d !! id = Some v → vote_ok d v)
  ∧ (∀ id v id' v', votes d !! id = Some v → votes d !! id' = Some v' →
       vote_request_id v = vote_request_id v' →
       vote_voter_subject v = vote_voter_subject v' → id = id')
  ∧ (∀ id a, approvals d !! id = Some a → Some id ≠ x → request_decided d a).
Definition ballots : db → Prop := ballots_except None.

Lemma request_decided_status d a : request_decided d a →
  apr_status a ∈ ["pending"; "approved"; "rejected"; "expired"].
Proof.
  unfold request_decided, verdict. intros [->|[-> _]]; repeat case_match; set_solver.
Qed.

(** ** Writes *)
Record request_evolves (a a' : ApprovalRequest) : Prop := {
  re_terms : request_terms a' = request_terms a;
  re_settled : apr_status a ≠ "pending" →
    apr_status a' = apr_status a ∧ apr_approved_at a' = apr_approved_at a
    ∧ apr_rejected_at a' = apr_rejected_at a;
  re_version : apr_version a ≤ apr_version a';
}.

#[export] Instance request_evolves_preorder : PreOrder request_evolves.
Proof.
  split.
  - intros a. by split.
  - intros a b c [T1 S1 V1] [T2 S2 V2]. split; [congruence| |lia].
    intros Ha. destruct (S1 Ha) as (E&?&?). rewrite <-E in Ha.
    destruct (S2 Ha) as (?&?&?). split_and!; congruence.
Qed.

(** A new request. *)
Definition request_new (a : ApprovalRequest) : Prop :=
  apr_status a ∈ ["pending"; "approved"] ∧ apr_version a = 1.

Lemma approvals_put_row (a : ApprovalRequest) d :
  approvals (put_row a d) = <[apr_id a := a]> (approvals d).
Proof. done. Qed.

Lemma ballots_weaken x d : ballots d → ballots_except x d.
Proof. intros (?&?&?&?&HD). split_and!; [done..|]. intros; by eapply HD. Qed.

(** Writing a request back with its verdict. *)
Lemma ballots_write_request d a a' :
  ballots_except (Some (apr_id a)) d → approvals d !! apr_id a = Some a →
  request_terms a' = request_terms a → request_decided d a' → ballots (put_row a' d).
Proof.
  intros (KA & KV & HV & HU & HD) Ha Ht Hdec.
  assert (apr_id a' = apr_id a) as Hid by by injection Ht.
  split_and!; [by apply keyed_put|done| |done|].
  - intros id v Hv. destruct (HV id v Hv) as [? (b & Hb & ? & Hp)]. split; [done|].
    rewrite approvals_put_row, Hid.
    destruct (decide (vote_request_id v = apr_id a)) as [E|Hne].
    + exists a'. rewrite E, lookup_insert_eq. rewrite E, Ha in Hb. injection Hb as <-.
      assert (apr_owner_subject a' = apr_owner_subject a) as -> by by injection Ht.
      assert (apr_disallow_proposer_vote a' = apr_disallow_proposer_vote a) as ->
        by by injection Ht.
      by assert (apr_created_by_subject a' = apr_created_by_subject a) as ->
        by by injection Ht.
    + exists b. by rewrite lookup_insert_ne by done.
  - intros id b. rewrite approvals_put_row, Hid.
    intros [[_ <-]|[? Hb]]%lookup_insert_Some _; [done|]. eapply HD; [done|congruence].
Qed.

Lemma votes_on_fresh d rid :
  ballots d → approvals d !! rid = None → votes_on d rid = [].
Proof.
  intros (_ & _ & HV & _) Hnone.
  destruct (votes_on d rid) as [|v vs] eqn:Evs; [done|].
  assert (v ∈ votes_on d rid) as Hv by (rewrite Evs; by left).
  apply elem_of_select in Hv as [Hr%bool_decide_eq_true [id Hv]].
  destruct (HV id v Hv) as [_ (a & Ha & _)]. congruence.
Qed.

Lemma ballots_insert_request d a :
  ballots d → insertable a d = true → apr_status a = verdict a [] → ballots (put_row a d).
Proof.
  intros HB [Hnew _]%insertable_spec Hs. pose proof HB as (KA & KV & HV & HU & HD).
  simpl in Hnew. split_and!; [by apply keyed_put|done| |done|].
  - intros id v Hv. destruct (HV id v Hv) as [? (b & Hb & Hp)]. split; [done|].
    exists b. split; [|done].
    rewrite approvals_put_row, lookup_insert_ne; [done|congruence].
  - intros id b. rewrite approvals_put_row.
    intros [[_ <-]|[_ Hb]]%lookup_insert_Some _; [|by eapply HD].
    left. change (votes_on (put_row a d) (apr_id a)) with (votes_on d (apr_id a)).
    by rewrite votes_on_fresh.
Qed.

(** A vote leaves the verdict of every other request. *)
Lemma ballots_insert_vote d a v :
  ballots d → approvals d !! apr_id a = Some a → insertable v d = true →
  vote_request_id v = apr_id a → vote_owner_subject v = apr_owner_subject a →
  vote_decision v ∈ ["approve"; "reject"] →
  (apr_disallow_proposer_vote a = true → vote_voter_subject v ≠ apr_created_by_subject a) →
  ballots_except (Some (apr_id a)) (put_row v d).
Proof.
  intros (KA & KV & HV & HU & HD) Ha [Hfree Hclash]%insertable_spec Hr Ho Hdec Hprop.
  assert (∀ id v', votes d !! id = Some v' → vote_request_id v' = vote_request_id v →
    vote_voter_subject v' = vote_voter_subject v → False) as Hnew.
  { intros id v' Hv' E1 E2. specialize (Hclash id v' Hv'). simpl in Hclash.
    unfold clash_votes in Hclash. by rewrite !bool_decide_eq_true_2 in Hclash. }
  split_and!; [done|by apply keyed_put| | |].
  - intros id v'. change (votes (put_row v d)) with (<[vote_id v := v]> (votes d)).
    intros [[_ <-]|[_ Hv']]%lookup_insert_Some; [|by destruct (HV _ _ Hv')].
    split; [done|]. exists a. by rewrite Hr.
  - intros id v1 id' v2. change (votes (put_row v d)) with (<[vote_id v := v]> (votes d)).
    intros [[<- <-]|[_ H1]]%lookup_insert_Some [[<- <-]|[_ H2]]%lookup_insert_Some Er Ev;
      [done| | |by eapply HU].
    + exfalso. by eapply Hnew.
    + exfalso. by eapply Hnew.
  - intros id b Hb Hne. specialize (HD id b Hb). unfold request_decided in *.
    pose proof (KA id b Hb) as Hid. simpl in Hid.
    rewrite (verdict_perm b _ (votes_on d (apr_id b))); [by apply HD|].
    unfold votes_on. rewrite select_insert by done.
    rewrite bool_decide_eq_false_2 by congruence. done.
Qed.

(** ** Handlers *)
Section handlers.
Context `{!Env}.

Lemma decided_request_terms r vs now : request_terms (decided_request r vs now) = request_terms r.
Proof. unfold decided_request. repeat case_match; unfold request_terms; by set_simpl. Qed.

Lemma decided_request_status r vs now :
  apr_status r = "pending" → apr_status (decided_request r vs now) = verdict r vs.
Proof. intros Hp. unfold decided_request, verdict. repeat case_match; by set_simpl. Qed.

Lemma decided_request_id r vs now : apr_id (decided_request r vs now) = apr_id r.
Proof. by injection (decided_request_terms r vs now). Qed.

Lemma decided_request_evolves r vs now :
  apr_status r = "pending" → request_evolves r (decided_request r vs now).
Proof.
  intros Hp. split; [apply decided_request_terms|by rewrite Hp|].
  unfold decided_request. repeat case_match; set_simpl; lia.
Qed.

Lemma decided_request_decided d d' r now :
  apr_status r = "pending" → votes d = votes d' →
  request_decided d (decided_request r (request_votes (apr_id r) d') now).
Proof.
  intros Hp Hv. pose proof (decided_request_terms r (request_votes (apr_id r) d') now) as Ht.
  left. rewrite decided_request_status, (verdict_terms r _ _ Ht) by done.
  assert (apr_id (decided_request r (request_votes (apr_id r) d') now) = apr_id r) as ->
    by by injection Ht.
  apply verdict_perm. unfold request_votes. rewrite sort_by_perm.
  unfold votes_on, select, rows. simpl. by rewrite Hv.
Qed.

Lemma expire_approval_result a w b :
  (_expire_approval a w).1 = Ok b →
  b = a ∨ apr_status a = "pending" ∧ apr_status b = "expired" ∧ request_terms b = request_terms a
          ∧ apr_version b = apr_version a + 1.
Proof.
  unfold _expire_approval. destruct (_ =/? _) eqn:Hs; [intros [= <-]; by left|].
  unfold mbind, M_bind, utcnow. destruct (clock _ <? _); intros [= <-]; [by left|right].
  apply negb_false_iff, bool_decide_eq_true in Hs. unfold request_terms. by set_simpl.
Qed.

Lemma expire_approval_pending a w b :
  (_expire_approval a w).1 = Ok b → apr_status b = "pending" → b = a.
Proof. by intros [?|(_ & -> & _)]%expire_approval_result. Qed.

Lemma expire_approval_same a w b :
  (_expire_approval a w).1 = Ok b → apr_status b ≠ "expired" → b = a.
Proof. by intros [?|(_ & He & _)]%expire_approval_result. Qed.

Lemma expire_approval_readonly a : readonly (_expire_approval a).
Proof. ro_go. Qed.

Lemma verdict_new a :
  0 ≤ apr_quorum_required a →
  verdict a [] = if (apr_quorum_required a =? 0) && negb (apr_require_admin_approval a)
                 then "approved" else "pending".
Proof.
  intros Hq. unfold verdict, quorum_met. simpl.
  change (Z.of_nat 0) with 0.
  assert ((apr_quorum_required a <=? 0) = (apr_quorum_required a =? 0)) as -> by lia.
  by rewrite orb_false_r.
Qed.

Lemma create_approval_request_ballots o a d : pres ballots (create_approval_request o a d).
Proof.
  apply pres_intro. intros w Hc Hw. unfold create_approval_request. wp_inv ballots.
  all: wp_rest ballots.
  all: try by apply stable.
  all: apply ballots_insert_request; [by repeat apply stable|done|].
  all: rewrite verdict_new; simpl;
    [|match goal with H : _bounded_int _ _ 0 20 _ = Ok _ |- _ =>
        apply _bounded_int_ok in H; lia end].
  all: by match goal with H : (_ =? 0) && _ = _ |- _ => rewrite H end.
Qed.

(** A listing that expires pending requests keeps what their expiry keeps. *)
Definition request_expires (a b : ApprovalRequest) : Prop :=
  b = a ∨ apr_status a = "pending" ∧ apr_status b = "expired"
          ∧ request_terms b = request_terms a ∧ apr_version b = apr_version a + 1.

Lemma list_approval_requests_expire (I : db → Prop) o u r s :
  (∀ d, I d → keyed ApprovalRequest d) →
  (∀ d a b, I d → approvals d !! apr_id a = Some a → apr_status a = "pending" →
     apr_status b = "expired" → request_terms b = request_terms a →
     apr_version b = apr_version a + 1 → I (put_row b d)) →
  pres I (list_approval_requests o u r s).
Proof.
  intros HK HI. apply pres_intro. intros w Hc Hw. unfold list_approval_requests.
  wp_step. apply wp_stateless; [repeat case_match; stl_go| |by split].
  intros visible _. wp_step. wp_step.
  apply (wp_expire_page _ _ request_expires I); [..|done|done].
  - apply expire_approval_readonly.
  - intros a w' b. apply expire_approval_result.
  - intros a b [->|(_&_&Ht&_)]; [done|]. by injection Ht.
  - intros d a b [->|(?&?&?&?)] Hch ? ?; [|by eapply HI].
    apply negb_true_iff, bool_decide_eq_false in Hch. done.
  - rewrite sort_by_perm. by apply NoDup_select, HK.
  - intros a Ha%sort_by_elem%elem_of_select_keyed; [by destruct Ha|by apply HK].
Qed.

Lemma list_approval_requests_ballots o u r s : pres ballots (list_approval_requests o u r s).
Proof.
  apply list_approval_requests_expire; [by intros d [? _]|].
  intros d a b HB Ha Hp He Ht _.
  eapply ballots_write_request; [by apply ballots_weaken|done|done|].
  pose proof HB as (_ & _ & _ & _ & HD). right. split; [done|].
  assert (apr_id b = apr_id a) as -> by by injection Ht.
  rewrite (verdict_terms a b) by done. specialize (HD _ _ Ha ltac:(done)).
  unfold request_decided in HD. rewrite Hp in HD. by destruct HD as [?|[? _]].
Qed.

Lemma cast_vote_ballots r u d s w :
  ballots (committed w) → working w = committed w →
  wp (cast_vote r u d s) (λ _ w', ballots (committed w')) w.
Proof.
  intros Hc Hw. assert (ballots (working w)) as HB by by rewrite Hw.
  unfold cast_vote. wp_inv ballots; try discriminate.
  1: unfold approve_request_command; wp_inv ballots.
  all: wp_event ballots; clear Hw.
  all: match goal with H : (_approval _ _).1 = Ok _ |- _ => apply get_require_ok in H as Ha end.
  all: match goal with H : (_expire_approval _ _).1 = Ok _ |- _ =>
         apply expire_approval_pending in H as ->; [|by apply negb_false_iff, bool_decide_eq_true in H4] end.
  all: assert (r = apr_id a) as -> by (symmetry; apply HB, Ha).
  all: eapply ballots_write_request; [|exact Ha|apply decided_request_terms|].
  all: lazymatch goal with
    | |- request_decided _ _ => apply decided_request_decided;
         by apply negb_false_iff, bool_decide_eq_true in H4
    | |- _ => apply (ballots_insert_vote (working w) a);
         [done|exact Ha|done|done|done|set_simpl; simpl|simpl]
    end.
  all: try by apply negb_false_iff, bool_decide_eq_true in H5.
  all: intros Hdis; rewrite Hdis in *; by apply bool_decide_eq_false in H6.
Qed.

Lemma prepare_action_ballots u p t : pres ballots (prepare_action u p t).
Proof.
  apply prepare_action_keep; [apply _|intros; by apply ensure_execution_context_pres; apply _|].
  intros. apply write_preparation_keep; [apply _..|]. intros a (Hp & _ & Hq).
  apply pres_intro. intros w Hc Hw. apply wp_add; intros Hi; split; simpl; try done.
  apply ballots_insert_request; [done|done|]. rewrite verdict_new, Hp by lia.
  by assert ((apr_quorum_required a =? 0) = false) as -> by lia.
Qed.

Lemma exec_ballots s op : ballots (st_db s) → ballots (st_db (exec s op)).
Proof.
  intros HB. assert (pres ballots (handler op) → ballots (st_db (exec s op))) as Hpres.
  { intros. by apply exec_pres. }
  destruct op; try (apply Hpres; solve [frame]).
  - apply Hpres, pres_ignore, create_approval_request_ballots.
  - apply Hpres, pres_ignore, list_approval_requests_ballots.
  - apply exec_wp, (wp_ignore _ (λ w, ballots (committed w))).
    by apply cast_vote_ballots.
  - apply Hpres, pres_ignore, prepare_action_ballots.
Qed.

Lemma reachable_ballots s : reachable s → ballots (st_db s).
Proof.
  apply reachable_step_invariant; [|intros; by apply exec_ballots].
  split_and!; intros ? ? *; discriminate.
Qed.

(** *** Requests evolve *)
Section evolve.
Context (N : ApprovalRequest → Prop) (d0 : db).
Notation I := (evolved request_evolves N d0).

Lemma create_approval_request_requests o a d :
  (∀ r, request_new r → N r) → pres I (create_approval_request o a d).
Proof.
  intros HN. apply pres_intro. intros w Hc Hw. unfold create_approval_request.
  wp_inv (evolved request_evolves N d0).
  all: wp_rest (evolved request_evolves N d0).
  all: try by apply stable.
  all: apply evolved_insert; [apply _| |by repeat apply stable|done].
  all: apply HN; split; [by apply (bool_decide_unpack _)|done].
Qed.

Lemma list_approval_requests_evolved o u r s : pres I (list_approval_requests o u r s).
Proof.
  apply list_approval_requests_expire; [by intros d [? _]|].
  intros d a b HB Ha Hp He Ht Hv. eapply evolved_write; [apply _|done|exact Ha|by injection Ht|].
  split; [done|by rewrite Hp|lia].
Qed.

Lemma cast_vote_requests r u d s : pres I (cast_vote r u d s).
Proof.
  apply pres_intro. intros w Hc Hw. unfold cast_vote, approve_request_command.
  wp_inv (evolved request_evolves N d0); try discriminate.
  all: wp_event (evolved request_evolves N d0).
  all: assert (apr_status a1 = "pending") as Hp
    by (by apply negb_false_iff, bool_decide_eq_true in H4).
  all: apply get_require_ok in H0 as Ha; apply expire_approval_pending in H3 as ->; [|done].
  all: eapply evolved_write; [apply _|by repeat apply stable|exact Ha| |].
  all: try by apply decided_request_evolves.
  all: apply decided_request_id.
Qed.

Lemma prepare_action_requests u p t :
  (∀ r, request_new r → N r) → pres I (prepare_action u p t).
Proof.
  intros HN.
  apply prepare_action_keep; [apply _|intros; by apply ensure_execution_context_pres; apply _|].
  intros. apply write_preparation_keep; [apply _..|]. intros a (Hp & Hv & _).
  apply pres_add_evolved; [apply _|]. apply HN. split; [|done]. rewrite Hp.
  by apply (bool_decide_unpack _).
Qed.

Lemma handler_request_evolved op :
  (match op with CreateApprovalRequest _ _ _ | PrepareAction _ _ _ => True | _ => False end →
   ∀ r, request_new r → N r) →
  pres I (handler op).
Proof.
  destruct op; intros HN; try solve [frame]; apply pres_ignore.
  - by apply create_approval_request_requests, HN.
  - apply list_approval_requests_evolved.
  - apply cast_vote_requests.
  - by apply prepare_action_requests, HN.
Qed.
End evolve.
End handlers.

(** ** Theorems *)

(** Among the votes on a request: approvals by as many different voters as its quorum,
    one of them an administrator if its rule asks for one, none of them the proposer if
    its rule excludes the proposer; and no rejection. *)
Definition quorate (d : db) (a : ApprovalRequest) : Prop :=
  (∃ vs, NoDup (vote_voter_subject <$> vs)
    ∧ (∀ v, v ∈ vs → votes d !! vote_id v = Some v ∧ vote_request_id v = apr_id a
         ∧ vote_decision v = "approve"
         ∧ (apr_disallow_proposer_vote a = true →
              vote_voter_subject v ≠ apr_created_by_subject a))
    ∧ apr_quorum_required a ≤ Z.of_nat (length vs)
    ∧ (apr_require_admin_approval a = true →
         ∃ v, v ∈ vs ∧ "gateway-admin" ∈ vote_voter_roles v))
  ∧ ∀ vid v, votes d !! vid = Some v → vote_request_id v = apr_id a →
      vote_decision v = "approve".

Section theorems.
Context `{!Env}.

(** The approving votes on a request. *)
Lemma approving_votes d a v :
  ballots d → approvals d !! apr_id a = Some a →
  v ∈ votes_for "approve" (votes_on d (apr_id a)) →
  votes d !! vote_id v = Some v ∧ vote_request_id v = apr_id a
  ∧ vote_decision v = "approve"
  ∧ (apr_disallow_proposer_vote a = true →
       vote_voter_subject v ≠ apr_created_by_subject a).
Proof.
  intros (_ & KV & HV & _) Ha.
  intros [Hdec%bool_decide_eq_true Hv]%list_elem_of_filter.
  apply elem_of_select in Hv as [Hr%bool_decide_eq_true [vid Hvid]].
  pose proof (KV _ _ Hvid) as E. simpl in E. subst vid. split_and!; [done..|].
  destruct (HV _ _ Hvid) as [_ (b & Hb & _ & Hp)]. rewrite Hr, Ha in Hb. by injection Hb as <-.
Qed.

Lemma approving_voters_NoDup d a :
  ballots d → approvals d !! apr_id a = Some a →
  NoDup (vote_voter_subject <$> votes_for "approve" (votes_on d (apr_id a))).
Proof.
  intros HB Ha. pose proof HB as (_ & KV & _ & HU & _). apply (NoDup_fmap_finer _ vote_id).
  - apply NoDup_filter_fmap. exact (NoDup_select _ _ KV).
  - intros v v' (Hv & Hr & _)%approving_votes (Hv' & Hr' & _)%approving_votes E; [|done..].
    eapply HU; [done|done|congruence|done].
Qed.

Lemma approved_quorate s a :
  reachable s → approvals (st_db s) !! apr_id a = Some a → apr_status a = "approved" →
  quorate (st_db s) a.
Proof.
  intros Hs Ha Hst. pose proof (reachable_ballots s Hs) as HB.
  pose proof HB as (_ & _ & HV & _ & HD).
  destruct (HD _ _ Ha ltac:(done)) as [Hv|[? _]]; [|congruence].
  rewrite Hst in Hv. unfold verdict in Hv.
  destruct (existsb _ _) eqn:Hrej; [done|]. destruct (quorum_met _ _) eqn:Hq; [|done].
  apply andb_true_iff in Hq as [Hq Hadm]. split.
  - exists (votes_for "approve" (votes_on (st_db s) (apr_id a))). split_and!.
    + by apply approving_voters_NoDup.
    + intros v Hv'. by apply approving_votes.
    + lia.
    + intros Hreq. rewrite Hreq in Hadm. apply existsb_exists in Hadm as (v & Hv' & Hadm).
      exists v. split; [by apply list_elem_of_In|by apply bool_decide_eq_true in Hadm].
  - intros vid v Hvid Hr. destruct (HV _ _ Hvid) as [Hdec _].
    apply elem_of_cons in Hdec as [?|Hdec%list_elem_of_singleton]; [done|].
    exfalso. apply not_true_iff_false in Hrej. apply Hrej, existsb_exists.
    exists v. rewrite Hdec. split; [|done]. apply list_elem_of_In, elem_of_select.
    rewrite bool_decide_eq_true_2 by done. eauto.
Qed.

(** C11 The status of an approval request refines its abstract specification: in every
    reachable store it is the verdict of the votes recorded on the request, or the
    request expired while the votes had no verdict; and an approved request is
    quorate. *)
Theorem approval_status_is_verdict s id a :
  reachable s → approvals (st_db s) !! id = Some a →
  (apr_status a = verdict a (votes_on (st_db s) id)
   ∨ apr_status a = "expired" ∧ verdict a (votes_on (st_db s) id) = "pending")
  ∧ (apr_status a = "approved" → quorate (st_db s) a).
Proof.
  intros Hs Ha. pose proof (reachable_ballots s Hs) as (KA & _ & _ & _ & HD).
  pose proof (KA _ _ Ha) as Hid. simpl in Hid. subst id.
  split; [by apply (HD _ _ Ha)|by apply approved_quorate].
Qed.

(** Verdicts are final and requests immutable: whatever operations run, a request
    keeps what it asks for, its rule and its deadline; and once it is approved,
    rejected or expired, it stays so. *)
Theorem verdicts_are_final s os id a :
  reachable s → approvals (st_db s) !! id = Some a →
  ∃ a', approvals (st_db (exec_all s os)) !! id = Some a'
    ∧ request_terms a' = request_terms a
    ∧ (apr_status a ≠ "pending" → apr_status a' = apr_status a)
    ∧ apr_version a ≤ apr_version a'.
Proof.
  intros Hs Ha. destruct (exec_all_kept request_evolves request_new
    (λ o d, pres_keeps _ _ (handler_request_evolved _ d o (λ _ _ h, h))) s os id a Hs Ha)
    as (a' & Ha' & [Ht Hst Hv]).
  exists a'. split_and!; [done..| |done]. intros Hp. by apply Hst.
Qed.
End theorems.

Lemma approval_status_is_verdict_witness :
  ∃ a, approvals (st_db permit_store) !! "id-12" = Some a ∧ quorate (st_db permit_store) a.
Proof.
  eexists. split; [vm_compute; reflexivity|].
  apply (approval_status_is_verdict permit_store "id-12" _ permit_store_reachable);
    vm_compute; reflexivity.
Defined.

Lemma verdicts_are_final_witness :
  ∃ a a', approvals (st_db permit_store) !! "id-12" = Some a
    ∧ approvals (st_db (exec_all permit_store demo_report)) !! "id-12" = Some a'
    ∧ (apr_status a ≠ "pending" → apr_status a' = apr_status a).
Proof.
  eexists.
  destruct (verdicts_are_final permit_store demo_report "id-12" _ permit_store_reachable
    ltac:(vm_compute; reflexivity)) as (a' & Ha' & _ & Hst & _).
  exists a'. split; [vm_compute; reflexivity|]. split; [exact Ha'|exact Hst].
Defined.
