(* ===== verification/PermitProofs.v ===== *)
(** * Execution permits: one use, one receipt, one approved request

    The life of a permit, the receipts it leads to, and the claims that are refused. *)

From S2P Require Import Prelude PyStr PyVal Errors Validate Models Database Session.
From S2P Require Import Preserve Rows Autonomy Controls Approvals Permits Recovery.
From S2P Require Import Footprint System Evolution Demo.

(** ** The life cycle *)

(** What a permit allows, to whom, and on whose decision. *)
Definition permit_terms (p : ExecutionPermit) :=
  ((pmt_id p, pmt_owner_subject p, pmt_approval_request_id p, pmt_policy_id p,
    pmt_command_id p, pmt_executor_agent_id p),
   (pmt_action_class p, pmt_tool p, pmt_command_profile p, pmt_payload_hash p),
   (pmt_policy_generation p, pmt_fencing_token p, pmt_max_uses p, pmt_expires_at p)).

(** The steps of a permit. *)
Inductive permit_step : string → string → Prop :=
  | permit_claim : permit_step "active" "claimed"
  | permit_consume : permit_step "claimed" "consumed"
  | permit_consume_late : permit_step "revoked" "consumed"
  | permit_revoke s : s ∈ ["active"; "claimed"] → permit_step s "revoked"
  | permit_expire s : s ∈ ["active"; "claimed"] → permit_step s "expired".

(** A permit counts its use when it is claimed, and only then. *)
Definition permit_counts (p : ExecutionPermit) : Prop :=
  pmt_use_count p = (if pmt_claimed_at p then 1 else 0)
  ∧ (pmt_status p = "active" → pmt_claimed_at p = None)
  ∧ (pmt_status p ∈ ["claimed"; "consumed"] → is_Some (pmt_claimed_at p)).

Record permit_evolves (p p' : ExecutionPermit) : Prop := {
  pe_terms : permit_terms p' = permit_terms p;
  pe_status : rtc permit_step (pmt_status p) (pmt_status p');
  pe_counts : permit_counts p → permit_counts p';
  pe_claim : permit_counts p → is_Some (pmt_claimed_at p) → pmt_claimed_at p' = pmt_claimed_at p
    ∧ pmt_use_count p' = pmt_use_count p;
}.

#[export] Instance permit_evolves_preorder : PreOrder permit_evolves.
Proof.
  split.
  - intros p. by split.
  - intros p q r [T1 S1 C1 U1] [T2 S2 C2 U2]. split; [congruence|by etransitivity|auto|].
    intros Hp [t Ht]. destruct U1 as [E1 F1]; [done|eauto|]. rewrite Ht in E1.
    destruct U2 as [E2 F2]; [auto|eauto|]. split; congruence.
Qed.

Definition permit_new (p : ExecutionPermit) : Prop :=
  pmt_status p = "active" ∧ pmt_claimed_at p = None ∧ pmt_use_count p = 0
  ∧ pmt_max_uses p = 1 ∧ pmt_fencing_token p = 1.

#[local] Hint Extern 1 (permit_new _) => by repeat split : pres_db.

Lemma permit_new_counts p : permit_new p → permit_counts p.
Proof.
  intros (Hs & Hc & Hu & _). unfold permit_counts. rewrite Hs, Hc. split_and!; [done..|].
  intros Hin. by apply (bool_decide_eq_true_2 _) in Hin.
Qed.

(** A change of status that leaves the claim of the permit. *)
Lemma permit_status_evolves p p' :
  permit_terms p' = permit_terms p → permit_step (pmt_status p) (pmt_status p') →
  pmt_claimed_at p' = pmt_claimed_at p → pmt_use_count p' = pmt_use_count p →
  (pmt_status p' = "consumed" → is_Some (pmt_claimed_at p)) →
  pmt_status p' ≠ "claimed" →
  permit_evolves p p'.
Proof.
  intros Ht Hs Hc Hu Hx Hne. split; [done|by apply rtc_once| |by rewrite Hc, Hu].
  intros (H1 & H2 & H3). unfold permit_counts. rewrite Hc, Hu. split_and!; [done| |].
  - intros E. rewrite E in Hs. by inversion Hs.
  - intros [?|[?|[]%not_elem_of_nil]%elem_of_cons]%elem_of_cons; auto. done.
Qed.

Ltac step_of :=
  repeat match goal with
  | H : (_ =/? _) = false |- _ => apply negb_false_iff, bool_decide_eq_true in H
  | H : (_ ==? _) = true |- _ => apply bool_decide_eq_true in H
  | H : negb (_ ∈? _) = false |- _ => apply negb_false_iff, bool_decide_eq_true in H
  | H : (_ ∈? _) = true |- _ => apply bool_decide_eq_true in H
  end.

Lemma revoked_permit_evolves now reason p :
  pmt_status p ∈ ["active"; "claimed"] → permit_evolves p (revoked_permit now reason p).
Proof.
  intros Hs. apply permit_status_evolves; unfold revoked_permit, permit_terms; set_simpl;
    try done. by constructor.
Qed.

Lemma claimed_permit_evolves now p :
  pmt_status p = "active" → permit_evolves p (claimed_permit now p).
Proof.
  intros Hs. unfold claimed_permit.
  split; unfold permit_terms, permit_counts; set_simpl; [done| | |].
  - rewrite Hs. apply rtc_once. constructor.
  - intros (Hu & Ha & _). rewrite Hu, (Ha Hs). split_and!; [done|done|eauto].
  - intros (_ & Ha & _). rewrite (Ha Hs). by intros [? ?].
Qed.

(** A receipt closes a permit that was claimed, even if it was revoked since. *)
Lemma consumed_evolves now p :
  negb (pmt_status p ∈? ["claimed"; "revoked"]) || is_none (pmt_claimed_at p) = false →
  permit_evolves p (p <| pmt_status := "consumed" |> <| pmt_consumed_at := Some now |>
                      <| pmt_updated_at := now |>).
Proof.
  intros [Hs Hc]%orb_false_iff. step_of.
  apply permit_status_evolves; unfold permit_terms; set_simpl; try done.
  - apply elem_of_cons in Hs as [->|Hs]; [constructor|].
    apply list_elem_of_singleton in Hs as ->. constructor.
  - intros _. by destruct (pmt_claimed_at p).
Qed.

(** Expiry of a permit that is read. *)
Definition permit_expires (p q : ExecutionPermit) : Prop :=
  q = p ∨ pmt_status p ∈ ["active"; "claimed"] ∧ pmt_status q = "expired"
          ∧ permit_evolves p q.

Lemma permit_expires_id p q : permit_expires p q → pmt_id q = pmt_id p.
Proof. intros [->|(_ & _ & Hq)]; [done|]. by injection (pe_terms _ _ Hq). Qed.

Section handlers.
Context `{!Env}.

Lemma expire_permit_result p w q : (_expire_permit p w).1 = Ok q → permit_expires p q.
Proof.
  unfold _expire_permit. destruct (negb _) eqn:Hs; [intros [= <-]; by left|].
  unfold mbind, M_bind, utcnow. destruct (clock _ <? _); intros [= <-]; [by left|right].
  step_of. split_and!; [done|by set_simpl|]. apply permit_status_evolves; unfold permit_terms;
    set_simpl; try done. by constructor.
Qed.

Lemma expire_permit_readonly p : readonly (_expire_permit p).
Proof. ro_go. Qed.

(** A permit that is read and has not expired is the one stored. *)
Lemma expire_permit_same p w q :
  (_expire_permit p w).1 = Ok q → pmt_status q ≠ "expired" → q = p.
Proof. by intros [?|(_ & ? & _)]%expire_permit_result. Qed.

(** What one revocation of an open permit keeps, [_revoke_permits] keeps. *)
Lemma revoke_permits_keep (I : db → Prop) o reason r p :
  (∀ d, I d → keyed ExecutionPermit d) →
  (∀ d now q, I d → permits d !! pmt_id q = Some q → pmt_status q ∈ ["active"; "claimed"] →
     I (put_row (revoked_permit now reason q) d)) →
  pres I (_revoke_permits o reason r p).
Proof.
  intros HK HI. apply pres_intro. intros w Hc Hw. unfold _revoke_permits.
  wp_step. wp_step. wp_step. wp_step. wp_step.
  assert (∀ q, q ∈ revocable_permits o r p (working w) →
    permits (working w) !! pmt_id q = Some q ∧ pmt_status q ∈ ["active"; "claimed"]) as Hq.
  { intros q [_ Hq]%list_elem_of_filter. apply elem_of_select_keyed in Hq as [Hq Hin]; [|auto].
    apply andb_true_iff in Hq as [[_ Hs]%andb_true_iff _]. by apply bool_decide_eq_true in Hs. }
  apply (wp_bulk_put I id (revoked_permit _ reason)); simpl; try done.
  - rewrite list_fmap_id. apply NoDup_filter_fmap. exact (NoDup_select _ _ (HK _ Hw)).
  - intros q Hin. by apply Hq.
  - intros q d Hin Hd Hl. apply HI; [done|done|]. by apply Hq.
Qed.

(** *** Permits evolve *)
Section evolve.
Context (N : ExecutionPermit → Prop) (d0 : db).
Notation I := (evolved permit_evolves N d0).

Lemma revoke_permits_evolved o reason r p : pres I (_revoke_permits o reason r p).
Proof.
  apply revoke_permits_keep; [by intros d [? _]|].
  intros d now q HI Hq Hs. eapply evolved_write; [apply _|done|exact Hq|done|].
  by apply revoked_permit_evolves.
Qed.

Lemma list_permits_evolved o s : pres I (list_permits o s).
Proof.
  apply pres_intro. intros w Hc Hw. unfold list_permits. wp_step. wp_step.
  assert (keyed ExecutionPermit (working w)) as HK by apply Hw.
  apply (wp_expire_page _ _ permit_expires I); [..|done|done].
  - apply expire_permit_readonly.
  - intros a w' b. apply expire_permit_result.
  - apply permit_expires_id.
  - intros d a b Hab Hch HI Ha. eapply evolved_write; [apply _|done|exact Ha| |].
    + by apply permit_expires_id.
    + destruct Hab as [->|(_&_&?)]; done.
  - rewrite sort_by_perm. by apply NoDup_select.
  - intros a Ha%sort_by_elem%elem_of_select_keyed; [by destruct Ha|done].
Qed.

Lemma claim_permit_evolved o p a : pres I (claim_permit o p a).
Proof.
  assert (∀ id permit now, pres I (update_row id (claim_guard o permit) (claimed_permit now)))
    as Hupd.
  { intros. apply pres_update_row_evolved; [apply _|done|].
    intros r [[_ Hr%bool_decide_eq_true]%andb_true_iff _]%andb_true_iff.
    by apply claimed_permit_evolves. }
  pres_go.
Qed.

Lemma issue_permit_evolved o a r t :
  (∀ p, permit_new p → N p) → pres I (issue_permit o a r t).
Proof.
  intros HN. assert (∀ p, permit_new p → pres I (add p)) as Hadd.
  { intros p Hp. apply pres_add_evolved; [apply _|auto]. }
  pres_go.
Qed.

Lemma record_receipt_evolved o d : pres I (record_receipt o d).
Proof.
  apply pres_intro. intros w Hc Hw. unfold record_receipt.
  wp_inv (evolved permit_evolves N d0).
  all: wp_rest (evolved permit_evolves N d0).
  all: apply find_require_ok in H3 as [Hp _].
  all: eapply evolved_write; [apply _|by repeat apply stable|exact Hp|done|].
  all: by apply consumed_evolves.
Qed.

Lemma handler_permit_evolved op :
  (match op with IssuePermit _ _ _ _ => True | _ => False end →
   ∀ p, permit_new p → N p) →
  pres I (handler op).
Proof.
  pose proof revoke_permits_evolved.
  destruct op; intros HN; try solve [frame]; try apply pres_while_recorded;
    apply pres_ignore.
  - apply update_policy_stops; [apply _..|done|apply _].
  - apply set_control_stops; try apply _; [done|].
    intros. by apply pause_or_cancel_recoveries_pres, _.
  - apply issue_permit_evolved. by apply HN.
  - apply claim_permit_evolved.
  - apply record_receipt_evolved.
  - apply list_permits_evolved.
  - apply apply_override_stops; try apply _; [done|].
    intros. by apply pause_or_cancel_recoveries_pres, _.
  - apply pres_intro. intros w Hc Hw. apply (begin_call_keep I); [done..| |].
    + intros. apply claim_permit_evolved.
    + intros. by apply stable.
  - apply (finish_action_keep I). intros. apply record_receipt_evolved.
Qed.
End evolve.
End handlers.

(** ** Theorems *)
Section theorems.
Context `{!Env}.

Lemma permit_evolution op d0 : keeps (evolved permit_evolves permit_new d0) op.
Proof. by apply pres_keeps, handler_permit_evolved. Qed.

(** C12 Single use: in every reachable store a permit has been used at most once, and
    exactly when it was claimed; an active permit is unused, and a claimed or consumed
    one has spent its only use. *)
Theorem permits_single_use s id p :
  reachable s → permits (st_db s) !! id = Some p →
  pmt_max_uses p = 1 ∧ 0 ≤ pmt_use_count p ≤ pmt_max_uses p
  ∧ (pmt_use_count p = 1 ↔ is_Some (pmt_claimed_at p))
  ∧ (pmt_status p = "active" → pmt_use_count p = 0)
  ∧ (pmt_status p ∈ ["claimed"; "consumed"] → pmt_use_count p = 1).
Proof.
  intros Hs Hp.
  destruct (reachable_origin _ _ permit_evolution s id p Hs Hp) as (p0 & Hnew & _ & [Ht _ Hc _]).
  destruct (Hc (permit_new_counts _ Hnew)) as (Hu & Ha & Hcl).
  assert (pmt_max_uses p = 1) as Hmax.
  { assert (pmt_max_uses p = pmt_max_uses p0) as -> by by injection Ht. apply Hnew. }
  rewrite Hmax. split_and!; [done|destruct (pmt_claimed_at p); lia..| | |].
  - destruct (pmt_claimed_at p); split; [eauto|done|lia|by intros [??]].
  - intros Hs'. by rewrite Hu, (Ha Hs').
  - intros [t Ht']%Hcl. by rewrite Hu, Ht'.
Qed.

Lemma permit_settled s s' :
  rtc permit_step s s' → s ∈ ["consumed"; "expired"] → s' = s.
Proof.
  intros Hrtc. induction Hrtc as [|s t u Hst _ IH]; [done|]. intros Hin. exfalso.
  inversion Hst; subst; set_solver.
Qed.

Lemma permit_spent s s' : rtc permit_step s s' → s ≠ "active" → s' ≠ "active".
Proof.
  intros Hrtc. induction Hrtc as [|s t u Hst _ IH]; [done|]. intros _. apply IH.
  by inversion Hst.
Qed.

(** The life of a permit: whatever operations run, what a permit allows never
    changes, its status moves along the steps of the life cycle, a spent permit is never
    active again, consumption and expiry are final, and so is the time of the claim. *)
Theorem permit_life_cycle s os id p :
  reachable s → permits (st_db s) !! id = Some p →
  ∃ p', permits (st_db (exec_all s os)) !! id = Some p'
    ∧ permit_terms p' = permit_terms p
    ∧ rtc permit_step (pmt_status p) (pmt_status p')
    ∧ (pmt_status p ≠ "active" → pmt_status p' ≠ "active")
    ∧ (pmt_status p ∈ ["consumed"; "expired"] → pmt_status p' = pmt_status p)
    ∧ (is_Some (pmt_claimed_at p) → pmt_claimed_at p' = pmt_claimed_at p).
Proof.
  intros Hs Hp.
  destruct (reachable_origin _ _ permit_evolution s id p Hs Hp) as (p0 & Hnew & _ & [_ _ Hc _]).
  destruct (exec_all_kept _ _ permit_evolution s os id p Hs Hp) as (p' & Hp' & [Ht Hst _ Hcl]).
  exists p'. split_and!; [done..| | |].
  - by apply permit_spent.
  - by apply permit_settled.
  - intros Hi. by apply Hcl; [apply Hc, permit_new_counts|].
Qed.
End theorems.

Lemma permits_single_use_witness :
  ∃ p, permits (st_db claimed_store) !! "id-17" = Some p ∧ pmt_max_uses p = 1
    ∧ (pmt_status p ∈ ["claimed"; "consumed"] → pmt_use_count p = 1).
Proof.
  eexists. split; [vm_compute; reflexivity|].
  destruct (permits_single_use claimed_store "id-17" _ claimed_store_reachable
    ltac:(vm_compute; reflexivity)) as (H1 & _ & _ & _ & H2).
  split; [exact H1|exact H2].
Defined.

Lemma permit_life_cycle_witness :
  ∃ p p', permits (st_db claimed_store) !! "id-17" = Some p
    ∧ permits (st_db (exec_all claimed_store demo_report)) !! "id-17" = Some p'
    ∧ permit_terms p' = permit_terms p.
Proof.
  eexists.
  destruct (permit_life_cycle claimed_store demo_report "id-17" _ claimed_store_reachable
    ltac:(vm_compute; reflexivity)) as (p' & Hp' & Ht & _).
  exists p'. split; [vm_compute; reflexivity|]. split; [exact Hp'|exact Ht].
Defined.
