(* ===== verification/Authority.v ===== *)
(** * The chain of authority

    From a finished privileged command back to the votes: the command has a receipt,
    the receipt a claimed permit, the permit an approved request, and the request is
    about this very command, unchanged since it was approved. *)

From S2P Require Import Prelude PyStr PyVal Errors Validate Models Database Session.
From S2P Require Import Preserve Rows Collaboration Autonomy Controls Approvals.
From S2P Require Import Permits Recovery FederationPolicy Federation FederationBroker.
From S2P Require Import Footprint System Evolution Demo.
From S2P Require Import CommandProofs ApprovalProofs PermitProofs.

Section links.
Context `{!Env}.

(** ** The links *)

(** A request is about a command: same owner, same executor, and the digest of what
    the command says. *)
Definition request_backed (d : db) (a : ApprovalRequest) : Prop :=
  ∃ cid c, apr_command_id a = Some cid ∧ commands d !! cid = Some c
    ∧ apr_payload_hash a = _sha256 (PDict (_command_envelope c))
    ∧ cmd_target_agent_id c = apr_executor_agent_id a
    ∧ cmd_owner_subject c = apr_owner_subject a.

(** A command that is recorded as approved has an approved request about it. *)
Definition command_backed (d : db) (c : AgentCommand) : Prop :=
  is_Some (cmd_approved_by_subject c) →
    ∃ a, approvals d !! apr_id a = Some a
      ∧ apr_status a = "approved" ∧ apr_command_id a = Some (cmd_id c).

(** A permit repeats the terms of an approved request. *)
Definition permit_backed (d : db) (p : ExecutionPermit) : Prop :=
  ∃ a, approvals d !! pmt_approval_request_id p = Some a ∧ apr_status a = "approved"
    ∧ (pmt_owner_subject p, pmt_policy_id p, pmt_command_id p, pmt_executor_agent_id p)
      = (apr_owner_subject a, apr_policy_id a, apr_command_id a, apr_executor_agent_id a)
    ∧ (pmt_action_class p, pmt_tool p, pmt_command_profile p, pmt_payload_hash p,
       pmt_policy_generation p)
      = (apr_action_class a, apr_tool a, apr_command_profile a, apr_payload_hash a,
         apr_policy_generation a)
    ∧ pmt_expires_at p ≤ apr_expires_at a.

(** A receipt repeats the terms of a consumed permit that was claimed. *)
Definition receipt_backed (d : db) (r : ActionReceipt) : Prop :=
  ∃ p, permits d !! rcpt_permit_id r = Some p ∧ pmt_status p = "consumed"
    ∧ is_Some (pmt_claimed_at p)
    ∧ (rcpt_owner_subject r, rcpt_approval_request_id r, rcpt_command_id r,
       rcpt_executor_agent_id r)
      = (pmt_owner_subject p, pmt_approval_request_id p, pmt_command_id p,
         pmt_executor_agent_id p)
    ∧ (rcpt_action_class r, rcpt_tool r, rcpt_command_profile r, rcpt_input_hash r)
      = (pmt_action_class p, pmt_tool p, pmt_command_profile p, pmt_payload_hash p).

(** A privileged command that its target has finished has a receipt that says how. *)
Definition privileged (c : AgentCommand) : Prop :=
  cmd_kind c = "run_tool" ∧ cmd_requires_approval c = true.
Definition outcome_of (r : ActionReceipt) : string :=
  if rcpt_status r ==? "succeeded" then "completed" else "failed".
Definition finish_backed (d : db) (c : AgentCommand) : Prop :=
  privileged c → finished (cmd_status c) →
  ∃ id r, receipts d !! id = Some r ∧ rcpt_command_id r = Some (cmd_id c)
    ∧ rcpt_owner_subject r = cmd_owner_subject c
    ∧ rcpt_executor_agent_id r = cmd_target_agent_id c
    ∧ cmd_status c = outcome_of r.

(** All the rows of a table satisfy [P]. *)
Definition every (R : Type) `{!Table R} (P : db → R → Prop) (d : db) : Prop :=
  ∀ id (r : R), tbl d !! id = Some r → P d r.

Definition one_permit_per_request (d : db) : Prop :=
  ∀ id p id' p', permits d !! id = Some p → permits d !! id' = Some p' →
    pmt_approval_request_id p = pmt_approval_request_id p' → id = id'.
Definition one_receipt_per_permit (d : db) : Prop :=
  ∀ id r id' r', receipts d !! id = Some r → receipts d !! id' = Some r' →
    rcpt_permit_id r = rcpt_permit_id r' → id = id'.

Record authority (d : db) : Prop := {
  auth_requests : every ApprovalRequest request_backed d;
  auth_commands : every AgentCommand command_backed d;
  auth_permits : every ExecutionPermit permit_backed d ∧ one_permit_per_request d;
  auth_receipts : every ActionReceipt receipt_backed d ∧ one_receipt_per_permit d;
  auth_finished : every AgentCommand finish_backed d;
}.

(** ** Links and evolution *)
Lemma request_backed_evolves d d' ap fin Nc a a' :
  grows (command_evolves ap fin) Nc d d' → request_evolves a a' →
  request_backed d a → request_backed d' a'.
Proof.
  intros [Hkept _] [Ht _ _] (cid & c & Hcid & Hc & Hh & He & Ho).
  destruct (Hkept _ _ Hc) as (c' & Hc' & HE). exists cid, c'.
  assert (apr_command_id a' = apr_command_id a) as -> by by injection Ht.
  assert (apr_payload_hash a' = apr_payload_hash a) as -> by by injection Ht.
  assert (apr_executor_agent_id a' = apr_executor_agent_id a) as -> by by injection Ht.
  assert (apr_owner_subject a' = apr_owner_subject a) as -> by by injection Ht.
  destruct (command_order_fields _ _ (ce_order _ _ _ _ HE)) as (_ & -> & -> & -> & _).
  done.
Qed.

Lemma command_backed_evolves d d' Na c c' fin :
  grows request_evolves Na d d' → command_evolves false fin c c' →
  command_backed d c → command_backed d' c'.
Proof.
  intros [Hkept _] HE HB Hx. destruct (ce_approval _ _ _ _ HE) as [E|[? _]]; [|done].
  rewrite E in Hx. destruct (HB Hx) as (a & Ha & Hs & Hc).
  destruct (Hkept _ _ Ha) as (a' & Ha' & [Ht Hst _]). exists a'.
  assert (apr_id a' = apr_id a) as -> by by injection Ht.
  assert (apr_command_id a' = apr_command_id a) as -> by by injection Ht.
  destruct (command_order_fields _ _ (ce_order _ _ _ _ HE)) as (-> & _).
  split_and!; [done| |done]. destruct Hst as [-> _]; [by rewrite Hs|done].
Qed.

Lemma permit_backed_evolves d d' Na p p' :
  grows request_evolves Na d d' → permit_evolves p p' →
  permit_backed d p → permit_backed d' p'.
Proof.
  intros [Hkept _] [Hp _ _ _] (a & Ha & Hs & E1 & E2 & E3).
  destruct (Hkept _ _ Ha) as (a' & Ha' & [Ht Hst _]). simpl in Ha'.
  exists a'. injection Hp. injection Ht. injection E1. injection E2. intros.
  split_and!; [congruence| |repeat f_equal; congruence|repeat f_equal; congruence|congruence].
  destruct Hst as [-> _]; [by rewrite Hs|done].
Qed.

Lemma receipt_backed_evolves d d' Np r :
  grows permit_evolves Np d d' → (∀ id p, permits d !! id = Some p → permit_counts p) →
  receipt_backed d r → receipt_backed d' r.
Proof.
  intros [Hkept _] Hcount (p & Hp & Hs & Hc & E1 & E2).
  destruct (Hkept _ _ Hp) as (p' & Hp' & [Ht Hst _ Hcl]). simpl in Hp'.
  exists p'. injection Ht. injection E1. injection E2. intros.
  split_and!; [congruence| | |repeat f_equal; congruence|repeat f_equal; congruence].
  - rewrite Hs in Hst. apply (permit_settled _ _ Hst). set_solver.
  - destruct Hcl as [-> _]; eauto.
Qed.

Lemma finish_backed_evolves d d' Nr ap c c' :
  grows (@eq ActionReceipt) Nr d d' → command_evolves ap false c c' →
  finish_backed d c → finish_backed d' c'.
Proof.
  intros [Hkept _] HE HB [Hk Hr] Hf.
  destruct (command_order_fields _ _ (ce_order _ _ _ _ HE)) as (Ei & Eo & _ & Et & Ek & Er).
  destruct (ce_finished _ _ _ _ HE Hf) as [[Hf0 Es]|?]; [|done].
  destruct HB as (id & r & Hrc & E1 & E2 & E3 & E4); [split; congruence|done|].
  destruct (Hkept _ _ Hrc) as (r' & Hr' & <-). simpl in Hr'. exists id, r.
  split_and!; congruence.
Qed.

(** ** What single rows bring *)
Lemma every_put {R} `{!Table R} `{!TableOk R} (P : db → R → Prop) (r : R) d :
  every R P d → (∀ r', P d r' → P (put_row r d) r') → P (put_row r d) r →
  every R P (put_row r d).
Proof.
  intros HE Hother Hr id r'. rewrite tbl_put_row.
  intros [[_ <-]|[_ Hr']]%lookup_insert_Some; [done|]. by eapply Hother, HE.
Qed.

Lemma verify_request_integrity_ok r w c :
  (_verify_request_integrity r w).1 = Ok c →
  ∃ cid, apr_command_id r = Some cid ∧ commands (working w) !! cid = Some c
    ∧ cmd_owner_subject c = apr_owner_subject r
    ∧ _sha256 (PDict (_command_envelope c)) = apr_payload_hash r
    ∧ cmd_target_agent_id c = apr_executor_agent_id r
    ∧ ∃ p, policies (working w) !! apr_policy_id r = Some p
        ∧ pol_owner_subject p = apr_owner_subject r
        ∧ pol_generation p = apr_policy_generation r ∧ pol_status p = "active".
Proof.
  intros Hok. enough (wp (_verify_request_integrity r) (λ x _, ∀ c, x = Ok c → _) w) as Hw
    by exact (Hw c Hok).
  clear Hok. unfold _verify_request_integrity.
  wp_inv (λ _ : db, True); try (intros ? ?; discriminate).
  intros ? [= ->]. step_of.
  match goal with H : _ || _ = false |- _ => apply orb_false_iff in H as [Hg Hst] end. step_of.
  match goal with H : (_policy _ _ _).1 = Ok _ |- _ => found H end.
  match goal with H : (Autonomy._command _ _ _).1 = Ok _ |- _ => found H end. step_of.
  apply negb_false_iff, Z.eqb_eq in Hg.
  eexists. split_and!; [done..|]. eexists. by split_and!.
Qed.

(** ** Recording an approval *)
Definition drafting (d : db) : Prop :=
  (keyed ApprovalRequest d ∧ keyed AgentCommand d)
  ∧ every ApprovalRequest request_backed d ∧ every AgentCommand command_backed d.

Lemma request_backed_approval d a rid now c :
  commands d !! cmd_id c = Some c →
  request_backed d a → request_backed (put_row (approved_command rid now c) d) a.
Proof.
  intros Hc (cid & c0 & Hcid & Hc0 & Hrest).
  change (commands (put_row (approved_command rid now c) d))
    with (<[cmd_id c := approved_command rid now c]> (commands d)).
  destruct (decide (cid = cmd_id c)) as [->|Hne].
  - simplify_eq. exists (cmd_id c), (approved_command rid now c).
    change (commands (put_row (approved_command rid now c) d))
      with (<[cmd_id c := approved_command rid now c]> (commands d)).
    by rewrite lookup_insert_eq.
  - exists cid, c0.
    change (commands (put_row (approved_command rid now c) d))
      with (<[cmd_id c := approved_command rid now c]> (commands d)).
    by rewrite lookup_insert_ne by done.
Qed.

(** The approval of a command, with the request that is approved. *)
Lemma drafting_approve d c now a :
  drafting d → commands d !! cmd_id c = Some c → apr_status a = "approved" →
  (∀ a0, approvals d !! apr_id a = Some a0 → apr_status a0 ≠ "approved") →
  apr_command_id a = Some (cmd_id c) → request_backed d a →
  drafting (put_row a (put_row (approved_command (apr_id a) now c) d)).
Proof.
  intros ([KA KC] & HA & HC) Hc Hs Hnew Hcid HB. split_and!.
  - by apply keyed_put.
  - exact (keyed_put _ _ KC).
  - apply every_put.
    + intros id a0 Ha0. apply request_backed_approval; [done|]. by eapply HA.
    + done.
    + by apply request_backed_approval.
  - intros id c' Hc'.
    change (<[cmd_id c := approved_command (apr_id a) now c]> (commands d) !! id = Some c')
      in Hc'.
    apply lookup_insert_Some in Hc' as [[<- <-]|[_ Hc']]; intros Hx.
    + exists a. rewrite approvals_put_row, lookup_insert_eq.
      by change (cmd_id (approved_command (apr_id a) now c)) with (cmd_id c).
    + destruct (HC _ _ Hc' Hx) as (b & Hb & Hbs & Hbc). exists b.
      split_and!; [|done|done]. rewrite approvals_put_row.
      rewrite lookup_insert_ne; [done|]. intros E. rewrite <-E in Hb. by eapply Hnew.
Qed.

Lemma drafting_put_request d a :
  drafting d → (∀ a0, approvals d !! apr_id a = Some a0 → apr_status a0 ≠ "approved") →
  request_backed d a → drafting (put_row a d).
Proof.
  intros ([KA KC] & HA & HC) Hnew HB. split_and!.
  - by apply keyed_put.
  - done.
  - apply every_put; [done|done|done].
  - intros id c Hc Hx. destruct (HC _ _ Hc Hx) as (b & Hb & Hbs & Hbc). exists b.
    split_and!; [|done|done]. rewrite approvals_put_row.
    rewrite lookup_insert_ne; [done|]. intros E. rewrite <-E in Hb. by eapply Hnew.
Qed.

Lemma create_approval_request_drafting o a d : pres drafting (create_approval_request o a d).
Proof.
  apply pres_intro. intros w Hc Hw. unfold create_approval_request. wp_inv drafting.
  all: apply (wp_create_or_existing_keep drafting); [stl_go|done|]; intros Hv; try discriminate.
  all: world_simpl.
  all: match goal with H : (Autonomy._command _ _ _).1 = Ok _ |- _ => found H end; world_simpl.
  all: match goal with H : insertable _ _ = true |- _ => apply insertable_spec in H as [Hfree _] end.
  all: destruct Hw as ([KA KC] & HA & HC).
  all: match goal with H : _ = @Some AgentCommand ?c |- _ =>
    pose proof (KC _ _ H) as E; simpl in E; subst; rename H into Hcmd end.
  all: assert (∀ id x, tbl (working w) !! id = Some x → tbl (working w) !! id = @None ApprovalRequest
    → apr_status x ≠ "approved") as Hnone by (intros; congruence).
  all: match goal with H : (cmd_target_agent_id _ =/? _) = false |- _ =>
    apply negb_false_iff, bool_decide_eq_true in H as Htarget end.
  all: match goal with H : (cmd_owner_subject _ ==? _) = true |- _ =>
    apply bool_decide_eq_true in H as Howner end.
  - apply drafting_approve; [done|exact Hcmd|done| |done|].
    + intros x Hx. exact (Hnone _ x Hx Hfree).
    + eexists _, _. by split_and!; [|exact Hcmd|..].
  - apply drafting_put_request; [done| |].
    + intros x Hx. exact (Hnone _ x Hx Hfree).
    + eexists _, _. by split_and!; [|exact Hcmd|..].
Qed.

Lemma request_backed_terms d a a' :
  request_terms a' = request_terms a → request_backed d a → request_backed d a'.
Proof.
  intros Ht (cid & c & Hcid & Hc & Hh & He & Ho). exists cid, c.
  injection Ht. intros. split_and!; congruence.
Qed.

Lemma cast_vote_drafting r u d s : pres drafting (cast_vote r u d s).
Proof.
  apply pres_intro. intros w Hc Hw. unfold cast_vote, approve_request_command.
  wp_inv drafting; try discriminate.
  all: wp_event drafting.
  all: match goal with H : (apr_status _ =/? "pending") = false |- _ =>
    apply negb_false_iff, bool_decide_eq_true in H as Hp end.
  all: match goal with H : (_approval _ _).1 = Ok _ |- _ => apply get_require_ok in H as Ha end.
  all: match goal with H : (_expire_approval _ _).1 = Ok _ |- _ =>
         apply expire_approval_pending in H as ->; [|done] end.
  all: destruct Hw as ([KA KC] & HA & HC); pose proof (KA _ _ Ha) as E; simpl in E, Ha; subst r.
  all: match goal with |- context [decided_request ?a ?vs ?now] =>
    pose proof (decided_request_terms a vs now) as Ht;
    pose proof (request_backed_terms (working w) _ _ Ht (HA _ _ Ha)) as HB end.
  all: match goal with |- context [put_row ?v ?d] => lazymatch type of v with ApprovalVote =>
    assert (drafting (put_row v d)) as Hd by done end end.
  all: match goal with |- context [decided_request ?x ?vs ?now] =>
    assert (apr_id (decided_request x vs now) = apr_id x) as Hid by (injection Ht; done);
    remember (decided_request x vs now) as a' eqn:Ea'; clear Ea' end.
  all: assert (∀ x, approvals (working w) !! apr_id a' = Some x → apr_status x ≠ "approved") as Hnew
    by (intros x Hx; rewrite Hid in Hx; assert (x = a) as -> by congruence; by rewrite Hp).
  2,3: by apply drafting_put_request.
  match goal with H : (Autonomy._command _ _ _).1 = Ok _ |- _ => found H; rename H into Hcmd end.
  world_simpl. pose proof (KC _ _ Hcmd) as E. simpl in E.
  apply drafting_approve; [done| |by eapply bool_decide_eq_true_1| | |done].
  - rewrite E. exact Hcmd.
  - done.
  - rewrite E. by destruct (apr_command_id a').
Qed.

(** ** Guarded actions of the federation broker *)
Lemma request_backed_put_command d a c :
  (∀ c0, commands d !! cmd_id c = Some c0 →
     (_command_envelope c, cmd_target_agent_id c, cmd_owner_subject c)
     = (_command_envelope c0, cmd_target_agent_id c0, cmd_owner_subject c0)) →
  request_backed d a → request_backed (put_row c d) a.
Proof.
  intros Hc (cid & c0 & Hcid & Hc0 & Hh & He & Ho).
  exists cid. change (commands (put_row c d)) with (<[cmd_id c := c]> (commands d)).
  destruct (decide (cid = cmd_id c)) as [->|Hne].
  - exists c. rewrite lookup_insert_eq. specialize (Hc _ Hc0).
    apply pair_eq in Hc as [[-> ->]%pair_eq ->]. done.
  - exists c0. by rewrite lookup_insert_ne by done.
Qed.

Lemma drafting_put_command d c :
  drafting d →
  (∀ c0, commands d !! cmd_id c = Some c0 →
     (_command_envelope c, cmd_target_agent_id c, cmd_owner_subject c)
     = (_command_envelope c0, cmd_target_agent_id c0, cmd_owner_subject c0)) →
  command_backed d c → drafting (put_row c d).
Proof.
  intros ([KA KC] & HA & HC) Hc HB. split_and!.
  - done.
  - exact (keyed_put _ _ KC).
  - intros id a Ha. apply request_backed_put_command; [done|]. by eapply HA.
  - intros id c' Hc'. change (<[cmd_id c := c]> (commands d) !! id = Some c') in Hc'.
    apply lookup_insert_Some in Hc' as [[<- <-]|[_ Hc']]; [done|]. exact (HC _ _ Hc').
Qed.

Lemma sha256_json_sha256 v h : sha256_json v = Ok h → h = _sha256 v.
Proof.
  unfold sha256_json, canonical_json, _sha256, _canonical_json.
  destruct (is_json v); by intros [= <-].
Qed.

(** A new command that nobody has approved, and a new request about it. *)
Lemma drafting_new_command d c :
  drafting d → insertable c d = true → cmd_approved_by_subject c = None →
  drafting (put_row c d).
Proof.
  intros HD [Hfree _]%insertable_spec Hn. apply drafting_put_command; [done| |].
  - intros c0 Hc0. simpl in Hfree. congruence.
  - intros [x Hx]. congruence.
Qed.

Lemma drafting_new_request d c a :
  drafting (put_row c d) → insertable a (put_row c d) = true →
  apr_command_id a = Some (cmd_id c) →
  apr_payload_hash a = _sha256 (PDict (_command_envelope c)) →
  cmd_target_agent_id c = apr_executor_agent_id a →
  cmd_owner_subject c = apr_owner_subject a →
  drafting (put_row a (put_row c d)).
Proof.
  intros HD [Hfree _]%insertable_spec Hcid Hh He Ho. apply drafting_put_request; [done| |].
  - intros a0 Ha0 _. by discriminate (eq_trans (eq_sym Ha0) Hfree).
  - exists (cmd_id c), c. by split_and!; [|apply lookup_insert_eq|..].
Qed.

(** The approval request of a prepared action is about the command prepared with it. *)
Lemma write_preparation_drafting i c o p h t : pres drafting (write_preparation i c o p h t).
Proof.
  apply pres_intro. intros w Hc Hw. unfold write_preparation. wp_inv drafting.
  all: world_simpl.
  all: try match goal with |- context [put_row (guarded_command ?i ?c ?o ?x ?y ?z ?k ?n ?t) ?d] =>
    assert (drafting (put_row (guarded_command i c o x y z k n t) d)) as Hcmd
      by (apply drafting_new_command; [by repeat apply stable|done|done]) end.
  all: try (split; done).
  all: match goal with H : _command_hash _ = Ok _ |- _ => apply sha256_json_sha256 in H end.
  all: match goal with |- context [put_row (guarded_approval ?i ?c ?m ?p ?o ?x ?y ?z ?k ?n ?t ?u ?v) ?d] =>
    assert (drafting (put_row (guarded_approval i c m p o x y z k n t u v) d)) as Hreq
      by (by apply drafting_new_request) end.
  all: by split; [|repeat apply stable].
Qed.

Lemma prepare_action_drafting u p t : pres drafting (prepare_action u p t).
Proof.
  apply (prepare_action_keep drafting).
  - intros. apply ensure_execution_context_pres; apply _.
  - intros. apply write_preparation_drafting.
Qed.

(** ** Issuing a permit *)
Definition permitting (d : db) : Prop :=
  (keyed ApprovalRequest d ∧ keyed AgentCommand d ∧ keyed AutonomyPolicy d)
  ∧ every ExecutionPermit permit_backed d ∧ one_permit_per_request d.

Lemma permitting_insert d p :
  permitting d → insertable p d = true → permit_backed d p → permitting (put_row p d).
Proof.
  intros (HK & HP & HU) [Hfree Hclash]%insertable_spec HB. split_and!; [apply HK..| |].
  - by apply every_put.
  - assert (∀ id q, permits d !! id = Some q →
      pmt_approval_request_id q = pmt_approval_request_id p → False) as Hnew.
    { intros id q Hq E. specialize (Hclash id q Hq). simpl in Hclash.
      unfold clash_permits in Hclash. by rewrite bool_decide_eq_true_2 in Hclash. }
    intros id q id' q' Hq Hq' E.
    change (<[pmt_id p := p]> (permits d) !! id = Some q) in Hq.
    change (<[pmt_id p := p]> (permits d) !! id' = Some q') in Hq'.
    apply lookup_insert_Some in Hq as [[<- <-]|[_ Hq]];
      apply lookup_insert_Some in Hq' as [[<- <-]|[_ Hq']]; [done| | |by eapply HU].
    + exfalso. by eapply Hnew.
    + exfalso. by eapply Hnew.
Qed.

Lemma issue_permit_permitting o a r t : pres permitting (issue_permit o a r t).
Proof.
  apply pres_intro. intros w Hc Hw. unfold issue_permit. wp_inv permitting.
  all: wp_event permitting.
  apply permitting_insert; [done|done|].
  apply negb_false_iff, bool_decide_eq_true in H1, H3.
  apply expire_approval_same in H2 as ->; [|by rewrite H3].
  apply get_require_ok in H0 as Ha. destruct Hw as ((KA & KC & KP) & _).
  pose proof (KA _ _ Ha) as E. simpl in E, Ha. subst r.
  apply verify_request_integrity_ok in H4
    as (cid & Hcid & Hcmd & _ & _ & _ & p & Hp & _ & Hgen & _).
  found H5. world_simpl. simpl in H5. rewrite Hp in H5. injection H5 as ->.
  pose proof (KC _ _ Hcmd) as Ec. simpl in Ec. pose proof (KP _ _ Hp) as Ep. simpl in Ep.
  exists a0. simpl. split_and!; [done|done|congruence|congruence|lia].
Qed.

(** The command of an action that begins is accepted on an approved request about it. *)
Lemma begin_call_drafting u p c t w :
  drafting (committed w) → drafting (working w) → permitting (working w) →
  wp (begin_call u p c t) (λ _ w', drafting (committed w')) w.
Proof.
  intros Hc Hw ((KA & KC & _) & HP & _).
  eapply wp_mono; [apply (begin_call_keep drafting); try done|by intros ? ? [? _]].
  - intros. apply claim_permit_pres; apply _.
  - intros x now (_ & ia & a & ip & q & ic & Ha & Hq & Hx & Has & Eq & Ec).
    pose proof (KC _ _ Hx) as Ex. simpl in Ex. subst ic.
    apply drafting_put_command; [done| |].
    + intros x0 Hx0. assert (x0 = x) as -> by exact (inj Some _ _ (eq_trans (eq_sym Hx0) Hx)).
      done.
    + intros _. destruct (HP _ _ Hq) as (b & Hb & Hbs & E1 & _). exists b.
      pose proof (KA _ _ Hb) as Eb. simpl in Eb. injection E1. intros.
      split_and!; [by rewrite Eb|done|].
      change (cmd_id (accepted_command _ _ x)) with (cmd_id x). congruence.
Qed.

(** ** Recording a receipt *)
Definition receipting (d : db) : Prop :=
  (keyed ExecutionPermit d ∧ keyed ActionReceipt d)
  ∧ every ActionReceipt receipt_backed d ∧ one_receipt_per_permit d.

Lemma receipting_insert d r p p' :
  receipting d → insertable r d = true → permits d !! pmt_id p = Some p →
  permit_terms p' = permit_terms p → pmt_claimed_at p' = pmt_claimed_at p →
  pmt_status p' = "consumed" → rcpt_permit_id r = pmt_id p →
  receipt_backed (put_row p' (put_row r d)) r →
  receipting (put_row p' (put_row r d)).
Proof.
  intros ((KP & KR) & HR & HU) [Hfree Hclash]%insertable_spec Hp Ht Hcl Hs Hrp HB.
  assert (pmt_id p' = pmt_id p) as Hid by (injection Ht; done).
  split_and!.
  - exact (keyed_put _ _ KP).
  - exact (keyed_put _ _ KR).
  - intros id r' Hr'. change (<[rcpt_id r := r]> (receipts d) !! id = Some r') in Hr'.
    apply lookup_insert_Some in Hr' as [[_ <-]|[_ Hr']]; [done|].
    destruct (HR _ _ Hr') as (q & Hq & Hqs & Hqc & E1 & E2).
    destruct (decide (rcpt_permit_id r' = pmt_id p)) as [Er|Hne].
    + assert (q = p) as -> by (rewrite Er in Hq; congruence).
      exists p'. rewrite Er. injection Ht. intros.
      change (permits (put_row p' (put_row r d))) with (<[pmt_id p' := p']> (permits d)).
      rewrite Hid, lookup_insert_eq, Hcl. split_and!; [done..|congruence|congruence].
    + exists q. split; [|done].
      change (permits (put_row p' (put_row r d))) with (<[pmt_id p' := p']> (permits d)).
      by rewrite Hid, lookup_insert_ne by done.
  - assert (∀ id q, receipts d !! id = Some q → rcpt_permit_id q = rcpt_permit_id r → False)
      as Hnew.
    { intros id q Hq E. specialize (Hclash id q Hq). simpl in Hclash.
      unfold clash_receipts in Hclash. by rewrite bool_decide_eq_true_2 in Hclash. }
    intros id q id' q' Hq Hq' E.
    change (<[rcpt_id r := r]> (receipts d) !! id = Some q) in Hq.
    change (<[rcpt_id r := r]> (receipts d) !! id' = Some q') in Hq'.
    apply lookup_insert_Some in Hq as [[<- <-]|[_ Hq]];
      apply lookup_insert_Some in Hq' as [[<- <-]|[_ Hq']]; [done| | |by eapply HU].
    + exfalso. by eapply Hnew.
    + exfalso. by eapply Hnew.
Qed.

Lemma record_receipt_receipting o d : pres receipting (record_receipt o d).
Proof.
  apply pres_intro. intros w Hc Hw. unfold record_receipt. wp_inv receipting.
  all: apply (wp_create_or_existing_keep receipting); [stl_go|done|]; intros Hv; try discriminate.
  world_simpl. found H3. assert (keyed ExecutionPermit (working w)) as KP by apply Hw.
  pose proof (KP _ _ H3) as Ep. simpl in Ep, H3. subst a1.
  apply negb_false_iff, bool_decide_eq_true in H5. apply bool_decide_eq_true in H15.
  apply orb_false_iff in H8 as [_ Hcl].
  eapply receipting_insert; [done|done|exact H3|done|done|done|done|].
  eexists. split; [apply lookup_insert_eq|]. simpl.
  split_and!; [done|by destruct (pmt_claimed_at a2)|congruence|done].
Qed.

Lemma finish_action_receipting u e a : pres receipting (finish_action u e a).
Proof. apply (finish_action_keep receipting). intros. apply record_receipt_receipting. Qed.

(** ** Finishing a command *)
Lemma complete_command_finishes o a c s r e :
  pres (every AgentCommand finish_backed) (complete_command o a c s r e).
Proof.
  apply pres_intro. intros w Hc Hw. unfold complete_command, check_action_receipt.
  wp_inv (every AgentCommand finish_backed).
  all: wp_event (every AgentCommand finish_backed).
  all: apply every_put; [done|done|].
  all: intros [Hk Hr] _.
  all: revert Hk Hr; set_simpl; intros Hk Hr; simplify_eq.
  2: by rewrite Hk, Hr in Heqb.
  apply find_require_ok in H0 as
    [_ [Ho%bool_decide_eq_true Ht%bool_decide_eq_true]%andb_true_iff].
  apply elem_of_select in H3 as [[[E1%bool_decide_eq_true E2%bool_decide_eq_true]%andb_true_iff
    E3%bool_decide_eq_true]%andb_true_iff [id Hid]].
  exists id, r1. unfold outcome_of. step_of. split_and!; [done|done|congruence..|done].
Qed.
End links.
