(* ===== verification/AuthorityProofs.v ===== *)
(** * The chain of authority holds in every reachable store

    The links of [Authority] are kept by every operation: by the ones that make them,
    as shown there, and by the others because the rows they relate only evolve. *)

From S2P Require Import Prelude PyStr PyVal Errors Validate Models Database Session.
From S2P Require Import Preserve Rows Collaboration Autonomy Controls Approvals.
From S2P Require Import Permits Recovery FederationBroker Footprint System Evolution Demo.
From S2P Require Import CommandProofs ApprovalProofs PermitProofs Authority.

Section chain.
Context `{!Env}.

(** ** What one operation does to the four tables *)
Definition op_requests (op : op) : bool :=
  match op with CreateApprovalRequest _ _ _ | PrepareAction _ _ _ => true | _ => false end.
Definition op_issues (op : op) : bool :=
  match op with IssuePermit _ _ _ _ => true | _ => false end.
Definition op_records (op : op) : bool :=
  match op with RecordReceipt _ _ | FinishAction _ _ _ => true | _ => false end.

(** Rows are inserted by the operation for it only. *)
Definition only {R} (b : bool) (N : R → Prop) (r : R) : Prop := b = true ∧ N r.

Lemma record_receipt_receipts N d0 o d :
  (∀ r, N r) → pres (evolved (@eq ActionReceipt) N d0) (record_receipt o d).
Proof.
  intros HN. assert (∀ r : ActionReceipt, pres (evolved (@eq ActionReceipt) N d0) (add r)) as Hadd.
  { intros r. apply pres_add_evolved; [apply _|apply HN]. }
  pres_go.
Qed.

Lemma handler_receipt_evolved N d0 op :
  (op_records op = true → ∀ r, N r) →
  pres (evolved (@eq ActionReceipt) N d0) (handler op).
Proof.
  destruct op; intros HN; try solve [frame].
  - apply pres_ignore, record_receipt_receipts. by apply HN.
  - apply pres_while_recorded, pres_ignore, (finish_action_keep (evolved eq N d0)). intros.
    apply record_receipt_receipts. by apply HN.
Qed.

Lemma exec_commands s o : reachable s →
  grows (command_evolves (op_approves o) (op_completes o)) command_new
    (st_db s) (st_db (exec s o)).
Proof.
  intros Hs. apply exec_grows; [apply _| |].
  - intros d0. apply pres_keeps, handler_command_evolved; by destruct (_ o).
  - by apply (reachable_keyed _ _ command_evolution).
Qed.

Lemma exec_requests s o : reachable s →
  grows request_evolves (only (op_requests o) request_new) (st_db s) (st_db (exec s o)).
Proof.
  intros Hs. apply exec_grows; [apply _| |].
  - intros d0. apply pres_keeps, handler_request_evolved. by destruct o.
  - by apply reachable_ballots.
Qed.

Lemma exec_permits s o : reachable s →
  grows permit_evolves (only (op_issues o) permit_new) (st_db s) (st_db (exec s o)).
Proof.
  intros Hs. apply exec_grows; [apply _| |].
  - intros d0. apply pres_keeps, handler_permit_evolved. by destruct o.
  - by apply (reachable_keyed _ _ permit_evolution).
Qed.

Lemma receipt_evolution op d0 :
  keeps (evolved (@eq ActionReceipt) (λ _, True) d0) op.
Proof. by apply pres_keeps, handler_receipt_evolved. Qed.

Lemma exec_receipts s o : reachable s →
  grows (@eq ActionReceipt) (only (op_records o) (λ _, True)) (st_db s) (st_db (exec s o)).
Proof.
  intros Hs. apply exec_grows; [apply _| |].
  - intros d0. apply pres_keeps, handler_receipt_evolved. by intros ->.
  - by apply (reachable_keyed _ _ receipt_evolution).
Qed.

(** A link kept by evolution is kept by an operation that inserts no row of the table,
    or whose new rows have it. *)
Lemma every_grows {R} `{!Table R} `{!TableOk R} (E : relation R) (N : R → Prop)
    (P : db → R → Prop) d d' :
  grows E N d d' → every R P d →
  (∀ r r', P d r → E r r' → P d' r') → (∀ r0 r', N r0 → E r0 r' → P d' r') →
  every R P d'.
Proof.
  intros [Hkept Hnew] HP Hold HN id r' Hr'. destruct (tbl d !! id) as [r|] eqn:Hr.
  - destruct (Hkept _ _ Hr) as (r1 & Hr1 & HE). simplify_eq. eapply Hold; [by eapply HP|done].
  - destruct (Hnew _ _ Hr' Hr) as (r0 & ? & _ & ?). by eapply HN.
Qed.

(** ** The links of one operation *)
Lemma reachable_commands_keyed s : reachable s → keyed AgentCommand (st_db s).
Proof. apply (reachable_keyed _ _ command_evolution). Qed.

Lemma policies_keyed s : reachable s → keyed AutonomyPolicy (st_db s).
Proof. apply reachable_invariant; [by intros ? ?|]. intros op. destruct op; frame. Qed.

Lemma permits_keyed s : reachable s → keyed ExecutionPermit (st_db s).
Proof. apply (reachable_keyed _ _ permit_evolution). Qed.

Lemma receipts_keyed s : reachable s → keyed ActionReceipt (st_db s).
Proof. apply (reachable_keyed _ _ receipt_evolution). Qed.

Lemma requests_keyed s : reachable s → keyed ApprovalRequest (st_db s).
Proof. intros Hs. by destruct (reachable_ballots s Hs). Qed.

Lemma exec_drafting s o :
  reachable s → drafting (st_db s) → permitting (st_db s) → drafting (st_db (exec s o)).
Proof.
  intros Hs HD HP. destruct (op_approves o || op_requests o) eqn:Hop.
  - destruct o; try done.
    1,2,3: apply exec_pres; try done; apply pres_ignore.
    + apply create_approval_request_drafting.
    + apply cast_vote_drafting.
    + apply prepare_action_drafting.
    + by apply exec_wp, wp_ignore, begin_call_drafting.
  - apply orb_false_iff in Hop as [Hop Hreq].
    pose proof (exec_commands s o Hs) as Gc. rewrite Hop in Gc.
    pose proof (exec_requests s o Hs) as Ga.
    destruct HD as (_ & HA & HC). split_and!.
    + apply requests_keyed. by constructor.
    + apply reachable_commands_keyed. by constructor.
    + eapply (every_grows request_evolves); [exact Ga|exact HA| |].
      * intros a a' Ha HE. by eapply request_backed_evolves.
      * intros a0 a' [Hn _]. congruence.
    + eapply (every_grows (command_evolves false _)); [exact Gc|exact HC| |].
      * intros c c' Hc HE. by eapply command_backed_evolves.
      * intros c0 c' [_ Hn] HE [x Hx].
        destruct (ce_approval _ _ _ _ HE) as [E|[? _]]; [congruence|done].
Qed.

Lemma exec_permitting s o :
  reachable s → permitting (st_db s) → permitting (st_db (exec s o)).
Proof.
  intros Hs HP. destruct (op_issues o) eqn:Hop.
  - destruct o; try done. apply exec_pres; [|done]. apply pres_ignore, issue_permit_permitting.
  - pose proof (exec_permits s o Hs) as Gp. rewrite Hop in Gp.
    pose proof (exec_requests s o Hs) as Ga. assert (reachable (exec s o)) as Hs' by by constructor.
    destruct HP as (_ & HP & HU). split_and!;
      [by apply requests_keyed|by apply reachable_commands_keyed|by apply policies_keyed| |].
    + eapply (every_grows permit_evolves); [exact Gp|exact HP| |].
      * intros p p' Hp HE. by eapply permit_backed_evolves.
      * by intros p0 p' [? _].
    + assert (∀ id p', permits (st_db (exec s o)) !! id = Some p' → ∃ p,
        permits (st_db s) !! id = Some p
        ∧ pmt_approval_request_id p' = pmt_approval_request_id p) as Hold.
      { intros id p' Hp'. destruct (permits (st_db s) !! id) as [p|] eqn:Hp.
        - destruct (proj1 Gp _ _ Hp) as (p1 & Hp1 & [Ht _ _ _]). simpl in Hp1.
          assert (p1 = p') as -> by congruence. exists p. split; [done|by injection Ht].
        - by destruct (proj2 Gp _ _ Hp' Hp) as (? & [? _] & _). }
      intros id p id' p' Hp Hp' E.
      destruct (Hold _ _ Hp) as (q & Hq & Eq). destruct (Hold _ _ Hp') as (q' & Hq' & Eq').
      eapply HU; [done|done|congruence].
Qed.

Lemma exec_receipting s o :
  reachable s → receipting (st_db s) → receipting (st_db (exec s o)).
Proof.
  intros Hs HP. destruct (op_records o) eqn:Hop.
  - destruct o; try done; apply exec_pres; try done.
    + apply pres_ignore, record_receipt_receipting.
    + apply pres_while_recorded, pres_ignore, finish_action_receipting.
  - pose proof (exec_receipts s o Hs) as Gr. rewrite Hop in Gr.
    pose proof (exec_permits s o Hs) as Gp. assert (reachable (exec s o)) as Hs' by by constructor.
    destruct HP as (_ & HR & HU).
    split_and!; [by apply permits_keyed|by apply receipts_keyed| |].
    + eapply (every_grows eq); [exact Gr|exact HR| |].
      * intros r r' Hr <-. eapply receipt_backed_evolves; [exact Gp| |done].
        intros id p Hp.
        destruct (reachable_origin _ _ permit_evolution s id p Hs Hp) as (p0 & Hn & _ & HE).
        by apply (pe_counts _ _ HE), permit_new_counts.
      * by intros r0 r' [? _].
    + assert (∀ id r, receipts (st_db (exec s o)) !! id = Some r →
        receipts (st_db s) !! id = Some r) as Hold.
      { intros id r Hr. destruct (receipts (st_db s) !! id) as [r1|] eqn:Hr1.
        - destruct (proj1 Gr _ _ Hr1) as (r2 & Hr2 & <-). simpl in Hr2. congruence.
        - by destruct (proj2 Gr _ _ Hr Hr1) as (? & [? _] & _). }
      intros id r id' r' Hr Hr' E. eapply HU; [by apply Hold|by apply Hold|done].
Qed.

Lemma exec_finishing s o :
  reachable s → every AgentCommand finish_backed (st_db s) →
  every AgentCommand finish_backed (st_db (exec s o)).
Proof.
  intros Hs HF. destruct (op_completes o) eqn:Hop.
  - destruct o; try done. apply exec_pres; [|done]. apply pres_ignore, complete_command_finishes.
  - pose proof (exec_commands s o Hs) as Gc. rewrite Hop in Gc.
    pose proof (exec_receipts s o Hs) as Gr.
    eapply (every_grows (command_evolves _ false)); [exact Gc|exact HF| |].
    + intros c c' Hc HE. by eapply finish_backed_evolves.
    + intros c0 c' [Hn _] HE _ Hf.
      destruct (ce_finished _ _ _ _ HE Hf) as [[Hf0 _]|?]; [|done].
      rewrite Hn in Hf0. by apply (bool_decide_eq_true_2 _) in Hf0.
Qed.

Lemma reachable_authority s : reachable s → authority (st_db s).
Proof.
  intros Hs. assert (drafting (st_db s) ∧ permitting (st_db s) ∧ receipting (st_db s)
    ∧ every AgentCommand finish_backed (st_db s)) as ((_&?&?) & (_&?) & (_&?) & ?).
  { revert s Hs. apply (reachable_step_invariant (λ d,
      drafting d ∧ permitting d ∧ receipting d ∧ every AgentCommand finish_backed d)).
    - unfold drafting, permitting, receipting. split_and!; repeat intro; discriminate.
    - intros s o Hs (?&?&?&?). split_and!;
        [by apply exec_drafting|by apply exec_permitting|by apply exec_receipting
        |by apply exec_finishing]. }
  by split.
Qed.
End chain.

(** ** Theorems *)
Section theorems.
Context `{!Env}.

(** C1 End-to-end authority: in every reachable store, a tool command that requires
    approval and has been completed or failed by its target has exactly the chain that
    entitles it: a receipt by its target that states the outcome, a consumed permit
    claimed by the target for it, and an approved, quorate request for it; request,
    permit and receipt carry the digest of what the command says now. *)
Theorem finished_command_authorised s id c :
  reachable s → commands (st_db s) !! id = Some c →
  cmd_kind c = "run_tool" → cmd_requires_approval c = true →
  cmd_status c ∈ ["completed"; "failed"] →
  ∃ rid r p a,
    receipts (st_db s) !! rid = Some r
    ∧ permits (st_db s) !! rcpt_permit_id r = Some p
    ∧ approvals (st_db s) !! pmt_approval_request_id p = Some a
    ∧ (cmd_status c = if rcpt_status r ==? "succeeded" then "completed" else "failed")
    ∧ (rcpt_executor_agent_id r = cmd_target_agent_id c
       ∧ pmt_executor_agent_id p = cmd_target_agent_id c
       ∧ apr_executor_agent_id a = cmd_target_agent_id c)
    ∧ (pmt_status p = "consumed" ∧ is_Some (pmt_claimed_at p))
    ∧ (apr_command_id a = Some id ∧ apr_status a = "approved" ∧ quorate (st_db s) a)
    ∧ (let digest := _sha256 (PDict (_command_envelope c)) in
       rcpt_input_hash r = digest ∧ pmt_payload_hash p = digest
       ∧ apr_payload_hash a = digest).
Proof.
  intros Hs Hc Hk Hr Hf. pose proof (reachable_authority s Hs) as [HA _ [HP _] [HR _] HF].
  pose proof (reachable_commands_keyed s Hs _ _ Hc) as Hid. simpl in Hid. subst id.
  destruct (HF _ _ Hc (conj Hk Hr) Hf) as (rid & r & Hrc & Ec & Eo & Ee & Es).
  destruct (HR _ _ Hrc) as (p & Hp & Hps & Hpc & E1 & E2).
  destruct (HP _ _ Hp) as (a & Ha & Has & E3 & E4 & _).
  destruct (HA _ _ Ha) as (cid & c' & Hcid & Hc' & Hh & He & Ho).
  injection E1. injection E2. injection E3. injection E4. intros.
  assert (cid = cmd_id c) as -> by congruence. assert (c' = c) as -> by (simpl in Hc'; congruence).
  exists rid, r, p, a. split_and!; try done; try congruence.
  - pose proof (requests_keyed s Hs _ _ Ha) as Eid. simpl in Eid. rewrite <-Eid in Ha.
    by apply approved_quorate.
  - cbv zeta. split_and!; congruence.
Qed.

(** C19 Approval before acceptance: in every reachable store, a command that requires
    approval and that has been accepted, by its target or for a guarded action, has an
    approved, quorate request for this command and this target, whose digest is that of
    what the command says. *)
Theorem accepted_command_approved s id c :
  reachable s → commands (st_db s) !! id = Some c → cmd_requires_approval c = true →
  cmd_status c ∈ ["accepted"; "running"; "completed"; "failed"] →
  ∃ a, approvals (st_db s) !! apr_id a = Some a ∧ apr_status a = "approved"
    ∧ quorate (st_db s) a ∧ apr_command_id a = Some id
    ∧ apr_executor_agent_id a = cmd_target_agent_id c
    ∧ apr_payload_hash a = _sha256 (PDict (_command_envelope c)).
Proof.
  intros Hs Hc Hr Hacc. pose proof (reachable_authority s Hs) as [HA HC _ _ _].
  pose proof (reachable_commands_keyed s Hs _ _ Hc) as Hid. simpl in Hid. subst id.
  destruct (reachable_origin _ _ command_evolution s _ c Hs Hc)
    as (c0 & [Hn _] & _ & HE).
  destruct (command_order_fields _ _ (ce_order _ _ _ _ HE)) as (_ & _ & _ & _ & _ & Er).
  destruct (ce_accepted _ _ _ _ HE Hacc) as [H0|Hap].
  { rewrite Hn in H0. by apply (bool_decide_eq_true_2 _) in H0. }
  specialize (Hap ltac:(congruence)).
  destruct (HC _ _ Hc Hap) as (a & Ha & Has & Hcid).
  destruct (HA _ _ Ha) as (cid & c' & Hcid' & Hc' & Hh & He & Ho).
  assert (cid = cmd_id c) as -> by congruence. assert (c' = c) as -> by (simpl in Hc'; congruence).
  exists a. split_and!; try done. by apply approved_quorate.
Qed.

(** C20 One receipt per permit, and only for what was permitted: in every reachable store
    a receipt belongs to a permit that was claimed and is consumed, repeats its owner,
    executor, tool, profile and input digest, and no other receipt has that permit. *)
Theorem receipts_follow_permits s rid r :
  reachable s → receipts (st_db s) !! rid = Some r →
  ∃ p, permits (st_db s) !! rcpt_permit_id r = Some p
    ∧ pmt_status p = "consumed" ∧ is_Some (pmt_claimed_at p)
    ∧ (rcpt_owner_subject r, rcpt_executor_agent_id r, rcpt_tool r, rcpt_command_profile r,
       rcpt_input_hash r)
      = (pmt_owner_subject p, pmt_executor_agent_id p, pmt_tool p, pmt_command_profile p,
         pmt_payload_hash p)
    ∧ ∀ rid' r', receipts (st_db s) !! rid' = Some r' →
        rcpt_permit_id r' = rcpt_permit_id r → rid' = rid.
Proof.
  intros Hs Hr. pose proof (reachable_authority s Hs) as [_ _ _ [HR HU] _].
  destruct (HR _ _ Hr) as (p & Hp & Hps & Hpc & E1 & E2). exists p.
  injection E1. injection E2. intros. split_and!; [done..|congruence|].
  intros rid' r' Hr' E. by eapply HU.
Qed.
End theorems.

Lemma finished_command_authorised_witness :
  ∃ c rid r p a, commands (st_db finished_store) !! "id-10" = Some c
    ∧ receipts (st_db finished_store) !! rid = Some r
    ∧ permits (st_db finished_store) !! rcpt_permit_id r = Some p
    ∧ approvals (st_db finished_store) !! pmt_approval_request_id p = Some a
    ∧ apr_payload_hash a = _sha256 (PDict (_command_envelope c)).
Proof.
  eexists.
  destruct (finished_command_authorised finished_store "id-10" _ finished_store_reachable
    ltac:(vm_compute; reflexivity) ltac:(vm_compute; reflexivity) ltac:(vm_compute; reflexivity)
    ltac:(by apply (bool_decide_unpack _)))
    as (rid & r & p & a & Hr & Hp & Ha & _ & _ & _ & _ & _ & _ & Hd).
  exists rid, r, p, a. split; [vm_compute; reflexivity|].
  split; [exact Hr|]. split; [exact Hp|]. split; [exact Ha|exact Hd].
Defined.

Lemma accepted_command_approved_witness :
  ∃ c a, commands (st_db permit_store) !! "id-10" = Some c
    ∧ approvals (st_db permit_store) !! apr_id a = Some a
    ∧ apr_payload_hash a = _sha256 (PDict (_command_envelope c)).
Proof.
  eexists.
  destruct (accepted_command_approved permit_store "id-10" _ permit_store_reachable
    ltac:(vm_compute; reflexivity) ltac:(vm_compute; reflexivity)
    ltac:(by apply (bool_decide_unpack _))) as (a & Ha & _ & _ & _ & _ & Hd).
  exists a. split; [vm_compute; reflexivity|]. split; [exact Ha|exact Hd].
Defined.

Lemma receipts_follow_permits_witness :
  ∃ r p, receipts (st_db finished_store) !! "id-20" = Some r
    ∧ permits (st_db finished_store) !! rcpt_permit_id r = Some p ∧ pmt_status p = "consumed".
Proof.
  eexists.
  destruct (receipts_follow_permits finished_store "id-20" _ finished_store_reachable
    ltac:(vm_compute; reflexivity)) as (p & Hp & Hs & _).
  exists p. split; [vm_compute; reflexivity|]. split; [exact Hp|exact Hs].
Defined.
