(* ===== verification/Atomicity.v ===== *)
(** * Refused requests change nothing

    [quiet m]: [m] commits nothing, however it ends.  [atomic m]: if [m] raises, it has
    committed nothing, so the closing of its session undoes all it wrote.  A handler is
    atomic when everything before its last commit is quiet and nothing after it fails. *)

From S2P Require Import ThinClient Prelude PyStr PyVal Errors Models Database Session Preserve.
From S2P Require Import Rows Collaboration Coordination Autonomy Controls Assignments.
From S2P Require Import Approvals Permits Recovery ChatContext McpChatContext Outbox Realtime.
From S2P Require Import FederationPolicy Federation McpUpstream FederationBroker Auth OAuth.
From S2P Require Import ThinEnrolment Roots ThinRuntime.
From S2P Require Import Footprint System Demo.

Definition quiet {A} (m : M A) : Prop := ∀ w, committed (m w).2 = committed w.
Definition atomic {A} (m : M A) : Prop :=
  ∀ w e, (m w).1 = Raise e → committed (m w).2 = committed w.
Definition safe {A} (m : M A) : Prop := ∀ w, ∃ a, (m w).1 = Ok a.

(** ** Rules *)
Lemma quiet_bind {A B} (m : M A) (f : A → M B) :
  quiet m → (∀ a, quiet (f a)) → quiet (m ≫= f).
Proof.
  intros Hm Hf w. specialize (Hm w). unfold mbind, M_bind.
  destruct (m w) as [[a|e] w']; [|done]. by rewrite Hf.
Qed.
Lemma quiet_stateless {A} (m : M A) : stateless m → quiet m.
Proof. intros Hm w. by rewrite Hm. Qed.
Lemma quiet_readonly {A} (m : M A) : readonly m → quiet m.
Proof. intros Hm w. by destruct (Hm w) as (t & n & ->). Qed.
Lemma quiet_add {R} `{!Table R} (r : R) : quiet (add r).
Proof. intros w. unfold add. by destruct (insertable _ _). Qed.
Lemma quiet_flush : quiet flush.
Proof. intros w. unfold flush. by destruct (violated w). Qed.
Lemma quiet_emit `{!Env} et a ac rt rid st p : quiet (emit et a ac rt rid st p).
Proof. intros w. apply (wp_emit_post et a ac rt rid st p w). Qed.
Lemma quiet_emit_event `{!Env} et a ac rt rid p o st b :
  quiet (emit_event et a ac rt rid p o st false b).
Proof.
  apply quiet_bind; [done|intros now]. apply quiet_bind; [done|intros id].
  apply quiet_bind; [apply quiet_add|intros _]. apply quiet_bind.
  - case_match; [|done]. apply quiet_bind; [done|]. intros. apply quiet_add.
  - intros _. apply quiet_bind; [apply quiet_flush|done].
Qed.
Lemma quiet_update_row {R} `{!Table R} id p (f : R → R) : quiet (update_row id p f).
Proof.
  apply quiet_bind; [by intros w|]. intros [r|]; [|by intros w].
  apply quiet_bind; by intros w || intros ? w.
Qed.
Lemma quiet_foreach {A} (f : A → M unit) l : (∀ a, quiet (f a)) → quiet (foreach f l).
Proof. intros Hf. induction l; [by intros w|]. by apply quiet_bind. Qed.
Lemma quiet_traverse {A B} (f : A → M B) l : (∀ a, quiet (f a)) → quiet (traverse f l).
Proof.
  intros Hf. induction l; [by intros w|]. apply quiet_bind; [done|]. intros.
  apply quiet_bind; [done|]. by intros ? w.
Qed.

Lemma atomic_quiet {A} (m : M A) : quiet m → atomic m.
Proof. intros Hm w e _. apply Hm. Qed.
Lemma atomic_bind {A B} (m : M A) (f : A → M B) :
  quiet m → (∀ a, atomic (f a)) → atomic (m ≫= f).
Proof.
  intros Hm Hf w e. specialize (Hm w). unfold mbind, M_bind.
  destruct (m w) as [[a|e'] w']; [|done]. intros He. by rewrite (Hf _ _ _ He).
Qed.
Lemma atomic_last {A B} (m : M A) (f : A → M B) :
  atomic m → (∀ a, safe (f a)) → atomic (m ≫= f).
Proof.
  intros Hm Hf w e. specialize (Hm w). unfold mbind, M_bind.
  destruct (m w) as [[a|e'] w']; [|intros [= ->]; by eapply Hm].
  destruct (Hf a w') as [b ->]. done.
Qed.
Lemma atomic_commit : atomic commit.
Proof.
  intros w e. unfold commit, flush, publish, mbind, M_bind. by destruct (violated w).
Qed.
Lemma atomic_try_integrity {A} (m h : M A) :
  atomic m → quiet h → atomic (try_integrity m h).
Proof.
  intros Hm Hh w e. specialize (Hm w). unfold try_integrity.
  destruct (m w) as [[a|e'] w']; [done|]. specialize (Hm e' eq_refl).
  destruct e'; try done. intros _. by rewrite Hh.
Qed.
Lemma atomic_create_or_existing {A} events (a : A) existing detail :
  quiet events → quiet existing → atomic (create_or_existing events a existing detail).
Proof.
  intros He Hx. apply atomic_try_integrity.
  - apply atomic_bind; [done|]. intros _.
    apply atomic_last; [apply atomic_commit|]. intros _ w. by eexists.
  - apply quiet_bind; [by intros w|]. intros _. apply quiet_bind; [done|].
    intros [b|]; by intros w.
Qed.
Lemma quiet_try_integrity {A} (m h : M A) : quiet m → quiet h → quiet (try_integrity m h).
Proof.
  intros Hm Hh w. specialize (Hm w). unfold try_integrity.
  destruct (m w) as [[a|e] w']; [done|]. destruct e; try done. by rewrite Hh.
Qed.
Lemma quiet_map_error {A} f (m : M A) : quiet m → quiet (map_error f m).
Proof. intros Hm w. specialize (Hm w). unfold map_error. by destruct (m w) as [[a|e] w']. Qed.
Lemma quiet_modify {R} `{!Table R} (r : R) : quiet (modify r).
Proof. intros w. unfold modify. by destruct (updatable r (working w)). Qed.
Lemma quiet_savepoint {A} (m h : M A) : quiet m → quiet h → quiet (savepoint m h).
Proof.
  intros Hm Hh w. unfold savepoint. destruct (violated w); [by rewrite Hh|].
  assert (quiet (a ← m; flush;; mret a)) as Hb.
  { apply quiet_bind; [done|]. intros. apply quiet_bind; [apply quiet_flush|by intros _ ?]. }
  specialize (Hb w). destruct ((a ← m; flush;; mret a) w) as [[a|e] w']; [done|].
  destruct e; try done. by rewrite Hh.
Qed.
Lemma atomic_committing `{!Env} {A} (m : M A) : quiet m → atomic (committing m).
Proof.
  intros Hm w e. unfold committing.
  assert (atomic (a ← m; commit;; mret a)) as Hb.
  { apply atomic_bind; [done|]. intros. apply atomic_last; [apply atomic_commit|].
    intros _ ?. by eexists. }
  specialize (Hb w). destruct ((a ← m; commit;; mret a) w) as [[a|e'] w']; [done|].
  specialize (Hb e' eq_refl). by destruct e'.
Qed.
Lemma atomic_except_chat {A} (m : M A) handlers :
  atomic m → (∀ k h, handlers k = Some h → quiet h) → atomic (except_chat m handlers).
Proof.
  intros Hm Hh w e. specialize (Hm w). unfold except_chat.
  destruct (m w) as [[a|e'] w']; [done|]. specialize (Hm e' eq_refl).
  destruct e'; try done. destruct (handlers kind) as [h|] eqn:E; [|done].
  intros _. by rewrite (Hh _ _ E).
Qed.
Lemma safe_ret {A} (a : A) : safe (mret a).
Proof. intros w. by exists a. Qed.

(** ** Automation *)
Create HintDb quiet_db.
Ltac quiet_step :=
  cbv beta iota zeta;
  lazymatch goal with
  | |- quiet ?m =>
      lazymatch m with
      | mbind _ _ => apply quiet_bind; [|intros ?]
      | mret _ => intros ?; reflexivity
      | throw _ => intros ?; reflexivity
      | fail _ _ => intros ?; reflexivity
      | fail_if ?c _ _ => destruct c; intros ?; reflexivity
      | lift _ => intros ?; reflexivity
      | policy_400 ?r => destruct r as [|[]]; intros ?; reflexivity
      | require ?o _ _ => destruct o; intros ?; reflexivity
      | one_or_none ?l => destruct l as [|? [|]]; intros ?; reflexivity
      | reads _ => intros ?; reflexivity
      | query _ => intros ?; reflexivity
      | get_row _ => intros ?; reflexivity
      | find_row _ _ => intros ?; reflexivity
      | query_one _ => apply quiet_stateless, stateless_query_one
      | find_by_key _ _ _ _ => apply quiet_stateless, stateless_find_by_key
      | utcnow => intros ?; reflexivity
      | uuid4 => intros ?; reflexivity
      | code_factory => intros ?; reflexivity
      | token_urlsafe => intros ?; reflexivity
      | token_hex => intros ?; reflexivity
      | erase _ => intros ?; reflexivity
      | scalar _ => intros ?; reflexivity
      | current_state _ => intros ?; reflexivity
      | modify _ => apply quiet_modify
      | map_error _ _ => apply quiet_map_error
      | savepoint _ _ => apply quiet_savepoint
      | put _ => intros ?; reflexivity
      | rollback => intros ?; reflexivity
      | add _ => apply quiet_add
      | update_row _ _ _ => apply quiet_update_row
      | flush => apply quiet_flush
      | emit _ _ _ _ _ _ _ => apply quiet_emit
      | encrypt_text _ => intros ?; reflexivity
      | check_row ?b => destruct b; intros ?; reflexivity
      | emit_event _ _ _ _ _ _ _ _ false _ => apply quiet_emit_event
      | foreach _ _ => apply quiet_foreach; intros ?
      | traverse _ _ => apply quiet_traverse; intros ?
      | if ?c then _ else _ => destruct c
      | match ?x with _ => _ end => destruct x
      | commit => fail
      | publish => fail
      | try_integrity _ _ => apply quiet_try_integrity
      | policy_error ?r => destruct r as [|[]]; intros ?; reflexivity
      | create_or_existing _ _ _ _ => fail
      | _ => first [solve [auto with quiet_db] | intros ?; reflexivity
                   | let h := pres_head m in progress unfold h]
      end
  end.
Ltac quiet_go := repeat quiet_step.

Ltac atomic_step :=
  cbv beta iota zeta;
  lazymatch goal with
  | |- quiet _ => quiet_step
  | |- safe _ => first [apply safe_ret | intros ?; eexists; reflexivity]
  | |- atomic ?m =>
      lazymatch m with
      | commit => apply atomic_commit
      | create_or_existing _ _ _ _ => apply atomic_create_or_existing
      | try_integrity _ _ => apply atomic_try_integrity
      | committing _ => apply atomic_committing
      | except_chat _ _ => apply atomic_except_chat;
          [|let k := fresh in intros k ?; destruct k; intros [= <-]; quiet_go]
      | mbind _ commit => apply atomic_last; [|intros ?]
      | mbind _ (except_chat _ _) => apply atomic_last; [|intros ?]
      | mbind _ (match _ with _ => _ end) =>
          first [apply atomic_bind; [solve [quiet_go]|intros ?] | apply atomic_last; [|intros ?]]
      | mbind _ _ => apply atomic_bind; [|intros ?]
      | if ?c then _ else _ => destruct c
      | match ?x with _ => _ end => destruct x
      | mret _ => apply atomic_quiet
      | throw _ => apply atomic_quiet
      | fail _ _ => apply atomic_quiet
      | _ => first [ let h := pres_head m in progress unfold h
                   | apply atomic_quiet; intros ?; reflexivity ]
      end
  end.
Ltac atomic_go := repeat atomic_step.

Section handlers.
Context `{!Env}.

(** The operations whose only commit is at their end.  The others first commit the
    expiry of stale agents, leases or handoffs, or the release of stale claims; the
    heartbeat of a replica expires the others after its commit, the admission of a
    tool call commits the expiry of its code, a request commits the user it comes from, the
    execution of an action commits what it
    must not lose, a failed call commits the state of its server after its own, and the
    two cycles commit once per work item or recovery loop. *)
Definition op_atomic (o : op) : bool :=
  match o with
  | ListAgents _ _ | RoomSnapshot _ _ | AcquireLease _ _ | ListLeases _ _ _ _
  | RenewLease _ _ _ _ _ | ValidateWriteContext _ _ _ _ _
  | SendMessage _ _ | AcceptHandoff _ _ _ _ | RunAssignmentCycle _ _ _ _
  | RunRecoveryCycle _ _ _ _ | HeartbeatReplica _ | ClaimBatch _ _
  | AdmitChatContext _ _ _ _ | BeginAction _ _ _ _ | FinishAction _ _ _
  | FailCall _ _ _ | Authenticate _ | SignIn _ _ | Authorize _ _
  | ReviewRootGrant _ _ _ _ | CreateDeviceCode | ActivateCode _ _ => false
  | _ => true
  end.

Lemma ignore_atomic {A} (m : M A) : atomic m → atomic (ignore m).
Proof. intros Hm. apply atomic_last; [done|]. intros _. apply safe_ret. Qed.

Lemma scan_controls_quiet now scopes e r g : quiet (scan_controls now scopes e r g).
Proof. apply quiet_stateless, scan_controls_stateless. Qed.
Lemma stop_owners_quiet st rs r p owners a b : quiet (stop_owners st rs r p owners a b).
Proof.
  revert a b. induction owners as [|o owners IH]; intros; simpl; quiet_go; apply IH.
Qed.
Lemma allocation_loop_quiet n c k r now : quiet (allocation_loop n c k r now).
Proof. revert r. induction n as [|n IH]; intros r; simpl; quiet_go; apply IH. Qed.
Lemma store_entries_quiet o a s p g l ids n : quiet (store_entries o a s p g l ids n).
Proof. revert ids n. induction l as [|e l IH]; intros; simpl; quiet_go; apply IH. Qed.
Hint Resolve scan_controls_quiet stop_owners_quiet allocation_loop_quiet store_entries_quiet
  : quiet_db.

Lemma register_runtime_atomic o c s m : atomic (register_runtime o c s m).
Proof. atomic_go. Qed.
Lemma receive_atomic o c s m : atomic (receive o c s m).
Proof.
  unfold receive. cbv zeta. repeat case_match.
  all: first [apply ignore_atomic, register_runtime_atomic | atomic_go].
Qed.

Lemma dispatch_call_atomic server a i : atomic (dispatch_call server a i).
Proof. atomic_go. Qed.
Lemma dispatch_atomic a i : atomic (while_recorded i (dispatch a i)).
Proof.
  apply atomic_bind; [quiet_go|intros [x|]; [|by apply atomic_quiet]].
  apply atomic_bind; [quiet_go|intros [server|]; [|by apply atomic_quiet]].
  apply ignore_atomic, dispatch_call_atomic.
Qed.

Lemma handler_atomic o : op_atomic o = true → atomic (handler o).
Proof.
  destruct o; intros Ho; try discriminate Ho; unfold handler; try apply dispatch_atomic;
    unfold while_recorded; first [apply receive_atomic | apply ignore_atomic; atomic_go | apply atomic_bind; [quiet_go|intros []];
      [apply ignore_atomic|]; atomic_go | atomic_go].
Qed.
End handlers.

(** ** Theorem *)

(** C37 Refused requests change nothing: an operation whose only commit is its last step
    (all but those that expire stale rows first, a replica's heartbeat, the admission
    of a tool call, the authentication of a request, the execution of a guarded action,
    the failure of an upstream call and the two cycles) leaves the store as it was whenever it raises, whatever the error
    and however far it had come. *)
Theorem refused_operation_changes_nothing `{!Env} s o e :
  op_atomic o = true → (run (handler o) s).1 = Raise e → st_db (exec s o) = st_db s.
Proof.
  intros Ho He. pose proof (handler_atomic o Ho (open_session s) e) as Ha.
  revert He. unfold exec, run. by destruct (handler o (open_session s)).
Qed.

Lemma refused_operation_changes_nothing_witness :
  let o := ClaimPermit owner "id-17" "id-6" in
  (run (handler o) permit_store).1
    = Raise (HTTPException 403 "Execution permit belongs to another agent")
  ∧ st_db (exec permit_store o) = st_db permit_store.
Proof.
  intros o. split; [vm_compute; reflexivity|].
  eapply (refused_operation_changes_nothing permit_store o); vm_compute; reflexivity.
Defined.
