(* ===== verification/RecoveryProofs.v ===== *)
(** * Recovery loops: bounded attempts, bounded backoff, final outcomes

    What a loop is for never changes; each attempt is counted and there are at most
    as many as the loop allows; a loop that has ended is never touched again. *)

From S2P Require Import Prelude PyStr PyVal Errors Validate Models Database Session.
From S2P Require Import Preserve Rows Autonomy Controls Collaboration Recovery.
From S2P Require Import Footprint System Evolution Demo PermitProofs.

(** ** The life cycle *)

(** What a loop recovers, with what, and how often at most. *)
Definition loop_terms (l : RecoveryLoop) :=
  ((rec_id l, rec_owner_subject l, rec_room_id l, rec_policy_id l),
   (rec_source_type l, rec_source_id l, rec_target_agent_id l, rec_strategy l),
   (rec_max_attempts l, rec_base_backoff_seconds l, rec_policy_generation l)).

Definition loop_counts (l : RecoveryLoop) : Prop :=
  1 ≤ rec_max_attempts l ∧ 0 ≤ rec_attempt_count l ≤ rec_max_attempts l
  ∧ (rec_status l = "waiting" → 1 ≤ rec_attempt_count l).

Definition ended (l : RecoveryLoop) : Prop := rec_status l ∈ RECOVERY_TERMINAL.

Record loop_evolves (l l' : RecoveryLoop) : Prop := {
  le_terms : loop_terms l' = loop_terms l;
  le_attempts : rec_attempt_count l ≤ rec_attempt_count l';
  le_counts : loop_counts l → loop_counts l';
  le_ended : ended l → l' = l;
}.

#[export] Instance loop_evolves_preorder : PreOrder loop_evolves.
Proof.
  split.
  - intros l. by split.
  - intros l1 l2 l3 [T1 A1 C1 E1] [T2 A2 C2 E2]. split; [congruence|lia|auto|].
    intros He. rewrite (E1 He) in E2. by apply E2.
Qed.

Definition loop_new (l : RecoveryLoop) : Prop :=
  rec_status l = "planned" ∧ rec_attempt_count l = 0 ∧ 1 ≤ rec_max_attempts l.

Lemma loop_new_counts l : loop_new l → loop_counts l.
Proof. intros (Hs & Ha & Hm). unfold loop_counts. rewrite Hs, Ha. by split_and!; [lia..|]. Qed.

Lemma not_ended l s : rec_status l = s → s ∉ RECOVERY_TERMINAL → ¬ ended l.
Proof. by unfold ended; intros ->. Qed.

(** A change that leaves the terms and the attempts of a loop that has not ended. *)
Lemma loop_status_evolves l l' :
  ¬ ended l → loop_terms l' = loop_terms l → rec_attempt_count l' = rec_attempt_count l →
  rec_status l' ≠ "waiting" → loop_evolves l l'.
Proof.
  intros He Ht Ha Hs. split; [done|lia| |done].
  intros (H1 & H2 & H3). unfold loop_counts.
  assert (rec_max_attempts l' = rec_max_attempts l) as -> by by injection Ht.
  rewrite Ha. by split_and!; [lia..|].
Qed.

Ltac loop_change :=
  apply loop_status_evolves; unfold loop_terms; set_simpl; try done.

Lemma paused_loop_evolves now l : rec_status l = "planned" → loop_evolves l (paused_loop now l).
Proof.
  intros Hs. unfold paused_loop. loop_change. apply (not_ended _ _ Hs).
  by apply (bool_decide_unpack _).
Qed.

Lemma exhausted_loop_evolves now l :
  rec_status l = "planned" → loop_evolves l (exhausted_loop now l).
Proof.
  intros Hs. unfold exhausted_loop. loop_change. apply (not_ended _ _ Hs).
  by apply (bool_decide_unpack _).
Qed.

Lemma stopped_recovery_evolves now state l :
  ¬ ended l → loop_evolves l (stopped_recovery now state l).
Proof.
  intros He. unfold stopped_recovery. destruct (state ==? "killed"); loop_change;
    repeat case_match; set_simpl; done.
Qed.

Lemma attempted_loop_evolves l cid now :
  rec_status l = "planned" → rec_attempt_count l < rec_max_attempts l →
  loop_evolves l (l <| rec_attempt_count := rec_attempt_count l + 1 |>
    <| rec_last_command_id := Some cid |> <| rec_status := "waiting" |>
    <| rec_updated_at := now |>).
Proof.
  intros Hs Hl. split; unfold loop_terms, loop_counts; set_simpl; [done|lia| |].
  - intros (H1 & H2 & _). split_and!; [done|lia|lia|]. intros _. lia.
  - intros He. by apply (not_ended _ _ Hs) in He; [|by apply (bool_decide_unpack _)].
Qed.

Section handlers.
Context `{!Env}.

(** ** Outcomes *)

(** What an outcome makes of a loop. *)
Definition outcome_of_loop (w : world) (status : string) (now : Z)
    (l l' : RecoveryLoop) : Prop :=
  loop_terms l' = loop_terms l ∧ rec_attempt_count l' = rec_attempt_count l
  ∧ ((status = "succeeded" ∨ status = "cancelled") ∧ rec_status l' = status
       ∧ rec_completed_at l' = Some now
     ∨ status = "failed" ∧ rec_max_attempts l ≤ rec_attempt_count l
       ∧ rec_status l' = "exhausted" ∧ rec_completed_at l' = Some now
     ∨ status = "failed" ∧ rec_attempt_count l < rec_max_attempts l
       ∧ rec_status l' = "planned"
       ∧ ∃ p n, policies (working w) !! rec_policy_id l = Some p
           ∧ recovery_int (recovery_policy_of p) "max_backoff_seconds" 900 = Ok n
           ∧ rec_next_attempt_at l' = now + seconds (backoff_delay n
               (rec_base_backoff_seconds l) (rec_attempt_count l))).

Lemma outcome_loop_stateless o s e now l : stateless (outcome_loop o s e now l).
Proof. stl_go. Qed.
Hint Resolve outcome_loop_stateless : stl_db.

Lemma outcome_loop_result o s e now l w l' :
  (outcome_loop o s e now l w).1 = Ok l' → outcome_of_loop w s now l l'.
Proof.
  intros Hok. enough (wp (outcome_loop o s e now l)
    (λ x _, ∀ l', x = Ok l' → outcome_of_loop w s now l l') w) as Hw by exact (Hw l' Hok).
  clear Hok. unfold outcome_loop, outcome_of_loop, loop_terms.
  wp_inv (λ _ : db, True); try (intros ? ?; discriminate).
  all: intros ? [= <-]; set_simpl; step_of.
  - by split_and!; [..|left; auto].
  - by split_and!; [..|left; auto].
  - split_and!; [done..|]. right; left. split_and!; [done|by apply Z.leb_le|done..].
  - split_and!; [done..|]. right; right. split_and!; [done|by apply Z.leb_gt|done|].
    match goal with H : (_policy _ _ _).1 = Ok _ |- _ => found H end. by eexists _, _.
Qed.

Lemma outcome_evolves w s now l l' g t :
  ¬ ended l → outcome_of_loop w s now l l' →
  loop_evolves l (l' <| rec_generation := g |> <| rec_updated_at := t |>).
Proof.
  intros He (Ht & Ha & Hs). apply loop_status_evolves; [done| | |].
  - rewrite <-Ht. unfold loop_terms. by set_simpl.
  - by set_simpl.
  - set_simpl. destruct Hs as [([-> | ->] & -> & _)|[(_ & _ & -> & _)|(_ & _ & -> & _)]]; done.
Qed.

(** ** Loops evolve *)
Section evolve.
Context (N : RecoveryLoop → Prop) (d0 : db).
Notation I := (evolved loop_evolves N d0).

Lemma open_recoveries_open o r p d l :
  l ∈ open_recoveries o r p d → keyed RecoveryLoop d →
  ¬ ended l ∧ recoveries d !! rec_id l = Some l.
Proof.
  intros Hl HK. apply elem_of_select_keyed in Hl as [Hl Hin]; [|done]. split; [|done].
  apply andb_true_iff in Hl as [[[_ Hs]%andb_true_iff _]%andb_true_iff _].
  by apply negb_true_iff, bool_decide_eq_false in Hs.
Qed.

(** What one stop of an open loop keeps, [_pause_or_cancel_recoveries] keeps. *)
Lemma stop_recoveries_keep (J : db → Prop) o state r p :
  (∀ d, J d → keyed RecoveryLoop d) →
  (∀ d now l, J d → recoveries d !! rec_id l = Some l → ¬ ended l →
     J (put_row (stopped_recovery now state l) d)) →
  pres J (_pause_or_cancel_recoveries o state r p).
Proof.
  intros HK HJ. apply pres_intro. intros w Hc Hw. unfold _pause_or_cancel_recoveries.
  do 5 wp_step.
  assert (∀ l, l ∈ open_recoveries o r p (working w) →
    ¬ ended l ∧ recoveries (working w) !! rec_id l = Some l) as Hl.
  { intros l Hl. by apply (open_recoveries_open o r p); [|apply HK]. }
  apply (wp_bulk_put J id (stopped_recovery _ state)); simpl; try done.
  - rewrite list_fmap_id. exact (NoDup_select _ _ (HK _ Hw)).
  - intros l Hin. by apply Hl.
  - intros l Hin. unfold stopped_recovery. by repeat case_match.
  - intros l d Hin Hd Hlk. apply HJ; [done|done|]. by apply Hl.
Qed.

Lemma stop_recoveries_evolved o state r p : pres I (_pause_or_cancel_recoveries o state r p).
Proof.
  apply stop_recoveries_keep; [by intros d [? _]|].
  intros d now l HI Hl He. eapply evolved_write; [apply _|done|exact Hl| |].
  - unfold stopped_recovery. by repeat case_match.
  - by apply stopped_recovery_evolves.
Qed.

Lemma create_recovery_loop_evolved o a d :
  (∀ l, loop_new l → N l) → pres I (create_recovery_loop o a d).
Proof.
  intros HN. apply pres_intro. intros w Hc Hw. unfold create_recovery_loop.
  wp_inv (evolved loop_evolves N d0).
  all: apply (wp_create_or_existing_keep I); [stl_go|done|]; intros Hv; try discriminate.
  world_simpl. apply evolved_insert; [apply _| |done|done]. apply HN. split_and!; [done..|].
  match goal with H : _bounded_int _ "max_attempts" _ _ _ = Ok _ |- _ =>
    apply _bounded_int_ok in H end. simpl. lia.
Qed.

Lemma record_recovery_outcome_evolved o l s c e : pres I (record_recovery_outcome o l s c e).
Proof.
  apply pres_intro. intros w Hc Hw. unfold record_recovery_outcome.
  wp_inv (evolved loop_evolves N d0). wp_event (evolved loop_evolves N d0).
  match goal with H : (_recovery _ _ _).1 = Ok _ |- _ => found H; rename H into Hl end.
  match goal with H : (outcome_loop _ _ _ _ _ _).1 = Ok _ |- _ =>
    apply outcome_loop_result in H as Ho end.
  destruct Ho as (Ht & Hrest).
  eapply evolved_write; [apply _|done|exact Hl| |].
  - simpl. set_simpl. by injection Ht.
  - eapply outcome_evolves; [|by split]. by eapply bool_decide_eq_false_1.
Qed.

(** The loops a cycle has read are those stored. *)
Definition cycling (ls : list RecoveryLoop) (d : db) : Prop :=
  I d ∧ ∀ l, l ∈ ls → recoveries d !! rec_id l = Some l.

Lemma cycling_put ls l l' d :
  cycling (l :: ls) d → rec_id l ∉ (rec_id <$> ls) → rec_id l' = rec_id l →
  loop_evolves l l' → cycling ls (put_row l' d).
Proof.
  intros [HI Hl] Hnotin Hid HE. split.
  - eapply (evolved_write loop_evolves); [done|apply (Hl l); by left|done|done].
  - intros k Hk. change (<[rec_id l' := l']> (recoveries d) !! rec_id k = Some k).
    rewrite lookup_insert_ne; [apply Hl; by right|]. rewrite Hid. intros E.
    apply Hnotin. rewrite E. by apply list_elem_of_fmap_2.
Qed.

Lemma issue_command_cycling ls o d : pres (cycling ls) (issue_command o d).
Proof. apply issue_command_pres; apply _. Qed.

Lemma cycling_tail l ls d : cycling (l :: ls) d → cycling ls d.
Proof. intros [HI Hl]. split; [done|]. intros; apply Hl. by right. Qed.

Definition both (J : db → Prop) (w : world) : Prop := J (committed w) ∧ J (working w).

Lemma attempt_recovery_cycling o a p c l ls w :
  rec_id l ∉ (rec_id <$> ls) → rec_status l = "planned" →
  rec_attempt_count l < rec_max_attempts l → both (cycling (l :: ls)) w →
  wp (attempt_recovery o a p c l) (λ _ w', both (cycling ls) w') w.
Proof.
  intros Hnotin Hs Hlt [Hc Hw]. unfold attempt_recovery.
  assert (∀ d, cycling (l :: ls) d → cycling ls d) as Htl by apply cycling_tail.
  wp_step. wp_step; cycle 1. { split; by apply Htl. }
  wp_step. eapply wp_pres; [apply issue_command_cycling|done|done|].
  intros [cmd|e] w' Hc' Hw'; [|split; by apply Htl]. repeat wp_step.
  all: eapply (wp_pres _ (cycling ls)); [apply pres_emit; apply _|by apply Htl| |].
  all: try (intros [] ? ? ?; repeat wp_step; by split).
  all: eapply cycling_put; [done|done|done|by apply attempted_loop_evolves].
Qed.

Lemma recovery_loop_loops o a p c now ls x y w :
  NoDup (rec_id <$> ls) → (∀ l, l ∈ ls → rec_status l = "planned") →
  both (cycling ls) w →
  wp (recovery_loop o a p c now ls x y) (λ _ w', both I w') w.
Proof.
  revert x y w. induction ls as [|l ls IH]; intros x y w HN Hs [Hc Hw]; simpl.
  { apply wp_ret. split; [apply Hc|apply Hw]. }
  apply NoDup_cons in HN as [Hnotin HN].
  assert (rec_status l = "planned") as Hp by (apply Hs; by left).
  assert (∀ k, k ∈ ls → rec_status k = "planned") as Hs' by (intros; apply Hs; by right).
  assert (∀ l' x y, rec_id l' = rec_id l → loop_evolves l l' →
    wp (put l';; commit;; recovery_loop o a p c now ls x y) (λ _ w', both I w') w) as Hput.
  { intros l' x' y' Hid HE. pose proof (cycling_put ls l l' _ Hw Hnotin Hid HE) as Hw'.
    repeat wp_step; simpl; [split; [apply Hc|apply Hw']|]. by apply IH. }
  apply wp_if; intros _; [|apply wp_if; intros Hlt].
  - apply Hput; [done|by apply paused_loop_evolves].
  - apply Hput; [done|by apply exhausted_loop_evolves].
  - apply Z.leb_gt in Hlt. apply wp_bind.
    eapply wp_mono; [by apply (attempt_recovery_cycling _ _ _ _ _ ls)|].
    intros [[]|e] w' [Hc' Hw']; [by apply IH|split; [apply Hc'|apply Hw']].
Qed.

Lemma due_loops_cycling o p now n d : I d →
  let ls := due_loops o p now n d in
  NoDup (rec_id <$> ls) ∧ (∀ l, l ∈ ls → rec_status l = "planned") ∧ cycling ls d.
Proof.
  intros HI ls. assert (keyed RecoveryLoop d) as HK by apply HI.
  assert (∀ l, l ∈ ls → rec_status l = "planned" ∧ recoveries d !! rec_id l = Some l) as Hl.
  { intros l [Hp Hin]%elem_of_page; [|done]. split; [|done].
    apply andb_true_iff in Hp as [[_ Hs]%andb_true_iff _]. by apply bool_decide_eq_true in Hs. }
  split_and!; [exact (NoDup_page _ _ _ _ HK)|by apply Hl|split; [done|by apply Hl]].
Qed.

Lemma run_recovery_cycle_loops o p a n w :
  committed w = working w → I (working w) →
  wp (run_recovery_cycle o p a n) (λ _ w', both I w') w.
Proof.
  intros Hcw Hw. assert (I (committed w)) as Hc by by rewrite Hcw.
  unfold run_recovery_cycle, both. wp_inv (evolved loop_evolves N d0). world_simpl.
  match goal with |- context [due_loops ?o ?p ?now ?n ?d] =>
    destruct (due_loops_cycling o p now n d Hw) as (HN & Hs & Hcy) end.
  eapply wp_mono; [apply recovery_loop_loops; [exact HN|exact Hs|]|].
  - split; [|done]. by rewrite Hcw.
  - intros [ab|e] w' HI; [by apply wp_ret|done].
Qed.

Lemma handler_recovery_evolved op :
  (match op with CreateRecoveryLoop _ _ _ => True | _ => False end →
   ∀ l, loop_new l → N l) →
  keeps I op.
Proof.
  pose proof stop_recoveries_evolved.
  destruct op; intros HN; try (apply pres_keeps; solve [frame]).
  - apply pres_keeps, pres_ignore, set_control_stops; try apply _; [|done].
    intros. by apply revoke_permits_pres, _.
  - apply pres_keeps, pres_ignore, create_recovery_loop_evolved. by apply HN.
  - apply wp_keeps. intros w Hcw Hw. apply wp_ignore.
    eapply wp_mono; [by apply run_recovery_cycle_loops|]. by intros r w' [? _].
  - apply pres_keeps, pres_ignore, record_recovery_outcome_evolved.
  - apply pres_keeps, pres_ignore, apply_override_stops; try apply _; [|done].
    intros. by apply revoke_permits_pres, _.
Qed.
End evolve.

Lemma recovery_evolution op d0 : keeps (evolved loop_evolves loop_new d0) op.
Proof. by apply handler_recovery_evolved. Qed.
End handlers.

(** ** Theorems *)
Section theorems.
Context `{!Env}.

(** Bounded recovery: in every reachable store a recovery loop has made at most as
    many attempts as it allows, allows at least one, and is only waiting for an outcome
    after an attempt. *)
Theorem recovery_attempts_bounded s id l :
  reachable s → recoveries (st_db s) !! id = Some l →
  0 ≤ rec_attempt_count l ≤ rec_max_attempts l ∧ 1 ≤ rec_max_attempts l
  ∧ (rec_status l = "waiting" → 1 ≤ rec_attempt_count l).
Proof.
  intros Hs Hl.
  destruct (reachable_origin _ _ recovery_evolution s id l Hs Hl) as (l0 & Hnew & _ & HE).
  destruct (le_counts _ _ HE (loop_new_counts _ Hnew)) as (? & ? & ?). auto with lia.
Qed.

(** The life of a recovery loop: whatever operations run, what it recovers and its
    limits never change, attempts are only counted up, and a loop that has succeeded,
    been cancelled or is exhausted is never written again. *)
Theorem recovery_life_cycle s os id l :
  reachable s → recoveries (st_db s) !! id = Some l →
  ∃ l', recoveries (st_db (exec_all s os)) !! id = Some l'
    ∧ loop_terms l' = loop_terms l
    ∧ rec_attempt_count l ≤ rec_attempt_count l' ≤ rec_max_attempts l
    ∧ (rec_status l ∈ RECOVERY_TERMINAL → l' = l).
Proof.
  intros Hs Hl.
  destruct (reachable_origin _ _ recovery_evolution s id l Hs Hl) as (l0 & Hnew & _ & HE0).
  destruct (exec_all_kept _ _ recovery_evolution s os id l Hs Hl) as (l' & Hl' & [Ht Ha Hc He]).
  exists l'. split_and!; [done..| |done].
  destruct (Hc (le_counts _ _ HE0 (loop_new_counts _ Hnew))) as (_ & ? & _).
  assert (rec_max_attempts l' = rec_max_attempts l) by by injection Ht. lia.
Qed.

(** Exponential backoff within bounds: the delay before attempt [n + 1] doubles with
    every attempt up to the cap, is never above it, and never below the base unless
    the cap is. *)
Theorem backoff_delay_spec cap base n :
  1 ≤ base → 1 ≤ cap → 1 ≤ n →
  Z.min cap base ≤ backoff_delay cap base n ≤ cap
  ∧ backoff_delay cap base 1 = Z.min cap base
  ∧ backoff_delay cap base (n + 1) = Z.min cap (2 * backoff_delay cap base n)
  ∧ backoff_delay cap base n ≤ backoff_delay cap base (n + 1).
Proof.
  intros Hb Hc Hn. unfold backoff_delay. rewrite (Z.max_r 0 (n - 1)), (Z.max_r 0 (n + 1 - 1)) by lia.
  assert (1 ≤ 2 ^ (n - 1)) by (pose proof (Z.pow_pos_nonneg 2 (n - 1)); lia).
  assert (2 ^ (n + 1 - 1) = 2 * 2 ^ (n - 1)) as ->.
  { rewrite <-Z.pow_succ_r by lia. f_equal. lia. }
  change (2 ^ Z.max 0 (1 - 1)) with 1. split_and!; nia.
Qed.
End theorems.

Lemma recovery_attempts_bounded_witness :
  ∃ l, recoveries (st_db recovery_store) !! "id-12" = Some l ∧ rec_status l = "waiting"
    ∧ 1 ≤ rec_attempt_count l.
Proof.
  eexists. split; [vm_compute; reflexivity|]. split; [reflexivity|].
  apply (recovery_attempts_bounded recovery_store "id-12" _ recovery_store_reachable);
    vm_compute; reflexivity.
Defined.

Lemma recovery_life_cycle_witness :
  ∃ l l', recoveries (st_db recovery_store) !! "id-12" = Some l
    ∧ recoveries (st_db (exec_all recovery_store demo_outcome)) !! "id-12" = Some l'
    ∧ loop_terms l' = loop_terms l.
Proof.
  eexists.
  destruct (recovery_life_cycle recovery_store demo_outcome "id-12" _
    recovery_store_reachable ltac:(vm_compute; reflexivity)) as (l' & Hl' & Ht & _).
  exists l'. split; [vm_compute; reflexivity|]. split; [exact Hl'|exact Ht].
Defined.

Lemma backoff_delay_spec_witness :
  backoff_delay 900 30 4 = 240 ∧ Z.min 900 30 ≤ backoff_delay 900 30 4 ≤ 900.
Proof. split; [reflexivity|]. apply (backoff_delay_spec 900 30 4); lia. Defined.
