(* ===== verification/PolicyProofs.v ===== *)
(** * Policies: versions, generations, and what refers to them

    A policy only changes together with its version and its generation; the requests,
    permits and recovery loops made under a policy are in its room. *)

From S2P Require Import Prelude PyStr PyVal Errors Validate Models Database Session.
From S2P Require Import Preserve Rows Autonomy Controls Collaboration Approvals.
From S2P Require Import Permits Recovery Federation FederationBroker.
From S2P Require Import Footprint System Evolution Demo.
From S2P Require Import ApprovalProofs PermitProofs Authority AuthorityProofs RecoveryProofs.

(** ** The life of a policy *)
Definition policy_terms (p : AutonomyPolicy) :=
  (pol_id p, pol_owner_subject p, pol_room_id p, pol_idempotency_key p,
   pol_created_by_subject p, pol_created_at p).

Definition policy_counts (p : AutonomyPolicy) : Prop :=
  pol_version p = pol_generation p ∧ 1 ≤ pol_version p.

Record policy_evolves (p p' : AutonomyPolicy) : Prop := {
  pol_terms : policy_terms p' = policy_terms p;
  pol_counts : policy_counts p → policy_counts p';
  pol_moves : p' = p ∨ pol_version p < pol_version p' ∧ pol_generation p < pol_generation p';
}.

#[export] Instance policy_evolves_preorder : PreOrder policy_evolves.
Proof.
  split.
  - intros p. by split; auto.
  - intros p q r [T1 C1 M1] [T2 C2 M2]. split; [congruence|auto|].
    destruct M1 as [->|?], M2 as [->|?]; auto with lia.
Qed.

Definition policy_new (p : AutonomyPolicy) : Prop :=
  pol_version p = 1 ∧ pol_generation p = 1 ∧ pol_status p = "active".

#[local] Hint Extern 1 (policy_new _) => by repeat split : pres_db.

Section handlers.
Context `{!Env}.

Lemma policy_values_evolves o p data w f :
  (policy_values o p data w).1 = Ok f → ∀ q, policy_evolves q (f q).
Proof.
  intros Hok q. enough (wp (policy_values o p data)
    (λ x _, ∀ f, x = Ok f → policy_evolves q (f q)) w) as Hw by exact (Hw f Hok).
  clear Hok. unfold policy_values.
  wp_inv (λ _ : db, True); try (intros ? ?; discriminate).
  all: intros ? [= <-]; split; unfold policy_terms, policy_counts; set_simpl; [done| |right; lia].
  all: lia.
Qed.

Section evolve.
Context (N : AutonomyPolicy → Prop) (d0 : db).
Notation I := (evolved policy_evolves N d0).

Lemma update_policy_evolved o a p v d : pres I (update_policy o a p v d).
Proof.
  apply pres_intro. intros w Hc Hw. unfold update_policy.
  wp_inv (evolved policy_evolves N d0).
  match goal with H : (policy_values _ _ _ _).1 = Ok ?f |- _ =>
    pose proof (policy_values_evolves _ _ _ _ _ H) as HE end.
  eapply wp_pres; [apply (pres_update_row_evolved policy_evolves)|simpl; exact Hc|exact Hw|].
  - intros q. simpl. by injection (pol_terms _ _ (HE q)).
  - intros q _. apply HE.
  - intros [n'|e] w' ??; [|by split]. cbv beta iota.
    wp_inv (evolved policy_evolves N d0).
Qed.

Lemma create_policy_evolved o a d : (∀ p, policy_new p → N p) → pres I (create_policy o a d).
Proof.
  intros HN. assert (∀ p, policy_new p → pres I (add p)) as Hadd.
  { intros p Hp. apply pres_add_evolved; [apply _|auto]. }
  pres_go.
Qed.

Lemma prepare_action_policy_evolved u p t :
  (∀ p, policy_new p → N p) → pres I (prepare_action u p t).
Proof.
  intros HN. assert (∀ p, policy_new p → pres I (add p)) as Hadd.
  { intros q Hq. apply pres_add_evolved; [apply _|auto]. }
  pres_go.
Qed.

Lemma handler_policy_evolved op :
  (match op with CreatePolicy _ _ _ | PrepareAction _ _ _ => True | _ => False end → ∀ p, policy_new p → N p) →
  keeps I op.
Proof.
  intros HN. apply pres_keeps. destruct op; try solve [frame]; apply pres_ignore.
  - apply create_policy_evolved. by apply HN.
  - apply update_policy_evolved.
  - apply prepare_action_policy_evolved. by apply HN.
Qed.
End evolve.

Lemma policy_evolution op d0 : keeps (evolved policy_evolves policy_new d0) op.
Proof. by apply handler_policy_evolved. Qed.

(** ** What is made under a policy is in its room *)
Definition placed (d : db) (owner pid rid : string) : Prop :=
  ∃ p, policies d !! pid = Some p ∧ pol_owner_subject p = owner ∧ pol_room_id p = rid.

Definition request_placed (d : db) (a : ApprovalRequest) : Prop :=
  placed d (apr_owner_subject a) (apr_policy_id a) (apr_room_id a).
Definition loop_placed (d : db) (l : RecoveryLoop) : Prop :=
  placed d (rec_owner_subject l) (rec_policy_id l) (rec_room_id l).

Lemma placed_evolves N d d' o p r o' p' r' :
  grows policy_evolves N d d' → placed d o p r → (o', p', r') = (o, p, r) →
  placed d' o' p' r'.
Proof.
  intros [Hk _] (q & Hq & <- & <-) [= -> -> ->].
  destruct (Hk _ _ Hq) as (q' & Hq' & [Ht _ _]). exists q'. by injection Ht.
Qed.

Definition requests_placed (d : db) : Prop :=
  keyed AutonomyPolicy d ∧ every ApprovalRequest request_placed d.
Definition loops_placed (d : db) : Prop :=
  keyed AutonomyPolicy d ∧ every RecoveryLoop loop_placed d.

Lemma policy_found w o p q :
  (_policy o p w).1 = Ok q → keyed AutonomyPolicy (working w) →
  placed (working w) o (pol_id q) (pol_room_id q).
Proof.
  intros Hq HK. found Hq. pose proof (HK _ _ Hq) as E. simpl in E, Hq. subst p.
  exists q. split_and!; [done| |done]. by eapply bool_decide_eq_true_1.
Qed.

Lemma create_approval_request_places o a d :
  pres requests_placed (create_approval_request o a d).
Proof.
  apply pres_intro. intros w Hc Hw. unfold create_approval_request. wp_inv requests_placed.
  all: apply (wp_create_or_existing_keep requests_placed); [stl_go|done|]; intros Hv;
    try discriminate.
  all: world_simpl; destruct Hw as [HK HR].
  all: match goal with H : (_policy _ _ _).1 = Ok _ |- _ =>
    pose proof (policy_found _ _ _ _ H HK) as Hp end.
  all: split; [done|apply every_put; [done|done|exact Hp]].
Qed.

Lemma requests_placed_keyed d : requests_placed d → keyed AutonomyPolicy d.
Proof. by intros [? _]. Qed.

(** The system's policy is in the system's room. *)
Definition context_placed (o : string) (c : FederationExecutionContext) (d : db) : Prop :=
  placed d o (pol_id (fc_policy c)) (room_id (fc_room c)).

Lemma requests_placed_policy d (p : AutonomyPolicy) :
  requests_placed d → insertable p d = true → requests_placed (put_row p d).
Proof.
  intros [HK HR] [Hfree _]%insertable_spec. split; [by apply keyed_put|].
  intros id a Ha. destruct (HR _ _ Ha) as (q & Hq & ? & ?). exists q. split; [|done].
  change (<[pol_id p := p]> (policies d) !! apr_policy_id a = Some q).
  rewrite lookup_insert_ne; [done|]. intros E. simpl in Hfree. congruence.
Qed.

Lemma ensure_execution_context_places o w :
  requests_placed (committed w) → requests_placed (working w) →
  wp (_ensure_execution_context o) (λ r w',
    (requests_placed (committed w') ∧ requests_placed (working w'))
    ∧ ∀ c, r = Ok c → context_placed o c (working w')) w.
Proof.
  intros Hc Hw. unfold _ensure_execution_context.
  wp_inv requests_placed.
  all: world_simpl.
  all: try match goal with |- context [put_row (system_policy ?a ?b ?c ?d ?e ?f) ?x] =>
    assert (requests_placed (put_row (system_policy a b c d e f) x)) by
      (by apply requests_placed_policy) end.
  all: split; [by split; repeat apply stable|].
  all: try (intros ? ?; discriminate).
  all: intros ? [= <-].
  all: try (eexists; split; [apply lookup_insert_eq|done]).
  all: match goal with H : _ ∈ select _ _ |- _ =>
    apply elem_of_select_keyed in H as [[Ho%bool_decide_eq_true _]%andb_true_iff Hq];
      [|by apply requests_placed_keyed] end.
  all: match goal with H : _ || _ = false |- _ =>
    apply orb_false_iff in H as [[_ Hr]%orb_false_iff _];
    apply negb_false_iff, bool_decide_eq_true in Hr end.
  all: eexists; by split_and!.
Qed.

Lemma write_preparation_places i c o p h t w :
  requests_placed (committed w) → requests_placed (working w) →
  context_placed o c (working w) →
  wp (write_preparation i c o p h t)
    (λ _ w', requests_placed (committed w') ∧ requests_placed (working w')) w.
Proof.
  intros Hc Hw HP. unfold write_preparation.
  wp_inv requests_placed.
  all: world_simpl.
  all: try match goal with
    |- context [put_row (guarded_approval ?i ?c ?m ?p ?o ?x ?y ?z ?k ?n ?t ?u ?v) ?d] =>
    assert (requests_placed (put_row (guarded_approval i c m p o x y z k n t u v) d)) by
      (destruct Hw as [HK HR]; split; [done|by apply every_put]) end.
  all: by split; repeat apply stable.
Qed.

Lemma prepare_action_places u p t w :
  requests_placed (committed w) → requests_placed (working w) →
  wp (prepare_action u p t) (λ _ w', requests_placed (committed w')) w.
Proof.
  intros. eapply wp_mono; [apply (wp_prepare_action requests_placed context_placed); try done|].
  - intros. by apply ensure_execution_context_places.
  - intros. by apply write_preparation_places.
  - by intros ? ? [? _].
Qed.

Lemma create_recovery_loop_places o a d : pres loops_placed (create_recovery_loop o a d).
Proof.
  apply pres_intro. intros w Hc Hw. unfold create_recovery_loop. wp_inv loops_placed.
  all: apply (wp_create_or_existing_keep loops_placed); [stl_go|done|]; intros Hv;
    try discriminate.
  all: world_simpl; destruct Hw as [HK HR].
  all: match goal with H : (_policy _ _ _).1 = Ok _ |- _ =>
    pose proof (policy_found _ _ _ _ H HK) as Hp end.
  all: step_of; subst.
  all: split; [done|apply every_put; [done|done|exact Hp]].
Qed.

Definition op_loops (op : op) : bool :=
  match op with CreateRecoveryLoop _ _ _ => true | _ => false end.

Lemma exec_policies s o : reachable s →
  grows policy_evolves policy_new (st_db s) (st_db (exec s o)).
Proof.
  intros Hs. apply exec_grows; [apply _|intros; apply policy_evolution|].
  by apply (reachable_keyed _ _ policy_evolution).
Qed.

Lemma loops_keyed s : reachable s → keyed RecoveryLoop (st_db s).
Proof. apply (reachable_keyed _ _ recovery_evolution). Qed.

Lemma exec_loops s o : reachable s →
  grows loop_evolves (only (op_loops o) loop_new) (st_db s) (st_db (exec s o)).
Proof.
  intros Hs. apply exec_grows; [apply _| |by apply loops_keyed].
  intros d0. apply handler_recovery_evolved. by destruct o.
Qed.

Lemma exec_requests_placed s o :
  reachable s → requests_placed (st_db s) → requests_placed (st_db (exec s o)).
Proof.
  intros Hs HP. destruct (op_requests o) eqn:Hop.
  - destruct o; try done.
    + apply exec_pres; [|done]. apply pres_ignore, create_approval_request_places.
    + by apply exec_wp, wp_ignore, prepare_action_places.
  - split; [apply policies_keyed; by constructor|]. destruct HP as [_ HP].
    eapply (every_grows request_evolves); [by apply exec_requests|exact HP| |].
    + intros a a' Ha [Ht _ _]. eapply placed_evolves; [by apply exec_policies|exact Ha|].
      injection Ht. congruence.
    + intros a0 a' [Hn _]. congruence.
Qed.

Lemma exec_loops_placed s o :
  reachable s → loops_placed (st_db s) → loops_placed (st_db (exec s o)).
Proof.
  intros Hs HP. destruct (op_loops o) eqn:Hop.
  - destruct o; try done. apply exec_pres; [|done].
    apply pres_ignore, create_recovery_loop_places.
  - split; [apply policies_keyed; by constructor|]. destruct HP as [_ HP].
    eapply (every_grows loop_evolves); [by apply exec_loops|exact HP| |].
    + intros l l' Hl [Ht _ _ _]. eapply placed_evolves; [by apply exec_policies|exact Hl|].
      injection Ht. congruence.
    + intros l0 l' [Hn _]. congruence.
Qed.

Lemma reachable_placed s : reachable s →
  every ApprovalRequest request_placed (st_db s) ∧ every RecoveryLoop loop_placed (st_db s).
Proof.
  intros Hs. enough (requests_placed (st_db s) ∧ loops_placed (st_db s)) as [[_ ?] [_ ?]] by done.
  revert s Hs. apply (reachable_step_invariant (λ d, requests_placed d ∧ loops_placed d)).
  - split; by repeat intro.
  - intros s o Hs [? ?]. split; [by apply exec_requests_placed|by apply exec_loops_placed].
Qed.
End handlers.

(** ** Theorems *)
Section theorems.
Context `{!Env}.

(** Optimistic concurrency of policies: whatever operations run, a policy keeps its
    owner and room, and either nothing of it has changed or its version and its
    generation have both grown, so that what was tied to the old generation is stale;
    version and generation stay equal. *)
Theorem policy_changes_are_versioned s os id p :
  reachable s → policies (st_db s) !! id = Some p →
  ∃ p', policies (st_db (exec_all s os)) !! id = Some p'
    ∧ policy_terms p' = policy_terms p
    ∧ (p' = p ∨ pol_version p < pol_version p' ∧ pol_generation p < pol_generation p')
    ∧ pol_version p' = pol_generation p'.
Proof.
  intros Hs Hp.
  destruct (reachable_origin _ _ policy_evolution s id p Hs Hp) as (p0 & Hn & _ & HE0).
  destruct (exec_all_kept _ _ policy_evolution s os id p Hs Hp) as (p' & Hp' & HE).
  exists p'. split_and!; [done|apply HE|apply HE|].
  apply (pol_counts _ _ HE), (pol_counts _ _ HE0).
  unfold policy_counts. destruct Hn as (-> & -> & _). lia.
Qed.
End theorems.

Lemma policy_changes_are_versioned_witness :
  let os := [UpdatePolicy owner owner "id-8" 1 [("max_parallel_assignments", PInt 4)]] in
  ∃ p p', policies (st_db policy_store) !! "id-8" = Some p
    ∧ policies (st_db (exec_all policy_store os)) !! "id-8" = Some p'
    ∧ pol_max_parallel_assignments p' = 4 ∧ pol_version p' = 2
    ∧ policy_terms p' = policy_terms p.
Proof.
  intros os. eexists.
  destruct (policy_changes_are_versioned policy_store os "id-8" _ policy_store_reachable
    ltac:(vm_compute; reflexivity)) as (p' & Hp' & Ht & _).
  pose proof Hp' as Hp. vm_compute in Hp. injection Hp as <-.
  eexists. split; [vm_compute; reflexivity|]. split; [exact Hp'|].
  split; [reflexivity|]. split; [reflexivity|exact Ht].
Defined.
