(* ===== verification/KillSwitch.v ===== *)
(** * The kill switches: what a control stops and what it refuses

    A control that pauses or kills a scope leaves no usable permit and no working
    recovery in it, and while it is in force nothing new is allowed in the scope. *)

From S2P Require Import Prelude PyStr PyVal Errors Validate Models Database Session.
From S2P Require Import Preserve Rows Autonomy Controls Assignments Approvals Permits Recovery.
From S2P Require Import Footprint System Evolution Demo ApprovalProofs PermitProofs.
From S2P Require Import Authority AuthorityProofs RecoveryProofs PolicyProofs.

(** ** Stopping the work of one owner *)
Section halting.
Context `{!Env}.
Implicit Types (d : db) (o : string) (rid pid : option string).

Definition permit_reached o rid pid d (p : ExecutionPermit) : Prop :=
  pmt_owner_subject p = o ∧ in_scope pid (pmt_policy_id p) = true
  ∧ ∃ a, approvals d !! pmt_approval_request_id p = Some a
      ∧ in_scope rid (apr_room_id a) = true.
Definition loop_reached o rid pid (l : RecoveryLoop) : Prop :=
  rec_owner_subject l = o ∧ in_scope rid (rec_room_id l) = true
  ∧ in_scope pid (rec_policy_id l) = true.

Definition usable (p : ExecutionPermit) : Prop := pmt_status p ∈ ["active"; "claimed"].
Definition at_rest (l : RecoveryLoop) : Prop := rec_status l ∈ "paused" :: RECOVERY_TERMINAL.

Definition permits_halted o rid pid d : Prop :=
  ∀ id p, permits d !! id = Some p → permit_reached o rid pid d p → ¬ usable p.
Definition loops_halted o rid pid d : Prop :=
  ∀ id l, recoveries d !! id = Some l → loop_reached o rid pid l → at_rest l.

Definition workable (d : db) : Prop := keyed ExecutionPermit d ∧ keyed RecoveryLoop d.
Definition halted rid pid (os : list string) d : Prop :=
  workable d ∧ ∀ o, o ∈ os → permits_halted o rid pid d ∧ loops_halted o rid pid d.

Lemma revoke_permits_run o reason rid pid w :
  ∃ now n, _revoke_permits o reason rid pid w
    = (Ok n, tick (on_working (put_all (revoked_permit now reason)
        (revocable_permits o rid pid (working w))) w)).
Proof.
  exists (clock (ticks w)). eexists. unfold _revoke_permits, reads, utcnow, mbind, M_bind.
  rewrite foreach_put. reflexivity.
Qed.

Lemma stop_recoveries_run o state rid pid w :
  ∃ now n, _pause_or_cancel_recoveries o state rid pid w
    = (Ok n, tick (on_working (put_all (stopped_recovery now state)
        (open_recoveries o rid pid (working w))) w)).
Proof.
  exists (clock (ticks w)). eexists.
  unfold _pause_or_cancel_recoveries, reads, utcnow, mbind, M_bind.
  rewrite foreach_put. reflexivity.
Qed.

Lemma revoked_halts o rid pid now reason d :
  workable d →
  permits_halted o rid pid (put_all (revoked_permit now reason) (revocable_permits o rid pid d) d).
Proof.
  intros [HK _] id p Hp (Ho & Hpid & a & Ha & Hrid) Hu.
  assert (approvals (put_all (revoked_permit now reason) (revocable_permits o rid pid d) d)
    = approvals d) as Eapp.
  { by apply (put_all_stable (λ d', approvals d' = approvals d)). }
  rewrite Eapp in Ha.
  assert (tbl (R:=ExecutionPermit) _ !! id = Some p) as Hp' by exact Hp. revert Hp'. clear Hp.
  rewrite lookup_put_all; [|done| |].
  - destruct (tbl d !! id) as [q|] eqn:Hq; [|done]. simpl. intros [= <-].
    case_decide as Hin; [revert Hu; unfold usable, revoked_permit; set_simpl; set_solver|].
    apply Hin, list_elem_of_fmap. exists q. split; [symmetry; exact (HK _ _ Hq)|].
    apply list_elem_of_filter. split.
    + unfold lookup_row. change (tbl d) with (approvals d). by rewrite Ha.
    + apply elem_of_select_keyed; [done|]. rewrite (HK _ _ Hq). split; [|done].
      unfold usable in Hu. by rewrite Ho, Hpid, !bool_decide_eq_true_2.
  - apply NoDup_filter_fmap. by apply NoDup_select.
  - intros r [_ Hr]%list_elem_of_filter. by apply elem_of_select_keyed in Hr as [_ ?].
Qed.

Lemma stopped_halts o rid pid now state d :
  workable d → state ∈ ["paused"; "killed"] →
  loops_halted o rid pid (put_all (stopped_recovery now state) (open_recoveries o rid pid d) d).
Proof.
  intros [_ HK] Hst id l Hl (Ho & Hrid & Hpid).
  assert (tbl (R:=RecoveryLoop) _ !! id = Some l) as Hl' by exact Hl. revert Hl'. clear Hl.
  rewrite lookup_put_all.
  - destruct (tbl d !! id) as [q|] eqn:Hq; [|done]. simpl. intros [= <-].
    case_decide as Hin.
    + unfold at_rest, stopped_recovery. destruct (state ==? "killed") eqn:E;
        repeat case_match; set_simpl; set_solver.
    + unfold at_rest. apply dec_stable. intros Hr. apply Hin, list_elem_of_fmap.
      exists q. split; [symmetry; exact (HK _ _ Hq)|]. apply elem_of_select_keyed; [done|].
      rewrite (HK _ _ Hq). split; [|done]. rewrite Ho, Hrid, Hpid, bool_decide_eq_true_2 by done.
      rewrite bool_decide_eq_false_2; [done|]. set_solver.
  - intros l0. unfold stopped_recovery. by repeat case_match.
  - by apply NoDup_select.
  - intros r Hr. by apply elem_of_select_keyed in Hr as [_ ?].
Qed.

(** ** What is halted stays so *)
Lemma halted_revoked rid pid os now reason q d :
  halted rid pid os d → permits d !! pmt_id q = Some q →
  halted rid pid os (put_row (revoked_permit now reason q) d).
Proof.
  intros [[KP KL] HH] Hq. split; [split; [exact (keyed_put _ _ KP)|done]|].
  intros o Ho. destruct (HH o Ho) as [HP HL]. split; [|exact HL].
  intros id p Hp Hr Hu.
  change (<[pmt_id q := revoked_permit now reason q]> (permits d) !! id = Some p) in Hp.
  apply lookup_insert_Some in Hp as [[_ <-]|[_ Hp]]; [|exact (HP id p Hp Hr Hu)].
  revert Hu. unfold usable, revoked_permit. set_simpl. set_solver.
Qed.

Lemma halted_stopped rid pid os now state q d :
  state ∈ ["paused"; "killed"] →
  halted rid pid os d → recoveries d !! rec_id q = Some q →
  halted rid pid os (put_row (stopped_recovery now state q) d).
Proof.
  intros Hst [[KP KL] HH] Hq. split; [split; [done|exact (keyed_put _ _ KL)]|].
  intros o Ho. destruct (HH o Ho) as [HP HL]. split; [exact HP|].
  intros id l Hl Hr.
  change (<[rec_id (stopped_recovery now state q) := stopped_recovery now state q]>
    (recoveries d) !! id = Some l) in Hl.
  apply lookup_insert_Some in Hl as [[_ <-]|[_ Hl]]; [|exact (HL id l Hl Hr)].
  unfold at_rest, stopped_recovery. destruct (state ==? "killed"); repeat case_match;
    set_simpl; set_solver.
Qed.

Lemma stop_owner_halts rid pid os o state reason now now' d :
  state ∈ ["paused"; "killed"] → halted rid pid os d →
  let d1 := put_all (revoked_permit now reason) (revocable_permits o rid pid d) d in
  halted rid pid (o :: os)
    (put_all (stopped_recovery now' state) (open_recoveries o rid pid d1) d1).
Proof.
  intros Hst HH d1. assert (workable d) as HW by apply HH.
  assert (halted rid pid os d1) as HH1.
  { unfold d1. apply (put_all_keep (halted rid pid os)); [done|apply NoDup_filter_fmap, NoDup_select, HW| | |done].
    - intros r [_ Hr]%list_elem_of_filter. by apply elem_of_select_keyed in Hr as [_ ?]; [|apply HW].
    - intros r d' _ ? ?. by apply halted_revoked. }
  assert (workable d1) as HW1 by apply HH1.
  assert (permits_halted o rid pid d1) as HP by by apply revoked_halts.
  pose proof (stopped_halts o rid pid now' state d1 HW1 Hst) as HL.
  set (d2 := put_all (stopped_recovery now' state) _ d1) in *.
  assert (halted rid pid os d2 ∧ permits_halted o rid pid d2) as [HH2 HP2].
  { split; [|by apply (put_all_stable (permits_halted o rid pid))].
    apply (put_all_keep (halted rid pid os)); [|apply NoDup_select, HW1| | |done].
    - intros r. unfold stopped_recovery. by repeat case_match.
    - intros r Hr. by apply elem_of_select_keyed in Hr as [_ ?]; [|apply HW1].
    - intros r d' _ ? ?. by apply halted_stopped. }
  split; [apply HH2|]. intros o' [->|Ho']%elem_of_cons; [by split|by apply HH2].
Qed.

Lemma stop_owners_halts state reason rid pid owners os a b w (J : db → Prop)
    `{!Stable J ExecutionPermit, !Stable J RecoveryLoop} :
  state ∈ ["paused"; "killed"] → halted rid pid os (working w) → J (working w) →
  wp (stop_owners state reason rid pid owners a b) (λ r w', ∃ ab, r = Ok ab
    ∧ halted rid pid (rev owners ++ os) (working w') ∧ J (working w')
    ∧ violated w' = violated w) w.
Proof.
  intros Hst. revert os a b w. induction owners as [|o owners IH]; intros os a b w HH HJ; simpl.
  { apply wp_ret. eauto. }
  apply wp_bind. unfold wp.
  destruct (revoke_permits_run o ("autonomy " +:+ state +:+ ": " +:+ reason) rid pid w)
    as (now & n & ->). simpl. apply wp_bind. unfold wp.
  destruct (stop_recoveries_run o state rid pid (tick (on_working (put_all (revoked_permit now
    ("autonomy " +:+ state +:+ ": " +:+ reason)) (revocable_permits o rid pid (working w))) w)))
    as (now' & n' & ->). simpl. rewrite <-app_assoc. simpl.
  match goal with |- context [stop_owners _ _ _ _ owners _ _ ?w'] =>
    change (violated w) with (violated w') end. apply IH.
  - by apply stop_owner_halts.
  - by apply (put_all_stable J), (put_all_stable J).
Qed.
End halting.

(** ** What a control governs *)

(** The control is one of those that a snapshot for the policy looks at. *)
Definition governs (c : AutonomyControlState) (o rid pid : string) : Prop :=
  (ctl_owner_subject c, ctl_scope_type c, ctl_scope_id c)
    ∈ control_scopes o (Some rid) (Some pid).

Lemma governs_cases c o rid pid :
  governs c o rid pid →
  ctl_scope_type c = "global" ∧ ctl_owner_subject c = "*"
  ∨ ctl_scope_type c = "tenant" ∧ ctl_owner_subject c = o
  ∨ ctl_scope_type c = "room" ∧ ctl_owner_subject c = o ∧ ctl_scope_id c = rid
  ∨ ctl_scope_type c = "policy" ∧ ctl_owner_subject c = o ∧ ctl_scope_id c = pid.
Proof.
  unfold governs, control_scopes. rewrite !elem_of_app.
  intros [H|[H|H]]; repeat case_match; simpl in *;
    repeat (apply elem_of_cons in H as [[= -> -> ->]|H]); try by apply not_elem_of_nil in H.
  all: tauto.
Qed.

Section setting.
Context `{!Env}.

(** The permits and recoveries the control governs are those it is told to stop. *)
Definition reaches (c : AutonomyControlState) (rid pid : option string) (os : list string)
    (d : db) : Prop :=
  ∀ o r p, governs c o r p → placed d o p r → (ctl_scope_type c = "global" → o ∈ os) →
    o ∈ os ∧ in_scope rid r = true ∧ in_scope pid p = true.

Lemma in_scope_some s : in_scope (Some s) s = true.
Proof. unfold in_scope. destruct (opt_truthy _); [|done]. by apply bool_decide_eq_true. Qed.

Lemma active_owners_one o t d : t ≠ "global" → active_owners o t d = [o].
Proof. intros Ht. unfold active_owners. by rewrite bool_decide_eq_false_2. Qed.

Lemma required_stripped s f n r :
  strip s = s → _required_text (PStr s) f n = Ok r → r = s.
Proof.
  intros Hs Hr. apply _required_text_ok in Hr as (-> & _). unfold str_or_empty, py_or. simpl.
  destruct (s =/? "") eqn:E; [done|]. by apply negb_false_iff, bool_decide_eq_true in E as ->.
Qed.

Lemma resolve_scope_reaches o t sid w co sid' rid pid c d :
  strip sid = sid →
  (resolve_scope o t sid w).1 = Ok (co, sid', rid, pid) → keyed AutonomyPolicy (working w) →
  (ctl_owner_subject c, ctl_scope_type c, ctl_scope_id c) = (co, t, sid') →
  reaches c rid pid (active_owners o t d) (working w).
Proof.
  intros Hstrip Hok HK [= Eo Et Es].
  enough (wp (resolve_scope o t sid) (λ x _, x = Ok (co, sid', rid, pid) →
    reaches c rid pid (active_owners o t d) (working w)) w) as Hw by exact (Hw Hok).
  clear Hok. unfold resolve_scope.
  wp_inv (λ _ : db, True); try (intros ?; discriminate); intros [= <- <- <- <-].
  all: intros x r p [[G1 G2]|[[G1 G2]|[(G1 & G2 & G3)|(G1 & G2 & G3)]]]%governs_cases Hp Hg.
  all: step_of; repeat match goal with
    H : (_ ==? _) = false |- _ => apply bool_decide_eq_false in H end; try congruence.
  all: try match goal with H : _required_text _ _ _ = Ok _ |- _ =>
    apply required_stripped in H; [subst|done] end.
  all: try (rewrite active_owners_one in * by congruence).
  - split_and!; [by apply Hg|done..].
  - split_and!; [|done..]. apply list_elem_of_singleton. congruence.
  - rewrite in_scope_some. split_and!; [by apply list_elem_of_singleton|done..].
  - match goal with H : (_policy _ _ _).1 = Ok _ |- _ => found H; rename H into Hq end.
    destruct Hp as (q & Hq' & _ & <-). simpl in Hq. simplify_eq.
    rewrite !in_scope_some. split_and!; [by apply list_elem_of_singleton|done..].
Qed.

(** ** The effect of setting a control *)

Lemma write_control_effect a co t sid state reason ex now row0 w :
  (∀ c, row0 = Some c →
     (ctl_owner_subject c, ctl_scope_type c, ctl_scope_id c) = (co, t, sid)) →
  wp (write_control a co t sid state reason ex now row0) (λ r w', ∃ c, r = Ok c
    ∧ (ctl_owner_subject c, ctl_scope_type c, ctl_scope_id c) = (co, t, sid)
    ∧ ctl_state c = state
    ∧ (violated w' = false → controls (working w') !! ctl_id c = Some c)
    ∧ (permits (working w'), recoveries (working w'), policies (working w'))
      = (permits (working w), recoveries (working w), policies (working w))) w.
Proof.
  intros Hrow. unfold write_control. destruct row0 as [c|]; repeat wp_step; eexists;
    (split; [reflexivity|]); set_simpl; split_and!; try done.
  - specialize (Hrow c eq_refl). injection Hrow. by intros -> -> ->.
  - intros _. apply lookup_insert_eq.
  - intros _. apply lookup_insert_eq.
Qed.

Lemma stop_scope_effect o t state reason rid pid w (J : db → Prop)
    `{!Stable J ExecutionPermit, !Stable J RecoveryLoop} :
  workable (working w) → J (working w) →
  wp (stop_scope o t state reason rid pid) (λ r w', ∃ n, r = Ok n ∧ J (working w')
    ∧ violated w' = violated w
    ∧ (state ∈ ["paused"; "killed"] →
       halted rid pid (rev (active_owners o t (working w))) (working w'))) w.
Proof.
  intros HW HJ. unfold stop_scope. apply wp_if; intros Hst.
  - apply wp_bind, wp_reads. apply bool_decide_eq_true in Hst.
    eapply wp_mono.
    + apply (stop_owners_halts _ _ _ _ _ [] _ _ _ J); [done|split; [done|]|done].
      by intros x ?%not_elem_of_nil.
    + intros r w' (ab & -> & HH & HJ' & Hv). rewrite app_nil_r in HH. by exists ab.
  - apply bool_decide_eq_false in Hst. apply wp_ret. by exists (0, 0).
Qed.

(** What setting the control [row] leaves in the database. *)
Definition control_set (o t state : string) (d0 : db) (row : AutonomyControlState)
    (d : db) : Prop :=
  controls d !! ctl_id row = Some row ∧ ctl_state row = state ∧ ctl_scope_type row = t
  ∧ policies d = policies d0
  ∧ (state ∈ ["paused"; "killed"] → ∃ rid pid os,
       halted rid pid os d ∧ reaches row rid pid os d0
       ∧ (t = "global" → os = rev (active_owners o t d0))).

Lemma control_row_ok o t sid w row :
  (_control_row o t sid w).1 = Ok (Some row) →
  (ctl_owner_subject row, ctl_scope_type row, ctl_scope_id row) = (o, t, sid).
Proof.
  intros [Hr _]%query_one_ok.
  assert (row ∈ select (λ c, (ctl_owner_subject c ==? o) && (ctl_scope_type c ==? t)
    && (ctl_scope_id c ==? sid)) (working w)) as Hin.
  { destruct (select _ _); [done|]. injection Hr as ->. by left. }
  apply elem_of_select in Hin as
    [[[E1%bool_decide_eq_true E2%bool_decide_eq_true]%andb_true_iff
      E3%bool_decide_eq_true]%andb_true_iff _]. congruence.
Qed.

Lemma set_control_effect o a roles data w :
  workable (working w) → keyed AutonomyPolicy (working w) →
  wp (set_control o a roles data)
    (λ r w', ∀ row, r = Ok row → control_set o (str_or_empty (dict_get data "scope_type"))
       (str_or_empty (dict_get data "state")) (working w) row (committed w')) w.
Proof.
  intros HW HK. unfold set_control.
  set (t := str_or_empty (dict_get data "scope_type")).
  set (state := str_or_empty (dict_get data "state")).
  wp_inv (λ _ : db, True); try (intros ? ?; discriminate).
  match goal with H : (resolve_scope _ _ _ _).1 = Ok (?co, ?sid, ?r, ?p) |- _ =>
    rename H into Hr; rename co into owner', sid into sid', r into rid, p into pid end.
  match goal with H : (_control_row _ _ _ _).1 = Ok ?x |- _ => rename H into Hcr end.
  eapply wp_mono; [apply write_control_effect; intros c ->; by eapply control_row_ok|].
  intros r w1 (row & -> & Hrow & Hst & Hctl & [= Ep Er Epol]). cbv beta iota. apply wp_bind.
  set (J := λ d, (violated w1 = false → controls d !! ctl_id row = Some row)
    ∧ policies d = policies (working w)).
  assert (workable (working w1)) as HW1.
  { unfold workable, keyed. simpl. rewrite Ep, Er. exact HW. }
  eapply wp_mono; [apply (stop_scope_effect _ _ _ _ _ _ w1 J HW1); by split|].
  intros r w2 (n & -> & [HJ HJp] & Hv & Hh). cbv beta iota.
  assert (active_owners o t (working w1) = active_owners o t (working w)) as Eo.
  { unfold active_owners, rows. simpl. by rewrite Ep, Er. }
  rewrite Eo in Hh. set (os := rev (active_owners o t (working w))) in *.
  apply wp_bind, wp_uuid4, wp_bind, wp_add; intros Hins; (eapply wp_mono;
    [apply (wp_settle (λ d, controls d !! ctl_id row = Some row
       ∧ policies d = policies (working w)
       ∧ (state ∈ ["paused"; "killed"] → halted rid pid os d)))|]); simpl; try done.
  1: { intros Hv2. split_and!; [by apply HJ; rewrite <-Hv|done|exact Hh]. }
  all: intros r w3 Hset row' ->; destruct (Hset row' eq_refl) as (-> & (Hc & Hp & HH) & _).
  all: split_and!; [done|done|by injection Hrow|done|].
  all: intros Hin; exists rid, pid, os; split_and!; [by apply HH| |done].
  all: assert (∀ x, x ∈ os ↔ x ∈ active_owners o t (working w)) as Hos
    by (intros x; unfold os; by rewrite !list_elem_of_In, <-in_rev).
  all: intros x y z Hg Hpl Hgl; rewrite Hos in *.
  all: exact (resolve_scope_reaches _ _ _ _ _ _ _ _ _ _ (strip_idemp _) Hr HK Hrow x y z
    Hg Hpl Hgl).
Qed.
End setting.

(** ** Theorems *)
Section theorems.
Context `{!Env}.

Lemma permit_placed s id p :
  reachable s → permits (st_db s) !! id = Some p → ∃ a,
    approvals (st_db s) !! pmt_approval_request_id p = Some a
    ∧ placed (st_db s) (pmt_owner_subject p) (pmt_policy_id p) (apr_room_id a).
Proof.
  intros Hs Hp. pose proof (reachable_authority s Hs) as [_ _ [HP _] _ _].
  destruct (HP _ _ Hp) as (a & Ha & _ & E1 & _). exists a. split; [done|].
  destruct (reachable_placed s Hs) as [HA _]. specialize (HA _ _ Ha).
  unfold request_placed in HA. injection E1. by intros _ _ -> ->.
Qed.

(** The permits and recoveries of a store are those from before, of the same owners. *)
Lemma set_control_owners s o a roles data x :
  reachable s →
  let d := st_db (exec s (SetControl o a roles data)) in
  (∃ id p, permits d !! id = Some p ∧ pmt_owner_subject p = x)
  ∨ (∃ id l, recoveries d !! id = Some l ∧ rec_owner_subject l = x) →
  x ∈ active_owners o "global" (st_db s).
Proof.
  intros Hs d Hx. unfold active_owners. rewrite bool_decide_eq_true_2 by done.
  apply dedup_elem, elem_of_app.
  destruct Hx as [(id & p & Hp & <-)|(id & l & Hl & <-)].
  - left. destruct (exec_permits s (SetControl o a roles data) Hs) as [Hk Hn].
    destruct (permits (st_db s) !! id) as [p0|] eqn:Hp0;
      [|by destruct (Hn id p Hp Hp0) as (? & [? _] & _)].
    destruct (Hk id p0 Hp0) as (p1 & Hp1 & [Ht _ _ _]). simpl in Hp1.
    assert (p1 = p) as -> by (unfold d in Hp; congruence).
    apply list_elem_of_fmap. exists p0. split; [by injection Ht|].
    apply elem_of_rows. by exists id.
  - right. destruct (exec_loops s (SetControl o a roles data) Hs) as [Hk Hn].
    destruct (recoveries (st_db s) !! id) as [l0|] eqn:Hl0;
      [|by destruct (Hn id l Hl Hl0) as (? & [? _] & _)].
    destruct (Hk id l0 Hl0) as (l1 & Hl1 & [Ht _ _ _]). simpl in Hl1.
    assert (l1 = l) as -> by (unfold d in Hl; congruence).
    apply list_elem_of_fmap. exists l0. split; [by injection Ht|].
    apply elem_of_rows. by exists id.
Qed.

(** C10 The kill switch: after an operator has paused or killed a scope, no permit that the
    control governs (whose owner, room and policy make a snapshot look at it) can be
    claimed or used, and no recovery it governs is at work. *)
Theorem kill_switch_halts s o a roles data row :
  reachable s → (run (set_control o a roles data) s).1 = Ok row →
  str_or_empty (dict_get data "state") ∈ ["paused"; "killed"] →
  let d := st_db (exec s (SetControl o a roles data)) in
  (controls d !! ctl_id row = Some row ∧ ctl_state row = str_or_empty (dict_get data "state"))
  ∧ (∀ id p r, permits d !! id = Some p → approvals d !! pmt_approval_request_id p = Some r →
       governs row (pmt_owner_subject p) (apr_room_id r) (pmt_policy_id p) →
       pmt_status p ∉ ["active"; "claimed"])
  ∧ (∀ id l, recoveries d !! id = Some l →
       governs row (rec_owner_subject l) (rec_room_id l) (rec_policy_id l) →
       rec_status l ∈ "paused" :: RECOVERY_TERMINAL).
Proof.
  intros Hs Hok Hst d. assert (reachable (exec s (SetControl o a roles data))) as Hs' by by constructor.
  assert (workable (st_db s)) as HW by (split; [by apply permits_keyed|by apply loops_keyed]).
  assert (control_set o (str_or_empty (dict_get data "scope_type"))
    (str_or_empty (dict_get data "state")) (st_db s) row d) as (Hc & Hrs & Ht & Hpol & HH).
  { pose proof (set_control_effect o a roles data (open_session s) HW (policies_keyed s Hs)) as HE.
    unfold wp in HE. unfold d, exec, run. revert Hok HE. unfold run. simpl. unfold ignore, mbind, M_bind.
    destruct (set_control o a roles data (open_session s)) as [x w]. simpl.
    intros -> HE. by apply HE. }
  destruct (HH Hst) as (rid & pid & os & Hhalt & Hreach & Hglob).
  assert (∀ x p r, placed d x p r → placed (st_db s) x p r) as Hpl.
  { intros x p r (q & Hq & ?). exists q. by rewrite <-Hpol. }
  assert (∀ x, ctl_scope_type row = "global" → x ∈ active_owners o "global" (st_db s) → x ∈ os) as Hos.
  { intros x Hg Hx. rewrite Hglob by congruence. rewrite <-Ht, Hg.
    by rewrite list_elem_of_In, <-in_rev, <-list_elem_of_In. }
  split_and!; [done|done| |].
  - intros id p r Hp Hr Hg Hu. destruct (permit_placed _ id p Hs' Hp) as (r' & Hr' & Hplaced).
    assert (r' = r) as -> by (unfold d in Hr; congruence).
    destruct (Hreach _ _ _ Hg (Hpl _ _ _ Hplaced)) as (Hin & Hir & Hip).
    { intros Hgl. apply Hos; [done|]. apply (set_control_owners s o a roles data); eauto. }
    destruct Hhalt as [_ Hhalt]. destruct (Hhalt _ Hin) as [HP _].
    apply (HP id p Hp); [|done]. split_and!; [done|done|]. by exists r.
  - intros id l Hl Hg. destruct (reachable_placed _ Hs') as [_ HL]. specialize (HL _ _ Hl).
    destruct (Hreach _ _ _ Hg (Hpl _ _ _ HL)) as (Hin & Hir & Hip).
    { intros Hgl. apply Hos; [done|]. apply (set_control_owners s o a roles data); eauto. }
    destruct Hhalt as [_ Hhalt]. destruct (Hhalt _ Hin) as [_ HLo]. by apply (HLo id l Hl).
Qed.
End theorems.

Lemma kill_switch_halts_witness :
  ∃ row p r, (run (set_control owner owner ["gateway-admin"] pause_data) permit_store).1 = Ok row
    ∧ permits (st_db paused_store) !! "id-17" = Some p
    ∧ approvals (st_db paused_store) !! pmt_approval_request_id p = Some r
    ∧ governs row (pmt_owner_subject p) (apr_room_id r) (pmt_policy_id p)
    ∧ pmt_status p ∉ ["active"; "claimed"].
Proof.
  eexists _, _, _.
  split; [vm_compute; reflexivity|]. split; [vm_compute; reflexivity|].
  split; [vm_compute; reflexivity|].
  match goal with |- ?G ∧ _ => assert G as Hg by (vm_compute; right; right; left) end.
  split; [exact Hg|].
  refine (proj1 (proj2 (kill_switch_halts permit_store owner owner ["gateway-admin"] pause_data _
    permit_store_reachable _ _)) "id-17" _ _ _ _ Hg);
    [vm_compute; reflexivity|by apply (bool_decide_unpack _)|vm_compute; reflexivity..].
Defined.
