(* ===== verification/Snapshots.v ===== *)
(** * Control snapshots: what is in force, and what it refuses

    The loop over the scopes of a snapshot, with its early exit, computes the strongest
    of their states; in every state but [enabled] nothing new is allowed in the scope. *)

From S2P Require Import Prelude PyStr PyVal Errors Validate Models Database Session.
From S2P Require Import Preserve Rows Autonomy Controls Assignments Approvals Permits Recovery.
From S2P Require Import Footprint System Evolution Demo ApprovalProofs PermitProofs.
From S2P Require Import Authority AuthorityProofs RecoveryProofs PolicyProofs KillSwitch.

(** ** The controls of a store *)
Definition control_terms (c : AutonomyControlState) :=
  (ctl_id c, ctl_owner_subject c, ctl_scope_type c, ctl_scope_id c, ctl_created_at c).

Definition unique_controls (d : db) : Prop :=
  ∀ id c id' c', controls d !! id = Some c → controls d !! id' = Some c' →
    clash_controls c c' = true → id = id'.

Lemma clash_controls_terms a b a' b' :
  control_terms a' = control_terms a → control_terms b' = control_terms b →
  clash_controls a' b' = clash_controls a b.
Proof. intros Ea Eb. unfold clash_controls. injection Ea. injection Eb. by intros _ -> -> -> _ _ -> -> ->. Qed.

Lemma clash_controls_sym a b : clash_controls a b = clash_controls b a.
Proof.
  unfold clash_controls. f_equal; [f_equal|]; apply bool_decide_ext; by split.
Qed.

Definition control_table (d : db) : Prop := keyed AutonomyControlState d ∧ unique_controls d.

Lemma control_table_insert (c : AutonomyControlState) d :
  control_table d → insertable c d = true → control_table (put_row c d).
Proof.
  intros [HK HU] [Hfree Hclash]%insertable_spec. split; [by apply keyed_put|].
  intros id x id' x' Hx Hx' Hcl.
  change (<[ctl_id c := c]> (controls d) !! id = Some x) in Hx.
  change (<[ctl_id c := c]> (controls d) !! id' = Some x') in Hx'.
  apply lookup_insert_Some in Hx as [[<- <-]|[_ Hx]];
    apply lookup_insert_Some in Hx' as [[<- <-]|[_ Hx']]; [done| | |by eapply HU].
  - specialize (Hclash _ _ Hx'). simpl in Hclash. congruence.
  - rewrite clash_controls_sym in Hcl. specialize (Hclash _ _ Hx). simpl in Hclash. congruence.
Qed.

Lemma control_table_change c c' d :
  control_table d → controls d !! ctl_id c = Some c → control_terms c' = control_terms c →
  control_table (put_row c' d).
Proof.
  intros [HK HU] Hc Ht. assert (ctl_id c' = ctl_id c) as Hid by (injection Ht; done).
  split; [by apply keyed_put|].
  assert (∀ id x, controls (put_row c' d) !! id = Some x →
    ∃ y, controls d !! id = Some y ∧ control_terms x = control_terms y) as Hold.
  { intros id x Hx. change (<[ctl_id c' := c']> (controls d) !! id = Some x) in Hx.
    apply lookup_insert_Some in Hx as [[<- <-]|[_ Hx]]; [|eauto]. rewrite Hid. eauto. }
  intros id x id' x' Hx Hx' Hcl.
  destruct (Hold _ _ Hx) as (y & Hy & Ey). destruct (Hold _ _ Hx') as (y' & Hy' & Ey').
  rewrite (clash_controls_terms _ _ _ _ Ey Ey') in Hcl. by eapply HU.
Qed.

Section handlers.
Context `{!Env}.

Lemma control_row_found o t sid w row :
  keyed AutonomyControlState (working w) →
  (_control_row o t sid w).1 = Ok (Some row) → controls (working w) !! ctl_id row = Some row.
Proof.
  intros HK [Hr _]%query_one_ok.
  assert (row ∈ select (λ c, (ctl_owner_subject c ==? o) && (ctl_scope_type c ==? t)
    && (ctl_scope_id c ==? sid)) (working w)) as Hin.
  { destruct (select _ _); [done|]. injection Hr as ->. by left. }
  by apply elem_of_select_keyed in Hin as [_ ?].
Qed.

Lemma set_control_table o a roles data : pres control_table (set_control o a roles data).
Proof.
  apply pres_intro. intros w Hc Hw. unfold set_control. wp_inv control_table.
  match goal with H : (_control_row _ _ _ _).1 = Ok _ |- _ => rename H into Hrow end.
  eapply (wp_mono _ (λ _ w', control_table (committed w') ∧ control_table (working w'))).
  - unfold write_control. repeat wp_step; (split; [done|]); simpl; try done.
    + pose proof (control_row_found _ _ _ _ _ (proj1 Hw) Hrow) as Hin.
      by apply (control_table_change _ _ _ Hw Hin).
    + by apply control_table_insert.
  - intros [row|e] w' [Hc' Hw']; wp_inv control_table.
Qed.

Lemma reachable_control_table s : reachable s → control_table (st_db s).
Proof.
  apply (reachable_invariant control_table); [split; by repeat intro|].
  intros o. destruct o; try solve [frame]. apply pres_ignore, set_control_table.
Qed.

(** ** The strongest state *)
Definition scope_rows (d : db) (scope : string * string * string) : list AutonomyControlState :=
  select (λ c, (ctl_owner_subject c ==? scope.1.1) && (ctl_scope_type c ==? scope.1.2)
               && (ctl_scope_id c ==? scope.2)) d.

(** The state of a scope: that of its control, if it has one. *)
Definition scope_state (d : db) (now : Z) (scope : string * string * string) : string :=
  match scope_rows d scope with c :: _ => control_state_at now c | [] => "enabled" end.

Definition strongest (states : list string) : string :=
  if "killed" ∈? states then "killed" else if "paused" ∈? states then "paused" else "enabled".

Lemma scope_rows_unique d scope : control_table d → (length (scope_rows d scope) ≤ 1)%nat.
Proof.
  intros [HK HU]. unfold scope_rows. destruct scope as [[o t] i]; simpl.
  pose proof (NoDup_select (λ c, (ctl_owner_subject c ==? o) && (ctl_scope_type c ==? t)
    && (ctl_scope_id c ==? i)) d HK) as HN.
  destruct (select _ d) as [|c [|c' l]] eqn:E; simpl; [lia..|exfalso].
  assert (∀ x, x ∈ c :: c' :: l → controls d !! ctl_id x = Some x
    ∧ (ctl_owner_subject x, ctl_scope_type x, ctl_scope_id x) = (o, t, i)) as Hx.
  { intros x Hx. rewrite <-E in Hx. apply elem_of_select_keyed in Hx as [Hp Hx]; [|done].
    apply andb_true_iff in Hp as [[E1%bool_decide_eq_true E2%bool_decide_eq_true]%andb_true_iff
      E3%bool_decide_eq_true]. split; [done|congruence]. }
  destruct (Hx c) as [Hc [= E1 E2 E3]]; [by left|].
  destruct (Hx c') as [Hc' [= F1 F2 F3]]; [by right; left|].
  apply NoDup_cons in HN as [Hne _]. apply Hne, elem_of_cons. left.
  apply (HU _ _ _ _ Hc Hc'). unfold clash_controls.
  by rewrite E1, E2, E3, F1, F2, F3, !bool_decide_eq_true_2.
Qed.

Lemma control_row_run o t i w :
  control_table (working w) →
  _control_row o t i w = (Ok (head (scope_rows (working w) (o, t, i))), w).
Proof.
  intros HT. pose proof (scope_rows_unique (working w) (o, t, i) HT) as Hl.
  unfold _control_row, query_one, query, reads, mbind, M_bind, scope_rows in *. simpl in *.
  destruct (select _ _) as [|c [|c' l]]; [done..|simpl in Hl; lia].
Qed.

Lemma strongest_killed l : "killed" ∈ l → strongest l = "killed".
Proof. intros Hin. unfold strongest. by rewrite bool_decide_eq_true_2. Qed.

Lemma strongest_ext l k :
  ("killed" ∈ l ↔ "killed" ∈ k) → ("paused" ∈ l ↔ "paused" ∈ k) → strongest l = strongest k.
Proof.
  intros Hk Hp. unfold strongest.
  by rewrite (bool_decide_ext _ _ Hk), (bool_decide_ext _ _ Hp).
Qed.

(** The loop, from the state it has reached. *)
Lemma scan_controls_run now scopes e r g w :
  control_table (working w) → e ∈ ["enabled"; "paused"] →
  ∃ r' g', scan_controls now scopes e r g w
    = (Ok (strongest (e :: map (scope_state (working w) now) scopes), r', g'), w).
Proof.
  intros HT. revert e r g. induction scopes as [|[[o t] i] scopes IH]; intros e r g He.
  { exists r, g. unfold strongest. simpl.
    apply elem_of_cons in He as [He|He%list_elem_of_singleton]; by subst. }
  simpl. unfold mbind, M_bind. rewrite control_row_run by done.
  unfold scope_state at 1. destruct (scope_rows (working w) (o, t, i)) as [|c l]; simpl.
  - destruct (IH e r (dict_set (t +:+ ":" +:+ i) (PInt 0) g) He) as (r' & g' & ->).
    exists r', g'. rewrite (strongest_ext _ (e :: "enabled" :: map (scope_state (working w) now) scopes));
      [done|set_solver..].
  - case_bool_decide as Hk.
    { exists (ctl_reason c). eexists. rewrite strongest_killed; [done|]. rewrite Hk. set_solver. }
    set (g1 := dict_set _ _ g).
    destruct ((control_state_at now c ==? "paused") && (e ==? "enabled")) eqn:Hp.
    + apply andb_true_iff in Hp as [E1%bool_decide_eq_true E2%bool_decide_eq_true]. subst e.
      destruct (IH "paused" (ctl_reason c) g1 ltac:(set_solver)) as (r' & g' & ->).
      exists r', g'. rewrite E1, (strongest_ext _ ("enabled" :: "paused" :: map (scope_state (working w) now) scopes));
        [done|set_solver..].
    + destruct (IH e r g1 He) as (r' & g' & ->). exists r', g'.
      rewrite (strongest_ext _ (e :: control_state_at now c :: map (scope_state (working w) now) scopes)); [done|set_solver|].
      apply andb_false_iff in Hp as [Hp%bool_decide_eq_false|Hp%bool_decide_eq_false];
        [set_solver|].
      apply elem_of_cons in He as [He|He%list_elem_of_singleton]; [done|set_solver].
Qed.
End handlers.

(** ** What a snapshot allows *)
Section effective.
Context `{!Env}.

(** The state in force for a room and a policy of an owner, at a time. *)
Definition effective (d : db) (now : Z) (o : string) (rid pid : option string) : string :=
  if gateway_autonomy_emergency_stop settings then "killed"
  else strongest (map (scope_state d now) (control_scopes o rid pid)).

(** At some reading of the clock, the policy is active and its room is not stopped. *)
Definition allowed (d : db) (o rid pid : string) : Prop :=
  ∃ n p, policies d !! pid = Some p ∧ pol_owner_subject p = o ∧ pol_status p = "active"
    ∧ effective d (clock n) o (Some rid) (Some pid) = "enabled".

Lemma strongest_enabled l : strongest ("enabled" :: l) = strongest l.
Proof. apply strongest_ext; set_solver. Qed.

Lemma control_snapshot_run o rid pid w :
  control_table (working w) →
  ∃ r g w', control_snapshot o rid pid w
    = (Ok (snapshot_dict (effective (working w) (clock (ticks w)) o rid pid) r g), w')
    ∧ (committed w', working w', violated w') = (committed w, working w, violated w).
Proof.
  intros HT. unfold control_snapshot, effective.
  destruct (gateway_autonomy_emergency_stop settings); [by eexists _, _, _|].
  unfold utcnow, mbind, M_bind.
  destruct (scan_controls_run (clock (ticks w)) (control_scopes o rid pid) "enabled" None []
    (tick w) HT ltac:(set_solver)) as (r & g & ->).
  rewrite strongest_enabled. by eexists _, _, _.
Qed.

Lemma assert_enabled_allowed o rid pid policy w snap w' :
  control_table (working w) → keyed AutonomyPolicy (working w) →
  (_policy o pid w).1 = Ok policy → working w' = working w →
  (assert_enabled o rid policy w').1 = Ok snap →
  policies (working w) !! pid = Some policy ∧ allowed (working w) o rid pid.
Proof.
  intros HT HK Hp Ew. found Hp. pose proof (HK _ _ Hp) as E. simpl in E, Hp. subst pid.
  unfold assert_enabled, fail_if, mbind, M_bind.
  destruct (pol_status policy =/? "active") eqn:Hst; [done|]. step_of. simpl.
  rewrite <-Ew in HT.
  destruct (control_snapshot_run o (Some rid) (Some (pol_id policy)) w' HT)
    as (r & g & w2 & Hrun & _). rewrite Hrun. simpl.
  destruct (_ ==? "enabled") eqn:Hen; simpl; [intros _|done]. step_of. split; [done|].
  exists (ticks w'), policy. rewrite <-Ew at 2. by split_and!.
Qed.

Lemma run_ok {A} (m : M A) s x (G : A → Prop) :
  wp m (λ r _, ∀ x, r = Ok x → G x) (open_session s) → (run m s).1 = Ok x → G x.
Proof. unfold wp, run. destruct (m (open_session s)). simpl. auto. Qed.

(** Run a handler up to the check of the controls. *)
Ltac to_check :=
  repeat first
    [ match goal with H : (assert_enabled _ _ _ _).1 = Ok _ |- wp _ _ _ =>
        apply wp_any; intros ? ? ? _ end
    | progress (try (intros ? ?; discriminate))
    | wp_step
    | wp_keep (λ _ : db, True) ].
Ltac checked :=
  match goal with
  | H : (_policy ?o ?p ?w).1 = Ok ?x, H' : (assert_enabled ?o ?r ?x ?w').1 = Ok _,
    HT : control_table _, HK : keyed _ _ |- _ =>
      destruct (assert_enabled_allowed o r p x w _ w' HT HK H eq_refl H') as [? ?]
  end.

Section starts.
Context (s : store) (o : string).
Context (HT : control_table (st_db s)) (HK : keyed AutonomyPolicy (st_db s)).

Lemma issue_permit_allowed a rq ttl p :
  (run (issue_permit o a rq ttl) s).1 = Ok p →
  ∃ r, approvals (st_db s) !! rq = Some r
    ∧ allowed (st_db s) o (apr_room_id r) (apr_policy_id r).
Proof.
  apply (run_ok _ _ _ (λ _, _)). unfold issue_permit. to_check. checked.
  match goal with H : (_approval _ _).1 = Ok _ |- _ => apply get_require_ok in H end.
  match goal with H : (_expire_approval _ _).1 = Ok _ |- _ =>
    apply expire_approval_same in H as ->; [|by step_of; congruence] end. eauto.
Qed.

Lemma claim_permit_allowed pid x p :
  (run (claim_permit o pid x) s).1 = Ok p →
  ∃ q, permits (st_db s) !! pid = Some q
    ∧ (pmt_status q = "claimed" ∧ pmt_executor_agent_id q = x
       ∨ ∃ r, approvals (st_db s) !! pmt_approval_request_id q = Some r
          ∧ allowed (st_db s) o (apr_room_id r) (pmt_policy_id q)).
Proof.
  apply (run_ok _ _ _ (λ _, _)). unfold claim_permit. to_check.
  - intros x0 _. match goal with H : (_permit _ _ _).1 = Ok _ |- _ => found H end.
    apply andb_true_iff in Heqb as [E1%bool_decide_eq_true E2%bool_decide_eq_true].
    match goal with H : (_expire_permit _ _).1 = Ok _ |- _ =>
      apply expire_permit_same in H as ->; [|by rewrite E1] end. eauto.
  - checked. match goal with H : (_permit _ _ _).1 = Ok _ |- _ => found H end.
    match goal with H : (_expire_permit _ _).1 = Ok _ |- _ =>
      apply expire_permit_same in H as ->; [|by step_of; congruence] end.
    match goal with H : (_approval _ _).1 = Ok _ |- _ => apply get_require_ok in H end. eauto 10.
Qed.

Lemma create_approval_request_allowed a data r :
  (run (create_approval_request o a data) s).1 = Ok r →
  let pid := strip (str_or_empty (dict_get data "policy_id")) in
  ∃ p, policies (st_db s) !! pid = Some p ∧ allowed (st_db s) o (pol_room_id p) pid.
Proof.
  apply (run_ok _ _ _ (λ _, _)). unfold create_approval_request. to_check. checked.
  match goal with H : _required_text _ "policy_id" _ = Ok _ |- _ =>
    apply _required_text_ok in H as (-> & _) end. eauto.
Qed.

Lemma create_recovery_loop_allowed a data r :
  (run (create_recovery_loop o a data) s).1 = Ok r →
  let pid := strip (str_or_empty (dict_get data "policy_id")) in
  ∃ p, policies (st_db s) !! pid = Some p ∧ allowed (st_db s) o (pol_room_id p) pid.
Proof.
  apply (run_ok _ _ _ (λ _, _)). unfold create_recovery_loop. to_check. checked.
  match goal with H : _required_text _ "policy_id" _ = Ok _ |- _ =>
    apply _required_text_ok in H as (-> & _) end. step_of. subst. eauto.
Qed.

Lemma run_recovery_cycle_allowed pid a n x :
  (run (run_recovery_cycle o pid a n) s).1 = Ok x →
  ∃ p, policies (st_db s) !! pid = Some p ∧ allowed (st_db s) o (pol_room_id p) pid.
Proof. apply (run_ok _ _ _ (λ _, _)). unfold run_recovery_cycle. to_check. checked. eauto. Qed.

Lemma run_assignment_cycle_allowed pid a n x :
  (run (run_assignment_cycle o pid a n) s).1 = Ok x →
  ∃ p, policies (st_db s) !! pid = Some p ∧ allowed (st_db s) o (pol_room_id p) pid.
Proof. apply (run_ok _ _ _ (λ _, _)). unfold run_assignment_cycle. to_check. checked. eauto. Qed.
End starts.
End effective.

(** ** Theorems *)
Section theorems.
Context `{!Env}.

(** C36 Snapshots are exact: in every reachable store a control snapshot succeeds and
    writes nothing, and the state it reports is the strongest of the states of the
    global, tenant, room and policy controls at that moment (killed over paused over
    enabled, an expired control counting as enabled), or killed under the environment's
    emergency stop; it enables work exactly when that state is [enabled]. *)
Theorem control_snapshot_strongest s o rid pid :
  reachable s →
  let state := effective (st_db s) (clock (st_ticks s)) o rid pid in
  ∃ snap, (run (control_snapshot o rid pid) s).1 = Ok snap
    ∧ st_db (exec s (ControlSnapshot o rid pid)) = st_db s
    ∧ dict_get snap "effective_state" = PStr state
    ∧ dict_get snap "enabled" = PBool (state ==? "enabled").
Proof.
  intros Hs state. pose proof (reachable_control_table s Hs) as HT.
  destruct (control_snapshot_run o rid pid (open_session s) HT) as (r & g & w' & Hrun & [= Ec _ _]).
  eexists. split_and!; [unfold run; by rewrite Hrun| |done|done].
  unfold exec, run, handler, ignore, mbind, M_bind. by rewrite Hrun.
Qed.

End theorems.

Lemma control_snapshot_strongest_witness :
  ∃ snap, (run (control_snapshot owner (Some "id-0") (Some "id-8")) paused_store).1 = Ok snap
    ∧ dict_get snap "effective_state" = PStr "paused"
    ∧ dict_get snap "enabled" = PBool false.
Proof.
  destruct (control_snapshot_strongest paused_store owner (Some "id-0") (Some "id-8")
    paused_store_reachable) as (snap & Hrun & _ & Hs & He).
  exists snap. split; [exact Hrun|]. split; [exact Hs|exact He].
Defined.

