(* ===== verification/CanonicalJson.v ===== *)
(** * Canonical JSON and the digests over it

    The text that [_sha256] hashes determines the value it was written from, up to the
    order of dictionary keys and the spelling of times, so that a digest names one
    command and one payload. *)

From S2P Require Import Prelude PyStr PyVal Json Errors Models Database Session Autonomy.
From S2P Require Import Approvals Demo.
From Stdlib Require Import Ascii.

(** ** Sorting commutes with a map that keeps the order *)
Section sort_map.
Context {A B : Type} (leA : A → A → bool) (leB : B → B → bool) (f : A → B).
Context (Hle : ∀ x y, leB (f x) (f y) = leA x y).
#[local] Existing Instance by_leb_dec.

Lemma list_merge_map l k :
  list_merge (by_leb leB) (map f l) (map f k) = map f (list_merge (by_leb leA) l k).
Proof.
  revert k. induction l as [|x l IHl]; intros k; [by destruct k|].
  induction k as [|y k IHk]; [done|]. simpl.
  unfold decide_rel, by_leb_dec, by_leb. rewrite Hle.
  destruct (decide (leA x y = true)); simpl; f_equal; [apply (IHl (y :: k))|apply IHk].
Qed.

Lemma sort_by_map l : sort_by leB (map f l) = map f (sort_by leA l).
Proof.
  unfold sort_by, merge_sort.
  enough (∀ st, merge_sort_aux (by_leb leB) (map (option_map (map f)) st) (map f l)
    = map f (merge_sort_aux (by_leb leA) st l)) as Hst by apply (Hst []).
  assert (∀ st k, merge_list_to_stack (by_leb leB) (map (option_map (map f)) st) (map f k)
    = map (option_map (map f)) (merge_list_to_stack (by_leb leA) st k)) as Hpush.
  { induction st as [|[k'|] st IH]; intros k; simpl; [done| |done].
    rewrite list_merge_map. by rewrite IH. }
  induction l as [|x l IH]; intros st; simpl.
  - induction st as [|[k|] st IH]; simpl; [done| |done]. by rewrite IH, list_merge_map.
  - change [f x] with (map f [x]). rewrite Hpush. apply IH.
Qed.
End sort_map.

(** ** Strings *)
Lemma escaped_prefix l k s t :
  flat_map json_char l ++ quote :: s = flat_map json_char k ++ quote :: t → l = k ∧ s = t.
Proof.
  revert k. induction l as [|c l IH]; intros [|d k]; simpl; rewrite <-?app_assoc; intros E.
  - by injection E.
  - apply (f_equal scan_char) in E. by rewrite scan_char_text in E.
  - apply (f_equal scan_char) in E. by rewrite scan_char_text in E.
  - apply (f_equal scan_char) in E. rewrite !scan_char_text in E.
    injection E as -> E. by destruct (IH _ E) as [-> ->].
Qed.

(** ** Integers *)
Definition stops (l : list ascii) : Prop :=
  match l with c :: _ => is_digit c = false | [] => True end.

Lemma digits_prefix l k s t :
  digits l → digits k → stops s → stops t → l ++ s = k ++ t → l = k ∧ s = t.
Proof.
  intros Hl. revert k. induction Hl as [|c l Hc Hl IH]; intros k Hk Hs Ht E.
  - destruct Hk as [|d k Hd Hk]; simpl in *; [done|]. subst. simpl in Hs. congruence.
  - destruct Hk as [|d k Hd Hk]; simpl in *; [subst; simpl in Ht; congruence|].
    injection E as -> E. by destruct (IH k Hk Hs Ht E) as [-> ->].
Qed.

Lemma pretty_Z_prefix (y z : Z) s t :
  stops s → stops t → chars (pretty y) ++ s = chars (pretty z) ++ t → y = z ∧ s = t.
Proof.
  intros Hs Ht E.
  destruct (pretty_Z_text y) as (c & l & Ey & Hl & _).
  destruct (pretty_Z_text z) as (d & k & Ez & Hk & _).
  rewrite Ey, Ez in E. injection E as -> E.
  apply digits_prefix in E as [-> ->]; [|done..]. split; [|done].
  apply (inj pretty), chars_inj. by rewrite Ey, Ez.
Qed.

(** ** The JSON value a Python value stands for *)
Inductive json : Type :=
  | JNull
  | JBool (b : bool)
  | JInt (z : Z)
  | JString (s : string)
  | JArray (l : list json)
  | JObject (members : list (string * json)).

(** Times become strings and the members of an object are in the order of their keys. *)
Fixpoint json_of (v : pyval) : json :=
  match v with
  | PNone => JNull
  | PBool b => JBool b
  | PInt z => JInt z
  | PStr s => JString s
  | PTime t => JString (format_time " " t)
  | PList l => JArray (map json_of l)
  | PDict d => JObject (sort_by key_leb (map (λ kv, (kv.1, json_of kv.2)) d))
  end.

(** The reference printer. *)
Lemma string_text_prefix x y s t :
  string_text x ++ s = string_text y ++ t → x = y ∧ s = t.
Proof.
  unfold string_text. simpl. rewrite <-!app_assoc. intros [= E].
  apply escaped_prefix in E as [E ->]. split; [by apply chars_inj|done].
Qed.

#[local] Opaque string_text.

Fixpoint emit (v : json) : list ascii :=
  match v with
  | JNull => chars "null"
  | JBool b => chars (if b then "true" else "false")
  | JInt z => chars (pretty z)
  | JString s => string_text s
  | JArray l => chr 91 :: separated (map emit l) ++ [chr 93]
  | JObject d =>
      chr 123 :: separated (map (λ kv, string_text kv.1 ++ chr 58 :: emit kv.2) d) ++ [chr 125]
  end.

Section json_ind.
Context (P : json → Prop).
Context (HNull : P JNull) (HBool : ∀ b, P (JBool b)) (HInt : ∀ z, P (JInt z))
  (HString : ∀ s, P (JString s)) (HArray : ∀ l, Forall P l → P (JArray l))
  (HObject : ∀ d, Forall (λ kv, P kv.2) d → P (JObject d)).
Fixpoint json_nested_ind (v : json) : P v :=
  match v with
  | JNull => HNull | JBool b => HBool b | JInt z => HInt z | JString s => HString s
  | JArray l => HArray l
      ((fix go l : Forall P l :=
          match l with
          | [] => Forall_nil_2 P
          | v :: l => Forall_cons_2 P v l (json_nested_ind v) (go l)
          end) l)
  | JObject d => HObject d
      ((fix go d : Forall (λ kv, P kv.2) d :=
          match d with
          | [] => Forall_nil_2 _
          | kv :: d => Forall_cons_2 (λ kv, P kv.2) kv d (json_nested_ind kv.2) (go d)
          end) d)
  end.
End json_ind.

(** ** The printer is injective

    A text followed by something that does not continue a number determines the
    value it was written from and where it ends. *)
Definition self_delimiting {A} (text : A → list ascii) (x : A) : Prop :=
  ∀ y s t, stops s → stops t → text x ++ s = text y ++ t → x = y ∧ s = t.

Section separated.
Context {A : Type} (text : A → list ascii) (close : ascii).
Context (Hclose : is_digit close = false) (Hcomma : close ≠ comma).
Context (Hhead : ∀ x, ∃ c r, text x = c :: r ∧ c ≠ close).

Lemma separated_head x l r : ∃ c k, separated (map text (x :: l)) ++ r = c :: k ∧ c ≠ close.
Proof.
  destruct (Hhead x) as (c & k & E & Hc). exists c.
  destruct l; simpl; rewrite E; simpl; eauto.
Qed.

Lemma separated_prefix l k s t :
  Forall (self_delimiting text) l →
  separated (map text l) ++ close :: s = separated (map text k) ++ close :: t →
  l = k ∧ s = t.
Proof.
  intros Hl. revert k. induction Hl as [|x l Hx Hl IH]; intros [|y k] E.
  - by injection E.
  - destruct (separated_head y k (close :: t)) as (c & r & E' & Hc).
    rewrite E' in E. simpl in E. congruence.
  - destruct (separated_head x l (close :: s)) as (c & r & E' & Hc).
    rewrite E' in E. simpl in E. congruence.
  - assert (∀ l u, stops (match l with [] => close :: u
      | _ => comma :: separated (map text l) ++ close :: u end)) as Hs by by intros [|].
    assert (∀ z l u, separated (map text (z :: l)) ++ close :: u = text z ++
      match l with [] => close :: u | _ => comma :: separated (map text l) ++ close :: u end)
      as Hz by (intros z [|z' l'] u; simpl; by rewrite <-?app_assoc).
    rewrite !Hz in E. apply Hx in E as [-> E]; [|apply Hs..].
    destruct l as [|x' l], k as [|y' k]; injection E; [by intros ->|congruence..|].
    intros E'%(IH (_ :: _)). by destruct E' as [-> ->].
Qed.
End separated.

(** The first character tells the constructor. *)
Definition leads (v : json) (c : ascii) : bool :=
  match v with
  | JNull => bool_decide (c = "n"%char)
  | JBool b => bool_decide (c = if b then "t"%char else "f"%char)
  | JInt _ => is_digit c || bool_decide (c = "-"%char)
  | JString _ => bool_decide (c = quote)
  | JArray _ => bool_decide (c = chr 91)
  | JObject _ => bool_decide (c = chr 123)
  end.

Lemma emit_leads v : ∃ c l, emit v = c :: l ∧ leads v c = true.
Proof.
  destruct v as [|[]|z|s|l|d]; simpl; eauto.
  - destruct (pretty_Z_text z) as (c & l & E & _ & [Hc|[-> _]]);
      (eexists _, _; split; [exact E|]); by rewrite ?Hc.
  - destruct (string_text_head s) as [l ->]. eauto.
Qed.

Lemma leads_apart c v : leads v c = true → c ≠ chr 93 ∧ c ≠ chr 125.
Proof. intros Hc. split; intros ->; by destruct v as [|[]|z|s|l|d]. Qed.

Lemma emit_head v : ∃ c l, emit v = c :: l ∧ c ≠ chr 93 ∧ c ≠ chr 125.
Proof. destruct (emit_leads v) as (c & l & E & Hc). eauto using leads_apart. Qed.

Lemma leads_constructor c v w :
  leads v c = true → leads w c = true →
  match v, w with
  | JNull, JNull | JInt _, JInt _ | JString _, JString _ | JArray _, JArray _
  | JObject _, JObject _ => True
  | JBool b, JBool b' => b = b'
  | _, _ => False
  end.
Proof.
  destruct v as [|[]|z|s|l|d], w as [|[]|z'|s'|l'|d']; simpl; try done;
    rewrite ?orb_true_iff, ?bool_decide_eq_true; intros; destruct_or?; subst; done.
Qed.

Lemma emit_prefix v : self_delimiting emit v.
Proof.
  induction v as [| | | |l IH|d IH] using json_nested_ind; intros w u t Hs Ht E;
    destruct (emit_leads w) as (c & r & Ew & Hc);
    match type of E with emit ?v ++ _ = _ => destruct (emit_leads v) as (c' & r' & Ev & Hc') end;
    assert (c' = c) as -> by (rewrite Ev, Ew in E; by injection E);
    pose proof (leads_constructor _ _ _ Hc' Hc) as Hk; destruct w as [|b'| | |k|e];
    try done; clear Hc Hc' Ev Ew;
    simpl in Hk; cbn [emit app] in E; rewrite <-?app_assoc in E; cbn [app] in E.
  - by injection E.
  - subst. by apply app_inv_head in E.
  - apply pretty_Z_prefix in E as [-> ->]; done.
  - apply string_text_prefix in E as [-> ->]. done.
  - injection E as E. apply separated_prefix in E as [-> ->]; try done.
    intros x. destruct (emit_head x) as (? & ? & ? & ? & ?). eauto.
  - injection E as E. apply separated_prefix in E as [-> ->]; try done.
    + intros x. destruct (string_text_head x.1) as [l ->]. by eexists _, _.
    + eapply Forall_impl; [exact IH|]. intros [x v] Hv [y w] u' t' Hu' Ht' E'. cbn [fst snd] in *.
      rewrite <-!app_assoc in E'. apply string_text_prefix in E' as [-> E'].
      injection E' as E'. apply Hv in E' as [-> ->]; done.
Qed.

Lemma emit_inj v w : emit v = emit w → v = w.
Proof. intros E. by apply (emit_prefix v w [] []); rewrite ?app_nil_r. Qed.

(** ** [_canonical_json] and [_sha256] *)
Lemma join_chars l : chars (join "," l) = separated (map chars l).
Proof.
  induction l as [|x [|y l] IH]; [done..|]. cbn [join map separated] in *.
  rewrite !chars_app, IH. done.
Qed.

Lemma json_dumps_emit v : chars (json_dumps v) = emit (json_of v).
Proof.
  induction v as [| | | | |l IH|d IH] using pyval_nested_ind; try done.
  - apply json_string_text.
  - apply json_string_text.
  - cbn [json_dumps json_of emit]. rewrite !chars_app, join_chars, map_map.
    do 2 f_equal. rewrite map_map. f_equal. apply map_ext_Forall, IH.
  - cbn [json_dumps json_of emit]. rewrite !chars_app, join_chars.
    rewrite (sort_by_map key_leb key_leb (λ kv, (kv.1, json_dumps kv.2)) (λ x y, eq_refl)).
    rewrite (sort_by_map key_leb key_leb (λ kv, (kv.1, json_of kv.2)) (λ x y, eq_refl)).
    rewrite !map_map.
    do 3 f_equal. apply map_ext_Forall. rewrite sort_by_perm.
    eapply Forall_impl; [exact IH|]. intros [k v] Hv. cbn [fst snd] in *.
    by rewrite !chars_app, json_string_text, Hv.
Qed.

Lemma canonical_json_json v w : _canonical_json v = _canonical_json w → json_of v = json_of w.
Proof.
  intros E%utf8_encode_inj%(f_equal chars). rewrite !json_dumps_emit in E.
  by apply emit_inj.
Qed.

(** The canonical text is the text of the JSON value that the Python value
    stands for: two values have the same canonical text exactly when they stand
    for the same JSON value. *)
Theorem canonical_json_binds v w :
  _canonical_json v = _canonical_json w ↔ json_of v = json_of w.
Proof.
  split.
  - apply canonical_json_json.
  - intros E. unfold _canonical_json. f_equal. apply chars_inj. by rewrite !json_dumps_emit, E.
Qed.

(** ** The digest of a command *)
Section digest.
Context `{!Env}.

(** SHA-256 tells the two texts apart when they differ. *)
Definition no_collision (v w : pyval) : Prop :=
  _sha256 v = _sha256 w → _canonical_json v = _canonical_json w.

(** What an approval signs. *)
Definition signed_command (c : AgentCommand) : list string * (json * json) :=
  ([cmd_id c; cmd_room_id c; cmd_issuer_agent_id c; cmd_target_agent_id c; cmd_kind c;
    cmd_instruction c],
   (json_of (PDict (cmd_structured_payload c)), json_of (PDict (cmd_constraints c)))).

Lemma envelope_json c :
  json_of (PDict (_command_envelope c)) = JObject [
    ("command_id", JString (cmd_id c));
    ("constraints", json_of (PDict (cmd_constraints c)));
    ("instruction", JString (cmd_instruction c));
    ("issuer_agent_id", JString (cmd_issuer_agent_id c));
    ("kind", JString (cmd_kind c));
    ("room_id", JString (cmd_room_id c));
    ("structured_payload", json_of (PDict (cmd_structured_payload c)));
    ("target_agent_id", JString (cmd_target_agent_id c))].
Proof. reflexivity. Qed.

(** Two commands with the same envelope digest are the same order: the same
    id, room, issuer, target, kind and instruction, and the same payload and
    constraints up to the order of their keys, unless SHA-256 collides on them. *)
Theorem digest_identifies_command (c c' : AgentCommand) :
  no_collision (PDict (_command_envelope c)) (PDict (_command_envelope c')) →
  _sha256 (PDict (_command_envelope c)) = _sha256 (PDict (_command_envelope c')) →
  signed_command c = signed_command c'.
Proof.
  intros Hn E%Hn%canonical_json_json. rewrite !envelope_json in E.
  injection E as E1 E2 E3 E4 E5 E6 E7 E8. unfold signed_command. simpl. congruence.
Qed.
End digest.

(** Two spellings of one payload. *)
Definition order_with (payload : pydict) : AgentCommand :=
  mkAgentCommand "c" "alice" "r" "i" "t" "run_tool" "go" payload [] 1 "queued" true None None
    None None 0 None None None None None [] None 0 0.

Lemma digest_identifies_command_witness :
  let c := order_with [("tool", PStr "ls"); ("at", PTime 0)] in
  let c' := order_with [("at", PStr "1970-01-01 00:00:00+00:00"); ("tool", PStr "ls")] in
  _sha256 (PDict (_command_envelope c)) = _sha256 (PDict (_command_envelope c'))
  ∧ signed_command c = signed_command c'.
Proof.
  intros c c'.
  assert (_sha256 (PDict (_command_envelope c)) = _sha256 (PDict (_command_envelope c')))
    as E by (vm_compute; reflexivity).
  split; [exact E|]. apply (digest_identifies_command c c'); [|exact E].
  intros E'. exact E'.
Defined.
