(* ===== verification/Freshness.v ===== *)
(** * Identifiers are drawn once

    No handler puts back an identifier it has drawn: the counter of [uuid4] only
    grows.  Together with an injective source this makes every lock token and every
    attempt id new. *)

From S2P Require Import Prelude PyStr PyVal PyFloat Errors Models Database Session.
From S2P Require Import Preserve Rows Collaboration Coordination Autonomy Controls.
From S2P Require Import Assignments Approvals Permits Recovery ChatContext McpChatContext.
From S2P Require Import Outbox Realtime.
From S2P Require Import FederationPolicy Federation Auth OAuth Footprint System.

Definition mono {A} (m : M A) : Prop := ∀ w, (draws w ≤ draws (m w).2)%nat.

(** ** Rules *)
Lemma mono_bind {A B} (m : M A) (f : A → M B) : mono m → (∀ a, mono (f a)) → mono (m ≫= f).
Proof.
  intros Hm Hf w. specialize (Hm w). unfold mbind, M_bind.
  destruct (m w) as [[a|e] w']; [|done]. specialize (Hf a w'). simpl in *. lia.
Qed.
Lemma mono_stateless {A} (m : M A) : stateless m → mono m.
Proof. intros Hm w. by rewrite Hm. Qed.
Lemma mono_same {A} (m : M A) : (∀ w, draws (m w).2 = draws w) → mono m.
Proof. intros Hm w. by rewrite Hm. Qed.
Lemma mono_uuid4 `{!Env} : mono uuid4.
Proof. intros w. simpl. lia. Qed.
Lemma mono_add {R} `{!Table R} (r : R) : mono (add r).
Proof. apply mono_same. intros w. unfold add. by destruct (insertable _ _). Qed.
Lemma mono_flush : mono flush.
Proof. apply mono_same. intros w. unfold flush. by destruct (violated w). Qed.
Lemma mono_commit : mono commit.
Proof. apply mono_bind; [apply mono_flush|]. by intros _ w. Qed.
Lemma mono_update_row {R} `{!Table R} id p (f : R → R) : mono (update_row id p f).
Proof. apply mono_bind; [by intros w|]. intros [r|]; [|by intros w]. by intros w. Qed.
Lemma mono_foreach {A} (f : A → M unit) l : (∀ a, mono (f a)) → mono (foreach f l).
Proof. intros Hf. induction l; [by intros w|]. by apply mono_bind. Qed.
Lemma mono_traverse {A B} (f : A → M B) l : (∀ a, mono (f a)) → mono (traverse f l).
Proof.
  intros Hf. induction l; [by intros w|]. apply mono_bind; [done|]. intros.
  apply mono_bind; [done|]. by intros ? w.
Qed.
Lemma mono_emit_event `{!Env} et a ac rt rid p o st b :
  mono (emit_event et a ac rt rid p o st false b).
Proof.
  apply mono_bind; [by intros w|intros now]. apply mono_bind; [apply mono_uuid4|intros id].
  apply mono_bind; [apply mono_add|intros _]. apply mono_bind.
  - case_match; [|by intros w]. apply mono_bind; [apply mono_uuid4|]. intros. apply mono_add.
  - intros _. apply mono_bind; [apply mono_flush|by intros _ w].
Qed.
Lemma mono_emit `{!Env} et a ac rt rid st p : mono (emit et a ac rt rid st p).
Proof. apply mono_bind; [apply mono_emit_event|by intros ? w]. Qed.
Lemma mono_try_integrity {A} (m h : M A) : mono m → mono h → mono (try_integrity m h).
Proof.
  intros Hm Hh w. specialize (Hm w). unfold try_integrity.
  destruct (m w) as [[a|[]] w']; try done. specialize (Hh w'). simpl in *. lia.
Qed.
Lemma mono_create_or_existing {A} events (a : A) existing detail :
  mono events → mono existing → mono (create_or_existing events a existing detail).
Proof.
  intros He Hx. apply mono_try_integrity.
  - apply mono_bind; [done|]. intros _. apply mono_bind; [apply mono_commit|by intros _ w].
  - apply mono_bind; [by intros w|]. intros _. apply mono_bind; [done|].
    intros [b|]; by intros w.
Qed.

Lemma mono_encrypt_text `{!Env} v : mono (encrypt_text v).
Proof. intros w. simpl. lia. Qed.
Lemma mono_check_row b : mono (check_row b).
Proof. apply mono_same. intros w. by destruct b. Qed.
Lemma mono_code_factory `{!Env} : mono code_factory.
Proof. intros w. simpl. lia. Qed.
Lemma mono_token_urlsafe `{!Env} : mono token_urlsafe.
Proof. intros w. simpl. lia. Qed.
Lemma mono_token_hex `{!Env} : mono token_hex.
Proof. intros w. simpl. lia. Qed.
Lemma mono_try_any {A} (m h : M A) : mono m → mono h → mono (try_any m h).
Proof.
  intros Hm Hh w. specialize (Hm w). unfold try_any. destruct (m w) as [[a|e] w']; [done|].
  specialize (Hh w'). simpl in *. lia.
Qed.
Lemma mono_map_error {A} f (m : M A) : mono m → mono (map_error f m).
Proof. intros Hm w. specialize (Hm w). unfold map_error. by destruct (m w) as [[a|e] w']. Qed.
Lemma mono_emit_commit `{!Env} et a ac rt rid p o st b :
  mono (emit_event et a ac rt rid p o st true b).
Proof.
  intros w. rewrite emit_event_commit. revert w. apply mono_bind; [apply mono_emit_event|].
  intros. apply mono_bind; [apply mono_commit|by intros _ w].
Qed.
Lemma mono_modify {R} `{!Table R} (r : R) : mono (modify r).
Proof. apply mono_same. intros w. unfold modify. by destruct (updatable _ _). Qed.
Lemma mono_savepoint {A} (m h : M A) : mono m → mono h → mono (savepoint m h).
Proof.
  intros Hm Hh w. unfold savepoint. destruct (violated w).
  { specialize (Hh (restore w)). simpl in *. lia. }
  assert (mono (a ← m; flush;; mret a)) as Hb.
  { apply mono_bind; [done|]. intros. apply mono_bind; [apply mono_flush|by intros _ ?]. }
  specialize (Hb w). destruct ((a ← m; flush;; mret a) w) as [[a|e] w']; [done|].
  destruct e; try done. etrans; [exact Hb|]. apply (Hh (mkWorld _ _ _ _ _)).
Qed.
Lemma mono_committing `{!Env} {A} (m : M A) : mono m → mono (committing m).
Proof.
  intros Hm w. unfold committing. assert (mono (a ← m; commit;; mret a)) as Hb.
  { apply mono_bind; [done|]. intros. apply mono_bind; [apply mono_commit|by intros _ ?]. }
  specialize (Hb w). by destruct ((a ← m; commit;; mret a) w) as [[a|[]] w'].
Qed.
Lemma mono_except_chat {A} (m : M A) handlers :
  mono m → (∀ k h, handlers k = Some h → mono h) → mono (except_chat m handlers).
Proof.
  intros Hm Hh w. specialize (Hm w). unfold except_chat.
  destruct (m w) as [[a|[]] w']; try done. destruct (handlers kind) as [h|] eqn:E; [|done].
  etrans; [exact Hm|]. by apply (Hh _ _ E).
Qed.

(** ** Automation *)
Create HintDb mono_db.
Ltac mono_step :=
  cbv beta iota zeta;
  lazymatch goal with
  | |- mono ?m =>
      lazymatch m with
      | mbind _ _ => apply mono_bind; [|intros ?]
      | mret _ => apply mono_same; intros ?; reflexivity
      | throw _ => apply mono_same; intros ?; reflexivity
      | fail _ _ => apply mono_same; intros ?; reflexivity
      | fail_if ?c _ _ => destruct c; apply mono_same; intros ?; reflexivity
      | lift _ => apply mono_same; intros ?; reflexivity
      | policy_400 ?r => destruct r as [|[]]; apply mono_same; intros ?; reflexivity
      | policy_error ?r => destruct r as [|[]]; apply mono_same; intros ?; reflexivity
      | require ?o _ _ => destruct o; apply mono_same; intros ?; reflexivity
      | one_or_none ?l => destruct l as [|? [|]]; apply mono_same; intros ?; reflexivity
      | reads _ => apply mono_same; intros ?; reflexivity
      | query _ => apply mono_same; intros ?; reflexivity
      | get_row _ => apply mono_same; intros ?; reflexivity
      | find_row _ _ => apply mono_same; intros ?; reflexivity
      | query_one _ => apply mono_stateless, stateless_query_one
      | find_by_key _ _ _ _ => apply mono_stateless, stateless_find_by_key
      | utcnow => apply mono_same; intros ?; reflexivity
      | uuid4 => apply mono_uuid4
      | code_factory => apply mono_code_factory
      | token_urlsafe => apply mono_token_urlsafe
      | token_hex => apply mono_token_hex
      | erase _ => apply mono_same; intros ?; reflexivity
      | try_any _ _ => apply mono_try_any
      | map_error _ _ => apply mono_map_error
      | emit_event _ _ _ _ _ _ _ _ true _ => apply mono_emit_commit
      | scalar _ => apply mono_same; intros ?; reflexivity
      | current_state _ => apply mono_same; intros ?; reflexivity
      | modify _ => apply mono_modify
      | savepoint _ _ => apply mono_savepoint
      | committing _ => apply mono_committing
      | except_chat _ _ => apply mono_except_chat;
          [|let k := fresh in intros k ?; destruct k; intros [= <-]]
      | put _ => apply mono_same; intros ?; reflexivity
      | rollback => apply mono_same; intros ?; reflexivity
      | commit => apply mono_commit
      | add _ => apply mono_add
      | update_row _ _ _ => apply mono_update_row
      | flush => apply mono_flush
      | emit _ _ _ _ _ _ _ => apply mono_emit
      | encrypt_text _ => apply mono_encrypt_text
      | check_row _ => apply mono_check_row
      | emit_event _ _ _ _ _ _ _ _ false _ => apply mono_emit_event
      | foreach _ _ => apply mono_foreach; intros ?
      | traverse _ _ => apply mono_traverse; intros ?
      | try_integrity _ _ => apply mono_try_integrity
      | create_or_existing _ _ _ _ => apply mono_create_or_existing
      | if ?c then _ else _ => destruct c
      | match ?x with _ => _ end => destruct x
      | _ => first [solve [auto with mono_db]
                   | let h := pres_head m in progress unfold h]
      end
  end.
Ltac mono_go := repeat mono_step.

Section handlers.
Context `{!Env}.

Lemma scan_controls_mono now scopes e r g : mono (scan_controls now scopes e r g).
Proof. apply mono_stateless, scan_controls_stateless. Qed.
Lemma stop_owners_mono st rs r p owners a b : mono (stop_owners st rs r p owners a b).
Proof. revert a b. induction owners as [|o owners IH]; intros; simpl; mono_go; apply IH. Qed.
Hint Resolve scan_controls_mono stop_owners_mono : mono_db.

Lemma assignment_loop_mono o p s b items c1 c2 c3 c4 :
  mono (assignment_loop o p s b items c1 c2 c3 c4).
Proof. revert c1 c2 c3 c4. induction items as [|i items IH]; intros; simpl; mono_go; apply IH. Qed.
Hint Resolve assignment_loop_mono : mono_db.

Lemma recovery_loop_mono o a p c now loops x y : mono (recovery_loop o a p c now loops x y).
Proof. revert x y. induction loops as [|l loops IH]; intros; simpl; mono_go; apply IH. Qed.
Hint Resolve recovery_loop_mono : mono_db.

Lemma allocation_loop_mono n c k r now : mono (allocation_loop n c k r now).
Proof. revert r. induction n as [|n IH]; intros r; simpl; mono_go; apply IH. Qed.
Hint Resolve allocation_loop_mono : mono_db.

Lemma store_entries_mono o a s p g l ids n : mono (store_entries o a s p g l ids n).
Proof. revert ids n. induction l as [|e l IH]; intros; simpl; mono_go; apply IH. Qed.
Hint Resolve store_entries_mono : mono_db.

Lemma signed_in_mono c : mono (signed_in c).
Proof.
  intros w. assert (mono (get_current_user c)) as Hm by mono_go. specialize (Hm w).
  unfold signed_in. by repeat case_match.
Qed.
Hint Resolve signed_in_mono : mono_db.

Lemma handler_mono o : mono (handler o).
Proof. destruct o; simpl; mono_go. Qed.
End handlers.
