(* ===== verification/Publishing.v ===== *)
(** * Delivery in several sessions ([outbox.py], [realtime.py])

    The two activities that split their work into sessions of their own: a publisher's
    batch and a replica's handling of a broker event. *)

From S2P Require Import Prelude PyStr PyVal Json Errors Models Database Session Outbox.
From S2P Require Import Broker Realtime System.

(** * Publishing a batch ([OutboxService.run_once])

    A batch is claimed in one session; every event of it is then published through the
    broker and settled in a session of its own, so other replicas and operators run in
    between.  The broker is any instance of [EventBroker]. *)

Record OutboxRunResult := mkRunResult {
  r_claimed : Z;
  r_published : Z;
  r_retried : Z;
  r_dead_lettered : Z;
}.
#[export] Instance eta_OutboxRunResult : Settable OutboxRunResult := λ r, mkRunResult
  (r_claimed r) (r_published r) (r_retried r) (r_dead_lettered r).

(** The message of an event: its payload on the wire, its headers as strings, and the
    id of the delivery. *)
Definition event_message (row : OutboxEvent) : message :=
  let headers := map (λ h, (h.1, PStr (py_str h.2))) (ob_headers row) in
  let delivery_id := py_str (py_or (dict_get headers "Nats-Msg-Id")
                                   (PStr (ob_audit_event_id row))) in
  {|
    m_subject := ob_subject row;
    m_payload := wire_bytes (PDict (ob_payload row));
    m_message_id := delivery_id;
    m_headers := map (λ h, (h.1, py_str h.2))
                     (dict_set "Nats-Msg-Id" (PStr delivery_id) headers);
  |}.

(** [str(row.lock_token or "")] *)
Definition row_token (row : OutboxEvent) : string := default "" (ob_lock_token row).

Section publishing.
Context `{!Env} {B : Type} `{!EventBroker B}.

(** [str(exc)] and the class name of an exception that a session raised. *)
Context (describe : exn → error_info).
Context (self : OutboxService).

(** [except Exception as exc]: settle the claim as failed. *)
Definition publish_failed (row : OutboxEvent) (error : error_info) (r : OutboxRunResult)
    (s : store) : result OutboxRunResult * store :=
  let '(answer, s) := run (_record_failure self (ob_id row) (row_token row) error) s in
  (match answer with
   | Raise e => Raise e
   | Ok status =>
       Ok (if status ==? "dead_letter" then r <| r_dead_lettered ::= Z.succ |>
           else if status ==? "retry" then r <| r_retried ::= Z.succ |>
           else r)
   end, s).

Definition publish_row (row : OutboxEvent) (r : OutboxRunResult) (b : B) (s : store)
    : (result OutboxRunResult * store) * B :=
  match publish b (event_message row) with
  | (inl error, b) => (publish_failed row error r s, b)
  | (inr ack, b) =>
      let '(answer, s) := run (_record_success self (ob_id row) (row_token row) ack) s in
      (match answer with
       | Ok accepted => (Ok (if accepted : bool then r <| r_published ::= Z.succ |> else r), s)
       | Raise e => publish_failed row (describe e) r s
       end, b)
  end.

(** The loop over the claimed rows. *)
Fixpoint publish_rows (rows : list OutboxEvent) (r : OutboxRunResult) (b : B) (s : store)
    : (result OutboxRunResult * store) * B :=
  match rows with
  | [] => ((Ok r, s), b)
  | row :: rows =>
      match publish_row row r b s with
      | ((Ok r, s), b) => publish_rows rows r b s
      | stopped => stopped
      end
  end.

Definition run_once (limit : option Z) (b : B) (s : store)
    : (result OutboxRunResult * store) * B :=
  match run (claim_batch self limit) s with
  | (Ok rows, s) => publish_rows rows (mkRunResult (Z.of_nat (length rows)) 0 0 0) b s
  | (Raise e, s) => ((Raise e, s), b)
  end.
End publishing.

(** * A broker event on a replica ([RealtimeService._on_broker_event])

    The callback that a replica subscribes with reads the message, stores one
    notification per addressed agent in a session of its own, sends them to the
    connections of its hub and records in a last session which were delivered. *)

(** A notification goes to the connections of its target. *)
Definition send_notification (works : string → bool) (hub : LocalRealtimeHub)
    (notification : RealtimeNotification) : (string * bool) * LocalRealtimeHub :=
  let '(delivered, hub) := send works
    (rn_owner_subject notification, rn_target_kind notification, rn_target_id notification) hub in
  ((rn_id notification, negb (delivered =? 0)), hub).

Fixpoint send_notifications (works : string → bool) (hub : LocalRealtimeHub)
    (notifications : list RealtimeNotification) : list (string * bool) * LocalRealtimeHub :=
  match notifications with
  | [] => ([], hub)
  | notification :: notifications =>
      let '(delivered, hub) := send_notification works hub notification in
      let '(results, hub) := send_notifications works hub notifications in
      (delivered :: results, hub)
  end.

(** The event in a message.  [Ok None]: the message is ignored; a JSON value that is
    no object has no [get]. *)
Definition received_event (replica_id : string) (m : message) : result (option broker_event) :=
  match wire_value (m_payload m) with
  | None => Ok None
  | Some (PDict wire_payload) => event_envelope replica_id wire_payload (m_headers m)
  | Some _ => Raise TypeError
  end.

Section notifying.
Context `{!Env}.

Definition _on_broker_event (replica_id : string) (works : string → bool) (m : message)
    (hub : LocalRealtimeHub) (s : store) : result unit * (LocalRealtimeHub * store) :=
  match received_event replica_id m with
  | Raise e => (Raise e, (hub, s))
  | Ok None => (Ok tt, (hub, s))
  | Ok (Some event) =>
      match run (_persist_broker_event replica_id (m_subject m) (m_payload m) event) s with
      | (Raise e, s) => (Raise e, (hub, s))
      | (Ok notifications, s) =>
          let '(delivery_results, hub) := send_notifications works hub notifications in
          if nonempty delivery_results then
            let '(answer, s) := run (_record_delivery_results delivery_results) s in
            (answer, (hub, s))
          else (Ok tt, (hub, s))
      end
  end.
End notifying.
