(* ===== verification/DeliveryDemo.v ===== *)
(** * A run of the outbox

    An environment as in the control plane's demonstration, with the outbox enabled,
    and two replicas that publish the event of a new room.  The witnesses of the
    theorems on delivery are stated on these states. *)

From S2P Require Import Prelude PyStr PyVal PyFloat Errors Models Database Session.
From S2P Require Import Collaboration Outbox Footprint System.

#[export] Instance delivery_env : Env := {|
  clock n := (1700000000 + Z.of_nat n) * 1000000;
  uuid_source n := "id-" +:+ pretty (Z.of_nat n);
  code_source n := "A" +:+ pad 3 (Z.of_nat n);
  sha256_hexdigest s := s;
  hmac_sha256 key message := key +:+ message;
  fernet_encrypt n v := v;
  fernet_decrypt v := Some v;
  schema_violation schema v := None;
  nfkc s := s;
  ip_literal s := false;
  urlsafe_source n := "token-" +:+ pretty (Z.of_nat n);
  hex_source n := "C0DE0" +:+ pretty (Z.of_nat n);
  uuid5 namespace name := namespace +:+ name;
  jwt_encode claims := json_dumps (PDict claims);
  jwt_decode now token := None;
  settings := {|
    gateway_autonomy_enabled := true;
    gateway_autonomy_emergency_stop := false;
    gateway_autonomy_assignment_batch_size := 10;
    gateway_autonomy_approval_ttl_seconds := 3600;
    gateway_autonomy_permit_ttl_seconds := 600;
    gateway_outbox_enabled := true;
    gateway_outbox_max_attempts := 2;
    gateway_nats_subject_prefix := "gateway";
    gateway_outbox_batch_size := 100;
    gateway_outbox_retry_base_seconds := float_scale 1 0;
    gateway_outbox_retry_max_seconds := float_scale 300 0;
    gateway_outbox_lock_ttl_seconds := 1;
    gateway_broker_backend := "memory";
    gateway_replica_ttl_seconds := 30;
    gateway_realtime_route_ttl_seconds := 90;
    gateway_realtime_notification_ttl_seconds := 86400;
    gateway_nats_stream := "GATEWAY";
    gateway_chat_context_enabled := true;
    gateway_chat_context_ttl_seconds := 300;
    gateway_chat_context_renew_threshold_seconds := 100;
    gateway_chat_context_quarantine_seconds := 600;
    gateway_chat_context_allocation_attempts := 64;
    gateway_chat_context_hmac_key := "0123456789abcdef0123456789abcdef";
    gateway_chat_context_hmac_key_version := 1;
    gateway_affine_approval_server_endpoint := "http://affine:3010/mcp";
    gateway_affine_approval_preview_max_chars := 1200;
    gateway_affine_approval_preview_max_items := 20;
    gateway_mcp_federation_writes_paused := false;
    public_base_url := "http://localhost:8000";
    gateway_dev_auth := false;
    gateway_dev_subject := "dev:local";
    gateway_dev_username := "local";
    gateway_dev_email := None;
    gateway_dev_roles := "gateway-user";
    gateway_session_cookie := "gateway_session";
    keycloak_issuer := "http://localhost:8080/realms/chatgpt-mcp";
    keycloak_client_id := "chatgpt-mcp-gateway";
    gateway_access_token_ttl_seconds := 864000;
    gateway_auth_code_ttl_seconds := 600;
    oauth_audience := "chatgpt-mcp-ssh-gateway";
    oauth_supported_scopes := "workspace:read chat-context:write";
    gateway_browser_extension_client_id := "atlas-chatgpt-browser-extension";
    gateway_browser_extension_redirect_uri := "https://extension.example/oauth2";
    gateway_browser_extension_oauth_scopes := "workspace:read chat-context:write";
    gateway_browser_extension_access_token_ttl_seconds := 3600;
    gateway_device_code_ttl_seconds := 600;
    gateway_thin_client_token_ttl_seconds := 2592000;
  |};
|}.

Definition alice : string := "alice".
Definition start : store := mkStore empty_db 0 0.
Definition replica_a : OutboxService := mkOutboxService "a" "host-a" 1.
Definition replica_b : OutboxService := mkOutboxService "b" "host-b" 2.
Definition timeout_error : error_info := mkError "" "TimeoutError".

(** A room (id-0) is created; its event (id-2, audit id-1) is pending. *)
Definition enqueued_store : store := exec start (CreateRoom alice [("title", PStr "demo")]).

(** Replica a claims the event (token id-3) and stalls. *)
Definition stalled_store : store := exec enqueued_store (ClaimBatch replica_a None).

(** The claim is released and replica b claims the event (token id-4). *)
Definition taken_over : list op := [OutboxTotals; ClaimBatch replica_b None].
Definition taken_store : store := exec_all stalled_store taken_over.

Lemma enqueued_store_reachable : reachable enqueued_store.
Proof. apply reachable_step. constructor. Qed.
Lemma stalled_store_reachable : reachable stalled_store.
Proof. exact (reachable_step _ _ enqueued_store_reachable). Qed.
Lemma taken_store_reachable : reachable taken_store.
Proof. exact (reachable_exec_all _ _ stalled_store_reachable). Qed.

Definition event_view (e : OutboxEvent) :=
  (ob_id e, ob_status e, ob_attempt_count e, ob_locked_by e, ob_lock_token e).

Example stalled_store_event :
  event_view <$> rows (st_db stalled_store) = [("id-2", "processing", 0, Some "a", Some "id-3")].
Proof. vm_compute. reflexivity. Qed.
Example taken_store_event :
  event_view <$> rows (st_db taken_store) = [("id-2", "processing", 0, Some "b", Some "id-4")].
Proof. vm_compute. reflexivity. Qed.
