(* ===== verification/OutboxProofs.v ===== *)
(** * Outbox events

    How the operations change an event of the outbox, and the consistency and the life
    cycle that follow. *)

From S2P Require Import Prelude PyStr PyVal PyFloat Errors Models Database Session.
From S2P Require Import Preserve Rows Outbox Footprint System Evolution Freshness.
From S2P Require Import DeliveryDemo.

(** * How the handlers write outbox events

    Besides the claims, an event is only written where a handler has just found it.  A
    preorder that contains every such write relates the events of a store to those of
    any later one. *)

(** How [emit_event] enqueues an event. *)
Definition lock_free (e : OutboxEvent) : Prop :=
  ob_locked_by e = None ∧ ob_lock_token e = None ∧ ob_locked_at e = None.

(** The headers name the type and the subjects of the event. *)
Definition addressed (e : OutboxEvent) : Prop :=
  dict_get (ob_headers e) "X-Gateway-Event-Type" = PStr (ob_event_type e)
  ∧ dict_get (ob_headers e) "X-Gateway-Owner-Subject" = PStr (ob_owner_subject e)
  ∧ ∃ actor, dict_get (ob_headers e) "X-Gateway-Actor-Subject" = PStr actor.

Definition event_new (e : OutboxEvent) : Prop :=
  ob_status e = "pending" ∧ ob_attempt_count e = 0 ∧ 1 ≤ ob_max_attempts e
  ∧ lock_free e ∧ ob_published_at e = None ∧ ob_replay_count e = 0
  ∧ dict_get (ob_headers e) "Nats-Msg-Id" = PStr (ob_audit_event_id e) ∧ addressed e.

Section handlers.
Context `{!Env}.

Lemma outbox_row_new event id owner now : event_new (outbox_row event id owner now).
Proof. repeat split; [simpl; lia|by eexists]. Qed.

(** ** Claims *)

(** The rows that [claim_batch] writes, with the tokens it draws. *)
Fixpoint claims (self : OutboxService) (now : Z) (k : nat) (l : list OutboxEvent)
    : list OutboxEvent :=
  match l with
  | [] => []
  | e :: l => claimed_event self now (uuid_source k) e :: claims self now (S k) l
  end.

Lemma claim_events_run self now l w :
  traverse (claim_event self now) l w
  = (Ok (claims self now (draws w) l),
     mkWorld (committed w) (put_all id (claims self now (draws w) l) (working w))
       (violated w) (ticks w) (length l + draws w)).
Proof.
  revert w. induction l as [|e l IH]; intros w; [by destruct w|].
  change (traverse (claim_event self now) (e :: l) w) with
    ((ys ← traverse (claim_event self now) l;
      mret (claimed_event self now (uuid_source (draws w)) e :: ys) : M _)
      (mkWorld (committed w)
         (put_row (claimed_event self now (uuid_source (draws w)) e) (working w))
         (violated w) (ticks w) (S (draws w)))).
  unfold mbind, M_bind. rewrite IH. simpl. by rewrite Nat.add_succ_r.
Qed.

Lemma claims_spec self now k l i e :
  claims self now k l !! i = Some e ↔
  ∃ e0, l !! i = Some e0 ∧ e = claimed_event self now (uuid_source (k + i)) e0.
Proof.
  revert k i. induction l as [|e0 l IH]; intros k [|i]; simpl.
  - split; [done|by intros (? & ? & _)].
  - split; [done|by intros (? & ? & _)].
  - rewrite Nat.add_0_r. split; [intros [= <-]; eauto|]. by intros (? & [= ->] & ->).
  - rewrite IH. by rewrite Nat.add_succ_r.
Qed.

Lemma claims_ids self now k l : ob_id <$> claims self now k l = ob_id <$> l.
Proof. revert k. induction l as [|e l IH]; intros k; [done|]. simpl. by rewrite IH. Qed.

(** What a batch of claims does, in full: the stale claims are released, and the
    first due events in delivery order are claimed under the next tokens. *)
Definition released_db (s : store) : db :=
  put_all (released_event (clock (S (st_ticks s))))
    (select (stale_claim (clock (st_ticks s)
       - seconds (Z.max 1 (gateway_outbox_lock_ttl_seconds settings)))) (st_db s)) (st_db s).

Definition claim_page (limit : option Z) (s : store) : list OutboxEvent :=
  take (Z.to_nat (batch_limit limit)) (sort_by delivery_order
    (select (due_event (clock (S (S (st_ticks s))))) (released_db s))).

Definition claimed_rows (self : OutboxService) (limit : option Z) (s : store)
    : list OutboxEvent :=
  claims self (clock (S (S (st_ticks s)))) (st_draws s) (claim_page limit s).

Lemma release_stale_claims_run s :
  (release_stale_claims (open_session s)).2
    = mkWorld (released_db s) (released_db s) false (S (S (st_ticks s))) (st_draws s)
  ∧ is_ok (release_stale_claims (open_session s)).1.
Proof.
  unfold release_stale_claims, released_db. unfold mbind, M_bind. simpl.
  unfold mbind, M_bind. simpl. rewrite foreach_put. simpl.
  by destruct (select _ (st_db s)).
Qed.

Lemma claim_batch_run self limit s :
  run (claim_batch self limit) s =
    (Ok (claimed_rows self limit s),
     mkStore (put_all id (claimed_rows self limit s) (released_db s))
       (S (S (S (st_ticks s)))) (length (claim_page limit s) + st_draws s)).
Proof.
  unfold run, claim_batch. unfold mbind, M_bind at 1.
  destruct (release_stale_claims_run s) as [Hw Hok].
  destruct (release_stale_claims (open_session s)) as [[k|e] w]; [|done].
  cbn [snd] in Hw. subst w. unfold mbind, M_bind. simpl.
  rewrite claim_events_run. fold (claim_page limit s). unfold claimed_rows.
  by destruct (claim_page limit s).
Qed.

(** What a failed attempt makes of an event. *)
Definition failed_event (now : Z) (text : string) (e : OutboxEvent) : result OutboxEvent :=
  if exhausted_event e then Ok (dead_event now text e)
  else delay ← retry_delay (ob_attempt_count e + 1); Ok (retried_event now delay text e).

Lemma holds_claim_processing self t e : holds_claim self t e = true → ob_status e = "processing".
Proof. unfold holds_claim. rewrite !andb_true_iff, bool_decide_eq_true. tauto. Qed.

Lemma event_found id (w : world) e :
  (event_or_lookup_error id w).1 = Ok e → tbl (working w) !! id = Some e.
Proof.
  unfold event_or_lookup_error, get_row, reads, lookup_row, mbind, M_bind. simpl.
  destruct (outbox (working w) !! id); simpl; congruence.
Qed.

Lemma event_or_lookup_error_stateless id : stateless (event_or_lookup_error id).
Proof. stl_go. Qed.

Lemma claim_page_elem limit s e :
  keyed OutboxEvent (released_db s) → e ∈ claim_page limit s →
  ob_status e ∈ ["pending"; "retry"] ∧ tbl (released_db s) !! ob_id e = Some e.
Proof.
  intros HK (He & Hl)%elem_of_page; [|done]. split; [|done].
  apply andb_true_iff in He as [He _]. by apply bool_decide_eq_true in He.
Qed.

(** ** A property of the database that the writes of found events keep *)
Section keeper.
Context (J : db → Prop) (Hkeyed : ∀ d, J d → keyed OutboxEvent d).

Lemma found_at id d (e : OutboxEvent) :
  J d → tbl d !! id = Some e → tbl d !! ob_id e = Some e.
Proof. intros Hd He. pose proof (Hkeyed d Hd id e He) as E. simpl in E. by rewrite E. Qed.

(** Writing [e'] in the place of [e]. *)
Definition may_write (e e' : OutboxEvent) : Prop :=
  ∀ d, J d → tbl d !! ob_id e = Some e → J (put_row e' d).

(** Claims under the tokens numbered from [k] and below [u]. *)
Definition claims_allowed (k u : nat) : Prop := ∀ self now n e, (k ≤ n < u)%nat →
  ob_status e ∈ ["pending"; "retry"] → may_write e (claimed_event self now (uuid_source n) e).

Context (Hrel : ∀ now e, ob_status e = "processing" → may_write e (released_event now e)).

Lemma claims_keep k0 u self now k l d :
  claims_allowed k0 u → (k0 ≤ k)%nat → (length l + k ≤ u)%nat →
  (∀ e, e ∈ l → ob_status e ∈ ["pending"; "retry"]) → NoDup (ob_id <$> l) →
  (∀ e, e ∈ l → tbl d !! ob_id e = Some e) → J d → J (put_all id (claims self now k l) d).
Proof.
  intros Hk0. revert k d. induction l as [|e l IH]; intros k d Hk Hu Hs HNd Hl HI; [done|].
  apply NoDup_cons in HNd as [He HNd]. simpl in Hu |- *. apply IH; [lia|lia| |done| |].
  - intros; apply Hs. by right.
  - intros e' He'. rewrite tbl_put_row, lookup_insert_ne; [apply Hl; by right|].
    simpl. intros Eq. apply He. rewrite Eq. by apply list_elem_of_fmap_2.
  - apply (Hk0 self now k e); [lia| |done|apply Hl; by left]. apply Hs. by left.
Qed.

Lemma releases_keep now cutoff d :
  J d → J (put_all (released_event now) (select (stale_claim cutoff) d) d).
Proof.
  intros Hd. apply put_all_keep; [done|by apply NoDup_select, Hkeyed| | |done].
  - intros e He. by apply elem_of_select_keyed in He as [_ He]; [|by apply Hkeyed].
  - intros e d' He Hd' Hl. apply Hrel; [|done..]. apply elem_of_select in He as [He _].
    apply andb_true_iff in He as [He _]. by apply bool_decide_eq_true in He.
Qed.

Lemma claim_batch_keeps self limit s :
  claims_allowed (st_draws s) (st_draws (exec s (ClaimBatch self limit))) →
  J (st_db s) → J (st_db (exec s (ClaimBatch self limit))).
Proof.
  intros Hk Hs. assert (J (released_db s)) as HJ by exact (releases_keep _ _ _ Hs).
  revert Hk. unfold exec. cbn [handler].
  rewrite run_ignore, claim_batch_run. cbn [snd st_db st_draws]. intros Hk.
  eapply claims_keep; [exact Hk|lia|lia| | | |exact HJ].
  - intros e He. by apply (claim_page_elem limit s); [apply Hkeyed|].
  - change (NoDup (row_id <$> claim_page limit s)).
    apply NoDup_page. exact (Hkeyed _ HJ).
  - intros e He. by apply (claim_page_elem limit s); [apply Hkeyed|].
Qed.

Lemma release_stale_claims_keeps : pres J release_stale_claims.
Proof.
  apply pres_intro. intros w Hc Hw. unfold release_stale_claims.
  do 6 wp_step. apply wp_bind, wp_foreach_put.
  pose proof (releases_keep (clock (ticks (tick w))) (clock (ticks w)
       - seconds (Z.max 1 (gateway_outbox_lock_ttl_seconds settings))) _ Hw) as Hput.
  wp_inv J.
Qed.

Context `{!Stable J AuditEvent}.

Lemma replay_keeps self e a r :
  (∀ now e, may_write e (replayed_event now e)) → pres J (replay self e a r).
Proof.
  intros Hreplay. apply pres_intro. intros w Hc Hw. unfold replay. wp_step.
  apply wp_stateless; [apply event_or_lookup_error_stateless| |intros x; by split].
  intros ev He%event_found. do 3 wp_step; [|by split]. cbv beta iota.
  do 2 wp_step. apply wp_bind, wp_put. wp_rest J.
  apply Hreplay; [exact Hw|]. by eapply found_at.
Qed.

Lemma cancel_keeps self e a :
  (∀ now e, ob_status e ≠ "published" → may_write e (cancelled_event now e)) →
  pres J (cancel self e a).
Proof.
  intros Hcancel. apply pres_intro. intros w Hc Hw. unfold cancel. wp_step.
  apply wp_stateless; [apply event_or_lookup_error_stateless| |intros x; by split].
  intros ev He%event_found. do 2 wp_step; [wp_step; by split|]. wp_step. cbv beta iota.
  do 2 wp_step. apply wp_bind, wp_put. wp_rest J.
  apply Hcancel; [by apply bool_decide_eq_false in Heqb|exact Hw|].
  by eapply found_at.
Qed.

Section settle.
Context `{!Stable J OutboxDeliveryAttempt}.

Lemma record_success_keeps self e t a :
  (∀ now ack e, ob_status e = "processing" → may_write e (published_event now ack e)) →
  pres J (_record_success self e t a).
Proof.
  intros Hpub. apply pres_intro. intros w Hc Hw. unfold _record_success.
  do 2 wp_step; [|wp_inv J]. do 2 wp_step. apply wp_bind, wp_put. wp_rest J.
  apply Hpub; [by eapply holds_claim_processing|exact Hw|].
  by eapply found_at.
Qed.

Lemma record_failure_keeps self e t x :
  (∀ now text e e', ob_status e = "processing" → failed_event now text e = Ok e' →
     may_write e e') → pres J (_record_failure self e t x).
Proof.
  intros Hfail. apply pres_intro. intros w Hc Hw. unfold _record_failure.
  do 2 wp_step; [|wp_inv J]. do 2 wp_step. wp_step. wp_step; [|by split].
  apply wp_bind, wp_put. wp_rest J.
  eapply Hfail; [by eapply holds_claim_processing|eassumption|exact Hw|].
  by eapply found_at.
Qed.
End settle.
End keeper.

(** What inserting a new event keeps, reporting an event keeps. *)
Lemma emits_new_events (J : db → Prop) `{!Stable J AuditEvent} :
  (∀ e d, event_new e → J d → insertable e d = true → J (put_row e d)) → Emits J.
Proof.
  intros Hnew et a ac rt rid p o st. unfold emit_event.
  apply pres_bind; [apply pres_utcnow|intros now].
  apply pres_bind; [apply pres_uuid4|intros id].
  apply pres_bind; [apply pres_add, _|intros _].
  apply pres_bind; [|intros _; apply pres_bind; [apply pres_flush|intros _; apply pres_ret]].
  case_match; [|apply pres_ret]. apply pres_bind; [apply pres_uuid4|intros id'].
  intros w Hc Hw. unfold add. destruct (insertable _ _) eqn:Hi; [|done]. split; [done|].
  apply Hnew; [apply outbox_row_new|done|exact Hi].
Qed.

(** ** A preorder that contains the writes *)
Class EventWrites (E : relation OutboxEvent) : Prop := {
  ew_terms : ∀ e e', E e e' → ob_id e' = ob_id e;
  ew_released : ∀ now e, ob_status e = "processing" → E e (released_event now e);
  ew_published : ∀ now ack e, ob_status e = "processing" → E e (published_event now ack e);
  ew_failed : ∀ now text e e', ob_status e = "processing" →
    failed_event now text e = Ok e' → E e e';
  ew_replayed : ∀ now e, E e (replayed_event now e);
  ew_cancelled : ∀ now e, ob_status e ≠ "published" → E e (cancelled_event now e);
}.

Section evolve.
Context (E : relation OutboxEvent) `{!PreOrder E, !EventWrites E} (d0 : db).
Notation I := (evolved E event_new d0).

Instance event_emits : Emits I.
Proof.
  apply emits_new_events; [apply _|]. intros e d He Hd Hi.
  by apply evolved_insert.
Qed.

Lemma evolved_may_write e e' : E e e' → may_write I e e'.
Proof.
  intros HE d Hd He. eapply evolved_write; [apply _|exact Hd|exact He| |exact HE].
  by apply (ew_terms (E:=E)).
Qed.

Lemma exec_event_evolved op s :
  (∀ self now n e, (st_draws s ≤ n < st_draws (exec s op))%nat →
     ob_status e ∈ ["pending"; "retry"] → E e (claimed_event self now (uuid_source n) e)) →
  I (st_db s) → I (st_db (exec s op)).
Proof.
  pose proof event_emits as Hem.
  assert (∀ d, I d → keyed OutboxEvent d) as HK by by intros d [? _].
  intros Hk HI. destruct op; try (apply exec_pres; [solve [frame]|exact HI]);
    lazymatch goal with
    | |- context [ClaimBatch _ _] => idtac
    | |- _ => apply exec_pres; [apply pres_ignore|exact HI]
    end.
  - apply release_stale_claims_keeps; [done|]. intros. by apply evolved_may_write, ew_released.
  - apply claim_batch_keeps; [done| | |done].
    + intros. by apply evolved_may_write, ew_released.
    + intros self' now n e Hn Hs. by apply evolved_may_write, Hk.
  - apply record_success_keeps; [done|apply _..|]. intros. by apply evolved_may_write, ew_published.
  - apply record_failure_keeps; [done|apply _..|]. intros.
    by eapply evolved_may_write, ew_failed.
  - apply replay_keeps; [done|apply _|]. intros. apply evolved_may_write, ew_replayed.
  - apply cancel_keeps; [done|apply _|]. intros. by apply evolved_may_write, ew_cancelled.
Qed.
End evolve.
End handlers.

(** * The life of an outbox event

    Events are claimed under fresh lock tokens, settled by the holder of the current
    claim and counted down to the dead letter; only a replay reopens them. *)

(** ** What is true of every event *)
Definition event_terms (e : OutboxEvent) :=
  (ob_id e, ob_audit_event_id e, ob_owner_subject e, ob_event_type e, ob_subject e,
   ob_payload e, ob_replayed_from_id e, ob_created_at e).

(** The lock fields are set together, while the event is being processed. *)
Definition locked (e : OutboxEvent) : Prop :=
  is_Some (ob_locked_by e) ∧ is_Some (ob_lock_token e) ∧ is_Some (ob_locked_at e).

(** The id the broker knows the current delivery by. *)
Definition delivery_id (e : OutboxEvent) : string :=
  if ob_replay_count e =? 0 then ob_audit_event_id e else replay_id e.

Record event_ok (e : OutboxEvent) : Prop := {
  ok_status : ob_status e ∈ OUTBOX_STATUSES;
  ok_attempts : 0 ≤ ob_attempt_count e ≤ ob_max_attempts e;
  ok_budget : ob_status e ∈ ["pending"; "retry"; "processing"] →
    ob_attempt_count e < ob_max_attempts e;
  ok_lock : if ob_status e ==? "processing" then locked e else lock_free e;
  ok_published : ob_status e = "published" ↔ is_Some (ob_published_at e);
  ok_replays : 0 ≤ ob_replay_count e;
  ok_delivery : dict_get (ob_headers e) "Nats-Msg-Id" = PStr (delivery_id e);
  ok_addressed : addressed e;
}.

(** Until it is replayed, a published event is not written any more, and a dead or
    cancelled one is not attempted any more. *)
Definition settled_stays (e e' : OutboxEvent) : Prop :=
  ob_headers e' = ob_headers e ∧ ob_max_attempts e' = ob_max_attempts e
  ∧ (ob_status e = "published" → e' = e)
  ∧ (ob_status e = "dead_letter" →
       ob_status e' ∈ ["dead_letter"; "cancelled"] ∧ ob_attempt_count e' = ob_attempt_count e)
  ∧ (ob_status e = "cancelled" →
       ob_status e' = "cancelled" ∧ ob_attempt_count e' = ob_attempt_count e).

Record event_evolves (e e' : OutboxEvent) : Prop := {
  ev_terms : event_terms e' = event_terms e;
  ev_ok : event_ok e → event_ok e';
  ev_attempts : ob_attempt_count e ≤ ob_attempt_count e';
  ev_max : ob_max_attempts e ≤ ob_max_attempts e';
  ev_replays : ob_replay_count e ≤ ob_replay_count e';
  ev_settled : ob_replay_count e' = ob_replay_count e → settled_stays e e';
}.

Lemma settled_stays_refl e : settled_stays e e.
Proof. split_and!; try done. intros ->. split; [by left|done]. Qed.

Lemma settled_stays_trans e1 e2 e3 :
  settled_stays e1 e2 → settled_stays e2 e3 → settled_stays e1 e3.
Proof.
  intros (H1 & M1 & P1 & D1 & C1) (H2 & M2 & P2 & D2 & C2). split_and!; [congruence..| | |].
  - intros Hp. pose proof (P1 Hp) as ->. auto.
  - intros Hd. destruct (D1 Hd) as [Hs Ha]. rewrite <-Ha.
    apply elem_of_cons in Hs as [Hs|Hs%list_elem_of_singleton]; [auto|].
    destruct (C2 Hs) as [-> ->]. split; [by right; left|done].
  - intros Hc. destruct (C1 Hc) as [Hs Ha]. rewrite <-Ha. auto.
Qed.

#[export] Instance event_evolves_preorder : PreOrder event_evolves.
Proof.
  split.
  - intros e. split; auto using settled_stays_refl with lia.
  - intros e1 e2 e3 [T1 O1 A1 M1 R1 S1] [T2 O2 A2 M2 R2 S2].
    split; [congruence|auto|lia..|]. intros HR.
    eapply settled_stays_trans; [apply S1|apply S2]; lia.
Qed.

Lemma event_new_ok e : event_new e → event_ok e.
Proof.
  intros (Hs & Ha & Hm & Hl & Hp & Hr & Hd & Hx).
  split; unfold delivery_id; rewrite ?Hs, ?Ha, ?Hp, ?Hr; try done; try lia.
  by left.
Qed.

Section handlers.
Context `{!Env}.

(** ** The writes *)
Ltac member := by apply (bool_decide_unpack _).
Ltac ev :=
  split; unfold settled_stays, delivery_id, replay_id, locked, lock_free, unlocked;
  set_simpl; try done; try lia.

(** What a write does to the status decides whether the event stays consistent. *)
Lemma open_status e : ob_status e ∈ ["pending"; "retry"; "processing"] →
  ob_status e ≠ "published" ∧ ob_status e ≠ "dead_letter" ∧ ob_status e ≠ "cancelled".
Proof. intros Hs. split_and!; intros E; rewrite E in Hs; by apply (bool_decide_pack _) in Hs. Qed.

Lemma not_published e : event_ok e → ob_status e ≠ "published" → ob_published_at e = None.
Proof.
  intros He Hs. destruct (ob_published_at e) eqn:E; [|done]. destruct Hs.
  apply (ok_published e He). by rewrite E.
Qed.

Lemma claimed_event_evolves self now token e :
  ob_status e ∈ ["pending"; "retry"] → event_evolves e (claimed_event self now token e).
Proof.
  intros Hs. assert (ob_status e ∈ ["pending"; "retry"; "processing"]) as Ho.
  { rewrite !elem_of_cons in *. tauto. }
  destruct (open_status e Ho) as (H1 & H2 & H3). unfold claimed_event. ev.
  intros He. pose proof (not_published e He H1) as Hp. destruct He as [_ Ha Hb _ _ Hr Hd Had]. ev.
  - member.
  - intros _. by apply Hb.
  - rewrite Hp. split; [done|by intros []].
Qed.

Lemma released_event_evolves now e :
  ob_status e = "processing" → event_evolves e (released_event now e).
Proof.
  intros Hs. unfold released_event. ev; rewrite ?Hs; try done.
  intros He. assert (ob_published_at e = None) as Hp by (apply not_published; congruence).
  destruct He as [_ Ha Hb _ _ Hr Hd Had]. ev.
  - member.
  - intros _. apply Hb. rewrite Hs. member.
  - rewrite Hp. split; [done|by intros []].
Qed.

Lemma published_event_evolves now ack e :
  ob_status e = "processing" → event_evolves e (published_event now ack e).
Proof.
  intros Hs. unfold published_event. ev; rewrite ?Hs; try done.
  intros [_ Ha Hb _ _ Hr Hd Had]. ev.
  - member.
  - assert (ob_attempt_count e < ob_max_attempts e) by (apply Hb; rewrite Hs; member). lia.
  - intros H'. by apply (bool_decide_pack _) in H'.
Qed.

Lemma dead_event_evolves now text e :
  ob_status e = "processing" → event_evolves e (dead_event now text e).
Proof.
  intros Hs. unfold dead_event. ev; rewrite ?Hs; try done.
  intros He. assert (ob_published_at e = None) as Hp by (apply not_published; congruence).
  destruct He as [_ Ha Hb _ _ Hr Hd Had]. ev.
  - member.
  - assert (ob_attempt_count e < ob_max_attempts e) by (apply Hb; rewrite Hs; member). lia.
  - intros H'. by apply (bool_decide_pack _) in H'.
  - rewrite Hp. split; [done|by intros []].
Qed.

Lemma retried_event_evolves now delay text e :
  ob_status e = "processing" → exhausted_event e = false →
  event_evolves e (retried_event now delay text e).
Proof.
  intros Hs Hx%Z.leb_gt. unfold retried_event. ev; rewrite ?Hs; try done.
  intros He. assert (ob_published_at e = None) as Hp by (apply not_published; congruence).
  destruct He as [_ Ha Hb _ _ Hr Hd Had]. ev.
  - member.
  - rewrite Hp. split; [done|by intros []].
Qed.

Lemma cancelled_event_evolves now e :
  ob_status e ≠ "published" → event_evolves e (cancelled_event now e).
Proof.
  intros Hs. unfold cancelled_event. ev.
  - intros He. pose proof (not_published e He Hs) as Hp. destruct He as [_ Ha Hb _ _ Hr Hd Had]. ev.
    + member.
    + intros H'. by apply (bool_decide_pack _) in H'.
    + rewrite Hp. split; [done|by intros []].
  - intros _. split_and!; try done. intros _. split; [member|done].
Qed.

Lemma dict_get_set k k' v d :
  dict_get (dict_set k' v d) k = if bool_decide (k = k') then v else dict_get d k.
Proof. unfold dict_get, dict_get_or. rewrite dict_lookup_set. by case_bool_decide. Qed.

Lemma replayed_event_evolves now e : event_evolves e (replayed_event now e).
Proof.
  unfold replayed_event. ev.
  intros [_ Ha Hb _ _ Hr Hd Had]. ev.
  - member.
  - rewrite !dict_get_set. simpl. by rewrite (proj2 (Z.eqb_neq _ 0)) by lia.
  - unfold addressed. set_simpl. by rewrite !dict_get_set.
Qed.

Lemma failed_event_evolves now text e e' :
  ob_status e = "processing" → failed_event now text e = Ok e' → event_evolves e e'.
Proof.
  intros Hs. unfold failed_event. destruct (exhausted_event e) eqn:Hx.
  - intros [= <-]. by apply dead_event_evolves.
  - intros (d & _ & [= <-])%bind_ok. by apply retried_event_evolves.
Qed.

#[export] Instance event_evolves_writes : EventWrites event_evolves.
Proof.
  split; auto using released_event_evolves, published_event_evolves, replayed_event_evolves,
    cancelled_event_evolves.
  - intros e e' HE. by injection (ev_terms _ _ HE).
  - intros now text e e'. apply failed_event_evolves.
Qed.
End handlers.

(** ** Theorems *)
Section theorems.
Context `{!Env}.

Lemma event_evolution op d0 : keeps (evolved event_evolves event_new d0) op.
Proof.
  intros s. apply (exec_event_evolved event_evolves d0 op s).
  intros self now n e _. apply claimed_event_evolves.
Qed.

Lemma reachable_event_ok s id e :
  reachable s → outbox (st_db s) !! id = Some e → event_ok e.
Proof.
  intros Hs He.
  destruct (reachable_origin _ _ event_evolution s id e Hs He) as (e0 & Hnew & _ & HE).
  by apply (ev_ok _ _ HE), event_new_ok.
Qed.

(** C34: in every reachable store an outbox event is consistent: its attempts are within
    its budget and below it while it is open, it is locked exactly while a publisher
    processes it, it has a publication time exactly when it is published, and its
    headers name its type, its owner and its current delivery. *)
Theorem outbox_event_consistent s id e :
  reachable s → outbox (st_db s) !! id = Some e → event_ok e.
Proof. apply reachable_event_ok. Qed.

(** Whatever operations run, an event keeps its content, attempts, budget and
    replays are only counted up, and a published event is not touched and a dead or
    cancelled one not attempted until somebody replays it. *)
Theorem outbox_event_life_cycle s ops id e :
  reachable s → outbox (st_db s) !! id = Some e →
  ∃ e', outbox (st_db (exec_all s ops)) !! id = Some e' ∧ event_evolves e e'.
Proof. apply (exec_all_kept event_evolves event_new event_evolution). Qed.
End theorems.

Lemma stalled_event : ∃ e, outbox (st_db stalled_store) !! "id-2" = Some e ∧ ob_status e = "processing".
Proof. eexists. split; [vm_compute; reflexivity|reflexivity]. Qed.

Lemma outbox_event_consistent_witness :
  ∃ e, outbox (st_db stalled_store) !! "id-2" = Some e ∧ ob_status e = "processing" ∧ event_ok e.
Proof.
  destruct stalled_event as (e & He & Hs). exists e. split; [exact He|]. split; [exact Hs|].
  exact (outbox_event_consistent stalled_store "id-2" e stalled_store_reachable He).
Defined.

Lemma outbox_event_life_cycle_witness :
  ∃ e e', outbox (st_db stalled_store) !! "id-2" = Some e
    ∧ outbox (st_db taken_store) !! "id-2" = Some e' ∧ event_evolves e e'.
Proof.
  destruct stalled_event as (e & He & _). exists e.
  destruct (outbox_event_life_cycle stalled_store taken_over "id-2" e stalled_store_reachable He)
    as (e' & He' & HE).
  exists e'. split; [exact He|]. split; [exact He'|exact HE].
Defined.
