(* ===== verification/ClaimProofs.v ===== *)
(** * Claims and attempts

    What a claim protects, and the attempts that are recorded of the deliveries. *)

From S2P Require Import Prelude PyStr PyVal PyFloat Errors Models Database Session.
From S2P Require Import Preserve Rows Outbox Footprint System Evolution Freshness.
From S2P Require Import DeliveryDemo OutboxProofs.

(** * Lost claims

    A lock token is drawn for one claim.  Once the event has left that claim, because
    it was released as stale, cancelled, settled or taken over, the token is never the
    event's token again, so the publisher that held it can no longer settle. *)

(** A token is kept, dropped, or one of those numbered from [k] and below [u]. *)
Definition token_moves `{!Env} (k u : nat) (e e' : OutboxEvent) : Prop :=
  ob_id e' = ob_id e
  ∧ (ob_lock_token e' = ob_lock_token e ∨ ob_lock_token e' = None
     ∨ ∃ n, (k ≤ n < u)%nat ∧ ob_lock_token e' = Some (uuid_source n)).

#[export] Instance token_moves_preorder `{!Env} k u : PreOrder (token_moves k u).
Proof.
  split; [intros e; by split; [|left]|]. intros e1 e2 e3 [I1 T1] [I2 T2].
  split; [congruence|]. destruct T2 as [E2|[E2|[n E2]]]; [|by right; left|by right; right; eauto].
  rewrite E2. destruct T1 as [E1|[E1|[n E1]]]; [left|right; left|right; right]; eauto.
Qed.

#[export] Instance token_moves_writes `{!Env} k u : EventWrites (token_moves k u).
Proof.
  split; unfold token_moves.
  - by intros e e' [? _].
  - intros now e _. split; [done|by right; left].
  - intros now ack e _. split; [done|by right; left].
  - intros now text e e' _. unfold failed_event. destruct (exhausted_event e).
    + intros [= <-]. split; [done|by right; left].
    + intros (d & _ & [= <-])%bind_ok. split; [done|by right; left].
  - intros now e. split; [done|by right; left].
  - intros now e _. split; [done|by right; left].
Qed.

Section tokens.
Context `{!Env}.

(** The events of a store are keyed, and their tokens have been drawn. *)
Definition tokens_drawn (s : store) : Prop :=
  keyed OutboxEvent (st_db s)
  ∧ ∀ id e t, outbox (st_db s) !! id = Some e → ob_lock_token e = Some t →
      ∃ n, (n < st_draws s)%nat ∧ t = uuid_source n.

Lemma exec_draws s o : (st_draws s ≤ st_draws (exec s o))%nat.
Proof.
  pose proof (handler_mono o (open_session s)) as Hm. unfold exec, run.
  by destruct (handler o (open_session s)).
Qed.

(** Where the token of an event comes from in one operation. *)
Lemma exec_token s o id e' t :
  keyed OutboxEvent (st_db s) →
  outbox (st_db (exec s o)) !! id = Some e' → ob_lock_token e' = Some t →
  (∃ e, outbox (st_db s) !! id = Some e ∧ ob_lock_token e = Some t)
  ∨ ∃ n, (st_draws s ≤ n < st_draws (exec s o))%nat ∧ t = uuid_source n.
Proof.
  intros HK He' Ht.
  assert (evolved (token_moves (st_draws s) (st_draws (exec s o))) event_new (st_db s)
    (st_db (exec s o))) as [_ [HG HN]].
  { apply exec_event_evolved; [apply _..| |by split; [|apply grows_refl; apply _]].
    intros self now n e Hn _. split; [done|]. right; right. eauto. }
  assert (∀ e, token_moves (st_draws s) (st_draws (exec s o)) e e' → ob_lock_token e = Some t
    ∨ ∃ n, (st_draws s ≤ n < st_draws (exec s o))%nat ∧ t = uuid_source n) as Hback.
  { intros e [_ [E|[E|(n & Hn & E)]]]; [left; congruence|congruence|right].
    exists n. split; [done|congruence]. }
  destruct (outbox (st_db s) !! id) as [e|] eqn:He.
  - destruct (HG id e He) as (e'' & He'' & HE).
    assert (e'' = e') as -> by (simpl in He''; congruence).
    destruct (Hback e HE); eauto.
  - destruct (HN id e' He' He) as (e0 & (_ & _ & _ & (_ & Hn & _) & _) & _ & HE).
    destruct (Hback e0 HE); [congruence|by right].
Qed.

Lemma reachable_tokens_drawn s : reachable s → tokens_drawn s.
Proof.
  induction 1 as [t n|s o _ [HK IH]].
  - split; [intros id e|intros id e t']; simpl; by rewrite lookup_empty.
  - split.
    + assert (evolved (token_moves 0 (st_draws (exec s o))) event_new (st_db s)
        (st_db (exec s o))) as [? _]; [|done].
      apply exec_event_evolved; [apply _..| |by split; [|apply grows_refl; apply _]].
      intros self now k e Hk _. split; [done|]. right; right. exists k. split; [lia|done].
    + intros id e t He Ht. pose proof (exec_draws s o).
      destruct (exec_token s o id e t HK He Ht) as [(e0 & He0 & Ht0)|(k & Hk & ->)].
      * destruct (IH id e0 t He0 Ht0) as (k & Hk & ->). exists k. split; [lia|done].
      * exists k. split; [lia|done].
Qed.

(** The event does not carry the token. *)
Definition claim_lost (id t : string) (s : store) : Prop :=
  ∀ e, outbox (st_db s) !! id = Some e → ob_lock_token e ≠ Some t.

Lemma claim_stays_lost `{!Inj (=) (=) uuid_source} s ops id n :
  reachable s → (n < st_draws s)%nat → claim_lost id (uuid_source n) s →
  claim_lost id (uuid_source n) (exec_all s ops).
Proof.
  revert s. induction ops as [|o ops IH]; intros s Hs Hn Hl; [done|].
  apply (IH (exec s o)).
  - by constructor.
  - pose proof (exec_draws s o). lia.
  - intros e' He' Ht. apply reachable_tokens_drawn in Hs as [HK _].
    destruct (exec_token s o id e' _ HK He' Ht) as [(e & He & Ht')|(k & Hk & E)].
    + by apply (Hl e).
    + apply (inj uuid_source) in E. lia.
Qed.

Lemma lost_not_held self id t s :
  claim_lost id t s → ∀ e, outbox (st_db s) !! id = Some e → holds_claim self t e = false.
Proof.
  intros Hl e He. unfold holds_claim. apply andb_false_iff. right.
  apply bool_decide_eq_false. by apply Hl.
Qed.

Lemma lost_claim_lookup {A} self id t s (f : option OutboxEvent → M A) :
  claim_lost id t s →
  run (found ← find_row id (holds_claim self t); f found) s = run (f None) s.
Proof.
  intros Hl. unfold run, find_row, get_row, reads, lookup_row, mbind, M_bind. simpl.
  destruct (outbox (st_db s) !! id) as [e|] eqn:He; [|done]. simpl.
  by rewrite (lost_not_held self id t s Hl e He).
Qed.

(** C13: once a claim is lost, it stays lost: whatever operations run, on whatever
    replica, the publisher that held the token settles nothing with it, neither as
    delivered nor as failed, and changes nothing. *)
Theorem stale_claims_cannot_settle s ops id t e self ack err later :
  Inj (=) (=) uuid_source → reachable s →
  outbox (st_db s) !! id = Some e → ob_lock_token e = Some t →
  claim_lost id t (exec_all s ops) →
  let s' := exec_all (exec_all s ops) later in
  run (_record_success self id t ack) s' = (Ok false, s')
  ∧ run (_record_failure self id t err) s' = (Ok "stale", s').
Proof.
  intros Hinj Hs He Ht Hl s'.
  destruct (proj2 (reachable_tokens_drawn s Hs) id e t He Ht) as (n & Hn & ->).
  assert (st_draws s ≤ st_draws (exec_all s ops))%nat as Hd.
  { clear -ops. revert s. induction ops as [|o ops IH]; intros s; [done|].
    pose proof (exec_draws s o). specialize (IH (exec s o)). simpl in *. lia. }
  assert (claim_lost id (uuid_source n) s') as Hl'.
  { apply claim_stays_lost; [by apply reachable_exec_all|lia|done]. }
  unfold _record_success, _record_failure. rewrite !lost_claim_lookup by done.
  by destruct s'.
Qed.
End tokens.

(** Replica a stalled, replica b took the event over. *)
#[local] Instance delivery_uuid_inj : Inj (=) (=) (uuid_source (Env:=delivery_env)).
Proof.
  intros m n E. cbn [uuid_source delivery_env] in E. injection E as E.
  change (pretty (Z.of_nat m) = pretty (Z.of_nat n)) in E. apply (inj (pretty (A:=Z))) in E. lia.
Qed.

Lemma stale_claims_cannot_settle_witness :
  run (_record_success replica_a "id-2" "id-3" (mkAck None None false)) taken_store
    = (Ok false, taken_store)
  ∧ run (_record_failure replica_a "id-2" "id-3" timeout_error) taken_store
    = (Ok "stale", taken_store).
Proof.
  assert (∃ e, outbox (st_db stalled_store) !! "id-2" = Some e
    ∧ ob_lock_token e = Some "id-3") as (e & He & Ht).
  { eexists. split; [vm_compute; reflexivity|reflexivity]. }
  refine (stale_claims_cannot_settle stalled_store taken_over "id-2" "id-3" e replica_a
    (mkAck None None false) timeout_error [] delivery_uuid_inj stalled_store_reachable He Ht _).
  intros e' He' Ht'.
  assert (ob_lock_token <$> outbox (st_db taken_store) !! "id-2" = Some (Some "id-4")) as E
    by (vm_compute; reflexivity).
  change (outbox (st_db taken_store) !! "id-2" = Some e') in He'.
  rewrite He' in E. simpl in E. rewrite Ht' in E. discriminate E.
Defined.

(** * The log of delivery attempts

    Every settled claim leaves one row, numbered with the attempt it settled, so the
    rows of an event are numbered from one to its attempt count. *)

Definition attempts_of (id : string) (d : db) : list OutboxDeliveryAttempt :=
  select (λ a, oda_outbox_event_id a ==? id) d.

Definition attempt_numbers (id : string) (d : db) : list Z :=
  map oda_attempt_number (attempts_of id d).

(** The log of the database: it speaks of events that exist, and counts their attempts. *)
Definition attempt_log (d : db) : Prop :=
  keyed OutboxEvent d
  ∧ (∀ id a, outbox_delivery_attempts d !! id = Some a →
       is_Some (outbox d !! oda_outbox_event_id a))
  ∧ ∀ id e, outbox d !! id = Some e →
      0 ≤ ob_attempt_count e ∧ attempt_numbers id d ≡ₚ seqZ 1 (ob_attempt_count e).

Lemma log_keyed d : attempt_log d → keyed OutboxEvent d.
Proof. by intros [? _]. Qed.

(** Writing the row of an event that exists changes no attempt. *)
Lemma attempt_numbers_put id e d : attempt_numbers id (put_row (R:=OutboxEvent) e d) = attempt_numbers id d.
Proof. done. Qed.

Lemma log_events_put e d :
  (∀ id a, outbox_delivery_attempts d !! id = Some a → is_Some (outbox d !! oda_outbox_event_id a)) →
  ∀ id a, outbox_delivery_attempts (put_row e d) !! id = Some a →
    is_Some (outbox (put_row (R:=OutboxEvent) e d) !! oda_outbox_event_id a).
Proof.
  intros He id a Ha. destruct (He id a Ha) as [e' He']. change (outbox ?d) with (tbl (R:=OutboxEvent) d).
  rewrite tbl_put_row. destruct (decide (row_id e = oda_outbox_event_id a)) as [->|Hne].
  - rewrite lookup_insert_eq. eauto.
  - rewrite lookup_insert_ne by done. eauto.
Qed.

(** A write that keeps the count. *)
Lemma log_may_write e e' :
  ob_id e' = ob_id e → ob_attempt_count e' = ob_attempt_count e → may_write attempt_log e e'.
Proof.
  intros Hid Hn d (HK & He & HL) Hl. split_and!; [by apply keyed_put|by apply log_events_put|].
  intros id x. change (outbox ?d) with (tbl (R:=OutboxEvent) d). rewrite tbl_put_row.
  intros [[<- <-]|[_ Hx]]%lookup_insert_Some; [|by apply HL].
  simpl. rewrite Hid, Hn. by apply (HL (ob_id e)).
Qed.

Lemma log_insert_event e d :
  event_new e → attempt_log d → insertable e d = true → attempt_log (put_row e d).
Proof.
  intros (_ & Hn & _) (HK & He & HL) [Hfree _]%insertable_spec.
  split_and!; [by apply keyed_put|by apply log_events_put|].
  intros id x. change (outbox ?d) with (tbl (R:=OutboxEvent) d). rewrite tbl_put_row.
  intros [[<- <-]|[_ Hx]]%lookup_insert_Some; [|by apply HL].
  rewrite Hn. split; [done|]. unfold attempt_numbers.
  enough (attempts_of (row_id e) (put_row e d) = []) as -> by done.
  apply elem_of_nil_inv. intros a (Ha & i & Hi)%elem_of_select.
  apply bool_decide_eq_true in Ha. destruct (He i a Hi) as [e' He']. rewrite Ha in He'.
  simpl in Hfree, He'. congruence.
Qed.

(** A settlement: the event and its attempt. *)
Lemma log_settle e e' a d :
  attempt_log d → outbox d !! ob_id e = Some e → ob_id e' = ob_id e →
  ob_attempt_count e' = ob_attempt_count e + 1 →
  oda_outbox_event_id a = ob_id e → oda_attempt_number a = ob_attempt_count e' →
  insertable a (put_row e' d) = true → attempt_log (put_row a (put_row e' d)).
Proof.
  intros (HK & He & HL) Hl Hid Hn Hea Hna [Hfree _]%insertable_spec.
  assert (∀ id, outbox (put_row a (put_row e' d)) !! id = outbox (put_row e' d) !! id) as Ho by done.
  assert (∀ id, outbox (put_row e' d) !! id = <[ob_id e' := e']> (outbox d) !! id) as Hp
    by (intros id; exact (f_equal (λ m : gmap string OutboxEvent, m !! id)
          (tbl_put_row (R:=OutboxEvent) e' d))).
  split_and!.
  - intros id x. change (tbl ?d) with (outbox d). rewrite Ho. by apply (keyed_put e' d HK).
  - intros id x. rewrite Ho. change (outbox_delivery_attempts ?d) with (tbl (R:=OutboxDeliveryAttempt) d).
    rewrite tbl_put_row. intros [[_ <-]|[_ Hx]]%lookup_insert_Some.
    + rewrite Hp, Hea, Hid, lookup_insert_eq. eauto.
    + by apply (log_events_put e' d He id).
  - intros id x. rewrite Ho, Hp. intros Hx. unfold attempt_numbers, attempts_of.
    rewrite select_insert by done. rewrite map_app.
    change (select _ (put_row e' d)) with (attempts_of id d).
    apply lookup_insert_Some in Hx as [[<- <-]|[Hne Hx]].
    + rewrite Hid. rewrite bool_decide_eq_true_2 by done. simpl.
      destruct (HL _ _ Hl) as [H0 HP]. split; [lia|]. unfold attempt_numbers in HP. rewrite HP.
      rewrite Hna, Hn. rewrite (seqZ_app 1 (ob_attempt_count e) 1) by lia.
      simpl. rewrite Permutation_app_comm. simpl. by rewrite Z.add_comm.
    + rewrite bool_decide_eq_false_2 by congruence. by apply HL.
Qed.

Section handlers.
Context `{!Env}.

Instance log_emits : Emits attempt_log.
Proof. apply emits_new_events; [apply _|]. intros. by apply log_insert_event. Qed.

(** What is left to show of a settlement: it is committed whole or not at all. *)
Ltac settled :=
  simpl in *; first [discriminate | assumption | done | apply stable; settled
    | match goal with
      | Hw : attempt_log (working ?w), He : lookup_row ?id (working ?w) = Some ?e |- _ =>
          eapply (log_settle e); [exact Hw|exact (found_at attempt_log log_keyed _ _ _ Hw He)|..|eassumption]
      end ].

Lemma record_success_log self e t ack :
  keeps attempt_log (RecordSuccess self e t ack).
Proof.
  apply wp_keeps. intros w Hc Hw. apply wp_ignore. unfold _record_success.
  assert (attempt_log (committed w)) as Hcw by by rewrite Hc.
  do 2 wp_step; [|by apply wp_ret].
  repeat wp_step; settled; set_simpl; done.
Qed.

Lemma failed_event_count now text e e' :
  failed_event now text e = Ok e' →
  ob_id e' = ob_id e ∧ ob_attempt_count e' = ob_attempt_count e + 1.
Proof.
  unfold failed_event. destruct (exhausted_event e).
  - intros [= <-]. done.
  - by intros (d & _ & [= <-])%bind_ok.
Qed.

Lemma record_failure_log self e t x : keeps attempt_log (RecordFailure self e t x).
Proof.
  apply wp_keeps. intros w Hc Hw. apply wp_ignore. unfold _record_failure.
  assert (attempt_log (committed w)) as Hcw by by rewrite Hc.
  do 2 wp_step; [|by apply wp_ret]. do 2 wp_step. wp_step. wp_step; [|done].
  match goal with H : _ = Ok ?e' |- _ => pose proof (failed_event_count _ _ _ _ H) as [Hid Hn] end.
  unfold emit_event. repeat wp_step; settled; done.
Qed.

Lemma exec_attempt_log o : keeps attempt_log o.
Proof.
  pose proof log_emits as Hem.
  destruct o; try (apply pres_keeps; solve [frame]);
    lazymatch goal with
    | |- context [ClaimBatch _ _] => idtac
    | |- context [RecordSuccess] => apply record_success_log
    | |- context [RecordFailure] => apply record_failure_log
    | |- _ => apply pres_keeps, pres_ignore
    end.
  - apply release_stale_claims_keeps; [exact log_keyed|]. intros. by apply log_may_write.
  - intros s. apply claim_batch_keeps; [exact log_keyed| |].
    + intros. by apply log_may_write.
    + intros self' now n e _ _. by apply log_may_write.
  - apply replay_keeps; [exact log_keyed|apply _|]. intros. by apply log_may_write.
  - apply cancel_keeps; [exact log_keyed|apply _|]. intros. by apply log_may_write.
Qed.

Lemma reachable_attempt_log s : reachable s → attempt_log (st_db s).
Proof.
  apply reachable_step_invariant; [|intros s' o _; apply exec_attempt_log].
  split_and!; [intros id e|intros id a|intros id e]; simpl; by rewrite lookup_empty.
Qed.

(** C35: in every reachable store the delivery attempts recorded for an event are
    numbered one to its attempt count, each number once: no settlement is lost and
    none is recorded twice. *)
Theorem attempts_are_recorded s id e :
  reachable s → outbox (st_db s) !! id = Some e →
  attempt_numbers id (st_db s) ≡ₚ seqZ 1 (ob_attempt_count e).
Proof. intros (_ & _ & Hl)%reachable_attempt_log He. by apply Hl. Qed.
End handlers.

Definition failed_store : store :=
  exec taken_store (RecordFailure replica_b "id-2" "id-4" timeout_error).

Lemma attempts_are_recorded_witness :
  ∃ e, outbox (st_db failed_store) !! "id-2" = Some e ∧ ob_attempt_count e = 1
    ∧ attempt_numbers "id-2" (st_db failed_store) ≡ₚ seqZ 1 (ob_attempt_count e).
Proof.
  eexists. split; [vm_compute; reflexivity|]. split; [reflexivity|].
  apply (attempts_are_recorded failed_store "id-2").
  - exact (reachable_step _ _ taken_store_reachable).
  - vm_compute. reflexivity.
Defined.

(** ** The ids of the attempts *)
Section ids.
Context `{!Env}.

(** Every attempt has an id that has been drawn. *)
Definition attempts_drawn (n : nat) (d : db) : Prop :=
  ∀ id a, outbox_delivery_attempts d !! id = Some a → ∃ k, (k < n)%nat ∧ id = uuid_source k.

Lemma attempts_drawn_le n m d : (n ≤ m)%nat → attempts_drawn n d → attempts_drawn m d.
Proof. intros Hn Hd id a (k & Hk & ->)%Hd. exists k. split; [lia|done]. Qed.

Lemma attempts_drawn_put n a d :
  attempts_drawn n d → oda_id a = uuid_source n → attempts_drawn (S n) (put_row a d).
Proof.
  intros Hd Ha id x. change (outbox_delivery_attempts ?d) with (tbl (R:=OutboxDeliveryAttempt) d).
  rewrite tbl_put_row. intros [[<- _]|[_ (k & Hk & ->)%Hd]]%lookup_insert_Some.
  - exists n. split; [lia|done].
  - exists k. split; [lia|done].
Qed.

Definition settles_op (o : op) : Prop :=
  match o with RecordSuccess _ _ _ _ | RecordFailure _ _ _ _ => True | _ => False end.

Lemma other_attempts o s :
  ¬ settles_op o →
  outbox_delivery_attempts (st_db (exec s o)) = outbox_delivery_attempts (st_db s).
Proof.
  intros Ho.
  apply (exec_pres (λ d, outbox_delivery_attempts d = outbox_delivery_attempts (st_db s)));
    [|done].
  destruct o; try solve [frame]; by destruct Ho.
Qed.

Ltac drawn :=
  simpl in *; first [discriminate
    | match goal with
      | H : attempts_drawn ?n ?d |- attempts_drawn _ ?d => eapply attempts_drawn_le; [|exact H]; lia
      end
    | apply stable; drawn
    | eapply attempts_drawn_le; [|apply attempts_drawn_put; [|reflexivity]; drawn]; lia ].

Lemma settle_drawn o s :
  settles_op o → attempts_drawn (st_draws s) (st_db s) →
  attempts_drawn (st_draws (exec s o)) (st_db (exec s o)).
Proof.
  intros Ho Hs.
  enough (wp (handler o) (λ _ w, attempts_drawn (draws w) (committed w)) (open_session s)) as Hw.
  { revert Hw. unfold exec, run, wp. by destruct (handler o (open_session s)). }
  destruct o; try done; apply wp_ignore; cbn [open_session].
  - unfold _record_success. do 2 wp_step; [|by apply wp_ret].
    repeat wp_step; drawn.
  - unfold _record_failure. do 2 wp_step; [|by apply wp_ret]. unfold emit_event.
    repeat wp_step; drawn.
Qed.

Lemma reachable_attempts_drawn s : reachable s → attempts_drawn (st_draws s) (st_db s).
Proof.
  induction 1 as [t n|s o _ IH]; [intros id a; simpl; by rewrite lookup_empty|].
  destruct o; try by apply settle_drawn.
  all: unfold attempts_drawn; rewrite other_attempts by (intros []).
  all: eapply attempts_drawn_le; [apply exec_draws|exact IH].
Qed.
End ids.
