(* ===== verification/PublishingProofs.v ===== *)
(** * Delivery

    A healthy broker gets every event of the backlog, in order, in one run; each is
    settled by the publisher that claimed it. *)

From S2P Require Import Prelude PyStr PyVal PyFloat Json Errors Models Database Session.
From S2P Require Import Preserve Rows Outbox Broker Footprint System Evolution.
From S2P Require Import Freshness Publishing DeliveryDemo OutboxProofs ClaimProofs.
From Stdlib Require Import SpecFloat.

Section settle.
Context `{!Env}.

(** Settling a claim that is held, in full. *)
Lemma record_success_run self e ack s :
  let event' := published_event (clock (st_ticks s)) ack e in
  let attempt := delivery_attempt self (uuid_source (st_draws s)) (clock (st_ticks s)) e event'
    (if ack_duplicate ack then "duplicate" else "published") None
    (ack_stream ack) (ack_sequence ack) in
  outbox (st_db s) !! ob_id e = Some e → holds_claim self (row_token e) e = true →
  insertable attempt (put_row event' (st_db s)) = true →
  run (_record_success self (ob_id e) (row_token e) ack) s =
    (Ok true, mkStore (put_row attempt (put_row event' (st_db s))) (S (st_ticks s)) (S (st_draws s))).
Proof.
  intros event' attempt He Hh Hi. unfold run, _record_success, find_row, get_row, reads,
    lookup_row, mbind, M_bind. simpl. rewrite He. simpl. rewrite Hh. simpl.
  unfold mbind, M_bind, add. simpl. fold event'. fold attempt. rewrite Hi. done.
Qed.

Lemma attempt_insertable self e ack s :
  Inj (=) (=) uuid_source → reachable s → outbox (st_db s) !! ob_id e = Some e →
  let event' := published_event (clock (st_ticks s)) ack e in
  insertable (delivery_attempt self (uuid_source (st_draws s)) (clock (st_ticks s)) e event'
    (if ack_duplicate ack then "duplicate" else "published") None
    (ack_stream ack) (ack_sequence ack)) (put_row event' (st_db s)) = true.
Proof.
  intros Hinj Hs He event'. apply insertable_spec. split.
  - change (outbox_delivery_attempts (st_db s) !! uuid_source (st_draws s) = None).
    destruct (outbox_delivery_attempts (st_db s) !! _) as [a|] eqn:Ha; [|done].
    apply (reachable_attempts_drawn s Hs) in Ha as (k & Hk & E). apply (inj uuid_source) in E. lia.
  - intros id a Ha. change (outbox_delivery_attempts (st_db s) !! id = Some a) in Ha.
    apply not_true_iff_false. simpl. unfold clash_outbox_delivery_attempts. simpl.
    rewrite andb_true_iff, !bool_decide_eq_true. intros [Hid Hn].
    destruct (reachable_attempt_log s Hs) as (_ & _ & Hl). destruct (Hl _ _ He) as [H0 HP].
    assert (oda_attempt_number a ∈ attempt_numbers (ob_id e) (st_db s)) as Hin.
    { apply list_elem_of_fmap. exists a. split; [done|]. apply elem_of_select.
      split; [by apply bool_decide_eq_true|]. by exists id. }
    rewrite HP, <-Hn in Hin. apply elem_of_seqZ in Hin. lia.
Qed.
End settle.

Section delivery.
Context `{!Env} {B : Type} `{!EventBroker B} (describe : exn → error_info).
Context (self : OutboxService).
Context (Hinj : Inj (=) (=) uuid_source).
Context (good : B → Prop).
Context (Haccepts : ∀ b m, good b → ∃ ack b', publish b m = (inr ack, b') ∧ good b').

Definition claimed_here (s : store) (e : OutboxEvent) : Prop :=
  outbox (st_db s) !! ob_id e = Some e ∧ holds_claim self (row_token e) e = true.

Definition published_in (s : store) (id : string) : Prop :=
  ∃ e, outbox (st_db s) !! id = Some e ∧ ob_status e = "published".

Lemma publish_row_delivers e r b s :
  good b → reachable s → claimed_here s e →
  ∃ b' s', publish_row describe self e r b s = ((Ok (r <| r_published ::= Z.succ |>), s'), b')
    ∧ good b' ∧ reachable s' ∧ published_in s' (ob_id e)
    ∧ ∀ id, id ≠ ob_id e → outbox (st_db s') !! id = outbox (st_db s) !! id.
Proof.
  intros Hb Hs [He Hh]. unfold publish_row.
  destruct (Haccepts b (event_message e) Hb) as (ack & b' & -> & Hb').
  pose proof (record_success_run self e ack s He Hh (attempt_insertable self e ack s Hinj Hs He))
    as Hrun. rewrite Hrun. eexists b', _. split; [done|]. split; [done|]. split; [|split].
  - assert (exec s (RecordSuccess self (ob_id e) (row_token e) ack)
      = (run (_record_success self (ob_id e) (row_token e) ack) s).2) as E.
    { unfold exec. cbn [handler]. apply run_ignore. }
    rewrite Hrun in E. cbn [snd] in E. rewrite <-E. by constructor.
  - exists (published_event (clock (st_ticks s)) ack e). split; [apply lookup_insert_eq|done].
  - intros id Hid. by apply lookup_insert_ne.
Qed.

Lemma publish_rows_deliver rows r b s :
  good b → reachable s → NoDup (ob_id <$> rows) → Forall (claimed_here s) rows →
  ∃ b' s', publish_rows describe self rows r b s
      = ((Ok (r <| r_published := r_published r + Z.of_nat (length rows) |>), s'), b')
    ∧ reachable s' ∧ (∀ e, e ∈ rows → published_in s' (ob_id e))
    ∧ ∀ id, id ∉ ob_id <$> rows → outbox (st_db s') !! id = outbox (st_db s) !! id.
Proof.
  revert r b s. induction rows as [|e rows IH]; intros r b s Hb Hs HN Hc.
  - exists b, s. simpl. rewrite Z.add_0_r. split_and!; [by destruct r|done| |done].
    by intros e ?%not_elem_of_nil.
  - apply NoDup_cons in HN as [He HN]. apply Forall_cons in Hc as [Hce Hc].
    destruct (publish_row_delivers e r b s Hb Hs Hce) as (b1 & s1 & E1 & Hb1 & Hs1 & Hp & Hsame).
    assert (Forall (claimed_here s1) rows) as Hc1.
    { rewrite Forall_forall in *. intros e' He'. destruct (Hc e' He') as [Hl Hh].
      split; [|done]. rewrite Hsame; [done|]. intros E. apply He. rewrite <-E.
      by apply list_elem_of_fmap_2. }
    destruct (IH (r <| r_published ::= Z.succ |>) b1 s1 Hb1 Hs1 HN Hc1)
      as (b2 & s2 & E2 & Hs2 & Hp2 & Hsame2).
    exists b2, s2. simpl. rewrite E1, E2. split_and!; [|done| |].
    + do 3 f_equal. unfold set_with. simpl. f_equal. lia.
    + intros e' [->|He']%elem_of_cons; [|by apply Hp2].
      destruct Hp as (x & Hx & Hst). exists x. by rewrite Hsame2.
    + intros id Hid. apply not_elem_of_cons in Hid as [Hne Hid]. by rewrite Hsame2, Hsame.
Qed.

(** The events that are due once the stale claims have been released. *)
Definition backlog (s : store) : list OutboxEvent :=
  select (due_event (clock (S (S (st_ticks s))))) (released_db s).

Lemma released_db_keyed s : reachable s → keyed OutboxEvent (released_db s).
Proof.
  intros Hs. exact (releases_keep (keyed OutboxEvent) (λ d Hd, Hd)
    (λ now e _ d Hd _, keyed_put _ d Hd) _ _ _ (proj1 (reachable_tokens_drawn s Hs))).
Qed.

Lemma claims_lookup now k l d e :
  NoDup (ob_id <$> l) → e ∈ claims self now k l →
  outbox (put_all id (claims self now k l) d) !! ob_id e = Some e.
Proof.
  revert k d. induction l as [|x l IH]; intros k d HN He; [by apply not_elem_of_nil in He|].
  apply NoDup_cons in HN as [Hx HN]. simpl in He |- *.
  apply elem_of_cons in He as [->|He]; [|by apply IH].
  assert (∀ l k d, ob_id x ∉ ob_id <$> l →
    outbox (put_all id (claims self now k l) d) !! ob_id x = outbox d !! ob_id x) as Hother.
  { clear. induction l as [|y l IH]; intros k d Hy; [done|]. simpl.
    apply not_elem_of_cons in Hy as [Hne Hy]. rewrite IH by done.
    by apply lookup_insert_ne. }
  change (ob_id (claimed_event self now (uuid_source k) x)) with (ob_id x).
  rewrite Hother by done. apply lookup_insert_eq.
Qed.

Lemma claimed_holds now token e :
  holds_claim self (row_token (claimed_event self now token e)) (claimed_event self now token e)
  = true.
Proof. unfold holds_claim, row_token. simpl. by rewrite !bool_decide_eq_true_2. Qed.

(** C16: delivery: with a broker that keeps accepting messages, one run publishes every
    event at the head of the backlog, as many as the batch holds and in delivery
    order, the stale claims of other publishers included, and reports them as
    published; none is retried, lost or left in processing. *)
Theorem run_once_delivers limit b s :
  good b → reachable s →
  let batch := take (Z.to_nat (batch_limit limit)) (sort_by delivery_order (backlog s)) in
  let n := Z.of_nat (length batch) in
  ∃ b' s', run_once describe self limit b s = ((Ok (mkRunResult n n 0 0), s'), b')
    ∧ reachable s' ∧ ∀ e, e ∈ batch → published_in s' (ob_id e).
Proof.
  intros Hb Hs batch n. pose proof (released_db_keyed s Hs) as HK.
  assert (NoDup (ob_id <$> batch)) as HN.
  { change (NoDup (row_id <$> batch)). by apply NoDup_page. }
  unfold run_once. rewrite claim_batch_run. change (claim_page limit s) with batch.
  unfold claimed_rows. change (claim_page limit s) with batch.
  set (rows := claims _ _ _ _). set (s1 := mkStore _ _ _).
  assert (reachable s1) as Hs1.
  { assert (s1 = exec s (ClaimBatch self limit)) as ->; [|by constructor].
    unfold exec. cbn [handler]. by rewrite run_ignore, claim_batch_run. }
  assert (length rows = length batch) as Hlen.
  { rewrite <-(length_fmap ob_id rows), <-(length_fmap ob_id batch). subst rows.
    by rewrite claims_ids. }
  destruct (publish_rows_deliver rows (mkRunResult (Z.of_nat (length rows)) 0 0 0) b s1 Hb Hs1)
    as (b' & s' & E & Hs' & Hp & _).
  - subst rows. by rewrite claims_ids.
  - apply Forall_forall. intros e He. split.
    + by apply claims_lookup.
    + apply list_elem_of_lookup in He as [i Hi]. apply claims_spec in Hi as (e0 & _ & ->).
      apply claimed_holds.
  - exists b', s'. rewrite E. split_and!; [|done|].
    + do 3 f_equal. unfold set_with. simpl. by rewrite Hlen.
    + intros e He. assert (ob_id e ∈ ob_id <$> rows) as Hin.
      { subst rows. rewrite claims_ids. by apply list_elem_of_fmap_2. }
      apply list_elem_of_fmap in Hin as (e' & -> & He'). by apply Hp.
Qed.
End delivery.

(** ** The in-memory broker *)

(** Connected, and nobody subscribes. *)
Definition quiet_broker (b : InMemoryBroker) : Prop := connected b = true ∧ _subscriptions b = [].

Lemma quiet_broker_accepts b m :
  quiet_broker b → ∃ ack b', publish b m = (inr ack, b') ∧ quiet_broker b'.
Proof.
  intros [Hc Hs]. unfold publish. simpl. unfold publish_in_memory. rewrite Hc. simpl.
  case_bool_decide; simpl; rewrite ?Hs; simpl; eexists _, _; by (split; [reflexivity|]).
Qed.

Definition no_text (e : exn) : error_info := mkError "" "IntegrityError".

(** Replica b runs while the claim of replica a on the only event is stale. *)
Definition later_store : store := exec stalled_store OutboxTotals.

Lemma run_once_delivers_witness :
  ∃ b' s', run_once no_text replica_b None (connect (new_broker "MEMORY")) later_store
      = ((Ok (mkRunResult 1 1 0 0), s'), b') ∧ published_in s' "id-2".
Proof.
  assert (reachable later_store) as Hl by exact (reachable_step _ _ stalled_store_reachable).
  destruct (run_once_delivers no_text replica_b delivery_uuid_inj quiet_broker
    quiet_broker_accepts None (connect (new_broker "MEMORY")) later_store (conj eq_refl eq_refl) Hl)
    as (b' & s' & E & _ & Hp).
  assert (map ob_id (take (Z.to_nat (batch_limit None)) (sort_by delivery_order (backlog later_store)))
    = ["id-2"]) as Hb by (vm_compute; reflexivity).
  exists b', s'. split.
  - rewrite E. apply (f_equal length) in Hb. rewrite length_map in Hb. rewrite Hb. reflexivity.
  - assert ("id-2" ∈ map ob_id (take (Z.to_nat (batch_limit None))
      (sort_by delivery_order (backlog later_store)))) as Hin by (rewrite Hb; left).
    apply list_elem_of_fmap in Hin as (e & Eid & He). rewrite Eid. exact (Hp e He).
Defined.

(** * Retries and replays

    The delay before a failed delivery is tried again, and the ids under which the
    broker recognises the deliveries of an event. *)

(** ** Delays *)
Lemma above_hundredth x : float_ltb one_hundredth x = true → nonnegative x.
Proof. by destruct x as [|[]| |[]]. Qed.

Lemma clipped_nonneg x : nonnegative (py_max one_hundredth x).
Proof.
  unfold py_max. destruct (float_ltb one_hundredth x) eqn:E; [by apply above_hundredth|done].
Qed.

(** The default settings: a second, doubled up to five minutes. *)
Definition default_retries `{!Env} : Prop :=
  gateway_outbox_retry_base_seconds settings = float_scale 1 0
  ∧ gateway_outbox_retry_max_seconds settings = float_scale 300 0.

Definition scheduled_delay (n : Z) : Z := seconds (Z.min 300 (2 ^ (n - 1))).

Section delays.
Context `{!Env}.

(** The delay of the settings, with its two floats given. *)
Definition delay_of (base cap : pyfloat) (n : Z) : result Z :=
  match float_of_int (2 ^ Z.max 0 (n - 1)) with
  | None => Raise OverflowError
  | Some factor =>
      match timedelta_seconds (py_max one_hundredth (py_min cap (float_mul base factor))) with
      | Some us => Ok us
      | None => Raise OverflowError
      end
  end.

Lemma default_delays :
  forallb (λ n, match delay_of (float_scale 1 0) (float_scale 300 0) n with
                | Ok us => us =? scheduled_delay n
                | Raise _ => false
                end) (seqZ 1 1024) = true.
Proof. vm_compute. reflexivity. Qed.

End delays.

(** ** Ids of deliveries *)
Lemma dict_get_map (f : pyval → pyval) d k :
  dict_has d k = true →
  dict_get (map (λ h, (h.1, f h.2)) d) k = f (dict_get d k).
Proof.
  unfold dict_has, dict_get, dict_get_or.
  induction d as [|[k' v] d IH]; simpl; [done|]. case_bool_decide; [done|]. exact IH.
Qed.

Lemma dict_get_has d k s : dict_get d k = PStr s → dict_has d k = true.
Proof. unfold dict_has, dict_get, dict_get_or. by destruct (dict_lookup k d). Qed.

(** The broker sees the delivery under the id of its replay, unless that is empty. *)
Lemma message_id_delivery e :
  event_ok e → ob_audit_event_id e ≠ "" → m_message_id (event_message e) = delivery_id e.
Proof.
  intros He Hne. pose proof (ok_delivery e He) as Hd. unfold event_message. simpl.
  rewrite (dict_get_map (λ v, PStr (py_str v))) by by eapply dict_get_has.
  rewrite Hd. simpl. unfold py_or. simpl. case_bool_decide as Hs; simpl; [|done].
  unfold delivery_id, replay_id in *. case_match; [by rewrite Hs|].
  apply (f_equal chars) in Hs. rewrite !chars_app in Hs. by destruct (chars (ob_audit_event_id e)).
Qed.

Lemma delivery_id_inj e e' :
  ob_audit_event_id e' = ob_audit_event_id e → delivery_id e' = delivery_id e →
  ob_replay_count e' = ob_replay_count e.
Proof.
  intros Ha. unfold delivery_id, replay_id. rewrite Ha. repeat case_match; intros E.
  - lia.
  - apply (f_equal (length ∘ chars)) in E. simpl in E. rewrite chars_app, length_app in E.
    simpl in E. lia.
  - apply (f_equal (length ∘ chars)) in E. simpl in E. rewrite chars_app, length_app in E.
    simpl in E. lia.
  - apply (f_equal chars) in E. rewrite !chars_app in E. apply app_inv_head in E.
    simpl in E. injection E as E%chars_inj. by apply (inj (pretty (A:=Z))) in E.
Qed.

Section ids.
Context `{!Env}.

(** The broker sees an event under one id until it is replayed, so that a delivery
    repeated after a lost claim is recognised, and under a new id after a replay, so
    that the replay is not taken for a duplicate. *)
Theorem replays_are_new_messages s ops id e e' :
  reachable s → outbox (st_db s) !! id = Some e → ob_audit_event_id e ≠ "" →
  outbox (st_db (exec_all s ops)) !! id = Some e' →
  m_message_id (event_message e') = m_message_id (event_message e)
  ↔ ob_replay_count e' = ob_replay_count e.
Proof.
  intros Hs He Hne He'.
  destruct (exec_all_kept event_evolves event_new event_evolution s ops id e Hs He)
    as (x & Hx & HE). assert (x = e') as -> by (simpl in Hx; congruence).
  pose proof (reachable_event_ok s id e Hs He) as Hok.
  assert (ob_audit_event_id e' = ob_audit_event_id e) as Ha by by injection (ev_terms _ _ HE).
  rewrite !message_id_delivery by (done || by apply (ev_ok _ _ HE) || by rewrite Ha).
  split; [by apply delivery_id_inj|].
  intros Hr. unfold delivery_id, replay_id. by rewrite Hr, Ha.
Qed.
End ids.

(** The event is published, and replayed. *)
Definition replay_ops : list op := [
  RecordSuccess replica_b "id-2" "id-4" (mkAck (Some "S") (Some 1) false);
  Replay replica_b "id-2" (Some "carol") None].

Lemma replays_are_new_messages_witness :
  ∃ e e', outbox (st_db taken_store) !! "id-2" = Some e
    ∧ outbox (st_db (exec_all taken_store replay_ops)) !! "id-2" = Some e'
    ∧ m_message_id (event_message e) = "id-1"
    ∧ m_message_id (event_message e') = "id-1:replay:1"
    ∧ (m_message_id (event_message e') = m_message_id (event_message e)
       ↔ ob_replay_count e' = ob_replay_count e).
Proof.
  eexists _, _. split; [vm_compute; reflexivity|]. split; [vm_compute; reflexivity|].
  split; [vm_compute; reflexivity|]. split; [vm_compute; reflexivity|].
  eapply (replays_are_new_messages taken_store replay_ops "id-2").
  - exact taken_store_reachable.
  - vm_compute. reflexivity.
  - intros E. discriminate E.
  - vm_compute. reflexivity.
Defined.

