(* ===== verification/RealtimeProofs.v ===== *)
(** * Realtime: the hub and the notifications

    The hub never keeps a target for a connection it has forgotten, and a broker event
    is turned into notifications at most once per replica. *)

From S2P Require Import Prelude PyStr PyVal Errors Models Database Session.
From S2P Require Import Preserve Rows Outbox Realtime Footprint System DeliveryDemo.

(** ** The hub *)

(** Every listed connection is known, and no target is left without connections. *)
Definition hub_ok (hub : LocalRealtimeHub) : Prop :=
  ∀ key ids, _targets hub !! key = Some ids → ids ≠ ∅ ∧ ids ⊆ _connections hub.

Lemma new_hub_ok : hub_ok new_hub.
Proof. intros key ids. simpl. by rewrite lookup_empty. Qed.

Lemma register_ok key c hub : hub_ok hub → hub_ok (register key c hub).
Proof.
  intros Hok key' ids. unfold register. set_simpl.
  destruct (decide (key = key')) as [<-|Hne].
  - rewrite lookup_insert_eq. intros [= <-]. destruct (_targets hub !! key) as [ids|] eqn:E; simpl.
    + destruct (Hok _ _ E). set_solver.
    + set_solver.
  - rewrite lookup_insert_ne by done. intros [? ?]%Hok. set_solver.
Qed.

Lemma unregister_targets c hub key ids :
  _targets (unregister c hub) !! key = Some ids ↔
  ∃ ids0, _targets hub !! key = Some ids0 ∧ ids = ids0 ∖ {[c]} ∧ ids ≠ ∅.
Proof.
  unfold unregister. set_simpl. rewrite lookup_omap_Some. unfold without. split.
  - intros (ids0 & Hw & E). exists ids0. by case_bool_decide; simplify_eq.
  - intros (ids0 & E & -> & Hne). exists ids0. by rewrite bool_decide_eq_false_2.
Qed.

Lemma unregister_ok c hub : hub_ok hub → hub_ok (unregister c hub).
Proof.
  intros Hok key ids (ids0 & E & -> & Hne)%unregister_targets. split; [done|].
  destruct (Hok _ _ E). unfold unregister. set_simpl. set_solver.
Qed.

Lemma connections_of_spec key hub c :
  hub_ok hub → c ∈ connections_of key hub ↔ c ∈ default ∅ (_targets hub !! key).
Proof.
  intros Hok. unfold connections_of. rewrite list_elem_of_filter, elem_of_elements.
  split; [tauto|]. intros Hc. split; [|done].
  destruct (_targets hub !! key) as [ids|] eqn:E; [|set_solver].
  destruct (Hok _ _ E). simpl in Hc. set_solver.
Qed.

Lemma connections_NoDup key hub : NoDup (connections_of key hub).
Proof. apply NoDup_filter, NoDup_elements. Qed.

Lemma unregister_connections c c' key hub :
  hub_ok hub → c' ∈ connections_of key (unregister c hub) ↔ c' ∈ connections_of key hub ∧ c' ≠ c.
Proof.
  intros Hok. rewrite !connections_of_spec by (done || by apply unregister_ok).
  destruct (_targets (unregister c hub) !! key) as [ids|] eqn:E.
  - apply unregister_targets in E as (ids0 & -> & -> & _). simpl. set_solver.
  - destruct (_targets hub !! key) as [ids|] eqn:E0; [|set_solver].
    assert (ids ∖ {[c]} = ∅) as Hid.
    { apply dec_stable. intros Hne. assert (_targets (unregister c hub) !! key = Some (ids ∖ {[c]})).
      - apply unregister_targets. eauto.
      - congruence. }
    simpl. set_solver.
Qed.

(** The loop of [send] over some of the connections. *)
Lemma send_loop works key l n hub :
  hub_ok hub → NoDup l →
  let '(d, hub') := foldl (send_one works) (n, hub) l in
  d = n + Z.of_nat (length (filter (λ c, works c = true) l)) ∧ hub_ok hub'
  ∧ ∀ c, c ∈ connections_of key hub' ↔
      c ∈ connections_of key hub ∧ (c ∈ l → works c = true).
Proof.
  revert n hub. induction l as [|c l IH]; intros n hub Hok HN.
  - simpl. split_and!; [lia|done|]. intros c. rewrite elem_of_nil. tauto.
  - apply NoDup_cons in HN as [Hc HN]. cbn [foldl send_one]. rewrite filter_cons.
    destruct (works c) eqn:Ew.
    + rewrite decide_True by done. specialize (IH (n + 1) hub Hok HN).
      destruct (foldl _ _ l) as [d hub']. destruct IH as (-> & Hok' & Hin).
      split_and!; [simpl; lia|done|]. intros c'. rewrite Hin, elem_of_cons.
      split; [intros [? ?]; split; [done|]; intros [->|?]; auto|tauto].
    + rewrite decide_False by done. specialize (IH n _ (unregister_ok c _ Hok) HN).
      destruct (foldl _ _ l) as [d hub']. destruct IH as (-> & Hok' & Hin).
      split_and!; [done|done|]. intros c'.
      rewrite Hin, unregister_connections, elem_of_cons by done. split.
      * intros [[? ?] ?]. split; [done|]. intros [->|?]; auto.
      * intros [? Hw]. split; [split; [done|]|auto]. intros ->. rewrite Hw in Ew by auto. done.
Qed.

Lemma send_spec works key hub :
  hub_ok hub →
  let '(d, hub') := send works key hub in
  d = Z.of_nat (length (filter (λ c, works c = true) (connections_of key hub)))
  ∧ hub_ok hub'
  ∧ ∀ c, c ∈ connections_of key hub' ↔ c ∈ connections_of key hub ∧ works c = true.
Proof.
  intros Hok. pose proof (send_loop works key (connections_of key hub) 0 hub Hok
    (connections_NoDup key hub)) as Hs. unfold send.
  destruct (foldl _ _ _) as [d hub']. destruct Hs as (-> & Hok' & Hin).
  split_and!; [lia|done|]. intros c. rewrite Hin. split; [intros [H1 H2]; auto|tauto].
Qed.

(** What a replica does to its hub. *)
Inductive hub_call : Type :=
  | Register (key : target) (connection : string)
  | Unregister (connection : string)
  | Send (works : string → bool) (key : target).

Definition hub_step (hub : LocalRealtimeHub) (c : hub_call) : LocalRealtimeHub :=
  match c with
  | Register key connection => register key connection hub
  | Unregister connection => unregister connection hub
  | Send works key => (send works key hub).2
  end.

Lemma hub_calls_ok calls hub : hub_ok hub → hub_ok (foldl hub_step hub calls).
Proof.
  revert hub. induction calls as [|c calls IH]; intros hub Hok; [done|]. apply IH.
  destruct c as [key c|c|works key]; simpl.
  - by apply register_ok.
  - by apply unregister_ok.
  - pose proof (send_spec works key hub Hok) as Hs. destruct (send works key hub). by destruct Hs as (_ & ? & _).
Qed.

(** After any calls, the hub lists only connections it knows and no empty target;
    sending to a target then counts exactly its connections whose socket works, and
    forgets exactly the others. *)
Theorem hub_sends_to_live_connections calls works key :
  let hub := foldl hub_step new_hub calls in
  hub_ok hub
  ∧ (send works key hub).1
    = Z.of_nat (length (filter (λ c, works c = true) (connections_of key hub)))
  ∧ ∀ c, c ∈ connections_of key (send works key hub).2 ↔
      c ∈ connections_of key hub ∧ works c = true.
Proof.
  intros hub. assert (hub_ok hub) as Hok.
  { apply hub_calls_ok, new_hub_ok. }
  split; [done|]. pose proof (send_spec works key hub Hok) as Hs.
  destruct (send works key hub). by destruct Hs as (? & _ & ?).
Qed.

(** ** Notifications *)
Section notifications.
Context `{!Env}.

(** The message has been processed. *)
Definition processed (id : string) (d : db) : Prop := is_Some (processed_messages d !! id).

Instance processed_stable id : Stable (processed id) ProcessedBrokerMessage.
Proof.
  intros r d [x Hx]. unfold processed. change (processed_messages ?d) with (tbl (R:=ProcessedBrokerMessage) d).
  rewrite tbl_put_row. destruct (decide (row_id r = id)) as [<-|Hne].
  - rewrite lookup_insert_eq. eauto.
  - rewrite lookup_insert_ne by done. eauto.
Qed.

Lemma processed_stays id s ops : processed id (st_db s) → processed id (st_db (exec_all s ops)).
Proof.
  revert s. induction ops as [|o ops IH]; intros s Hs; [done|]. apply (IH (exec s o)).
  apply exec_pres; [|done]. destruct o; frame.
Qed.

Lemma target_agent_ids_readonly e r : readonly (_target_agent_ids e r).
Proof. unfold _target_agent_ids, direct_targets, agents_in_room. ro_go. Qed.

(** What persisting an event leaves: the mark of the event, or nothing new. *)
Lemma persist_marks replica subject payload event w :
  be_dedupe_id event ≠ "" → committed w = working w →
  wp (_persist_broker_event replica subject payload event)
    (λ r w', ∀ ns, r = Ok ns → ns ≠ [] → processed (be_dedupe_id event) (committed w')) w.
Proof.
  intros Hne Hcw. unfold _persist_broker_event, already_processed.
  rewrite bool_decide_eq_false_2 by done. apply wp_bind.
  apply wp_readonly; [apply target_agent_ids_readonly|].
  intros r t n Hr. destruct r as [[|id ids]|e]; cbv beta iota.
  - apply wp_ret. intros ns E. by injection E as <-.
  - do 4 wp_step. wp_step. { wp_step. intros ns E. by injection E as <-. }
    do 2 wp_step. apply wp_bind, wp_any. intros [l|e] w1; cbv beta iota; [|by intros ns E].
    repeat wp_step; simpl in *; try discriminate; try by intros ns E.
    intros ns _ _. unfold processed. simpl. rewrite lookup_insert_eq. eauto.
  - by intros ns E.
Qed.

Lemma persist_processed replica subject payload event w :
  be_dedupe_id event ≠ "" → processed (be_dedupe_id event) (working w) →
  wp (_persist_broker_event replica subject payload event)
    (λ r w', (∀ ns, r = Ok ns → ns = []) ∧ committed w' = committed w) w.
Proof.
  intros Hne [x Hx]. unfold _persist_broker_event, already_processed.
  rewrite bool_decide_eq_false_2 by done. apply wp_bind.
  apply wp_readonly; [apply target_agent_ids_readonly|].
  intros r t n Hr. destruct r as [[|id ids]|e]; cbv beta iota.
  - apply wp_ret. split; [|done]. intros ns E. by injection E as <-.
  - do 4 wp_step. simpl. unfold lookup_row. simpl. rewrite Hx. simpl. apply wp_ret.
    split; [|done]. intros ns E. by injection E as <-.
  - split; [by intros ns E|done].
Qed.

(** A broker event is turned into notifications at most once per replica: once a
    replica has stored notifications for a message, any later delivery of the message
    to it, after whatever operations, stores nothing more. *)
Theorem notified_once replica subject payload event s ns ops subject' payload' event' :
  be_dedupe_id event ≠ "" → be_dedupe_id event' = be_dedupe_id event →
  (run (_persist_broker_event replica subject payload event) s).1 = Ok ns → ns ≠ [] →
  let later := exec_all (run (_persist_broker_event replica subject payload event) s).2 ops in
  let again := run (_persist_broker_event replica subject' payload' event') later in
  (∀ ns', again.1 = Ok ns' → ns' = []) ∧ st_db again.2 = st_db later.
Proof.
  intros Hne Heq Hok Hns later again.
  assert (processed (be_dedupe_id event) (st_db later)) as Hp.
  { apply processed_stays. revert Hok Hns.
    apply (run_wp (_persist_broker_event replica subject payload event)
      (λ r d, r = Ok ns → ns ≠ [] → processed (be_dedupe_id event) d)).
    eapply wp_mono; [by apply persist_marks|]. intros r w' Hr. apply Hr. }
  apply (run_wp (_persist_broker_event replica subject' payload' event')
    (λ r d, (∀ ns', r = Ok ns' → ns' = []) ∧ d = st_db later)).
  rewrite <-Heq in Hne, Hp. eapply wp_mono; [by apply persist_processed|]. done.
Qed.
End notifications.

(** A command for an agent with a route on replica a is delivered twice. *)
Definition route_store : store :=
  exec start (RegisterRoute "a" alice "agent" "agent-1" "connection" []).

Definition command_event : broker_event := {|
  be_event_type := "gateway.agent.command.issued.v1";
  be_envelope := [
    ("event_type", PStr "gateway.agent.command.issued.v1");
    ("owner_subject", PStr alice); ("actor_subject", PStr alice);
    ("payload", PDict [("target_agent_id", PStr "agent-1")])];
  be_dedupe_id := "a:event-1";
|}.

Lemma notified_once_witness :
  ∃ ns, ns ≠ []
    ∧ (run (_persist_broker_event "a" "s" "p" command_event) route_store).1 = Ok ns
    ∧ let later := (run (_persist_broker_event "a" "s" "p" command_event) route_store).2 in
      st_db (run (_persist_broker_event "a" "s" "p" command_event) later).2 = st_db later.
Proof.
  assert (∃ n, (run (_persist_broker_event "a" "s" "p" command_event) route_store).1 = Ok [n])
    as [n Hn] by (eexists; vm_compute; reflexivity).
  exists [n]. split; [intros E; discriminate E|]. split; [exact Hn|].
  refine (proj2 (notified_once "a" "s" "p" command_event route_store [n] [] "s" "p" command_event
    _ eq_refl Hn _)); intros E; discriminate E.
Defined.

(** ** A late delivery report

    The report of a delivery overwrites an acknowledgement that came before it. *)
Definition pending_note : string := "id-1".
Definition note_store : store := (run (_persist_broker_event "a" "s" "p" command_event) route_store).2.

Example acknowledgement_lost :
  let ops := [AcknowledgeNotification alice "agent" "agent-1" pending_note;
              RecordDeliveryResults [(pending_note, true)]] in
  (λ n, (rn_id n, rn_status n, is_none (rn_acknowledged_at n)))
    <$> rows (st_db (exec_all note_store ops)) = [(pending_note, "delivered", false)].
Proof. vm_compute. reflexivity. Qed.
