(* ===== verification/NotifyingProofs.v ===== *)
(** * From the outbox to the agents

    A replica reads from the message of an outbox event the event itself, and records
    for every notification whether a connection of its agent got it. *)

From S2P Require Import Prelude PyStr PyVal Json Errors Models Database Session.
From S2P Require Import Preserve Rows Outbox Broker Realtime Footprint System Evolution.
From S2P Require Import DeliveryDemo OutboxProofs Publishing PublishingProofs.
From S2P Require Import RealtimeProofs.

(** ** The message *)
Lemma header_lookup d k :
  header (map (λ h, (h.1, py_str h.2)) d) k
  = match dict_lookup k d with Some v => PStr (py_str v) | None => PNone end.
Proof.
  unfold header. induction d as [|[k' v] d IH]; simpl; [done|].
  case_bool_decide as Hk.
  - subst. by rewrite decide_True.
  - rewrite decide_False by done. revert IH.
    destruct (list_find (λ h, h.1 = k) (map (λ h, (h.1, py_str h.2)) d)) as [[i h]|]; simpl; done.
Qed.

Lemma message_header e k s :
  dict_get (ob_headers e) k = PStr s → k ≠ "Nats-Msg-Id" →
  header (m_headers (event_message e)) k = PStr s.
Proof.
  intros Hk Hne. unfold event_message. simpl. rewrite header_lookup, dict_lookup_set.
  rewrite bool_decide_eq_false_2 by done.
  pose proof (dict_get_map (λ v, PStr (py_str v)) _ _ (dict_get_has _ _ _ Hk)) as E.
  rewrite Hk in E. unfold dict_get, dict_get_or in E.
  destruct (dict_lookup k (map _ _)) as [v|]; [|discriminate E]. simpl in E. by subst v.
Qed.

Lemma message_header_id e :
  header (m_headers (event_message e)) "Nats-Msg-Id" = PStr (m_message_id (event_message e)).
Proof.
  unfold event_message. simpl. by rewrite header_lookup, dict_lookup_set, bool_decide_eq_true_2.
Qed.

Lemma py_or_str s v : s ≠ "" → py_or (PStr s) v = PStr s.
Proof. intros Hs. unfold py_or. simpl. by rewrite bool_decide_eq_false_2. Qed.

Lemma str_or_empty_str s v : s ≠ "" → str_or_empty (py_or (PStr s) v) = s.
Proof. intros Hs. unfold str_or_empty. by rewrite !py_or_str. Qed.

Lemma dict_has_map (f : pyval → pyval) d k :
  dict_has (map (λ kv, (kv.1, f kv.2)) d) k = dict_has d k.
Proof.
  unfold dict_has. f_equal. induction d as [|[k' v] d IH]; simpl; [done|]. by case_bool_decide.
Qed.

Lemma delivery_id_nonempty e : ob_audit_event_id e ≠ "" → delivery_id e ≠ "".
Proof.
  intros Ha. unfold delivery_id, replay_id. case_match; [done|]. intros E.
  apply (f_equal chars) in E. rewrite chars_app in E. by destruct (chars (ob_audit_event_id e)).
Qed.

Section messages.
Context `{!Env}.

(** C27: whatever replica receives the message of an event, it reads back the event: its
    type, its owner, its payload, and an id under which it is processed once per
    delivery.  (A payload that itself has an event type and a payload is taken for an
    envelope and unpacked.) *)
Theorem message_carries_event replica s id e :
  reachable s → outbox (st_db s) !! id = Some e →
  well_keyed (PDict (ob_payload e)) →
  ob_event_type e ≠ "" → ob_owner_subject e ≠ "" → ob_audit_event_id e ≠ "" →
  dict_get (ob_headers e) "X-Gateway-Actor-Subject" ≠ PStr "" →
  dict_has (ob_payload e) "payload" && dict_has (ob_payload e) "event_type" = false →
  ∃ event, received_event replica (event_message e) = Ok (Some event)
    ∧ be_event_type event = ob_event_type e
    ∧ dict_get (be_envelope event) "event_type" = PStr (ob_event_type e)
    ∧ dict_get (be_envelope event) "owner_subject" = PStr (ob_owner_subject e)
    ∧ dict_get (be_envelope event) "payload" = wire_of (PDict (ob_payload e))
    ∧ be_dedupe_id event = replica +:+ ":" +:+ delivery_id e.
Proof.
  intros Hs He Hk Ht Ho Ha Hact Hnest.
  pose proof (reachable_event_ok s id e Hs He) as Hok.
  destruct (ok_addressed e Hok) as (Htype & Howner & actor & Hactor).
  assert (actor ≠ "") as Hne by (intros ->; done).
  apply message_header in Htype, Howner, Hactor; [|done..].
  pose proof (message_header_id e) as Hid. rewrite message_id_delivery in Hid by done.
  pose proof (delivery_id_nonempty e Ha) as Hd.
  unfold received_event. change (m_payload (event_message e)) with (wire_bytes (PDict (ob_payload e))).
  rewrite wire_reads by done. cbn [wire_of]. unfold event_envelope.
  rewrite Htype, Howner, Hactor, Hid, !str_or_empty_str, !py_or_str by done.
  rewrite !bool_decide_eq_false_2 by done.
  rewrite !(dict_has_map wire_of), Hnest. cbn [orb]. eexists. split; [reflexivity|].
  split_and!; try done. cbn [be_dedupe_id]. rewrite (py_or_str (delivery_id e)) by done.
  rewrite str_or_empty_str by done. by rewrite bool_decide_eq_false_2.
Qed.
End messages.

(** The event of the new room, as replica b reads it. *)
Lemma message_carries_event_witness :
  ∃ e event, outbox (st_db enqueued_store) !! "id-2" = Some e
    ∧ received_event "b" (event_message e) = Ok (Some event)
    ∧ be_event_type event = "gateway.collaboration.room.created.v1"
    ∧ be_dedupe_id event = "b:id-1".
Proof.
  assert (∃ e, outbox (st_db enqueued_store) !! "id-2" = Some e
    ∧ well_keyed (PDict (ob_payload e))
    ∧ ob_event_type e = "gateway.collaboration.room.created.v1" ∧ ob_owner_subject e = "alice"
    ∧ ob_audit_event_id e = "id-1" ∧ delivery_id e = "id-1"
    ∧ dict_get (ob_headers e) "X-Gateway-Actor-Subject" = PStr "alice"
    ∧ dict_has (ob_payload e) "payload" && dict_has (ob_payload e) "event_type" = false)
    as (e & He & Hk & Ht & Ho & Ha & Hd & Hact & Hn).
  { eexists. split; [vm_compute; reflexivity|]. split; [|by split_and!].
    split; [|done]. apply (bool_decide_unpack _). vm_compute. exact I. }
  destruct (message_carries_event "b" enqueued_store "id-2" e enqueued_store_reachable He Hk)
    as (event & E & Et & _ & _ & _ & Ed); [congruence..|exact Hn|].
  exists e, event. rewrite <-Ht, <-Et. rewrite Hd in Ed. by split_and!.
Defined.

(** ** The notifications *)

(** Somebody listens on the target of a notification. *)
Definition reached (works : string → bool) (hub : LocalRealtimeHub) (n : RealtimeNotification)
    : bool :=
  existsb works (connections_of (rn_owner_subject n, rn_target_kind n, rn_target_id n) hub).

Lemma reached_spec works hub n :
  reached works hub n = true ↔
  ∃ c, c ∈ connections_of (rn_owner_subject n, rn_target_kind n, rn_target_id n) hub ∧ works c = true.
Proof.
  unfold reached. rewrite existsb_exists. split; intros (c & Hc & Hw); exists c; split; try done;
    by apply list_elem_of_In.
Qed.

Lemma send_reached works hub key n :
  hub_ok hub → hub_ok (send works key hub).2 ∧ reached works (send works key hub).2 n = reached works hub n.
Proof.
  intros Hok. pose proof (λ key', send_loop works key' (connections_of key hub) 0 hub Hok
    (connections_NoDup key hub)) as Hs. unfold send.
  destruct (foldl _ _ _) as [d hub']. simpl. split; [by destruct (Hs key) as (_ & ? & _)|].
  apply eq_true_iff_eq. rewrite !reached_spec.
  split; intros (c & Hc & Hw); exists c; (split; [|done]); destruct (Hs (rn_owner_subject n,
    rn_target_kind n, rn_target_id n)) as (_ & _ & Hin); apply Hin; [done|by split].
Qed.

Lemma send_notifications_spec works ns hub :
  hub_ok hub →
  (send_notifications works hub ns).1 = map (λ n, (rn_id n, reached works hub n)) ns.
Proof.
  revert hub. induction ns as [|n ns IH]; intros hub Hok; [done|]. simpl.
  unfold send_notification.
  set (key := (rn_owner_subject n, rn_target_kind n, rn_target_id n)).
  pose proof (send_spec works key hub Hok) as Hs.
  pose proof (λ n', send_reached works hub key n' Hok) as Hr.
  destruct (send works key hub) as [d hub']. simpl in Hr. destruct Hs as (Hd & Hok' & _).
  specialize (IH hub' Hok'). destruct (send_notifications works hub' ns) as [l hub2]. simpl in *.
  rewrite IH. f_equal.
  - f_equal. apply eq_true_iff_eq. rewrite reached_spec, negb_true_iff, Z.eqb_neq, Hd.
    destruct (filter _ _) as [|c l'] eqn:Ef.
    + split; [done|]. intros (c & Hc & Hw). exfalso.
      assert (c ∈ filter (λ c, works c = true) (connections_of key hub)) as Hin
        by by apply list_elem_of_filter.
      rewrite Ef in Hin. by apply not_elem_of_nil in Hin.
    + split; [|done]. intros _. exists c. assert (c ∈ c :: l') as Hin by left.
      rewrite <-Ef in Hin. apply list_elem_of_filter in Hin as [Hw Hc]. by split.
  - apply map_ext. intros n'. by destruct (Hr n') as [_ ->].
Qed.

Section notifications.
Context `{!Env}.

(** The notifications of a traversal that broke no constraint: new rows, all stored. *)
Definition stored (ns : list RealtimeNotification) (w w' : world) : Prop :=
  violated w' = false →
  violated w = false ∧ NoDup (rn_id <$> ns)
  ∧ (∀ n, n ∈ ns → realtime_notifications (working w) !! rn_id n = None
      ∧ realtime_notifications (working w') !! rn_id n = Some n ∧ rn_attempt_count n = 0
      ∧ rn_status n = "pending")
  ∧ (∀ i x, realtime_notifications (working w) !! i = Some x →
      realtime_notifications (working w') !! i = Some x).

Lemma new_notification_stored replica et env now t w :
  wp (new_notification replica et env now t) (λ r w', ∃ n, r = Ok n ∧ stored [n] w w') w.
Proof.
  unfold new_notification. repeat wp_step; eexists; (split; [reflexivity|]); intros Hv; simpl in *.
  - split; [done|]. match goal with Hi : insertable _ _ = true |- _ =>
      apply insertable_spec in Hi as [Hf _]; simpl in Hf end.
    split; [apply NoDup_singleton|]. split.
    + intros n ->%list_elem_of_singleton. simpl. split_and!; [done| |done|done].
      apply lookup_insert_eq.
    + intros i x Hx. rewrite lookup_insert_ne; [done|]. intros <-. by rewrite Hf in Hx.
  - discriminate.
Qed.

Lemma new_notifications_stored replica et env now ts w :
  wp (traverse (new_notification replica et env now) ts)
    (λ r w', ∃ ns, r = Ok ns ∧ stored ns w w') w.
Proof.
  revert w. induction ts as [|t ts IH]; intros w; simpl.
  - wp_step. exists []. split; [done|]. intros Hv. split_and!; [done|constructor| |done].
    by intros n ?%not_elem_of_nil.
  - wp_step. eapply wp_mono; [apply new_notification_stored|]. intros r w1 (n & -> & H1).
    wp_step. eapply wp_mono; [apply IH|]. intros r w2 (ns & -> & H2). wp_step.
    exists (n :: ns). split; [done|]. intros Hv.
    destruct (H2 Hv) as (Hv1 & HN & Hns & Hk2). destruct (H1 Hv1) as (Hv0 & _ & Hn & Hk1).
    destruct (Hn n) as (Hf & Hl & Ha & Hst); [by left|]. split_and!; [done| | |by auto].
    + simpl. constructor; [|done]. intros (n' & E & Hn')%list_elem_of_fmap.
      destruct (Hns n' Hn') as [Hf' _]. rewrite <-E, Hl in Hf'. done.
    + intros n' [->|Hn']%elem_of_cons; [by auto|].
      destruct (Hns n' Hn') as (Hf' & Hl' & Ha' & Hst'). split_and!; try done.
      destruct (realtime_notifications (working w) !! rn_id n') as [x|] eqn:Ex; [|done].
      apply Hk1 in Ex. congruence.
Qed.

(** Fresh notifications as the database has them. *)
Definition pending_in (ns : list RealtimeNotification) (d : db) : Prop :=
  NoDup (rn_id <$> ns)
  ∧ ∀ n, n ∈ ns → realtime_notifications d !! rn_id n = Some n
      ∧ rn_attempt_count n = 0 ∧ rn_status n = "pending".

Lemma stored_pending ns w w' :
  stored ns w w' → violated w' = false → pending_in ns (working w').
Proof.
  intros Hs Hv. destruct (Hs Hv) as (_ & HN & Hns & _). split; [done|].
  intros n Hn. by destruct (Hns n Hn) as (_ & ? & ? & ?).
Qed.

Lemma persist_pending replica subject payload event w :
  wp (_persist_broker_event replica subject payload event)
    (λ r w', ∀ ns, r = Ok ns → pending_in ns (committed w')) w.
Proof.
  assert (∀ d, pending_in [] d) as Hnil
    by (split; [constructor|]; by intros n ?%not_elem_of_nil).
  unfold _persist_broker_event. wp_step. apply wp_any. intros [[|id ids]|e] w1; cbv beta iota.
  - wp_step. by intros ns [= <-].
  - wp_step. apply wp_any. intros [[]|e] w2; cbv beta iota; [|  |done].
    { wp_step. by intros ns [= <-]. }
    do 3 wp_step. eapply wp_mono; [apply new_notifications_stored|]. intros r w3 (ns & -> & Hs).
    repeat wp_step; simpl in *; try discriminate; intros ns' E; simplify_eq;
      by eapply (stored_pending _ _ _ Hs).
  - done.
Qed.

(** Recording the results of pending notifications. *)
Lemma record_results_run now (f : RealtimeNotification → bool) ns w :
  pending_in ns (working w) →
  wp (foreach (record_result now) (map (λ n, (rn_id n, f n)) ns))
    (λ r w', r = Ok tt ∧ violated w' = violated w ∧ ticks w' = ticks w
      ∧ (∀ n, n ∈ ns → realtime_notifications (working w') !! rn_id n
          = Some (delivery_result now (f n) n))
      ∧ ∀ i, i ∉ rn_id <$> ns →
          realtime_notifications (working w') !! i = realtime_notifications (working w) !! i) w.
Proof.
  revert w. induction ns as [|n ns IH]; intros w [HN Hns]; simpl.
  - wp_step. split_and!; try done. by intros n ?%not_elem_of_nil.
  - apply NoDup_cons in HN as [Hn HN]. destruct (Hns n) as (Hl & _); [by left|].
    apply wp_bind. unfold record_result. wp_step. wp_step. unfold lookup_row. simpl.
    rewrite Hl. wp_step. set (w1 := on_working _ w).
    assert (pending_in ns (working w1)) as Hp.
    { split; [done|]. intros n' Hn'. destruct (Hns n') as (Hl' & ?); [by right|]. split; [|done].
      simpl. rewrite lookup_insert_ne; [done|]. simpl. intros E. apply Hn. 
      destruct (f n); simpl in E; rewrite E; by apply list_elem_of_fmap_2. }
    eapply wp_mono; [exact (IH w1 Hp)|]. intros r w' (-> & Hv & Ht & Hr & Hk).
    assert (∀ i, i ≠ rn_id n → realtime_notifications (working w1) !! i
      = realtime_notifications (working w) !! i) as Hw1.
    { intros i Hi. simpl. apply lookup_insert_ne. by destruct (f n). }
    split_and!; [done..| |].
    + intros n' [->|Hn']%elem_of_cons; [|by auto]. rewrite Hk by done. simpl.
      destruct (f n); apply lookup_insert_eq.
    + intros i [Hi Hi']%not_elem_of_cons. by rewrite Hk, Hw1.
Qed.

Lemma record_delivery_results_run (f : RealtimeNotification → bool) ns s :
  pending_in ns (st_db s) → ns ≠ [] →
  let outcome := run (_record_delivery_results (map (λ n, (rn_id n, f n)) ns)) s in
  outcome.1 = Ok tt ∧ ∀ n, n ∈ ns → realtime_notifications (st_db outcome.2) !! rn_id n
    = Some (delivery_result (clock (st_ticks s)) (f n) n).
Proof.
  intros Hp Hne.
  apply (run_wp (_record_delivery_results (map (λ n, (rn_id n, f n)) ns))
    (λ r d, r = Ok tt ∧ ∀ n, n ∈ ns → realtime_notifications d !! rn_id n
      = Some (delivery_result (clock (st_ticks s)) (f n) n))).
  unfold _record_delivery_results. do 2 wp_step. set (found := select _ _).
  assert (found ≠ []) as Hf.
  { destruct ns as [|n ns]; [done|]. intros E. assert (n ∈ found) as Hin.
    { apply elem_of_select. split; [apply bool_decide_eq_true; left|]. exists (rn_id n).
      by apply (proj2 Hp n (list_elem_of_here _ _)). }
    rewrite E in Hin. by apply not_elem_of_nil in Hin. }
  do 3 wp_step. eapply wp_mono; [by apply record_results_run|].
  intros r w' (-> & Hv & _ & Hr & _). destruct found; [done|].
  cbn [nonempty]. wp_step; simpl in *; [congruence|]. by split.
Qed.

End notifications.

(** Replica a gets the event of a command for the agent that is connected to it. *)
Definition command_message : message := mkMessage "gateway.gateway.agent.command.issued.v1"
  (wire_bytes (PDict [("target_agent_id", PStr "agent-1")]))
  "event-1" [("X-Gateway-Event-Type", "gateway.agent.command.issued.v1");
             ("X-Gateway-Actor-Subject", alice); ("Nats-Msg-Id", "event-1")].

Definition connected_hub : LocalRealtimeHub :=
  register (alice, "agent", "agent-1") "connection" new_hub.

Lemma command_message_stored :
  ∃ event n, received_event "a" command_message = Ok (Some event)
    ∧ (run (_persist_broker_event "a" (m_subject command_message) (m_payload command_message)
        event) route_store).1 = Ok [n]
    ∧ rn_id n = "id-1" ∧ rn_target_id n = "agent-1" ∧ reached (λ _, true) connected_hub n = true.
Proof.
  eexists _, _. split; [vm_compute; reflexivity|]. split; [vm_compute; reflexivity|].
  split_and!; vm_compute; reflexivity.
Qed.

