(* ===== verification/ChatSteps.v ===== *)
(** * The rows of the chat contexts

    The invariant of contexts and aliases, how they evolve, and the writes that the
    service makes: each keeps the invariant and only moves the rows on. *)

From S2P Require Import Prelude PyStr PyVal Errors Models Database Session Preserve.
From S2P Require Import Rows ChatContext System Evolution.

(** ** What never changes *)
Definition alias_terms (a : ChatContextAlias) :=
  (ca_id a, ca_context_id a, ca_owner_subject a, ca_code a, ca_generation a,
   ca_issued_at a, ca_created_at a).

Record alias_evolves (a a' : ChatContextAlias) : Prop := {
  ae_terms : alias_terms a' = alias_terms a;
  ae_replaced : is_Some (ca_replaced_by_alias_id a) →
    ca_replaced_by_alias_id a' = ca_replaced_by_alias_id a;
}.

Definition context_terms (c : ChatContext) :=
  (cc_id c, cc_owner_subject c, cc_host_kind c, cc_client_nonce c, cc_project_ref c,
   cc_created_at c).

Record context_evolves (c c' : ChatContext) : Prop := {
  xe_terms : context_terms c' = context_terms c;
  xe_generation : cc_generation c ≤ cc_generation c';
  xe_binding : is_Some (cc_conversation_ref_hmac c) →
    cc_conversation_ref_hmac c' = cc_conversation_ref_hmac c
    ∧ cc_conversation_key_version c' = cc_conversation_key_version c;
}.

#[export] Instance alias_evolves_preorder : PreOrder alias_evolves.
Proof.
  split; [by split|]. intros a b c [T1 R1] [T2 R2]. split; [congruence|].
  intros H. rewrite R2, R1; [done|done|]. by rewrite R1.
Qed.
#[export] Instance context_evolves_preorder : PreOrder context_evolves.
Proof.
  split; [by split|]. intros a b c [T1 G1 B1] [T2 G2 B2]. split; [congruence|lia|].
  intros H. destruct (B1 H) as [E1 E2]. rewrite <-E1, <-E2. apply B2. by rewrite E1.
Qed.

(** ** What is true of every row *)
Record alias_ok (d : db) (a : ChatContextAlias) : Prop := {
  al_status : ca_status a ∈ ["active"; "quarantined"; "released"];
  al_until : ca_status a = "quarantined" → is_Some (ca_quarantine_until a);
  al_context : ∃ c, chat_contexts d !! ca_context_id a = Some c
    ∧ cc_owner_subject c = ca_owner_subject a ∧ 1 ≤ ca_generation a ≤ cc_generation c
    ∧ (ca_status a = "active" → cc_state c = "active");
}.

(** The generations of a context are numbered without gaps; while it is active, it has
    an active alias, as soon as it has any. *)
Record context_ok (d : db) (c : ChatContext) : Prop := {
  co_state : cc_state c ∈ ["active"; "dormant"];
  co_generation : 0 ≤ cc_generation c;
  co_generations : ∀ g, 1 ≤ g ≤ cc_generation c →
    ∃ i a, chat_aliases d !! i = Some a ∧ ca_context_id a = cc_id c ∧ ca_generation a = g;
  co_active : cc_state c = "active" → cc_generation c ≠ 0 →
    ∃ i a, chat_aliases d !! i = Some a ∧ ca_context_id a = cc_id c ∧ ca_status a = "active";
  co_owner : _owner (cc_owner_subject c) = Ok (cc_owner_subject c);
}.

(** No two rows of the table break a unique index. *)
Definition separate {R} `{!Table R} (d : db) : Prop :=
  ∀ i j (a b : R), tbl d !! i = Some a → tbl d !! j = Some b → i ≠ j → row_clash a b = false.

Definition chat_inv (d : db) : Prop :=
  (keyed ChatContext d ∧ keyed ChatContextAlias d)
  ∧ separate (R:=ChatContext) d ∧ separate (R:=ChatContextAlias) d
  ∧ (∀ i c, chat_contexts d !! i = Some c → context_ok d c)
  ∧ ∀ i a, chat_aliases d !! i = Some a → alias_ok d a.

Definition alias_new (a : ChatContextAlias) : Prop := ca_replaced_by_alias_id a = None.
Definition context_new (c : ChatContext) : Prop :=
  cc_conversation_ref_hmac c = None ∧ cc_host_kind c = "chatgpt".

(** [d'] comes after [d]. *)
Definition later (d d' : db) : Prop :=
  chat_inv d' ∧ grows context_evolves context_new d d'
  ∧ grows alias_evolves alias_new d d'.

Lemma later_refl d : chat_inv d → later d d.
Proof. intros Hd. split; [done|]. split; apply grows_refl, _. Qed.

Lemma later_trans d1 d2 d3 : later d1 d2 → later d2 d3 → later d1 d3.
Proof.
  intros (_ & C1 & A1) (H & C2 & A2). split; [done|].
  split; [by transitivity d2|]. by transitivity d2.
Qed.

Lemma later_inv d d' : later d d' → chat_inv d'.
Proof. by intros [H _]. Qed.

Definition has_context (c : ChatContext) (d : db) : Prop := chat_contexts d !! cc_id c = Some c.
Definition has_alias (a : ChatContextAlias) (d : db) : Prop := chat_aliases d !! ca_id a = Some a.

Lemma later_context c d d' :
  later d d' → has_context c d → ∃ c', has_context c' d' ∧ context_evolves c c' ∧ cc_id c' = cc_id c.
Proof.
  intros (Hd & [Hg _] & _) Hc. destruct (Hg _ _ Hc) as (c' & Hc' & HE).
  destruct Hd as ((HK & _) & _). pose proof (HK _ _ Hc') as Ek. simpl in Ek.
  exists c'. split; [|done]. unfold has_context. by rewrite Ek.
Qed.

Lemma later_alias a d d' :
  later d d' → has_alias a d → ∃ a', has_alias a' d' ∧ alias_evolves a a' ∧ ca_id a' = ca_id a.
Proof.
  intros (Hd & _ & [Hg _]) Ha. destruct (Hg _ _ Ha) as (a' & Ha' & HE).
  destruct Hd as ((_ & HK) & _). pose proof (HK _ _ Ha') as Ek. simpl in Ek.
  exists a'. split; [|done]. unfold has_alias. by rewrite Ek.
Qed.

(** ** Clashes *)
Lemma clash_alias_false a b :
  clash_chat_aliases a b = false ↔
  ¬ (ca_owner_subject a = ca_owner_subject b ∧ ca_code a = ca_code b)
  ∧ ¬ (ca_context_id a = ca_context_id b ∧ ca_generation a = ca_generation b)
  ∧ ¬ (live_alias a = true ∧ live_alias b = true ∧ ca_code a = ca_code b)
  ∧ ¬ (ca_status a = "active" ∧ ca_status b = "active" ∧ ca_context_id a = ca_context_id b).
Proof.
  unfold clash_chat_aliases.
  rewrite !orb_false_iff, <-!not_true_iff_false, !andb_true_iff, !bool_decide_eq_true, Z.eqb_eq.
  tauto.
Qed.

Lemma clash_alias_sym a b : clash_chat_aliases a b = false → clash_chat_aliases b a = false.
Proof.
  rewrite !clash_alias_false. intros (H1 & H2 & H3 & H4).
  split_and!; intros ?; destruct_and?; [apply H1|apply H2|apply H3|apply H4]; auto.
Qed.

Lemma live_alias_spec a : live_alias a = true ↔ ca_status a = "active" ∨ ca_status a = "quarantined".
Proof. unfold live_alias. rewrite bool_decide_eq_true, !elem_of_cons, elem_of_nil. tauto. Qed.

(** An alias that is not more alive than before clashes with no more rows. *)
Lemma clash_weaken a a' b :
  alias_terms a' = alias_terms a → (live_alias a' = true → live_alias a = true) →
  (ca_status a' = "active" → ca_status a = "active") →
  clash_chat_aliases a b = false → clash_chat_aliases a' b = false.
Proof.
  intros [= _ E1 E2 E3 E4 _ _] Hl Hs. rewrite !clash_alias_false, E1, E2, E3, E4. tauto.
Qed.

Lemma clash_context_same c c' x :
  context_terms c' = context_terms c →
  cc_conversation_ref_hmac c' = cc_conversation_ref_hmac c →
  clash_chat_contexts c x = false → clash_chat_contexts c' x = false.
Proof.
  intros [= _ E1 E2 E3 _ _] E4. unfold clash_chat_contexts, same_key. by rewrite E1, E2, E3, E4.
Qed.

Lemma clash_context_sym c x : clash_chat_contexts c x = false → clash_chat_contexts x c = false.
Proof.
  unfold clash_chat_contexts, same_key.
  rewrite !orb_false_iff, <-!not_true_iff_false, !andb_true_iff, !negb_true_iff,
    !bool_decide_eq_true.
  intros [H1 H2]. split; [intros [[Hn E] Eo]; apply H1|intros (Eh & [Hn E] & Eo); apply H2];
    rewrite E in Hn; auto.
Qed.

(** The rows of a table stay separate when a row that clashes with no other is written. *)
Lemma separate_put {R} `{!Table R, !TableOk R} (r : R) d :
  separate (R:=R) d → (∀ a b : R, row_clash a b = false → row_clash b a = false) →
  (∀ i b, tbl d !! i = Some b → i ≠ row_id r → row_clash r b = false) →
  separate (R:=R) (put_row r d).
Proof.
  intros Hs Hsym Hr i j a b. rewrite !tbl_put_row. intros Ha Hb Hne.
  apply lookup_insert_Some in Ha as [[<- <-]|[Hi Ha]], Hb as [[<- <-]|[Hj Hb]]; [done| | |].
  - by apply (Hr j).
  - apply Hsym. by apply (Hr i).
  - by eapply Hs.
Qed.

(** ** Writing an alias together with its context *)

(** How the states of the two change together. *)
Definition moved_together (a a' : ChatContextAlias) (c c' : ChatContext) : Prop :=
  ((cc_state c' = "active" ↔ ca_status a' = "active")
     ∧ (ca_status a = "active" ∨ ca_status a' = "active"))
  ∨ (cc_state c' = cc_state c ∧ ca_status a ≠ "active" ∧ ca_status a' ≠ "active")
  ∨ (cc_state c' = cc_state c ∧ ca_status a' = ca_status a).

Section write.
Context (d : db) (a a' : ChatContextAlias) (c c' : ChatContext).
Context (Hinv : chat_inv d) (Ha : has_alias a d) (Hc : has_context c d).
Context (Hac : ca_context_id a = cc_id c).
Context (HEa : alias_evolves a a') (HEc : context_evolves c c').
Context (Hgen : cc_generation c' = cc_generation c).
Context (Hbind : cc_conversation_ref_hmac c' = cc_conversation_ref_hmac c).
Context (Hstatus : ca_status a' ∈ ["active"; "quarantined"; "released"]).
Context (Huntil : ca_status a' = "quarantined" → is_Some (ca_quarantine_until a')).
Context (Hstate : cc_state c' ∈ ["active"; "dormant"]).
Context (Hclash : ∀ i b, chat_aliases d !! i = Some b → i ≠ ca_id a → clash_chat_aliases a' b = false).
Context (Hmoved : moved_together a a' c c').

Let d' := put_row c' (put_row a' d).

Lemma write_terms : ca_id a' = ca_id a ∧ ca_context_id a' = cc_id c ∧ ca_owner_subject a' = ca_owner_subject a
  ∧ ca_generation a' = ca_generation a ∧ cc_id c' = cc_id c ∧ cc_owner_subject c' = cc_owner_subject c.
Proof.
  destruct HEa as [[=] _], HEc as [[=] _ _]. repeat split; congruence.
Qed.

Lemma write_aliases i b : chat_aliases d' !! i = Some b ↔
  (i = ca_id a ∧ b = a') ∨ (i ≠ ca_id a ∧ chat_aliases d !! i = Some b).
Proof.
  destruct write_terms as (E & _). change (chat_aliases d') with (<[ca_id a' := a']> (chat_aliases d)).
  rewrite E, lookup_insert_Some. intuition congruence.
Qed.

Lemma write_contexts i x : chat_contexts d' !! i = Some x ↔
  (i = cc_id c ∧ x = c') ∨ (i ≠ cc_id c ∧ chat_contexts d !! i = Some x).
Proof.
  destruct write_terms as (_ & _ & _ & _ & E & _).
  change (chat_contexts d') with (<[cc_id c' := c']> (chat_contexts d)).
  rewrite E, lookup_insert_Some. intuition congruence.
Qed.

(** Another active alias of the context excludes the first two ways of moving. *)
Lemma write_other i b :
  chat_aliases d !! i = Some b → i ≠ ca_id a → ca_context_id b = cc_id c →
  ca_status b = "active" → ca_status a ≠ "active" ∧ ca_status a' ≠ "active".
Proof.
  intros Hb Hne Eb Hs. destruct Hinv as (_ & _ & Hsep & _), write_terms as (_ & E & _).
  assert (clash_chat_aliases a b = false) as H1 by (by eapply (Hsep _ _ a b Ha Hb)).
  pose proof (Hclash i b Hb Hne) as H2. rewrite clash_alias_false in H1, H2.
  split; intros Hact; [apply H1|apply H2]; split_and!; congruence.
Qed.

Lemma write_context_ok i x : chat_contexts d' !! i = Some x → context_ok d' x.
Proof.
  pose proof Hinv as ((HK & _) & _ & _ & HC & _). destruct write_terms as (Ei & Ex & _ & Eg & Ec & Eo).
  assert (∀ x g, (∃ i b, chat_aliases d !! i = Some b ∧ ca_context_id b = cc_id x ∧ ca_generation b = g) →
    ∃ i b, chat_aliases d' !! i = Some b ∧ ca_context_id b = cc_id x ∧ ca_generation b = g) as Hgens.
  { intros y g (j & b & Hb & E1 & E2). destruct (decide (j = ca_id a)) as [->|Hne].
    - assert (b = a) as -> by (unfold has_alias in Ha; congruence).
      exists (ca_id a), a'. split; [apply write_aliases; by left|]. split; congruence.
    - exists j, b. split; [apply write_aliases; by right|done]. }
  intros [[-> ->]|[Hne Hx]]%write_contexts.
  - pose proof (HC _ _ Hc) as [Hs Hg Hgs Hact Hown]. split; [done|lia| | |by rewrite Eo].
    + intros g Hg'. rewrite Ec. apply Hgens, Hgs. lia.
    + intros Hs' Hg'. rewrite Hgen in Hg'.
      assert (ca_status a' = "active" ∨ cc_state c = "active" ∧ ca_status a' ≠ "active"
        ∧ (ca_status a = "active" → False)) as [Ha'|(Hsc & Hna' & Hna)].
      { destruct (decide (ca_status a' = "active")) as [?|Hn]; [by left|right].
        destruct Hmoved as [[H1 _]|[(H1 & H2 & _)|[H1 H2]]].
        - by apply H1 in Hs'.
        - rewrite <-H1. split_and!; [done|done|]. by intros ?.
        - rewrite <-H1. split_and!; [done|done|]. by rewrite <-H2. }
      * exists (ca_id a), a'. split; [apply write_aliases; by left|]. split; congruence.
      * destruct (Hact Hsc Hg') as (j & b & Hb & E1 & E2). exists j, b. split; [|by rewrite Ec].
        apply write_aliases. right. split; [|done]. intros ->.
        assert (b = a) as -> by (unfold has_alias in Ha; congruence). by apply Hna.
  - pose proof (HC _ _ Hx) as [Hs Hg Hgs Hact Hown]. split; [done|done| | |done].
    + intros g Hg'. by apply Hgens, Hgs.
    + intros Hs' Hg'. destruct (Hact Hs' Hg') as (j & b & Hb & E1 & E2). exists j, b.
      split; [|done]. apply write_aliases. right. split; [|done]. intros ->.
      assert (b = a) as -> by (unfold has_alias in Ha; congruence).
      apply Hne. rewrite <-Hac, E1. symmetry. by apply (HK _ _ Hx).
Qed.

Lemma write_alias_ok i b : chat_aliases d' !! i = Some b → alias_ok d' b.
Proof.
  pose proof Hinv as ((HK & HKa) & _ & _ & _ & HA). destruct write_terms as (Ei & Ex & Eo & Eg & Ec & Eco).
  pose proof (HA _ _ Ha) as [_ _ (c0 & Hc0 & Hown & Hg & Hact)].
  assert (c0 = c) as -> by (unfold has_context in Hc; rewrite Hac in Hc0; congruence).
  intros [[-> ->]|[Hne Hb]]%write_aliases.
  - split; [done|done|]. exists c'. split; [apply write_contexts; left; by rewrite Ex|].
    split_and!; [congruence|lia..|]. intros Ha'.
    destruct Hmoved as [[H1 _]|[(H1 & _ & H2)|[H1 H2]]]; [by apply H1|done|].
    rewrite H1. apply Hact. congruence.
  - pose proof (HA _ _ Hb) as [Hs Hu (x & Hx & Hox & Hgx & Hax)]. split; [done|done|].
    destruct (decide (ca_context_id b = cc_id c)) as [Eb|Hneb].
    + assert (x = c) as -> by (unfold has_context in Hc; rewrite Eb in Hx; congruence).
      exists c'. split; [apply write_contexts; by left|]. split_and!; [congruence|lia..|].
      intros Hsb. destruct (write_other i b Hb Hne Eb Hsb) as [Hn Hn'].
      destruct Hmoved as [[_ [?|?]]|[(H1 & _)|[H1 _]]]; [done|done|rewrite H1; auto..].
    + exists x. split; [|done]. apply write_contexts. by right.
Qed.

Lemma later_write : later d d'.
Proof.
  destruct Hinv as ((HK & HKa) & Hsc & Hsa & HC & HA), write_terms as (Ei & _ & _ & _ & Ec & _).
  split; [|split].
  - split_and!.
    + by apply keyed_put.
    + change (keyed ChatContextAlias (put_row a' d)). by apply keyed_put.
    + apply separate_put; [exact Hsc|exact clash_context_sym|].
      intros i b Hb Hne. eapply clash_context_same; [apply HEc|done|].
      change (i ≠ cc_id c') in Hne. rewrite Ec in Hne. apply (Hsc (cc_id c) i c b); [done..|congruence].
    + change (separate (R:=ChatContextAlias) (put_row a' d)).
      apply separate_put; [done|exact clash_alias_sym|]. intros i b Hb Hne.
      change (i ≠ ca_id a') in Hne. rewrite Ei in Hne. by apply (Hclash i).
    + exact write_context_ok.
    + exact write_alias_ok.
  - assert (evolved context_evolves context_new d (put_row c' d)) as [_ H]; [|exact H].
    apply (evolved_write context_evolves context_new d d (cc_id c) c);
      [by split; [|apply grows_refl, _]|exact Hc|exact Ec|done].
  - assert (evolved alias_evolves alias_new d (put_row a' d)) as [_ H]; [|exact H].
    apply (evolved_write alias_evolves alias_new d d (ca_id a) a);
      [by split; [|apply grows_refl, _]|exact Ha|exact Ei|done].
Qed.
End write.

(** ** The writes of the service *)
Definition holds (c : ChatContext) (a : ChatContextAlias) (d : db) : Prop :=
  has_context c d ∧ has_alias a d ∧ ca_context_id a = cc_id c.

Lemma put_same_context (c : ChatContext) d : has_context c d → put_row c d = d.
Proof.
  intros Hc. unfold put_row. simpl. unfold has_context in Hc.
  destruct d; cbn in *. unfold set_with. cbn. by rewrite insert_id.
Qed.

Lemma has_put_context (c : ChatContext) d : has_context c (put_row c d).
Proof. apply lookup_insert_eq. Qed.
Lemma has_put_alias (a : ChatContextAlias) d : has_alias a (put_row a d).
Proof. apply lookup_insert_eq. Qed.

Lemma has_context_put_alias c (a : ChatContextAlias) d : has_context c d → has_context c (put_row a d).
Proof. unfold has_context, put_row, set_with. by simpl. Qed.
Lemma has_alias_put_context a (c : ChatContext) d : has_alias a d → has_alias a (put_row c d).
Proof. unfold has_alias, put_row, set_with. by simpl. Qed.

(** The rows that clashed with no other still do not. *)
Lemma still_separate d a a' :
  chat_inv d → has_alias a d → alias_terms a' = alias_terms a →
  (live_alias a' = true → live_alias a = true) →
  (ca_status a' = "active" → ca_status a = "active") →
  ∀ i b, chat_aliases d !! i = Some b → i ≠ ca_id a → clash_chat_aliases a' b = false.
Proof.
  intros (_ & _ & Hs & _) Ha Ht Hl Hact i b Hb Hne. eapply clash_weaken; [done..|].
  by apply (Hs (ca_id a) i).
Qed.

Section moves.
Context `{!Env}.
Implicit Types (d : db) (c : ChatContext) (a : ChatContextAlias).

Lemma alias_status d a : chat_inv d → has_alias a d →
  ca_status a ∈ ["active"; "quarantined"; "released"].
Proof. intros (_ & _ & _ & _ & HA) Ha. apply (HA _ _ Ha). Qed.
Lemma context_state d c : chat_inv d → has_context c d → cc_state c ∈ ["active"; "dormant"].
Proof. intros (_ & _ & _ & HC & _) Hc. apply (HC _ _ Hc). Qed.

Lemma active_context d c a :
  chat_inv d → holds c a d → ca_status a = "active" → cc_state c = "active".
Proof.
  intros (_ & _ & _ & _ & HA) (Hc & Ha & E) Hs.
  destruct (HA _ _ Ha) as [_ _ (x & Hx & _ & _ & Hact)].
  unfold has_context in Hc. rewrite E in Hx. rewrite Hc in Hx. injection Hx as ->. auto.
Qed.

(** The alias alone changes, and is neither activated nor deactivated. *)
Lemma later_alias_write d c a a' :
  chat_inv d → holds c a d → alias_evolves a a' →
  ca_status a' ∈ ["active"; "quarantined"; "released"] →
  (ca_status a' = "quarantined" → is_Some (ca_quarantine_until a')) →
  (live_alias a' = true → live_alias a = true) →
  ca_status a' = ca_status a ∨ (ca_status a ≠ "active" ∧ ca_status a' ≠ "active") →
  later d (put_row a' d).
Proof.
  intros Hd (Hc & Ha & E) HE Hs Hu Hl Hm.
  rewrite <-(put_same_context c (put_row a' d)) by exact (has_context_put_alias c a' d Hc).
  apply (later_write d a a' c c); try done.
  - by eapply context_state.
  - apply (still_separate d a a'); [done|done|apply HE|done|]. destruct Hm as [->|[_ ?]]; [done|]. by intros ?.
  - destruct Hm as [Hm|[? ?]]; right; [right|left]; done.
Qed.

Lemma later_expire d c a now :
  chat_inv d → holds c a d → ca_status a = "active" →
  later d (put_row (c <| cc_state := "dormant" |> <| cc_updated_at := now |>)
             (put_row (quarantined_alias now a) d)).
Proof.
  intros Hd (Hc & Ha & E) Hs. apply (later_write d a _ c); try done.
  - set_solver.
  - simpl. set_solver.
  - apply (still_separate d a); try done. intros _. apply live_alias_spec. by left.
  - left. simpl. split; [done|by left].
Qed.

Lemma later_release d c a now :
  chat_inv d → holds c a d → ca_status a = "quarantined" → later d (put_row (released_alias now a) d).
Proof.
  intros Hd Hh Hs. eapply later_alias_write; [done|done|done|simpl; set_solver|done| |].
  - rewrite !live_alias_spec. simpl. by right.
  - right. simpl. by rewrite Hs.
Qed.

Lemma later_renew d c a now :
  chat_inv d → holds c a d → ca_status a = "active" →
  later d (put_row (c <| cc_last_seen_at := now |> <| cc_updated_at := now |>
                      <| cc_state := "active" |>)
             (put_row (a <| ca_last_seen_at := now |> <| ca_updated_at := now |>) d)).
Proof.
  intros Hd (Hc & Ha & E) Hs. apply (later_write d a _ c); try done.
  - simpl. rewrite Hs. set_solver.
  - simpl. by rewrite Hs.
  - simpl. set_solver.
  - by apply (still_separate d a).
  - left. simpl. rewrite Hs. split; [done|by left].
Qed.

Lemma later_extend d c a expiry :
  chat_inv d → holds c a d → later d (put_row (a <| ca_expires_at := expiry |>) d).
Proof.
  intros Hd Hh. pose proof Hh as (Hc & Ha & E). pose proof Hd as (_ & _ & _ & _ & HA).
  destruct (HA _ _ Ha) as [H1 H2 _]. by eapply later_alias_write; eauto.
Qed.

Lemma later_replaced d c a by_id now :
  chat_inv d → holds c a d → ca_replaced_by_alias_id a = None →
  later d (put_row (a <| ca_replaced_by_alias_id := Some by_id |> <| ca_updated_at := now |>) d).
Proof.
  intros Hd Hh Hr. pose proof Hh as (Hc & Ha & E). pose proof Hd as (_ & _ & _ & _ & HA).
  destruct (HA _ _ Ha) as [H1 H2 _]. eapply later_alias_write; eauto.
  split; [done|]. rewrite Hr. by intros [? ?].
Qed.

Lemma later_reactivate d c a now :
  chat_inv d → holds c a d → updatable (reactivated_alias now a) d = true →
  later d (put_row (c <| cc_state := "active" |> <| cc_last_seen_at := now |>
                      <| cc_updated_at := now |>) (put_row (reactivated_alias now a) d)).
Proof.
  intros Hd (Hc & Ha & E) Hu. pose proof (proj1 (updatable_spec _ _) Hu) as Hu'.
  apply (later_write d a _ c); try done.
  - simpl. set_solver.
  - simpl. set_solver.
  - intros i b Hb Hne. apply (Hu' i b Hb). simpl. destruct Hd as ((_ & HK) & _).
    by rewrite (HK i b Hb : ca_id b = i).
  - left. simpl. split; [done|by right].
Qed.
(** A context changes, but for its terms, its state and the generation it counts. *)
Lemma later_context_write d c c' :
  chat_inv d → has_context c d → context_evolves c c' → cc_generation c' = cc_generation c →
  cc_state c' = cc_state c →
  (∀ i x, chat_contexts d !! i = Some x → i ≠ cc_id c → clash_chat_contexts c' x = false) →
  later d (put_row c' d).
Proof.
  intros Hd Hc HE Hg Hs Hclash. pose proof Hd as ((HK & HKa) & Hsc & Hsa & HC & HA).
  assert (cc_id c' = cc_id c ∧ cc_owner_subject c' = cc_owner_subject c) as [Ei Eo]
    by (destruct HE as [[=] _ _]; done).
  assert (∀ i x, chat_contexts (put_row c' d) !! i = Some x →
    (i = cc_id c ∧ x = c') ∨ (i ≠ cc_id c ∧ chat_contexts d !! i = Some x)) as Hput.
  { intros i x. change (chat_contexts (put_row c' d)) with (<[cc_id c' := c']> (chat_contexts d)).
    rewrite Ei, lookup_insert_Some. intuition. }
  split; [split_and!|split].
  - by apply keyed_put.
  - exact HKa.
  - apply separate_put; [done|exact clash_context_sym|]. intros i b Hb Hne.
    apply (Hclash i); [done|]. by rewrite <-Ei.
  - exact Hsa.
  - intros i x [[-> ->]|[_ Hx]]%Hput; [|destruct (HC _ _ Hx); by split].
    destruct (HC _ _ Hc) as [? ? Hgs Hact Hown]. split; rewrite ?Hs, ?Hg, ?Ei, ?Eo; done.
  - intros i a Ha. destruct (HA _ _ Ha) as [? ? (x & Hx & Ho & Hgen & Hact)]. split; [done|done|].
    destruct (decide (ca_context_id a = cc_id c)) as [Ea|Hne].
    + assert (x = c) as -> by (unfold has_context in Hc; congruence). exists c'. rewrite Eo, Hs, Hg.
      split; [|done]. rewrite Ea, <-Ei. apply has_put_context.
    + exists x. split; [|done]. change (chat_contexts (put_row c' d)) with (<[cc_id c' := c']> (chat_contexts d)).
      by rewrite Ei, lookup_insert_ne.
  - assert (evolved context_evolves context_new d (put_row c' d)) as [_ Hev]; [|exact Hev].
    apply (evolved_write context_evolves context_new d d (cc_id c) c);
      [by split; [|apply grows_refl, _]|exact Hc|exact Ei|done].
  - change (grows alias_evolves alias_new d d). apply grows_refl, _.
Qed.

Lemma later_touch d c now :
  chat_inv d → has_context c d →
  later d (put_row (c <| cc_last_seen_at := now |> <| cc_updated_at := now |>) d).
Proof.
  intros Hd Hc. apply (later_context_write d c); try done. intros i x Hx Hne.
  eapply (clash_context_same c); [done..|]. destruct Hd as (_ & Hsc & _). by apply (Hsc (cc_id c) i).
Qed.

Lemma later_bind d c digest version now :
  let c' := c <| cc_conversation_ref_hmac := Some digest |>
              <| cc_conversation_key_version := Some version |>
              <| cc_last_seen_at := now |> <| cc_updated_at := now |> in
  chat_inv d → has_context c d → cc_conversation_ref_hmac c = None →
  updatable c' d = true → later d (put_row c' d).
Proof.
  intros c' Hd Hc Hb Hu. pose proof (proj1 (updatable_spec c' d) Hu) as Hu'. apply (later_context_write d c); try done.
  - split; [done|simpl; lia|]. rewrite Hb. by intros [? ?].
  - intros i x Hx Hne. apply (Hu' i x Hx). destruct Hd as ((HK & _) & _).
    by rewrite (HK i x Hx).
Qed.

Lemma later_new_context d c :
  chat_inv d → insertable c d = true → cc_generation c = 0 → cc_state c = "active" →
  context_new c → _owner (cc_owner_subject c) = Ok (cc_owner_subject c) →
  later d (put_row c d).
Proof.
  intros Hd Hi Hg Hs Hn Hown. pose proof (proj1 (insertable_spec _ _) Hi) as [Hfree Hclash].
  pose proof Hd as ((HK & HKa) & Hsc & Hsa & HC & HA).
  split; [split_and!|split].
  - by apply keyed_put.
  - exact HKa.
  - apply separate_put; [done|exact clash_context_sym|]. intros; by eapply Hclash.
  - exact Hsa.
  - intros i x Hx. change (<[cc_id c := c]> (chat_contexts d) !! i = Some x) in Hx.
    apply lookup_insert_Some in Hx as [[<- <-]|[_ Hx]]; [|destruct (HC _ _ Hx); by split].
    split; [rewrite Hs; set_solver|lia| |done|done]. intros g ?. lia.
  - intros i a Ha. destruct (HA _ _ Ha) as [? ? (x & Hx & Hrest)]. split; [done|done|].
    exists x. split; [|done].
    change (chat_contexts (put_row c d)) with (<[cc_id c := c]> (chat_contexts d)).
    rewrite lookup_insert_ne; [exact Hx|]. intros E. simpl in Hfree. congruence.
  - assert (evolved context_evolves context_new d (put_row c d)) as [_ Hev]; [|exact Hev].
    apply (evolved_insert context_evolves context_new d d c);
      [done|by split; [|apply grows_refl, _]|done].
  - change (grows alias_evolves alias_new d d). apply grows_refl, _.
Qed.
(** A new generation: the alias and its context, written together. *)
Lemma later_new_alias d c id code now :
  let a := new_alias c id code now in
  let c' := context_with_alias c (cc_generation c + 1) now in
  chat_inv d → has_context c d → insertable a d = true → later d (put_row c' (put_row a d)).
Proof.
  intros a c' Hd Hc Hi. pose proof (proj1 (insertable_spec a d) Hi) as [Hfree Hclash].
  pose proof Hd as ((HK & HKa) & Hsc & Hsa & HC & HA). set (d1 := put_row c' (put_row a d)).
  assert (∀ i b, chat_aliases d1 !! i = Some b ↔
    (i = id ∧ b = a) ∨ (i ≠ id ∧ chat_aliases d !! i = Some b)) as Haliases.
  { intros i b. change (chat_aliases d1) with (<[id := a]> (chat_aliases d)).
    rewrite lookup_insert_Some. intuition congruence. }
  assert (∀ i x, chat_contexts d1 !! i = Some x ↔
    (i = cc_id c ∧ x = c') ∨ (i ≠ cc_id c ∧ chat_contexts d !! i = Some x)) as Hcontexts.
  { intros i x. change (chat_contexts d1) with (<[cc_id c := c']> (chat_contexts d)).
    rewrite lookup_insert_Some. intuition congruence. }
  assert (∀ i b, chat_aliases d !! i = Some b → chat_aliases d1 !! i = Some b) as Hold.
  { intros i b Hb. apply Haliases. right. split; [|done]. intros ->. simpl in Hfree. congruence. }
  destruct (HC _ _ Hc) as [Hcs Hcg Hgens Hact Hown].
  split; [split_and!|split].
  - by apply keyed_put.
  - change (keyed ChatContextAlias (put_row a d)). by apply keyed_put.
  - apply separate_put; [exact Hsc|exact clash_context_sym|]. intros i x Hx Hne.
    apply (clash_context_same c); [done..|]. by apply (Hsc (cc_id c) i).
  - change (separate (R:=ChatContextAlias) (put_row a d)).
    apply separate_put; [done|exact clash_alias_sym|]. intros i b Hb _. by eapply Hclash.
  - intros i x [[-> ->]|[Hne Hx]]%Hcontexts; split; simpl; [set_solver|lia|..].
    + intros g Hg. destruct (decide (g = cc_generation c + 1)) as [->|].
      * exists id, a. split; [apply Haliases; by left|done].
      * destruct (Hgens g) as (j & b & Hb & ?); [lia|]. eauto.
    + intros _ _. exists id, a. split; [apply Haliases; by left|done].
    + done.
    + apply (HC _ _ Hx).
    + apply (HC _ _ Hx).
    + intros g Hg. destruct (co_generations _ _ (HC _ _ Hx) g Hg) as (j & b & Hb & ?). eauto.
    + intros Hs Hg. destruct (co_active _ _ (HC _ _ Hx) Hs Hg) as (j & b & Hb & ?). eauto.
    + apply (HC _ _ Hx).
  - intros i b [[-> ->]|[Hne Hb]]%Haliases.
    + split; [simpl; set_solver|done|]. exists c'. split; [apply Hcontexts; by left|].
      split_and!; simpl; [done|lia|lia|done].
    + destruct (HA _ _ Hb) as [? ? (x & Hx & Ho & Hg & Hst)]. split; [done|done|].
      destruct (decide (ca_context_id b = cc_id c)) as [Eb|Hneb].
      * assert (x = c) as -> by (unfold has_context in Hc; congruence). exists c'.
        split; [apply Hcontexts; by left|]. split_and!; simpl; [done|lia|lia|done].
      * exists x. split; [|done]. apply Hcontexts. by right.
  - assert (evolved context_evolves context_new d (put_row c' d)) as [_ Hev]; [|exact Hev].
    apply (evolved_write context_evolves context_new d d (cc_id c) c);
      [by split; [|apply grows_refl, _]|exact Hc|done|].
    split; [done|simpl; lia|done].
  - assert (evolved alias_evolves alias_new d (put_row a d)) as [_ Hev]; [|exact Hev].
    apply (evolved_insert alias_evolves alias_new d d a);
      [done|by split; [|apply grows_refl, _]|done].
Qed.
End moves.

(** * Programs that move the rows of the chat contexts on

    [moves m Q w]: on rows that satisfy the invariant, [m] commits nothing, only moves
    the rows on, even when it fails, and ends in [Q] when it does not.  The rules for
    the primitives, one [bind] at a time. *)

Definition moves {A} (m : M A) (Q : A → world → Prop) (w : world) : Prop :=
  chat_inv (working w) →
  wp m (λ r w', committed w' = committed w ∧ later (working w) (working w')
                ∧ ∀ x, r = Ok x → Q x w') w.

Definition same_chat (d d' : db) : Prop :=
  chat_contexts d' = chat_contexts d ∧ chat_aliases d' = chat_aliases d.

Section rules.
Context {ENV : Env}.
Implicit Types w : world.

Lemma moves_inv {A} (m : M A) Q w :
  (chat_inv (working w) → moves m Q w) → moves m Q w.
Proof. intros H Hw. by apply H. Qed.

Lemma moves_mono {A} (m : M A) (Q Q' : A → world → Prop) w :
  moves m Q w → (∀ x w', later (working w) (working w') → Q x w' → Q' x w') → moves m Q' w.
Proof.
  intros Hm HQ Hw. eapply wp_mono; [by apply Hm|]. intros r w' (Hc & Hl & Hx).
  split_and!; [done|done|]. intros x ->. auto.
Qed.

Lemma moves_bind {A B} (m : M A) (f : A → M B) Q Q' w :
  moves m Q w → (∀ x w', later (working w) (working w') → Q x w' → moves (f x) Q' w') →
  moves (m ≫= f) Q' w.
Proof.
  intros Hm Hf Hw. apply wp_bind. eapply wp_mono; [by apply Hm|].
  intros [x|e] w' (Hc & Hl & Hx); [|by split_and!].
  eapply wp_mono; [apply Hf; [done|by apply Hx|by apply Hl]|].
  intros r w'' (Hc' & Hl' & Hx'). split_and!; [congruence|by eapply later_trans|done].
Qed.

Lemma moves_ret {A} (x : A) (Q : A → world → Prop) w : Q x w → moves (mret x) Q w.
Proof. intros HQ Hw. split_and!; [done|by apply later_refl|]. by intros ? [= <-]. Qed.

Lemma moves_raise {A} (m : M A) Q w e : m w = (Raise e, w) → moves m Q w.
Proof. intros E Hw. unfold wp. rewrite E. split_and!; [done|by apply later_refl|done]. Qed.

(** What only reads. *)
Lemma moves_read {A B} (m : M A) (f : A → M B) Q w :
  stateless m → (∀ x, (m w).1 = Ok x → moves (f x) Q w) → moves (m ≫= f) Q w.
Proof.
  intros Hm Hf Hw. apply wp_bind, wp_stateless; [done| |].
  - intros x Hx. by apply Hf.
  - intros e. split_and!; [done|by apply later_refl|done].
Qed.

Lemma moves_lift {A B} (r : result A) (f : A → M B) Q w :
  (∀ x, r = Ok x → moves (f x) Q w) → moves (lift r ≫= f) Q w.
Proof. intros Hf. by apply moves_read. Qed.

Lemma moves_utcnow {B} (f : Z → M B) Q w :
  moves (f (clock (ticks w))) Q (tick w) → moves (utcnow ≫= f) Q w.
Proof. intros H. exact H. Qed.
Lemma moves_uuid {B} (f : string → M B) Q w :
  moves (f (uuid_source (draws w))) Q (draw w) → moves (uuid4 ≫= f) Q w.
Proof. intros H. exact H. Qed.
Lemma moves_code {B} (f : string → M B) Q w :
  moves (f (code_source (draws w))) Q (draw w) → moves (code_factory ≫= f) Q w.
Proof. intros H. exact H. Qed.

Lemma moves_flush {B} (f : unit → M B) Q w :
  (violated w = false → moves (f tt) Q w) → moves (flush ≫= f) Q w.
Proof.
  intros H. apply moves_read.
  - intros w'. unfold flush. by destruct (violated w').
  - intros [] E. apply H. unfold flush in E. by destruct (violated w).
Qed.

(** What writes. *)
Lemma moves_does {A B} (m : M A) (x : A) w' (f : A → M B) Q w :
  m w = (Ok x, w') → committed w' = committed w →
  (chat_inv (working w) → later (working w) (working w')) →
  moves (f x) Q w' → moves (m ≫= f) Q w.
Proof.
  intros E Hc Hl Hf Hw. apply wp_bind. unfold wp at 1. rewrite E. simpl.
  specialize (Hl Hw). eapply wp_mono; [apply Hf, Hl|].
  intros r w'' (Hc' & Hl' & Hx'). split_and!; [congruence|by eapply later_trans|done].
Qed.

Lemma moves_put {R B} `{!Table R} (r : R) (f : unit → M B) Q w :
  (chat_inv (working w) → later (working w) (put_row r (working w))) →
  moves (f tt) Q (on_working (put_row r) w) → moves (put r ≫= f) Q w.
Proof. intros Hl Hf. by eapply moves_does. Qed.

(** An alias and its context, of which only the pair satisfies the invariant. *)
Lemma moves_put_pair {B} (a : ChatContextAlias) (c : ChatContext) (m : M B) Q w :
  (chat_inv (working w) → later (working w) (put_row c (put_row a (working w)))) →
  moves m Q (on_working (λ d, put_row c (put_row a d)) w) → moves (put a;; put c;; m) Q w.
Proof.
  intros Hl Hm.
  assert (moves ((put a;; put c) ≫= λ _, m) Q w) as H; [|exact H].
  by eapply moves_does.
Qed.

Lemma same_chat_later d d' : chat_inv d → same_chat d d' → later d d'.
Proof.
  intros Hd [Ec Ea]. split; [|split].
  - destruct Hd as ((HK & HKa) & Hsc & Hsa & HC & HA). unfold chat_inv, keyed, separate. simpl.
    unfold tbl; simpl. rewrite Ec, Ea. split_and!; [exact HK|exact HKa|exact Hsc|exact Hsa|..].
    + intros i c Hc. destruct (HC i c Hc). split; by rewrite ?Ea.
    + intros i a Ha. destruct (HA i a Ha). split; by rewrite ?Ec.
  - unfold grows. unfold tbl; simpl. rewrite Ec.
    exact (grows_refl context_evolves context_new d).
  - unfold grows. unfold tbl; simpl. rewrite Ea.
    exact (grows_refl alias_evolves alias_new d).
Qed.

Lemma moves_event {B} c action g k md now (f : unit → M B) Q w :
  (∀ w', same_chat (working w) (working w') → moves (f tt) Q w') →
  moves (_event c action g k md now ≫= f) Q w.
Proof.
  intros Hf Hw. apply wp_bind. unfold _event.
  apply wp_bind, wp_uuid4, wp_bind, wp_lift; [|intros e _; split_and!; [done|by apply later_refl|done]].
  intros actor _. eapply (wp_mono _ (λ r w', r = Ok tt ∧ committed w' = committed w
    ∧ same_chat (working w) (working w'))).
  { apply wp_add; intros _; by split_and!. }
  intros r w' (-> & Hc & Hs). eapply wp_mono; [apply Hf; [done|]|].
  - by eapply same_chat_later.
  - intros r w'' (Hc' & Hl' & Hx'). split_and!; [congruence| |done].
    eapply later_trans; [by eapply same_chat_later|done].
Qed.

(** Rows that are read. *)
Lemma moves_lock {B} o i (f : ChatContext → M B) Q w :
  (∀ c, has_context c (working w) → cc_id c = i → cc_owner_subject c = o → moves (f c) Q w) →
  moves (_lock_context o i ≫= f) Q w.
Proof.
  intros Hf Hw. revert Hw. apply moves_read; [unfold _lock_context; stl_go|].
  intros c E. apply moves_inv. intros ((HK & _) & _).
  unfold _lock_context, find_row, mbind, M_bind in E. simpl in E.
  destruct (lookup_row i (working w)) as [c'|] eqn:Hl; [|done].
  case_bool_decide as Ho; [|done]. injection E as ->.
  pose proof (HK _ _ Hl) as Hi. simpl in Hi. apply Hf; [|done|done].
  unfold has_context. by rewrite Hi.
Qed.

Lemma moves_scalar {R B} `{!Table R} (p : R → bool) (f : option R → M B) Q w :
  (∀ o, (∀ r, o = Some r → p r = true ∧ ∃ i, tbl (working w) !! i = Some r) →
     (o = None → ∀ i r, tbl (working w) !! i = Some r → p r = false) → moves (f o) Q w) →
  moves (scalar p ≫= f) Q w.
Proof.
  intros Hf. apply moves_read; [unfold scalar; stl_go|]. intros o [= <-]. apply Hf.
  - intros r Hr. apply elem_of_select. apply head_Some_elem_of in Hr. done.
  - intros Hn i r Hr. destruct (p r) eqn:Ep; [|done].
    assert (r ∈ select p (working w)) as Hin by (apply elem_of_select; eauto).
    destruct (select p (working w)); [by apply not_elem_of_nil in Hin|done].
Qed.

Lemma moves_current {R B} `{!Table R} (r : R) (f : R → M B) Q w :
  moves (f (default r (tbl (working w) !! row_id r))) Q w → moves (current_state r ≫= f) Q w.
Proof. intros Hf. apply moves_read; [done|]. by intros x [= <-]. Qed.

(** The savepoints around one flush: the row is written, or nothing is. *)
Lemma savepoint_add {R} `{!Table R} (r : R) w :
  violated w = false →
  savepoint (add r;; flush;; mret true) (mret false) w
  = if insertable r (working w) then (Ok true, on_working (put_row r) w) else (Ok false, w).
Proof.
  intros Hv. unfold savepoint. rewrite Hv. unfold mbind, M_bind, add, flush, mret, M_ret.
  destruct (insertable r (working w)); simpl; rewrite ?Hv; simpl; rewrite ?Hv; [done|].
  destruct w; simpl in *. by subst.
Qed.
Lemma savepoint_modify {R} `{!Table R} (r : R) w :
  violated w = false →
  savepoint (modify r;; flush;; mret true) (mret false) w
  = if updatable r (working w) then (Ok true, on_working (put_row r) w) else (Ok false, w).
Proof.
  intros Hv. unfold savepoint. rewrite Hv. unfold mbind, M_bind, modify, flush, mret, M_ret.
  destruct (updatable r (working w)); simpl; rewrite ?Hv; simpl; rewrite ?Hv; [done|].
  destruct w; simpl in *. by subst.
Qed.

Lemma moves_savepoint {A} (m handler : M A) Q w :
  violated w = false → moves m Q w →
  (∀ w', working w' = working w → committed w' = committed w → moves handler Q w') →
  moves (savepoint m handler) Q w.
Proof.
  intros Hv Hm Hh Hi. unfold wp, savepoint. rewrite Hv. destruct (Hm Hi) as (Hc & Hl & Hx).
  unfold mbind, M_bind, flush. destruct (m w) as [[x|e] w'] eqn:E; simpl in *.
  - destruct (violated w') eqn:Hv'; simpl; [|by split_and!].
    destruct (Hh (mkWorld (committed w') (working w) false (ticks w') (draws w')) eq_refl Hc Hi)
      as (Hc2 & Hl2 & Hx2). split_and!; [by rewrite Hc2|done|done].
  - destruct (Hh (mkWorld (committed w') (working w) false (ticks w') (draws w')) eq_refl Hc Hi)
      as (Hc2 & Hl2 & Hx2).
    destruct e; split_and!; try done; try by apply later_refl. by rewrite Hc2.
Qed.

Lemma moves_add {R B} `{!Table R} (r : R) (f : unit → M B) Q w :
  (insertable r (working w) = true → chat_inv (working w) → later (working w) (put_row r (working w))) →
  (insertable r (working w) = true → moves (f tt) Q (on_working (put_row r) w)) →
  moves (f tt) Q (violate w) → moves (add r ≫= f) Q w.
Proof.
  intros Hl Hf Hf' Hi. destruct (insertable r (working w)) eqn:E.
  - revert Hi. eapply moves_does; [unfold add; by rewrite E|done|by apply Hl|by apply Hf].
  - revert Hi. eapply moves_does; [unfold add; by rewrite E|done|by apply later_refl|done].
Qed.
Lemma moves_modify {R B} `{!Table R} (r : R) (f : unit → M B) Q w :
  (updatable r (working w) = true → chat_inv (working w) → later (working w) (put_row r (working w))) →
  (updatable r (working w) = true → moves (f tt) Q (on_working (put_row r) w)) →
  moves (f tt) Q (violate w) → moves (modify r ≫= f) Q w.
Proof.
  intros Hl Hf Hf' Hi. destruct (updatable r (working w)) eqn:E.
  - revert Hi. eapply moves_does; [unfold modify; by rewrite E|done|by apply Hl|by apply Hf].
  - revert Hi. eapply moves_does; [unfold modify; by rewrite E|done|by apply later_refl|done].
Qed.

(** The alias is written there and its context afterwards. *)
Lemma moves_saved {B} (s : M bool) (b : bool) (a : ChatContextAlias) (c : ChatContext)
    (m m' : M B) Q w :
  s w = (if b then (Ok true, on_working (put_row a) w) else (Ok false, w)) →
  (b = true → chat_inv (working w) → later (working w) (put_row c (put_row a (working w)))) →
  (b = true → moves m Q (on_working (λ d, put_row c (put_row a d)) w)) → moves m' Q w →
  moves (s ≫= λ x : bool, if x then put c;; m else m') Q w.
Proof.
  intros E Hl Hm Hm' Hi. unfold wp, mbind, M_bind. rewrite E. destruct b; [|by apply Hm'].
  specialize (Hl eq_refl Hi). pose proof (Hm eq_refl) as Hw.
  destruct (Hw (later_inv _ _ Hl)) as (Hc & Hl' & Hx).
  split_and!; [exact Hc|by eapply later_trans|exact Hx].
Qed.
End rules.
