(* ===== verification/ChatSpecs.v ===== *)
(** * What the chat context service does to its rows

    One specification per operation of [ChatContext], in terms of [moves]. *)

From S2P Require Import Prelude PyStr PyVal Errors Models Database Session Preserve.
From S2P Require Import Rows ChatContext System Evolution ChatSteps.

Lemma holds_same c a d d' : same_chat d d' → holds c a d → holds c a d'.
Proof. intros [Ec Ea] (Hc & Ha & E). unfold holds, has_context, has_alias. by rewrite Ec, Ea. Qed.

(** ** The clock moves an alias on *)
Record reconciled (now : Z) (c : ChatContext) (a : ChatContextAlias) (d : db)
    (r : ChatContext * ChatContextAlias) (d' : db) : Prop := {
  rc_holds : holds r.1 r.2 d';
  rc_alias : alias_evolves a r.2;
  rc_context : context_terms r.1 = context_terms c ∧ cc_generation r.1 = cc_generation c;
  rc_frame : ∀ i, i ≠ ca_id a → chat_aliases d' !! i = chat_aliases d !! i;
  rc_active : ca_status r.2 = "active" → r = (c, a) ∧ now < ca_expires_at a;
}.

Section service.
Context {ENV : Env}.
Implicit Types (w : world) (c : ChatContext) (a : ChatContextAlias).

(** First step: the lease is over. *)
Definition expire (c : ChatContext) (a : ChatContextAlias) (now : Z) (k : string)
    : M (ChatContext * ChatContextAlias) :=
  if lease_over now a then
    let a := quarantined_alias now a in
    let c := c <| cc_state := "dormant" |> <| cc_updated_at := now |> in
    put a;;
    put c;;
    _event c "expired" (Some (ca_generation a)) k [] now;;
    _event c "quarantined" (Some (ca_generation a)) k
      [("until", PStr (isoformat (quarantine_end a)))] now;;
    mret (c, a)
  else mret (c, a).

(** Second step: the quarantine is over. *)
Definition release (now : Z) (k : string) (c : ChatContext) (a : ChatContextAlias)
    : M (ChatContext * ChatContextAlias) :=
  if quarantine_over now a then
    let a := released_alias now a in
    put a;;
    _event c "released" (Some (ca_generation a)) k [] now;;
    mret (c, a)
  else mret (c, a).

Lemma reconcile_steps c a now k :
  _reconcile_alias c a now k = (r ← expire c a now k; let '(c, a) := r in release now k c a).
Proof. done. Qed.

Lemma expire_spec c a now k w :
  holds c a (working w) →
  moves (expire c a now k) (λ r w', reconciled now c a (working w) r (working w')) w.
Proof.
  intros Hh. unfold expire. destruct (lease_over now a) eqn:Hover.
  - apply andb_true_iff in Hover as [Hs%bool_decide_eq_true _].
    apply moves_put_pair; [intros Hi; by apply later_expire|].
    apply moves_event. intros w1 S1. apply moves_event. intros w2 S2. apply moves_ret.
    destruct Hh as (Hc & Ha & E). split; simpl.
    + eapply holds_same; [exact S2|]. eapply holds_same; [exact S1|].
      split_and!; [apply has_put_context|apply has_put_alias|done].
    + done.
    + done.
    + intros i Hne. rewrite (proj2 S2), (proj2 S1). by apply lookup_insert_ne, not_eq_sym.
    + done.
  - apply moves_ret. split; simpl; [done|done|done|done|]. intros Hs. split; [done|].
    unfold lease_over in Hover. rewrite bool_decide_eq_true_2 in Hover by done. simpl in Hover. lia.
Qed.

Lemma release_spec c a now k w :
  holds c a (working w) → (ca_status a = "active" → now < ca_expires_at a) →
  moves (release now k c a) (λ r w', reconciled now c a (working w) r (working w')) w.
Proof.
  intros Hh Hlive. unfold release. destruct (quarantine_over now a) eqn:Hover.
  - apply andb_true_iff in Hover as [Hs%bool_decide_eq_true _].
    apply moves_put; [intros Hi; by eapply later_release|].
    apply moves_event. intros w1 S1. apply moves_ret. destruct Hh as (Hc & Ha & E). split; simpl.
    + eapply holds_same; [exact S1|].
      split_and!; [by apply has_context_put_alias|apply has_put_alias|done].
    + done.
    + done.
    + intros i Hne. rewrite (proj2 S1). by apply lookup_insert_ne, not_eq_sym.
    + done.
  - apply moves_ret. split; simpl; [done|done|done|done|]. auto.
Qed.

Lemma reconcile_spec c a now k w :
  holds c a (working w) →
  moves (_reconcile_alias c a now k) (λ r w', reconciled now c a (working w) r (working w')) w.
Proof.
  intros Hh. rewrite reconcile_steps. eapply moves_bind; [by apply expire_spec|].
  intros [c1 a1] w1 _ [Hh1 HE1 [HT1 HG1] HF1 HA1]. simpl in *.
  eapply moves_mono; [apply release_spec; [done|]|].
  { intros Hs. by destruct (HA1 Hs) as [[= -> ->] ?]. }
  intros [c2 a2] w2 _ [Hh2 HE2 [HT2 HG2] HF2 HA2]. simpl in *.
  assert (ca_id a1 = ca_id a) as Eid by (destruct HE1 as [[=] _]; done).
  split; simpl; [done|by transitivity a1|split; congruence| |].
  - intros i Hne. rewrite HF2 by congruence. auto.
  - intros Hs. destruct (HA2 Hs) as [[= -> ->] _]. by apply HA1.
Qed.

(** The pending reconciliation of every holder of a code. *)
Lemma reconcile_all_spec (l : list ChatContextAlias) now (f : ChatContextAlias → M unit) w :
  f = (λ a, c ← _lock_context (ca_owner_subject a) (ca_context_id a);
            _reconcile_alias c a now "gateway";; mret tt) →
  NoDup (ca_id <$> l) → (∀ a, a ∈ l → has_alias a (working w)) →
  moves (foreach f l) (λ _ _, True) w.
Proof.
  intros Hf. revert w. induction l as [|a l IH]; intros w HN Hl; [by apply moves_ret|].
  apply NoDup_cons in HN as [Hna HN]. simpl.
  eapply (moves_bind _ _ (λ _ w', ∀ b, b ∈ l → has_alias b (working w'))).
  - rewrite Hf. apply moves_lock. intros c Hc Ei Eo.
    eapply moves_bind; [apply reconcile_spec; split_and!; [done|apply Hl; by left|done]|].
    intros r w' _ [_ _ _ Hframe _]. apply moves_ret. intros b Hb. unfold has_alias.
    rewrite Hframe; [apply Hl; by right|]. intros E. apply Hna. rewrite <-E. by apply list_elem_of_fmap_2.
  - intros [] w' _ Hl'. by apply IH.
Qed.

Lemma reconcile_code_spec code now w :
  moves (_reconcile_code_reservations code now) (λ _ w', violated w' = false) w.
Proof.
  apply moves_inv. intros Hi. apply moves_read; [done|]. intros l [= <-].
  eapply moves_bind; [eapply reconcile_all_spec; [done|..]|].
  - change (NoDup (row_id <$> select (λ a, (ca_code a ==? code) && live_alias a) (working w))).
    apply NoDup_select, Hi.
  - intros a [_ Ha]%(elem_of_select_keyed (R:=ChatContextAlias)); [done|]. apply Hi.
  - intros [] w' _ _ Hi'. apply wp_flush; intros Hv; (split_and!; [done|by apply later_refl|]); [done|].
    by intros ? [= <-].
Qed.
Lemma code_ok s x : _code s = Ok x → x = s ∧ is_code s = true.
Proof. unfold _code, chat_error_of. destruct (is_code s); [by intros [= <-]|done]. Qed.

(** ** Leases *)

(** A row of the context, perhaps another version than the one the code holds. *)
Definition known (c : ChatContext) (d : db) : Prop :=
  ∃ c0, has_context c0 d ∧ context_terms c0 = context_terms c.

Lemma known_later c d d' : later d d' → known c d → known c d'.
Proof.
  intros Hl (c0 & Hc & Ht). destruct (later_context _ _ _ Hl Hc) as (c1 & Hc1 & [Ht1 _ _] & _).
  exists c1. split; [done|congruence].
Qed.
Lemma has_known c d : has_context c d → known c d.
Proof. intros Hc. by exists c. Qed.

(** The expiry of a lease that is renewed. *)
Definition renewed_expiry (now expiry : Z) (force : bool) : Z :=
  if negb force && (seconds (gateway_chat_context_renew_threshold_seconds settings) <? expiry - now)
  then expiry else Z.max expiry (lease_end now).

(** [a] is an active alias of the context of [c]. *)
Definition leased (c : ChatContext) (a : ChatContextAlias) (d : db) : Prop :=
  ca_status a = "active" ∧ ∃ c', holds c' a d ∧ context_terms c' = context_terms c.

Lemma renew_spec c a now k force w :
  holds c a (working w) → ca_status a = "active" →
  moves (_renew_alias c a now k force)
    (λ a' w', leased c a' (working w') ∧ alias_terms a' = alias_terms a
              ∧ ca_expires_at a' = renewed_expiry now (ca_expires_at a) force) w.
Proof.
  intros Hh Hs. unfold _renew_alias, renewed_expiry.
  apply moves_put_pair; [intros Hi; by apply later_renew|].
  match goal with |- moves _ _ ?w1 => set (w1' := w1) end.
  match goal with |- context [_event ?c1 _ _ _ _ _] => set (c1' := c1) end.
  match goal with |- context [ca_expires_at a - now] => idtac end.
  set (a1 := a <| ca_last_seen_at := now |> <| ca_updated_at := now |>).
  assert (holds c1' a1 (working w1')) as Hh1.
  { destruct Hh as (_ & _ & E). split_and!; [apply has_put_context|apply has_put_alias|done]. }
  case_match.
  { apply moves_ret. split_and!; [by split; [|exists c1']|done|done]. }
  case_match.
  { apply moves_ret. split_and!; [by split; [|exists c1']|done|simpl; lia]. }
  apply moves_put; [intros Hi; by eapply later_extend|].
  apply moves_event. intros w2 S2. apply moves_ret. split_and!; [|done|simpl; lia].
  split; [done|]. exists c1'. split; [|done]. eapply holds_same; [exact S2|].
  destruct Hh1 as (Hc1 & _ & E1). split_and!; [by apply has_context_put_alias|apply has_put_alias|done].
Qed.

(** A new alias, of the generation that comes next. *)
Definition issued (c : ChatContext) (now : Z) (a : ChatContextAlias) (d d' : db) : Prop :=
  leased c a d' ∧ ca_expires_at a = lease_end now ∧ is_code (ca_code a) = true
  ∧ ca_replaced_by_alias_id a = None ∧ chat_aliases d !! ca_id a = None.

Lemma issued_before c now a d0 d d' : later d0 d → issued c now a d d' → issued c now a d0 d'.
Proof.
  intros Hl (H1 & H2 & H3 & H4 & H5). split_and!; try done.
  destruct (chat_aliases d0 !! ca_id a) as [b|] eqn:E; [|done].
  destruct Hl as (_ & _ & [Hg _]). destruct (Hg _ _ E) as (b' & Hb' & _). simpl in Hb'. congruence.
Qed.

Lemma try_candidate_spec c k retries now w :
  known c (working w) →
  moves (try_candidate c k retries now)
    (λ o w', ∀ a, o = Some a → issued c now a (working w) (working w')) w.
Proof.
  intros Hk. unfold try_candidate. apply moves_code, moves_lift. intros code Hcode.
  eapply moves_bind; [apply reconcile_code_spec|]. intros [] w1 Hl1 Hv1. simpl in Hl1.
  pose proof (known_later _ _ _ Hl1 Hk) as (c1 & Hc1 & Ht1).
  assert (cc_id c1 = cc_id c) as Ei by (unfold context_terms in Ht1; congruence).
  apply moves_current. change (row_id c) with (cc_id c). rewrite <-Ei. simpl. rewrite Hc1. simpl.
  apply moves_scalar. intros history _ _. destruct (negb _); [by apply moves_ret|].
  apply moves_scalar. intros live _ _. destruct (negb _); [by apply moves_ret|].
  apply moves_uuid. eapply moves_saved; [by apply savepoint_add| | |by apply moves_ret].
  - intros Hins Hi. by apply later_new_alias.
  - intros [Hfree _]%insertable_spec. apply moves_event. intros w2 S2. apply moves_ret.
    intros a [= <-]. eapply issued_before; [exact Hl1|]. split_and!; try done.
    + split; [done|]. eexists. split; [eapply holds_same; [exact S2|]|].
      * split_and!; [apply has_put_context|apply has_put_alias|done].
      * exact Ht1.
    + by destruct (code_ok _ _ Hcode) as [-> ?].
Qed.

Lemma allocation_loop_spec n c k retries now w :
  known c (working w) →
  moves (allocation_loop n c k retries now) (λ a w', issued c now a (working w) (working w')) w.
Proof.
  revert retries w. induction n as [|n IH]; intros retries w Hk; simpl; [by eapply moves_raise|].
  eapply moves_bind; [by apply try_candidate_spec|]. intros [a|] w' Hl Ha; simpl in *.
  - apply moves_ret. by apply Ha.
  - eapply moves_mono; [apply IH; by eapply known_later|].
    intros a w'' _ Hissued. by eapply issued_before.
Qed.

Lemma known_locked c c1 d :
  known c d → has_context c1 d → cc_id c1 = cc_id c → context_terms c1 = context_terms c.
Proof.
  intros (c0 & Hc0 & Ht) Hc1 E. assert (cc_id c0 = cc_id c) as E0 by (by injection Ht).
  unfold has_context in *. congruence.
Qed.

Lemma allocate_spec c k now w :
  known c (working w) →
  moves (_allocate_alias c k now) (λ a w', issued c now a (working w) (working w')) w.
Proof.
  intros Hk. apply moves_lock. intros c1 Hc1 Ei Eo.
  pose proof (known_locked _ _ _ Hk Hc1 Ei) as Ht.
  eapply moves_mono; [apply allocation_loop_spec; by apply has_known|].
  intros a w' _ ((Hs & c' & Hh & Ht') & H2). split; [|done]. split; [done|].
  exists c'. split; [done|congruence].
Qed.
(** ** Resolving a code *)
Lemma leased_context c c' a d :
  leased c a d → context_terms c' = context_terms c → leased c' a d.
Proof. intros (Hs & c0 & Hh & Ht) E. split; [done|]. exists c0. split; [done|congruence]. Qed.

Lemma moves_alias {B} i (f : option ChatContextAlias → M B) Q w :
  (∀ o, (∀ a, o = Some a → has_alias a (working w) ∧ ca_id a = i) → moves (f o) Q w) →
  moves (get_row i ≫= f) Q w.
Proof.
  intros Hf. apply moves_inv. intros ((_ & HK) & _). apply moves_read; [done|].
  intros o [= <-]. apply Hf. intros a Ha. pose proof (HK _ _ Ha) as E. simpl in E.
  unfold has_alias. by rewrite E.
Qed.

Lemma moves_scalar_alias {B} (p : ChatContextAlias → bool) (f : option ChatContextAlias → M B) Q w :
  (∀ o, (∀ a, o = Some a → p a = true ∧ has_alias a (working w)) → moves (f o) Q w) →
  moves (scalar p ≫= f) Q w.
Proof.
  intros Hf. apply moves_inv. intros ((_ & HK) & _). apply moves_scalar. intros o Ho _.
  apply Hf. intros a Ha. destruct (Ho a Ha) as (Hp & i & Hi). split; [done|].
  pose proof (HK _ _ Hi) as E. simpl in E. unfold has_alias. by rewrite E.
Qed.

Lemma moves_not_closed {B} c (m : M B) Q w :
  moves m Q w → moves (not_closed c;; m) Q w.
Proof.
  intros Hm. unfold not_closed. case_match; [|by apply moves_read].
  by apply (moves_raise _ _ _ (ChatContextError Closed "chat context is closed")).
Qed.

(** The lease of an active alias of a context of the owner, that has not run out. *)
Definition lease_of (owner : string) (now : Z) (l : ChatContextLease) (a : ChatContextAlias)
    (d : db) : Prop :=
  ∃ c, holds c a d ∧ cc_owner_subject c = owner ∧ ca_status a = "active"
    ∧ now < ca_expires_at a ∧ l = _lease a (rotated l).

Lemma lease_of_leased owner now c a r d :
  leased c a d → cc_owner_subject c = owner → now < ca_expires_at a →
  lease_of owner now (_lease a r) a d.
Proof.
  intros (Hs & c' & Hh & Ht) Ho Hn. exists c'. split_and!; try done.
  unfold context_terms in Ht. congruence.
Qed.

Lemma renewed_expiry_live now expiry force :
  0 ≤ gateway_chat_context_ttl_seconds settings →
  now < expiry → now < renewed_expiry now expiry force.
Proof. unfold renewed_expiry. intros ??. case_match; lia. Qed.

Lemma resolve_alias_spec o code k w :
  moves (resolve_alias o code k) (λ l w', ∃ owner a0 a, _owner o = Ok owner
    ∧ has_alias a0 (working w) ∧ ca_owner_subject a0 = owner ∧ ca_code a0 = code
    ∧ alias_terms a = alias_terms a0 ∧ lease_of owner (clock (ticks w)) l a (working w')) w.
Proof.
  unfold resolve_alias.
  apply moves_lift. intros [] _. apply moves_lift. intros owner Howner.
  apply moves_lift. intros alias_code Hcode. apply moves_lift. intros actor _.
  apply moves_scalar_alias. intros [a0|] H0; [|by eapply moves_raise].
  destruct (H0 a0 eq_refl) as [[E1%bool_decide_eq_true E2%bool_decide_eq_true]%andb_true_iff Ha0].
  apply moves_lock. intros c Hc Ei Eo. apply moves_alias. intros [a|] Ha; [|by eapply moves_raise].
  destruct (Ha a eq_refl) as [Ha' Eid].
  assert (a = a0) as -> by (unfold has_alias in *; congruence).
  apply moves_utcnow.
  eapply moves_bind; [apply reconcile_spec; by split_and!|].
  intros [c1 a1] w1 _ [Hh1 HE1 [HT1 HG1] _ HA1]. simpl in *.
  apply moves_not_closed. case_bool_decide as Hs; simpl; [|by eapply moves_raise].
  destruct (HA1 Hs) as [[= -> ->] Hlive].
  eapply moves_bind; [by apply renew_spec|].
  intros a2 w2 _ (Hl2 & Ht2 & He2). apply moves_flush. intros _. apply moves_ret.
  exists owner, a0, a2. split_and!; try done.
  - by destruct (code_ok _ _ Hcode) as [-> _].
  - apply (lease_of_leased _ _ c); [done|done|]. rewrite He2.
    unfold renewed_expiry. case_match; lia.
Qed.

(** ** Refreshing a code *)
Lemma renew_if_active_spec c a now k force w :
  holds c a (working w) →
  moves (renew_if_active c a now k force) (λ o w', ∀ a', o = Some a' →
    leased c a' (working w') ∧ alias_terms a' = alias_terms a ∧ now < ca_expires_at a') w.
Proof.
  intros Hh. unfold renew_if_active. eapply moves_bind; [by apply reconcile_spec|].
  intros [c1 a1] w1 _ [Hh1 HE1 [HT1 HG1] _ HA1]. simpl in *.
  case_bool_decide as Hs; [|by apply moves_ret].
  destruct (HA1 Hs) as [[= -> ->] Hlive].
  eapply moves_bind; [by apply renew_spec|].
  intros a2 w2 _ (Hl2 & Ht2 & He2). apply moves_flush. intros _. apply moves_ret.
  intros a' [= <-]. split_and!; [done|done|]. rewrite He2. unfold renewed_expiry. case_match; lia.
Qed.

Lemma reactivate_spec c a now k w :
  violated w = false → holds c a (working w) →
  moves (reactivate c a now k) (λ o w', ∀ a', o = Some a' →
    leased c a' (working w') ∧ alias_terms a' = alias_terms a ∧ ca_expires_at a' = lease_end now) w.
Proof.
  intros Hv Hh. unfold reactivate. apply moves_scalar. intros conflicting _ _.
  destruct (negb _); [by apply moves_ret|].
  eapply moves_saved; [by apply savepoint_modify| | |by apply moves_ret].
  - intros Hu Hi. by apply later_reactivate.
  - intros _. apply moves_event. intros w1 S1. apply moves_flush. intros _. apply moves_ret.
    intros a' [= <-]. split_and!; [|done|done]. split; [done|]. eexists. split.
    + eapply holds_same; [exact S1|]. destruct Hh as (_ & _ & E).
      split_and!; [apply has_put_context|apply has_put_alias|done].
    + done.
Qed.
Lemma later_holds d d' c a :
  later d d' → holds c a d → ∃ c' a', holds c' a' d' ∧ context_evolves c c' ∧ alias_evolves a a'
    ∧ cc_id c' = cc_id c ∧ ca_id a' = ca_id a.
Proof.
  intros Hl (Hc & Ha & E). destruct (later_context _ _ _ Hl Hc) as (c' & Hc' & HEc & Ec).
  destruct (later_alias _ _ _ Hl Ha) as (a' & Ha' & HEa & Ea). exists c', a'.
  split_and!; try done. split_and!; [done|done|]. destruct HEa as [[=] _]. congruence.
Qed.

Lemma moves_current_context {B} c c' (f : ChatContext → M B) Q w :
  has_context c' (working w) → cc_id c' = cc_id c → moves (f c') Q w →
  moves (current_state c ≫= f) Q w.
Proof.
  intros Hc E Hf. apply moves_current. change (row_id c) with (cc_id c). rewrite <-E.
  unfold has_context in Hc. simpl. by rewrite Hc.
Qed.
Lemma moves_current_alias {B} a a' (f : ChatContextAlias → M B) Q w :
  has_alias a' (working w) → ca_id a' = ca_id a → moves (f a') Q w →
  moves (current_state a ≫= f) Q w.
Proof.
  intros Ha E Hf. apply moves_current. change (row_id a) with (ca_id a). rewrite <-E.
  unfold has_alias in Ha. simpl. by rewrite Ha.
Qed.

Lemma replace_spec c c0 a a0 now k w :
  holds c0 a0 (working w) → context_terms c0 = context_terms c → ca_id a0 = ca_id a →
  moves (replace_alias c a now k) (λ a' w',
    leased c a' (working w') ∧ ca_expires_at a' = lease_end now ∧ ca_id a' ≠ ca_id a) w.
Proof.
  intros Hh Ht0 Ei0. pose proof Hh as (Hc & Ha & E). unfold replace_alias.
  eapply moves_bind; [apply allocate_spec; by exists c0|].
  intros a' w1 Hl1 ((Hs' & c' & Hh' & Ht') & He' & _ & _ & Hfresh). simpl in Hl1.
  assert (ca_id a' ≠ ca_id a) as Hne.
  { intros Eid. unfold has_alias in Ha. rewrite Ei0, <-Eid in Ha. congruence. }
  destruct (later_holds _ _ _ _ Hl1 Hh) as (c1 & a1 & Hh1 & HEc & HEa & Ec1 & Ea1).
  eapply moves_current_alias; [apply Hh1|congruence|].
  eapply (moves_bind _ _ (λ _ w', leased c a' (working w'))).
  - destruct (is_none (ca_replaced_by_alias_id a1)) eqn:Hn.
    2:{ apply moves_ret. split; [done|]. by exists c'. }
    intros Hi. split_and!; [done|eapply later_replaced; [done|exact Hh1|]|].
    { by destruct (ca_replaced_by_alias_id a1). }
    intros ? _. split; [done|]. exists c'. split; [|done]. destruct Hh' as (Hc' & Ha' & E').
    split_and!; [by apply has_context_put_alias| |done]. unfold has_alias.
    apply lookup_insert_Some. right. simpl. split; [congruence|exact Ha'].
  - intros [] w2 _ (_ & c2 & Hh2 & Ht2). apply moves_event. intros w3 S3.
    apply moves_flush. intros _. apply moves_ret. split_and!; [|done|done].
    split; [done|]. exists c2. split; [by eapply holds_same|done].
Qed.

Context (Httl : 0 < gateway_chat_context_ttl_seconds settings).

Lemma lease_end_live now : now < lease_end now.
Proof. unfold lease_end, seconds. lia. Qed.

Lemma refresh_alias_spec o code k w :
  moves (refresh_alias o code k) (λ l w', ∃ owner a0 a, _owner o = Ok owner
    ∧ has_alias a0 (working w) ∧ ca_owner_subject a0 = owner ∧ ca_code a0 = code
    ∧ ca_context_id a = ca_context_id a0
    ∧ lease_of owner (clock (ticks w)) l a (working w')
    ∧ (rotated l = true ↔ ca_id a ≠ ca_id a0)) w.
Proof.
  unfold refresh_alias.
  apply moves_lift. intros [] _. apply moves_lift. intros owner Howner.
  apply moves_lift. intros alias_code Hcode. apply moves_lift. intros actor _.
  apply moves_scalar_alias. intros [a0|] H0; [|by eapply moves_raise].
  destruct (H0 a0 eq_refl) as [[E1%bool_decide_eq_true E2%bool_decide_eq_true]%andb_true_iff Ha0].
  apply moves_lock. intros c Hc Ei Eo. apply moves_not_closed.
  apply moves_alias. intros [a|] Ha; [|by eapply moves_raise].
  destruct (Ha a eq_refl) as [Ha' Eid].
  assert (a = a0) as -> by (unfold has_alias in *; congruence).
  apply moves_utcnow. set (now := clock (ticks w)).
  eapply moves_bind; [apply reconcile_spec; by split_and!|].
  intros [c1 a1] w1 _ [Hh1 HE1 [HT1 HG1] _ _]. simpl in *.
  assert (ca_id a1 = ca_id a0 ∧ ca_context_id a1 = ca_context_id a0) as [Ea1 Ex1]
    by (destruct HE1 as [[=] _]; done).
  assert (cc_owner_subject c1 = owner) as Eo1 by (unfold context_terms in HT1; congruence).
  assert (∀ x a' d, leased x a' d → context_terms x = context_terms c1 →
    ca_context_id a' = ca_context_id a0) as Hctx.
  { intros x a' d (_ & x' & (_ & _ & E) & Ht) Ht1. unfold context_terms in *. congruence. }
  apply moves_scalar_alias. intros current Hcurrent.
  eapply (moves_bind _ _ (λ o w', ∀ a', o = Some a' →
    leased c1 a' (working w') ∧ now < ca_expires_at a')).
  { destruct current as [a'|]; [|by apply moves_ret].
    destruct (Hcurrent a' eq_refl) as [[Ec Hs]%andb_true_iff Ha2].
    apply bool_decide_eq_true in Ec.
    eapply moves_mono; [apply renew_if_active_spec; split_and!; [apply Hh1|done|done]|].
    intros o' w2 _ H2 a2 ->. by destruct (H2 a2 eq_refl) as (? & _ & ?). }
  intros [a2|] w2 Hl2 Hrenewed.
  { apply moves_ret. destruct (Hrenewed a2 eq_refl) as [Hl Hn].
    exists owner, a0, a2. split_and!; try done.
    - by destruct (code_ok _ _ Hcode) as [-> _].
    - by eapply Hctx.
    - by eapply lease_of_leased.
    - simpl. rewrite Ea1. rewrite negb_true_iff, bool_decide_eq_false. done. }
  eapply moves_bind; [apply reconcile_code_spec|]. intros [] w3 Hl3 Hv3. simpl in *.
  destruct (later_holds _ _ _ _ (later_trans _ _ _ Hl2 Hl3) Hh1)
    as (c3 & a3 & Hh3 & [HEc3 _ _] & [HEa3 _] & Ec3 & Ea3).
  assert (cc_owner_subject c3 = owner) as Eo3 by (unfold context_terms in *; congruence).
  eapply moves_current_alias; [apply Hh3|done|]. eapply moves_current_context; [apply Hh3|done|].
  eapply moves_bind; [by apply reactivate_spec|]. intros [a4|] w4 Hl4 Hre; simpl in *.
  { apply moves_ret. destruct (Hre a4 eq_refl) as (Hl & Ht & He).
    exists owner, a0, a4. split_and!; try done.
    - by destruct (code_ok _ _ Hcode) as [-> _].
    - by eapply Hctx.
    - eapply lease_of_leased; [done|done|]. rewrite He. apply lease_end_live.
    - simpl. split; [done|]. intros Hne. destruct Hne. unfold alias_terms in *. congruence. }
  destruct (later_holds _ _ _ _ Hl4 Hh3) as (c4 & a4 & Hh4 & HEc4 & HEa4 & Ec4 & Ea4).
  assert (context_terms c4 = context_terms c3) as Ht4 by apply HEc4.
  eapply moves_bind; [by apply (replace_spec c3 c4 a3 a4)|]. intros a5 w5 _ (Hl5 & He5 & Hne5).
  apply moves_ret. exists owner, a0, a5. split_and!; try done.
  - by destruct (code_ok _ _ Hcode) as [-> _].
  - by eapply Hctx.
  - eapply lease_of_leased; [done|done|]. rewrite He5. apply lease_end_live.
  - simpl. split; [|done]. intros _. congruence.
Qed.
(** ** Creating a context *)
Lemma same_code d a b :
  chat_inv d → has_alias a d → has_alias b d →
  ca_owner_subject a = ca_owner_subject b → ca_code a = ca_code b → a = b.
Proof.
  intros (_ & _ & Hs & _) Ha Hb Eo Ec. destruct (decide (ca_id a = ca_id b)) as [E|Hne].
  - unfold has_alias in *. congruence.
  - pose proof (Hs _ _ a b Ha Hb Hne) as Hclash. apply clash_alias_false in Hclash. tauto.
Qed.

Lemma alias_context d a : chat_inv d → has_alias a d →
  ∃ c, holds c a d ∧ cc_owner_subject c = ca_owner_subject a.
Proof.
  intros Hi Ha. pose proof Hi as ((HK & _) & _ & _ & _ & HA).
  destruct (HA _ _ Ha) as [_ _ (c & Hc & Ho & _)]. pose proof (HK _ _ Hc) as E. simpl in E.
  exists c. split; [|done]. split_and!; [|done|done]. unfold has_context. by rewrite E.
Qed.

Lemma owner_ok o x : _owner o = Ok x → _owner x = Ok x.
Proof.
  unfold _owner, _bounded_value. case_match eqn:E; [done|]. intros [= <-].
  by rewrite strip_idemp, E.
Qed.

Lemma context_owner d c : chat_inv d → has_context c d →
  _owner (cc_owner_subject c) = Ok (cc_owner_subject c).
Proof. intros (_ & _ & _ & HC & _) Hc. apply (HC _ _ Hc). Qed.

Lemma moves_latest {B} i (f : option ChatContextAlias → M B) Q w :
  (∀ o, (∀ a, o = Some a → has_alias a (working w) ∧ ca_context_id a = i) → moves (f o) Q w) →
  moves (latest_alias i ≫= f) Q w.
Proof.
  intros Hf. apply moves_inv. intros ((_ & HK) & _). apply moves_read; [unfold latest_alias; stl_go|].
  intros o [= <-]. apply Hf. intros a Ha%head_Some_elem_of%sort_by_elem.
  apply (elem_of_select_keyed (R:=ChatContextAlias)) in Ha as [E%bool_decide_eq_true Ha]; done.
Qed.

(** The lease of a code of the context [c]. *)
Definition lease_for (c : ChatContext) (l : ChatContextLease) (d : db) : Prop :=
  ∃ a now, lease_of (cc_owner_subject c) now l a d ∧ ca_context_id a = cc_id c.

Lemma lease_for_leased now c c1 a r d :
  leased c1 a d → context_terms c1 = context_terms c → now < ca_expires_at a →
  lease_for c (_lease a r) d.
Proof.
  intros Hl Ht Hn. exists a, now. unfold context_terms in Ht. split.
  - eapply lease_of_leased; [exact Hl|congruence|done].
  - destruct Hl as (_ & x & (_ & _ & E) & Ht'). unfold context_terms in *. congruence.
Qed.

Lemma ensure_spec c k w :
  known c (working w) →
  moves (_ensure_context_alias c k) (λ l w', lease_for c l (working w')) w.
Proof.
  intros Hk. apply moves_lock. intros c1 Hc1 Ei Eo. apply moves_not_closed.
  pose proof (known_locked _ _ _ Hk Hc1 Ei) as Ht1.
  apply moves_scalar_alias. intros active Hactive. apply moves_utcnow.
  eapply (moves_bind _ _ (λ o w', ∀ a', o = Some a' →
    leased c1 a' (working w') ∧ clock (ticks w) < ca_expires_at a')).
  { destruct active as [a|]; [|by apply moves_ret].
    destruct (Hactive a eq_refl) as [[Ec%bool_decide_eq_true Hs]%andb_true_iff Ha].
    eapply moves_mono; [by apply renew_if_active_spec|].
    intros o' w2 _ H2 a2 ->. by destruct (H2 a2 eq_refl) as (? & _ & ?). }
  intros [a|] w1 Hl1 Hrenewed; simpl in *.
  { apply moves_ret. destruct (Hrenewed a eq_refl) as [Hl Hn].
    by eapply lease_for_leased. }
  apply moves_latest. intros [latest|] Hlatest.
  - destruct (Hlatest latest eq_refl) as [Ha Ea]. apply moves_inv. intros Hi1.
    eapply moves_mono; [apply refresh_alias_spec|].
    intros l w' Hl' (owner & a0 & a & Howner & Ha0 & Eo0 & Ec0 & Ex & Hlease & _).
    destruct (later_context _ _ _ Hl1 Hc1) as (c2 & Hc2 & [Ht2 _ _] & Ec2).
    pose proof (context_owner _ _ Hi1 Hc2) as Hown2.
    destruct (alias_context _ _ Hi1 Ha) as (c3 & (Hc3 & _ & Ex3) & Eo3).
    assert (c3 = c2) as -> by (unfold has_context in *; congruence).
    assert (owner = cc_owner_subject c2) as -> by (unfold context_terms in *; congruence).
    assert (a0 = latest) as -> by (eapply same_code; try done; congruence).
    assert (cc_owner_subject c2 = cc_owner_subject c) as E by (unfold context_terms in *; congruence).
    exists a, (clock (ticks w1)). rewrite <-E. split; [done|congruence].
  - eapply moves_bind; [apply allocate_spec; eapply known_later; [done|by apply has_known]|].
    intros a w2 _ (Hl2 & He2 & _). apply moves_flush. intros _. apply moves_ret.
    eapply lease_for_leased; [done|done|]. rewrite He2. apply lease_end_live.
Qed.

Lemma insert_context_spec c k now w :
  cc_generation c = 0 → cc_state c = "active" → context_new c →
  _owner (cc_owner_subject c) = Ok (cc_owner_subject c) →
  moves (insert_context c k now) (λ a w', lease_for c (_lease a false) (working w')) w.
Proof.
  intros Hg Hs Hn Ho. unfold insert_context. apply moves_add.
  - intros Hins Hi. by apply later_new_context.
  - intros _. apply moves_flush. intros _. apply moves_event. intros w1 [Ec1 _].
    eapply moves_bind; [apply allocate_spec; exists c; split; [|done];
      unfold has_context; rewrite Ec1; apply has_put_context|].
    intros a w2 _ (Hl & He & _). apply moves_flush. intros _. apply moves_ret.
    eapply lease_for_leased; [done|done|]. rewrite He. apply lease_end_live.
  - by apply moves_flush.
Qed.

Lemma moves_context_of_nonce {B} owner nonce (f : option ChatContext → M B) Q w :
  (∀ o, (∀ c, o = Some c → has_context c (working w) ∧ cc_owner_subject c = owner
     ∧ cc_client_nonce c = Some nonce) → moves (f o) Q w) →
  moves (context_of_nonce owner nonce ≫= f) Q w.
Proof.
  intros Hf. apply moves_inv. intros ((HK & _) & _). apply moves_scalar. intros o Ho _.
  apply Hf. intros c Hc. destruct (Ho c Hc) as (Hp & i & Hi).
  apply andb_true_iff in Hp as [E1%bool_decide_eq_true E2%bool_decide_eq_true].
  pose proof (HK _ _ Hi) as E. simpl in E. unfold has_context. by rewrite E.
Qed.

Definition lease_created (o : string) (nonce : option string) (l : ChatContextLease)
    (w : world) : Prop :=
  ∃ owner c, _owner o = Ok owner ∧ cc_owner_subject c = owner ∧ cc_client_nonce c = nonce
    ∧ lease_for c l (working w).

Lemma create_context_spec o nonce project k w :
  violated w = false →
  moves (_create_context o nonce project k) (lease_created o nonce) w.
Proof.
  intros Hv. unfold _create_context.
  apply moves_lift. intros [] _. apply moves_lift. intros owner Howner.
  apply moves_lift. intros actor _. apply moves_lift. intros project_ref _.
  assert (∀ (existing : ChatContext) w', has_context existing (working w') →
    cc_owner_subject existing = owner → cc_client_nonce existing = nonce →
    moves (_ensure_context_alias existing actor) (lease_created o nonce) w') as Hensure.
  { intros existing w' Hc Eo En. eapply moves_mono; [by apply ensure_spec, has_known|].
    intros l w'' _ Hl. by exists owner, existing. }
  assert (∀ (miss : M (option ChatContext)) (f : option ChatContext → M ChatContextLease) w',
    (∀ existing, (∀ c, existing = Some c → has_context c (working w') ∧ cc_owner_subject c = owner
       ∧ cc_client_nonce c = nonce) → moves (f existing) (lease_created o nonce) w') →
    stateless miss → (∀ x w', (miss w').1 = Ok x → x = None) →
    moves (match nonce with Some nonce => context_of_nonce owner nonce | None => miss end ≫= f)
      (lease_created o nonce) w') as Hexisting.
  { intros miss f w' Hf Hst Hmiss. destruct nonce as [nonce|].
    - apply moves_context_of_nonce. intros e He. apply Hf. intros c Hc.
      destruct (He c Hc) as (? & ? & ->). done.
    - apply moves_read; [done|]. intros x Hx. apply Hmiss in Hx as ->. by apply Hf. }
  apply Hexisting; [|done|by intros ?? [= <-]]. intros [existing|] He.
  { destruct (He existing eq_refl) as (? & ? & ?). by apply Hensure. }
  apply moves_utcnow, moves_uuid. set (c := new_context _ _ _ _ _).
  eapply (moves_bind _ _ (λ x w', ∀ a, x = Some a → lease_for c (_lease a false) (working w'))).
  - apply moves_savepoint; [done| |intros w' _ _; by apply moves_ret].
    eapply moves_bind; [apply insert_context_spec; [done..|by eapply owner_ok]|].
    intros a w' _ Ha. apply moves_ret. by intros ? [= <-].
  - intros [a|] w' _ Ha.
    + apply moves_ret. exists owner, c. split_and!; [done|done|done|]. by apply Ha.
    + apply Hexisting; [|done|by intros ??]. intros [existing|] He'.
      * destruct (He' existing eq_refl) as (? & ? & ?). by apply Hensure.
      * by eapply moves_raise.
Qed.
(** ** Conversations *)

(** A context of the owner to which the conversation is bound. *)
Definition bound (o reference i : string) (c : ChatContext) (d : db) : Prop :=
  ∃ owner normalized, _owner o = Ok owner
    ∧ _normalize_conversation_reference reference = Ok normalized
    ∧ has_context c d ∧ cc_id c = i ∧ cc_owner_subject c = owner ∧ is_bound_to normalized c = true.

Lemma moves_bound {B} owner kind normalized (f : list ChatContext → M B) Q w :
  (∀ l, (∀ c, c ∈ l → has_context c (working w) ∧ cc_owner_subject c = owner
     ∧ cc_host_kind c = kind ∧ is_bound_to normalized c = true) →
   (∀ c, has_context c (working w) → cc_owner_subject c = owner → cc_host_kind c = kind →
     is_bound_to normalized c = true → c ∈ l) → moves (f l) Q w) →
  moves (bound_contexts owner kind normalized ≫= f) Q w.
Proof.
  intros Hf. apply moves_inv. intros ((HK & _) & _). apply moves_read; [done|].
  intros l [= <-]. apply Hf; intros c Hc.
  - apply (elem_of_select_keyed (R:=ChatContext)) in Hc as [Hp Hc]; [|done].
    apply andb_true_iff in Hp as [[E1%bool_decide_eq_true E2%bool_decide_eq_true]%andb_true_iff E3].
    done.
  - intros E1 E2 E3. apply (elem_of_select_keyed (R:=ChatContext)); [done|]. split; [|exact Hc].
    by rewrite !bool_decide_eq_true_2.
Qed.

Lemma touch_spec {B} c now (f : unit → M B) Q w :
  has_context c (working w) →
  (∀ w', has_context (c <| cc_last_seen_at := now |> <| cc_updated_at := now |>) (working w') →
     moves (f tt) Q w') →
  moves (put (c <| cc_last_seen_at := now |> <| cc_updated_at := now |>) ≫= f) Q w.
Proof.
  intros Hc Hf. apply moves_put; [intros Hi; by apply later_touch|]. apply Hf, has_put_context.
Qed.

Lemma bind_conversation_spec o i reference k w :
  violated w = false →
  moves (bind_conversation o i reference k) (λ b w', ∃ c version,
    bound o reference i c (working w') ∧ cc_conversation_key_version c = Some version
    ∧ b = mkBinding i version (newly_bound b)) w.
Proof.
  intros Hv. unfold bind_conversation.
  apply moves_lift. intros [] _. apply moves_lift. intros owner Howner.
  apply moves_lift. intros actor _. apply moves_lift. intros normalized Hn.
  apply moves_lock. intros c Hc Ei Eo. apply moves_not_closed. apply moves_bound.
  intros [|candidate l] Hl _.
  - destruct (is_none (cc_conversation_ref_hmac c)) eqn:Hnone; simpl; [|by eapply moves_raise].
    assert (cc_conversation_ref_hmac c = None) as Hfree by (by destruct (cc_conversation_ref_hmac c)).
    apply moves_utcnow. set (version := gateway_chat_context_hmac_key_version settings).
    set (digest := _conversation_digest normalized version).
    match goal with |- context [modify ?x] => set (c' := x) end.
    eapply (moves_bind _ _ (λ _ w', has_context c' (working w'))).
    + apply moves_savepoint; [done| |intros; by eapply moves_raise].
      apply moves_modify.
      * intros Hu Hi. by apply later_bind.
      * intros _ Hi. apply wp_flush; intros Hv'; (split_and!; [done|by apply later_refl|]); [done|].
        intros _ _. apply has_put_context.
      * intros Hi. apply wp_flush; intros Hv'; (split_and!; [done|by apply later_refl|]); done.
    + intros [] w1 _ Hc'. apply moves_event. intros w2 [Ec2 _]. apply moves_flush. intros _.
      apply moves_ret. exists c', version. split_and!; [|done|simpl; by rewrite <-Ei].
      exists owner, normalized. split_and!; try done.
      * unfold has_context. by rewrite Ec2.
      * unfold is_bound_to. simpl. by apply bool_decide_eq_true.
  - destruct (Hl candidate ltac:(left)) as (Hc' & Eo' & _ & Hb).
    case_bool_decide as Eid; simpl; [|by eapply moves_raise].
    assert (candidate = c) as -> by (unfold has_context in *; congruence).
    apply moves_utcnow, touch_spec; [done|]. intros w1 Hc1. apply moves_flush. intros _.
    apply moves_ret. pose proof Hb as Hb'. unfold is_bound_to in Hb.
    destruct (cc_conversation_ref_hmac c) as [digest|] eqn:Ed; [|done].
    destruct (cc_conversation_key_version c) as [version|] eqn:Ev; [|done].
    exists (c <| cc_last_seen_at := clock (ticks w) |> <| cc_updated_at := clock (ticks w) |>), version.
    split_and!; [|exact Ev|simpl; by rewrite <-Ei].
    exists owner, normalized. by split_and!.
Qed.

(** The context is the only one of the owner that the conversation is bound to. *)
Definition only_bound (owner normalized i : string) (d : db) : Prop :=
  ∀ x, has_context x d → cc_owner_subject x = owner → cc_host_kind x = "chatgpt" →
    is_bound_to normalized x = true → cc_id x = i.

Lemma resolve_conversation_spec o reference w :
  moves (resolve_conversation o reference) (λ i w', ∃ owner normalized c,
    _owner o = Ok owner ∧ _normalize_conversation_reference reference = Ok normalized
    ∧ has_context c (working w') ∧ cc_id c = i ∧ cc_owner_subject c = owner
    ∧ is_bound_to normalized c = true ∧ only_bound owner normalized i (working w)) w.
Proof.
  unfold resolve_conversation.
  apply moves_lift. intros [] _. apply moves_lift. intros owner Howner.
  apply moves_lift. intros normalized Hn. apply moves_bound.
  intros [|c [|c' l]] Hl Hall; [by eapply moves_raise| |by eapply moves_raise].
  destruct (Hl c ltac:(left)) as (Hc & Eo & _ & Hb). apply moves_not_closed.
  apply moves_utcnow, touch_spec; [done|]. intros w1 Hc1. apply moves_flush. intros _.
  apply moves_ret. eexists owner, normalized, _. split_and!; [done|done|exact Hc1|done|done|exact Hb|].
  intros x Hx E1 E2 E3. by apply Hall, list_elem_of_singleton in Hx as ->.
Qed.

Lemma resolve_lease_spec o reference k w :
  moves (resolve_conversation_lease o reference k) (λ l w', ∃ c normalized,
    _normalize_conversation_reference reference = Ok normalized ∧ is_bound_to normalized c = true
    ∧ _owner o = Ok (cc_owner_subject c) ∧ lease_for c l (working w')
    ∧ only_bound (cc_owner_subject c) normalized (cc_id c) (working w)) w.
Proof.
  unfold resolve_conversation_lease. eapply moves_bind; [apply resolve_conversation_spec|].
  intros i w1 _ (owner & normalized & c & Howner & Hn & Hc & Ei & Eo & Hb & Honly). simpl in *.
  apply moves_lift. intros owner' Howner'. assert (owner' = owner) as -> by congruence.
  apply moves_lock. intros c' Hc' Ei' Eo'. apply moves_lift. intros actor _.
  assert (c' = c) as -> by (unfold has_context in *; congruence).
  eapply moves_mono; [by apply ensure_spec, has_known|]. intros l w2 _ Hl.
  exists c, normalized. rewrite Eo, Ei. split_and!; done.
Qed.
End service.
