(* ===== verification/ChatProofs.v ===== *)
(** * Chat contexts, whatever the gateway does

    The invariant of the rows holds in every reachable store; codes and conversations
    keep the context they have. *)

From S2P Require Import Prelude PyStr PyVal Errors Models Database Session Preserve.
From S2P Require Import Rows Autonomy Controls ChatContext McpChatContext Footprint.
From S2P Require Import System Evolution ChatSteps ChatSpecs.

Section requests.
Context {ENV : Env}.
Implicit Types w : world.

(** A request that commits what it did, or what it did before it failed. *)
Definition advances {A} (m : M A) (Q : A → db → Prop) (w : world) : Prop :=
  wp m (λ r w', later (committed w) (committed w') ∧ ∀ x, r = Ok x → Q x (committed w')) w.

Definition fresh_session w : Prop :=
  violated w = false ∧ working w = committed w ∧ chat_inv (committed w).

Lemma wp_committed {A} (m : M A) (Q : A → db → Prop) w :
  fresh_session w → moves m (λ x w', Q x (working w')) w →
  wp (x ← m; commit;; mret x) (λ r w', later (committed w) (committed w')
    ∧ later (committed w) (working w') ∧ ∀ x, r = Ok x → Q x (committed w')) w.
Proof.
  intros (Hv & Ew & Hi) Hm. apply wp_bind. rewrite <-Ew in Hi.
  eapply wp_mono; [by apply Hm|]. rewrite Ew. intros [x|e] w' (Hc & Hl & Hx).
  - apply wp_bind, wp_commit; intros Hv'.
    + split_and!; [|done|done]. rewrite Hc. apply later_refl. congruence.
    + apply wp_ret. split_and!; [done|done|]. intros ? [= <-]. by apply Hx.
  - split_and!; [|done|done]. rewrite Hc. apply later_refl. congruence.
Qed.

Lemma advances_committing {A} (m : M A) Q w :
  fresh_session w → moves m (λ x w', Q x (working w')) w → advances (committing m) Q w.
Proof.
  intros Hs Hm. pose proof (wp_committed m Q w Hs Hm) as H. unfold advances, wp, committing in *.
  destruct ((answer ← m; commit;; mret answer) w) as [[x|e] w'] eqn:E; simpl in *.
  - by destruct H as (? & _ & ?).
  - by destruct e; destruct H as (? & _ & ?).
Qed.

Lemma advances_except {A} (m : M A) (handlers : chat_error → option (M A)) Q w :
  (∀ kind h, handlers kind = Some h →
     ∃ code message tool retry, h = (rollback;; admission_error code message tool retry)
                              ∨ h = (commit;; admission_error code message tool retry)) →
  fresh_session w → moves m (λ x w', Q x (working w')) w →
  advances (except_chat (x ← m; commit;; mret x) handlers) Q w.
Proof.
  intros Hh Hs Hm. pose proof (wp_committed m Q w Hs Hm) as H. unfold advances, wp, except_chat in *.
  destruct ((x ← m; commit;; mret x) w) as [[x|e] w'] eqn:E; simpl in *.
  { by destruct H as (? & _ & ?). }
  destruct H as (Hc & Hw & _). destruct e; try by split.
  destruct (handlers _) as [h|] eqn:Eh; [|by split].
  apply Hh in Eh as (error_code & text & tool & retry & [-> | ->]); [by split|].
  change (wp (commit;; admission_error error_code text tool retry)
    (λ r w'', later (committed w) (committed w'') ∧ ∀ x, r = Ok x → Q x (committed w'')) w').
  apply wp_bind, wp_commit; intros Hv; by split.
Qed.

Lemma advances_map {A B} (m : M A) (f : A → B) (Q : A → db → Prop) (Q' : B → db → Prop) w :
  advances m Q w → (∀ x d, Q x d → Q' (f x) d) → advances (x ← m; mret (f x)) Q' w.
Proof.
  unfold advances. intros Hm Hf. apply wp_bind. eapply wp_mono; [exact Hm|].
  intros [x|e] w' [Hl Hx]; [|by split]. apply wp_ret. split; [done|].
  intros ? [= <-]. by apply Hf, Hx.
Qed.
Lemma advances_ret {A} (x : A) (Q : A → db → Prop) w :
  chat_inv (committed w) → Q x (committed w) → advances (mret x) Q w.
Proof. intros Hi HQ. split; [by apply later_refl|]. by intros ? [= <-]. Qed.
Lemma advances_lift {A B} (r : result A) (f : A → M B) Q w :
  chat_inv (committed w) → (∀ x, r = Ok x → advances (f x) Q w) → advances (lift r ≫= f) Q w.
Proof.
  intros Hi Hf. destruct r as [x|e]; [by apply Hf|]. by split; [apply later_refl|].
Qed.
Lemma advances_throw {A} e (Q : A → db → Prop) w :
  chat_inv (committed w) → advances (throw e) Q w.
Proof. intros Hi. split; [by apply later_refl|done]. Qed.

Context (Httl : 0 < gateway_chat_context_ttl_seconds settings).

Lemma advances_create o n p w : fresh_session w → advances (create_context o n p) (λ _ _, True) w.
Proof.
  intros Hs. apply advances_committing; [done|]. unfold create_provisional.
  apply moves_lift. intros nonce _. eapply moves_mono; [by apply create_context_spec, Hs|done].
Qed.
Lemma advances_bind_context o c r w : fresh_session w →
  advances (bind_context o c r) (λ _ d, ∃ x, bound o r c x d) w.
Proof.
  intros Hs. apply advances_committing; [done|].
  eapply moves_mono; [by apply bind_conversation_spec, Hs|].
  intros b w' _ (x & _ & Hb & _). by exists x.
Qed.
Lemma advances_resolve o r w : fresh_session w →
  advances (resolve_context o r) (λ l d, ∃ c normalized,
    _normalize_conversation_reference r = Ok normalized ∧ _owner o = Ok (cc_owner_subject c)
    ∧ lease_for c l d ∧ only_bound (cc_owner_subject c) normalized (cc_id c) (committed w)) w.
Proof.
  intros Hs. apply advances_committing; [done|]. eapply moves_mono; [by apply resolve_lease_spec|].
  intros l w' _ (c & n & Hn & _ & Ho & Hl & Honly). exists c, n. split_and!; try done.
  by rewrite <-(proj1 (proj2 Hs)).
Qed.

Ltac known_handlers :=
  intros [] h; simpl; try discriminate; intros [= <-]; do 4 eexists;
  first [by left | by right].

(** How a call is admitted: as it is, without the argument, or under the context whose
    code it passes. *)
Inductive admitted_call (o t : string) (args : pydict) (now : Z) (d : db) (mode : string) :
    McpChatContextAdmission → Prop :=
  | admitted_as_is :
      mode = "off" ∨ t ∈ CHAT_CONTEXT_EXEMPT_TOOLS →
      admitted_call o t args now d mode (mkAdmission mode args None None)
  | admitted_without :
      mode = "optional" → dict_get args CHAT_CONTEXT_ARGUMENT = PNone →
      admitted_call o t args now d mode
        (mkAdmission mode (dict_without CHAT_CONTEXT_ARGUMENT args) None None)
  | admitted_under code owner l a :
      dict_get args CHAT_CONTEXT_ARGUMENT = PStr code → _owner o = Ok owner →
      ca_owner_subject a = owner → ca_code a = code → lease_of owner now l a d →
      admitted_call o t args now d mode
        (mkAdmission mode (dict_without CHAT_CONTEXT_ARGUMENT args)
           (Some (ca_context_id a)) (Some code)).

Lemma advances_admit o t args mode w :
  fresh_session w → advances (admit_chat_context o t args mode) (λ adm d, ∃ m,
    validate_chat_context_mode mode = Ok m ∧ admitted_call o t args (clock (ticks w)) d m adm) w.
Proof.
  intros Hs. assert (chat_inv (committed w)) as Hi by apply Hs.
  unfold admit_chat_context. apply advances_lift; [done|]. intros m Hm. destruct ((m ==? "off") || (t ∈? CHAT_CONTEXT_EXEMPT_TOOLS)) eqn:Hoff.
  { apply advances_ret; [done|]. exists m. split; [done|]. constructor.
    apply orb_true_iff in Hoff as [?%bool_decide_eq_true|?%bool_decide_eq_true]; auto. }
  destruct (dict_get args CHAT_CONTEXT_ARGUMENT) eqn:Harg; try by apply advances_throw.
  { destruct (m ==? "optional") eqn:Hopt; [|by apply advances_throw].
    apply advances_ret; [done|]. exists m. split; [done|]. constructor; [|done].
    by apply bool_decide_eq_true in Hopt. }
  destruct (as_code _) as [code|] eqn:Hcode; [|by apply advances_throw].
  simpl in Hcode. destruct (is_code s) eqn:Hs'; [injection Hcode as <-|done].
  apply (advances_map _ _ (λ l d, ∃ owner a0 a, _owner o = Ok owner
    ∧ has_alias a0 (working w) ∧ ca_owner_subject a0 = owner ∧ ca_code a0 = s
    ∧ alias_terms a = alias_terms a0 ∧ lease_of owner (clock (ticks w)) l a d)).
  - apply advances_except; [known_handlers|done|]. by apply resolve_alias_spec.
  - intros l d (owner & a0 & a & Howner & _ & Eo & Ec & Ht & Hl). exists m. split; [done|].
    destruct Hl as (c & Hh & Eoc & Hst & Hn & El). injection Ht as _ _ Eoa Eca _ _ _.
    assert (Ea : ca_owner_subject a = owner ∧ ca_code a = s) by (by split; congruence).
    destruct Ea as [Ea Es]. rewrite El. simpl. rewrite Es.
    apply (admitted_under _ _ _ _ _ _ s owner l a); [done|done|done|done|by exists c].
Qed.

Lemma advances_start o w : fresh_session w → advances (start_chat_context o) (λ _ _, True) w.
Proof.
  intros Hs. apply (advances_map _ _ (λ _ _, True)); [|done].
  apply advances_except; [known_handlers|done|].
  eapply moves_mono; [by apply create_context_spec, Hs|done].
Qed.
Lemma advances_refresh o code w : fresh_session w →
  advances (refresh_chat_context o code) (λ answer d, ∃ owner a0 a, _owner o = Ok owner
    ∧ has_alias a0 (committed w) ∧ ca_owner_subject a0 = owner ∧ ca_code a0 = code
    ∧ has_alias a d ∧ ca_context_id a = ca_context_id a0 ∧ ca_status a = "active"
    ∧ clock (ticks w) < ca_expires_at a
    ∧ dict_get answer "chat_context" = PStr (ca_code a)
    ∧ dict_get answer "rotated" = PBool (ca_id a =/? ca_id a0)) w.
Proof.
  intros Hs. assert (working w = committed w) as Ew by apply Hs.
  eapply (advances_map _ _ (λ l d, ∃ owner a0 a, _owner o = Ok owner
    ∧ has_alias a0 (working w) ∧ ca_owner_subject a0 = owner ∧ ca_code a0 = code
    ∧ ca_context_id a = ca_context_id a0
    ∧ lease_of owner (clock (ticks w)) l a d
    ∧ (rotated l = true ↔ ca_id a ≠ ca_id a0))).
  - apply advances_except; [known_handlers|done|]. by apply refresh_alias_spec.
  - intros l d (owner & a0 & a & Howner & Ha0 & Eo & Ec & Ex & (c & Hh & _ & Hst & Hn & El) & Hr).
    exists owner, a0, a. rewrite <-Ew. split_and!; try done; [apply Hh|by rewrite El|].
    change (PBool (rotated l) = PBool (ca_id a =/? ca_id a0)). f_equal.
    destruct (rotated l); symmetry; [apply negb_true_iff, bool_decide_eq_false; by apply Hr|].
    apply negb_false_iff, bool_decide_eq_true. destruct (decide (ca_id a = ca_id a0)); [done|].
    by assert (false = true) by by apply Hr.
Qed.

(** ** Every operation *)
Lemma stable_later {R} `{!Table R} d0 :
  (∀ (r : R) d, same_chat d (put_row r d)) → Stable (later d0) R.
Proof.
  intros Hsame r d Hl. eapply later_trans; [exact Hl|]. apply same_chat_later; [apply Hl|done].
Qed.
Lemma erasable_later {R} `{!Table R} d0 :
  (∀ (r : R) d, same_chat d (erase_row r d)) → Erasable (later d0) R.
Proof.
  intros Hsame r d Hl. eapply later_trans; [exact Hl|]. apply same_chat_later; [apply Hl|done].
Qed.
Lemma empty_chat_inv : chat_inv empty_db.
Proof.
  assert (∀ {R} (i : string) (r : R), (∅ : gmap string R) !! i = Some r → False) as Hno
    by (intros R i r E; by rewrite lookup_empty in E).
  split_and!; repeat intro; exfalso;
    match goal with E : _ !! _ = Some _ |- _ => exact (Hno _ _ _ E) end.
Qed.

Lemma exec_advances {A} (m : M A) Q s o :
  handler o = ignore m → advances m Q (open_session s) → later (st_db s) (st_db (exec s o)).
Proof.
  unfold advances. intros E Hm. apply (exec_wp (later (st_db s))). rewrite E. apply wp_ignore. eapply wp_mono; [exact Hm|].
  by intros r w' [? _].
Qed.

Ltac solve_stable_later := apply stable_later; intros ? ?; split; reflexivity.
#[local] Hint Extern 4 (Stable (later _) _) => solve_stable_later : typeclass_instances.

#[local] Hint Extern 4 (Erasable (later _) _) =>
  apply erasable_later; intros ? ?; split; reflexivity : typeclass_instances.

Lemma exec_later s o : chat_inv (st_db s) → later (st_db s) (st_db (exec s o)).
Proof.
  intros Hi. assert (fresh_session (open_session s)) as Hs by done.
  destruct o; lazymatch goal with
  | |- context [CreateChatContext ?o ?n ?p] =>
      by eapply (exec_advances (create_context o n p)), advances_create
  | |- context [BindChatContext ?o ?c ?r] =>
      by eapply (exec_advances (bind_context o c r)), advances_bind_context
  | |- context [ResolveChatContext ?o ?r] =>
      by eapply (exec_advances (resolve_context o r)), advances_resolve
  | |- context [AdmitChatContext ?o ?t ?a ?m] =>
      by eapply (exec_advances (admit_chat_context o t a m)), advances_admit
  | |- context [StartChatContext ?o] =>
      by eapply (exec_advances (start_chat_context o)), advances_start
  | |- context [RefreshChatContext ?o ?c] =>
      by eapply (exec_advances (refresh_chat_context o c)), advances_refresh
  | _ => apply (exec_pres (later (st_db s))); [frame|by apply later_refl]
  end.
Qed.
Lemma exec_all_later s os : chat_inv (st_db s) → later (st_db s) (st_db (exec_all s os)).
Proof.
  revert s. induction os as [|o os IH]; intros s Hi; [by apply later_refl|].
  pose proof (exec_later s o Hi) as Hl. eapply later_trans; [exact Hl|].
  apply (IH (exec s o)). apply Hl.
Qed.

Lemma reachable_later s : reachable s → later empty_db (st_db s).
Proof.
  induction 1 as [|s o _ IH]; [apply later_refl, empty_chat_inv|].
  eapply later_trans; [exact IH|]. apply exec_later, IH.
Qed.

Lemma reachable_chat_inv s : reachable s → chat_inv (st_db s).
Proof. intros Hs. apply (reachable_later s Hs). Qed.

Lemma chat_inv_separate s i j a b :
  reachable s → chat_aliases (st_db s) !! i = Some a → chat_aliases (st_db s) !! j = Some b →
  clash_chat_aliases a b = true → i = j.
Proof.
  intros Hs Ha Hb Hclash. destruct (reachable_chat_inv s Hs) as (_ & _ & Hsep & _).
  destruct (decide (i = j)) as [|Hne]; [done|].
  pose proof (Hsep i j a b Ha Hb Hne) as E. simpl in E. congruence.
Qed.

(** ** The codes *)


(** The aliases of a context are its generations 1, 2, ... up to the one it counts,
    each exactly once and for its owner; a context that is active and has any alias has
    exactly one active alias, and no other context has. *)
Theorem generations_of_a_context s id c :
  reachable s → chat_contexts (st_db s) !! id = Some c →
  let aliases_of P := λ i, ∃ a, chat_aliases (st_db s) !! i = Some a ∧ ca_context_id a = id ∧ P a in
  (∀ g, 1 ≤ g ≤ cc_generation c → exists! i, aliases_of (λ a, ca_generation a = g) i)
  ∧ (cc_state c = "active" → cc_generation c ≠ 0 → exists! i, aliases_of (λ a, ca_status a = "active") i)
  ∧ ∀ i, aliases_of (λ _, True) i → aliases_of (λ a, 1 ≤ ca_generation a ≤ cc_generation c
      ∧ ca_owner_subject a = cc_owner_subject c ∧ (ca_status a = "active" → cc_state c = "active")) i.
Proof.
  intros Hs Hc aliases_of. pose proof (reachable_chat_inv s Hs) as ((HK & _) & _ & _ & HC & HA).
  pose proof (HK _ _ Hc) as Ek. simpl in Ek. destruct (HC _ _ Hc) as [_ _ Hgens Hact _].
  rewrite Ek in Hgens, Hact. split_and!.
  - intros g Hg. destruct (Hgens g Hg) as (i & a & Ha & Hx & Eg). exists i. split; [by exists a|].
    intros j (b & Hb & Hxb & Egb). apply (chat_inv_separate s i j a b Hs Ha Hb).
    destruct (clash_chat_aliases a b) eqn:Hcl; [done|]. apply clash_alias_false in Hcl.
    destruct Hcl as (_ & Hcl & _). destruct Hcl. split; congruence.
  - intros Hst Hg. destruct (Hact Hst Hg) as (i & a & Ha & Hx & Ea). exists i.
    split; [by exists a|].
    intros j (b & Hb & Hxb & Eb). apply (chat_inv_separate s i j a b Hs Ha Hb).
    destruct (clash_chat_aliases a b) eqn:Hcl; [done|]. apply clash_alias_false in Hcl.
    destruct Hcl as (_ & _ & _ & Hcl). destruct Hcl. split_and!; congruence.
  - intros i (a & Ha & Hx & _). exists a. split_and!; [done|done|..];
      destruct (HA _ _ Ha) as [_ _ (x & Hcx & Ho & Hg & Hst)]; rewrite Hx, Hc in Hcx;
      injection Hcx as <-; [lia|lia|done|done].
Qed.

(** C24 Once an owner has been given a code, the code stands for the same context ever
    after, whatever operations run: neither its expiry nor its release, a refresh or a
    rotation gives it to another context of the owner. *)
Theorem code_keeps_its_context s os i a :
  reachable s → chat_aliases (st_db s) !! i = Some a →
  let later_aliases := chat_aliases (st_db (exec_all s os)) in
  (∃ a', later_aliases !! i = Some a' ∧ alias_terms a' = alias_terms a)
  ∧ ∀ j b, later_aliases !! j = Some b → ca_owner_subject b = ca_owner_subject a →
      ca_code b = ca_code a → j = i ∧ ca_context_id b = ca_context_id a.
Proof.
  intros Hs Ha. pose proof (reachable_exec_all s os Hs) as Hs'.
  destruct (exec_all_later s os (reachable_chat_inv s Hs)) as (_ & _ & [Hg _]).
  destruct (Hg _ _ Ha) as (a' & Ha' & [Ht _]). simpl in Ha'. split; [by exists a'|].
  intros j b Hb Eo Ec. injection Ht as _ Ex Eo' Ec' _ _ _. assert (j = i) as ->; [|split; congruence].
  apply (chat_inv_separate _ j i b a' Hs' Hb Ha').
  destruct (clash_chat_aliases b a') eqn:Hcl; [done|]. apply clash_alias_false in Hcl.
  destruct Hcl as (Hcl & _). destruct Hcl. split; congruence.
Qed.

(** ** Requests *)
Lemma run_advances {A} (m : M A) Q s x s' :
  reachable s → (∀ w, fresh_session w → advances m Q w) → run m s = (Ok x, s') →
  later (st_db s) (st_db s') ∧ Q x (st_db s').
Proof.
  intros Hs Hm E. destruct (Hm (open_session s)) as [Hl Hx]; [by split_and!; [..|apply reachable_chat_inv]|].
  unfold run in E. destruct (m (open_session s)) as [r w]. injection E as -> <-. split; [done|].
  by apply Hx.
Qed.

(** The rows of the context as they are later. *)
Lemma bound_later o r i x d d' :
  later d d' → bound o r i x d → ∃ x', bound o r i x' d' ∧ context_evolves x x'.
Proof.
  intros Hl (owner & n & Ho & Hn & Hx & Ei & Eo & Hb).
  destruct (later_context _ _ _ Hl Hx) as (x' & Hx' & HE & Ei'). exists x'. split; [|done].
  destruct HE as [Ht _ Hbind].
  exists owner, n. unfold context_terms in Ht. split_and!; [done|done|done|congruence|congruence|].
  unfold is_bound_to in *. destruct (cc_conversation_ref_hmac x) as [digest|] eqn:Ed; [|done].
  destruct Hbind as [E1 E2]; [by eexists|]. by rewrite E1, E2.
Qed.

Lemma reachable_host_kind s i c :
  reachable s → chat_contexts (st_db s) !! i = Some c → cc_host_kind c = "chatgpt".
Proof.
  intros Hs Hc. destruct (reachable_later s Hs) as (_ & [_ Hnew] & _).
  destruct (Hnew _ _ Hc) as (c0 & [_ Hk] & _ & [Ht _ _]); [by rewrite tbl_empty|].
  unfold context_terms in Ht. congruence.
Qed.

(** C32 A conversation bound to a context stays bound to it: whatever operations run in
    between, when the conversation is resolved the answer is a lease of that context. *)
Theorem bound_conversation_resolves s subject id reference b s1 os l s2 :
  reachable s →
  run (bind_context subject id reference) s = (Ok b, s1) →
  run (resolve_context subject reference) (exec_all s1 os) = (Ok l, s2) →
  context_id l = id
  ∧ ∃ a, chat_aliases (st_db s2) !! ca_id a = Some a ∧ ca_context_id a = id
      ∧ ca_code a = lease_code l ∧ ca_status a = "active".
Proof.
  intros Hs Hbind Hres.
  destruct (run_advances _ _ _ _ _ Hs (advances_bind_context _ _ _) Hbind) as [Hl1 (x & Hx)].
  assert (reachable s1) as Hs1.
  { assert (exec s (BindChatContext subject id reference) = s1) as <-; [|by constructor].
    unfold exec. change (handler _) with (ignore (bind_context subject id reference)).
    by rewrite run_ignore, Hbind. }
  set (s' := exec_all s1 os) in *.
  assert (reachable s') as Hs' by by apply reachable_exec_all.
  destruct (bound_later _ _ _ _ _ _ (exec_all_later s1 os (later_inv _ _ Hl1)) Hx)
    as (x' & (owner & n & Ho & Hn & Hx' & Ei & Eo & Hb) & _).
  unfold run in Hres. destruct (advances_resolve subject reference (open_session s')) as [_ Hx2].
  { split_and!; [done|done|by apply reachable_chat_inv]. }
  destruct (resolve_context subject reference (open_session s')) as [r w].
  injection Hres as -> <-. destruct (Hx2 l eq_refl) as (c & n' & Hn' & Ho' & (a & now & Hl & Ea) & Honly).
  assert (n' = n) as -> by congruence. assert (cc_owner_subject c = owner) as Eoc by congruence.
  rewrite Eoc in Honly. assert (cc_id c = id) as Eid.
  { rewrite <-Ei. symmetry. apply Honly; [exact Hx'|done|by eapply reachable_host_kind|done]. }
  destruct Hl as (y & (Hy & Ha & Ey) & _ & Hst & _ & El). rewrite El. simpl.
  split; [congruence|]. exists a. split_and!; [exact Ha|congruence|done|done].
Qed.

(** A code that expired, was quarantined or released, or belongs to an older generation
    is never lost: its refresh, if it succeeds, is answered with a code of the same
    context, with a lease that has not run out, and says whether the code is new. *)
Theorem refresh_returns_to_the_context s os i a subject answer s' :
  reachable s → chat_aliases (st_db s) !! i = Some a → _owner subject = Ok (ca_owner_subject a) →
  run (refresh_chat_context subject (ca_code a)) (exec_all s os) = (Ok answer, s') →
  ∃ b, chat_aliases (st_db s') !! ca_id b = Some b ∧ ca_context_id b = ca_context_id a
    ∧ ca_status b = "active" ∧ clock (st_ticks (exec_all s os)) < ca_expires_at b
    ∧ dict_get answer "chat_context" = PStr (ca_code b)
    ∧ dict_get answer "rotated" = PBool (ca_id b =/? i).
Proof.
  intros Hs Ha Ho E. set (s1 := exec_all s os) in *.
  assert (reachable s1) as Hs1 by by apply reachable_exec_all.
  unfold run in E. destruct (advances_refresh subject (ca_code a) (open_session s1)) as [_ Hx].
  { split_and!; [done|done|by apply reachable_chat_inv]. }
  destruct (refresh_chat_context subject (ca_code a) (open_session s1)) as [r w].
  injection E as -> <-.
  destruct (Hx answer eq_refl) as (owner & a0 & b & Ho' & Ha0 & Eo & Ec & Hb & Ex & Hst & Hn & Hd1 & Hd2).
  assert (owner = ca_owner_subject a) as -> by congruence.
  destruct (exec_all_later s os (reachable_chat_inv s Hs)) as (Hi1 & _ & [Hg _]).
  destruct (Hg _ _ Ha) as (a' & Ha' & [Ht _]). injection Ht as Et Ex' Eo' Ec' _ _ _.
  pose proof (proj2 (proj1 Hi1) _ _ Ha') as Ek. simpl in Ek.
  assert (a0 = a') as ->.
  { eapply same_code; [exact Hi1|exact Ha0| |congruence|congruence].
    unfold has_alias. rewrite Ek. exact Ha'. }
  exists b. rewrite Ek in Hd2. split_and!; [exact Hb|congruence|done|done|done|done].
Qed.

(** C25 How a tool call is admitted.  Unless the presentation ignores chat contexts or the
    tool is one of the two that hand out codes, a call is admitted without a context only
    if it passes none and may, and otherwise under the context of the caller for which
    the code it passes is leased at that time; the tool never sees the argument. *)
Theorem admitted_calls s subject tool arguments mode admission s' :
  reachable s →
  run (admit_chat_context subject tool arguments mode) s = (Ok admission, s') →
  ∃ m, validate_chat_context_mode mode = Ok m
    ∧ admitted_call subject tool arguments (clock (st_ticks s)) (st_db s') m admission
    ∧ (m ≠ "off" → tool ∉ CHAT_CONTEXT_EXEMPT_TOOLS →
       dict_get (admitted_arguments admission) CHAT_CONTEXT_ARGUMENT = PNone).
Proof.
  intros Hs E. unfold run in E.
  destruct (advances_admit subject tool arguments mode (open_session s)) as [_ Hx].
  { split_and!; [done|done|by apply reachable_chat_inv]. }
  destruct (admit_chat_context subject tool arguments mode (open_session s)) as [r w].
  injection E as -> <-. destruct (Hx admission eq_refl) as (m & Hm & Hadm). exists m.
  split_and!; [done|done|]. intros Hoff Htool.
  assert (∀ d, dict_get (dict_without CHAT_CONTEXT_ARGUMENT d) CHAT_CONTEXT_ARGUMENT = PNone) as Hd.
  { induction d as [|[k v] d IH]; [done|]. unfold dict_without, filter in *. simpl.
    case_decide as Hk; [|done].
    unfold dict_get, dict_get_or. simpl. rewrite bool_decide_eq_false_2 by congruence. exact IH. }
  destruct Hadm; [tauto|apply Hd|apply Hd].
Qed.
End requests.
