(* ===== verification/ChatDemo.v ===== *)
(** * A run of the chat contexts

    An environment whose clock moves on by 100 seconds at each reading, where a lease
    lasts 300 seconds and the quarantine 600, with the witnesses of the theorems about
    chat contexts. *)

From S2P Require Import Prelude PyStr PyVal PyFloat Errors Models Database Session.
From S2P Require Import Preserve ChatContext McpChatContext System ChatSteps ChatSpecs.
From S2P Require Import ChatProofs.

#[export] Instance chat_env : Env := {|
  clock n := (1700000000 + 100 * Z.of_nat n) * 1000000;
  uuid_source n := "id-" +:+ pretty (Z.of_nat n);
  code_source n := "A" +:+ pad 3 (Z.of_nat n);
  sha256_hexdigest s := s;
  hmac_sha256 key message := key +:+ message;
  fernet_encrypt n v := v;
  fernet_decrypt v := Some v;
  schema_violation schema v := None;
  nfkc s := s;
  ip_literal s := false;
  urlsafe_source n := "token-" +:+ pretty (Z.of_nat n);
  hex_source n := "C0DE0" +:+ pretty (Z.of_nat n);
  uuid5 namespace name := namespace +:+ name;
  jwt_encode claims := json_dumps (PDict claims);
  jwt_decode now token := None;
  settings := {|
    gateway_autonomy_enabled := true;
    gateway_autonomy_emergency_stop := false;
    gateway_autonomy_assignment_batch_size := 10;
    gateway_autonomy_approval_ttl_seconds := 3600;
    gateway_autonomy_permit_ttl_seconds := 600;
    gateway_outbox_enabled := false;
    gateway_outbox_max_attempts := 5;
    gateway_nats_subject_prefix := "gateway";
    gateway_outbox_batch_size := 100;
    gateway_outbox_retry_base_seconds := float_scale 1 0;
    gateway_outbox_retry_max_seconds := float_scale 300 0;
    gateway_outbox_lock_ttl_seconds := 60;
    gateway_broker_backend := "memory";
    gateway_replica_ttl_seconds := 30;
    gateway_realtime_route_ttl_seconds := 90;
    gateway_realtime_notification_ttl_seconds := 86400;
    gateway_nats_stream := "GATEWAY";
    gateway_chat_context_enabled := true;
    gateway_chat_context_ttl_seconds := 300;
    gateway_chat_context_renew_threshold_seconds := 100;
    gateway_chat_context_quarantine_seconds := 600;
    gateway_chat_context_allocation_attempts := 64;
    gateway_chat_context_hmac_key := "0123456789abcdef0123456789abcdef";
    gateway_chat_context_hmac_key_version := 1;
    gateway_affine_approval_server_endpoint := "http://affine:3010/mcp";
    gateway_affine_approval_preview_max_chars := 1200;
    gateway_affine_approval_preview_max_items := 20;
    gateway_mcp_federation_writes_paused := false;
    public_base_url := "http://localhost:8000";
    gateway_dev_auth := false;
    gateway_dev_subject := "dev:local";
    gateway_dev_username := "local";
    gateway_dev_email := None;
    gateway_dev_roles := "gateway-user";
    gateway_session_cookie := "gateway_session";
    keycloak_issuer := "http://localhost:8080/realms/chatgpt-mcp";
    keycloak_client_id := "chatgpt-mcp-gateway";
    gateway_access_token_ttl_seconds := 864000;
    gateway_auth_code_ttl_seconds := 600;
    oauth_audience := "chatgpt-mcp-ssh-gateway";
    oauth_supported_scopes := "workspace:read chat-context:write";
    gateway_browser_extension_client_id := "atlas-chatgpt-browser-extension";
    gateway_browser_extension_redirect_uri := "https://extension.example/oauth2";
    gateway_browser_extension_oauth_scopes := "workspace:read chat-context:write";
    gateway_browser_extension_access_token_ttl_seconds := 3600;
    gateway_device_code_ttl_seconds := 600;
    gateway_thin_client_token_ttl_seconds := 2592000;
  |};
|}.

Definition reference : string := "https://chat/1".

(** Alice's context id-0 holds the code A002. *)
Definition start_store : store :=
  exec_all (mkStore empty_db 0 0) [StartChatContext "alice"].
(** Her lease runs out while Bob starts conversations. *)
Definition idle : list op := repeat (StartChatContext "bob") 4.
Definition idle_store : store := exec_all start_store idle.

Lemma start_store_reachable : reachable start_store.
Proof. apply reachable_exec_all. constructor. Qed.
Lemma idle_store_reachable : reachable idle_store.
Proof. apply reachable_exec_all, start_store_reachable. Qed.

Lemma ttl_positive : 0 < gateway_chat_context_ttl_seconds settings.
Proof. done. Qed.

(** Her code, when it is issued and when the lease is over. *)
Lemma alice_alias s :
  s = start_store ∨ s = idle_store →
  ∃ a, chat_aliases (st_db s) !! "id-3" = Some a ∧ ca_owner_subject a = "alice"
       ∧ ca_context_id a = "id-0" ∧ ca_code a = "A002" ∧ live_alias a = true.
Proof. intros [-> | ->]; eexists; (split; [vm_compute; reflexivity|]); vm_compute; auto. Qed.

Lemma alice_context : ∃ c, chat_contexts (st_db start_store) !! "id-0" = Some c
  ∧ cc_generation c = 1 ∧ cc_state c = "active".
Proof. eexists; (split; [vm_compute; reflexivity|]); vm_compute; auto. Qed.

Definition arguments : pydict := [("chat_context", PStr "A002"); ("x", PInt 1)].

(** A call is admitted, and refused once the lease is over. *)
Lemma admitted_run : ∃ s',
  run (admit_chat_context "alice" "tools" arguments (PStr "required")) start_store
  = (Ok (mkAdmission "required" [("x", PInt 1)] (Some "id-0") (Some "A002")), s').
Proof. eexists. vm_compute. reflexivity. Qed.

Definition admission_refused : list op :=
  [AdmitChatContext "alice" "tools" arguments (PStr "required")].

Example admission_quarantines :
  (run (admit_chat_context "alice" "tools" arguments (PStr "required")) idle_store).1
  = Raise (McpChatContextAdmissionError "CHAT_CONTEXT_EXPIRED"
      "ATLAS chat context has expired." "chat_context_refresh" true)
  ∧ ca_status <$> (chat_aliases (st_db (exec_all idle_store admission_refused)) !! "id-3")
    = Some "quarantined".
Proof. vm_compute. auto. Qed.

(** Then it is refreshed. *)
Lemma refreshed_run : ∃ answer s',
  run (refresh_chat_context "alice" "A002") (exec_all start_store (idle ++ admission_refused))
  = (Ok answer, s').
Proof. do 2 eexists. vm_compute. reflexivity. Qed.

(** A conversation is bound to the context and resolved later. *)
Lemma bound_run : ∃ b s1, run (bind_context "alice" "id-0" reference) start_store = (Ok b, s1)
  ∧ ∃ l s2, run (resolve_context "alice" reference) (exec_all s1 idle) = (Ok l, s2).
Proof. do 2 eexists. split; [vm_compute; reflexivity|]. do 2 eexists. vm_compute. reflexivity. Qed.


Lemma generations_of_a_context_witness : ∃ i a,
  chat_aliases (st_db start_store) !! i = Some a ∧ ca_context_id a = "id-0" ∧ ca_generation a = 1.
Proof.
  destruct alice_context as (c & Hc & Hg & _).
  destruct (proj1 (generations_of_a_context ttl_positive _ _ c start_store_reachable Hc) 1) as (i & Hi & _).
  { rewrite Hg. lia. }
  exists i. exact Hi.
Defined.

Lemma code_keeps_its_context_witness : ∃ a,
  chat_aliases (st_db (exec_all start_store (idle ++ admission_refused))) !! "id-3" = Some a
  ∧ ca_context_id a = "id-0" ∧ ca_code a = "A002".
Proof.
  destruct (alice_alias start_store (or_introl eq_refl)) as (a & Ha & _ & Ex & Ec & _).
  destruct (code_keeps_its_context ttl_positive _ (idle ++ admission_refused) _ a
    start_store_reachable Ha) as [(a' & Ha' & Ht) _].
  exists a'. split; [exact Ha'|]. injection Ht as _ E1 _ E2 _ _ _. split; congruence.
Defined.

Lemma bound_conversation_resolves_witness : ∃ b s1 l s2,
  run (bind_context "alice" "id-0" reference) start_store = (Ok b, s1)
  ∧ run (resolve_context "alice" reference) (exec_all s1 idle) = (Ok l, s2)
  ∧ context_id l = "id-0".
Proof.
  destruct bound_run as (b & s1 & Hb & l & s2 & Hl). exists b, s1, l, s2.
  split; [exact Hb|]. split; [exact Hl|].
  exact (proj1 (bound_conversation_resolves ttl_positive _ _ _ _ _ _ idle _ _
    start_store_reachable Hb Hl)).
Defined.

Lemma refresh_returns_to_the_context_witness : ∃ answer s' b,
  run (refresh_chat_context "alice" "A002") (exec_all start_store (idle ++ admission_refused))
  = (Ok answer, s')
  ∧ chat_aliases (st_db s') !! ca_id b = Some b ∧ ca_context_id b = "id-0".
Proof.
  destruct refreshed_run as (answer & s' & E).
  destruct (alice_alias start_store (or_introl eq_refl)) as (a & Ha & Eo & Ex & Ec & _).
  assert (_owner "alice" = Ok (ca_owner_subject a)) as Ho by (rewrite Eo; reflexivity).
  rewrite <-Ec in E.
  destruct (refresh_returns_to_the_context ttl_positive _ _ _ a "alice" answer s'
    start_store_reachable Ha Ho E) as (b & Hb & Exb & _).
  exists answer, s', b. rewrite Ec in E. split; [exact E|]. split; [exact Hb|congruence].
Defined.

Lemma admitted_calls_witness : ∃ m s',
  admitted_call "alice" "tools" arguments (clock (st_ticks start_store)) (st_db s') m
    (mkAdmission "required" [("x", PInt 1)] (Some "id-0") (Some "A002")).
Proof.
  destruct admitted_run as (s' & E).
  destruct (admitted_calls ttl_positive _ _ _ _ _ _ s' start_store_reachable E) as (m & _ & H & _).
  exists m, s'. exact H.
Defined.
