(* ===== verification/FederationSpecs.v ===== *)
(** * What the federation lets a caller use

    The decision on a tool revision as a relation, what a resolved reference tells of
    the stored rows, and which approval a revision asks for. *)

From S2P Require Import Prelude PyStr PyVal Errors Models Database Session Preserve Rows.
From S2P Require Import FederationPolicy Federation McpUpstream FederationBroker.

(** Turn a Boolean check that was made into what it says. *)
Ltac bools :=
  match goal with
  | H : _ && _ = true |- _ => apply andb_true_iff in H as [? ?]
  | H : _ || _ = false |- _ => apply orb_false_iff in H as [? ?]
  | H : _ || _ = true |- _ => apply orb_true_iff in H as [H|H]
  | H : _ && _ = false |- _ => apply andb_false_iff in H as [H|H]
  | H : negb _ = true |- _ => apply negb_true_iff in H
  | H : negb _ = false |- _ => apply negb_false_iff in H
  | H : bool_decide _ = true |- _ => apply bool_decide_eq_true in H
  | H : bool_decide _ = false |- _ => apply bool_decide_eq_false in H
  end.

(** ** The decision of the policy *)
Definition satisfied (required : option string) (held : list string) : Prop :=
  ∀ r, required = Some r → r ≠ "" → r ∈ held.

Lemma lacks_spec required held : lacks required held = false ↔ satisfied required held.
Proof.
  unfold lacks, satisfied. destruct required as [r|]; [|by split].
  rewrite andb_false_iff, !negb_false_iff, !bool_decide_eq_true. split.
  - intros H r' [= <-] Hne. by destruct H.
  - intros H. destruct (decide (r = "")); [by left|right; auto].
Qed.

(** Who may use what: the exposure, the trust in the server, the class of the tool, the
    role and the scope, and that what is called a read was verified to be one. *)
Record permitted (roles scopes : list string) (trust : McpTrustLevel)
    (mode : McpExposureMode) (enabled : bool) (class : McpActionClass)
    (read_only : McpReadOnlyStatus) (role scope : option string)
    (classes : list string) : Prop := {
  pm_exposed : enabled = true ∧ mode ≠ HIDDEN;
  pm_trusted : trust = RESTRICTED ∨ trust = APPROVED;
  pm_class : class ≠ UNKNOWN ∧ value class ∈ classes;
  pm_role : satisfied role roles;
  pm_scope : satisfied scope scopes;
  pm_read : class = READ → read_only = VERIFIED;
}.

(** C30 The policy decision is exact: whatever the roles, scopes, trust level, exposure,
    class, verification and requirements, a revision is allowed exactly when it is
    permitted, and then with the approval configured for it, or the one its class
    requires if none is. *)
Theorem authorization_exact roles scopes trust mode enabled class read_only role scope classes
    approval :
  let decision := authorize_tool_revision roles scopes trust mode enabled class read_only
                    role scope classes approval in
  (allowed decision = true
     ↔ permitted roles scopes trust mode enabled class read_only role scope classes)
  ∧ (allowed decision = true →
       approval_class decision = default (required_approval_for class) approval).
Proof.
  unfold authorize_tool_revision. cbv zeta.
  repeat match goal with |- context [if ?b then _ else _] => destruct b eqn:? end; simpl.
  all: split; [|done].
  8: { split; [intros _|done].
       match goal with H : (class ==? READ) && _ = false |- _ =>
         assert (class = READ → read_only = VERIFIED) as Hread
           by (intros ->; by destruct read_only); clear H end.
       repeat bools. split; [|..].
       - split; [by destruct enabled|done].
       - destruct trust; auto; exfalso; match goal with H : _ ∉ _ |- _ => apply H end; set_solver.
       - done.
       - by apply lacks_spec.
       - by apply lacks_spec.
       - done. }
  all: split; [done|intros [[He Hm] Ht [Hc Hv] Hr Hs Hd]]; exfalso.
  - subst. by repeat bools.
  - by destruct Ht; subst.
  - by repeat bools.
  - by repeat bools.
  - apply lacks_spec in Hr. congruence.
  - apply lacks_spec in Hs. congruence.
  - repeat bools. auto.
Qed.

(** ** The approval that is asked for *)
Lemma stronger_order a b :
  approval_order a ≤ approval_order (stronger a b)
  ∧ approval_order b ≤ approval_order (stronger a b).
Proof. by destruct a, b. Qed.

Lemma strongest_order class exposure policy :
  let a := _strongest_approval class exposure policy in
  approval_order (required_approval_for class) ≤ approval_order a
  ∧ approval_order exposure ≤ approval_order a ∧ approval_order policy ≤ approval_order a.
Proof.
  cbv zeta. unfold _strongest_approval.
  pose proof (stronger_order (required_approval_for class) exposure).
  pose proof (stronger_order (stronger (required_approval_for class) exposure) policy). lia.
Qed.

(** ** What a resolved reference tells *)

(** The names a policy can list a tool by. *)
Definition identities (item : AuthorizedRevision) : list string :=
  [mtl_id (au_tool item); mtl_upstream_name (au_tool item);
   mtl_normalized_name (au_tool item); rvn_id (au_revision item)].

Record usable (user : User) (tool_ref schema_hash : string) (available : bool)
    (item : AuthorizedRevision) (d : db) : Prop := {
  us_reference : ∃ ids, _parse_tool_ref tool_ref = Ok ids
    ∧ mcp_servers d !! ids.1.1 = Some (au_server item)
    ∧ mcp_tools d !! ids.1.2 = Some (au_tool item)
    ∧ mcp_revisions d !! ids.2 = Some (au_revision item);
  us_owner : srv_owner_subject (au_server item) = usr_subject user
    ∧ mtl_owner_subject (au_tool item) = usr_subject user
    ∧ rvn_owner_subject (au_revision item) = usr_subject user
    ∧ xps_owner_subject (au_exposure item) = usr_subject user
    ∧ fpl_owner_subject (au_policy item) = usr_subject user;
  us_current : mtl_lifecycle_state (au_tool item) = "active"
    ∧ mtl_current_revision_id (au_tool item) = Some (rvn_id (au_revision item))
    ∧ rvn_schema_hash (au_revision item) = schema_hash;
  us_callable : available = true → srv_status (au_server item) ∈ ["online"; "degraded"];
  us_exposed : (∃ id, mcp_exposures d !! id = Some (au_exposure item))
    ∧ xps_revision_id (au_exposure item) = rvn_id (au_revision item)
    ∧ xps_enabled (au_exposure item) = true
    ∧ xps_mode (au_exposure item) ∈ ["catalog_only"; "native_projected"];
  us_policy : (∃ id, mcp_policies d !! id = Some (au_policy item))
    ∧ (fpl_server_id (au_policy item) = Some (srv_id (au_server item))
       ∨ fpl_server_id (au_policy item) = None)
    ∧ fpl_status (au_policy item) = "active";
  us_requirements : all_held (fpl_required_roles (au_policy item)) (usr_roles user) = true
    ∧ all_held (fpl_required_scopes (au_policy item)) (_actor_scopes user) = true;
  us_listed : (∀ name, name ∈ identities item →
                 contains (fpl_tool_denylist (au_policy item)) name = false)
    ∧ (fpl_tool_allowlist (au_policy item) = []
       ∨ ∃ name, name ∈ identities item
           ∧ contains (fpl_tool_allowlist (au_policy item)) name = true);
  us_decision : ∃ decision,
    decide_revision user (au_policy item) (au_exposure item) (au_revision item) = Ok decision
    ∧ allowed decision = true ∧ au_approval_class item = approval_class decision;
}.

Section specs.
Context `{!Env}.

Lemma current_exposure_ok owner rid w e :
  (_current_exposure owner rid w).1 = Ok (Some e) →
  (∃ id, mcp_exposures (working w) !! id = Some e) ∧ xps_owner_subject e = owner
  ∧ xps_revision_id e = rid ∧ xps_enabled e = true
  ∧ xps_mode e ∈ ["catalog_only"; "native_projected"].
Proof.
  unfold _current_exposure, query, reads, mbind, M_bind. simpl. intros [= He].
  assert (e ∈ sort_by newer_exposure (select (λ e0, (xps_owner_subject e0 ==? owner)
    && (xps_revision_id e0 ==? rid) && xps_enabled e0
    && (xps_mode e0 ∈? ["catalog_only"; "native_projected"])) (working w))) as Hin.
  { destruct (sort_by _ _); [done|]. simpl in He. injection He as ->. by left. }
  apply sort_by_elem, elem_of_select in Hin as [Hb [id Hid]]. repeat bools. eauto 6.
Qed.

Lemma federation_policy_ok owner sid w p :
  (_federation_policy owner sid w).1 = Ok (Some p) →
  (∃ id, mcp_policies (working w) !! id = Some p) ∧ fpl_owner_subject p = owner
  ∧ (fpl_server_id p = Some sid ∨ fpl_server_id p = None).
Proof.
  unfold _federation_policy, get_policy, scalar, query, reads, mbind, M_bind. simpl.
  assert (∀ o q, head (select (is_policy_of owner o) (working w)) = Some q →
    (∃ id, mcp_policies (working w) !! id = Some q) ∧ fpl_owner_subject q = owner
    ∧ fpl_server_id q = o) as Hsel.
  { intros o q Hq. assert (q ∈ select (is_policy_of owner o) (working w)) as Hin.
    { destruct (select _ _); [done|]. simpl in Hq. injection Hq as ->. by left. }
    apply elem_of_select in Hin as [Hb Hid]. unfold is_policy_of in Hb. by repeat bools. }
  destruct (head (select (is_policy_of owner (Some sid)) (working w))) as [q|] eqn:E.
  - intros [= <-]. destruct (Hsel _ _ E) as (? & ? & ?); auto.
  - intros [= Hq]. destruct (Hsel _ _ Hq) as (? & ? & ?); auto.
Qed.

Lemma py_set_ok l x : py_set l = Ok x → x = l.
Proof. unfold py_set, raise_if. by destruct (existsb _ l); intros [= <-]. Qed.

Lemma value_error_409_ok {A} (r : result A) w x : (value_error_409 r w).1 = Ok x → r = Ok x.
Proof. unfold value_error_409. by destruct r as [|[]]. Qed.

Lemma existsb_none (p : string → bool) l : existsb p l = false → ∀ x, x ∈ l → p x = false.
Proof.
  intros Hp x Hx. apply not_true_is_false. intros Hpx.
  enough (existsb p l = true) by congruence. apply existsb_exists. exists x.
  by rewrite <-list_elem_of_In.
Qed.
Lemma existsb_some (p : string → bool) l : existsb p l = true → ∃ x, x ∈ l ∧ p x = true.
Proof. intros (x & Hx%list_elem_of_In & ?)%existsb_exists. by exists x. Qed.

Lemma resolve_authorized_ok user tool_ref schema_hash available w item :
  (_resolve_authorized user tool_ref schema_hash available w).1 = Ok item →
  usable user tool_ref schema_hash available item (working w).
Proof.
  intros Hok. enough (wp (_resolve_authorized user tool_ref schema_hash available)
    (λ x _, ∀ i, x = Ok i → usable user tool_ref schema_hash available i (working w)) w) as Hw
    by exact (Hw _ Hok).
  clear Hok. unfold _resolve_authorized. repeat wp_look; try done.
  repeat match goal with H : py_set _ = Ok _ |- _ => apply py_set_ok in H; subst end.
  intros i [= <-]. repeat bools. subst.
  all: repeat match goal with H : (_ _ _ _).1 = Ok _ |- _ => found H; repeat bools end.
  all: match goal with H : (_current_exposure _ _ _).1 = Ok _ |- _ =>
    apply current_exposure_ok in H as (? & ? & ? & ? & ?) end.
  all: match goal with H : (_federation_policy _ _ _).1 = Ok _ |- _ =>
    apply federation_policy_ok in H as (? & ? & ?) end.
  all: match goal with H : (value_error_409 _ _).1 = Ok _ |- _ => apply value_error_409_ok in H end.
  all: split; simpl.
  all: try match goal with |- (∀ name, _) ∧ _ => split; [by apply existsb_none|] end.
  all: try match goal with
    | H : nonempty ?l = false |- ?l = [] ∨ _ => left; by destruct l
    | H : existsb _ _ = true |- _ ∨ _ => right; by apply existsb_some
    end.
  all: try (intros; done).
  all: try (split_and!; done).
  all: repeat bools.
  all: try (intros; first [done|congruence]).
  all: eexists; split_and!; eauto.
Qed.
End specs.
