(* ===== verification/ActionProofs.v ===== *)
(** * Guarded actions

    The invariant of actions, permits and invocations that every operation keeps, and
    the uniqueness of the call that follows from it. *)

From S2P Require Import Prelude PyStr PyVal Errors Models Database Session Preserve.
From S2P Require Import Rows FederationPolicy Federation ThinRuntime McpUpstream.
From S2P Require Import FederationBroker Footprint System Evolution.

(** * The rows of guarded actions and of upstream calls

    What no operation changes of a preparation, of the secret with its arguments and of
    an invocation once they are recorded. *)

(** All of an invocation but how it went. *)
Definition invocation_terms (i : McpInvocation) :=
  ((inv_id i, inv_owner_subject i, inv_actor_subject i, inv_idempotency_key i),
   (inv_server_id i, inv_tool_id i, inv_revision_id i, inv_schema_hash i,
    inv_action_class i, inv_arguments_sha256 i),
   (inv_preparation_id i, inv_approval_request_id i, inv_execution_permit_id i,
    inv_started_at i)).

(** All of a preparation but its status. *)
Definition preparation_terms (p : McpActionPreparation) :=
  ((prp_id p, prp_owner_subject p, prp_actor_subject p, prp_idempotency_key p),
   (prp_server_id p, prp_tool_id p, prp_revision_id p, prp_schema_hash p,
    prp_action_class p),
   (prp_arguments_secret_id p, prp_arguments_sha256 p, prp_approval_class p,
    prp_expires_at p),
   (prp_exposure_id p, prp_exposure_version p, prp_federation_policy_id p,
    prp_federation_policy_generation p, prp_autonomy_policy_id p,
    prp_autonomy_policy_generation p),
   (prp_command_id p, prp_executor_agent_id p, prp_approval_request_id p)).

Definition invocation_new (i : McpInvocation) : Prop :=
  inv_outcome i = "running" ∧ inv_completed_at i = None.
Definition preparation_new (p : McpActionPreparation) : Prop :=
  prp_status p = "pending_approval" ∧ prp_executed_at p = None.

#[local] Hint Extern 1 (invocation_new _) => by split : pres_db.
#[local] Hint Extern 1 (preparation_new _) => by split : pres_db.

Section handlers.
Context `{!Env}.

(** ** Invocations *)
Section invocations.
Context (N : McpInvocation → Prop) (d0 : db).
Notation I := (evolved (same_terms invocation_terms) N d0).

Lemma start_invocation_invocations r t :
  (∀ i, invocation_new i → N i) → pres I (start_invocation r t).
Proof.
  intros HN. assert (∀ i, invocation_new i → pres I (add i)) as Hadd.
  { intros i Hi. apply pres_add_evolved; [apply _|auto]. }
  pres_go.
Qed.

(** A settlement of a call that was recorded. *)
Lemma while_recorded_invocations (i : McpInvocation) (m : M unit) w :
  committed w = working w → I (working w) →
  (∀ h, row_id i = row_id h → holding invocation_terms N d0 h (working w) →
     wp m (λ _ w', holding invocation_terms N d0 h (committed w')) w) →
  wp (while_recorded i m) (λ _ w', I (committed w')) w.
Proof.
  intros Hc Hw Hm. unfold while_recorded. wp_step. wp_step.
  destruct (lookup_row (row_id i) (working w)) as [h|] eqn:Hh; [|wp_step; by rewrite Hc].
  destruct (holding_found invocation_terms _ _ _ _ _ Hw Hh) as [Hhold Hid].
  eapply wp_mono; [apply (Hm h); [done|done]|]. intros r w' Hw'. by apply holding_evolved in Hw'.
Qed.

Lemma complete_invocation_invocations i h r t w :
  holding invocation_terms N d0 h (committed w) → holding invocation_terms N d0 h (working w) →
  row_id i = row_id h →
  wp (complete_invocation i r t) (λ _ w', holding invocation_terms N d0 h (committed w')) w.
Proof.
  intros Hc Hw Hid. unfold complete_invocation.
  repeat first [done | wp_step]; try done.
  eapply wp_current_state_holding; [exact Hw|done|]. intros x Hx Ht. cbv beta iota zeta.
  eapply wp_pres; [|exact Hc|exact Hw|done]. pres_go.
Qed.

Lemma fail_invocation_invocations i h e t w :
  holding invocation_terms N d0 h (committed w) → holding invocation_terms N d0 h (working w) →
  row_id i = row_id h →
  wp (fail_invocation i e t) (λ _ w', holding invocation_terms N d0 h (committed w')) w.
Proof.
  intros Hc Hw Hid. unfold fail_invocation. wp_step. wp_step. wp_step.
  eapply wp_current_state_holding; [exact Hw|done|]. intros x Hx Ht. cbv beta iota zeta.
  eapply wp_pres; [|exact Hc|exact Hw|done]. pres_go.
Qed.

Lemma begin_call_invocations u p c t :
  (∀ i, invocation_new i → N i) → pres I (begin_call u p c t).
Proof.
  intros HN. pose proof (λ r t, start_invocation_invocations r t HN) as Hstart.
  apply pres_bind; [apply begin_action_pres; apply _|intros ?]. pres_go.
Qed.

Lemma start_read_invocations u p c t :
  (∀ i, invocation_new i → N i) → pres I (start_read u p c t).
Proof.
  intros HN. pose proof (λ r t, start_invocation_invocations r t HN) as Hstart. pres_go.
Qed.

Lemma dispatch_invocations a i h w :
  holding invocation_terms N d0 h (committed w) → holding invocation_terms N d0 h (working w) →
  row_id i = row_id h →
  wp (dispatch a i) (λ _ w', holding invocation_terms N d0 h (committed w')) w.
Proof.
  intros Hc Hw Hid. unfold dispatch, dispatch_call.
  repeat lazymatch goal with
  | |- wp (current_state _) _ _ => fail
  | |- wp _ _ _ => wp_step
  end; try done.
  eapply wp_current_state_holding; [exact Hw|done|]. intros x Hx Ht. cbv beta iota zeta.
  eapply wp_pres; [|exact Hc|exact Hw|by intros [?|?] w' ??]. pres_go.
Qed.

(** What a client reports of its calls. *)
Lemma record_call_progress_invocations o s m : pres I (record_call_progress o s m).
Proof.
  apply pres_intro. intros w Hc Hw. unfold record_call_progress.
  repeat wp_step; try by split. all: split; simpl; try done.
  all: match goal with H : _ ∈ select _ _ |- _ =>
    apply elem_of_select_keyed in H as [_ Hr]; [|apply Hw] end.
  all: by eapply evolved_write; [apply _|exact Hw|exact Hr|..].
Qed.
Lemma receive_invocations o c s m : pres I (receive o c s m).
Proof.
  apply receive_keep; intros; [apply heartbeat_pres|apply register_runtime_pres
    |apply record_roots_update_ack_pres|apply record_server_status_pres
    |apply record_call_progress_invocations]; apply _.
Qed.
Lemma settle_lost_calls_invocations o x now : pres I (settle_lost_calls o x now).
Proof.
  apply pres_intro. intros w Hc Hw. unfold settle_lost_calls. apply wp_bind, wp_query.
  apply wp_foreach_put. split; [done|]. by apply (evolved_put_select _ _ _ _ (lost_invocation now)).
Qed.
Lemma mark_connection_disconnected_invocations o c s :
  pres I (mark_connection_disconnected o c s).
Proof. pose proof settle_lost_calls_invocations. pres_go; auto. Qed.

Definition op_calls (op : op) : bool :=
  match op with BeginAction _ _ _ _ | StartRead _ _ _ _ => true | _ => false end.

Lemma handler_invocation_evolved op :
  (op_calls op = true → ∀ i, invocation_new i → N i) → keeps I op.
Proof.
  intros HN. destruct op; try solve [apply pres_keeps; frame].
  - by apply pres_keeps, pres_ignore, begin_call_invocations, HN.
  - by apply pres_keeps, pres_ignore, start_read_invocations, HN.
  - apply wp_keeps. intros w Hc Hw. apply while_recorded_invocations; [done..|].
    intros h Hid Hh. apply wp_ignore, complete_invocation_invocations; [by rewrite Hc|done..].
  - apply wp_keeps. intros w Hc Hw. apply while_recorded_invocations; [done..|].
    intros h Hid Hh. apply fail_invocation_invocations; [by rewrite Hc|done..].
  - by apply pres_keeps, receive_invocations.
  - apply wp_keeps. intros w Hc Hw. apply while_recorded_invocations; [done..|].
    intros h Hid Hh. apply dispatch_invocations; [by rewrite Hc|done..].
  - by apply pres_keeps, mark_connection_disconnected_invocations.
Qed.
End invocations.

Lemma invocation_evolution op d0 :
  keeps (evolved (same_terms invocation_terms) invocation_new d0) op.
Proof. by apply handler_invocation_evolved. Qed.

(** ** Preparations *)
Section preparations.
Context (N : McpActionPreparation → Prop) (d0 : db).
Notation I := (evolved (same_terms preparation_terms) N d0).
Notation holding_ := (holding preparation_terms N d0).

Lemma prepare_action_preparations u p t :
  (∀ x, preparation_new x → N x) → pres I (prepare_action u p t).
Proof.
  intros HN. assert (∀ x, preparation_new x → pres I (add x)) as Hadd.
  { intros x Hx. apply pres_add_evolved; [apply _|auto]. }
  apply prepare_action_keep; [apply _|intros; by apply ensure_execution_context_pres; apply _|].
  intros. pres_go.
Qed.

Lemma begin_action_preparations u p w :
  committed w = working w → I (working w) →
  wp (begin_action u p) (λ _ w', I (committed w') ∧ I (working w')) w.
Proof.
  intros Hc Hw. unfold begin_action. wp_step.
  apply wp_stateless; [stl_go|intros r Hr|by rewrite Hc].
  apply find_require_ok in Hr as [Hr _].
  destruct (holding_found preparation_terms _ _ _ _ _ Hw Hr) as [Hh _].
  eapply (wp_pres _ (holding_ r)); [|by rewrite Hc|done|].
  - pose proof (claim_permit_pres (holding_ r)). pres_go; auto.
  - intros _ w' ?%holding_evolved ?%holding_evolved. done.
Qed.

Lemma begin_call_preparations u p c t w :
  committed w = working w → I (working w) →
  wp (begin_call u p c t) (λ _ w', I (committed w')) w.
Proof.
  intros Hc Hw. unfold begin_call. apply wp_bind.
  eapply wp_mono; [by apply begin_action_preparations|]. intros [x|?] w' [Hc' Hw']; [|done].
  eapply wp_pres; [|exact Hc'|exact Hw'|done].
  pose proof (start_invocation_pres I). pres_go; auto.
Qed.

Lemma finish_action_preparations u e a w :
  committed w = working w → I (working w) →
  wp (while_recorded (ec_preparation e) (ignore (finish_action u e a)))
    (λ _ w', I (committed w')) w.
Proof.
  intros Hc Hw. unfold while_recorded. wp_step. wp_step.
  destruct (lookup_row _ (working w)) as [h|] eqn:Hh; [|wp_step; by rewrite Hc].
  destruct (holding_found preparation_terms _ _ _ _ _ Hw Hh) as [Hhold Hid].
  apply wp_ignore. unfold finish_action. wp_step. wp_step. wp_step.
  eapply (wp_pres _ (holding_ h)); [apply record_receipt_pres; apply _|by simpl; rewrite Hc|done|].
  intros [r|?] w' Hc' Hw'; [|by apply holding_evolved in Hc'].
  wp_step. eapply wp_current_state_holding; [exact Hw'|done|]. intros x Hx Ht.
  cbv beta iota zeta. eapply (wp_pres _ (holding_ h)); [pres_go|done|done|].
  by intros _ w'' ?%holding_evolved _.
Qed.

Definition op_prepares (op : op) : bool :=
  match op with PrepareAction _ _ _ => true | _ => false end.

Lemma handler_preparation_evolved op :
  (op_prepares op = true → ∀ x, preparation_new x → N x) → keeps I op.
Proof.
  intros HN. destruct op; try solve [apply pres_keeps; frame].
  - by apply pres_keeps, pres_ignore, prepare_action_preparations, HN.
  - apply wp_keeps. intros w Hc Hw. by apply wp_ignore, begin_call_preparations.
  - apply wp_keeps. intros w Hc Hw. by apply finish_action_preparations.
Qed.
End preparations.

Lemma preparation_evolution op d0 :
  keeps (evolved (same_terms preparation_terms) preparation_new d0) op.
Proof. by apply handler_preparation_evolved. Qed.

(** ** Secrets *)
Lemma secret_evolution op d0 : keeps (evolved (@eq SecretBlob) (λ _, True) d0) op.
Proof.
  apply pres_keeps. destruct op; try solve [frame]. apply pres_ignore.
  assert (∀ x : SecretBlob, pres (evolved (@eq SecretBlob) (λ _, True) d0) (add x)) as Hadd.
  { intros x. by apply pres_add_evolved; [apply _|]. }
  pres_go.
Qed.
End handlers.

(** * Guarded actions: called at most once

    An upstream call that was made under an idempotency key is on record for good, and
    no later call under that key is sent: it is answered from the record. *)

(** ** Calls on record *)
Definition called (owner key : string) (d : db) : Prop :=
  ∃ id i, mcp_invocations d !! id = Some i ∧ inv_owner_subject i = owner
    ∧ inv_idempotency_key i = Some key.

Section calls.
Context `{!Env}.

Lemma called_on_record s os owner key :
  reachable s → called owner key (st_db s) → called owner key (st_db (exec_all s os)).
Proof.
  intros Hs (id & i & Hi & Ho & Hk).
  destruct (exec_all_kept _ _ invocation_evolution s os id i Hs Hi) as (i' & Hi' & Ht).
  injection Ht. intros. exists id, i'. split_and!; [done|congruence..].
Qed.

(** A call whose key is on record is not sent. *)
Lemma invocation_by_key_called request key w :
  rq_idempotency_key request = Some key → key ≠ "" →
  called (rq_owner_subject request) key (working w) →
  (invocation_by_key request w).1 ≠ Ok None.
Proof.
  intros Hkey Hne (id & i & Hi & Ho & Hk). unfold invocation_by_key, find_by_key.
  rewrite Hkey. simpl. rewrite bool_decide_eq_false_2 by done. simpl.
  assert (i ∈ select (λ r, (inv_owner_subject r ==? rq_owner_subject request)
                           && (inv_idempotency_key r ==? Some key)) (working w)) as Hin.
  { apply elem_of_select. split; [|by exists id].
    by rewrite !bool_decide_eq_true_2 by congruence. }
  unfold query_one, query, mbind, M_bind, reads. simpl.
  by destruct (select _ _) as [|? [|]]; [apply not_elem_of_nil in Hin|..].
Qed.

Lemma start_invocation_called request trace key w :
  rq_idempotency_key request = Some key → key ≠ "" →
  called (rq_owner_subject request) key (working w) →
  wp (start_invocation request trace) (λ r _, ∀ i, r ≠ Ok (Running i)) w.
Proof.
  intros Hkey Hne Hw. unfold start_invocation.
  repeat wp_look; try done.
  all: by destruct (invocation_by_key_called _ _ _ Hkey Hne Hw).
Qed.

(** A call that is sent is on record. *)
Lemma start_invocation_records request trace key w :
  rq_idempotency_key request = Some key →
  wp (start_invocation request trace) (λ r w', ∀ i, r = Ok (Running i) →
    called (rq_owner_subject request) key (committed w')) w.
Proof.
  intros Hkey. unfold start_invocation.
  repeat wp_look; try done.
  all: apply wp_emit_for; [intros w' Hc Hev Hv Hv'|done].
  all: repeat wp_look; try done.
  intros ? _. unfold published. simpl. rewrite Hev.
  eexists _, _. split; [apply lookup_insert_eq|done].
Qed.

Lemma begin_action_id u p w :
  keyed McpActionPreparation (working w) →
  wp (begin_action u p) (λ r _, ∀ e, r = Ok (inr e) →
    prp_id (ec_preparation e) = xi_preparation_id p) w.
Proof.
  intros HK. unfold begin_action. wp_step.
  apply wp_stateless; [stl_go|intros r Hr|done].
  apply find_require_ok in Hr as [Hr _]. pose proof (HK _ _ Hr) as Hid. simpl in Hid.
  repeat first [wp_leaf | wp_look
    | eapply (wp_pres _ (λ _ : db, True)); [apply claim_permit_pres; apply _|done|done|intros [?|?] ? _ _]].
  all: intros ? [=]; subst; exact Hid.
Qed.

Definition action_key (preparation_id : string) : string := "mcp-action:" +:+ preparation_id.

Lemma begin_call_records u p c t w :
  keyed McpActionPreparation (working w) →
  wp (begin_call u p c t) (λ r w', ∀ i, r = Ok (Some (Running i)) →
    called (usr_subject u) (action_key (xi_preparation_id p)) (committed w')) w.
Proof.
  intros HK. unfold begin_call. apply wp_bind.
  eapply wp_mono; [by apply begin_action_id|]. intros [[?|e]|?] w' He; [wp_step|..|done].
  { by intros. }
  apply wp_bind. eapply wp_mono.
  { eapply start_invocation_records. simpl. by rewrite (He e eq_refl). }
  intros [x|?] w'' Hx; [|done]. apply wp_ret. intros i [= ->]. by apply (Hx i).
Qed.

Lemma begin_call_called u p c t w :
  keyed McpActionPreparation (working w) →
  called (usr_subject u) (action_key (xi_preparation_id p)) (committed w) →
  called (usr_subject u) (action_key (xi_preparation_id p)) (working w) →
  wp (begin_call u p c t) (λ r w', ∀ i, r ≠ Ok (Some (Running i))) w.
Proof.
  intros HK Hc Hw. unfold begin_call. apply wp_bind.
  eapply wp_mono.
  { apply wp_and; [by apply begin_action_id|].
    apply (pres_wp (called (usr_subject u) (action_key (xi_preparation_id p))));
      [|exact Hc|exact Hw].
    apply begin_action_pres; apply _. }
  intros [[?|e]|?] w' [He [_ Hw']]; [by wp_step|..|done].
  apply wp_bind. eapply wp_mono.
  { eapply (start_invocation_called _ _ (action_key (xi_preparation_id p))); [|done|exact Hw'].
    simpl. by rewrite (He e eq_refl). }
  intros [x|?] w'' Hx; [|done]. apply wp_ret. intros i [= ->]. by destruct (Hx i).
Qed.

Lemma preparations_keyed s : reachable s → keyed McpActionPreparation (st_db s).
Proof. apply (reachable_keyed _ _ preparation_evolution). Qed.
End calls.

(** ** Theorem *)

(** C3 At most once: when the execution of a prepared action has been sent to the upstream
    server, then whatever operations run afterwards (including failures, retries with
    other permits and other replicas), no execution of the same preparation is ever sent
    again. *)
Theorem action_called_once `{!Env} s os u p c t i u' p' c' t' :
  reachable s → (run (begin_call u p c t) s).1 = Ok (Some (Running i)) →
  usr_subject u' = usr_subject u → xi_preparation_id p' = xi_preparation_id p →
  ∀ j, (run (begin_call u' p' c' t') (exec_all (exec s (BeginAction u p c t)) os)).1
       ≠ Ok (Some (Running j)).
Proof.
  intros Hs Hrun Hu Hp. set (s1 := exec s _). set (s2 := exec_all s1 os).
  assert (reachable s1) as Hs1 by by constructor.
  assert (called (usr_subject u) (action_key (xi_preparation_id p)) (st_db s1)) as Hcalled.
  { unfold s1, exec. change (handler _) with (ignore (begin_call u p c t)).
    rewrite run_ignore. eapply (run_wp _ (λ r d, ∀ i, r = Ok (Some (Running i)) →
      called (usr_subject u) (action_key (xi_preparation_id p)) d)); [|exact Hrun].
    by apply begin_call_records, preparations_keyed. }
  apply (called_on_record s1 os) in Hcalled; [|done].
  eapply (run_wp _ (λ r _, ∀ j, r ≠ Ok (Some (Running j)))).
  eapply wp_mono; [apply begin_call_called|by auto]; [|by rewrite Hu, Hp..].
  by apply preparations_keyed, reachable_exec_all.
Qed.
