(* ===== verification/PreparedArguments.v ===== *)
(** * The arguments of a prepared action come back

    They are stored sealed, as canonical JSON, and read again when the action is
    executed: reading gives the same JSON object, with the same digest, whatever
    operations ran in between. *)

From S2P Require Import Prelude PyStr PyVal Json Errors Models Database Session.
From S2P Require Import Preserve Rows FederationPolicy Federation McpUpstream.
From S2P Require Import FederationBroker FederationSpecs Footprint System Evolution.
From S2P Require Import CanonicalJson ActionProofs.
From Stdlib Require Import Ascii Sorted.

(** ** Sorting by key *)
Notation key_order := (by_leb key_leb).

Lemma key_order_le {A} (x y : string * A) : key_order x y ↔ strings.String.le x.1 y.1.
Proof. unfold by_leb, strings.String.le. by rewrite Is_true_true. Qed.

#[export] Instance key_order_trans {A} : Transitive (key_order : relation (string * A)).
Proof. intros x y z. rewrite !key_order_le. apply transitivity. Qed.
#[export] Instance key_order_total {A} : Total (key_order : relation (string * A)).
Proof. intros x y. rewrite !key_order_le. destruct (total strings.String.le x.1 y.1); auto. Qed.

(** A dictionary is sorted in one way. *)
Lemma sort_by_key_unique {A} (d d' : list (string * A)) :
  NoDup (map fst d) → StronglySorted key_order d' → d ≡ₚ d' → sort_by key_leb d = d'.
Proof.
  intros HN HS HP. unfold sort_by.
  apply (StronglySorted_unique_strong key_order); [|apply StronglySorted_merge_sort; apply _|done|].
  - intros [k a] [k' b] Ha Hb H1 H2. apply key_order_le in H1, H2.
    assert (k = k') as <- by by apply (anti_symm strings.String.le k k').
    apply (proj1 (sort_by_elem key_leb _ _)) in Ha. rewrite <-HP in Hb. f_equal.
    clear HP HS H1 H2. induction d as [|[k' x] d IH]; [by apply not_elem_of_nil in Ha|].
    simpl in HN. apply NoDup_cons in HN as [Hk HN].
    assert (∀ y, (k, y) ∈ d → k ∈ map fst d) as Hin.
    { intros y Hy. apply list_elem_of_fmap. by exists (k, y). }
    apply elem_of_cons in Ha as [Ha|Ha]; apply elem_of_cons in Hb as [Hb|Hb]; simplify_eq; auto.
    + by destruct Hk; apply (Hin b).
    + by destruct Hk; apply (Hin a).
  - etrans; [apply (sort_by_perm key_leb)|done].
Qed.

(** ** The object that is read back *)
Fixpoint sorted_of (v : pyval) : pyval :=
  match v with
  | PList l => PList (map sorted_of l)
  | PDict d => PDict (sort_by key_leb (map (λ kv, (kv.1, sorted_of kv.2)) d))
  | v => v
  end.

Definition sorted_dict (d : pydict) : pydict :=
  sort_by key_leb (map (λ kv, (kv.1, sorted_of kv.2)) d).

Lemma sorted_dict_map d : sorted_dict d = map (λ kv, (kv.1, sorted_of kv.2)) (sort_by key_leb d).
Proof. apply (sort_by_map key_leb key_leb (λ kv, (kv.1, sorted_of kv.2))). done. Qed.

(** Sealing writes the text of the sorted object. *)
Lemma json_dumps_sorted v : chars (json_dumps v) = json_text (sorted_of v).
Proof.
  rewrite json_dumps_emit.
  induction v as [| | | | |l IH|d IH] using pyval_nested_ind; try done.
  - cbn [json_of sorted_of emit json_text]. do 2 f_equal. rewrite !map_map. f_equal.
    by apply map_ext_Forall.
  - cbn [json_of sorted_of emit json_text]. do 2 f_equal. f_equal.
    change (sort_by key_leb (map (λ kv, (kv.1, sorted_of kv.2)) d)) with (sorted_dict d).
    rewrite sorted_dict_map, (sort_by_map key_leb key_leb (λ kv, (kv.1, json_of kv.2))) by done.
    rewrite !map_map. apply map_ext_Forall. rewrite (sort_by_perm key_leb d).
    eapply Forall_impl; [exact IH|]. intros kv E. cbn [fst snd]. by rewrite E.
Qed.

Lemma sorted_dict_perm d : sorted_dict d ≡ₚ map (λ kv, (kv.1, sorted_of kv.2)) d.
Proof. apply sort_by_perm. Qed.

Lemma sorted_dict_keys d : map fst (sorted_dict d) ≡ₚ map fst d.
Proof. rewrite sorted_dict_perm, map_map. done. Qed.

Lemma well_keyed_sorted v : well_keyed v → well_keyed (sorted_of v).
Proof.
  induction v as [| | | | |l IH|d IH] using pyval_nested_ind; try done.
  - intros Hv%well_keyed_list. cbn [sorted_of].
    assert (Forall well_keyed (map sorted_of l)) as HF.
    { apply Forall_map. rewrite Forall_forall in *. auto. }
    induction HF; simpl; auto.
  - intros [HN Hv]%well_keyed_dict. cbn [sorted_of well_keyed].
    change (sort_by key_leb (map (λ kv, (kv.1, sorted_of kv.2)) d)) with (sorted_dict d).
    split; [by rewrite sorted_dict_keys|].
    assert (Forall (λ kv, well_keyed kv.2) (sorted_dict d)) as HF.
    { rewrite sorted_dict_perm. apply Forall_map. rewrite Forall_forall in *. simpl. auto. }
    induction HF; simpl; auto.
Qed.

Lemma is_json_sorted v : is_json v = true → is_json (sorted_of v) = true.
Proof.
  induction v as [| | | | |l IH|d IH] using pyval_nested_ind; try done.
  - cbn [sorted_of is_json]. rewrite !forallb_forall. intros Hl x Hx.
    apply list_elem_of_In, list_elem_of_fmap in Hx as (y & -> & Hy).
    rewrite Forall_forall in IH. apply IH, Hl, list_elem_of_In; done.
  - cbn [sorted_of is_json]. rewrite !forallb_forall. intros Hd kv Hkv.
    apply list_elem_of_In, (sort_by_elem key_leb), list_elem_of_fmap in Hkv as (y & -> & Hy).
    rewrite Forall_forall in IH. apply (IH y), Hd, list_elem_of_In; done.
Qed.

(** A value without times is read as it is. *)
Lemma wire_of_json v : is_json v = true → wire_of v = v.
Proof.
  induction v as [| | | | |l IH|d IH] using pyval_nested_ind; try done.
  - cbn [wire_of is_json]. rewrite forallb_forall. intros Hl. f_equal.
    rewrite <-(list_fmap_id l) at 2. apply map_ext_Forall.
    rewrite Forall_forall in *. intros x Hx. by apply IH, Hl, list_elem_of_In.
  - cbn [wire_of is_json]. rewrite forallb_forall. intros Hd. f_equal.
    rewrite <-(list_fmap_id d) at 2. apply map_ext_Forall.
    rewrite Forall_forall in *. intros [k x] Hx.
    simpl. pose proof (IH _ Hx) as E. simpl in E. rewrite E; [done|].
    by apply (Hd (k, x)), list_elem_of_In.
Qed.

Lemma json_of_sorted v : well_keyed v → json_of (sorted_of v) = json_of v.
Proof.
  induction v as [| | | | |l IH|d IH] using pyval_nested_ind; try done.
  - intros Hl%well_keyed_list. cbn [sorted_of json_of]. rewrite map_map. f_equal.
    apply map_ext_Forall. rewrite Forall_forall in *. auto.
  - intros [HN Hd]%well_keyed_dict. cbn [sorted_of json_of]. f_equal.
    apply sort_by_key_unique.
    + rewrite map_map. change (NoDup (map fst (sorted_dict d))). by rewrite sorted_dict_keys.
    + apply StronglySorted_merge_sort; apply _.
    + rewrite (sort_by_perm key_leb (map _ d)), (sort_by_perm key_leb), map_map.
      rewrite (map_ext_Forall _ (λ kv, (kv.1, json_of kv.2))); [done|].
      rewrite Forall_forall in *. intros [k x] Hx. simpl. f_equal. by apply (IH _ Hx), (Hd _ Hx).
Qed.

Lemma json_dumps_of v w : json_of v = json_of w → json_dumps v = json_dumps w.
Proof. intros E. apply chars_inj. by rewrite !json_dumps_emit, E. Qed.

(** Reading the sealed text gives the sorted object. *)
Lemma json_loads_dumps v :
  well_keyed v → is_json v = true → json_loads (chars (json_dumps v)) = Some (sorted_of v).
Proof.
  intros Hk Hj. rewrite json_dumps_sorted. unfold json_loads.
  rewrite skip_proper by apply json_text_proper.
  pose proof (scans_values _ (well_keyed_sorted _ Hk) (length (json_text (sorted_of v))) []
    I (le_n _)) as E.
  rewrite app_nil_r in E. rewrite E. cbn. by rewrite (wire_of_json _ (is_json_sorted _ Hj)).
Qed.

Lemma canonical_json_text v text : canonical_json v = Ok text → text = json_dumps v.
Proof. unfold canonical_json. by destruct (is_json v); intros [= <-]. Qed.

Section specs.
Context `{!Env}.

Lemma sha256_json_sorted v h :
  well_keyed v → sha256_json v = Ok h → sha256_json (sorted_of v) = Ok h ∧ is_json v = true.
Proof.
  unfold sha256_json, canonical_json. intros Hk. destruct (is_json v) eqn:Hj; [|done].
  rewrite (is_json_sorted _ Hj), (json_dumps_of (sorted_of v) v); [done|by apply json_of_sorted].
Qed.

(** ** What is sealed for a preparation *)
Definition sealed (arguments : pydict) (d : db) (p : McpActionPreparation) : Prop :=
  ∃ s, secret_blobs d !! prp_arguments_secret_id p = Some s
    ∧ sb_owner_subject s = prp_owner_subject p
    ∧ decrypt_text (sb_ciphertext s) = Some (json_dumps (PDict arguments))
    ∧ sha256_json (PDict arguments) = Ok (prp_arguments_sha256 p).

(** The preparations that are new in what was committed have their arguments sealed. *)
Definition sealing (arguments : pydict) (d0 d : db) : Prop :=
  keyed McpActionPreparation d
  ∧ ∀ id p, mcp_preparations d !! id = Some p → mcp_preparations d0 !! id = None →
      sealed arguments d p.

Lemma sealing_new_secret arguments d0 d (s : SecretBlob) :
  sealing arguments d0 d → insertable s d = true → sealing arguments d0 (put_row s d).
Proof.
  intros [HK HS] [Hfree _]%insertable_spec. split; [done|]. intros id p Hp Hnew.
  destruct (HS id p Hp Hnew) as (x & Hx & Hrest). exists x. split; [|done].
  change (<[sb_id s := s]> (secret_blobs d) !! prp_arguments_secret_id p = Some x).
  rewrite lookup_insert_ne; [done|]. intros E. rewrite <-E in Hx.
  by discriminate (eq_trans (eq_sym Hx) Hfree).
Qed.

Lemma sealing_new_preparation arguments d0 d (p : McpActionPreparation) :
  sealing arguments d0 d → sealed arguments d p → sealing arguments d0 (put_row p d).
Proof.
  intros [HK HS] Hp. split; [exact (keyed_put _ _ HK)|]. intros id q.
  change (<[prp_id p := p]> (mcp_preparations d) !! id = Some q → mcp_preparations d0 !! id = None →
    sealed arguments d q).
  intros [[_ <-]|[_ Hq]]%lookup_insert_Some Hnew; [done|by eapply HS].
Qed.

Context (decrypts : ∀ n v, fernet_decrypt (fernet_encrypt n v) = Some v).

Lemma write_preparation_sealing d0 i c o p h t :
  sha256_json (PDict (pi_arguments p)) = Ok h →
  pres (sealing (pi_arguments p) d0) (write_preparation i c o p h t).
Proof.
  intros Hh. apply pres_intro. intros w Hc Hw. unfold write_preparation.
  wp_inv (sealing (pi_arguments p) d0). all: world_simpl.
  all: try match goal with |- context [put_row (mkSecretBlob ?i ?o ?k ?x ?n) ?d] =>
    assert (sealing (pi_arguments p) d0 (put_row (mkSecretBlob i o k x n) d)) as Hsec
      by (by apply sealing_new_secret) end.
  all: split; [done|].
  all: repeat first [done | apply (stable (R:=ApprovalRequest)) | apply (stable (R:=AgentCommand))].
  all: match goal with |- sealing _ _ (put_row ?x _) => apply (sealing_new_preparation _ _ _ x) end.
  all: repeat first [done | apply (stable (R:=ApprovalRequest)) | apply (stable (R:=AgentCommand))].
  all: eexists; split; [apply lookup_insert_eq|]; split_and!; [done| |done].
  all: match goal with H : canonical_json _ = Ok _ |- _ => apply canonical_json_text in H end.
  all: subst; apply decrypts.
Qed.

Lemma prepare_action_sealing d0 u p t : pres (sealing (pi_arguments p) d0) (prepare_action u p t).
Proof.
  unfold prepare_action. do 3 (apply pres_bind; [pres_go|intros ?]).
  destruct (sha256_json (PDict (pi_arguments p))) as [h|e] eqn:Hh; [|by intros w].
  match goal with |- pres ?I (lift (Ok ?h) ≫= ?f) => change (pres I (f h)) end. cbv beta.
  pose proof (λ i c o, write_preparation_sealing d0 i c o p h t Hh).
  pose proof (ensure_execution_context_pres (sealing (pi_arguments p) d0)).
  pres_go; auto.
Qed.

Lemma exec_sealed s u p t id x :
  reachable s → mcp_preparations (st_db s) !! id = None →
  mcp_preparations (st_db (exec s (PrepareAction u p t))) !! id = Some x →
  sealed (pi_arguments p) (st_db (exec s (PrepareAction u p t))) x.
Proof.
  intros Hs Hnew Hx.
  enough (sealing (pi_arguments p) (st_db s) (st_db (exec s (PrepareAction u p t)))) as [_ HS]
    by by eapply HS.
  apply exec_pres; [apply pres_ignore, prepare_action_sealing|].
  split; [by apply preparations_keyed|]. congruence.
Qed.

Lemma secrets_keyed s : reachable s → keyed SecretBlob (st_db s).
Proof. apply (reachable_keyed _ _ secret_evolution). Qed.

(** What was sealed stays sealed. *)
Lemma sealed_kept arguments s os x y :
  reachable s → sealed arguments (st_db s) x → same_terms preparation_terms x y →
  sealed arguments (st_db (exec_all s os)) y.
Proof.
  intros Hs (b & Hb & Ho & Hd & Hh) Ht. injection Ht. intros.
  destruct (exec_all_kept _ _ secret_evolution s os _ b Hs Hb) as (b' & Hb' & <-).
  simpl in Hb'. exists b. split_and!; congruence.
Qed.

Lemma sealed_opens arguments x w :
  well_keyed (PDict arguments) → sealed arguments (working w) x →
  (prepared_arguments (prp_owner_subject x) x w).1 = Ok (sorted_dict arguments).
Proof.
  intros Hk (b & Hb & Ho & Hd & Hh).
  destruct (sha256_json_sorted _ _ Hk Hh) as [Hs Hj].
  pose proof (json_loads_dumps _ Hk Hj) as Hl.
  change (wp (prepared_arguments (prp_owner_subject x) x)
    (λ r _, r = Ok (sorted_dict arguments)) w).
  unfold prepared_arguments. wp_step. wp_step.
  unfold lookup_row. simpl tbl. rewrite Hb.
  assert ((decrypt_text (sb_ciphertext b) ≫= λ text, json_loads (chars text))
    = Some (PDict (sorted_dict arguments))) as Hopen by (rewrite Hd; exact Hl).
  change (sha256_json (PDict (sorted_dict arguments)) = Ok (prp_arguments_sha256 x)) in Hs.
  repeat wp_look; try done.
  all: injection H0 as <-; repeat bools; congruence.
Qed.

Definition sealed_for (arguments : pydict) (p : McpActionPreparation) (d : db) : Prop :=
  sealed arguments d p.

(** The execution that [begin_action] returns carries what was sealed. *)
Lemma begin_action_opens arguments y u xi w :
  well_keyed (PDict arguments) → mcp_preparations (working w) !! xi_preparation_id xi = Some y →
  sealed_for arguments y (committed w) → sealed_for arguments y (working w) →
  wp (begin_action u xi) (λ r _, ∀ e, r = Ok (inr e) →
    ec_arguments e = sorted_dict arguments) w.
Proof.
  intros Hk Hy Hc Hw. unfold begin_action. wp_step.
  apply wp_stateless; [stl_go|intros r Hr|done].
  apply find_require_ok in Hr as [Hr Ho].
  assert (r = y) as -> by (simpl in Hr; congruence). apply bool_decide_eq_true in Ho.
  repeat first [wp_leaf | wp_look
    | eapply (wp_pres _ (sealed_for arguments y));
      [apply claim_permit_pres; apply _|by repeat apply stable|by repeat apply stable|intros [?|?] w' Hc' Hw'; [|done]]].
  all: try done.
  all: intros e0 [= <-]; simpl.
  all: rewrite <-Ho, (sealed_opens arguments) in * by done; congruence.
Qed.
End specs.

(** ** Theorem *)

(** C28 What was prepared is what is sent: if decryption undoes encryption, then for every
    preparation that [prepare_action] creates, and whatever operations run afterwards, its
    arguments can be read back, they are the JSON object that was given (up to the order
    of keys), and every execution of it that becomes due carries exactly them. *)
Theorem prepared_arguments_return `{!Env} s u p t id x os :
  (∀ n v, fernet_decrypt (fernet_encrypt n v) = Some v) →
  reachable s → well_keyed (PDict (pi_arguments p)) →
  mcp_preparations (st_db s) !! id = None →
  mcp_preparations (st_db (exec s (PrepareAction u p t))) !! id = Some x →
  let s' := exec_all (exec s (PrepareAction u p t)) os in
  ∃ y arguments, mcp_preparations (st_db s') !! id = Some y
    ∧ (run (prepared_arguments (prp_owner_subject y) y) s').1 = Ok arguments
    ∧ json_of (PDict arguments) = json_of (PDict (pi_arguments p))
    ∧ ∀ u' xi e, xi_preparation_id xi = id →
        (run (begin_action u' xi) s').1 = Ok (inr e) → ec_arguments e = arguments.
Proof.
  intros Hd Hs Hk Hnew Hx s'. set (s1 := exec s (PrepareAction u p t)) in *.
  assert (reachable s1) as Hs1 by by constructor.
  pose proof (exec_sealed Hd s u p t id x Hs Hnew Hx) as HS.
  destruct (exec_all_kept _ _ preparation_evolution s1 os id x Hs1 Hx) as (y & Hy & Ht).
  apply (sealed_kept (pi_arguments p) s1 os x y Hs1) in HS; [|exact Ht].
  exists y, (sorted_dict (pi_arguments p)). split; [exact Hy|]. split_and!.
  - apply (run_wp _ (λ r _, r = Ok (sorted_dict (pi_arguments p)))).
    by apply (sealed_opens (pi_arguments p) y (open_session s')).
  - by apply (json_of_sorted (PDict (pi_arguments p))).
  - intros u' xi e <-. revert e. apply (run_wp _ (λ r _, ∀ e, r = Ok (inr e) → _)).
    by apply begin_action_opens with y.
Qed.
