(* ===== verification/ActionAuthority.v ===== *)
(** * What stands behind a guarded action

    From an upstream call back to the reviewers: the call was made for a preparation,
    with a permit claimed for its approval, the approval is about the command of the
    preparation, and that command names the digest of the very arguments sent. *)

From S2P Require Import Prelude PyStr PyVal Errors Models Database Session Preserve.
From S2P Require Import Rows Autonomy Controls Approvals Permits FederationPolicy.
From S2P Require Import Federation McpUpstream FederationBroker FederationSpecs.
From S2P Require Import Footprint System Evolution CommandProofs ApprovalProofs.
From S2P Require Import PermitProofs Authority AuthorityProofs ActionProofs.

(** ** The links *)

(** What the command of a preparation orders. *)
Definition prepared_payload (p : McpActionPreparation) : pydict := [
  ("tool", PStr "mcp_action_execute");
  ("arguments", PDict [
    ("preparation_id", PStr (prp_id p));
    ("expected_schema_hash", PStr (prp_schema_hash p));
    ("arguments_sha256", PStr (prp_arguments_sha256 p))])].

(** A preparation has a command that orders it and an approval request about that. *)
Definition preparation_backed (d : db) (p : McpActionPreparation) : Prop :=
  ∃ c a, commands d !! prp_command_id p = Some c
    ∧ approvals d !! prp_approval_request_id p = Some a
    ∧ cmd_structured_payload c = prepared_payload p
    ∧ cmd_requires_approval c = true
    ∧ apr_command_id a = Some (prp_command_id p)
    ∧ apr_action_class a = prp_action_class p
    ∧ apr_owner_subject a = prp_owner_subject p.

(** A call made for a preparation is the call that was prepared, with a permit claimed
    for its approval; any other call is a read. *)
Definition invocation_backed (d : db) (i : McpInvocation) : Prop :=
  (inv_preparation_id i = None → inv_action_class i = "read")
  ∧ ∀ pid, inv_preparation_id i = Some pid →
    ∃ p q, mcp_preparations d !! pid = Some p
      ∧ (inv_owner_subject i, inv_revision_id i, inv_arguments_sha256 i)
        = (prp_owner_subject p, prp_revision_id p, prp_arguments_sha256 p)
      ∧ inv_approval_request_id i = Some (prp_approval_request_id p)
      ∧ inv_idempotency_key i = Some (action_key pid)
      ∧ permits d !! pmt_id q = Some q
      ∧ inv_execution_permit_id i = Some (pmt_id q)
      ∧ pmt_approval_request_id q = prp_approval_request_id p
      ∧ is_Some (pmt_claimed_at q).

Lemma preparation_backed_evolves d d' ap fin Nc Na p p' :
  grows (command_evolves ap fin) Nc d d' → grows request_evolves Na d d' →
  same_terms preparation_terms p p' → preparation_backed d p → preparation_backed d' p'.
Proof.
  intros [Kc _] [Ka _] Ht (c & a & Hc & Ha & Hp & Hr & Hcid & Hac & Ho).
  destruct (Kc _ _ Hc) as (c' & Hc' & HE). destruct (Ka _ _ Ha) as (a' & Ha' & [Hta _ _]).
  destruct (command_order_fields _ _ (ce_order _ _ _ _ HE)) as (_ & _ & He & _ & _ & Hr').
  injection Ht. injection Hta. intros. exists c', a'.
  assert (cmd_structured_payload c' = cmd_structured_payload c) as Hp' by by injection He.
  unfold prepared_payload in *. split_and!; try congruence.
  - simpl in Hc'. congruence.
  - simpl in Ha'. congruence.
Qed.

Lemma invocation_backed_evolves d d' Np Nq i i' :
  grows (same_terms preparation_terms) Np d d' → grows permit_evolves Nq d d' →
  (∀ id q, permits d !! id = Some q → permit_counts q) →
  same_terms invocation_terms i i' → invocation_backed d i → invocation_backed d' i'.
Proof.
  intros [Kp _] [Kq _] Hcount Ht [Hread HB]. injection Ht. intros.
  split; [intros; rewrite <-Hread; congruence|intros pid Hpid].
  destruct (HB pid) as (p & q & Hp & E & Ea & Ek & Hq & Eq & Eqa & Hcl); [congruence|].
  destruct (Kp _ _ Hp) as (p' & Hp' & Htp). destruct (Kq _ _ Hq) as (q' & Hq' & [Htq _ _ Hcl']).
  injection Htp. injection Htq. injection E. intros. simpl in Hp', Hq'.
  destruct Hcl' as [Hcl' _]; [by eapply Hcount|done|].
  assert (pmt_id q' = pmt_id q) as Hid by congruence.
  exists p', q'. rewrite Hid, Hcl'. split_and!; try congruence.
Qed.

Section specs.
Context `{!Env}.

(** ** Claiming the permit of an action *)
Definition counted (d : db) : Prop :=
  keyed ExecutionPermit d ∧ ∀ id q, permits d !! id = Some q → permit_counts q.

(** The permit is claimed, by this claim or an earlier one. *)
Lemma claim_permit_claims o pid a q0 w :
  counted (working w) → permits (working w) !! pid = Some q0 →
  wp (claim_permit o pid a) (λ r w', ∀ q, r = Ok q →
    pmt_id q = pid ∧ permits (working w') !! pid = Some q ∧ is_Some (pmt_claimed_at q)
    ∧ pmt_approval_request_id q = pmt_approval_request_id q0) w.
Proof.
  intros [HK HC] Hq0. unfold claim_permit.
  unfold update_row. repeat wp_look; try (intros ? [=]).
  all: try apply wp_emit; intros; repeat wp_look; try done.
  all: world_simpl; found H0; simpl in H0; assert (a0 = q0) as -> by congruence.
  all: pose proof (HK _ _ Hq0) as Hid; simpl in Hid.
  - subst q. apply andb_true_iff in Heqb as [Hs%bool_decide_eq_true _].
    apply expire_permit_same in H1 as ->; [|by rewrite Hs]. split_and!; [done..| |done].
    apply (HC _ _ Hq0). rewrite Hs. by left.
  - step_of. apply expire_permit_same in H1 as ->; [|by rewrite H2].
    unfold lookup_row in H11. simpl in H11. rewrite Hid, Hq0 in H11. injection H11 as ->.
    found H14. world_simpl. rewrite tbl_put_row in H14.
    change (row_id (claimed_permit _ r)) with (pmt_id r) in H14.
    rewrite lookup_insert_eq in H14. injection H14 as <-. intros q [= <-].
    rewrite H16. split_and!; [done|by rewrite <-Hid; apply lookup_insert_eq|by eexists|done].
Qed.

(** ** An execution that is due *)
Record executing (u : User) (p : execute_input) (e : execution) (d : db) : Prop := {
  ex_preparation : mcp_preparations d !! xi_preparation_id p = Some (ec_preparation e);
  ex_id : prp_id (ec_preparation e) = xi_preparation_id p;
  ex_owner : prp_owner_subject (ec_preparation e) = usr_subject u;
  ex_permit : permits d !! pmt_id (ec_claimed e) = Some (ec_claimed e);
  ex_claimed : is_Some (pmt_claimed_at (ec_claimed e));
  ex_approval : pmt_approval_request_id (ec_claimed e) = apr_id (ec_approval e);
  ex_request : apr_id (ec_approval e) = prp_approval_request_id (ec_preparation e);
  ex_arguments : sha256_json (PDict (ec_arguments e))
                 = Ok (prp_arguments_sha256 (ec_preparation e));
}.

Lemma prepared_arguments_digest o p w arguments :
  (prepared_arguments o p w).1 = Ok arguments →
  sha256_json (PDict arguments) = Ok (prp_arguments_sha256 p).
Proof.
  intros Hok. enough (wp (prepared_arguments o p) (λ x _, ∀ l, x = Ok l → _) w) as Hw
    by exact (Hw _ Hok).
  clear Hok. unfold prepared_arguments. repeat wp_look; try (intros ? [=]).
  all: intros; simplify_eq. step_of. congruence.
Qed.

Lemma begin_action_executing u p w :
  keyed McpActionPreparation (working w) → keyed ApprovalRequest (working w) →
  counted (working w) →
  wp (begin_action u p) (λ r w', ∀ e, r = Ok (inr e) →
    executing u p e (working w') ∧ committed w' = working w') w.
Proof.
  intros HK HA HC. unfold begin_action. wp_step.
  apply wp_stateless; [stl_go|intros r Hr|done].
  found Hr. pose proof (HK _ _ Hr) as Hid. simpl in Hid.
  repeat wp_look; try (intros ? [=]).
  all: match goal with H : (guarded_evidence _ _ _).1 = Ok _ |- _ =>
    apply guarded_evidence_ok in H as (Ha & Hc & Hp & Has & Eq & Ec & Eh & _) end.
  all: world_simpl; destruct HC as [HKp HC].
  all: pose proof (HA _ _ Ha) as Ia; pose proof (HKp _ _ Hp) as Ip; simpl in Ia, Ip.
  all: eapply wp_mono; [apply claim_permit_claims; [by split|by rewrite Ip]|].
  all: intros [q|?] w' Hq; [|intros ? [=]].
  all: destruct (Hq q eq_refl) as (Hqid & Hq' & Hcl & Hqa); clear Hq.
  all: repeat wp_look; try (intros ? [=]).
  all: match goal with H : _ = ?e0 |- executing _ _ ?e0 _ ∧ _ => subst e0 end.
  all: split; [split; simpl|done].
  all: first [done | by rewrite <-Hid; apply lookup_insert_eq | by eapply bool_decide_eq_true_1
    | by rewrite Hqid | congruence | by eapply prepared_arguments_digest].
Qed.

(** ** The call of an action is backed *)
(** The calls that are new in what was committed are backed. *)
Definition new_backed (d0 d : db) : Prop :=
  ∀ id i, mcp_invocations d !! id = Some i → mcp_invocations d0 !! id = None →
    invocation_backed d i.

Lemma new_backed_refl d : new_backed d d.
Proof. intros ???. congruence. Qed.

(** The invocation of a request. *)
Definition requested (request : call_request) (x : McpInvocation) : Prop :=
  (inv_owner_subject x, inv_idempotency_key x, inv_preparation_id x,
   inv_approval_request_id x, inv_execution_permit_id x, inv_revision_id x)
  = (rq_owner_subject request, rq_idempotency_key request, rq_preparation_id request,
     rq_approval_request_id request, rq_execution_permit_id request, rq_revision_id request)
  ∧ sha256_json (PDict (rq_arguments request)) = Ok (inv_arguments_sha256 x).

Definition class_of (revision_id : string) (d : db) (class : string) : Prop :=
  ∃ r, mcp_revisions d !! revision_id = Some r ∧ class = rvn_action_class r.

Lemma start_invocation_new request trace w :
  committed w = working w → keyed McpToolRevision (working w) →
  (∀ x d, requested request x →
     class_of (rq_revision_id request) (working w) (inv_action_class x) → permits d = permits (working w) →
     mcp_preparations d = mcp_preparations (working w) → invocation_backed d x) →
  wp (start_invocation request trace) (λ _ w', new_backed (working w) (committed w')) w.
Proof.
  intros Hcw HK HB.
  assert (∀ w', committed w' = committed w → new_backed (working w) (committed w')) as Hsame.
  { intros w' ->. rewrite Hcw. apply new_backed_refl. }
  unfold start_invocation. repeat wp_look; try (apply Hsame; reflexivity).
  all: apply wp_emit_for; [intros w' Hc Hev Hv Hv'|intros w' Hc Hv; by apply Hsame].
  all: repeat wp_look; try (apply Hsame; by simpl); try congruence; try done.
  world_simpl. found H0. pose proof (HK _ _ H0) as Hid. simpl in Hid.
  set (x := new_invocation _ _ _ _ _ _ _ _) in *.
  assert (mcp_invocations (working w') = <[inv_id x := x]> (mcp_invocations (working w))) as Ei
    by by rewrite Hev.
  intros id i. rewrite Ei. intros [[_ <-]|[_ ?]]%lookup_insert_Some; [intros _|congruence].
  apply HB; [|by exists a|by rewrite Hev..]. split; [|done]. unfold x. simpl. by rewrite Hid.
Qed.

Lemma begin_call_new u p c t w :
  committed w = working w → keyed McpActionPreparation (working w) →
  keyed ApprovalRequest (working w) → keyed McpToolRevision (working w) → counted (working w) →
  wp (begin_call u p c t) (λ _ w', new_backed (working w) (committed w')) w.
Proof.
  intros Hcw HK HA HR HC. unfold begin_call. apply wp_bind.
  set (J d := keyed McpToolRevision d ∧ mcp_invocations d = mcp_invocations (working w)).
  eapply wp_mono.
  { apply wp_and; [by apply begin_action_executing|].
    apply (pres_wp J); [apply begin_action_pres; apply _|by rewrite Hcw|done]. }
  assert (∀ w', J (committed w') → new_backed (working w) (committed w')) as Hsame.
  { intros w' [_ E] id i. rewrite E. congruence. }
  intros [[x|e]|?] w' [He [Hc' Hw']]; [apply wp_ret; by apply Hsame|..|by apply Hsame].
  destruct (He e eq_refl) as [[] Hcw'].
  assert (new_backed (working w') = new_backed (working w)) as <-.
  { unfold new_backed. by destruct Hw' as [_ ->]. }
  apply wp_bind. eapply wp_mono.
  { apply start_invocation_new; [done|apply Hw'|].
    intros x d [E Hx] _ Eq Ep. simpl in E, Hx. injection E. intros.
    split; [congruence|intros pid Hpid].
    assert (inv_arguments_sha256 x = prp_arguments_sha256 (ec_preparation e)) by congruence.
    assert (pid = xi_preparation_id p) as -> by congruence.
    exists (ec_preparation e), (ec_claimed e). rewrite Eq, Ep.
    split_and!; try congruence; repeat f_equal; unfold action_key; congruence. }
  intros [?|?] w'' Hn; [by apply wp_ret|done].
Qed.

(** ** The preparation of an action is backed *)
Definition backing (d : db) : Prop :=
  (keyed AgentCommand d ∧ keyed ApprovalRequest d ∧ keyed McpActionPreparation d)
  ∧ every McpActionPreparation preparation_backed d.

Lemma backing_new_command d (c : AgentCommand) :
  backing d → insertable c d = true → backing (put_row c d).
Proof.
  intros ((KC & KA & KP) & HP) [Hfree _]%insertable_spec.
  split; [split_and!; [exact (keyed_put _ _ KC)|done..]|].
  intros id p Hp. destruct (HP _ _ Hp) as (x & a & Hx & Hrest). exists x, a. split; [|done].
  change (<[cmd_id c := c]> (commands d) !! prp_command_id p = Some x).
  rewrite lookup_insert_ne; [done|]. intros E. rewrite <-E in Hx.
  by discriminate (eq_trans (eq_sym Hx) Hfree).
Qed.

Lemma backing_new_request d (a : ApprovalRequest) :
  backing d → insertable a d = true → backing (put_row a d).
Proof.
  intros ((KC & KA & KP) & HP) [Hfree _]%insertable_spec.
  split; [split_and!; [done|exact (keyed_put _ _ KA)|done]|].
  intros id p Hp. destruct (HP _ _ Hp) as (x & b & Hx & Hb & Hrest). exists x, b.
  split; [done|]. split; [|done].
  change (<[apr_id a := a]> (approvals d) !! prp_approval_request_id p = Some b).
  rewrite lookup_insert_ne; [done|]. intros E. rewrite <-E in Hb.
  by discriminate (eq_trans (eq_sym Hb) Hfree).
Qed.

Lemma backing_new_preparation d (p : McpActionPreparation) :
  backing d → preparation_backed d p → backing (put_row p d).
Proof.
  intros ((KC & KA & KP) & HP) HB. split; [split_and!; [done|done|exact (keyed_put _ _ KP)]|].
  by apply every_put.
Qed.

Lemma write_preparation_backing i c o p h t : pres backing (write_preparation i c o p h t).
Proof.
  apply pres_intro. intros w Hc Hw. unfold write_preparation. wp_inv backing.
  all: world_simpl.
  all: try match goal with |- context [put_row (guarded_command ?i ?c ?o ?x ?y ?z ?k ?n ?t) ?d] =>
    assert (backing (put_row (guarded_command i c o x y z k n t) d)) as Hcmd
      by (apply backing_new_command; [by repeat apply stable|done]) end.
  all: try (split; done).
  all: match goal with |- context [put_row (guarded_approval ?i ?c ?m ?p ?o ?x ?y ?z ?k ?n ?t ?u ?v) ?d] =>
    assert (backing (put_row (guarded_approval i c m p o x y z k n t u v) d)) as Hreq
      by (by apply backing_new_request) end.
  all: try (split; done).
  all: split; [done|]; apply backing_new_preparation; [done|].
  all: eexists _, _; split; [apply lookup_insert_eq|]; split; [apply lookup_insert_eq|done].
Qed.

Lemma prepare_action_backing u p t : pres backing (prepare_action u p t).
Proof.
  apply (prepare_action_keep backing).
  - intros. apply ensure_execution_context_pres; apply _.
  - intros. apply write_preparation_backing.
Qed.

(** ** The links of one operation *)
Lemma exec_preparations s o : reachable s →
  grows (same_terms preparation_terms) (only (op_prepares o) preparation_new)
    (st_db s) (st_db (exec s o)).
Proof.
  intros Hs. apply exec_grows; [apply _| |by apply preparations_keyed].
  intros d0. apply handler_preparation_evolved. by destruct o.
Qed.

Lemma exec_backing s o : reachable s → backing (st_db s) → backing (st_db (exec s o)).
Proof.
  intros Hs HB. destruct (op_prepares o) eqn:Hop.
  - destruct o; try done. apply exec_pres; [|done]. apply pres_ignore, prepare_action_backing.
  - pose proof (exec_preparations s o Hs) as Gp. rewrite Hop in Gp.
    assert (reachable (exec s o)) as Hs' by by constructor.
    split; [split_and!; [by apply reachable_commands_keyed|by apply requests_keyed
                        |by apply preparations_keyed]|].
    eapply (every_grows (same_terms preparation_terms)); [exact Gp|apply HB| |].
    + intros p p' Hp Ht. eapply preparation_backed_evolves; [by apply exec_commands|
        by apply exec_requests|done|done].
    + by intros p0 p' [? _].
Qed.

Lemma reachable_backing s : reachable s → backing (st_db s).
Proof.
  revert s. apply (reachable_step_invariant backing); [by split; repeat intro|].
  intros s o. apply exec_backing.
Qed.

Lemma reachable_counted s : reachable s → counted (st_db s).
Proof.
  intros Hs. split; [by apply permits_keyed|]. intros id q Hq.
  destruct (reachable_origin _ _ permit_evolution s id q Hs Hq) as (q0 & Hn & _ & HE).
  by apply (pe_counts _ _ HE), permit_new_counts.
Qed.

Lemma revisions_keyed s : reachable s → keyed McpToolRevision (st_db s).
Proof. apply reachable_invariant; [by intros ? ?|]. intros op. destruct op; frame. Qed.

Lemma invocations_keyed s : reachable s → keyed McpInvocation (st_db s).
Proof. apply (reachable_keyed _ _ invocation_evolution). Qed.

Lemma start_read_new u p c t w :
  committed w = working w → keyed McpToolRevision (working w) →
  wp (start_read u p c t) (λ _ w', new_backed (working w) (committed w')) w.
Proof.
  intros Hcw HK. unfold start_read, authorize_read.
  repeat wp_look; try (rewrite Hcw; apply new_backed_refl).
  all: apply start_invocation_new; [done|done|].
  all: intros x d [E _] Hclass _ _; simpl in E; injection E; intros.
  all: split; [intros _|intros; congruence].
  all: destruct Hclass as (r & Hr & ->); simpl in Hr.
  all: match goal with H : (_resolve_authorized _ _ _ _ _).1 = Ok _ |- _ =>
    apply resolve_authorized_ok, us_reference in H as (ids & _ & _ & _ & Hids) end.
  all: pose proof (HK _ _ Hids) as Hid; simpl in Hid.
  all: rewrite Hid, Hids in Hr; injection Hr as <-; by repeat bools.
Qed.

Lemma exec_new_calls s o : reachable s → new_backed (st_db s) (st_db (exec s o)).
Proof.
  intros Hs. destruct (op_calls o) eqn:Hop.
  - destruct o; try done; apply exec_wp, wp_ignore.
    + apply begin_call_new; [done|by apply preparations_keyed|by apply requests_keyed
        |by apply revisions_keyed|by apply reachable_counted].
    + apply start_read_new; [done|by apply revisions_keyed].
  - intros id i Hi Hnone.
    destruct (proj2 (exec_grows _ (only (op_calls o) invocation_new) s o
      (λ d0, handler_invocation_evolved _ d0 o (λ H i Hi, conj H Hi))
      (invocations_keyed s Hs)) _ _ Hi Hnone) as (i0 & [? _] & _). congruence.
Qed.

Lemma exec_calling s o : reachable s →
  every McpInvocation invocation_backed (st_db s) →
  every McpInvocation invocation_backed (st_db (exec s o)).
Proof.
  intros Hs HI id i' Hi'.
  destruct (mcp_invocations (st_db s) !! id) as [i|] eqn:Hi.
  - destruct (proj1 (exec_grows _ _ s o (λ d0, invocation_evolution o d0)
      (invocations_keyed s Hs)) _ _ Hi) as (i1 & Hi1 & Ht).
    assert (i1 = i') as -> by (simpl in Hi1, Hi'; congruence).
    eapply invocation_backed_evolves; [by apply exec_preparations|by apply exec_permits
      |apply reachable_counted, Hs|exact Ht|by eapply HI].
  - apply (exec_new_calls s o Hs id i' Hi' Hi).
Qed.
End specs.

Lemma reachable_calling `{!Env} s : reachable s → every McpInvocation invocation_backed (st_db s).
Proof.
  revert s. apply reachable_step_invariant; [by repeat intro|]. intros s o. apply exec_calling.
Qed.

(** ** Theorem *)

