(* ===== verification/FederationDemo.v ===== *)
(** * A run of the MCP federation

    An environment with identifiers of 36 digits and a ciphertext that is the sealed
    text, and the way of a guarded action from the registration of its server to the
    receipt, with the witnesses of the theorems about the federation. *)

From S2P Require Import Prelude PyStr PyVal PyFloat Errors Models Database Session Preserve.
From S2P Require Import Approvals Permits FederationPolicy Federation McpUpstream.
From S2P Require Import Json CanonicalJson FederationBroker System ActionProofs.
From S2P Require Import PreparedArguments ActionAuthority.

#[export] Instance federation_env : Env := {|
  clock n := (1700000000 + Z.of_nat n) * 1000000;
  uuid_source n := pad 36 (Z.of_nat n);
  code_source n := "A" +:+ pad 3 (Z.of_nat n);
  sha256_hexdigest s := s;
  hmac_sha256 key message := key +:+ message;
  fernet_encrypt n v := "sealed:" +:+ v;
  fernet_decrypt v := Some (of_chars (drop 7 (chars v)));
  schema_violation schema v := None;
  nfkc s := s;
  ip_literal s := false;
  urlsafe_source n := "token-" +:+ pretty (Z.of_nat n);
  hex_source n := "C0DE0" +:+ pretty (Z.of_nat n);
  uuid5 namespace name := namespace +:+ name;
  jwt_encode claims := json_dumps (PDict claims);
  jwt_decode now token := None;
  settings := {|
    gateway_autonomy_enabled := true;
    gateway_autonomy_emergency_stop := false;
    gateway_autonomy_assignment_batch_size := 10;
    gateway_autonomy_approval_ttl_seconds := 3600;
    gateway_autonomy_permit_ttl_seconds := 600;
    gateway_outbox_enabled := false;
    gateway_outbox_max_attempts := 5;
    gateway_nats_subject_prefix := "gateway";
    gateway_outbox_batch_size := 100;
    gateway_outbox_retry_base_seconds := float_scale 1 0;
    gateway_outbox_retry_max_seconds := float_scale 300 0;
    gateway_outbox_lock_ttl_seconds := 60;
    gateway_broker_backend := "memory";
    gateway_replica_ttl_seconds := 30;
    gateway_realtime_route_ttl_seconds := 90;
    gateway_realtime_notification_ttl_seconds := 86400;
    gateway_nats_stream := "GATEWAY";
    gateway_chat_context_enabled := true;
    gateway_chat_context_ttl_seconds := 300;
    gateway_chat_context_renew_threshold_seconds := 100;
    gateway_chat_context_quarantine_seconds := 600;
    gateway_chat_context_allocation_attempts := 64;
    gateway_chat_context_hmac_key := "0123456789abcdef0123456789abcdef";
    gateway_chat_context_hmac_key_version := 1;
    gateway_affine_approval_server_endpoint := "http://affine:3010/mcp";
    gateway_affine_approval_preview_max_chars := 1200;
    gateway_affine_approval_preview_max_items := 20;
    gateway_mcp_federation_writes_paused := false;
    public_base_url := "http://localhost:8000";
    gateway_dev_auth := false;
    gateway_dev_subject := "dev:local";
    gateway_dev_username := "local";
    gateway_dev_email := None;
    gateway_dev_roles := "gateway-user";
    gateway_session_cookie := "gateway_session";
    keycloak_issuer := "http://localhost:8080/realms/chatgpt-mcp";
    keycloak_client_id := "chatgpt-mcp-gateway";
    gateway_access_token_ttl_seconds := 864000;
    gateway_auth_code_ttl_seconds := 600;
    oauth_audience := "chatgpt-mcp-ssh-gateway";
    oauth_supported_scopes := "workspace:read chat-context:write";
    gateway_browser_extension_client_id := "atlas-chatgpt-browser-extension";
    gateway_browser_extension_redirect_uri := "https://extension.example/oauth2";
    gateway_browser_extension_oauth_scopes := "workspace:read chat-context:write";
    gateway_browser_extension_access_token_ttl_seconds := 3600;
    gateway_device_code_ttl_seconds := 600;
    gateway_thin_client_token_ttl_seconds := 2592000;
  |};
|}.

Definition alice : User := mkUser 1 "alice" "alice" None ["gateway-admin"] [] "oidc" 0 0.
Definition carol : User := mkUser 2 "carol" "carol" None ["gateway-admin"] [] "oidc" 0 0.
Definition uuid (n : Z) : string := pad 36 n.

(** A server with one tool, which its policy approves. *)
Definition tool_entry : descriptor := mkDescriptor "send_report" [("type", PStr "object")] None
  None "Sends the report" [] [] [] [] "schema-1".

Definition registered : list op := [
  CreateServer "alice" "alice" "key-1" [("origin", PStr "gateway");
    ("display_name", PStr "Reports"); ("transport", PStr "streamable_http");
    ("endpoint_url", PStr "https://reports.example/mcp")];
  StoreCatalogSnapshot "alice" "alice" (uuid 0) 1 (Some "2025-06-18") [tool_entry] false;
  UpsertFederationPolicy "alice" "alice" (Some (uuid 0)) "key-2" 0
    [("trust_level", PStr "approved"); ("allowed_action_classes", PList [PStr "write"])]].
Definition registered_store : store := exec_all (mkStore empty_db 0 0) registered.

(** The operator classifies the tool (revision 4 of tool 3) and exposes it. *)
Definition exposed : list op := [
  ClassifyRevision "alice" "alice" (uuid 4) "key-3" 1 "write" "rejected";
  UpsertExposure "alice" "alice" (uuid 3) "key-4" 0
    [("revision_id", PStr (uuid 4)); ("mode", PStr "catalog_only"); ("enabled", PBool true);
     ("approval_class", PStr "none")]].
Definition exposed_store : store := exec_all registered_store exposed.

(** A guarded action is prepared, approved by a reviewer, and a permit is issued. *)
Definition report_arguments : pydict := [("to", PStr "bob"); ("about", PStr "costs")].
Definition preparation_input : prepare_input :=
  mkPrepareInput (_tool_ref (uuid 0) (uuid 3) (uuid 4)) "schema-1" report_arguments
    "monthly report" "action-1".
Definition prepared_store : store :=
  exec exposed_store (PrepareAction alice preparation_input 3600).
Definition approved : list op := [
  CastVote (uuid 22) carol "approve" None;
  IssuePermit "alice" "alice" (uuid 22) None].
Definition permitted_store : store := exec_all prepared_store approved.

(** The action is sent, answered and recorded. *)
Definition execution_input : execute_input :=
  mkExecuteInput (uuid 20) (uuid 26) "schema-1".
Definition no_trace : call_trace := mkTrace "00" PNone.
Definition sent_store : store :=
  exec permitted_store (BeginAction alice execution_input None no_trace).

Lemma exec_all_init_reachable os : reachable (exec_all (mkStore empty_db 0 0) os).
Proof. apply reachable_exec_all. constructor. Qed.

Lemma exposed_store_reachable : reachable exposed_store.
Proof. apply reachable_exec_all, exec_all_init_reachable. Qed.
Lemma prepared_store_reachable : reachable prepared_store.
Proof. apply reachable_step, exposed_store_reachable. Qed.
Lemma permitted_store_reachable : reachable permitted_store.
Proof. apply reachable_exec_all, prepared_store_reachable. Qed.
Lemma sent_store_reachable : reachable sent_store.
Proof. apply reachable_step, permitted_store_reachable. Qed.

Definition is_running (r : result (option started)) : bool :=
  match r with Ok (Some (Running _)) => true | _ => false end.

Lemma action_runs : ∃ i,
  (run (begin_call alice execution_input None no_trace) permitted_store).1 = Ok (Some (Running i)).
Proof.
  assert (is_running (run (begin_call alice execution_input None no_trace) permitted_store).1
    = true) as H by (vm_compute; reflexivity).
  destruct (run _ _).1 as [[[|i]|]|]; try done. by exists i.
Qed.

Lemma sent_invocation : ∃ i,
  mcp_invocations (st_db sent_store) !! uuid 29 = Some i ∧ inv_action_class i = "write".
Proof. eexists. split; vm_compute; reflexivity. Qed.

Lemma new_preparation_found :
  mcp_preparations (st_db exposed_store) !! uuid 20 = None
  ∧ ∃ x, mcp_preparations (st_db prepared_store) !! uuid 20 = Some x.
Proof. split; [vm_compute; reflexivity|]. eexists. vm_compute. reflexivity. Qed.

Lemma report_well_keyed : well_keyed (PDict report_arguments).
Proof. split; [|by repeat split]. repeat constructor; vm_compute; set_solver. Qed.

Lemma decryption_undoes n v : fernet_decrypt (fernet_encrypt n v) = Some v.
Proof. apply (f_equal Some), of_chars_chars. Qed.

(** ** Witnesses *)
Lemma action_called_once_witness : ∃ j : McpInvocation,
  (run (begin_call alice execution_input None no_trace) sent_store).1 ≠ Ok (Some (Running j)).
Proof.
  destruct action_runs as (i & Hi). exists i.
  exact (action_called_once permitted_store [] alice execution_input None no_trace i alice
    execution_input None no_trace permitted_store_reachable Hi eq_refl eq_refl i).
Defined.

Lemma prepared_arguments_return_witness : ∃ y arguments,
  mcp_preparations (st_db permitted_store) !! uuid 20 = Some y
  ∧ json_of (PDict arguments) = json_of (PDict report_arguments).
Proof.
  destruct new_preparation_found as (Hnew & x & Hx).
  destruct (prepared_arguments_return exposed_store alice preparation_input 3600 (uuid 20) x
    approved decryption_undoes exposed_store_reachable report_well_keyed Hnew Hx)
    as (y & arguments & Hy & _ & Ha & _).
  exists y, arguments. split; [exact Hy|exact Ha].
Defined.

