(* ===== verification/OAuthProofs.v ===== *)
(** * The authorization server: what a token rests on

    Authorization codes are used once; behind every access token there is a signed-in user
    who authorized that client, with that redirect and a challenge that the presented
    verifier answers, for at least those scopes. *)

From S2P Require Import Prelude PyStr PyVal Errors Models Database Session Preserve.
From S2P Require Import Rows Auth OAuth Footprint System Evolution.
From Stdlib Require Import Ascii.

(** ** Scopes *)
Definition is_word (s : string) : Prop :=
  s ≠ "" ∧ Forall (λ c, is_space c = false ∧ c ≠ ","%char) (chars s).

Lemma split_words_words word l :
  Forall (λ c, c ≠ ","%char) l → Forall (λ c, is_space c = false ∧ c ≠ ","%char) word →
  Forall is_word (split_words word l).
Proof.
  assert (∀ word, Forall (λ c, is_space c = false ∧ c ≠ ","%char) word →
    Forall is_word (match word with [] => [] | _ => [of_chars (rev word)] end)) as Hclose.
  { intros [|c w] Hw; [constructor|]. constructor; [|constructor]. split.
    - simpl. intros E. apply (f_equal chars) in E. rewrite chars_of_chars in E.
      by destruct (rev w).
    - rewrite chars_of_chars. by apply Forall_rev. }
  revert word. induction l as [|c l IH]; intros word Hl Hw; simpl; [by apply Hclose|].
  apply Forall_cons in Hl as [Hc Hl]. destruct (is_space c) eqn:Hs.
  - apply Forall_app. split; [by apply Hclose|]. by apply IH.
  - apply IH; [done|]. by constructor.
Qed.

Lemma comma_words_words s : Forall is_word (comma_words s).
Proof.
  apply split_words_words; [|constructor]. apply Forall_forall. intros c Hc ->.
  by apply (replace_char_gone "," " " s).
Qed.

Lemma split_words_word word l k :
  Forall (λ c, is_space c = false ∧ c ≠ ","%char) l →
  split_words word (l ++ k) = split_words (rev l ++ word) k.
Proof.
  revert word. induction l as [|c l IH]; intros word Hl; [done|].
  apply Forall_cons in Hl as [[Hc _] Hl]. simpl. rewrite Hc, IH by done. by rewrite <-app_assoc.
Qed.

Lemma join_cons s l : l ≠ [] → join " " (s :: l) = s +:+ " " +:+ join " " l.
Proof. by destruct l. Qed.

Lemma split_words_join l :
  Forall is_word l → split_words [] (chars (join " " l)) = l.
Proof.
  induction l as [|s l IH]; [done|]. intros [[Hne Hs] Hl]%Forall_cons.
  assert (rev (chars s) ≠ []) as Hr.
  { intros E. apply (f_equal (@rev _)) in E. rewrite rev_involutive in E. simpl in E.
    by rewrite <-(of_chars_chars s), E in Hne. }
  assert (of_chars (rev (rev (chars s))) = s) as Es.
  { by rewrite rev_involutive, of_chars_chars. }
  destruct l as [|s' l].
  - simpl. rewrite <-(app_nil_r (chars s)), split_words_word, app_nil_r by done. simpl.
    destruct (rev (chars s)) eqn:E; [done|]. by rewrite Es.
  - rewrite join_cons, !chars_app, split_words_word, app_nil_r by done.
    change (chars " " ++ ?k) with (" "%char :: k). cbn [split_words].
    change (is_space " "%char) with true. cbv iota. rewrite IH by done. destruct (rev (chars s)) as [|c w] eqn:E; [done|].
    simpl in *. by rewrite Es.
Qed.

Lemma comma_words_join l : Forall is_word l → comma_words (join " " l) = l.
Proof.
  intros Hl. unfold comma_words. rewrite replace_char_no; [by apply split_words_join|].
  apply bool_decide_eq_false. induction Hl as [|s l [_ Hs] Hl IH]; [apply not_elem_of_nil|].
  assert (","%char ∉ chars s) as Hn.
  { intros Hin. rewrite Forall_forall in Hs. by destruct (Hs _ Hin). }
  destruct l as [|s' l]; [done|]. rewrite join_cons, !chars_app by done.
  intros [?|[?%list_elem_of_singleton|?]%elem_of_app]%elem_of_app; done.
Qed.

Lemma elem_of_dedupe x l : x ∈ dedupe l ↔ x ∈ l.
Proof.
  induction l as [|y l IH]; [done|]. simpl. rewrite !elem_of_cons, list_elem_of_filter, IH.
  destruct (decide (x = y)); tauto.
Qed.

Lemma dedupe_words l : Forall is_word l → Forall is_word (dedupe l).
Proof. rewrite !Forall_forall. intros Hl x. rewrite elem_of_dedupe. apply Hl. Qed.

Lemma split_scope_words o : Forall is_word (_split_scope o).
Proof.
  destruct o as [s|]; [|constructor]. unfold _split_scope.
  case_match; [constructor|]. apply dedupe_words, comma_words_words.
Qed.

Lemma elem_of_split_join x l :
  Forall is_word l → x ∈ _split_scope (Some (join " " l)) → x ∈ l.
Proof.
  intros Hl. unfold _split_scope. case_match; [by intros ?%not_elem_of_nil|].
  by rewrite elem_of_dedupe, comma_words_join.
Qed.

Lemma subset_spec a b : subset a b = true ↔ ∀ x, x ∈ a → x ∈ b.
Proof.
  unfold subset. rewrite forallb_forall. split; intros H x Hx.
  - by apply (bool_decide_eq_true_1 _), H, list_elem_of_In.
  - by apply bool_decide_eq_true_2, H, list_elem_of_In.
Qed.

(** The scopes that a validated scope spells. *)
Lemma validated_scope_ok requested allowed s x :
  Forall is_word allowed → _validated_scope requested allowed = Ok s →
  x ∈ _split_scope (Some s) →
  x ∈ allowed ∧ (_split_scope requested ≠ [] → x ∈ _split_scope requested).
Proof.
  intros Ha Hok Hx. unfold _validated_scope in Hok. cbv zeta in Hok.
  destruct (_ || _) eqn:Hb in Hok; [done|]. injection Hok as <-.
  apply orb_false_iff in Hb as [_ Hs%negb_false_iff]. rewrite subset_spec in Hs.
  destruct (_split_scope requested) as [|y l] eqn:E; cbn [nonempty] in *.
  - by apply elem_of_split_join in Hx.
  - apply elem_of_split_join in Hx; [|rewrite <-E; apply split_scope_words]. auto.
Qed.

(** ** Codes *)
Definition code_terms (c : OAuthCode) :=
  (ocd_code c, ocd_client_id c, ocd_redirect_uri c, ocd_code_challenge c, ocd_scope c,
   ocd_subject c, ocd_expires_at c, ocd_created_at c).

Definition code_evolves (c c' : OAuthCode) : Prop :=
  code_terms c' = code_terms c ∧ (ocd_consumed c = true → ocd_consumed c' = true).
Definition code_fresh (c : OAuthCode) : Prop := ocd_consumed c = false.

#[export] Instance code_evolves_preorder : PreOrder code_evolves.
Proof.
  split; [by split|]. intros c1 c2 c3 [E1 H1] [E2 H2]. split; [congruence|auto].
Qed.

Section codes.
Context `{!Env}.
Implicit Types (w : world) (f : token_form) (q : authorize_query).

(** What an access token says. *)
Definition token_claims (claims : pydict) (user : User) (client_id scope : string) : Prop :=
  dict_lookup "sub" claims = Some (PStr (usr_subject user))
  ∧ dict_lookup "client_id" claims = Some (PStr client_id)
  ∧ dict_lookup "scope" claims = Some (PStr scope)
  ∧ dict_lookup "typ" claims = Some (PStr "access").

Definition consumed_code (c : OAuthCode) : OAuthCode := c <| ocd_consumed := true |>.

(** The code that a successful exchange uses up, and the token it leads to. *)
Record exchanged (f : token_form) (w : world) (a : token_response) (c : OAuthCode) : Prop := {
  xc_stored : oauth_codes (working w) !! tf_code f = Some c;
  xc_live : live_code c f = true;
  xc_time : clock (ticks w) <= ocd_expires_at c;
  xc_client : ∃ client ext, oauth_clients (working w) !! tf_client_id f = Some client
    ∧ granted_scopes c client f ext = Ok (_split_scope (Some (ocd_scope c)));
  xc_verifier : check_verifier c (tf_code_verifier f) = Ok tt;
  xc_token : ∃ user claims, usr_subject user = ocd_subject c
    ∧ tk_access_token a = jwt_encode claims
    ∧ token_claims claims user (tf_client_id f) (tk_scope a)
    ∧ tk_scope a = join " " (_split_scope (Some (ocd_scope c)));
}.

Lemma granted_scopes_ok c client f ext l :
  granted_scopes c client f ext = Ok l → l = _split_scope (Some (ocd_scope c)).
Proof.
  unfold granted_scopes. cbv zeta. intros Hg.
  repeat (match type of Hg with context [if ?b then _ else _] => destruct b end; try done).
  all: try by injection Hg as <-.
  apply bind_ok in Hg as (x & _ & Hg). by destruct (_ =/? _); [|injection Hg as <-].
Qed.

Ltac step_to_put :=
  lazymatch goal with
  | |- wp (put _ ≫= _) _ _ => fail
  | |- wp _ _ _ => wp_step
  end.

Lemma wp_inherit client subject uri w :
  wp (_inherit_chatgpt_connector_policy client subject uri)
    (λ _ w', committed w' = committed w ∧ oauth_codes (working w') = oauth_codes (working w)) w.
Proof. unfold _inherit_chatgpt_connector_policy. repeat wp_look; by split. Qed.

(** What a successful exchange leaves. *)
Definition exchange_post (f : token_form) (w : world) (r : result token_response) (w' : world)
    : Prop :=
  match r with
  | Ok a => ∃ c, exchanged f w a c
      ∧ oauth_codes (committed w') = <[ocd_code c := consumed_code c]> (oauth_codes (working w))
  | Raise _ => committed w' = committed w
  end.

Lemma wp_issue f w w' c client heir user ext scopes :
  oauth_codes (working w) !! tf_code f = Some c → live_code c f = true →
  (ocd_expires_at c <? clock (ticks w)) = false →
  oauth_clients (working w) !! tf_client_id f = Some client →
  granted_scopes c client f ext = Ok scopes → check_verifier c (tf_code_verifier f) = Ok tt →
  (usr_subject user ==? ocd_subject c) = true →
  committed w' = committed w → oauth_codes (working w') = oauth_codes (working w) →
  wp (put (c <| ocd_consumed := true |>);; commit;;
      t ← create_jwt (usr_subject user) (usr_username user) (usr_roles user) scopes "access"
            (token_ttl_seconds ext) (client_claims heir (tf_client_id f));
      mret (mkTokenResponse t (token_ttl_seconds ext) (join " " scopes)))
    (exchange_post f w) w'.
Proof.
  intros Hc Hl Ht Hcl Hg Hv Hu%bool_decide_eq_true Ew Ec. unfold create_jwt.
  repeat wp_step; [by simpl; rewrite Ew|]. exists c. split.
  - pose proof (granted_scopes_ok _ _ _ _ _ Hg) as ->.
    split; [done|done|by apply Z.ltb_ge|by exists client, ext|done|].
    eexists user, _. split_and!; [done|reflexivity|by split_and!|done].
  - simpl. unfold put_row. simpl. set_simpl. by rewrite Ec.
Qed.

Lemma wp_token f w : committed w = working w → wp (token f) (exchange_post f w) w.
Proof.
  intros Hcw. unfold token. repeat step_to_put; try done.
  all: simplify_eq; repeat match goal with u : () |- _ => destruct u end.
  all: match goal with H : _ ∈ select _ _ |- _ => apply elem_of_select in H as [? _] end.
  - by eapply wp_issue.
  - eapply wp_mono; [apply wp_inherit|]. intros [heir|e] w' [Ew Ec]; [|done].
    by eapply wp_issue.
Qed.

Lemma token_keeps f d0 :
  keeps (evolved code_evolves code_fresh d0) (ExchangeCode f).
Proof.
  apply wp_keeps. intros w Hcw HI. apply wp_ignore. eapply wp_mono; [by apply wp_token|].
  intros [a|e] w'; simpl; [|by intros ->; rewrite Hcw]. intros (c & [Hc _ _ _ _ _] & Ec).
  assert (evolved code_evolves code_fresh d0 (put_row (consumed_code c) (working w))) as He.
  { eapply evolved_write; [apply _|exact HI|exact Hc|done|by split]. }
  unfold evolved, keyed, grows in *. simpl in *. by rewrite Ec.
Qed.

Lemma code_evolution o d0 : keeps (evolved code_evolves code_fresh d0) o.
Proof.
  destruct o; first [apply token_keeps | apply pres_keeps; frame | apply pres_keeps].
  apply pres_ignore. pres_go.
Qed.

(** ** Where codes come from *)

(** The code [x] is handed out to the client of [q] for the user of the request. *)
Record handed_out (request : credentials) (q : authorize_query) (w : world)
    (r : result string) (x : string) (c : OAuthCode) : Prop := {
  ho_answer : r = Ok (code_redirect q x);
  ho_code : ∃ user client ext scope now created_at,
    (get_current_user request w).1 = Ok user ∧ authorized_scope client q ext = Ok scope
    ∧ c = new_code x q scope user now created_at;
}.

Definition codes_are (X : gmap string OAuthCode) (d : db) : Prop := oauth_codes d = X.

Lemma known_client_codes X q ext : pres (codes_are X) (known_client q ext).
Proof. pres_go. Qed.

Lemma wp_authorize request q w x :
  committed w = working w → oauth_codes (working w) !! x = None →
  wp (authorize request q) (λ r w', ∀ c,
    oauth_codes (committed w') !! x = Some c → handed_out request q w r x c) w.
Proof.
  intros Hcw Hx. set (X := oauth_codes (working w)) in *.
  assert (∀ w' r c, codes_are X (committed w') → oauth_codes (committed w') !! x = Some c →
    handed_out request q w r x c) as Hsame.
  { intros w' r c E Hc. rewrite E in Hc. by rewrite Hx in Hc. }
  assert (codes_are X (committed w)) as Hcw' by (unfold codes_are; by rewrite Hcw).
  unfold authorize. do 4 (repeat wp_step; try by (intros c; apply Hsame)).
  eapply wp_mono; [by apply (wp_signed_in (codes_are X) request)|].
  intros [[user|]|e] w1 [[Hc1 Hw1] Hu]; [|apply wp_ret|]; try by (intros c; apply Hsame).
  apply wp_bind. apply (wp_pres _ (codes_are X)); [apply known_client_codes|done..|].
  intros [client|e] w2 Hc2 Hw2; [|by intros c; apply Hsame].
  repeat wp_step; try by (intros c; apply Hsame).
  intros c. simpl. unfold put_row. simpl. set_simpl. rewrite Hw2. intros Hc.
  apply lookup_insert_Some in Hc as [[<- <-]|[_ Hc]]; [|by rewrite Hx in Hc].
  split; [done|]. eexists user, client, _, _, _, _. split_and!; [by apply Hu|done..].
Qed.

Lemma authorized_scope_ok client q ext s :
  authorized_scope client q ext = Ok s →
  _is_allowed_redirect (az_redirect_uri q) = true
  ∧ ∀ x, x ∈ _split_scope (Some s) → x ∈ supported_scopes
      ∧ (_split_scope (az_scope q) ≠ [] → x ∈ _split_scope (az_scope q)).
Proof.
  unfold authorized_scope. cbv zeta. destruct (_ || _) eqn:Ha; [done|].
  destruct (_ || _) eqn:Hb in |- *; [done|].
  apply orb_false_iff in Ha as [_ Ha%negb_false_iff].
  apply orb_false_iff in Hb as [_ Hb%negb_false_iff]. rewrite subset_spec in Hb.
  intros (e & _ & (s' & Hs & Hl)%bind_ok)%bind_ok. destruct (_ && _); [done|].
  injection Hl as <-. split; [done|]. intros x Hx.
  destruct (validated_scope_ok _ _ _ x (split_scope_words _) Hs Hx). auto.
Qed.

(** No other operation hands out codes. *)
Definition unissued (x : string) (d : db) : Prop :=
  keyed OAuthCode d ∧ oauth_codes d !! x = None.

Lemma token_unissued x f : keeps (unissued x) (ExchangeCode f).
Proof.
  apply wp_keeps. intros w Hcw [HK Hx]. apply wp_ignore. eapply wp_mono; [by apply wp_token|].
  intros [a|e] w'; simpl; [|by intros ->; rewrite Hcw]. intros (c & [Hc _ _ _ _ _] & Ec).
  assert (ocd_code c = tf_code f) as Hk by exact (HK _ _ Hc).
  assert (keyed OAuthCode (put_row (consumed_code c) (working w))) as Hp by by apply keyed_put.
  unfold unissued, keyed in *. simpl in *. rewrite Ec. split; [exact Hp|].
  rewrite lookup_insert_ne; [done|]. congruence.
Qed.

Lemma only_authorize_issues x o :
  (∃ request q, o = Authorize request q) ∨ keeps (unissued x) o.
Proof.
  destruct o; first [left; by eexists _, _ | right; apply token_unissued
                    | right; apply pres_keeps; frame].
Qed.

Lemma code_comes_from s o x c :
  keyed OAuthCode (st_db s) → oauth_codes (st_db s) !! x = None →
  oauth_codes (st_db (exec s o)) !! x = Some c →
  ∃ request q, o = Authorize request q
    ∧ handed_out request q (open_session s) (run (authorize request q) s).1 x c.
Proof.
  intros HK Hx Hc. destruct (only_authorize_issues x o) as [(request & q & ->)|Hk].
  - exists request, q. split; [done|]. unfold exec in Hc.
    change (handler _) with (ignore (authorize request q)) in Hc. rewrite run_ignore in Hc.
    revert c Hc. apply (run_wp _ (λ r d, ∀ c, oauth_codes d !! x = Some c →
      handed_out request q (open_session s) r x c)). by apply wp_authorize.
  - destruct (Hk s) as [_ Hn]; [by split|]. congruence.
Qed.

Lemma codes_keyed s : reachable s → keyed OAuthCode (st_db s).
Proof. apply (reachable_keyed _ _ code_evolution). Qed.

Lemma issued_by ticks draws os x c :
  let s0 := mkStore empty_db ticks draws in
  oauth_codes (st_db (exec_all s0 os)) !! x = Some c →
  ∃ os1 request q os2 c0, os = os1 ++ Authorize request q :: os2
    ∧ handed_out request q (open_session (exec_all s0 os1))
        (run (authorize request q) (exec_all s0 os1)).1 x c0
    ∧ code_terms c = code_terms c0.
Proof.
  intros s0 Hc. assert (reachable s0) as Hs0 by constructor.
  set (P s := is_Some (oauth_codes (st_db s) !! x)).
  destruct (history P s0 os) as (os1 & o & os2 & Hb).
  { intros [c' Hc']. change ((∅ : gmap string OAuthCode) !! x = Some c') in Hc'.
    by rewrite lookup_empty in Hc'. }
  { by exists c. }
  pose proof (ba_before _ _ _ _ _ _ Hb) as Hn%eq_None_not_Some.
  destruct (brought_about_step _ _ _ _ _ _ Hb) as [c0 Hc0].
  pose proof (reachable_exec_all s0 os1 Hs0) as Hs1.
  destruct (code_comes_from _ _ _ _ (codes_keyed _ Hs1) Hn Hc0) as (request & q & -> & Hh).
  exists os1, request, q, os2, c0. split; [apply Hb|]. split; [done|].
  destruct (exec_all_kept _ _ code_evolution (exec (exec_all s0 os1) (Authorize request q))
    os2 x c0) as (c' & Hc' & [Et _]); [by constructor|done|].
  rewrite (ba_split _ _ _ _ _ _ Hb), exec_all_app in Hc.
  assert (Some c = Some c') as [= ->] by (etrans; [symmetry; exact Hc|exact Hc']). exact Et.
Qed.

(** A successful exchange. *)
Lemma exchange_of f s a :
  (run (token f) s).1 = Ok a → ∃ c, exchanged f (open_session s) a c
    ∧ oauth_codes (st_db (run (token f) s).2) = <[ocd_code c := consumed_code c]> (oauth_codes (st_db s)).
Proof.
  pose proof (wp_token f (open_session s) eq_refl) as Hp. unfold wp, run in *.
  destruct (token f (open_session s)) as [r w']. simpl in *. by intros ->.
Qed.
End codes.

(** ** Theorems *)

(** C4 What a token rests on: when the exchange of a code yields an access token, then
    earlier a signed-in user authorized this client with this redirect (which is one of
    the allowed ones) and with the challenge that the presented verifier answers, and was
    given this code; the code was unused and had not run out; and the token names that
    user, that client, and scopes that the gateway supports and that were asked for. *)
Theorem tokens_are_authorized `{!Env} ticks draws os form a :
  let s0 := mkStore empty_db ticks draws in
  (run (token form) (exec_all s0 os)).1 = Ok a →
  ∃ os1 request q os2 user claims,
    os = os1 ++ Authorize request q :: os2
    ∧ (run (authorize request q) (exec_all s0 os1)).1 = Ok (code_redirect q (tf_code form))
    ∧ (run (get_current_user request) (exec_all s0 os1)).1 = Ok user
    ∧ az_client_id q = tf_client_id form ∧ az_redirect_uri q = tf_redirect_uri form
    ∧ _is_allowed_redirect (tf_redirect_uri form) = true
    ∧ _pkce_s256 (tf_code_verifier form) = Ok (az_code_challenge q)
    ∧ (∃ c, oauth_codes (st_db (exec_all s0 os)) !! tf_code form = Some c
         ∧ ocd_consumed c = false ∧ clock (st_ticks (exec_all s0 os)) <= ocd_expires_at c)
    ∧ tk_access_token a = jwt_encode claims
    ∧ token_claims claims user (tf_client_id form) (tk_scope a)
    ∧ (∀ x, x ∈ _split_scope (Some (tk_scope a)) → x ∈ supported_scopes
         ∧ (_split_scope (az_scope q) ≠ [] → x ∈ _split_scope (az_scope q))).
Proof.
  intros s0 Ha. set (s := exec_all s0 os) in *.
  destruct (exchange_of _ _ _ Ha)
    as (c & [Hc Hlive Ht _ Hv (user' & claims & Hu & Htok & Hcl & Hsc)] & _).
  destruct (issued_by ticks draws os (tf_code form) c Hc)
    as (os1 & request & q & os2 & c0 & -> & [Hans (user & client & ext & scope & now & t0 & Hg & Hok & ->)] & Et).
  injection Et as Ecode Eid Euri Ech Esc Esub _ _.
  unfold live_code in Hlive. apply andb_true_iff in Hlive as [[Hn Hid]%andb_true_iff Huri].
  apply bool_decide_eq_true in Hid, Huri. apply authorized_scope_ok in Hok as [Hred Hscopes].
  unfold check_verifier in Hv. apply bind_ok in Hv as (ch & Hpk & Hv).
  destruct (negb (is_ascii _)); [done|]. destruct (ch =/? _) eqn:Hch; [done|].
  apply negb_false_iff, bool_decide_eq_true in Hch.
  exists os1, request, q, os2, user, claims. split_and!; try done; try congruence.
  - unfold run. by destruct (get_current_user request (open_session _)).
  - exists c. split_and!; [done|by apply negb_true_iff|done].
  - unfold token_claims in *. by rewrite <-Esub, <-Hu.
  - rewrite Hsc, Esc. intros x Hx. apply Hscopes. by apply elem_of_split_join in Hx; [|apply split_scope_words].
Qed.

(** C15 A code is exchanged once: after a successful exchange, whatever operations run, no
    exchange of the same code succeeds, whoever presents it. *)
Theorem codes_are_used_once `{!Env} s os form form' a a' :
  reachable s → (run (token form) s).1 = Ok a → tf_code form' = tf_code form →
  (run (token form') (exec_all (exec s (ExchangeCode form)) os)).1 ≠ Ok a'.
Proof.
  intros Hs Ha Hcode Ha'. set (s1 := exec s (ExchangeCode form)) in *.
  assert (reachable s1) as Hs1 by by constructor.
  destruct (exchange_of _ _ _ Ha) as (c & Hx & Ec).
  assert (oauth_codes (st_db s1) !! tf_code form = Some (consumed_code c)) as Hc.
  { unfold s1, exec. change (handler _) with (ignore (token form)). rewrite run_ignore, Ec.
    pose proof (codes_keyed s Hs _ _ (xc_stored _ _ _ _ Hx)) as Hk. simpl in Hk.
    rewrite Hk. apply lookup_insert_eq. }
  destruct (exec_all_kept _ _ code_evolution s1 os _ _ Hs1 Hc) as (c' & Hc' & [_ Hcons]).
  destruct (exchange_of _ _ _ Ha') as (c2 & [Hc2 Hl _ _ _ _] & _). rewrite Hcode in Hc2.
  assert (Some c2 = Some c') as [= ->] by (etrans; [symmetry; exact Hc2|exact Hc']).
  unfold live_code in Hl. by rewrite (Hcons eq_refl) in Hl.
Qed.

(** * Signed tokens and the users they stand for *)

Lemma dict_lookup_update k d e :
  dict_lookup k e = None → dict_lookup k (dict_update d e) = dict_lookup k d.
Proof.
  unfold dict_update. revert d. induction e as [|[k' v] e IH]; intros d He; [done|].
  simpl in *. case_bool_decide; [done|]. rewrite IH, dict_lookup_set by done.
  by rewrite bool_decide_eq_false_2.
Qed.

(** The names of the claims that say who the bearer is. *)
Definition identity_claims : list string :=
  ["sub"; "preferred_username"; "email"; "realm_access"; "roles"].

Section users.
Context `{!Env}.

Lemma users_keyed s : reachable s → keyed User (st_db s).
Proof.
  revert s. apply reachable_invariant; [by intros ? ? ?|].
  intros o. destruct o; first [frame | apply pres_ignore; pres_go].
Qed.

(** The query by subject finds the user stored under it. *)
Lemma wp_query_subject subject (Q : result (option User) → world → Prop) w :
  keyed User (working w) → Q (Ok (users (working w) !! subject)) w →
  wp (query_one (λ u, usr_subject u ==? subject)) Q w.
Proof.
  intros HK HQ. unfold query_one. apply wp_bind, wp_query.
  set (l := select _ _). assert (∀ u, u ∈ l ↔ users (working w) !! subject = Some u) as Hl.
  { intros u. unfold l. rewrite elem_of_select_keyed by done. split.
    - intros [<-%bool_decide_eq_true Hu]. exact Hu.
    - intros Hu. pose proof (HK _ _ Hu) as Hid. simpl in Hid.
      split; [by apply bool_decide_eq_true|]. simpl. by rewrite Hid. }
  assert (NoDup (row_id <$> l)) as HN by by apply NoDup_select.
  destruct l as [|u [|u' l']] eqn:E; simpl.
  - apply wp_ret. destruct (users (working w) !! subject) as [u|] eqn:Hu; [|done].
    exfalso. by apply (not_elem_of_nil u), Hl.
  - apply wp_ret. by rewrite <-(proj1 (Hl u) ltac:(left)).
  - apply NoDup_cons in HN as [Hin _]. destruct Hin.
    pose proof (proj1 (Hl u) ltac:(left)). pose proof (proj1 (Hl u') ltac:(right; left)).
    assert (u = u') as -> by congruence. left.
Qed.

(** The user is stored under the subject, with what the token says. *)
Lemma wp_ensure_user subject username email roles provider w :
  keyed User (working w) → violated w = false →
  wp (ensure_user subject username email roles provider) (λ r _, ∃ u, r = Ok u
    ∧ usr_subject u = subject ∧ usr_username u = username ∧ usr_email u = email
    ∧ usr_roles u = roles ∧ usr_provider u = provider) w.
Proof.
  intros HK Hv. unfold ensure_user. apply wp_bind, wp_query_subject; [done|].
  destruct (users (working w) !! subject) as [u|] eqn:Hu.
  - repeat wp_step; simpl in *; try congruence. eexists. split; [done|]. set_simpl.
    pose proof (HK _ _ Hu). by split_and!.
  - repeat wp_step; simpl in *; try congruence; [by eexists|].
    match goal with H : insertable _ _ = false |- _ => rename H into Hins end.
    unfold insertable, lookup_row in Hins. simpl in Hins. rewrite Hu in Hins. simpl in Hins.
    apply not_true_iff_false in Hins. destruct Hins. by apply forallb_forall.
Qed.

(** What [create_jwt] signs at this moment. *)
Definition signed_claims (s : store) (subject username : string) (roles scopes : list string)
    (token_type : string) (ttl_seconds : Z) (extra : pydict) : pydict :=
  dict_update (jwt_payload (clock (st_ticks s)) (urlsafe_source (st_draws s)) subject username
                 roles scopes token_type ttl_seconds) extra.

Lemma create_jwt_signs s subject username roles scopes typ ttl extra :
  run (create_jwt subject username roles scopes typ ttl extra) s
  = (Ok (jwt_encode (signed_claims s subject username roles scopes typ ttl extra)),
     mkStore (st_db s) (S (st_ticks s)) (S (st_draws s))).
Proof. by destruct s. Qed.

Section claims.
Context (s : store) (subject username : string) (roles scopes : list string) (typ : string).
Context (ttl : Z) (extra : pydict).
Context (Hextra : ∀ k, k ∈ identity_claims → dict_lookup k extra = None) (Hname : username ≠ "").
Let claims := signed_claims s subject username roles scopes typ ttl extra.

Lemma identity_lookup k :
  k ∈ identity_claims → dict_get claims k
    = dict_get (jwt_payload (clock (st_ticks s)) (urlsafe_source (st_draws s)) subject username
                  roles scopes typ ttl) k.
Proof.
  intros Hk. unfold dict_get, dict_get_or, claims, signed_claims.
  by rewrite dict_lookup_update by by apply Hextra.
Qed.

Lemma signed_roles : roles_from_claims claims = Ok roles.
Proof.
  unfold roles_from_claims. rewrite !identity_lookup by (unfold identity_claims; set_solver).
  simpl. assert (map py_str (map PStr roles) = roles) as Hr.
  { rewrite map_map. induction roles as [|r l IH]; [done|]. simpl. f_equal. exact IH. }
  destruct roles as [|r l]; [done|]. simpl in *. by rewrite Hr.
Qed.

Lemma signed_user w :
  keyed User (working w) → violated w = false →
  wp (_user_from_claims claims "token") (λ r _, ∃ u, r = Ok u
    ∧ usr_subject u = subject ∧ usr_username u = username ∧ usr_email u = None
    ∧ usr_roles u = roles ∧ usr_provider u = "token") w.
Proof.
  intros HK Hv. unfold _user_from_claims. rewrite signed_roles. apply wp_bind, wp_lift; [|done].
  intros l [= <-]. rewrite !identity_lookup by (unfold identity_claims; set_solver).
  simpl. apply wp_bind, wp_lift; [|done]. intros email [= <-].
  unfold dict_get, dict_get_or, py_or. simpl. rewrite !bool_decide_eq_false_2 by done. simpl.
  rewrite bool_decide_eq_false_2 by done. by apply wp_ensure_user.
Qed.
End claims.
End users.

(** ** Theorem *)

(** C29 Whoever bears a token the gateway signed is its subject: right after a token was
    created, whatever its type, scopes and further claims (as long as these do not name
    another bearer), a request with it comes from the user of its subject, name and roles,
    provided the library verifies what it signed.  The e-mail address of the user is lost,
    because the token does not carry it. *)
Theorem signed_tokens_authenticate `{!Env} s subject username roles scopes typ ttl extra token s1 :
  reachable s → run (create_jwt subject username roles scopes typ ttl extra) s = (Ok token, s1) →
  (∀ k, k ∈ identity_claims → dict_lookup k extra = None) → username ≠ "" →
  let claims := signed_claims s subject username roles scopes typ ttl extra in
  strip (jwt_encode claims) = jwt_encode claims →
  jwt_decode (clock (st_ticks s1)) (jwt_encode claims) = Some claims →
  ∃ u, (run (get_current_user (mkCredentials None ("Bearer " +:+ token))) s1).1 = Ok u
    ∧ usr_subject u = subject ∧ usr_username u = username ∧ usr_roles u = roles
    ∧ usr_email u = None.
Proof.
  intros Hs Hrun Hextra Hname claims Hstrip Hdec. rewrite create_jwt_signs in Hrun.
  injection Hrun as <- <-. fold claims. simpl in Hdec.
  eapply (run_wp _ (λ r _, ∃ u, r = Ok u ∧ usr_subject u = subject ∧ usr_username u = username
    ∧ usr_roles u = roles ∧ usr_email u = None)).
  unfold get_current_user, bearer_user. cbn [session_cookie authorization].
  set (t := jwt_encode claims) in *.
  assert (startswith (lower ("Bearer " +:+ t)) "bearer " = true) as -> by done.
  assert (suffix_from 7 ("Bearer " +:+ t) = t) as ->.
  { unfold suffix_from. simpl. apply of_chars_chars. }
  rewrite Hstrip. apply wp_try_any, wp_bind. unfold decode_jwt. apply wp_bind, wp_utcnow.
  simpl. rewrite Hdec. apply wp_lift; [|done]. intros c [= <-].
  eapply wp_mono; [apply signed_user; [done|done|exact (users_keyed s Hs)|done]|].
  intros r w (u & -> & ? & ? & ? & ? & _). by exists u.
Qed.
