(* ===== verification/OAuthDemo.v ===== *)
(** * Runs of the authorization server

    A signed-in user authorizes a connector, which exchanges its code for a token; with
    the witnesses of the theorems about tokens, and runs that show what the checks of the
    server leave open. *)

From S2P Require Import Prelude PyStr PyVal PyFloat Json Errors Models Database Session.
From S2P Require Import Preserve Rows Auth OAuth Footprint System Evolution OAuthProofs.

(** The digest of a verifier is the hexadecimal text it is, and a token is the JSON text of
    its claims. *)
Definition demo_env (dev_auth : bool) (uuids : nat → string) : Env := {|
  clock n := (1700000000 + Z.of_nat n) * 1000000;
  uuid_source := uuids;
  code_source n := "A" +:+ pad 3 (Z.of_nat n);
  sha256_hexdigest s := s;
  hmac_sha256 key message := key +:+ message;
  fernet_encrypt n v := v;
  fernet_decrypt v := Some v;
  schema_violation schema v := None;
  nfkc s := s;
  ip_literal s := false;
  urlsafe_source n := "token-" +:+ pretty (Z.of_nat n);
  hex_source n := "C0DE0" +:+ pretty (Z.of_nat n);
  uuid5 namespace name := pad 36 (len name);
  jwt_encode claims := of_chars (json_text (PDict claims));
  jwt_decode now token :=
    match json_loads (chars token) with Some (PDict claims) => Some claims | _ => None end;
  settings := {|
    gateway_autonomy_enabled := true;
    gateway_autonomy_emergency_stop := false;
    gateway_autonomy_assignment_batch_size := 10;
    gateway_autonomy_approval_ttl_seconds := 3600;
    gateway_autonomy_permit_ttl_seconds := 600;
    gateway_outbox_enabled := false;
    gateway_outbox_max_attempts := 5;
    gateway_nats_subject_prefix := "gateway";
    gateway_outbox_batch_size := 100;
    gateway_outbox_retry_base_seconds := float_scale 1 0;
    gateway_outbox_retry_max_seconds := float_scale 300 0;
    gateway_outbox_lock_ttl_seconds := 60;
    gateway_broker_backend := "memory";
    gateway_replica_ttl_seconds := 30;
    gateway_realtime_route_ttl_seconds := 90;
    gateway_realtime_notification_ttl_seconds := 86400;
    gateway_nats_stream := "GATEWAY";
    gateway_chat_context_enabled := true;
    gateway_chat_context_ttl_seconds := 300;
    gateway_chat_context_renew_threshold_seconds := 100;
    gateway_chat_context_quarantine_seconds := 600;
    gateway_chat_context_allocation_attempts := 64;
    gateway_chat_context_hmac_key := "0123456789abcdef0123456789abcdef";
    gateway_chat_context_hmac_key_version := 1;
    gateway_affine_approval_server_endpoint := "http://affine:3010/mcp";
    gateway_affine_approval_preview_max_chars := 1200;
    gateway_affine_approval_preview_max_items := 20;
    gateway_mcp_federation_writes_paused := false;
    public_base_url := "http://localhost:8000";
    gateway_dev_auth := dev_auth;
    gateway_dev_subject := "dev:local";
    gateway_dev_username := "local";
    gateway_dev_email := None;
    gateway_dev_roles := "gateway-user";
    gateway_session_cookie := "gateway_session";
    keycloak_issuer := "http://localhost:8080/realms/chatgpt-mcp";
    keycloak_client_id := "chatgpt-mcp-gateway";
    gateway_access_token_ttl_seconds := 864000;
    gateway_auth_code_ttl_seconds := 600;
    oauth_audience := "chatgpt-mcp-ssh-gateway";
    oauth_supported_scopes := "workspace:read chat-context:write";
    gateway_browser_extension_client_id := "atlas-chatgpt-browser-extension";
    gateway_browser_extension_redirect_uri := "https://extension.example/oauth2";
    gateway_browser_extension_oauth_scopes := "workspace:read chat-context:write";
    gateway_browser_extension_access_token_ttl_seconds := 3600;
    gateway_device_code_ttl_seconds := 600;
    gateway_thin_client_token_ttl_seconds := 2592000;
  |};
|}.

#[export] Instance oauth_env : Env := demo_env true (λ n, "id-" +:+ pretty (Z.of_nat n)).

Definition fresh_store : store := mkStore empty_db 0 0.
Definition connector : string := "https://chatgpt.com/connector/oauth/1".

(** The user of the development sign-in. *)
Definition someone : credentials := mkCredentials None "".

Definition asking (client_id : string) (scope : option string) : authorize_query :=
  mkAuthorizeQuery "code" client_id connector "YWJj" "S256" scope None "/oauth/authorize" "".
Definition form_of (client_id code : string) : token_form :=
  mkTokenForm "authorization_code" code connector client_id "616263".

Definition authorizing : list op := [Authorize someone (asking "chatgpt-1" (Some "workspace:read"))].

Example token_ex :
  match (run (token (form_of "chatgpt-1" "token-0")) (exec_all fresh_store authorizing)).1 with
  | Ok a => (tk_expires_in a, tk_scope a)
  | _ => (0, "")
  end = (864000, "workspace:read").
Proof. vm_compute. reflexivity. Qed.

Definition authorized_store : store := exec_all fresh_store authorizing.

Lemma authorized_reachable : reachable authorized_store.
Proof. apply reachable_exec_all. constructor. Qed.

Lemma exchange_succeeds :
  ∃ a, (run (token (form_of "chatgpt-1" "token-0")) authorized_store).1 = Ok a.
Proof. eexists. vm_compute. reflexivity. Qed.

(** ** Witnesses *)
Lemma tokens_are_authorized_witness : ∃ os1 request q os2,
  authorizing = os1 ++ Authorize request q :: os2 ∧ az_client_id q = "chatgpt-1".
Proof.
  destruct exchange_succeeds as [a Ha].
  destruct (tokens_are_authorized 0 0 authorizing (form_of "chatgpt-1" "token-0") a Ha)
    as (os1 & request & q & os2 & user & claims & E & _ & _ & Hid & _).
  exists os1, request, q, os2. split; [exact E|exact Hid].
Defined.

Lemma codes_are_used_once_witness : ∃ a : token_response,
  (run (token (form_of "chatgpt-1" "token-0")) authorized_store).1 = Ok a
  ∧ (run (token (form_of "chatgpt-1" "token-0"))
      (exec authorized_store (ExchangeCode (form_of "chatgpt-1" "token-0")))).1 ≠ Ok a.
Proof.
  destruct exchange_succeeds as [a Ha]. exists a. split; [exact Ha|].
  exact (codes_are_used_once authorized_store [] (form_of "chatgpt-1" "token-0")
           (form_of "chatgpt-1" "token-0") a a authorized_reachable Ha eq_refl).
Defined.

(** The token of a sign-in that has just begun. *)
Definition flow_claims : pydict := [("oauth_state", PStr "state"); ("next", PStr "/")].

Lemma signed_tokens_authenticate_witness : ∃ u token s1,
  run (create_jwt "oauth:login" "oauth-login" [] [] "oauth_state" 600 flow_claims) fresh_store
    = (Ok token, s1)
  ∧ (run (get_current_user (mkCredentials None ("Bearer " +:+ token))) s1).1 = Ok u
  ∧ usr_subject u = "oauth:login".
Proof.
  edestruct (signed_tokens_authenticate fresh_store "oauth:login" "oauth-login" [] []
    "oauth_state" 600 flow_claims) as (u & Hu & Hsub & _).
  - constructor.
  - apply create_jwt_signs.
  - intros k Hk. unfold identity_claims in Hk.
    repeat (apply elem_of_cons in Hk as [->|Hk]; [reflexivity|]). by apply not_elem_of_nil in Hk.
  - done.
  - vm_compute. reflexivity.
  - vm_compute. reflexivity.
  - exists u. do 2 eexists. split; [apply create_jwt_signs|]. split; [exact Hu|exact Hsub].
Defined.

(** ** What the checks leave open *)

(** Registering is open to everybody and replaces a stored client: its redirects too. *)
Lemma registration_replaces_client :
  let payload := [("client_id", PStr "chatgpt-1");
                  ("redirect_uris", PList [PStr "http://localhost:9/steal"])] in
  oc_redirect_uris <$> oauth_clients (st_db authorized_store) !! "chatgpt-1" = Some [connector]
  ∧ oc_redirect_uris <$> oauth_clients (st_db (exec authorized_store (RegisterClient payload)))
      !! "chatgpt-1" = Some ["http://localhost:9/steal"].
Proof. split; vm_compute; reflexivity. Qed.

(** The bearer of a token for one scope authorizes a new client for all of them. *)
Definition narrow_token : string :=
  match (run (token (form_of "chatgpt-1" "token-0")) authorized_store).1 with
  | Ok a => tk_access_token a
  | _ => ""
  end.

Lemma narrow_token_authorizes_all_scopes :
  let s := exec authorized_store (ExchangeCode (form_of "chatgpt-1" "token-0")) in
  let os := [Authorize (mkCredentials None ("Bearer " +:+ narrow_token)) (asking "other" None)] in
  (tk_scope <$> match (run (token (form_of "other" "token-2")) (exec_all s os)).1 with
                | Ok a => Some a | _ => None end) = Some "workspace:read chat-context:write".
Proof. vm_compute. reflexivity. Qed.

(** The cookie that [login] hands to anybody is the bearer token of a user. *)
Lemma login_hands_out_a_token :
  _safe_next_path "/\evil.example" = "/\evil.example"
  ∧ (run (s ← create_jwt "oauth:login" "oauth-login" [] [] "oauth_state" 600 [];
          u ← get_current_user (mkCredentials None ("Bearer " +:+ s));
          mret (usr_subject u)) fresh_store).1 = Ok "oauth:login".
Proof. split; vm_compute; reflexivity. Qed.
