(* ===== verification/ConsentProofs.v ===== *)
(** * What people grant to machines

    A thin client holds a token, and a runtime reads a root, only because the owner said so. *)

From S2P Require Import Prelude PyStr PyVal Errors Models Database Session Preserve.
From S2P Require Import Rows Auth OAuth ThinEnrolment Roots Federation ThinClient.
From S2P Require Import ThinRuntime Footprint System Evolution.

(** * Enrolment of thin clients: what an agent token rests on *)

Section codes.
Context `{!Env}.
Implicit Types (w : world) (c : DeviceCode).

Definition device_codes_are (X : gmap string DeviceCode) (d : db) : Prop := device_codes d = X.

(** What the activation of a code takes. *)
Record activated (request : credentials) (user_code : string) (w : world) (user : User)
    (c : DeviceCode) : Prop := {
  ac_user : (get_current_user request w).1 = Ok user;
  ac_code : c ∈ select (λ c, dvc_user_code c ==? _normalize_user_code user_code) (working w);
}.

Lemma approved_code_id user c : dvc_device_code (approved_code user c) = dvc_device_code c.
Proof. unfold approved_code. by destruct (_is_unbound_device_code c). Qed.

Lemma put_device_code c' c d :
  dvc_device_code c' = dvc_device_code c →
  device_codes (put_row c' d) = <[dvc_device_code c := c']> (device_codes d).
Proof. intros <-. exact (tbl_put_row c' d). Qed.

Lemma wp_activate request user_code w :
  committed w = working w →
  wp (activate_thin_client request user_code) (λ _ w',
    device_codes (committed w') = device_codes (working w)
    ∨ ∃ user c, activated request user_code w user c
        ∧ device_codes (committed w')
          = <[dvc_device_code c := approved_code user c]> (device_codes (working w))) w.
Proof.
  intros Hcw. set (X := device_codes (working w)).
  assert (device_codes_are X (committed w)) as Hc0 by (unfold device_codes_are; by rewrite Hcw).
  unfold activate_thin_client. apply wp_bind.
  eapply wp_mono; [by apply (wp_signed_in (device_codes_are X) request)|].
  intros [[user|]|e] w1 [[Hc1 Hw1] Hu]; [|apply wp_ret; left; exact Hc1|left; exact Hc1].
  repeat wp_step; try (left; exact Hc1). rename select DeviceCode into r. right. eexists user, r.
  unfold device_codes_are, X in *. split.
  - split; [by apply Hu|]. unfold select, rows in *. simpl in *. rewrite Hw1 in *. eassumption.
  - world_simpl. rewrite (put_device_code _ r) by apply approved_code_id. by rewrite Hw1.
Qed.

Lemma wp_create_device_code w x :
  gateway_dev_auth settings = false → committed w = working w →
  wp create_device_code (λ _ w', ∀ c,
    device_codes (committed w') !! x = Some c →
    device_codes (working w) !! x = Some c ∨ _is_unbound_device_code c = true) w.
Proof.
  intros Hdev Hcw. unfold create_device_code. rewrite Hdev.
  repeat wp_step; simpl in *; rewrite ?Hcw; try by left.
  unfold put_row. simpl. set_simpl. intros c [[<- <-]|[_ Hc]]%lookup_insert_Some; [|by left].
  right. unfold _is_unbound_device_code, new_device_code, _unbound_device_code_subject.
  simpl. by destruct (urlsafe_source (draws w)).
Qed.

(** The code [x] belongs to a user. *)
Definition bound_to (x subject : string) (s : store) : Prop :=
  match device_codes (st_db s) !! x with
  | Some c => _is_unbound_device_code c = false ∧ dvc_subject c = subject
  | None => False
  end.
#[export] Instance bound_to_dec x subject s : Decision (bound_to x subject s).
Proof. unfold bound_to. destruct (_ !! _); apply _. Defined.

Definition op_codes (o : op) : bool :=
  match o with CreateDeviceCode | ActivateCode _ _ => true | _ => false end.
Lemma other_operations o X : op_codes o = false → pres (device_codes_are X) (handler o).
Proof. destruct o; intros Ho; first [discriminate Ho | frame]. Qed.

(** Only an activation binds a code to a user, the one of the request. *)
Lemma binding_step s o x subject :
  gateway_dev_auth settings = false → keyed DeviceCode (st_db s) →
  ¬ bound_to x subject s → bound_to x subject (exec s o) →
  ∃ request user_code user c, o = ActivateCode request user_code
    ∧ activated request user_code (open_session s) user c
    ∧ dvc_device_code c = x ∧ usr_subject user = subject.
Proof.
  intros Hdev HK Hn Hb.
  destruct (op_codes o) eqn:Ho.
  2: { destruct Hn. unfold bound_to in *.
    by rewrite (exec_pres _ s o (other_operations o (device_codes (st_db s)) Ho) eq_refl) in Hb. }
  destruct o; try discriminate Ho.
  - assert (∀ c, device_codes (st_db (exec s CreateDeviceCode)) !! x = Some c →
      device_codes (st_db s) !! x = Some c ∨ _is_unbound_device_code c = true) as Hc.
    { apply (exec_wp (λ d, ∀ c, device_codes d !! x = Some c →
        device_codes (st_db s) !! x = Some c ∨ _is_unbound_device_code c = true)).
      by apply wp_ignore, (wp_create_device_code (open_session s)). }
    unfold bound_to in *. destruct (device_codes (st_db (exec _ _)) !! x) as [c|]; [|done].
    destruct Hb as [Hu Hs], (Hc c eq_refl) as [E|E]; [|congruence].
    by rewrite E in Hn; destruct Hn.
  - assert (device_codes (st_db (exec s (ActivateCode request user_code))) = device_codes (st_db s)
      ∨ ∃ user c, activated request user_code (open_session s) user c
        ∧ device_codes (st_db (exec s (ActivateCode request user_code)))
          = <[dvc_device_code c := approved_code user c]> (device_codes (st_db s)))
      as [E|(user & c & Ha & E)].
    { apply (exec_wp (λ d, device_codes d = device_codes (st_db s) ∨ ∃ user c, activated _ _ _ user c
        ∧ device_codes d = <[dvc_device_code c := approved_code user c]> (device_codes (st_db s)))).
      by apply wp_ignore, (wp_activate request user_code (open_session s)). }
    all: unfold bound_to in *; rewrite E in Hb.
    { done. }
    destruct (decide (dvc_device_code c = x)) as [<-|Hne].
    2: by rewrite lookup_insert_ne in Hb.
    rewrite lookup_insert_eq in Hb. unfold approved_code in Hb.
    pose proof (ac_code _ _ _ _ _ Ha) as Hin.
    apply elem_of_select_keyed in Hin as [_ Hin]; [|done]. simpl in Hin.
    destruct Hb as [Hu Hs], (_is_unbound_device_code c) eqn:Hub; simpl in Hs.
    + by exists request, user_code, user, c.
    + destruct Hn. by rewrite Hin.
Qed.

(** All of a device code but whom it belongs to and its status. *)
Definition code_facts c := (dvc_device_code c, dvc_user_code c, dvc_expires_at c).
Definition codes_evolved : db → db → Prop := evolved (same_terms code_facts) (λ _, True).

Lemma evolved_same_codes d0 d d' :
  device_codes d' = device_codes d → codes_evolved d0 d → codes_evolved d0 d'.
Proof.
  intros E. unfold codes_evolved, evolved, keyed, grows. simpl. by rewrite E.
Qed.

Lemma device_code_evolution o d0 : keeps (codes_evolved d0) o.
Proof.
  destruct o; try solve [apply pres_keeps; frame].
  - apply pres_keeps, pres_ignore. unfold codes_evolved. pres_go.
  - apply wp_keeps. intros w Hcw HI. apply wp_ignore.
    eapply wp_mono; [by apply wp_activate|]. intros _ w' [E|(user & c & Ha & E)].
    { by eapply evolved_same_codes. }
    pose proof (ac_code _ _ _ _ _ Ha) as Hin.
    apply elem_of_select_keyed in Hin as [_ Hin]; [|apply HI].
    eapply evolved_same_codes; [etrans; [exact E|symmetry; apply put_device_code, approved_code_id]|].
    eapply evolved_write; [apply _|exact HI|exact Hin|apply approved_code_id|].
    unfold same_terms, code_facts, approved_code. by destruct (_is_unbound_device_code c).
Qed.

(** What a successful exchange of a device code takes and gives. *)
Record issued (x : string) (s : store) (t : string) (c : DeviceCode) (user : User)
    (claims : pydict) : Prop := {
  is_code : device_codes (st_db s) !! x = Some c;
  is_bound : bound_to x (usr_subject user) s;
  is_status : dvc_status c = "approved";
  is_time : clock (st_ticks s) <= dvc_expires_at c;
  is_token : t = jwt_encode claims;
  is_subject : dict_lookup "sub" claims = Some (PStr (usr_subject user));
  is_type : dict_lookup "typ" claims = Some (PStr "agent");
}.

Lemma device_token_ok x s t :
  (run (device_token x) s).1 = Ok t → ∃ c user claims, issued x s t c user claims.
Proof.
  enough (wp (device_token x) (λ r _, ∀ t, r = Ok t → ∃ c user claims, issued x s t c user claims)
    (open_session s)) as Hw.
  { intros Ht. apply (Hw t). unfold run in Ht. by destruct (device_token x (open_session s)). }
  unfold device_token, create_jwt. repeat wp_step; intros ? [= <-].
  match goal with H : _ ∈ select _ _ |- _ =>
    apply elem_of_select in H as [Hu%bool_decide_eq_true _] end.
  rename select DeviceCode into c. rename select (_ = false) into Hub.
  repeat match goal with H : (_ =/? _) = false |- _ =>
    apply negb_false_iff, bool_decide_eq_true in H end.
  match goal with H : lookup_row x _ = Some _ |- _ => change (device_codes (st_db s) !! x = Some c) in H;
    rename H into Hc end.
  exists c. eexists _, _. split; [exact Hc| |done| |reflexivity|reflexivity|reflexivity].
  - unfold bound_to. by rewrite Hc.
  - by apply Z.ltb_ge.
Qed.
End codes.


(** * Roots: a root in use was approved

    A grant that is approved was approved by an administrator in a review, for the server
    policy and the runtime connection it now stands under; every change of either made it
    pending again. *)

(** Which root of which server a grant is for. *)
Definition grant_key (g : McpRootGrant) :=
  (rgt_id g, rgt_owner_subject g, rgt_server_id g, rgt_root_uri_sha256 g).
(** What a review decided on. *)
Definition grant_terms (g : McpRootGrant) :=
  (grant_key g, rgt_policy_generation g, rgt_runtime_connection_id g,
   rgt_granted_by_subject g, rgt_granted_at g).

(** A step outside a review approves nothing. *)
Definition grant_step (reviewing : Prop) (g g' : McpRootGrant) : Prop :=
  grant_key g' = grant_key g
  ∧ (reviewing ∨ (rgt_status g' = "approved" →
                   rgt_status g = "approved" ∧ grant_terms g' = grant_terms g)).
Definition grant_fresh (g : McpRootGrant) : Prop := rgt_status g = "pending".

#[export] Instance grant_step_preorder P : PreOrder (grant_step P).
Proof.
  split; [by split; [|right]|]. intros g1 g2 g3 [K1 H1] [K2 H2]. split; [congruence|].
  destruct H1 as [?|H1]; [by left|]. destruct H2 as [?|H2]; [by left|]. right.
  intros [Hs2 Ht2]%H2. destruct (H1 Hs2) as [? ?]. split; [done|congruence].
Qed.

Section grants.
Context `{!Env} (P : Prop) (d0 : db).
Implicit Types (w : world) (g : McpRootGrant).
Notation I := (evolved (grant_step P) grant_fresh d0).

Lemma rebound_step server binding item now g :
  grant_step P g (relabelled_grant item (rebound_grant server binding g) <| rgt_updated_at := now |>).
Proof.
  unfold relabelled_grant, rebound_grant, grant_step, grant_terms, grant_key.
  repeat (case_match; set_simpl); split; try done; right; done || discriminate.
Qed.

Lemma reconcile_grant_step owner server binding now item :
  pres I (reconcile_grant owner server binding now item).
Proof.
  apply pres_intro. intros w Hc Hw. unfold reconcile_grant.
  repeat wp_step; try by split. all: split; simpl; try done.
  - apply evolved_insert; [apply _|done|exact Hw|done].
  - match goal with H : _ ∈ select _ _ |- _ =>
      apply elem_of_select_keyed in H as [_ Hr]; [|apply Hw] end.
    rename select McpRootGrant into g.
    eapply evolved_write; [apply _|exact Hw|exact Hr| |apply rebound_step].
    pose proof (rebound_step server binding item now g) as [[= Hid _ _ _] _]. exact Hid.
Qed.

Lemma withdraw_unseen_step owner server binding now observed :
  pres I (withdraw_unseen owner server binding now observed).
Proof.
  apply pres_intro. intros w Hc Hw. unfold withdraw_unseen. apply wp_bind, wp_query.
  apply wp_foreach_put_if. split; [done|]. simpl.
  apply evolved_put_all; [apply _|done| |by apply NoDup_filter_fmap, NoDup_select, Hw| |exact Hw].
  - intros r _. split; [done|]. by right.
  - intros r [_ Hr]%list_elem_of_filter. by apply elem_of_select_keyed in Hr as [_ ?]; [|apply Hw].
Qed.

Lemma reconcile_grants_step owner server binding l :
  pres I (reconcile_grants owner server binding l).
Proof.
  pose proof reconcile_grant_step. pose proof withdraw_unseen_step. pres_go; auto.
Qed.

Lemma sync_roots_step a s r d : pres I (sync_roots a s r d).
Proof. pose proof reconcile_grants_step. pres_go; auto. Qed.

Lemma register_server_step a d : pres I (register_server a d).
Proof. pose proof sync_roots_step. pres_go; auto. Qed.

Lemma sync_gateway_roots_step u s v l : pres I (sync_gateway_roots u s v l).
Proof. pose proof reconcile_grants_step. pres_go; auto. Qed.

Lemma receive_step o c s m : pres I (receive o c s m).
Proof.
  pose proof register_server_step.
  apply receive_keep; intros; [apply heartbeat_pres; apply _|pres_go; auto
    |apply record_roots_update_ack_pres; apply _|apply record_server_status_pres; apply _
    |apply record_call_progress_pres; apply _].
Qed.
End grants.

(** ** Reviews *)
Section reviews.
Context `{!Env}.
Implicit Types (w : world) (g : McpRootGrant).

(** What an approval takes: an administrator who owns the grant and its server, the version
    they saw, the current policy of the server, and for a local server the connection of
    the grant, which is online and is one of the enrolled runtime. *)
Record approvable (user : User) (id : string) (version : Z) (d : db) (g : McpRootGrant)
    (server : McpServer) : Prop := {
  av_admin : "gateway-admin" ∈ usr_roles user;
  av_grant : root_grants d !! id = Some g;
  av_owner : rgt_owner_subject g = usr_subject user;
  av_version : rgt_version g = version;
  av_server : mcp_servers d !! rgt_server_id g = Some server;
  av_server_owner : srv_owner_subject server = usr_subject user;
  av_policy : rgt_policy_generation g = srv_policy_generation server;
  av_runtime : srv_origin server = "thin_client" → ∃ rid runtime,
    rgt_runtime_connection_id g = Some rid ∧ runtime_connections d !! rid = Some runtime
    ∧ bound_runtime (usr_subject user) server runtime = true;
}.

Definition reviews (o : op) : Prop := match o with ReviewRootGrant _ _ _ _ => True | _ => False end.

(** What a review leaves of the grants. *)
Definition review_post (user : User) (id : string) (version : Z) (decision : string)
    (d d' : db) : Prop :=
  root_grants d' = root_grants d
  ∨ ∃ g now, root_grants d !! id = Some g
      ∧ root_grants d' = root_grants (put_row (reviewed_grant (usr_subject user) decision now g) d)
      ∧ (decision = "approved" → ∃ server, approvable user id version d g server).

Definition grants_are (X : gmap string McpRootGrant) (d : db) : Prop := root_grants d = X.

Lemma require_thin_runtime_ok owner server runtime u :
  _require_thin_runtime owner server runtime = Ok u → bound_runtime owner server runtime = true.
Proof. unfold _require_thin_runtime. by destruct (bound_runtime _ _ _). Qed.

Lemma wp_review user id version decision w :
  committed w = working w → "gateway-admin" ∈ usr_roles user →
  wp (review_root_grant (usr_subject user) (usr_subject user) id version decision)
    (λ _ w', review_post user id version decision (working w) (committed w')) w.
Proof.
  intros Hcw Hadmin. unfold review_root_grant, raise_root, require_approvable,
    _current_runtime_for_grant. repeat wp_step.
  all: try (left; simpl; by rewrite Hcw).
  all: right; exists r, (clock (ticks w)); split; [done|split; [done|]].
  3: by intros ->; rewrite bool_decide_true in *.
  all: intros _; exists r0; split; try done; try by apply (bool_decide_eq_true_1 _).
  all: try by apply Z.eqb_eq, negb_false_iff.
  - intros _. exists (String a s0), r1. split_and!; [done|done|].
    by eapply require_thin_runtime_ok.
  - intros E. by rewrite E, bool_decide_true in *.
Qed.

Lemma allowed_update_admin user u : allowed_update user = Ok u → "gateway-admin" ∈ usr_roles user.
Proof.
  unfold allowed_update, require_role.
  destruct ("gateway-admin" ∈? usr_roles user) eqn:E; [by apply bool_decide_eq_true in E|].
  destruct (existsb _ _) eqn:Ex; [|done]. apply existsb_exists in Ex as (r & Hr & Ha).
  apply (bool_decide_eq_true _), list_elem_of_singleton in Ha as ->.
  apply list_elem_of_In in Hr. by apply bool_decide_eq_false in E.
Qed.

Lemma wp_review_route user id version decision w :
  committed w = working w →
  wp (review_root_grant_route user id version decision)
    (λ _ w', review_post user id version decision (working w) (committed w')) w.
Proof.
  intros Hcw. unfold review_root_grant_route. do 2 wp_step; [|left; simpl; by rewrite Hcw].
  apply wp_bind. apply allowed_update_admin in H0.
  eapply wp_mono; [by apply wp_review|]. intros [g|e] w' Hp; [|done].
  apply wp_readonly; [solve [ro_go]|]. intros r t n _. exact Hp.
Qed.

Lemma exec_review s user id version decision :
  review_post user id version decision (st_db s)
    (st_db (exec s (ReviewRootGrant user id version decision))).
Proof.
  apply (exec_wp (review_post user id version decision (st_db s))).
  by apply wp_ignore, (wp_review_route user id version decision (open_session s)).
Qed.

Lemma evolved_same_grants P d0 d d' :
  root_grants d' = root_grants d → evolved (grant_step P) grant_fresh d0 d →
  evolved (grant_step P) grant_fresh d0 d'.
Proof. intros E. unfold evolved, keyed, grows. simpl. by rewrite E. Qed.

Lemma grant_evolution P o d0 :
  (reviews o → P) → keeps (evolved (grant_step P) grant_fresh d0) o.
Proof.
  intros HP. destruct o; try solve [apply pres_keeps; frame].
  - by apply pres_keeps, receive_step.
  - by apply pres_keeps, pres_ignore, sync_gateway_roots_step.
  - intros s HI. destruct (exec_review s user grant version decision) as [E|(g & now & Hg & E & _)].
    { by eapply evolved_same_grants. }
    eapply evolved_same_grants; [exact E|].
    eapply evolved_write; [apply _|exact HI|exact Hg| |].
    + unfold reviewed_grant. by case_match.
    + split; [unfold reviewed_grant; by case_match|]. left. by apply HP.
Qed.

(** The grant is approved, on these terms. *)
Definition approved_on (g : McpRootGrant) (s : store) : Prop :=
  match root_grants (st_db s) !! rgt_id g with
  | Some g' => rgt_status g' = "approved" ∧ grant_terms g' = grant_terms g
  | None => False
  end.
#[export] Instance approved_on_dec g s : Decision (approved_on g s).
Proof. unfold approved_on. destruct (_ !! _); apply _. Defined.

Lemma grants_keyed s : reachable s → keyed McpRootGrant (st_db s).
Proof. apply (reachable_keyed _ _ (λ o d0, grant_evolution True o d0 (λ _, I))). Qed.

(** Only a review approves. *)
Lemma approving_step s o g :
  reachable s → ¬ approved_on g s → approved_on g (exec s o) →
  ∃ user version g0 server, o = ReviewRootGrant user (rgt_id g) version "approved"
    ∧ approvable user (rgt_id g) version (st_db s) g0 server
    ∧ grant_key g = grant_key g0 ∧ rgt_policy_generation g = rgt_policy_generation g0
    ∧ rgt_runtime_connection_id g = rgt_runtime_connection_id g0
    ∧ rgt_granted_by_subject g = Some (usr_subject user).
Proof.
  intros Hs Hn Ha. pose proof (grants_keyed s Hs) as HK.
  pose proof (exec_grows _ _ s o (λ d0, grant_evolution (reviews o) o d0 id) HK) as [Hg Hnew].
  unfold approved_on in *. simpl in Hg, Hnew.
  destruct (root_grants (st_db (exec s o)) !! rgt_id g) as [g'|] eqn:Hg'; [|done].
  destruct Ha as [Hst Ht]. assert (reviews o) as Ho.
  { destruct (root_grants (st_db s) !! rgt_id g) as [g0|] eqn:Hg0.
    - destruct (Hg _ _ Hg0) as (g1 & E & _ & [?|Hback]); [done|]. rewrite Hg' in E.
      injection E as <-. destruct Hn. destruct (Hback Hst). split; [done|congruence].
    - destruct (Hnew _ _ Hg' Hg0) as (g0 & Hf & _ & _ & [?|Hback]); [done|].
      destruct (Hback Hst) as [Hst0 _]. by rewrite Hf in Hst0. }
  destruct o; try done.
  destruct (exec_review s user grant version decision) as [E|(g0 & now & Hg0 & E & Hav)].
  { by rewrite E in Hg'; rewrite Hg' in Hn; destruct Hn. }
  rewrite E in Hg'.
  change (tbl (put_row (reviewed_grant (usr_subject user) decision now g0) (st_db s))
    !! rgt_id g = Some g') in Hg'.
  rewrite tbl_put_row in Hg'. apply lookup_insert_Some in Hg' as [[Hid Hg']|[_ Hg']].
  2: { simpl in Hg'. rewrite Hg' in Hn. by destruct Hn. }
  assert (grant_key g' = grant_key g0 ∧ rgt_id g0 = rgt_id g) as [Hk Hid'].
  { subst g'. unfold reviewed_grant, grant_key in *. simpl in Hid. by destruct (_ ==? _). }
  assert (rgt_id g0 = grant) as Hgid by by apply HK.
  assert (decision = "approved") as ->.
  { subst g'. unfold reviewed_grant in Hst. by destruct (decision ==? "approved"). }
  destruct (Hav eq_refl) as [server Hap]. rewrite <-Hgid, Hid' in Hap |- *.
  unfold grant_terms in Ht. injection Ht as ????????. subst g'.
  exists user, version, g0, server.
  split_and!; [done|done|unfold grant_key in *; congruence|..]; simpl in *; congruence.
Qed.
End reviews.

(** ** Theorem *)

(** C6 Roots in use were approved: if a grant of a filesystem root is approved, then an
    administrator who owns it approved it in a review, at which the grant stood for the
    same root of the same server, under the same policy generation, which was the
    server's, and the same runtime connection, which for a local server was online and of
    the enrolled runtime; and since that review it has been approved on these terms all
    the time. *)
Theorem approved_roots_are_reviewed `{!Env} ticks draws os g :
  let s0 := mkStore empty_db ticks draws in
  root_grants (st_db (exec_all s0 os)) !! rgt_id g = Some g → rgt_status g = "approved" →
  ∃ os1 user version os2 g0 server,
    os = os1 ++ ReviewRootGrant user (rgt_id g) version "approved" :: os2
    ∧ approvable user (rgt_id g) version (st_db (exec_all s0 os1)) g0 server
    ∧ grant_key g = grant_key g0 ∧ rgt_policy_generation g = rgt_policy_generation g0
    ∧ rgt_runtime_connection_id g = rgt_runtime_connection_id g0
    ∧ rgt_granted_by_subject g = Some (usr_subject user)
    ∧ (∀ os3 os4, os2 = os3 ++ os4 → approved_on g
         (exec_all s0 (os1 ++ ReviewRootGrant user (rgt_id g) version "approved" :: os3))).
Proof.
  intros s0 Hg Hst. assert (reachable s0) as Hs0 by constructor.
  destruct (history (approved_on g) s0 os) as (os1 & o & os2 & Hb).
  { unfold approved_on, s0. simpl. rewrite lookup_empty. by intros []. }
  { unfold approved_on. by rewrite Hg. }
  destruct (approving_step _ _ _ (reachable_exec_all s0 os1 Hs0) (ba_before _ _ _ _ _ _ Hb)
    (brought_about_step _ _ _ _ _ _ Hb)) as (user & version & g0 & server & -> & H1).
  exists os1, user, version, os2, g0, server. split; [apply Hb|].
  split_and!; try apply H1. apply Hb.
Qed.
