(* ===== verification/RuntimeProofs.v ===== *)
(** * Runtimes of thin clients: one active connection, and what its loss settles *)

From S2P Require Import ThinClient Prelude PyStr PyVal Errors Models Database Session.
From S2P Require Import Preserve Rows Roots Federation ThinRuntime Footprint System.
From S2P Require Import Evolution ActionProofs.

(** The connection stands for its server now. *)
Definition active (r : McpRuntimeConnection) : Prop := rtm_state r ∈ active_states.
Definition same_server (r r' : McpRuntimeConnection) : Prop :=
  rtm_owner_subject r = rtm_owner_subject r' ∧ rtm_server_id r = rtm_server_id r'.

Definition one_active (d : db) : Prop :=
  keyed McpRuntimeConnection d ∧ ∀ i j r r',
    runtime_connections d !! i = Some r → runtime_connections d !! j = Some r' →
    same_server r r' → active r → active r' → i = j.

Section runtimes.
Context `{!Env}.
Implicit Types (w : world) (d : db) (r : McpRuntimeConnection).

(** Writing back a row that is active only if it was, or whose server has no other. *)
Lemma one_active_put d r r' :
  one_active d → rtm_id r' = rtm_id r → same_server r' r → tbl d !! row_id r = Some r →
  (active r' → active r ∨ ∀ j x, runtime_connections d !! j = Some x → same_server x r →
     active x → j = rtm_id r) →
  one_active (put_row r' d).
Proof.
  intros [HK HI] Hid [Ho Hs] Hr Hact. split; [by apply keyed_put|]. simpl in Hr.
  intros i j x y. change (tbl (put_row r' d) !! i = Some x → tbl (put_row r' d) !! j = Some y →
    same_server x y → active x → active y → i = j). rewrite !tbl_put_row. simpl. rewrite Hid.
  assert (∀ k z, runtime_connections d !! k = Some z → same_server z r → active r' → active z →
    k = rtm_id r) as Hk.
  { intros k z Hz Hzr Hr' Haz. destruct (Hact Hr') as [Ha|Ha]; [|by eapply Ha].
    by eapply (HI k (rtm_id r) z r). }
  rewrite !lookup_insert_Some.
  intros [[<- <-]|[Hi Hx]] [[<- <-]|[Hj Hy]] [E1 E2] Ax Ay; [done| | |by eapply HI].
  - symmetry. eapply Hk; [exact Hy| |done|done]. split; congruence.
  - eapply Hk; [exact Hx| |done|done]. split; congruence.
Qed.

Lemma one_active_put_selected d f p :
  (∀ r, rtm_id (f r) = rtm_id r ∧ same_server (f r) r) → (∀ r, active (f r) → active r) →
  one_active d → one_active (put_all f (select p d) d).
Proof.
  intros Hf Ha HI. assert (keyed McpRuntimeConnection d) as HK by apply HI.
  apply put_all_keep; [apply Hf|by apply NoDup_select| | |done].
  - intros r Hr. by apply elem_of_select_keyed in Hr as [_ ?].
  - intros r d' _ Hd' Hr. by eapply one_active_put; [exact Hd'|apply Hf|apply Hf|exact Hr|auto].
Qed.

Lemma active_stale_no now r : ¬ active (stale_runtime now r).
Proof. intros ?%elem_of_cons. unfold stale_runtime in *. set_simpl. set_solver. Qed.

(** The current connection of a report. *)
Definition reporting (o s c i x : string) r : bool :=
  (rtm_owner_subject r ==? o) && (rtm_server_id r ==? s) && (rtm_thin_client_id r ==? Some c)
  && (rtm_runtime_id r ==? Some i) && (rtm_connection_instance_id r ==? x)
  && (rtm_state r ==? "online").

Lemma runtime_connection_ok o s c i x w r :
  (_runtime_connection o s c i x w).1 = Ok r → r ∈ select (reporting o s c i x) (working w).
Proof.
  intros Hr. enough (wp (_runtime_connection o s c i x)
    (λ a _, ∀ r, a = Ok r → r ∈ select (reporting o s c i x) (working w)) w) as Hw by by apply Hw.
  unfold _runtime_connection. repeat wp_step; try done. by intros ? [= <-].
Qed.

(** What is written of a connection that is online keeps the invariant. *)
Lemma put_online d r r' p :
  one_active d → r ∈ select p d → (∀ r, p r = true → rtm_state r = "online") →
  rtm_id r' = rtm_id r → same_server r' r → one_active (put_row r' d).
Proof.
  intros HI Hr Hp Hid Hs. apply elem_of_select_keyed in Hr as [Hon Hr]; [|apply HI].
  eapply one_active_put; [done..|]. intros _. left. unfold active.
  rewrite (Hp _ Hon). by right; left.
Qed.

Lemma reporting_online o s c i x r : reporting o s c i x r = true → rtm_state r = "online".
Proof. unfold reporting. rewrite !andb_true_iff, !bool_decide_eq_true. tauto. Qed.

(** The reports. *)
Ltac report HI :=
  repeat wp_look; split; simpl; try done; repeat apply stable; try done;
  match goal with H : (_runtime_connection _ _ _ _ _ _).1 = Ok _ |- _ =>
    apply runtime_connection_ok in H; eapply put_online; [exact HI|exact H|apply reporting_online|done..]
  end.

Lemma record_roots_update_ack_active o c s m : pres one_active (record_roots_update_ack o c s m).
Proof.
  apply pres_intro. intros w Hc Hw. unfold record_roots_update_ack. report Hw.
Qed.
Lemma record_server_status_active o c s m : pres one_active (record_server_status o c s m).
Proof. apply pres_intro. intros w Hc Hw. unfold record_server_status. report Hw. Qed.

Lemma mark_connection_disconnected_active o c s :
  pres one_active (mark_connection_disconnected o c s).
Proof.
  apply pres_intro. intros w Hc Hw. unfold mark_connection_disconnected, take_servers_offline.
  wp_step; [by wp_step|]. do 6 wp_step. apply wp_foreach_put. cbv beta iota zeta.
  eapply (wp_pres _ one_active); [pres_go|done| |].
  - apply (one_active_put_selected _ (lost_runtime _)); [done| |exact Hw].
    intros r ?. unfold active, lost_runtime in *. set_simpl. set_solver.
  - intros [?|?] w' ? ?; [|done]. apply (pres_wp one_active); [pres_go|done..].
Qed.

(** ** Registration *)
Definition covered (g : registration) (server_id : string) d : Prop :=
  ∀ i r, runtime_connections d !! i = Some r → rtm_owner_subject r = rg_owner_subject g →
    rtm_server_id r = server_id → active r → rtm_connection_instance_id r = rg_instance_id g.

Lemma wp_retire_others g server_id w :
  one_active (committed w) → one_active (working w) →
  wp (retire_others g server_id) (λ _ w', committed w' = committed w
    ∧ one_active (working w') ∧ covered g server_id (working w')) w.
Proof.
  intros Hc Hw. unfold retire_others. apply wp_bind, wp_query, wp_foreach_put.
  assert (keyed McpRuntimeConnection (working w)) as HK by apply Hw.
  split_and!; [done| |].
  - apply (one_active_put_selected _ (stale_runtime _)); [done| |exact Hw].
    intros r Hr. by destruct (active_stale_no (rg_now g) r).
  - intros i r Hr Ho Hs Ha. simpl in Hr.
    match type of Hr with runtime_connections ?d !! _ = _ => change (tbl d !! i = Some r) in Hr end.
    rewrite lookup_put_all in Hr; [|done|by apply NoDup_select|].
    2: { intros x Hx. by apply elem_of_select_keyed in Hx as [_ ?]. }
    apply fmap_Some_1 in Hr as (x & Hx & ->). case_decide as Hin; [by apply active_stale_no in Ha|].
    destruct (decide (rtm_connection_instance_id x = rg_instance_id g)); [done|]. destruct Hin.
    apply list_elem_of_fmap. exists x. split; [symmetry; by apply HK|].
    apply elem_of_select_keyed; [done|]. rewrite (HK _ _ Hx). split; [|done].
    rewrite !andb_true_iff, negb_true_iff, bool_decide_eq_false.
    by split_and!; try apply bool_decide_eq_true_2.
Qed.

Lemma one_active_add d r :
  one_active d → insertable r d = true →
  (∀ j x, runtime_connections d !! j = Some x → same_server x r → ¬ active x) →
  one_active (put_row r d).
Proof.
  intros [HK HI] [Hfree _]%insertable_spec Hno. split; [by apply keyed_put|].
  intros i j x y. change (tbl (put_row r d) !! i = Some x → tbl (put_row r d) !! j = Some y →
    same_server x y → active x → active y → i = j). rewrite !tbl_put_row, !lookup_insert_Some.
  intros [[<- <-]|[Hi Hx]] [[<- <-]|[Hj Hy]] [E1 E2] Ax Ay; [done| | |by eapply HI].
  - destruct (Hno j y); [exact Hy|by split|done].
  - destruct (Hno i x); [exact Hx|by split|done].
Qed.

(** The query finds every row of the instance. *)
Lemma not_selected p d i r :
  keyed McpRuntimeConnection d → select p d = [] → runtime_connections d !! i = Some r → p r = false.
Proof.
  intros HK E Hr. destruct (p r) eqn:Hp; [|done].
  assert (r ∈ select p d) as Hin; [|rewrite E in Hin; by apply not_elem_of_nil in Hin].
  apply elem_of_select_keyed; [done|]. split; [done|]. rewrite (HK _ _ Hr). exact Hr.
Qed.

Lemma wp_connect_runtime g server e w :
  one_active (committed w) → one_active (working w) → covered g (srv_id server) (working w) →
  wp (connect_runtime g server e)
    (λ _ w', one_active (committed w') ∧ one_active (working w')) w.
Proof.
  intros Hc Hw Hcov. assert (keyed McpRuntimeConnection (working w)) as HK by apply Hw.
  unfold connect_runtime. apply wp_bind. unfold query_one. apply wp_bind, wp_query.
  set (p r := _ && _ && _). destruct (select p (working w)) as [|r [|r' l]] eqn:Es;
    [apply wp_ret|apply wp_ret|by apply wp_throw].
  - assert (∀ id j x, runtime_connections (working w) !! j = Some x →
      same_server x (new_runtime g id server e) → ¬ active x) as Hno.
    { intros id j x Hx [Ho Hs] Ha. pose proof (not_selected _ _ _ _ HK Es Hx) as Hp.
      unfold p in Hp. simpl in Ho, Hs. rewrite Ho, Hs, (Hcov _ _ Hx Ho Hs Ha) in Hp.
      by rewrite !bool_decide_true in Hp. }
    repeat wp_step; split; simpl; try done. all: apply one_active_add; [exact Hw|done|apply Hno].
  - assert (r ∈ select p (working w)) as Hin by (rewrite Es; left).
    apply elem_of_select_keyed in Hin as [Hp Hr]; [|done].
    unfold p in Hp. rewrite !andb_true_iff, !bool_decide_eq_true in Hp. destruct Hp as [[Ho Hs] Hx].
    repeat wp_step; split; simpl; try done.
    all: apply (one_active_put _ r); [exact Hw|done|done|exact Hr|]; intros _; right.
    all: intros j x Hj [Eo Es'] Ha.
    all: assert (x ∈ select p (working w)) as Hin; [|rewrite Es in Hin;
      apply list_elem_of_singleton in Hin as ->; symmetry; by apply HK].
    all: apply elem_of_select_keyed; [done|]; rewrite (HK _ _ Hj); split; [|exact Hj].
    all: unfold p; rewrite !andb_true_iff, !bool_decide_eq_true; split_and!; try congruence.
    all: eapply Hcov; [exact Hj|congruence..|done].
Qed.

Lemma register_server_active g e : pres one_active (register_server g e).
Proof.
  apply pres_bind; [apply announce_server_pres; apply _|intros server].
  apply pres_intro. intros w Hc Hw. apply wp_bind.
  eapply wp_mono; [by apply wp_retire_others|].
  intros [u|x] w1 (Ec & Hw1 & Hcov); [|by rewrite Ec]. rewrite <-Ec in Hc.
  apply wp_bind. eapply wp_mono; [by apply wp_connect_runtime|].
  intros [runtime|x] w2 [Hc2 Hw2]; [|done].
  apply (pres_wp one_active); [|done|done]. pose proof sync_roots_pres. pres_go; auto.
Qed.

Lemma receive_active o c s m : pres one_active (receive o c s m).
Proof.
  pose proof register_server_active.
  apply receive_keep; intros; [apply heartbeat_pres; apply _|pres_go; auto
    |apply record_roots_update_ack_active|apply record_server_status_active
    |apply record_call_progress_pres; apply _].
Qed.

(** ** The loss of a connection *)

(** Nothing of these changes while servers are taken offline. *)
Definition quietly (a : result unit) w w' : Prop :=
  a = Ok tt ∧ violated w' = violated w
  ∧ mcp_invocations (working w') = mcp_invocations (working w)
  ∧ runtime_connections (working w') = runtime_connections (working w).

Lemma wp_take_offline x now l w : wp (foreach (take_offline x now) l) (λ a w', quietly a w w') w.
Proof.
  revert w. induction l as [|s l IH]; intros w; [by apply wp_ret|]. apply wp_bind.
  unfold take_offline at 1. unfold scalar. repeat wp_step.
  all: eapply wp_mono; [apply IH|]; intros r w' (-> & ? & ? & ?); by split_and!.
Qed.

Definition settled o x now (d d' : db) : Prop :=
  mcp_invocations d' = (λ i, if runs_over o x i then lost_invocation now i else i)
                         <$> mcp_invocations d.

(** The row a lost call leaves in its place. *)
Lemma settled_all o x now d :
  keyed McpInvocation d →
  settled o x now d (put_all (lost_invocation now) (select (runs_over o x) d) d).
Proof.
  intros HK. apply map_eq. intros id.
  change (tbl (put_all (lost_invocation now) (select (runs_over o x) d) d) !! id
    = ((λ i, if runs_over o x i then lost_invocation now i else i) <$> tbl d) !! id).
  rewrite lookup_put_all, lookup_fmap; [|done|by apply NoDup_select|].
  2: { intros i Hi. by apply elem_of_select_keyed in Hi as [_ ?]. }
  destruct (tbl d !! id) as [i|] eqn:Hi; [|done]. simpl. f_equal.
  assert (id ∈ row_id <$> select (runs_over o x) d ↔ runs_over o x i = true) as Hin.
  { rewrite list_elem_of_fmap. split.
    - intros (j & -> & Hj). apply elem_of_select_keyed in Hj as [? Hj]; [|done]. congruence.
    - intros Hr. exists i. pose proof (HK _ _ Hi) as Hk. split; [done|].
      apply elem_of_select_keyed; [done|]. by rewrite Hk. }
  case_decide as Hd; destruct (runs_over o x i); try done; [by apply Hin in Hd|].
  by destruct Hd; apply Hin.
Qed.

(** The connections of the socket. *)
Definition of_socket o c (s : ThinClientConnection) r : bool :=
  (rtm_owner_subject r ==? o) && (rtm_thin_client_id r ==? Some c)
  && (rtm_runtime_id r ==? tc_runtime_id s)
  && (rtm_connection_instance_id r ==? tc_instance_id s).

Definition of_socket_live o c (s : ThinClientConnection) r : bool :=
  (rtm_owner_subject r ==? o) && (rtm_thin_client_id r ==? Some c)
  && (rtm_runtime_id r ==? tc_runtime_id s)
  && (rtm_connection_instance_id r ==? tc_instance_id s)
  && (rtm_state r ∈? ["connecting"; "online"; "restarting"]).

Lemma lost_runtimes now o c s d id x :
  keyed McpRuntimeConnection d →
  runtime_connections (put_all (lost_runtime now) (select (of_socket_live o c s) d) d) !! id = Some x →
  of_socket o c s x = true → ¬ active x.
Proof.
  intros HK Hx Hs Ha.
  change (tbl (put_all (lost_runtime now) (select (of_socket_live o c s) d) d) !! id = Some x) in Hx.
  rewrite lookup_put_all in Hx; [|done|by apply NoDup_select|].
  2: { intros r Hr. by apply elem_of_select_keyed in Hr as [_ ?]. }
  apply fmap_Some_1 in Hx as (r & Hr & ->). case_decide as Hd.
  { unfold active, lost_runtime in Ha. set_simpl. set_solver. }
  destruct Hd. apply list_elem_of_fmap. exists r. pose proof (HK _ _ Hr) as Hk. split; [done|].
  apply elem_of_select_keyed; [done|]. rewrite Hk. split; [|done].
  unfold of_socket_live. unfold of_socket in Hs. rewrite Hs. apply bool_decide_eq_true_2.
  unfold active, active_states in Ha. set_solver.
Qed.

(** The two bulk updates write different tables. *)
Lemma put_lost_invocations now p d :
  keyed McpRuntimeConnection d →
  mcp_invocations (put_all (lost_runtime now) (select p d) d) = mcp_invocations d.
Proof.
  intros HK. apply (put_all_keep (λ d', mcp_invocations d' = mcp_invocations d));
    [done|by apply NoDup_select| |by intros ? ? ? E|done].
  intros r Hr. by apply elem_of_select_keyed in Hr as [_ ?].
Qed.
Lemma put_settled_runtimes now p d :
  keyed McpInvocation d →
  runtime_connections (put_all (lost_invocation now) (select p d) d) = runtime_connections d.
Proof.
  intros HK. apply (put_all_keep (λ d', runtime_connections d' = runtime_connections d));
    [done|by apply NoDup_select| |by intros ? ? ? E|done].
  intros r Hr. by apply elem_of_select_keyed in Hr as [_ ?].
Qed.

Lemma wp_lose o c s w :
  violated w = false → opt_truthy (tc_runtime_id s) = true →
  keyed McpInvocation (working w) → keyed McpRuntimeConnection (working w) →
  wp (mark_connection_disconnected o c s) (λ a w', a = Ok tt
    ∧ settled o (tc_instance_id s) (clock (ticks w)) (working w) (committed w')
    ∧ ∀ id x, runtime_connections (committed w') !! id = Some x →
        of_socket o c s x = true → ¬ active x) w.
Proof.
  intros Hv Hs HKi HKr. unfold mark_connection_disconnected, take_servers_offline.
  rewrite Hs. cbn [negb]. do 6 wp_step. apply wp_foreach_put. cbv beta iota zeta.
  eapply wp_mono; [apply wp_take_offline|]. intros a w1 (-> & Hv1 & Ei & Er).
  simpl in Hv1, Ei, Er.
  assert (mcp_invocations (working w1) = mcp_invocations (working w)) as Ei'.
  { rewrite Ei. by apply put_lost_invocations. }
  clear Ei. apply wp_bind. unfold settle_lost_calls. apply wp_bind, wp_query, wp_foreach_put.
  cbv beta iota zeta. apply wp_commit; simpl; intros Hv2; [congruence|]. split_and!; [done| |].
  - unfold settled. rewrite <-Ei'. apply settled_all. unfold keyed in *. simpl in *. by rewrite Ei'.
  - intros id x Hx. rewrite put_settled_runtimes, Er in Hx; [|unfold keyed in *; simpl in *; by rewrite Ei'].
    by eapply lost_runtimes.
Qed.

Lemma reachable_one_active s : reachable s → one_active (st_db s).
Proof.
  revert s. apply reachable_invariant.
  - split; [by intros id x; rewrite tbl_empty|]. intros ? ? ? ? E. simpl in E. by rewrite lookup_empty in E.
  - intros o. destruct o; try solve [frame].
    + apply receive_active.
    + apply mark_connection_disconnected_active.
Qed.
Lemma runtimes_keyed s : reachable s → keyed McpRuntimeConnection (st_db s).
Proof. intros Hs. apply (reachable_one_active s Hs). Qed.
End runtimes.

(** ** Theorems *)


(** C5 What the loss of a socket settles: when the socket of a registered runtime closes,
    every call that was running over it and could have written is recorded as unknown,
    every other as failed, both with the error and the time; no other call changes, and no
    connection of the socket is active any more. *)
Theorem lost_calls_are_settled `{!Env} s o c socket id i :
  reachable s → opt_truthy (tc_runtime_id socket) = true →
  mcp_invocations (st_db s) !! id = Some i →
  let s' := exec s (LoseConnection o c socket) in
  (run (mark_connection_disconnected o c socket) s).1 = Ok tt
  ∧ (∃ i', mcp_invocations (st_db s') !! id = Some i' ∧
       if runs_over o (tc_instance_id socket) i then
         invocation_terms i' = invocation_terms i
         ∧ inv_outcome i' = (if inv_action_class i ∈? ["write"; "destructive"; "production"]
                             then "unknown" else "failed")
         ∧ (inv_unknown_outcome i' = true ↔ inv_outcome i' = "unknown")
         ∧ inv_normalized_error_code i' = Some "MCP_CONNECTION_LOST"
         ∧ inv_completed_at i' = Some (clock (st_ticks s))
       else i' = i)
  ∧ (∀ rid r, runtime_connections (st_db s') !! rid = Some r →
       of_socket o c socket r = true → ¬ active r).
Proof.
  intros Hs Hsock Hi s'.
  pose proof (wp_lose o c socket (open_session s) eq_refl Hsock
    (reachable_keyed _ _ invocation_evolution s Hs) (runtimes_keyed s Hs)) as Hw.
  unfold s', exec, run. unfold wp in Hw. change (handler _) with (mark_connection_disconnected o c socket).
  destruct (mark_connection_disconnected o c socket (open_session s)) as [a w'].
  cbn [fst snd] in Hw. destruct Hw as (-> & Hset & Hrt). split; [done|]. split; [|exact Hrt].
  unfold settled in Hset. cbn [st_db close_session snd]. rewrite Hset, lookup_fmap.
  cbn [working open_session st_db] in *. rewrite Hi. simpl. eexists. split; [reflexivity|].
  destruct (runs_over _ _ i); [|done]. unfold lost_invocation.
  destruct (_ ∈? _); split_and!; done.
Qed.
