(* ===== verification/ThinRuntimeDemo.v ===== *)
(** * A run of a thin client

    A user enrols a client, which registers a runtime with one local server and one root;
    the root is reviewed, a tool of the server is called and the connection is lost while
    the call runs; with the witnesses of the theorems about these steps. *)

From S2P Require Import ThinClient Prelude PyStr PyVal Json Errors Models Database.
From S2P Require Import Session Preserve Rows Auth OAuth ThinEnrolment Roots.
From S2P Require Import FederationPolicy Federation McpUpstream FederationBroker.
From S2P Require Import ThinRuntime Footprint System Evolution ActionProofs.
From S2P Require Import ConsentProofs RuntimeProofs OAuthDemo.

Definition uuid (n : Z) : string := pad 36 n.
#[export] Instance thin_env : Env := demo_env false (λ n, uuid (Z.of_nat n)).

(** Who speaks, by a token that says so. *)
Definition signed (subject : string) : string :=
  jwt_encode [("sub", PStr subject); ("preferred_username", PStr subject);
    ("realm_access", PDict [("roles", PList [PStr "gateway-admin"])])].
Definition speaking (subject : string) : credentials :=
  mkCredentials None ("Bearer " +:+ signed subject).
Definition admin (subject : string) : User :=
  mkUser 1 subject subject None ["gateway-admin"] [] "token" 0 0.

(** ** Enrolment *)
Definition activating : list op := [
  CreateDeviceCode; ActivateCode (speaking "dora") "C0DE-01"].
Definition activated_store : store := exec_all fresh_store activating.

Definition agent_token : string :=
  match (run (device_token "token-0") activated_store).1 with Ok t => t | Raise _ => "" end.

Lemma agent_token_issued : (run (device_token "token-0") activated_store).1 = Ok agent_token.
Proof. vm_compute. reflexivity. Qed.


(** The same device code yields a second token. *)
Example device_code_reused :
  is_ok (run (device_token "token-0") (exec activated_store (ExchangeDeviceCode "token-0"))).1 = true.
Proof. vm_compute. reflexivity. Qed.

(** ** Registration *)
Definition client : string := match (run (register_thin_client ("Bearer " +:+ agent_token)
  (mkThinClientInput "laptop" "/work" [])) activated_store).1 with Ok c => tcl_id c | _ => "" end.
Definition enrolling : list op := [
  EnrolClient ("Bearer " +:+ agent_token) (mkThinClientInput "laptop" "/work" []);
  OpenSocket "dora" client].

Definition socket : ThinClientConnection :=
  mkThinConnection "conn-1" (Some "rt-1") (Some "1.0") ["mcp_runtime_v1"; "mcp_roots_v1"]
    ["files"] false.
Definition digest : string := of_chars (replicate 64 (Ascii.ascii_of_nat 97)).
Definition registration_message : pydict := [
  ("type", PStr "mcp_runtime_registered"); ("connection_instance_id", PStr "conn-1");
  ("runtime_id", PStr "rt-1"); ("protocol_version", PStr "1.0");
  ("capabilities", PList [PStr "mcp_runtime_v1"; PStr "mcp_roots_v1"]);
  ("servers", PList [PDict [("local_server_id", PStr "files"); ("transport", PStr "stdio");
     ("display_name", PStr "Files");
     ("roots", PList [PDict [("root_uri_sha256", PStr digest); ("root_name", PStr "work")]])]])].

Definition registering : list op := activating ++ enrolling ++ [
  Receive "dora" client socket registration_message].
Definition registered_store : store := exec_all fresh_store registering.

Example registered_ex :
  map (λ r, (rtm_id r, rtm_server_id r, rtm_state r)) (rows (st_db registered_store))
    = [(uuid 4, uuid 52, "online")]
  ∧ map (λ g, (rgt_id g, rgt_status g)) (rows (st_db registered_store)) = [(uuid 5, "pending")].
Proof. vm_compute. by split. Qed.

(** ** The review of the root *)
Definition reviewing : list op := [ReviewRootGrant (admin "dora") (uuid 5) 1 "approved"].
Definition reviewed_store : store := exec_all fresh_store (registering ++ reviewing).

Lemma reviewed_grant_found : ∃ g,
  root_grants (st_db (exec_all (mkStore empty_db 0 0) (registering ++ reviewing))) !! rgt_id g
    = Some g
  ∧ rgt_status g = "approved" ∧ rgt_id g = uuid 5.
Proof.
  destruct (root_grants (st_db (exec_all (mkStore empty_db 0 0) (registering ++ reviewing)))
    !! uuid 5) as [g|] eqn:Hg; vm_compute in Hg; [|done].
  exists g. simplify_eq. by repeat split.
Qed.

Lemma approved_roots_are_reviewed_witness : ∃ g os1 user version os2 g0 server,
  registering ++ reviewing = os1 ++ ReviewRootGrant user (uuid 5) version "approved" :: os2
  ∧ approvable user (uuid 5) version (st_db (exec_all fresh_store os1)) g0 server
  ∧ grant_key g = grant_key g0.
Proof.
  destruct reviewed_grant_found as (g & Hg & Hst & Hid).
  destruct (approved_roots_are_reviewed 0 0 (registering ++ reviewing) g Hg Hst)
    as (os1 & user & version & os2 & g0 & server & E & Ha & Hk & _).
  exists g, os1, user, version, os2, g0, server. rewrite Hid in E, Ha. auto.
Defined.

(** ** The connections of the server *)
Definition second_socket : ThinClientConnection :=
  mkThinConnection "conn-2" (Some "rt-1") (Some "1.0") ["mcp_runtime_v1"] ["files"] false.
Definition again_message : pydict := dict_set "connection_instance_id" (PStr "conn-2")
  registration_message.
Definition reconnected_store : store :=
  exec reviewed_store (Receive "dora" client second_socket again_message).

Example reconnected_ex :
  map (λ r, (rtm_connection_instance_id r, rtm_state r)) (rows (R:=McpRuntimeConnection)
    (st_db reconnected_store)) = [("conn-2", "online"); ("conn-1", "stale")]
  ∧ map rgt_status (rows (st_db reconnected_store)) = ["pending"].
Proof. vm_compute. by split. Qed.

Lemma reconnected_reachable : reachable reconnected_store.
Proof. apply reachable_step, reachable_exec_all. constructor. Qed.

Definition second_runtime : string := uuid 7.

Lemma second_connection_found : ∃ r,
  runtime_connections (st_db reconnected_store) !! second_runtime = Some r ∧ active r.
Proof.
  destruct (runtime_connections (st_db reconnected_store) !! second_runtime) as [r|] eqn:Hr;
    vm_compute in Hr; [|done].
  exists r. simplify_eq. split; [done|].
  apply (bool_decide_unpack _). vm_compute. reflexivity.
Qed.


(** ** A call that is lost *)
Definition write_tool : descriptor := mkDescriptor "write_file" [("type", PStr "object")] None
  None "Writes" [] [] [] [] "schema-1".
Definition write_preparation : prepare_input := mkPrepareInput
  (_tool_ref (uuid 52) (uuid 7) (uuid 8)) "schema-1" [("to", PStr "bob")] "report" "action-1".
Definition calling : list op := [
  StoreCatalogSnapshot "dora" "dora" (uuid 52) 1 (Some "1.0") [write_tool] false;
  UpsertFederationPolicy "dora" "dora" (Some (uuid 52)) "key-2" 0
    [("trust_level", PStr "approved"); ("allowed_action_classes", PList [PStr "write"])];
  ClassifyRevision "dora" "dora" (uuid 8) "key-3" 1 "write" "rejected";
  UpsertExposure "dora" "dora" (uuid 7) "key-4" 0
    [("revision_id", PStr (uuid 8)); ("mode", PStr "catalog_only"); ("enabled", PBool true);
     ("approval_class", PStr "none")];
  PrepareAction (admin "dora") write_preparation 3600;
  CastVote (uuid 26) (admin "erin") "approve" None;
  IssuePermit "dora" "dora" (uuid 26) None;
  BeginAction (admin "dora") (mkExecuteInput (uuid 24) (uuid 30) "schema-1") None
    (mkTrace "00" PNone)].
Definition called_store : store := exec_all registered_store calling.

Definition running_call : option McpInvocation := mcp_invocations (st_db called_store) !! uuid 33.
Definition dispatched_store : store :=
  match running_call with
  | Some i => exec called_store (DispatchCall (inl socket) i)
  | None => called_store
  end.

Lemma dispatched_reachable : reachable dispatched_store.
Proof.
  assert (reachable called_store) as Hs
    by (apply reachable_exec_all, reachable_exec_all; constructor).
  unfold dispatched_store. destruct running_call; [apply reachable_step|]; exact Hs.
Qed.

Lemma dispatched_call_found : ∃ i,
  mcp_invocations (st_db dispatched_store) !! uuid 33 = Some i
  ∧ runs_over "dora" "conn-1" i = true
  ∧ inv_action_class i ∈? ["write"; "destructive"; "production"] = true.
Proof.
  destruct (mcp_invocations (st_db dispatched_store) !! uuid 33) as [i|] eqn:Hi;
    vm_compute in Hi; [|done].
  exists i. simplify_eq. vm_compute. by repeat split.
Qed.

Lemma lost_calls_are_settled_witness : ∃ i',
  mcp_invocations (st_db (exec dispatched_store (LoseConnection "dora" client socket)))
    !! uuid 33 = Some i' ∧ inv_outcome i' = "unknown".
Proof.
  destruct dispatched_call_found as (i & Hi & Hover & Hw).
  destruct (lost_calls_are_settled dispatched_store "dora" client socket (uuid 33) i
    dispatched_reachable eq_refl Hi) as (_ & (i' & Hi' & Hset) & _).
  exists i'. split; [exact Hi'|]. cbn [tc_instance_id socket] in Hset.
  rewrite Hover, Hw in Hset. exact (proj1 (proj2 Hset)).
Defined.
