(* ===== verification/ThinClientSteps.v ===== *)
(** * The steps of the thin-client connections

    What every step does to a request and to its call, to the connections and to the table
    of requests, and the invariant of the table. *)

From S2P Require Import Prelude PyStr PyVal ThinClient.

(** ** What a step does to a request *)

(** The event records [message] as the answer to request [i]. *)
Definition answers (e : event) (m : manager) (i : nat) (p : PendingThinClientRequest)
    (message : pydict) : Prop :=
  (∃ rid, e = ToolResult rid message ∧ pending m !! rid = Some i)
  ∨ ∃ client_id k, e = McpAnswer client_id k message
      ∧ pending m !! text_field message "request_id" = Some i
      ∧ text_field message "type" ∈ expected_types (tr_kind p)
      ∧ exact client_id k message p m = true.

Definition interruption (code message : string) (p : PendingThinClientRequest)
    : ThinClientMcpError :=
  mkThinError code message (unknown_if_interrupted p) (negb (unknown_if_interrupted p)) 409.

Inductive change (e : event) (m : manager) (i : nat) (p : PendingThinClientRequest)
    : PendingThinClientRequest → Prop :=
  | change_none : change e m i p p
  | change_failed code message : tr_future p = Unresolved → call_of e = None →
      change e m i p (p <| tr_future := Failed (interruption code message p) |>)
  | change_sent : e = MessageSent i →
      change e m i p (p <| tr_dispatched := true |>)
  | change_answered message : tr_future p = Unresolved → answers e m i p message →
      change e m i p (p <| tr_future := Result message |>)
  | change_cancelled : call_of e = Some i → tr_future p = Unresolved → is_legacy p = true →
      change e m i p (p <| tr_future := Cancelled |>).

Lemma lookup_with_request f i m j :
  request_of j (with_request f i m)
  = (if decide (i = j) then f <$> request_of j m else request_of j m).
Proof.
  unfold request_of, with_request. simpl. destruct (decide (i = j)) as [->|].
  - rewrite lookup_alter_eq. by destruct (thin_calls m !! j).
  - by rewrite lookup_alter_ne.
Qed.

(** Failing what waits for a connection. *)
Definition failed_or_same (p p' : PendingThinClientRequest) : Prop :=
  p' = p ∨ tr_future p = Unresolved
           ∧ ∃ code message, p' = p <| tr_future := Failed (interruption code message p) |>.

Lemma failed_or_same_trans p q r : failed_or_same p q → failed_or_same q r → failed_or_same p r.
Proof.
  intros [->|(Hp & code & msg & ->)]; [done|]. intros [->|[Hq _]]; [|done].
  right. eauto.
Qed.

Lemma interrupted_failed code message p : failed_or_same p (interrupted code message p).
Proof. unfold interrupted. destruct (tr_future p) eqn:E; simpl; [right|left..]; eauto. Qed.

(** What the handlers of connections leave alone. *)
Record quiet (m m' : manager) : Prop := {
  qu_numbers : (numbers m ≤ numbers m')%nat;
  qu_sent : sent m' = sent m;
  qu_calls : ∀ i c', thin_calls m' !! i = Some c' → ∃ c, thin_calls m !! i = Some c
    ∧ (cl_request_id c', cl_payload c', cl_timeout c', cl_phase c')
      = (cl_request_id c, cl_payload c, cl_timeout c, cl_phase c)
    ∧ failed_or_same (cl_request c) (cl_request c');
  qu_kept : ∀ i, is_Some (thin_calls m !! i) → is_Some (thin_calls m' !! i);
  qu_pending : ∀ rid i, pending m' !! rid = Some i → pending m !! rid = Some i;
}.

Lemma quiet_refl m : quiet m m.
Proof. split; try done. intros i c Hc. exists c. split_and!; [done..|by left]. Qed.

Lemma quiet_trans m m' m'' : quiet m m' → quiet m' m'' → quiet m m''.
Proof.
  intros [N S C K P] [N' S' C' K' P']. split; [lia|congruence| |auto|auto].
  intros i c'' Hc''. destruct (C' _ _ Hc'') as (c' & Hc' & E' & F').
  destruct (C _ _ Hc') as (c & Hc & E & F). exists c. split_and!; [done|congruence|].
  by eapply failed_or_same_trans.
Qed.

Lemma fail_entry_quiet client_id k code message entry m :
  quiet m (fail_entry client_id k code message entry m).
Proof.
  unfold fail_entry. destruct (request_of entry.2 m) as [p|] eqn:Hp; [|apply quiet_refl].
  destruct (waits_on client_id k p); [|apply quiet_refl]. split; simpl; [done|done| | |].
  - intros i c'. rewrite lookup_alter_Some. intros [(<- & c & Hc & ->)|[_ Hc]].
    + exists c. split_and!; [done|done|apply interrupted_failed].
    + exists c'. split_and!; [done|done|by left].
  - intros i [c Hc]. destruct (decide (entry.2 = i)) as [<-|];
      [rewrite lookup_alter_eq|rewrite lookup_alter_ne by done]; rewrite Hc; done.
  - intros rid i [_ Hi]%lookup_delete_Some. done.
Qed.

Lemma fail_pending_quiet client_id k code message m :
  quiet m (_fail_pending_for_connection client_id k code message m).
Proof.
  unfold _fail_pending_for_connection.
  induction (map_to_list (pending m)) as [|entry l IH]; [apply quiet_refl|]. simpl.
  eapply quiet_trans; [exact IH|apply fail_entry_quiet].
Qed.

(** Failing pending requests touches neither connections nor numbers. *)
Lemma fail_pending_same client_id k code message m :
  let m' := _fail_pending_for_connection client_id k code message m in
  connections m' = connections m ∧ sockets m' = sockets m ∧ numbers m' = numbers m.
Proof.
  cbv zeta. unfold _fail_pending_for_connection.
  induction (map_to_list (pending m)) as [|entry l IH]; [done|]. simpl. unfold fail_entry at 1 3 5.
  destruct (request_of _ _) as [p|]; [|done]. by destruct (waits_on client_id k p).
Qed.

Lemma retire_spec client_id runtime_id k l m :
  let m' := (retire client_id runtime_id k l m).2 in
  quiet m m' ∧ connections m' = connections m ∧ numbers m' = numbers m
  ∧ (∀ j x', sockets m' !! j = Some x' → ∃ x, sockets m !! j = Some x
       ∧ (x' = x ∨ j ≠ k ∧ tc_runtime_id x = Some runtime_id ∧ x' = x <| tc_stale := true |>))
  ∧ (∀ j x, sockets m !! j = Some x → is_Some (sockets m' !! j)).
Proof.
  revert m. induction l as [|j l IH]; intros m; simpl.
  - split_and!; [apply quiet_refl|done|done|eauto|eauto].
  - destruct ((j ==? k) || _) eqn:E; [apply IH|].
    apply orb_false_iff in E as [Hjk%bool_decide_eq_false Hrt%negb_false_iff].
    set (m1 := set_with sockets _ m).
    set (m2 := _fail_pending_for_connection _ _ _ _ m1).
    destruct (fail_pending_same client_id j "MCP_STALE_CONNECTION"
      "A newer connection instance replaced this MCP runtime" m1) as (Ec & Es & En).
    fold m2 in Ec, Es, En. specialize (IH m2).
    destruct (retire client_id runtime_id k l m2) as [l' m']. simpl in *.
    destruct IH as (Q & C & N & S & S'). split_and!; [|congruence|congruence| |].
    + eapply quiet_trans; [|exact Q]. eapply quiet_trans; [|apply fail_pending_quiet].
      split; [done|done| |done|done]. intros i c Hc. exists c. split_and!; [done|done|by left].
    + intros i x' Hx'. destruct (S _ _ Hx') as (x & Hx & Hor). rewrite Es in Hx. simpl in Hx.
      unfold socket_is in Hrt.
      apply lookup_alter_Some in Hx as [(<- & y & Hy & ->)|[Hne Hx]].
      * exists y. split; [done|]. rewrite Hy in Hrt. apply bool_decide_eq_true in Hrt. right.
        split_and!; [done|done|]. by destruct Hor as [->|(_ & _ & ->)].
      * eauto.
    + intros i x Hx. rewrite Es in S'. simpl in S'.
      destruct (decide (j = i)) as [->|Hne].
      * eapply S'. rewrite lookup_alter_eq, Hx. done.
      * eapply S'. by rewrite lookup_alter_ne.
Qed.

Lemma lost_connections_spec client_id l m :
  let m' := lost_connections client_id l m in
  quiet m m' ∧ connections m' = connections m ∧ sockets m' = sockets m ∧ numbers m' = numbers m.
Proof.
  unfold lost_connections. revert m. induction l as [|k l IH]; intros m; simpl.
  - by split_and!; [apply quiet_refl|..].
  - set (m1 := _fail_pending_for_connection _ _ _ _ m). destruct (IH m1) as (Q & C & S & N).
    destruct (fail_pending_same client_id k "MCP_CONNECTION_LOST"
      ("Thin client disconnected: " +:+ client_id) m) as (C' & S' & N'). fold m1 in C', S', N'.
    split_and!; [|congruence..]. eapply quiet_trans; [apply fail_pending_quiet|exact Q].
Qed.

Lemma unregister_spec client_id k m :
  let m' := (unregister client_id k m).2 in
  quiet m m' ∧ sockets m' = sockets m ∧ numbers m' = numbers m.
Proof.
  unfold unregister. destruct k as [k|].
  - set (m1 := if nonempty _ then _ else _).
    assert (quiet m m1 ∧ sockets m1 = sockets m ∧ numbers m1 = numbers m) as (Q & S & N).
    { unfold m1. repeat case_match; split_and!; try done; try apply quiet_refl.
      all: split; try done; intros i c Hc; exists c; split_and!; [done|done|by left]. }
    set (l := filter _ _). destruct (lost_connections_spec client_id l m1) as (Q' & _ & S' & N').
    simpl in *. split_and!; [by eapply quiet_trans|congruence..].
  - set (m1 := set_with connections _ m). set (l := connections_of client_id m).
    assert (quiet m m1) as Q.
    { split; try done. intros i c Hc. exists c. split_and!; [done|done|by left]. }
    destruct (lost_connections_spec client_id l m1) as (Q' & _ & S' & N'). simpl in *.
    split_and!; [by eapply quiet_trans|congruence..].
Qed.

(** Whether the event is about connections only. *)
Definition about_connections (e : event) : bool :=
  match e with
  | Register _ _ | RegisterRuntime _ _ _ _ _ _ | Unregister _ _ | Disconnect _ => true
  | _ => false
  end.

Lemma quiet_same m m' :
  (numbers m ≤ numbers m')%nat → sent m' = sent m → thin_calls m' = thin_calls m →
  pending m' = pending m → quiet m m'.
Proof.
  intros HN HS HC HP. split; [lia|done| |by rewrite HC|by rewrite HP].
  rewrite HC. intros i c Hc. exists c. split_and!; [done|done|by left].
Qed.

Lemma register_runtime_quiet client_id k runtime_id protocol capabilities servers m :
  quiet m (register_runtime client_id k runtime_id protocol capabilities servers m).2.
Proof.
  unfold register_runtime. repeat (case_match; [apply quiet_refl|]).
  pose proof (retire_spec client_id runtime_id k (connections_of client_id m) m) as H'.
  destruct (retire _ _ _ _ _) as [l m1]. simpl in *. destruct H' as (Q & _).
  eapply quiet_trans; [exact Q|]. by apply quiet_same.
Qed.

Lemma connection_step_quiet e m : about_connections e = true → quiet m (step e m).
Proof.
  destruct e; try done; intros _; simpl.
  - apply quiet_same; simpl; [lia|done..].
  - apply register_runtime_quiet.
  - apply unregister_spec.
  - apply (unregister_spec client_id None).
Qed.

(** ** Where requests come from *)
Inductive asks : event → string → Prop :=
  | asks_tool client_id tool arguments rid : asks (RequestTool client_id tool arguments rid) rid
  | asks_call t rid r : asks (RequestCall t rid r) rid
  | asks_resource t rid r : asks (RequestResource t rid r) rid
  | asks_prompt t rid r name arguments : asks (RequestPrompt t rid r name arguments) rid
  | asks_completion t rid r kind key argument context :
      asks (RequestCompletion t rid r kind key argument context) rid.

(** What a new call is like. *)
Definition new_call (rid : string) (m : manager) (c : call) : Prop :=
  let p := cl_request c in
  cl_request_id c = rid ∧ cl_phase c = Sending ∧ tr_future p = Unresolved
  ∧ tr_dispatched p = false
  ∧ tr_connection p ∈ connections_of (tr_client_id p) m
  ∧ (is_legacy p = false → stale m (tr_connection p) = false)
  ∧ tr_kind p ∈ ["legacy"; "mcp"; "mcp_resource"; "mcp_prompt"; "mcp_completion"].

Lemma exact_connection_active t m k x :
  exact_connection t m = inl (k, x) →
  k ∈ connections_of (tg_client_id t) m ∧ sockets m !! k = Some x ∧ stale m k = false
  ∧ tc_instance_id x = tg_connection_instance_id t.
Proof.
  unfold exact_connection, active_mcp_connection.
  destruct (List.find _ _) as [j|] eqn:Ef; [|done].
  apply find_some in Ef as [Hin%in_rev%list_elem_of_In Hs].
  unfold stale, socket_is in *. destruct (sockets m !! j) as [y|] eqn:Hy; [|done].
  destruct (tc_instance_id y =/? _) eqn:Ei; [done|].
  apply negb_false_iff, bool_decide_eq_true in Ei. intros [= <- <-].
  unfold serves in Hs. rewrite !andb_true_iff, negb_true_iff in Hs.
  rewrite Hy. by destruct Hs as [[[? _] _] _].
Qed.

Definition added (rid : string) (c : call) (m : manager) : manager :=
  m <| thin_calls ::= <[numbers m := c]> |> <| pending ::= <[rid := numbers m]> |>
    <| numbers := S (numbers m) |>.

Lemma mcp_call_new t rid k x payload timeout kind class m :
  exact_connection t m = inl (k, x) → kind ∈ ["mcp"; "mcp_resource"; "mcp_prompt"; "mcp_completion"] →
  new_call rid m (mkCall rid payload timeout (mcp_request t k kind class) Sending).
Proof.
  intros (Hin & _ & Hs & _)%exact_connection_active Hk. unfold new_call. simpl.
  split_and!; try done. by right.
Qed.

Lemma request_step e rid m :
  asks e rid → step e m = m ∨ ∃ c, new_call rid m c ∧ step e m = added rid c m.
Proof.
  assert (∀ t rid r capability kind type extra timeout,
    kind ∈ ["mcp"; "mcp_resource"; "mcp_prompt"; "mcp_completion"] →
    let m' := (_request_mcp_capability t rid r capability kind type extra timeout m).2 in
    m' = m ∨ ∃ c, new_call rid m c ∧ m' = added rid c m) as Hcap.
  { intros. unfold _request_mcp_capability in m'.
    destruct (exact_connection t m) as [[k x]|] eqn:E; [|by left]. subst m'.
    do 2 (case_match; [by left|]). right. eexists. split; [by eapply mcp_call_new|done]. }
  destruct 1; simpl.
  - unfold request. destruct (last _) as [k|] eqn:E; [right|by left].
    eexists. split; [|done]. unfold new_call. simpl. split_and!; try done; [|by left].
    by apply last_Some_elem_of in E.
  - unfold request_mcp. destruct (exact_connection t m) as [[k x]|] eqn:E; [right|by left].
    eexists. split; [eapply mcp_call_new; [done|by left]|done].
  - unfold request_mcp_resource. destruct (exact_connection t m) as [[k x]|] eqn:E; [|by left].
    case_match; [by left|right]. eexists. split; [eapply mcp_call_new; [done|by right; left]|done].
  - apply Hcap. by do 2 right; left.
  - apply Hcap. by do 3 right; left.
Qed.

(** ** The steps of a call *)
Definition send_outcome (c : call) (error : send_error) : outcome :=
  let p := cl_request c in
  match error with
  | RuntimeFailure message =>
      if is_legacy p then RaisedHttp 409 message else RaisedMcp (lost_error p)
  | SocketDisconnect =>
      if is_legacy p then RaisedHttp 409 ("Thin client disconnected: " +:+ tr_client_id p)
      else RaisedDisconnect
  end.

Definition resume_outcome (c : call) : outcome :=
  match tr_future (cl_request c) with
  | Unresolved | Cancelled => Aborted
  | Result message => Returned message
  | Failed error =>
      if is_legacy (cl_request c) then RaisedHttp 409 (te_message error) else RaisedMcp error
  end.

Definition deadline_phase (c : call) (ph : phase) : Prop :=
  if is_legacy (cl_request c) then ph = Finished (RaisedHttp 504 (cl_timeout c).2)
  else ph = Finished (RaisedMcp (timeout_error c))
       ∨ tr_kind (cl_request c) = "mcp" ∧ ∃ k, ph = Cancelling (timeout_error c) k.

Inductive own_move (e : event) (c : call) : call → Prop :=
  | own_none : own_move e c c
  | own_sent i : e = MessageSent i → cl_phase c = Sending →
      own_move e c (c <| cl_request ::= λ p, p <| tr_dispatched := true |> |>
                      <| cl_phase := Waiting |>)
  | own_send_failed i error : e = SendFailed i error → cl_phase c = Sending →
      own_move e c (c <| cl_phase := Finished (send_outcome c error) |>)
  | own_resumed i : e = Resume i → cl_phase c = Waiting → tr_future (cl_request c) ≠ Unresolved →
      own_move e c (c <| cl_phase := Finished (resume_outcome c) |>)
  | own_deadline i ph : e = Deadline i → cl_phase c = Waiting → deadline_phase c ph →
      own_move e c (c <| cl_request ::= cancelled_future |> <| cl_phase := ph |>)
  | own_cancel_sent i failure error k o : e = CancelSent i failure →
      cl_phase c = Cancelling error k → o = RaisedMcp error ∨ o = RaisedDisconnect →
      own_move e c (c <| cl_phase := Finished o |>)
  | own_aborted i f : e = CancelCall i → f = id ∨ cl_phase c = Waiting ∧ f = cancelled_future →
      (∀ how, cl_phase c ≠ Finished how) →
      own_move e c (c <| cl_request ::= f |> <| cl_phase := Finished Aborted |>).

(** The call is still waiting to be sent or answered. *)
Definition open_call (c : call) : bool :=
  match cl_phase c with Sending | Waiting => true | _ => false end.

(** Nothing of the other calls and the connections changes, and an entry is only dropped
    by a call that is not open any more. *)
Definition only_call (i : nat) (c c' : call) (m m' : manager) : Prop :=
  (∀ j, thin_calls m' !! j = if decide (i = j) then Some c' else thin_calls m !! j)
  ∧ (pending m' = pending m
     ∨ pending m' = delete (cl_request_id c) (pending m) ∧ open_call c' = false)
  ∧ connections m' = connections m ∧ sockets m' = sockets m ∧ numbers m' = numbers m.

Ltac own_lookup :=
  let j := fresh in intros j; simpl; destruct (decide _) as [<-|?];
  repeat first [rewrite lookup_alter_eq | rewrite lookup_alter_ne by done
    | match goal with H : thin_calls _ !! _ = Some _ |- _ => rewrite H end]; try reflexivity.

Lemma own_step e i m c :
  call_of e = Some i → thin_calls m !! i = Some c →
  ∃ c', own_move e c c' ∧ only_call i c c' m (step e m).
Proof.
  intros He Hc.
  assert (own_move e c c ∧ only_call i c c m m) as Hsame.
  { split; [apply own_none|]. split_and!; [|by left|done..].
    intros j. destruct (decide (i = j)) as [<-|]; done. }
  assert (step e m = call_step e i c m) as ->.
  { destruct e; simpl in He; try done; injection He as ->; simpl; by rewrite Hc. }
  assert (∀ c' m', own_move e c c' → pending m' = pending m
     ∨ pending m' = delete (cl_request_id c) (pending m) ∧ open_call c' = false →
    (∀ j, thin_calls m' !! j = if decide (i = j) then Some c' else thin_calls m !! j) →
    connections m' = connections m ∧ sockets m' = sockets m ∧ numbers m' = numbers m →
    ∃ c', own_move e c c' ∧ only_call i c c' m m') as Hdo.
  { intros c' m' Hm Hp Hj Hsame'. exists c'. split; [done|]. exact (conj Hj (conj Hp Hsame')). }
  destruct e; try done; injection He as ->; simpl; destruct (cl_phase c) eqn:Hph; try by exists c.
  - eapply Hdo; [by eapply own_sent|by left|own_lookup|done].
  - destruct error as [message|]; simpl; [|destruct (is_legacy _) eqn:Hl].
    all: eapply Hdo; [by eapply own_send_failed| |own_lookup|done].
    all: first [by left|by right|by rewrite Hl].
  - unfold resumed. destruct (tr_future (cl_request c)) as [|message|error|] eqn:Hf; [by exists c|..].
    all: eapply (Hdo (c <| cl_phase := Finished (resume_outcome c) |>));
      [by eapply own_resumed; [done..|rewrite Hf]| |
       own_lookup; unfold resume_outcome; rewrite Hf; reflexivity|done].
    all: first [by left|by right].
  - unfold deadline_passed. set (m1 := with_request _ _ _).
    assert (∃ ph, deadline_phase c ph ∧ (open_call (c <| cl_phase := ph |>)) = false
      ∧ (if is_legacy (cl_request c) then at_phase (Finished (RaisedHttp 504 (cl_timeout c).2)) i m1
         else if tr_kind (cl_request c) ==? "mcp" then
           match cancel_connection c m1 with
           | Some k => at_phase (Cancelling (timeout_error c) k) i m1
           | None => at_phase (Finished (RaisedMcp (timeout_error c))) i m1
           end
         else at_phase (Finished (RaisedMcp (timeout_error c))) i m1) = at_phase ph i m1)
      as (ph & Hd & Ho & ->).
    { unfold deadline_phase. destruct (is_legacy (cl_request c)); [by eexists|].
      destruct (tr_kind (cl_request c) ==? "mcp") eqn:Hk; [|by eexists; split_and!; [left|..]].
      destruct (cancel_connection c m1) as [k|]; [|by eexists; split_and!; [left|..]].
      apply bool_decide_eq_true in Hk. eexists; split_and!; [right; split; [done|by eexists]|done..]. }
    eapply Hdo; [by eapply own_deadline|by right|own_lookup|done].
  - assert (∀ m' o, o = RaisedMcp error ∨ o = RaisedDisconnect →
      pending m' = pending m → (∀ j, thin_calls m' !! j =
        if decide (i = j) then Some (c <| cl_phase := Finished o |>) else thin_calls m !! j) →
      connections m' = connections m ∧ sockets m' = sockets m ∧ numbers m' = numbers m →
      ∃ c', own_move (CancelSent i failure) c c' ∧ only_call i c c' m m') as Hend.
    { intros m' o Ho Hp Hj ?. eapply Hdo; [by eapply own_cancel_sent|by left|exact Hj|done]. }
    destruct failure as [[message|]|]; simpl; [| |destruct (sockets m !! connection)].
    2: eapply (Hend _ RaisedDisconnect); [by right|done|own_lookup|done].
    all: eapply (Hend _ (RaisedMcp error)); [by left|done|own_lookup|done].
  - unfold call_cancelled. rewrite Hph.
    eapply Hdo; [eapply (own_aborted _ _ i id); [done|by left|by rewrite Hph]|by left|own_lookup|done].
  - unfold call_cancelled. rewrite Hph.
    eapply Hdo; [eapply (own_aborted _ _ i cancelled_future); [done|by right|by rewrite Hph]|by left|own_lookup|done].
  - unfold call_cancelled. rewrite Hph.
    eapply Hdo; [eapply (own_aborted _ _ i id); [done|by left|by rewrite Hph]|by left|own_lookup|done].
Qed.

(** ** Answers *)
Definition about_answers (e : event) : bool :=
  match e with ToolResult _ _ | McpAnswer _ _ _ => true | _ => false end.

Definition answered (i : nat) (rid : string) (message : pydict) (m : manager) : manager :=
  with_request (resolved message) i m <| pending ::= delete rid |>.

Lemma answer_step e m :
  about_answers e = true →
  step e m = m ∨ ∃ i rid message, pending m !! rid = Some i ∧ step e m = answered i rid message m
    ∧ ∀ p, request_of i m = Some p → answers e m i p message.
Proof.
  destruct e; try done; intros _; simpl.
  - unfold complete. destruct (pending m !! request_id) as [i|] eqn:Hp; [right|by left].
    exists i, request_id, message. split_and!; [done|done|]. intros p _. left. eauto.
  - unfold complete_mcp. destruct (pending m !! _) as [i|] eqn:Hp; [|by left].
    destruct (request_of i m) as [p|] eqn:Hr; [|by left].
    destruct (_ ∈? _) eqn:Ht; [|by left]. destruct (exact _ _ _ _ _) eqn:Hx; [right|by left].
    exists i, (text_field message "request_id"), message. split_and!; [done|done|].
    intros q Hq. assert (q = p) as -> by congruence. right.
    exists client_id, connection. split_and!; [done|done| |done].
    by apply bool_decide_eq_true in Ht.
Qed.

(** ** What a step does to a call *)
Definition same_call (c c' : call) : Prop :=
  (cl_request_id c', cl_payload c', cl_timeout c')
  = (cl_request_id c, cl_payload c, cl_timeout c).

Inductive moves (e : event) (m : manager) (i : nat) (c c' : call) : Prop :=
  | moves_own : call_of e = Some i → own_move e c c' → moves e m i c c'
  | moves_other : call_of e ≠ Some i → cl_phase c' = cl_phase c → moves e m i c c'.

Definition numbered (m : manager) : Prop :=
  ∀ i c, thin_calls m !! i = Some c → (i < numbers m)%nat.

Lemma own_move_same e c c' : own_move e c c' → same_call c c'.
Proof. by destruct 1. Qed.

Lemma cancelled_change e m i p :
  call_of e = Some i → change e m i p (cancelled_future p).
Proof.
  intros He. unfold cancelled_future. destruct (is_legacy p) eqn:Hl; [|apply change_none].
  destruct (tr_future p) eqn:Hf; try apply change_none. by apply change_cancelled.
Qed.

Lemma own_move_change e m i c c' :
  call_of e = Some i → own_move e c c' → change e m i (cl_request c) (cl_request c').
Proof.
  intros He. destruct 1; subst; simpl in *; try apply change_none.
  - injection He as ->. by apply change_sent.
  - by apply cancelled_change.
  - destruct H0 as [->|[_ ->]]; [apply change_none|by apply cancelled_change].
Qed.

Lemma event_cases e :
  about_connections e = true ∨ about_answers e = true ∨ (∃ rid, asks e rid) ∨ is_Some (call_of e).
Proof. destruct e; simpl; eauto 6 using asks. Qed.

Lemma asks_no_call e rid : asks e rid → call_of e = None.
Proof. by destruct 1. Qed.

Lemma step_call e m i c' :
  numbered m → thin_calls (step e m) !! i = Some c' →
  (thin_calls m !! i = None ∧ ∃ rid, asks e rid ∧ new_call rid m c')
  ∨ ∃ c, thin_calls m !! i = Some c ∧ same_call c c'
      ∧ change e m i (cl_request c) (cl_request c') ∧ moves e m i c c'.
Proof.
  intros HN Hc'.
  assert (call_of e ≠ Some i → thin_calls m !! i = Some c' →
    ∃ c, thin_calls m !! i = Some c ∧ same_call c c'
      ∧ change e m i (cl_request c) (cl_request c') ∧ moves e m i c c') as Hsame.
  { intros. exists c'. split_and!; [done|done|apply change_none|by apply moves_other]. }
  destruct (event_cases e) as [He|[He|[[rid He]|[j He]]]].
  - right. destruct (connection_step_quiet e m He) as [_ _ HC _ _].
    assert (call_of e = None) as Hno by by destruct e.
    destruct (HC _ _ Hc') as (c & Hc & E & HF). exists c. injection E as E1 E2 E3 E4.
    split_and!; [done|unfold same_call; congruence| |apply moves_other; congruence].
    destruct HF as [->|(Hf & code & message & ->)]; [apply change_none|by apply change_failed].
  - right. assert (call_of e = None) as Hno by by destruct e.
    destruct (answer_step e m He) as [E|(j & rid & message & Hp & E & Ha)]; rewrite E in Hc'.
    { apply Hsame; congruence. }
    simpl in Hc'. apply lookup_alter_Some in Hc' as [(<- & c & Hc & ->)|[Hne Hc]].
    2: { apply Hsame; congruence. }
    exists c. split_and!; [done|done| |apply moves_other; [congruence|done]].
    simpl. unfold resolved. destruct (tr_future (cl_request c)) eqn:Hf; simpl; try apply change_none.
    apply change_answered; [done|]. apply Ha. unfold request_of. by rewrite Hc.
  - destruct (request_step e rid m He) as [E|(c & Hc & E)]; rewrite E in Hc'.
    { right. apply Hsame; [|done]. rewrite (asks_no_call _ _ He). done. }
    unfold added in Hc'. simpl in Hc'.
    apply lookup_insert_Some in Hc' as [[<- <-]|[Hne Hc']].
    + left. split; [|by exists rid]. destruct (thin_calls m !! numbers m) eqn:E'; [|done].
      apply HN in E'. lia.
    + right. apply Hsame; [|done]. rewrite (asks_no_call _ _ He). done.
  - right. destruct (thin_calls m !! j) as [c|] eqn:Hc.
    + destruct (own_step e j m c He Hc) as (c1 & Hm & HT & _). rewrite HT in Hc'.
      destruct (decide (j = i)) as [->|Hne].
      * injection Hc' as ->. exists c. split_and!; [done|by eapply own_move_same| |by apply moves_own].
        by apply own_move_change.
      * apply Hsame; [congruence|done].
    + assert (step e m = m) as E.
      { destruct e; simpl in He; try done; injection He as ->; simpl; by rewrite Hc. }
      rewrite E in Hc'. apply Hsame; [congruence|done].
Qed.

(** ** Where the requests of the table wait *)
Definition same_place (p p' : PendingThinClientRequest) : Prop :=
  (tr_client_id p', tr_connection p', tr_kind p', tr_action_class p', tr_runtime_id p',
   tr_local_server_id p')
  = (tr_client_id p, tr_connection p, tr_kind p, tr_action_class p, tr_runtime_id p,
     tr_local_server_id p).

Lemma failed_same_place p p' : failed_or_same p p' → same_place p p'.
Proof. by intros [->|(_ & code & message & ->)]. Qed.

Lemma change_same_place e m i p p' : change e m i p p' → same_place p p'.
Proof. by destruct 1. Qed.

Lemma waits_on_place client_id k p p' :
  same_place p p' → waits_on client_id k p' = waits_on client_id k p.
Proof. intros E. injection E. intros _ _ _ _ E1 E2. unfold waits_on. by rewrite E1, E2. Qed.

Lemma fail_entries_left client_id k code message l m rid i c :
  (rid, i) ∈ l →
  let m' := foldr (fail_entry client_id k code message) m l in
  pending m' !! rid = Some i → thin_calls m' !! i = Some c →
  waits_on client_id k (cl_request c) = false.
Proof.
  revert c. induction l as [|entry l IH]; intros c Hin; [by apply not_elem_of_nil in Hin|]. simpl.
  set (m1 := foldr _ _ _) in *. intros Hp Hc.
  destruct (fail_entry_quiet client_id k code message entry m1) as [_ _ HC _ HP].
  destruct (HC _ _ Hc) as (c1 & Hc1 & _ & HF). apply failed_same_place in HF.
  rewrite (waits_on_place _ _ _ _ HF). apply elem_of_cons in Hin as [<-|Hin]; [|by eapply IH; eauto].
  unfold fail_entry, request_of in Hp. simpl in Hp. rewrite Hc1 in Hp. simpl in Hp.
  destruct (waits_on client_id k (cl_request c1)) eqn:Hw; [|done].
  simpl in Hp. by rewrite lookup_delete_eq in Hp.
Qed.

Lemma fail_pending_left client_id k code message m rid i c :
  let m' := _fail_pending_for_connection client_id k code message m in
  pending m' !! rid = Some i → thin_calls m' !! i = Some c →
  waits_on client_id k (cl_request c) = false.
Proof.
  intros m' Hp Hc. eapply fail_entries_left; [|exact Hp|exact Hc].
  apply elem_of_map_to_list. by apply (qu_pending _ _ (fail_pending_quiet _ _ _ _ _)) in Hp.
Qed.

Lemma lost_connections_left client_id l m rid i c k :
  k ∈ l → let m' := lost_connections client_id l m in
  pending m' !! rid = Some i → thin_calls m' !! i = Some c →
  waits_on client_id k (cl_request c) = false.
Proof.
  unfold lost_connections. revert m. induction l as [|j l IH]; intros m Hin; [by apply not_elem_of_nil in Hin|].
  simpl. set (m1 := _fail_pending_for_connection _ _ _ _ m).
  intros Hp Hc. apply elem_of_cons in Hin as [->|Hin]; [|by eapply (IH m1)].
  destruct (lost_connections_spec client_id l m1) as ([_ _ HC _ HP] & _).
  destruct (HC _ _ Hc) as (c1 & Hc1 & _ & HF%failed_same_place).
  rewrite (waits_on_place _ _ _ _ HF). eapply fail_pending_left; [|exact Hc1]. by apply HP.
Qed.

Definition placed (m : manager) (p : PendingThinClientRequest) : Prop :=
  tr_connection p ∈ connections_of (tr_client_id p) m
  ∧ (is_legacy p = false → stale m (tr_connection p) = false).

Lemma placed_place m p p' : same_place p p' → placed m p → placed m p'.
Proof.
  intros E. injection E. intros _ _ _ E1 E2 E3. unfold placed, is_legacy. by rewrite E1, E2, E3.
Qed.

(** Connections are numbered, and each belongs to one client. *)
Record wired (m : manager) : Prop := {
  wi_sockets : ∀ k x, sockets m !! k = Some x → (k < numbers m)%nat;
  wi_known : ∀ cl k, k ∈ connections_of cl m → is_Some (sockets m !! k);
  wi_owner : ∀ cl cl' k, k ∈ connections_of cl m → k ∈ connections_of cl' m → cl = cl';
}.

(** Every entry of the table is that of a call, and the call waits on a connection of its
    client, which is not stale if it is one of a runtime. *)
Definition entries (m : manager) : Prop :=
  ∀ rid i, pending m !! rid = Some i →
    ∃ c, thin_calls m !! i = Some c ∧ cl_request_id c = rid.
Definition table (m : manager) : Prop :=
  ∀ rid i c, pending m !! rid = Some i → thin_calls m !! i = Some c → placed m (cl_request c).

Record sound (m : manager) : Prop := {
  so_numbered : numbered m;
  so_wired : wired m;
  so_entries : entries m;
  so_table : table m;
}.

Lemma quiet_entries m m' : quiet m m' → entries m → entries m'.
Proof.
  intros [_ _ HC HK HP] He rid i Hp. destruct (He rid i (HP _ _ Hp)) as (c & Hc & Hrid).
  destruct (HK i) as [c' Hc']; [by exists c|]. exists c'. split; [done|].
  destruct (HC _ _ Hc') as (c0 & Hc0 & E & _). injection E. congruence.
Qed.

Lemma quiet_numbered m m' : quiet m m' → numbered m → numbered m'.
Proof.
  intros [HN _ HC _ _] Hn i c' Hc'. destruct (HC _ _ Hc') as (c & Hc & _).
  apply Hn in Hc. lia.
Qed.

(** The table is right but for the requests that [bad] names. *)
Definition table_but (bad : PendingThinClientRequest → bool) (m : manager) : Prop :=
  ∀ rid i c, pending m !! rid = Some i → thin_calls m !! i = Some c →
    bad (cl_request c) = true ∨ placed m (cl_request c).

Lemma quiet_table_but bad m m' :
  (∀ p p', same_place p p' → bad p' = bad p) →
  (∀ p, bad p = false → placed m p → placed m' p) →
  quiet m m' → table_but bad m → table_but bad m'.
Proof.
  intros Hbad Hpl [_ _ HC _ HP] HT rid i c' Hp Hc'.
  destruct (HC _ _ Hc') as (c & Hc & _ & HF%failed_same_place).
  destruct (HT rid i c (HP _ _ Hp) Hc) as [Hb|Hpc]; [left; by rewrite (Hbad _ _ HF)|].
  destruct (bad (cl_request c)) eqn:Hb; [left; by rewrite (Hbad _ _ HF)|right].
  apply (placed_place _ _ _ HF), Hpl; done.
Qed.

Lemma table_but_none m : table_but (λ _, false) m ↔ table m.
Proof.
  split; intros HT rid i c Hp Hc; [by destruct (HT rid i c Hp Hc)|right; by eapply HT].
Qed.

(** Failing what waits for a connection puts the table right. *)
Lemma fail_pending_table client_id k code message m :
  table_but (waits_on client_id k) m →
  table (_fail_pending_for_connection client_id k code message m).
Proof.
  intros HT. set (m' := _fail_pending_for_connection _ _ _ _ m).
  assert (table_but (waits_on client_id k) m') as HT'.
  { eapply quiet_table_but; [apply waits_on_place| |apply fail_pending_quiet|exact HT].
    intros p _. unfold placed, connections_of, stale, socket_is.
    destruct (fail_pending_same client_id k code message m) as (E1 & E2 & _).
    fold m' in E1, E2. by rewrite E1, E2. }
  intros rid i c Hp Hc. destruct (HT' rid i c Hp Hc) as [Hw|]; [|done].
  pose proof (fail_pending_left client_id k code message m rid i c Hp Hc). congruence.
Qed.

(** ** Every step keeps the table sound *)
Lemma wired_same m m' :
  connections m' = connections m → numbers m' = numbers m →
  (∀ k, is_Some (sockets m' !! k) ↔ is_Some (sockets m !! k)) → wired m → wired m'.
Proof.
  intros EC EN ES [W1 W2 W3]. split; unfold connections_of in *; rewrite ?EC, ?EN.
  - intros k x Hx. destruct (proj1 (ES k)) as [y Hy]; [by exists x|]. by eapply W1.
  - intros cl k Hk. apply ES. by eapply W2.
  - done.
Qed.

Lemma mark_stale_sockets k m (f : ThinClientConnection → ThinClientConnection) j :
  is_Some (sockets (m <| sockets ::= alter f k |>) !! j) ↔ is_Some (sockets m !! j).
Proof. simpl. by rewrite lookup_alter_is_Some. Qed.

Lemma retire_sound client_id runtime_id k l m :
  (∀ j, j ∈ l → j ∈ connections_of client_id m) →
  wired m → entries m → table m →
  let m' := (retire client_id runtime_id k l m).2 in wired m' ∧ table m'.
Proof.
  revert m. induction l as [|j l IH]; intros m Hl HW HE HT; simpl; [done|].
  destruct ((j ==? k) || _); [apply IH; auto; intros; apply Hl; by right|].
  set (m1 := m <| sockets ::= alter _ j |>).
  set (m2 := _fail_pending_for_connection _ _ _ _ m1).
  destruct (fail_pending_same client_id j "MCP_STALE_CONNECTION"
      "A newer connection instance replaced this MCP runtime" m1) as (Ec & Es & En).
  fold m2 in Ec, Es, En. specialize (IH m2).
  destruct (retire client_id runtime_id k l m2) as [l' m'] eqn:Er. simpl in *.
  apply IH.
  - intros i Hi. unfold connections_of. rewrite Ec. apply (Hl i). by right.
  - eapply (wired_same m); [done|done| |done]. intros i. rewrite Es. simpl.
    by rewrite lookup_alter_is_Some.
  - eapply quiet_entries; [apply fail_pending_quiet|]. done.
  - apply fail_pending_table. intros rid i c Hp Hc. destruct (HT rid i c Hp Hc) as [Hin Hst].
    destruct (waits_on client_id j (cl_request c)) eqn:Hw; [by left|right].
    split; [done|]. intros Hlg. unfold stale, socket_is. simpl.
    rewrite lookup_alter_ne; [by apply Hst|]. intros Ej.
    unfold waits_on in Hw. rewrite (bool_decide_eq_true_2 (tr_connection _ = _)) in Hw by done.
    rewrite andb_true_r in Hw. apply bool_decide_eq_false in Hw. apply Hw.
    eapply (wi_owner _ HW); [exact Hin|]. rewrite <-Ej. apply Hl. by left.
Qed.

Lemma register_sound client_id instance_id m : sound m → sound (register client_id instance_id m).2.
Proof.
  intros [HN [W1 W2 W3] HE HT].
  set (m' := (register client_id instance_id m).2).
  assert (∀ cl k, k ∈ connections_of cl m' ↔
    k ∈ connections_of cl m ∨ cl = client_id ∧ k = numbers m) as Hconn.
  { intros cl k. unfold m', connections_of at 1. simpl. destruct (decide (cl = client_id)) as [->|Hne].
    - rewrite lookup_insert_eq. simpl. rewrite elem_of_app, list_elem_of_singleton. naive_solver.
    - rewrite lookup_insert_ne by done. change (default [] (connections m !! cl)) with (connections_of cl m).
      naive_solver. }
  assert (∀ cl k, k ∈ connections_of cl m → (k < numbers m)%nat) as Hlt.
  { intros cl k Hk. destruct (W2 _ _ Hk) as [x Hx]. by apply W1 in Hx. }
  split.
  - intros i c Hc. apply HN in Hc. simpl. lia.
  - split.
    + intros k x. unfold m'. simpl. intros [[<- _]|[_ Hx]]%lookup_insert_Some; [lia|].
      apply W1 in Hx. lia.
    + intros cl k [Hk|[-> ->]]%Hconn; unfold m'; simpl; [|by rewrite lookup_insert_eq].
      pose proof (Hlt _ _ Hk). rewrite lookup_insert_ne by lia. by eapply W2.
    + intros cl cl' k [Hk|[-> ->]]%Hconn [Hk'|[-> E]]%Hconn; [by eapply W3| | |done].
      * subst. apply Hlt in Hk. lia.
      * apply Hlt in Hk'. lia.
  - exact HE.
  - intros rid i c Hp Hc. destruct (HT rid i c Hp Hc) as [Hin Hs]. split; [apply Hconn; by left|].
    intros Hl. unfold stale, socket_is, m'. simpl. apply Hlt in Hin.
    rewrite lookup_insert_ne by lia. by apply Hs.
Qed.

Lemma register_runtime_sound client_id k runtime_id protocol capabilities servers m :
  sound m → sound (register_runtime client_id k runtime_id protocol capabilities servers m).2.
Proof.
  intros HS. pose proof HS as [HN HW HE HT].
  pose proof (register_runtime_quiet client_id k runtime_id protocol capabilities servers m) as Q.
  split; [by eapply quiet_numbered| |by eapply quiet_entries|].
  all: unfold register_runtime in *; repeat (case_match; [done|]).
  all: destruct (retire_sound client_id runtime_id k (connections_of client_id m) m) as [W T]; try done.
  all: destruct (retire _ _ _ _ _) as [l m1]; simpl in *.
  - eapply (wired_same m1); [done|done| |done]. intros i. apply mark_stale_sockets.
  - intros rid i c Hp Hc. destruct (T rid i c Hp Hc) as [Hin Hs]. split; [done|]. intros Hl.
    specialize (Hs Hl). unfold stale, socket_is in *. simpl.
    destruct (decide (k = tr_connection (cl_request c))) as [->|Hne];
      [rewrite lookup_alter_eq|by rewrite lookup_alter_ne].
    by destruct (sockets m1 !! tr_connection (cl_request c)).
Qed.

Definition removed_by (k : option nat) (j : nat) : Prop :=
  match k with None => True | Some c => j = c end.

Lemma unregister_sockets client_id k m cl j :
  j ∈ connections_of cl (unregister client_id k m).2 ↔
  j ∈ connections_of cl m ∧ (cl = client_id → ¬ removed_by k j).
Proof.
  unfold unregister. destruct k as [c|].
  - set (m1 := if nonempty _ then _ else _). set (l := filter _ _).
    destruct (lost_connections_spec client_id l m1) as (_ & E & _). simpl in *.
    unfold connections_of at 1. rewrite E. fold (connections_of cl m1).
    destruct (decide (cl = client_id)) as [->|Hne].
    + assert (connections_of client_id m1 = filter (λ x, x ≠ c) (connections_of client_id m)) as ->.
      { unfold m1. destruct (filter (λ x, x ≠ c) _) eqn:Er; unfold connections_of at 1; simpl;
          [|by rewrite lookup_insert_eq].
        destruct (filter (λ x, x = c) _) as [|y l'] eqn:El; simpl; [|by rewrite lookup_delete_eq].
        destruct (connections_of client_id m) as [|y l'] eqn:Em; [done|]. exfalso.
        destruct (decide (y = c)) as [->|Hy].
        - by rewrite filter_cons_True in El.
        - by rewrite filter_cons_True in Er. }
      rewrite list_elem_of_filter. naive_solver.
    + assert (connections_of cl m1 = connections_of cl m) as ->; [|naive_solver].
      unfold m1, connections_of. by repeat case_match; simpl; rewrite ?lookup_insert_ne, ?lookup_delete_ne.
  - set (m1 := set_with connections _ m). set (l := connections_of client_id m).
    destruct (lost_connections_spec client_id l m1) as (_ & E & _). simpl in *.
    unfold connections_of at 1. rewrite E. unfold m1. simpl.
    destruct (decide (cl = client_id)) as [->|Hne].
    + rewrite lookup_delete_eq. simpl. split; [by intros ?%not_elem_of_nil|naive_solver].
    + rewrite lookup_delete_ne by done. change (default [] (connections m !! cl)) with (connections_of cl m).
      naive_solver.
Qed.

Lemma unregister_left client_id k m rid i c j :
  j ∈ connections_of client_id m → removed_by k j →
  pending (unregister client_id k m).2 !! rid = Some i →
  thin_calls (unregister client_id k m).2 !! i = Some c →
  waits_on client_id j (cl_request c) = false.
Proof.
  unfold unregister. intros Hj Hk. destruct k as [k|]; simpl in *; subst;
    eapply lost_connections_left; [|exact Hj].
  by apply list_elem_of_filter.
Qed.

Lemma unregister_sound client_id k m : sound m → sound (unregister client_id k m).2.
Proof.
  intros [HN [W1 W2 W3] HE HT]. destruct (unregister_spec client_id k m) as (Q & S & N).
  split; [by eapply quiet_numbered| |by eapply quiet_entries|].
  - split.
    + intros j x. rewrite S, N. apply W1.
    + intros cl j [Hj _]%unregister_sockets. rewrite S. by eapply W2.
    + intros cl cl' j [Hj _]%unregister_sockets [Hj' _]%unregister_sockets. by eapply W3.
  - intros rid i c' Hp Hc'. pose proof Q as [_ _ HC _ HP].
    destruct (HC _ _ Hc') as (c & Hc & _ & HF%failed_same_place).
    destruct (HT rid i c (HP _ _ Hp) Hc) as [Hin Hs].
    assert (placed m (cl_request c')) as [Hin' Hs'] by by apply (placed_place _ _ _ HF).
    split; [|intros Hl; unfold stale, socket_is; rewrite S; by apply Hs'].
    apply unregister_sockets. split; [done|]. intros Ec Hk.
    pose proof (unregister_left client_id k m rid i c' (tr_connection (cl_request c'))) as Hw.
    rewrite Ec in Hin'. specialize (Hw Hin' Hk Hp Hc'). unfold waits_on in Hw.
    by rewrite !bool_decide_eq_true_2 in Hw.
Qed.

Lemma added_sound rid c m : sound m → new_call rid m c → sound (added rid c m).
Proof.
  intros [HN [W1 W2 W3] HE HT] (Hrid & _ & _ & _ & Hin & Hs & _). split.
  - intros i c'. unfold added. simpl. intros [[<- _]|[_ Hc]]%lookup_insert_Some; [lia|].
    apply HN in Hc. lia.
  - split; [|exact W2|exact W3]. intros k x Hx. apply W1 in Hx. simpl. lia.
  - intros r i. unfold added. simpl. intros [[<- <-]|[_ Hp]]%lookup_insert_Some.
    + exists c. by rewrite lookup_insert_eq.
    + destruct (HE _ _ Hp) as (c' & Hc' & Hr). exists c'. apply HN in Hc' as Hlt.
      by rewrite lookup_insert_ne by lia.
  - intros r i c'. unfold added. simpl. intros [[<- <-]|[_ Hp]]%lookup_insert_Some.
    + rewrite lookup_insert_eq. by intros [= <-].
    + destruct (HE _ _ Hp) as (c0 & Hc0 & _). apply HN in Hc0 as Hlt.
      rewrite lookup_insert_ne by lia. intros Hc'. exact (HT _ _ _ Hp Hc').
Qed.

Lemma answered_sound i rid message m : sound m → sound (answered i rid message m).
Proof.
  intros [HN [W1 W2 W3] HE HT].
  assert (∀ j c', thin_calls (answered i rid message m) !! j = Some c' →
    ∃ c, thin_calls m !! j = Some c ∧ cl_request_id c' = cl_request_id c
      ∧ same_place (cl_request c) (cl_request c')) as Hback.
  { intros j c'. simpl. intros [(<- & c & Hc & ->)|[_ Hc]]%lookup_alter_Some; [|by exists c'].
    exists c. split_and!; [done|done|]. simpl. unfold resolved. by destruct (done _). }
  split; [|by split| |].
  - intros j c' (c & Hc & _)%Hback. by eapply HN.
  - intros r j. simpl. intros [_ Hp]%lookup_delete_Some. destruct (HE _ _ Hp) as (c & Hc & Hr).
    destruct (decide (i = j)) as [<-|]; [rewrite lookup_alter_eq, Hc; by eexists|].
    exists c. by rewrite lookup_alter_ne.
  - intros r j c'. simpl. intros [_ Hp]%lookup_delete_Some (c & Hc & _ & E)%Hback.
    apply (placed_place _ _ _ E). by eapply HT.
Qed.

Lemma own_sound i c c' m m' :
  thin_calls m !! i = Some c → same_call c c' → same_place (cl_request c) (cl_request c') →
  only_call i c c' m m' → sound m → sound m'.
Proof.
  intros Hc Es Ep (HT' & HP & EC & ES & EN) [HN [W1 W2 W3] HE HT].
  assert (∀ r j, pending m' !! r = Some j → pending m !! r = Some j) as Hsub.
  { intros r j. destruct HP as [->|[-> _]]; [done|]. by intros [_ ?]%lookup_delete_Some. }
  injection Es as E1 _ _. split.
  - intros j x. rewrite HT', EN. case_decide; [intros [= <-]; subst; by eapply HN|apply HN].
  - split; unfold connections_of in *; rewrite ?EC, ?EN, ?ES; eauto.
  - intros r j Hp%Hsub. destruct (HE _ _ Hp) as (x & Hx & Hr). rewrite HT'. case_decide; [|by exists x].
    exists c'. split; [done|]. subst. congruence.
  - intros r j x Hp%Hsub. rewrite HT'.
    assert (∀ p, placed m p → placed m' p) as Hpl.
    { intros p. unfold placed, connections_of, stale, socket_is. by rewrite EC, ES. }
    case_decide; [intros [= <-]; subst|intros Hx; by eapply Hpl, HT].
    apply Hpl, (placed_place _ _ _ Ep). by eapply HT.
Qed.

Lemma step_sound e m : sound m → sound (step e m).
Proof.
  intros HS. destruct (event_cases e) as [He|[He|[[rid He]|[i He]]]].
  - destruct e; try done; simpl.
    + by apply register_sound.
    + by apply register_runtime_sound.
    + by apply unregister_sound.
    + by apply (unregister_sound client_id None).
  - destruct (answer_step e m He) as [->|(i & rid & message & _ & -> & _)]; [done|].
    by apply answered_sound.
  - destruct (request_step e rid m He) as [->|(c & Hc & ->)]; [done|]. by apply added_sound.
  - destruct (thin_calls m !! i) as [c|] eqn:Hc.
    + destruct (own_step e i m c He Hc) as (c' & Hm & Ho).
      eapply own_sound; [exact Hc|by eapply own_move_same| |exact Ho|exact HS].
      eapply change_same_place, (own_move_change e m); [exact He|exact Hm].
    + assert (step e m = m) as ->; [|done].
      destruct e; simpl in He; try done; injection He as ->; simpl; by rewrite Hc.
Qed.

Definition run_of (es : list event) : manager := steps fresh_manager es.

Lemma run_of_snoc es e : run_of (es ++ [e]) = step e (run_of es).
Proof. unfold run_of, steps. by rewrite foldl_app. Qed.

Lemma run_sound es : sound (run_of es).
Proof.
  induction es as [|e es IH] using rev_ind.
  - split; [done| |done|done]. split; [done|..]; by intros cl; intros; apply not_elem_of_nil in H.
  - rewrite run_of_snoc. by apply step_sound.
Qed.

Lemma run_call es e i c' :
  thin_calls (run_of (es ++ [e])) !! i = Some c' →
  (thin_calls (run_of es) !! i = None ∧ ∃ rid, asks e rid ∧ new_call rid (run_of es) c')
  ∨ ∃ c, thin_calls (run_of es) !! i = Some c ∧ same_call c c'
      ∧ change e (run_of es) i (cl_request c) (cl_request c') ∧ moves e (run_of es) i c c'.
Proof. rewrite run_of_snoc. apply step_call, so_numbered, run_sound. Qed.
