(* ===== verification/ThinClientProofs.v ===== *)
(** * Requests to thin clients

    Whose answer a call returns, what it is told when it is interrupted, that it does not
    wait in vain, and that it ends. *)

From S2P Require Import Prelude PyStr PyVal ThinClient ThinClientSteps.

(** ** Whose answer a call returns *)
Lemma result_origin es i c message :
  thin_calls (run_of es) !! i = Some c → tr_future (cl_request c) = Result message →
  ∃ es1 e es2 c1, es = es1 ++ e :: es2 ∧ thin_calls (run_of es1) !! i = Some c1
    ∧ same_call c1 c ∧ same_place (cl_request c1) (cl_request c)
    ∧ answers e (run_of es1) i (cl_request c1) message.
Proof.
  revert c. induction es as [|e es IH] using rev_ind; intros c' Hc' Hf; [done|].
  destruct (run_call es e i c' Hc') as [(_ & rid & _ & Hn)|(c & Hc & Es & Hch & _)].
  { destruct Hn as (_ & _ & Hu & _). congruence. }
  assert (tr_future (cl_request c) = Result message →
    ∃ es1 e0 es2 c1, es ++ [e] = es1 ++ e0 :: es2 ∧ thin_calls (run_of es1) !! i = Some c1
      ∧ same_call c1 c' ∧ same_place (cl_request c1) (cl_request c')
      ∧ answers e0 (run_of es1) i (cl_request c1) message) as Hbefore.
  { intros Hr. destruct (IH c Hc Hr) as (es1 & e0 & es2 & c1 & -> & Hc1 & E1 & E2 & Ha).
    exists es1, e0, (es2 ++ [e]), c1. apply change_same_place in Hch.
    split_and!; [by rewrite <-app_assoc|done|unfold same_call in *; congruence
      |unfold same_place in *; congruence|done]. }
  pose proof (change_same_place _ _ _ _ _ Hch) as Hpl.
  destruct Hch as [|code msg Hu|E|msg Hu Ha|E Hu Hl]; simpl in Hf.
  - by apply Hbefore.
  - done.
  - by apply Hbefore.
  - injection Hf as ->. exists es, e, [], c. by split_and!.
  - done.
Qed.

(** What the call returns is what its request was answered with. *)
Lemma returned_result es i c message :
  thin_calls (run_of es) !! i = Some c → cl_phase c = Finished (Returned message) →
  tr_future (cl_request c) = Result message.
Proof.
  revert c. induction es as [|e es IH] using rev_ind; intros c' Hc' Hf; [done|].
  destruct (run_call es e i c' Hc') as [(_ & rid & _ & Hn)|(c & Hc & _ & Hch & Hm)].
  { destruct Hn as (_ & Hp & _). congruence. }
  assert (cl_phase c = Finished (Returned message) → tr_future (cl_request c') = Result message)
    as Hbefore.
  { intros Hp. specialize (IH c Hc Hp). destruct Hch; simpl; congruence. }
  destruct Hm as [He Hown|_ Hp]; [|by apply Hbefore; congruence].
  destruct Hown as [|j E Hp|j error E Hp|j E Hp Hd|j ph E Hp Hd|j failure error k o E Hp Ho|j f E Hor Hnf];
    simpl in *; try done; try by apply Hbefore.
  - injection Hf as Hf. by destruct error; simpl in Hf; destruct (is_legacy _).
  - injection Hf as Hf. unfold resume_outcome in Hf.
    destruct (tr_future (cl_request c)) eqn:E'; try done; [by injection Hf as ->|].
    by destruct (is_legacy _).
  - subst ph. unfold deadline_phase in Hd. destruct (is_legacy _); [done|].
    destruct Hd as [|(_ & k & ?)]; done.
  - injection Hf as ->. by destruct Ho.
Qed.

(** C21 Answers are exact: when a call returns a message, then at one earlier moment its
    request was waiting and that message arrived for it, either as a ["tool_result"]
    (which is matched by the request id alone), or over the very connection the request
    was sent on, while that connection was registered and not replaced, and naming its
    instance, the runtime and the server of the request, with a type that fits. *)
Theorem responses_are_exact es i c message :
  thin_calls (run_of es) !! i = Some c → cl_phase c = Finished (Returned message) →
  let p := cl_request c in
  ∃ es1 e es2, es = es1 ++ e :: es2 ∧ pending (run_of es1) !! cl_request_id c = Some i
    ∧ (e = ToolResult (cl_request_id c) message
       ∨ e = McpAnswer (tr_client_id p) (tr_connection p) message
         ∧ text_field message "request_id" = cl_request_id c
         ∧ text_field message "type" ∈ expected_types (tr_kind p)
         ∧ tr_connection p ∈ connections_of (tr_client_id p) (run_of es1)
         ∧ Some (text_field message "runtime_id") = tr_runtime_id p
         ∧ Some (text_field message "local_server_id") = tr_local_server_id p
         ∧ ∃ x, sockets (run_of es1) !! tr_connection p = Some x ∧ tc_stale x = false
             ∧ text_field message "connection_instance_id" = tc_instance_id x).
Proof.
  intros Hc Hp. cbv zeta. pose proof (returned_result es i c message Hc Hp) as Hr.
  destruct (result_origin es i c message Hc Hr) as (es1 & e & es2 & c1 & Ees & Hc1 & Es & Epl & Ha).
  pose proof (run_sound es1) as [_ _ HE HT]. injection Es as E1 _ _.
  assert (∀ rid, pending (run_of es1) !! rid = Some i → rid = cl_request_id c) as Hid.
  { intros rid Hrid. destruct (HE _ _ Hrid) as (c2 & Hc2 & <-). congruence. }
  exists es1, e, es2. split; [done|].
  destruct Ha as [(rid & -> & Hrid)|(cl & k & -> & Hrid & Ht & Hx)].
  - pose proof (Hid _ Hrid) as ->. split; [done|]. by left.
  - pose proof (Hid _ Hrid) as Er. rewrite Er in Hrid. split; [done|right].
    destruct (placed_place _ _ _ Epl (HT _ _ _ Hrid Hc1)) as [Hin _].
    unfold exact, socket_is in Hx. injection Epl as P1 P2 P3 P4 P5 P6.
    rewrite <-P1, <-P2, <-P5, <-P6 in Hx. rewrite !andb_true_iff, !bool_decide_eq_true in Hx.
    destruct Hx as [[[[Hcl Hk] Hs] Hrt] Hls]. subst cl k.
    destruct (sockets (run_of es1) !! tr_connection (cl_request c)) as [x|] eqn:Ex; [|done].
    apply andb_true_iff in Hs as [Hst%negb_true_iff Hi%bool_decide_eq_true].
    rewrite <-P3 in Ht. split_and!; eauto.
Qed.

(** ** What an interrupted call is told *)

(** Its request was failed while its message was being sent. *)
Definition overtaken (es : list event) (i : nat) : Prop :=
  ∃ es1 es2 c error, es = es1 ++ MessageSent i :: es2 ∧ thin_calls (run_of es1) !! i = Some c
    ∧ cl_phase c = Sending ∧ tr_future (cl_request c) = Failed error.

Definition honest (es : list event) (i : nat) (c : call) (error : ThinClientMcpError) : Prop :=
  let sent := tr_dispatched (cl_request c) in
  (te_unknown_outcome error = true → sent = true)
  ∧ (te_unknown_outcome error = false → sent = false ∨ overtaken es i)
  ∧ (te_retryable error = true → te_unknown_outcome error = false).

Definition told (es : list event) (i : nat) (c : call) : Prop :=
  (∀ error, tr_future (cl_request c) = Failed error → honest es i c error)
  ∧ match cl_phase c with
    | Sending => tr_dispatched (cl_request c) = false
    | Waiting => tr_dispatched (cl_request c) = true
    | Cancelling error _ | Finished (RaisedMcp error) => honest es i c error
    | _ => True
    end.

Lemma overtaken_snoc es e i : overtaken es i → overtaken (es ++ [e]) i.
Proof.
  intros (es1 & es2 & c & x & -> & ? & ? & ?). exists es1, (es2 ++ [e]), c, x.
  split_and!; [by rewrite <-app_assoc|done..].
Qed.

Lemma honest_snoc es e i c c' error :
  tr_dispatched (cl_request c') = tr_dispatched (cl_request c) →
  honest es i c error → honest (es ++ [e]) i c' error.
Proof.
  intros E (H1 & H2 & H3). unfold honest. rewrite E. split_and!; [done| |done].
  intros Hu. destruct (H2 Hu); [by left|right; by apply overtaken_snoc].
Qed.

Definition effectful_call (c : call) : Prop :=
  tr_kind (cl_request c) = "mcp" ∧ effectful (tr_action_class (cl_request c)) = true.

Lemma effectful_back c c' : same_place (cl_request c) (cl_request c') →
  effectful_call c' → effectful_call c.
Proof. intros E [Hk He]. injection E. intros. unfold effectful_call. split; congruence. Qed.

(** Interrupting a request tells its call the truth. *)
Lemma interruption_honest es i c code message :
  effectful (tr_action_class (cl_request c)) = true →
  honest es i c (interruption code message (cl_request c)).
Proof.
  intros He. unfold honest, interruption, unknown_if_interrupted. simpl. rewrite He.
  destruct (tr_dispatched (cl_request c)); simpl; split_and!; auto; done.
Qed.

Lemma effectful_not_legacy c : effectful_call c → is_legacy (cl_request c) = false.
Proof. intros [Hk _]. unfold is_legacy. by rewrite Hk. Qed.

Lemma told_own es e i c c' :
  call_of e = Some i → thin_calls (run_of es) !! i = Some c → effectful_call c →
  own_move e c c' → told es i c → told (es ++ [e]) i c'.
Proof.
  intros Hi Hc He Hown [Hf Hph]. pose proof (effectful_not_legacy c He) as Hl.
  destruct He as [Hk He].
  assert (cancelled_future (cl_request c) = cl_request c) as Hcf
    by (unfold cancelled_future; by rewrite Hl).
  assert (∀ c', cl_request c' = cl_request c →
    ∀ error, tr_future (cl_request c') = Failed error → honest (es ++ [e]) i c' error) as Hf'.
  { intros c1 E1 error. rewrite E1. intros. eapply (honest_snoc _ _ _ c); [by rewrite E1|]. by apply Hf. }
  destruct Hown as [|j E Hp|j error E Hp|j E Hp Hd|j ph E Hp Hd|j failure error k o E Hp Ho|j f E Hor Hnf];
    try (subst e; simpl in Hi; injection Hi as ->).
  - split; [by apply Hf'|]. destruct (cl_phase c) as [| |x k|[]]; try done;
      by eapply (honest_snoc _ _ _ c).
  - rewrite Hp in Hph. split; [|done]. simpl. intros y Hy. destruct (Hf y Hy) as (H1 & _ & H3).
    split_and!; [done| |done]. intros _. right. by exists es, [], c, y.
  - rewrite Hp in Hph. split; [by apply Hf'|]. simpl.
    unfold send_outcome. rewrite Hl. destruct error as [message|]; [|done].
    eapply (honest_snoc _ _ _ c); [done|]. unfold lost_error. rewrite (bool_decide_eq_true_2 _ Hk).
    by apply interruption_honest.
  - split; [by apply Hf'|]. simpl. unfold resume_outcome. rewrite Hl.
    destruct (tr_future (cl_request c)) as [|m|y|] eqn:Ey; try done.
    eapply (honest_snoc _ _ _ c); [done|]. by apply Hf.
  - rewrite Hp in Hph. split; [apply Hf'; simpl; by rewrite Hcf|]. simpl.
    assert (honest (es ++ [Deadline i]) i (c <| cl_request ::= cancelled_future |> <| cl_phase := ph |>)
      (timeout_error c)) as Ht.
    { eapply (honest_snoc _ _ _ c); [simpl; by rewrite Hcf|]. unfold honest, timeout_error.
      rewrite (bool_decide_eq_true_2 _ Hk). unfold unknown_if_interrupted. simpl. by rewrite Hph, He. }
    unfold deadline_phase in Hd. rewrite Hl in Hd. by destruct Hd as [->|(_ & k & ->)].
  - rewrite Hp in Hph. split; [by apply Hf'|]. simpl. destruct Ho as [->| ->]; [|done].
    by eapply (honest_snoc _ _ _ c).
  - split; [|done]. apply Hf'. simpl. destruct Hor as [->|[_ ->]]; done.
Qed.

Lemma run_told es i c :
  thin_calls (run_of es) !! i = Some c → effectful_call c → told es i c.
Proof.
  revert c. induction es as [|e es IH] using rev_ind; intros c' Hc' He; [done|].
  destruct (run_call es e i c' Hc') as [(_ & rid & _ & Hn)|(c & Hc & _ & Hch & Hm)].
  { destruct Hn as (_ & Hp & Hu & Hd & _). split; [congruence|by rewrite Hp]. }
  pose proof (effectful_back c c' (change_same_place _ _ _ _ _ Hch) He) as Hec.
  specialize (IH c Hc Hec). destruct Hm as [Hi Hown|Hi Hp]; [by eapply told_own|].
  destruct IH as [Hf Hph]. rewrite <-Hp in Hph.
  assert (tr_dispatched (cl_request c') = tr_dispatched (cl_request c)) as Hd.
  { destruct Hch; try done. by subst. }
  split.
  - intros y Hy. eapply (honest_snoc _ _ _ c); [exact Hd|].
    destruct Hch as [|code message Hu|E|message Hu Ha|E Hu Hl]; simpl in *; try done; try by apply Hf.
    injection Hy as <-. apply interruption_honest, Hec.
  - destruct (cl_phase c') as [| |x k|[]]; try done; try congruence; by eapply (honest_snoc _ _ _ c).
Qed.


(** ** No call waits in vain *)
Definition keeps_open (m m' : manager) : Prop := ∀ rid i c',
  pending m !! rid = Some i → thin_calls m' !! i = Some c' →
  tr_future (cl_request c') = Unresolved → pending m' !! rid = Some i.

Lemma keeps_open_trans m m' m'' :
  keeps_open m m' → quiet m' m'' → keeps_open m' m'' → keeps_open m m''.
Proof.
  intros K [_ _ HC _ _] K' rid i c'' Hp Hc'' Hu. destruct (HC _ _ Hc'') as (c' & Hc' & _ & HF).
  apply (K' rid i c''); [|done|done]. apply (K rid i c'); [done|done|].
  destruct HF as [E|(Hu' & _)]; [by rewrite <-E|done].
Qed.

Lemma keeps_open_same m m' : pending m' = pending m → keeps_open m m'.
Proof. by intros E rid i c' Hp _ _; rewrite E. Qed.

Lemma fail_entry_keeps client_id k code message entry m :
  (∀ j, pending m !! entry.1 = Some j → j = entry.2) →
  keeps_open m (fail_entry client_id k code message entry m).
Proof.
  intros He rid i c' Hp. unfold fail_entry. destruct (request_of entry.2 m) as [p|]; [|done].
  destruct (waits_on client_id k p); [|done]. simpl. intros Hc' Hu.
  rewrite lookup_delete_ne; [done|]. intros Er. rewrite <-Er in Hp. apply He in Hp as ->.
  rewrite lookup_alter_eq in Hc'. destruct (thin_calls m !! entry.2) as [c|]; [|done].
  injection Hc' as <-. simpl in Hu. unfold interrupted in Hu.
  destruct (tr_future (cl_request c)) eqn:Ef; simpl in Hu; congruence.
Qed.

Lemma fail_pending_keeps client_id k code message m :
  keeps_open m (_fail_pending_for_connection client_id k code message m).
Proof.
  unfold _fail_pending_for_connection.
  assert (∀ entry, entry ∈ map_to_list (pending m) → pending m !! entry.1 = Some entry.2) as Hl.
  { intros [r j] Hin. by apply elem_of_map_to_list in Hin. }
  induction (map_to_list (pending m)) as [|entry l IH]; [by apply keeps_open_same|]. simpl.
  set (m1 := foldr _ _ _) in *.
  assert (quiet m m1) as [_ _ _ _ HP].
  { unfold m1. clear. induction l as [|x l IH]; [apply quiet_refl|].
    eapply quiet_trans; [exact IH|apply fail_entry_quiet]. }
  eapply keeps_open_trans; [apply IH|apply fail_entry_quiet|apply fail_entry_keeps].
  - intros x Hx. apply Hl. by right.
  - intros j Hj%HP. assert (pending m !! entry.1 = Some entry.2) by (apply Hl; left). congruence.
Qed.

Lemma retire_keeps client_id runtime_id k l m :
  keeps_open m (retire client_id runtime_id k l m).2.
Proof.
  revert m. induction l as [|j l IH]; intros m; simpl; [by apply keeps_open_same|].
  destruct ((j ==? k) || _); [apply IH|].
  set (m1 := m <| sockets ::= alter _ j |>). set (m2 := _fail_pending_for_connection _ _ _ _ m1).
  pose proof (IH m2) as K. destruct (retire_spec client_id runtime_id k l m2) as (Q & _).
  destruct (retire client_id runtime_id k l m2) as [l' m']. simpl in *.
  eapply keeps_open_trans; [|exact Q|exact K].
  eapply keeps_open_trans; [by apply (keeps_open_same m m1)|apply fail_pending_quiet|].
  apply fail_pending_keeps.
Qed.

Lemma lost_connections_keeps client_id l m : keeps_open m (lost_connections client_id l m).
Proof.
  unfold lost_connections. revert m. induction l as [|j l IH]; intros m; simpl;
    [by apply keeps_open_same|].
  eapply keeps_open_trans; [apply fail_pending_keeps|apply lost_connections_spec|apply IH].
Qed.

Lemma unregister_keeps client_id k m : keeps_open m (unregister client_id k m).2.
Proof.
  unfold unregister. destruct k as [k|].
  - set (m1 := if nonempty _ then _ else _). set (l := filter _ _).
    eapply (keeps_open_trans m m1); [apply keeps_open_same; unfold m1; by repeat case_match
      |apply lost_connections_spec|apply lost_connections_keeps].
  - simpl. set (m1 := set_with connections _ m).
    eapply (keeps_open_trans m m1); [by apply keeps_open_same
      |apply lost_connections_spec|apply lost_connections_keeps].
Qed.

Lemma connection_step_keeps e m : about_connections e = true → keeps_open m (step e m).
Proof.
  destruct e; try done; intros _; simpl; [by apply keeps_open_same| |apply unregister_keeps..].
  unfold register_runtime. repeat (case_match; [by apply keeps_open_same|]).
  pose proof (retire_keeps client_id runtime_id connection (connections_of client_id m) m).
  by destruct (retire _ _ _ _ _).
Qed.

(** The request ids of the requests of a run. *)
Definition asked (e : event) : option string :=
  match e with
  | RequestTool _ _ _ rid | RequestCall _ rid _ | RequestResource _ rid _
  | RequestPrompt _ rid _ _ _ | RequestCompletion _ rid _ _ _ _ _ => Some rid
  | _ => None
  end.

Definition tabled (m : manager) (i : nat) (c : call) : Prop :=
  open_call c = true → tr_future (cl_request c) = Unresolved →
  pending m !! cl_request_id c = Some i.

Definition told_apart (es : list event) (m : manager) : Prop :=
  (∀ i c, thin_calls m !! i = Some c → cl_request_id c ∈ omap asked es)
  ∧ (∀ i j c c', thin_calls m !! i = Some c → thin_calls m !! j = Some c' →
       cl_request_id c = cl_request_id c' → i = j).

Lemma asks_asked e rid : asks e rid → asked e = Some rid.
Proof. by destruct 1. Qed.

Lemma run_told_apart es : NoDup (omap asked es) → told_apart es (run_of es).
Proof.
  induction es as [|e es IH] using rev_ind; intros HN; [by split; intros ??|].
  rewrite omap_app in HN. apply NoDup_app in HN as (HN & Hfresh & _).
  destruct (IH HN) as [HA HI]. unfold told_apart. rewrite omap_app.
  assert (∀ i c', thin_calls (run_of (es ++ [e])) !! i = Some c' →
    (thin_calls (run_of es) !! i = None ∧ asked e = Some (cl_request_id c') ∧ i = numbers (run_of es))
    ∨ ∃ c, thin_calls (run_of es) !! i = Some c ∧ cl_request_id c' = cl_request_id c) as Hcases.
  { intros i c' Hc'. destruct (run_call es e i c' Hc') as [(Hno & rid & He & Hn)|(c & Hc & Es & _)].
    - left. pose proof (proj1 Hn) as Hrid. split_and!; [done|by rewrite Hrid; apply asks_asked|].
      rewrite run_of_snoc in Hc'. destruct (request_step e rid (run_of es) He) as [E|(c0 & _ & E)];
        rewrite E in Hc'; [congruence|]. unfold added in Hc'. simpl in Hc'.
      apply lookup_insert_Some in Hc' as [[<- _]|[_ ?]]; [done|congruence].
    - right. exists c. split; [done|]. by injection Es. }
  split.
  - intros i c' Hc'. apply elem_of_app. destruct (Hcases i c' Hc') as [(_ & He & _)|(c & Hc & ->)].
    + right. simpl. rewrite He. by left.
    + left. by eapply HA.
  - intros i j c c' Hc Hc' E.
    destruct (Hcases i c Hc) as [(_ & He & Ei)|(ci & Hci & Ei)],
      (Hcases j c' Hc') as [(_ & He' & Ej)|(cj & Hcj & Ej)]; [congruence| | |].
    + exfalso. eapply (Hfresh (cl_request_id c)); [|simpl; rewrite He; by left].
      rewrite E, Ej. by eapply HA.
    + exfalso. eapply (Hfresh (cl_request_id c')); [|simpl; rewrite He'; by left].
      rewrite <-E, Ei. by eapply HA.
    + eapply HI; [exact Hci|exact Hcj|congruence].
Qed.

Lemma own_move_open e c c' :
  own_move e c c' → open_call c' = true →
  open_call c = true ∧ tr_future (cl_request c') = tr_future (cl_request c).
Proof.
  destruct 1 as [|j E Hp|j error E Hp|j E Hp Hd|j ph E Hp Hd|j failure error k o E Hp Ho|j f E Hor Hnf];
    unfold open_call; simpl; try done.
  - intros _. by rewrite Hp.
  - unfold deadline_phase in Hd. destruct (is_legacy _); [by subst|].
    by destruct Hd as [->|(_ & k & ->)].
Qed.

Lemma quiet_tabled m m' :
  quiet m m' → keeps_open m m' → (∀ i c, thin_calls m !! i = Some c → tabled m i c) →
  ∀ i c', thin_calls m' !! i = Some c' → tabled m' i c'.
Proof.
  intros [_ _ HC _ _] HK HT i c' Hc' Ho Hu. destruct (HC _ _ Hc') as (c & Hc & E & HF).
  injection E as E1 _ _ E2. eapply HK; [|exact Hc'|exact Hu]. rewrite E1. apply HT; [done|..].
  - unfold open_call in *. by rewrite <-E2.
  - destruct HF as [EF|[? _]]; [by rewrite <-EF|done].
Qed.

Lemma answered_tabled i rid message m :
  entries m → pending m !! rid = Some i → (∀ i c, thin_calls m !! i = Some c → tabled m i c) →
  ∀ j c', thin_calls (answered i rid message m) !! j = Some c' →
    tabled (answered i rid message m) j c'.
Proof.
  intros HE Hp HT j c' Hc' Ho Hu. simpl in *.
  apply lookup_alter_Some in Hc' as [(<- & c & Hc & ->)|[Hne Hc]].
  - simpl in Hu. unfold resolved in Hu. by destruct (tr_future (cl_request c)) eqn:Ef;
      simpl in Hu; rewrite ?Ef in Hu.
  - specialize (HT j c' Hc Ho Hu). rewrite lookup_delete_ne; [done|]. intros ->. congruence.
Qed.

Lemma run_tabled es i c :
  NoDup (omap asked es) → thin_calls (run_of es) !! i = Some c → tabled (run_of es) i c.
Proof.
  intros HN. revert i c. induction es as [|e es IH] using rev_ind; intros i c' Hc'; [done|].
  pose proof (run_told_apart _ HN) as [_ HI'].
  rewrite omap_app in HN. apply NoDup_app in HN as (HN & Hfresh & _). specialize (IH HN).
  pose proof (run_told_apart es HN) as [HA HI]. pose proof (run_sound es) as [Hnum _ HE _].
  rewrite run_of_snoc in *. set (m := run_of es) in *.
  destruct (event_cases e) as [He|[He|[[rid He]|[j He]]]].
  - by eapply quiet_tabled; [apply connection_step_quiet|apply connection_step_keeps|..].
  - destruct (answer_step e m He) as [E|(j & rid & message & Hp & E & _)]; rewrite E in *; [by apply IH|].
    by eapply answered_tabled.
  - destruct (request_step e rid m He) as [E|(c & Hc & E)]; rewrite E in *; [by apply IH|].
    intros Ho Hu. unfold added in *. simpl in *.
    apply lookup_insert_Some in Hc' as [[<- <-]|[Hne Hc']].
    + destruct Hc as (-> & _). by rewrite lookup_insert_eq.
    + rewrite lookup_insert_ne; [by apply IH|]. intros Er.
      apply (Hfresh (cl_request_id c')); [by eapply HA|]. simpl.
      rewrite (asks_asked _ _ He), <-Er. by left.
  - destruct (thin_calls m !! j) as [c|] eqn:Hc.
    2: { assert (step e m = m) as E; [|rewrite E in *; by apply IH].
         destruct e; simpl in He; try done; injection He as ->; simpl; by rewrite Hc. }
    destruct (own_step e j m c He Hc) as (c1 & Hm & HT & HP & _). rewrite HT in Hc'.
    intros Ho Hu. destruct (decide (j = i)) as [->|Hne].
    + injection Hc' as ->. destruct (own_move_open _ _ _ Hm Ho) as [Ho' Ef].
      pose proof (own_move_same _ _ _ Hm) as Es. injection Es as E1 _ _.
      destruct HP as [->|[_ Hclosed]]; [|congruence]. rewrite E1. apply IH; congruence.
    + specialize (IH i c' Hc' Ho Hu). destruct HP as [->|[-> _]]; [done|].
      rewrite lookup_delete_ne; [done|]. intros Er. by apply Hne, (HI j i c c').
Qed.

(** C22 No call waits in vain: as long as no request id is used twice, a call that is being
    sent or waits for its answer and was not answered or failed yet is in the table under
    its request id, so that an answer finds it, and the connection it waits on is
    registered for its client and, unless it is a plain tool call, not replaced by a newer
    one: losing the connection fails the call. *)
Theorem no_call_waits_in_vain es i c :
  NoDup (omap asked es) → thin_calls (run_of es) !! i = Some c →
  cl_phase c = Sending ∨ cl_phase c = Waiting → tr_future (cl_request c) = Unresolved →
  let p := cl_request c in
  pending (run_of es) !! cl_request_id c = Some i
  ∧ tr_connection p ∈ connections_of (tr_client_id p) (run_of es)
  ∧ (tr_kind p ≠ "legacy" → stale (run_of es) (tr_connection p) = false).
Proof.
  intros HN Hc Hph Hu.
  assert (open_call c = true) as Ho by (unfold open_call; by destruct Hph as [-> | ->]).
  pose proof (run_tabled es i c HN Hc Ho Hu) as Hp. split; [done|].
  destruct (so_table _ (run_sound es) _ _ _ Hp Hc) as [Hin Hs]. split; [done|].
  intros Hk. apply Hs. by apply bool_decide_eq_false.
Qed.

(** ** Calls end *)
Definition rank (c : call) : nat :=
  match cl_phase c with Sending => 3 | Waiting => 2 | Cancelling _ _ => 1 | Finished _ => 0 end.

Lemma step_keeps_call e m i : is_Some (thin_calls m !! i) → is_Some (thin_calls (step e m) !! i).
Proof.
  intros [c Hc]. destruct (event_cases e) as [He|[He|[[rid He]|[j He]]]].
  - apply (qu_kept _ _ (connection_step_quiet e m He)). by exists c.
  - destruct (answer_step e m He) as [->|(j & rid & message & _ & -> & _)]; [by exists c|].
    simpl. apply lookup_alter_is_Some. by exists c.
  - destruct (request_step e rid m He) as [->|(c' & _ & ->)]; [by exists c|].
    unfold added. simpl. destruct (decide (numbers m = i)) as [<-|];
      [by rewrite lookup_insert_eq|rewrite lookup_insert_ne by done; by exists c].
  - destruct (thin_calls m !! j) as [cj|] eqn:Hj.
    + destruct (own_step e j m cj He Hj) as (c' & _ & HT & _). rewrite HT.
      case_decide; [done|by exists c].
    + assert (step e m = m) as ->; [|by exists c].
      destruct e; simpl in He; try done; injection He as ->; simpl; by rewrite Hj.
Qed.

Lemma own_move_rank e c c' : own_move e c c' →
  (rank c' ≤ rank c)%nat ∧ ∀ how, cl_phase c = Finished how → cl_phase c' = Finished how.
Proof.
  destruct 1 as [|j E Hp|j error E Hp|j E Hp Hd|j ph E Hp Hd|j failure error k o E Hp Ho|j f E Hor Hnf];
    unfold rank; simpl; try (rewrite Hp); (split; [try lia|]); try done.
  - unfold deadline_phase in Hd. destruct (is_legacy _); [subst; lia|].
    destruct Hd as [->|(_ & k & ->)]; lia.
  - intros how Hh. by destruct (Hnf how).
Qed.

(** A call is never further from its end than before, and it ends once. *)
Lemma steps_rank es es' i c :
  thin_calls (run_of es) !! i = Some c →
  ∃ c', thin_calls (run_of (es ++ es')) !! i = Some c' ∧ (rank c' ≤ rank c)%nat
    ∧ ∀ how, cl_phase c = Finished how → cl_phase c' = Finished how.
Proof.
  revert es c. induction es' as [|e es' IH]; intros es c Hc.
  { rewrite app_nil_r. by exists c. }
  destruct (step_keeps_call e (run_of es) i) as [c1 Hc1]; [by exists c|].
  rewrite <-run_of_snoc in Hc1.
  destruct (run_call es e i c1 Hc1) as [(Hno & _)|(c0 & Hc0 & _ & _ & Hm)]; [congruence|].
  assert (c0 = c) as -> by congruence.
  assert ((rank c1 ≤ rank c)%nat ∧ ∀ how, cl_phase c = Finished how → cl_phase c1 = Finished how)
    as [Hr Hf].
  { destruct Hm as [_ Hown|_ Hp]; [by eapply own_move_rank|]. unfold rank. by rewrite Hp. }
  destruct (IH (es ++ [e]) c1 Hc1) as (c2 & Hc2 & Hr2 & Hf2). rewrite <-app_assoc in Hc2.
  exists c2. split_and!; [done|lia|auto].
Qed.

(** What brings a call further. *)
Definition acts (e : event) (c : call) : bool :=
  match e, cl_phase c with
  | MessageSent _, Sending | SendFailed _ _, Sending | Deadline _, Waiting
  | CancelSent _ _, Cancelling _ _ => true
  | _, _ => false
  end.

Lemma acts_rank e i es c :
  call_of e = Some i → thin_calls (run_of es) !! i = Some c → acts e c = true →
  ∃ c', thin_calls (run_of (es ++ [e])) !! i = Some c' ∧ (rank c' < rank c)%nat.
Proof.
  rewrite run_of_snoc. set (m := run_of es). intros He Hc Ha.
  assert (∀ ph m', (rank (c <| cl_phase := ph |>) < rank c)%nat →
    is_Some (thin_calls m' !! i) →
    ∃ c', thin_calls (at_phase ph i m') !! i = Some c' ∧ (rank c' < rank c)%nat) as Hat.
  { intros ph m' Hr [x Hx]. exists (x <| cl_phase := ph |>). split; [|exact Hr].
    unfold at_phase. simpl. by rewrite lookup_alter_eq, Hx. }
  destruct e; try done; injection He as ->; simpl; rewrite Hc; simpl; unfold acts in Ha;
    destruct (cl_phase c) as [| |error' k|] eqn:Hp; try done; clear Ha.
  all: assert (∀ f m', thin_calls m' = thin_calls m →
    is_Some (thin_calls (with_request f i m') !! i)) as Hw
    by (intros f m' Em; simpl; by rewrite lookup_alter_is_Some, Em, Hc).
  all: assert (∀ m', thin_calls m' = thin_calls m → is_Some (thin_calls m' !! i)) as Hs
    by (intros m' ->; by rewrite Hc).
  - apply Hat; [unfold rank; rewrite Hp; simpl; lia|by apply Hw].
  - unfold send_failed. destruct error as [message|]; [|destruct (is_legacy _)].
    all: apply Hat; [unfold rank; rewrite Hp; simpl; lia|by apply Hs].
  - unfold deadline_passed. destruct (is_legacy _); [|destruct (_ ==? _); [destruct (cancel_connection _ _)|]].
    all: apply Hat; [unfold rank; rewrite Hp; simpl; lia|by apply Hw].
  - unfold cancel_sent. destruct failure as [[message|]|]; [| |destruct (sockets m !! k)].
    all: apply Hat; [unfold rank; rewrite Hp; simpl; lia|by apply Hs].
Qed.

Lemma rank_end c : rank c = 0%nat → ∃ how, cl_phase c = Finished how.
Proof. unfold rank. destruct (cl_phase c); try done. eauto. Qed.

(** A call of a certain rank is brought further when its event comes. *)
Lemma served es i c e es' n :
  thin_calls (run_of es) !! i = Some c → call_of e = Some i → (rank c ≤ S n)%nat →
  (∀ c', (rank c' = S n)%nat → acts e c' = true) →
  ∃ c', thin_calls (run_of (es ++ e :: es')) !! i = Some c' ∧ (rank c' ≤ n)%nat.
Proof.
  intros Hc He Hn Ha. destruct (steps_rank es [e] i c Hc) as (c1 & Hc1 & Hr1 & _).
  assert (rank c1 ≤ n)%nat as Hr.
  { destruct (decide (rank c = S n)) as [Hr|]; [|lia].
    destruct (acts_rank e i es c He Hc (Ha c Hr)) as (c2 & Hc2 & ?).
    assert (c2 = c1) as -> by congruence. lia. }
  destruct (steps_rank (es ++ [e]) es' i c1 Hc1) as (c2 & Hc2 & ? & _).
  rewrite <-app_assoc in Hc2. exists c2. split; [done|lia].
Qed.

(** C23 Every call ends: once the send of its message has returned or failed, its deadline
    has passed and the send of the cancel message has returned or failed, the call has
    ended, whatever else happens before, between and after (answers, lost and new
    connections, other calls), and it keeps the outcome it ended with. *)
Theorem calls_end es es1 es2 es3 i c e failure :
  thin_calls (run_of es) !! i = Some c →
  e = MessageSent i ∨ (∃ error, e = SendFailed i error) →
  ∃ how, ∀ es4, ∃ c',
    thin_calls (run_of (es ++ e :: es1 ++ Deadline i :: es2 ++ CancelSent i failure :: es3 ++ es4))
      !! i = Some c' ∧ cl_phase c' = Finished how.
Proof.
  intros Hc He.
  assert (rank c ≤ 3)%nat as Hr by (unfold rank; destruct (cl_phase c); lia).
  destruct (served es i c e es1 2 Hc) as (c1 & Hc1 & Hr1); [by destruct He as [->|[? ->]]|done| |].
  { intros c'. unfold rank, acts. by destruct He as [->|[? ->]]; destruct (cl_phase c'). }
  destruct (served _ i c1 (Deadline i) es2 1 Hc1) as (c2 & Hc2 & Hr2); [done|done| |].
  { intros c'. unfold rank, acts. by destruct (cl_phase c'). }
  destruct (served _ i c2 (CancelSent i failure) es3 0 Hc2) as (c3 & Hc3 & Hr3); [done|done| |].
  { intros c'. unfold rank, acts. by destruct (cl_phase c'). }
  destruct (rank_end c3) as [how Hhow]; [lia|]. exists how. intros es4.
  destruct (steps_rank _ es4 i c3 Hc3) as (c4 & Hc4 & _ & Hf).
  exists c4. split; [|by apply Hf].
  replace (es ++ e :: _) with
    ((((es ++ e :: es1) ++ Deadline i :: es2) ++ CancelSent i failure :: es3) ++ es4);
    [done|by simplify_list_eq].
Qed.

(** * Runs of the thin-client connections

    A call of a local server that is answered, one that is answered by a plain
    ["tool_result"], and one whose connection is replaced while its message is being
    sent; with the witnesses of the theorems about thin clients. *)

Definition laptop : target := mkTarget "laptop" "runtime" "files" "instance-0".

(** Connection 0 registers the runtime, and call 1 asks its server to write. *)
Definition runtime_up (k : nat) : event :=
  RegisterRuntime "laptop" k "runtime" "1.0" ["mcp_runtime_v1"; "mcp_call"] ["files"].
Definition write_file : mcp_call :=
  mkMcpCall "server" "revision" "write_file" "hash" 1 [] "write" None.
Definition asked_to_write : list event := [
  Register "laptop" "instance-0"; runtime_up 0;
  RequestCall laptop "request-1" write_file].

Definition file_written : pydict := [
  ("type", PStr "mcp_call_result"); ("request_id", PStr "request-1");
  ("connection_instance_id", PStr "instance-0"); ("runtime_id", PStr "runtime");
  ("local_server_id", PStr "files")].
Definition answered_run : list event :=
  asked_to_write ++ [MessageSent 1; McpAnswer "laptop" 0 file_written; Resume 1].

(** The same call, whose deadline passes. *)
Definition late_run : list event :=
  asked_to_write ++ [MessageSent 1; Deadline 1; CancelSent 1 None].

Lemma call_asked : ∃ c, thin_calls (run_of asked_to_write) !! 1%nat = Some c
  ∧ cl_phase c = Sending ∧ tr_future (cl_request c) = Unresolved.
Proof. eexists. split; [vm_compute; reflexivity|]. by split. Qed.

Lemma call_answered : ∃ c, thin_calls (run_of answered_run) !! 1%nat = Some c
  ∧ cl_phase c = Finished (Returned file_written).
Proof. eexists. split; vm_compute; reflexivity. Qed.

Lemma call_late : ∃ c error, thin_calls (run_of late_run) !! 1%nat = Some c
  ∧ cl_phase c = Finished (RaisedMcp error) ∧ tr_kind (cl_request c) = "mcp"
  ∧ effectful (tr_action_class (cl_request c)) = true ∧ te_unknown_outcome error = true.
Proof. do 2 eexists. split; [vm_compute; reflexivity|]. by vm_compute. Qed.

(** A plain ["tool_result"], from whatever client, answers a call of a local server: only
    the request id is compared. *)
Lemma tool_result_answers_any_call :
  let es := asked_to_write ++ [MessageSent 1; ToolResult "request-1" []; Resume 1] in
  ∃ c, thin_calls (run_of es) !! 1%nat = Some c ∧ tr_kind (cl_request c) = "mcp"
    ∧ cl_phase c = Finished (Returned []).
Proof. eexists. split; [vm_compute; reflexivity|]. by vm_compute. Qed.

(** A newer connection replaces the runtime while the message is being sent: the message is
    sent all the same, and the caller is told that the write may be tried again. *)
Lemma overtaken_write_is_offered_again :
  let es := asked_to_write ++ [Register "laptop" "instance-2"; runtime_up 2;
                               MessageSent 1; Resume 1] in
  ∃ c error, thin_calls (run_of es) !! 1%nat = Some c
    ∧ sent (run_of es) = [(0%nat, cl_payload c)] ∧ tr_dispatched (cl_request c) = true
    ∧ tr_action_class (cl_request c) = "write" ∧ cl_phase c = Finished (RaisedMcp error)
    ∧ te_retryable error = true ∧ te_unknown_outcome error = false.
Proof. do 2 eexists. split; [vm_compute; reflexivity|]. by vm_compute. Qed.

(** ** Witnesses *)
Lemma responses_are_exact_witness : ∃ es1 e es2,
  answered_run = es1 ++ e :: es2 ∧ pending (run_of es1) !! "request-1" = Some 1%nat.
Proof.
  destruct call_answered as (c & Hc & Hp).
  destruct (responses_are_exact answered_run 1 c file_written Hc Hp)
    as (es1 & e & es2 & E & Hpend & _).
  exists es1, e, es2. split; [exact E|]. assert (cl_request_id c = "request-1") as Er.
  { vm_compute in Hc. injection Hc as <-. reflexivity. }
  rewrite Er in Hpend. exact Hpend.
Defined.


Lemma ids_once : NoDup (omap asked asked_to_write).
Proof. vm_compute. repeat constructor. by intros ?%not_elem_of_nil. Qed.

Lemma no_call_waits_in_vain_witness : ∃ c,
  thin_calls (run_of asked_to_write) !! 1%nat = Some c
  ∧ pending (run_of asked_to_write) !! cl_request_id c = Some 1%nat.
Proof.
  destruct call_asked as (c & Hc & Hp & Hu). exists c. split; [exact Hc|].
  exact (proj1 (no_call_waits_in_vain asked_to_write 1 c ids_once Hc (or_introl Hp) Hu)).
Defined.

Lemma calls_end_witness : ∃ how c,
  thin_calls (run_of late_run) !! 1%nat = Some c ∧ cl_phase c = Finished how.
Proof.
  destruct call_asked as (c & Hc & _ & _).
  destruct (calls_end asked_to_write [] [] [] 1 c (MessageSent 1) None Hc (or_introl eq_refl))
    as (how & Hend).
  destruct (Hend []) as (c' & Hc' & Hh). exists how, c'. split; [exact Hc'|exact Hh].
Defined.
